(* ===== verification/_CoqProject ===== *)
-Q . S2P
Prelude.v
PyStr.v
IpAddress.v
Policy.v
Regex.v
Json.v
Redaction.v
JobConfig.v
Digest.v
JsonText.v
Base64.v
Time.v
Models.v
Access.v
Enforcement.v
Assets.v
LocalAuth.v
Assessments.v
Url.v
TestCases.v
Execution.v
Jobs.v
Engagements.v
Schemas.v
Scope.v
Coverage.v
CoverageSafety.v
Surface.v
SurfaceSafety.v
Relationships.v
CaseAuthoring.v
RelationshipsSafety.v
AuthoringSafety.v
Notifications.v
Inventory.v
InventorySafety.v
Parsers.v
Imports.v
ImportsSafety.v
Findings.v
FindingsSafety.v
Serializers.v
Deliverables.v
DeliverablesSafety.v
Records.v
RecordsSafety.v
Runner.v
RunnerSafety.v
Radar.v
Authorizations.v
Members.v
Upload.v
JobSafety.v
Wire.v
Authority.v
Issuance.v
Results.v
Permission.v
IssuanceSafety.v
AuthoritySafety.v
Administration.v
ManagedSafety.v
ManagedExample.v
AdminExample.v
Transport.v
