(* ===== verification/Prelude.v ===== *)
(** * VardrMap: a verification library

    VardrMap keeps the engagements of a security tester: what is in scope, who
    authorized what, the jobs a runner executes and what came out of them.  A
    FastAPI backend (src/backend) serves a web console, an MCP server and a
    command-line runner from one relational database.  This library models the
    backend's decision logic and its state machines as executable functions on
    a record of tables, and proves the properties the product rests on.

    ** How the program maps to the files

    What the code uses of Python: [PyStr] ([str] and [int]), [IpAddress],
    [Url] ([urlsplit]), [Regex] ([re]), [Json] (decoded values), [JsonText]
    ([json.loads]), [Digest] ([json.dumps], [encode], [sha256]), [Base64],
    [Time] ([isoformat]).

    What every handler uses:
    - [Models] (models.py): one record per table; [db] is the database.
    - [Access] (deps.py, managed_authority.py): the caller, roles, grants, the
      404/403 guards, API keys, the engagement row lock.
    - [LocalAuth] (local_auth.py, routers/local_auth.py, local_accounts.py,
      auth_methods.py): password sign-in with its lockout, browser sessions,
      CSRF and origin checks, bootstrap and reset; and [get_current_user].
    - [Schemas] (security.py, schemas.py): the sanitisers, the request models a
      proposal validates with, [parse_iso_datetime].
    - [Redaction] (redaction.py, [finding_history.clean_tree]): what is removed
      before anything is stored.
    - [Serializers] (serializers.py, the reading half of
      routers/engagements.py): rows as the API shows them, the engagement page.
    - [Transport] (main.py, managed_observation_http.py): middleware, the
      routers that ask for a full-access key, the observation adapter.

    Scope and permission:
    - [Policy] (policy.py): may this target be tested?  Pure.
    - [Enforcement] (enforcement.py): [Policy] run on the tables.
    - [Scope] (routers/scope.py): scope items and the import of a program's
      scope; [Authorizations] (routers/authorizations.py, routers/proposals.py,
      creation and update in routers/engagements.py): the record of permission
      and an agent's proposals; [Members] (routers/members.py, clients.py,
      apikeys.py); [Engagements] (the rest of routers/engagements.py): execution
      policies, stop-work, deletion.
    - [AuthoritySafety], [Administration], [AdminExample]: these as one system.

    Jobs and their results:
    - [JobConfig] and [Jobs] (routers/jobs.py): tool configurations, the queue,
      the claim, control and finish of an attempt, deletion; [Execution]
      (execution_control.py and the three budget files): ownership of a running
      attempt and the engagement's limits; [Upload]: the upload of a result.
    - [TestCases] (routers/test_cases.py): stored authorization test cases;
      [Assessments] (assessments.py, assessment_evidence.py): what a Gate run's
      reported results show.
    - [JobSafety]: [Jobs] and [Engagements] as one transition system.
    - [Runner] (routers/runner.py, sse.py): heartbeats and live updates.

    Managed authorization (signed one-attempt contracts):
    - [Wire] (managed_wire.py), [Authority] (nm1_authorization.py), [Issuance]
      (managed_issuance.py), [Results] (managed_results.py, managed_stops.py,
      managed_observations.py).
    - [Permission]: the abstract machine; [IssuanceSafety], [ManagedSafety]: the
      refinement and what follows; [ManagedExample]: a run from review to
      completion.

    What was found:
    - [Assets] (assets.py): canonical identities and the asset graph; [Parsers]
      (parsers.py) and [Imports] (routers/imports.py): tool output; [Inventory]
      (provenance.py, routers/services.py); [Surface] (routers/api_surface.py):
      captured API traffic; [Coverage] (authorization_coverage.py,
      routers/api_coverage.py): what of an API has been tested; [Relationships]
      (authorization_relationships.py, routers/api_relationships.py) and
      [CaseAuthoring] (routers/case_authoring.py): boundaries between identities
      and drafts of cases for them.
    - [Findings] (routers/findings.py, finding_history.py,
      routers/finding_activity.py, routers/evidence.py); [Deliverables]
      (routers/deliverables.py): client reports; [Records] (routers/scans.py,
      recon.py, reports.py, manual_tests.py, scan_profiles.py, assets.py);
      [Radar] (routers/radar.py, playbooks.py); [Notifications]
      (notifications.py, routers/settings.py): webhooks.
    - Each of these has its theorems in the file named after it with [Safety].

    A router function keeps its name; a definition for part of a function says
    so.  Handlers call each other as the code does: every endpoint starts with
    the guards of [Access]; the job handlers call [Enforcement.check], which
    calls [Policy.evaluate_all]; a claim goes through [Execution.before_claim],
    [charge], [allocate] and [issue] in that order.

    ** State, errors and interleaving

    A handler is a function from the database to [result (A * db)].
    [HTTPException] and the Python exceptions the code lets through are
    constructors of [exn], with [WireRefused] and [IssuanceRefused], the
    refusals of managed authorization, [CsvError] of the [csv] module and
    [InvalidRequestError] of SQLAlchemy.  A handler that raises commits nothing,
    and those that commit before they raise ([Jobs.finish_execution],
    [LocalAuth.verify_login], [Imports.import_results], the issuer's requests)
    return both.
    Tables looked up by primary key where it matters are finite maps, the
    others row lists in the order of insertion.  A query without ORDER BY
    yields rows in that order, and keys in the order of the map; text is
    ordered by code points and NULL as PostgreSQL orders it.  Fresh ids, tokens
    and the clock, in whole microseconds, are arguments.  Each handler is one
    atomic step once it holds the row lock, which is what the lock is for;
    where a handler reads before it locks, or a query cannot see what another
    session commits ([Jobs.claim_job], [Surface], [Inventory]), the earlier
    reading is an argument of its own and the theorems hold for every one.

    ** What the theorems show

    - Scope and permission: a target is allowed exactly when the gates are open,
      it resolves, no exclusion and some inclusion matches; listing, page and
      guard agree on who reaches what, and with which role; a stale approval is
      refused, a runner's key only proposes, and an approved proposal does what
      it asked and no more.
    - Sign-in: by rule induction over its requests, what an accepted session
      cookie proves; five guesses in any fifteen minutes.
    - Jobs: by rule induction over every request, budgets are never overdrawn
      and finished jobs never reopen; one claim wins, stop-work stops, no job
      waits on a dead parent; a result is stored once, redacted, and is
      conclusive only for the case captured at the claim.
    - Managed authorization: the issuer refines the machine of [Permission];
      approvals are never overspent, revocation is final, a claim issues one
      contract, a completion needs a live one; an observation is answered or
      refused alike.
    - Test cases hold no live credential; a conclusive run rests on verified
      denials; coverage says what the runs show and accounts for everything;
      identity attributes are established only by agreement; a draft nobody
      decided is refused.
    - Findings keep a history that tells them, reports keep their revisions and
      say what was chosen, records are written by those entitled and only
      there, imports repeat nothing and a failed one leaves nothing, services
      and assets are unique, webhooks reach only public addresses, a console
      sees every event in order, every labelled secret is hidden.

    ** Bounds and fuel

    Strings range over code points U+0000 to U+00FF, one [ascii] each; fixed
    message texts with other characters are carried as their UTF-8 bytes, and
    where a dash above U+00FF is part of stored text ([Scope], [Deliverables])
    the model stands a character of its choice ([em_dash]) in for it.  A parsed
    document with other characters goes to the parameter [outside].
    [json.loads] has fuel twice the length of its text, which is proved enough;
    [str(int)] uses one unit per bit, more than the digits it prints; SHA-256
    and the schedule of IPv6 hextets iterate a fixed number of times; a
    repetition of [Regex] has a round for every character left, and each round
    consumes one; everything else is structural.  Integers are unbounded, as Python's are;
    the integers of the managed wire are checked to stay below 2^53 as the code
    checks them.

    ** What is not modelled

    Third-party code is a parameter: JWT verification (PyJWT), password hashing
    (argon2-cffi), HTML sanitising (nh3, with [html.unescape]), Ed25519
    (cryptography; a class with the two laws honest users rely on), [float] on
    text ([float_of]), ISO dates outside the extended format ([other_iso]),
    LIKE and ILIKE, the conversion of an untyped value to an integer column
    ([int_column]), the name service and the delivery of webhooks, the language
    model that ranks scans, CORS and rate-limiting middleware.
    Pydantic's validation of a request body is taken as done, except for the
    models of [Schemas], [Surface], [CaseAuthoring] and [Transport] that the
    handlers depend on: a body is a record of the validated fields.
    Left out: the widths of text columns and SQLite's own write lock; the depth
    of the interpreter's stack; the suggestion of a remediation and the wording
    of prompts; the text framing of server-sent events; the readiness probe,
    logging, engine and session set-up and the wait for the database; Alembic
    migrations, whose result is [Models]; the integration scripts and the tests;
    the TypeScript console. *)
From stdpp Require Export prelude strings gmap list sorting.
From Stdlib Require Export ZArith Lia.

#[global] Open Scope Z_scope.
#[global] Set Default Goal Selector "!".

(** ** Python exceptions

    A request handler returns or raises.  [HTTPException] is FastAPI's; its
    detail is a string, or the JSON object the handler built (here its
    fields).  The other constructors are the builtin exceptions the modelled
    code raises or lets through. *)

Inductive http_detail :=
| DText (text : string)
| DFields (fields : list (string * string)).

Inductive exn :=
| HTTPException (status_code : Z) (detail : http_detail)
| ValueError
| TypeError
| KeyError
| OverflowError
| AttributeError
| RuntimeError (message : string)
| NameError
| IntegrityError
| NoResultFound
| ObjectDeletedError
| CsvError
| InvalidRequestError
| WireRefused (reason : string)
| IssuanceRefused (reason : string).

#[export] Instance http_detail_eq_dec : EqDecision http_detail.
Proof. solve_decision. Defined.
#[export] Instance exn_eq_dec : EqDecision exn.
Proof. solve_decision. Defined.

(** ** Results *)

Inductive result (A : Type) :=
| Ok (a : A)
| Raise (e : exn).
Arguments Ok {A} a.
Arguments Raise {A} e.

#[export] Instance result_eq_dec `{EqDecision A} : EqDecision (result A).
Proof. solve_decision. Defined.

Definition rbind {A B} (m : result A) (f : A → result B) : result B :=
  match m with Ok a => f a | Raise e => Raise e end.

Definition is_ok {A} (m : result A) : bool :=
  match m with Ok _ => true | Raise _ => false end.

Definition http {A} (code : Z) (text : string) : result A :=
  Raise (HTTPException code (DText text)).

(** [guard b code text]: the [if not b: raise HTTPException(code, text)] of a
    handler. *)
Definition guard (b : bool) (code : Z) (text : string) : result unit :=
  if b then Ok tt else http code text.

Declare Scope py_scope.
Delimit Scope py_scope with py.

Notation "'let?' x ':=' m 'in' k" := (rbind m (λ x, k))
  (at level 10, x name, m at level 100, k at level 200) : py_scope.
Notation "'let?' ' p ':=' m 'in' k" := (rbind m (λ p, k))
  (at level 10, p strict pattern, m at level 100, k at level 200) : py_scope.
Notation "'check?' m 'in' k" := (rbind m (λ _ : unit, k))
  (at level 10, m at level 100, k at level 200) : py_scope.

#[global] Open Scope py_scope.

Lemma rbind_ok {A B} (m : result A) (f : A → result B) b :
  rbind m f = Ok b ↔ ∃ a, m = Ok a ∧ f a = Ok b.
Proof. destruct m; naive_solver. Qed.

Lemma rbind_raise {A B} (m : result A) (f : A → result B) e :
  rbind m f = Raise e ↔ m = Raise e ∨ ∃ a, m = Ok a ∧ f a = Raise e.
Proof. destruct m; naive_solver. Qed.

Lemma guard_ok b code text : guard b code text = Ok tt ↔ b = true.
Proof. unfold guard, http. destruct b; naive_solver. Qed.

(** [[f(x) for x in l]] where [f] may raise. *)
Fixpoint map_result {A B} (f : A → result B) (l : list A) : result (list B) :=
  match l with
  | [] => Ok []
  | x :: l' => let? y := f x in let? ys := map_result f l' in Ok (y :: ys)
  end.

Lemma map_result_elem {A B} (f : A → result B) l l' y :
  map_result f l = Ok l' → y ∈ l' → ∃ x, x ∈ l ∧ f x = Ok y.
Proof.
  revert l'. induction l as [|x l IH]; intros l' H Hy; simpl in H.
  { injection H as <-. set_solver. }
  apply rbind_ok in H as (y0 & Hf & H). apply rbind_ok in H as (ys & Hm & H). injection H as <-.
  apply elem_of_cons in Hy as [-> | Hy]; [exists x; split; [left|done]|].
  destruct (IH ys Hm Hy) as (x' & Hx & Hfx). exists x'. split; [by right|done].
Qed.

Lemma map_result_all {A B} (f : A → result B) l l' x :
  map_result f l = Ok l' → x ∈ l → ∃ y, y ∈ l' ∧ f x = Ok y.
Proof.
  revert l'. induction l as [|x0 l IH]; intros l' H Hx; simpl in H; [set_solver|].
  apply rbind_ok in H as (y0 & Hf & H). apply rbind_ok in H as (ys & Hm & H). injection H as <-.
  apply elem_of_cons in Hx as [-> | Hx]; [exists y0; split; [left|done]|].
  destruct (IH ys Hm Hx) as (y & Hy & Hfy). exists y. split; [by right|done].
Qed.

Lemma map_result_length {A B} (f : A → result B) l l' : map_result f l = Ok l' → length l' = length l.
Proof.
  revert l'. induction l as [|x l IH]; intros l' H; simpl in H; [by injection H as <-|].
  apply rbind_ok in H as (y0 & _ & H). apply rbind_ok in H as (ys & Hm & H). injection H as <-.
  simpl. by rewrite (IH ys Hm).
Qed.

(** ** Requests and the database

    A handler that commits once, as its last effect, is a function from the
    database it runs on to its answer and the database it leaves, or to the
    exception it raises.  [atomically] closes the session: whatever was not
    committed when the handler raised is lost ([db.get_db]).  A handler that
    commits before it raises is written directly as [result A * S]. *)
Definition atomically {A S} (d : S) (m : result (A * S)) : result A * S :=
  match m with
  | Ok (a, d') => (Ok a, d')
  | Raise e => (Raise e, d)
  end.

(** ** Tables

    A table is the list of its rows in insertion order. *)

Definition rows {A} (p : A → bool) (t : list A) : list A := List.filter p t.
Definition first_row {A} (p : A → bool) (t : list A) : option A := List.find p t.
Definition update_rows {A} (p : A → bool) (f : A → A) (t : list A) : list A :=
  map (λ r, if p r then f r else r) t.

Lemma elem_of_rows {A} (p : A → bool) (t : list A) x :
  x ∈ rows p t ↔ x ∈ t ∧ p x = true.
Proof. unfold rows. rewrite !list_elem_of_In. apply filter_In. Qed.

Lemma rows_app {A} (p : A → bool) l1 l2 : rows p (l1 ++ l2) = rows p l1 ++ rows p l2.
Proof. apply List.filter_app. Qed.

Lemma rows_none {A} (p : A → bool) l : (∀ x, x ∈ l → p x = false) → rows p l = [].
Proof.
  induction l as [|x l IH]; intros Hl; [done|]. simpl. rewrite (Hl x) by left. apply IH. intros y Hy. apply Hl. by right.
Qed.

Lemma rows_all {A} (p : A → bool) l : (∀ x, x ∈ l → p x = true) → rows p l = l.
Proof.
  induction l as [|x l IH]; intros Hl; [done|]. simpl. rewrite (Hl x) by left. f_equal. apply IH. intros y Hy. apply Hl. by right.
Qed.

Lemma NoDup_map_rows {A B} (f : A → B) (p : A → bool) t : NoDup (map f t) → NoDup (map f (rows p t)).
Proof.
  induction t as [|x t IH]; [done|]. simpl. intros [Hx Ht]%NoDup_cons. destruct (p x); simpl; [|auto].
  constructor; [|auto]. intros (y & Hy & [Hin _]%elem_of_rows)%list_elem_of_fmap. apply Hx. rewrite Hy. by apply list_elem_of_fmap_2.
Qed.

Lemma first_row_Some {A} (p : A → bool) (t : list A) x :
  first_row p t = Some x → x ∈ t ∧ p x = true.
Proof. rewrite list_elem_of_In. apply find_some. Qed.

Lemma first_row_None {A} (p : A → bool) (t : list A) :
  first_row p t = None ↔ ∀ x, x ∈ t → p x = false.
Proof.
  split.
  - intros Hf x Hx. apply (find_none _ _ Hf). by apply list_elem_of_In.
  - intros Hall. destruct (first_row p t) as [y|] eqn:E; [|done].
    apply first_row_Some in E as [Hin Hp]. rewrite Hall in Hp; done.
Qed.

Lemma first_row_is_Some {A} (p : A → bool) (t : list A) :
  is_Some (first_row p t) ↔ ∃ x, x ∈ t ∧ p x = true.
Proof.
  split.
  - intros [x Hx]. exists x. by apply first_row_Some.
  - intros (x & Hx & Hp). destruct (first_row p t) eqn:E; [eauto|].
    rewrite first_row_None in E. rewrite E in Hp; done.
Qed.

Lemma elem_of_update_rows {A} (p : A → bool) (f : A → A) t x :
  x ∈ update_rows p f t ↔ ∃ y, y ∈ t ∧ x = if p y then f y else y.
Proof. unfold update_rows. rewrite list_elem_of_fmap. naive_solver. Qed.

(** An update that leaves a column alone leaves its list of values alone. *)
Lemma map_update_rows {A B} (f : A → B) (p : A → bool) (g : A → A) t :
  (∀ x, f (g x) = f x) → map f (update_rows p g t) = map f t.
Proof.
  intros Hf. unfold update_rows. rewrite map_map. apply map_ext. intros x.
  destruct (p x); [apply Hf|done].
Qed.

Lemma NoDup_snoc {A} (l : list A) x : NoDup l → x ∉ l → NoDup (l ++ [x]).
Proof.
  intros Hl Hx. apply NoDup_app. split_and!; [done| |apply NoDup_singleton].
  intros y Hy ->%list_elem_of_singleton. done.
Qed.

(** Rows with a unique key are determined by it. *)
Lemma NoDup_map_inj {A B} (f : A → B) t x y :
  NoDup (map f t) → x ∈ t → y ∈ t → f x = f y → x = y.
Proof.
  induction t as [|z t IH]; simpl; [set_solver|].
  intros [Hz Ht]%NoDup_cons [->|Hx]%elem_of_cons [->|Hy]%elem_of_cons Hf; [done| | |auto].
  - destruct Hz. rewrite Hf. apply list_elem_of_fmap. by exists y.
  - destruct Hz. rewrite <-Hf. apply list_elem_of_fmap. by exists x.
Qed.

(** [sorted] is stable: an element goes before those it does not exceed. *)
Fixpoint insert_by {A} (le : A → A → bool) (x : A) (l : list A) : list A :=
  match l with [] => [x] | y :: l' => if le x y then x :: l else y :: insert_by le x l' end.
Definition sorted_by {A} (le : A → A → bool) (l : list A) : list A := foldr (insert_by le) [] l.

Lemma insert_by_perm {A} (le : A → A → bool) x l : insert_by le x l ≡ₚ x :: l.
Proof.
  induction l as [|y l IH]; [done|]. simpl. destruct (le x y); [done|]. rewrite IH. constructor.
Qed.
Lemma sorted_by_perm {A} (le : A → A → bool) l : sorted_by le l ≡ₚ l.
Proof. unfold sorted_by. induction l as [|x l IH]; [done|]. simpl. by rewrite insert_by_perm, IH. Qed.

Lemma insert_by_sorted {A} (le : A → A → bool) x l : (∀ a b, le a b = false → le b a = true) →
  Sorted (λ a b, le a b = true) l → Sorted (λ a b, le a b = true) (insert_by le x l).
Proof.
  intros Htotal Hs. induction Hs as [|y l Hl IH Hy]; simpl; [by repeat constructor|].
  destruct (le x y) eqn:E; [by repeat constructor|]. constructor; [done|].
  apply Htotal in E. destruct l as [|b l]; simpl in *; [by constructor|]. inversion Hy; subst. destruct (le x b); by constructor.
Qed.
Lemma sorted_by_sorted {A} (le : A → A → bool) l : (∀ a b, le a b = false → le b a = true) →
  Sorted (λ a b, le a b = true) (sorted_by le l).
Proof. intros Htotal. induction l as [|x l IH]; [constructor|]. by apply insert_by_sorted. Qed.

(** Python's order-preserving de-duplication idiom
    [[x for x in l if not (x in seen or seen.add(x))]]. *)
Fixpoint dedup_from `{EqDecision A} (seen : list A) (l : list A) : list A :=
  match l with
  | [] => []
  | x :: l' =>
      if decide (x ∈ seen) then dedup_from seen l' else x :: dedup_from (x :: seen) l'
  end.
Definition dedup `{EqDecision A} (l : list A) : list A := dedup_from [] l.

Section Dedup.
Context `{EqDecision A}.
Implicit Types (l seen : list A).

Lemma elem_of_dedup_from seen l x :
  x ∈ dedup_from seen l ↔ x ∈ l ∧ x ∉ seen.
Proof.
  revert seen. induction l as [|y l IH]; intros seen; simpl; [set_solver|].
  case_decide; rewrite ?elem_of_cons, IH; [set_solver|].
  destruct (decide (x = y)); set_solver.
Qed.

Lemma elem_of_dedup l x : x ∈ dedup l ↔ x ∈ l.
Proof. unfold dedup. rewrite elem_of_dedup_from. set_solver. Qed.

Lemma NoDup_dedup l : NoDup (dedup l).
Proof.
  unfold dedup. generalize (@nil A). induction l as [|y l IH]; intros seen; simpl.
  { constructor. }
  case_decide; [apply IH|]. constructor; [|apply IH].
  rewrite elem_of_dedup_from. set_solver.
Qed.
End Dedup.

(** ** Shared automation *)

Create HintDb vardr discriminated.
#[export] Hint Resolve elem_of_rows elem_of_dedup NoDup_dedup : vardr.

Create Rewrite HintDb pyres.
#[export] Hint Rewrite @rbind_ok @rbind_raise guard_ok : pyres.

(** Split a boolean hypothesis into its propositional content. *)
Ltac bool_simpl :=
  repeat match goal with
  | H : (_ && _) = true |- _ => apply andb_true_iff in H as [? ?]
  | H : (_ || _) = false |- _ => apply orb_false_iff in H as [? ?]
  | H : negb _ = true |- _ => apply negb_true_iff in H
  | H : negb _ = false |- _ => apply negb_false_iff in H
  | H : bool_decide _ = true |- _ => apply bool_decide_eq_true in H
  | H : bool_decide _ = false |- _ => apply bool_decide_eq_false in H
  | H : String.eqb _ _ = true |- _ => apply String.eqb_eq in H
  | H : String.eqb _ _ = false |- _ => apply String.eqb_neq in H
  | H : (_ =? _) = true |- _ => apply Z.eqb_eq in H
  | H : (_ =? _) = false |- _ => apply Z.eqb_neq in H
  | H : (_ <=? _) = true |- _ => apply Z.leb_le in H
  | H : (_ <=? _) = false |- _ => apply Z.leb_gt in H
  | H : (_ <? _) = true |- _ => apply Z.ltb_lt in H
  | H : (_ <? _) = false |- _ => apply Z.ltb_ge in H
  end.

(** Walk a handler: case on the scrutinee of the innermost match of the goal
    (or of a hypothesis) and clean up after each case. *)
Ltac step_match :=
  match goal with
  | |- context [match ?x with _ => _ end] =>
      lazymatch x with
      | context [match _ with _ => _ end] => fail
      | _ => let E := fresh "E" in destruct x eqn:E
      end
  end; simplify_eq/=.
Ltac step_match_in Hyp :=
  match type of Hyp with
  | context [match ?x with _ => _ end] =>
      lazymatch x with
      | context [match _ with _ => _ end] => fail
      | _ => let E := fresh "E" in destruct x eqn:E
      end
  end; simplify_eq/=.
