(* ===== verification/PyStr.v ===== *)
(** * Python strings

    The string operations of the modelled code.  A Python string is a
    [string] whose characters are read as the code points U+0000 to U+00FF
    (Latin-1), so the operations below have the behaviour of CPython 3.12 on
    that range, non-ASCII characters included: U+00A0 and U+0085 are
    whitespace, U+00C0 lowers to U+00E0, and the superscript digits U+00B2,
    U+00B3 and U+00B9 satisfy [str.isdigit] although [int] refuses them.  The
    models take no string with a code point above U+00FF. *)
From S2P Require Import Prelude.
From Stdlib Require Import Ascii.
Open Scope Z_scope.

Definition code (c : ascii) : Z := Z.of_N (N_of_ascii c).
Definition chr (z : Z) : ascii := ascii_of_N (Z.to_N z).
Definition str1 (c : ascii) : string := String c EmptyString.

Definition in_range (lo hi : Z) (c : ascii) : bool := (lo <=? code c) && (code c <=? hi).

(** [str.isspace] on one character. *)
Definition is_space (c : ascii) : bool :=
  in_range 9 13 c || in_range 28 32 c || (code c =? 133) || (code c =? 160).

(** A decimal digit: what [int] accepts and a regular expression's [\d] matches. *)
Definition is_decimal (c : ascii) : bool := in_range 48 57 c.

(** [str.isdigit] on one character. *)
Definition is_digit (c : ascii) : bool :=
  is_decimal c || (code c =? 178) || (code c =? 179) || (code c =? 185).

Definition is_ascii (c : ascii) : bool := code c <? 128.

Definition lower_char (c : ascii) : ascii :=
  if in_range 65 90 c || (in_range 192 222 c && negb (code c =? 215))
  then chr (code c + 32) else c.

Fixpoint map_string (f : ascii → ascii) (s : string) : string :=
  match s with
  | EmptyString => EmptyString
  | String c s' => String (f c) (map_string f s')
  end.

Fixpoint all_chars (p : ascii → bool) (s : string) : bool :=
  match s with
  | EmptyString => true
  | String c s' => p c && all_chars p s'
  end.

Definition any_char (p : ascii → bool) (s : string) : bool :=
  negb (all_chars (λ c, negb (p c)) s).

(** [len(s)] *)
Definition len (s : string) : Z := Z.of_nat (String.length s).

(** [s.lower()] *)
Definition lower (s : string) : string := map_string lower_char s.

(** [s.isdigit()], [s.isascii()] *)
Definition isdigit (s : string) : bool :=
  negb (String.eqb s "") && all_chars is_digit s.
Definition isascii (s : string) : bool := all_chars is_ascii s.

(** [s.lstrip()], [s.rstrip()] and [s.strip()] for a set of characters. *)
Fixpoint lstrip_chars (p : ascii → bool) (s : string) : string :=
  match s with
  | EmptyString => EmptyString
  | String c s' => if p c then lstrip_chars p s' else s
  end.
Fixpoint rstrip_chars (p : ascii → bool) (s : string) : string :=
  match s with
  | EmptyString => EmptyString
  | String c s' =>
      match rstrip_chars p s' with
      | EmptyString => if p c then EmptyString else String c EmptyString
      | r => String c r
      end
  end.
Definition strip (s : string) : string := rstrip_chars is_space (lstrip_chars is_space s).
Definition rstrip_char (c : ascii) (s : string) : string :=
  rstrip_chars (Ascii.eqb c) s.

(** [s.startswith(p)] and [s.endswith(p)] *)
Fixpoint startswith (s p : string) {struct p} : bool :=
  match p, s with
  | EmptyString, _ => true
  | String c p', String d s' => Ascii.eqb c d && startswith s' p'
  | String _ _, EmptyString => false
  end.
Fixpoint endswith (s p : string) : bool :=
  String.eqb s p ||
  match s with
  | EmptyString => false
  | String _ s' => endswith s' p
  end.

(** [s[n:]] *)
Fixpoint drop_string (n : nat) (s : string) : string :=
  match n, s with
  | O, _ => s
  | S n', String _ s' => drop_string n' s'
  | S _, EmptyString => EmptyString
  end.
(** [s[:n]] *)
Fixpoint take_string (n : nat) (s : string) : string :=
  match n, s with
  | O, _ => EmptyString
  | S n', String c s' => String c (take_string n' s')
  | S _, EmptyString => EmptyString
  end.

(** [cut sep s] is [s.split(sep, 1)]: the part before the first occurrence of
    [sep] and, when there is one, the part after it. *)
Fixpoint cut (sep s : string) : string * option string :=
  if startswith s sep then (EmptyString, Some (drop_string (String.length sep) s))
  else match s with
       | EmptyString => (EmptyString, None)
       | String c s' => let '(a, b) := cut sep s' in (String c a, b)
       end.

Definition before (sep s : string) : string := (cut sep s).1.
Definition after (sep s : string) : option string := (cut sep s).2.
(** [sep in s] *)
Definition contains (sep s : string) : bool := bool_decide (is_Some (after sep s)).

(** [s.split(c)] for a one-character separator. *)
Fixpoint split_char (c : ascii) (s : string) : list string :=
  match s with
  | EmptyString => [EmptyString]
  | String d s' =>
      if Ascii.eqb c d then EmptyString :: split_char c s'
      else match split_char c s' with
           | [] => [String d EmptyString]
           | w :: ws => String d w :: ws
           end
  end.

(** [s.count(c)] *)
Fixpoint count_char (c : ascii) (s : string) : nat :=
  match s with
  | EmptyString => O
  | String d s' => (if Ascii.eqb c d then 1 else 0)%nat + count_char c s'
  end.

(** [sep.join(ws)] *)
Fixpoint join (sep : string) (ws : list string) : string :=
  match ws with
  | [] => EmptyString
  | [w] => w
  | w :: ws' => w +:+ sep +:+ join sep ws'
  end.

(** [s.removeprefix(p)] *)
Definition removeprefix (s p : string) : string :=
  if startswith s p then drop_string (String.length p) s else s.

(** ** Integers in strings *)

Definition digit_val (c : ascii) : Z := code c - 48.
Fixpoint dec_value_from (acc : Z) (s : string) : Z :=
  match s with
  | EmptyString => acc
  | String c s' => dec_value_from (10 * acc + digit_val c) s'
  end.
Definition dec_value (s : string) : Z := dec_value_from 0 s.

(** CPython refuses to convert more than 4300 digits
    ([sys.int_info.default_max_str_digits]). *)
Definition max_str_digits : Z := 4300.

(** The digits of an [int] literal: decimal digits, single underscores
    between them. *)
Fixpoint int_digits (s : string) : option string :=
  match s with
  | EmptyString => None
  | String c EmptyString => if is_decimal c then Some (str1 c) else None
  | String c ((String d s'') as s') =>
      if is_decimal c then
        if Ascii.eqb d "_"%char then String c <$> int_digits s''
        else String c <$> int_digits s'
      else None
  end.

(** [int(s)] for a string, [None] for a [ValueError]. *)
Definition int_of_string (s : string) : option Z :=
  let t := strip s in
  let '(sign, body) :=
    match t with
    | String "-" r => (-1, r)
    | String "+" r => (1, r)
    | _ => (1, t)
    end in
  digits ← int_digits body;
  if len digits <=? max_str_digits then Some (sign * dec_value digits) else None.

(** [str(n)] for an integer. *)
Fixpoint dec_of_nat_fuel (fuel n : nat) (acc : string) : string :=
  match fuel with
  | O => acc
  | S f =>
      let acc' := String (chr (48 + Z.of_nat (n mod 10))) acc in
      if (n <? 10)%nat then acc' else dec_of_nat_fuel f (n / 10) acc'
  end.
Definition string_of_nat (n : nat) : string := dec_of_nat_fuel (S n) n EmptyString.

(** The same on [Z], by repeated division; a number has at most as many
    decimal digits as bits, which is the fuel. *)
Fixpoint dec_of_Z_fuel (fuel : nat) (z : Z) (acc : string) : string :=
  match fuel with
  | O => acc
  | S f =>
      let acc' := String (chr (48 + z mod 10)) acc in
      if z <? 10 then acc' else dec_of_Z_fuel f (z / 10) acc'
  end.
Definition string_of_pos (z : Z) : string :=
  dec_of_Z_fuel (S (Z.to_nat (Z.log2 z))) z EmptyString.
Definition string_of_Z (z : Z) : string :=
  if z <? 0 then String "-" (string_of_pos (- z)) else string_of_pos z.

(** ** Lemmas *)

Lemma app_String_l c s t : String c s +:+ t = String c (s +:+ t).
Proof. done. Qed.
Lemma app_empty_l s : "" +:+ s = s.
Proof. done. Qed.
Lemma app_empty_r s : s +:+ "" = s.
Proof. induction s as [|c s IH]; [done|]. by rewrite app_String_l, IH. Qed.
Lemma app_assoc_string s t u : s +:+ (t +:+ u) = (s +:+ t) +:+ u.
Proof. induction s as [|c s IH]; [done|]. by rewrite !app_String_l, IH. Qed.
Lemma len_app s t : len (s +:+ t) = len s + len t.
Proof.
  unfold len. induction s as [|c s IH]; [done|].
  rewrite app_String_l. simpl. lia.
Qed.
Lemma len_nonneg s : 0 <= len s.
Proof. unfold len. lia. Qed.

Lemma startswith_spec s p : startswith s p = true ↔ ∃ t, s = p +:+ t.
Proof.
  revert s. induction p as [|c p IH]; intros s; simpl.
  { split; [|done]. intros _. by exists s. }
  destruct s as [|d s].
  { split; [done|]. by intros [t ?]. }
  rewrite andb_true_iff, Ascii.eqb_eq, IH. setoid_rewrite app_String_l.
  naive_solver.
Qed.

Lemma endswith_spec s p : endswith s p = true ↔ ∃ t, s = t +:+ p.
Proof.
  induction s as [|c s IH]; cbn [endswith].
  - rewrite orb_false_r, String.eqb_eq. split.
    + intros ->. by exists "".
    + intros [[|d t] Ht]; [by rewrite app_empty_l in Ht|done].
  - rewrite orb_true_iff, String.eqb_eq, IH. split.
    + intros [<- | [t ->]]; [by exists ""|]. by exists (String c t).
    + intros [[|d t] Ht]; [by left|]. right. exists t.
      rewrite app_String_l in Ht. congruence.
Qed.

Lemma drop_string_app p t : drop_string (String.length p) (p +:+ t) = t.
Proof. induction p as [|c p IH]; [by destruct t|]. apply IH. Qed.

Lemma cut_spec sep s a b :
  cut sep s = (a, Some b) → s = a +:+ sep +:+ b.
Proof.
  revert a b. induction s as [|c s IH]; intros a b; simpl.
  - destruct (startswith "" sep) eqn:E; [|done].
    apply startswith_spec in E as [t Ht]. intros [= <- <-].
    assert (drop_string (String.length sep) "" = t) as ->; [|done].
    rewrite Ht. apply drop_string_app.
  - destruct (startswith (String c s) sep) eqn:E.
    + apply startswith_spec in E as [t Ht]. rewrite Ht.
      intros [= <- <-]. by rewrite drop_string_app.
    + destruct (cut sep s) as [a' b'] eqn:Ecut. intros [= <- ->].
      rewrite (IH a' b) at 1; done.
Qed.

Lemma cut_none sep s a : cut sep s = (a, None) → a = s.
Proof.
  revert a. induction s as [|c s IH]; intros a; simpl.
  - destruct (startswith "" sep); congruence.
  - destruct (startswith (String c s) sep); [congruence|].
    destruct (cut sep s) as [a' b'] eqn:Ecut. intros [= <- ->].
    by rewrite (IH a').
Qed.

Lemma contains_false_before sep s : contains sep s = false → before sep s = s.
Proof.
  unfold contains, before, after. destruct (cut sep s) as [a [b|]] eqn:E; simpl; [done|].
  intros _. by eapply cut_none.
Qed.

Lemma all_chars_app p s t : all_chars p (s +:+ t) = all_chars p s && all_chars p t.
Proof.
  induction s as [|c s IH]; [done|]. rewrite app_String_l. simpl.
  by rewrite IH, andb_assoc.
Qed.

Lemma chr_code z : 0 <= z < 256 → code (chr z) = z.
Proof.
  intros Hz. unfold code, chr. rewrite N_ascii_embedding; [lia|].
  change 256%N with (Z.to_N 256). lia.
Qed.
Lemma code_chr c : chr (code c) = c.
Proof. unfold code, chr. rewrite N2Z.id. apply ascii_N_embedding. Qed.
Lemma code_bound c : 0 <= code c < 256.
Proof. unfold code. pose proof (N_ascii_bounded c). lia. Qed.

Lemma lower_char_idem c : lower_char (lower_char c) = lower_char c.
Proof.
  destruct c as [[] [] [] [] [] [] [] []]; reflexivity.
Qed.

Lemma map_string_map_string f g s :
  map_string f (map_string g s) = map_string (λ c, f (g c)) s.
Proof. induction s as [|c s IH]; simpl; by rewrite ?IH. Qed.

Lemma lower_idem s : lower (lower s) = lower s.
Proof.
  unfold lower. rewrite map_string_map_string.
  induction s as [|c s IH]; simpl; [done|]. by rewrite IH, lower_char_idem.
Qed.

Lemma lower_app s t : lower (s +:+ t) = lower s +:+ lower t.
Proof.
  unfold lower. induction s as [|c s IH]; [done|].
  rewrite app_String_l. simpl. by rewrite IH.
Qed.

Lemma rstrip_chars_idem p s : rstrip_chars p (rstrip_chars p s) = rstrip_chars p s.
Proof.
  induction s as [|c s IH]; simpl; [done|].
  destruct (rstrip_chars p s) as [|d r] eqn:E.
  - destruct (p c) eqn:Ec; simpl; [done|]. by rewrite Ec.
  - change (String d r) with (id (String d r)) in IH |- *. simpl in *.
    unfold id in *. simpl. simpl in IH. rewrite IH. done.
Qed.

Create Rewrite HintDb pystr.
#[export] Hint Rewrite app_empty_l app_empty_r lower_app lower_idem all_chars_app : pystr.

(** *** Substrings *)

Lemma all_chars_cut p sep s a b :
  cut sep s = (a, b) → all_chars p s = true →
  all_chars p a = true ∧ match b with Some b' => all_chars p b' = true | None => True end.
Proof.
  intros Hc Hp. destruct b as [b|].
  - apply cut_spec in Hc as ->. rewrite !all_chars_app in Hp.
    apply andb_true_iff in Hp as [? Hp]. by apply andb_true_iff in Hp as [??].
  - by apply cut_none in Hc as ->.
Qed.

Lemma len_cut sep s a b :
  cut sep s = (a, b) →
  len a <= len s ∧ match b with Some b' => len b' <= len s | None => True end.
Proof.
  intros Hc. destruct b as [b|].
  - apply cut_spec in Hc as ->. rewrite !len_app.
    pose proof (len_nonneg a). pose proof (len_nonneg b). pose proof (len_nonneg sep). lia.
  - by apply cut_none in Hc as ->.
Qed.

Lemma drop_string_suffix n s : ∃ p, s = p +:+ drop_string n s.
Proof.
  revert s. induction n as [|n IH]; intros s; [by exists ""; destruct s|].
  destruct s as [|c s]; [by exists ""|].
  destruct (IH s) as [p Hp]. exists (String c p). simpl. by rewrite app_String_l, <-Hp.
Qed.

Lemma lstrip_chars_suffix p s : ∃ q, s = q +:+ lstrip_chars p s.
Proof.
  induction s as [|c s [q IH]]; [by exists ""|]. simpl. destruct (p c).
  - exists (String c q). by rewrite app_String_l, <-IH.
  - by exists "".
Qed.

Lemma rstrip_chars_prefix p s : ∃ q, s = rstrip_chars p s +:+ q.
Proof.
  induction s as [|c s [q IH]]; [by exists ""|]. simpl.
  destruct (rstrip_chars p s) as [|d r].
  - destruct (p c).
    + by exists (String c s).
    + exists s. done.
  - exists q. by rewrite app_String_l, <-IH.
Qed.

Lemma strip_substring s : ∃ p q, s = p +:+ strip s +:+ q.
Proof.
  unfold strip. destruct (lstrip_chars_suffix is_space s) as [p Hp].
  destruct (rstrip_chars_prefix is_space (lstrip_chars is_space s)) as [q Hq].
  exists p, q. by rewrite <-Hq.
Qed.

Lemma lstrip_chars_none p s : all_chars (λ c, negb (p c)) s = true → lstrip_chars p s = s.
Proof.
  destruct s as [|c s]; [done|]. simpl. intros Hp.
  apply andb_true_iff in Hp as [Hp _]. by apply negb_true_iff in Hp as ->.
Qed.
Lemma rstrip_chars_none p s : all_chars (λ c, negb (p c)) s = true → rstrip_chars p s = s.
Proof.
  induction s as [|c s IH]; [done|]. simpl. intros Hp.
  apply andb_true_iff in Hp as [Hp Hs]. rewrite (IH Hs).
  apply negb_true_iff in Hp as ->. by destruct s.
Qed.
Lemma strip_none s : all_chars (λ c, negb (is_space c)) s = true → strip s = s.
Proof. intros Hs. unfold strip. by rewrite (lstrip_chars_none _ _ Hs), rstrip_chars_none. Qed.

Lemma all_chars_impl (p q : ascii → bool) s :
  (∀ c, p c = true → q c = true) → all_chars p s = true → all_chars q s = true.
Proof.
  intros Hpq. induction s as [|c s IH]; [done|]. simpl. rewrite !andb_true_iff. naive_solver.
Qed.

Lemma startswith_cons c p d s :
  startswith (String d s) (String c p) = Ascii.eqb c d && startswith s p.
Proof. done. Qed.

Lemma startswith_app p t : startswith (p +:+ t) p = true.
Proof. apply startswith_spec. by exists t. Qed.

(** The first occurrence of a separator starting with [c], when [c] does not
    occur before it. *)
Lemma cut_first c sep a b :
  all_chars (λ d, negb (Ascii.eqb c d)) a = true →
  cut (String c sep) (a +:+ String c sep +:+ b) = (a, Some b).
Proof.
  intros Ha. induction a as [|d a IH].
  - rewrite app_empty_l. rewrite app_String_l. cbn [cut].
    rewrite <-app_String_l, startswith_app, drop_string_app. done.
  - simpl in Ha. apply andb_true_iff in Ha as [Hd Ha]. apply negb_true_iff in Hd.
    rewrite app_String_l. cbn [cut startswith]. rewrite Hd. simpl. by rewrite (IH Ha).
Qed.

Lemma cut_absent c sep a :
  all_chars (λ d, negb (Ascii.eqb c d)) a = true → cut (String c sep) a = (a, None).
Proof.
  induction a as [|d a IH]; [done|]. simpl. intros Ha.
  apply andb_true_iff in Ha as [Hd Ha]. apply negb_true_iff in Hd as ->.
  simpl. by rewrite (IH Ha).
Qed.

Lemma count_char_absent c a :
  all_chars (λ d, negb (Ascii.eqb c d)) a = true → count_char c a = 0%nat.
Proof.
  induction a as [|d a IH]; [done|]. simpl. intros Ha.
  apply andb_true_iff in Ha as [Hd Ha]. apply negb_true_iff in Hd as ->. simpl. auto.
Qed.

Lemma count_char_app c a b : count_char c (a +:+ b) = (count_char c a + count_char c b)%nat.
Proof.
  induction a as [|d a IH]; [done|]. rewrite app_String_l. simpl. rewrite IH. lia.
Qed.

Lemma app_inj_r (a b t : string) : a +:+ t = b +:+ t → a = b.
Proof.
  revert b. induction a as [|c a IH]; intros b.
  - intros Hb. destruct b as [|d b]; [done|].
    apply (f_equal len) in Hb. rewrite !len_app in Hb. unfold len in Hb. simpl in Hb. lia.
  - destruct b as [|d b]; intros Hb.
    + apply (f_equal len) in Hb. rewrite !len_app in Hb. unfold len in Hb. simpl in Hb. lia.
    + rewrite !app_String_l in Hb. injection Hb as -> Hb. f_equal. by apply IH.
Qed.

(** *** [int] on plain digits *)

(** No superscript digit, and short enough for [int]. *)
Definition int_safe (s : string) : bool :=
  all_chars (λ c, negb (is_digit c) || is_decimal c) s && (len s <=? max_str_digits).

Lemma is_decimal_not_space c : is_decimal c = true → negb (is_space c) = true.
Proof. destruct c as [[] [] [] [] [] [] [] []]; vm_compute; congruence. Qed.

Lemma int_digits_decimal s :
  s ≠ "" → all_chars is_decimal s = true → int_digits s = Some s.
Proof.
  induction s as [|c s IH]; [done|]. intros _ Hs. simpl in Hs.
  apply andb_true_iff in Hs as [Hc Hs]. destruct s as [|d s].
  - simpl. by rewrite Hc.
  - assert (int_digits (String c (String d s)) =
            if is_decimal c then
              if Ascii.eqb d "_" then String c <$> int_digits s
              else String c <$> int_digits (String d s)
            else None) as -> by reflexivity.
    rewrite Hc. simpl in Hs. apply andb_true_iff in Hs as [Hd Hs].
    destruct (Ascii.eqb_spec d "_") as [->|Hne]; [done|].
    rewrite IH; [done|done|]. simpl. by rewrite Hd.
Qed.

Lemma int_of_isdigit s :
  isdigit s = true → int_safe s = true → int_of_string s = Some (dec_value s).
Proof.
  unfold isdigit, int_safe, int_of_string. intros Hd Hs.
  apply andb_true_iff in Hd as [Hne Hd]. apply andb_true_iff in Hs as [Hs Hlen].
  apply negb_true_iff, String.eqb_neq in Hne.
  assert (all_chars is_decimal s = true) as Hdec.
  { clear -Hd Hs. induction s as [|c s IH]; [done|]. simpl in *.
    apply andb_true_iff in Hd as [Hc Hd]. apply andb_true_iff in Hs as [Hc' Hs].
    rewrite Hc in Hc'. simpl in Hc'. rewrite Hc'. auto. }
  rewrite strip_none by (eapply all_chars_impl, Hdec; apply is_decimal_not_space).
  assert ((match s with
           | String "-" r => (-1, r) | String "+" r => (1, r) | _ => (1, s) end) = (1, s)) as ->.
  { destruct s as [|c s]; [done|]. simpl in Hdec. apply andb_true_iff in Hdec as [Hc _].
    clear -Hc. revert Hc. destruct c as [[] [] [] [] [] [] [] []]; vm_compute; congruence. }
  rewrite (int_digits_decimal s Hne Hdec). simpl. rewrite Hlen. f_equal. lia.
Qed.

Lemma int_safe_parts a b : int_safe (a +:+ b) = true → int_safe a = true ∧ int_safe b = true.
Proof.
  unfold int_safe. rewrite all_chars_app, !andb_true_iff, !Z.leb_le, len_app.
  pose proof (len_nonneg a). pose proof (len_nonneg b). intuition lia.
Qed.

Lemma int_safe_cut sep s a b :
  cut sep s = (a, b) → int_safe s = true →
  int_safe a = true ∧ match b with Some b' => int_safe b' = true | None => True end.
Proof.
  intros Hc Hs. destruct b as [b|].
  - apply cut_spec in Hc as ->. apply int_safe_parts in Hs as [Ha Hs].
    by apply int_safe_parts in Hs as [_ Hs].
  - by apply cut_none in Hc as ->.
Qed.

Lemma int_safe_before sep s : int_safe s = true → int_safe (before sep s) = true.
Proof.
  intros Hs. unfold before. destruct (cut sep s) as [a b] eqn:E.
  by destruct (int_safe_cut _ _ _ _ E Hs).
Qed.
Lemma int_safe_after sep s d :
  int_safe s = true → int_safe d = true → int_safe (default d (after sep s)) = true.
Proof.
  intros Hs Hd. unfold after. destruct (cut sep s) as [a [b|]] eqn:E; [|done].
  by destruct (int_safe_cut _ _ _ _ E Hs).
Qed.
Lemma int_safe_drop n s : int_safe s = true → int_safe (drop_string n s) = true.
Proof.
  destruct (drop_string_suffix n s) as [p Hp]. intros Hs. rewrite Hp in Hs.
  by apply int_safe_parts in Hs as [_ ?].
Qed.
Lemma int_safe_strip s : int_safe s = true → int_safe (strip s) = true.
Proof.
  destruct (strip_substring s) as (p & q & Hs). intros H0. rewrite Hs in H0.
  apply int_safe_parts in H0 as [_ H0]. by apply int_safe_parts in H0 as [? _].
Qed.
Lemma int_safe_lower s : int_safe s = true → int_safe (lower s) = true.
Proof.
  unfold int_safe, lower, len. rewrite !andb_true_iff. intros [Ha Hl].
  assert (String.length (map_string lower_char s) = String.length s) as ->.
  { clear. induction s as [|c s IH]; simpl; congruence. }
  split; [|done]. clear Hl. induction s as [|c s IH]; [done|]. simpl in *.
  apply andb_true_iff in Ha as [Hc Ha]. rewrite (IH Ha), andb_true_r.
  revert Hc. destruct c as [[] [] [] [] [] [] [] []]; vm_compute; congruence.
Qed.

Create HintDb int_safe discriminated.
#[export] Hint Resolve int_safe_before int_safe_after int_safe_drop int_safe_strip
  int_safe_lower : int_safe.

(** *** Trailing characters *)

Lemma rstrip_chars_last p s t c : rstrip_chars p s = t +:+ str1 c → p c = false.
Proof.
  revert t. induction s as [|d s IH]; intros t; simpl.
  { by destruct t. }
  destruct (rstrip_chars p s) as [|e r] eqn:E.
  - destruct (p d) eqn:Ed; [by destruct t|]. intros Ht.
    destruct t as [|a [|b t]]; [|done|done].
    change ("" +:+ str1 c) with (String c "") in Ht. congruence.
  - intros Ht. destruct t as [|a t]; [done|].
    rewrite app_String_l in Ht. injection Ht as -> Ht. by apply (IH t).
Qed.

Lemma strip_no_trailing s t c : strip s = t +:+ str1 c → is_space c = false.
Proof. apply rstrip_chars_last. Qed.

(** ** [str(n)] *)

Lemma dec_of_Z_fuel_value fuel z acc :
  0 <= z → Z.log2 z < Z.of_nat fuel →
  dec_value_from 0 (dec_of_Z_fuel fuel z acc) = dec_value_from z acc.
Proof.
  revert z acc. induction fuel as [|f IH]; intros z acc Hz Hf.
  { pose proof (Z.log2_nonneg z). lia. }
  pose proof (Z.mod_pos_bound z 10). cbn [dec_of_Z_fuel].
  assert (Hd : digit_val (chr (48 + z mod 10)) = z mod 10).
  { unfold digit_val. rewrite chr_code; lia. }
  destruct (Z.ltb_spec z 10).
  - cbn [dec_value_from]. rewrite Hd, Z.mod_small by lia. done.
  - rewrite IH; [|apply Z.div_pos; lia|].
    + cbn [dec_value_from]. rewrite Hd, <-Z.div_mod; lia.
    + assert (Z.log2 (z / 10) <= Z.log2 (z / 2)).
      { apply Z.log2_le_mono. apply Z.div_le_compat_l; lia. }
      assert (Z.log2 (z / 2) = Z.log2 z - 1) as Hl; [|lia].
      pose proof (Z.log2_shiftr z 1) as Hs. rewrite Z.shiftr_div_pow2 in Hs by lia.
      change (2 ^ 1) with 2 in Hs. assert (1 <= Z.log2 z) by (apply Z.log2_le_pow2; lia). lia.
Qed.

Lemma string_of_pos_value z : 0 <= z → dec_value (string_of_pos z) = z.
Proof.
  intros Hz. unfold dec_value, string_of_pos.
  rewrite dec_of_Z_fuel_value; [done|done|]. pose proof (Z.log2_nonneg z). lia.
Qed.

Lemma is_decimal_chr d : 0 <= d < 10 → is_decimal (chr (48 + d)) = true.
Proof.
  intros Hd. unfold is_decimal, in_range. rewrite chr_code by lia.
  apply andb_true_iff. split; apply Z.leb_le; lia.
Qed.

Lemma dec_of_Z_fuel_digits fuel z acc :
  0 <= z → all_chars is_decimal acc = true →
  all_chars is_decimal (dec_of_Z_fuel fuel z acc) = true.
Proof.
  revert z acc. induction fuel as [|f IH]; intros z acc Hz Ha; [done|]. cbn [dec_of_Z_fuel].
  assert (all_chars is_decimal (String (chr (48 + z mod 10)) acc) = true).
  { cbn [all_chars]. rewrite is_decimal_chr by (apply Z.mod_pos_bound; lia). done. }
  case_match; [done|]. apply IH; [apply Z.div_pos; lia|done].
Qed.

Lemma string_of_pos_digits z : 0 <= z → all_chars is_decimal (string_of_pos z) = true.
Proof. intros Hz. by apply dec_of_Z_fuel_digits. Qed.

Lemma string_of_Z_inj x y : string_of_Z x = string_of_Z y → x = y.
Proof.
  assert (Hnot : ∀ a b, 0 <= a → String "-" b ≠ string_of_pos a).
  { intros a b Ha Heq. pose proof (string_of_pos_digits a Ha) as Hd. by rewrite <-Heq in Hd. }
  unfold string_of_Z. destruct (Z.ltb_spec x 0), (Z.ltb_spec y 0); intros Heq.
  - injection Heq as Heq. apply (f_equal dec_value) in Heq.
    rewrite !string_of_pos_value in Heq by lia. lia.
  - by apply Hnot in Heq.
  - symmetry in Heq. by apply Hnot in Heq.
  - apply (f_equal dec_value) in Heq. by rewrite !string_of_pos_value in Heq by lia.
Qed.

(** ** Strings free of delimiters *)

(** A character that is no whitespace and none of the given delimiters. *)
Definition plain (delims : list ascii) (c : ascii) : bool :=
  negb (is_space c) && forallb (λ d, negb (Ascii.eqb d c)) delims.

Lemma plain_not_space ds s :
  all_chars (plain ds) s = true → all_chars (λ c, negb (is_space c)) s = true.
Proof. apply all_chars_impl. intros c Hc. by apply andb_true_iff in Hc as [? _]. Qed.

Lemma plain_avoids ds d s :
  d ∈ ds → all_chars (plain ds) s = true → all_chars (λ c, negb (Ascii.eqb d c)) s = true.
Proof.
  intros Hd. apply all_chars_impl. intros c Hc. apply andb_true_iff in Hc as [_ Hc].
  rewrite forallb_forall in Hc. apply Hc. by apply list_elem_of_In.
Qed.

(** Solve [all_chars] goals over concatenations of [plain] parts. *)
Ltac solve_chars :=
  rewrite ?all_chars_app;
  repeat match goal with |- _ && _ = true => apply andb_true_iff; split end;
  first [ done
        | eapply plain_avoids; [|eassumption]; set_solver
        | eapply plain_not_space; eassumption ].

Definition host_delims : list ascii := ["/"; "@"; ":"; "["]%char.

Lemma startswith_absent c s t :
  all_chars (λ d, negb (Ascii.eqb c d)) (s +:+ String t "") = true →
  ∀ u, startswith (s +:+ String t u) (str1 c) = false.
Proof.
  intros Hs u. destruct s as [|d s]; simpl in Hs |- *;
    apply andb_true_iff in Hs as [Hd _]; apply negb_true_iff in Hd; by rewrite Hd.
Qed.

(** ** [split] and [join] *)

Lemma split_char_cons c s : ∃ w ws, split_char c s = w :: ws.
Proof.
  destruct s as [|d s]; simpl; [eauto|]. case_match; [eauto|].
  destruct (split_char c s); eauto.
Qed.

Lemma join_split_char c s : join (str1 c) (split_char c s) = s.
Proof.
  induction s as [|d s IH]; [done|]. simpl. destruct (split_char_cons c s) as (w & ws & Hw).
  rewrite Hw in *. destruct (Ascii.eqb_spec c d) as [->|Hne].
  - change (join (str1 d) ("" :: w :: ws)) with ("" +:+ str1 d +:+ join (str1 d) (w :: ws)).
    by rewrite IH.
  - destruct ws as [|w' ws]; [simpl in *; by subst|].
    change (join (str1 c) (String d w :: w' :: ws))
      with (String d (join (str1 c) (w :: w' :: ws))).
    by rewrite IH.
Qed.

Lemma join_cons2 sep w w' ws : join sep (w :: w' :: ws) = w +:+ sep +:+ join sep (w' :: ws).
Proof. done. Qed.

Definition free_of (c : ascii) : string → bool := all_chars (λ d, negb (Ascii.eqb c d)).

Lemma split_char_free c s w : w ∈ split_char c s → free_of c w = true.
Proof.
  revert w. induction s as [|d s IH]; intros w; simpl.
  - by intros ->%list_elem_of_singleton.
  - destruct (Ascii.eqb c d) eqn:E.
    + intros [->|Hw]%elem_of_cons; [done|auto].
    + destruct (split_char c s) as [|v vs] eqn:Es.
      * intros ->%list_elem_of_singleton. unfold free_of. simpl. by rewrite E.
      * intros [->|Hw]%elem_of_cons; [|apply IH; by right].
        unfold free_of. simpl. rewrite E. simpl. apply IH. left.
Qed.

Lemma split_char_nonempty c s : split_char c s ≠ [].
Proof. destruct s as [|d s]; simpl; [done|]. destruct (Ascii.eqb c d); [done|]. by destruct (split_char c s). Qed.

Lemma split_char_app c w s : free_of c w = true →
  split_char c (w +:+ String c s) = w :: split_char c s.
Proof.
  induction w as [|d w IH]; intros Hw; simpl; [by rewrite Ascii.eqb_refl|].
  unfold free_of in Hw. simpl in Hw. apply andb_true_iff in Hw as [Hd Hw]. apply negb_true_iff in Hd.
  rewrite Hd. by rewrite IH.
Qed.

Lemma split_char_word c w : free_of c w = true → split_char c w = [w].
Proof.
  induction w as [|d w IH]; intros Hw; simpl; [done|].
  unfold free_of in Hw. simpl in Hw. apply andb_true_iff in Hw as [Hd Hw]. apply negb_true_iff in Hd.
  rewrite Hd. by rewrite IH.
Qed.

(** Splitting undoes joining. *)
Lemma split_join c ws : ws ≠ [] → (∀ w, w ∈ ws → free_of c w = true) → split_char c (join (str1 c) ws) = ws.
Proof.
  induction ws as [|w ws IH]; [done|]. intros _ Hws. destruct ws as [|v ws].
  - apply split_char_word, Hws. left.
  - change (join (str1 c) (w :: v :: ws)) with (w +:+ String c (join (str1 c) (v :: ws))).
    rewrite split_char_app by (apply Hws; left). f_equal. apply IH; [done|]. intros u Hu. apply Hws. by right.
Qed.
