(* ===== verification/IpAddress.v ===== *)
(** * The [ipaddress] module

    The part of Python's [ipaddress] the program relies on: textual IPv4 and
    IPv6 addresses ([ip_address]), CIDR networks ([ip_network(_, strict=False)])
    and containment.  Every refusal of the library is a [ValueError]; here it
    is [None]. *)
From S2P Require Import Prelude PyStr.
From Stdlib Require Import Ascii.
Open Scope Z_scope.

Inductive address :=
| V4 (ip : Z)
| V6 (ip : Z) (scope_id : option string).

Record network := Network { net_v4 : bool; net_base : Z; net_prefixlen : Z }.

#[export] Instance address_eq_dec : EqDecision address.
Proof. solve_decision. Defined.

(** ** IPv4 *)

(** [_parse_octet]: one to three ASCII digits, no leading zero, at most 255. *)
Definition parse_octet (s : string) : option Z :=
  if negb (isascii s && isdigit s) then None
  else if 3 <? len s then None
  else if negb (String.eqb s "0") && startswith s "0" then None
  else let v := dec_value s in if 255 <? v then None else Some v.

Fixpoint octets_value (acc : Z) (octets : list string) : option Z :=
  match octets with
  | [] => Some acc
  | o :: rest => v ← parse_octet o; octets_value (acc * 256 + v) rest
  end.

Definition ipv4_int_of_string (s : string) : option Z :=
  let octets := split_char "."%char s in
  if (length octets =? 4)%nat then octets_value 0 octets else None.

Definition ipv4_address (s : string) : option Z :=
  if contains "/" s then None else ipv4_int_of_string s.

(** ** IPv6 *)

Definition hex_val (c : ascii) : option Z :=
  if in_range 48 57 c then Some (code c - 48)
  else if in_range 97 102 c then Some (code c - 87)
  else if in_range 65 70 c then Some (code c - 55)
  else None.

Fixpoint hex_value (acc : Z) (s : string) : option Z :=
  match s with
  | EmptyString => Some acc
  | String c s' => v ← hex_val c; hex_value (acc * 16 + v) s'
  end.

(** [_parse_hextet]: one to four hexadecimal digits. *)
Definition parse_hextet (s : string) : option Z :=
  if String.eqb s "" || (4 <? len s) then None else hex_value 0 s.

Fixpoint hextets_value (acc : Z) (parts : list string) : option Z :=
  match parts with
  | [] => Some acc
  | p :: rest => v ← parse_hextet p; hextets_value (acc * 65536 + v) rest
  end.

(** An address ending in IPv4 notation: the last part becomes two hextets,
    printed back in hexadecimal as the library does. *)
Definition hex_digit (z : Z) : ascii := if z <? 10 then chr (48 + z) else chr (87 + z).
Fixpoint hex_of_Z (fuel : nat) (z : Z) (acc : string) : string :=
  match fuel with
  | O => acc
  | S f =>
      let acc' := String (hex_digit (z mod 16)) acc in
      if z <? 16 then acc' else hex_of_Z f (z / 16) acc'
  end.
(** ['%x' % z] for a 16-bit value. *)
Definition format_x (z : Z) : string := hex_of_Z 4 z EmptyString.

Definition expand_ipv4_suffix (parts : list string) : option (list string) :=
  match last parts with
  | Some p =>
      if contains "." p then
        ip ← ipv4_address p;
        Some (removelast parts ++
              [format_x (Z.land (Z.shiftr ip 16) 65535); format_x (Z.land ip 65535)])
      else Some parts
  | None => Some parts
  end.

(** The indices, strictly between the ends, of the empty parts. *)
Definition inner_empties (parts : list string) : list nat :=
  List.filter (λ i, match parts !! i with Some p => String.eqb p "" | None => false end)
         (seq 1 (length parts - 2)).

Definition part_empty (parts : list string) (i : nat) : bool :=
  match parts !! i with Some p => String.eqb p "" | None => true end.

Definition ipv6_int_of_parts (parts : list string) : option Z :=
  let n := length parts in
  match inner_empties parts with
  | [] =>
      if negb (n =? 8)%nat || part_empty parts 0 || part_empty parts (n - 1) then None
      else hextets_value 0 parts
  | [skip] =>
      let hi0 := skip in
      let lo0 := (n - skip - 1)%nat in
      let lead := part_empty parts 0 in
      let trail := part_empty parts (n - 1) in
      let hi := if lead then (hi0 - 1)%nat else hi0 in
      let lo := if trail then (lo0 - 1)%nat else lo0 in
      if (lead && negb (hi =? 0)%nat) || (trail && negb (lo =? 0)%nat) then None
      else if (8 <=? hi + lo)%nat then None
      else
        let skipped := (8 - (hi + lo))%nat in
        v ← hextets_value 0 (take hi parts);
        hextets_value (Z.shiftl v (16 * Z.of_nat skipped)) (drop (n - lo) parts)
  | _ => None
  end.

Definition ipv6_int_of_string (s : string) : option Z :=
  if String.eqb s "" then None
  else
    let parts := split_char ":"%char s in
    if (length parts <? 3)%nat then None
    else
      parts' ← expand_ipv4_suffix parts;
      if (9 <? length parts')%nat then None else ipv6_int_of_parts parts'.

(** [_split_scope_id]: at most one ['%'], not followed by nothing. *)
Definition split_scope_id (s : string) : option (string * option string) :=
  match cut "%" s with
  | (a, None) => Some (a, None)
  | (a, Some sc) =>
      if String.eqb sc "" || contains "%" sc then None else Some (a, Some sc)
  end.

Definition ipv6_address (s : string) : option address :=
  if contains "/" s then None
  else
    '(a, sc) ← split_scope_id s;
    ip ← ipv6_int_of_string a;
    Some (V6 ip sc).

(** ** Entry points *)

Definition ip_address (s : string) : option address :=
  match ipv4_address s with
  | Some ip => Some (V4 ip)
  | None => ipv6_address s
  end.

Definition all_ones (bits : Z) : Z := Z.shiftl 1 bits - 1.

Definition netmask (bits prefixlen : Z) : Z :=
  Z.shiftl (all_ones prefixlen) (bits - prefixlen).

(** [_prefix_from_prefix_string] *)
Definition prefix_from_string (bits : Z) (s : string) : option Z :=
  if negb (isascii s && isdigit s) then None
  else
    v ← int_of_string s;
    if bits <? v then None else Some v.

Fixpoint trailing_zeros (fuel : nat) (z : Z) : Z :=
  match fuel with
  | O => 0
  | S f => if Z.testbit z 0 then 0 else 1 + trailing_zeros f (Z.shiftr z 1)
  end.

(** [_prefix_from_ip_int], for IPv4 masks. *)
Definition prefix_from_ip_int (ip : Z) : option Z :=
  let tz := trailing_zeros 32 ip in
  let p := 32 - tz in
  if Z.shiftr ip tz =? all_ones p then Some p else None.

(** [_prefix_from_ip_string]: a dotted netmask, else a dotted hostmask. *)
Definition prefix_from_ip_string (s : string) : option Z :=
  ip ← ipv4_int_of_string s;
  match prefix_from_ip_int ip with
  | Some p => Some p
  | None => prefix_from_ip_int (Z.lxor ip (all_ones 32))
  end.

(** [_split_optional_netmask] *)
Definition split_netmask (s : string) : option (string * option string) :=
  match split_char "/"%char s with
  | [a] => Some (a, None)
  | [a; m] => Some (a, Some m)
  | _ => None
  end.

Definition ipv4_network (s : string) : option network :=
  '(a, m) ← split_netmask s;
  ip ← ipv4_address a;
  p ← match m with
      | None => Some 32
      | Some m =>
          match prefix_from_string 32 m with
          | Some p => Some p
          | None => prefix_from_ip_string m
          end
      end;
  Some (Network true (Z.land ip (netmask 32 p)) p).

Definition ipv6_network (s : string) : option network :=
  '(a, m) ← split_netmask s;
  a' ← ipv6_address a;
  p ← match m with None => Some 128 | Some m => prefix_from_string 128 m end;
  match a' with
  | V6 ip _ => Some (Network false (Z.land ip (netmask 128 p)) p)
  | V4 _ => None
  end.

(** [ip_network(s, strict=False)]: host bits are masked off. *)
Definition ip_network (s : string) : option network :=
  match ipv4_network s with
  | Some n => Some n
  | None => ipv6_network s
  end.

(** [addr in net]: same version, same leading bits.  A scope id plays no part. *)
Definition in_network (a : address) (n : network) : bool :=
  match a, net_v4 n with
  | V4 ip, true => Z.land ip (netmask 32 (net_prefixlen n)) =? net_base n
  | V6 ip _, false => Z.land ip (netmask 128 (net_prefixlen n)) =? net_base n
  | _, _ => false
  end.

(** ** [str(IPv6Address)] *)

Definition hextets_of_int (ip : Z) : list string :=
  map (λ i, format_x (Z.land (Z.shiftr ip (16 * (7 - Z.of_nat i))) 65535)) (seq 0 8).

(** The loop of [_compress_hextets]: index, current run, best run. *)
Fixpoint best_zero_run (i run_start run_len best_start best_len : nat) (hextets : list string)
    : nat * nat :=
  match hextets with
  | [] => (best_start, best_len)
  | h :: rest =>
      if String.eqb h "0" then
        let start := if (run_len =? 0)%nat then i else run_start in
        let n := S run_len in
        if (best_len <? n)%nat then best_zero_run (S i) start n start n rest
        else best_zero_run (S i) start n best_start best_len rest
      else best_zero_run (S i) 0 0 best_start best_len rest
  end.

Definition compress_hextets (hextets : list string) : list string :=
  let '(start, n) := best_zero_run 0 0 0 0 0 hextets in
  if (1 <? n)%nat then
    let stop := (start + n)%nat in
    (if (start =? 0)%nat then [""] else [])
    ++ take start hextets ++ [""] ++ drop stop hextets
    ++ (if (stop =? length hextets)%nat then [""] else [])
  else hextets.

Definition ipv6_to_string (ip : Z) : string := join ":" (compress_hextets (hextets_of_int ip)).
