(* ===== verification/Policy.v ===== *)
(** * [policy.py]: authorization and scope evaluation

    One definition per function of [src/backend/policy.py].  [int] raises a
    [ValueError] on the non-decimal digits [str.isdigit] lets through, so
    everything that reads a port returns a [result]. *)
From S2P Require Import Prelude PyStr IpAddress.
From Stdlib Require Import Ascii.

Definition ALLOWED := "allowed".
Definition ENGAGEMENT_NOT_ACTIVE := "engagement_not_active".
Definition STOP_WORK_ACTIVE := "stop_work_active".
Definition AUTHORIZATION_MISSING := "authorization_missing".
Definition AUTHORIZATION_NOT_ACTIVE := "authorization_not_active".
Definition OUTSIDE_TESTING_WINDOW := "outside_testing_window".
Definition CAPABILITY_PROHIBITED := "capability_prohibited".
Definition TARGET_EXCLUDED := "target_excluded".
Definition TARGET_OUT_OF_SCOPE := "target_out_of_scope".
Definition SCOPE_AMBIGUOUS := "scope_ambiguous".

Definition SELF_AUTHORIZING_TYPES : list string := ["bug_bounty"].
Definition ACTIVE_ENGAGEMENT_STATUS := "active".
Definition ACTIVE_AUTHORIZATION_STATUS := "active".

(** A [datetime]: wall-clock microseconds and, when aware, the UTC offset in
    microseconds. *)
Record datetime := Datetime { dt_wall : Z; dt_tzinfo : option Z }.

Record ScopeRule := MkScopeRule { value : string; kind : string; excluded : bool }.

Record AuthorizationSnapshot := MkAuthorizationSnapshot {
  auth_status : string;
  window_start : option datetime;
  window_end : option datetime;
  permitted_capabilities : list string;
}.

Record PolicyInput := MkPolicyInput {
  engagement_status : string;
  engagement_type : string;
  target : string;
  capability : string;
  now : datetime;
  stop_work : bool;
  authorization : option AuthorizationSnapshot;
  scope_rules : list ScopeRule;
}.

Record PolicyDecision := MkPolicyDecision {
  allowed : bool;
  reason : string;
  detail : string;
}.

#[export] Instance datetime_eq_dec : EqDecision datetime.
Proof. solve_decision. Defined.
#[export] Instance ScopeRule_eq_dec : EqDecision ScopeRule.
Proof. solve_decision. Defined.
#[export] Instance PolicyDecision_eq_dec : EqDecision PolicyDecision.
Proof. solve_decision. Defined.

(** A naive datetime is read as UTC; two aware datetimes compare by instant. *)
Definition _as_utc (d : datetime) : datetime :=
  match dt_tzinfo d with Some _ => d | None => Datetime (dt_wall d) (Some 0) end.
Definition instant (d : datetime) : Z := dt_wall d - default 0 (dt_tzinfo d).
Definition dt_ltb (a b : datetime) : bool := instant a <? instant b.

(** The remainder of a target after its scheme. *)
Definition after_scheme (s : string) : string := default s (after "://" s).

Definition is_ip (host : string) : bool := bool_decide (is_Some (ip_address host)).

Definition normalize_target (target : string) : string * string :=
  let raw := strip target in
  if String.eqb raw "" then ("", "")
  else
    let remainder := after_scheme raw in
    let remainder :=
      if contains "@" (before "/" remainder)
      then default remainder (after "@" remainder) else remainder in
    let host := before "/" remainder in
    let stripped :=
      if startswith host "[" then
        match cut "]" host with
        | (upto, Some _) => Some (drop_string 1 upto)
        | (_, None) => None
        end
      else if (count_char ":"%char host =? 1)%nat then Some (before ":" host)
      else Some host in
    match stripped with
    | None => ("", "")
    | Some host =>
        let host := lower (rstrip_char "."%char host) in
        if String.eqb host "" then ("", "")
        else if is_ip host then ("ip", host)
        else if contains " " host || negb (contains "." host) then ("", "")
        else ("domain", host)
    end.

Definition _host_matches (rule_value host : string) : bool :=
  let rule := lower (rstrip_char "."%char (strip rule_value)) in
  if String.eqb rule "" then false
  else if startswith rule "*." then endswith host ("." +:+ drop_string 2 rule)
  else if startswith rule "*" then
    let suffix := drop_string 1 rule in
    String.eqb host suffix || endswith host ("." +:+ suffix)
  else String.eqb host rule.

Definition _excludes_host (rule_value host : string) : bool :=
  let rule := lower (rstrip_char "."%char (strip rule_value)) in
  if String.eqb rule "" then false
  else if startswith rule "*." then endswith host ("." +:+ drop_string 2 rule)
  else
    let rule := if startswith rule "*" then drop_string 1 rule else rule in
    String.eqb host rule || endswith host ("." +:+ rule).

(** [int(s)] where [s.isdigit()]. *)
Definition int_port (s : string) : result (option Z) :=
  match int_of_string s with Some p => Ok (Some p) | None => Raise ValueError end.

Definition _scheme_and_port (target : string) : result (string * option Z) :=
  let raw := strip target in
  let '(scheme, remainder) :=
    match cut "://" raw with
    | (s, Some r) => (lower s, r)
    | (_, None) => ("", raw)
    end in
  let authority := before "/" remainder in
  let authority := if contains "@" authority then default authority (after "@" authority)
                   else authority in
  let? port :=
    if startswith authority "[" then
      let rest := default "" (after "]" authority) in
      if startswith rest ":" && isdigit (drop_string 1 rest)
      then int_port (drop_string 1 rest) else Ok None
    else if (count_char ":"%char authority =? 1)%nat then
      let tail := default "" (after ":" authority) in
      if isdigit tail then int_port tail else Ok None
    else Ok None
  in
  let port :=
    match port with
    | Some _ => port
    | None => if String.eqb scheme "https" then Some 443
              else if String.eqb scheme "http" then Some 80 else None
    end in
  Ok (scheme, port).

Definition _path_within (target_path rule_path : string) : bool :=
  if String.eqb target_path rule_path then true
  else
    let prefix := if endswith rule_path "/" then rule_path else rule_path +:+ "/" in
    startswith target_path prefix.

Definition _path_of (target : string) : string :=
  let remainder := after_scheme target in
  match after "/" remainder with
  | None => ""
  | Some path => "/" +:+ lower (rstrip_char "/"%char (before "?" path))
  end.

Definition _rule_matches (rule : ScopeRule) (kind_ value_ raw_target : string) : result bool :=
  let rule_value := lower (strip (value rule)) in
  if String.eqb rule_value "" then Ok false
  else if String.eqb (kind rule) "cidr" then
    if negb (String.eqb kind_ "ip") then Ok false
    else match ip_address value_, ip_network rule_value with
         | Some a, Some n => Ok (in_network a n)
         | _, _ => Ok false
         end
  else if String.eqb (kind rule) "url" || String.eqb (kind rule) "api" then
    let rule_host := (normalize_target rule_value).2 in
    if negb (String.eqb rule_host "") && negb (String.eqb rule_host value_) then Ok false
    else
      let? '(rule_scheme, rule_port) := _scheme_and_port rule_value in
      let? '(target_scheme, target_port) := _scheme_and_port raw_target in
      if negb (String.eqb rule_scheme "") && negb (String.eqb rule_scheme target_scheme)
      then Ok false
      else if match rule_port with
              | None => false
              | Some p => negb (bool_decide (Some p = target_port))
              end then Ok false
      else
        let rule_path := _path_of rule_value in
        if String.eqb rule_path "" then Ok true
        else Ok (_path_within (_path_of raw_target) rule_path)
  else if String.eqb kind_ "ip" then Ok (String.eqb rule_value value_)
  else if excluded rule then Ok (_excludes_host rule_value value_)
  else Ok (_host_matches rule_value value_).

Definition deny (reason detail : string) : PolicyDecision := MkPolicyDecision false reason detail.

Definition evaluate_engagement (candidate : PolicyInput) : PolicyDecision :=
  if stop_work candidate then
    deny STOP_WORK_ACTIVE "Stop-work is engaged for this engagement."
  else if negb (String.eqb (engagement_status candidate) ACTIVE_ENGAGEMENT_STATUS) then
    deny ENGAGEMENT_NOT_ACTIVE
      ("Engagement status is '" +:+ engagement_status candidate +:+ "', not 'active'.")
  else
    let self_authorizing :=
      bool_decide (engagement_type candidate ∈ SELF_AUTHORIZING_TYPES) in
    let passed := MkPolicyDecision true ALLOWED "Engagement-level checks passed." in
    match authorization candidate with
    | None =>
        if negb self_authorizing then
          deny AUTHORIZATION_MISSING
            ("A '" +:+ engagement_type candidate
             +:+ "' engagement requires an authorization record.")
        else passed
    | Some auth =>
        if negb (String.eqb (auth_status auth) ACTIVE_AUTHORIZATION_STATUS) then
          deny AUTHORIZATION_NOT_ACTIVE
            ("Authorization status is '" +:+ auth_status auth +:+ "', not 'active'.")
        else
          let now := _as_utc (now candidate) in
          if match window_start auth with
             | Some w => dt_ltb now (_as_utc w) | None => false end
          then deny OUTSIDE_TESTING_WINDOW "The testing window has not opened yet."
          else if match window_end auth with
                  | Some w => dt_ltb (_as_utc w) now | None => false end
          then deny OUTSIDE_TESTING_WINDOW "The testing window has closed."
          else if negb (bool_decide (permitted_capabilities auth = []))
                  && negb (bool_decide (capability candidate ∈ permitted_capabilities auth))
          then deny CAPABILITY_PROHIBITED
                 ("Capability '" +:+ capability candidate
                  +:+ "' is not permitted by this authorization.")
          else passed
    end.

(** The first rule of the given polarity that matches, in rule order. *)
Fixpoint first_match (excl : bool) (rules : list ScopeRule) (kind_ value_ raw : string)
    : result (option ScopeRule) :=
  match rules with
  | [] => Ok None
  | rule :: rest =>
      if Bool.eqb (excluded rule) excl then
        let? m := _rule_matches rule kind_ value_ raw in
        if m then Ok (Some rule) else first_match excl rest kind_ value_ raw
      else first_match excl rest kind_ value_ raw
  end.

Definition evaluate (candidate : PolicyInput) : result PolicyDecision :=
  let gate := evaluate_engagement candidate in
  if negb (allowed gate) then Ok gate
  else
    let '(kind_, value_) := normalize_target (target candidate) in
    if String.eqb kind_ "" then
      Ok (deny SCOPE_AMBIGUOUS
            ("Target '" +:+ target candidate
             +:+ "' could not be resolved to a host, IP, or URL."))
    else
      let? excl := first_match true (scope_rules candidate) kind_ value_ (target candidate) in
      match excl with
      | Some rule =>
          Ok (deny TARGET_EXCLUDED ("Target matches exclusion '" +:+ value rule +:+ "'."))
      | None =>
          let? incl := first_match false (scope_rules candidate) kind_ value_ (target candidate) in
          match incl with
          | Some rule =>
              Ok (MkPolicyDecision true ALLOWED
                    ("Target matches in-scope rule '" +:+ value rule +:+ "'."))
          | None => Ok (deny TARGET_OUT_OF_SCOPE "No in-scope rule matches this target.")
          end
      end.

Definition with_target (c : PolicyInput) (t : string) : PolicyInput :=
  MkPolicyInput (engagement_status c) (engagement_type c) t (capability c) (now c)
    (stop_work c) (authorization c) (scope_rules c).

Fixpoint evaluate_targets (candidate : PolicyInput) (targets : list string)
    : result PolicyDecision :=
  match targets with
  | [] => Ok (MkPolicyDecision true ALLOWED "All targets are in scope.")
  | t :: rest =>
      let? decision := evaluate (with_target candidate t) in
      if negb (allowed decision) then Ok decision else evaluate_targets candidate rest
  end.

Definition evaluate_all (candidate : PolicyInput) (targets : list string)
    : result PolicyDecision :=
  let gate := evaluate_engagement candidate in
  if negb (allowed gate) then Ok gate else evaluate_targets candidate targets.

(** ** Engagement gates *)

Definition gates_open (c : PolicyInput) : Prop :=
  stop_work c = false ∧
  engagement_status c = "active" ∧
  match authorization c with
  | None => engagement_type c = "bug_bounty"
  | Some a =>
      auth_status a = "active" ∧
      (∀ w, window_start a = Some w → instant w <= instant (now c)) ∧
      (∀ w, window_end a = Some w → instant (now c) <= instant w) ∧
      (permitted_capabilities a = [] ∨ capability c ∈ permitted_capabilities a)
  end.

Lemma instant_as_utc d : instant (_as_utc d) = instant d.
Proof. destruct d as [w [tz|]]; reflexivity. Qed.

Lemma window_open_start a c :
  match window_start a with
  | Some w => dt_ltb (_as_utc (now c)) (_as_utc w) | None => false end = false ↔
  (∀ w, window_start a = Some w → instant w <= instant (now c)).
Proof.
  destruct (window_start a) as [w|]; [|naive_solver].
  unfold dt_ltb. rewrite !instant_as_utc, Z.ltb_ge. naive_solver.
Qed.

Lemma window_open_end a c :
  match window_end a with
  | Some w => dt_ltb (_as_utc w) (_as_utc (now c)) | None => false end = false ↔
  (∀ w, window_end a = Some w → instant (now c) <= instant w).
Proof.
  destruct (window_end a) as [w|]; [|naive_solver].
  unfold dt_ltb. rewrite !instant_as_utc, Z.ltb_ge. naive_solver.
Qed.

Lemma evaluate_engagement_allowed c :
  allowed (evaluate_engagement c) = true ↔ gates_open c.
Proof.
  unfold evaluate_engagement, gates_open.
  destruct (stop_work c); [simpl; naive_solver|].
  unfold ACTIVE_ENGAGEMENT_STATUS.
  destruct (String.eqb_spec (engagement_status c) "active"); simpl; [|naive_solver].
  destruct (authorization c) as [a|]; simpl.
  - unfold ACTIVE_AUTHORIZATION_STATUS.
    destruct (String.eqb_spec (auth_status a) "active"); simpl; [|naive_solver].
    rewrite <-window_open_start, <-window_open_end.
    repeat case_match; simpl in *; bool_simpl;
      rewrite ?andb_true_iff, ?andb_false_iff, ?negb_true_iff, ?negb_false_iff,
        ?bool_decide_eq_true, ?bool_decide_eq_false in *; naive_solver.
  - destruct (bool_decide_reflect (engagement_type c ∈ SELF_AUTHORIZING_TYPES)) as [Hin|Hin];
      unfold SELF_AUTHORIZING_TYPES in Hin; rewrite list_elem_of_singleton in Hin;
      simpl; naive_solver.
Qed.

(** A refusal by the gates does not depend on the target. *)
Lemma evaluate_engagement_with_target c t :
  evaluate_engagement (with_target c t) = evaluate_engagement c.
Proof. reflexivity. Qed.

(** ** Rule scans *)

Section FirstMatch.
Context (e : bool) (k v raw : string).

Definition no_match (rules : list ScopeRule) : Prop :=
  Forall (λ r, excluded r = e → _rule_matches r k v raw = Ok false) rules.

Lemma first_match_None rules : first_match e rules k v raw = Ok None ↔ no_match rules.
Proof.
  unfold no_match. induction rules as [|r rules IH]; simpl.
  { split; [by constructor|done]. }
  rewrite Forall_cons, <-IH. destruct (Bool.eqb_spec (excluded r) e) as [He|He]; [|naive_solver].
  destruct (_rule_matches r k v raw) as [[]|]; simpl; naive_solver.
Qed.

Lemma first_match_Some rules r :
  first_match e rules k v raw = Ok (Some r) ↔
  ∃ pre post, rules = pre ++ r :: post ∧ no_match pre ∧
    excluded r = e ∧ _rule_matches r k v raw = Ok true.
Proof.
  unfold no_match. induction rules as [|r0 rules IH]; simpl.
  { split; [done|]. intros (pre & post & Heq & _). by destruct pre. }
  assert (Hskip : excluded r0 ≠ e ∨ _rule_matches r0 k v raw = Ok false →
    (first_match e rules k v raw = Ok (Some r)) ↔
    ∃ pre post, r0 :: rules = pre ++ r :: post ∧
      Forall (λ r, excluded r = e → _rule_matches r k v raw = Ok false) pre ∧
      excluded r = e ∧ _rule_matches r k v raw = Ok true).
  { intros Hr0. rewrite IH. split.
    - intros (pre & post & -> & Hpre & He & Hm). exists (r0 :: pre), post.
      split_and!; [done| |done|done]. constructor; [naive_solver|done].
    - intros (pre & post & Heq & Hpre & He & Hm). destruct pre as [|r1 pre]; simplify_eq/=.
      + destruct Hr0; congruence.
      + apply Forall_cons in Hpre as [_ Hpre]. naive_solver. }
  destruct (Bool.eqb_spec (excluded r0) e) as [He|He]; [|apply Hskip; by left].
  destruct (_rule_matches r0 k v raw) as [[]|x] eqn:Hm; simpl.
  - split.
    + intros [= <-]. exists [], rules. by split_and!.
    + intros (pre & post & Heq & Hpre & _ & _). destruct pre as [|r1 pre]; simplify_eq/=; [done|].
      apply Forall_cons in Hpre as [Hbad _]. rewrite Hm in Hbad. by specialize (Hbad eq_refl).
  - apply Hskip. by right.
  - split; [done|]. intros (pre & post & Heq & Hpre & He' & Hm').
    destruct pre as [|r1 pre]; simplify_eq/=; [congruence|].
    apply Forall_cons in Hpre as [Hbad _]. rewrite Hm in Hbad. by specialize (Hbad eq_refl).
Qed.
End FirstMatch.

(** What it takes for one target to be in scope. *)
Definition in_scope (c : PolicyInput) : Prop :=
  let '(k, v) := normalize_target (target c) in
  k ≠ "" ∧
  no_match true k v (target c) (scope_rules c) ∧
  ∃ pre r post, scope_rules c = pre ++ r :: post ∧
    no_match false k v (target c) pre ∧
    excluded r = false ∧ _rule_matches r k v (target c) = Ok true.

(** Past the gates, only scope decides. *)
Lemma evaluate_past_gates c :
  allowed (evaluate_engagement c) = true →
  (∃ d, evaluate c = Ok d ∧ allowed d = true) ↔ in_scope c.
Proof.
  intros Eg. unfold evaluate, in_scope. rewrite Eg. simpl.
  destruct (normalize_target (target c)) as [k v].
  destruct (String.eqb_spec k "") as [->|Hk]; simpl.
  { split; [|naive_solver]. intros (d & [= <-] & Hd). done. }
  rewrite <-first_match_None.
  destruct (first_match true (scope_rules c) k v (target c)) as [[rx|]|x] eqn:Ex; simpl;
    [naive_solver| |naive_solver].
  pose proof (λ r, first_match_Some false k v (target c) (scope_rules c) r) as HS.
  destruct (first_match false (scope_rules c) k v (target c)) as [[r|]|x] eqn:Ei; simpl.
  - split; [|by eauto]. intros _. split_and!; [done..|].
    destruct (proj1 (HS r) eq_refl) as (pre & post & ?). eauto.
  - split; [naive_solver|]. intros (_ & _ & pre & r & post & Hr).
    by assert (Ok None = Ok (Some r)) by (apply HS; eauto).
  - split; [naive_solver|]. intros (_ & _ & pre & r & post & Hr).
    by assert (Raise x = Ok (Some r)) by (apply HS; eauto).
Qed.

(** C1. Deny by default, exclusions first: [evaluate] allows a target exactly
    when the engagement gates are open, the target resolves to a host or an
    address, no exclusion matches it, and some inclusion does. *)
Theorem evaluate_allows_iff c :
  (∃ d, evaluate c = Ok d ∧ allowed d = true) ↔ gates_open c ∧ in_scope c.
Proof.
  rewrite <-evaluate_engagement_allowed.
  destruct (allowed (evaluate_engagement c)) eqn:Eg; [rewrite evaluate_past_gates; naive_solver|].
  unfold evaluate. rewrite Eg. simpl.
  split; [intros (d & [= <-] & Hd); congruence|naive_solver].
Qed.

Lemma evaluate_targets_allows c ts :
  (∃ d, evaluate_targets c ts = Ok d ∧ allowed d = true) ↔
  Forall (λ t, ∃ d, evaluate (with_target c t) = Ok d ∧ allowed d = true) ts.
Proof.
  induction ts as [|t ts IH]; simpl; [naive_solver|].
  rewrite Forall_cons, <-IH.
  destruct (evaluate (with_target c t)) as [d|x]; simpl.
  - destruct (allowed d) eqn:Ed; simpl.
    + split; [by eauto|]. by intros [_ ?].
    + split; [intros (d' & [= <-] & ?); congruence|].
      intros [(d' & [= <-] & ?) _]. congruence.
  - split; [intros (d & ? & ?); congruence|]. intros [(d & ? & ?) _]. congruence.
Qed.

(** A job runs as a unit: [evaluate_all] allows a list of targets exactly
    when the gates are open and every single target is in scope; with no
    target only the gates decide. *)
Theorem evaluate_all_allows_iff c ts :
  (∃ d, evaluate_all c ts = Ok d ∧ allowed d = true) ↔
  gates_open c ∧ Forall (λ t, in_scope (with_target c t)) ts.
Proof.
  unfold evaluate_all. rewrite <-evaluate_engagement_allowed.
  destruct (allowed (evaluate_engagement c)) eqn:Eg; simpl.
  2: { split; [intros (d & [= <-] & Hd); congruence|naive_solver]. }
  rewrite evaluate_targets_allows.
  assert (∀ t, (∃ d, evaluate (with_target c t) = Ok d ∧ allowed d = true) ↔
               in_scope (with_target c t)) as Ht.
  { intros t. by apply evaluate_past_gates. }
  setoid_rewrite Ht. naive_solver.
Qed.

(** ** Host rules *)

Definition host_rule (rule_value : string) : string :=
  lower (rstrip_char "."%char (strip rule_value)).

Lemma host_matches_excludes rv h : _host_matches rv h = true → _excludes_host rv h = true.
Proof.
  unfold _host_matches, _excludes_host.
  destruct (String.eqb _ ""); [done|]. destruct (startswith _ "*."); [done|].
  destruct (startswith _ "*"); [done|]. intros ->. done.
Qed.

Lemma endswith_app t p : endswith (t +:+ p) p = true.
Proof. apply endswith_spec. by exists t. Qed.

(** Suffixes match at label boundaries only. *)
Lemma sibling_no_suffix q base :
  q ≠ "" → endswith q "." = false →
  String.eqb (q +:+ base) base = false ∧ endswith (q +:+ base) ("." +:+ base) = false.
Proof.
  intros Hq Hdot. split.
  - apply String.eqb_neq. intros Heq. apply Hq. apply (app_inj_r q "" base). done.
  - destruct (endswith (q +:+ base) ("." +:+ base)) eqn:E; [|done]. apply endswith_spec in E as [t Ht].
    rewrite app_assoc_string in Ht. apply app_inj_r in Ht. subst q.
    by rewrite endswith_app in Hdot.
Qed.

(** No substring matching: a rule for [base], [*base] or [*.base] neither
    includes nor excludes a host that merely ends in the same characters
    ([notacme.com] against [acme.com]). *)
Theorem host_rule_no_substring rv base q :
  host_rule rv ∈ [base; "*" +:+ base; "*." +:+ base] →
  startswith base "*" = false → startswith base "." = false →
  q ≠ "" → endswith q "." = false →
  _host_matches rv (q +:+ base) = false ∧ _excludes_host rv (q +:+ base) = false.
Proof. 
  intros Hrv Hstar Hb Hq Hdot. destruct (sibling_no_suffix q base Hq Hdot) as [Heq Hend].
  assert (_excludes_host rv (q +:+ base) = false) as Hex.
  { unfold _excludes_host. fold (host_rule rv).
    change ("." +:+ base) with (String "." base) in Hend.
    destruct (String.eqb_spec (host_rule rv) "") as [|Hne]; [done|].
    rewrite !elem_of_cons in Hrv. destruct Hrv as [Hr|[Hr|[Hr|Hr]]]; [..|by inversion Hr]; rewrite Hr.
    - assert (startswith base "*." = false) as ->.
      { destruct base as [|c base]; [done|]. simpl in Hstar |- *.
        rewrite andb_true_r in Hstar. by rewrite Hstar. }
      rewrite Hstar, Heq. exact Hend.
    - rewrite app_String_l, app_empty_l, !startswith_cons, Hb. simpl.
      rewrite Heq. exact Hend.
    - rewrite !app_String_l, app_empty_l, !startswith_cons. simpl. exact Hend. }
  split; [|done]. destruct (_host_matches rv (q +:+ base)) eqn:E; [|done].
  apply host_matches_excludes in E. congruence.
Qed.

Lemma host_rule_no_substring_witness :
  host_rule "*Acme.com." ∈ ["acme.com"; "*" +:+ "acme.com"; "*." +:+ "acme.com"] ∧
  _host_matches "*Acme.com." ("not" +:+ "acme.com") = false ∧
  _excludes_host "*Acme.com." ("not" +:+ "acme.com") = false.
Proof.
  assert (Hr : host_rule "*Acme.com." ∈ ["acme.com"; "*" +:+ "acme.com"; "*." +:+ "acme.com"])
    by (vm_compute; repeat constructor).
  split; [exact Hr|].
  exact (host_rule_no_substring "*Acme.com." "acme.com" "not" Hr eq_refl eq_refl
           (λ E : "not" = "", match E with end) eq_refl).
Defined.

(** Widening is one-sided: whatever text an operator writes, the hosts it
    covers as an inclusion are covered by it as an exclusion; so turning an
    inclusion into an exclusion never leaves a formerly admitted host outside
    the carve-out. *)
Theorem exclusion_covers_inclusion v d h raw :
  _rule_matches (MkScopeRule v d false) "domain" h raw = Ok true →
  _rule_matches (MkScopeRule v d true) "domain" h raw = Ok true.
Proof.
  unfold _rule_matches. cbn [value kind excluded].
  destruct (String.eqb _ ""); [done|]. destruct (String.eqb d "cidr"); [done|].
  destruct (String.eqb d "url" || String.eqb d "api"); [done|].
  destruct (String.eqb "domain" "ip"); [done|]. intros [= Hm].
  by rewrite host_matches_excludes.
Qed.

Lemma exclusion_covers_inclusion_witness :
  _rule_matches (MkScopeRule "*.acme.com" "domain" true) "domain" "api.acme.com" "api.acme.com"
  = Ok true.
Proof. apply exclusion_covers_inclusion. vm_compute. reflexivity. Defined.

(** ** URL rules *)

Lemma path_within_spec t r :
  _path_within t r = true ↔
  t = r ∨ ∃ rest, t = (if endswith r "/" then r else r +:+ "/") +:+ rest.
Proof.
  unfold _path_within. destruct (String.eqb_spec t r); [naive_solver|].
  rewrite startswith_spec. naive_solver.
Qed.

Definition is_url_rule (r : ScopeRule) : bool :=
  String.eqb (kind r) "url" || String.eqb (kind r) "api".

(** A URL or API rule binds the listener and the path: it matches only a
    target with the rule's host, the rule's scheme, the rule's effective port
    (443 and 80 when the scheme leaves it out) and a path equal to the rule's
    or a segment beneath it. *)
Theorem url_rule_matches r k v raw :
  is_url_rule r = true →
  _rule_matches r k v raw = Ok true →
  let rv := lower (strip (value r)) in
  rv ≠ "" ∧
  ((normalize_target rv).2 = "" ∨ (normalize_target rv).2 = v) ∧
  ∃ rs rp ts tp,
    _scheme_and_port rv = Ok (rs, rp) ∧ _scheme_and_port raw = Ok (ts, tp) ∧
    (rs = "" ∨ rs = ts) ∧ (rp = None ∨ rp = tp) ∧
    (_path_of rv = "" ∨ _path_of raw = _path_of rv ∨
     ∃ rest, _path_of raw =
       (if endswith (_path_of rv) "/" then _path_of rv else _path_of rv +:+ "/") +:+ rest).
Proof.
  unfold is_url_rule, _rule_matches. intros Hk.
  destruct (String.eqb_spec (lower (strip (value r))) "") as [|Hne]; [done|].
  destruct (String.eqb_spec (kind r) "cidr") as [Hc|_].
  { by rewrite Hc in Hk. }
  rewrite Hk.
  destruct (String.eqb_spec (normalize_target (lower (strip (value r)))).2 "") as [Hh|Hh]; simpl;
  destruct (String.eqb_spec (normalize_target (lower (strip (value r)))).2 v) as [Hv|Hv]; simpl;
    try done.
  all: destruct (_scheme_and_port (lower (strip (value r)))) as [[rs rp]|]; simpl; [|done].
  all: destruct (_scheme_and_port raw) as [[ts tp]|]; simpl; [|done].
  all: destruct (String.eqb_spec rs "") as [Hrs|Hrs]; simpl;
       destruct (String.eqb_spec rs ts) as [Hts|Hts]; simpl; try done.
  all: assert (Hp : ∀ X Y : result bool,
         (if match rp with None => false | Some p => negb (bool_decide (Some p = tp)) end
          then Ok false else X) = Ok true → X = Ok true ∧ (rp = None ∨ rp = tp))
       by (intros X _; destruct rp as [p|]; [|by auto];
           destruct (bool_decide_reflect (Some p = tp)); simpl; intros; [by auto|done]).
  all: intros [Hpath Hport]%Hp; try exact (Ok true).
  all: split; [done|]; split; [by auto|]; exists rs, rp, ts, tp.
  all: split_and!; [done|done|by auto|done|].
  all: destruct (String.eqb_spec (_path_of (lower (strip (value r)))) ""); [by auto|].
  all: injection Hpath as Hpath; apply path_within_spec in Hpath; tauto.
Qed.

Lemma url_rule_matches_witness :
  let r := MkScopeRule "https://api.acme.com/v1/admin" "url" false in
  is_url_rule r = true ∧
  _rule_matches r "domain" "api.acme.com" "https://api.acme.com/v1/admin/users" = Ok true ∧
  _rule_matches r "domain" "api.acme.com" "https://api.acme.com/v1/administrator" = Ok false ∧
  ((normalize_target (lower (strip (value r)))).2 = "" ∨
   (normalize_target (lower (strip (value r)))).2 = "api.acme.com").
Proof.
  cbv zeta.
  assert (Hm : _rule_matches (MkScopeRule "https://api.acme.com/v1/admin" "url" false)
    "domain" "api.acme.com" "https://api.acme.com/v1/admin/users" = Ok true)
    by (vm_compute; reflexivity).
  split; [reflexivity|]. split; [exact Hm|]. split; [vm_compute; reflexivity|].
  exact (proj1 (proj2 (url_rule_matches (MkScopeRule "https://api.acme.com/v1/admin" "url" false)
                         "domain" "api.acme.com" _ eq_refl Hm))).
Defined.

(** ** Ports and totality *)

Lemma int_port_safe s :
  isdigit s = true → int_safe s = true → int_port s = Ok (Some (dec_value s)).
Proof. intros Hd Hs. unfold int_port. by rewrite int_of_isdigit. Qed.

Lemma int_safe_empty : int_safe "" = true.
Proof. reflexivity. Qed.

Lemma scheme_and_port_total t : int_safe t = true → ∃ p, _scheme_and_port t = Ok p.
Proof.
  intros Ht. apply int_safe_strip in Ht. unfold _scheme_and_port.
  destruct (cut "://" (strip t)) as [s o] eqn:Ec.
  set (sr := match o with Some r => (lower s, r) | None => ("", strip t) end).
  assert (int_safe sr.2 = true) as Hr.
  { destruct (int_safe_cut _ _ _ _ Ec Ht) as [_ Ho]. subst sr. by destruct o. }
  destruct sr as [scheme remainder]. simpl in Hr.
  pose proof (int_safe_before "/" _ Hr) as Ha.
  set (auth := if contains "@" (before "/" remainder)
               then default (before "/" remainder) (after "@" (before "/" remainder))
               else before "/" remainder).
  assert (int_safe auth = true) as Hauth.
  { subst auth. destruct (contains _ _); auto with int_safe. }
  clearbody auth. clear Ha.
  pose proof (int_safe_after "]" auth "" Hauth int_safe_empty) as Hrest.
  pose proof (int_safe_after ":" auth "" Hauth int_safe_empty) as Htail.
  pose proof (int_safe_drop 1 _ Hrest) as Hdrop.
  destruct (startswith auth "[").
  - destruct (isdigit (drop_string 1 _)) eqn:Ed.
    + rewrite (int_port_safe _ Ed Hdrop). destruct (startswith _ ":"); simpl; eauto.
    + rewrite andb_false_r. simpl. eauto.
  - destruct (count_char ":" auth =? 1)%nat; [|simpl; eauto].
    destruct (isdigit _) eqn:Ed; [|simpl; eauto].
    rewrite (int_port_safe _ Ed Htail). simpl. eauto.
Qed.

Lemma rule_matches_total r k v raw :
  int_safe (value r) = true → int_safe raw = true → ∃ b, _rule_matches r k v raw = Ok b.
Proof.
  intros Hr Hraw. apply int_safe_strip, int_safe_lower in Hr.
  unfold _rule_matches.
  destruct (scheme_and_port_total _ Hr) as [[rs rp] ->].
  destruct (scheme_and_port_total _ Hraw) as [[ts tp] ->]. simpl.
  repeat case_match; eauto.
Qed.

Lemma first_match_total e rules k v raw :
  Forall (λ r, int_safe (value r) = true) rules → int_safe raw = true →
  ∃ o, first_match e rules k v raw = Ok o.
Proof.
  intros Hr Hraw. induction Hr as [|r rules Hr _ [o IH]]; simpl; [eauto|].
  destruct (rule_matches_total r k v raw Hr Hraw) as [b ->]. simpl.
  destruct (Bool.eqb _ _); [|eauto]. destruct b; eauto.
Qed.

(** C40. The evaluator answers: on strings whose digits are all decimal and
    that stay within [int]'s length limit, [evaluate] returns a decision for
    every candidate instead of raising. *)
Theorem evaluate_total c :
  Forall (λ r, int_safe (value r) = true) (scope_rules c) →
  int_safe (target c) = true →
  ∃ d, evaluate c = Ok d.
Proof.
  intros Hr Ht. unfold evaluate. destruct (allowed _); simpl; [|eauto].
  destruct (normalize_target (target c)) as [k v]. destruct (String.eqb k ""); [eauto|].
  destruct (first_match_total true _ k v _ Hr Ht) as [[rx|] ->]; simpl; [eauto|].
  destruct (first_match_total false _ k v _ Hr Ht) as [[ri|] ->]; simpl; eauto.
Qed.

Definition sample_input (t : string) (rules : list ScopeRule) : PolicyInput :=
  MkPolicyInput "active" "bug_bounty" t "httpx" (Datetime 0 None) false None rules.

Lemma evaluate_total_witness :
  ∃ d, evaluate (sample_input "https://api.acme.com:8443/"
                   [MkScopeRule "https://api.acme.com:8443" "url" false]) = Ok d.
Proof.
  apply evaluate_total; vm_compute; repeat constructor.
Defined.

(** The condition on digits is needed: a port written with a superscript digit
    satisfies [str.isdigit] and is refused by [int], so the evaluator raises
    instead of denying. *)
Definition superscript_target : string := "http://acme.com:" +:+ str1 (chr 178).

Theorem evaluate_superscript_port_raises :
  evaluate (sample_input superscript_target [MkScopeRule "https://acme.com" "url" false])
  = Raise ValueError.
Proof. vm_compute. reflexivity. Qed.

(** ** Target normalisation *)

(** What is left of [normalize_target] once the host is isolated. *)
Definition classify_host (host : string) : string * string :=
  let host := lower (rstrip_char "."%char host) in
  if String.eqb host "" then ("", "")
  else if is_ip host then ("ip", host)
  else if contains " " host || negb (contains "." host) then ("", "")
  else ("domain", host).

Lemma normalize_bare_host h :
  all_chars (plain host_delims) h = true → normalize_target h = classify_host h.
Proof.
  intros Hh. unfold normalize_target. rewrite strip_none by solve_chars.
  destruct (String.eqb_spec h "") as [->|Hne]; [reflexivity|].
  assert (after_scheme h = h) as ->.
  { unfold after_scheme, after. rewrite cut_absent by solve_chars. done. }
  assert (before "/" h = h) as ->.
  { unfold before. rewrite cut_absent by solve_chars. done. }
  assert (contains "@" h = false) as ->.
  { unfold contains, after. rewrite cut_absent by solve_chars. done. }
  assert (before "/" h = h) as ->.
  { unfold before. rewrite cut_absent by solve_chars. done. }
  assert (startswith h "[" = false) as ->.
  { destruct h as [|c h]; [done|].
    assert (all_chars (λ d, negb (Ascii.eqb "[" d)) (String c h) = true) as Hb by solve_chars.
    simpl in Hb |- *. apply andb_true_iff in Hb as [Hb _].
    apply negb_true_iff in Hb. by rewrite Hb. }
  rewrite count_char_absent by solve_chars. reflexivity.
Qed.

(** Scheme, credentials, port and path take no part in a target's
    identity: a full URL normalises to what its bare host normalises to. *)
Theorem normalize_target_url scheme user host port path :
  all_chars (plain [":"]%char) scheme = true →
  all_chars (plain ["/"; "@"]%char) user = true →
  all_chars (plain host_delims) host = true →
  all_chars (plain ["/"; "@"; ":"]%char) port = true →
  all_chars (plain []) path = true →
  normalize_target (scheme +:+ "://" +:+ user +:+ "@" +:+ host +:+ ":" +:+ port +:+ "/" +:+ path)
  = normalize_target host.
Proof.
  intros Hs Hu Hh Hp Hpath. rewrite (normalize_bare_host host Hh).
  set (hp := host +:+ ":" +:+ port). set (auth := user +:+ "@" +:+ hp).
  set (rem := auth +:+ "/" +:+ path).
  assert (Hrem : user +:+ "@" +:+ host +:+ ":" +:+ port +:+ "/" +:+ path = rem).
  { unfold rem, auth, hp. by rewrite <-!app_assoc_string. }
  assert (Hrem' : rem = user +:+ "@" +:+ (hp +:+ "/" +:+ path)).
  { unfold rem, auth. by rewrite <-!app_assoc_string. }
  rewrite Hrem. unfold normalize_target.
  rewrite strip_none by (rewrite <-Hrem; solve_chars).
  assert (String.eqb (scheme +:+ "://" +:+ rem) "" = false) as ->.
  { by destruct scheme. }
  assert (after_scheme (scheme +:+ "://" +:+ rem) = rem) as ->.
  { unfold after_scheme, after. change "://" with (String ":" "//").
    rewrite cut_first by solve_chars. done. }
  assert (Hhp : all_chars (λ d, negb (Ascii.eqb "/" d)) hp = true).
  { unfold hp. solve_chars. }
  assert (Hauth : all_chars (λ d, negb (Ascii.eqb "/" d)) auth = true).
  { unfold auth. solve_chars. }
  assert (before "/" rem = auth) as ->.
  { unfold before, rem. change "/" with (String "/" ""). by rewrite cut_first. }
  assert (Hat : ∀ X, after "@" (user +:+ "@" +:+ X) = Some X).
  { intros X. unfold after. change "@" with (String "@" "").
    rewrite cut_first by solve_chars. done. }
  assert (contains "@" auth = true) as ->.
  { unfold contains, auth. rewrite Hat. apply bool_decide_eq_true. by eexists. }
  rewrite Hrem', Hat. cbn [from_option id].
  assert (before "/" (hp +:+ "/" +:+ path) = hp) as ->.
  { unfold before. change "/" with (String "/" ""). by rewrite cut_first. }
  assert (startswith hp "[" = false) as ->.
  { apply (startswith_absent "[" host ":"). solve_chars. }
  assert (count_char ":" hp = 1%nat) as ->.
  { unfold hp. rewrite !count_char_app.
    rewrite (count_char_absent _ host) by solve_chars.
    rewrite (count_char_absent _ port) by solve_chars. done. }
  assert (before ":" hp = host) as ->; [|reflexivity].
  unfold before, hp. change ":" with (String ":" "").
  rewrite cut_first by solve_chars. done.
Qed.

Lemma normalize_target_url_witness :
  normalize_target ("https" +:+ "://" +:+ "u:p" +:+ "@" +:+ "API.Acme.com" +:+ ":" +:+ "8443"
                    +:+ "/" +:+ "v1/users")
  = normalize_target "API.Acme.com" ∧
  normalize_target "API.Acme.com" = ("domain", "api.acme.com").
Proof.
  split; [|vm_compute; reflexivity].
  apply normalize_target_url; vm_compute; reflexivity.
Defined.
