(* ===== verification/Regex.v ===== *)
(** * Regular expressions as [re] matches them

    A backtracking matcher for the constructs the program's patterns use:
    character classes, groups and a backreference, greedy repetition,
    alternation, the line anchors of [re.MULTILINE] and [\b].  The matcher is
    written with a continuation, so the order in which it tries alternatives is
    the order [re] tries them in, and the first success is the match.

    A repetition stops at an iteration that consumes nothing, so the length of
    the text bounds its iterations and the recursion is structural. *)
From S2P Require Import Prelude PyStr.
From Stdlib Require Import Ascii.

Inductive regex :=
| Eps
| Chr (p : ascii → bool)
| Seq (r s : regex)
| Alt (r s : regex)
| Star (r : regex)
| Group (n : nat) (r : regex)
| Backref (n : nat)
| LineStart
| LineEnd
| WordBoundary.

(** ** Derived forms *)

Definition Lit (c : ascii) : regex := Chr (Ascii.eqb c).
Definition Opt (r : regex) : regex := Alt r Eps.
Definition Plus (r : regex) : regex := Seq r (Star r).
Fixpoint Repeat (n : nat) (r : regex) : regex :=
  match n with O => Eps | S n => Seq r (Repeat n r) end.
(** [r{n,}] *)
Definition AtLeast (n : nat) (r : regex) : regex := Seq (Repeat n r) (Star r).
Fixpoint Word (s : string) : regex :=
  match s with EmptyString => Eps | String c s => Seq (Lit c) (Word s) end.

Infix "⋅" := Seq (at level 50, left associativity).

(** ** Character classes *)

Definition is_lower (c : ascii) : bool := in_range 97 122 c.
Definition is_upper (c : ascii) : bool := in_range 65 90 c.
Definition alnum (c : ascii) : bool := is_lower c || is_upper c || is_decimal c.
(** [[...]]: the letters, digits and the characters of [extra]. *)
Definition alnum_or (extra : string) (c : ascii) : bool :=
  alnum c || any_char (Ascii.eqb c) extra.
Definition none_of (chars : string) (c : ascii) : bool := negb (any_char (Ascii.eqb c) chars).
Definition newline : ascii := chr 10.
(** [.] *)
Definition not_newline (c : ascii) : bool := negb (Ascii.eqb c newline).
(** [\w] below U+0100: alphanumeric or underscore. *)
Definition is_word (c : ascii) : bool :=
  alnum c || Ascii.eqb c "_" || existsb (Z.eqb (code c)) [170; 178; 179; 181; 185; 186; 188; 189; 190]
  || (in_range 192 255 c && negb (code c =? 215) && negb (code c =? 247)).

(** ** Matching *)

(** Where the matcher is: the character before, the text left, and the groups
    closed so far, the latest first. *)
Record position := Position {
  before_char : option ascii;
  rest : string;
  groups : list (nat * string);
}.

Definition advance_to (c : ascii) (s : string) (pos : position) : position :=
  Position (Some c) s (groups pos).

Fixpoint group (n : nat) (gs : list (nat * string)) : string :=
  match gs with
  | [] => ""
  | (m, s) :: gs => if (n =? m)%nat then s else group n gs
  end.

(** The text between two positions of one match. *)
Definition consumed (from to : string) : string := take_string (String.length from - String.length to) from.

Definition close_group (n : nat) (start pos : position) : position :=
  Position (before_char pos) (rest pos) ((n, consumed (rest start) (rest pos)) :: groups pos).

Fixpoint last_char (d : option ascii) (s : string) : option ascii :=
  match s with EmptyString => d | String c s => last_char (Some c) s end.

(** Drop a literal prefix. *)
Definition skip (text : string) (pos : position) : option position :=
  if startswith (rest pos) text
  then Some (Position (last_char (before_char pos) text)
               (drop_string (String.length text) (rest pos)) (groups pos))
  else None.

Definition at_line_start (pos : position) : bool :=
  match before_char pos with None => true | Some c => Ascii.eqb c newline end.
Definition at_line_end (pos : position) : bool :=
  match rest pos with EmptyString => true | String c _ => Ascii.eqb c newline end.
Definition at_word_boundary (pos : position) : bool :=
  let before := match before_char pos with Some c => is_word c | None => false end in
  let after := match rest pos with String c _ => is_word c | EmptyString => false end in
  xorb before after.

Definition Kont (A : Type) : Type := position → option A.

(** Greedy repetition: one more [step] if it consumes and all that follows
    succeeds, else go on. *)
Fixpoint iterate {A} (step : Kont A → Kont A) (k : Kont A) (fuel : nat) (pos : position) : option A :=
  match fuel with
  | O => k pos
  | S fuel =>
      match step (λ pos', if (String.length (rest pos') <? String.length (rest pos))%nat
                          then iterate step k fuel pos' else None) pos with
      | Some a => Some a
      | None => k pos
      end
  end.

Fixpoint matches {A} (r : regex) (k : Kont A) (pos : position) : option A :=
  match r with
  | Eps => k pos
  | Chr p => match rest pos with
             | String c s => if p c then k (advance_to c s pos) else None
             | EmptyString => None
             end
  | Seq r s => matches r (matches s k) pos
  | Alt r s => match matches r k pos with Some a => Some a | None => matches s k pos end
  | Star r => iterate (matches r) k (String.length (rest pos)) pos
  | Group n r => matches r (λ pos', k (close_group n pos pos')) pos
  | Backref n => match skip (group n (groups pos)) pos with Some pos' => k pos' | None => None end
  | LineStart => if at_line_start pos then k pos else None
  | LineEnd => if at_line_end pos then k pos else None
  | WordBoundary => if at_word_boundary pos then k pos else None
  end.

Definition match_at (r : regex) (prev : option ascii) (s : string) : option position :=
  matches r Some (Position prev s []).

(** ** [re.search] and [re.sub] *)

Fixpoint search_from (r : regex) (prev : option ascii) (s : string) : bool :=
  match match_at r prev s with
  | Some _ => true
  | None => match s with EmptyString => false | String c s => search_from r (Some c) s end
  end.
(** [bool(r.search(s))] *)
Definition search (r : regex) (s : string) : bool := search_from r None s.

(** [re.sub] for a pattern that matches no empty text, which is all the
    program has: at an empty match it goes on with the next character.  [f]
    is given the matched text and its groups. *)
Fixpoint sub_from (r : regex) (f : string → list (nat * string) → string) (fuel : nat)
    (prev : option ascii) (s : string) : string :=
  match fuel, s with
  | O, _ => s
  | S _, EmptyString => EmptyString
  | S fuel, String c s' =>
      match match_at r prev s with
      | Some pos =>
          if (String.length (rest pos) <? String.length s)%nat then
            let text := consumed s (rest pos) in
            f text (groups pos) +:+ sub_from r f fuel (last_char prev text) (rest pos)
          else String c (sub_from r f fuel (Some c) s')
      | None => String c (sub_from r f fuel (Some c) s')
      end
  end.
Definition sub (r : regex) (f : string → list (nat * string) → string) (s : string) : string :=
  sub_from r f (String.length s) None s.

(** ** Deterministic matches

    A run of characters of a class is taken whole when what follows succeeds
    after it, so on text of a known shape the match is known. *)

Lemma string_length_app s t : String.length (s +:+ t) = (String.length s + String.length t)%nat.
Proof. induction s as [|c s IH]; [done|]. rewrite app_String_l. simpl. by rewrite IH. Qed.

Lemma last_char_app d s t : last_char d (s +:+ t) = last_char (last_char d s) t.
Proof. revert d. induction s as [|c s IH]; intros d; [done|]. apply IH. Qed.

(** [p] does not continue at [s]. *)
Definition stops (p : ascii → bool) (s : string) : Prop :=
  match s with EmptyString => True | String c _ => p c = false end.

Lemma matches_chr {A} p (k : Kont A) b c s gs :
  p c = true → matches (Chr p) k (Position b (String c s) gs) = k (Position (Some c) s gs).
Proof. intros Hp. simpl. by rewrite Hp. Qed.

Lemma matches_seq {A} r s (k : Kont A) pos : matches (r ⋅ s) k pos = matches r (matches s k) pos.
Proof. done. Qed.

Lemma matches_lit {A} (k : Kont A) b c s gs :
  matches (Lit c) k (Position b (String c s) gs) = k (Position (Some c) s gs).
Proof. apply matches_chr. apply Ascii.eqb_refl. Qed.

Lemma matches_alt_l {A} r s (k : Kont A) pos a :
  matches r k pos = Some a → matches (Alt r s) k pos = Some a.
Proof. intros H. simpl. by rewrite H. Qed.

(** A repeated [step] that takes a character of [p] and nothing at [t]. *)
Definition takes {A} (step : Kont A → Kont A) (p : ascii → bool) (gs : list (nat * string)) (a : A) : Prop :=
  ∀ k b c s, p c = true → k (Position (Some c) s gs) = Some a → step k (Position b (String c s) gs) = Some a.
Definition halts {A} (step : Kont A → Kont A) (t : string) (gs : list (nat * string)) : Prop :=
  ∀ k b, step k (Position b t gs) = None.

Lemma iterate_greedy {A} (step : Kont A → Kont A) p (k : Kont A) s t gs a : ∀ fuel b,
  takes step p gs a → halts step t gs → all_chars p s = true → (String.length s <= fuel)%nat →
  k (Position (last_char b s) t gs) = Some a →
  iterate step k fuel (Position b (s +:+ t) gs) = Some a.
Proof.
  induction s as [|c s IH]; intros fuel b Htake Hhalt Hs Hf Hk.
  - rewrite app_empty_l. destruct fuel as [|fuel]; [done|]. simpl. by rewrite Hhalt.
  - simpl in Hs. apply andb_true_iff in Hs as [Hc Hs]. destruct fuel as [|fuel]; [simpl in Hf; lia|].
    rewrite app_String_l. cbn [iterate rest]. rewrite (Htake _ b c (s +:+ t)); [done|done|].
    cbn [rest String.length]. rewrite (proj2 (Nat.ltb_lt _ _)) by lia.
    apply IH; try done. simpl in Hf. lia.
Qed.

Lemma matches_star_of {A} r p (k : Kont A) b s t gs a :
  takes (matches r) p gs a → halts (matches (A:=A) r) t gs → all_chars p s = true →
  k (Position (last_char b s) t gs) = Some a →
  matches (Star r) k (Position b (s +:+ t) gs) = Some a.
Proof.
  intros Htake Hhalt Hs Hk. cbn [matches rest]. eapply iterate_greedy; try done.
  rewrite string_length_app. lia.
Qed.

Lemma takes_chr {A} p gs (a : A) : takes (matches (Chr p)) p gs a.
Proof. intros k b c s Hc Hk. by rewrite matches_chr. Qed.
Lemma halts_chr {A} p t gs : stops p t → halts (matches (A:=A) (Chr p)) t gs.
Proof. intros Ht k b. destruct t as [|c t]; [done|]. simpl in *. by rewrite Ht. Qed.

Lemma matches_star {A} p (k : Kont A) b s t gs a :
  all_chars p s = true → stops p t → k (Position (last_char b s) t gs) = Some a →
  matches (Star (Chr p)) k (Position b (s +:+ t) gs) = Some a.
Proof. intros. eapply matches_star_of; eauto using takes_chr, halts_chr. Qed.

Lemma matches_plus {A} p (k : Kont A) b c s t gs a :
  p c = true → all_chars p s = true → stops p t →
  k (Position (last_char (Some c) s) t gs) = Some a →
  matches (Plus (Chr p)) k (Position b (String c s +:+ t) gs) = Some a.
Proof.
  intros Hc Hs Ht Hk. rewrite app_String_l. unfold Plus. cbn [matches rest]. rewrite Hc.
  by apply (matches_star p).
Qed.

Lemma take_string_app s t : take_string (String.length s) (s +:+ t) = s.
Proof. induction s as [|c s IH]; [by destruct t|]. rewrite app_String_l. simpl. by rewrite IH. Qed.

Lemma consumed_app s t : consumed (s +:+ t) t = s.
Proof.
  unfold consumed. rewrite string_length_app.
  replace (String.length s + String.length t - String.length t)%nat with (String.length s) by lia.
  apply take_string_app.
Qed.

Lemma matches_group {A} n r (k : Kont A) b s gs :
  matches (Group n r) k (Position b s gs)
  = matches r (λ pos', k (close_group n (Position b s gs) pos')) (Position b s gs).
Proof. done. Qed.

Lemma close_group_app n b s b' t gs gs' :
  close_group n (Position b (s +:+ t) gs) (Position b' t gs') = Position b' t ((n, s) :: gs').
Proof. unfold close_group. simpl. by rewrite consumed_app. Qed.

Lemma matches_group_as {A} n r s t (k : Kont A) b s' gs a :
  s' = s +:+ t →
  matches r (λ pos', k (close_group n (Position b (s +:+ t) gs) pos')) (Position b s' gs) = Some a →
  matches (Group n r) k (Position b (s +:+ t) gs) = Some a.
Proof. by intros ->. Qed.

(** ** [sub] on known matches *)

Lemma sub_whole r f s gs b :
  s ≠ "" → match_at r None s = Some (Position b "" gs) → sub r f s = f s gs.
Proof.
  intros Hs Hm. unfold sub. destruct s as [|c s]; [done|]. cbn [sub_from String.length]. rewrite Hm.
  cbn [rest groups String.length]. rewrite (proj2 (Nat.ltb_lt _ _)) by lia.
  assert (consumed (String c s) "" = String c s) as ->.
  { rewrite <-(app_empty_r (String c s)) at 1. apply consumed_app. }
  destruct (String.length s); simpl; apply app_empty_r.
Qed.

(** The pattern matches at no position of [s] after [prev]. *)
Fixpoint never (r : regex) (prev : option ascii) (s : string) : Prop :=
  match_at r prev s = None ∧
  match s with EmptyString => True | String c s => never r (Some c) s end.

Lemma sub_never r f prev s : never r prev s → ∀ fuel, sub_from r f fuel prev s = s.
Proof.
  revert prev. induction s as [|c s IH]; intros prev [Hm Hs] [|fuel]; try done.
  cbn [sub_from]. rewrite Hm. f_equal. by apply IH.
Qed.

(** A pattern anchored at a line start does not match inside a line. *)
Lemma never_inside_line r prev s :
  all_chars not_newline s = true → (∀ c, prev = Some c → not_newline c = true) → prev ≠ None →
  never (LineStart ⋅ r) prev s.
Proof.
  revert prev. induction s as [|c s IH]; intros prev Hs Hp Hn; simpl.
  - destruct prev as [c|]; [|done]. specialize (Hp c eq_refl). unfold not_newline in Hp.
    split; [|done]. unfold match_at. simpl. unfold at_line_start. simpl. by destruct (Ascii.eqb c newline).
  - simpl in Hs. apply andb_true_iff in Hs as [Hc Hs]. destruct prev as [c'|]; [|done].
    specialize (Hp c' eq_refl). unfold not_newline in Hp. split.
    + unfold match_at. simpl. unfold at_line_start. simpl. by destruct (Ascii.eqb c' newline).
    + apply IH; [done| |done]. by intros ? [= ->].
Qed.
