(* ===== verification/Json.v ===== *)
(** * JSON values as Python holds them

    The values a decoded request body or a JSON column contains, with the
    Python conversions the handlers apply to them: truth value, [str], [repr],
    [int] and dictionary access.  A float is carried as its [repr] and its
    truncation. *)
From S2P Require Import Prelude PyStr.
From Stdlib Require Import Ascii.

Inductive float_class :=
| Finite (trunc : Z) (is_zero : bool)
| Infinite
| NaN.

Record pyfloat := PyFloat { f_repr : string; f_class : float_class }.

Inductive json :=
| JNull
| JBool (b : bool)
| JInt (z : Z)
| JFloat (f : pyfloat)
| JStr (s : string)
| JList (l : list json)
| JObj (fields : list (string * json)).

#[export] Instance float_class_eq_dec : EqDecision float_class.
Proof. solve_decision. Defined.
#[export] Instance pyfloat_eq_dec : EqDecision pyfloat.
Proof. solve_decision. Defined.

(** ** Induction and equality *)

Section JsonInd.
Context (P : json → Prop).
Context (Hnull : P JNull) (Hbool : ∀ b, P (JBool b)) (Hint : ∀ z, P (JInt z))
  (Hfloat : ∀ f, P (JFloat f)) (Hstr : ∀ s, P (JStr s))
  (Hlist : ∀ l, Forall P l → P (JList l))
  (Hobj : ∀ fs, Forall (λ kv, P kv.2) fs → P (JObj fs)).

Fixpoint json_ind' (j : json) : P j :=
  match j with
  | JNull => Hnull
  | JBool b => Hbool b
  | JInt z => Hint z
  | JFloat f => Hfloat f
  | JStr s => Hstr s
  | JList l =>
      Hlist l ((fix go l : Forall P l :=
        match l with
        | [] => List.Forall_nil _
        | x :: l' => List.Forall_cons _ _ _ (json_ind' x) (go l')
        end) l)
  | JObj fs =>
      Hobj fs ((fix go fs : Forall (λ kv, P kv.2) fs :=
        match fs with
        | [] => List.Forall_nil _
        | kv :: fs' => List.Forall_cons _ _ _ (json_ind' kv.2) (go fs')
        end) fs)
  end.
End JsonInd.

Fixpoint json_eqb (x y : json) : bool :=
  match x, y with
  | JNull, JNull => true
  | JBool a, JBool b => Bool.eqb a b
  | JInt a, JInt b => a =? b
  | JFloat a, JFloat b => bool_decide (a = b)
  | JStr a, JStr b => String.eqb a b
  | JList a, JList b =>
      (fix go a b := match a, b with
       | [], [] => true
       | x :: a', y :: b' => json_eqb x y && go a' b'
       | _, _ => false
       end) a b
  | JObj a, JObj b =>
      (fix go a b := match a, b with
       | [], [] => true
       | (k, x) :: a', (k', y) :: b' => String.eqb k k' && json_eqb x y && go a' b'
       | _, _ => false
       end) a b
  | _, _ => false
  end.

Lemma json_eqb_eq x y : json_eqb x y = true ↔ x = y.
Proof.
  revert y. induction x as [|b|z|f|s|l IH|fs IH] using json_ind'; intros [|b'|z'|f'|s'|l'|fs'];
    simpl; try (split; [discriminate|intros [=]]; fail).
  - done.
  - rewrite Bool.eqb_true_iff. split; [by intros ->|by intros [= ->]].
  - rewrite Z.eqb_eq. split; [by intros ->|by intros [= ->]].
  - rewrite bool_decide_eq_true. split; [by intros ->|by intros [= ->]].
  - rewrite String.eqb_eq. split; [by intros ->|by intros [= ->]].
  - transitivity (l = l'); [|split; [by intros ->|by intros [= ->]]].
    revert l'. induction IH as [|x l Hx _ IHl]; intros [|y l']; try (split; [discriminate|intros [=]]; fail); [done|].
    rewrite andb_true_iff, Hx, IHl. split; [by intros [-> ->]|by intros [= -> ->]].
  - transitivity (fs = fs'); [|split; [by intros ->|by intros [= ->]]].
    revert fs'. induction IH as [|[k x] fs Hx _ IHl]; intros [|[k' y] fs']; try (split; [discriminate|intros [=]]; fail);
      [done|].
    rewrite !andb_true_iff, String.eqb_eq, IHl. simpl in Hx. rewrite Hx.
    split; [by intros [[-> ->] ->]|by intros [= -> -> ->]].
Qed.

#[export] Instance json_eq_dec : EqDecision json.
Proof.
  intros x y. destruct (json_eqb x y) eqn:E; [left|right].
  - by apply json_eqb_eq.
  - intros ->. assert (json_eqb y y = true) by by apply json_eqb_eq. congruence.
Defined.

(** ** Dictionaries *)

Abbreviation dict := (list (string * json)).

Fixpoint lookup_key {A} (k : string) (d : list (string * A)) : option A :=
  match d with
  | [] => None
  | (k', v) :: d' => if String.eqb k k' then Some v else lookup_key k d'
  end.
(** [k in d] *)
Definition has_key {A} (k : string) (d : list (string * A)) : bool :=
  match lookup_key k d with Some _ => true | None => false end.
(** [d.get(k)] *)
Definition dget (k : string) (d : dict) : json := default JNull (lookup_key k d).
(** [d[k] = v]: the key keeps its place, a new key goes last. *)
Fixpoint dset {A} (k : string) (v : A) (d : list (string * A)) : list (string * A) :=
  match d with
  | [] => [(k, v)]
  | (k', v') :: d' => if String.eqb k k' then (k', v) :: d' else (k', v') :: dset k v d'
  end.
Definition keys {A} (d : list (string * A)) : list string := map fst d.

Lemma lookup_dset_eq {A} k (v : A) d : lookup_key k (dset k v d) = Some v.
Proof.
  induction d as [|[k' v'] d IH]; simpl; [by rewrite String.eqb_refl|].
  destruct (String.eqb k k') eqn:E; simpl; rewrite E; [done|]. apply IH.
Qed.
Lemma lookup_dset_ne {A} k k' (v : A) d :
  k ≠ k' → lookup_key k (dset k' v d) = lookup_key k d.
Proof.
  intros Hne. induction d as [|[k0 v0] d IH]; simpl.
  { by destruct (String.eqb_spec k k'). }
  destruct (String.eqb_spec k' k0) as [->|Hk]; simpl; [|by rewrite IH].
  by destruct (String.eqb_spec k k0).
Qed.
Lemma lookup_key_None {A} k (d : list (string * A)) : lookup_key k d = None ↔ k ∉ keys d.
Proof.
  induction d as [|[k' v'] d IH]; simpl; [set_solver|].
  destruct (String.eqb_spec k k') as [->|Hne]; set_solver.
Qed.

(** ** Conversions *)

Definition truthy (j : json) : bool :=
  match j with
  | JNull => false
  | JBool b => b
  | JInt z => negb (z =? 0)
  | JFloat f => match f_class f with Finite _ zero => negb zero | _ => true end
  | JStr s => negb (String.eqb s "")
  | JList l => match l with [] => false | _ => true end
  | JObj d => match d with [] => false | _ => true end
  end.

Definition hex_lower (z : Z) : ascii := if z <? 10 then chr (48 + z) else chr (87 + z).
Definition printable (c : ascii) : bool :=
  in_range 32 126 c || (in_range 161 255 c && negb (code c =? 173)).

(** [repr] of one character inside a string quoted with [q]. *)
Definition repr_char (q c : ascii) : string :=
  if Ascii.eqb c q || Ascii.eqb c "\" then String "\" (str1 c)
  else if code c =? 9 then "\t"
  else if code c =? 10 then "\n"
  else if code c =? 13 then "\r"
  else if printable c then str1 c
  else "\x" +:+ String (hex_lower (code c / 16)) (str1 (hex_lower (code c mod 16))).

Fixpoint repr_body (q : ascii) (s : string) : string :=
  match s with EmptyString => EmptyString | String c s' => repr_char q c +:+ repr_body q s' end.

Definition squote : ascii := chr 39.
Definition dquote : ascii := chr 34.

(** [repr(s)]: single quotes unless the string has one and no double quote. *)
Definition repr_str (s : string) : string :=
  let q := if any_char (Ascii.eqb squote) s && negb (any_char (Ascii.eqb dquote) s)
           then dquote else squote in
  String q (repr_body q s +:+ str1 q).

Fixpoint repr (j : json) : string :=
  match j with
  | JNull => "None"
  | JBool b => if b then "True" else "False"
  | JInt z => string_of_Z z
  | JFloat f => f_repr f
  | JStr s => repr_str s
  | JList l => "[" +:+ join ", " (map repr l) +:+ "]"
  | JObj d => "{" +:+ join ", " (map (λ kv, repr_str kv.1 +:+ ": " +:+ repr kv.2) d) +:+ "}"
  end.

(** [str(v)] *)
Definition py_str (j : json) : string :=
  match j with JStr s => s | _ => repr j end.

(** [int(v)] *)
Definition py_int (j : json) : result Z :=
  match j with
  | JBool b => Ok (if b then 1 else 0)
  | JInt z => Ok z
  | JFloat f => match f_class f with
                | Finite t _ => Ok t
                | Infinite => Raise OverflowError
                | NaN => Raise ValueError
                end
  | JStr s => match int_of_string s with Some z => Ok z | None => Raise ValueError end
  | JNull | JList _ | JObj _ => Raise TypeError
  end.

(** [try: int(v) except (TypeError, ValueError): ...]: [None] on the caught
    exceptions, the others propagate. *)
Definition try_int (j : json) : result (option Z) :=
  match py_int j with
  | Ok z => Ok (Some z)
  | Raise TypeError | Raise ValueError => Ok None
  | Raise e => Raise e
  end.

(** [v in (None, "")] *)
Definition is_blank (j : json) : bool :=
  match j with JNull => true | JStr s => String.eqb s "" | _ => false end.

(** [repr] of a list of strings, as it appears in messages. *)
Definition repr_list (l : list string) : string := repr (JList (map JStr l)).

(** [sorted(set_of_strings)] *)
Definition sorted_strings (l : list string) : list string := merge_sort String.le (dedup l).

Lemma elem_of_sorted_strings l x : x ∈ sorted_strings l ↔ x ∈ l.
Proof.
  unfold sorted_strings. rewrite <-(elem_of_dedup l x). apply elem_of_Permutation_proper.
  apply merge_sort_Permutation.
Qed.

(** ** Untyped access, with the exceptions Python raises *)

(** [str(v or "")] *)
Definition str_or_empty (j : json) : string := if truthy j then py_str j else "".

(** [v.get(k)] *)
Definition json_get (k : string) (j : json) : result json :=
  match j with JObj d => Ok (dget k d) | _ => Raise AttributeError end.

(** [v[k]] for a string key. *)
Definition json_index (k : string) (j : json) : result json :=
  match j with
  | JObj d => match lookup_key k d with Some v => Ok v | None => Raise KeyError end
  | _ => Raise TypeError
  end.

Fixpoint chars_of (s : string) : list json :=
  match s with EmptyString => [] | String c s' => JStr (str1 c) :: chars_of s' end.

(** Iteration over [v]: the elements of a list, the keys of an object, the
    characters of a string. *)
Definition py_iter (j : json) : result (list json) :=
  match j with
  | JList l => Ok l
  | JObj d => Ok (map (λ kv, JStr kv.1) d)
  | JStr s => Ok (chars_of s)
  | _ => Raise TypeError
  end.

(** Iteration over [v or []]. *)
Definition iter_or_empty (j : json) : result (list json) := if truthy j then py_iter j else Ok [].

(** [v in s] for a set of strings: lists and objects are not hashable. *)
Definition in_str_set (j : json) (s : list string) : result bool :=
  match j with
  | JStr x => Ok (bool_decide (x ∈ s))
  | JList _ | JObj _ => Raise TypeError
  | _ => Ok false
  end.

Definition is_str (j : json) : bool := match j with JStr _ => true | _ => false end.

(** The first [Raise] of a check over the elements with their indices. *)
Fixpoint check_each {A} (f : Z → A → result unit) (i : Z) (l : list A) : result unit :=
  match l with
  | [] => Ok tt
  | x :: l' => check? f i x in check_each f (i + 1) l'
  end.

Lemma check_each_ok {A} (f : Z → A → result unit) i l :
  check_each f i l = Ok tt ↔ ∀ n x, l !! n = Some x → f (i + Z.of_nat n) x = Ok tt.
Proof.
  revert i. induction l as [|x l IH]; intros i; simpl; [by split|].
  rewrite rbind_ok. split.
  - intros ([] & Hx & Hl) [|n] y Hy; simpl in Hy; [simplify_eq; by rewrite Z.add_0_r|].
    rewrite IH in Hl. specialize (Hl n y Hy). by replace (i + Z.of_nat (S n)) with (i + 1 + Z.of_nat n) by lia.
  - intros Hall. exists tt. split; [by rewrite <-(Hall 0%nat x eq_refl), Z.add_0_r|].
    apply IH. intros n y Hy. specialize (Hall (S n) y Hy).
    by replace (i + 1 + Z.of_nat n) with (i + Z.of_nat (S n)) by lia.
Qed.

(** ** [==] on decoded JSON *)

(** A float whose [repr] shows it is a whole number. *)
Definition float_integral (f : pyfloat) : bool := endswith (f_repr f) ".0" || contains "e+" (f_repr f).

Definition num_eq (a b : json) : bool :=
  let int_of j := match j with JBool b => Some (if b : bool then 1 else 0) | JInt z => Some z | _ => None end in
  match int_of a, int_of b with
  | Some x, Some y => x =? y
  | Some x, None | None, Some x =>
      match (match a with JFloat f => Some f | _ => match b with JFloat f => Some f | _ => None end end) with
      | Some f => match f_class f with Finite t _ => float_integral f && (t =? x) | _ => false end
      | None => false
      end
  | None, None =>
      match a, b with
      | JFloat f, JFloat g =>
          match f_class f, f_class g with
          | Finite _ true, Finite _ true => true
          | NaN, _ | _, NaN => false
          | _, _ => String.eqb (f_repr f) (f_repr g)
          end
      | _, _ => false
      end
  end.

(** Numbers compare by value whatever their type, objects whatever the order of
    their keys. *)
Fixpoint py_eq (a b : json) {struct a} : bool :=
  match a, b with
  | JNull, JNull => true
  | JStr x, JStr y => String.eqb x y
  | JList l, JList m =>
      (fix go l m := match l, m with
       | [], [] => true
       | x :: l', y :: m' => py_eq x y && go l' m'
       | _, _ => false
       end) l m
  | JObj d, JObj e =>
      (length d =? length e)%nat &&
      forallb (λ kv, match lookup_key kv.1 e with Some v => py_eq kv.2 v | None => false end) d
  | _, _ => num_eq a b
  end.
