(* ===== verification/Redaction.v ===== *)
(** * [redaction.py]: secrets removed before anything is stored

    The six patterns, their replacements, the order they run in and the walk
    over decoded structures, with what makes them a redaction: values under a
    sensitive key, header or quoted field have no influence on the result. *)
From S2P Require Import Prelude PyStr Regex Json.
From Stdlib Require Import Ascii.

Definition PLACEHOLDER : string := "[REDACTED]".

Definition SENSITIVE_HEADERS : list string := [
  "authorization"; "proxy-authorization"; "cookie"; "set-cookie"; "x-api-key"; "x-auth-token";
  "x-access-token"; "x-csrf-token"; "x-session-token"; "api-key"; "auth-token"; "session"].

Definition SENSITIVE_KEYS : list string := [
  "password"; "passwd"; "secret"; "token"; "access_token"; "refresh_token"; "id_token"; "api_key";
  "apikey"; "client_secret"; "private_key"; "session_id"; "sessionid"; "authorization";
  "credential"; "credentials"; "otp"; "mfa_code"].

(** ** The patterns *)

Definition spaces : regex := Star (Chr is_space).
Definition quotes : string := String dquote (str1 squote).
Definition is_separator (c : ascii) : bool := Ascii.eqb c ":" || Ascii.eqb c "=".

Definition _HEADER_LINE : regex :=
  LineStart ⋅ (Group 1 (Plus (Chr (alnum_or "-_"))) ⋅ (spaces ⋅ (Lit ":" ⋅ (spaces
    ⋅ (Group 2 (Plus (Chr not_newline)) ⋅ LineEnd))))).

Definition key_pattern : regex :=
  Group 1 (Opt (Lit dquote) ⋅ (Plus (Chr (alnum_or "_-")) ⋅ Opt (Lit dquote))).

Definition _KEYED_QUOTED : regex :=
  key_pattern ⋅ (spaces ⋅ (Group 2 (Chr is_separator) ⋅ (spaces
    ⋅ (Group 3 (Chr (λ c, any_char (Ascii.eqb c) quotes))
    ⋅ (Group 4 (Star (Alt (Chr (none_of (quotes +:+ "\"))) (Lit "\" ⋅ Chr not_newline)))
    ⋅ Backref 3))))).

Definition value_stop : string := "&;,}]" +:+ String (chr 13) (str1 newline).
Definition bare_start (c : ascii) : bool := none_of (quotes +:+ value_stop) c && negb (is_space c).
Definition _KEYED_BARE : regex :=
  key_pattern ⋅ (spaces ⋅ (Group 2 (Chr is_separator) ⋅ (spaces
    ⋅ Group 3 (Chr bare_start ⋅ Star (Chr (none_of value_stop)))))).

Definition _URL_CREDENTIALS : regex :=
  Group 1 (Chr (λ c, is_lower c || is_upper c) ⋅ (Star (Chr (alnum_or "+.-")) ⋅ Word "://"))
  ⋅ (Group 2 (Plus (Chr (λ c, none_of "/@" c && negb (is_space c)))) ⋅ Lit "@").

(** A literal under [(?i)]. *)
Fixpoint WordI (s : string) : regex :=
  match s with
  | EmptyString => Eps
  | String c s => Chr (λ x, Ascii.eqb (lower_char x) c) ⋅ WordI s
  end.

Definition _BEARER : regex :=
  WordBoundary ⋅ (Group 1 (Alt (WordI "bearer") (Alt (WordI "basic") (WordI "token")))
  ⋅ (Plus (Chr is_space) ⋅ AtLeast 8 (Chr (alnum_or "-._~+/=")))).

Definition jwt_part : regex := AtLeast 5 (Chr (alnum_or "_-")).
Definition _JWT : regex :=
  WordBoundary ⋅ (Word "eyJ" ⋅ (jwt_part ⋅ (Lit "." ⋅ (jwt_part ⋅ (Lit "." ⋅ (jwt_part ⋅ WordBoundary)))))).

(** ** Replacements *)

Definition _redact_header_line (text : string) (gs : list (nat * string)) : string :=
  if bool_decide (lower (group 1 gs) ∈ SENSITIVE_HEADERS)
  then group 1 gs +:+ ": " +:+ PLACEHOLDER else text.

Definition is_quote (c : ascii) : bool := any_char (Ascii.eqb c) quotes.
(** The key without its quotes, in lower case. *)
Definition key_name (key : string) : string := lower (rstrip_chars is_quote (lstrip_chars is_quote key)).

Definition _sub_quoted (keys : list string) (text : string) (gs : list (nat * string)) : string :=
  if bool_decide (key_name (group 1 gs) ∈ keys)
  then group 1 gs +:+ group 2 gs +:+ group 3 gs +:+ PLACEHOLDER +:+ group 3 gs else text.

Definition _sub_bare (keys : list string) (text : string) (gs : list (nat * string)) : string :=
  if bool_decide (key_name (group 1 gs) ∈ keys)
  then group 1 gs +:+ group 2 gs +:+ PLACEHOLDER else text.

(** ** [redact_text] *)

Definition keys_with (extra_keys : list string) : list string := SENSITIVE_KEYS ++ map lower extra_keys.

(** The passes after the header lines. *)
Definition redact_keyed (keys : list string) (text : string) : string :=
  sub _KEYED_BARE (_sub_bare keys) (sub _KEYED_QUOTED (_sub_quoted keys) text).
Definition redact_tokens (text : string) : string :=
  let text := sub _URL_CREDENTIALS (λ _ gs, group 1 gs +:+ PLACEHOLDER +:+ "@") text in
  let text := sub _JWT (λ _ _, PLACEHOLDER) text in
  sub _BEARER (λ _ gs, group 1 gs +:+ " " +:+ PLACEHOLDER) text.

(** [value] is [""] for [None]. *)
Definition redact_text (value : string) (extra_keys : list string) : string :=
  if String.eqb value "" then ""
  else redact_tokens (redact_keyed (keys_with extra_keys) (sub _HEADER_LINE _redact_header_line value)).

(** ** [redact_mapping] *)

Definition sensitive (extra_keys : list string) (k : string) : bool :=
  bool_decide (lower k ∈ keys_with extra_keys) || bool_decide (lower k ∈ SENSITIVE_HEADERS).

Fixpoint walk (extra_keys : list string) (node : json) : json :=
  match node with
  | JObj d => JObj (map (λ kv, (kv.1, if sensitive extra_keys kv.1 then JStr PLACEHOLDER
                                      else walk extra_keys kv.2)) d)
  | JList l => JList (map (walk extra_keys) l)
  | JStr s => JStr (redact_text s extra_keys)
  | _ => node
  end.
Definition redact_mapping (data : dict) (extra_keys : list string) : json := walk extra_keys (JObj data).

Definition contains_obvious_secret (value : string) : bool :=
  negb (String.eqb value "") && (search _JWT value || search _BEARER value || search _URL_CREDENTIALS value).

(** [finding_history.clean_tree] *)
Fixpoint clean_tree (value : json) : json :=
  match value with
  | JStr s => JStr (redact_text s [])
  | JList l => JList (map clean_tree l)
  | JObj d => JObj (map (λ kv, (kv.1, clean_tree kv.2)) d)
  | _ => value
  end.

Definition quoted (s : string) : string := String dquote (s +:+ str1 dquote).
Example redact_examples :
  redact_text "Cookie: sid=abc; theme=dark" [] = "Cookie: [REDACTED]"
  ∧ redact_text ("{" +:+ quoted "password" +:+ ": " +:+ quoted "hunter 2, x" +:+ "}") []
    = "{" +:+ quoted "password" +:+ ":" +:+ quoted "[REDACTED]" +:+ "}"
  ∧ redact_text "see https://bob:pw@host/x" [] = "see https://[REDACTED]@host/x"
  ∧ redact_text "got basic dXNlcjpwYXNz ok" [] = "got basic [REDACTED] ok"
  ∧ redact_text "user=alice&token=abc&x=1" [] = "user=alice&token=[REDACTED]&x=1".
Proof. vm_compute. done. Qed.

(** ** Header lines *)

(** A header name, and the rest of a line that starts with no space. *)
Definition header_name (name : string) : Prop := name ≠ "" ∧ all_chars (alnum_or "-_") name = true.
Definition line_value (v : string) : Prop :=
  v ≠ "" ∧ all_chars not_newline v = true ∧ stops is_space v.

Lemma header_matches name sp v :
  header_name name → all_chars is_space sp = true → line_value v →
  match_at _HEADER_LINE None (name +:+ ":" +:+ sp +:+ v)
  = Some (Position (last_char None v) "" [(2%nat, v); (1%nat, name)]).
Proof.
  intros [Hn Hname] Hsp (Hv & Hline & Hstop). unfold match_at, _HEADER_LINE.
  destruct name as [|c n]; [done|]. simpl in Hname. apply andb_true_iff in Hname as [Hc Hall].
  destruct v as [|cv v]; [done|]. simpl in Hline. apply andb_true_iff in Hline as [Hcv Hline].
  rewrite matches_seq. change (matches LineStart ?k ?p) with (k p).
  rewrite matches_seq.
  rewrite matches_group. apply matches_plus; [done|done|done|].
  rewrite (close_group_app 1 None (String c n)).
  rewrite matches_seq. unfold spaces at 1.
  rewrite <-(app_empty_l (":" +:+ _)). apply (matches_star is_space); [done|done|].
  rewrite matches_seq. unfold Lit.
  change (":" +:+ ?x) with (String ":" x). rewrite matches_chr by done.
  rewrite matches_seq.
  apply (matches_star is_space); [done|done|].
  rewrite matches_seq. rewrite matches_group.
  rewrite <-(app_empty_r (String cv v)). apply matches_plus; [done|done|done|].
  rewrite close_group_app. cbn [matches at_line_end rest]. by rewrite !app_empty_r.
Qed.

Lemma header_line_redacted name sp v :
  header_name name → all_chars is_space sp = true → line_value v →
  lower name ∈ SENSITIVE_HEADERS →
  sub _HEADER_LINE _redact_header_line (name +:+ ":" +:+ sp +:+ v) = name +:+ ": " +:+ PLACEHOLDER.
Proof.
  intros Hn Hsp Hv Hs. erewrite sub_whole; [|by destruct Hn, name|by apply header_matches].
  unfold _redact_header_line. cbn [group Nat.eqb]. by rewrite bool_decide_eq_true_2.
Qed.

(** ** Quoted fields *)

Definition plain_value (v : string) : Prop := all_chars (none_of (quotes +:+ "\" +:+ str1 newline)) v = true.
Definition gap (sp : string) : Prop := all_chars (λ c, is_space c && not_newline c) sp = true.

Lemma none_of_app a b c : none_of (a +:+ b) c = none_of a c && none_of b c.
Proof. unfold none_of, any_char. rewrite all_chars_app. by rewrite !negb_involutive. Qed.

Lemma key_name_quoted key :
  all_chars (alnum_or "_-") key = true → key ≠ "" → key_name (quoted key) = lower key.
Proof.
  intros Hk Hne. unfold key_name, quoted. f_equal.
  assert (Hno : all_chars (λ c, negb (is_quote c)) key = true).
  { revert Hk. apply all_chars_impl. intros c Hc. destruct (is_quote c) eqn:E; [|done].
    unfold is_quote, quotes, any_char in E. simpl in E. bool_simpl.
    apply andb_false_iff in E as [E|E]; bool_simpl; [|apply andb_false_iff in E as [E|E]; [|done]; bool_simpl];
      apply Ascii.eqb_eq in E as ->; vm_compute in Hc; discriminate Hc. }
  assert (Hl : lstrip_chars is_quote (String dquote (key +:+ str1 dquote)) = key +:+ str1 dquote).
  { transitivity (lstrip_chars is_quote (key +:+ str1 dquote)); [reflexivity|].
    destruct key as [|c key]; [done|]. simpl in Hno. apply andb_true_iff in Hno as [Hc _].
    rewrite app_String_l. cbn [lstrip_chars]. by rewrite (proj1 (negb_true_iff _) Hc). }
  rewrite Hl. clear Hl Hne Hk. induction key as [|c s IH]; [done|]. simpl in Hno. bool_simpl.
  rewrite app_String_l. cbn [rstrip_chars]. rewrite IH by done. destruct s; [|done]. by rewrite H.
Qed.

Lemma quoted_app s t : quoted s +:+ t = String dquote (s +:+ String dquote t).
Proof. unfold quoted. rewrite app_String_l. by rewrite <-app_assoc_string. Qed.

(** Inside quotes, [_KEYED_QUOTED] takes the characters that are not special. *)
Lemma takes_plain {A} gs (a : A) :
  takes (matches (Alt (Chr (none_of (quotes +:+ "\"))) (Lit "\" ⋅ Chr not_newline)))
    (none_of (quotes +:+ "\")) gs a.
Proof. intros k b c s Hc Hk. apply matches_alt_l. by rewrite matches_chr. Qed.

Lemma quoted_matches key sp1 sp2 v :
  key ≠ "" → all_chars (alnum_or "_-") key = true → gap sp1 → gap sp2 → plain_value v →
  match_at _KEYED_QUOTED None (quoted key +:+ sp1 +:+ ":" +:+ sp2 +:+ quoted v)
  = Some (Position (Some dquote) "" [(4%nat, v); (3%nat, str1 dquote); (2%nat, ":"); (1%nat, quoted key)]).
Proof.
  intros Hne Hk Hsp1 Hsp2 Hv. unfold match_at, _KEYED_QUOTED, key_pattern, spaces.
  apply (all_chars_impl _ is_space) in Hsp1; [|by intros c ?; bool_simpl].
  apply (all_chars_impl _ is_space) in Hsp2; [|by intros c ?; bool_simpl].
  apply (all_chars_impl _ (none_of (quotes +:+ "\"))) in Hv.
  2:{ intros c Hc. rewrite app_assoc_string, none_of_app in Hc. by bool_simpl. }
  destruct key as [|c key]; [done|]. simpl in Hk. apply andb_true_iff in Hk as [Hc Hk].
  set (t := sp1 +:+ ":" +:+ sp2 +:+ quoted v).
  rewrite matches_seq. eapply matches_group_as; [symmetry; apply quoted_app|].
  rewrite matches_seq. apply matches_alt_l. rewrite matches_lit, matches_seq.
  apply matches_plus; [done|done|done|]. apply matches_alt_l. rewrite matches_lit, close_group_app.
  unfold t. rewrite matches_seq. apply (matches_star is_space); [done|done|].
  rewrite matches_seq. change (":" +:+ ?x) with (str1 ":" +:+ x).

  eapply (matches_group_as 2 _ (str1 ":") _ _ _ (String ":" _)); [reflexivity|]. rewrite matches_chr by done. rewrite (close_group_app 2 _ (str1 ":")).
  rewrite matches_seq. apply (matches_star is_space); [done|done|].
  rewrite matches_seq. change (quoted v) with (str1 dquote +:+ (v +:+ str1 dquote)).
  eapply (matches_group_as 3 _ (str1 dquote) _ _ _ (String dquote _)); [reflexivity|].
  rewrite matches_chr by done. rewrite (close_group_app 3 _ (str1 dquote)).
  rewrite matches_seq, matches_group.
  apply (matches_star_of _ (none_of (quotes +:+ "\"))); [apply takes_plain|done|done|].
  rewrite close_group_app. done.
Qed.

Lemma header_pass_idle key t :
  all_chars not_newline (quoted key +:+ t) = true →
  sub _HEADER_LINE _redact_header_line (quoted key +:+ t) = quoted key +:+ t.
Proof.
  intros Hline. unfold sub. apply sub_never. rewrite quoted_app in *. split; [reflexivity|].
  simpl in Hline. apply never_inside_line; [done| |done]. by intros c [= <-].
Qed.

Lemma quoted_field_redacted keys key sp1 sp2 v :
  key ≠ "" → all_chars (alnum_or "_-") key = true → gap sp1 → gap sp2 → plain_value v →
  lower key ∈ keys →
  sub _KEYED_QUOTED (_sub_quoted keys) (quoted key +:+ sp1 +:+ ":" +:+ sp2 +:+ quoted v)
  = quoted key +:+ ":" +:+ quoted PLACEHOLDER.
Proof.
  intros Hne Hk Hsp1 Hsp2 Hv Hin. erewrite sub_whole; [|by rewrite quoted_app|by apply quoted_matches].
  unfold _sub_quoted. cbn [group Nat.eqb]. by rewrite key_name_quoted, bool_decide_eq_true_2.
Qed.

Lemma all_chars_quoted p s : all_chars p (quoted s) = p dquote && all_chars p s.
Proof.
  unfold quoted. simpl. rewrite all_chars_app. simpl. rewrite andb_true_r.
  by destruct (p dquote); rewrite ?andb_true_r.
Qed.

Lemma quoted_text_line key sp1 sp2 v :
  all_chars (alnum_or "_-") key = true → gap sp1 → gap sp2 → plain_value v →
  all_chars not_newline (quoted key +:+ sp1 +:+ ":" +:+ sp2 +:+ quoted v) = true.
Proof.
  intros Hk Hsp1 Hsp2 Hv.
  apply (all_chars_impl _ not_newline) in Hk.
  2:{ intros c Hc. unfold not_newline. destruct (Ascii.eqb_spec c newline) as [->|]; [|done].
      vm_compute in Hc. discriminate Hc. }
  apply (all_chars_impl _ not_newline) in Hsp1; [|by intros c ?; bool_simpl].
  apply (all_chars_impl _ not_newline) in Hsp2; [|by intros c ?; bool_simpl].
  apply (all_chars_impl _ not_newline) in Hv.
  2:{ intros c Hc. unfold not_newline. destruct (Ascii.eqb_spec c newline) as [->|]; [|done].
      vm_compute in Hc. discriminate Hc. }
  by rewrite !all_chars_app, !all_chars_quoted, Hk, Hsp1, Hsp2, Hv.
Qed.


(** ** Decoded structures *)

(** Two structures that differ only below sensitive keys. *)
Inductive same_public (extra_keys : list string) : json → json → Prop :=
| sp_same j : same_public extra_keys j j
| sp_list l l' : Forall2 (same_public extra_keys) l l' → same_public extra_keys (JList l) (JList l')
| sp_obj d d' :
    Forall2 (λ kv kv', kv.1 = kv'.1
      ∧ (sensitive extra_keys kv.1 = true ∨ same_public extra_keys kv.2 kv'.2)) d d' →
    same_public extra_keys (JObj d) (JObj d').

Lemma walk_same_public extra_keys j j' :
  same_public extra_keys j j' → walk extra_keys j = walk extra_keys j'.
Proof.
  revert j'. induction j as [|b|z|f|s|l IH|d IH] using json_ind'; intros j' Hj; inversion Hj; subst; try done.
  - simpl. f_equal. clear Hj. match goal with H : Forall2 _ _ _ |- _ => rename H into Hl end.
    revert IH. induction Hl as [|x y l0 l1 Hxy _ IHl]; [done|]. intros [Hx IH]%Forall_cons. simpl.
    by rewrite (Hx y), IHl.
  - simpl. f_equal. clear Hj. match goal with H : Forall2 _ _ _ |- _ => rename H into Hd end.
    revert IH. induction Hd as [|[k v] [k' v'] d0 d1 [Hk Hv] _ IHd]; [done|].
    intros [Hx IH]%Forall_cons. simpl in *. subst k'. rewrite IHd by done. do 2 f_equal.
    destruct Hv as [->|Hv]; [done|]. by rewrite (Hx v').
Qed.

(** The same keys everywhere, [PLACEHOLDER] below the sensitive ones. *)
Inductive scrubbed (extra_keys : list string) : json → Prop :=
| scrubbed_list l : Forall (scrubbed extra_keys) l → scrubbed extra_keys (JList l)
| scrubbed_obj d :
    Forall (λ kv, sensitive extra_keys kv.1 = true ∧ kv.2 = JStr PLACEHOLDER
                  ∨ sensitive extra_keys kv.1 = false ∧ scrubbed extra_keys kv.2) d →
    scrubbed extra_keys (JObj d)
| scrubbed_text s : scrubbed extra_keys (JStr (redact_text s extra_keys))
| scrubbed_other j : match j with JList _ | JObj _ | JStr _ => False | _ => True end → scrubbed extra_keys j.

Lemma walk_scrubbed extra_keys j : scrubbed extra_keys (walk extra_keys j).
Proof.
  induction j as [|b|z|f|s|l IH|d IH] using json_ind'; simpl; try by constructor.
  - constructor. by apply Forall_fmap.
  - constructor. apply Forall_fmap. eapply Forall_impl; [exact IH|]. intros [k v] Hv. simpl in *.
    destruct (sensitive extra_keys k); auto.
Qed.

(** A redacted structure has the placeholder under every sensitive key, at
    every depth, only redacted text elsewhere, and does not depend on what the
    sensitive keys held. *)
Theorem redact_mapping_hides extra_keys d :
  scrubbed extra_keys (redact_mapping d extra_keys)
  ∧ ∀ d', same_public extra_keys (JObj d) (JObj d') →
      redact_mapping d extra_keys = redact_mapping d' extra_keys.
Proof. split; [apply walk_scrubbed|]. intros d' Hd. by apply walk_same_public. Qed.

(** A header line whose value is empty swallows the line after it, since [\s*]
    runs over the newline: the cookie below it is not seen as a header. *)
Example blank_header_hides_cookie :
  redact_text ("X-Empty:" +:+ str1 newline +:+ "Cookie: sid=abc123") []
  = "X-Empty:" +:+ str1 newline +:+ "Cookie: sid=abc123".
Proof. vm_compute. reflexivity. Qed.

(** The scheme of an Authorization header goes with its value, and the second
    pass takes the placeholder for a value up to its bracket. *)
Example authorization_scheme_lost :
  redact_text "Authorization: Bearer abcdefgh" [] = "Authorization:[REDACTED]]".
Proof. vm_compute. reflexivity. Qed.


Lemma redact_mapping_hides_witness :
  redact_mapping [("user", JStr "bob"); ("Password", JStr "one")] []
  = redact_mapping [("user", JStr "bob"); ("Password", JList [JInt 2])] [].
Proof.
  apply (redact_mapping_hides [] [("user", JStr "bob"); ("Password", JStr "one")]).
  apply sp_obj. constructor; [split; [done|right; apply sp_same]|].
  constructor; [split; [done|by left]|constructor].
Defined.
