(* ===== verification/JobConfig.v ===== *)
(** * [routers/jobs.py]: validation of a job's tool configuration

    The queue-time checks of [create_job], [create_pipeline] and
    [preview_job]: allowed keys per tool, integer bounds, booleans, headers,
    ffuf's wordlist name, extensions and status filter, and the engagement's
    request-rate ceiling. *)
From S2P Require Import Prelude PyStr Json.
From Stdlib Require Import Ascii.

Definition _VARDRGATE := "vardrgate_api_test".

Definition _VALID_TOOLS : list string :=
  ["httpx"; "nuclei"; "subfinder"; "nmap"; "dnsx"; "naabu"; "katana"; "gau"; "ffuf"; "dalfox";
   _VARDRGATE].
Definition _VALID_SOURCES : list string := ["scope"; "recon"].

Definition _TOOL_CONFIG_KEYS : list (string * list string) := [
  ("httpx", ["status_code"; "limit"; "rate"; "headers"]);
  ("nuclei", ["severity"; "templates"; "rate"; "headers"]);
  ("subfinder", ["recursive"; "sources"]);
  ("nmap", ["top_ports"; "timing"]);
  ("dnsx", ["limit"; "timeout"]);
  ("naabu", ["top_ports"; "limit"; "timeout"]);
  ("katana", ["limit"; "status_code"; "depth"; "js_crawl"; "timeout"; "rate"; "headers"]);
  ("gau", ["subs"; "providers"; "timeout"]);
  ("dalfox", ["limit"; "status_code"; "delay"; "worker"; "mining"; "timeout"; "headers"]);
  ("ffuf", ["wordlist"; "extensions"; "match_codes"; "rate"; "limit"; "timeout"; "headers"]);
  (_VARDRGATE, ["test_case_id"; "timeout"])].

Definition _NUCLEI_SEVERITIES : list string := ["info"; "low"; "medium"; "high"; "critical"].
Definition _GAU_PROVIDERS : list string := ["wayback"; "commoncrawl"; "otx"; "urlscan"].

Definition _BOOL_CONFIG_KEYS : list (string * string) :=
  [("katana", "js_crawl"); ("gau", "subs"); ("dalfox", "mining")].

(** Tool, key, lower and upper bound. *)
Definition _INT_CONFIG_BOUNDS : list (string * string * Z * Z) := [
  ("dnsx", "limit", 1, 1000000);
  ("dnsx", "timeout", 1, 86400);
  ("naabu", "top_ports", 1, 65535);
  ("naabu", "limit", 1, 1000000);
  ("naabu", "timeout", 1, 86400);
  ("katana", "limit", 1, 1000000);
  ("katana", "depth", 1, 10);
  ("katana", "timeout", 1, 86400);
  ("gau", "timeout", 1, 86400);
  ("dalfox", "limit", 1, 1000000);
  ("dalfox", "worker", 1, 100);
  ("dalfox", "delay", 0, 10000);
  ("dalfox", "timeout", 1, 86400);
  ("ffuf", "rate", 1, 1000);
  ("ffuf", "limit", 1, 1000000);
  ("ffuf", "timeout", 1, 86400);
  ("httpx", "rate", 1, 1000);
  ("nuclei", "rate", 1, 1000);
  ("katana", "rate", 1, 1000)].

Definition _MAX_HEADERS : nat := 20.
Definition _MAX_HEADER_LEN : Z := 2000.
Definition _HEADER_TOOLS : list string := ["httpx"; "nuclei"; "katana"; "ffuf"; "dalfox"].
Definition _RATE_TOOL_DEFAULTS : list (string * Z) :=
  [("httpx", 150); ("nuclei", 150); ("katana", 150); ("ffuf", 50)].

Definition mem (x : string) (l : list string) : bool := existsb (String.eqb x) l.

(** ** Regular expressions

    [^[class]{lo,hi}$] tried with [re.match]: the [$] also matches before a
    trailing newline. *)
Definition class_match (p : ascii → bool) (lo hi : Z) (s : string) : bool :=
  all_chars p s && (lo <=? len s) && (len s <=? hi).
Definition chop_newline (s : string) : string :=
  if endswith s (str1 (chr 10)) then take_string (String.length s - 1) s else s.
Definition class_match_dollar (p : ascii → bool) (lo hi : Z) (s : string) : bool :=
  class_match p lo hi s || class_match p lo hi (chop_newline s).

Definition alnum (c : ascii) : bool := in_range 48 57 c || in_range 65 90 c || in_range 97 122 c.
Definition lower_alnum (c : ascii) : bool := in_range 48 57 c || in_range 97 122 c.

(** [[A-Za-z0-9!#$%&'*+.^_`|~-]] *)
Definition header_name_char (c : ascii) : bool :=
  alnum c || any_char (Ascii.eqb c) "!#$%&'*+.^_`|~-".
Definition _HEADER_NAME (s : string) : bool := class_match_dollar header_name_char 1 100 s.

(** [^[a-z0-9][a-z0-9_-]{0,39}$] *)
Definition wordlist_char (c : ascii) : bool :=
  lower_alnum c || Ascii.eqb c "_" || Ascii.eqb c "-".
Definition wordlist_name (s : string) : bool :=
  match s with
  | EmptyString => false
  | String c s' => lower_alnum c && class_match wordlist_char 0 39 s'
  end.
Definition _FFUF_WORDLIST (s : string) : bool := wordlist_name s || wordlist_name (chop_newline s).

(** [^\.[A-Za-z0-9]{1,10}$] *)
Definition extension_name (s : string) : bool :=
  match s with
  | EmptyString => false
  | String c s' => Ascii.eqb c "." && class_match alnum 1 10 s'
  end.
Definition _FFUF_EXTENSION (s : string) : bool :=
  extension_name s || extension_name (chop_newline s).

(** [^\d{3}$] *)
Definition _FFUF_STATUS (s : string) : bool := class_match_dollar is_decimal 3 3 s.

(** ** Headers *)

(** The [(name, value)] pairs of [config.headers]. *)
Fixpoint header_list (items : list json) : result (list (string * string)) :=
  match items with
  | [] => Ok []
  | JStr item :: rest =>
      match cut ":" item with
      | (_, None) => http 400 ("header " +:+ repr_str item +:+ " must be 'Name: value'")
      | (name, Some val) =>
          let? pairs := header_list rest in Ok ((strip name, strip val) :: pairs)
      end
  | item :: _ => http 400 ("invalid header entry " +:+ repr item)
  end.

Definition header_pairs (raw : json) : result (list (string * string)) :=
  match raw with
  | JObj d => Ok (map (λ kv, (kv.1, py_str kv.2)) d)
  | JList items => header_list items
  | _ => http 400 "config.headers must be an object or list"
  end.

Definition bad_value_char (c : ascii) : bool := (code c <? 32) || (code c =? 127).

Fixpoint check_headers (seen : list string) (pairs : list (string * string)) : result unit :=
  match pairs with
  | [] => Ok tt
  | (name, val) :: rest =>
      check? guard (_HEADER_NAME name) 400 ("invalid header name " +:+ repr_str name) in
      check? guard (negb (any_char bad_value_char val)) 400
               ("header " +:+ repr_str name +:+ " has an invalid value") in
      check? guard (len name + len val + 2 <=? _MAX_HEADER_LEN) 400
               ("header " +:+ repr_str name +:+ " is too long") in
      check? guard (negb (mem (lower name) seen)) 400
               ("duplicate header " +:+ repr_str name) in
      check_headers (lower name :: seen) rest
  end.

(** [raw in (None, "", (), [])] *)
Definition no_headers (raw : json) : bool :=
  is_blank raw || match raw with JList [] => true | _ => false end.

Definition _validate_headers (config : dict) : result unit :=
  let raw := dget "headers" config in
  if no_headers raw then Ok tt
  else
    let? pairs := header_pairs raw in
    check? guard (length pairs <=? _MAX_HEADERS)%nat 400 "too many headers; the limit is 20" in
    check_headers [] pairs.

(** ** Rate ceiling *)

Definition _enforce_rate_ceiling (ceiling : option Z) (tool_type : string) (config : dict)
    : result dict :=
  match ceiling, lookup_key tool_type _RATE_TOOL_DEFAULTS with
  | Some ceiling, Some default_rate =>
      let raw := dget "rate" config in
      if negb (is_blank raw) then
        let? requested := try_int raw in
        match requested with
        | None => Ok config
        | Some r =>
            check? guard (r <=? ceiling) 400
                     (tool_type +:+ " config.rate " +:+ string_of_Z r
                      +:+ " exceeds this engagement's ceiling of " +:+ string_of_Z ceiling) in
            Ok config
        end
      else Ok (dset "rate" (JInt (Z.min default_rate ceiling)) config)
  | _, _ => Ok config
  end.

(** ** ffuf *)

(** [[str(p).strip() for p in parts if str(p).strip()]], the parts of a list or
    of a comma-separated string. *)
Definition config_parts (raw : json) : list string :=
  let parts := match raw with
               | JList l => map py_str l
               | _ => split_char ","%char (py_str raw)
               end in
  List.filter (λ s, negb (String.eqb s "")) (map strip parts).

Definition type_name (j : json) : string :=
  match j with
  | JNull => "NoneType" | JBool _ => "bool" | JInt _ => "int" | JFloat _ => "float"
  | JStr _ => "str" | JList _ => "list" | JObj _ => "dict"
  end.

Definition check_wordlist (config : dict) : result unit :=
  let wordlist := dget "wordlist" config in
  if is_blank wordlist then Ok tt
  else
    guard (match wordlist with JStr s => _FFUF_WORDLIST (strip s) | _ => false end) 400
      "ffuf config.wordlist must be a wordlist name like 'common' or 'api-paths' (lowercase letters, digits, '-' and '_'), not a path. The runner resolves it against its own wordlists directory.".

Definition check_extensions (config : dict) : result unit :=
  let raw := dget "extensions" config in
  if is_blank raw then Ok tt
  else
    check? guard (match raw with JStr _ | JList _ => true | _ => false end) 400
             ("ffuf config.extensions must be a string or list, got " +:+ type_name raw) in
    let normalized := map (λ n, if startswith n "." then n else "." +:+ n) (config_parts raw) in
    let bad := List.filter (λ n, negb (_FFUF_EXTENSION n)) normalized in
    guard (bool_decide (bad = [])) 400
      ("ffuf config.extensions must look like '.php' or '.bak', got: " +:+ repr_list bad).

Definition check_match_codes (config : dict) : result unit :=
  let raw := dget "match_codes" config in
  if is_blank raw then Ok tt
  else
    check? guard (match raw with JStr _ | JList _ | JInt _ => true | _ => false end) 400
             ("ffuf config.match_codes must be a status code, string or list, got "
              +:+ type_name raw) in
    let codes := config_parts raw in
    if bool_decide (codes = ["all"]) then Ok tt
    else
      let bad := List.filter (λ c, negb (_FFUF_STATUS c)) codes in
      guard (bool_decide (bad = [])) 400
        ("ffuf config.match_codes must be three-digit statuses like '200,301,403', or 'all', got: "
         +:+ repr_list bad).

Definition _validate_ffuf_config (config : dict) : result unit :=
  check? check_wordlist config in
  check? check_extensions config in
  check_match_codes config.

(** ** The whole configuration *)

Definition check_gate_timeout (tool_type : string) (config : dict) : result unit :=
  if String.eqb tool_type _VARDRGATE && has_key "timeout" config then
    guard (match dget "timeout" config with
           | JInt v => (1 <=? v) && (v <=? 86400) | _ => false end) 400
      "vardrgate_api_test config.timeout must be an integer between 1 and 86400"
  else Ok tt.

Definition check_keys (tool_type : string) (config : dict) : result unit :=
  let allowed := default [] (lookup_key tool_type _TOOL_CONFIG_KEYS) in
  let unknown := List.filter (λ k, negb (mem k allowed)) (keys config) in
  guard (bool_decide (unknown = [])) 400
    ("unknown config keys for " +:+ tool_type +:+ ": " +:+ repr_list (sorted_strings unknown)).

Definition check_httpx_limit (tool_type : string) (config : dict) : result unit :=
  if String.eqb tool_type "httpx" && has_key "limit" config then
    let? v := try_int (dget "limit" config) in
    guard (bool_decide (is_Some v)) 400 "httpx config.limit must be an integer"
  else Ok tt.

Definition check_severity (tool_type : string) (config : dict) : result unit :=
  let raw := dget "severity" config in
  if String.eqb tool_type "nuclei" && truthy raw then
    let parts := List.filter (λ s, negb (String.eqb s ""))
                   (map strip (split_char ","%char (py_str raw))) in
    let bad := List.filter (λ s, negb (mem s _NUCLEI_SEVERITIES)) parts in
    guard (bool_decide (bad = [])) 400
      ("nuclei severity must be info/low/medium/high/critical, got: " +:+ repr_list bad)
  else Ok tt.

Definition check_timing (tool_type : string) (config : dict) : result unit :=
  if String.eqb tool_type "nmap" && has_key "timing" config then
    let? v := try_int (dget "timing" config) in
    guard (match v with Some t => (0 <=? t) && (t <=? 4) | None => false end) 400
      "nmap config.timing must be 0-4"
  else Ok tt.

Fixpoint check_bools (tool_type : string) (config : dict) (l : list (string * string))
    : result unit :=
  match l with
  | [] => Ok tt
  | (tool, key) :: rest =>
      let value := dget key config in
      if negb (String.eqb tool tool_type) || negb (has_key key config) || is_blank value
      then check_bools tool_type config rest
      else
        check? guard (match value with
                      | JBool _ => true
                      | _ => mem (lower (strip (py_str value))) ["true"; "false"]
                      end) 400
                 (tool_type +:+ " config." +:+ key +:+ " must be true or false") in
        check_bools tool_type config rest
  end.

Definition check_providers (tool_type : string) (config : dict) : result unit :=
  let raw := dget "providers" config in
  if String.eqb tool_type "gau" && truthy raw then
    let bad := sorted_strings
      (List.filter (λ s, negb (mem s _GAU_PROVIDERS)) (config_parts raw)) in
    guard (bool_decide (bad = [])) 400
      ("gau providers must be wayback/commoncrawl/otx/urlscan, got: " +:+ repr_list bad)
  else Ok tt.

Fixpoint check_int_bounds (tool_type : string) (config : dict)
    (l : list (string * string * Z * Z)) : result unit :=
  match l with
  | [] => Ok tt
  | (tool, key, low, high) :: rest =>
      let value := dget key config in
      if negb (String.eqb tool tool_type) || negb (has_key key config) || is_blank value
      then check_int_bounds tool_type config rest
      else
        let? v := try_int value in
        match v with
        | None => http 400 (tool_type +:+ " config." +:+ key +:+ " must be an integer")
        | Some v =>
            check? guard ((low <=? v) && (v <=? high)) 400
                     (tool_type +:+ " config." +:+ key +:+ " must be between "
                      +:+ string_of_Z low +:+ " and " +:+ string_of_Z high) in
            check_int_bounds tool_type config rest
        end
  end.

Definition _validate_job_config (tool_type : string) (config : dict) : result unit :=
  check? check_gate_timeout tool_type config in
  check? check_keys tool_type config in
  check? check_httpx_limit tool_type config in
  check? check_severity tool_type config in
  check? check_timing tool_type config in
  check? check_bools tool_type config _BOOL_CONFIG_KEYS in
  check? check_providers tool_type config in
  check? (if String.eqb tool_type "ffuf" then _validate_ffuf_config config else Ok tt) in
  check? (if mem tool_type _HEADER_TOOLS then _validate_headers config else Ok tt) in
  check_int_bounds tool_type config _INT_CONFIG_BOUNDS.

(** What [create_job] and [create_pipeline] do with a stage's configuration:
    [dict(body.config or {})], validated unless empty, then capped. *)
Definition prepare_config (ceiling : option Z) (tool_type : string) (config : option dict)
    : result dict :=
  let config := default [] config in
  check? (match config with [] => Ok tt | _ => _validate_job_config tool_type config end) in
  _enforce_rate_ceiling ceiling tool_type config.

(** Membership in a concrete list. *)
Ltac solve_list_mem := refine (bool_decide_eq_true_1 _ _); vm_compute; reflexivity.

(** ** Integer bounds and allowed keys *)

Lemma mem_spec x l : mem x l = true ↔ x ∈ l.
Proof.
  unfold mem. rewrite existsb_exists. setoid_rewrite String.eqb_eq.
  setoid_rewrite <-list_elem_of_In. naive_solver.
Qed.

Lemma filter_nil {A} (f : A → bool) l : List.filter f l = [] ↔ ∀ x, x ∈ l → f x = false.
Proof.
  split.
  - intros Hf x Hx. destruct (f x) eqn:E; [|done].
    assert (In x (List.filter f l)) as Hin by (apply filter_In; by rewrite <-list_elem_of_In).
    by rewrite Hf in Hin.
  - intros Hall. induction l as [|x l IH]; [done|]. simpl.
    rewrite Hall by set_solver. apply IH. set_solver.
Qed.

Lemma try_int_Some j v : try_int j = Ok (Some v) ↔ py_int j = Ok v.
Proof. unfold try_int. destruct (py_int j) as [z|[]]; split; congruence. Qed.

(** Peel the checks of a validator one by one. *)
Ltac peel Hyp :=
  repeat match type of Hyp with
  | rbind _ _ = Ok _ =>
      let u := fresh "u" in let Hu := fresh "Hc" in
      apply rbind_ok in Hyp as (u & Hu & Hyp)
  end.

Lemma check_int_bounds_ok tool config l key low high :
  check_int_bounds tool config l = Ok tt →
  (tool, key, low, high) ∈ l → has_key key config = true → is_blank (dget key config) = false →
  ∃ v, py_int (dget key config) = Ok v ∧ low <= v <= high.
Proof.
  intros Hc Hin Hk Hb. induction l as [|[[[t k] lo] hi] l IH]; [by inversion Hin|].
  simpl in Hc. apply elem_of_cons in Hin as [Heq|Hin].
  - injection Heq as <- <- <- <-. rewrite String.eqb_refl, Hk, Hb in Hc. simpl in Hc.
    apply rbind_ok in Hc as (v & Hv & Hc). destruct v as [v|]; [|done].
    apply rbind_ok in Hc as ([] & Hg & _). apply guard_ok in Hg. bool_simpl.
    exists v. split; [by apply try_int_Some|lia].
  - destruct (_ || _ || _); [by apply IH|].
    apply rbind_ok in Hc as (v & Hv & Hc). destruct v as [v|]; [|done].
    apply rbind_ok in Hc as ([] & _ & Hc). by apply IH.
Qed.

Lemma validate_job_config_bounds tool config key low high :
  _validate_job_config tool config = Ok tt → (tool, key, low, high) ∈ _INT_CONFIG_BOUNDS →
  has_key key config = true → is_blank (dget key config) = false →
  ∃ v, py_int (dget key config) = Ok v ∧ low <= v <= high.
Proof.
  intros Hv Hin Hk Hb. unfold _validate_job_config in Hv. peel Hv. by eapply check_int_bounds_ok.
Qed.

(** A configuration that passes validation names only keys its tool
    knows, and every bounded key that is set converts to an integer within
    its bounds. *)
Theorem validate_job_config_sound tool config :
  _validate_job_config tool config = Ok tt →
  (∀ k, k ∈ keys config → k ∈ default [] (lookup_key tool _TOOL_CONFIG_KEYS)) ∧
  (∀ key low high, (tool, key, low, high) ∈ _INT_CONFIG_BOUNDS →
     has_key key config = true → is_blank (dget key config) = false →
     ∃ v, py_int (dget key config) = Ok v ∧ low <= v <= high).
Proof.
  intros Hv. split; [|intros; by eapply validate_job_config_bounds].
  unfold _validate_job_config in Hv. peel Hv.
  intros k Hk. match goal with Hx : check_keys _ _ = _ |- _ => rename Hx into Hkeys end.
  unfold check_keys in Hkeys. destruct u0. apply guard_ok in Hkeys.
  apply bool_decide_eq_true in Hkeys. rewrite filter_nil in Hkeys.
  specialize (Hkeys k Hk). apply negb_false_iff in Hkeys. by apply mem_spec.
Qed.

Lemma validate_job_config_sound_witness :
  let config := [("rate", JStr " 25 "); ("limit", JInt 10)] in
  _validate_job_config "ffuf" config = Ok tt ∧
  ∃ v, py_int (dget "rate" config) = Ok v ∧ 1 <= v <= 1000.
Proof.
  cbv zeta. assert (Hv : _validate_job_config "ffuf" [("rate", JStr " 25 "); ("limit", JInt 10)]
    = Ok tt) by (vm_compute; reflexivity).
  split; [exact Hv|].
  apply (proj2 (validate_job_config_sound _ _ Hv) "rate" 1 1000).
  - solve_list_mem.
  - reflexivity.
  - reflexivity.
Defined.

(** ** The rate ceiling *)

Lemma has_key_not_blank k d : is_blank (dget k d) = false → has_key k d = true.
Proof. unfold dget, has_key. by destruct (lookup_key k d). Qed.

Lemma rate_tool_bounded tool d :
  lookup_key tool _RATE_TOOL_DEFAULTS = Some d → (tool, "rate", 1, 1000) ∈ _INT_CONFIG_BOUNDS.
Proof.
  unfold _RATE_TOOL_DEFAULTS. simpl.
  repeat match goal with
  | |- context [String.eqb tool ?t] => destruct (String.eqb_spec tool t) as [->|?]
  end; intros; try discriminate; solve_list_mem.
Qed.

Lemma dget_dset k v d : dget k (dset k v d) = v.
Proof. unfold dget. by rewrite lookup_dset_eq. Qed.

(** The engagement's ceiling binds: whatever configuration a caller sends
    for a tool that generates traffic, the configuration the job is queued
    with has an integer rate no higher than the ceiling. *)
Theorem rate_ceiling_binds ceiling tool d config config' :
  lookup_key tool _RATE_TOOL_DEFAULTS = Some d →
  prepare_config (Some ceiling) tool config = Ok config' →
  ∃ r, py_int (dget "rate" config') = Ok r ∧ r <= ceiling.
Proof.
  intros Hd Hp. unfold prepare_config in Hp. set (c := default [] config) in Hp.
  apply rbind_ok in Hp as ([] & Hval & Hp). unfold _enforce_rate_ceiling in Hp. rewrite Hd in Hp.
  destruct (is_blank (dget "rate" c)) eqn:Hb; simpl in Hp.
  { injection Hp as <-. exists (Z.min d ceiling). rewrite dget_dset. split; [done|lia]. }
  destruct c as [|kv c0] eqn:Ec; [done|]. rewrite <-Ec in *.
  destruct (validate_job_config_bounds tool c "rate" 1 1000 Hval) as (v & Hv & _);
    [by eapply rate_tool_bounded|by apply has_key_not_blank|done|].
  apply try_int_Some in Hv as Ht. rewrite Ht in Hp. simpl in Hp.
  apply rbind_ok in Hp as ([] & Hg & [= <-]). apply guard_ok in Hg. bool_simpl. eauto.
Qed.

Lemma rate_ceiling_binds_witness :
  prepare_config (Some 40) "httpx" None = Ok [("rate", JInt 40)] ∧
  ∃ r, py_int (dget "rate" [("rate", JInt 40)]) = Ok r ∧ r <= 40.
Proof.
  assert (Hp : prepare_config (Some 40) "httpx" None = Ok [("rate", JInt 40)]) by reflexivity.
  split; [exact Hp|]. exact (rate_ceiling_binds 40 "httpx" 150 None _ eq_refl Hp).
Defined.

(** A rate above the ceiling is refused, never lowered in silence. *)
Lemma rate_above_ceiling_refused :
  prepare_config (Some 40) "httpx" (Some [("rate", JInt 41)])
  = http 400 "httpx config.rate 41 exceeds this engagement's ceiling of 40".
Proof. vm_compute. reflexivity. Qed.

(** ** ffuf wordlists *)

Lemma class_match_chars p lo hi s : class_match p lo hi s = true → all_chars p s = true.
Proof. unfold class_match. intros Hm. by bool_simpl. Qed.

Lemma wordlist_name_chars s : wordlist_name s = true → all_chars wordlist_char s = true.
Proof.
  destruct s as [|c s]; [done|]. simpl. intros Hm. bool_simpl.
  rewrite (class_match_chars _ _ _ _ H0). unfold wordlist_char. by rewrite H.
Qed.

Lemma chop_newline_strip s : chop_newline (strip s) = strip s.
Proof.
  unfold chop_newline. destruct (endswith (strip s) (str1 (chr 10))) eqn:E; [|done].
  apply endswith_spec in E as [t Ht]. apply strip_no_trailing in Ht. by vm_compute in Ht.
Qed.

Lemma wordlist_char_plain c :
  wordlist_char c = true → Ascii.eqb "/" c = false ∧ Ascii.eqb "." c = false ∧ Ascii.eqb "\" c = false.
Proof. destruct c as [[] [] [] [] [] [] [] []]; vm_compute; intuition congruence. Qed.

Lemma contains_absent c s :
  all_chars (λ d, negb (Ascii.eqb c d)) s = true → contains (str1 c) s = false.
Proof.
  intros Hs. unfold contains, after, str1. rewrite cut_absent by done.
  by apply bool_decide_eq_false.
Qed.

(** A queued ffuf wordlist is a name, never a path: with its surrounding
    whitespace removed it has no slash, backslash or dot, and at most 40
    characters. *)
Theorem ffuf_wordlist_is_name config s :
  _validate_job_config "ffuf" config = Ok tt →
  dget "wordlist" config = JStr s → s ≠ "" →
  wordlist_name (strip s) = true ∧ len (strip s) <= 40 ∧
  contains "/" (strip s) = false ∧ contains "\" (strip s) = false ∧
  contains "." (strip s) = false.
Proof.
  intros Hv Hw Hs. unfold _validate_job_config in Hv. peel Hv.
  assert (check_wordlist config = Ok tt) as Hcw.
  { match goal with Hx : (if String.eqb "ffuf" "ffuf" then _ else _) = Ok _ |- _ =>
      simpl in Hx; unfold _validate_ffuf_config in Hx; apply rbind_ok in Hx as ([] & ? & _) end.
    done. }
  unfold check_wordlist in Hcw. rewrite Hw in Hcw. simpl in Hcw.
  apply String.eqb_neq in Hs. rewrite Hs in Hcw. apply guard_ok in Hcw.
  unfold _FFUF_WORDLIST in Hcw. rewrite chop_newline_strip, orb_diag in Hcw.
  split; [done|]. pose proof (wordlist_name_chars _ Hcw) as Hchars. split.
  - destruct (strip s) as [|c t]; [done|]. simpl in Hcw. bool_simpl.
    unfold class_match in *. bool_simpl. unfold len in *. simpl. lia.
  - split_and!; apply (contains_absent _ (strip s)); (eapply all_chars_impl; [|exact Hchars]);
      intros ch Hch; apply wordlist_char_plain in Hch as (? & ? & ?); by apply negb_true_iff.
Qed.

Lemma ffuf_wordlist_is_name_witness :
  _validate_job_config "ffuf" [("wordlist", JStr " api-paths ")] = Ok tt ∧
  _validate_job_config "ffuf" [("wordlist", JStr "../etc/passwd")] ≠ Ok tt ∧
  wordlist_name (strip " api-paths ") = true.
Proof.
  assert (Hv : _validate_job_config "ffuf" [("wordlist", JStr " api-paths ")] = Ok tt)
    by (vm_compute; reflexivity).
  split; [exact Hv|]. split; [vm_compute; discriminate|].
  refine (proj1 (ffuf_wordlist_is_name _ " api-paths " Hv eq_refl _)). discriminate.
Defined.

(** ** Request headers *)

(** A header name as [_HEADER_NAME] accepts it: a token, or a token and one
    trailing newline. *)
Definition header_token (s : string) : bool := class_match header_name_char 1 100 s.

Lemma check_headers_sound seen pairs :
  check_headers seen pairs = Ok tt →
  Forall (λ p, (header_token p.1 = true ∨ header_token (chop_newline p.1) = true) ∧
               any_char bad_value_char p.2 = false ∧
               len p.1 + len p.2 + 2 <= _MAX_HEADER_LEN) pairs ∧
  NoDup (map (λ p, lower p.1) pairs) ∧
  Forall (λ p, lower p.1 ∉ seen) pairs.
Proof.
  revert seen. induction pairs as [|[n v] pairs IH]; intros seen; simpl.
  { intros _. split_and!; constructor. }
  intros Hchk. peel Hchk. destruct (IH _ Hchk) as (Hall & Hnd & Hseen).
  repeat match goal with Hx : guard _ _ _ = Ok ?u |- _ =>
    destruct u; apply guard_ok in Hx end. bool_simpl.
  match goal with Hx : mem _ _ = false |- _ => rename Hx into Hmem end.
  assert (lower n ∉ seen) as Hn.
  { intros Hin. apply mem_spec in Hin. congruence. }
  split_and!.
  - constructor; [|done]. simpl. split_and!; try done.
    unfold header_token, _HEADER_NAME, class_match_dollar in *. by apply orb_true_iff.
  - constructor; [|done]. rewrite list_elem_of_In, in_map_iff. intros ([n' v'] & Heq & Hin).
    rewrite Forall_forall in Hseen. apply list_elem_of_In in Hin.
    apply (Hseen _ Hin). simpl in *. rewrite Heq, elem_of_cons. by left.
  - constructor; [done|]. eapply Forall_impl; [exact Hseen|]. intros p. simpl.
    rewrite elem_of_cons. tauto.
Qed.

(** The [$] of [_HEADER_NAME] lets one trailing newline through, so a name
    that is no HTTP token is accepted in an object. *)
Theorem header_name_newline_accepted :
  _validate_headers [("headers", JObj [("X-Program" +:+ str1 (chr 10), JStr "v")])] = Ok tt ∧
  header_token ("X-Program" +:+ str1 (chr 10)) = false.
Proof. split; vm_compute; reflexivity. Qed.
