(* ===== verification/Digest.v ===== *)
(** * Encodings and digests: [str.encode], [json.dumps], [hashlib.sha256]

    Executable definitions of the standard-library functions the program
    fingerprints its data with: UTF-8, SHA-256 (FIPS 180-4) on 32-bit words,
    and the compact [json.dumps] with and without sorted keys. *)
From S2P Require Import Prelude PyStr Json.
From Stdlib Require Import Ascii.

(** [s.encode()]: code points below U+0100 take one or two bytes. *)
Fixpoint utf8 (s : string) : list Z :=
  match s with
  | EmptyString => []
  | String c s' =>
      (if code c <? 128 then [code c]
       else [192 + Z.shiftr (code c) 6; 128 + Z.land (code c) 63]) ++ utf8 s'
  end.

(** ** SHA-256 *)

Definition word (z : Z) : Z := Z.land z 4294967295.
Definition rotr (n x : Z) : Z := Z.lor (Z.shiftr x n) (word (Z.shiftl x (32 - n))).
Definition add32 (x y : Z) : Z := word (x + y).
Definition not32 (x : Z) : Z := Z.lxor x 4294967295.

Definition sha_K : list Z := [
  1116352408; 1899447441; 3049323471; 3921009573; 961987163; 1508970993; 2453635748; 2870763221;
  3624381080; 310598401; 607225278; 1426881987; 1925078388; 2162078206; 2614888103; 3248222580;
  3835390401; 4022224774; 264347078; 604807628; 770255983; 1249150122; 1555081692; 1996064986;
  2554220882; 2821834349; 2952996808; 3210313671; 3336571891; 3584528711; 113926993; 338241895;
  666307205; 773529912; 1294757372; 1396182291; 1695183700; 1986661051; 2177026350; 2456956037;
  2730485921; 2820302411; 3259730800; 3345764771; 3516065817; 3600352804; 4094571909; 275423344;
  430227734; 506948616; 659060556; 883997877; 958139571; 1322822218; 1537002063; 1747873779;
  1955562222; 2024104815; 2227730452; 2361852424; 2428436474; 2756734187; 3204031479; 3329325298].

Definition sha_H0 : list Z := [
  1779033703; 3144134277; 1013904242; 2773480762; 1359893119; 2600822924; 528734635; 1541459225].

Definition small_s0 (x : Z) : Z := Z.lxor (Z.lxor (rotr 7 x) (rotr 18 x)) (Z.shiftr x 3).
Definition small_s1 (x : Z) : Z := Z.lxor (Z.lxor (rotr 17 x) (rotr 19 x)) (Z.shiftr x 10).
Definition big_s0 (x : Z) : Z := Z.lxor (Z.lxor (rotr 2 x) (rotr 13 x)) (rotr 22 x).
Definition big_s1 (x : Z) : Z := Z.lxor (Z.lxor (rotr 6 x) (rotr 11 x)) (rotr 25 x).

Definition zth (i : nat) (l : list Z) : Z := default 0 (l !! i).

(** The message schedule, most recent word first. *)
Fixpoint extend_schedule (n : nat) (w : list Z) : list Z :=
  match n with
  | O => w
  | S n' =>
      let x := add32 (add32 (small_s1 (zth 1 w)) (zth 6 w))
                     (add32 (small_s0 (zth 14 w)) (zth 15 w)) in
      extend_schedule n' (x :: w)
  end.

Definition sha_round (st : list Z) (kw : Z * Z) : list Z :=
  match st with
  | [a; b; c; d; e; f; g; h] =>
      let ch := Z.lxor (Z.land e f) (Z.land (not32 e) g) in
      let t1 := add32 (add32 (add32 h (big_s1 e)) (add32 ch kw.1)) kw.2 in
      let maj := Z.lxor (Z.lxor (Z.land a b) (Z.land a c)) (Z.land b c) in
      let t2 := add32 (big_s0 a) maj in
      [add32 t1 t2; a; b; c; add32 d t1; e; f; g]
  | _ => st
  end.

Fixpoint be_words (l : list Z) : list Z :=
  match l with
  | a :: b :: c :: d :: rest => (a * 16777216 + b * 65536 + c * 256 + d) :: be_words rest
  | _ => []
  end.

Definition sha_block (h : list Z) (block : list Z) : list Z :=
  let w := rev (extend_schedule 48 (rev (be_words block))) in
  zip_with add32 h (fold_left sha_round (zip sha_K w) h).

Fixpoint sha_blocks (n : nat) (h data : list Z) : list Z :=
  match n with
  | O => h
  | S n' => sha_blocks n' (sha_block h (take 64 data)) (drop 64 data)
  end.

Definition be_bytes (n : nat) (z : Z) : list Z :=
  map (λ i, Z.land (Z.shiftr z (8 * Z.of_nat i)) 255) (rev (seq 0 n)).

Definition sha_pad (data : list Z) : list Z :=
  let n := length data in
  let zeros := ((119 - n mod 64) mod 64)%nat in
  data ++ [128] ++ repeat 0 zeros ++ be_bytes 8 (8 * Z.of_nat n).

Definition sha256_bytes (data : list Z) : list Z :=
  let padded := sha_pad data in
  flat_map (be_bytes 4) (sha_blocks (length padded / 64) sha_H0 padded).

Definition hex_of_bytes (l : list Z) : string :=
  fold_right (λ b acc, String (hex_lower (b / 16)) (String (hex_lower (b mod 16)) acc)) "" l.

(** [hashlib.sha256(s.encode()).hexdigest()] *)
Definition sha256_hex (s : string) : string := hex_of_bytes (sha256_bytes (utf8 s)).

Example sha256_empty :
  sha256_hex "" = "e3b0c44298fc1c149afbf4c8996fb92427ae41e4649b934ca495991b7852b855".
Proof. vm_compute. reflexivity. Qed.
Example sha256_abc :
  sha256_hex "abc" = "ba7816bf8f01cfea414140de5dae2223b00361a396177a9cb410ff61f20015ad".
Proof. vm_compute. reflexivity. Qed.
Example sha256_two_blocks :
  sha256_hex "abcdbcdecdefdefgefghfghighijhijkijkljklmklmnlmnomnopnopq"
  = "248d6a61d20638b8e5c026930c3e6039a33ce45964ff2167f6ecedd419db06c1".
Proof. vm_compute. reflexivity. Qed.

(** ** [json.dumps] with [separators=(",", ":")] and [ensure_ascii] *)

Definition hex4 (z : Z) : string :=
  String (hex_lower (z / 4096 mod 16)) (String (hex_lower (z / 256 mod 16))
    (String (hex_lower (z / 16 mod 16)) (str1 (hex_lower (z mod 16))))).

Definition json_escape (c : ascii) : string :=
  if code c =? 34 then "\" +:+ str1 (chr 34)
  else if code c =? 92 then "\\"
  else if code c =? 10 then "\n"
  else if code c =? 13 then "\r"
  else if code c =? 9 then "\t"
  else if code c =? 8 then "\b"
  else if code c =? 12 then "\f"
  else if in_range 32 126 c then str1 c
  else "\u" +:+ hex4 (code c).

Fixpoint escape_all (s : string) : string :=
  match s with EmptyString => EmptyString | String c s' => json_escape c +:+ escape_all s' end.

Definition json_string (s : string) : string := String dquote (escape_all s +:+ str1 dquote).

Definition json_float (f : pyfloat) : string :=
  match f_class f with
  | NaN => "NaN"
  | Infinite => if startswith (f_repr f) "-" then "-Infinity" else "Infinity"
  | Finite _ _ => f_repr f
  end.

(** Members in the order of their keys. *)
Definition key_le {A} (a b : string * A) : Prop := String.le a.1 b.1.
#[export] Instance key_le_dec {A} : RelDecision (@key_le A).
Proof. intros a b. unfold key_le. apply _. Defined.
#[export] Instance key_le_trans {A} : Transitive (@key_le A).
Proof. intros a b c. unfold key_le. by transitivity b.1. Qed.
#[export] Instance key_le_total {A} : Total (@key_le A).
Proof. intros a b. unfold key_le. apply (total String.le). Qed.

(** [sort] is the [sort_keys] argument.  The members of an object are printed
    before they are sorted, which sorts them by key all the same. *)
Fixpoint json_dumps (sort : bool) (j : json) : string :=
  match j with
  | JNull => "null"
  | JBool b => if b then "true" else "false"
  | JInt z => string_of_Z z
  | JFloat f => json_float f
  | JStr s => json_string s
  | JList l => "[" +:+ join "," (map (json_dumps sort) l) +:+ "]"
  | JObj d =>
      let members := map (λ kv, (kv.1, json_dumps sort kv.2)) d in
      let members := if sort then merge_sort key_le members else members in
      "{" +:+ join "," (map (λ kv, json_string kv.1 +:+ ":" +:+ kv.2) members) +:+ "}"
  end.

(** [json.dumps(j, indent=2, sort_keys=True)], at nesting depth [n]. *)
Fixpoint spaces_of (n : nat) : string :=
  match n with O => EmptyString | S n' => String " " (String " " (spaces_of n')) end.
Definition new_line (n : nat) : string := String (chr 10) (spaces_of n).

Fixpoint json_pretty (n : nat) (j : json) : string :=
  let block (opening closing : string) (items : list string) :=
    match items with
    | [] => opening +:+ closing
    | _ => opening +:+ new_line (S n) +:+ join ("," +:+ new_line (S n)) items +:+ new_line n +:+ closing
    end in
  match j with
  | JList l => block "[" "]" (map (json_pretty (S n)) l)
  | JObj d =>
      block "{" "}" (map (λ kv, json_string kv.1 +:+ ": " +:+ kv.2)
        (merge_sort key_le (map (λ kv, (kv.1, json_pretty (S n) kv.2)) d)))
  | _ => json_dumps true j
  end.

Example json_pretty_example :
  json_pretty 0 (JObj [("b", JList [JInt 1; JList []]); ("a", JObj [])])
  = "{" +:+ new_line 1 +:+ json_string "a" +:+ ": {}," +:+ new_line 1 +:+ json_string "b" +:+ ": ["
    +:+ new_line 2 +:+ "1," +:+ new_line 2 +:+ "[]" +:+ new_line 1 +:+ "]" +:+ new_line 0 +:+ "}".
Proof. vm_compute. reflexivity. Qed.

(** Text with characters above U+00FF is kept as its UTF-8 bytes. *)
Definition utf8_point (z : Z) : list Z :=
  if z <? 128 then [z]
  else if z <? 2048 then [192 + Z.shiftr z 6; 128 + Z.land z 63]
  else [224 + Z.shiftr z 12; 128 + Z.land (Z.shiftr z 6) 63; 128 + Z.land z 63].
Definition utf8_text (points : list Z) : string :=
  fold_right (λ z s, String (chr z) s) EmptyString (flat_map utf8_point points).

(** [assessments.case_hash] *)
Definition case_hash (spec : json) : string := sha256_hex (json_dumps true spec).
