(* ===== verification/JsonText.v ===== *)
(** * [json.loads]: the text of a JSON document

    A recursive-descent parser with the grammar of CPython's scanner, on text
    whose characters are the code points U+0000 to U+00FF, with or without the
    hooks of managed_wire.py that refuse repeated keys and constants.  A
    document that holds another character, literally or escaped, is [Outside]:
    the models say nothing about what becomes of it.  What [json.dumps] prints
    is read back as the same value, its objects in the order of their keys. *)
From S2P Require Import Prelude PyStr Json Digest.
From Stdlib Require Import Ascii.

(** [Malformed] is the [JSONDecodeError] of the parser or the [ValueError] of
    one of its hooks, [TooLong] the [ValueError] of [int] on more digits than
    it converts. *)
Inductive loaded (A : Type) :=
| Loaded (a : A)
| Malformed
| TooLong
| Outside.
Arguments Loaded {A} a.
Arguments Malformed {A}.
Arguments TooLong {A}.
Arguments Outside {A}.

Definition lbind {A B} (m : loaded A) (f : A → loaded B) : loaded B :=
  match m with Loaded a => f a | Malformed => Malformed | TooLong => TooLong | Outside => Outside end.

Declare Scope text_scope.
#[local] Open Scope text_scope.
Notation "'let!' ' p ':=' m 'in' k" := (lbind m (λ p, k))
  (at level 10, p strict pattern, m at level 100, k at level 200) : text_scope.

(** ** Strings *)

Definition backslash : ascii := chr 92.

Definition simple_escape (e : ascii) : option ascii :=
  if Ascii.eqb e dquote then Some dquote
  else if Ascii.eqb e backslash then Some backslash
  else if Ascii.eqb e "/" then Some "/"%char
  else if Ascii.eqb e "b" then Some (chr 8)
  else if Ascii.eqb e "f" then Some (chr 12)
  else if Ascii.eqb e "n" then Some (chr 10)
  else if Ascii.eqb e "r" then Some (chr 13)
  else if Ascii.eqb e "t" then Some (chr 9)
  else None.

Definition hex_value (c : ascii) : option Z :=
  if in_range 48 57 c then Some (code c - 48)
  else if in_range 97 102 c then Some (code c - 87)
  else if in_range 65 70 c then Some (code c - 55)
  else None.

Definition hex4_value (a b c d : ascii) : option Z :=
  match hex_value a, hex_value b, hex_value c, hex_value d with
  | Some a, Some b, Some c, Some d => Some (4096 * a + 256 * b + 16 * c + d)
  | _, _, _, _ => None
  end.

Definition push (c : ascii) (m : loaded (string * string)) : loaded (string * string) :=
  let! '(t, r) := m in Loaded (String c t, r).

(** The rest of a string literal, after its opening quote. *)
Fixpoint string_body (s : string) : loaded (string * string) :=
  match s with
  | EmptyString => Malformed
  | String c s =>
      if Ascii.eqb c dquote then Loaded (EmptyString, s)
      else if Ascii.eqb c backslash then
        match s with
        | EmptyString => Malformed
        | String e s =>
            match simple_escape e with
            | Some x => push x (string_body s)
            | None =>
                if Ascii.eqb e "u" then
                  match s with
                  | String h1 (String h2 (String h3 (String h4 s))) =>
                      match hex4_value h1 h2 h3 h4 with
                      | Some z => if z <? 256 then push (chr z) (string_body s) else Outside
                      | None => Malformed
                      end
                  | _ => Malformed
                  end
                else Malformed
            end
        end
      else if code c <? 32 then Malformed
      else push c (string_body s)
  end.

(** ** Numbers *)

Fixpoint span_chars (p : ascii → bool) (s : string) : string * string :=
  match s with
  | EmptyString => (EmptyString, EmptyString)
  | String c s' => if p c then let '(a, b) := span_chars p s' in (String c a, b) else (EmptyString, s)
  end.

Definition sign_part (s : string) : string * string :=
  match s with
  | String c r => if Ascii.eqb c "-" then ("-", r) else ("", s)
  | EmptyString => ("", s)
  end.

(** [0] or digits that do not start with it. *)
Definition integer_part (s : string) : option (string * string) :=
  match s with
  | EmptyString => None
  | String c r =>
      if Ascii.eqb c "0" then Some ("0", r)
      else if is_decimal c then Some (span_chars is_decimal s) else None
  end.

Definition fraction_part (s : string) : string * string :=
  match s with
  | String c r =>
      if Ascii.eqb c "." then
        match span_chars is_decimal r with
        | (EmptyString, _) => ("", s)
        | (d, r') => (String c d, r')
        end
      else ("", s)
  | EmptyString => ("", s)
  end.

Definition exponent_sign (s : string) : string * string :=
  match s with
  | String c r => if Ascii.eqb c "+" || Ascii.eqb c "-" then (str1 c, r) else ("", s)
  | EmptyString => ("", s)
  end.

Definition exponent_part (s : string) : string * string :=
  match s with
  | String c r =>
      if Ascii.eqb c "e" || Ascii.eqb c "E" then
        let '(sg, r) := exponent_sign r in
        match span_chars is_decimal r with
        | (EmptyString, _) => ("", s)
        | (d, r') => (String c (sg +:+ d), r')
        end
      else ("", s)
  | EmptyString => ("", s)
  end.

Section Parser.
(** Whether the hooks of [managed_wire] are in force, or [json.loads(text)] is
    called without any. *)
Context (hooked : bool).
(** [float(text)] of a literal; the hook for floats has [None] when it is not
    finite. *)
Context (float_of : string → option pyfloat).

(** [NaN], [Infinity] and [-Infinity], refused by the hook for constants. *)
Definition constant (s : string) : loaded (json * string) :=
  if hooked then Malformed
  else if startswith s "NaN" then Loaded (JFloat (PyFloat "nan" NaN), drop_string 3 s)
  else if startswith s "Infinity" then Loaded (JFloat (PyFloat "inf" Infinite), drop_string 8 s)
  else if startswith s "-Infinity" then Loaded (JFloat (PyFloat "-inf" Infinite), drop_string 9 s)
  else Malformed.

Definition number (s : string) : loaded (json * string) :=
  let '(sg, r) := sign_part s in
  match integer_part r with
  | None => constant s
  | Some (digits, r) =>
      let '(fraction, r) := fraction_part r in
      let '(exponent, r) := exponent_part r in
      if String.eqb fraction "" && String.eqb exponent "" then
        if len digits <=? max_str_digits
        then Loaded (JInt (if String.eqb sg "-" then - dec_value digits else dec_value digits), r)
        else TooLong
      else match float_of (sg +:+ digits +:+ fraction +:+ exponent) with
           | Some f => Loaded (JFloat f, r)
           | None => Malformed
           end
  end.

(** ** Values *)

Definition is_ws (c : ascii) : bool :=
  Ascii.eqb c " " || (code c =? 9) || (code c =? 10) || (code c =? 13).
Definition skip_ws (s : string) : string := lstrip_chars is_ws s.

(** The character [c], then what follows it. *)
Definition expect (c : ascii) (s : string) : option string :=
  match s with String d r => if Ascii.eqb c d then Some r else None | EmptyString => None end.

(** The hook for objects refuses a repeated key, and so the document. *)
Definition fresh_key {A} (k : string) (fields : list (string * A)) : bool := negb (has_key k fields).
Definition add_field (k : string) (v : json) (fields : list (string * json)) : option (list (string * json)) :=
  if hooked then (if fresh_key k fields then Some (fields ++ [(k, v)]) else None) else Some (dset k v fields).

(** [n] bounds the nesting of calls; [fuel_enough] shows what is enough. *)
Fixpoint value (n : nat) (s : string) {struct n} : loaded (json * string) :=
  match n with
  | O => Malformed
  | S n =>
      match s with
      | EmptyString => Malformed
      | String c r =>
          if Ascii.eqb c dquote then let! '(t, r) := string_body r in Loaded (JStr t, r)
          else if Ascii.eqb c "{" then
            match expect "}" (skip_ws r) with
            | Some r => Loaded (JObj [], r)
            | None => let! '(fields, r) := members n [] (skip_ws r) in Loaded (JObj fields, r)
            end
          else if Ascii.eqb c "[" then
            match expect "]" (skip_ws r) with
            | Some r => Loaded (JList [], r)
            | None => let! '(items, r) := elements n (skip_ws r) in Loaded (JList items, r)
            end
          else if startswith s "null" then Loaded (JNull, drop_string 4 s)
          else if startswith s "true" then Loaded (JBool true, drop_string 4 s)
          else if startswith s "false" then Loaded (JBool false, drop_string 5 s)
          else number s
      end
  end
with elements (n : nat) (s : string) {struct n} : loaded (list json * string) :=
  match n with
  | O => Malformed
  | S n =>
      let! '(v, r) := value n s in
      let r := skip_ws r in
      match expect "]" r with
      | Some r => Loaded ([v], r)
      | None =>
          match expect "," r with
          | Some r => let! '(vs, r) := elements n (skip_ws r) in Loaded (v :: vs, r)
          | None => Malformed
          end
      end
  end
with members (n : nat) (seen : list (string * json)) (s : string) {struct n}
    : loaded (list (string * json) * string) :=
  match n with
  | O => Malformed
  | S n =>
      match expect dquote s with
      | None => Malformed
      | Some r =>
          let! '(k, r) := string_body r in
          match expect ":" (skip_ws r) with
          | None => Malformed
          | Some r =>
              let! '(v, r) := value n (skip_ws r) in
              let r := skip_ws r in
              match add_field k v seen with
              | None => Malformed
              | Some fields =>
                  match expect "}" r with
                  | Some r => Loaded (fields, r)
                  | None =>
                      match expect "," r with
                      | Some r => members n fields (skip_ws r)
                      | None => Malformed
                      end
                  end
              end
          end
      end
  end.

Definition fuel (s : string) : nat := (2 * String.length s + 2)%nat.

(** [json.loads(text)], with or without the hooks. *)
Definition json_loads (s : string) : loaded json :=
  let s := skip_ws s in
  let! '(v, r) := value (fuel s) s in
  if String.eqb (skip_ws r) "" then Loaded v else Malformed.

(** ** The fuel is enough *)

Lemma lbind_Loaded {A B} (m : loaded A) (f : A → loaded B) b :
  lbind m f = Loaded b ↔ ∃ a, m = Loaded a ∧ f a = Loaded b.
Proof. destruct m; simpl; naive_solver. Qed.

Abbreviation size := String.length.

Lemma span_chars_app p s : (span_chars p s).1 +:+ (span_chars p s).2 = s.
Proof.
  induction s as [|c s IH]; [done|]. simpl. destruct (p c); [|done].
  destruct (span_chars p s) as [a b]. cbn [fst snd] in *. by rewrite app_String_l, IH.
Qed.

Lemma size_app s t : size (s +:+ t) = (size s + size t)%nat.
Proof. induction s as [|c s IH]; [done|]. change (S (size (s +:+ t)) = S (size s + size t)). by rewrite IH. Qed.

Lemma span_chars_size p s : (size (span_chars p s).2 <= size s)%nat.
Proof. rewrite <-(span_chars_app p s) at 2. rewrite size_app. lia. Qed.

Lemma skip_ws_size s : (size (skip_ws s) <= size s)%nat.
Proof. unfold skip_ws. induction s as [|c s IH]; [done|]. simpl. destruct (is_ws c); simpl; lia. Qed.

Lemma drop_string_size n s : (size (drop_string n s) <= size s)%nat.
Proof. revert s. induction n as [|n IH]; intros [|c s]; simpl; try lia. specialize (IH s). lia. Qed.

Lemma expect_size c s r : expect c s = Some r → size s = S (size r).
Proof. destruct s as [|d s]; [done|]. simpl. destruct (Ascii.eqb c d); [|done]. by intros [= ->]. Qed.

Lemma string_body_size s t r : string_body s = Loaded (t, r) → (size r < size s)%nat.
Proof.
  remember (size s) as n eqn:Hn. assert (Hle : (size s <= n)%nat) by lia. clear Hn.
  revert s t r Hle. induction n as [|n IH]; intros [|c s] t r Hle; try done; [simpl in Hle; lia|].
  assert (Hpush : ∀ x s', (size s' < S n)%nat → push x (string_body s') = Loaded (t, r) → (size r < S n)%nat).
  { intros x s' Hs ([t' r'] & Hb & [= _ <-])%lbind_Loaded. apply IH in Hb; lia. }
  simpl in Hle. cbn [string_body]. destruct (Ascii.eqb c dquote); [intros [= _ <-]; lia|].
  destruct (Ascii.eqb c backslash).
  - destruct s as [|e s]; [done|]. simpl in Hle. destruct (simple_escape e); [apply Hpush; lia|].
    destruct (Ascii.eqb e "u"); [|done].
    destruct s as [|h1 [|h2 [|h3 [|h4 s]]]]; try done. simpl in Hle.
    destruct (hex4_value h1 h2 h3 h4) as [z|]; [|done]. destruct (z <? 256); [|done]. apply Hpush. lia.
  - destruct (code c <? 32); [done|]. apply Hpush. lia.
Qed.

Lemma constant_size s v r : constant s = Loaded (v, r) → (size r <= size s)%nat.
Proof.
  unfold constant. destruct hooked; [done|].
  destruct (startswith s _); [intros [= _ <-]; apply (drop_string_size 3 s)|].
  destruct (startswith s _); [intros [= _ <-]; apply (drop_string_size 8 s)|].
  destruct (startswith s _); [intros [= _ <-]; apply (drop_string_size 9 s)|done].
Qed.

Lemma number_size s v r : number s = Loaded (v, r) → (size r <= size s)%nat.
Proof.
  unfold number. destruct (sign_part s) as [sg r0] eqn:E0.
  assert (H0 : (size r0 <= size s)%nat).
  { destruct s as [|c s]; simpl in E0; [by injection E0 as _ <-|].
    destruct (Ascii.eqb c "-"); injection E0 as _ <-; simpl; lia. }
  destruct (integer_part r0) as [[digits r1]|] eqn:E1; [|apply constant_size].
  assert (H1 : (size r1 <= size r0)%nat).
  { destruct r0 as [|c r0]; [done|]. unfold integer_part in E1.
    destruct (Ascii.eqb c "0"); [injection E1 as _ <-; simpl; lia|].
    destruct (is_decimal c); [|done]. apply (inj Some) in E1.
    pose proof (span_chars_size is_decimal (String c r0)) as Hs. by rewrite E1 in Hs. }
  destruct (fraction_part r1) as [fr r2] eqn:E2.
  assert (H2 : (size r2 <= size r1)%nat).
  { destruct r1 as [|c r1]; simpl in E2; [by injection E2 as _ <-|].
    destruct (Ascii.eqb c "."); [|by injection E2 as _ <-].
    pose proof (span_chars_size is_decimal r1). destruct (span_chars is_decimal r1) as [[|x d] r'];
      injection E2 as _ <-; simpl in *; lia. }
  destruct (exponent_part r2) as [ex r3] eqn:E3.
  assert (H3 : (size r3 <= size r2)%nat).
  { destruct r2 as [|c r2]; simpl in E3; [by injection E3 as _ <-|].
    destruct (_ || _); [|by injection E3 as _ <-].
    destruct (exponent_sign r2) as [sg' r2'] eqn:E4.
    assert (size r2' <= size r2)%nat.
    { destruct r2 as [|c' r2]; simpl in E4; [by injection E4 as _ <-|].
      destruct (_ || _); injection E4 as _ <-; simpl; lia. }
    pose proof (span_chars_size is_decimal r2'). destruct (span_chars is_decimal r2') as [[|x d] r'];
      injection E3 as _ <-; simpl in *; lia. }
  destruct (_ && _).
  - destruct (_ <=? _); [|done]. intros [= _ <-]. lia.
  - destruct (float_of _); [|done]. intros [= _ <-]. lia.
Qed.

(** What is left is no longer than what there was. *)
Lemma parser_sizes n :
  (∀ s v r, value n s = Loaded (v, r) → (size r <= size s)%nat)
  ∧ (∀ s vs r, elements n s = Loaded (vs, r) → (size r <= size s)%nat)
  ∧ (∀ seen s fs r, members n seen s = Loaded (fs, r) → (size r <= size s)%nat).
Proof.
  induction n as [|n (IHv & IHe & IHm)]; [done|]. split_and!.
  - intros [|c s] v r; [done|]. cbn [value].
    pose proof (skip_ws_size s). cbn [String.length] in *.
    destruct (Ascii.eqb c dquote).
    { intros ([t r'] & Ht%string_body_size & [= _ <-])%lbind_Loaded. lia. }
    destruct (Ascii.eqb c "{").
    { destruct (expect "}" (skip_ws s)) eqn:E; [intros [= _ <-]; apply expect_size in E; lia|].
      intros ([t r'] & Ht%IHm & [= _ <-])%lbind_Loaded. lia. }
    destruct (Ascii.eqb c "[").
    { destruct (expect "]" (skip_ws s)) eqn:E; [intros [= _ <-]; apply expect_size in E; lia|].
      intros ([t r'] & Ht%IHe & [= _ <-])%lbind_Loaded. lia. }
    destruct (startswith _ "null"); [intros [= _ <-]; apply (drop_string_size 4 (String c s))|].
    destruct (startswith _ "true"); [intros [= _ <-]; apply (drop_string_size 4 (String c s))|].
    destruct (startswith _ "false"); [intros [= _ <-]; apply (drop_string_size 5 (String c s))|]. apply number_size.
  - intros s vs r. cbn [elements]. intros ([v r1] & Hv%IHv & H)%lbind_Loaded. cbv zeta in H.
    pose proof (skip_ws_size r1). destruct (expect "]" (skip_ws r1)) eqn:E1.
    { injection H as _ <-. apply expect_size in E1. lia. }
    destruct (expect "," (skip_ws r1)) as [r2|] eqn:E2; [|done]. apply expect_size in E2.
    apply lbind_Loaded in H as ([vs' r3] & He%IHe & [= _ <-]). pose proof (skip_ws_size r2). lia.
  - intros seen s fs r. cbn [members]. destruct (expect dquote s) as [r0|] eqn:E0; [|done].
    apply expect_size in E0. intros ([k r1] & Hk%string_body_size & H)%lbind_Loaded.
    pose proof (skip_ws_size r1). destruct (expect ":" (skip_ws r1)) as [r2|] eqn:E1; [|done].
    apply expect_size in E1. apply lbind_Loaded in H as ([v r3] & Hv%IHv & H). cbv zeta in H.
    pose proof (skip_ws_size r2). pose proof (skip_ws_size r3).
    destruct (add_field k v seen) as [fields|]; [|done].
    destruct (expect "}" (skip_ws r3)) as [r4|] eqn:E2.
    { injection H as _ <-. apply expect_size in E2. lia. }
    destruct (expect "," (skip_ws r3)) as [r4|] eqn:E3; [|done]. apply expect_size in E3. apply IHm in H. pose proof (skip_ws_size r4). lia.
Qed.

(** Two calls with enough fuel agree, so the fuel of [json_loads] decides
    nothing. *)
Lemma fuel_agrees n :
  ∀ m,
  (∀ s, (2 * size s + 1 <= n)%nat → (2 * size s + 1 <= m)%nat → value n s = value m s)
  ∧ (∀ s, (2 * size s + 2 <= n)%nat → (2 * size s + 2 <= m)%nat → elements n s = elements m s)
  ∧ (∀ seen s, (2 * size s + 2 <= n)%nat → (2 * size s + 2 <= m)%nat → members n seen s = members m seen s).
Proof.
  induction n as [|n IH]; [intros m; split_and!; intros; lia|].
  intros [|m]; [split_and!; intros; lia|]. destruct (IH m) as (IHv & IHe & IHm). split_and!.
  - intros [|c s] Hn Hm; [done|]. cbn [value]. pose proof (skip_ws_size s). cbn [String.length] in *.
    destruct (Ascii.eqb c dquote); [done|].
    destruct (Ascii.eqb c "{"); [rewrite IHm by lia; done|].
    destruct (Ascii.eqb c "["); [rewrite IHe by lia; done|]. done.
  - intros s Hn Hm. cbn [elements]. rewrite (IHv s) by lia.
    destruct (value m s) as [[v r1]| | |] eqn:Ev; [|done..]. apply (parser_sizes m) in Ev. cbn [lbind].
    pose proof (skip_ws_size r1). destruct (expect "]" (skip_ws r1)); [done|].
    destruct (expect "," (skip_ws r1)) as [r2|] eqn:E2; [|done]. apply expect_size in E2.
    pose proof (skip_ws_size r2). by rewrite IHe by lia.
  - intros seen s Hn Hm. cbn [members]. destruct (expect dquote s) as [r0|] eqn:E0; [|done].
    apply expect_size in E0. destruct (string_body r0) as [[k r1]| | |] eqn:Ek; [|done..].
    apply string_body_size in Ek. cbn [lbind]. pose proof (skip_ws_size r1).
    destruct (expect ":" (skip_ws r1)) as [r2|] eqn:E1; [|done]. apply expect_size in E1.
    pose proof (skip_ws_size r2). rewrite (IHv (skip_ws r2)) by lia.
    destruct (value m (skip_ws r2)) as [[v r3]| | |] eqn:Ev; [|done..]. apply (parser_sizes m) in Ev.
    cbn [lbind]. pose proof (skip_ws_size r3). destruct (add_field k v seen) as [fields|]; [|done].
    destruct (expect "}" (skip_ws r3)); [done|].
    destruct (expect "," (skip_ws r3)) as [r4|] eqn:E3; [|done]. apply expect_size in E3. pose proof (skip_ws_size r4). by rewrite IHm by lia.
Qed.

Lemma fuel_enough n s : (fuel s <= n)%nat → value n s = value (fuel s) s.
Proof. unfold fuel. intros Hn. apply fuel_agrees; lia. Qed.
End Parser.

(** ** Objects in the order of their keys *)

Lemma elem_of_sorted {A} (l : list (string * A)) x : x ∈ merge_sort key_le l ↔ x ∈ l.
Proof. by rewrite (merge_sort_Permutation key_le). Qed.

Fixpoint canon (j : json) : json :=
  match j with
  | JList l => JList (map canon l)
  | JObj d => JObj (merge_sort key_le (map (λ kv, (kv.1, canon kv.2)) d))
  | _ => j
  end.

(** Values whose text is read back: no floats, integers that fit, and no
    repeated key. *)
Fixpoint plain_json (j : json) : bool :=
  match j with
  | JFloat _ => false
  | JInt z => len (string_of_pos (Z.abs z)) <=? max_str_digits
  | JList l => forallb plain_json l
  | JObj d => bool_decide (NoDup (keys d)) && forallb (λ kv, plain_json kv.2) d
  | _ => true
  end.

Lemma sorted_unique {A} (l1 l2 : list (string * A)) :
  NoDup (keys l1) → l1 ≡ₚ l2 → StronglySorted key_le l1 → StronglySorted key_le l2 → l1 = l2.
Proof.
  intros Hnd Hp H1 H2. apply (StronglySorted_unique_strong key_le); [|done|done|done].
  intros x1 x2 Hx1 Hx2 Hle Hge. rewrite <-Hp in Hx2.
  apply (NoDup_map_inj fst l1); [done|done|done|]. by apply (anti_symm String.le).
Qed.

Lemma keys_map {A B} (f : A → B) d : keys (map (λ kv, (kv.1, f kv.2)) d) = keys d.
Proof. unfold keys. by rewrite map_map. Qed.

Lemma sorted_map {A B} (f : A → B) d :
  StronglySorted key_le d → StronglySorted key_le (map (λ kv, (kv.1, f kv.2)) d).
Proof.
  induction 1 as [|a l Hs IH Ha]; simpl; constructor; [done|].
  apply Forall_fmap. eapply Forall_impl; [exact Ha|]. done.
Qed.

(** Sorting commutes with what is done to the values. *)
Lemma merge_sort_map {A B} (f : A → B) d :
  NoDup (keys d) →
  merge_sort key_le (map (λ kv, (kv.1, f kv.2)) d) = map (λ kv, (kv.1, f kv.2)) (merge_sort key_le d).
Proof.
  intros Hnd. apply sorted_unique.
  - unfold keys. rewrite (merge_sort_Permutation key_le). fold (keys (map (λ kv, (kv.1, f kv.2)) d)).
    by rewrite keys_map.
  - rewrite (merge_sort_Permutation key_le). apply (fmap_Permutation (λ kv, (kv.1, f kv.2))).
    symmetry. apply merge_sort_Permutation.
  - apply StronglySorted_merge_sort; apply _.
  - apply sorted_map. apply StronglySorted_merge_sort; apply _.
Qed.

Lemma dumps_canon j : plain_json j = true → json_dumps true j = json_dumps false (canon j).
Proof.
  induction j as [|b|z|f|s|l IH|d IH] using json_ind'; intros Hp; try done.
  - simpl. rewrite map_map. do 3 f_equal. simpl in Hp. induction IH as [|x l Hx _ IHl]; [done|].
    simpl in *. bool_simpl. by rewrite Hx, IHl.
  - cbn [plain_json] in Hp. apply andb_true_iff in Hp as [Hnd Hp]. apply bool_decide_eq_true in Hnd.
    cbn [json_dumps canon].
    assert (Hd : map (λ kv, (kv.1, json_dumps true kv.2)) d
                 = map (λ kv, (kv.1, json_dumps false kv.2)) (map (λ kv, (kv.1, canon kv.2)) d)).
    { rewrite map_map. clear Hnd. induction IH as [|[k v] d Hv _ IHd]; [done|]. simpl in *. bool_simpl.
      by rewrite Hv, IHd. }
    rewrite Hd, merge_sort_map; [done|]. by rewrite keys_map.
Qed.

Lemma canon_plain j : plain_json j = true → plain_json (canon j) = true.
Proof.
  induction j as [|b|z|f|s|l IH|d IH] using json_ind'; intros Hp; try done.
  - simpl in *. rewrite forallb_forall in *. rewrite Forall_forall in IH.
    intros x (y & <- & Hy)%in_map_iff. rewrite <-list_elem_of_In in Hy. apply IH; [done|].
    apply Hp. by apply list_elem_of_In.
  - cbn [plain_json canon] in *. apply andb_true_iff in Hp as [Hnd Hp].
    apply bool_decide_eq_true in Hnd. apply andb_true_iff. split.
    + apply bool_decide_eq_true. unfold keys. rewrite (merge_sort_Permutation key_le).
      fold (keys (map (λ kv, (kv.1, canon kv.2)) d)). by rewrite keys_map.
    + rewrite forallb_forall in *. rewrite Forall_forall in IH. intros kv Hkv.
      rewrite <-list_elem_of_In, elem_of_sorted in Hkv.
      apply list_elem_of_fmap in Hkv as (kv' & -> & Hkv'). simpl. apply IH; [done|].
      apply Hp. by apply list_elem_of_In.
Qed.

Lemma canon_canon j : plain_json j = true → canon (canon j) = canon j.
Proof.
  induction j as [|b|z|f|s|l IH|d IH] using json_ind'; intros Hp; try done.
  - simpl in *. f_equal. rewrite map_map. induction IH as [|x l Hx _ IHl]; [done|]. simpl in *. bool_simpl.
    by rewrite Hx, IHl.
  - cbn [plain_json canon] in *. apply andb_true_iff in Hp as [Hnd Hp].
    apply bool_decide_eq_true in Hnd. f_equal.
    rewrite <-(merge_sort_map canon) by (by rewrite keys_map). rewrite map_map. cbn [fst snd].
    assert (Hd : map (λ x, (x.1, canon (canon x.2))) d = map (λ kv, (kv.1, canon kv.2)) d).
    { clear Hnd. induction IH as [|[k v] d Hv _ IHd]; [done|]. simpl in *. bool_simpl. by rewrite Hv, IHd. }
    rewrite Hd. apply sorted_unique; try (apply StronglySorted_merge_sort; apply _).
    + unfold keys. rewrite !(merge_sort_Permutation key_le).
      fold (keys (map (λ kv, (kv.1, canon kv.2)) d)). by rewrite keys_map.
    + apply merge_sort_Permutation.
Qed.

(** ** Reading back what was printed *)

Lemma string_body_escape c t : string_body (json_escape c +:+ t) = push c (string_body t).
Proof. destruct c as [[] [] [] [] [] [] [] []]; reflexivity. Qed.

Lemma string_body_printed s rest : string_body (escape_all s +:+ String dquote rest) = Loaded (s, rest).
Proof.
  induction s as [|c s IH]; [done|]. cbn [escape_all]. rewrite <-app_assoc_string, string_body_escape.
  by rewrite IH.
Qed.

(** What may follow a printed number. *)
Definition ends_number (c : ascii) : bool :=
  negb (is_decimal c) && negb (Ascii.eqb c ".") && negb (Ascii.eqb c "e" || Ascii.eqb c "E").
Definition after_value (rest : string) : Prop :=
  match rest with EmptyString => True | String c _ => ends_number c = true end.

Lemma span_decimals d rest :
  all_chars is_decimal d = true → after_value rest → span_chars is_decimal (d +:+ rest) = (d, rest).
Proof.
  intros Hd Hr. induction d as [|c d IH].
  - rewrite app_empty_l. destruct rest as [|c rest]; [done|]. simpl in Hr. unfold ends_number in Hr.
    bool_simpl. cbn [span_chars]. by rewrite H.
  - cbn [all_chars] in Hd. bool_simpl. rewrite app_String_l. cbn [span_chars]. by rewrite H, IH.
Qed.

Lemma dec_head fuel z acc c t :
  0 < z → Z.log2 z < Z.of_nat fuel → dec_of_Z_fuel fuel z acc = String c t →
  is_decimal c = true ∧ Ascii.eqb c "0" = false.
Proof.
  revert z acc. induction fuel as [|f IH]; intros z acc Hz Hf.
  { pose proof (Z.log2_nonneg z). lia. }
  cbn [dec_of_Z_fuel]. destruct (Z.ltb_spec z 10).
  - rewrite Z.mod_small by lia. intros [= <- _].
    assert (z = 1 ∨ z = 2 ∨ z = 3 ∨ z = 4 ∨ z = 5 ∨ z = 6 ∨ z = 7 ∨ z = 8 ∨ z = 9) as Hcases by lia.
    by destruct Hcases as [-> |[-> |[-> |[-> |[-> |[-> |[-> |[-> | ->]]]]]]]].
  - intros Heq. eapply IH; [| |exact Heq].
    + apply Z.div_str_pos. lia.
    + assert (Z.log2 (z / 10) <= Z.log2 (z / 2)).
      { apply Z.log2_le_mono. apply Z.div_le_compat_l; lia. }
      assert (Z.log2 (z / 2) = Z.log2 z - 1) as Hl; [|lia].
      pose proof (Z.log2_shiftr z 1) as Hs. rewrite Z.shiftr_div_pow2 in Hs by lia.
      change (2 ^ 1) with 2 in Hs. assert (1 <= Z.log2 z) by (apply Z.log2_le_pow2; lia). lia.
Qed.

Lemma string_of_pos_head z :
  0 < z → ∃ c t, string_of_pos z = String c t ∧ is_decimal c = true ∧ Ascii.eqb c "0" = false.
Proof.
  intros Hz. destruct (string_of_pos z) as [|c t] eqn:E.
  - pose proof (string_of_pos_value z ltac:(lia)) as Hv. rewrite E in Hv. unfold dec_value in Hv.
    simpl in Hv. lia.
  - exists c, t. split; [done|]. eapply dec_head, E; [done|]. pose proof (Z.log2_nonneg z). lia.
Qed.

Lemma integer_part_printed z rest :
  0 <= z → after_value rest → integer_part (string_of_pos z +:+ rest) = Some (string_of_pos z, rest).
Proof.
  intros Hz Hr. destruct (decide (z = 0)) as [->|Hne]; [done|].
  pose proof (span_decimals (string_of_pos z) rest (string_of_pos_digits z Hz) Hr) as Hspan.
  destruct (string_of_pos_head z) as (c & t & E & Hc & H0); [lia|]. rewrite E in *.
  rewrite app_String_l in *. unfold integer_part. by rewrite H0, Hc, Hspan.
Qed.

Lemma number_tail rest :
  after_value rest → fraction_part rest = ("", rest) ∧ exponent_part rest = ("", rest).
Proof.
  destruct rest as [|c rest]; [done|]. simpl. unfold ends_number. intros H. bool_simpl.
  rewrite H1. split; [done|]. by rewrite H0, H2.
Qed.

Lemma number_printed hooked float_of z rest :
  plain_json (JInt z) = true → after_value rest →
  number hooked float_of (string_of_Z z +:+ rest) = Loaded (JInt z, rest).
Proof.
  intros Hp Hr. destruct (number_tail rest Hr) as [Hf He]. cbn [plain_json] in Hp. unfold number, string_of_Z.
  destruct (Z.ltb_spec z 0).
  - rewrite app_String_l. cbn [sign_part]. change (Ascii.eqb "-" "-") with true. cbv iota.
    rewrite integer_part_printed by (done || lia). rewrite Hf, He.
    change (String.eqb "" "" && String.eqb "" "") with true. change (String.eqb "-" "-") with true. cbv iota.
    rewrite Z.abs_neq in Hp by lia. rewrite Hp. rewrite string_of_pos_value by lia.
    by rewrite Z.opp_involutive.
  - assert (Hs : sign_part (string_of_pos z +:+ rest) = ("", string_of_pos z +:+ rest)).
    { destruct (decide (z = 0)) as [->|Hne]; [done|].
      destruct (string_of_pos_head z) as (c & t & E & Hc & _); [lia|]. rewrite E, app_String_l. cbn [sign_part].
      destruct (Ascii.eqb_spec c "-") as [->|]; done. }
    rewrite Hs, integer_part_printed by (done || lia). rewrite Hf, He.
    change (String.eqb "" "" && String.eqb "" "") with true. change (String.eqb "" "-") with false. cbv iota.
    rewrite Z.abs_eq in Hp by lia. rewrite Hp. by rewrite string_of_pos_value by lia.
Qed.

(** ** Values *)

(** A printed value starts neither with white space nor with a closing bracket. *)
Definition opens (s : string) : Prop :=
  match s with
  | String c _ => is_ws c = false ∧ Ascii.eqb "]" c = false ∧ Ascii.eqb "}" c = false
  | EmptyString => False
  end.

Lemma skip_ws_opens s t : opens s → skip_ws (s +:+ t) = s +:+ t.
Proof. destruct s as [|c s]; [done|]. intros (Hc & _). unfold skip_ws. rewrite app_String_l. cbn [lstrip_chars]. by rewrite Hc. Qed.

Lemma decimal_opens c s : is_decimal c = true → opens (String c s).
Proof. destruct c as [[] [] [] [] [] [] [] []]; try done. Qed.

Lemma dumps_opens j : plain_json j = true → opens (json_dumps false j).
Proof.
  destruct j as [|[]|z|f|s|l|d]; intros Hp; try done.
  simpl. unfold string_of_Z. destruct (Z.ltb_spec z 0); [done|].
  destruct (decide (z = 0)) as [->|Hne]; [done|].
  destruct (string_of_pos_head z) as (c & t & -> & Hc & _); [lia|]. by apply decimal_opens.
Qed.

Lemma expect_opens b s t : opens s → b = "]"%char ∨ b = "}"%char → expect b (s +:+ t) = None.
Proof.
  destruct s as [|c s]; [done|]. intros (_ & H1 & H2) [-> | ->]; rewrite app_String_l; cbn [expect];
    by rewrite ?H1, ?H2.
Qed.

(** The text of a value, with whatever may follow it, is read as the value by
    any call with fuel enough. *)
Definition reads (hooked : bool) (float_of : string → option pyfloat) (j : json) : Prop :=
  ∃ n0, ∀ n rest, (n0 <= n)%nat → after_value rest →
    value hooked float_of n (json_dumps false j +:+ rest) = Loaded (j, rest).

Section Printed.
Context (hooked : bool) (float_of : string → option pyfloat).

Lemma reads_number z : plain_json (JInt z) = true → reads hooked float_of (JInt z).
Proof.
  intros Hp. exists 1%nat. intros [|n] rest Hn Hr; [lia|].
  pose proof (number_printed hooked float_of z rest Hp Hr) as Hnum. cbn [json_dumps].
  assert (Hhead : ∃ c t, string_of_Z z = String c t ∧ (is_decimal c = true ∨ c = "-"%char)).
  { unfold string_of_Z. destruct (Z.ltb_spec z 0); [by eauto|].
    destruct (decide (z = 0)) as [->|Hne]; [by exists "0"%char, ""; split; [|left]|].
    destruct (string_of_pos_head z) as (c & t & -> & Hc & _); [lia|]. eauto. }
  destruct Hhead as (c & t & E & Hc). rewrite E in *. rewrite app_String_l in *. cbn [value].
  assert (Ascii.eqb c dquote = false ∧ Ascii.eqb c "{" = false ∧ Ascii.eqb c "[" = false
          ∧ Ascii.eqb "n" c = false ∧ Ascii.eqb "t" c = false ∧ Ascii.eqb "f" c = false)
    as (-> & -> & -> & H1 & H2 & H3).
  { destruct Hc as [Hc | ->]; [|done]. destruct c as [[] [] [] [] [] [] [] []]; done. }
  cbn [startswith]. by rewrite H1, H2, H3.
Qed.

Lemma reads_string s : reads hooked float_of (JStr s).
Proof.
  exists 1%nat. intros [|n] rest Hn Hr; [lia|]. cbn [json_dumps]. unfold json_string.
  rewrite app_String_l, <-app_assoc_string. cbn [value]. change (Ascii.eqb dquote dquote) with true.
  cbv iota. change (str1 dquote +:+ rest) with (String dquote rest). by rewrite string_body_printed.
Qed.

Lemma elements_read l :
  l ≠ [] → Forall (λ j, plain_json j = true ∧ reads hooked float_of j) l →
  ∃ n0, ∀ n rest, (n0 <= n)%nat →
    elements hooked float_of n (join "," (map (json_dumps false) l) +:+ String "]" rest) = Loaded (l, rest).
Proof.
  induction l as [|j l IH]; [done|]. intros _ [[Hp [n1 Hj]] Hl]%Forall_cons. destruct l as [|j' l].
  - exists (S n1). intros [|n] rest Hn; [lia|]. cbn [map join elements].
    rewrite Hj by (done || lia). cbn [lbind]. reflexivity.
  - destruct IH as [n2 IH]; [done|done|]. exists (S (Nat.max n1 n2)). intros [|n] rest Hn; [lia|].
    cbn [map]. rewrite join_cons2. rewrite <-app_assoc_string. cbn [elements].
    rewrite <-app_assoc_string. change ("," +:+ ?x) with (String "," x).
    rewrite Hj by (done || lia). cbn [lbind].
    change (skip_ws (String "," ?x)) with (String "," x). cbn [expect].
    change (Ascii.eqb "]" ",") with false. change (Ascii.eqb "," ",") with true. cbv iota.
    assert (Hop : opens (join "," (map (json_dumps false) (j' :: l)))).
    { apply Forall_cons in Hl as [[Hp' _] _]. pose proof (dumps_opens j' Hp') as Ho. cbn [map].
      destruct (map (json_dumps false) l); [done|]. rewrite join_cons2.
      destruct (json_dumps false j'); [done|]. exact Ho. }
    rewrite skip_ws_opens by done. cbn [map] in IH. rewrite IH by lia. done.
Qed.

Definition field_text (kv : string * json) : string := json_string kv.1 +:+ ":" +:+ json_dumps false kv.2.

Lemma field_read n k v rest seen :
  (∀ rest, after_value rest → value hooked float_of n (json_dumps false v +:+ rest) = Loaded (v, rest)) →
  plain_json v = true → after_value rest → add_field hooked k v seen = Some (seen ++ [(k, v)]) →
  members hooked float_of (S n) seen (field_text (k, v) +:+ rest)
  = match expect "}" (skip_ws rest) with
    | Some r => Loaded (seen ++ [(k, v)], r)
    | None => match expect "," (skip_ws rest) with
              | Some r => members hooked float_of n (seen ++ [(k, v)]) (skip_ws r)
              | None => Malformed
              end
    end.
Proof.
  intros Hv Hp Hr Hk. unfold field_text, json_string. cbn [fst snd members].
  rewrite !app_String_l. cbn [expect]. change (Ascii.eqb dquote dquote) with true. cbv iota.
  rewrite <-!app_assoc_string. change (str1 dquote +:+ ?x) with (String dquote x).
  rewrite string_body_printed. cbn [lbind]. rewrite !app_String_l, !app_empty_l.
  change (skip_ws (String ":" ?x)) with (String ":" x).
  cbn [expect]. change (Ascii.eqb ":" ":") with true. cbv iota.
  rewrite skip_ws_opens by (by apply dumps_opens). rewrite Hv by done. cbn [lbind]. rewrite Hk. reflexivity.
Qed.

Lemma field_opens kv t : opens (field_text kv +:+ t).
Proof. unfold field_text, json_string. by rewrite !app_String_l. Qed.

Lemma dset_absent {A} k (v : A) d : lookup_key k d = None → dset k v d = d ++ [(k, v)].
Proof. induction d as [|[k' v'] d IH]; simpl; [done|]. destruct (String.eqb k k'); [done|]. intros H. by rewrite IH. Qed.

Lemma add_fresh k v (seen : list (string * json)) :
  k ∉ keys seen → add_field hooked k v seen = Some (seen ++ [(k, v)]).
Proof.
  intros Hk%lookup_key_None. unfold add_field, fresh_key, has_key. rewrite dset_absent by done. rewrite Hk. by destruct hooked.
Qed.

Lemma members_read d seen :
  d ≠ [] → Forall (λ kv, plain_json kv.2 = true ∧ reads hooked float_of kv.2) d → NoDup (keys (seen ++ d)) →
  ∃ n0, ∀ n rest, (n0 <= n)%nat →
    members hooked float_of n seen (join "," (map field_text d) +:+ String "}" rest) = Loaded (seen ++ d, rest).
Proof.
  revert seen. induction d as [|[k v] d IH]; [done|].
  intros seen _ [[Hp [n1 Hv]] Hd]%Forall_cons Hnd. cbn [snd] in *.
  assert (Hk : add_field hooked k v seen = Some (seen ++ [(k, v)])).
  { apply add_fresh. unfold keys in Hnd. rewrite map_app in Hnd.
    apply NoDup_app in Hnd as (_ & Hnd & _). intros Hin. apply (Hnd k Hin). simpl. set_solver. }
  destruct d as [|kv' d].
  - exists (S n1). intros [|n] rest Hn; [lia|]. cbn [map join].
    rewrite field_read; [|intros; apply Hv; [lia|done]|done|done|done]. reflexivity.
  - destruct (IH (seen ++ [(k, v)])) as [n2 IH']; [done|done|by rewrite <-app_assoc|].
    exists (S (Nat.max n1 n2)). intros [|n] rest Hn; [lia|].
    cbn [map]. rewrite join_cons2, <-app_assoc_string.
    rewrite field_read; [|intros; apply Hv; [lia|done]|done|done|done].
    rewrite <-app_assoc_string. change ("," +:+ ?x) with (String "," x).
    change (skip_ws (String "," ?x)) with (String "," x). cbn [expect].
    change (Ascii.eqb "}" ",") with false. change (Ascii.eqb "," ",") with true. cbv iota.
    assert (Hop : opens (join "," (map field_text (kv' :: d)))).
    { cbn [map]. destruct (map field_text d); [|rewrite join_cons2; apply field_opens].
      cbn [join]. rewrite <-(app_empty_r (field_text kv')). apply field_opens. }
    rewrite skip_ws_opens by done. cbn [map] in IH'. rewrite IH' by lia. by rewrite <-app_assoc.
Qed.

Lemma dumps_read j : plain_json j = true → reads hooked float_of j.
Proof.
  induction j as [|b|z|f|s|l IH|d IH] using json_ind'; intros Hp; try done.
  - exists 1%nat. intros [|n] rest Hn Hr; [lia|]. reflexivity.
  - exists 1%nat. intros [|n] rest Hn Hr; [lia|]. destruct b; reflexivity.
  - by apply reads_number.
  - apply reads_string.
  - assert (Hl : Forall (λ j, plain_json j = true ∧ reads hooked float_of j) l).
    { simpl in Hp. rewrite forallb_forall in Hp. rewrite Forall_forall in *. intros x Hx.
      assert (Hpx : plain_json x = true) by (apply Hp; by apply list_elem_of_In). auto. }
    destruct l as [|x l].
    { exists 1%nat. intros [|n] rest Hn Hr; [lia|]. reflexivity. }
    destruct (elements_read (x :: l)) as [n0 Hread]; [done|done|].
    exists (S n0). intros [|n] rest Hn Hr; [lia|]. cbn [json_dumps].
    rewrite <-!app_assoc_string. change ("[" +:+ ?x) with (String "[" x).
    change ("]" +:+ rest) with (String "]" rest). cbn [value].
    change (Ascii.eqb "[" dquote) with false. change (Ascii.eqb "[" "{") with false.
    change (Ascii.eqb "[" "[") with true. cbv iota.
    assert (Hop : opens (join "," (map (json_dumps false) (x :: l)))).
    { apply Forall_cons in Hl as [[Hpx _] _]. pose proof (dumps_opens x Hpx) as Ho. cbn [map].
      destruct (map (json_dumps false) l); [done|]. rewrite join_cons2. by destruct (json_dumps false x). }
    rewrite skip_ws_opens, expect_opens by auto. rewrite Hread by lia. done.
  - cbn [plain_json] in Hp. apply andb_true_iff in Hp as [Hnd Hp]. apply bool_decide_eq_true in Hnd.
    assert (Hd : Forall (λ kv, plain_json kv.2 = true ∧ reads hooked float_of kv.2) d).
    { rewrite forallb_forall in Hp. rewrite Forall_forall in *. intros x Hx.
      assert (Hpx : plain_json x.2 = true) by (apply Hp; by apply list_elem_of_In). auto. }
    destruct d as [|x d].
    { exists 1%nat. intros [|n] rest Hn Hr; [lia|]. reflexivity. }
    destruct (members_read (x :: d) []) as [n0 Hread]; [done|done|done|].
    exists (S n0). intros [|n] rest Hn Hr; [lia|]. cbn [json_dumps].
    assert (Htext : map (λ kv, json_string kv.1 +:+ ":" +:+ kv.2)
              (map (λ kv, (kv.1, json_dumps false kv.2)) (x :: d)) = map field_text (x :: d))
      by by rewrite map_map.
    rewrite Htext. rewrite <-!app_assoc_string. change ("{" +:+ ?x) with (String "{" x).
    change ("}" +:+ rest) with (String "}" rest). cbn [value].
    change (Ascii.eqb "{" dquote) with false. change (Ascii.eqb "{" "{") with true. cbv iota.
    assert (Hop : opens (join "," (map field_text (x :: d)))).
    { cbn [map]. destruct (map field_text d); [|rewrite join_cons2; apply field_opens].
      cbn [join]. rewrite <-(app_empty_r (field_text x)). apply field_opens. }
    rewrite skip_ws_opens, expect_opens by auto. rewrite Hread by lia. done.
Qed.

Lemma loads_canonical j : plain_json j = true → json_loads hooked float_of (json_dumps true j) = Loaded (canon j).
Proof.
  intros Hp. rewrite dumps_canon by done. pose proof (canon_plain j Hp) as Hc.
  pose proof (dumps_opens _ Hc) as Hop. unfold json_loads.
  set (text := json_dumps false (canon j)) in *.
  assert (Hs : skip_ws text = text).
  { rewrite <-(app_empty_r text) at 1. rewrite skip_ws_opens by done. apply app_empty_r. }
  rewrite Hs. destruct (dumps_read (canon j) Hc) as [n0 Hn0]. fold text in Hn0.
  rewrite <-(fuel_enough hooked float_of (Nat.max n0 (fuel text))) by lia.
  rewrite <-(app_empty_r text) at 2. rewrite Hn0 by (done || lia). done.
Qed.
End Printed.
