(* ===== verification/Base64.v ===== *)
(** * Unpadded URL-safe base64, on bytes

    [b64] and [unb64] of managed_wire.py with the standard library's encoder
    and decoder.  A byte string is a [string] of its bytes. *)
From S2P Require Import Prelude PyStr.
From Stdlib Require Import Ascii.

Fixpoint bytes_of (s : string) : list Z :=
  match s with EmptyString => [] | String c s' => code c :: bytes_of s' end.
Definition of_bytes (l : list Z) : string := fold_right (λ z s, String (chr z) s) EmptyString l.

(** Groups of three bytes as four 6-bit numbers; a short last group gives two
    or three, its missing bits zero. *)
Fixpoint sextets (l : list Z) : list Z :=
  match l with
  | a :: b :: c :: r =>
      Z.shiftr a 2 :: Z.lor (Z.shiftl (Z.land a 3) 4) (Z.shiftr b 4)
      :: Z.lor (Z.shiftl (Z.land b 15) 2) (Z.shiftr c 6) :: Z.land c 63 :: sextets r
  | [a; b] =>
      [Z.shiftr a 2; Z.lor (Z.shiftl (Z.land a 3) 4) (Z.shiftr b 4); Z.shiftl (Z.land b 15) 2]
  | [a] => [Z.shiftr a 2; Z.shiftl (Z.land a 3) 4]
  | [] => []
  end.

(** The bytes of a list of 6-bit numbers, the surplus bits of the last group
    dropped; one number alone is not a byte. *)
Fixpoint octets (l : list Z) : option (list Z) :=
  match l with
  | p :: q :: r :: s :: rest =>
      (λ tl, Z.lor (Z.shiftl p 2) (Z.shiftr q 4)
             :: Z.lor (Z.shiftl (Z.land q 15) 4) (Z.shiftr r 2)
             :: Z.lor (Z.shiftl (Z.land r 3) 6) s :: tl) <$> octets rest
  | [p; q; r] =>
      Some [Z.lor (Z.shiftl p 2) (Z.shiftr q 4); Z.lor (Z.shiftl (Z.land q 15) 4) (Z.shiftr r 2)]
  | [p; q] => Some [Z.lor (Z.shiftl p 2) (Z.shiftr q 4)]
  | [p] => None
  | [] => Some []
  end.

Definition sextet_char (z : Z) : ascii :=
  if z <? 26 then chr (65 + z)
  else if z <? 52 then chr (71 + z)
  else if z <? 62 then chr (z - 4)
  else if z =? 62 then "-"%char else "_"%char.

Definition char_sextet (c : ascii) : option Z :=
  if in_range 65 90 c then Some (code c - 65)
  else if in_range 97 122 c then Some (code c - 71)
  else if in_range 48 57 c then Some (code c + 4)
  else if Ascii.eqb c "-" then Some 62
  else if Ascii.eqb c "_" then Some 63
  else None.

Fixpoint chars_sextets (s : string) : option (list Z) :=
  match s with
  | EmptyString => Some []
  | String c s' =>
      match char_sextet c, chars_sextets s' with
      | Some z, Some l => Some (z :: l)
      | _, _ => None
      end
  end.

Definition b64 (data : string) : string :=
  fold_right (λ z s, String (sextet_char z) s) EmptyString (sextets (bytes_of data)).

(** [require(condition, reason)] of managed_wire.py. *)
Definition require (b : bool) (reason : string) : result unit :=
  if b then Ok tt else Raise (WireRefused reason).

Definition unb64 (value : string) (maximum : Z) : result string :=
  check? require ((0 <? len value) && (len value <=? (maximum * 4 + 2) / 3)
                  && bool_decide (is_Some (chars_sextets value))) "invalid_base64" in
  match chars_sextets value ≫= octets with
  | None => Raise (WireRefused "invalid_base64")
  | Some l =>
      let data := of_bytes l in
      check? require ((len data <=? maximum) && String.eqb (b64 data) value) "invalid_base64" in
      Ok data
  end.

Example b64_example : b64 "a?>~" = "YT8-fg" ∧ unb64 "YT8-fg" 4 = Ok "a?>~"
  ∧ unb64 "YT8-fh" 4 = Raise (WireRefused "invalid_base64") ∧ unb64 "YT8-f" 4 = Raise (WireRefused "invalid_base64").
Proof. vm_compute. done. Qed.

(** ** Decoding what was encoded *)

Lemma lor_shiftl x y n : 0 <= n → 0 <= y < 2 ^ n → Z.lor (Z.shiftl x n) y = x * 2 ^ n + y.
Proof.
  intros Hn Hy. rewrite <-Z.shiftl_mul_pow2 by done. rewrite <-Z.add_lor_land.
  assert (Z.land (Z.shiftl x n) y = 0) as ->; [|lia].
  apply Z.bits_inj'. intros m Hm. rewrite Z.land_spec, Z.bits_0.
  destruct (Z.ltb_spec m n); [by rewrite Z.shiftl_spec_low by lia|].
  rewrite <-(Z.mod_small y (2 ^ n)) by done. by rewrite Z.mod_pow2_bits_high, andb_false_r by lia.
Qed.

Lemma land_low x n : 0 <= n → Z.land x (2 ^ n - 1) = x mod 2 ^ n.
Proof. intros Hn. rewrite <-Z.land_ones by done. by rewrite Z.ones_equiv, Z.sub_1_r. Qed.

Definition byte (z : Z) : Prop := 0 <= z < 256.
Definition sextet (z : Z) : Prop := 0 <= z < 64.

(** The bit operations of the encoder as arithmetic. *)
Ltac bits_to_arith :=
  change 3 with (2 ^ 2 - 1); change 15 with (2 ^ 4 - 1); change 63 with (2 ^ 6 - 1);
  rewrite ?land_low by lia; rewrite ?Z.shiftr_div_pow2 by lia.

Lemma group3 a b c :
  byte a → byte b → byte c →
  let p := Z.shiftr a 2 in
  let q := Z.lor (Z.shiftl (Z.land a 3) 4) (Z.shiftr b 4) in
  let r := Z.lor (Z.shiftl (Z.land b 15) 2) (Z.shiftr c 6) in
  let s := Z.land c 63 in
  (sextet p ∧ sextet q ∧ sextet r ∧ sextet s)
  ∧ Z.lor (Z.shiftl p 2) (Z.shiftr q 4) = a
  ∧ Z.lor (Z.shiftl (Z.land q 15) 4) (Z.shiftr r 2) = b
  ∧ Z.lor (Z.shiftl (Z.land r 3) 6) s = c.
Proof.
  intros Ha Hb Hc p q r s. unfold byte, sextet in *.
  assert (Hp : p = a / 4) by (unfold p; bits_to_arith; done).
  assert (Hq : q = a mod 4 * 16 + b / 16).
  { unfold q. bits_to_arith. rewrite lor_shiftl; [done|lia|]. change (2 ^ 4) with 16.
    split; [apply Z.div_pos; lia|apply Z.div_lt_upper_bound; lia]. }
  assert (Hr : r = b mod 16 * 4 + c / 64).
  { unfold r. bits_to_arith. rewrite lor_shiftl; [done|lia|]. change (2 ^ 6) with 64. change (2 ^ 2) with 4.
    split; [apply Z.div_pos; lia|apply Z.div_lt_upper_bound; lia]. }
  assert (Hs : s = c mod 64) by (unfold s; bits_to_arith; done).
  clearbody p q r s. subst.
  assert (0 <= a / 4 < 64 ∧ 0 <= a mod 4 < 4 ∧ 0 <= b / 16 < 16 ∧ 0 <= b mod 16 < 16
    ∧ 0 <= c / 64 < 4 ∧ 0 <= c mod 64 < 64) as (? & ? & ? & ? & ? & ?)
    by (split_and!; Z.to_euclidean_division_equations; lia).
  split; [lia|]. bits_to_arith. rewrite !lor_shiftl by (split_and? || lia; Z.to_euclidean_division_equations; lia).
  change (2 ^ 2) with 4. change (2 ^ 4) with 16. change (2 ^ 6) with 64.
  split_and!; Z.to_euclidean_division_equations; lia.
Qed.

Lemma octets_sextets l :
  Forall byte l → Forall sextet (sextets l) ∧ octets (sextets l) = Some l.
Proof.
  assert (H0 : byte 0) by (unfold byte; lia).
  remember (length l) as n eqn:Hn. revert l Hn.
  induction n as [n IH] using (well_founded_induction lt_wf). intros [|a [|b [|c l]]] -> Hl.
  - done.
  - apply Forall_cons in Hl as [Ha _]. destruct (group3 a 0 0 Ha H0 H0) as ((Hp & Hq & _) & Hx & _).
    rewrite Z.shiftr_0_l, Z.lor_0_r in *. split; [cbn [sextets]; by rewrite !Forall_cons|]. cbn [sextets octets]. by rewrite Hx.
  - apply Forall_cons in Hl as [Ha [Hb _]%Forall_cons].
    destruct (group3 a b 0 Ha Hb H0) as ((Hp & Hq & Hr & _) & Hx & Hy & _).
    rewrite Z.shiftr_0_l, Z.lor_0_r in *. split; [cbn [sextets]; by rewrite !Forall_cons|]. cbn [sextets octets].
    by rewrite Hx, Hy.
  - apply Forall_cons in Hl as [Ha [Hb [Hc Hl]%Forall_cons]%Forall_cons].
    destruct (group3 a b c Ha Hb Hc) as ((Hp & Hq & Hr & Hs) & Hx & Hy & Hz).
    destruct (IH (length l)) with l as [Hsx Ho]; [simpl; lia|done|done|].
    split; [cbn [sextets]; by rewrite !Forall_cons|]. cbn [sextets octets]. rewrite Ho. cbn [fmap option_fmap option_map].
    by rewrite Hx, Hy, Hz.
Qed.

Lemma bytes_of_byte s : Forall byte (bytes_of s).
Proof. induction s as [|c s IH]; constructor; [|done]. unfold byte. pose proof (code_bound c). lia. Qed.

Lemma of_bytes_of s : of_bytes (bytes_of s) = s.
Proof. induction s as [|c s IH]; [done|]. simpl. by rewrite code_chr, IH. Qed.

Lemma char_sextet_char z : sextet z → char_sextet (sextet_char z) = Some z.
Proof.
  intros Hz. assert (Hall : forallb (λ z, bool_decide (char_sextet (sextet_char z) = Some z))
    (map Z.of_nat (seq 0 64)) = true) by (vm_compute; reflexivity).
  rewrite forallb_forall in Hall. apply (bool_decide_eq_true_1 _). apply (Hall z).
  apply in_map_iff. exists (Z.to_nat z). unfold sextet in Hz. split; [lia|]. apply in_seq. lia.
Qed.

Lemma chars_sextets_chars l :
  Forall sextet l → chars_sextets (fold_right (λ z s, String (sextet_char z) s) EmptyString l) = Some l.
Proof. induction 1 as [|z l Hz _ IH]; [done|]. cbn [fold_right chars_sextets]. by rewrite char_sextet_char, IH. Qed.

Lemma sextets_length l : Z.of_nat (length (sextets l)) = (Z.of_nat (length l) * 4 + 2) / 3.
Proof.
  remember (length l) as n eqn:Hn. revert l Hn.
  induction n as [n IH] using (well_founded_induction lt_wf). intros [|a [|b [|c l]]] ->; try done.
  cbn [sextets length]. specialize (IH (length l) ltac:(simpl; lia) l eq_refl).
  Z.to_euclidean_division_equations. lia.
Qed.

Lemma chars_length (l : list Z) :
  String.length (fold_right (λ z s, String (sextet_char z) s) EmptyString l) = length l.
Proof. induction l as [|z l IH]; [done|]. cbn. by rewrite IH. Qed.

Lemma bytes_of_length s : length (bytes_of s) = String.length s.
Proof. induction s as [|c s IH]; [done|]. cbn. by rewrite IH. Qed.

Lemma b64_length data : len (b64 data) = (len data * 4 + 2) / 3.
Proof. unfold len, b64. by rewrite chars_length, sextets_length, bytes_of_length. Qed.

Lemma decode_b64 data : chars_sextets (b64 data) ≫= octets = Some (bytes_of data).
Proof.
  destruct (octets_sextets (bytes_of data) (bytes_of_byte data)) as [Hs Ho].
  unfold b64. by rewrite chars_sextets_chars.
Qed.

Lemma unb64_b64 data maximum : 0 < len data <= maximum → unb64 (b64 data) maximum = Ok data.
Proof.
  intros Hlen. unfold unb64. rewrite decode_b64, b64_length, of_bytes_of.
  assert (is_Some (chars_sextets (b64 data))) as Hs.
  { pose proof (decode_b64 data) as Hd. destruct (chars_sextets (b64 data)); [done|]. discriminate Hd. }
  rewrite bool_decide_eq_true_2 by done. rewrite String.eqb_refl, !andb_true_r.
  assert (0 <? (len data * 4 + 2) / 3 = true) as ->.
  { apply Z.ltb_lt. Z.to_euclidean_division_equations. lia. }
  assert ((len data * 4 + 2) / 3 <=? (maximum * 4 + 2) / 3 = true) as ->.
  { apply Z.leb_le. apply Z.div_le_mono; lia. }
  simpl. by rewrite (proj2 (Z.leb_le _ _) (proj2 Hlen)).
Qed.

Lemma unb64_sound value maximum data :
  unb64 value maximum = Ok data → b64 data = value ∧ len data <= maximum.
Proof.
  unfold unb64, require. intros H. apply rbind_ok in H as ([] & _ & H).
  destruct (chars_sextets value ≫= octets) as [l|]; [|done]. cbv zeta in H.
  apply rbind_ok in H as ([] & Hg & [= <-]). destruct (_ && _) eqn:E in Hg; [|done]. bool_simpl. split; [done|lia].
Qed.
