(* ===== verification/Time.v ===== *)
(** * Instants and [datetime.isoformat]

    A [DateTime] column holds a naive UTC instant: microseconds since
    1970-01-01T00:00:00, with its calendar date for [isoformat]. *)
From S2P Require Import Prelude PyStr.
From Stdlib Require Import Ascii.

Definition time : Type := Z.
Definition seconds (n : Z) : Z := n * 1000000.
Definition minutes (n : Z) : Z := seconds (60 * n).
Definition hours (n : Z) : Z := minutes (60 * n).

(** The proleptic Gregorian date of a day number (days since 1970-01-01),
    by eras of 400 years that start on 1 March. *)
Definition civil_of_days (days : Z) : Z * Z * Z :=
  let z := days + 719468 in
  let era := z / 146097 in
  let doe := z mod 146097 in
  let yoe := (doe - doe / 1460 + doe / 36524 - doe / 146096) / 365 in
  let doy := doe - (365 * yoe + yoe / 4 - yoe / 100) in
  let mp := (5 * doy + 2) / 153 in
  let d := doy - (153 * mp + 2) / 5 + 1 in
  let m := if mp <? 10 then mp + 3 else mp - 9 in
  let y := yoe + era * 400 + (if m <=? 2 then 1 else 0) in
  (y, m, d).

(** [f"{z:0{n}d}"] for a number of at most [n] digits. *)
Definition pad (n : nat) (z : Z) : string :=
  let s := string_of_Z z in
  fold_left (λ acc _, String "0" acc) (seq 0 (n - String.length s)) s.

Definition isoformat (t : time) : string :=
  let days := t / 86400000000 in
  let us := t mod 86400000000 in
  let '(y, m, d) := civil_of_days days in
  let s := us / 1000000 in
  let frac := us mod 1000000 in
  pad 4 y +:+ "-" +:+ pad 2 m +:+ "-" +:+ pad 2 d +:+ "T" +:+
  pad 2 (s / 3600) +:+ ":" +:+ pad 2 (s / 60 mod 60) +:+ ":" +:+ pad 2 (s mod 60) +:+
  (if frac =? 0 then "" else "." +:+ pad 6 frac).

Example isoformat_epoch : isoformat 0 = "1970-01-01T00:00:00".
Proof. vm_compute. reflexivity. Qed.
Example isoformat_leap_day : isoformat 1709164800000001 = "2024-02-29T00:00:00.000001".
Proof. vm_compute. reflexivity. Qed.

(** ** Dates back to instants *)

(** The day number of a date, the inverse of [civil_of_days]. *)
Definition days_of_civil (y m d : Z) : Z :=
  let y := if m <=? 2 then y - 1 else y in
  let era := y / 400 in
  let yoe := y mod 400 in
  let mp := if 2 <? m then m - 3 else m + 9 in
  let doy := (153 * mp + 2) / 5 + d - 1 in
  let doe := yoe * 365 + yoe / 4 - yoe / 100 + doy in
  era * 146097 + doe - 719468.

Definition leap_year (y : Z) : bool :=
  (y mod 4 =? 0) && (negb (y mod 100 =? 0) || (y mod 400 =? 0)).
Definition days_in_month (y m : Z) : Z :=
  if m =? 2 then (if leap_year y then 29 else 28)
  else if (m =? 4) || (m =? 6) || (m =? 9) || (m =? 11) then 30 else 31.

(** What [datetime(y, m, d)] accepts. *)
Definition valid_date (y m d : Z) : bool :=
  (1 <=? y) && (y <=? 9999) && (1 <=? m) && (m <=? 12) && (1 <=? d) && (d <=? days_in_month y m).

Example days_of_civil_example :
  days_of_civil 1970 1 1 = 0 ∧ days_of_civil 2024 2 29 = 19782
  ∧ civil_of_days (days_of_civil 2100 12 31) = (2100, 12, 31).
Proof. vm_compute. done. Qed.

(** ** Dates and day numbers are inverse *)

Definition year_of_era (doe : Z) : Z := (doe - doe / 1460 + doe / 36524 - doe / 146096) / 365.
Definition day_of_year (doe yoe : Z) : Z := doe - (365 * yoe + yoe / 4 - yoe / 100).

(** Day 365 of a year that starts in March is 29 February. *)
Lemma era_ok doe :
  0 <= doe < 146097 →
  0 <= year_of_era doe < 400 ∧ 0 <= day_of_year doe (year_of_era doe) <= 365
  ∧ (day_of_year doe (year_of_era doe) = 365 → leap_year (year_of_era doe + 1) = true).
Proof.
  intros Hd. unfold day_of_year, year_of_era. split; [Z.to_euclidean_division_equations; lia|].
  split; [Z.to_euclidean_division_equations; lia|]. intros H. unfold leap_year.
  assert (Hleap : let y := (doe - doe / 1460 + doe / 36524 - doe / 146096) / 365 + 1 in
    y mod 4 = 0 ∧ (y mod 100 ≠ 0 ∨ y mod 400 = 0)).
  { intros y. subst y. Z.to_euclidean_division_equations. lia. }
  cbv zeta in Hleap. destruct Hleap as [H4 H100]. rewrite (proj2 (Z.eqb_eq _ _) H4). simpl.
  destruct H100 as [H100|H400].
  - apply Z.eqb_neq in H100. by rewrite H100.
  - apply Z.eqb_eq in H400. by rewrite H400, orb_true_r.
Qed.

Definition month_ok (doy : Z) : bool :=
  let mp := (5 * doy + 2) / 153 in
  let d := doy - (153 * mp + 2) / 5 + 1 in
  let m := if mp <? 10 then mp + 3 else mp - 9 in
  (0 <=? mp) && (mp <? 12) && (1 <=? d) && (d <=? if doy =? 365 then 29 else if m =? 2 then 28 else days_in_month 1 m).

Lemma month_ok_all doy : 0 <= doy <= 365 → month_ok doy = true.
Proof.
  intros Hd. assert (Hall : forallb month_ok (map Z.of_nat (seq 0 366)) = true) by (vm_compute; reflexivity).
  rewrite forallb_forall in Hall. apply Hall. apply in_map_iff. exists (Z.to_nat doy).
  split; [lia|]. apply in_seq. lia.
Qed.

Lemma leap_year_era y era : leap_year (y + era * 400) = leap_year y.
Proof.
  unfold leap_year.
  replace ((y + era * 400) mod 4) with (y mod 4) by (Z.to_euclidean_division_equations; lia).
  replace ((y + era * 400) mod 100) with (y mod 100) by (Z.to_euclidean_division_equations; lia).
  replace ((y + era * 400) mod 400) with (y mod 400) by (Z.to_euclidean_division_equations; lia). done.
Qed.

Lemma civil_of_days_spec z y m d :
  civil_of_days z = (y, m, d) →
  days_of_civil y m d = z ∧ 1 <= m <= 12 ∧ 1 <= d <= days_in_month y m.
Proof.
  unfold civil_of_days. set (w := z + 719468). set (era := w / 146097). set (doe := w mod 146097).
  assert (Hdoe : 0 <= doe < 146097) by (apply Z.mod_pos_bound; lia).
  assert (Hw : w = 146097 * era + doe) by (apply Z.div_mod; lia).
  fold (year_of_era doe). fold (day_of_year doe (year_of_era doe)).
  destruct (era_ok doe Hdoe) as (Hyoe & Hdoy & Hleap).
  assert (Heq : doe = 365 * year_of_era doe + year_of_era doe / 4 - year_of_era doe / 100
                      + day_of_year doe (year_of_era doe)) by (unfold day_of_year; lia).
  set (yoe := year_of_era doe) in *. set (doy := day_of_year doe yoe) in *. clearbody yoe doy era doe.
  pose proof (month_ok_all doy Hdoy) as Hm. unfold month_ok in Hm. cbv zeta.
  set (mp := (5 * doy + 2) / 153) in *.
  assert (Hmpdef : mp = (5 * doy + 2) / 153) by done. clearbody mp. intros [= Hy Hmm Hdd].
  rewrite !andb_true_iff, !Z.leb_le, Z.ltb_lt in Hm. destruct Hm as [[[Hmp1 Hmp2] Hd1] Hd2].
  assert (Hmonth : 1 <= m <= 12 ∧ (m <=? 2) = (10 <=? mp) ∧ (if 2 <? m then m - 3 else m + 9) = mp).
  { destruct (Z.ltb_spec mp 10); subst m.
    - rewrite (proj2 (Z.leb_gt 10 mp)), (proj2 (Z.leb_gt (mp + 3) 2)), (proj2 (Z.ltb_lt 2 (mp + 3))) by lia.
      split_and!; lia || done.
    - rewrite (proj2 (Z.leb_le 10 mp)), (proj2 (Z.leb_le (mp - 9) 2)), (proj2 (Z.ltb_ge 2 (mp - 9))) by lia.
      split_and!; lia || done. }
  rewrite Hmm in *. destruct Hmonth as (Hm12 & Hfeb & Hmp). rewrite Hdd in *.
  split; [|split; [done|split; [lia|]]].
  - unfold days_of_civil.
    assert (Hy' : (if m <=? 2 then y - 1 else y) = yoe + era * 400) by (destruct (m <=? 2); lia).
    rewrite Hy', Hmp. rewrite Z.div_add, Z.mod_add, Z.div_small, Z.mod_small by lia. lia.
  - assert (Hlong : m ≠ 2 → days_in_month y m = days_in_month 1 m).
    { intros Hm2. unfold days_in_month. by rewrite (proj2 (Z.eqb_neq _ _) Hm2). }
    destruct (Z.eqb_spec doy 365) as [->|Hne].
    + specialize (Hleap eq_refl). change ((5 * 365 + 2) / 153) with 11 in Hmpdef. subst mp.
      assert (m = 2) as -> by (by rewrite <-Hmm).
      unfold days_in_month. simpl. rewrite <-Hy. change (2 <=? 2) with true. cbv iota.
      replace (yoe + era * 400 + 1) with (yoe + 1 + era * 400) by lia.
      rewrite leap_year_era, Hleap. lia.
    + destruct (Z.eqb_spec m 2) as [->|Hm2]; [|by rewrite Hlong].
      unfold days_in_month. simpl. destruct (leap_year y); lia.
Qed.
