(* ===== verification/Models.v ===== *)
(** * [models.py]: the tables

    One record per table the modelled code reads or writes, with every column
    of the SQLAlchemy class under a short prefix.  A [NOT NULL] column is a
    plain value.  A nullable column is an [option], except the text columns
    whose default is the empty string and that no handler sets to [NULL].  A
    [DateTime] column holds a naive UTC instant; a JSON
    column holds a [json], [JNull] for [NULL]. *)
From S2P Require Import Prelude PyStr Json Time.

Record User := MkUser {
  u_github_id : string;
  u_username : option string;
  u_email : option string;
  u_webhook_url : option string;
  u_notify_min_severity : option string;
  u_created_at : option time;
}.

Record LocalCredential := MkLocalCredential {
  lc_user_id : string;
  lc_username : string;
  lc_password_hash : string;
  lc_failed_attempts : Z;
  lc_last_failure_at : option time;
  lc_locked_until : option time;
}.

Record LocalSession := MkLocalSession {
  ls_token_hash : string;
  ls_user_id : string;
  ls_created_at : time;
  ls_last_seen_at : time;
  ls_expires_at : time;
}.

Record LocalBootstrap := MkLocalBootstrap {
  lb_id : Z;
}.

Record Organization := MkOrganization {
  org_id : string;
  org_name : string;
  org_personal_for_github_id : option string;
  org_created_at : time;
}.

Record OrganizationMember := MkOrganizationMember {
  om_id : string;
  om_org_id : string;
  om_github_id : string;
  om_role : string;
  om_created_at : time;
}.

Record Asset := MkAsset {
  as_id : string;
  as_program_id : string;
  as_canonical_key : string;
  as_asset_type : string;
  as_label : string;
  as_hostname : string;
  as_ip : string;
  as_port : option Z;
  as_scheme : string;
  as_environment : string;
  as_criticality : string;
  as_exposure : string;
  as_owner_note : string;
  as_tags : string;
  as_source : string;
  as_confidence : string;
  as_first_seen_at : option time;
  as_last_seen_at : option time;
  as_created_at : time;
}.

Record AssetRelationship := MkAssetRelationship {
  ar_id : string;
  ar_program_id : string;
  ar_src_asset_id : string;
  ar_dst_asset_id : string;
  ar_relationship : string;
  ar_source : string;
  ar_confidence : string;
  ar_first_seen_at : option time;
  ar_last_seen_at : option time;
  ar_created_at : time;
}.

Record Client := MkClient {
  cl_id : string;
  cl_owner_github_id : string;
  cl_org_id : option string;
  cl_name : string;
  cl_contact_name : option string;
  cl_contact_email : option string;
  cl_notes : option string;
  cl_created_at : option time;
}.

Record Engagement := MkEngagement {
  e_concurrency_limit : option Z;
  e_target_limit : option Z;
  e_targets_spent : Z;
  e_duration_limit : option Z;
  e_duration_allocated : Z;
  e_id : string;
  e_owner_github_id : string;
  e_name : string;
  e_platform : option string;
  e_program_url : option string;
  e_scope_summary : option string;
  e_severity_guidance : option string;
  e_safe_harbor_notes : option string;
  e_client_id : option string;
  e_org_id : option string;
  e_engagement_type : option string;
  e_engagement_status : option string;
  e_starts_at : option time;
  e_ends_at : option time;
  e_stop_work_at : option time;
  e_stop_work_reason : option string;
  e_max_request_rate : option Z;
  e_managed_authority_revision : Z;
  e_created_at : option time;
}.

Record Authorization := MkAuthorization {
  au_id : string;
  au_program_id : string;
  au_owner_github_id : string;
  au_permits : option string;
  au_authorized_by : option string;
  au_authorized_at : option time;
  au_reference : option string;
  au_window_start : option time;
  au_window_end : option time;
  au_status : option string;
  au_notes : option string;
  au_created_at : option time;
}.

Record ScopeItem := MkScopeItem {
  si_id : string;
  si_program_id : string;
  si_scope_type : string;
  si_value : string;
  si_kind : option string;
  si_notes : option string;
  si_max_severity : option string;
  si_created_at : option time;
}.

Record ReconItem := MkReconItem {
  ri_id : string;
  ri_program_id : string;
  ri_source : option string;
  ri_url : option string;
  ri_path : option string;
  ri_host : option string;
  ri_title : option string;
  ri_status_code : option Z;
  ri_webserver : option string;
  ri_port : option string;
  ri_tech : option string;
  ri_content_type : option string;
  ri_length : option Z;
  ri_words : option Z;
  ri_lines : option Z;
  ri_notes : option string;
  ri_asset_id : option string;
  ri_first_seen_at : option time;
  ri_job_id : option string;
  ri_created_at : option time;
}.

Record ScanItem := MkScanItem {
  sc_id : string;
  sc_program_id : string;
  sc_source : string;
  sc_template_id : string;
  sc_title : string;
  sc_severity : string;
  sc_asset : string;
  sc_matched_at : string;
  sc_type : string;
  sc_description : string;
  sc_status : string;
  sc_cwe : string;
  sc_cvss : string;
  sc_detection_method : string;
  sc_payload : string;
  sc_match_evidence : string;
  sc_confidence : string;
  sc_asset_id : option string;
  sc_job_id : option string;
  sc_created_at : option time;
}.

Record Evidence := MkEvidence {
  ev_id : string;
  ev_program_id : string;
  ev_finding_id : option string;
  ev_asset_id : option string;
  ev_kind : string;
  ev_title : string;
  ev_body : string;
  ev_content_hash : string;
  ev_job_id : option string;
  ev_case_id : option string;
  ev_case_ref : option string;
  ev_identity_id : option string;
  ev_observed_outcome : option string;
  ev_expected_decision : option string;
  ev_collector : string;
  ev_source : string;
  ev_sensitivity : string;
  ev_retention : string;
  ev_redacted : bool;
  ev_collected_at : option time;
  ev_created_at : time;
}.

Record AuditLog := MkAuditLog {
  al_id : string;
  al_github_id : string;
  al_action : string;
  al_resource_type : string;
  al_resource_id : string;
  al_program_id : string;
  al_reason : string;
  al_detail : string;
  al_timestamp : time;
}.

Record ScanJob := MkScanJob {
  j_id : string;
  j_program_id : string;
  j_owner_github_id : string;
  j_tool_type : string;
  j_target_source : string;
  j_config : json;
  j_case_snapshot : json;
  j_managed_approval_id : option string;
  j_authorization_contract_required : bool;
  j_assessment : json;
  j_status : string;
  j_depends_on : option string;
  j_created_at : time;
  j_started_at : option time;
  j_completed_at : option time;
  j_error_message : option string;
}.

Record JobExecution := MkJobExecution {
  x_job_id : string;
  x_runner_id : string;
  x_origin : string;
  x_owner : string;
  x_principal_hash : string;
  x_token_hash : string;
  x_expires_at : time;
  x_state : string;
  x_capacity_reserved : bool;
  x_target_charge : Z;
  x_target_binding : json;
  x_duration_seconds : Z;
}.

Record ManagedEnrollment := MkManagedEnrollment {
  me_id : string;
  me_api_key_id : string;
  me_owner : string;
  me_principal_hash : string;
  me_runner_id : string;
  me_origin : string;
  me_revision : Z;
  me_revoked : bool;
}.

Record ManagedApproval := MkManagedApproval {
  ma_id : string;
  ma_issuer : string;
  ma_approval_id : string;
  ma_job_id : string;
  ma_engagement_id : string;
  ma_enrollment_id : string;
  ma_authorization_id : string;
  ma_revision : Z;
  ma_owner : string;
  ma_envelope : json;
  ma_plan : json;
  ma_context : json;
  ma_authority_snapshot : json;
  ma_issued : Z;
  ma_revoked : bool;
}.

Record ManagedContract := MkManagedContract {
  mc_id : string;
  mc_job_id : string;
  mc_approval_record_id : string;
  mc_ordinal : Z;
  mc_attempt_id : string;
  mc_fence : Z;
  mc_envelope : json;
  mc_consumed : bool;
}.

Record ManagedClock := MkManagedClock {
  mk_id : Z;
  mk_observed : time;
}.

Record JobResultReceipt := MkJobResultReceipt {
  rr_id : string;
  rr_job_id : string;
  rr_payload_hash : string;
  rr_scan_items_created : Z;
  rr_evidence_created : Z;
  rr_created_at : time;
}.

Record JobEvent := MkJobEvent {
  je_id : string;
  je_job_id : string;
  je_owner_github_id : string;
  je_kind : string;
  je_text : string;
  je_created_at : time;
}.

Record ApiKey := MkApiKey {
  ak_id : string;
  ak_github_id : string;
  ak_key_hash : string;
  ak_label : option string;
  ak_scope : string;
  ak_created_at : time;
  ak_last_used_at : option time;
}.

Record EngagementMember := MkEngagementMember {
  em_id : string;
  em_program_id : string;
  em_owner_github_id : string;
  em_member_github_id : string;
  em_role : string;
  em_invited_at : time;
}.

Record AuthorizationTestCase := MkAuthorizationTestCase {
  tc_id : string;
  tc_program_id : string;
  tc_owner_github_id : string;
  tc_name : string;
  tc_test_case_id : string;
  tc_description : option string;
  tc_spec : json;
  tc_created_at : time;
  tc_updated_at : option time;
}.

Record ManagedResult := MkManagedResult {
  mr_contract_id : string;
  mr_job_id : string;
  mr_attempt_id : string;
  mr_fence : Z;
  mr_contract_sha256 : string;
  mr_artifact_sha256 : string;
  mr_case_sha256 : string;
  mr_receipt_sha256 : string;
  mr_evidence_created : Z;
  mr_scan_items_created : Z;
  mr_preflight_failed : bool;
  mr_outcome : option string;
  mr_finished_at : option time;
}.

Record ApiEndpoint := MkApiEndpoint {
  ae_id : string;
  ae_program_id : string;
  ae_asset_id : option string;
  ae_method : string;
  ae_scheme : option string;
  ae_host : string;
  ae_port : option Z;
  ae_path_template : string;
  ae_canonical_key : string;
  ae_source : option string;
  ae_notes : option string;
  ae_observation_count : Z;
  ae_first_seen_at : time;
  ae_last_seen_at : time;
}.

Record ApiExchange := MkApiExchange {
  ax_id : string;
  ax_program_id : string;
  ax_endpoint_id : string;
  ax_source_tool : option string;
  ax_identity_label : option string;
  ax_request_headers : option string;
  ax_request_body : option string;
  ax_response_headers : option string;
  ax_response_body : option string;
  ax_request_hash : string;
  ax_response_hash : string;
  ax_response_status : option Z;
  ax_response_length : option Z;
  ax_response_mime : option string;
  ax_response_time_ms : option Z;
  ax_parameter_names : json;
  ax_note : option string;
  ax_captured_at : option time;
  ax_created_at : time;
}.

Record ImportRecord := MkImportRecord {
  im_id : string;
  im_program_id : string;
  im_tool_type : string;
  im_filename : string;
  im_imported_count : Z;
  im_job_id : option string;
  im_created_at : option time;
}.

Record JobResultLink := MkJobResultLink {
  rl_id : string;
  rl_job_id : string;
  rl_recon_id : option string;
  rl_scan_id : option string;
  rl_service_id : option string;
}.

Record Service := MkService {
  sv_id : string;
  sv_program_id : string;
  sv_owner_github_id : string;
  sv_host : string;
  sv_port : Z;
  sv_protocol : string;
  sv_service_name : string;
  sv_product : string;
  sv_version : string;
  sv_state : string;
  sv_source : string;
  sv_created_at : time;
  sv_asset_id : option string;
  sv_last_scanned_at : option time;
}.

Record AgentProposal := MkAgentProposal {
  pp_id : string;
  pp_program_id : string;
  pp_owner_github_id : string;
  pp_proposed_by : option string;
  pp_kind : string;
  pp_payload : json;
  pp_reason : option string;
  pp_source : option string;
  pp_status : string;
  pp_applied_resource_id : option string;
  pp_created_at : option time;
  pp_resolved_at : option time;
  pp_resolved_by : option string;
}.

Record ManualTest := MkManualTest {
  mt_id : string;
  mt_program_id : string;
  mt_title : string;
  mt_hypothesis : option string;
  mt_payload : option string;
  mt_evidence : option string;
  mt_status : option string;
  mt_created_at : option time;
}.

Record Finding := MkFinding {
  fi_id : string;
  fi_program_id : string;
  fi_title : string;
  fi_severity : option string;
  fi_asset : option string;
  fi_asset_id : option string;
  fi_status : option string;
  fi_summary : option string;
  fi_steps : option string;
  fi_impact : option string;
  fi_remediation : option string;
  fi_created_at : option time;
}.

Record Report := MkReport {
  rp_id : string;
  rp_program_id : string;
  rp_finding_id : option string;
  rp_title : string;
  rp_summary : option string;
  rp_steps : option string;
  rp_impact : option string;
  rp_remediation : option string;
  rp_cwe : option string;
  rp_cvss : option string;
  rp_status : option string;
  rp_created_at : option time;
}.

Record FindingActivity := MkFindingActivity {
  fa_id : string;
  fa_program_id : string;
  fa_finding_id : string;
  fa_kind : string;
  fa_outcome : option string;
  fa_notes : string;
  fa_actor : string;
  fa_snapshot : json;
  fa_evidence : json;
  fa_created_at : time;
}.

Record EngagementDeliverable := MkEngagementDeliverable {
  ed_id : string;
  ed_program_id : string;
  ed_title : string;
  ed_latest_revision : Z;
  ed_created_at : time;
}.

Record DeliverableRevision := MkDeliverableRevision {
  dr_id : string;
  dr_deliverable_id : string;
  dr_revision : Z;
  dr_status : string;
  dr_snapshot : json;
  dr_markdown : string;
  dr_content_hash : string;
  dr_actor : string;
  dr_created_at : time;
}.

Record ScanProfile := MkScanProfile {
  pf_id : string;
  pf_program_id : string;
  pf_owner_github_id : string;
  pf_name : string;
  pf_tool_type : string;
  pf_target_source : string;
  pf_config : json;
  pf_created_at : time;
}.

Record RunnerHeartbeat := MkRunnerHeartbeat {
  hb_id : string;
  hb_owner_github_id : string;
  hb_hostname : option string;
  hb_version : option string;
  hb_os_info : option string;
  hb_tools : json;
  hb_last_seen : time;
}.

Record RadarProgram := MkRadarProgram {
  rd_id : string;
  rd_owner_github_id : string;
  rd_platform : string;
  rd_platform_id : string;
  rd_name : string;
  rd_url : option string;
  rd_max_payout : option Z;
  rd_is_new : option string;
  rd_discovered_at : time;
  rd_last_fetched_at : time;
}.

Record ManagedStop := MkManagedStop {
  ms_contract_id : string;
  ms_job_id : string;
  ms_attempt_id : string;
  ms_fence : Z;
  ms_contract_sha256 : string;
  ms_outcome : string;
  ms_cause : string;
  ms_receipt_sha256 : string;
  ms_finished_at : time;
}.

#[export] Instance User_eq_dec : EqDecision User.
Proof. solve_decision. Defined.
#[export] Instance LocalCredential_eq_dec : EqDecision LocalCredential.
Proof. solve_decision. Defined.
#[export] Instance LocalSession_eq_dec : EqDecision LocalSession.
Proof. solve_decision. Defined.
#[export] Instance LocalBootstrap_eq_dec : EqDecision LocalBootstrap.
Proof. solve_decision. Defined.
#[export] Instance Organization_eq_dec : EqDecision Organization.
Proof. solve_decision. Defined.
#[export] Instance OrganizationMember_eq_dec : EqDecision OrganizationMember.
Proof. solve_decision. Defined.
#[export] Instance Asset_eq_dec : EqDecision Asset.
Proof. solve_decision. Defined.
#[export] Instance AssetRelationship_eq_dec : EqDecision AssetRelationship.
Proof. solve_decision. Defined.
#[export] Instance Client_eq_dec : EqDecision Client.
Proof. solve_decision. Defined.
#[export] Instance Engagement_eq_dec : EqDecision Engagement.
Proof. solve_decision. Defined.
#[export] Instance Authorization_eq_dec : EqDecision Authorization.
Proof. solve_decision. Defined.
#[export] Instance ScopeItem_eq_dec : EqDecision ScopeItem.
Proof. solve_decision. Defined.
#[export] Instance ReconItem_eq_dec : EqDecision ReconItem.
Proof. solve_decision. Defined.
#[export] Instance ScanItem_eq_dec : EqDecision ScanItem.
Proof. solve_decision. Defined.
#[export] Instance Evidence_eq_dec : EqDecision Evidence.
Proof. solve_decision. Defined.
#[export] Instance AuditLog_eq_dec : EqDecision AuditLog.
Proof. solve_decision. Defined.
#[export] Instance ScanJob_eq_dec : EqDecision ScanJob.
Proof. solve_decision. Defined.
#[export] Instance JobExecution_eq_dec : EqDecision JobExecution.
Proof. solve_decision. Defined.
#[export] Instance ManagedEnrollment_eq_dec : EqDecision ManagedEnrollment.
Proof. solve_decision. Defined.
#[export] Instance ManagedApproval_eq_dec : EqDecision ManagedApproval.
Proof. solve_decision. Defined.
#[export] Instance ManagedContract_eq_dec : EqDecision ManagedContract.
Proof. solve_decision. Defined.
#[export] Instance ManagedClock_eq_dec : EqDecision ManagedClock.
Proof. solve_decision. Defined.
#[export] Instance JobResultReceipt_eq_dec : EqDecision JobResultReceipt.
Proof. solve_decision. Defined.
#[export] Instance JobEvent_eq_dec : EqDecision JobEvent.
Proof. solve_decision. Defined.
#[export] Instance ApiKey_eq_dec : EqDecision ApiKey.
Proof. solve_decision. Defined.
#[export] Instance EngagementMember_eq_dec : EqDecision EngagementMember.
Proof. solve_decision. Defined.
#[export] Instance AuthorizationTestCase_eq_dec : EqDecision AuthorizationTestCase.
Proof. solve_decision. Defined.
#[export] Instance ManagedResult_eq_dec : EqDecision ManagedResult.
Proof. solve_decision. Defined.
#[export] Instance ApiEndpoint_eq_dec : EqDecision ApiEndpoint.
Proof. solve_decision. Defined.
#[export] Instance ApiExchange_eq_dec : EqDecision ApiExchange.
Proof. solve_decision. Defined.
#[export] Instance ImportRecord_eq_dec : EqDecision ImportRecord.
Proof. solve_decision. Defined.
#[export] Instance JobResultLink_eq_dec : EqDecision JobResultLink.
Proof. solve_decision. Defined.
#[export] Instance Service_eq_dec : EqDecision Service.
Proof. solve_decision. Defined.
#[export] Instance AgentProposal_eq_dec : EqDecision AgentProposal.
Proof. solve_decision. Defined.
#[export] Instance ManualTest_eq_dec : EqDecision ManualTest.
Proof. solve_decision. Defined.
#[export] Instance Finding_eq_dec : EqDecision Finding.
Proof. solve_decision. Defined.
#[export] Instance Report_eq_dec : EqDecision Report.
Proof. solve_decision. Defined.
#[export] Instance FindingActivity_eq_dec : EqDecision FindingActivity.
Proof. solve_decision. Defined.
#[export] Instance EngagementDeliverable_eq_dec : EqDecision EngagementDeliverable.
Proof. solve_decision. Defined.
#[export] Instance DeliverableRevision_eq_dec : EqDecision DeliverableRevision.
Proof. solve_decision. Defined.
#[export] Instance ScanProfile_eq_dec : EqDecision ScanProfile.
Proof. solve_decision. Defined.
#[export] Instance RunnerHeartbeat_eq_dec : EqDecision RunnerHeartbeat.
Proof. solve_decision. Defined.
#[export] Instance RadarProgram_eq_dec : EqDecision RadarProgram.
Proof. solve_decision. Defined.
#[export] Instance ManagedStop_eq_dec : EqDecision ManagedStop.
Proof. solve_decision. Defined.

(** ** The database

    Engagements, jobs and execution owners are looked up by primary key and
    are finite maps; the other tables are row lists in insertion order. *)
Record db := MkDb {
  users : list User;
  local_credentials : list LocalCredential;
  local_sessions : list LocalSession;
  local_bootstrap : list LocalBootstrap;
  organizations : list Organization;
  organization_members : list OrganizationMember;
  assets : list Asset;
  asset_relationships : list AssetRelationship;
  clients : list Client;
  engagements : gmap string Engagement;
  authorizations : list Authorization;
  scope_items : list ScopeItem;
  program_members : list EngagementMember;
  recon_items : list ReconItem;
  scan_items : list ScanItem;
  evidence : list Evidence;
  audit_logs : list AuditLog;
  scan_jobs : gmap string ScanJob;
  job_executions : gmap string JobExecution;
  job_events : list JobEvent;
  job_result_receipts : list JobResultReceipt;
  api_keys : list ApiKey;
  test_cases : list AuthorizationTestCase;
  managed_enrollments : list ManagedEnrollment;
  managed_approvals : list ManagedApproval;
  managed_contracts : list ManagedContract;
  managed_clock : list ManagedClock;
  managed_results : list ManagedResult;
  managed_stops : list ManagedStop;
  api_endpoints : list ApiEndpoint;
  api_exchanges : list ApiExchange;
  import_records : list ImportRecord;
  job_result_links : list JobResultLink;
  services : list Service;
  agent_proposals : list AgentProposal;
  manual_tests : list ManualTest;
  findings : list Finding;
  reports : list Report;
  finding_activities : list FindingActivity;
  engagement_deliverables : list EngagementDeliverable;
  deliverable_revisions : list DeliverableRevision;
  scan_profiles : list ScanProfile;
  runner_heartbeats : list RunnerHeartbeat;
  radar_programs : list RadarProgram;
}.

Definition empty_db : db := MkDb [] [] [] [] [] [] [] [] [] ∅ [] [] [] [] [] [] [] ∅ ∅ [] [] [] [] [] [] [] [] [] [] [] [] [] [] [] [] [] [] [] [] [] [] [] [] [].

Definition set_users (v : list User) (d : db) : db :=
  MkDb v (local_credentials d) (local_sessions d) (local_bootstrap d) (organizations d) (organization_members d) (assets d) (asset_relationships d) (clients d) (engagements d) (authorizations d) (scope_items d) (program_members d) (recon_items d) (scan_items d) (evidence d) (audit_logs d) (scan_jobs d) (job_executions d) (job_events d) (job_result_receipts d) (api_keys d) (test_cases d) (managed_enrollments d) (managed_approvals d) (managed_contracts d) (managed_clock d) (managed_results d) (managed_stops d) (api_endpoints d) (api_exchanges d) (import_records d) (job_result_links d) (services d) (agent_proposals d) (manual_tests d) (findings d) (reports d) (finding_activities d) (engagement_deliverables d) (deliverable_revisions d) (scan_profiles d) (runner_heartbeats d) (radar_programs d).
Definition set_local_credentials (v : list LocalCredential) (d : db) : db :=
  MkDb (users d) v (local_sessions d) (local_bootstrap d) (organizations d) (organization_members d) (assets d) (asset_relationships d) (clients d) (engagements d) (authorizations d) (scope_items d) (program_members d) (recon_items d) (scan_items d) (evidence d) (audit_logs d) (scan_jobs d) (job_executions d) (job_events d) (job_result_receipts d) (api_keys d) (test_cases d) (managed_enrollments d) (managed_approvals d) (managed_contracts d) (managed_clock d) (managed_results d) (managed_stops d) (api_endpoints d) (api_exchanges d) (import_records d) (job_result_links d) (services d) (agent_proposals d) (manual_tests d) (findings d) (reports d) (finding_activities d) (engagement_deliverables d) (deliverable_revisions d) (scan_profiles d) (runner_heartbeats d) (radar_programs d).
Definition set_local_sessions (v : list LocalSession) (d : db) : db :=
  MkDb (users d) (local_credentials d) v (local_bootstrap d) (organizations d) (organization_members d) (assets d) (asset_relationships d) (clients d) (engagements d) (authorizations d) (scope_items d) (program_members d) (recon_items d) (scan_items d) (evidence d) (audit_logs d) (scan_jobs d) (job_executions d) (job_events d) (job_result_receipts d) (api_keys d) (test_cases d) (managed_enrollments d) (managed_approvals d) (managed_contracts d) (managed_clock d) (managed_results d) (managed_stops d) (api_endpoints d) (api_exchanges d) (import_records d) (job_result_links d) (services d) (agent_proposals d) (manual_tests d) (findings d) (reports d) (finding_activities d) (engagement_deliverables d) (deliverable_revisions d) (scan_profiles d) (runner_heartbeats d) (radar_programs d).
Definition set_local_bootstrap (v : list LocalBootstrap) (d : db) : db :=
  MkDb (users d) (local_credentials d) (local_sessions d) v (organizations d) (organization_members d) (assets d) (asset_relationships d) (clients d) (engagements d) (authorizations d) (scope_items d) (program_members d) (recon_items d) (scan_items d) (evidence d) (audit_logs d) (scan_jobs d) (job_executions d) (job_events d) (job_result_receipts d) (api_keys d) (test_cases d) (managed_enrollments d) (managed_approvals d) (managed_contracts d) (managed_clock d) (managed_results d) (managed_stops d) (api_endpoints d) (api_exchanges d) (import_records d) (job_result_links d) (services d) (agent_proposals d) (manual_tests d) (findings d) (reports d) (finding_activities d) (engagement_deliverables d) (deliverable_revisions d) (scan_profiles d) (runner_heartbeats d) (radar_programs d).
Definition set_organizations (v : list Organization) (d : db) : db :=
  MkDb (users d) (local_credentials d) (local_sessions d) (local_bootstrap d) v (organization_members d) (assets d) (asset_relationships d) (clients d) (engagements d) (authorizations d) (scope_items d) (program_members d) (recon_items d) (scan_items d) (evidence d) (audit_logs d) (scan_jobs d) (job_executions d) (job_events d) (job_result_receipts d) (api_keys d) (test_cases d) (managed_enrollments d) (managed_approvals d) (managed_contracts d) (managed_clock d) (managed_results d) (managed_stops d) (api_endpoints d) (api_exchanges d) (import_records d) (job_result_links d) (services d) (agent_proposals d) (manual_tests d) (findings d) (reports d) (finding_activities d) (engagement_deliverables d) (deliverable_revisions d) (scan_profiles d) (runner_heartbeats d) (radar_programs d).
Definition set_organization_members (v : list OrganizationMember) (d : db) : db :=
  MkDb (users d) (local_credentials d) (local_sessions d) (local_bootstrap d) (organizations d) v (assets d) (asset_relationships d) (clients d) (engagements d) (authorizations d) (scope_items d) (program_members d) (recon_items d) (scan_items d) (evidence d) (audit_logs d) (scan_jobs d) (job_executions d) (job_events d) (job_result_receipts d) (api_keys d) (test_cases d) (managed_enrollments d) (managed_approvals d) (managed_contracts d) (managed_clock d) (managed_results d) (managed_stops d) (api_endpoints d) (api_exchanges d) (import_records d) (job_result_links d) (services d) (agent_proposals d) (manual_tests d) (findings d) (reports d) (finding_activities d) (engagement_deliverables d) (deliverable_revisions d) (scan_profiles d) (runner_heartbeats d) (radar_programs d).
Definition set_assets (v : list Asset) (d : db) : db :=
  MkDb (users d) (local_credentials d) (local_sessions d) (local_bootstrap d) (organizations d) (organization_members d) v (asset_relationships d) (clients d) (engagements d) (authorizations d) (scope_items d) (program_members d) (recon_items d) (scan_items d) (evidence d) (audit_logs d) (scan_jobs d) (job_executions d) (job_events d) (job_result_receipts d) (api_keys d) (test_cases d) (managed_enrollments d) (managed_approvals d) (managed_contracts d) (managed_clock d) (managed_results d) (managed_stops d) (api_endpoints d) (api_exchanges d) (import_records d) (job_result_links d) (services d) (agent_proposals d) (manual_tests d) (findings d) (reports d) (finding_activities d) (engagement_deliverables d) (deliverable_revisions d) (scan_profiles d) (runner_heartbeats d) (radar_programs d).
Definition set_asset_relationships (v : list AssetRelationship) (d : db) : db :=
  MkDb (users d) (local_credentials d) (local_sessions d) (local_bootstrap d) (organizations d) (organization_members d) (assets d) v (clients d) (engagements d) (authorizations d) (scope_items d) (program_members d) (recon_items d) (scan_items d) (evidence d) (audit_logs d) (scan_jobs d) (job_executions d) (job_events d) (job_result_receipts d) (api_keys d) (test_cases d) (managed_enrollments d) (managed_approvals d) (managed_contracts d) (managed_clock d) (managed_results d) (managed_stops d) (api_endpoints d) (api_exchanges d) (import_records d) (job_result_links d) (services d) (agent_proposals d) (manual_tests d) (findings d) (reports d) (finding_activities d) (engagement_deliverables d) (deliverable_revisions d) (scan_profiles d) (runner_heartbeats d) (radar_programs d).
Definition set_clients (v : list Client) (d : db) : db :=
  MkDb (users d) (local_credentials d) (local_sessions d) (local_bootstrap d) (organizations d) (organization_members d) (assets d) (asset_relationships d) v (engagements d) (authorizations d) (scope_items d) (program_members d) (recon_items d) (scan_items d) (evidence d) (audit_logs d) (scan_jobs d) (job_executions d) (job_events d) (job_result_receipts d) (api_keys d) (test_cases d) (managed_enrollments d) (managed_approvals d) (managed_contracts d) (managed_clock d) (managed_results d) (managed_stops d) (api_endpoints d) (api_exchanges d) (import_records d) (job_result_links d) (services d) (agent_proposals d) (manual_tests d) (findings d) (reports d) (finding_activities d) (engagement_deliverables d) (deliverable_revisions d) (scan_profiles d) (runner_heartbeats d) (radar_programs d).
Definition set_engagements (v : gmap string Engagement) (d : db) : db :=
  MkDb (users d) (local_credentials d) (local_sessions d) (local_bootstrap d) (organizations d) (organization_members d) (assets d) (asset_relationships d) (clients d) v (authorizations d) (scope_items d) (program_members d) (recon_items d) (scan_items d) (evidence d) (audit_logs d) (scan_jobs d) (job_executions d) (job_events d) (job_result_receipts d) (api_keys d) (test_cases d) (managed_enrollments d) (managed_approvals d) (managed_contracts d) (managed_clock d) (managed_results d) (managed_stops d) (api_endpoints d) (api_exchanges d) (import_records d) (job_result_links d) (services d) (agent_proposals d) (manual_tests d) (findings d) (reports d) (finding_activities d) (engagement_deliverables d) (deliverable_revisions d) (scan_profiles d) (runner_heartbeats d) (radar_programs d).
Definition set_authorizations (v : list Authorization) (d : db) : db :=
  MkDb (users d) (local_credentials d) (local_sessions d) (local_bootstrap d) (organizations d) (organization_members d) (assets d) (asset_relationships d) (clients d) (engagements d) v (scope_items d) (program_members d) (recon_items d) (scan_items d) (evidence d) (audit_logs d) (scan_jobs d) (job_executions d) (job_events d) (job_result_receipts d) (api_keys d) (test_cases d) (managed_enrollments d) (managed_approvals d) (managed_contracts d) (managed_clock d) (managed_results d) (managed_stops d) (api_endpoints d) (api_exchanges d) (import_records d) (job_result_links d) (services d) (agent_proposals d) (manual_tests d) (findings d) (reports d) (finding_activities d) (engagement_deliverables d) (deliverable_revisions d) (scan_profiles d) (runner_heartbeats d) (radar_programs d).
Definition set_scope_items (v : list ScopeItem) (d : db) : db :=
  MkDb (users d) (local_credentials d) (local_sessions d) (local_bootstrap d) (organizations d) (organization_members d) (assets d) (asset_relationships d) (clients d) (engagements d) (authorizations d) v (program_members d) (recon_items d) (scan_items d) (evidence d) (audit_logs d) (scan_jobs d) (job_executions d) (job_events d) (job_result_receipts d) (api_keys d) (test_cases d) (managed_enrollments d) (managed_approvals d) (managed_contracts d) (managed_clock d) (managed_results d) (managed_stops d) (api_endpoints d) (api_exchanges d) (import_records d) (job_result_links d) (services d) (agent_proposals d) (manual_tests d) (findings d) (reports d) (finding_activities d) (engagement_deliverables d) (deliverable_revisions d) (scan_profiles d) (runner_heartbeats d) (radar_programs d).
Definition set_program_members (v : list EngagementMember) (d : db) : db :=
  MkDb (users d) (local_credentials d) (local_sessions d) (local_bootstrap d) (organizations d) (organization_members d) (assets d) (asset_relationships d) (clients d) (engagements d) (authorizations d) (scope_items d) v (recon_items d) (scan_items d) (evidence d) (audit_logs d) (scan_jobs d) (job_executions d) (job_events d) (job_result_receipts d) (api_keys d) (test_cases d) (managed_enrollments d) (managed_approvals d) (managed_contracts d) (managed_clock d) (managed_results d) (managed_stops d) (api_endpoints d) (api_exchanges d) (import_records d) (job_result_links d) (services d) (agent_proposals d) (manual_tests d) (findings d) (reports d) (finding_activities d) (engagement_deliverables d) (deliverable_revisions d) (scan_profiles d) (runner_heartbeats d) (radar_programs d).
Definition set_recon_items (v : list ReconItem) (d : db) : db :=
  MkDb (users d) (local_credentials d) (local_sessions d) (local_bootstrap d) (organizations d) (organization_members d) (assets d) (asset_relationships d) (clients d) (engagements d) (authorizations d) (scope_items d) (program_members d) v (scan_items d) (evidence d) (audit_logs d) (scan_jobs d) (job_executions d) (job_events d) (job_result_receipts d) (api_keys d) (test_cases d) (managed_enrollments d) (managed_approvals d) (managed_contracts d) (managed_clock d) (managed_results d) (managed_stops d) (api_endpoints d) (api_exchanges d) (import_records d) (job_result_links d) (services d) (agent_proposals d) (manual_tests d) (findings d) (reports d) (finding_activities d) (engagement_deliverables d) (deliverable_revisions d) (scan_profiles d) (runner_heartbeats d) (radar_programs d).
Definition set_scan_items (v : list ScanItem) (d : db) : db :=
  MkDb (users d) (local_credentials d) (local_sessions d) (local_bootstrap d) (organizations d) (organization_members d) (assets d) (asset_relationships d) (clients d) (engagements d) (authorizations d) (scope_items d) (program_members d) (recon_items d) v (evidence d) (audit_logs d) (scan_jobs d) (job_executions d) (job_events d) (job_result_receipts d) (api_keys d) (test_cases d) (managed_enrollments d) (managed_approvals d) (managed_contracts d) (managed_clock d) (managed_results d) (managed_stops d) (api_endpoints d) (api_exchanges d) (import_records d) (job_result_links d) (services d) (agent_proposals d) (manual_tests d) (findings d) (reports d) (finding_activities d) (engagement_deliverables d) (deliverable_revisions d) (scan_profiles d) (runner_heartbeats d) (radar_programs d).
Definition set_evidence (v : list Evidence) (d : db) : db :=
  MkDb (users d) (local_credentials d) (local_sessions d) (local_bootstrap d) (organizations d) (organization_members d) (assets d) (asset_relationships d) (clients d) (engagements d) (authorizations d) (scope_items d) (program_members d) (recon_items d) (scan_items d) v (audit_logs d) (scan_jobs d) (job_executions d) (job_events d) (job_result_receipts d) (api_keys d) (test_cases d) (managed_enrollments d) (managed_approvals d) (managed_contracts d) (managed_clock d) (managed_results d) (managed_stops d) (api_endpoints d) (api_exchanges d) (import_records d) (job_result_links d) (services d) (agent_proposals d) (manual_tests d) (findings d) (reports d) (finding_activities d) (engagement_deliverables d) (deliverable_revisions d) (scan_profiles d) (runner_heartbeats d) (radar_programs d).
Definition set_audit_logs (v : list AuditLog) (d : db) : db :=
  MkDb (users d) (local_credentials d) (local_sessions d) (local_bootstrap d) (organizations d) (organization_members d) (assets d) (asset_relationships d) (clients d) (engagements d) (authorizations d) (scope_items d) (program_members d) (recon_items d) (scan_items d) (evidence d) v (scan_jobs d) (job_executions d) (job_events d) (job_result_receipts d) (api_keys d) (test_cases d) (managed_enrollments d) (managed_approvals d) (managed_contracts d) (managed_clock d) (managed_results d) (managed_stops d) (api_endpoints d) (api_exchanges d) (import_records d) (job_result_links d) (services d) (agent_proposals d) (manual_tests d) (findings d) (reports d) (finding_activities d) (engagement_deliverables d) (deliverable_revisions d) (scan_profiles d) (runner_heartbeats d) (radar_programs d).
Definition set_scan_jobs (v : gmap string ScanJob) (d : db) : db :=
  MkDb (users d) (local_credentials d) (local_sessions d) (local_bootstrap d) (organizations d) (organization_members d) (assets d) (asset_relationships d) (clients d) (engagements d) (authorizations d) (scope_items d) (program_members d) (recon_items d) (scan_items d) (evidence d) (audit_logs d) v (job_executions d) (job_events d) (job_result_receipts d) (api_keys d) (test_cases d) (managed_enrollments d) (managed_approvals d) (managed_contracts d) (managed_clock d) (managed_results d) (managed_stops d) (api_endpoints d) (api_exchanges d) (import_records d) (job_result_links d) (services d) (agent_proposals d) (manual_tests d) (findings d) (reports d) (finding_activities d) (engagement_deliverables d) (deliverable_revisions d) (scan_profiles d) (runner_heartbeats d) (radar_programs d).
Definition set_job_executions (v : gmap string JobExecution) (d : db) : db :=
  MkDb (users d) (local_credentials d) (local_sessions d) (local_bootstrap d) (organizations d) (organization_members d) (assets d) (asset_relationships d) (clients d) (engagements d) (authorizations d) (scope_items d) (program_members d) (recon_items d) (scan_items d) (evidence d) (audit_logs d) (scan_jobs d) v (job_events d) (job_result_receipts d) (api_keys d) (test_cases d) (managed_enrollments d) (managed_approvals d) (managed_contracts d) (managed_clock d) (managed_results d) (managed_stops d) (api_endpoints d) (api_exchanges d) (import_records d) (job_result_links d) (services d) (agent_proposals d) (manual_tests d) (findings d) (reports d) (finding_activities d) (engagement_deliverables d) (deliverable_revisions d) (scan_profiles d) (runner_heartbeats d) (radar_programs d).
Definition set_job_events (v : list JobEvent) (d : db) : db :=
  MkDb (users d) (local_credentials d) (local_sessions d) (local_bootstrap d) (organizations d) (organization_members d) (assets d) (asset_relationships d) (clients d) (engagements d) (authorizations d) (scope_items d) (program_members d) (recon_items d) (scan_items d) (evidence d) (audit_logs d) (scan_jobs d) (job_executions d) v (job_result_receipts d) (api_keys d) (test_cases d) (managed_enrollments d) (managed_approvals d) (managed_contracts d) (managed_clock d) (managed_results d) (managed_stops d) (api_endpoints d) (api_exchanges d) (import_records d) (job_result_links d) (services d) (agent_proposals d) (manual_tests d) (findings d) (reports d) (finding_activities d) (engagement_deliverables d) (deliverable_revisions d) (scan_profiles d) (runner_heartbeats d) (radar_programs d).
Definition set_job_result_receipts (v : list JobResultReceipt) (d : db) : db :=
  MkDb (users d) (local_credentials d) (local_sessions d) (local_bootstrap d) (organizations d) (organization_members d) (assets d) (asset_relationships d) (clients d) (engagements d) (authorizations d) (scope_items d) (program_members d) (recon_items d) (scan_items d) (evidence d) (audit_logs d) (scan_jobs d) (job_executions d) (job_events d) v (api_keys d) (test_cases d) (managed_enrollments d) (managed_approvals d) (managed_contracts d) (managed_clock d) (managed_results d) (managed_stops d) (api_endpoints d) (api_exchanges d) (import_records d) (job_result_links d) (services d) (agent_proposals d) (manual_tests d) (findings d) (reports d) (finding_activities d) (engagement_deliverables d) (deliverable_revisions d) (scan_profiles d) (runner_heartbeats d) (radar_programs d).
Definition set_api_keys (v : list ApiKey) (d : db) : db :=
  MkDb (users d) (local_credentials d) (local_sessions d) (local_bootstrap d) (organizations d) (organization_members d) (assets d) (asset_relationships d) (clients d) (engagements d) (authorizations d) (scope_items d) (program_members d) (recon_items d) (scan_items d) (evidence d) (audit_logs d) (scan_jobs d) (job_executions d) (job_events d) (job_result_receipts d) v (test_cases d) (managed_enrollments d) (managed_approvals d) (managed_contracts d) (managed_clock d) (managed_results d) (managed_stops d) (api_endpoints d) (api_exchanges d) (import_records d) (job_result_links d) (services d) (agent_proposals d) (manual_tests d) (findings d) (reports d) (finding_activities d) (engagement_deliverables d) (deliverable_revisions d) (scan_profiles d) (runner_heartbeats d) (radar_programs d).
Definition set_test_cases (v : list AuthorizationTestCase) (d : db) : db :=
  MkDb (users d) (local_credentials d) (local_sessions d) (local_bootstrap d) (organizations d) (organization_members d) (assets d) (asset_relationships d) (clients d) (engagements d) (authorizations d) (scope_items d) (program_members d) (recon_items d) (scan_items d) (evidence d) (audit_logs d) (scan_jobs d) (job_executions d) (job_events d) (job_result_receipts d) (api_keys d) v (managed_enrollments d) (managed_approvals d) (managed_contracts d) (managed_clock d) (managed_results d) (managed_stops d) (api_endpoints d) (api_exchanges d) (import_records d) (job_result_links d) (services d) (agent_proposals d) (manual_tests d) (findings d) (reports d) (finding_activities d) (engagement_deliverables d) (deliverable_revisions d) (scan_profiles d) (runner_heartbeats d) (radar_programs d).
Definition set_managed_enrollments (v : list ManagedEnrollment) (d : db) : db :=
  MkDb (users d) (local_credentials d) (local_sessions d) (local_bootstrap d) (organizations d) (organization_members d) (assets d) (asset_relationships d) (clients d) (engagements d) (authorizations d) (scope_items d) (program_members d) (recon_items d) (scan_items d) (evidence d) (audit_logs d) (scan_jobs d) (job_executions d) (job_events d) (job_result_receipts d) (api_keys d) (test_cases d) v (managed_approvals d) (managed_contracts d) (managed_clock d) (managed_results d) (managed_stops d) (api_endpoints d) (api_exchanges d) (import_records d) (job_result_links d) (services d) (agent_proposals d) (manual_tests d) (findings d) (reports d) (finding_activities d) (engagement_deliverables d) (deliverable_revisions d) (scan_profiles d) (runner_heartbeats d) (radar_programs d).
Definition set_managed_approvals (v : list ManagedApproval) (d : db) : db :=
  MkDb (users d) (local_credentials d) (local_sessions d) (local_bootstrap d) (organizations d) (organization_members d) (assets d) (asset_relationships d) (clients d) (engagements d) (authorizations d) (scope_items d) (program_members d) (recon_items d) (scan_items d) (evidence d) (audit_logs d) (scan_jobs d) (job_executions d) (job_events d) (job_result_receipts d) (api_keys d) (test_cases d) (managed_enrollments d) v (managed_contracts d) (managed_clock d) (managed_results d) (managed_stops d) (api_endpoints d) (api_exchanges d) (import_records d) (job_result_links d) (services d) (agent_proposals d) (manual_tests d) (findings d) (reports d) (finding_activities d) (engagement_deliverables d) (deliverable_revisions d) (scan_profiles d) (runner_heartbeats d) (radar_programs d).
Definition set_managed_contracts (v : list ManagedContract) (d : db) : db :=
  MkDb (users d) (local_credentials d) (local_sessions d) (local_bootstrap d) (organizations d) (organization_members d) (assets d) (asset_relationships d) (clients d) (engagements d) (authorizations d) (scope_items d) (program_members d) (recon_items d) (scan_items d) (evidence d) (audit_logs d) (scan_jobs d) (job_executions d) (job_events d) (job_result_receipts d) (api_keys d) (test_cases d) (managed_enrollments d) (managed_approvals d) v (managed_clock d) (managed_results d) (managed_stops d) (api_endpoints d) (api_exchanges d) (import_records d) (job_result_links d) (services d) (agent_proposals d) (manual_tests d) (findings d) (reports d) (finding_activities d) (engagement_deliverables d) (deliverable_revisions d) (scan_profiles d) (runner_heartbeats d) (radar_programs d).
Definition set_managed_clock (v : list ManagedClock) (d : db) : db :=
  MkDb (users d) (local_credentials d) (local_sessions d) (local_bootstrap d) (organizations d) (organization_members d) (assets d) (asset_relationships d) (clients d) (engagements d) (authorizations d) (scope_items d) (program_members d) (recon_items d) (scan_items d) (evidence d) (audit_logs d) (scan_jobs d) (job_executions d) (job_events d) (job_result_receipts d) (api_keys d) (test_cases d) (managed_enrollments d) (managed_approvals d) (managed_contracts d) v (managed_results d) (managed_stops d) (api_endpoints d) (api_exchanges d) (import_records d) (job_result_links d) (services d) (agent_proposals d) (manual_tests d) (findings d) (reports d) (finding_activities d) (engagement_deliverables d) (deliverable_revisions d) (scan_profiles d) (runner_heartbeats d) (radar_programs d).
Definition set_managed_results (v : list ManagedResult) (d : db) : db :=
  MkDb (users d) (local_credentials d) (local_sessions d) (local_bootstrap d) (organizations d) (organization_members d) (assets d) (asset_relationships d) (clients d) (engagements d) (authorizations d) (scope_items d) (program_members d) (recon_items d) (scan_items d) (evidence d) (audit_logs d) (scan_jobs d) (job_executions d) (job_events d) (job_result_receipts d) (api_keys d) (test_cases d) (managed_enrollments d) (managed_approvals d) (managed_contracts d) (managed_clock d) v (managed_stops d) (api_endpoints d) (api_exchanges d) (import_records d) (job_result_links d) (services d) (agent_proposals d) (manual_tests d) (findings d) (reports d) (finding_activities d) (engagement_deliverables d) (deliverable_revisions d) (scan_profiles d) (runner_heartbeats d) (radar_programs d).
Definition set_managed_stops (v : list ManagedStop) (d : db) : db :=
  MkDb (users d) (local_credentials d) (local_sessions d) (local_bootstrap d) (organizations d) (organization_members d) (assets d) (asset_relationships d) (clients d) (engagements d) (authorizations d) (scope_items d) (program_members d) (recon_items d) (scan_items d) (evidence d) (audit_logs d) (scan_jobs d) (job_executions d) (job_events d) (job_result_receipts d) (api_keys d) (test_cases d) (managed_enrollments d) (managed_approvals d) (managed_contracts d) (managed_clock d) (managed_results d) v (api_endpoints d) (api_exchanges d) (import_records d) (job_result_links d) (services d) (agent_proposals d) (manual_tests d) (findings d) (reports d) (finding_activities d) (engagement_deliverables d) (deliverable_revisions d) (scan_profiles d) (runner_heartbeats d) (radar_programs d).
Definition set_api_endpoints (v : list ApiEndpoint) (d : db) : db :=
  MkDb (users d) (local_credentials d) (local_sessions d) (local_bootstrap d) (organizations d) (organization_members d) (assets d) (asset_relationships d) (clients d) (engagements d) (authorizations d) (scope_items d) (program_members d) (recon_items d) (scan_items d) (evidence d) (audit_logs d) (scan_jobs d) (job_executions d) (job_events d) (job_result_receipts d) (api_keys d) (test_cases d) (managed_enrollments d) (managed_approvals d) (managed_contracts d) (managed_clock d) (managed_results d) (managed_stops d) v (api_exchanges d) (import_records d) (job_result_links d) (services d) (agent_proposals d) (manual_tests d) (findings d) (reports d) (finding_activities d) (engagement_deliverables d) (deliverable_revisions d) (scan_profiles d) (runner_heartbeats d) (radar_programs d).
Definition set_api_exchanges (v : list ApiExchange) (d : db) : db :=
  MkDb (users d) (local_credentials d) (local_sessions d) (local_bootstrap d) (organizations d) (organization_members d) (assets d) (asset_relationships d) (clients d) (engagements d) (authorizations d) (scope_items d) (program_members d) (recon_items d) (scan_items d) (evidence d) (audit_logs d) (scan_jobs d) (job_executions d) (job_events d) (job_result_receipts d) (api_keys d) (test_cases d) (managed_enrollments d) (managed_approvals d) (managed_contracts d) (managed_clock d) (managed_results d) (managed_stops d) (api_endpoints d) v (import_records d) (job_result_links d) (services d) (agent_proposals d) (manual_tests d) (findings d) (reports d) (finding_activities d) (engagement_deliverables d) (deliverable_revisions d) (scan_profiles d) (runner_heartbeats d) (radar_programs d).
Definition set_import_records (v : list ImportRecord) (d : db) : db :=
  MkDb (users d) (local_credentials d) (local_sessions d) (local_bootstrap d) (organizations d) (organization_members d) (assets d) (asset_relationships d) (clients d) (engagements d) (authorizations d) (scope_items d) (program_members d) (recon_items d) (scan_items d) (evidence d) (audit_logs d) (scan_jobs d) (job_executions d) (job_events d) (job_result_receipts d) (api_keys d) (test_cases d) (managed_enrollments d) (managed_approvals d) (managed_contracts d) (managed_clock d) (managed_results d) (managed_stops d) (api_endpoints d) (api_exchanges d) v (job_result_links d) (services d) (agent_proposals d) (manual_tests d) (findings d) (reports d) (finding_activities d) (engagement_deliverables d) (deliverable_revisions d) (scan_profiles d) (runner_heartbeats d) (radar_programs d).
Definition set_job_result_links (v : list JobResultLink) (d : db) : db :=
  MkDb (users d) (local_credentials d) (local_sessions d) (local_bootstrap d) (organizations d) (organization_members d) (assets d) (asset_relationships d) (clients d) (engagements d) (authorizations d) (scope_items d) (program_members d) (recon_items d) (scan_items d) (evidence d) (audit_logs d) (scan_jobs d) (job_executions d) (job_events d) (job_result_receipts d) (api_keys d) (test_cases d) (managed_enrollments d) (managed_approvals d) (managed_contracts d) (managed_clock d) (managed_results d) (managed_stops d) (api_endpoints d) (api_exchanges d) (import_records d) v (services d) (agent_proposals d) (manual_tests d) (findings d) (reports d) (finding_activities d) (engagement_deliverables d) (deliverable_revisions d) (scan_profiles d) (runner_heartbeats d) (radar_programs d).
Definition set_services (v : list Service) (d : db) : db :=
  MkDb (users d) (local_credentials d) (local_sessions d) (local_bootstrap d) (organizations d) (organization_members d) (assets d) (asset_relationships d) (clients d) (engagements d) (authorizations d) (scope_items d) (program_members d) (recon_items d) (scan_items d) (evidence d) (audit_logs d) (scan_jobs d) (job_executions d) (job_events d) (job_result_receipts d) (api_keys d) (test_cases d) (managed_enrollments d) (managed_approvals d) (managed_contracts d) (managed_clock d) (managed_results d) (managed_stops d) (api_endpoints d) (api_exchanges d) (import_records d) (job_result_links d) v (agent_proposals d) (manual_tests d) (findings d) (reports d) (finding_activities d) (engagement_deliverables d) (deliverable_revisions d) (scan_profiles d) (runner_heartbeats d) (radar_programs d).
Definition set_agent_proposals (v : list AgentProposal) (d : db) : db :=
  MkDb (users d) (local_credentials d) (local_sessions d) (local_bootstrap d) (organizations d) (organization_members d) (assets d) (asset_relationships d) (clients d) (engagements d) (authorizations d) (scope_items d) (program_members d) (recon_items d) (scan_items d) (evidence d) (audit_logs d) (scan_jobs d) (job_executions d) (job_events d) (job_result_receipts d) (api_keys d) (test_cases d) (managed_enrollments d) (managed_approvals d) (managed_contracts d) (managed_clock d) (managed_results d) (managed_stops d) (api_endpoints d) (api_exchanges d) (import_records d) (job_result_links d) (services d) v (manual_tests d) (findings d) (reports d) (finding_activities d) (engagement_deliverables d) (deliverable_revisions d) (scan_profiles d) (runner_heartbeats d) (radar_programs d).
Definition set_manual_tests (v : list ManualTest) (d : db) : db :=
  MkDb (users d) (local_credentials d) (local_sessions d) (local_bootstrap d) (organizations d) (organization_members d) (assets d) (asset_relationships d) (clients d) (engagements d) (authorizations d) (scope_items d) (program_members d) (recon_items d) (scan_items d) (evidence d) (audit_logs d) (scan_jobs d) (job_executions d) (job_events d) (job_result_receipts d) (api_keys d) (test_cases d) (managed_enrollments d) (managed_approvals d) (managed_contracts d) (managed_clock d) (managed_results d) (managed_stops d) (api_endpoints d) (api_exchanges d) (import_records d) (job_result_links d) (services d) (agent_proposals d) v (findings d) (reports d) (finding_activities d) (engagement_deliverables d) (deliverable_revisions d) (scan_profiles d) (runner_heartbeats d) (radar_programs d).
Definition set_findings (v : list Finding) (d : db) : db :=
  MkDb (users d) (local_credentials d) (local_sessions d) (local_bootstrap d) (organizations d) (organization_members d) (assets d) (asset_relationships d) (clients d) (engagements d) (authorizations d) (scope_items d) (program_members d) (recon_items d) (scan_items d) (evidence d) (audit_logs d) (scan_jobs d) (job_executions d) (job_events d) (job_result_receipts d) (api_keys d) (test_cases d) (managed_enrollments d) (managed_approvals d) (managed_contracts d) (managed_clock d) (managed_results d) (managed_stops d) (api_endpoints d) (api_exchanges d) (import_records d) (job_result_links d) (services d) (agent_proposals d) (manual_tests d) v (reports d) (finding_activities d) (engagement_deliverables d) (deliverable_revisions d) (scan_profiles d) (runner_heartbeats d) (radar_programs d).
Definition set_reports (v : list Report) (d : db) : db :=
  MkDb (users d) (local_credentials d) (local_sessions d) (local_bootstrap d) (organizations d) (organization_members d) (assets d) (asset_relationships d) (clients d) (engagements d) (authorizations d) (scope_items d) (program_members d) (recon_items d) (scan_items d) (evidence d) (audit_logs d) (scan_jobs d) (job_executions d) (job_events d) (job_result_receipts d) (api_keys d) (test_cases d) (managed_enrollments d) (managed_approvals d) (managed_contracts d) (managed_clock d) (managed_results d) (managed_stops d) (api_endpoints d) (api_exchanges d) (import_records d) (job_result_links d) (services d) (agent_proposals d) (manual_tests d) (findings d) v (finding_activities d) (engagement_deliverables d) (deliverable_revisions d) (scan_profiles d) (runner_heartbeats d) (radar_programs d).
Definition set_finding_activities (v : list FindingActivity) (d : db) : db :=
  MkDb (users d) (local_credentials d) (local_sessions d) (local_bootstrap d) (organizations d) (organization_members d) (assets d) (asset_relationships d) (clients d) (engagements d) (authorizations d) (scope_items d) (program_members d) (recon_items d) (scan_items d) (evidence d) (audit_logs d) (scan_jobs d) (job_executions d) (job_events d) (job_result_receipts d) (api_keys d) (test_cases d) (managed_enrollments d) (managed_approvals d) (managed_contracts d) (managed_clock d) (managed_results d) (managed_stops d) (api_endpoints d) (api_exchanges d) (import_records d) (job_result_links d) (services d) (agent_proposals d) (manual_tests d) (findings d) (reports d) v (engagement_deliverables d) (deliverable_revisions d) (scan_profiles d) (runner_heartbeats d) (radar_programs d).
Definition set_engagement_deliverables (v : list EngagementDeliverable) (d : db) : db :=
  MkDb (users d) (local_credentials d) (local_sessions d) (local_bootstrap d) (organizations d) (organization_members d) (assets d) (asset_relationships d) (clients d) (engagements d) (authorizations d) (scope_items d) (program_members d) (recon_items d) (scan_items d) (evidence d) (audit_logs d) (scan_jobs d) (job_executions d) (job_events d) (job_result_receipts d) (api_keys d) (test_cases d) (managed_enrollments d) (managed_approvals d) (managed_contracts d) (managed_clock d) (managed_results d) (managed_stops d) (api_endpoints d) (api_exchanges d) (import_records d) (job_result_links d) (services d) (agent_proposals d) (manual_tests d) (findings d) (reports d) (finding_activities d) v (deliverable_revisions d) (scan_profiles d) (runner_heartbeats d) (radar_programs d).
Definition set_deliverable_revisions (v : list DeliverableRevision) (d : db) : db :=
  MkDb (users d) (local_credentials d) (local_sessions d) (local_bootstrap d) (organizations d) (organization_members d) (assets d) (asset_relationships d) (clients d) (engagements d) (authorizations d) (scope_items d) (program_members d) (recon_items d) (scan_items d) (evidence d) (audit_logs d) (scan_jobs d) (job_executions d) (job_events d) (job_result_receipts d) (api_keys d) (test_cases d) (managed_enrollments d) (managed_approvals d) (managed_contracts d) (managed_clock d) (managed_results d) (managed_stops d) (api_endpoints d) (api_exchanges d) (import_records d) (job_result_links d) (services d) (agent_proposals d) (manual_tests d) (findings d) (reports d) (finding_activities d) (engagement_deliverables d) v (scan_profiles d) (runner_heartbeats d) (radar_programs d).
Definition set_scan_profiles (v : list ScanProfile) (d : db) : db :=
  MkDb (users d) (local_credentials d) (local_sessions d) (local_bootstrap d) (organizations d) (organization_members d) (assets d) (asset_relationships d) (clients d) (engagements d) (authorizations d) (scope_items d) (program_members d) (recon_items d) (scan_items d) (evidence d) (audit_logs d) (scan_jobs d) (job_executions d) (job_events d) (job_result_receipts d) (api_keys d) (test_cases d) (managed_enrollments d) (managed_approvals d) (managed_contracts d) (managed_clock d) (managed_results d) (managed_stops d) (api_endpoints d) (api_exchanges d) (import_records d) (job_result_links d) (services d) (agent_proposals d) (manual_tests d) (findings d) (reports d) (finding_activities d) (engagement_deliverables d) (deliverable_revisions d) v (runner_heartbeats d) (radar_programs d).
Definition set_runner_heartbeats (v : list RunnerHeartbeat) (d : db) : db :=
  MkDb (users d) (local_credentials d) (local_sessions d) (local_bootstrap d) (organizations d) (organization_members d) (assets d) (asset_relationships d) (clients d) (engagements d) (authorizations d) (scope_items d) (program_members d) (recon_items d) (scan_items d) (evidence d) (audit_logs d) (scan_jobs d) (job_executions d) (job_events d) (job_result_receipts d) (api_keys d) (test_cases d) (managed_enrollments d) (managed_approvals d) (managed_contracts d) (managed_clock d) (managed_results d) (managed_stops d) (api_endpoints d) (api_exchanges d) (import_records d) (job_result_links d) (services d) (agent_proposals d) (manual_tests d) (findings d) (reports d) (finding_activities d) (engagement_deliverables d) (deliverable_revisions d) (scan_profiles d) v (radar_programs d).
Definition set_radar_programs (v : list RadarProgram) (d : db) : db :=
  MkDb (users d) (local_credentials d) (local_sessions d) (local_bootstrap d) (organizations d) (organization_members d) (assets d) (asset_relationships d) (clients d) (engagements d) (authorizations d) (scope_items d) (program_members d) (recon_items d) (scan_items d) (evidence d) (audit_logs d) (scan_jobs d) (job_executions d) (job_events d) (job_result_receipts d) (api_keys d) (test_cases d) (managed_enrollments d) (managed_approvals d) (managed_contracts d) (managed_clock d) (managed_results d) (managed_stops d) (api_endpoints d) (api_exchanges d) (import_records d) (job_result_links d) (services d) (agent_proposals d) (manual_tests d) (findings d) (reports d) (finding_activities d) (engagement_deliverables d) (deliverable_revisions d) (scan_profiles d) (runner_heartbeats d) v.

(** ** Column updates *)

Definition u_set_webhook_url (v : option string) (r : User) : User :=
  MkUser (u_github_id r) (u_username r) (u_email r) v (u_notify_min_severity r) (u_created_at r).
Definition u_set_notify_min_severity (v : option string) (r : User) : User :=
  MkUser (u_github_id r) (u_username r) (u_email r) (u_webhook_url r) v (u_created_at r).
Definition lc_set_failed_attempts (v : Z) (r : LocalCredential) : LocalCredential :=
  MkLocalCredential (lc_user_id r) (lc_username r) (lc_password_hash r) v (lc_last_failure_at r) (lc_locked_until r).
Definition lc_set_last_failure_at (v : option time) (r : LocalCredential) : LocalCredential :=
  MkLocalCredential (lc_user_id r) (lc_username r) (lc_password_hash r) (lc_failed_attempts r) v (lc_locked_until r).
Definition lc_set_locked_until (v : option time) (r : LocalCredential) : LocalCredential :=
  MkLocalCredential (lc_user_id r) (lc_username r) (lc_password_hash r) (lc_failed_attempts r) (lc_last_failure_at r) v.
Definition lc_set_password_hash (v : string) (r : LocalCredential) : LocalCredential :=
  MkLocalCredential (lc_user_id r) (lc_username r) v (lc_failed_attempts r) (lc_last_failure_at r) (lc_locked_until r).
Definition ls_set_last_seen_at (v : time) (r : LocalSession) : LocalSession :=
  MkLocalSession (ls_token_hash r) (ls_user_id r) (ls_created_at r) v (ls_expires_at r).
Definition as_set_last_seen_at (v : option time) (r : Asset) : Asset :=
  MkAsset (as_id r) (as_program_id r) (as_canonical_key r) (as_asset_type r) (as_label r) (as_hostname r) (as_ip r) (as_port r) (as_scheme r) (as_environment r) (as_criticality r) (as_exposure r) (as_owner_note r) (as_tags r) (as_source r) (as_confidence r) (as_first_seen_at r) v (as_created_at r).
Definition ar_set_last_seen_at (v : option time) (r : AssetRelationship) : AssetRelationship :=
  MkAssetRelationship (ar_id r) (ar_program_id r) (ar_src_asset_id r) (ar_dst_asset_id r) (ar_relationship r) (ar_source r) (ar_confidence r) (ar_first_seen_at r) v (ar_created_at r).
Definition cl_set_name (v : string) (r : Client) : Client :=
  MkClient (cl_id r) (cl_owner_github_id r) (cl_org_id r) v (cl_contact_name r) (cl_contact_email r) (cl_notes r) (cl_created_at r).
Definition cl_set_contact_name (v : option string) (r : Client) : Client :=
  MkClient (cl_id r) (cl_owner_github_id r) (cl_org_id r) (cl_name r) v (cl_contact_email r) (cl_notes r) (cl_created_at r).
Definition cl_set_contact_email (v : option string) (r : Client) : Client :=
  MkClient (cl_id r) (cl_owner_github_id r) (cl_org_id r) (cl_name r) (cl_contact_name r) v (cl_notes r) (cl_created_at r).
Definition cl_set_notes (v : option string) (r : Client) : Client :=
  MkClient (cl_id r) (cl_owner_github_id r) (cl_org_id r) (cl_name r) (cl_contact_name r) (cl_contact_email r) v (cl_created_at r).
Definition e_set_concurrency_limit (v : option Z) (r : Engagement) : Engagement :=
  MkEngagement v (e_target_limit r) (e_targets_spent r) (e_duration_limit r) (e_duration_allocated r) (e_id r) (e_owner_github_id r) (e_name r) (e_platform r) (e_program_url r) (e_scope_summary r) (e_severity_guidance r) (e_safe_harbor_notes r) (e_client_id r) (e_org_id r) (e_engagement_type r) (e_engagement_status r) (e_starts_at r) (e_ends_at r) (e_stop_work_at r) (e_stop_work_reason r) (e_max_request_rate r) (e_managed_authority_revision r) (e_created_at r).
Definition e_set_target_limit (v : option Z) (r : Engagement) : Engagement :=
  MkEngagement (e_concurrency_limit r) v (e_targets_spent r) (e_duration_limit r) (e_duration_allocated r) (e_id r) (e_owner_github_id r) (e_name r) (e_platform r) (e_program_url r) (e_scope_summary r) (e_severity_guidance r) (e_safe_harbor_notes r) (e_client_id r) (e_org_id r) (e_engagement_type r) (e_engagement_status r) (e_starts_at r) (e_ends_at r) (e_stop_work_at r) (e_stop_work_reason r) (e_max_request_rate r) (e_managed_authority_revision r) (e_created_at r).
Definition e_set_duration_limit (v : option Z) (r : Engagement) : Engagement :=
  MkEngagement (e_concurrency_limit r) (e_target_limit r) (e_targets_spent r) v (e_duration_allocated r) (e_id r) (e_owner_github_id r) (e_name r) (e_platform r) (e_program_url r) (e_scope_summary r) (e_severity_guidance r) (e_safe_harbor_notes r) (e_client_id r) (e_org_id r) (e_engagement_type r) (e_engagement_status r) (e_starts_at r) (e_ends_at r) (e_stop_work_at r) (e_stop_work_reason r) (e_max_request_rate r) (e_managed_authority_revision r) (e_created_at r).
Definition e_set_targets_spent (v : Z) (r : Engagement) : Engagement :=
  MkEngagement (e_concurrency_limit r) (e_target_limit r) v (e_duration_limit r) (e_duration_allocated r) (e_id r) (e_owner_github_id r) (e_name r) (e_platform r) (e_program_url r) (e_scope_summary r) (e_severity_guidance r) (e_safe_harbor_notes r) (e_client_id r) (e_org_id r) (e_engagement_type r) (e_engagement_status r) (e_starts_at r) (e_ends_at r) (e_stop_work_at r) (e_stop_work_reason r) (e_max_request_rate r) (e_managed_authority_revision r) (e_created_at r).
Definition e_set_duration_allocated (v : Z) (r : Engagement) : Engagement :=
  MkEngagement (e_concurrency_limit r) (e_target_limit r) (e_targets_spent r) (e_duration_limit r) v (e_id r) (e_owner_github_id r) (e_name r) (e_platform r) (e_program_url r) (e_scope_summary r) (e_severity_guidance r) (e_safe_harbor_notes r) (e_client_id r) (e_org_id r) (e_engagement_type r) (e_engagement_status r) (e_starts_at r) (e_ends_at r) (e_stop_work_at r) (e_stop_work_reason r) (e_max_request_rate r) (e_managed_authority_revision r) (e_created_at r).
Definition e_set_managed_authority_revision (v : Z) (r : Engagement) : Engagement :=
  MkEngagement (e_concurrency_limit r) (e_target_limit r) (e_targets_spent r) (e_duration_limit r) (e_duration_allocated r) (e_id r) (e_owner_github_id r) (e_name r) (e_platform r) (e_program_url r) (e_scope_summary r) (e_severity_guidance r) (e_safe_harbor_notes r) (e_client_id r) (e_org_id r) (e_engagement_type r) (e_engagement_status r) (e_starts_at r) (e_ends_at r) (e_stop_work_at r) (e_stop_work_reason r) (e_max_request_rate r) v (e_created_at r).
Definition e_set_stop_work_at (v : option time) (r : Engagement) : Engagement :=
  MkEngagement (e_concurrency_limit r) (e_target_limit r) (e_targets_spent r) (e_duration_limit r) (e_duration_allocated r) (e_id r) (e_owner_github_id r) (e_name r) (e_platform r) (e_program_url r) (e_scope_summary r) (e_severity_guidance r) (e_safe_harbor_notes r) (e_client_id r) (e_org_id r) (e_engagement_type r) (e_engagement_status r) (e_starts_at r) (e_ends_at r) v (e_stop_work_reason r) (e_max_request_rate r) (e_managed_authority_revision r) (e_created_at r).
Definition e_set_stop_work_reason (v : option string) (r : Engagement) : Engagement :=
  MkEngagement (e_concurrency_limit r) (e_target_limit r) (e_targets_spent r) (e_duration_limit r) (e_duration_allocated r) (e_id r) (e_owner_github_id r) (e_name r) (e_platform r) (e_program_url r) (e_scope_summary r) (e_severity_guidance r) (e_safe_harbor_notes r) (e_client_id r) (e_org_id r) (e_engagement_type r) (e_engagement_status r) (e_starts_at r) (e_ends_at r) (e_stop_work_at r) v (e_max_request_rate r) (e_managed_authority_revision r) (e_created_at r).
Definition e_set_name (v : string) (r : Engagement) : Engagement :=
  MkEngagement (e_concurrency_limit r) (e_target_limit r) (e_targets_spent r) (e_duration_limit r) (e_duration_allocated r) (e_id r) (e_owner_github_id r) v (e_platform r) (e_program_url r) (e_scope_summary r) (e_severity_guidance r) (e_safe_harbor_notes r) (e_client_id r) (e_org_id r) (e_engagement_type r) (e_engagement_status r) (e_starts_at r) (e_ends_at r) (e_stop_work_at r) (e_stop_work_reason r) (e_max_request_rate r) (e_managed_authority_revision r) (e_created_at r).
Definition e_set_platform (v : option string) (r : Engagement) : Engagement :=
  MkEngagement (e_concurrency_limit r) (e_target_limit r) (e_targets_spent r) (e_duration_limit r) (e_duration_allocated r) (e_id r) (e_owner_github_id r) (e_name r) v (e_program_url r) (e_scope_summary r) (e_severity_guidance r) (e_safe_harbor_notes r) (e_client_id r) (e_org_id r) (e_engagement_type r) (e_engagement_status r) (e_starts_at r) (e_ends_at r) (e_stop_work_at r) (e_stop_work_reason r) (e_max_request_rate r) (e_managed_authority_revision r) (e_created_at r).
Definition e_set_program_url (v : option string) (r : Engagement) : Engagement :=
  MkEngagement (e_concurrency_limit r) (e_target_limit r) (e_targets_spent r) (e_duration_limit r) (e_duration_allocated r) (e_id r) (e_owner_github_id r) (e_name r) (e_platform r) v (e_scope_summary r) (e_severity_guidance r) (e_safe_harbor_notes r) (e_client_id r) (e_org_id r) (e_engagement_type r) (e_engagement_status r) (e_starts_at r) (e_ends_at r) (e_stop_work_at r) (e_stop_work_reason r) (e_max_request_rate r) (e_managed_authority_revision r) (e_created_at r).
Definition e_set_scope_summary (v : option string) (r : Engagement) : Engagement :=
  MkEngagement (e_concurrency_limit r) (e_target_limit r) (e_targets_spent r) (e_duration_limit r) (e_duration_allocated r) (e_id r) (e_owner_github_id r) (e_name r) (e_platform r) (e_program_url r) v (e_severity_guidance r) (e_safe_harbor_notes r) (e_client_id r) (e_org_id r) (e_engagement_type r) (e_engagement_status r) (e_starts_at r) (e_ends_at r) (e_stop_work_at r) (e_stop_work_reason r) (e_max_request_rate r) (e_managed_authority_revision r) (e_created_at r).
Definition e_set_severity_guidance (v : option string) (r : Engagement) : Engagement :=
  MkEngagement (e_concurrency_limit r) (e_target_limit r) (e_targets_spent r) (e_duration_limit r) (e_duration_allocated r) (e_id r) (e_owner_github_id r) (e_name r) (e_platform r) (e_program_url r) (e_scope_summary r) v (e_safe_harbor_notes r) (e_client_id r) (e_org_id r) (e_engagement_type r) (e_engagement_status r) (e_starts_at r) (e_ends_at r) (e_stop_work_at r) (e_stop_work_reason r) (e_max_request_rate r) (e_managed_authority_revision r) (e_created_at r).
Definition e_set_safe_harbor_notes (v : option string) (r : Engagement) : Engagement :=
  MkEngagement (e_concurrency_limit r) (e_target_limit r) (e_targets_spent r) (e_duration_limit r) (e_duration_allocated r) (e_id r) (e_owner_github_id r) (e_name r) (e_platform r) (e_program_url r) (e_scope_summary r) (e_severity_guidance r) v (e_client_id r) (e_org_id r) (e_engagement_type r) (e_engagement_status r) (e_starts_at r) (e_ends_at r) (e_stop_work_at r) (e_stop_work_reason r) (e_max_request_rate r) (e_managed_authority_revision r) (e_created_at r).
Definition e_set_client_id (v : option string) (r : Engagement) : Engagement :=
  MkEngagement (e_concurrency_limit r) (e_target_limit r) (e_targets_spent r) (e_duration_limit r) (e_duration_allocated r) (e_id r) (e_owner_github_id r) (e_name r) (e_platform r) (e_program_url r) (e_scope_summary r) (e_severity_guidance r) (e_safe_harbor_notes r) v (e_org_id r) (e_engagement_type r) (e_engagement_status r) (e_starts_at r) (e_ends_at r) (e_stop_work_at r) (e_stop_work_reason r) (e_max_request_rate r) (e_managed_authority_revision r) (e_created_at r).
Definition e_set_engagement_type (v : option string) (r : Engagement) : Engagement :=
  MkEngagement (e_concurrency_limit r) (e_target_limit r) (e_targets_spent r) (e_duration_limit r) (e_duration_allocated r) (e_id r) (e_owner_github_id r) (e_name r) (e_platform r) (e_program_url r) (e_scope_summary r) (e_severity_guidance r) (e_safe_harbor_notes r) (e_client_id r) (e_org_id r) v (e_engagement_status r) (e_starts_at r) (e_ends_at r) (e_stop_work_at r) (e_stop_work_reason r) (e_max_request_rate r) (e_managed_authority_revision r) (e_created_at r).
Definition e_set_engagement_status (v : option string) (r : Engagement) : Engagement :=
  MkEngagement (e_concurrency_limit r) (e_target_limit r) (e_targets_spent r) (e_duration_limit r) (e_duration_allocated r) (e_id r) (e_owner_github_id r) (e_name r) (e_platform r) (e_program_url r) (e_scope_summary r) (e_severity_guidance r) (e_safe_harbor_notes r) (e_client_id r) (e_org_id r) (e_engagement_type r) v (e_starts_at r) (e_ends_at r) (e_stop_work_at r) (e_stop_work_reason r) (e_max_request_rate r) (e_managed_authority_revision r) (e_created_at r).
Definition e_set_starts_at (v : option time) (r : Engagement) : Engagement :=
  MkEngagement (e_concurrency_limit r) (e_target_limit r) (e_targets_spent r) (e_duration_limit r) (e_duration_allocated r) (e_id r) (e_owner_github_id r) (e_name r) (e_platform r) (e_program_url r) (e_scope_summary r) (e_severity_guidance r) (e_safe_harbor_notes r) (e_client_id r) (e_org_id r) (e_engagement_type r) (e_engagement_status r) v (e_ends_at r) (e_stop_work_at r) (e_stop_work_reason r) (e_max_request_rate r) (e_managed_authority_revision r) (e_created_at r).
Definition e_set_ends_at (v : option time) (r : Engagement) : Engagement :=
  MkEngagement (e_concurrency_limit r) (e_target_limit r) (e_targets_spent r) (e_duration_limit r) (e_duration_allocated r) (e_id r) (e_owner_github_id r) (e_name r) (e_platform r) (e_program_url r) (e_scope_summary r) (e_severity_guidance r) (e_safe_harbor_notes r) (e_client_id r) (e_org_id r) (e_engagement_type r) (e_engagement_status r) (e_starts_at r) v (e_stop_work_at r) (e_stop_work_reason r) (e_max_request_rate r) (e_managed_authority_revision r) (e_created_at r).
Definition e_set_max_request_rate (v : option Z) (r : Engagement) : Engagement :=
  MkEngagement (e_concurrency_limit r) (e_target_limit r) (e_targets_spent r) (e_duration_limit r) (e_duration_allocated r) (e_id r) (e_owner_github_id r) (e_name r) (e_platform r) (e_program_url r) (e_scope_summary r) (e_severity_guidance r) (e_safe_harbor_notes r) (e_client_id r) (e_org_id r) (e_engagement_type r) (e_engagement_status r) (e_starts_at r) (e_ends_at r) (e_stop_work_at r) (e_stop_work_reason r) v (e_managed_authority_revision r) (e_created_at r).
Definition au_set_permits (v : option string) (r : Authorization) : Authorization :=
  MkAuthorization (au_id r) (au_program_id r) (au_owner_github_id r) v (au_authorized_by r) (au_authorized_at r) (au_reference r) (au_window_start r) (au_window_end r) (au_status r) (au_notes r) (au_created_at r).
Definition au_set_authorized_by (v : option string) (r : Authorization) : Authorization :=
  MkAuthorization (au_id r) (au_program_id r) (au_owner_github_id r) (au_permits r) v (au_authorized_at r) (au_reference r) (au_window_start r) (au_window_end r) (au_status r) (au_notes r) (au_created_at r).
Definition au_set_authorized_at (v : option time) (r : Authorization) : Authorization :=
  MkAuthorization (au_id r) (au_program_id r) (au_owner_github_id r) (au_permits r) (au_authorized_by r) v (au_reference r) (au_window_start r) (au_window_end r) (au_status r) (au_notes r) (au_created_at r).
Definition au_set_reference (v : option string) (r : Authorization) : Authorization :=
  MkAuthorization (au_id r) (au_program_id r) (au_owner_github_id r) (au_permits r) (au_authorized_by r) (au_authorized_at r) v (au_window_start r) (au_window_end r) (au_status r) (au_notes r) (au_created_at r).
Definition au_set_window_start (v : option time) (r : Authorization) : Authorization :=
  MkAuthorization (au_id r) (au_program_id r) (au_owner_github_id r) (au_permits r) (au_authorized_by r) (au_authorized_at r) (au_reference r) v (au_window_end r) (au_status r) (au_notes r) (au_created_at r).
Definition au_set_window_end (v : option time) (r : Authorization) : Authorization :=
  MkAuthorization (au_id r) (au_program_id r) (au_owner_github_id r) (au_permits r) (au_authorized_by r) (au_authorized_at r) (au_reference r) (au_window_start r) v (au_status r) (au_notes r) (au_created_at r).
Definition au_set_status (v : option string) (r : Authorization) : Authorization :=
  MkAuthorization (au_id r) (au_program_id r) (au_owner_github_id r) (au_permits r) (au_authorized_by r) (au_authorized_at r) (au_reference r) (au_window_start r) (au_window_end r) v (au_notes r) (au_created_at r).
Definition au_set_notes (v : option string) (r : Authorization) : Authorization :=
  MkAuthorization (au_id r) (au_program_id r) (au_owner_github_id r) (au_permits r) (au_authorized_by r) (au_authorized_at r) (au_reference r) (au_window_start r) (au_window_end r) (au_status r) v (au_created_at r).
Definition ri_set_url (v : option string) (r : ReconItem) : ReconItem :=
  MkReconItem (ri_id r) (ri_program_id r) (ri_source r) v (ri_path r) (ri_host r) (ri_title r) (ri_status_code r) (ri_webserver r) (ri_port r) (ri_tech r) (ri_content_type r) (ri_length r) (ri_words r) (ri_lines r) (ri_notes r) (ri_asset_id r) (ri_first_seen_at r) (ri_job_id r) (ri_created_at r).
Definition ri_set_host (v : option string) (r : ReconItem) : ReconItem :=
  MkReconItem (ri_id r) (ri_program_id r) (ri_source r) (ri_url r) (ri_path r) v (ri_title r) (ri_status_code r) (ri_webserver r) (ri_port r) (ri_tech r) (ri_content_type r) (ri_length r) (ri_words r) (ri_lines r) (ri_notes r) (ri_asset_id r) (ri_first_seen_at r) (ri_job_id r) (ri_created_at r).
Definition ri_set_title (v : option string) (r : ReconItem) : ReconItem :=
  MkReconItem (ri_id r) (ri_program_id r) (ri_source r) (ri_url r) (ri_path r) (ri_host r) v (ri_status_code r) (ri_webserver r) (ri_port r) (ri_tech r) (ri_content_type r) (ri_length r) (ri_words r) (ri_lines r) (ri_notes r) (ri_asset_id r) (ri_first_seen_at r) (ri_job_id r) (ri_created_at r).
Definition ri_set_status_code (v : option Z) (r : ReconItem) : ReconItem :=
  MkReconItem (ri_id r) (ri_program_id r) (ri_source r) (ri_url r) (ri_path r) (ri_host r) (ri_title r) v (ri_webserver r) (ri_port r) (ri_tech r) (ri_content_type r) (ri_length r) (ri_words r) (ri_lines r) (ri_notes r) (ri_asset_id r) (ri_first_seen_at r) (ri_job_id r) (ri_created_at r).
Definition ri_set_webserver (v : option string) (r : ReconItem) : ReconItem :=
  MkReconItem (ri_id r) (ri_program_id r) (ri_source r) (ri_url r) (ri_path r) (ri_host r) (ri_title r) (ri_status_code r) v (ri_port r) (ri_tech r) (ri_content_type r) (ri_length r) (ri_words r) (ri_lines r) (ri_notes r) (ri_asset_id r) (ri_first_seen_at r) (ri_job_id r) (ri_created_at r).
Definition ri_set_port (v : option string) (r : ReconItem) : ReconItem :=
  MkReconItem (ri_id r) (ri_program_id r) (ri_source r) (ri_url r) (ri_path r) (ri_host r) (ri_title r) (ri_status_code r) (ri_webserver r) v (ri_tech r) (ri_content_type r) (ri_length r) (ri_words r) (ri_lines r) (ri_notes r) (ri_asset_id r) (ri_first_seen_at r) (ri_job_id r) (ri_created_at r).
Definition ri_set_tech (v : option string) (r : ReconItem) : ReconItem :=
  MkReconItem (ri_id r) (ri_program_id r) (ri_source r) (ri_url r) (ri_path r) (ri_host r) (ri_title r) (ri_status_code r) (ri_webserver r) (ri_port r) v (ri_content_type r) (ri_length r) (ri_words r) (ri_lines r) (ri_notes r) (ri_asset_id r) (ri_first_seen_at r) (ri_job_id r) (ri_created_at r).
Definition ri_set_content_type (v : option string) (r : ReconItem) : ReconItem :=
  MkReconItem (ri_id r) (ri_program_id r) (ri_source r) (ri_url r) (ri_path r) (ri_host r) (ri_title r) (ri_status_code r) (ri_webserver r) (ri_port r) (ri_tech r) v (ri_length r) (ri_words r) (ri_lines r) (ri_notes r) (ri_asset_id r) (ri_first_seen_at r) (ri_job_id r) (ri_created_at r).
Definition ri_set_asset_id (v : option string) (r : ReconItem) : ReconItem :=
  MkReconItem (ri_id r) (ri_program_id r) (ri_source r) (ri_url r) (ri_path r) (ri_host r) (ri_title r) (ri_status_code r) (ri_webserver r) (ri_port r) (ri_tech r) (ri_content_type r) (ri_length r) (ri_words r) (ri_lines r) (ri_notes r) v (ri_first_seen_at r) (ri_job_id r) (ri_created_at r).
Definition ri_set_first_seen_at (v : option time) (r : ReconItem) : ReconItem :=
  MkReconItem (ri_id r) (ri_program_id r) (ri_source r) (ri_url r) (ri_path r) (ri_host r) (ri_title r) (ri_status_code r) (ri_webserver r) (ri_port r) (ri_tech r) (ri_content_type r) (ri_length r) (ri_words r) (ri_lines r) (ri_notes r) (ri_asset_id r) v (ri_job_id r) (ri_created_at r).
Definition ri_set_job_id (v : option string) (r : ReconItem) : ReconItem :=
  MkReconItem (ri_id r) (ri_program_id r) (ri_source r) (ri_url r) (ri_path r) (ri_host r) (ri_title r) (ri_status_code r) (ri_webserver r) (ri_port r) (ri_tech r) (ri_content_type r) (ri_length r) (ri_words r) (ri_lines r) (ri_notes r) (ri_asset_id r) (ri_first_seen_at r) v (ri_created_at r).
Definition sc_set_job_id (v : option string) (r : ScanItem) : ScanItem :=
  MkScanItem (sc_id r) (sc_program_id r) (sc_source r) (sc_template_id r) (sc_title r) (sc_severity r) (sc_asset r) (sc_matched_at r) (sc_type r) (sc_description r) (sc_status r) (sc_cwe r) (sc_cvss r) (sc_detection_method r) (sc_payload r) (sc_match_evidence r) (sc_confidence r) (sc_asset_id r) v (sc_created_at r).
Definition sc_set_asset_id (v : option string) (r : ScanItem) : ScanItem :=
  MkScanItem (sc_id r) (sc_program_id r) (sc_source r) (sc_template_id r) (sc_title r) (sc_severity r) (sc_asset r) (sc_matched_at r) (sc_type r) (sc_description r) (sc_status r) (sc_cwe r) (sc_cvss r) (sc_detection_method r) (sc_payload r) (sc_match_evidence r) (sc_confidence r) v (sc_job_id r) (sc_created_at r).
Definition sc_set_status (v : string) (r : ScanItem) : ScanItem :=
  MkScanItem (sc_id r) (sc_program_id r) (sc_source r) (sc_template_id r) (sc_title r) (sc_severity r) (sc_asset r) (sc_matched_at r) (sc_type r) (sc_description r) v (sc_cwe r) (sc_cvss r) (sc_detection_method r) (sc_payload r) (sc_match_evidence r) (sc_confidence r) (sc_asset_id r) (sc_job_id r) (sc_created_at r).
Definition ev_set_job_id (v : option string) (r : Evidence) : Evidence :=
  MkEvidence (ev_id r) (ev_program_id r) (ev_finding_id r) (ev_asset_id r) (ev_kind r) (ev_title r) (ev_body r) (ev_content_hash r) v (ev_case_id r) (ev_case_ref r) (ev_identity_id r) (ev_observed_outcome r) (ev_expected_decision r) (ev_collector r) (ev_source r) (ev_sensitivity r) (ev_retention r) (ev_redacted r) (ev_collected_at r) (ev_created_at r).
Definition ev_set_finding_id (v : option string) (r : Evidence) : Evidence :=
  MkEvidence (ev_id r) (ev_program_id r) v (ev_asset_id r) (ev_kind r) (ev_title r) (ev_body r) (ev_content_hash r) (ev_job_id r) (ev_case_id r) (ev_case_ref r) (ev_identity_id r) (ev_observed_outcome r) (ev_expected_decision r) (ev_collector r) (ev_source r) (ev_sensitivity r) (ev_retention r) (ev_redacted r) (ev_collected_at r) (ev_created_at r).
Definition j_set_status (v : string) (r : ScanJob) : ScanJob :=
  MkScanJob (j_id r) (j_program_id r) (j_owner_github_id r) (j_tool_type r) (j_target_source r) (j_config r) (j_case_snapshot r) (j_managed_approval_id r) (j_authorization_contract_required r) (j_assessment r) v (j_depends_on r) (j_created_at r) (j_started_at r) (j_completed_at r) (j_error_message r).
Definition j_set_started_at (v : option time) (r : ScanJob) : ScanJob :=
  MkScanJob (j_id r) (j_program_id r) (j_owner_github_id r) (j_tool_type r) (j_target_source r) (j_config r) (j_case_snapshot r) (j_managed_approval_id r) (j_authorization_contract_required r) (j_assessment r) (j_status r) (j_depends_on r) (j_created_at r) v (j_completed_at r) (j_error_message r).
Definition j_set_completed_at (v : option time) (r : ScanJob) : ScanJob :=
  MkScanJob (j_id r) (j_program_id r) (j_owner_github_id r) (j_tool_type r) (j_target_source r) (j_config r) (j_case_snapshot r) (j_managed_approval_id r) (j_authorization_contract_required r) (j_assessment r) (j_status r) (j_depends_on r) (j_created_at r) (j_started_at r) v (j_error_message r).
Definition j_set_error_message (v : option string) (r : ScanJob) : ScanJob :=
  MkScanJob (j_id r) (j_program_id r) (j_owner_github_id r) (j_tool_type r) (j_target_source r) (j_config r) (j_case_snapshot r) (j_managed_approval_id r) (j_authorization_contract_required r) (j_assessment r) (j_status r) (j_depends_on r) (j_created_at r) (j_started_at r) (j_completed_at r) v.
Definition j_set_case_snapshot (v : json) (r : ScanJob) : ScanJob :=
  MkScanJob (j_id r) (j_program_id r) (j_owner_github_id r) (j_tool_type r) (j_target_source r) (j_config r) v (j_managed_approval_id r) (j_authorization_contract_required r) (j_assessment r) (j_status r) (j_depends_on r) (j_created_at r) (j_started_at r) (j_completed_at r) (j_error_message r).
Definition j_set_assessment (v : json) (r : ScanJob) : ScanJob :=
  MkScanJob (j_id r) (j_program_id r) (j_owner_github_id r) (j_tool_type r) (j_target_source r) (j_config r) (j_case_snapshot r) (j_managed_approval_id r) (j_authorization_contract_required r) v (j_status r) (j_depends_on r) (j_created_at r) (j_started_at r) (j_completed_at r) (j_error_message r).
Definition j_set_managed_approval_id (v : option string) (r : ScanJob) : ScanJob :=
  MkScanJob (j_id r) (j_program_id r) (j_owner_github_id r) (j_tool_type r) (j_target_source r) (j_config r) (j_case_snapshot r) v (j_authorization_contract_required r) (j_assessment r) (j_status r) (j_depends_on r) (j_created_at r) (j_started_at r) (j_completed_at r) (j_error_message r).
Definition j_set_authorization_contract_required (v : bool) (r : ScanJob) : ScanJob :=
  MkScanJob (j_id r) (j_program_id r) (j_owner_github_id r) (j_tool_type r) (j_target_source r) (j_config r) (j_case_snapshot r) (j_managed_approval_id r) v (j_assessment r) (j_status r) (j_depends_on r) (j_created_at r) (j_started_at r) (j_completed_at r) (j_error_message r).
Definition x_set_state (v : string) (r : JobExecution) : JobExecution :=
  MkJobExecution (x_job_id r) (x_runner_id r) (x_origin r) (x_owner r) (x_principal_hash r) (x_token_hash r) (x_expires_at r) v (x_capacity_reserved r) (x_target_charge r) (x_target_binding r) (x_duration_seconds r).
Definition x_set_capacity_reserved (v : bool) (r : JobExecution) : JobExecution :=
  MkJobExecution (x_job_id r) (x_runner_id r) (x_origin r) (x_owner r) (x_principal_hash r) (x_token_hash r) (x_expires_at r) (x_state r) v (x_target_charge r) (x_target_binding r) (x_duration_seconds r).
Definition x_set_expires_at (v : time) (r : JobExecution) : JobExecution :=
  MkJobExecution (x_job_id r) (x_runner_id r) (x_origin r) (x_owner r) (x_principal_hash r) (x_token_hash r) v (x_state r) (x_capacity_reserved r) (x_target_charge r) (x_target_binding r) (x_duration_seconds r).
Definition ma_set_issued (v : Z) (r : ManagedApproval) : ManagedApproval :=
  MkManagedApproval (ma_id r) (ma_issuer r) (ma_approval_id r) (ma_job_id r) (ma_engagement_id r) (ma_enrollment_id r) (ma_authorization_id r) (ma_revision r) (ma_owner r) (ma_envelope r) (ma_plan r) (ma_context r) (ma_authority_snapshot r) v (ma_revoked r).
Definition ma_set_revoked (v : bool) (r : ManagedApproval) : ManagedApproval :=
  MkManagedApproval (ma_id r) (ma_issuer r) (ma_approval_id r) (ma_job_id r) (ma_engagement_id r) (ma_enrollment_id r) (ma_authorization_id r) (ma_revision r) (ma_owner r) (ma_envelope r) (ma_plan r) (ma_context r) (ma_authority_snapshot r) (ma_issued r) v.
Definition mc_set_consumed (v : bool) (r : ManagedContract) : ManagedContract :=
  MkManagedContract (mc_id r) (mc_job_id r) (mc_approval_record_id r) (mc_ordinal r) (mc_attempt_id r) (mc_fence r) (mc_envelope r) v.
Definition ak_set_last_used_at (v : option time) (r : ApiKey) : ApiKey :=
  MkApiKey (ak_id r) (ak_github_id r) (ak_key_hash r) (ak_label r) (ak_scope r) (ak_created_at r) v.
Definition tc_set_spec (v : json) (r : AuthorizationTestCase) : AuthorizationTestCase :=
  MkAuthorizationTestCase (tc_id r) (tc_program_id r) (tc_owner_github_id r) (tc_name r) (tc_test_case_id r) (tc_description r) v (tc_created_at r) (tc_updated_at r).
Definition tc_set_test_case_id (v : string) (r : AuthorizationTestCase) : AuthorizationTestCase :=
  MkAuthorizationTestCase (tc_id r) (tc_program_id r) (tc_owner_github_id r) (tc_name r) v (tc_description r) (tc_spec r) (tc_created_at r) (tc_updated_at r).
Definition tc_set_name (v : string) (r : AuthorizationTestCase) : AuthorizationTestCase :=
  MkAuthorizationTestCase (tc_id r) (tc_program_id r) (tc_owner_github_id r) v (tc_test_case_id r) (tc_description r) (tc_spec r) (tc_created_at r) (tc_updated_at r).
Definition tc_set_description (v : option string) (r : AuthorizationTestCase) : AuthorizationTestCase :=
  MkAuthorizationTestCase (tc_id r) (tc_program_id r) (tc_owner_github_id r) (tc_name r) (tc_test_case_id r) v (tc_spec r) (tc_created_at r) (tc_updated_at r).
Definition tc_set_updated_at (v : option time) (r : AuthorizationTestCase) : AuthorizationTestCase :=
  MkAuthorizationTestCase (tc_id r) (tc_program_id r) (tc_owner_github_id r) (tc_name r) (tc_test_case_id r) (tc_description r) (tc_spec r) (tc_created_at r) v.
Definition mr_set_outcome (v : option string) (r : ManagedResult) : ManagedResult :=
  MkManagedResult (mr_contract_id r) (mr_job_id r) (mr_attempt_id r) (mr_fence r) (mr_contract_sha256 r) (mr_artifact_sha256 r) (mr_case_sha256 r) (mr_receipt_sha256 r) (mr_evidence_created r) (mr_scan_items_created r) (mr_preflight_failed r) v (mr_finished_at r).
Definition mr_set_finished_at (v : option time) (r : ManagedResult) : ManagedResult :=
  MkManagedResult (mr_contract_id r) (mr_job_id r) (mr_attempt_id r) (mr_fence r) (mr_contract_sha256 r) (mr_artifact_sha256 r) (mr_case_sha256 r) (mr_receipt_sha256 r) (mr_evidence_created r) (mr_scan_items_created r) (mr_preflight_failed r) (mr_outcome r) v.
Definition ae_set_observation_count (v : Z) (r : ApiEndpoint) : ApiEndpoint :=
  MkApiEndpoint (ae_id r) (ae_program_id r) (ae_asset_id r) (ae_method r) (ae_scheme r) (ae_host r) (ae_port r) (ae_path_template r) (ae_canonical_key r) (ae_source r) (ae_notes r) v (ae_first_seen_at r) (ae_last_seen_at r).
Definition ae_set_last_seen_at (v : time) (r : ApiEndpoint) : ApiEndpoint :=
  MkApiEndpoint (ae_id r) (ae_program_id r) (ae_asset_id r) (ae_method r) (ae_scheme r) (ae_host r) (ae_port r) (ae_path_template r) (ae_canonical_key r) (ae_source r) (ae_notes r) (ae_observation_count r) (ae_first_seen_at r) v.
Definition im_set_job_id (v : option string) (r : ImportRecord) : ImportRecord :=
  MkImportRecord (im_id r) (im_program_id r) (im_tool_type r) (im_filename r) (im_imported_count r) v (im_created_at r).
Definition sv_set_service_name (v : string) (r : Service) : Service :=
  MkService (sv_id r) (sv_program_id r) (sv_owner_github_id r) (sv_host r) (sv_port r) (sv_protocol r) v (sv_product r) (sv_version r) (sv_state r) (sv_source r) (sv_created_at r) (sv_asset_id r) (sv_last_scanned_at r).
Definition sv_set_product (v : string) (r : Service) : Service :=
  MkService (sv_id r) (sv_program_id r) (sv_owner_github_id r) (sv_host r) (sv_port r) (sv_protocol r) (sv_service_name r) v (sv_version r) (sv_state r) (sv_source r) (sv_created_at r) (sv_asset_id r) (sv_last_scanned_at r).
Definition sv_set_version (v : string) (r : Service) : Service :=
  MkService (sv_id r) (sv_program_id r) (sv_owner_github_id r) (sv_host r) (sv_port r) (sv_protocol r) (sv_service_name r) (sv_product r) v (sv_state r) (sv_source r) (sv_created_at r) (sv_asset_id r) (sv_last_scanned_at r).
Definition sv_set_state (v : string) (r : Service) : Service :=
  MkService (sv_id r) (sv_program_id r) (sv_owner_github_id r) (sv_host r) (sv_port r) (sv_protocol r) (sv_service_name r) (sv_product r) (sv_version r) v (sv_source r) (sv_created_at r) (sv_asset_id r) (sv_last_scanned_at r).
Definition sv_set_source (v : string) (r : Service) : Service :=
  MkService (sv_id r) (sv_program_id r) (sv_owner_github_id r) (sv_host r) (sv_port r) (sv_protocol r) (sv_service_name r) (sv_product r) (sv_version r) (sv_state r) v (sv_created_at r) (sv_asset_id r) (sv_last_scanned_at r).
Definition sv_set_asset_id (v : option string) (r : Service) : Service :=
  MkService (sv_id r) (sv_program_id r) (sv_owner_github_id r) (sv_host r) (sv_port r) (sv_protocol r) (sv_service_name r) (sv_product r) (sv_version r) (sv_state r) (sv_source r) (sv_created_at r) v (sv_last_scanned_at r).
Definition sv_set_last_scanned_at (v : option time) (r : Service) : Service :=
  MkService (sv_id r) (sv_program_id r) (sv_owner_github_id r) (sv_host r) (sv_port r) (sv_protocol r) (sv_service_name r) (sv_product r) (sv_version r) (sv_state r) (sv_source r) (sv_created_at r) (sv_asset_id r) v.
Definition pp_set_status (v : string) (r : AgentProposal) : AgentProposal :=
  MkAgentProposal (pp_id r) (pp_program_id r) (pp_owner_github_id r) (pp_proposed_by r) (pp_kind r) (pp_payload r) (pp_reason r) (pp_source r) v (pp_applied_resource_id r) (pp_created_at r) (pp_resolved_at r) (pp_resolved_by r).
Definition pp_set_applied_resource_id (v : option string) (r : AgentProposal) : AgentProposal :=
  MkAgentProposal (pp_id r) (pp_program_id r) (pp_owner_github_id r) (pp_proposed_by r) (pp_kind r) (pp_payload r) (pp_reason r) (pp_source r) (pp_status r) v (pp_created_at r) (pp_resolved_at r) (pp_resolved_by r).
Definition pp_set_resolved_at (v : option time) (r : AgentProposal) : AgentProposal :=
  MkAgentProposal (pp_id r) (pp_program_id r) (pp_owner_github_id r) (pp_proposed_by r) (pp_kind r) (pp_payload r) (pp_reason r) (pp_source r) (pp_status r) (pp_applied_resource_id r) (pp_created_at r) v (pp_resolved_by r).
Definition pp_set_resolved_by (v : option string) (r : AgentProposal) : AgentProposal :=
  MkAgentProposal (pp_id r) (pp_program_id r) (pp_owner_github_id r) (pp_proposed_by r) (pp_kind r) (pp_payload r) (pp_reason r) (pp_source r) (pp_status r) (pp_applied_resource_id r) (pp_created_at r) (pp_resolved_at r) v.
Definition mt_set_title (v : string) (r : ManualTest) : ManualTest :=
  MkManualTest (mt_id r) (mt_program_id r) v (mt_hypothesis r) (mt_payload r) (mt_evidence r) (mt_status r) (mt_created_at r).
Definition mt_set_hypothesis (v : option string) (r : ManualTest) : ManualTest :=
  MkManualTest (mt_id r) (mt_program_id r) (mt_title r) v (mt_payload r) (mt_evidence r) (mt_status r) (mt_created_at r).
Definition mt_set_payload (v : option string) (r : ManualTest) : ManualTest :=
  MkManualTest (mt_id r) (mt_program_id r) (mt_title r) (mt_hypothesis r) v (mt_evidence r) (mt_status r) (mt_created_at r).
Definition mt_set_evidence (v : option string) (r : ManualTest) : ManualTest :=
  MkManualTest (mt_id r) (mt_program_id r) (mt_title r) (mt_hypothesis r) (mt_payload r) v (mt_status r) (mt_created_at r).
Definition mt_set_status (v : option string) (r : ManualTest) : ManualTest :=
  MkManualTest (mt_id r) (mt_program_id r) (mt_title r) (mt_hypothesis r) (mt_payload r) (mt_evidence r) v (mt_created_at r).
Definition fi_set_title (v : string) (r : Finding) : Finding :=
  MkFinding (fi_id r) (fi_program_id r) v (fi_severity r) (fi_asset r) (fi_asset_id r) (fi_status r) (fi_summary r) (fi_steps r) (fi_impact r) (fi_remediation r) (fi_created_at r).
Definition fi_set_severity (v : option string) (r : Finding) : Finding :=
  MkFinding (fi_id r) (fi_program_id r) (fi_title r) v (fi_asset r) (fi_asset_id r) (fi_status r) (fi_summary r) (fi_steps r) (fi_impact r) (fi_remediation r) (fi_created_at r).
Definition fi_set_asset (v : option string) (r : Finding) : Finding :=
  MkFinding (fi_id r) (fi_program_id r) (fi_title r) (fi_severity r) v (fi_asset_id r) (fi_status r) (fi_summary r) (fi_steps r) (fi_impact r) (fi_remediation r) (fi_created_at r).
Definition fi_set_asset_id (v : option string) (r : Finding) : Finding :=
  MkFinding (fi_id r) (fi_program_id r) (fi_title r) (fi_severity r) (fi_asset r) v (fi_status r) (fi_summary r) (fi_steps r) (fi_impact r) (fi_remediation r) (fi_created_at r).
Definition fi_set_status (v : option string) (r : Finding) : Finding :=
  MkFinding (fi_id r) (fi_program_id r) (fi_title r) (fi_severity r) (fi_asset r) (fi_asset_id r) v (fi_summary r) (fi_steps r) (fi_impact r) (fi_remediation r) (fi_created_at r).
Definition fi_set_summary (v : option string) (r : Finding) : Finding :=
  MkFinding (fi_id r) (fi_program_id r) (fi_title r) (fi_severity r) (fi_asset r) (fi_asset_id r) (fi_status r) v (fi_steps r) (fi_impact r) (fi_remediation r) (fi_created_at r).
Definition fi_set_steps (v : option string) (r : Finding) : Finding :=
  MkFinding (fi_id r) (fi_program_id r) (fi_title r) (fi_severity r) (fi_asset r) (fi_asset_id r) (fi_status r) (fi_summary r) v (fi_impact r) (fi_remediation r) (fi_created_at r).
Definition fi_set_impact (v : option string) (r : Finding) : Finding :=
  MkFinding (fi_id r) (fi_program_id r) (fi_title r) (fi_severity r) (fi_asset r) (fi_asset_id r) (fi_status r) (fi_summary r) (fi_steps r) v (fi_remediation r) (fi_created_at r).
Definition fi_set_remediation (v : option string) (r : Finding) : Finding :=
  MkFinding (fi_id r) (fi_program_id r) (fi_title r) (fi_severity r) (fi_asset r) (fi_asset_id r) (fi_status r) (fi_summary r) (fi_steps r) (fi_impact r) v (fi_created_at r).
Definition rp_set_title (v : string) (r : Report) : Report :=
  MkReport (rp_id r) (rp_program_id r) (rp_finding_id r) v (rp_summary r) (rp_steps r) (rp_impact r) (rp_remediation r) (rp_cwe r) (rp_cvss r) (rp_status r) (rp_created_at r).
Definition rp_set_summary (v : option string) (r : Report) : Report :=
  MkReport (rp_id r) (rp_program_id r) (rp_finding_id r) (rp_title r) v (rp_steps r) (rp_impact r) (rp_remediation r) (rp_cwe r) (rp_cvss r) (rp_status r) (rp_created_at r).
Definition rp_set_steps (v : option string) (r : Report) : Report :=
  MkReport (rp_id r) (rp_program_id r) (rp_finding_id r) (rp_title r) (rp_summary r) v (rp_impact r) (rp_remediation r) (rp_cwe r) (rp_cvss r) (rp_status r) (rp_created_at r).
Definition rp_set_impact (v : option string) (r : Report) : Report :=
  MkReport (rp_id r) (rp_program_id r) (rp_finding_id r) (rp_title r) (rp_summary r) (rp_steps r) v (rp_remediation r) (rp_cwe r) (rp_cvss r) (rp_status r) (rp_created_at r).
Definition rp_set_remediation (v : option string) (r : Report) : Report :=
  MkReport (rp_id r) (rp_program_id r) (rp_finding_id r) (rp_title r) (rp_summary r) (rp_steps r) (rp_impact r) v (rp_cwe r) (rp_cvss r) (rp_status r) (rp_created_at r).
Definition rp_set_cwe (v : option string) (r : Report) : Report :=
  MkReport (rp_id r) (rp_program_id r) (rp_finding_id r) (rp_title r) (rp_summary r) (rp_steps r) (rp_impact r) (rp_remediation r) v (rp_cvss r) (rp_status r) (rp_created_at r).
Definition rp_set_cvss (v : option string) (r : Report) : Report :=
  MkReport (rp_id r) (rp_program_id r) (rp_finding_id r) (rp_title r) (rp_summary r) (rp_steps r) (rp_impact r) (rp_remediation r) (rp_cwe r) v (rp_status r) (rp_created_at r).
Definition rp_set_status (v : option string) (r : Report) : Report :=
  MkReport (rp_id r) (rp_program_id r) (rp_finding_id r) (rp_title r) (rp_summary r) (rp_steps r) (rp_impact r) (rp_remediation r) (rp_cwe r) (rp_cvss r) v (rp_created_at r).
Definition ed_set_title (v : string) (r : EngagementDeliverable) : EngagementDeliverable :=
  MkEngagementDeliverable (ed_id r) (ed_program_id r) v (ed_latest_revision r) (ed_created_at r).
Definition ed_set_latest_revision (v : Z) (r : EngagementDeliverable) : EngagementDeliverable :=
  MkEngagementDeliverable (ed_id r) (ed_program_id r) (ed_title r) v (ed_created_at r).
Definition dr_set_status (v : string) (r : DeliverableRevision) : DeliverableRevision :=
  MkDeliverableRevision (dr_id r) (dr_deliverable_id r) (dr_revision r) v (dr_snapshot r) (dr_markdown r) (dr_content_hash r) (dr_actor r) (dr_created_at r).
Definition rd_set_name (v : string) (r : RadarProgram) : RadarProgram :=
  MkRadarProgram (rd_id r) (rd_owner_github_id r) (rd_platform r) (rd_platform_id r) v (rd_url r) (rd_max_payout r) (rd_is_new r) (rd_discovered_at r) (rd_last_fetched_at r).
Definition rd_set_url (v : option string) (r : RadarProgram) : RadarProgram :=
  MkRadarProgram (rd_id r) (rd_owner_github_id r) (rd_platform r) (rd_platform_id r) (rd_name r) v (rd_max_payout r) (rd_is_new r) (rd_discovered_at r) (rd_last_fetched_at r).
Definition rd_set_max_payout (v : option Z) (r : RadarProgram) : RadarProgram :=
  MkRadarProgram (rd_id r) (rd_owner_github_id r) (rd_platform r) (rd_platform_id r) (rd_name r) (rd_url r) v (rd_is_new r) (rd_discovered_at r) (rd_last_fetched_at r).
Definition rd_set_is_new (v : option string) (r : RadarProgram) : RadarProgram :=
  MkRadarProgram (rd_id r) (rd_owner_github_id r) (rd_platform r) (rd_platform_id r) (rd_name r) (rd_url r) (rd_max_payout r) v (rd_discovered_at r) (rd_last_fetched_at r).
Definition rd_set_last_fetched_at (v : time) (r : RadarProgram) : RadarProgram :=
  MkRadarProgram (rd_id r) (rd_owner_github_id r) (rd_platform r) (rd_platform_id r) (rd_name r) (rd_url r) (rd_max_payout r) (rd_is_new r) (rd_discovered_at r) v.
