(* ===== verification/Access.v ===== *)
(** * [deps.py]: identity, roles and tenant isolation

    Who the caller is, which engagements and organizations they reach, and the
    404/403 guards every handler starts with.  Token verification is PyJWT's
    and is a parameter of the section that uses it. *)
From S2P Require Import Prelude PyStr Json Digest Time Models.
From Stdlib Require Import Ascii.

(** [current_user], the dictionary the authentication dependencies return. *)
Record user_ctx := UserCtx {
  cu_github_id : string;
  cu_username : string;
  cu_email : string;
  cu_scope : string;
  cu_auth_method : option string;
}.

Definition or_else (o : option string) (d : string) : string :=
  match o with Some s => if String.eqb s "" then d else s | None => d end.

(** ** Roles *)

Definition ROLE_RANK (role : string) : Z :=
  if String.eqb role "viewer" then 0
  else if String.eqb role "member" then 1
  else if String.eqb role "admin" then 2
  else if String.eqb role "owner" then 3
  else 0.

(** [max(roles, key=rank)]: the first of the highest. *)
Fixpoint max_role (best : string) (roles : list string) : string :=
  match roles with
  | [] => best
  | r :: rest => if ROLE_RANK best <? ROLE_RANK r then max_role r rest else max_role best rest
  end.

Definition org_role (org_id : option string) (github_id : string) (d : db) : option string :=
  match org_id with
  | None | Some "" => None
  | Some org =>
      om_role <$> first_row (λ m, String.eqb (om_org_id m) org && String.eqb (om_github_id m) github_id)
                    (organization_members d)
  end.

Definition member_role (e : Engagement) (github_id : string) (d : db) : option string :=
  em_role <$> first_row (λ m, String.eqb (em_program_id m) (e_id e)
                              && String.eqb (em_member_github_id m) github_id)
                (program_members d).

(** The roles granted by organization membership and by invitation. *)
Definition granted_roles (e : Engagement) (github_id : string) (d : db) : list string :=
  match org_role (e_org_id e) github_id d with
  | Some role => if String.eqb role "" then [] else [role]
  | None => []
  end ++
  match member_role e github_id d with
  | Some role => [if String.eqb role "" then "member" else role]
  | None => []
  end.

Definition engagement_access (e : Engagement) (github_id : string) (d : db) : option string :=
  if String.eqb (e_owner_github_id e) github_id then Some "owner"
  else match granted_roles e github_id d with
       | [] => None
       | r :: rest => Some (max_role r rest)
       end.

Definition get_engagement_or_404 (program_id : string) (current_user : user_ctx) (d : db)
    : result Engagement :=
  match engagements d !! program_id with
  | None => http 404 "Engagement not found"
  | Some engagement =>
      match engagement_access engagement (cu_github_id current_user) d with
      | None => http 404 "Engagement not found"
      | Some _ => Ok engagement
      end
  end.

(** ** Lists of reachable ids *)

Definition accessible_org_ids (github_id : string) (d : db) : list string :=
  let ids := map om_org_id
    (rows (λ m, String.eqb (om_github_id m) github_id) (organization_members d)) in
  match first_row (λ o, match org_personal_for_github_id o with
                        | Some p => String.eqb p github_id | None => false end)
          (organizations d) with
  | Some personal => if decide (org_id personal ∈ ids) then ids else ids ++ [org_id personal]
  | None => ids
  end.

(** The ids of the engagements whose row satisfies [p]. *)
Definition engagement_ids (p : Engagement → bool) (d : db) : list string :=
  map e_id (rows p (map snd (map_to_list (engagements d)))).

Definition accessible_engagement_ids (github_id : string) (d : db) : list string :=
  let owned := engagement_ids (λ e, String.eqb (e_owner_github_id e) github_id) d in
  let org_ids := map om_org_id
    (rows (λ m, String.eqb (om_github_id m) github_id) (organization_members d)) in
  let via_org :=
    match org_ids with
    | [] => []
    | _ => engagement_ids (λ e, match e_org_id e with
                                | Some o => bool_decide (o ∈ org_ids) | None => false end) d
    end in
  let invited := map em_program_id
    (rows (λ m, String.eqb (em_member_github_id m) github_id) (program_members d)) in
  dedup (owned ++ via_org ++ invited).

(** ** Write guards *)

Definition require_engagement_owner (e : Engagement) (current_user : user_ctx) : result unit :=
  guard (String.eqb (e_owner_github_id e) (cu_github_id current_user)) 403
    "This action requires engagement ownership".

Definition require_member_write (e : Engagement) (current_user : user_ctx) (d : db)
    : result unit :=
  guard (negb (bool_decide (engagement_access e (cu_github_id current_user) d = Some "viewer")))
    403 "Viewers cannot make changes to this engagement".

Definition require_full_scope (current_user : user_ctx) : result user_ctx :=
  if String.eqb (cu_scope current_user) "runner"
  then http 403 "This endpoint requires a full-access API key (scope=full)"
  else Ok current_user.

Definition log_action (new_id : string) (now : time) (github_id action resource_type resource_id : string)
    (program_id : option string) (d : db) : db :=
  set_audit_logs
    (audit_logs d ++
     [MkAuditLog new_id github_id action resource_type resource_id
        (default "" program_id) "" "" now]) d.

Definition resolve_owned_client_id (client_id : option string) (current_user : user_ctx) (d : db)
    : result (option string) :=
  match client_id with
  | None | Some "" => Ok None
  | Some cid =>
      let github_id := cu_github_id current_user in
      let org_ids := accessible_org_ids github_id d in
      match first_row (λ c, String.eqb (cl_id c) cid &&
                            (String.eqb (cl_owner_github_id c) github_id
                             || match cl_org_id c with
                                | Some o => bool_decide (o ∈ org_ids) | None => false end))
              (clients d) with
      | None => http 404 "Client not found"
      | Some owned => Ok (Some (cl_id owned))
      end
  end.

(** [personal_org]: found, or created with the caller as its owner.  [new_org]
    and [new_member] are the fresh ids of the two rows. *)
Definition personal_org (github_id new_org new_member : string) (now : time) (d : db)
    : Organization * db :=
  match first_row (λ o, match org_personal_for_github_id o with
                        | Some p => String.eqb p github_id | None => false end)
          (organizations d) with
  | Some org => (org, d)
  | None =>
      let org := MkOrganization new_org (github_id +:+ "'s workspace") (Some github_id) now in
      (org,
       set_organization_members
         (organization_members d ++ [MkOrganizationMember new_member new_org github_id "owner" now])
         (set_organizations (organizations d ++ [org]) d))
  end.

(** ** The engagement row lock ([managed_authority.py])

    [lock] re-reads the row under [FOR UPDATE]; [advance] also moves the
    authority revision, which managed contracts are bound to.  [begin_write] is
    SQLite's write lock and does nothing on PostgreSQL. *)

Definition set_engagement (e : Engagement) (d : db) : db :=
  set_engagements (<[e_id e := e]> (engagements d)) d.

Definition lock (d : db) (engagement : Engagement) : result Engagement :=
  match engagements d !! e_id engagement with Some e => Ok e | None => Raise NoResultFound end.

Definition advance (d : db) (engagement : Engagement) : result (Engagement * db) :=
  let? e := lock d engagement in
  let e' := e_set_managed_authority_revision (e_managed_authority_revision e + 1) e in
  Ok (e', set_engagement e' d).

(** ** Authentication of the Authorization header *)

Definition _API_KEY_PREFIX := "vmap_".
Definition unauthorized {A} : result A := http 401 "Unauthorized".

Section Tokens.
(** [jwt.decode] with the secret, HS256, audience, issuer and the required
    claims: the payload, or [None] for a [PyJWTError]. *)
Context (jwt_decode : string → option dict).
(** [BACKEND_JWT_SECRET] and the configured methods ([auth_methods()]). *)
Context (BACKEND_JWT_SECRET : string) (auth_methods : list string).

Definition _resolve_api_key (token : string) (now : time) (d : db) : result user_ctx * db :=
  let key_hash := sha256_hex token in
  match first_row (λ k, String.eqb (ak_key_hash k) key_hash) (api_keys d) with
  | None => (unauthorized, d)
  | Some api_key =>
      let d' := set_api_keys
        (update_rows (λ k, String.eqb (ak_id k) (ak_id api_key))
           (ak_set_last_used_at (Some now)) (api_keys d)) d in
      let user := first_row (λ u, String.eqb (u_github_id u) (ak_github_id api_key)) (users d) in
      (Ok (UserCtx (ak_github_id api_key)
             (match user with Some u => default "" (u_username u) | None => "" end)
             (match user with Some u => default "" (u_email u) | None => "" end)
             (or_else (Some (ak_scope api_key)) "full") None), d')
  end.

Definition _resolve_jwt (token : string) : result user_ctx :=
  if negb (bool_decide ("github" ∈ auth_methods)) then unauthorized
  else match jwt_decode token with
       | None => unauthorized
       | Some payload =>
           let github_id := dget "sub" payload in
           if negb (truthy github_id) || startswith (py_str github_id) "local:" then unauthorized
           else Ok (UserCtx (py_str github_id)
                      (py_str (default (JStr "") (lookup_key "username" payload)))
                      (py_str (default (JStr "") (lookup_key "email" payload)))
                      "full" None)
       end.

(** The Authorization-header half of [get_current_user]; a request without
    that header and with a session cookie goes to [resolve_session]. *)
Definition bearer_user (authorization : option string) (now : time) (d : db)
    : result user_ctx * db :=
  if String.eqb BACKEND_JWT_SECRET "" then (http 500 "Server auth not configured", d)
  else match authorization with
       | Some a =>
           if startswith a "Bearer " then
             let token := strip (default "" (after " " a)) in
             if startswith token _API_KEY_PREFIX then _resolve_api_key token now d
             else (_resolve_jwt token, d)
           else (unauthorized, d)
       | None => (unauthorized, d)
       end.
End Tokens.

(** ** The grants of a user on an engagement *)

(** Every role the three paths give [g] on [e]. *)
Definition all_grants (e : Engagement) (g : string) (d : db) : list string :=
  (if String.eqb (e_owner_github_id e) g then ["owner"] else []) ++ granted_roles e g d.

(** Column constraints of the tables the grants are read from: primary keys,
    the foreign keys of the two membership tables, and non-blank roles. *)
Record access_wf (d : db) : Prop := {
  wf_engagement_key : ∀ k e, engagements d !! k = Some e → e_id e = k;
  wf_member_fk : ∀ m, m ∈ program_members d → is_Some (engagements d !! em_program_id m);
  wf_org_member : ∀ m, m ∈ organization_members d → om_org_id m ≠ "" ∧ om_role m ≠ "";
}.

Lemma ROLE_RANK_bounds r : 0 ≤ ROLE_RANK r ≤ 3.
Proof. unfold ROLE_RANK. repeat case_match; lia. Qed.

Lemma max_role_spec best roles :
  max_role best roles ∈ best :: roles ∧
  ∀ r, r ∈ best :: roles → ROLE_RANK r ≤ ROLE_RANK (max_role best roles).
Proof.
  revert best. induction roles as [|r rest IH]; intros best; simpl.
  { split; [set_solver|]. intros ? ->%list_elem_of_singleton. lia. }
  destruct (Z.ltb_spec (ROLE_RANK best) (ROLE_RANK r)) as [Hlt|Hge].
  - destruct (IH r) as [Hin Hmax]. split; [set_solver|].
    intros r' [->|Hr']%elem_of_cons; [|by apply Hmax].
    etrans; [|apply (Hmax r); left]. lia.
  - destruct (IH best) as [Hin Hmax]. split; [set_solver|].
    intros r' [->|[->|Hr']%elem_of_cons]%elem_of_cons.
    + apply Hmax. left.
    + etrans; [exact Hge|]. apply Hmax. left.
    + apply Hmax. by right.
Qed.

Lemma org_role_is_Some o g d :
  is_Some (org_role (Some o) g d) ↔
  o ≠ "" ∧ ∃ m, m ∈ organization_members d ∧ om_org_id m = o ∧ om_github_id m = g.
Proof.
  unfold org_role. destruct o as [|c o]; [split; [by intros []|naive_solver]|].
  rewrite fmap_is_Some, first_row_is_Some. split.
  - intros (m & Hm & Hb). bool_simpl. naive_solver.
  - intros (_ & m & Hm & <- & <-). exists m. by rewrite !String.eqb_refl.
Qed.

Lemma org_role_nonblank o g d r :
  access_wf d → org_role o g d = Some r → r ≠ "".
Proof.
  intros Hwf. unfold org_role. destruct o as [[|c o]|]; [done| |done].
  intros (m & Hm & ->)%fmap_Some. apply first_row_Some in Hm as [Hm _].
  by apply (wf_org_member d Hwf).
Qed.

Lemma member_role_is_Some e g d :
  is_Some (member_role e g d) ↔
  ∃ m, m ∈ program_members d ∧ em_program_id m = e_id e ∧ em_member_github_id m = g.
Proof.
  unfold member_role. rewrite fmap_is_Some, first_row_is_Some. split.
  - intros (m & Hm & Hb). bool_simpl. naive_solver.
  - intros (m & Hm & <- & <-). exists m. by rewrite !String.eqb_refl.
Qed.

Lemma engagement_access_is_Some e g d :
  access_wf d →
  is_Some (engagement_access e g d) ↔
  e_owner_github_id e = g ∨ is_Some (org_role (e_org_id e) g d) ∨ is_Some (member_role e g d).
Proof.
  intros Hwf. unfold engagement_access, granted_roles.
  destruct (String.eqb_spec (e_owner_github_id e) g) as [->|Hne]; [naive_solver|].
  destruct (org_role _ _ _) as [r|] eqn:Eo.
  - apply org_role_nonblank, String.eqb_neq in Eo; [|done]. rewrite Eo. naive_solver.
  - destruct (member_role _ _ _) as [r|] eqn:Em; simpl; [|split; [by intros []|]].
    + naive_solver.
    + intros [?|[[]|[]]]; done.
Qed.

Lemma elem_of_engagement_ids p d id :
  access_wf d →
  id ∈ engagement_ids p d ↔ ∃ e, engagements d !! id = Some e ∧ p e = true.
Proof.
  intros Hwf. unfold engagement_ids. rewrite list_elem_of_fmap. split.
  - intros (e & -> & (He & Hp)%elem_of_rows).
    apply list_elem_of_fmap in He as ([k e'] & -> & Hk%elem_of_map_to_list). simpl in *.
    exists e'. by rewrite (wf_engagement_key d Hwf _ _ Hk).
  - intros (e & He & Hp). exists e. split; [by rewrite (wf_engagement_key d Hwf _ _ He)|].
    apply elem_of_rows. split; [|done]. apply list_elem_of_fmap. exists (id, e).
    by rewrite elem_of_map_to_list.
Qed.

Lemma elem_of_org_ids o g d :
  o ∈ map om_org_id (rows (λ m, String.eqb (om_github_id m) g) (organization_members d)) ↔
  ∃ m, m ∈ organization_members d ∧ om_org_id m = o ∧ om_github_id m = g.
Proof.
  rewrite list_elem_of_fmap. setoid_rewrite elem_of_rows. split.
  - intros (m & -> & Hm & Hb). bool_simpl. eauto.
  - intros (m & Hm & <- & <-). exists m. by rewrite String.eqb_refl.
Qed.

(** ** Properties *)

(** The list endpoints and the per-engagement guard agree: an engagement id is
    listed for a user exactly when it names an engagement on which the user
    holds a role, by ownership, organization or invitation. *)
Theorem accessible_iff_access d g id :
  access_wf d →
  id ∈ accessible_engagement_ids g d ↔
  ∃ e, engagements d !! id = Some e ∧ is_Some (engagement_access e g d).
Proof.
  intros Hwf. unfold accessible_engagement_ids.
  rewrite elem_of_dedup, !elem_of_app, elem_of_engagement_ids by done.
  setoid_rewrite (engagement_access_is_Some _ g d Hwf). split.
  - intros [(e & He & Hb)|[Hvia|Hinv]].
    + exists e. bool_simpl. naive_solver.
    + destruct (map om_org_id _) as [|o0 os] eqn:Eos; [set_solver|].
      rewrite <-Eos in Hvia. apply elem_of_engagement_ids in Hvia as (e & He & Hb); [|done].
      destruct (e_org_id e) as [o|] eqn:Eo; [|done]. bool_simpl.
      exists e. split; [done|]. right; left. rewrite Eo. apply org_role_is_Some.
      apply elem_of_org_ids in Hb as (m & Hm & <- & Hg).
      split; [apply (wf_org_member d Hwf _ Hm)|eauto].
    + apply list_elem_of_fmap in Hinv as (m & -> & (Hm & Hg)%elem_of_rows). bool_simpl.
      destruct (wf_member_fk d Hwf m Hm) as [e He]. exists e. split; [done|]. right; right.
      apply member_role_is_Some. exists m. by rewrite (wf_engagement_key d Hwf _ _ He).
  - intros (e & He & [Ho|[Hr|Hm]]).
    + left. exists e. by rewrite Ho, String.eqb_refl.
    + right; left. destruct (e_org_id e) as [o|] eqn:Eo; [|by destruct Hr].
      apply org_role_is_Some in Hr as (_ & m & Hm & <- & <-).
      assert (om_org_id m ∈ map om_org_id
        (rows (λ m0, String.eqb (om_github_id m0) (om_github_id m)) (organization_members d)))
        as Hin by (apply elem_of_org_ids; eauto).
      destruct (map om_org_id _) eqn:Eos; [set_solver|]. rewrite <-Eos in *.
      apply elem_of_engagement_ids; [done|]. exists e. rewrite Eo. split; [done|].
      by apply bool_decide_eq_true.
    + right; right. apply member_role_is_Some in Hm as (m & Hm & Hid & Hg).
      apply list_elem_of_fmap. exists m. rewrite Hid, (wf_engagement_key d Hwf _ _ He).
      split; [done|]. apply elem_of_rows. by rewrite Hg, String.eqb_refl.
Qed.

(** The effective role is one of the roles granted and none granted is higher;
    there is no role exactly when nothing is granted. *)
Theorem access_is_highest_grant e g d :
  match engagement_access e g d with
  | Some r => r ∈ all_grants e g d ∧ ∀ r', r' ∈ all_grants e g d → ROLE_RANK r' ≤ ROLE_RANK r
  | None => all_grants e g d = []
  end.
Proof.
  unfold engagement_access, all_grants. destruct (String.eqb _ _); simpl.
  - split; [left|]. intros r' _. apply (ROLE_RANK_bounds r').
  - destruct (granted_roles e g d) as [|r rest]; [done|]. apply max_role_spec.
Qed.

(** Another tenant's engagement cannot be told from one that does not exist:
    when the caller holds no role on it, the guard answers 404, as it does on
    the database without that engagement. *)
Theorem no_access_looks_deleted p u d :
  (∀ e, engagements d !! p = Some e → engagement_access e (cu_github_id u) d = None) →
  get_engagement_or_404 p u d = http 404 "Engagement not found" ∧
  get_engagement_or_404 p u (set_engagements (delete p (engagements d)) d)
  = get_engagement_or_404 p u d.
Proof.
  intros Hno. assert (get_engagement_or_404 p u d = http 404 "Engagement not found") as ->.
  { unfold get_engagement_or_404. destruct (_ !! p) eqn:E; [|done]. by rewrite Hno. }
  split; [done|]. unfold get_engagement_or_404. simpl. by rewrite lookup_delete_eq.
Qed.

(** Linking an engagement to a client succeeds exactly for a client the caller
    owns or reaches through an organization; every other id is a 404. *)
Theorem client_link_not_an_oracle cid u d :
  cid ≠ "" →
  resolve_owned_client_id (Some cid) u d = Ok (Some cid) ∧
    (∃ c, c ∈ clients d ∧ cl_id c = cid ∧
      (cl_owner_github_id c = cu_github_id u ∨
       ∃ o, cl_org_id c = Some o ∧ o ∈ accessible_org_ids (cu_github_id u) d))
  ∨ resolve_owned_client_id (Some cid) u d = http 404 "Client not found" ∧
    (∀ c, c ∈ clients d → cl_id c = cid →
      cl_owner_github_id c ≠ cu_github_id u ∧
      ∀ o, cl_org_id c = Some o → o ∉ accessible_org_ids (cu_github_id u) d).
Proof.
  intros Hne. destruct cid as [|a cid]; [done|]. unfold resolve_owned_client_id.
  destruct (first_row _ _) as [c|] eqn:E; [left|right].
  - apply first_row_Some in E as [Hc Hb]. bool_simpl. subst. split; [by f_equal; f_equal|].
    exists c. split; [done|]. split; [done|].
    apply orb_true_iff in H0 as [Ho|Ho]; [left; by bool_simpl|right].
    destruct (cl_org_id c); [|done]. bool_simpl. eauto.
  - rewrite first_row_None in E. split; [done|]. intros c Hc Hid. specialize (E c Hc).
    rewrite Hid, String.eqb_refl in E. simpl in E. bool_simpl. split; [done|].
    intros o Ho. rewrite Ho in *. by bool_simpl.
Qed.

(** An accepted Authorization header is either an API key whose SHA-256 is
    stored, whose owner and scope the caller gets and whose [last_used_at] is
    the only thing that changes, or a JWT, which needs the github method, is
    never a local account's, changes nothing and has full scope. *)
Theorem bearer_user_sound jwt secret methods a now d u d' :
  bearer_user jwt secret methods (Some a) now d = (Ok u, d') →
  let token := strip (default "" (after " " a)) in
  (∃ k, k ∈ api_keys d ∧ ak_key_hash k = sha256_hex token ∧
     cu_github_id u = ak_github_id k ∧ cu_scope u = or_else (Some (ak_scope k)) "full" ∧
     d' = set_api_keys (update_rows (λ k', String.eqb (ak_id k') (ak_id k))
            (ak_set_last_used_at (Some now)) (api_keys d)) d)
  ∨ (∃ payload, jwt token = Some payload ∧ "github" ∈ methods ∧ cu_scope u = "full" ∧
     cu_github_id u = py_str (dget "sub" payload) ∧
     startswith (cu_github_id u) "local:" = false ∧ d' = d).
Proof.
  unfold bearer_user. destruct (String.eqb secret ""); [done|].
  destruct (startswith a _); [|done]. cbv zeta.
  generalize (strip (default "" (after " " a))). intros token.
  destruct (startswith token _API_KEY_PREFIX).
  - unfold _resolve_api_key. destruct (first_row _ _) as [k|] eqn:E; [|done].
    apply first_row_Some in E as [Hk Hh]. bool_simpl. intros [= <- <-]. left. by exists k.
  - unfold _resolve_jwt. destruct (bool_decide _) eqn:Em; [|done]. simpl.
    destruct (jwt token) as [payload|] eqn:Ep; [|done].
    destruct (negb _ || _) eqn:Eb; [done|]. intros [= <- <-]. right. bool_simpl.
    by exists payload.
Qed.

(** A database with an owner, an organization viewer and an invited member. *)
Definition demo_engagement : Engagement :=
  MkEngagement None None 0 None 0 "eng-1" "alice" "Acme" None None None None None None (Some "org-1")
    None (Some "active") None None None None None 0 None.
Definition demo_db : db :=
  set_clients [MkClient "client-1" "alice" None "Acme" None None None None]
  (set_organization_members [MkOrganizationMember "m1" "org-1" "bob" "viewer" 0]
  (set_program_members [MkEngagementMember "m2" "eng-1" "alice" "bob" "member" 0]
  (set_api_keys [MkApiKey "k1" "alice" (sha256_hex "vmap_abc") None "runner" 0 None]
  (set_engagements {[ "eng-1" := demo_engagement ]} empty_db)))).

Lemma demo_wf : access_wf demo_db.
Proof.
  split; simpl.
  - intros k e [<- <-]%lookup_singleton_Some. done.
  - intros m ->%list_elem_of_singleton. by eexists.
  - intros m ->%list_elem_of_singleton. done.
Qed.

Lemma accessible_iff_access_witness :
  access_wf demo_db ∧ "eng-1" ∈ accessible_engagement_ids "bob" demo_db.
Proof.
  split; [exact demo_wf|]. apply (accessible_iff_access demo_db "bob" "eng-1" demo_wf).
  exists demo_engagement. split; [reflexivity|]. by exists "member".
Defined.

Lemma no_access_looks_deleted_witness :
  get_engagement_or_404 "eng-1" (UserCtx "mallory" "" "" "full" None) demo_db
  = http 404 "Engagement not found".
Proof.
  apply (no_access_looks_deleted "eng-1" (UserCtx "mallory" "" "" "full" None) demo_db).
  intros e He. change (({["eng-1" := demo_engagement]} : gmap string Engagement) !! "eng-1" = Some e) in He.
  apply lookup_singleton_Some in He as [_ <-].
  reflexivity.
Defined.

Lemma client_link_not_an_oracle_witness :
  "client-1" ≠ "" ∧
  resolve_owned_client_id (Some "client-1") (UserCtx "mallory" "" "" "full" None) demo_db
  = http 404 "Client not found".
Proof.
  split; [done|].
  destruct (client_link_not_an_oracle "client-1" (UserCtx "mallory" "" "" "full" None) demo_db)
    as [[H _]|[H _]]; [done|discriminate H|exact H].
Defined.

Lemma bearer_user_sound_witness :
  ∃ k, k ∈ api_keys demo_db ∧ ak_key_hash k = sha256_hex "vmap_abc" ∧ ak_github_id k = "alice".
Proof.
  destruct (bearer_user_sound (λ _, None) "secret" ["github"] "Bearer vmap_abc" 7 demo_db
    (UserCtx "alice" "" "" "runner" None)
    (set_api_keys [MkApiKey "k1" "alice" (sha256_hex "vmap_abc") None "runner" 0 (Some 7)] demo_db))
    as [(k & Hk & Hh & Hg & _)|(p & Hp & _)].
  - vm_compute. reflexivity.
  - exists k. split; [exact Hk|]. split; [exact Hh|]. by rewrite <-Hg.
  - discriminate Hp.
Defined.
