(* ===== verification/Enforcement.v ===== *)
(** * [enforcement.py]: the policy evaluator over the database

    Gathers an engagement's scope rules, governing authorization and stop-work
    flag, runs [policy.evaluate_all] and turns the decision into a warning or,
    for stop-work alone, a refusal. *)
From S2P Require Import Prelude PyStr Time Models Policy.

(** A naive UTC column read back, and [datetime.now(timezone.utc)]. *)
Definition naive (t : time) : datetime := Datetime t None.
Definition aware (t : time) : datetime := Datetime t (Some 0).

Definition or_str (o : option string) (fallback : string) : string :=
  match o with Some s => if String.eqb s "" then fallback else s | None => fallback end.

Definition _scope_rules (program_id : string) (d : db) : list ScopeRule :=
  map (λ s, MkScopeRule (si_value s) (or_str (si_kind s) "domain")
              (String.eqb (si_scope_type s) "out"))
    (rows (λ s, negb (String.eqb (si_value s) ""))
      (rows (λ s, String.eqb (si_program_id s) program_id) (scope_items d))).

(** [ORDER BY created_at DESC]: PostgreSQL puts NULL first. *)
Definition created_before (a b : option time) : bool :=
  match a, b with
  | Some x, Some y => x <? y
  | Some _, None => true
  | None, _ => false
  end.
Fixpoint latest (best : Authorization) (l : list Authorization) : Authorization :=
  match l with
  | [] => best
  | a :: l' => if created_before (au_created_at best) (au_created_at a)
               then latest a l' else latest best l'
  end.

Definition governing (program_id : string) (d : db) : option Authorization :=
  match rows (λ a, String.eqb (au_program_id a) program_id) (authorizations d) with
  | [] => None
  | a :: l => Some (latest a l)
  end.

Definition _authorization (program_id : string) (d : db) : option AuthorizationSnapshot :=
  match governing program_id d with
  | None => None
  | Some row =>
      Some (MkAuthorizationSnapshot (or_str (au_status row) "")
              (naive <$> au_window_start row) (naive <$> au_window_end row) [])
  end.

Definition build_input (engagement : Engagement) (capability : string) (d : db) (now : time)
    : PolicyInput :=
  MkPolicyInput (or_str (e_engagement_status engagement) "")
    (or_str (e_engagement_type engagement) "") "" capability (aware now)
    (bool_decide (is_Some (e_stop_work_at engagement)))
    (_authorization (e_id engagement) d) (_scope_rules (e_id engagement) d).

(** One [{"reason": ..., "message": ...}] entry of the [warnings] array. *)
Definition warning : Type := string * string.
Definition as_warnings (decision : option PolicyDecision) : list warning :=
  match decision with
  | None => []
  | Some d => if allowed d then [] else [(reason d, detail d)]
  end.

Definition stop_work_detail (decision : PolicyDecision) : http_detail :=
  DFields [("error", "stop_work_active"); ("reason", reason decision);
           ("message", detail decision)].

Definition check (d : db) (engagement : Engagement) (capability : string)
    (targets : list string) (now : time) : result (option PolicyDecision) :=
  let candidate := build_input engagement capability d now in
  let? decision := evaluate_all candidate targets in
  if allowed decision then Ok None
  else if String.eqb (reason decision) STOP_WORK_ACTIVE
  then Raise (HTTPException 403 (stop_work_detail decision))
  else Ok (Some decision).

(** ** Which exceptions and reasons the evaluator produces *)

Section Evaluator.
Implicit Types (c : PolicyInput) (x : exn).

Lemma int_port_raises s x : int_port s = Raise x → x = ValueError.
Proof. unfold int_port. destruct (int_of_string s); naive_solver. Qed.

Lemma scheme_and_port_raises t x : _scheme_and_port t = Raise x → x = ValueError.
Proof.
  unfold _scheme_and_port. destruct (cut "://" (strip t)) as [sch [rem|]].
  all: cbv beta iota zeta.
  all: intros [Hp|(p & _ & Hk)]%rbind_raise; [|done].
  all: repeat case_match; try done; by eapply int_port_raises.
Qed.

Lemma rule_matches_raises r k v raw x : _rule_matches r k v raw = Raise x → x = ValueError.
Proof.
  unfold _rule_matches. repeat (case_match; try done).
  all: intros [Hp|([s p] & _ & Hk)]%rbind_raise; [by eapply scheme_and_port_raises|].
  all: apply rbind_raise in Hk as [Hp|([s' p'] & _ & Hk)]; [by eapply scheme_and_port_raises|].
  all: repeat case_match; done.
Qed.

Lemma first_match_raises b rules k v raw x :
  first_match b rules k v raw = Raise x → x = ValueError.
Proof.
  induction rules as [|r rules IH]; simpl; [done|]. case_match; [|done].
  intros [Hr|([|] & _ & Hk)]%rbind_raise; [by eapply rule_matches_raises|done|auto].
Qed.

Lemma evaluate_raises c x : evaluate c = Raise x → x = ValueError.
Proof.
  unfold evaluate. case_match; [done|]. destruct (normalize_target _) as [k v].
  case_match; [done|].
  intros [Hr|([r|] & _ & Hk)]%rbind_raise; [by eapply first_match_raises|done|].
  apply rbind_raise in Hk as [Hr|([r|] & _ & Hk)]; [by eapply first_match_raises|done|done].
Qed.

(** The stop-work reason comes from the engagement gate alone. *)
Lemma evaluate_reason c d :
  evaluate c = Ok d → allowed d = false → reason d = STOP_WORK_ACTIVE → stop_work c = true.
Proof.
  unfold evaluate. destruct (allowed (evaluate_engagement c)) eqn:Eg; simpl.
  - destruct (normalize_target _) as [k v]. case_match; [by intros [= <-]|].
    intros ([r|] & _ & Hk)%rbind_ok; [by simplify_eq|].
    apply rbind_ok in Hk as ([r|] & _ & Hk); by simplify_eq.
  - intros [= <-] _. clear Eg. unfold evaluate_engagement. repeat (case_match; try done).
Qed.

Lemma evaluate_targets_stop c ts d :
  evaluate_targets c ts = Ok d → allowed d = false → reason d = STOP_WORK_ACTIVE →
  stop_work c = true.
Proof.
  induction ts as [|t ts IH]; simpl; [by intros [= <-]|].
  intros (d' & Hd & Hk)%rbind_ok. destruct (allowed d') eqn:Ea; simpl in Hk; [by apply IH|].
  simplify_eq. intros _ Hr. by apply (evaluate_reason _ _ Hd).
Qed.

Lemma evaluate_targets_raises c ts x : evaluate_targets c ts = Raise x → x = ValueError.
Proof.
  induction ts as [|t ts IH]; simpl; [done|].
  intros [Hr|(d & _ & Hk)]%rbind_raise; [by eapply evaluate_raises|]. case_match; auto; done.
Qed.

Lemma evaluate_all_raises c ts x : evaluate_all c ts = Raise x → x = ValueError.
Proof. unfold evaluate_all. case_match; [done|]. apply evaluate_targets_raises. Qed.

Lemma evaluate_all_stop c ts d :
  evaluate_all c ts = Ok d → allowed d = false → reason d = STOP_WORK_ACTIVE → stop_work c = true.
Proof.
  unfold evaluate_all. case_match; [|apply evaluate_targets_stop].
  intros [= <-] _. unfold evaluate_engagement. repeat (case_match; try done).
Qed.

Lemma evaluate_all_stopped c ts :
  stop_work c = true →
  evaluate_all c ts
  = Ok (deny STOP_WORK_ACTIVE "Stop-work is engaged for this engagement.").
Proof. intros Hs. unfold evaluate_all, evaluate_engagement. by rewrite Hs. Qed.
End Evaluator.

Lemma latest_spec best l :
  latest best l ∈ best :: l ∧
  ∀ a, a ∈ best :: l → created_before (au_created_at (latest best l)) (au_created_at a) = false.
Proof.
  assert (Hrefl : ∀ t, created_before t t = false) by (intros []; simpl; [lia|done]).
  assert (Htrans : ∀ x y z, created_before x y = false → created_before y z = false →
    created_before x z = false) by (intros [] [] []; simpl; try done; lia).
  revert best. induction l as [|b l IH]; intros best; simpl.
  { split; [set_solver|]. by intros a ->%list_elem_of_singleton. }
  assert (Hasym : ∀ x y, created_before x y = true → created_before y x = false)
    by (intros [] []; simpl; try done; lia).
  destruct (created_before (au_created_at best) (au_created_at b)) eqn:E.
  - destruct (IH b) as [Hin Hmax]. split; [set_solver|].
    intros a [->|Ha]%elem_of_cons; [|by apply Hmax].
    eapply Htrans; [apply (Hmax b); left|by apply Hasym].
  - destruct (IH best) as [Hin Hmax]. split; [set_solver|].
    intros a [->|[->|Ha]%elem_of_cons]%elem_of_cons; [apply Hmax; left| |apply Hmax; by right].
    eapply Htrans; [apply (Hmax best); left|exact E].
Qed.

(** ** Properties *)

(** Scope findings are advisory, stop-work is not: an engagement under
    stop-work refuses every request with a 403, whatever the targets, and
    without stop-work no request is refused with an HTTP error: it goes ahead,
    with at most a decision to warn about. *)
Theorem check_refuses_iff_stop_work d e cap targets now :
  (is_Some (e_stop_work_at e) →
     check d e cap targets now = Raise (HTTPException 403 (stop_work_detail
       (deny STOP_WORK_ACTIVE "Stop-work is engaged for this engagement.")))) ∧
  (e_stop_work_at e = None →
     (∃ decision, check d e cap targets now = Ok decision) ∨
     check d e cap targets now = Raise ValueError).
Proof.
  unfold check. split.
  - intros Hs. by rewrite evaluate_all_stopped by (by apply bool_decide_eq_true).
  - intros Hs. destruct (evaluate_all _ _) as [dec|x] eqn:E; simpl.
    + destruct (allowed dec) eqn:Ea; [eauto|].
      destruct (String.eqb_spec (reason dec) STOP_WORK_ACTIVE) as [Hr|]; [|eauto].
      apply evaluate_all_stop in E; [|done|done]. simpl in E. rewrite Hs in E. by bool_simpl.
    + apply evaluate_all_raises in E as ->. by right.
Qed.

(** The governing authorization is the engagement's most recently created
    record: no other record of the engagement was created after it. *)
Theorem governing_is_latest p d :
  match governing p d with
  | Some a => a ∈ authorizations d ∧ au_program_id a = p ∧
      ∀ b, b ∈ authorizations d → au_program_id b = p →
        created_before (au_created_at a) (au_created_at b) = false
  | None => ∀ b, b ∈ authorizations d → au_program_id b ≠ p
  end.
Proof.
  assert (Hrows : ∀ b, b ∈ authorizations d → au_program_id b = p →
    b ∈ rows (λ a, String.eqb (au_program_id a) p) (authorizations d)).
  { intros b Hb <-. apply elem_of_rows. by rewrite String.eqb_refl. }
  unfold governing. destruct (rows _ _) as [|a l] eqn:E.
  - intros b Hb Hp. specialize (Hrows b Hb Hp). set_solver.
  - destruct (latest_spec a l) as [Hin Hmax]. rewrite <-E in Hin.
    apply elem_of_rows in Hin as [Hin Hp]. bool_simpl. split_and!; [done|done|].
    intros b Hb Hbp. apply Hmax. by apply Hrows.
Qed.

(** An engagement of type bug_bounty under stop-work. *)
Definition stopped_engagement : Engagement :=
  e_set_stop_work_at (Some 1) (MkEngagement None None 0 None 0 "eng-1" "alice" "Acme" None None None None
    None None None (Some "bug_bounty") (Some "active") None None None None None 0 None).
Lemma check_refuses_iff_stop_work_witness :
  ∃ detail, check empty_db stopped_engagement "httpx" ["acme.com"] 5 = Raise (HTTPException 403 detail).
Proof.
  eexists. apply (check_refuses_iff_stop_work empty_db stopped_engagement). by eexists.
Defined.
