(* ===== verification/Assets.v ===== *)
(** * [assets.py]: canonical identities and the asset graph

    [parse] reduces an observed string to an identity, [canonical_key] is the
    join key stored with a node, [upsert] and [relate] grow the graph, and
    [parent_domain] looks a known parent up.  [int] refuses the non-decimal
    digits [str.isdigit] lets through, so parsing returns a [result]. *)
From S2P Require Import Prelude PyStr IpAddress Time Models.
From Stdlib Require Import Ascii.

Definition DOMAIN := "domain".
Definition IP := "ip_address".

Record AssetIdentity := MkAssetIdentity {
  ai_asset_type : string;
  ai_hostname : string;
  ai_ip : string;
  ai_port : option Z;
  ai_scheme : string;
}.

#[export] Instance AssetIdentity_eq_dec : EqDecision AssetIdentity.
Proof. solve_decision. Defined.

Definition base_of (i : AssetIdentity) : string :=
  if String.eqb (ai_ip i) "" then ai_hostname i else ai_ip i.

(** [if self.port]: port 0 counts as none. *)
Definition port_suffix (i : AssetIdentity) : string :=
  match ai_port i with
  | Some p => if p =? 0 then "" else ":" +:+ string_of_Z p
  | None => ""
  end.

Definition canonical_key (i : AssetIdentity) : string :=
  ai_asset_type i +:+ ":" +:+ base_of i +:+ port_suffix i.

Definition label (i : AssetIdentity) : string := base_of i +:+ port_suffix i.

(** [int(s)] for a string that passed [isdigit]. *)
Definition int_of_digits (s : string) : result (option Z) :=
  match int_of_string s with Some p => Ok (Some p) | None => Raise ValueError end.

(** The host and port of an authority; [None] for an unclosed bracket. *)
Definition split_host_port (host : string) (port : option Z)
    : result (option (string * option Z)) :=
  if startswith host "[" then
    match cut "]" host with
    | (_, None) => Ok None
    | (upto, Some rest) =>
        let? port :=
          if startswith rest ":" && isdigit (drop_string 1 rest)
          then int_of_digits (drop_string 1 rest) else Ok port in
        Ok (Some (drop_string 1 upto, port))
    end
  else if (count_char ":"%char host =? 1)%nat then
    let tail := default "" (after ":" host) in
    if isdigit tail
    then let? port := int_of_digits tail in Ok (Some (before ":" host, port))
    else Ok (Some (host, port))
  else Ok (Some (host, port)).

(** The identity of an isolated host. *)
Definition classify (host scheme : string) (port : option Z) : option AssetIdentity :=
  let host := lower (rstrip_char "."%char host) in
  if String.eqb host "" then None
  else
    let port :=
      match port with
      | Some _ => port
      | None => if String.eqb scheme "https" then Some 443
                else if String.eqb scheme "http" then Some 80 else None
      end in
    if bool_decide (is_Some (ip_address host)) then Some (MkAssetIdentity IP "" host port scheme)
    else if contains " " host || negb (contains "." host) then None
    else Some (MkAssetIdentity DOMAIN host "" port scheme).

Definition parse (observed : string) (default_port : option Z) : result (option AssetIdentity) :=
  let raw := strip observed in
  if String.eqb raw "" then Ok None
  else
    let '(scheme, remainder) :=
      match cut "://" raw with
      | (s, Some r) => (lower s, r)
      | (_, None) => ("", raw)
      end in
    let authority := before "/" remainder in
    let authority := default authority (after "@" authority) in
    let? hp := split_host_port authority default_port in
    Ok (match hp with
        | None => None
        | Some (host, port) => classify host scheme port
        end).

(** The identity an observation is recorded under. *)
Definition observe (observed : string) (default_port : option Z) (host_level : bool)
    : result (option AssetIdentity) :=
  let? identity := parse observed default_port in
  Ok (match identity with
      | Some i =>
          if host_level && bool_decide (is_Some (ai_port i))
          then Some (MkAssetIdentity (ai_asset_type i) (ai_hostname i) (ai_ip i) None (ai_scheme i))
          else Some i
      | None => None
      end).

Definition find_asset (program_id key : string) (d : db) : option Asset :=
  first_row (λ a, String.eqb (as_program_id a) program_id && String.eqb (as_canonical_key a) key)
    (assets d).

Definition new_asset (new_id program_id : string) (i : AssetIdentity) (source confidence : string)
    (now : time) : Asset :=
  MkAsset new_id program_id (canonical_key i) (ai_asset_type i) (label i) (ai_hostname i) (ai_ip i)
    (ai_port i) (ai_scheme i) "" "" "" "" "" source confidence (Some now) (Some now) now.

(** Find or create the node of an identity. *)
Definition upsert_identity (new_id program_id : string) (i : AssetIdentity)
    (source confidence : string) (now : time) (d : db) : Asset * db :=
  match find_asset program_id (canonical_key i) d with
  | Some asset =>
      (as_set_last_seen_at (Some now) asset,
       set_assets (update_rows (λ a, String.eqb (as_id a) (as_id asset))
                     (as_set_last_seen_at (Some now)) (assets d)) d)
  | None =>
      let asset := new_asset new_id program_id i source confidence now in
      (asset, set_assets (assets d ++ [asset]) d)
  end.

Definition upsert (new_id program_id observed source confidence : string)
    (default_port : option Z) (host_level : bool) (now : time) (d : db)
    : result (option Asset * db) :=
  let? identity := observe observed default_port host_level in
  Ok (match identity with
      | None => (None, d)
      | Some i =>
          let '(asset, d') := upsert_identity new_id program_id i source confidence now d in
          (Some asset, d')
      end).

Definition same_edge (src dst relationship : string) (e : AssetRelationship) : bool :=
  String.eqb (ar_src_asset_id e) src && String.eqb (ar_dst_asset_id e) dst
  && String.eqb (ar_relationship e) relationship.

Definition relate (new_id program_id : string) (src dst : option Asset)
    (relationship source confidence : string) (now : time) (d : db)
    : option AssetRelationship * db :=
  match src, dst with
  | Some src, Some dst =>
      if String.eqb (as_id src) (as_id dst) then (None, d)
      else
        match first_row (same_edge (as_id src) (as_id dst) relationship) (asset_relationships d) with
        | Some edge =>
            (Some (ar_set_last_seen_at (Some now) edge),
             set_asset_relationships
               (update_rows (λ e, String.eqb (ar_id e) (ar_id edge))
                  (ar_set_last_seen_at (Some now)) (asset_relationships d)) d)
        | None =>
            let edge := MkAssetRelationship new_id program_id (as_id src) (as_id dst)
                          relationship source confidence (Some now) (Some now) now in
            (Some edge, set_asset_relationships (asset_relationships d ++ [edge]) d)
        end
  | _, _ => (None, d)
  end.

(** The loop of [parent_domain] over [parts[i:]] for [i] in
    [1 .. len(parts) - 2]. *)
Fixpoint parent_of_labels (program_id : string) (labels : list string) (d : db) : option Asset :=
  match labels with
  | [] | [_] => None
  | _ :: rest =>
      match find_asset program_id (DOMAIN +:+ ":" +:+ join "." labels) d with
      | Some parent => Some parent
      | None => parent_of_labels program_id rest d
      end
  end.

Definition parent_domain (program_id : string) (asset : Asset) (d : db) : option Asset :=
  if negb (String.eqb (as_asset_type asset) DOMAIN) || String.eqb (as_hostname asset) "" then None
  else match split_char "."%char (as_hostname asset) with
       | [] => None
       | _ :: rest => parent_of_labels program_id rest d
       end.

(** ** The graph as a transition system *)

Definition node_key (a : Asset) : string * string := (as_program_id a, as_canonical_key a).
Definition edge_key (e : AssetRelationship) : string * string * string :=
  (ar_src_asset_id e, ar_dst_asset_id e, ar_relationship e).

(** The constraints of the two tables, and no self-edge. *)
Record graph_wf (d : db) : Prop := {
  wf_asset_ids : NoDup (map as_id (assets d));
  wf_node_keys : NoDup (map node_key (assets d));
  wf_edge_ids : NoDup (map ar_id (asset_relationships d));
  wf_edge_keys : NoDup (map edge_key (asset_relationships d));
  wf_no_self_edge : ∀ e, e ∈ asset_relationships d → ar_src_asset_id e ≠ ar_dst_asset_id e;
}.

Inductive graph_step (d : db) : db → Prop :=
| step_upsert new_id program_id observed source confidence default_port host_level now r d' :
    new_id ∉ map as_id (assets d) →
    upsert new_id program_id observed source confidence default_port host_level now d = Ok (r, d') →
    graph_step d d'
| step_relate new_id program_id src dst relationship source confidence now r d' :
    new_id ∉ map ar_id (asset_relationships d) →
    relate new_id program_id src dst relationship source confidence now d = (r, d') →
    graph_step d d'.

(** ** Lemmas *)

Lemma find_asset_spec p k d a :
  find_asset p k d = Some a → a ∈ assets d ∧ as_program_id a = p ∧ as_canonical_key a = k.
Proof. intros [Ha Hb]%first_row_Some. bool_simpl. done. Qed.

Lemma find_asset_absent p k d : find_asset p k d = None → (p, k) ∉ map node_key (assets d).
Proof.
  intros Hnone [a [Heq Ha]]%list_elem_of_fmap. injection Heq as -> ->.
  unfold find_asset in Hnone. rewrite first_row_None in Hnone. specialize (Hnone a Ha). by rewrite !String.eqb_refl in Hnone.
Qed.

Lemma find_asset_unique p k d a :
  graph_wf d → a ∈ assets d → node_key a = (p, k) → find_asset p k d = Some a.
Proof.
  intros Hwf Ha [= <- <-]. destruct (find_asset _ _ d) as [b|] eqn:E.
  - apply find_asset_spec in E as (Hb & Hp & Hk). f_equal.
    apply (NoDup_map_inj node_key (assets d)); [apply Hwf|done|done|].
    unfold node_key. congruence.
  - apply find_asset_absent in E. destruct E. apply list_elem_of_fmap. by exists a.
Qed.

Section Upsert.
Context (new_id program_id : string) (i : AssetIdentity) (source confidence : string)
  (now : time) (d : db).
Abbreviation result_ := (upsert_identity new_id program_id i source confidence now d).
Context (Hwf : graph_wf d) (Hfresh : new_id ∉ map as_id (assets d)).

Lemma upsert_identity_wf : graph_wf result_.2.
Proof using Hwf Hfresh.
  destruct Hwf as [H1 H2 H3 H4 H5]. unfold upsert_identity.
  destruct (find_asset _ _ d) as [a|] eqn:E; simpl.
  - split; simpl; try done; by rewrite map_update_rows.
  - split; simpl; try done; rewrite map_app; apply NoDup_snoc; [done|done|done|].
    by apply find_asset_absent.
Qed.

(** The node returned is in the graph, under the identity's key. *)
Lemma upsert_identity_in :
  result_.1 ∈ assets result_.2 ∧ node_key result_.1 = (program_id, canonical_key i).
Proof using.
  clear Hwf Hfresh. unfold upsert_identity. destruct (find_asset _ _ d) as [a|] eqn:E; simpl.
  - apply find_asset_spec in E as (Ha & <- & <-). split; [|done].
    apply elem_of_update_rows. exists a. by rewrite String.eqb_refl.
  - split; [|done]. apply elem_of_app. right. by apply list_elem_of_singleton.
Qed.

(** Every node that was there still is, under its id and key. *)
Lemma upsert_identity_keeps x :
  x ∈ assets d → ∃ x', x' ∈ assets result_.2 ∧ as_id x' = as_id x ∧ node_key x' = node_key x.
Proof using.
  clear Hwf Hfresh. intros Hx. unfold upsert_identity.
  destruct (find_asset _ _ d) as [a|] eqn:E; simpl.
  - eexists. split; [apply elem_of_update_rows; exists x; by split|]. by case_match.
  - exists x. split; [|done]. apply elem_of_app. by left.
Qed.

Lemma upsert_identity_edges : asset_relationships result_.2 = asset_relationships d.
Proof using. unfold upsert_identity. by destruct (find_asset _ _ d). Qed.
End Upsert.

Lemma upsert_inv new_id p o source confidence dp hl now d r d' :
  upsert new_id p o source confidence dp hl now d = Ok (r, d') →
  (r = None ∧ d' = d ∧ observe o dp hl = Ok None) ∨
  ∃ i, observe o dp hl = Ok (Some i) ∧
    Some (upsert_identity new_id p i source confidence now d).1 = r ∧
    (upsert_identity new_id p i source confidence now d).2 = d'.
Proof.
  unfold upsert. intros ([i|] & Ho & Hr)%rbind_ok; [right|left].
  - destruct (upsert_identity _ _ _ _ _ _ _) as [a d''] eqn:E. exists i. rewrite E. by simplify_eq.
  - by simplify_eq.
Qed.

Lemma relate_wf new_id p src dst rel source confidence now d r d' :
  graph_wf d → new_id ∉ map ar_id (asset_relationships d) →
  relate new_id p src dst rel source confidence now d = (r, d') → graph_wf d'.
Proof.
  intros [H1 H2 H3 H4 H5] Hfresh. unfold relate.
  destruct src as [src|], dst as [dst|]; try (by intros [= <- <-]).
  destruct (String.eqb_spec (as_id src) (as_id dst)) as [|Hne]; [by intros [= <- <-]|].
  destruct (first_row _ _) as [e|] eqn:E; intros [= <- <-].
  - split; simpl; try done; try by rewrite map_update_rows.
    intros x (y & Hy & ->)%elem_of_update_rows. specialize (H5 y Hy). by case_match.
  - rewrite first_row_None in E. split; simpl; try done.
    + rewrite map_app. by apply NoDup_snoc.
    + rewrite map_app. apply NoDup_snoc; [done|].
      intros (x & Hk & Hx)%list_elem_of_fmap. injection Hk as Hs Hd Hr.
      specialize (E x Hx). unfold same_edge in E. by rewrite <-Hs, <-Hd, <-Hr, !String.eqb_refl in E.
    + intros x [Hx| ->%list_elem_of_singleton]%elem_of_app; [by apply H5|done].
Qed.

(** ** Properties *)

(** C38. The graph keeps its constraints: whatever sequence of observations and
    relations is recorded, one node per (engagement, key), one edge per
    (source, target, verb), ids are unique and no edge joins a node to
    itself. *)
Theorem graph_wf_reachable d : rtc graph_step empty_db d → graph_wf d.
Proof.
  assert (Hstep : ∀ x y, graph_step x y → graph_wf x → graph_wf y).
  { intros x y [new_id p o s c dp hl now r d' Hf Hu|new_id p src dst rel s c now r d' Hf Hr] Hwf.
    - apply upsert_inv in Hu as [(_ & -> & _)|(i & _ & _ & <-)]; [done|].
      by apply upsert_identity_wf.
    - by eapply relate_wf. }
  assert (Hall : ∀ x y, rtc graph_step x y → graph_wf x → graph_wf y).
  { induction 1; eauto. }
  intros Hd. apply (Hall _ _ Hd). split; simpl; [constructor..|set_solver].
Qed.

(** Two observations of one engagement land on the same node exactly when
    their identities have the same canonical key. *)
Theorem same_node_iff_same_key n1 n2 p o1 o2 s c dp1 dp2 hl1 hl2 t1 t2 d d1 d2 a b i j :
  graph_wf d → n1 ∉ map as_id (assets d) → n2 ∉ map as_id (assets d1) →
  observe o1 dp1 hl1 = Ok (Some i) → observe o2 dp2 hl2 = Ok (Some j) →
  upsert n1 p o1 s c dp1 hl1 t1 d = Ok (Some a, d1) →
  upsert n2 p o2 s c dp2 hl2 t2 d1 = Ok (Some b, d2) →
  as_id a = as_id b ↔ canonical_key i = canonical_key j.
Proof.
  intros Hwf Hn1 Hn2 Hi Hj Hu1 Hu2.
  apply upsert_inv in Hu1 as [(? & _)|(i' & Hi' & Ha & Hd1)]; [done|].
  apply upsert_inv in Hu2 as [(? & _)|(j' & Hj' & Hb & Hd2)]; [done|].
  assert (i' = i) as -> by congruence. assert (j' = j) as -> by congruence.
  injection Ha as <-. injection Hb as <-. subst d1 d2.
  set (d1 := (upsert_identity n1 p i s c t1 d).2) in *.
  assert (Hwf1 : graph_wf d1) by by apply upsert_identity_wf.
  pose proof (upsert_identity_wf n2 p j s c t2 d1 Hwf1 Hn2) as [Hids Hkeys _ _ _].
  destruct (upsert_identity_in n1 p i s c t1 d) as [Ha Hka]. fold d1 in Ha.
  destruct (upsert_identity_in n2 p j s c t2 d1) as [Hb Hkb].
  destruct (upsert_identity_keeps n2 p j s c t2 d1 _ Ha) as (a' & Ha' & Hida & Hka').
  rewrite <-Hida. split.
  - intros Hid. apply (NoDup_map_inj _ _ _ _ Hids Ha' Hb) in Hid. subst a'. congruence.
  - intros Hk. f_equal. apply (NoDup_map_inj _ _ _ _ Hkeys Ha' Hb). congruence.
Qed.

Lemma host_no_bracket host t :
  all_chars (plain host_delims) host = true → startswith (host +:+ String ":" t) "[" = false.
Proof. intros Hh. apply (startswith_absent "[" host ":"). solve_chars. Qed.

Lemma parse_bare host :
  all_chars (plain host_delims) host = true → parse host None = Ok (classify host "" None).
Proof.
  intros Hh.
  unfold parse. rewrite strip_none by solve_chars.
  destruct (String.eqb_spec host "") as [->|Hne]; [reflexivity|].
  rewrite (cut_absent ":" "//" host) by solve_chars.
  assert (before "/" host = host) as ->.
  { unfold before. rewrite cut_absent by solve_chars. done. }
  assert (after "@" host = None) as ->.
  { unfold after. rewrite cut_absent by solve_chars. done. }
  cbn [from_option id]. unfold split_host_port.
  assert (startswith host "[" = false) as ->.
  { destruct host as [|c h]; [done|].
    assert (all_chars (λ d, negb (Ascii.eqb "[" d)) (String c h) = true) as Hb by solve_chars.
    simpl in Hb |- *. apply andb_true_iff in Hb as [Hb _]. apply negb_true_iff in Hb. by rewrite Hb. }
  rewrite count_char_absent by solve_chars. reflexivity.
Qed.

Section HostLevel.
Context (scheme user host port path : string).
Context (Hs : all_chars (plain [":"]%char) scheme = true)
  (Hu : all_chars (plain ["/"; "@"]%char) user = true)
  (Hh : all_chars (plain host_delims) host = true)
  (Hp : all_chars (plain ["/"; "@"; ":"]%char) port = true)
  (Hpath : all_chars (plain []) path = true).

Lemma parse_url :
  isdigit port = true →
  parse (scheme +:+ "://" +:+ user +:+ "@" +:+ host +:+ ":" +:+ port +:+ "/" +:+ path) None
  = let? p := int_of_digits port in Ok (classify host (lower scheme) p).
Proof using Hs Hu Hh Hp Hpath.
  intros Hd. set (hp := host +:+ ":" +:+ port).
  set (rem := user +:+ "@" +:+ host +:+ ":" +:+ port +:+ "/" +:+ path).
  assert (Hrem : rem = (user +:+ "@" +:+ hp) +:+ "/" +:+ path).
  { unfold rem, hp. by rewrite <-!app_assoc_string. }
  unfold parse. rewrite strip_none by (unfold rem; solve_chars).
  assert (String.eqb (scheme +:+ "://" +:+ rem) "" = false) as -> by by destruct scheme.
  rewrite (cut_first ":" "//" scheme rem) by solve_chars.
  assert (before "/" rem = user +:+ "@" +:+ hp) as ->.
  { unfold before. rewrite Hrem, (cut_first "/" "") by (unfold hp; solve_chars). done. }
  assert (after "@" (user +:+ "@" +:+ hp) = Some hp) as ->.
  { unfold after. rewrite (cut_first "@" "") by solve_chars. done. }
  cbn [from_option id]. unfold split_host_port.
  assert (startswith hp "[" = false) as -> by exact (host_no_bracket host port Hh).
  assert (count_char ":" hp = 1%nat) as ->.
  { unfold hp. rewrite !count_char_app, (count_char_absent _ host), (count_char_absent _ port)
      by solve_chars. done. }
  unfold before, after, hp. rewrite (cut_first ":" "" host port) by solve_chars. simpl.
  rewrite Hd. by destruct (int_of_digits port).
Qed.
End HostLevel.

(** Dropping the port, as a host-level observation does. *)
Definition host_identity (i : AssetIdentity) : AssetIdentity :=
  MkAssetIdentity (ai_asset_type i) (ai_hostname i) (ai_ip i) None (ai_scheme i).

Lemma observe_host_level o dp r :
  parse o dp = Ok r → observe o dp true = Ok (host_identity <$> r).
Proof.
  intros Hr. unfold observe. rewrite Hr. simpl.
  by destruct r as [[ty h ip [p|] sch]|].
Qed.

Lemma classify_key host s1 s2 p1 p2 :
  canonical_key <$> (host_identity <$> classify host s1 p1)
  = canonical_key <$> (host_identity <$> classify host s2 p2).
Proof. unfold classify. by repeat case_match. Qed.

(** Scheme, credentials, port and path do not separate two observations of a
    host: at host level a full URL has the key of its bare host. *)
Theorem host_level_url scheme user host port path z :
  all_chars (plain [":"]%char) scheme = true →
  all_chars (plain ["/"; "@"]%char) user = true →
  all_chars (plain host_delims) host = true →
  all_chars (plain ["/"; "@"; ":"]%char) port = true →
  all_chars (plain []) path = true →
  isdigit port = true → int_of_string port = Some z →
  ∃ i j,
    observe (scheme +:+ "://" +:+ user +:+ "@" +:+ host +:+ ":" +:+ port +:+ "/" +:+ path) None true
      = Ok i ∧
    observe host None true = Ok j ∧ canonical_key <$> i = canonical_key <$> j.
Proof.
  intros Hs Hu Hh Hp Hpath Hd Hz.
  pose proof (parse_url scheme user host port path Hs Hu Hh Hp Hpath Hd) as Hurl.
  unfold int_of_digits in Hurl. rewrite Hz in Hurl. simpl in Hurl.
  eexists _, _. split; [by apply observe_host_level|].
  split; [by apply observe_host_level, parse_bare|]. apply classify_key.
Qed.

Lemma host_level_url_witness :
  ∃ i j, observe "https://u:p@API.Acme.com:8443/v1" None true = Ok i ∧
    observe "API.Acme.com" None true = Ok j ∧ canonical_key <$> i = canonical_key <$> j.
Proof.
  apply (host_level_url "https" "u:p" "API.Acme.com" "8443" "v1" 8443);
    vm_compute; reflexivity.
Defined.

Lemma same_node_iff_same_key_witness :
  ∃ a b d1 d2,
    upsert "n1" "p" "https://acme.com/x" "" "" None true 1 empty_db = Ok (Some a, d1) ∧
    upsert "n2" "p" "acme.com" "" "" None true 2 d1 = Ok (Some b, d2) ∧ as_id a = as_id b.
Proof.
  eexists _, _, _, _.
  assert (H1 : ∃ a d1, upsert "n1" "p" "https://acme.com/x" "" "" None true 1 empty_db
    = Ok (Some a, d1)) by (eexists _, _; vm_compute; reflexivity).
  split; [vm_compute; reflexivity|]. split; [vm_compute; reflexivity|].
  eapply (same_node_iff_same_key "n1" "n2" "p" "https://acme.com/x" "acme.com" "" "" None None
    true true 1 2 empty_db);
    [split; simpl; [constructor..|set_solver]|set_solver| | | | | |];
    try (vm_compute; reflexivity).
  vm_compute. set_solver.
Defined.

(** What a key says of the port: port 0 and no port are the same. *)
Definition key_port (i : AssetIdentity) : option Z :=
  p ← ai_port i; if p =? 0 then None else Some p.

Definition colon_free (s : string) : bool := all_chars (λ c, negb (Ascii.eqb ":" c)) s.

Lemma port_suffix_cut base i :
  colon_free base = true →
  cut ":" (base +:+ port_suffix i) = (base, string_of_Z <$> key_port i).
Proof.
  intros Hb. unfold port_suffix, key_port. destruct (ai_port i) as [p|]; simpl.
  - destruct (p =? 0); simpl; [rewrite app_empty_r; by apply (cut_absent ":" "")|].
    by apply (cut_first ":" "").
  - rewrite app_empty_r. by apply (cut_absent ":" "").
Qed.

(** Over hosts without a colon, keys separate whatever differs in type, host
    or port. *)
Theorem canonical_key_inj i j :
  colon_free (ai_asset_type i) = true → colon_free (ai_asset_type j) = true →
  colon_free (base_of i) = true → colon_free (base_of j) = true →
  canonical_key i = canonical_key j ↔
  ai_asset_type i = ai_asset_type j ∧ base_of i = base_of j ∧ key_port i = key_port j.
Proof.
  intros Hti Htj Hbi Hbj. unfold canonical_key. split.
  - intros Heq. apply (f_equal (cut ":")) in Heq as Hcut.
    rewrite !(cut_first ":" "") in Hcut by done. injection Hcut as Hty Hrest.
    apply (f_equal (cut ":")) in Hrest. rewrite !port_suffix_cut in Hrest by done.
    injection Hrest as Hbase Hport. split_and!; [done|done|].
    destruct (key_port i), (key_port j); simplify_eq/=; [|done].
    f_equal. by apply string_of_Z_inj.
  - intros (-> & -> & Hport). do 3 f_equal. unfold port_suffix, key_port in *.
    repeat (case_match; simplify_eq/=); done.
Qed.

Lemma canonical_key_inj_witness :
  canonical_key (MkAssetIdentity DOMAIN "acme.com" "" (Some 443) "https")
  ≠ canonical_key (MkAssetIdentity DOMAIN "acme.com" "" None "").
Proof.
  intros Heq. apply canonical_key_inj in Heq as (_ & _ & Hport); [|vm_compute; reflexivity..].
  discriminate Hport.
Defined.

(** An IPv6 address with a port and a longer IPv6 address without one can
    share a key, so two different things can converge on a node. *)
Theorem ipv6_keys_collide :
  ∃ i j, observe "[::1]:80" None false = Ok (Some i) ∧ observe "::1:80" None false = Ok (Some j) ∧
    ai_ip i ≠ ai_ip j ∧ canonical_key i = canonical_key j.
Proof.
  eexists _, _. split; [vm_compute; reflexivity|]. split; [vm_compute; reflexivity|].
  split; [done|]. vm_compute. reflexivity.
Qed.

(** A port of superscript digits makes [parse] raise. *)
Theorem parse_superscript_port_raises :
  parse ("acme.com:" +:+ str1 (chr 178)) None = Raise ValueError.
Proof. vm_compute. reflexivity. Qed.

Lemma parent_of_labels_spec p labels d b :
  parent_of_labels p labels d = Some b →
  ∃ pre w w' ws, labels = pre ++ w :: w' :: ws ∧
    find_asset p (DOMAIN +:+ ":" +:+ join "." (w :: w' :: ws)) d = Some b.
Proof.
  induction labels as [|w [|w' ws] IH]; [done|done|].
  cbn [parent_of_labels]. destruct (find_asset _ _ _) as [a|] eqn:E.
  - intros [= <-]. by exists [], w, w', ws.
  - intros (pre & x & x' & xs & Heq & Hf)%IH. exists (w :: pre), x, x', xs. by rewrite Heq.
Qed.

Lemma join_suffix pre w ws :
  pre ≠ [] → ∃ s, join "." (pre ++ w :: ws) = s +:+ "." +:+ join "." (w :: ws).
Proof.
  induction pre as [|x pre IH]; [done|]. intros _. destruct pre as [|y pre].
  - by exists x.
  - destruct IH as [s Hs]; [done|]. exists (x +:+ "." +:+ s).
    cbn [app]. cbn [app] in Hs. rewrite join_cons2, Hs. by rewrite <-!app_assoc_string.
Qed.

(** A parent is a known node of the same engagement whose name is what is left
    of the asset's hostname after a label boundary, and has two labels or
    more. *)
Theorem parent_domain_sound p a d b :
  parent_domain p a d = Some b →
  b ∈ assets d ∧ as_program_id b = p ∧
  ∃ pre w rest, as_hostname a = pre +:+ "." +:+ w +:+ "." +:+ rest ∧
    as_canonical_key b = DOMAIN +:+ ":" +:+ w +:+ "." +:+ rest.
Proof.
  unfold parent_domain. destruct (_ || _); [done|].
  pose proof (join_split_char "." (as_hostname a)) as Hj.
  destruct (split_char "." (as_hostname a)) as [|l0 labels]; [done|].
  intros (pre & w & w' & ws & -> & Hf)%parent_of_labels_spec.
  apply find_asset_spec in Hf as (Hb & Hp & Hk). split_and!; [done|done|].
  destruct (join_suffix (l0 :: pre) w (w' :: ws)) as [s Hs]; [done|].
  exists s, w, (join "." (w' :: ws)). rewrite <-(join_cons2 "." w), <-Hk.
  split; [|done]. rewrite <-Hj. exact Hs.
Qed.

Lemma parent_domain_sound_witness :
  ∃ b d, parent_domain "p" (new_asset "n2" "p" (MkAssetIdentity DOMAIN "api.acme.com" "" None "") "" "" 1) d
    = Some b ∧ as_program_id b = "p".
Proof.
  set (d := set_assets [new_asset "n1" "p" (MkAssetIdentity DOMAIN "acme.com" "" None "") "" "" 0] empty_db).
  exists (new_asset "n1" "p" (MkAssetIdentity DOMAIN "acme.com" "" None "") "" "" 0), d.
  assert (H : parent_domain "p" (new_asset "n2" "p" (MkAssetIdentity DOMAIN "api.acme.com" "" None "") "" "" 1) d
    = Some (new_asset "n1" "p" (MkAssetIdentity DOMAIN "acme.com" "" None "") "" "" 0))
    by (vm_compute; reflexivity).
  split; [exact H|]. apply (parent_domain_sound _ _ _ _ H).
Defined.

Lemma graph_wf_reachable_witness :
  ∃ d, d ≠ empty_db ∧ graph_wf d.
Proof.
  set (r := upsert "n1" "p" "acme.com" "" "" None false 1 empty_db).
  destruct r as [[a d]|x] eqn:E; [|vm_compute in E; discriminate E].
  exists d. split; [vm_compute in E; by injection E as <- <-|].
  apply graph_wf_reachable. eapply rtc_once, step_upsert; [|exact E]. set_solver.
Defined.
