(* ===== verification/LocalAuth.v ===== *)
(** * [local_auth.py]: local accounts

    Password sign-in with a lockout, revocable browser sessions with absolute
    and idle lifetimes, CSRF and origin checks, the one-time bootstrap and the
    operator's reset; [auth_methods.py], [routers/local_auth.py] and
    [local_accounts.py] included.  The password hash is argon2-cffi's and a
    parameter; tokens from [secrets] are arguments.  The requests form a
    transition system under a clock that does not run backwards. *)
From S2P Require Import Prelude PyStr Json Digest Time Models Access.
From Stdlib Require Import Ascii.

(** ** Configuration *)

Definition auth_methods (VARDRMAP_AUTH_METHODS : option string) : result (list string) :=
  let values := dedup (map strip (split_char "," (default "github" VARDRMAP_AUTH_METHODS))) in
  if bool_decide (values = [])
     || existsb (λ v, negb (String.eqb v "github" || String.eqb v "local")) values
  then Raise (RuntimeError "VARDRMAP_AUTH_METHODS must contain github, local, or both")
  else Ok values.

(** The process environment as the checks at startup leave it. *)
Record environ := Environ {
  methods : list string;
  BACKEND_JWT_SECRET : string;
  ALLOWED_ORIGINS : option string;
}.

Definition COOKIE_NAME := "__Host-vardrmap.session".
Definition SESSION_LIFETIME : time := hours 8.
Definition IDLE_LIFETIME : time := minutes 30.
Definition FAILURE_WINDOW : time := minutes 15.

(** What the code reads of a [Request]; [rq_session] is the cookie. *)
Record request := Request {
  rq_method : string;
  rq_scheme : string;
  rq_origin : option string;
  rq_csrf : option string;
  rq_session : option string;
}.

(** ** Passwords, usernames, tokens *)

Definition validate_password (password : string) : result unit :=
  if negb ((15 <=? len password) && (len password <=? 128)) || String.eqb (strip password) ""
  then Raise ValueError else Ok tt.

Definition digest (value : string) : string := sha256_hex value.

Definition username_head (c : ascii) : bool := in_range 97 122 c || in_range 48 57 c.
Definition username_char (c : ascii) : bool :=
  username_head c || Ascii.eqb c "." || Ascii.eqb c "_" || Ascii.eqb c "-".

(** [re.fullmatch(r"[a-z0-9][a-z0-9._-]{2,63}", s)] *)
Definition username_ok (s : string) : bool :=
  match s with
  | EmptyString => false
  | String c rest =>
      username_head c && all_chars username_char rest && (2 <=? len rest) && (len rest <=? 63)
  end.

(** [re.fullmatch(r"[0-9a-f]{64}", s)] *)
Definition csrf_shape (s : string) : bool :=
  all_chars (λ c, in_range 48 57 c || in_range 97 102 c) s && (len s =? 64).

(** [hmac.new(key, msg, hashlib.sha256)], RFC 2104 with blocks of 64 bytes. *)
Definition hmac_sha256 (key msg : list Z) : list Z :=
  let k0 := if (64 <? Z.of_nat (length key)) then sha256_bytes key else key in
  let k := k0 ++ repeat 0 (64 - length k0) in
  sha256_bytes (map (Z.lxor 92) k ++ sha256_bytes (map (Z.lxor 54) k ++ msg)).

Example hmac_rfc4231_case2 :
  hex_of_bytes (hmac_sha256 (utf8 "Jefe") (utf8 "what do ya want for nothing?"))
  = "5bdcc146bf60754e6a042426089575c75a003f089d2739839dec58b964ec3843".
Proof. vm_compute. reflexivity. Qed.

Definition safe_method (m : string) : bool :=
  String.eqb m "GET" || String.eqb m "HEAD" || String.eqb m "OPTIONS".

Definition sign_in_failed {A} : result A := http 401 "Sign-in failed".

Definition is_user (id : string) (u : User) : bool := String.eqb (u_github_id u) id.
Definition has_user_id (id : string) (c : LocalCredential) : bool := String.eqb (lc_user_id c) id.
Definition has_username (name : string) (c : LocalCredential) : bool :=
  String.eqb (lc_username c) name.
Definition has_token (hash : string) (s : LocalSession) : bool := String.eqb (ls_token_hash s) hash.

(** Flush the changes of a loaded credential. *)
Definition put_credential (c : LocalCredential) (d : db) : db :=
  set_local_credentials (update_rows (has_user_id (lc_user_id c)) (λ _, c) (local_credentials d)) d.

(** [failed_attempts, locked_until, last_failure_at = 0, None, None] *)
Definition clear_failures (c : LocalCredential) : LocalCredential :=
  lc_set_last_failure_at None (lc_set_locked_until None (lc_set_failed_attempts 0 c)).

(** A wrong password: the count restarts when the last failure is a window
    old, and the fifth failure locks the account for a window. *)
Definition record_failure (instant : time) (c : LocalCredential) : LocalCredential :=
  let stale := match lc_last_failure_at c with
               | None => true | Some t => t <=? instant - FAILURE_WINDOW end in
  let n := (if stale then 0 else lc_failed_attempts c) + 1 in
  let c' := lc_set_last_failure_at (Some instant) (lc_set_failed_attempts n c) in
  if 5 <=? n then lc_set_locked_until (Some (instant + FAILURE_WINDOW)) c' else c'.

Definition blocked (instant : time) (c : LocalCredential) : bool :=
  match lc_locked_until c with Some t => instant <? t | None => false end.

(** The credential a login names: the query runs only for a well-formed name. *)
Definition find_credential (username : string) (d : db) : option LocalCredential :=
  let normalized := lower (strip username) in
  if username_ok normalized then first_row (has_username normalized) (local_credentials d) else None.

Section Local.
(** argon2-cffi: [verify] ([false] for its exceptions), [hash] with its random
    salt, [check_needs_rehash]; the hash of a random password that unknown
    accounts are checked against. *)
Context (argon2_verify : string → string → bool) (argon2_hash : string → string → string).
Context (check_needs_rehash : string → bool) (_DUMMY_HASH : string).
Context (env : environ).

Definition require_local : result unit := guard (bool_decide ("local" ∈ methods env)) 404 "Not found".

Definition csrf_token (raw_session : string) : result string :=
  if len (BACKEND_JWT_SECRET env) <? 32 then http 500 "Local authentication is not configured"
  else Ok (hex_of_bytes (hmac_sha256 (utf8 (BACKEND_JWT_SECRET env))
             (utf8 ("vardrmap-csrf-v1:" +:+ raw_session)))).

Definition allowed_origins : list string :=
  rows (λ o, negb (String.eqb o ""))
    (map strip (split_char "," (default "http://localhost:3000" (ALLOWED_ORIGINS env)))).

Definition check_transport (req : request) (write : bool) : result unit :=
  check? require_local in
  check? guard (String.eqb (rq_scheme req) "https") 400 "Local authentication requires HTTPS" in
  if write
  then guard (match rq_origin req with Some o => bool_decide (o ∈ allowed_origins) | None => false end)
         403 "Invalid request origin"
  else Ok tt.

(** ** [bootstrap]: the first and only account *)

(** [user_id] is ["local:" + new_uuid()]; an [IntegrityError] rolls back and
    becomes a [ValueError]. *)
Definition bootstrap (uuid salt new_org new_member username password : string) (now : time) (d : db)
    : result (string * db) :=
  check? require_local in
  let username := lower (strip username) in
  check? (if username_ok username then Ok tt else Raise ValueError) in
  check? validate_password password in
  let encoded := argon2_hash salt password in
  let user_id := "local:" +:+ uuid in
  if existsb (λ b, lb_id b =? 1) (local_bootstrap d)
     || existsb (is_user user_id) (users d)
     || existsb (λ c, has_user_id user_id c || has_username username c) (local_credentials d)
  then Raise ValueError
  else
    let d := set_local_bootstrap (local_bootstrap d ++ [MkLocalBootstrap 1]) d in
    let d := set_users (users d ++
      [MkUser user_id (Some username) (Some "") (Some "") (Some "high") (Some now)]) d in
    let d := set_local_credentials (local_credentials d ++
      [MkLocalCredential user_id username encoded 0 None None]) d in
    Ok (user_id, (personal_org user_id new_org new_member now d).2).

(** ** [verify_login] *)

(** A refusal commits (or rolls back to) the database it returns; on success
    the changes are pending in the caller's transaction. *)
Definition verify_login (salt username password : string) (instant : time) (d : db)
    : result LocalCredential * db :=
  let credential := find_credential username d in
  let encoded := match credential with
                 | Some c => if blocked instant c then _DUMMY_HASH else lc_password_hash c
                 | None => _DUMMY_HASH
                 end in
  let verified := argon2_verify encoded password in
  match credential with
  | None => (sign_in_failed, d)
  | Some c =>
      if blocked instant c then (sign_in_failed, d)
      else if negb verified then (sign_in_failed, put_credential (record_failure instant c) d)
      else
        let c := clear_failures c in
        let c := if check_needs_rehash encoded
                 then lc_set_password_hash (argon2_hash salt password) c else c in
        (Ok c, put_credential c d)
  end.

(** ** Sessions *)

Definition drop_sessions (p : LocalSession → bool) (d : db) : db :=
  set_local_sessions (rows (λ s, negb (p s)) (local_sessions d)) d.

(** [raw] is [secrets.token_urlsafe(32)].  The primary key of the table and its
    foreign key to the credentials are checked by the insertion. *)
Definition issue_session (raw user_id : string) (previous : option string) (instant : time) (d : db)
    : result (string * db) :=
  let? _csrf := csrf_token raw in
  let d := match previous with
           | None | Some "" => d
           | Some p => drop_sessions (has_token (digest p)) d
           end in
  let d := drop_sessions (λ s, ls_expires_at s <=? instant) d in
  if existsb (has_token (digest raw)) (local_sessions d)
     || negb (existsb (has_user_id user_id) (local_credentials d))
  then Raise IntegrityError
  else Ok (raw, set_local_sessions (local_sessions d ++
         [MkLocalSession (digest raw) user_id instant instant (instant + SESSION_LIFETIME)]) d).

(** The row is read in [seen]; the update of [last_seen_at] is committed in
    [d], where the row may be gone ([StaleDataError]).  After a commit the
    user's columns are read again. *)
Definition resolve_session (req : request) (instant : time) (seen d : db)
    : result user_ctx * db :=
  let user_of (u : User) := UserCtx (u_github_id u) (default "" (u_username u))
                              (default "" (u_email u)) "full" (Some "local") in
  let checks :=
    check? (if bool_decide ("local" ∈ methods env) then Ok tt else unauthorized) in
    check? check_transport req (negb (safe_method (rq_method req))) in
    let raw := default "" (rq_session req) in
    check? (if String.eqb raw "" || (128 <? len raw) then unauthorized else Ok tt) in
    match first_row (has_token (digest raw)) (local_sessions seen) with
    | None => unauthorized
    | Some session =>
        check? (if (ls_expires_at session <=? instant)
                   || (ls_last_seen_at session <=? instant - IDLE_LIFETIME)
                then unauthorized else Ok tt) in
        check? (if safe_method (rq_method req) then Ok tt
                else
                  let supplied := default "" (rq_csrf req) in
                  if negb (csrf_shape supplied) then http 403 "Invalid CSRF token"
                  else let? token := csrf_token raw in
                       guard (String.eqb supplied token) 403 "Invalid CSRF token") in
        match first_row (is_user (ls_user_id session)) (users seen),
              first_row (has_user_id (ls_user_id session)) (local_credentials seen) with
        | Some user, Some _ => Ok (session, user)
        | _, _ => unauthorized
        end
    end in
  match checks with
  | Raise e => (Raise e, d)
  | Ok (session, user) =>
      if ls_last_seen_at session <=? instant - minutes 1 then
        if existsb (has_token (ls_token_hash session)) (local_sessions d) then
          let d' := set_local_sessions
            (update_rows (has_token (ls_token_hash session)) (ls_set_last_seen_at instant)
               (local_sessions d)) d in
          (match first_row (is_user (u_github_id user)) (users d') with
           | Some u => Ok (user_of u)
           | None => Raise ObjectDeletedError
           end, d')
        else (unauthorized, d)
      else (Ok (user_of user), d)
  end.

(** [deps.get_current_user]: the header when there is one, else the cookie. *)
Definition get_current_user (jwt_decode : string → option dict) (req : request)
    (authorization : option string) (instant : time) (seen d : db) : result user_ctx * db :=
  let given := default "" authorization in
  if String.eqb (BACKEND_JWT_SECRET env) "" then (http 500 "Server auth not configured", d)
  else if String.eqb given "" && negb (String.eqb (default "" (rq_session req)) "")
  then resolve_session req instant seen d
  else bearer_user jwt_decode (BACKEND_JWT_SECRET env) (methods env) authorization instant d.

(** ** [routers/local_auth.py] *)

(** The cookie set by the response is the answer. *)
Definition login (raw salt : string) (req : request) (username password : string) (instant : time)
    (d : db) : result string * db :=
  match check_transport req true with
  | Raise e => (Raise e, d)
  | Ok _ =>
      match verify_login salt username password instant d with
      | (Raise e, d1) => (Raise e, d1)
      | (Ok credential, d1) =>
          atomically d (issue_session raw (lc_user_id credential) (rq_session req) instant d1)
      end
  end.

(** The guard of the three endpoints below. *)
Definition local_only (user : user_ctx) : result unit :=
  if bool_decide (cu_auth_method user = Some "local") then Ok tt else unauthorized.

(** The CSRF token and the user, of the endpoint's answer. *)
Definition session (req : request) (user : user_ctx) : result (string * user_ctx) :=
  check? local_only user in
  match rq_session req with
  | None => Raise KeyError
  | Some raw => let? token := csrf_token raw in Ok (token, user)
  end.

Definition logout (req : request) (user : user_ctx) (d : db) : result (unit * db) :=
  check? local_only user in
  match rq_session req with
  | None => Raise KeyError
  | Some raw => Ok (tt, drop_sessions (has_token (digest raw)) d)
  end.

Definition change_password (raw salt salt' : string) (user : user_ctx)
    (current_password new_password : string) (instant : time) (d : db) : result string * db :=
  match local_only user with
  | Raise e => (Raise e, d)
  | Ok _ =>
      match validate_password new_password with
      | Raise _ =>
          (http 400 "Use a password or passphrase containing 15 to 128 characters", d)
      | Ok _ =>
          match verify_login salt (cu_username user) current_password instant d with
          | (Raise e, d1) => (Raise e, d1)
          | (Ok credential, d1) =>
              let d1 := put_credential
                (lc_set_password_hash (argon2_hash salt' new_password) credential) d1 in
              let d1 := drop_sessions (λ s, String.eqb (ls_user_id s) (cu_github_id user)) d1 in
              atomically d (issue_session raw (cu_github_id user) None instant d1)
          end
      end
  end.

(** ** [local_accounts.py]: the operator's [reset-password] *)

Definition reset_password (salt username password : string) (d : db) : result db :=
  check? require_local in
  check? validate_password password in
  match first_row (has_username (lower (strip username))) (local_credentials d) with
  | None => Raise ValueError
  | Some credential =>
      Ok (drop_sessions (λ s, String.eqb (ls_user_id s) (lc_user_id credential))
            (put_credential
               (clear_failures (lc_set_password_hash (argon2_hash salt password) credential)) d))
  end.
End Local.

(** ** Effects on the tables *)

Definition same_account (d d' : db) : Prop :=
  map lc_user_id (local_credentials d') = map lc_user_id (local_credentials d)
  ∧ local_bootstrap d' = local_bootstrap d.

(** A session of [new] is one of [old], perhaps seen again at [now], or was
    just issued for [issued] to an existing account. *)
Definition sessions_from (now : time) (issued : option string) (ids : list string)
    (old new : list LocalSession) : Prop :=
  ∀ s, s ∈ new → s ∈ old ∨ (∃ s0, s0 ∈ old ∧ s = ls_set_last_seen_at now s0)
    ∨ ∃ raw id, issued = Some raw ∧ id ∈ ids
        ∧ s = MkLocalSession (digest raw) id now now (now + SESSION_LIFETIME).

#[export] Instance same_account_preorder : PreOrder same_account.
Proof.
  split; [by intros d|]. intros d1 d2 d3 [H1 H2] [H3 H4]. split; congruence.
Qed.

Lemma same_account_sessions v d : same_account d (set_local_sessions v d).
Proof. by destruct d. Qed.

Lemma put_credential_account c d : same_account d (put_credential c d).
Proof.
  split; [|by destruct d]. destruct d. unfold put_credential, update_rows. simpl.
  rewrite map_map. apply map_ext. intros c0. unfold has_user_id.
  by destruct (String.eqb_spec (lc_user_id c0) (lc_user_id c)) as [->|].
Qed.

Lemma put_credential_sessions c d : local_sessions (put_credential c d) = local_sessions d.
Proof. by destruct d. Qed.

Lemma put_session_tables v d :
  local_sessions (set_local_sessions v d) = v
  ∧ local_credentials (set_local_sessions v d) = local_credentials d.
Proof. by destruct d. Qed.

Lemma elem_of_drop_sessions p d s :
  s ∈ local_sessions (drop_sessions p d) ↔ s ∈ local_sessions d ∧ p s = false.
Proof.
  unfold drop_sessions. rewrite (proj1 (put_session_tables _ _)), elem_of_rows.
  by rewrite negb_true_iff.
Qed.

Lemma record_failure_id now c : lc_user_id (record_failure now c) = lc_user_id c.
Proof. unfold record_failure. destruct c. by case_match. Qed.

Lemma record_failure_spec now c :
  lc_last_failure_at (record_failure now c) = Some now
  ∧ lc_username (record_failure now c) = lc_username c
  ∧ (5 <= lc_failed_attempts (record_failure now c) →
     lc_locked_until (record_failure now c) = Some (now + FAILURE_WINDOW)).
Proof.
  unfold record_failure. match goal with |- context [5 <=? ?n] => destruct (Z.leb_spec 5 n) end;
    destruct c; simpl in *; split_and!; try done; intros; lia.
Qed.

Lemma verify_login_effect verify hash rehash dummy salt username password now d r d' :
  verify_login verify hash rehash dummy salt username password now d = (r, d') →
  same_account d d' ∧ local_sessions d' = local_sessions d.
Proof.
  unfold verify_login. destruct (find_credential _ _) as [c|]; [|by intros [= _ <-]].
  destruct (blocked now c); [by intros [= _ <-]|].
  destruct (verify _ _); intros [= _ <-];
    split; apply put_credential_account || apply put_credential_sessions.
Qed.

Lemma issue_session_effect env raw id previous now d out d' :
  issue_session env raw id previous now d = Ok (out, d') →
  same_account d d' ∧ id ∈ map lc_user_id (local_credentials d) ∧
  ∀ s, s ∈ local_sessions d' →
    s ∈ local_sessions d ∨ s = MkLocalSession (digest raw) id now now (now + SESSION_LIFETIME).
Proof.
  unfold issue_session. rewrite rbind_ok. intros (csrf & _ & H).
  set (d1 := match previous with None | Some "" => d | Some previous => drop_sessions (has_token (digest previous)) d end) in H.
  assert (H1 : local_credentials d1 = local_credentials d ∧ local_bootstrap d1 = local_bootstrap d
    ∧ ∀ s, s ∈ local_sessions d1 → s ∈ local_sessions d).
  { unfold d1. destruct previous as [[|a p]|]; [done| |done].
    split_and!; [by destruct d..|]. intros s Hs. by apply elem_of_drop_sessions in Hs as [? _]. }
  clearbody d1. destruct H1 as (Hc & Hb & Hs).
  set (d2 := drop_sessions _ d1) in H.
  assert (H2 : local_credentials d2 = local_credentials d1 ∧ local_bootstrap d2 = local_bootstrap d1)
    by by destruct d1.
  assert (Hs2 : ∀ s, s ∈ local_sessions d2 → s ∈ local_sessions d1)
    by (intros s [? _]%elem_of_drop_sessions; done).
  clearbody d2. destruct H2 as [Hc2 Hb2]. destruct (_ || _) eqn:E; [done|].
  bool_simpl. injection H as _ <-. split_and!.
  - split; [by rewrite (proj2 (put_session_tables _ _)), Hc2, Hc|]. by destruct d2; simpl in *; subst.
  - apply existsb_exists in H1 as (c & Hin & Hid). rewrite Hc2, Hc in Hin.
    apply list_elem_of_fmap. exists c. unfold has_user_id in Hid. bool_simpl.
    by rewrite list_elem_of_In.
  - intros s. rewrite (proj1 (put_session_tables _ _)), elem_of_app, list_elem_of_singleton.
    intros [Hin | ->]; [left; by auto|by right].
Qed.

Definition account_ids (d : db) : list string := map lc_user_id (local_credentials d).

Lemma drop_sessions_account p d : same_account d (drop_sessions p d).
Proof. apply same_account_sessions. Qed.

Lemma sessions_from_subset now issued ids old new :
  (∀ s, s ∈ new → s ∈ old) → sessions_from now issued ids old new.
Proof. intros Hsub s Hs. left. auto. Qed.

Lemma sessions_from_update now issued ids p old :
  sessions_from now issued ids old (update_rows p (ls_set_last_seen_at now) old).
Proof.
  intros s (s0 & Hs0 & ->)%elem_of_update_rows. destruct (p s0); [right; left|by left].
  by exists s0.
Qed.

Lemma login_effect verify hash rehash dummy env raw salt req username password now d r d' :
  login verify hash rehash dummy env raw salt req username password now d = (r, d') →
  same_account d d'
  ∧ sessions_from now (Some raw) (account_ids d) (local_sessions d) (local_sessions d').
Proof.
  unfold login, atomically. destruct (check_transport _ _ _).
  2:{ intros [= _ <-]. split; [done|]. by apply sessions_from_subset. }
  destruct (verify_login _ _ _ _ _ _ _ _ d) as [[c|e] d1] eqn:E;
    apply verify_login_effect in E as [Ha Hs].
  2:{ intros [= _ <-]. split; [done|]. rewrite Hs. by apply sessions_from_subset. }
  destruct (issue_session _ _ _ _ _ _) as [[cookie d2]|] eqn:Ei.
  2:{ intros [= _ <-]. split; [done|]. by apply sessions_from_subset. }
  intros [= _ <-]. apply issue_session_effect in Ei as (Ha2 & Hid & Hs2).
  split; [by etrans|]. intros s [Hin | ->]%Hs2; [left; by rewrite <-Hs|].
  right; right. exists raw, (lc_user_id c). destruct Ha as [Hids _]. unfold account_ids.
  by rewrite <-Hids.
Qed.

Lemma change_password_effect verify hash rehash dummy env raw salt salt' u old new now d r d' :
  change_password verify hash rehash dummy env raw salt salt' u old new now d = (r, d') →
  same_account d d'
  ∧ sessions_from now (Some raw) (account_ids d) (local_sessions d) (local_sessions d')
  ∧ (is_ok r = true → cu_github_id u ∈ account_ids d ∧ ∀ s, s ∈ local_sessions d' →
       ls_user_id s ≠ cu_github_id u ∨ ls_token_hash s = digest raw).
Proof.
  unfold change_password, atomically. destruct (local_only u).
  2:{ intros [= <- <-]. split_and!; [done|by apply sessions_from_subset|done]. }
  destruct (validate_password new).
  2:{ intros [= <- <-]. split_and!; [done|by apply sessions_from_subset|done]. }
  destruct (verify_login _ _ _ _ _ _ _ _ d) as [[c|e] d1] eqn:E;
    apply verify_login_effect in E as [Ha Hs].
  2:{ intros [= <- <-]. split_and!; [done|rewrite Hs; by apply sessions_from_subset|done]. }
  set (d2 := put_credential _ d1). set (d3 := drop_sessions _ d2).
  destruct (issue_session _ _ _ _ _ _) as [[cookie d4]|] eqn:Ei.
  2:{ intros [= <- <-]. split_and!; [done|by apply sessions_from_subset|done]. }
  intros [= <- <-]. apply issue_session_effect in Ei as (Ha2 & Hid & Hs2).
  assert (Ha3 : same_account d d3).
  { etrans; [exact Ha|]. etrans; [apply put_credential_account|apply drop_sessions_account]. }
  assert (Hs3 : ∀ s, s ∈ local_sessions d3 → s ∈ local_sessions d ∧ ls_user_id s ≠ cu_github_id u).
  { intros s [Hin Hu]%elem_of_drop_sessions. unfold d2 in Hin.
    rewrite put_credential_sessions, Hs in Hin. split; [done|]. by bool_simpl. }
  split_and!; [by etrans| |].
  - intros s [Hin | ->]%Hs2; [left; by apply Hs3|]. right; right. exists raw, (cu_github_id u).
    destruct Ha3 as [Hids _]. unfold account_ids. by rewrite <-Hids.
  - intros _. split; [|intros s [Hin | ->]%Hs2; [left; by apply Hs3|by right]].
    destruct Ha3 as [Hids _]. unfold account_ids. by rewrite <-Hids.
Qed.

Lemma reset_password_effect hash env salt username password d d' :
  reset_password hash env salt username password d = Ok d' →
  same_account d d' ∧ ∃ id, id ∈ account_ids d
  ∧ ∀ s, s ∈ local_sessions d' → s ∈ local_sessions d ∧ ls_user_id s ≠ id.
Proof.
  unfold reset_password. rewrite rbind_ok. intros (_ & _ & H). rewrite rbind_ok in H.
  destruct H as (_ & _ & H). destruct (first_row _ _) as [c|] eqn:E; [|done].
  injection H as <-. apply first_row_Some in E as [Hc _].
  split; [etrans; [apply put_credential_account|apply drop_sessions_account]|].
  exists (lc_user_id c). split; [apply list_elem_of_fmap; by exists c|].
  intros s [Hin Hu]%elem_of_drop_sessions. rewrite put_credential_sessions in Hin. split; [done|].
  by bool_simpl.
Qed.

Lemma logout_effect req u d r d' :
  logout req u d = Ok (r, d') →
  ∃ raw, rq_session req = Some raw ∧ d' = drop_sessions (has_token (digest raw)) d.
Proof.
  unfold logout. rewrite rbind_ok. intros (_ & _ & H). destruct (rq_session req) as [raw|]; [|done].
  injection H as _ <-. by exists raw.
Qed.

Lemma resolve_session_effect env req now seen d r d' :
  resolve_session env req now seen d = (r, d') →
  d' = d ∨ ∃ hash, d' = set_local_sessions
    (update_rows (has_token hash) (ls_set_last_seen_at now) (local_sessions d)) d.
Proof.
  unfold resolve_session.
  match goal with |- context [match ?checks with Ok _ => _ | Raise _ => _ end] =>
    generalize checks end.
  intros [[s u]|e]; [|intros [= _ <-]; by left].
  destruct (_ <=? _); [|intros [= _ <-]; by left].
  destruct (existsb _ _); intros [= _ <-]; [right; by eexists|by left].
Qed.

Lemma get_current_user_effect env jwt req a now seen d r d' :
  get_current_user env jwt req a now seen d = (r, d') →
  same_account d d'
  ∧ sessions_from now None (account_ids d) (local_sessions d) (local_sessions d').
Proof.
  assert (Hkeys : ∀ v, same_account d (set_api_keys v d) ∧
    sessions_from now None (account_ids d) (local_sessions d) (local_sessions (set_api_keys v d))).
  { intros v. destruct d. split; [done|]. by apply sessions_from_subset. }
  assert (Hid : same_account d d ∧
    sessions_from now None (account_ids d) (local_sessions d) (local_sessions d)).
  { split; [done|]. by apply sessions_from_subset. }
  unfold get_current_user. destruct (String.eqb (BACKEND_JWT_SECRET env) "") eqn:Es;
    [by intros [= _ <-]|].
  destruct (_ && _).
  - intros [-> | [h ->]]%resolve_session_effect; [done|]. split; [apply same_account_sessions|].
    rewrite (proj1 (put_session_tables _ _)). apply sessions_from_update.
  - unfold bearer_user. rewrite Es. destruct a as [a|]; [|by intros [= _ <-]].
    destruct (startswith a _); [|by intros [= _ <-]]. cbv zeta.
    destruct (startswith _ _API_KEY_PREFIX); [|by intros [= _ <-]].
    unfold _resolve_api_key. destruct (first_row _ _); intros [= _ <-]; auto.
Qed.

(** ** Requests as a transition system *)

Definition local_tables (d : db) := (local_credentials d, local_sessions d, local_bootstrap d).

Section Requests.
Context (verify : string → string → bool) (hash : string → string → string).
Context (rehash : string → bool) (dummy : string) (env : environ) (jwt : string → option dict).

(** One committed request at an instant, with the session token it may issue.
    Authentication runs in front of every handler of the application and may
    have read an older database [seen]; every handler of the other files
    leaves the three tables alone. *)
Inductive auth_step (now : time) : option string → db → db → Prop :=
| step_bootstrap uuid salt o m username password d id d' :
    bootstrap hash env uuid salt o m username password now d = Ok (id, d') →
    auth_step now None d d'
| step_login raw salt req username password d r d' :
    login verify hash rehash dummy env raw salt req username password now d = (r, d') →
    auth_step now (Some raw) d d'
| step_authenticate req a seen d r d' :
    get_current_user env jwt req a now seen d = (r, d') → auth_step now None d d'
| step_logout req u d r d' : logout req u d = Ok (r, d') → auth_step now None d d'
| step_change raw salt salt' u old new d r d' :
    change_password verify hash rehash dummy env raw salt salt' u old new now d = (r, d') →
    auth_step now (Some raw) d d'
| step_reset salt username password d d' :
    reset_password hash env salt username password d = Ok d' → auth_step now None d d'
| step_other d d' : local_tables d' = local_tables d → auth_step now None d d'.

(** Runs from an instant and a database to later ones, issuing only tokens
    that satisfy [P]. *)
Inductive auth_run (P : string → Prop) (t : time) (d : db) : time → db → Prop :=
| run_refl : auth_run P t d t d
| run_step t1 d1 t2 issued d2 :
    auth_run P t d t1 d1 → t1 <= t2 → (∀ raw, issued = Some raw → P raw) →
    auth_step t2 issued d1 d2 → auth_run P t d t2 d2.

Definition fresh_db (d : db) : Prop := local_tables d = ([], [], []).
Definition auth_reachable (t : time) (d : db) : Prop :=
  ∃ t0 d0, fresh_db d0 ∧ auth_run (λ _, True) t0 d0 t d.

(** Sessions have the absolute lifetime, were last seen between their creation
    and now, and belong to the account; there is at most one account, and the
    bootstrap row is spent with it. *)
Record local_wf (t : time) (d : db) : Prop := {
  lw_session : ∀ s, s ∈ local_sessions d →
    ls_expires_at s = ls_created_at s + SESSION_LIFETIME
    ∧ ls_created_at s <= ls_last_seen_at s <= t ∧ ls_user_id s ∈ account_ids d;
  lw_account : account_ids d = [] ∨ ∃ id, account_ids d = [id]
    ∧ startswith id "local:" = true ∧ existsb (λ b, lb_id b =? 1) (local_bootstrap d) = true;
}.

Lemma local_wf_later t t' d : t <= t' → local_wf t d → local_wf t' d.
Proof.
  intros Ht [Hs Ha]. split; [|done]. intros s Hin. destruct (Hs s Hin) as (? & ? & ?).
  split_and!; try done; lia.
Qed.

Lemma local_wf_from t issued d d' :
  same_account d d' → sessions_from t issued (account_ids d) (local_sessions d) (local_sessions d') →
  local_wf t d → local_wf t d'.
Proof.
  intros [Hids Hb] Hfrom [Hs Ha]. split; unfold account_ids in *.
  - intros s [Hin | [(s0 & Hin & ->) | (raw & id & _ & Hid & ->)]]%Hfrom; rewrite Hids.
    + auto.
    + destruct (Hs s0 Hin) as (? & ? & ?). destruct s0; simpl in *. split_and!; try done; lia.
    + simpl. split_and!; try done; lia.
  - by rewrite Hids, Hb.
Qed.

Lemma bootstrap_effect uuid salt o m username password now d id d' :
  bootstrap hash env uuid salt o m username password now d = Ok (id, d') →
  existsb (λ b, lb_id b =? 1) (local_bootstrap d) = false
  ∧ local_sessions d' = local_sessions d
  ∧ account_ids d' = account_ids d ++ [id] ∧ id = "local:" +:+ uuid
  ∧ local_bootstrap d' = local_bootstrap d ++ [MkLocalBootstrap 1].
Proof.
  unfold bootstrap. rewrite rbind_ok. intros (_ & _ & H). cbv zeta in H.
  rewrite rbind_ok in H. destruct H as (_ & _ & H). rewrite rbind_ok in H.
  destruct H as (_ & _ & H). destruct (_ || _) eqn:E; [done|]. bool_simpl.
  injection H as <- <-. split; [done|]. unfold personal_org, account_ids.
  destruct d; simpl. destruct (first_row _ _); simpl; rewrite map_app; done.
Qed.

(** Every step keeps the invariant and says where its sessions come from. *)
Lemma auth_step_from now issued d d' :
  auth_step now issued d d' →
  (same_account d d' ∨
   existsb (λ b, lb_id b =? 1) (local_bootstrap d) = false
   ∧ local_bootstrap d' = local_bootstrap d ++ [MkLocalBootstrap 1]
   ∧ ∃ id, account_ids d' = account_ids d ++ [id] ∧ startswith id "local:" = true)
  ∧ sessions_from now issued (account_ids d) (local_sessions d) (local_sessions d').
Proof.
  intros [uuid salt o m username password d1 id d2 H | raw salt req username password d1 r d2 H
    | req a seen d1 r d2 H | req u d1 r d2 H | raw salt salt' u old new d1 r d2 H
    | salt username password d1 d2 H | d1 d2 H].
  - apply bootstrap_effect in H as (Hb & Hs & Ha & Hid & Hb'). split.
    + right. split_and!; [done|done|]. exists id. split; [done|]. apply startswith_spec. by exists uuid.
    + rewrite Hs. by apply sessions_from_subset.
  - apply login_effect in H as [? ?]. auto.
  - apply get_current_user_effect in H as [? ?]. auto.
  - apply logout_effect in H as (raw & _ & ->). split; [left; apply drop_sessions_account|].
    apply sessions_from_subset. by intros s [? _]%elem_of_drop_sessions.
  - apply change_password_effect in H as (? & ? & _). auto.
  - apply reset_password_effect in H as (? & id & _ & Hsub). split; [auto|].
    apply sessions_from_subset. intros s Hin. by apply Hsub.
  - injection H as Hc Hs Hb. split; [left; split; congruence|]. rewrite Hs.
    by apply sessions_from_subset.
Qed.

Lemma auth_step_wf now issued d d' : auth_step now issued d d' → local_wf now d → local_wf now d'.
Proof.
  intros [[Hsame | (Hb & Hb' & id & Ha & Hid)] Hfrom]%auth_step_from Hwf.
  { by eapply local_wf_from. }
  destruct Hwf as [Hs [Hnil | (id0 & _ & _ & Hb0)]]; [|congruence]. split.
  - intros s [Hin | [(s0 & Hin & ->) | (raw & id1 & _ & Hid1 & ->)]]%Hfrom;
      [destruct (Hs s Hin) as (_ & _ & Hx) | destruct (Hs s0 Hin) as (_ & _ & Hx) | rename Hid1 into Hx];
      rewrite Hnil in Hx; set_solver.
  - right. exists id. rewrite Ha, Hnil, Hb'. split_and!; [done|done|].
    rewrite existsb_app. simpl. by rewrite orb_true_r.
Qed.

Lemma auth_run_wf P t d t' d' : auth_run P t d t' d' → local_wf t d → t <= t' ∧ local_wf t' d'.
Proof.
  intros Hrun Hwf. induction Hrun as [|t1 d1 t2 issued d2 _ [Ht IH] Hle _ Hstep]; [done|].
  split; [lia|]. eapply auth_step_wf; [exact Hstep|]. by eapply local_wf_later.
Qed.

Lemma auth_reachable_wf t d : auth_reachable t d → local_wf t d.
Proof.
  intros (t0 & d0 & Hf & Hrun). eapply auth_run_wf; [exact Hrun|].
  injection Hf as Hc Hs Hb. split; [rewrite Hs; set_solver|]. left. unfold account_ids. by rewrite Hc.
Qed.

(** A token hash present after a run was there before or issued in it. *)
Lemma auth_run_tokens P t d t' d' s :
  auth_run P t d t' d' → s ∈ local_sessions d' →
  (∃ s0, s0 ∈ local_sessions d ∧ ls_token_hash s0 = ls_token_hash s)
  ∨ ∃ raw, P raw ∧ digest raw = ls_token_hash s.
Proof.
  intros Hrun. revert s. induction Hrun as [|t1 d1 t2 issued d2 _ IH _ HP Hstep]; intros s Hs.
  { left. by exists s. }
  apply auth_step_from in Hstep as [_ Hfrom].
  apply Hfrom in Hs as [Hin | [(s0 & Hin & ->) | (raw & id & Hi & _ & ->)]].
  - by apply IH.
  - apply IH in Hin. by destruct s0.
  - right. exists raw. split; [by apply HP|done].
Qed.
End Requests.

(** ** What an accepted cookie proves *)

Lemma resolve_session_ok env req now seen d u d' :
  resolve_session env req now seen d = (Ok u, d') →
  ∃ raw s c usr,
    rq_session req = Some raw ∧ check_transport env req (negb (safe_method (rq_method req))) = Ok tt
    ∧ s ∈ local_sessions seen ∧ ls_token_hash s = digest raw
    ∧ now < ls_expires_at s ∧ now < ls_last_seen_at s + IDLE_LIFETIME
    ∧ (safe_method (rq_method req) = false → ∃ token, rq_csrf req = Some token ∧ csrf_token env raw = Ok token)
    ∧ c ∈ local_credentials seen ∧ lc_user_id c = ls_user_id s ∧ u_github_id usr = ls_user_id s
    ∧ cu_github_id u = u_github_id usr ∧ cu_scope u = "full" ∧ cu_auth_method u = Some "local".
Proof.
  unfold resolve_session. cbv zeta.
  destruct (rbind _ _) as [[s usr]|e] eqn:E; [|done].
  apply rbind_ok in E as (_ & _ & E). apply rbind_ok in E as ([] & Htr & E).
  apply rbind_ok in E as ([] & Hraw & E).
  destruct (rq_session req) as [raw|] eqn:Er; [|done]. simpl in Hraw, E.
  destruct (first_row _ (local_sessions seen)) as [s'|] eqn:Es; [|done].
  apply first_row_Some in Es as [Hin Hh].
  apply rbind_ok in E as ([] & Htime & E). apply rbind_ok in E as ([] & Hcsrf & E).
  destruct (first_row (is_user _) _) as [usr'|] eqn:Eu; [|done].
  destruct (first_row (has_user_id _) _) as [c|] eqn:Ec; [|done]. injection E as -> ->.
  apply first_row_Some in Eu as [_ Hu]. apply first_row_Some in Ec as [Hc Hcu].
  destruct ((ls_expires_at s <=? now) || _) eqn:Et; [done|].
  unfold has_token, is_user, has_user_id in *. bool_simpl. intros Hans.
  exists raw, s, c, usr. split_and!; try done; try lia.
  { intros Hw. rewrite Hw in Hcsrf. destruct (csrf_shape _) eqn:Hshape; [|done]. simpl in Hcsrf.
    apply rbind_ok in Hcsrf as (token & Htok & Hg). apply guard_ok in Hg. bool_simpl.
    destruct (rq_csrf req) as [x|]; [|done]. simpl in Hg. subst. by exists token. }
  all: destruct (_ <=? now - minutes 1); [|by injection Hans as <- _].
  all: destruct (existsb _ _); [|done].
  all: destruct (first_row _ _) as [u2|] eqn:E2; [|done].
  all: apply first_row_Some in E2 as [_ E2]; bool_simpl; by injection Hans as <- _.
Qed.

Lemma bearer_user_not_local jwt secret ms a now d u d' :
  bearer_user jwt secret ms a now d = (Ok u, d') → cu_auth_method u = None.
Proof.
  unfold bearer_user. destruct (String.eqb secret ""); [done|]. destruct a as [a|]; [|done].
  destruct (startswith a _); [|done]. cbv zeta. destruct (startswith _ _API_KEY_PREFIX).
  - unfold _resolve_api_key. destruct (first_row _ _); [|done]. by intros [= <- _].
  - unfold _resolve_jwt. destruct (negb _); [done|]. destruct (jwt _); [|done].
    destruct (_ || _); [done|]. by intros [= <- _].
Qed.

Lemma get_current_user_local env jwt req a now seen d u d' :
  get_current_user env jwt req a now seen d = (Ok u, d') → cu_auth_method u = Some "local" →
  resolve_session env req now seen d = (Ok u, d').
Proof.
  unfold get_current_user. destruct (String.eqb (BACKEND_JWT_SECRET env) ""); [done|].
  destruct (_ && _); [done|]. intros H%bearer_user_not_local. by rewrite H.
Qed.

(** C36. A request accepted as a local account, at any time of any history,
    came over HTTPS with a cookie whose digest is a stored session of the one
    local account, created less than eight hours and last seen less than
    thirty minutes ago; if it can write, it came from an allowed origin and
    carried the cookie's CSRF token. *)
Theorem session_sound verify hash rehash dummy env jwt t now req a d u d' :
  auth_reachable verify hash rehash dummy env jwt t d → t <= now →
  get_current_user env jwt req a now d d = (Ok u, d') → cu_auth_method u = Some "local" →
  ∃ raw s, rq_session req = Some raw ∧ s ∈ local_sessions d ∧ ls_token_hash s = digest raw
    ∧ ls_created_at s <= now < ls_created_at s + hours 8
    ∧ ls_last_seen_at s <= now < ls_last_seen_at s + minutes 30
    ∧ account_ids d = [cu_github_id u] ∧ startswith (cu_github_id u) "local:" = true
    ∧ "local" ∈ methods env ∧ rq_scheme req = "https"
    ∧ (safe_method (rq_method req) = false →
         (∃ o, rq_origin req = Some o ∧ o ∈ allowed_origins env)
         ∧ ∃ token, rq_csrf req = Some token ∧ csrf_token env raw = Ok token).
Proof.
  intros Hreach Ht H Hloc. apply auth_reachable_wf in Hreach as [Hs Ha].
  apply get_current_user_local in H; [|done].
  apply resolve_session_ok in H as (raw & s & c & usr & Hraw & Htr & Hin & Hh & Hexp & Hidle & Hcsrf
    & Hc & Hcu & Hu & Hid & _ & _).
  destruct (Hs s Hin) as (Hlife & Hseen & Hmem). exists raw, s. rewrite Hlife in Hexp.
  unfold SESSION_LIFETIME, IDLE_LIFETIME in *.
  destruct Ha as [Hnil | (id & Hone & Hlocal & _)]; [rewrite Hnil in Hmem; set_solver|].
  assert (cu_github_id u = id) as Hidu.
  { rewrite Hid, Hu. rewrite Hone in Hmem. by apply list_elem_of_singleton in Hmem. }
  rewrite Hidu. unfold check_transport, require_local in Htr.
  apply rbind_ok in Htr as ([] & Hl & Htr). apply rbind_ok in Htr as ([] & Hhttps & Htr).
  rewrite guard_ok in Hl, Hhttps. bool_simpl.
  split_and!; try done; try lia. intros Hw. split; [|by apply Hcsrf]. rewrite Hw in Htr. simpl in Htr.
  rewrite guard_ok in Htr. destruct (rq_origin req) as [o|]; [|done]. bool_simpl. by exists o.
Qed.

(** A step that takes a session cookie [raw] of a user out of service. *)
Inductive revokes verify hash rehash dummy env now (raw : string) (d d' : db) : Prop :=
| by_logout req u r :
    rq_session req = Some raw → logout req u d = Ok (r, d') →
    revokes verify hash rehash dummy env now raw d d'
| by_change raw' salt salt' u old new cookie :
    change_password verify hash rehash dummy env raw' salt salt' u old new now d = (Ok cookie, d') →
    digest raw' ≠ digest raw →
    revokes verify hash rehash dummy env now raw d d'
| by_reset salt username password :
    reset_password hash env salt username password d = Ok d' →
    revokes verify hash rehash dummy env now raw d d'.

Lemma revokes_absent verify hash rehash dummy env t now raw d d' :
  local_wf t d → revokes verify hash rehash dummy env now raw d d' →
  ∀ s, s ∈ local_sessions d' → ls_token_hash s ≠ digest raw.
Proof.
  intros [Hs Ha] [req u r Hraw H | raw' salt salt' u old new cookie H Hne
    | salt username password H] s Hin Hh.
  - apply logout_effect in H as (raw0 & Hraw0 & ->). simplify_eq.
    apply elem_of_drop_sessions in Hin as [_ Hno]. unfold has_token in Hno. by bool_simpl.
  - apply change_password_effect in H as (_ & Hfrom & Hown).
    destruct (Hown eq_refl) as [Hu Hrest]. destruct (Hrest s Hin) as [Hno|]; [|congruence].
    assert (Hone : account_ids d = [cu_github_id u]).
    { destruct Ha as [Hnil | (id0 & Hone & _)]; [rewrite Hnil in Hu; set_solver|].
      rewrite Hone in *. by apply list_elem_of_singleton in Hu as ->. }
    apply Hfrom in Hin as [Hold | [(s0 & Hold & ->) | (raw1 & id & [= <-] & _ & ->)]]; [| |done].
    + apply Hs in Hold as (_ & _ & Hm). rewrite Hone in Hm. set_solver.
    + apply Hs in Hold as (_ & _ & Hm). destruct s0. rewrite Hone in Hm. simpl in *. set_solver.
  - apply reset_password_effect in H as (_ & id & Hid & Hsub).
    destruct (Hsub s Hin) as [Hold Hno]. apply Hs in Hold as (_ & _ & Hm).
    destruct Ha as [Hnil | (id0 & Hone & _)]; [rewrite Hnil in Hm; set_solver|].
    rewrite Hone in *. set_solver.
Qed.

(** ** The lockout *)

(** Is the stored hash of the account tried by a login at this instant? *)
Definition tried (username : string) (instant : time) (d : db) : bool :=
  match find_credential username d with Some c => negb (blocked instant c) | None => false end.

(** Logins to one account in sequence: what each answered, and how many had
    their password checked against the account's hash. *)
Fixpoint logins verify hash rehash dummy (username : string) (l : list (time * string)) (d : db)
    : list (result LocalCredential) * nat * db :=
  match l with
  | [] => ([], O, d)
  | (instant, password) :: rest =>
      let '(r, d1) := verify_login verify hash rehash dummy "" username password instant d in
      let '(rs, n, d2) := logins verify hash rehash dummy username rest d1 in
      (r :: rs, (if tried username instant d then S n else n), d2)
  end.

Lemma find_credential_put username c d :
  find_credential username d = Some c → NoDup (account_ids d) → ∀ c',
  lc_user_id c' = lc_user_id c → lc_username c' = lc_username c →
  find_credential username (put_credential c' d) = Some c' ∧ NoDup (account_ids (put_credential c' d)).
Proof.
  intros Hf Hnd c' Hid Hname. destruct (put_credential_account c' d) as [Hids _].
  split; [|unfold account_ids; by rewrite Hids]. clear Hids.
  unfold find_credential, account_ids, put_credential, update_rows in *.
  destruct (username_ok _); [|done]. destruct d as [us cs]; simpl in *. clear -Hf Hnd Hid Hname.
  induction cs as [|x cs IH]; [done|]. cbn [map] in *. apply NoDup_cons in Hnd as [Hx Hnd].
  unfold first_row in *. cbn [List.find] in *. destruct (has_username _ x) eqn:Ex.
  - injection Hf as ->. unfold has_username in Ex.
    assert (has_user_id (lc_user_id c') c = true) as -> by (unfold has_user_id; rewrite Hid; apply String.eqb_refl).
    unfold has_username at 1. by rewrite Hname, Ex.
  - assert (has_user_id (lc_user_id c') x = false) as ->.
    { unfold has_user_id. apply String.eqb_neq. intros Heq. destruct Hx. rewrite Heq, Hid.
      apply find_some in Hf as [Hf _]. apply list_elem_of_fmap. exists c.
      by rewrite list_elem_of_In. }
    rewrite Ex. by apply IH.
Qed.

(** Login refusals of an account whose last failure is inside the window that
    started at [t0], with [k] failures counted: [5 - k] tries are left. *)
Lemma logins_bounded verify hash rehash dummy username t0 l : ∀ d c rs n d',
  logins verify hash rehash dummy username l d = (rs, n, d') →
  Forall (λ r, is_ok r = false) rs →
  Forall (λ a, t0 <= a.1 < t0 + FAILURE_WINDOW) l →
  find_credential username d = Some c → NoDup (account_ids d) → 0 <= lc_failed_attempts c →
  (∃ t, lc_last_failure_at c = Some t ∧ t0 <= t)
  ∧ (5 <= lc_failed_attempts c → ∃ t, lc_locked_until c = Some t ∧ t0 + FAILURE_WINDOW <= t) →
  Z.of_nat n <= Z.max 0 (5 - lc_failed_attempts c).
Proof.
  induction l as [|[now pw] l IH]; intros d c rs n d' H Hfail Hwin Hf Hnd Hk [(t & Hlast & Ht) Hlock].
  { injection H as _ <- _. lia. }
  simpl in H. apply Forall_cons in Hwin as [Hnow Hwin]. simpl in Hnow.
  destruct (verify_login _ _ _ _ _ _ _ _ d) as [r d1] eqn:E.
  destruct (logins _ _ _ _ _ l d1) as [[rs1 n1] d2] eqn:E1. injection H as <- <- <-.
  apply Forall_cons in Hfail as [Hr Hfail]. unfold tried. rewrite Hf.
  unfold verify_login in E. rewrite Hf in E. destruct (blocked now c) eqn:Hb.
  { injection E as <- <-. simpl. eapply (IH d c rs1 n1 d2); eauto. }
  assert (lc_failed_attempts c < 5).
  { destruct (Z.lt_ge_cases (lc_failed_attempts c) 5) as [|H5]; [done|].
    destruct (Hlock H5) as (u & Hu & Hge). unfold blocked in Hb. rewrite Hu in Hb. bool_simpl. lia. }
  destruct (verify _ pw); [injection E as <- _; done|]. injection E as <- <-.
  assert (Hn : lc_failed_attempts (record_failure now c) = lc_failed_attempts c + 1).
  { unfold record_failure. rewrite Hlast, (proj2 (Z.leb_gt t (now - FAILURE_WINDOW))) by lia.
    by destruct (5 <=? _), c. }
  destruct (record_failure_spec now c) as (Hl & Hu & Hlk).
  destruct (find_credential_put username c d Hf Hnd (record_failure now c)) as [Hf1 Hnd1];
    [apply record_failure_id|done|].
  assert (Z.of_nat n1 <= Z.max 0 (5 - lc_failed_attempts (record_failure now c))).
  { eapply IH; try done; [lia|]. split; [exists now; split; [done|lia]|]. intros H5.
    eexists. split; [by apply Hlk|lia]. }
  simpl. lia.
Qed.
Lemma verify_login_refusal verify hash rehash dummy salt username pw now d r d' :
  verify_login verify hash rehash dummy salt username pw now d = (r, d') →
  is_ok r = false → r = sign_in_failed.
Proof.
  unfold verify_login. destruct (find_credential _ _) as [c|]; [|by intros [= <- _]].
  destruct (blocked now c); [by intros [= <- _]|].
  destruct (verify _ _); by intros [= <- _].
Qed.

(** The first try of a window counts one failure, whatever the count was. *)
Lemma logins_window verify hash rehash dummy username t0 l : ∀ d rs n d',
  logins verify hash rehash dummy username l d = (rs, n, d') →
  Forall (λ r, is_ok r = false) rs →
  Forall (λ a, t0 <= a.1 < t0 + FAILURE_WINDOW) l →
  NoDup (account_ids d) → (∀ c, c ∈ local_credentials d → 0 <= lc_failed_attempts c) →
  (n <= 5)%nat ∧ Forall (λ r, r = sign_in_failed) rs.
Proof.
  induction l as [|[now pw] l IH]; intros d rs n d' H Hfail Hwin Hnd Hpos.
  { injection H as <- <- _. split; [lia|done]. }
  simpl in H. apply Forall_cons in Hwin as [Hnow Hwin]. simpl in Hnow.
  destruct (verify_login _ _ _ _ _ _ _ _ d) as [r d1] eqn:E.
  destruct (logins _ _ _ _ _ l d1) as [[rs1 n1] d2] eqn:E1. injection H as <- <- <-.
  apply Forall_cons in Hfail as [Hr Hfail]. unfold tried.
  pose proof (verify_login_refusal _ _ _ _ _ _ _ _ _ _ _ E Hr) as ->. clear Hr.
  assert (Hposr : ∀ c, 0 <= lc_failed_attempts c → 1 <= lc_failed_attempts (record_failure now c)).
  { intros c Hc. unfold record_failure. destruct c; simpl in *. repeat case_match; simpl; lia. }
  unfold verify_login in E. destruct (find_credential username d) as [c|] eqn:Hf.
  2:{ injection E as <-. destruct (IH d _ _ _ E1) as [Hn Ha]; auto. }
  destruct (blocked now c) eqn:Hb.
  { injection E as <-. destruct (IH d _ _ _ E1) as [Hn Ha]; auto. }
  destruct (verify _ pw); [done|]. injection E as <-.
  assert (Hin : c ∈ local_credentials d).
  { unfold find_credential in Hf. destruct (username_ok _); [|done]. by apply first_row_Some in Hf as []. }
  destruct (find_credential_put username c d Hf Hnd (record_failure now c)) as [Hf1 Hnd1];
    [apply record_failure_id|apply record_failure_spec|].
  destruct (record_failure_spec now c) as (Hlast & Hname & Hlk). specialize (Hposr c (Hpos c Hin)).
  assert (Z.of_nat n1 <= Z.max 0 (5 - lc_failed_attempts (record_failure now c))).
  { eapply (logins_bounded _ _ _ _ _ t0 _ _ _ _ _ _ E1); try done; [lia|].
    split; [exists now; split; [done|lia]|]. intros H5. eexists. split; [by apply Hlk|lia]. }
  destruct (IH _ _ _ _ E1) as [_ Ha]; [done|done|done| |].
  { intros c' Hc'. unfold put_credential in Hc'. destruct d; simpl in Hc'.
    apply elem_of_update_rows in Hc' as (c0 & Hc0 & ->). case_match; [lia|by apply Hpos]. }
  simpl. split; [lia|by constructor].
Qed.


(** Signing out, changing the password and the operator's reset are final:
    in every later state, whatever requests came in between, a revoked cookie
    is refused unless that very token is issued again. *)
Theorem revoked_stays_revoked verify hash rehash dummy env jwt t t1 t2 now raw d d1 d2 req a u d3 :
  auth_reachable verify hash rehash dummy env jwt t d →
  revokes verify hash rehash dummy env t1 raw d d1 →
  auth_run verify hash rehash dummy env jwt (λ raw', digest raw' ≠ digest raw) t1 d1 t2 d2 →
  rq_session req = Some raw → cu_auth_method u = Some "local" →
  get_current_user env jwt req a now d2 d2 ≠ (Ok u, d3).
Proof.
  intros Hreach Hrev Hrun Hraw Hloc H. apply get_current_user_local in H; [|done].
  apply resolve_session_ok in H as (raw0 & s & c & usr & Hraw0 & _ & Hin & Hh & _). simplify_eq.
  apply auth_reachable_wf in Hreach.
  eapply auth_run_tokens in Hrun as [(s0 & Hs0 & Heq) | (raw1 & Hne & Heq)]; [| |exact Hin].
  - eapply revokes_absent in Hrev; [|done..]. congruence.
  - congruence.
Qed.

(** There is one local account: its bootstrap succeeds on no database
    that has one, in any history, and whatever asks for it. *)
Theorem bootstrap_once verify hash rehash dummy env jwt t d :
  auth_reachable verify hash rehash dummy env jwt t d →
  (length (local_credentials d) <= 1)%nat
  ∧ (local_credentials d ≠ [] → ∀ uuid salt o m username password now out,
       bootstrap hash env uuid salt o m username password now d ≠ Ok out).
Proof.
  intros [_ Ha]%auth_reachable_wf. rewrite <-(length_map lc_user_id). fold (account_ids d).
  destruct Ha as [Hnil | (id & Hone & _ & Hb)].
  - rewrite Hnil. split; [simpl; lia|]. unfold account_ids in Hnil.
    by destruct (local_credentials d).
  - rewrite Hone. split; [simpl; lia|]. intros _ uuid salt o m username password now [id' d'] H.
    apply bootstrap_effect in H as [H _]. congruence.
Qed.

(** ** An account, a session, and what happens to them *)

Definition demo_env : environ :=
  Environ ["local"] "0123456789abcdef0123456789abcdef" (Some "https://map.example").
Definition demo_verify (encoded password : string) : bool := String.eqb encoded password.
Definition demo_hash (salt password : string) : string := password.
Definition demo_rehash (encoded : string) : bool := false.
Definition demo_jwt (token : string) : option dict := None.
Definition demo_password := "correct horse battery".
Definition demo_request (method : string) : request :=
  Request method "https" (Some "https://map.example") None (Some "cookie-1").

Definition db_of {A} (m : result (A * db)) : db :=
  match m with Ok (_, d) => d | Raise _ => empty_db end.
Definition demo_account : db :=
  db_of (bootstrap demo_hash demo_env "u1" "" "o1" "m1" "Alice" demo_password 0 empty_db).
Definition demo_login : result string * db :=
  login demo_verify demo_hash demo_rehash "" demo_env "cookie-1" ""
    (Request "POST" "https" (Some "https://map.example") None None) "alice" demo_password 5 demo_account.
Definition demo_user : user_ctx := UserCtx "local:u1" "alice" "" "full" (Some "local").

Definition demo_reachable : time → db → Prop :=
  auth_reachable demo_verify demo_hash demo_rehash "" demo_env demo_jwt.

Lemma db_of_ok {A} (m : result (A * db)) : is_ok m = true → ∃ a, m = Ok (a, db_of m).
Proof. destruct m as [[a d]|]; [by exists a|done]. Qed.

Lemma demo_account_reachable : demo_reachable 0 demo_account.
Proof.
  exists 0, empty_db. split; [reflexivity|].
  destruct (db_of_ok (bootstrap demo_hash demo_env "u1" "" "o1" "m1" "Alice" demo_password 0 empty_db))
    as [id Hid]; [vm_compute; reflexivity|].
  eapply run_step; [apply run_refl|lia| |eapply step_bootstrap, Hid]. discriminate.
Qed.

Lemma demo_login_reachable : demo_reachable 5 demo_login.2.
Proof.
  destruct demo_account_reachable as (t0 & d0 & Hf & Hrun). exists t0, d0. split; [exact Hf|].
  eapply run_step; [exact Hrun|lia|intros raw _; exact I|].
  eapply step_login. apply surjective_pairing.
Qed.

(** Six wrong passwords and the right one in eight minutes: the last two are
    not looked at. *)
Definition demo_guesses : list (time * string) :=
  map (λ i, (minutes (Z.of_nat i), "wrong")) (seq 1 6) ++ [(minutes 8, demo_password)].

Lemma demo_guessed : ∃ rs n d', logins demo_verify demo_hash demo_rehash "" "alice" demo_guesses demo_account = (rs, n, d')
  ∧ map is_ok rs = repeat false 7.
Proof.
  assert (Hrs : map is_ok (logins demo_verify demo_hash demo_rehash "" "alice" demo_guesses demo_account).1.1
                = repeat false 7) by (vm_compute; reflexivity).
  revert Hrs. generalize (logins demo_verify demo_hash demo_rehash "" "alice" demo_guesses demo_account).
  intros [[rs n] d'] Hrs. by exists rs, n, d'.
Qed.

Lemma all_refused {A} (rs : list (result A)) n : map is_ok rs = repeat false n → Forall (λ r, is_ok r = false) rs.
Proof.
  revert n. induction rs as [|r rs IH]; intros [|n] H; simplify_eq/=; constructor; [done|by eapply IH].
Qed.

Lemma demo_unique : NoDup (account_ids demo_account).
Proof. apply (bool_decide_unpack _). vm_compute. exact I. Qed.

Lemma demo_fresh : ∀ c, c ∈ local_credentials demo_account → 0 <= lc_failed_attempts c.
Proof. intros c Hc. vm_compute in Hc. apply list_elem_of_singleton in Hc as ->. vm_compute. discriminate. Qed.


Lemma session_sound_witness :
  ∃ s, s ∈ local_sessions demo_login.2 ∧ ls_token_hash s = digest "cookie-1"
    ∧ account_ids demo_login.2 = ["local:u1"].
Proof.
  destruct (get_current_user demo_env demo_jwt (demo_request "GET") None (minutes 10)
              demo_login.2 demo_login.2) as [r d'] eqn:E.
  assert (Hr : r = Ok demo_user).
  { transitivity (get_current_user demo_env demo_jwt (demo_request "GET") None (minutes 10)
                    demo_login.2 demo_login.2).1; [by rewrite E|vm_compute; reflexivity]. }
  subst r.
  destruct (session_sound demo_verify demo_hash demo_rehash "" demo_env demo_jwt 5 (minutes 10)
    (demo_request "GET") None demo_login.2 demo_user d' demo_login_reachable) as
    (raw & s & Hraw & Hin & Hh & _ & _ & Hone & _); [discriminate|exact E|reflexivity|].
  injection Hraw as <-. exists s. split; [exact Hin|]. split; [exact Hh|exact Hone].
Defined.

Lemma revoked_stays_revoked_witness :
  local_sessions demo_login.2 ≠ [] ∧
  ∀ u d3, cu_auth_method u = Some "local" →
    let d1 := db_of (logout (demo_request "POST") demo_user demo_login.2) in
    get_current_user demo_env demo_jwt (demo_request "GET") None (minutes 10) d1 d1 ≠ (Ok u, d3).
Proof.
  split; [vm_compute; discriminate|]. intros u d3 Hu d1.
  destruct (db_of_ok (logout (demo_request "POST") demo_user demo_login.2)) as [r Hr];
    [vm_compute; reflexivity|].
  apply (revoked_stays_revoked demo_verify demo_hash demo_rehash "" demo_env demo_jwt 5 6 6 (minutes 10)
    "cookie-1" demo_login.2 d1 d1); [exact demo_login_reachable| |apply run_refl|reflexivity|exact Hu].
  exact (by_logout _ _ _ _ _ _ _ _ _ (demo_request "POST") demo_user r eq_refl Hr).
Defined.

Lemma bootstrap_once_witness :
  length (local_credentials demo_account) = 1%nat
  ∧ ∀ out, bootstrap demo_hash demo_env "u2" "" "o2" "m2" "mallory" demo_password 9 demo_account ≠ Ok out.
Proof.
  split; [vm_compute; reflexivity|]. intros out.
  apply (bootstrap_once demo_verify demo_hash demo_rehash "" demo_env demo_jwt 0 demo_account
    demo_account_reachable). vm_compute. discriminate.
Defined.
