(* ===== verification/Assessments.v ===== *)
(** * [assessments.py], [assessment_evidence.py]: what a Gate run shows

    How the results a runner reports for an authorization test case are read:
    whether the identities' preflight requests worked, and for each identity
    whether its access was established as allowed or denied.  Case
    specifications and result rows are decoded JSON; the exceptions that
    malformed ones raise are kept. *)
From S2P Require Import Prelude PyStr Json Digest.
From Stdlib Require Import Ascii.

(** ** Python on untyped values *)

(** A dictionary key or set element must be hashable. *)
Definition hashed (j : json) : result json :=
  match j with JList _ | JObj _ => Raise TypeError | _ => Ok j end.

(** [code in v] for an integer. *)
Definition int_in (code : Z) (v : json) : result bool :=
  match v with
  | JList l => Ok (existsb (py_eq (JInt code)) l)
  | JObj _ => Ok false
  | _ => Raise TypeError
  end.

(** [type(v) is int and lo <= v <= hi] *)
Definition int_between (lo hi : Z) (v : json) : bool :=
  match v with JInt z => (lo <=? z) && (z <=? hi) | _ => false end.

Definition int_value (v : json) : Z := match v with JInt z => z | _ => 0 end.

(** [row.get(k, [])] *)
Definition dget_list (k : string) (row : dict) : json := default (JList []) (lookup_key k row).

(** [v if isinstance(v, dict) else {}] *)
Definition as_dict (v : json) : dict := match v with JObj d => d | _ => [] end.

(** [(v or {})], on which [.get] is called next. *)
Definition or_dict (v : json) : result dict :=
  if truthy v then match v with JObj d => Ok d | _ => Raise AttributeError end else Ok [].

(** [[x for x in l if f(x)]] *)
Fixpoint filter_result {A} (f : A → result bool) (l : list A) : result (list A) :=
  match l with
  | [] => Ok []
  | x :: l' => let? b := f x in let? ys := filter_result f l' in Ok (if b then x :: ys else ys)
  end.

Definition dict_of (j : json) : result dict :=
  match j with JObj d => Ok d | _ => Raise AttributeError end.

(** The key a result row is grouped under. *)
Definition row_identity (row : dict) : string := str_or_empty (dget "identity_id" row).

(** [reported[identity]], [reported.get(identity, [])] *)
Definition reported (rows : list dict) (identity : json) : list dict :=
  List.filter (λ row, py_eq (JStr (row_identity row)) identity) rows.

(** ** Identity preflight *)

(** [declared[k] = v]: keys are compared by [==] and the first one stays. *)
Fixpoint jset (k v : json) (d : list (json * json)) : list (json * json) :=
  match d with
  | [] => [(k, v)]
  | (k', v') :: d' => if py_eq k k' then (k', v) :: d' else (k', v') :: jset k v d'
  end.

Record preflight_row := PreflightRow {
  pf_identity_id : json;
  pf_status : string;
  pf_reason : string;
  pf_status_code : json;
}.

Record preflight_session := PreflightSession {
  ps_status : string;
  ps_identities : list preflight_row;
  ps_unexpected : Z;
}.

Definition declare_preflight (declared : list (json * json)) (identity : dict)
    : result (list (json * json)) :=
  match dget "preflight" identity with
  | JNull => Ok declared
  | p => let? k := json_index "id" (JObj identity) in
         let? k := hashed k in
         Ok (jset k p declared)
  end.

Fixpoint declare_all (declared : list (json * json)) (identities : list json)
    : result (list (json * json)) :=
  match identities with
  | [] => Ok declared
  | i :: rest =>
      let? identity := dict_of i in
      let? declared := declare_preflight declared identity in
      declare_all declared rest
  end.

Definition oracle_of (spec : dict) : dict := as_dict (dget "write_verification" spec).
Definition reader_of (spec : dict) : dict := as_dict (dget "identity" (oracle_of spec)).

(** The configured preflights: the identities' and the verifying reader's. *)
Definition declared_preflights (spec : dict) : result (list (json * json)) :=
  let? identities := py_iter (dget_list "identities" spec) in
  let? declared := declare_all [] identities in
  declare_preflight declared (reader_of spec).

Definition PREFLIGHT_FAILURES :=
  ["credential_rejected"; "identity_mismatch"; "unexpected_status"; "execution_error"].

(** One reported row against the configured request. *)
Definition judge_preflight (config : json) (row : dict) : result (string * string) :=
  let? passed :=
    (if json_eqb (dget "status" row) (JStr "passed")
        && json_eqb (dget "reason" row) (JStr "identity_verified")
     then match dget "status_code" row with
          | JInt code => let? want := json_index "expected_status" config in Ok (py_eq (JInt code) want)
          | _ => Ok false
          end
     else Ok false) in
  if passed : bool then Ok ("passed", "identity_verified")
  else if json_eqb (dget "status" row) (JStr "failed") then
    let? known := in_str_set (dget "reason" row) PREFLIGHT_FAILURES in
    Ok (if known : bool then ("failed", py_str (dget "reason" row))
        else ("inconclusive", "preflight_inconsistent"))
  else Ok ("inconclusive", "preflight_inconsistent").

Definition preflight_of (rows : list dict) (verified : bool) (kv : json * json) : result preflight_row :=
  let '(identity, config) := kv in
  let items := reported rows identity in
  let? '(status, reason, code) :=
    match items with
    | [] => Ok ("missing", "preflight_missing", JNull)
    | [row] => let? '(status, reason) := judge_preflight config row in
               Ok (status, reason, dget "status_code" row)
    | _ => Ok ("inconclusive", "duplicate_preflight", JNull)
    end in
  Ok (if verified then PreflightRow identity status reason code
      else PreflightRow identity "inconclusive" "case_snapshot_unverified" code).

Definition has_status (s : string) (p : preflight_row) : bool := String.eqb (pf_status p) s.

Definition preflight_verdict (declared : list (json * json)) (identities : list preflight_row)
    (unexpected : Z) : string :=
  if negb (unexpected =? 0) then "inconclusive"
  else match declared with
       | [] => "not_configured"
       | _ => if forallb (has_status "passed") identities then "passed"
              else if existsb (has_status "failed") identities then "failed" else "inconclusive"
       end.

Definition assess_preflight (spec : dict) (rows : list dict) (verified : bool)
    : result preflight_session :=
  let? declared := declared_preflights spec in
  let? identities := map_result (preflight_of rows verified) declared in
  let unexpected := Z.of_nat (length (List.filter
    (λ row, negb (existsb (py_eq (JStr (row_identity row))) (map fst declared))) rows)) in
  Ok (PreflightSession (preflight_verdict declared identities unexpected) identities unexpected).

(** ** Semantic rows *)

Definition REASONS := [
  "status_only"; "ambiguous_http_outcome"; "execution_error"; "no_expectation"; "explicit_skip";
  "assertion_matched"; "no_assertion_matched"; "conflicting_assertions";
  "invalid_or_unsupported_json"; "credential_rejected"; "state_changed"; "state_unchanged";
  "verifier_read_failed"; "verifier_denied"; "verifier_value_unavailable";
  "verifier_baseline_missing"; "state_changing_concurrently"; "target_value_already_present";
  "state_changed_unexpectedly"; "verifier_unexpected_status"; "write_execution_error";
  "no_positive_control"; "positive_control_failed"; "write_completion_unconfirmed";
  "write_environment_unverified"; "verifier_reset_failed"; "reset_baseline_mismatch";
  "execution_cancelled"; "identity_preflight_failed"].
Definition CREDENTIALS := [
  "anonymous_identity"; "not_checked"; "preflight_passed"; "preflight_failed";
  "preflight_passed_resource_401"; "resource_401_unverified"].
Definition WRITES := [
  "not_configured"; "not_applied"; "inconclusive"; "verified_effect"; "verified_no_effect"].

Definition enum_value (value : json) (allowed : list string) (fallback : string) : string :=
  match value with JStr s => if bool_decide (s ∈ allowed) then s else fallback | _ => fallback end.

Definition safe_identity (value : json) : string :=
  match value with
  | JStr s => if (0 <? len s) && (len s <=? 200) then s else ""
  | _ => ""
  end.

Definition status_constraint (rule : dict) (status : Z) : bool :=
  match dget_list "status_codes" rule with
  | JList codes =>
      forallb (int_between 100 599) codes
      && (bool_decide (codes = []) || existsb (λ c, int_value c =? status) codes)
  | _ => false
  end.

Record verification := Verification {
  v_strategy : string;
  v_environment : string;
  v_reader_identity_id : string;
  v_reader_credential_status : string;
  v_before_statuses : list Z;
  v_after_status : Z;
  v_reset_status : Z;
}.

Record semantic_row := SemanticRow {
  sr_identity_id : string;
  sr_expected_access : string;
  sr_decision : string;
  sr_source : string;
  sr_reason : string;
  sr_credential_status : string;
  sr_write_verification : string;
  sr_matched_assertions : list Z;
  sr_execution_index : option Z;
  sr_verification : option verification;
}.

(** A list of at most [n] integers within bounds, else the empty list. *)
Definition bounded_ints (n : nat) (lo hi : Z) (v : json) : list Z :=
  match v with
  | JList l => if (length l <=? n)%nat && forallb (int_between lo hi) l then map int_value l else []
  | _ => []
  end.

Definition status_or_zero (v : json) : Z := if int_between 0 599 v then int_value v else 0.

Definition safe_verification (v : dict) : verification := {|
  v_strategy := enum_value (dget "strategy" v) ["changed"; "created"; "deleted"; "legacy_change"] "unknown";
  v_environment := enum_value (dget "environment" v) ["unknown"; "synchronous_isolated"; "legacy"] "unknown";
  v_reader_identity_id := safe_identity (dget "reader_identity_id" v);
  v_reader_credential_status := enum_value (dget "reader_credential_status" v) CREDENTIALS "not_recorded";
  v_before_statuses := bounded_ints 2 0 599 (dget "before_statuses" v);
  v_after_status := status_or_zero (dget "after_status" v);
  v_reset_status := status_or_zero (dget "reset_status" v);
|}.

Definition safe_semantic_row (row : dict) : semantic_row := {|
  sr_identity_id := safe_identity (dget "identity_id" row);
  sr_expected_access := enum_value (dget "expected_access" row) ["allow"; "deny"; "skip"] "unknown";
  sr_decision := enum_value (dget "decision" row) ["allowed"; "denied"; "inconclusive"; "skipped"] "inconclusive";
  sr_source := enum_value (dget "source" row)
    ["none"; "http_status"; "response_assertion"; "write_verification"] "none";
  sr_reason := enum_value (dget "reason" row) REASONS "unrecognized_assessment_reason";
  sr_credential_status := enum_value (dget "credential_status" row) CREDENTIALS "not_recorded";
  sr_write_verification := enum_value (dget "write_verification" row) WRITES "not_recorded";
  sr_matched_assertions := bounded_ints 32 0 31 (dget_list "matched_assertions" row);
  sr_execution_index := if int_between 0 99 (dget "execution_index" row)
                        then Some (int_value (dget "execution_index" row)) else None;
  sr_verification := match dget "verification" row with
                     | JObj v => Some (safe_verification v) | _ => None end;
|}.

(** ** Identities of an assessment *)

(** One entry of [identities]; the last columns are set by the semantic row. *)
Record item := Item {
  it_identity_id : json;
  it_expected_decision : json;
  it_observed_outcome : string;
  it_state : string;
  it_reason : string;
  it_semantic : option semantic_row;
  it_verification : option verification;
  it_credential_status : string;
}.

(** [item.update(state=..., reason=...)] *)
Definition it_update (state reason : string) (i : item) : item :=
  Item (it_identity_id i) (it_expected_decision i) (it_observed_outcome i) state reason
    (it_semantic i) (it_verification i) (it_credential_status i).
Definition in_state (s : string) (i : item) : bool := String.eqb (it_state i) s.

(** The decisions declared for an identity: [expected[id]]. *)
Fixpoint expected_map (l : list json) : result (list (json * json)) :=
  match l with
  | [] => Ok []
  | e :: rest =>
      let? k := json_index "identity_id" e in
      let? k := hashed k in
      let? decision := json_index "decision" e in
      let? m := expected_map rest in
      Ok ((k, decision) :: m)
  end.
Definition decision_of (expected : list (json * json)) (identity : json) : json :=
  match List.filter (λ kd, py_eq kd.1 identity) expected with
  | [kd] => kd.2
  | _ => JStr "unknown"
  end.

(** An execution reports an error. *)
Definition errored (row : dict) : bool := truthy (dget "error" row) || truthy (dget "error_kind" row).

Definition success (code : Z) : bool := (200 <=? code) && (code <? 300).

(** [deny]: the status code stands for a denial under the case's rules. *)
Definition deny_code (spec : dict) (code : Z) : result bool :=
  if (code =? 401) || (code =? 403) then Ok true
  else let? declared := int_in code (dget_list "deny_status" spec) in
       Ok (declared || (success code && truthy (dget "deny_when" spec))).

(** The state and reason a single execution gives. *)
Definition judge_execution (spec : dict) (decision : json) (outcome : string) (row : dict)
    : result (string * string) :=
  let code := int_value (dget "status_code" row) in
  let valid_code := int_between 100 599 (dget "status_code" row) in
  let allow := valid_code && success code && String.eqb outcome "allow" in
  let? deny := (if valid_code && String.eqb outcome "deny" then deny_code spec code else Ok false) in
  if errored row || negb (allow || deny)
  then Ok ("inconclusive", if errored row then "execution_error" else "ambiguous_response")
  else if json_eqb decision (JStr "allow") && negb allow
  then Ok ("inconclusive", "legitimate_baseline_denied")
  else Ok ("evaluated", "reported_allow_or_deny").

Definition outcome_of (rows : list dict) : string :=
  match rows with
  | [row] => if truthy (dget "observed_outcome" row) then py_str (dget "observed_outcome" row) else "unknown"
  | _ => "unknown"
  end.

Definition assess_identity (spec : dict) (expected : list (json * json)) (executions : list dict)
    (identity : json) : result item :=
  let? identity_id := json_index "id" identity in
  let? identity_id := hashed identity_id in
  let decision := decision_of expected identity_id in
  let rows := reported executions identity_id in
  let outcome := outcome_of rows in
  let? skipped := in_str_set decision ["skip"; "unknown"] in
  let? '(state, reason) :=
    if skipped : bool then Ok ("skipped", "no_reviewed_expectation")
    else match rows with
         | [] => Ok ("missing", "execution_missing")
         | [row] => judge_execution spec decision outcome row
         | _ => Ok ("inconclusive", "duplicate_execution")
         end in
  Ok (Item identity_id decision outcome state reason None None "").

(** ** [apply_semantics] *)

(** A matched response assertion of the declared expectation. *)
Definition assertion_holds (rules : list json) (decision : string) (status : Z) (i : Z) : bool :=
  match rules !! Z.to_nat i with
  | Some (JObj rule) =>
      json_eqb (dget "decision" rule) (JStr decision) && status_constraint rule status
  | _ => false
  end.

Definition assertions_valid (configured : dict) (row : semantic_row) (decision : string) (status : Z) : bool :=
  match (if truthy (dget "response_assertions" configured)
         then dget "response_assertions" configured else JList []) with
  | JList rules =>
      negb (bool_decide (sr_matched_assertions row = []))
      && String.eqb (sr_reason row) "assertion_matched"
      && forallb (assertion_holds rules decision status) (sr_matched_assertions row)
  | _ => false
  end.

(** [oracle.get(k) or default] *)
Definition get_or (k : string) (fallback : string) (d : dict) : json :=
  if truthy (dget k d) then dget k d else JStr fallback.

(** The execution behind a denial was itself well-formed. *)
Definition clean_status (actual : dict) : bool :=
  negb (errored actual) && int_between 100 599 (dget "status_code" actual).

(** The verification reads before and after a write agree with the oracle.
    Without a verification there are no [before_statuses], so it is invalid. *)
Definition write_valid (spec : dict) (row : semantic_row) (decision : string) (actual : dict) : bool :=
  let oracle := oracle_of spec in
  match sr_verification row with
  | None => false
  | Some evidence =>
      let before := v_before_statuses evidence in
      let after := v_after_status evidence in
      let reset := v_reset_status evidence in
      negb (bool_decide (oracle = []))
      && match dget_list "after_status" oracle with
         | JList after_codes =>
             forallb (int_between 400 499) after_codes
             && (success after || (after =? 404) || existsb (λ c, int_value c =? after) after_codes)
         | _ => false
         end
      && py_eq (JStr (v_reader_identity_id evidence)) (dget "id" (reader_of spec))
      && py_eq (JStr (v_strategy evidence)) (get_or "strategy" "legacy_change" oracle)
      && py_eq (JStr (v_environment evidence)) (get_or "environment" "legacy" oracle)
      && (length before =? 2)%nat && (0 <? after)
      && String.eqb (sr_reason row) (if String.eqb decision "allow" then "state_changed" else "state_unchanged")
      && negb (String.eqb (v_environment evidence) "unknown")
      && forallb (λ s, if json_eqb (dget "strategy" oracle) (JStr "created") then s =? 404 else success s) before
      && (negb (truthy (dget "reset" oracle)) || (success reset && negb (reset =? 202)))
      && (negb (String.eqb decision "deny")
          || (clean_status actual && negb (int_value (dget "status_code" actual) =? 202)))
  end.

Definition semantic_valid (spec configured : dict) (protected : bool) (it : item) (row : semantic_row)
    (actual : dict) (decision : string) : bool :=
  if String.eqb (sr_source row) "response_assertion" && clean_status actual
  then assertions_valid configured row decision (int_value (dget "status_code" actual))
  else if String.eqb (sr_source row) "write_verification" then write_valid spec row decision actual
  else if String.eqb (sr_source row) "http_status" && negb protected
  then in_state "evaluated" it && String.eqb (it_observed_outcome it) decision
  else false.

(** The row's conclusion on an identity that is neither skipped nor unverified. *)
Definition conclude (spec configured : dict) (protected : bool) (executions : list dict) (it : item)
    (row : semantic_row) : item :=
  if negb (String.eqb (sr_decision row) "allowed" || String.eqb (sr_decision row) "denied")
  then it_update "inconclusive" (sr_reason row) it
  else
    let of_identity e := py_eq (dget "identity_id" e) (it_identity_id it) in
    match List.filter of_identity executions with
    | [actual] =>
        let index_ok := match sr_execution_index row with
                        | None => true
                        | Some i => match executions !! Z.to_nat i with
                                    | Some e => of_identity e | None => false end
                        end in
        let decision := if String.eqb (sr_decision row) "allowed" then "allow" else "deny" in
        if negb index_ok then it_update "inconclusive" "semantic_assessment_inconsistent" it
        else if semantic_valid spec configured protected it row actual decision then
          if json_eqb (it_expected_decision it) (JStr "allow") && negb (String.eqb decision "allow")
          then it_update "inconclusive" "legitimate_baseline_denied" it
          else it_update "evaluated" ("reported_" +:+ sr_source row) it
        else it_update "inconclusive" "semantic_assessment_inconsistent" it
    | _ => it_update "inconclusive" "semantic_assessment_inconsistent" it
    end.

(** [expectations[0] if len(expectations) == 1 else {}] *)
Definition configured_for (spec : dict) (identity : json) : result dict :=
  let? l := py_iter (dget_list "expected_access" spec) in
  let? expectations := filter_result
    (λ r, let? d := dict_of r in Ok (py_eq (dget "identity_id" d) identity)) l in
  match expectations with [r] => dict_of r | _ => Ok [] end.

Definition apply_one (spec : dict) (executions : list dict) (semantic : list semantic_row)
    (verified : bool) (it : item) : result item :=
  let rows := List.filter (λ r, py_eq (JStr (sr_identity_id r)) (it_identity_id it)) semantic in
  let? configured := configured_for spec (it_identity_id it) in
  let protected := truthy (dget "response_assertions" configured)
                   || truthy (dget "write_verification" spec) in
  match rows with
  | [] => Ok (if protected && negb (in_state "skipped" it)
              then it_update "inconclusive" "semantic_assessment_missing" it else it)
  | [row] =>
      if negb (json_eqb (JStr (sr_expected_access row)) (it_expected_decision it))
      then Ok (it_update "inconclusive" "semantic_assessment_inconsistent" it)
      else
        let attached := match sr_verification row with
          | Some v => if py_eq (JStr (v_reader_identity_id v)) (dget "id" (reader_of spec))
                      then Some v else None
          | None => None
          end in
        let it := Item (it_identity_id it) (it_expected_decision it) (it_observed_outcome it)
          (it_state it) (it_reason it) (Some row) attached (sr_credential_status row) in
        Ok (if in_state "skipped" it then it
            else if negb verified then it_update "inconclusive" "case_snapshot_unverified" it
            else conclude spec configured protected executions it row)
  | _ => Ok (it_update "inconclusive" "semantic_assessment_inconsistent" it)
  end.

Definition apply_semantics (spec : dict) (identities : list item) (executions : list dict)
    (semantic : list semantic_row) (verified : bool) : result (list item) :=
  map_result (apply_one spec executions semantic verified) identities.

(** ** [assess] *)

(** Does a credential description send anything? *)
Definition sends_credentials (credential : dict) : result bool :=
  let? typed := in_str_set (dget "type" credential) ["bearer"; "api_key_header"] in
  Ok (typed || (json_eqb (dget "type" credential) (JStr "static_header")
                && truthy (dget "header" credential))).

Definition find_preflight (session : preflight_session) (identity : json) : option preflight_row :=
  List.find (λ p, py_eq (pf_identity_id p) identity) (ps_identities session).

(** [next((i for i in identities if i["id"] == id), {})] *)
Fixpoint declared_identity (identity : json) (l : list json) : result dict :=
  match l with
  | [] => Ok []
  | i :: rest =>
      let? k := json_index "id" i in
      if py_eq k identity then dict_of i else declared_identity identity rest
  end.

Definition single_401 (rows : list dict) : bool :=
  match rows with [row] => py_eq (dget "status_code" row) (JInt 401) | _ => false end.

Definition checked_status (checked : option preflight_row) (fallback : string) : string :=
  match checked with
  | Some p => if has_status "passed" p then "preflight_passed" else "preflight_failed"
  | None => fallback
  end.

(** The reader's column of an attached verification. *)
Definition with_reader_status (spec : dict) (session : preflight_session) (case_verified : bool)
    (v : verification) : result verification :=
  let? oracle := or_dict (dget "write_verification" spec) in
  let? reader := or_dict (dget "identity" oracle) in
  let? credential := or_dict (dget "credential" reader) in
  let fallback := if json_eqb (dget "type" credential) (JStr "static_header")
                     && negb (truthy (dget "header" credential))
                  then "anonymous_identity" else "not_checked" in
  let status := checked_status (find_preflight session (dget "id" reader)) fallback in
  Ok (Verification (v_strategy v) (v_environment v) (v_reader_identity_id v)
        (if case_verified then status else "not_recorded")
        (v_before_statuses v) (v_after_status v) (v_reset_status v)).

Definition credential_step (spec : dict) (executions : list dict) (session : preflight_session)
    (case_verified : bool) (it : item) : result item :=
  let? identities := py_iter (dget_list "identities" spec) in
  let? declared := declared_identity (it_identity_id it) identities in
  let? credential := or_dict (dget "credential" declared) in
  let rows := reported executions (it_identity_id it) in
  let? sends := sends_credentials credential in
  let status := checked_status (find_preflight session (it_identity_id it))
                  (if sends then "not_checked" else "anonymous_identity") in
  let status := if sends && single_401 rows
                then (if String.eqb status "preflight_passed" then "preflight_passed_resource_401"
                      else "resource_401_unverified")
                else status in
  let? v := match it_verification it with
            | Some v => let? v := with_reader_status spec session case_verified v in Ok (Some v)
            | None => Ok None
            end in
  let it := Item (it_identity_id it) (it_expected_decision it) (it_observed_outcome it) (it_state it)
    (it_reason it) (it_semantic it) v (if case_verified then status else "not_recorded") in
  let denied_by_reader := match it_semantic it with
                          | Some row => String.eqb (sr_decision row) "allowed" | None => false end in
  Ok (if json_eqb (it_expected_decision it) (JStr "deny") && single_401 rows && sends
         && negb (truthy (dget "unauthorized_is_denial" spec)) && negb denied_by_reader
      then it_update "inconclusive" "credential_rejected" it else it).

(** [for item in identities: if item["state"] == s: item.update(...)] *)
Definition demote_if (p : item → bool) (reason : string) (l : list item) : list item :=
  map (λ it, if p it then it_update "inconclusive" reason it else it) l.

Record assessment := Assessment {
  as_status : string;
  as_evaluated : Z;
  as_inconclusive : Z;
  as_missing : Z;
  as_skipped : Z;
  as_unexpected : Z;
  as_baseline_valid : bool;
  as_candidate_findings : Z;
  as_identities : list item;
  as_reasons : list string;
  as_case_hash : option string;
  as_case_snapshot_verified : bool;
  as_preflight : preflight_session;
}.

Definition count_state (s : string) (l : list item) : Z :=
  Z.of_nat (length (List.filter (in_state s) l)).

(** Executions of identities the case does not declare. *)
Definition unexpected_executions (identities : list item) (executions : list dict) : Z :=
  Z.of_nat (length (List.filter
    (λ row, negb (existsb (py_eq (JStr (row_identity row))) (map it_identity_id identities))) executions)).

Definition baseline_holds (it : item) : bool :=
  json_eqb (it_expected_decision it) (JStr "allow") && in_state "evaluated" it.

(** The demotions between the rows' conclusions and the verdict. *)
Definition settle (session : preflight_session) (case_verified : bool) (l : list item) : list item :=
  let l := if case_verified then l
           else demote_if (in_state "evaluated") "case_snapshot_unverified" l in
  let l := if String.eqb (ps_status session) "passed" || String.eqb (ps_status session) "not_configured"
           then l
           else demote_if (λ it, negb (in_state "skipped" it)) "identity_preflight_not_established" l in
  if case_verified && existsb baseline_holds l then l
  else demote_if (in_state "evaluated") "legitimate_baseline_missing" l.

(** The identities before [settle], in the order of the case. *)
Definition assessed_items (spec : dict) (executions : list dict) (session : preflight_session)
    (case_verified : bool) (semantic : list dict) : result (list item) :=
  let? access := py_iter (dget_list "expected_access" spec) in
  let? expected := expected_map access in
  let? identities := py_iter (dget_list "identities" spec) in
  let? items := map_result (assess_identity spec expected executions) identities in
  let? items := apply_semantics spec items executions (map safe_semantic_row semantic) case_verified in
  map_result (credential_step spec executions session case_verified) items.

Definition verdict (items : list item) (unexpected : Z) : string :=
  let evaluated := count_state "evaluated" items in
  if negb (bool_decide (items = [])) && (evaluated =? Z.of_nat (length items)) && (unexpected =? 0)
  then "conclusive"
  else if negb (evaluated =? 0) then "partial" else "inconclusive".

Definition verdict_reasons (spec : dict) (case_verified baseline : bool) (unexpected : Z)
    (items : list item) : list string :=
  sorted_strings
    (map it_reason (List.filter (λ it, negb (in_state "evaluated" it)) items)
     ++ (if baseline then [] else ["legitimate_baseline_missing"])
     ++ (if unexpected =? 0 then [] else ["unexpected_identity"])
     ++ (if bool_decide (spec = []) then ["case_snapshot_missing"] else [])
     ++ (if case_verified then [] else ["case_snapshot_unverified"])).

Definition assess (spec : dict) (executions : list dict) (candidate_count : Z) (case_verified : bool)
    (preflight semantic : list dict) : result assessment :=
  let? session := assess_preflight spec preflight case_verified in
  let? items := assessed_items spec executions session case_verified semantic in
  let settled := settle session case_verified items in
  let baseline := case_verified && existsb baseline_holds settled in
  let unexpected := unexpected_executions settled executions in
  Ok (Assessment (verdict settled unexpected)
        (count_state "evaluated" settled) (count_state "inconclusive" settled)
        (count_state "missing" settled) (count_state "skipped" settled)
        unexpected baseline candidate_count settled
        (verdict_reasons spec case_verified baseline unexpected settled)
        (if bool_decide (spec = []) then None else Some (case_hash (JObj spec)))
        (negb (bool_decide (spec = [])) && case_verified) session).

(** ** Errors and lists *)

Lemma filter_length_all {A} (p : A → bool) l :
  length (List.filter p l) = length l → ∀ x, x ∈ l → p x = true.
Proof.
  induction l as [|y l IH]; simpl; [set_solver|]. intros H x Hx.
  pose proof (filter_length_le p l). destruct (p y) eqn:E; simpl in H; [|lia].
  apply elem_of_cons in Hx as [-> | Hx]; [done|]. apply IH; [lia|done].
Qed.

Lemma filter_length_none {A} (p : A → bool) l :
  length (List.filter p l) = 0%nat → ∀ x, x ∈ l → p x = false.
Proof.
  induction l as [|y l IH]; simpl; [set_solver|]. intros H x Hx.
  destruct (p y) eqn:E; simpl in H; [done|]. apply elem_of_cons in Hx as [-> | Hx]; [done|].
  by apply IH.
Qed.

(** ** What an evaluated identity rests on *)

(** The decision of a semantic row, in the words of the case. *)
Definition row_decision (row : semantic_row) : string :=
  if String.eqb (sr_decision row) "allowed" then "allow" else "deny".

(** The access of an identity was established as expected or as a candidate
    finding: by the only execution reported for it, by the response assertions
    of the case, or by the reads around a write. *)
Inductive established (spec : dict) (executions : list dict) (semantic : list semantic_row)
    (identity expected : json) : Prop :=
| by_execution row :
    reported executions identity = [row] → errored row = false →
    int_between 100 599 (dget "status_code" row) = true →
    (outcome_of [row] = "allow" ∧ success (int_value (dget "status_code" row)) = true
     ∨ outcome_of [row] = "deny" ∧ expected ≠ JStr "allow"
       ∧ deny_code spec (int_value (dget "status_code" row)) = Ok true) →
    established spec executions semantic identity expected
| by_semantics row actual configured :
    List.filter (λ r, py_eq (JStr (sr_identity_id r)) identity) semantic = [row] →
    JStr (sr_expected_access row) = expected →
    (expected = JStr "allow" → sr_decision row = "allowed") →
    List.filter (λ e, py_eq (dget "identity_id" e) identity) executions = [actual] →
    configured_for spec identity = Ok configured →
    (clean_status actual = true ∧ assertions_valid configured row (row_decision row)
       (int_value (dget "status_code" actual)) = true
     ∨ write_valid spec row (row_decision row) actual = true) →
    established spec executions semantic identity expected.

Lemma it_update_evaluated s r i :
  s ≠ "evaluated" → in_state "evaluated" (it_update s r i) = false.
Proof. intros Hs. by apply String.eqb_neq. Qed.

Lemma judge_execution_evaluated spec decision outcome row reason :
  judge_execution spec decision outcome row = Ok ("evaluated", reason) →
  errored row = false ∧ int_between 100 599 (dget "status_code" row) = true
  ∧ (outcome = "allow" ∧ success (int_value (dget "status_code" row)) = true
     ∨ outcome = "deny" ∧ decision ≠ JStr "allow"
       ∧ deny_code spec (int_value (dget "status_code" row)) = Ok true).
Proof.
  unfold judge_execution. intros H. apply rbind_ok in H as (deny & Hdeny & H).
  destruct (errored row); [done|]. simpl in H.
  destruct (int_between 100 599 (dget "status_code" row)); simpl in *.
  2:{ injection Hdeny as <-. done. }
  destruct (success _ && String.eqb outcome "allow") eqn:Ea; simpl in H.
  - bool_simpl. auto.
  - destruct deny; [|done]. simpl in H. rewrite andb_true_r in H.
    destruct (String.eqb outcome "deny") eqn:Ed; [|done]. bool_simpl.
    split_and!; try done. right. split_and!; try done. intros ->. done.
Qed.

Lemma assess_identity_evaluated spec expected executions semantic identity it :
  assess_identity spec expected executions identity = Ok it → in_state "evaluated" it = true →
  established spec executions semantic (it_identity_id it) (it_expected_decision it).
Proof.
  unfold assess_identity. intros H Hs. apply rbind_ok in H as (k & _ & H).
  apply rbind_ok in H as (k' & _ & H). cbv zeta in H. apply rbind_ok in H as (sk & _ & H).
  apply rbind_ok in H as ([state reason] & Hj & H). injection H as <-. simpl in *.
  unfold in_state in Hs. simpl in Hs. bool_simpl. subst state.
  destruct sk; [done|]. destruct (reported executions k') as [|row [|row' rows]] eqn:Er; [done| |done].
  apply judge_execution_evaluated in Hj as (? & ? & ?). by eapply by_execution.
Qed.

(** Who an entry is about. *)
Definition same_subject (i j : item) : Prop :=
  it_identity_id i = it_identity_id j ∧ it_expected_decision i = it_expected_decision j.

Lemma semantic_valid_cases spec configured protected it row actual decision :
  semantic_valid spec configured protected it row actual decision = true →
  in_state "evaluated" it = true
  ∨ clean_status actual = true
    ∧ assertions_valid configured row decision (int_value (dget "status_code" actual)) = true
  ∨ write_valid spec row decision actual = true.
Proof.
  unfold semantic_valid. destruct (_ && clean_status actual) eqn:E1; [bool_simpl; auto|].
  destruct (String.eqb (sr_source row) "write_verification"); [auto|].
  destruct (_ && negb protected); [|done]. intros ?. bool_simpl. auto.
Qed.

Lemma conclude_evaluated spec configured protected executions it row :
  in_state "evaluated" (conclude spec configured protected executions it row) = true →
  same_subject (conclude spec configured protected executions it row) it ∧
  (it_expected_decision it = JStr "allow" → sr_decision row = "allowed") ∧
  ∃ actual, List.filter (λ e, py_eq (dget "identity_id" e) (it_identity_id it)) executions = [actual]
    ∧ semantic_valid spec configured protected it row actual (row_decision row) = true.
Proof.
  unfold conclude. fold (row_decision row).
  destruct (negb _); [by intros H|].
  destruct (List.filter _ executions) as [|actual [|? ?]]; [done| |done].
  destruct (negb _); [done|]. destruct (semantic_valid _ _ _ _ _ _ _) eqn:Ev; [|done].
  destruct (_ && _) eqn:Ea; [done|]. intros _. split; [done|]. split; [|by exists actual].
  intros Hexp. rewrite Hexp in Ea. simpl in Ea. bool_simpl. unfold row_decision in Ea.
  destruct (String.eqb_spec (sr_decision row) "allowed"); [done|by simpl in Ea].
Qed.

Lemma apply_one_evaluated spec executions semantic verified it it' :
  apply_one spec executions semantic verified it = Ok it' → in_state "evaluated" it' = true →
  same_subject it' it ∧ it_observed_outcome it' = it_observed_outcome it
  ∧ (in_state "evaluated" it = true
     ∨ established spec executions semantic (it_identity_id it) (it_expected_decision it)).
Proof.
  unfold apply_one. intros H Hs. apply rbind_ok in H as (configured & Hc & H). cbv zeta in H.
  destruct (List.filter _ semantic) as [|row [|? ?]] eqn:Er.
  - injection H as <-. destruct (_ && _); [done|]. split_and!; [done|done|by left].
  - destruct (negb (json_eqb _ _)) eqn:Ee; [by injection H as <-|]. bool_simpl.
    apply json_eqb_eq in Ee. set (it1 := Item _ _ _ _ _ _ _ _) in H.
    assert (Hsub : same_subject it1 it ∧ it_observed_outcome it1 = it_observed_outcome it
      ∧ in_state "evaluated" it1 = in_state "evaluated" it) by done.
    clearbody it1. destruct Hsub as ([Hid Hex] & Hout & Hev). unfold same_subject in *.
    destruct (in_state "skipped" it1) eqn:Esk.
    { injection H as <-. rewrite Hev in Hs. split_and!; try done; by left. }
    destruct verified; simpl in H; [|by injection H as <-]. injection H as <-.
    assert (Hobs : ∀ p r, it_observed_outcome (conclude spec configured p executions it1 r)
      = it_observed_outcome it1) by (intros p r; unfold conclude; repeat case_match; done).
    rewrite Hobs. apply conclude_evaluated in Hs as ([Hid' Hex'] & Hallow & actual & Hact & Hv).
    rewrite Hid', Hex'. split_and!; [done|done|done|]. rewrite Hid in Hact.
    apply semantic_valid_cases in Hv as [Hb | Hv]; [left; congruence|right].
    apply (by_semantics _ _ _ _ _ row actual configured); try done. by rewrite <-Hex.
  - by injection H as <-.
Qed.

Lemma credential_step_evaluated spec executions session cv it it' :
  credential_step spec executions session cv it = Ok it' → in_state "evaluated" it' = true →
  same_subject it' it ∧ in_state "evaluated" it = true.
Proof.
  unfold credential_step. intros H Hs.
  repeat (apply rbind_ok in H as (? & _ & H); cbv zeta in H).
  injection H as <-. destruct (_ && _); [done|]. done.
Qed.

Lemma demote_if_evaluated p reason l it :
  it ∈ demote_if p reason l → in_state "evaluated" it = true → it ∈ l ∧ p it = false.
Proof.
  unfold demote_if. intros (i & -> & Hi)%list_elem_of_fmap Hs. by destruct (p i) eqn:E.
Qed.

Definition session_established (s : preflight_session) : Prop :=
  ps_status s = "passed" ∨ ps_status s = "not_configured".

(** What survives [settle] was evaluated before it, in a verified case with an
    established session and a legitimate baseline. *)
Lemma settle_evaluated session cv l it :
  it ∈ settle session cv l → in_state "evaluated" it = true →
  it ∈ l ∧ cv = true ∧ session_established session
  ∧ ∃ b, b ∈ settle session cv l ∧ baseline_holds b = true.
Proof.
  unfold settle. destruct cv; simpl.
  2:{ intros Hin Hs. apply demote_if_evaluated in Hin as [_ Hp]; [|done]. congruence. }
  destruct (_ || _) eqn:Es.
  - destruct (existsb baseline_holds l) eqn:Eb.
    + intros Hin _. apply existsb_exists in Eb as (b & Hb & Hbase). rewrite <-list_elem_of_In in Hb.
      apply orb_true_iff in Es. unfold session_established. rewrite <-!String.eqb_eq.
      split_and!; [done|done|done|by exists b].
    + intros Hin Hs. apply demote_if_evaluated in Hin as [_ Hp]; [|done]. congruence.
  - intros Hin Hs. exfalso.
    assert (Hno : ∀ i, i ∈ demote_if (λ it, negb (in_state "skipped" it))
      "identity_preflight_not_established" l → in_state "evaluated" i = false).
    { intros i Hi. destruct (in_state "evaluated" i) eqn:E; [|done].
      apply demote_if_evaluated in Hi as [_ Hp]; [|done]. bool_simpl.
      unfold in_state in *. bool_simpl. congruence. }
    destruct (existsb _ _); [by rewrite Hno in Hs|].
    apply demote_if_evaluated in Hin as [Hin _]; [|done]. by rewrite Hno in Hs.
Qed.

Lemma assessed_items_evaluated spec executions session cv semantic items it :
  assessed_items spec executions session cv semantic = Ok items →
  it ∈ items → in_state "evaluated" it = true →
  established spec executions (map safe_semantic_row semantic) (it_identity_id it) (it_expected_decision it).
Proof.
  unfold assessed_items. intros H Hin Hs. apply rbind_ok in H as (access & _ & H).
  apply rbind_ok in H as (expected & _ & H). apply rbind_ok in H as (identities & _ & H).
  apply rbind_ok in H as (base & Hbase & H). apply rbind_ok in H as (applied & Happ & H).
  eapply map_result_elem in H as (i2 & Hi2 & Hc); [|done].
  apply credential_step_evaluated in Hc as [[Hid Hex] Hs2]; [|done].
  eapply map_result_elem in Happ as (i1 & Hi1 & Ha); [|done].
  apply apply_one_evaluated in Ha as ([Hid1 Hex1] & _ & Hor); [|done].
  rewrite Hid, Hex, Hid1, Hex1. destruct Hor as [Hs1|]; [|done].
  eapply map_result_elem in Hbase as (identity & _ & Hb); [|done].
  by eapply assess_identity_evaluated.
Qed.

Lemma verdict_conclusive items unexpected :
  verdict items unexpected = "conclusive" →
  items ≠ [] ∧ unexpected = 0 ∧ ∀ it, it ∈ items → in_state "evaluated" it = true.
Proof.
  unfold verdict. destruct (_ && (unexpected =? 0)) eqn:E.
  - intros _. bool_simpl. split_and!; [done|done|]. apply filter_length_all.
    unfold count_state in *. lia.
  - cbv zeta. case_match; intros Hc; discriminate Hc.
Qed.


(** ** Preflight *)

(** The one row reported for an identity shows its credential working. *)
Definition preflight_verified (rows : list dict) (kv : json * json) : Prop :=
  ∃ row code want, reported rows kv.1 = [row]
    ∧ dget "status" row = JStr "passed" ∧ dget "reason" row = JStr "identity_verified"
    ∧ dget "status_code" row = JInt code ∧ json_index "expected_status" kv.2 = Ok want
    ∧ py_eq (JInt code) want = true.

Lemma judge_preflight_passed config row reason :
  judge_preflight config row = Ok ("passed", reason) ↔
  reason = "identity_verified" ∧
  ∃ code want, dget "status" row = JStr "passed" ∧ dget "reason" row = JStr "identity_verified"
    ∧ dget "status_code" row = JInt code ∧ json_index "expected_status" config = Ok want
    ∧ py_eq (JInt code) want = true.
Proof.
  unfold judge_preflight. split.
  - intros H. apply rbind_ok in H as (passed & Hp & H). destruct passed.
    + injection H as <-. split; [done|].
      destruct (_ && _) eqn:E; [|done]. bool_simpl. apply json_eqb_eq in H, H0.
      destruct (dget "status_code" row); try done. apply rbind_ok in Hp as (want & Hw & Hp).
      injection Hp as Hp. eauto 8.
    + destruct (json_eqb (dget "status" row) (JStr "failed")); [|done]. apply rbind_ok in H as (known & _ & H). by destruct known.
  - intros (-> & code & want & Hs & Hr & Hc & Hw & Heq). rewrite Hs, Hr, Hc. simpl.
    rewrite Hw. simpl in *. by rewrite Heq.
Qed.

Lemma preflight_of_passed rows verified kv p :
  preflight_of rows verified kv = Ok p →
  has_status "passed" p = true ↔ verified = true ∧ preflight_verified rows kv.
Proof.
  destruct kv as [k config]. unfold preflight_of, preflight_verified. simpl. intros H.
  apply rbind_ok in H as ([[status reason] code] & Hj & H). injection H as <-.
  destruct verified; [|split; [done|by intros []]].
  unfold has_status. simpl. rewrite String.eqb_eq.
  destruct (reported rows k) as [|row [|row' items]].
  - injection Hj as <- <- <-. split; [done|naive_solver].
  - apply rbind_ok in Hj as ([st re] & Hj & Hq). injection Hq as -> -> <-. split.
    + intros ->. apply judge_preflight_passed in Hj as (_ & c & w & Hrest). split; [done|].
      by exists row, c, w.
    + intros (_ & row0 & c & w & [= <-] & Hrest).
      assert (Hp : judge_preflight config row = Ok ("passed", "identity_verified"))
        by (apply judge_preflight_passed; eauto).
      rewrite Hp in Hj. by injection Hj as <- _.
  - injection Hj as <- <- <-. split; [done|naive_solver].
Qed.

(** The identities' preflight passes exactly when the case is verified,
    some preflight is configured, every reported row belongs to a configured
    identity and for each of those one row, and no second one, reports success
    with the expected status code. *)
Theorem preflight_passed_iff spec rows verified session declared :
  assess_preflight spec rows verified = Ok session → declared_preflights spec = Ok declared →
  ps_status session = "passed" ↔
    verified = true ∧ declared ≠ []
    ∧ (∀ row, row ∈ rows → ∃ kv, kv ∈ declared ∧ py_eq (JStr (row_identity row)) kv.1 = true)
    ∧ ∀ kv, kv ∈ declared → preflight_verified rows kv.
Proof.
  unfold assess_preflight. intros H Hd. rewrite Hd in H. simpl in H.
  apply rbind_ok in H as (ids & Hids & H). cbv zeta in H. injection H as <-. cbn [ps_status].
  set (unexpected := List.filter _ rows). unfold preflight_verdict. split.
  - destruct (Z.eqb_spec (Z.of_nat (length unexpected)) 0) as [Hz|]; [|done]. simpl.
    destruct declared as [|kv0 declared']; [done|]. set (declared := kv0 :: declared') in *.
    destruct (forallb _ ids) eqn:Ea; [|by destruct (existsb _ ids)]. intros _.
    rewrite forallb_forall in Ea.
    assert (Hall : ∀ kv, kv ∈ declared → verified = true ∧ preflight_verified rows kv).
    { intros kv Hkv. destruct (map_result_all _ _ _ _ Hids Hkv) as (p & Hp & Hf).
      apply (preflight_of_passed _ _ _ _ Hf), Ea. by apply list_elem_of_In. }
    split_and!; [apply (Hall kv0); left|done| |intros kv Hkv; by apply Hall].
    intros row Hrow. apply (Nat2Z.inj _ 0) in Hz. apply (filter_length_none _ _ Hz) in Hrow.
    bool_simpl. apply existsb_exists in Hrow as (k & Hk & Heq). rewrite <-list_elem_of_In in Hk.
    apply list_elem_of_fmap in Hk as (kv & -> & Hkv). by exists kv.
  - intros (-> & Hne & Hrows & Hall).
    assert (unexpected = []) as ->.
    { destruct unexpected as [|row l] eqn:Eu; [done|]. exfalso.
      assert (Hin : row ∈ unexpected) by (rewrite Eu; left). unfold unexpected in Hin.
      apply list_elem_of_In, filter_In in Hin as [Hin Hno]. rewrite <-list_elem_of_In in Hin.
      destruct (Hrows row Hin) as (kv & Hkv & Heq). bool_simpl.
      apply (eq_true_false_abs (existsb (py_eq (JStr (row_identity row))) (map fst declared)));
        [|exact Hno].
      apply existsb_exists. exists kv.1. split; [|done]. rewrite <-list_elem_of_In.
      apply list_elem_of_fmap. by exists kv. }
    simpl. destruct declared as [|kv0 declared']; [done|].
    assert (forallb (has_status "passed") ids = true) as ->; [|done].
    apply forallb_forall. intros p Hp. rewrite <-list_elem_of_In in Hp.
    destruct (map_result_elem _ _ _ _ Hids Hp) as (kv & Hkv & Hf).
    apply (preflight_of_passed _ _ _ _ Hf). auto.
Qed.

(** ** A case, its run and its verdict *)

Definition demo_identity (id : string) (preflight : json) : json :=
  JObj [("id", JStr id); ("credential", JObj [("type", JStr "bearer"); ("secret_ref", JStr "env:T")]);
        ("preflight", preflight)].
Definition demo_access (id decision : string) : json :=
  JObj [("identity_id", JStr id); ("decision", JStr decision)].
Definition demo_case : dict :=
  [("identities", JList [demo_identity "alice" (JObj [("expected_status", JInt 200)]);
                         demo_identity "bob" JNull]);
   ("expected_access", JList [demo_access "alice" "allow"; demo_access "bob" "deny"])].
Definition demo_execution (id outcome : string) (code : Z) : dict :=
  [("identity_id", JStr id); ("observed_outcome", JStr outcome); ("status_code", JInt code)].
Definition demo_executions : list dict :=
  [demo_execution "alice" "allow" 200; demo_execution "bob" "deny" 403].
Definition demo_preflight : list dict :=
  [[("identity_id", JStr "alice"); ("status", JStr "passed"); ("reason", JStr "identity_verified");
    ("status_code", JInt 200)]].

Definition assessed (m : result assessment) : string :=
  match m with Ok a => as_status a | Raise _ => "" end.

(** The same run without the legitimate user's success, with a second
    execution of one identity, and without the preflight's result. *)
Example demo_verdicts :
  assessed (assess demo_case demo_executions 0 true demo_preflight []) = "conclusive"
  ∧ assessed (assess demo_case [demo_execution "alice" "deny" 403; demo_execution "bob" "deny" 403]
                0 true demo_preflight []) = "inconclusive"
  ∧ assessed (assess demo_case (demo_execution "bob" "allow" 200 :: demo_executions) 1 true
                demo_preflight []) = "partial"
  ∧ assessed (assess demo_case demo_executions 0 true [] []) = "inconclusive".
Proof. vm_compute. done. Qed.


Lemma preflight_passed_iff_witness :
  ∃ declared, declared_preflights demo_case = Ok declared
    ∧ ∀ kv, kv ∈ declared → preflight_verified demo_preflight kv.
Proof.
  destruct (declared_preflights demo_case) as [declared|e] eqn:Ed; [|vm_compute in Ed; discriminate Ed].
  destruct (assess_preflight demo_case demo_preflight true) as [session|e] eqn:E;
    [|vm_compute in E; discriminate E].
  exists declared. split; [reflexivity|].
  apply (preflight_passed_iff demo_case demo_preflight true session declared E Ed).
  vm_compute in E. injection E as <-. reflexivity.
Defined.
