(* ===== verification/Url.v ===== *)
(** * [urllib.parse.urlsplit]

    The URL splitter of the standard library with the attributes of its
    result, on Latin-1 text: no character below U+0100 normalises (NFKC) to a
    delimiter, so the check for such characters never fires. *)
From S2P Require Import Prelude PyStr IpAddress.
From Stdlib Require Import Ascii.

Record split_result := SplitResult {
  url_scheme : string;
  url_netloc : string;
  url_path : string;
  url_query : string;
  url_fragment : string;
}.

Definition c0_or_space (c : ascii) : bool := code c <=? 32.
Definition is_alpha_ascii (c : ascii) : bool := in_range 65 90 c || in_range 97 122 c.
Definition scheme_char (c : ascii) : bool :=
  is_alpha_ascii c || is_decimal c || Ascii.eqb c "+" || Ascii.eqb c "-" || Ascii.eqb c ".".

Fixpoint filter_string (p : ascii → bool) (s : string) : string :=
  match s with
  | EmptyString => EmptyString
  | String c s' => if p c then String c (filter_string p s') else filter_string p s'
  end.

(** [_UNSAFE_URL_BYTES_TO_REMOVE] *)
Definition unsafe_byte (c : ascii) : bool := (code c =? 9) || (code c =? 10) || (code c =? 13).

(** Everything up to the first character satisfying [p], and the rest. *)
Fixpoint span_until (p : ascii → bool) (s : string) : string * string :=
  match s with
  | EmptyString => (EmptyString, EmptyString)
  | String c s' => if p c then (EmptyString, s)
                   else let '(a, b) := span_until p s' in (String c a, b)
  end.

(** [s.rpartition('@')[2]] and whether there was one; the part before it. *)
Fixpoint rpartition (c : ascii) (s : string) : option (string * string) :=
  match s with
  | EmptyString => None
  | String d s' =>
      match rpartition c s' with
      | Some (a, b) => Some (String d a, b)
      | None => if Ascii.eqb c d then Some (EmptyString, s') else None
      end
  end.

Definition hostinfo_of (netloc : string) : string :=
  match rpartition "@"%char netloc with Some (_, h) => h | None => netloc end.

(** [\Av[a-fA-F0-9]+\..+\Z] *)
Definition ipvfuture (s : string) : bool :=
  startswith s "v" &&
  match cut "." (drop_string 1 s) with
  | (hex, Some rest) =>
      negb (String.eqb hex "") && negb (String.eqb rest "")
      && all_chars (λ c, bool_decide (is_Some (hex_val c))) hex
      && all_chars (λ c, negb (code c =? 10)) rest
  | _ => false
  end.

Definition check_bracketed_host (hostname : string) : bool :=
  if startswith hostname "v" then ipvfuture hostname
  else match ip_address hostname with Some (V6 _ _) => true | _ => false end.

Definition check_bracketed_netloc (netloc : string) : bool :=
  let hp := hostinfo_of netloc in
  match cut "[" hp with
  | (before_bracket, Some bracketed) =>
      let hostname := before "]" bracketed in
      let port := default "" (after "]" bracketed) in
      String.eqb before_bracket "" &&
      (String.eqb port "" || startswith port ":") && check_bracketed_host hostname
  | (_, None) => check_bracketed_host (before ":" hp)
  end.

Definition cut_or (sep s : string) : string * string :=
  match cut sep s with (a, Some b) => (a, b) | (a, None) => (a, "") end.

Definition urlsplit (url : string) : result split_result :=
  let url := filter_string (λ c, negb (unsafe_byte c)) (lstrip_chars c0_or_space url) in
  let '(scheme, url) :=
    match cut ":" url with
    | (s, Some rest) =>
        match s with
        | String c _ =>
            if is_alpha_ascii c && all_chars scheme_char s then (lower s, rest) else ("", url)
        | EmptyString => ("", url)
        end
    | (_, None) => ("", url)
    end in
  let '(netloc, url) :=
    if startswith url "//"
    then span_until (λ c, Ascii.eqb c "/" || Ascii.eqb c "?" || Ascii.eqb c "#") (drop_string 2 url)
    else ("", url) in
  let open := contains "[" netloc in
  let close := contains "]" netloc in
  if (open && negb close) || (close && negb open) then Raise ValueError
  else if open && close && negb (check_bracketed_netloc netloc) then Raise ValueError
  else
    let '(url, fragment) := cut_or "#" url in
    let '(url, query) := cut_or "?" url in
    Ok (SplitResult scheme netloc url query fragment).

(** [(_hostinfo)]: the host and the port text. *)
Definition hostinfo (u : split_result) : string * option string :=
  let hp := hostinfo_of (url_netloc u) in
  let '(hostname, port) :=
    match after "[" hp with
    | Some bracketed => (before "]" bracketed, default "" (after ":" (default "" (after "]" bracketed))))
    | None => cut_or ":" hp
    end in
  (hostname, if String.eqb port "" then None else Some port).

Definition hostname (u : split_result) : option string :=
  let h := (hostinfo u).1 in
  if String.eqb h "" then None
  else match cut "%" h with
       | (a, Some zone) => Some (lower a +:+ "%" +:+ zone)
       | (a, None) => Some (lower a)
       end.

Definition port (u : split_result) : result (option Z) :=
  match (hostinfo u).2 with
  | None => Ok None
  | Some p =>
      if isdigit p && isascii p then
        match int_of_string p with
        | Some v => if v <=? 65535 then Ok (Some v) else Raise ValueError
        | None => Raise ValueError
        end
      else Raise ValueError
  end.

Definition username (u : split_result) : option string :=
  match rpartition "@"%char (url_netloc u) with
  | Some (userinfo, _) => Some (before ":" userinfo)
  | None => None
  end.
Definition password (u : split_result) : option string :=
  match rpartition "@"%char (url_netloc u) with
  | Some (userinfo, _) => after ":" userinfo
  | None => None
  end.
