(* ===== verification/TestCases.v ===== *)
(** * [routers/test_cases.py]: stored authorization test cases

    The validation a VardrGate spec passes before it is stored - shape,
    credentials by reference only, no [${...}], preflight on the request's own
    origin - and the handlers that store, change and delete cases. *)
From S2P Require Import Prelude PyStr IpAddress Url Json Digest Time Models Access.
From Stdlib Require Import Ascii.

Definition _CREDENTIAL_TYPES : list string := ["api_key_header"; "bearer"; "static_header"].
Definition _SECRET_REFS : list string := ["value_env"; "value_keychain"].
Definition _MAX_SPEC_BYTES : Z := 256000.

(** [len(s.encode())] *)
Definition utf8_len (s : string) : Z := Z.of_nat (length (utf8 s)).

(** [f"{what}[{i}]"] *)
Definition at_index (what : string) (i : Z) : string := what +:+ "[" +:+ string_of_Z i +:+ "]".

(** The ASCII part of [str.upper]; no other character below U+0100 becomes a
    letter of an HTTP method. *)
Definition upper_ascii (s : string) : string :=
  map_string (λ c, if in_range 97 122 c then chr (code c - 32) else c) s.
Definition mutating_method (m : string) : bool :=
  bool_decide (m ∈ ["POST"; "PUT"; "PATCH"; "DELETE"]).

Definition _case_identities (spec : dict) : result (list json) :=
  let? identities := iter_or_empty (dget "identities" spec) in
  Ok (identities ++
      match dget "write_verification" spec with
      | JObj v => match lookup_key "identity" v with Some i => [i] | None => [] end
      | _ => []
      end).

Definition _preflight_origin (raw : json) : result (string * string * Z) :=
  match raw with
  | JStr s =>
      if 2000 <? utf8_len s then Raise ValueError
      else
        let? parsed := urlsplit s in
        match hostname parsed with
        | Some host =>
            if negb (bool_decide (url_scheme parsed ∈ ["http"; "https"]))
               || bool_decide (is_Some (username parsed))
               || negb (String.eqb (url_fragment parsed) "")
            then Raise ValueError
            else
              let? p := port parsed in
              if bool_decide (p = Some 0) then Raise ValueError
              else Ok (url_scheme parsed, lower host,
                       match p with
                       | Some p => p
                       | None => if String.eqb (url_scheme parsed) "https" then 443 else 80
                       end)
        | None => Raise ValueError
        end
  | _ => Raise ValueError
  end.

(** ** The preflight of an identity *)

(** [try: ... except ValueError: raise HTTPException(...)] *)
Definition on_value_error {A} (m : result A) (e : exn) : result A :=
  match m with Raise ValueError => Raise e | _ => m end.

Definition bad_request (text : string) : exn := HTTPException 400 (DText text).

(** [set(p) == {"url", "expected_status", "json_fields"}] *)
Definition preflight_keys : list string := ["url"; "expected_status"; "json_fields"].
Definition preflight_keys_ok (p : json) : bool :=
  match p with
  | JObj d => bool_decide (Forall (.∈ preflight_keys) (keys d)) &&
              bool_decide (Forall (.∈ keys d) preflight_keys)
  | _ => false
  end.

Definition preflight_url_ok (url : json) (spec : dict) : result unit :=
  match url with
  | JStr s =>
      if contains "{{" s || contains "${" s then Raise ValueError
      else
        let? origin := _preflight_origin url in
        let? request := json_index "request" (JObj spec) in
        let? request_url := json_index "url" request in
        let? expected := _preflight_origin request_url in
        if bool_decide (origin = expected) then Ok tt else Raise ValueError
  | _ => Raise ValueError
  end.

Definition status_2xx (code : json) : bool :=
  match code with JInt c => (200 <=? c) && (c <? 300) | _ => false end.

Definition scalar_match_ok (path : string) (value : json) : bool :=
  (utf8_len path <=? 200) &&
  forallb (λ part, negb (String.eqb (strip part) "")) (split_char "."%char path) &&
  match value with
  | JStr v => negb (String.eqb (strip v) "") && (utf8_len v <=? 200)
  | _ => false
  end.

Definition json_fields_ok (fields : json) : bool :=
  match fields with
  | JObj d => (1 <=? Z.of_nat (length d)) && (Z.of_nat (length d) <=? 8)
              && forallb (λ kv, scalar_match_ok kv.1 kv.2) d
  | _ => false
  end.

(** The secret references a credential carries. *)
Definition refs_of (cred : json) : result (list string) :=
  match cred with
  | JObj c => Ok (List.filter (λ r, negb (String.eqb (strip (str_or_empty (dget r c))) "")) _SECRET_REFS)
  | _ => Raise AttributeError
  end.

Definition check_preflight (spec : dict) (i : Z) (identity : json) : result unit :=
  let? p := json_get "preflight" identity in
  match p with
  | JNull => Ok tt
  | _ =>
      let label := at_index "identities" i +:+ ".preflight" in
      check? guard (preflight_keys_ok p) 400
               (label +:+ " requires only url, expected_status and json_fields") in
      let? url := json_index "url" p in
      check? on_value_error (preflight_url_ok url spec)
               (bad_request (label +:+ " needs an absolute HTTP URL on the request's origin, without userinfo, fragment or variables")) in
      let? code := json_index "expected_status" p in
      check? guard (status_2xx code) 400 (label +:+ ".expected_status must be a 2xx integer") in
      let? fields := json_index "json_fields" p in
      check? guard (json_fields_ok fields) 400
               (label +:+ ".json_fields needs 1 to 8 nonempty scalar matches, at most 200 UTF-8 bytes per path/value") in
      let? cred := json_index "credential" identity in
      let? ident := json_index "id" identity in
      check? guard (match ident with
                    | JStr s => (1 <=? utf8_len s) && (utf8_len s <=? 200) | _ => false end) 400
               (label +:+ " identity id must be a string of at most 200 UTF-8 bytes") in
      let? refs := refs_of cred in
      guard (negb (bool_decide (refs = []))) 400
        (label +:+ " requires an authenticated local credential reference")
  end.

Definition _validate_preflight (spec : dict) : result unit :=
  let? identities := _case_identities spec in
  check_each (check_preflight spec) 0 identities.

(** ** Credentials by reference *)

Definition check_credential (i : Z) (identity : json) : result unit :=
  let label := at_index "identities" i in
  match identity with
  | JObj ident =>
      match dget "credential" ident with
      | JObj cred =>
          let ctype := dget "type" cred in
          let? known := in_str_set ctype _CREDENTIAL_TYPES in
          check? guard known 400
                   (label +:+ ".credential.type must be one of " +:+ repr_list _CREDENTIAL_TYPES) in
          check? guard (String.eqb (strip (str_or_empty (dget "value" cred))) "") 400
                   (label +:+ ".credential must not contain a literal 'value' — reference the secret with 'value_env' or 'value_keychain' so it is resolved on the runner and never stored here") in
          let? refs := refs_of (JObj cred) in
          check? guard (length refs <=? 1)%nat 400
                   (label +:+ ".credential may specify at most one of " +:+ repr_list _SECRET_REFS) in
          check? guard (negb (bool_decide (refs = []))
                        || bool_decide (ctype = JStr "static_header")) 400
                   (label +:+ ".credential of type '" +:+ py_str ctype
                    +:+ "' needs 'value_env' or 'value_keychain'") in
          guard (bool_decide (refs = []) || negb (bool_decide (ctype = JStr "static_header"))
                 || negb (String.eqb (strip (str_or_empty (dget "header" cred))) "")) 400
            (label +:+ ".credential static_header needs a header name")
      | _ => http 400 (label +:+ " must have a credential object")
      end
  | _ => http 400 (label +:+ " must be an object")
  end.

Definition _reject_literal_credentials (spec : dict) : result unit :=
  let? identities := _case_identities spec in
  check_each check_credential 0 identities.

(** ** No environment references *)

Definition reject_env_string (s path : string) : result unit :=
  guard (negb (contains "${" s)) 400
    (path +:+ " must not contain a ${...} environment reference; reference credentials with 'value_env' or 'value_keychain'").

Fixpoint _reject_environment_references (value : json) (path : string) : result unit :=
  match value with
  | JStr s => reject_env_string s path
  | JObj d =>
      (fix members (d : list (string * json)) : result unit :=
         match d with
         | [] => Ok tt
         | (key, item) :: d' =>
             check? reject_env_string key (path +:+ " key") in
             check? _reject_environment_references item (path +:+ "." +:+ key) in
             members d'
         end) d
  | JList l =>
      (fix items (i : Z) (l : list json) : result unit :=
         match l with
         | [] => Ok tt
         | item :: l' =>
             check? _reject_environment_references item (at_index path i) in
             items (i + 1) l'
         end) 0 l
  | _ => Ok tt
  end.

(** ** The whole spec *)

(** [str((identity or {}).get("id") or "").strip() if isinstance(...) else ""] *)
Definition identity_id (identity : json) : string :=
  match identity with JObj d => strip (str_or_empty (dget "id" d)) | _ => "" end.

Fixpoint check_identity_ids (i : Z) (seen : list string) (identities : list json)
    : result (list string) :=
  match identities with
  | [] => Ok seen
  | identity :: rest =>
      let ident_id := identity_id identity in
      check? guard (negb (String.eqb ident_id "")) 400 (at_index "identities" i +:+ " must have an id") in
      check? guard (negb (bool_decide (ident_id ∈ seen))) 400
               ("duplicate identity id '" +:+ ident_id +:+ "'") in
      check_identity_ids (i + 1) (seen ++ [ident_id]) rest
  end.

Definition is_true (j : json) : bool := match j with JBool true => true | _ => false end.

Definition check_request (spec request : dict) : result unit :=
  check? guard (negb (String.eqb (strip (str_or_empty (dget "method" request))) "")) 400
           "spec.request.method is required" in
  check? guard (negb (String.eqb (strip (str_or_empty (dget "url" request))) "")) 400
           "spec.request.url is required" in
  let method := upper_ascii (str_or_empty (dget "method" request)) in
  guard (negb (mutating_method method) || is_true (dget "mutating" spec)) 400
    ("request method " +:+ method +:+ " requires spec.mutating=true").

Definition check_expected (seen : list string) (i : Z) (expected : json) : result unit :=
  match expected with
  | JObj d =>
      check? guard (bool_decide (str_or_empty (dget "identity_id" d) ∈ seen)) 400
               (at_index "expected_access" i +:+ ".identity_id does not match any identity") in
      let? known := in_str_set (dget "decision" d) ["allow"; "deny"; "skip"] in
      guard known 400 (at_index "expected_access" i +:+ ".decision must be allow, deny, or skip")
  | _ => http 400 (at_index "expected_access" i +:+ " must be an object")
  end.

Definition check_deny_status (i : Z) (code : json) : result unit :=
  match code with
  | JInt c =>
      check? guard ((100 <=? c) && (c <=? 599)) 400
               (at_index "deny_status" i +:+ " is not a valid HTTP status") in
      guard (negb ((200 <=? c) && (c <? 300))) 400
        (at_index "deny_status" i +:+ " cannot be a success status")
  | _ => http 400 (at_index "deny_status" i +:+ " is not a valid HTTP status")
  end.

Definition check_resource (spec : dict) (seen : list string) : result unit :=
  match dget "resource" spec with
  | JNull => Ok tt
  | JObj resource =>
      let owner := str_or_empty (dget "owner_identity" resource) in
      check? guard (String.eqb owner "" || bool_decide (owner ∈ seen)) 400
               "resource.owner_identity does not match any identity" in
      let required_role := str_or_empty (dget "required_role" resource) in
      let role_hierarchy := dget "role_hierarchy" spec in
      match (if truthy role_hierarchy then role_hierarchy else JList []) with
      | JList roles =>
          guard (String.eqb required_role "" || bool_decide (JStr required_role ∈ roles)) 400
            "resource.required_role is not in role_hierarchy"
      | _ => http 400 "spec.role_hierarchy must be an array"
      end
  | _ => http 400 "spec.resource must be an object"
  end.

Definition capture_ok (capture : json) : bool :=
  match (if truthy capture then capture else JObj []) with
  | JObj d =>
      forallb (λ kv, negb (String.eqb (strip kv.1) "") &&
                     match kv.2 with JStr v => negb (String.eqb (strip v) "") | _ => false end) d
  | _ => false
  end.

Fixpoint check_setup (spec : dict) (seen : list string) (i : Z) (names : list string)
    (steps : list json) : result unit :=
  match steps with
  | [] => Ok tt
  | JObj step :: rest =>
      let here := at_index "setup" i in
      match dget "request" step with
      | JObj request =>
          check? guard (negb (String.eqb (strip (str_or_empty (dget "method" request))) "")
                        && negb (String.eqb (strip (str_or_empty (dget "url" request))) "")) 400
                   (here +:+ " must have a request method and url") in
          let as_identity := str_or_empty (dget "as" step) in
          check? guard (String.eqb as_identity "" || bool_decide (as_identity ∈ seen)) 400
                   (here +:+ " runs as an unknown identity") in
          let name := str_or_empty (dget "name" step) in
          check? guard (String.eqb name "" || negb (bool_decide (name ∈ names))) 400
                   (here +:+ " has a duplicate name") in
          let method := upper_ascii (str_or_empty (dget "method" request)) in
          check? guard (negb (mutating_method method) || is_true (dget "mutating" spec)) 400
                   (here +:+ " uses " +:+ method +:+ " and requires spec.mutating=true") in
          check? guard (capture_ok (dget "capture" step)) 400
                   (here +:+ " capture entries require a name and path") in
          check_setup spec seen (i + 1) (name :: names) rest
      | _ => http 400 (here +:+ " must have a request method and url")
      end
  | _ :: _ => http 400 (at_index "setup" i +:+ " must be an object")
  end.

Definition _validate_spec (spec : json) : result dict :=
  match spec with
  | JObj ((_ :: _) as spec) =>
      check? guard (len (json_dumps false (JObj spec)) <=? _MAX_SPEC_BYTES) 400 "spec is too large" in
      check? guard (negb (String.eqb (strip (str_or_empty (dget "id" spec))) "")) 400
               "spec.id is required" in
      match dget "identities" spec with
      | JList ((_ :: _) as identities) =>
          let? seen := check_identity_ids 0 [] identities in
          match dget "request" spec with
          | JObj request =>
              check? check_request spec request in
              let? expected := iter_or_empty (dget "expected_access" spec) in
              check? check_each (check_expected seen) 0 expected in
              let? deny_status := iter_or_empty (dget "deny_status" spec) in
              check? check_each check_deny_status 0 deny_status in
              check? check_resource spec seen in
              let? setup := iter_or_empty (dget "setup" spec) in
              check? check_setup spec seen 0 [] setup in
              check? _reject_literal_credentials spec in
              check? _reject_environment_references (JObj spec) "spec" in
              check? _validate_preflight spec in
              Ok spec
          | _ => http 400 "spec.request is required"
          end
      | _ => http 400 "spec.identities must be a non-empty array"
      end
  | _ => http 400 "spec must be a non-empty object"
  end.

(** ** The handlers *)

Definition serialize_test_case (tc : AuthorizationTestCase) : json :=
  JObj [("id", JStr (tc_id tc)); ("program_id", JStr (tc_program_id tc));
        ("name", JStr (tc_name tc)); ("test_case_id", JStr (tc_test_case_id tc));
        ("description", JStr (default "" (tc_description tc)));
        ("spec", if truthy (tc_spec tc) then tc_spec tc else JObj []);
        ("created_at", JStr (isoformat (tc_created_at tc)));
        ("updated_at", match tc_updated_at tc with Some t => JStr (isoformat t) | None => JNull end)].

Definition find_case (program_id test_case_id : string) (d : db) : option AuthorizationTestCase :=
  first_row (λ t, String.eqb (tc_id t) test_case_id && String.eqb (tc_program_id t) program_id)
    (test_cases d).

Definition _get_or_404 (program_id test_case_id : string) (d : db) : result AuthorizationTestCase :=
  match find_case program_id test_case_id d with
  | Some row => Ok row
  | None => http 404 "Test case not found"
  end.

(** [ORDER BY created_at DESC], newest first. *)
Definition newer (a b : AuthorizationTestCase) : Prop := tc_created_at b <= tc_created_at a.
#[export] Instance newer_dec : RelDecision newer.
Proof. intros a b. unfold newer. apply _. Defined.

Definition list_test_cases (program_id : string) (current_user : user_ctx) (d : db)
    : result (list json) :=
  let? _ := get_engagement_or_404 program_id current_user d in
  Ok (map serialize_test_case
        (merge_sort newer (rows (λ t, String.eqb (tc_program_id t) program_id) (test_cases d)))).

Definition get_test_case (program_id test_case_id : string) (current_user : user_ctx) (d : db)
    : result json :=
  let? _ := get_engagement_or_404 program_id current_user d in
  let? row := _get_or_404 program_id test_case_id d in
  Ok (serialize_test_case row).

Record TestCaseCreate := MkTestCaseCreate {
  tcc_name : string; tcc_description : string; tcc_spec : json }.
(** A field left out of the request and a [null] are the same to the handler. *)
Record TestCaseUpdate := MkTestCaseUpdate {
  tcu_name : option string; tcu_description : option string; tcu_spec : option json }.

Section Handlers.
(** [security.strip_html], which sanitises with the nh3 package. *)
Context (strip_html : string → string).

Definition create_test_case (new_id log_id : string) (now : time) (program_id : string)
    (body : TestCaseCreate) (current_user : user_ctx) (d : db) : result (json * db) :=
  let? engagement := get_engagement_or_404 program_id current_user d in
  check? require_member_write engagement current_user d in
  let? spec := _validate_spec (tcc_spec body) in
  let row := MkAuthorizationTestCase new_id program_id (cu_github_id current_user) (tcc_name body)
    (take_string 200 (str_or_empty (dget "id" spec)))
    (Some (if String.eqb (tcc_description body) "" then "" else strip_html (tcc_description body)))
    (JObj spec) now None in
  let d := set_test_cases (test_cases d ++ [row]) d in
  let d := log_action log_id now (cu_github_id current_user) "create" "test_case" new_id
             (Some program_id) d in
  Ok (serialize_test_case row, d).

Definition update_test_case (log_id : string) (now : time) (program_id test_case_id : string)
    (body : TestCaseUpdate) (current_user : user_ctx) (d : db) : result (json * db) :=
  let? engagement := get_engagement_or_404 program_id current_user d in
  check? require_member_write engagement current_user d in
  let? engagement := lock d engagement in
  let? row := _get_or_404 program_id test_case_id d in
  let? '(engagement, row') :=
    match tcu_spec body with
    | Some (JNull) | None => Ok (engagement, row)
    | Some raw =>
        let? spec := _validate_spec raw in
        Ok (if py_eq (tc_spec row) (JObj spec) then engagement
            else e_set_managed_authority_revision (e_managed_authority_revision engagement + 1)
                   engagement,
            tc_set_test_case_id (take_string 200 (str_or_empty (dget "id" spec)))
              (tc_set_spec (JObj spec) row))
    end in
  let row' := match tcu_name body with Some n => tc_set_name n row' | None => row' end in
  let row' := match tcu_description body with
              | Some t => tc_set_description (Some (strip_html t)) row' | None => row' end in
  let row' := tc_set_updated_at (Some now) row' in
  let d := set_engagement engagement d in
  let d := set_test_cases (update_rows (λ t, String.eqb (tc_id t) (tc_id row)) (λ _, row')
                             (test_cases d)) d in
  let d := log_action log_id now (cu_github_id current_user) "update" "test_case" (tc_id row)
             (Some program_id) d in
  Ok (serialize_test_case row', d).

Definition delete_test_case (log_id : string) (now : time) (program_id test_case_id : string)
    (current_user : user_ctx) (d : db) : result (string * db) :=
  let? engagement := get_engagement_or_404 program_id current_user d in
  check? require_member_write engagement current_user d in
  let? '(engagement, d) := advance d engagement in
  let? row := _get_or_404 program_id test_case_id d in
  let d := log_action log_id now (cu_github_id current_user) "delete" "test_case" test_case_id
             (Some program_id) d in
  Ok ("Test case deleted",
      set_test_cases (rows (λ t, negb (String.eqb (tc_id t) (tc_id row))) (test_cases d)) d).
End Handlers.

(** ** What a stored case never contains *)

(** Every string of a value, keys included. *)
Fixpoint strings_of (j : json) : list string :=
  match j with
  | JStr s => [s]
  | JList l => flat_map strings_of l
  | JObj d => flat_map (λ kv, kv.1 :: strings_of kv.2) d
  | _ => []
  end.

(** An identity whose credential is of a known type, names no literal value,
    and at most one of the two kinds of reference. *)
Definition by_reference (identity : json) : Prop :=
  ∃ ident cred refs, identity = JObj ident ∧ dget "credential" ident = JObj cred ∧
    (∃ ty, dget "type" cred = JStr ty ∧ ty ∈ _CREDENTIAL_TYPES) ∧
    strip (str_or_empty (dget "value" cred)) = "" ∧
    refs_of (JObj cred) = Ok refs ∧ (length refs <= 1)%nat.

Definition safe_spec (spec : json) : Prop :=
  ∃ fields identities, spec = JObj fields ∧ _case_identities fields = Ok identities ∧
    Forall by_reference identities ∧
    Forall (λ s, contains "${" s = false) (strings_of spec).

Lemma in_str_set_true j s : in_str_set j s = Ok true → ∃ x, j = JStr x ∧ x ∈ s.
Proof. destruct j; simpl; try done. intros [= Hb]. bool_simpl. eauto. Qed.

Lemma check_credential_ok i identity : check_credential i identity = Ok tt → by_reference identity.
Proof.
  destruct identity as [| | | | | |ident]; try done. simpl.
  destruct (dget "credential" ident) as [| | | | | |cred] eqn:Ec; try done.
  intros ([] & Ht & Hk)%rbind_ok; [|done].
  apply in_str_set_true in Ht as (ty & Hty & Hin). simpl in Hk.
  apply rbind_ok in Hk as ([] & Hv & Hk). apply guard_ok in Hv. bool_simpl.
  apply rbind_ok in Hk as ([] & Hl & _). apply guard_ok, Nat.leb_le in Hl.
  eexists ident, cred, _. split_and!; [done|done|by eauto|done|reflexivity|exact Hl].
Qed.

Lemma reject_env_string_ok s path : reject_env_string s path = Ok tt → contains "${" s = false.
Proof. unfold reject_env_string. intros H%guard_ok. by bool_simpl. Qed.

Lemma reject_env_ok j path :
  _reject_environment_references j path = Ok tt →
  Forall (λ s, contains "${" s = false) (strings_of j).
Proof.
  revert path. induction j as [|b|z|f|s|l IH|d IH] using json_ind'; intros path; simpl;
    try (by constructor).
  - intros Hs%reject_env_string_ok. by repeat constructor.
  - generalize 0. induction IH as [|x l Hx _ IHl]; intros i; simpl; [by constructor|].
    intros ([] & H1 & H2)%rbind_ok. apply Forall_app. split; [by eapply Hx|by eapply IHl].
  - induction IH as [|[k x] d Hx _ IHd]; simpl; [by constructor|].
    intros ([] & H1 & H2)%rbind_ok. apply rbind_ok in H2 as ([] & H2 & H3).
    apply reject_env_string_ok in H1. constructor; [done|].
    apply Forall_app. split; [by eapply Hx|by apply IHd].
Qed.

Lemma check_each_Forall {A} (f : Z → A → result unit) (P : A → Prop) i l :
  (∀ i x, f i x = Ok tt → P x) → check_each f i l = Ok tt → Forall P l.
Proof.
  intros Hf Hl. apply Forall_lookup. intros n x Hx. apply (Hf (i + Z.of_nat n)).
  by eapply check_each_ok.
Qed.

(** The last three checks of [_validate_spec] all passed. *)
Lemma validate_spec_inv raw spec :
  _validate_spec raw = Ok spec →
  raw = JObj spec ∧ _reject_literal_credentials spec = Ok tt ∧
  _reject_environment_references (JObj spec) "spec" = Ok tt ∧ _validate_preflight spec = Ok tt.
Proof.
  intros H. destruct raw as [| | | | | |[|kv fields]]; try discriminate H.
  unfold _validate_spec in H. revert H. generalize (kv :: fields). clear kv fields. intros fields H.
  apply rbind_ok in H as ([] & _ & H). apply rbind_ok in H as ([] & _ & H).
  destruct (dget "identities" fields) as [| | | | |[|x ids]|]; try discriminate H.
  apply rbind_ok in H as (seen & _ & H).
  destruct (dget "request" fields) as [| | | | | |request]; try discriminate H.
  repeat apply rbind_ok in H as (? & ? & H).
  repeat match goal with u : unit |- _ => destruct u end. injection H as <-. done.
Qed.

Lemma validate_spec_safe raw spec : _validate_spec raw = Ok spec → safe_spec raw.
Proof.
  intros (-> & Hlit & Henv & _)%validate_spec_inv.
  apply rbind_ok in Hlit as (identities & Hids & Hlit).
  exists spec, identities. split_and!; [done|done| |by eapply reject_env_ok].
  by eapply check_each_Forall, Hlit; intros; eapply check_credential_ok.
Qed.

(** ** Properties *)

(** The requests that create, change or delete a test case. *)
Inductive case_step (strip_html : string → string) (d : db) : db → Prop :=
| step_create new_id log_id now p body u r d' :
    create_test_case strip_html new_id log_id now p body u d = Ok (r, d') → case_step strip_html d d'
| step_update log_id now p id body u r d' :
    update_test_case strip_html log_id now p id body u d = Ok (r, d') → case_step strip_html d d'
| step_delete log_id now p id u r d' :
    delete_test_case log_id now p id u d = Ok (r, d') → case_step strip_html d d'.

Definition cases_safe (d : db) : Prop := ∀ t, t ∈ test_cases d → safe_spec (tc_spec t).


(** A preflight request, which carries the identity's credential, only ever
    goes to the origin of the request under test. *)
Theorem preflight_same_origin raw spec identities identity p :
  _validate_spec raw = Ok spec → _case_identities spec = Ok identities →
  identity ∈ identities → json_get "preflight" identity = Ok p → p ≠ JNull →
  ∃ url request request_url origin,
    json_index "url" p = Ok url ∧ json_index "request" (JObj spec) = Ok request ∧
    json_index "url" request = Ok request_url ∧
    _preflight_origin url = Ok origin ∧ _preflight_origin request_url = Ok origin.
Proof.
  intros Hv Hids Hin Hp Hnull. apply validate_spec_inv in Hv as (_ & _ & _ & Hpre).
  unfold _validate_preflight in Hpre. rewrite Hids in Hpre. simpl in Hpre.
  apply list_elem_of_lookup in Hin as [n Hn].
  rewrite check_each_ok in Hpre. specialize (Hpre n identity Hn).
  unfold check_preflight in Hpre. rewrite Hp in Hpre. simpl in Hpre.
  destruct p as [| | | | | |p]; try done; apply rbind_ok in Hpre as ([] & _ & Hpre);
    apply rbind_ok in Hpre as (url & Hurl & Hpre); try done.
  apply rbind_ok in Hpre as ([] & Hok & _). exists url.
  unfold on_value_error in Hok. destruct (preflight_url_ok url spec) as [[]|[]] eqn:E; try done.
  unfold preflight_url_ok in E. destruct url as [| | | |s| |]; try done.
  destruct (_ || _); [done|].
  apply rbind_ok in E as (origin & Ho & E). apply rbind_ok in E as (request & Hreq & E).
  apply rbind_ok in E as (request_url & Hru & E). apply rbind_ok in E as (expected & He & E).
  destruct (bool_decide _) eqn:Eb; [|done]. bool_simpl. subst. eauto 10.
Qed.

(** A two-identity case whose preflight has an explicit default port. *)
Definition demo_identity (preflight : list (string * json)) : json :=
  JObj ([("id", JStr "owner");
         ("credential", JObj [("type", JStr "bearer"); ("value_env", JStr "OWNER_TOKEN")])]
        ++ preflight).
Definition demo_preflight : json :=
  JObj [("url", JStr "https://API.acme.com:443/me"); ("expected_status", JInt 200);
        ("json_fields", JObj [("user.name", JStr "owner")])].
Definition demo_spec (more : list (string * json)) : json :=
  JObj ([("id", JStr "case-1");
         ("identities", JList [demo_identity [("preflight", demo_preflight)]]);
         ("request", JObj [("method", JStr "get"); ("url", JStr "https://api.acme.com/v1")])] ++ more).


Lemma preflight_same_origin_witness :
  ∃ url origin, json_index "url" demo_preflight = Ok url ∧ _preflight_origin url = Ok origin.
Proof.
  set (spec := match demo_spec [] with JObj d => d | _ => [] end).
  destruct (preflight_same_origin (demo_spec []) spec
    [demo_identity [("preflight", demo_preflight)]] (demo_identity [("preflight", demo_preflight)])
    demo_preflight) as (url & _ & _ & origin & Hu & _ & _ & Ho & _);
    [vm_compute; reflexivity|vm_compute; reflexivity|left|reflexivity|discriminate|].
  by exists url, origin.
Defined.

(** A verification identity with a preflight and no id gets past the shape
    checks, which only look at [spec.identities], and raises [KeyError]. *)
Theorem verification_reader_without_id_raises :
  _validate_spec (demo_spec [("write_verification", JObj [("identity",
    JObj [("credential", JObj [("type", JStr "bearer"); ("value_env", JStr "READER")]);
          ("preflight", demo_preflight)])])]) = Raise KeyError.
Proof. vm_compute. reflexivity. Qed.

(** A list where a credential type is expected is not hashable, so the
    membership test raises [TypeError] instead of refusing the spec. *)
Theorem list_credential_type_raises :
  _validate_spec (JObj [("id", JStr "case-1");
    ("identities", JList [JObj [("id", JStr "owner"); ("credential", JObj [("type", JList [])])]]);
    ("request", JObj [("method", JStr "get"); ("url", JStr "https://api.acme.com/v1")])])
  = Raise TypeError.
Proof. vm_compute. reflexivity. Qed.
