(* ===== verification/Execution.v ===== *)
(** * [execution_control.py] and the three engagement budgets

    Who owns a running attempt ([JobExecution]), the lock order of the job
    handlers, and the per-engagement limits: attempts at a time
    ([concurrency_budget.py]), represented origins ([target_budget.py]) and
    allocated seconds ([duration_budget.py]). *)
From S2P Require Import Prelude PyStr IpAddress Url Json Digest Time Models Access TestCases.
From S2P Require Import JobConfig.
From Stdlib Require Import Ascii.

Definition not_found {A} : result A := http 404 "Not Found".
Definition conflict {A} (text : string) : result A := http 409 text.

Definition LEASE_SECONDS : Z := 10.

(** ** Request bodies *)

Record TargetBinding := MkTargetBinding {
  tb_profile : string;
  tb_case_sha256 : string;
  tb_origins : list string;
}.
#[export] Instance TargetBinding_eq_dec : EqDecision TargetBinding.
Proof. solve_decision. Defined.

Record ClaimControl := MkClaimControl {
  cc_runner_id : string;
  cc_origin : string;
  cc_concurrency_budget : bool;
  cc_target_binding : option TargetBinding;
  cc_duration_seconds : option Z;
}.

Record ControlRequest := MkControlRequest { cr_claim : ClaimControl; cr_token : string }.

Inductive outcome := Completed | Failed | Cancelled | Uncertain.
#[export] Instance outcome_eq_dec : EqDecision outcome.
Proof. solve_decision. Defined.
Definition outcome_str (o : outcome) : string :=
  match o with
  | Completed => "completed" | Failed => "failed" | Cancelled => "cancelled" | Uncertain => "uncertain"
  end.

Record FinishControl := MkFinishControl { fc_request : ControlRequest; fc_outcome : outcome }.

(** The validator of [ClaimControl.origin]. *)
Definition origin_valid (value : string) : result string :=
  let? parts := urlsplit value in
  let scheme := url_scheme parts in
  let text o := match o with Some s => negb (String.eqb s "") | None => false end in
  if negb (bool_decide (scheme ∈ ["http"; "https"]))
     || negb (bool_decide (is_Some (hostname parts)))
     || text (username parts) || text (password parts)
     || negb (String.eqb (url_query parts) "") || negb (String.eqb (url_fragment parts) "")
     || endswith value "/"
     || (String.eqb scheme "http"
         && negb (bool_decide (hostname parts ∈ [Some "localhost"; Some "127.0.0.1"; Some "::1"])))
  then Raise ValueError else Ok value.

(** The field constraints of the models above; a request that violates them
    is answered 422 before any handler runs. *)
Definition valid_claim (body : ClaimControl) : bool :=
  is_ok (origin_valid (cc_origin body)) && (len (cc_origin body) <=? 500) &&
  match cc_duration_seconds body with Some n => (1 <=? n) && (n <=? 86400) | None => true end.

(** ** Visible jobs and locks *)

(** The [ScanJob.id == job_id, ScanJob.program_id.in_(accessible...)] query. *)
Definition visible_job (job_id : string) (user : user_ctx) (d : db) : option ScanJob :=
  match scan_jobs d !! job_id with
  | Some j => if bool_decide (j_program_id j ∈ accessible_engagement_ids (cu_github_id user) d)
              then Some j else None
  | None => None
  end.

Definition engagement_one (id : string) (d : db) : result Engagement :=
  match engagements d !! id with Some e => Ok e | None => Raise NoResultFound end.

Definition lock_job (d : db) (job_id : string) (user : user_ctx) : result ScanJob :=
  match visible_job job_id user d with
  | None => not_found
  | Some j => let? _ := engagement_one (j_program_id j) d in Ok j
  end.

(** The row updates the handlers make. *)
Definition set_job (j : ScanJob) (d : db) : db := set_scan_jobs (<[j_id j := j]> (scan_jobs d)) d.
Definition set_execution (x : JobExecution) (d : db) : db :=
  set_job_executions (<[x_job_id x := x]> (job_executions d)) d.

(** [hashlib.sha256(authorization.encode()).hexdigest()] of a key-bearing
    header. *)
Definition principal (authorization : string) : result string :=
  if startswith authorization "Bearer vmap_" then Ok (sha256_hex authorization)
  else http 403 "controlled execution requires an API key".

Definition owned (d : db) (job_id : string) (user : user_ctx) (authorization : string)
    (body : ControlRequest) : result JobExecution :=
  let? _ := lock_job d job_id user in
  match job_executions d !! job_id with
  | None => not_found
  | Some row =>
      if negb (String.eqb (x_owner row) (cu_github_id user))
         || negb (String.eqb (x_runner_id row) (cc_runner_id (cr_claim body)))
         || negb (String.eqb (x_origin row) (cc_origin (cr_claim body)))
      then not_found
      else
        let? p := principal authorization in
        if negb (String.eqb (x_principal_hash row) p)
           || negb (String.eqb (x_token_hash row) (sha256_hex (cr_token body)))
        then not_found else Ok row
  end.

(** ** [concurrency_budget.py] *)

Definition job_program (d : db) (job_id : string) : option string :=
  j_program_id <$> scan_jobs d !! job_id.

Definition reserves (d : db) (engagement_id : string) (kx : string * JobExecution) : Prop :=
  x_capacity_reserved kx.2 = true ∧ job_program d (x_job_id kx.2) = Some engagement_id.
#[export] Instance reserves_dec d eid kx : Decision (reserves d eid kx).
Proof. unfold reserves. apply _. Defined.

Definition reserved (d : db) (engagement_id : string) : Z :=
  Z.of_nat (size (filter (reserves d engagement_id) (job_executions d))).

Definition running_in (engagement_id : string) (kj : string * ScanJob) : Prop :=
  j_program_id kj.2 = engagement_id ∧ j_status kj.2 = "running".
#[export] Instance running_in_dec eid kj : Decision (running_in eid kj).
Proof. unfold running_in. apply _. Defined.

Definition require_idle (d : db) (engagement_id : string) : result unit :=
  if negb (reserved d engagement_id =? 0)
     || negb (bool_decide (filter (running_in engagement_id) (scan_jobs d) = ∅))
  then conflict "running or unresolved work prevents policy change or deletion" else Ok tt.

Definition opted_in (body : option ClaimControl) : bool :=
  match body with Some b => cc_concurrency_budget b | None => false end.

Definition before_claim (d : db) (engagement : Engagement) (body : option ClaimControl) : result unit :=
  match e_concurrency_limit engagement with
  | None => if opted_in body then conflict "explicit engagement concurrency policy required" else Ok tt
  | Some limit =>
      if negb (opted_in body) then conflict "engagement requires budgeted owned execution"
      else if limit <=? reserved d (e_id engagement)
      then conflict "engagement execution capacity exhausted" else Ok tt
  end.

(** ** [target_budget.py] *)

(** [except (ValueError, TypeError, KeyError, AttributeError): raise e from None] *)
Definition on_data_error {A} (m : result A) (e : exn) : result A :=
  match m with
  | Raise (ValueError | TypeError | KeyError | AttributeError) => Raise e
  | _ => m
  end.

Definition origin_of_request (request : json) : result string :=
  let? url := json_index "url" request in
  let? '(scheme, host, port) := _preflight_origin url in
  if negb (isascii host) || endswith host "." || contains "%" host then Raise ValueError
  else
    let? host :=
      if contains ":" host then
        match ipv6_address host with
        | Some (V6 ip _) => Ok ("[" +:+ ipv6_to_string ip +:+ "]")
        | _ => Raise ValueError
        end
      else Ok host in
    Ok (scheme +:+ "://" +:+ host +:+ ":" +:+ string_of_Z port).

Definition preflight_requests (identities : list json) : result (list json) :=
  let? ps := map_result (json_get "preflight") identities in
  Ok (List.filter (λ p, match p with JNull => false | _ => true end) ps).

(** Every request a case makes: the one under test, setup, preflights, and the
    verification's own with its reset. *)
Definition case_requests (case : json) : result (list json) :=
  let? request := json_index "request" case in
  let? setup := json_get "setup" case in
  let? steps := iter_or_empty setup in
  let? setup_requests := map_result (json_index "request") steps in
  let? identities := match case with JObj spec => _case_identities spec | _ => Raise AttributeError end in
  let? preflights := preflight_requests identities in
  let? verification := json_get "write_verification" case in
  let? verify_requests :=
    match verification with
    | JNull => Ok []
    | _ =>
        let? r := json_index "request" verification in
        let? reset := json_get "reset" verification in
        match reset with
        | JNull => Ok [r]
        | _ => let? rr := json_index "request" reset in Ok [r; rr]
        end
    end in
  Ok (request :: setup_requests ++ preflights ++ verify_requests).

Definition binding (case : json) : result TargetBinding :=
  on_data_error
    (let? requests := case_requests case in
     let? origins := map_result origin_of_request requests in
     let origins := sorted_strings origins in
     if bool_decide (origins = []) || (100 <? length origins)%nat then Raise ValueError
     else Ok (MkTargetBinding "gate-fixed-http/1" (case_hash case) origins))
    (HTTPException 409 (DText "unsupported target budget case")).

Record TargetReceipt := MkTargetReceipt {
  tr_binding : TargetBinding; tr_charged : Z; tr_spent : Z; tr_limit : Z }.

Definition charge (engagement : Engagement) (job : ScanJob) (case : json) (body : option ClaimControl)
    : result (option TargetReceipt * Engagement) :=
  let supplied := body ≫= cc_target_binding in
  match e_target_limit engagement with
  | None =>
      match supplied with
      | Some _ => conflict "explicit engagement target policy required"
      | None => Ok (None, engagement)
      end
  | Some limit =>
      match supplied with
      | Some sb =>
          if negb (String.eqb (j_tool_type job) _VARDRGATE) || bool_decide (case = JNull)
          then conflict "target policy requires bound fixed Gate owned execution"
          else
            let? expected := binding case in
            if negb (bool_decide (sb = expected)) then conflict "target binding mismatch"
            else
              let count := Z.of_nat (length (tb_origins expected)) in
              if limit <? e_targets_spent engagement + count
              then conflict "engagement target allowance exhausted"
              else
                let spent := e_targets_spent engagement + count in
                Ok (Some (MkTargetReceipt expected count spent limit),
                    e_set_targets_spent spent engagement)
      | None => conflict "target policy requires bound fixed Gate owned execution"
      end
  end.

(** ** [duration_budget.py] *)

Record DurationReceipt := MkDurationReceipt {
  dr_allocated_seconds : Z; dr_total : Z; dr_limit_seconds : Z }.

Definition allocate (engagement : Engagement) (body : option ClaimControl)
    : result (option DurationReceipt * Engagement) :=
  let seconds := body ≫= cc_duration_seconds in
  match e_duration_limit engagement with
  | None =>
      match seconds with
      | Some _ => conflict "explicit engagement duration policy required"
      | None => Ok (None, engagement)
      end
  | Some limit =>
      match seconds with
      | None => conflict "duration policy requires a finite owned allocation"
      | Some seconds =>
          let total := e_duration_allocated engagement + seconds in
          if limit <? total then conflict "engagement duration allocation exhausted"
          else Ok (Some (MkDurationReceipt seconds total limit),
                   e_set_duration_allocated total engagement)
      end
  end.

(** ** Issuing ownership of an attempt *)

Definition binding_json (b : TargetBinding) : json :=
  JObj [("profile", JStr (tb_profile b)); ("case_sha256", JStr (tb_case_sha256 b));
        ("origins", JList (map JStr (tb_origins b)))].

Definition issue_row (job_id : string) (user : user_ctx) (p token : string) (body : ClaimControl)
    (now : time) (target_receipt : option TargetReceipt) (duration_receipt : option DurationReceipt)
    : JobExecution :=
  MkJobExecution job_id (cc_runner_id body) (cc_origin body) (cu_github_id user) p (sha256_hex token)
    (now + seconds LEASE_SECONDS) "active" (cc_concurrency_budget body)
    (match target_receipt with Some r => tr_charged r | None => 0 end)
    (match target_receipt with Some r => binding_json (tr_binding r) | None => JNull end)
    (match duration_receipt with Some r => dr_allocated_seconds r | None => 0 end).

Definition binding_fields (x : JobExecution) : list (string * json) :=
  [("job_id", JStr (x_job_id x)); ("runner_id", JStr (x_runner_id x)); ("origin", JStr (x_origin x))].

(** The [execution_control] object of a claim response. *)
Definition issue_response (x : JobExecution) (token : string) (target_receipt : option TargetReceipt)
    (duration_receipt : option DurationReceipt) : json :=
  JObj (binding_fields x ++ [("token", JStr token); ("lease_seconds", JInt LEASE_SECONDS)]
        ++ (if x_capacity_reserved x then [("capacity_reserved", JBool true)] else [])
        ++ match target_receipt with
           | Some r => [("target_budget", JObj [("binding", binding_json (tr_binding r));
                         ("charged", JInt (tr_charged r)); ("spent", JInt (tr_spent r));
                         ("limit", JInt (tr_limit r))])]
           | None => []
           end
        ++ match duration_receipt with
           | Some r => [("duration_budget", JObj [("allocated_seconds", JInt (dr_allocated_seconds r));
                         ("total_allocated_seconds", JInt (dr_total r));
                         ("limit_seconds", JInt (dr_limit_seconds r))])]
           | None => []
           end).

(** [issue]: an existing owner of the job is a primary-key violation. *)
Definition issue (d : db) (job_id : string) (user : user_ctx) (authorization token : string)
    (body : ClaimControl) (now : time) (target_receipt : option TargetReceipt)
    (duration_receipt : option DurationReceipt) : result (json * db) :=
  let? p := principal authorization in
  let row := issue_row job_id user p token body now target_receipt duration_receipt in
  match job_executions d !! job_id with
  | Some _ => Raise IntegrityError
  | None => Ok (issue_response row token target_receipt duration_receipt, set_execution row d)
  end.
