(* ===== verification/Jobs.v ===== *)
(** * [routers/jobs.py]: the job queue and its lifecycle

    One definition per handler: creating jobs and pipelines, previewing and
    listing, the runner's pending queue, release/finish/cancel, the claim, and
    the control of an owned attempt.  The upload of a result is in [Upload].  The
    handlers' live-update notifications touch no table and are left out here;
    their broker is in [Runner].  Ids, tokens and the clock are arguments. *)
From S2P Require Import Prelude PyStr Policy Json JobConfig Digest Time Models Access Enforcement.
From S2P Require Import TestCases Execution.
From Stdlib Require Import Ascii.

Definition _PATCH_TRANSITIONS : list (string * list string) := [
  ("pending", ["done"; "failed"]);
  ("running", ["pending"; "done"; "failed"]);
  ("done", []);
  ("failed", [])].

(** [j.config or {}]; a stored configuration is an object or null. *)
Definition job_config (j : ScanJob) : dict := match j_config j with JObj c => c | _ => [] end.

Definition nonempty (o : option string) : bool :=
  match o with Some s => negb (String.eqb s "") | None => false end.

Definition managed (j : ScanJob) : bool :=
  j_authorization_contract_required j || nonempty (j_managed_approval_id j).

Definition json_opt_str (o : option string) : json := match o with Some s => JStr s | None => JNull end.
Definition json_opt_time (o : option time) : json :=
  match o with Some t => JStr (isoformat t) | None => JNull end.

Definition serialize_job (j : ScanJob) : dict :=
  [("id", JStr (j_id j)); ("program_id", JStr (j_program_id j)); ("tool_type", JStr (j_tool_type j));
   ("target_source", JStr (j_target_source j)); ("config", JObj (job_config j))]
  ++ (if managed j then [("authorization_contract_required", JBool true)] else [])
  ++ [("status", JStr (j_status j)); ("assessment", j_assessment j);
      ("depends_on", json_opt_str (j_depends_on j)); ("created_at", JStr (isoformat (j_created_at j)));
      ("started_at", json_opt_time (j_started_at j)); ("completed_at", json_opt_time (j_completed_at j));
      ("error_message", JStr (default "" (j_error_message j)))].

(** ** Queueing *)

Record JobCreate := MkJobCreate {
  jc_tool_type : string;
  jc_target_source : string;
  jc_config : option dict;
  jc_depends_on : option string;
  jc_authorization_contract_required : bool;
}.

Record PipelineStage := MkPipelineStage {
  ps_tool_type : string;
  ps_target_source : string;
  ps_config : option dict;
  ps_authorization_contract_required : bool;
}.

(** [l[:n]] *)
Definition slice_to {A} (n : Z) (l : list A) : list A :=
  if n <? 0 then take (length l - Z.to_nat (- n)) l else take (Z.to_nat n) l.

Definition scope_targets (program_id : string) (d : db) : list string :=
  List.filter (λ v, negb (String.eqb v ""))
    (map si_value (rows (λ s, String.eqb (si_program_id s) program_id && String.eqb (si_scope_type s) "in")
                    (scope_items d))).

Definition recon_targets (program_id : string) (d : db) : list string :=
  List.filter (λ v, negb (String.eqb v ""))
    (map (λ r, or_str (ri_url r) (default "" (ri_host r)))
      (rows (λ r, String.eqb (ri_program_id r) program_id) (recon_items d))).

Definition _resolve_targets (program_id target_source : string) (config : dict) (d : db)
    : result (list string) :=
  let targets := if String.eqb target_source "scope" then scope_targets program_id d
                 else recon_targets program_id d in
  let deduped := dedup targets in
  let limit := dget "limit" config in
  if truthy limit then
    let? n := try_int limit in
    Ok (match n with Some n => slice_to n deduped | None => deduped end)
  else Ok deduped.

Definition _validate_test_case_ref (program_id : string) (config : dict) (d : db) : result unit :=
  let tc_id := strip (str_or_empty (dget "test_case_id" config)) in
  check? guard (negb (String.eqb tc_id "")) 400 (_VARDRGATE +:+ " requires config.test_case_id") in
  guard (bool_decide (is_Some (find_case program_id tc_id d))) 404 "Test case not found".

Definition _validate_dependency (parent_id program_id github_id : string) (d : db) : result unit :=
  guard (match scan_jobs d !! parent_id with
         | Some p => bool_decide (j_program_id p ∈ accessible_engagement_ids github_id d)
                     && String.eqb (j_program_id p) program_id
         | None => false
         end) 400 "depends_on must reference an existing job in this engagement".

Definition _writable_engagement (job : ScanJob) (current_user : user_ctx) (d : db) : result Engagement :=
  let? engagement := get_engagement_or_404 (j_program_id job) current_user d in
  check? require_member_write engagement current_user d in
  Ok engagement.

Definition tools_text : string := repr_list (sorted_strings _VALID_TOOLS).

(** A row as [ScanJob(...)] builds it. *)
Definition new_job (id program_id owner tool source : string) (config : dict)
    (depends_on : option string) (contract : bool) (now : time) : ScanJob :=
  MkScanJob id program_id owner tool source (JObj config) JNull None contract JNull "pending"
    depends_on now None None (Some "").

Definition create_job (new_id log_id : string) (now : time) (program_id : string) (body : JobCreate)
    (current_user : user_ctx) (d : db) : result (dict * list warning * db) :=
  let? engagement := get_engagement_or_404 program_id current_user d in
  check? require_member_write engagement current_user d in
  check? guard (mem (jc_tool_type body) _VALID_TOOLS) 400 ("tool_type must be one of " +:+ tools_text) in
  check? guard (negb (jc_authorization_contract_required body)
                || String.eqb (jc_tool_type body) _VARDRGATE) 400
           "authorization contract profile supports fixed Gate jobs only" in
  check? guard (mem (jc_target_source body) _VALID_SOURCES) 400
           "target_source must be scope or recon" in
  let? config := prepare_config (e_max_request_rate engagement) (jc_tool_type body) (jc_config body) in
  check? (if String.eqb (jc_tool_type body) _VARDRGATE
          then _validate_test_case_ref program_id config d else Ok tt) in
  check? (match jc_depends_on body with
          | Some parent => if String.eqb parent "" then Ok tt
                           else _validate_dependency parent program_id (cu_github_id current_user) d
          | None => Ok tt
          end) in
  let? targets := _resolve_targets program_id (jc_target_source body) config d in
  let? decision := check d engagement (jc_tool_type body) targets now in
  let job := new_job new_id program_id (cu_github_id current_user) (jc_tool_type body)
    (jc_target_source body) config (jc_depends_on body) (jc_authorization_contract_required body) now in
  let d := log_action log_id now (cu_github_id current_user) "create" "scan_job" new_id
             (Some program_id) (set_job job d) in
  Ok (serialize_job job, as_warnings decision, d).

(** ** Pipelines *)

Fixpoint stage_configs (program_id : string) (ceiling : option Z) (i : Z) (stages : list PipelineStage)
    (d : db) : result (list dict) :=
  match stages with
  | [] => Ok []
  | stage :: rest =>
      let here := "stage " +:+ string_of_Z i in
      check? guard (mem (ps_tool_type stage) _VALID_TOOLS) 400
               (here +:+ ": tool_type must be one of " +:+ tools_text) in
      check? guard (mem (ps_target_source stage) _VALID_SOURCES) 400
               (here +:+ ": target_source must be scope or recon") in
      let? config := prepare_config ceiling (ps_tool_type stage) (ps_config stage) in
      check? (if String.eqb (ps_tool_type stage) _VARDRGATE
              then _validate_test_case_ref program_id config d else Ok tt) in
      let? configs := stage_configs program_id ceiling (i + 1) rest d in
      Ok (config :: configs)
  end.

(** The second loop: each stage waits on the one before it.  [ids] holds the
    fresh ids of each stage's job and log entry. *)
Fixpoint add_stages (program_id owner : string) (now : time) (prev : option string)
    (stages : list PipelineStage) (configs : list dict) (ids : list (string * string)) (d : db)
    : list ScanJob * db :=
  match stages, configs, ids with
  | stage :: stages, config :: configs, (new_id, log_id) :: ids =>
      let job := new_job new_id program_id owner (ps_tool_type stage) (ps_target_source stage) config
                   prev false now in
      let d := log_action log_id now owner "create" "scan_job" new_id (Some program_id) (set_job job d) in
      let '(created, d) := add_stages program_id owner now (Some new_id) stages configs ids d in
      (job :: created, d)
  | _, _, _ => ([], d)
  end.

Definition create_pipeline (ids : list (string * string)) (now : time) (program_id : string)
    (stages : list PipelineStage) (authorization_contract_required : bool)
    (current_user : user_ctx) (d : db) : result (list ScanJob * db) :=
  let? engagement := get_engagement_or_404 program_id current_user d in
  check? require_member_write engagement current_user d in
  check? guard (negb (authorization_contract_required
                      || existsb ps_authorization_contract_required stages)) 400
           "contract-required pipelines are unsupported" in
  let? configs := stage_configs program_id (e_max_request_rate engagement) 0 stages d in
  Ok (add_stages program_id (cu_github_id current_user) now None stages configs ids d).

(** ** Reading the queue *)

(** [count], [sample] and [truncated]. *)
Definition preview_job (program_id tool_type target_source : string) (config : option dict)
    (current_user : user_ctx) (d : db) : result (Z * list string * bool) :=
  let? _ := get_engagement_or_404 program_id current_user d in
  check? guard (mem tool_type _VALID_TOOLS) 400 ("tool_type must be one of " +:+ tools_text) in
  check? guard (mem target_source _VALID_SOURCES) 400 "target_source must be scope or recon" in
  check? (match default [] config with [] => Ok tt | c => _validate_job_config tool_type c end) in
  let? targets := _resolve_targets program_id target_source (default [] config) d in
  Ok (Z.of_nat (length targets), take 20 targets, (20 <? length targets)%nat).

Definition jobs_where (p : ScanJob → bool) (d : db) : list ScanJob :=
  List.filter p (map snd (map_to_list (scan_jobs d))).

(** [ORDER BY created_at DESC, id] *)
Definition newest_first (a b : ScanJob) : Prop :=
  j_created_at b < j_created_at a ∨ j_created_at a = j_created_at b ∧ String.le (j_id a) (j_id b).
#[export] Instance newest_first_dec : RelDecision newest_first.
Proof. intros a b. unfold newest_first. apply _. Defined.
(** [ORDER BY created_at ASC] *)
Definition oldest_first (a b : ScanJob) : Prop := j_created_at a <= j_created_at b.
#[export] Instance oldest_first_dec : RelDecision oldest_first.
Proof. intros a b. unfold oldest_first. apply _. Defined.

Definition list_jobs (program_id : string) (status : option string) (limit : option nat) (offset : nat)
    (current_user : user_ctx) (d : db) : result (list dict * Z) :=
  let? _ := get_engagement_or_404 program_id current_user d in
  let found := jobs_where (λ j, String.eqb (j_program_id j) program_id
                 && match status with Some s => String.eqb (j_status j) s | None => true end) d in
  let page := drop offset (merge_sort newest_first found) in
  let page := match limit with Some n => take n page | None => page end in
  Ok (map serialize_job page, Z.of_nat (length found)).

(** A job failed by the queue itself. *)
Definition fail_job (now : time) (message : string) (j : ScanJob) : ScanJob :=
  j_set_error_message (Some message) (j_set_completed_at (Some now) (j_set_status "failed" j)).

(** [_filter_by_dependencies]: parent statuses are read once, before any job
    of the batch is failed. *)
Definition dependency_verdict (d : db) (j : ScanJob) : option (option string) :=
  match j_depends_on j with
  | None | Some "" => None
  | Some parent => Some (j_status <$> scan_jobs d !! parent)
  end.

Definition dependency_met (d : db) (j : ScanJob) : bool :=
  match dependency_verdict d j with
  | None => true
  | Some (Some s) => String.eqb s "done"
  | Some None => false
  end.

Definition dependency_failure (d : db) (j : ScanJob) : option string :=
  match dependency_verdict d j with
  | Some None => Some "upstream pipeline stage not found"
  | Some (Some s) => if String.eqb s "failed" then Some "upstream pipeline stage failed" else None
  | None => None
  end.

Fixpoint fail_all (now : time) (message : ScanJob → option string) (jobs : list ScanJob) (d : db) : db :=
  match jobs with
  | [] => d
  | j :: rest =>
      fail_all now message rest
        (match message j with Some m => set_job (fail_job now m j) d | None => d end)
  end.

Definition _filter_by_dependencies (now : time) (pending : list ScanJob) (d : db) : list ScanJob * db :=
  (List.filter (dependency_met d) pending, fail_all now (dependency_failure d) pending d).

Definition job_case_id (j : ScanJob) : string := str_or_empty (dget "test_case_id" (job_config j)).

(** The stored spec of a Gate job: an object with at least one member. *)
Definition job_spec (d : db) (j : ScanJob) : option json :=
  if String.eqb (job_case_id j) "" then None
  else match find_case (j_program_id j) (job_case_id j) d with
       | Some row => if truthy (tc_spec row) then Some (tc_spec row) else None
       | None => None
       end.

Definition case_missing (d : db) (j : ScanJob) : option string :=
  if negb (String.eqb (j_tool_type j) _VARDRGATE) then None
  else match job_spec d j with
       | Some _ => None
       | None => Some ("authorization test case "
                       +:+ (if String.eqb (job_case_id j) "" then "(unset)" else job_case_id j)
                       +:+ " no longer exists")
       end.

(** [_resolve_test_cases]: the jobs handed over, each with its stored spec. *)
Definition _resolve_test_cases (now : time) (jobs : list ScanJob) (d : db)
    : list (ScanJob * option json) * db :=
  (map (λ j, (j, if String.eqb (j_tool_type j) _VARDRGATE then job_spec d j else None))
     (List.filter (λ j, match case_missing d j with None => true | Some _ => false end) jobs),
   fail_all now (case_missing d) jobs d).

Definition _serialize_with_spec (js : ScanJob * option json) : dict :=
  match js.2 with
  | Some spec => dset "config" (JObj (dset "test_case" spec (job_config js.1))) (serialize_job js.1)
  | None => serialize_job js.1
  end.

Definition pending_jobs (current_user : user_ctx) (d : db) : list ScanJob :=
  merge_sort oldest_first
    (jobs_where (λ j, bool_decide (j_program_id j ∈ accessible_engagement_ids (cu_github_id current_user) d)
                      && String.eqb (j_status j) "pending") d).

Definition get_pending_jobs (now : time) (current_user : user_ctx) (d : db) : list dict * db :=
  let '(eligible, d1) := _filter_by_dependencies now (pending_jobs current_user d) d in
  let '(handed, d2) := _resolve_test_cases now eligible d1 in
  (map _serialize_with_spec handed, d2).

(** ** Release, finish, cancel *)

Definition transition_allowed (from to : string) : result bool :=
  match lookup_key from _PATCH_TRANSITIONS with
  | Some targets => Ok (mem to targets)
  | None => Raise KeyError
  end.

Record JobStatusUpdate := MkJobStatusUpdate { su_status : string; su_error_message : option string }.

(** The answer: the job, the state of its owner when it has one, and the
    webhook the background task will call. *)
Record UpdateResult := MkUpdateResult {
  ur_job : dict;
  ur_execution_state : option string;
  ur_webhook : option (string * string);
}.

(** The webhook of a failure that is not an operator's cancel. *)
Definition failure_webhook (job : ScanJob) (current_user : user_ctx) (d : db) : option (string * string) :=
  let error := default "" (j_error_message job) in
  if String.eqb (j_status job) "failed" && negb (contains "cancelled" (lower error)) then
    match first_row (λ u, String.eqb (u_github_id u) (cu_github_id current_user)) (users d) with
    | Some user =>
        match u_webhook_url user with
        | Some url =>
            if String.eqb url "" then None
            else
              let program_name := match engagements d !! j_program_id job with
                                  | Some e => e_name e | None => j_program_id job end in
              Some (url, "❌ VardrMap: " +:+ j_tool_type job +:+ " job failed for " +:+ program_name
                         +:+ (if String.eqb error "" then "" else " — " +:+ take_string 300 error))
        | None => None
        end
    | None => None
    end
  else None.

Definition patched (body : JobStatusUpdate) (now : time) (job : ScanJob) : ScanJob :=
  let job := j_set_status (su_status body) job in
  let job := if String.eqb (su_status body) "done" || String.eqb (su_status body) "failed"
             then j_set_completed_at (Some now) job else job in
  match su_error_message body with Some m => j_set_error_message (Some m) job | None => job end.

Definition update_job (job_id : string) (body : JobStatusUpdate) (now : time)
    (current_user : user_ctx) (d : db) : result (UpdateResult * db) :=
  let? job := lock_job d job_id current_user in
  check? guard (mem (su_status body) ["pending"; "running"; "done"; "failed"]) 400
           "status must be one of ('pending', 'running', 'done', 'failed')" in
  let? _ := _writable_engagement job current_user d in
  match job_executions d !! job_id with
  | Some execution =>
      let? _ := require_full_scope current_user in
      if String.eqb (su_status body) "failed" && String.eqb (j_status job) "running" then
        let execution := if String.eqb (x_state execution) "active"
                         then x_set_state "cancel_requested" execution else execution in
        Ok (MkUpdateResult (serialize_job job) (Some (x_state execution)) None, set_execution execution d)
      else conflict "controlled execution requires owned finalization"
  | None =>
      if String.eqb (su_status body) (j_status job) && negb (String.eqb (su_status body) "running")
      then Ok (MkUpdateResult (serialize_job job) None None, d)
      else
        let? allowed := transition_allowed (j_status job) (su_status body) in
        if negb allowed then
          conflict ("job is " +:+ j_status job +:+ "; it cannot be set to " +:+ su_status body
                    +:+ (if String.eqb (su_status body) "running"
                         then "; claim it with POST /jobs/{id}/claim" else ""))
        else
          let job := patched body now job in
          let d := set_job job d in
          Ok (MkUpdateResult (serialize_job job) None (failure_webhook job current_user d), d)
  end.

(** ** The claim

    [claim_job] reads the job first ([before]), then locks the engagement and
    decides, so other requests may commit in between: [d] is the database once
    the lock is held.  The conditional UPDATE reads [d]. *)

Definition stopped (d : db) (program_id : string) : bool :=
  match engagements d !! program_id with
  | Some e => bool_decide (is_Some (e_stop_work_at e)) | None => false end.

(** The rows the UPDATE of [claim_job] affects. *)
Definition claimable (job_id : string) (user : user_ctx) (d : db) : option ScanJob :=
  match visible_job job_id user d with
  | Some j =>
      if String.eqb (j_status j) "pending" && negb (j_authorization_contract_required j)
         && negb (bool_decide (is_Some (j_managed_approval_id j))) && negb (stopped d (j_program_id j))
      then Some j else None
  | None => None
  end.

(** The advisory half under the engagement lock: capacity, then policy. *)
Definition claim_checks (pending : ScanJob) (body : option ClaimControl) (now : time) (d : db)
    : result (Engagement * list warning) :=
  let? engagement := engagement_one (j_program_id pending) d in
  check? before_claim d engagement body in
  let? targets := _resolve_targets (j_program_id pending) (j_target_source pending)
                    (job_config pending) d in
  let? decision := check d engagement (j_tool_type pending) targets now in
  Ok (engagement, as_warnings decision).

Definition claim_snapshot (pending : ScanJob) (d : db) : result json :=
  if String.eqb (j_tool_type pending) _VARDRGATE then
    match find_case (j_program_id pending) (job_case_id pending) d with
    | Some case => Ok (tc_spec case)
    | None => http 404 "Test case not found"
    end
  else Ok JNull.

Definition claimed_job (now : time) (snapshot : json) (j : ScanJob) : ScanJob :=
  j_set_case_snapshot snapshot (j_set_started_at (Some now) (j_set_status "running" j)).

(** The UPDATE and what follows it: budgets, then ownership of the attempt. *)
Definition claim_write (job_id : string) (user : user_ctx) (authorization token : string)
    (body : option ClaimControl) (now : time) (pending : ScanJob) (engagement : Engagement)
    (snapshot : json) (row : ScanJob) (d : db) : result (option json * db) :=
  let? '(target_receipt, engagement) := charge engagement pending snapshot body in
  let? '(duration_receipt, engagement) := allocate engagement body in
  let d := set_engagement engagement (set_job (claimed_job now snapshot row) d) in
  match body with
  | None => Ok (None, d)
  | Some b =>
      let? '(execution, d) := issue d job_id user authorization token b now target_receipt
                                duration_receipt in
      Ok (Some execution, d)
  end.

Record ClaimResult := MkClaimResult {
  cr_job : dict; cr_warnings : list warning; cr_execution : option json }.

Definition claim_response (j : ScanJob) (warnings : list warning) (execution : option json)
    : ClaimResult :=
  MkClaimResult
    (if bool_decide (j_case_snapshot j = JNull) then serialize_job j
     else dset "config" (JObj (dset "test_case" (j_case_snapshot j) (job_config j))) (serialize_job j))
    warnings execution.

(** No row was affected: not found, or no longer pending. *)
Definition claim_lost {A} (job_id : string) (user : user_ctx) (d : db) : result A :=
  match visible_job job_id user d with
  | None => not_found
  | Some j => conflict ("job is already " +:+ j_status j)
  end.

Definition claim_job (job_id : string) (user : user_ctx) (authorization token : string)
    (body : option ClaimControl) (now : time) (before d : db) : result (ClaimResult * db) :=
  match visible_job job_id user before with
  | None =>
      match claimable job_id user d with
      | None => claim_lost job_id user d
      | Some _ => Raise NameError
      end
  | Some pending =>
      let? _ := _writable_engagement pending user before in
      if managed pending then conflict "managed authorization required; legacy claim refused"
      else if String.eqb (j_status pending) "pending" then
        let? '(engagement, warnings) := claim_checks pending body now d in
        let? snapshot := claim_snapshot pending d in
        match claimable job_id user d with
        | None => claim_lost job_id user d
        | Some row =>
            let? '(execution, d) := claim_write job_id user authorization token body now pending
                                      engagement snapshot row d in
            Ok (claim_response (claimed_job now snapshot row) warnings execution, d)
        end
      else
        match claimable job_id user d with
        | None => claim_lost job_id user d
        | Some _ => Raise NameError
        end
  end.

(** ** Control of an owned attempt *)

(** [binding], [state], [status], [termination_confirmed]. *)
Definition execution_status (job_id : string) (now : time) (user : user_ctx) (d : db) : result dict :=
  match visible_job job_id user d with
  | None => not_found
  | Some job =>
      match job_executions d !! job_id with
      | None => not_found
      | Some execution =>
          let state := if String.eqb (x_state execution) "active" && (x_expires_at execution <=? now)
                       then "uncertain" else x_state execution in
          Ok (binding_fields execution ++
              [("state", JStr state); ("status", JStr (j_status job));
               ("termination_confirmed", JBool (String.eqb (x_state execution) "cancelled"))])
      end
  end.

Definition job_one (job_id : string) (d : db) : result ScanJob :=
  match scan_jobs d !! job_id with Some j => Ok j | None => Raise NoResultFound end.

(** The state an attempt falls into when asked whether it may go on. *)
Definition refreshed_state (stop : bool) (now : time) (x : JobExecution) : JobExecution :=
  let x := if stop && String.eqb (x_state x) "active" then x_set_state "cancel_requested" x else x in
  if (x_expires_at x <=? now) && String.eqb (x_state x) "active" then x_set_state "uncertain" x else x.

Definition refresh_execution (job_id : string) (body : ControlRequest) (authorization : string)
    (now : time) (user : user_ctx) (d : db) : result (bool * db) :=
  let? execution := owned d job_id user authorization body in
  let? job := job_one job_id d in
  let? engagement := _writable_engagement job user d in
  if managed job then conflict "managed live control unsupported by legacy adapter"
  else
    let execution := refreshed_state (bool_decide (is_Some (e_stop_work_at engagement))) now execution in
    let go_on := String.eqb (x_state execution) "active" && String.eqb (j_status job) "running" in
    let execution := if go_on then x_set_expires_at (now + seconds LEASE_SECONDS) execution
                     else execution in
    Ok (go_on, set_execution execution d).

Definition final_states : list string := ["completed"; "failed"; "cancelled"].

Definition finished_job (o : outcome) (now : time) (job : ScanJob) : ScanJob :=
  let ok := bool_decide (o = Completed) in
  j_set_error_message (Some (if ok then "" else outcome_str o))
    (j_set_completed_at (Some now) (j_set_status (if ok then "done" else "failed") job)).

(** [finish_execution]: the refused completion commits the cancel request
    before it raises. *)
Definition finish_execution (job_id : string) (body : FinishControl) (authorization : string)
    (now : time) (user : user_ctx) (d : db) : result string * db :=
  let o := fc_outcome body in
  match (let? execution := owned d job_id user authorization (fc_request body) in
         let? job := job_one job_id d in
         let? engagement := _writable_engagement job user d in
         if managed job then conflict "managed finalization unsupported by legacy adapter"
         else Ok (execution, job, engagement)) with
  | Raise e => (Raise e, d)
  | Ok (execution, job, engagement) =>
      if mem (x_state execution) final_states then
        if String.eqb (x_state execution) (outcome_str o) then (Ok (x_state execution), d)
        else (conflict "execution already finalized", d)
      else if bool_decide (o = Completed)
              && (negb (String.eqb (x_state execution) "active") || (x_expires_at execution <=? now)
                  || bool_decide (is_Some (e_stop_work_at engagement)))
      then (conflict "stop or expired lease prevents successful completion",
            set_execution (x_set_state "cancel_requested" execution) d)
      else
        let execution := x_set_state (outcome_str o) execution in
        if bool_decide (o = Uncertain) then (Ok (outcome_str o), set_execution execution d)
        else (Ok (outcome_str o),
              set_job (finished_job o now job) (set_execution (x_set_capacity_reserved false execution) d))
  end.

(** ** Events and deletion *)

Definition create_job_event (new_id : string) (now : time) (job_id kind text : string)
    (user : user_ctx) (d : db) : result (JobEvent * db) :=
  match visible_job job_id user d with
  | None => not_found
  | Some job =>
      let? _ := _writable_engagement job user d in
      let event := MkJobEvent new_id job_id (cu_github_id user) kind text now in
      Ok (event, set_job_events (job_events d ++ [event]) d)
  end.

Definition earlier_event (a b : JobEvent) : Prop :=
  je_created_at a < je_created_at b ∨ je_created_at a = je_created_at b ∧ String.le (je_id a) (je_id b).
#[export] Instance earlier_event_dec : RelDecision earlier_event.
Proof. intros a b. unfold earlier_event. apply _. Defined.

Definition get_job_events (job_id : string) (limit : option nat) (offset : nat) (user : user_ctx)
    (d : db) : result (list JobEvent * Z) :=
  match visible_job job_id user d with
  | None => not_found
  | Some _ =>
      let found := rows (λ e, String.eqb (je_job_id e) job_id) (job_events d) in
      let page := drop offset (merge_sort earlier_event found) in
      Ok (match limit with Some n => take n page | None => page end, Z.of_nat (length found))
  end.

(** Deleting a job row with what hangs on it: events, owner, receipt and
    result links go, evidence and import records stay without the link. *)
Definition drop_job (job_id : string) (d : db) : db :=
  let mine {A} (f : A → string) (x : A) := String.eqb (f x) job_id in
  set_evidence
    (update_rows (λ e, bool_decide (ev_job_id e = Some job_id)) (ev_set_job_id None) (evidence d))
  (set_job_result_receipts (rows (λ r, negb (mine rr_job_id r)) (job_result_receipts d))
  (set_job_events (rows (λ e, negb (mine je_job_id e)) (job_events d))
  (set_job_result_links (rows (λ l, negb (mine rl_job_id l)) (job_result_links d))
  (set_import_records
    (update_rows (λ r, bool_decide (im_job_id r = Some job_id)) (im_set_job_id None) (import_records d))
  (set_job_executions (delete job_id (job_executions d))
  (set_scan_jobs (delete job_id (scan_jobs d)) d)))))).

Definition delete_job (log_id : string) (now : time) (job_id : string) (user : user_ctx) (d : db)
    : result (string * db) :=
  let? user := require_full_scope user in
  let? job := lock_job d job_id user in
  check? (match job_executions d !! job_id with
          | Some x => if x_capacity_reserved x
                      then conflict "unresolved execution capacity cannot be deleted" else Ok tt
          | None => Ok tt
          end) in
  let? _ := _writable_engagement job user d in
  let d := log_action log_id now (cu_github_id user) "delete" "scan_job" job_id
             (Some (j_program_id job)) d in
  Ok ("Job deleted", drop_job job_id d).
