(* ===== verification/Engagements.v ===== *)
(** * [routers/engagements.py]: execution policies, the emergency brake, deletion

    The owner's three execution policies, stop-work and its release, and the
    deletion of an engagement with everything that hangs on it.  Creation and
    update are in [Authorizations], the reading endpoints in [Serializers]. *)
From S2P Require Import Prelude PyStr Json Time Models Access Execution.

(** The guards the three policy endpoints share: a full-scope key, a visible
    engagement, its owner, the row lock, nothing running or reserved. *)
Definition policy_guard (program_id : string) (current_user : user_ctx) (d : db) : result Engagement :=
  let? current_user := require_full_scope current_user in
  let? engagement := get_engagement_or_404 program_id current_user d in
  check? require_engagement_owner engagement current_user in
  let? engagement := lock d engagement in
  check? require_idle d program_id in
  Ok engagement.

Definition bump (changed : bool) (e : Engagement) : Engagement :=
  if changed then e_set_managed_authority_revision (e_managed_authority_revision e + 1) e else e.

(** A limit may not be dropped below what is already accounted for, nor taken
    away while anything is. *)
Definition limit_ok (limit : option Z) (accounted : Z) : bool :=
  match limit with Some l => accounted <=? l | None => accounted =? 0 end.

Definition configure_duration (log_id : string) (now : time) (program_id : string)
    (limit_seconds : option Z) (current_user : user_ctx) (d : db) : result (Z * db) :=
  let? engagement := policy_guard program_id current_user d in
  let allocated := e_duration_allocated engagement in
  check? (if limit_ok limit_seconds allocated then Ok tt
          else conflict "allocated duration cannot be reset or disabled") in
  let e := e_set_duration_limit limit_seconds
             (bump (negb (bool_decide (e_duration_limit engagement = limit_seconds))) engagement) in
  Ok (allocated, log_action log_id now (cu_github_id current_user) "duration_config" "engagement"
                   program_id (Some program_id) (set_engagement e d)).

Definition configure_targets (log_id : string) (now : time) (program_id : string)
    (limit : option Z) (current_user : user_ctx) (d : db) : result (Z * db) :=
  let? engagement := policy_guard program_id current_user d in
  let spent := e_targets_spent engagement in
  check? (if limit_ok limit spent then Ok tt
          else conflict "spent target allowance cannot be reset or disabled") in
  let e := e_set_target_limit limit
             (bump (negb (bool_decide (e_target_limit engagement = limit))) engagement) in
  Ok (spent, log_action log_id now (cu_github_id current_user) "target_config" "engagement"
               program_id (Some program_id) (set_engagement e d)).

Definition configure_concurrency (log_id : string) (now : time) (program_id : string)
    (limit : option Z) (current_user : user_ctx) (d : db) : result (unit * db) :=
  let? engagement := policy_guard program_id current_user d in
  let e := e_set_concurrency_limit limit
             (bump (negb (bool_decide (e_concurrency_limit engagement = limit))) engagement) in
  Ok (tt, log_action log_id now (cu_github_id current_user) "budget_config" "engagement"
            program_id (Some program_id) (set_engagement e d)).

(** ** Stop-work *)

(** The bulk UPDATE: every active attempt of the engagement is asked to stop. *)
Definition cancel_active (program_id : string) (d : db) : db :=
  set_job_executions
    ((λ x, if bool_decide (job_program d (x_job_id x) = Some program_id)
              && String.eqb (x_state x) "active"
           then x_set_state "cancel_requested" x else x) <$> job_executions d) d.

Definition engage_stop_work (log_id : string) (now : time) (program_id reason : string)
    (current_user : user_ctx) (d : db) : result (Engagement * db) :=
  let? engagement := get_engagement_or_404 program_id current_user d in
  check? require_member_write engagement current_user d in
  let? engagement := lock d engagement in
  let e := match e_stop_work_at engagement with
           | None => e_set_stop_work_at (Some now) (bump true engagement)
           | Some _ => engagement
           end in
  let e := e_set_stop_work_reason (Some reason) e in
  Ok (e, log_action log_id now (cu_github_id current_user) "stop_work" "engagement" program_id
           (Some program_id) (cancel_active program_id (set_engagement e d))).

Definition release_stop_work (log_id : string) (now : time) (program_id : string)
    (current_user : user_ctx) (d : db) : result (Engagement * db) :=
  let? engagement := get_engagement_or_404 program_id current_user d in
  check? require_engagement_owner engagement current_user in
  let? engagement := lock d engagement in
  let e := bump (bool_decide (is_Some (e_stop_work_at engagement))) engagement in
  let e := e_set_stop_work_reason (Some "") (e_set_stop_work_at None e) in
  Ok (e, log_action log_id now (cu_github_id current_user) "resume_work" "engagement" program_id
           (Some program_id) (set_engagement e d)).

(** ** Deletion *)

Definition others {A} (program_id : string) (f : A → string) (t : list A) : list A :=
  rows (λ r, negb (String.eqb (f r) program_id)) t.

(** The job of a row, when it belongs to an engagement other than [program_id]
    (or to none the tables know). *)
Definition job_survives (program_id : string) (d : db) (job_id : string) : bool :=
  negb (bool_decide (job_program d job_id = Some program_id)).

(** A deliverable of the engagement, whose revisions go with it. *)
Definition deliverable_of (p deliverable_id : string) (d : db) : bool :=
  bool_decide (is_Some (first_row (λ e, String.eqb (ed_id e) deliverable_id && String.eqb (ed_program_id e) p)
                          (engagement_deliverables d))).

(** The rows removed with an engagement: its own, by relationship or foreign
    key, and those of its jobs. *)
Definition drop_engagement (p : string) (d : db) : db :=
  let keep_job {A} (f : A → string) (x : A) := job_survives p d (f x) in
  set_engagements (delete p (engagements d))
  (set_authorizations (others p au_program_id (authorizations d))
  (set_scope_items (others p si_program_id (scope_items d))
  (set_assets (others p as_program_id (assets d))
  (set_asset_relationships (others p ar_program_id (asset_relationships d))
  (set_recon_items (others p ri_program_id (recon_items d))
  (set_scan_items (others p sc_program_id (scan_items d))
  (set_evidence (others p ev_program_id (evidence d))
  (set_program_members (others p em_program_id (program_members d))
  (set_test_cases (others p tc_program_id (test_cases d))
  (set_api_endpoints (others p ae_program_id (api_endpoints d))
  (set_api_exchanges (others p ax_program_id (api_exchanges d))
  (set_import_records (others p im_program_id (import_records d))
  (set_services (others p sv_program_id (services d))
  (set_agent_proposals (others p pp_program_id (agent_proposals d))
  (set_manual_tests (others p mt_program_id (manual_tests d))
  (set_findings (others p fi_program_id (findings d))
  (set_reports (others p rp_program_id (reports d))
  (set_finding_activities (others p fa_program_id (finding_activities d))
  (set_scan_profiles (others p pf_program_id (scan_profiles d))
  (set_engagement_deliverables (others p ed_program_id (engagement_deliverables d))
  (set_deliverable_revisions (rows (λ r, negb (deliverable_of p (dr_deliverable_id r) d)) (deliverable_revisions d))
  (set_job_result_links (rows (keep_job rl_job_id) (job_result_links d))
  (set_job_events (rows (keep_job je_job_id) (job_events d))
  (set_job_result_receipts (rows (keep_job rr_job_id) (job_result_receipts d))
  (set_job_executions (filter (λ kx, job_survives p d (x_job_id kx.2) = true) (job_executions d))
  (set_scan_jobs (filter (λ kj, j_program_id kj.2 ≠ p) (scan_jobs d)) d)))))))))))))))))))))))))).

Definition delete_engagement (log_id : string) (now : time) (program_id : string)
    (current_user : user_ctx) (d : db) : result (string * db) :=
  let? engagement := get_engagement_or_404 program_id current_user d in
  check? require_engagement_owner engagement current_user in
  let? engagement := lock d engagement in
  check? (if bool_decide (is_Some (e_concurrency_limit engagement))
             || negb (reserved d program_id =? 0)
          then require_idle d program_id else Ok tt) in
  check? (if e_targets_spent engagement =? 0 then Ok tt
          else conflict "spent target accounting cannot be deleted") in
  check? (if e_duration_allocated engagement =? 0 then Ok tt
          else conflict "allocated duration accounting cannot be deleted") in
  Ok ("Engagement deleted",
      drop_engagement program_id
        (log_action log_id now (cu_github_id current_user) "delete" "engagement" program_id None d)).

(** ** The user row behind a token *)

Definition auth_sync (now : time) (current_user : user_ctx) (d : db) : User * db :=
  let mine u := String.eqb (u_github_id u) (cu_github_id current_user) in
  match first_row mine (users d) with
  | Some user =>
      let sync := λ u, MkUser (u_github_id u) (Some (cu_username current_user))
                    (Some (cu_email current_user)) (u_webhook_url u) (u_notify_min_severity u)
                    (u_created_at u) in
      (sync user, set_users (update_rows mine sync (users d)) d)
  | None =>
      let user := MkUser (cu_github_id current_user) (Some (cu_username current_user))
                    (Some (cu_email current_user)) (Some "") (Some "high") (Some now) in
      (user, set_users (users d ++ [user]) d)
  end.
