(* ===== verification/Schemas.v ===== *)
(** * [security.py], [schemas.py] and [deps.parse_iso_datetime]

    The sanitisers every stored text passes, the request models whose
    validation a handler calls itself, and the reading of ISO 8601 dates.
    Tag stripping is nh3's and character references are [html]'s: the two
    functions are parameters. *)
From S2P Require Import Prelude PyStr Url Regex Json Time Policy Redaction JobConfig TestCases.
From Stdlib Require Import Ascii.

(** ** [security.py] *)

Definition _remove_null_bytes (value : string) : string := filter_string (λ c, negb (code c =? 0)) value.

Definition alternatives (l : list regex) : regex := fold_right Alt (Chr (λ _, false)) l.

Definition _INJECT_RE : regex :=
  alternatives
    (map WordI ["<script"; "<iframe"; "<object"; "<embed"; "<svg"; "<img"]
     ++ [WordI "javascript" ⋅ spaces ⋅ Lit ":";
         WordI "data" ⋅ spaces ⋅ Lit ":" ⋅ Star (Chr not_newline) ⋅ WordI "text/html"]).

Definition _EVENT_HANDLER_RE : regex := WordI "on" ⋅ Plus (Chr is_word) ⋅ spaces ⋅ Lit "=".

Definition _URL_BAD_CHARS (c : ascii) : bool := in_range 0 32 c || in_range 127 159 c.

Definition _ALLOWED_URL_SCHEMES : list string := ["http"; "https"].

(** [value.replace("&", "&amp;")] *)
Fixpoint escape_ampersand (s : string) : string :=
  match s with
  | EmptyString => EmptyString
  | String c s => if Ascii.eqb c "&" then "&amp;" +:+ escape_ampersand s else String c (escape_ampersand s)
  end.

(** [_remove_null_bytes(value).strip()] against the rules of a link. *)
Definition validate_safe_url (value : string) : result string :=
  if String.eqb value "" then Ok ""
  else
    let cleaned := strip (_remove_null_bytes value) in
    if String.eqb cleaned "" then Ok ""
    else if any_char _URL_BAD_CHARS cleaned then Raise ValueError
    else
      let? parsed := urlsplit cleaned in
      if negb (bool_decide (lower (url_scheme parsed) ∈ _ALLOWED_URL_SCHEMES)) then Raise ValueError
      else if String.eqb (url_netloc parsed) "" then Raise ValueError
      else Ok cleaned.

(** ** Fields as pydantic checks them

    A field is valid, invalid (collected into the [ValidationError]), or its
    validator let another exception through, which ends the validation. *)

Inductive field (A : Type) :=
| Valid (a : A)
| Invalid
| Broken (e : exn).
Arguments Valid {A} a.
Arguments Invalid {A}.
Arguments Broken {A} e.

Section Sanitisers.
(** [nh3.clean(value, tags=set())] and [html.unescape]. *)
Context (nh3_clean html_unescape : string → string).

Definition strip_html (value : string) : string :=
  if String.eqb value "" then ""
  else strip (html_unescape (nh3_clean (escape_ampersand (_remove_null_bytes value)))).

Definition sanitize_identifier (value : string) : result string :=
  if String.eqb value "" then Ok ""
  else
    let raw := _remove_null_bytes value in
    if search _INJECT_RE raw || search _EVENT_HANDLER_RE raw then Raise ValueError
    else Ok (strip (html_unescape (nh3_clean (escape_ampersand raw)))).

Definition of_result {A} (m : result A) : field A :=
  match m with Ok a => Valid a | Raise ValueError => Invalid | Raise e => Broken e end.

(** Validation of the next field goes on after an invalid one. *)
Definition then_field {A B C} (x : field A) (y : field B) (f : A → B → C) : field C :=
  match x, y with
  | Broken e, _ => Broken e
  | _, Broken e => Broken e
  | Valid a, Valid b => Valid (f a b)
  | _, _ => Invalid
  end.

(** A before-validator on the value given: [None] and every other falsy value
    become the empty text, and only a text has [replace]. *)
Definition cleaned (f : string → result string) (v : json) : field string :=
  if truthy v then match v with JStr s => of_result (f s) | _ => Broken AttributeError end else Valid "".

Definition bounded (lo hi : Z) (x : field string) : field string :=
  match x with
  | Valid s => if (lo <=? len s) && (len s <=? hi) then Valid s else Invalid
  | _ => x
  end.

(** The value of a field of the request, or its default when it is absent. *)
Definition given {A} (k : string) (d : dict) (absent : field A) (f : json → field A) : field A :=
  match lookup_key k d with Some v => f v | None => absent end.

Definition one_of (options : list string) (v : json) : field string :=
  match v with JStr s => if mem s options then Valid s else Invalid | _ => Invalid end.

(** [Optional[str]] without a validator. *)
Definition optional_text (hi : Z) (v : json) : field (option string) :=
  match v with
  | JNull => Valid None
  | JStr s => if len s <=? hi then Valid (Some s) else Invalid
  | _ => Invalid
  end.

(** ** The models the proposals validate with *)

Definition ScopeKind : list string := ["domain"; "subdomain"; "url"; "cidr"; "api"; "mobile"].

Record ScopeItemCreate := MkScopeItemCreate { sic_value : string; sic_kind : string; sic_notes : string }.

Definition scope_item_create (payload : dict) : field ScopeItemCreate :=
  then_field
    (given "value" payload Invalid (λ v, bounded 1 500 (cleaned sanitize_identifier v)))
    (then_field
       (given "kind" payload (Valid "domain") (one_of ScopeKind))
       (given "notes" payload (Valid "") (λ v, bounded 0 2000 (cleaned (λ s, Ok (strip_html s)) v)))
       pair)
    (λ value kn, MkScopeItemCreate value kn.1 kn.2).

Record AuthorizationCreate := MkAuthorizationCreate {
  acr_permits : string;
  acr_authorized_by : string;
  acr_authorized_at : option string;
  acr_reference : string;
  acr_window_start : option string;
  acr_window_end : option string;
  acr_notes : string;
}.

Definition authorization_create (payload : dict) : field AuthorizationCreate :=
  let prose k hi := given k payload (Valid "") (λ v, bounded 0 hi (cleaned (λ s, Ok (strip_html s)) v)) in
  let short k hi := given k payload (Valid "") (λ v, bounded 0 hi (cleaned sanitize_identifier v)) in
  let date k := given k payload (Valid None) (optional_text 40) in
  then_field (prose "permits" 10000)
  (then_field (short "authorized_by" 200)
  (then_field (date "authorized_at")
  (then_field (short "reference" 500)
  (then_field (date "window_start")
  (then_field (date "window_end") (prose "notes" 5000)
    pair) pair) pair) pair) pair)
    (λ permits '(by_, (at_, (ref, (start, (stop, notes))))),
       MkAuthorizationCreate permits by_ at_ ref start stop notes).

Definition json_text (o : option string) : json := match o with Some s => JStr s | None => JNull end.

(** [auth.model_dump()] *)
Definition authorization_dump (a : AuthorizationCreate) : dict :=
  [("permits", JStr (acr_permits a)); ("authorized_by", JStr (acr_authorized_by a));
   ("authorized_at", json_text (acr_authorized_at a)); ("reference", JStr (acr_reference a));
   ("window_start", json_text (acr_window_start a)); ("window_end", json_text (acr_window_end a));
   ("notes", JStr (acr_notes a))].
End Sanitisers.

(** ** [datetime.fromisoformat] and [parse_iso_datetime]

    The extended format: a date, alone or followed by [T] or a blank and a
    time to the minute, second or fraction, with an offset or none.  What
    Python 3.12 makes of any other text (the basic format, week dates, other
    separators) is the parameter [other_iso]. *)

(** Two digits and the rest. *)
Definition two_digits (s : string) : option (Z * string) :=
  match s with
  | String a (String b r) =>
      if is_decimal a && is_decimal b then Some (dec_value (String a (str1 b)), r) else None
  | _ => None
  end.

Definition after_char (c : ascii) (s : string) : option string :=
  match s with String d r => if Ascii.eqb c d then Some r else None | EmptyString => None end.

(** [YYYY-MM-DD] and the rest. *)
Definition iso_date (s : string) : option (Z * Z * Z * string) :=
  let y := take_string 4 s in
  if (String.length y =? 4)%nat && all_chars is_decimal y then
    r ← after_char "-" (drop_string 4 s); '(m, r) ← two_digits r;
    r ← after_char "-" r; '(d, r) ← two_digits r; Some (dec_value y, m, d, r)
  else None.

(** A fraction: at least one digit, of which six count. *)
Definition microseconds (digits : string) : Z :=
  dec_value (take_string 6 (digits +:+ "00000")).

(** [HH:MM], [HH:MM:SS] or [HH:MM:SS.f...], and what follows. *)
Definition iso_time (s : string) : option (Z * Z * Z * Z * string) :=
  '(h, r) ← two_digits s; r ← after_char ":" r; '(m, r) ← two_digits r;
  match after_char ":" r with
  | None => Some (h, m, 0, 0, r)
  | Some r =>
      '(sec, r) ← two_digits r;
      match after_char "." r with
      | None => Some (h, m, sec, 0, r)
      | Some r =>
          let '(digits, r) := span_until (λ c, negb (is_decimal c)) r in
          if String.eqb digits "" then None else Some (h, m, sec, microseconds digits, r)
      end
  end.

(** [+HH:MM] or [-HH:MM], with seconds or without; the offset in seconds. *)
Definition iso_offset (s : string) : option Z :=
  match s with
  | String c r =>
      let sign := if Ascii.eqb c "-" then -1 else 1 in
      if Ascii.eqb c "-" || Ascii.eqb c "+" then
        '(h, r) ← two_digits r; r ← after_char ":" r; '(m, r) ← two_digits r;
        match after_char ":" r with
        | None => if String.eqb r "" then Some (sign * (3600 * h + 60 * m)) else None
        | Some r =>
            '(sec, r) ← two_digits r;
            if String.eqb r "" then Some (sign * (3600 * h + 60 * m + sec)) else None
        end
      else None
  | EmptyString => None
  end.

(** A date, a time of day in microseconds and an offset in seconds. *)
Definition iso_fields (s : string) : option (Z * Z * Z * (Z * Z * Z * Z) * option Z) :=
  '(y, m, d, r) ← iso_date s;
  match r with
  | EmptyString => Some (y, m, d, (0, 0, 0, 0), None)
  | String sep r =>
      if Ascii.eqb sep "T" || Ascii.eqb sep " " then
        '(h, mi, sec, us, r) ← iso_time r;
        if String.eqb r "" then Some (y, m, d, (h, mi, sec, us), None)
        else off ← iso_offset r; Some (y, m, d, (h, mi, sec, us), Some off)
      else None
  end.

Section Dates.
(** Texts outside the extended format: the datetime, or [None] for a
    [ValueError]. *)
Context (other_iso : string → option datetime).

Definition fromisoformat (s : string) : option datetime :=
  match iso_fields s with
  | None => other_iso s
  | Some (y, m, d, (h, mi, sec, us), off) =>
      if valid_date y m d && (h <? 24) && (mi <? 60) && (sec <? 60)
         && match off with Some o => (-86400 <? o) && (o <? 86400) | None => true end
      then Some (Datetime (seconds (86400 * days_of_civil y m d + 3600 * h + 60 * mi + sec) + us)
                   (seconds <$> off))
      else None
  end.

(** [value.replace("Z", "+00:00")] *)
Fixpoint zulu (s : string) : string :=
  match s with
  | EmptyString => EmptyString
  | String c s => if Ascii.eqb c "Z" then "+00:00" +:+ zulu s else String c (zulu s)
  end.

Definition parse_iso_datetime (value : option string) (name : string) : result (option datetime) :=
  match value with
  | None | Some "" => Ok None
  | Some s =>
      match fromisoformat (zulu s) with
      | Some t => Ok (Some t)
      | None => http 422 (name +:+ " must be an ISO-8601 datetime, e.g. 2026-08-04T09:00:00Z")
      end
  end.
End Dates.

Example iso_offset_is_kept :
  parse_iso_datetime (λ _, None) (Some "2026-08-04T09:00:00.5+02:00") "starts_at"
  = Ok (Some (Datetime (seconds 1785834000 + 500000) (Some (hours 2)))).
Proof. vm_compute. reflexivity. Qed.
Example iso_zulu :
  parse_iso_datetime (λ _, None) (Some "2026-08-04T09:00:00Z") "starts_at"
  = Ok (Some (Datetime (seconds 1785834000) (Some 0))).
Proof. vm_compute. reflexivity. Qed.
Example iso_bad_month : parse_iso_datetime (λ _, None) (Some "2026-13-04") "ends_at"
  = http 422 "ends_at must be an ISO-8601 datetime, e.g. 2026-08-04T09:00:00Z".
Proof. vm_compute. reflexivity. Qed.
Example obfuscated_script : sanitize_identifier (λ s, s) (λ s, s) "a<ScRipt src=x" = Raise ValueError.
Proof. vm_compute. reflexivity. Qed.
Example event_handler : sanitize_identifier (λ s, s) (λ s, s) "onload =1" = Raise ValueError.
Proof. vm_compute. reflexivity. Qed.
Example javascript_link : validate_safe_url "javascript:alert(1)" = Raise ValueError.
Proof. vm_compute. reflexivity. Qed.
