(* ===== verification/Scope.v ===== *)
(** * [routers/scope.py]: scope items and their import

    An item is added in or out of scope, deleted, or imported from a
    HackerOne export; [csv] is the standard library's reader.  Every change
    of the scope moves the authority revision. *)
From S2P Require Import Prelude PyStr Regex Json Time Policy Models Access JobConfig Schemas.
From Stdlib Require Import Ascii.

(** ** [csv.reader]

    The default dialect, over the lines of [io.StringIO], which end at a line
    feed.  [None] among the outcomes is [csv.Error]. *)

Inductive csv_state := StartRecord | StartField | InField | InQuoted | QuoteInQuoted | EatCrnl.

Record csv_reader := MkReader {
  cr_state : csv_state;
  cr_field : string;         (* of the current field, reversed *)
  cr_size : Z;
  cr_fields : list string;   (* of the current record, the latest first *)
}.

Definition csv_field_limit : Z := 131072.

Definition csv_start : csv_reader := MkReader StartRecord "" 0 [].

Fixpoint reverse_onto (s acc : string) : string :=
  match s with EmptyString => acc | String c s => reverse_onto s (String c acc) end.

Definition save_field (st : csv_state) (r : csv_reader) : csv_reader :=
  MkReader st "" 0 (reverse_onto (cr_field r) "" :: cr_fields r).

Definition add_char (st : csv_state) (c : ascii) (r : csv_reader) : option csv_reader :=
  if csv_field_limit <=? cr_size r then None
  else Some (MkReader st (String c (cr_field r)) (cr_size r + 1) (cr_fields r)).

Definition in_state (st : csv_state) (r : csv_reader) : csv_reader :=
  MkReader st (cr_field r) (cr_size r) (cr_fields r).

Definition line_break (c : ascii) : bool := (code c =? 10) || (code c =? 13).

(** [parse_process_char] on a character. *)
Definition csv_char (c : ascii) (r : csv_reader) : option csv_reader :=
  let field := if line_break c then Some (save_field EatCrnl r)
               else if Ascii.eqb c "," then Some (save_field StartField r)
               else add_char InField c r in
  match cr_state r with
  | StartRecord =>
      if line_break c then Some (in_state EatCrnl r)
      else if Ascii.eqb c dquote then Some (in_state InQuoted r) else field
  | StartField => if Ascii.eqb c dquote then Some (in_state InQuoted r) else field
  | InField => field
  | InQuoted => if Ascii.eqb c dquote then Some (in_state QuoteInQuoted r) else add_char InQuoted c r
  | QuoteInQuoted => if Ascii.eqb c dquote then add_char InQuoted c r else field
  | EatCrnl => if line_break c then Some r else None
  end.

(** The same at the end of a line. *)
Definition csv_eol (r : csv_reader) : csv_reader :=
  match cr_state r with
  | StartRecord => r
  | StartField | InField | QuoteInQuoted => save_field StartRecord r
  | InQuoted => r
  | EatCrnl => in_state StartRecord r
  end.

(** The record that is complete once the reader is back at its start. *)
Definition csv_record (r : csv_reader) : list string := rev (cr_fields r).

(** The records of a text, and whether the reader then failed.  [mid] tells
    that a line has begun. *)
Fixpoint csv_records_from (s : string) (mid : bool) (r : csv_reader) : list (list string) * bool :=
  match s with
  | EmptyString =>
      let r := if mid then csv_eol r else r in
      match cr_state r with
      | StartRecord => (if mid then [csv_record r] else [], false)
      | _ => ([csv_record (save_field StartRecord r)], false)
      end
  | String c s =>
      match csv_char c r with
      | None => ([], true)
      | Some r =>
          if Ascii.eqb c newline then
            let r := csv_eol r in
            match cr_state r with
            | StartRecord =>
                let '(rest, failed) := csv_records_from s false csv_start in (csv_record r :: rest, failed)
            | _ => csv_records_from s false r
            end
          else csv_records_from s true r
      end
  end.

Definition csv_records (text : string) : list (list string) * bool := csv_records_from text false csv_start.

Example csv_quotes :
  csv_records ("a,b" +:+ str1 newline +:+ str1 dquote +:+ "x, " +:+ str1 dquote +:+ str1 dquote +:+ str1 newline
               +:+ "y" +:+ str1 dquote +:+ "," +:+ str1 newline)
  = ([["a"; "b"]; ["x, " +:+ str1 dquote +:+ str1 newline +:+ "y"; ""]], false).
Proof. vm_compute. reflexivity. Qed.
Example csv_blank_lines :
  csv_records (str1 newline +:+ "a" +:+ str1 (chr 13) +:+ str1 newline +:+ "b") = ([[]; ["a"]; ["b"]], false).
Proof. vm_compute. reflexivity. Qed.
Example csv_lone_return : csv_records ("a" +:+ str1 (chr 13) +:+ "b") = ([], true).
Proof. vm_compute. reflexivity. Qed.

(** ** [csv.DictReader] *)

(** [row.get(column)]: the last column of that name decides; a short row has
    [None] there. *)
Fixpoint column_from (name : string) (header row : list string) (found : option string) : option string :=
  match header with
  | [] => found
  | h :: header =>
      let found := if String.eqb h name then List.hd_error row else found in
      column_from name header (List.tl row) found
  end.
Definition column (name : string) (header row : list string) : option string :=
  column_from name header row None.

(** ** [_parse_hackerone_scope] *)

(** [str.upper] below U+0100; the capitals of U+00B5 and U+00FF lie outside
    and the two are left as they are. *)
Fixpoint upper (s : string) : string :=
  match s with
  | EmptyString => EmptyString
  | String c s =>
      if code c =? 223 then "SS" +:+ upper s
      else if in_range 97 122 c || (in_range 224 254 c && negb (code c =? 247))
      then String (chr (code c - 32)) (upper s) else String c (upper s)
  end.

Definition _H1_KIND : list (string * string) :=
  [("WILDCARD", "domain"); ("API", "api"); ("CIDR", "cidr"); ("IP_ADDRESS", "cidr"); ("GOOGLE_PLAY_APP_ID", "mobile");
   ("APPLE_STORE_APP_ID", "mobile"); ("WINDOWS_APP_STORE_APP_ID", "mobile"); ("TESTFLIGHT", "mobile");
   ("OTHER_APK", "mobile"); ("OTHER_IPA", "mobile")].
Definition _SEVERITIES : list string := ["info"; "low"; "medium"; "high"; "critical"].
Definition _MAX_IMPORT_ROWS : Z := 5000.

Definition _kind_for (asset_type value : string) : string :=
  match lookup_key asset_type _H1_KIND with
  | Some mapped => mapped
  | None =>
      let v := lower (strip value) in
      if startswith v "http://" || startswith v "https://" || contains "/" v then "url" else "domain"
  end.

(** A parsed row, and one that could not be. *)
Record scope_row := MkScopeRow {
  sr_value : string;
  sr_kind : string;
  sr_scope_type : string;
  sr_max_severity : string;
  sr_notes : string;
}.
Record skipped_row := MkSkipped { sk_line : Z; sk_identifier : string; sk_reason : string }.

#[export] Instance scope_row_eq_dec : EqDecision scope_row.
Proof. solve_decision. Defined.

Section Scope.
Context (nh3_clean html_unescape : string → string).
(** The character U+2014 of the notes, beyond the model's alphabet. *)
Context (em_dash : ascii).
#[local] Abbreviation sanitize := (sanitize_identifier nh3_clean html_unescape).

(** [(row.get(name) or default).strip()] *)
Definition cell (name fallback : string) (header row : list string) : string :=
  strip (or_else (column name header row) fallback).

Definition scope_note (asset_type instruction : string) : string :=
  let note := "HackerOne " +:+ (if String.eqb asset_type "" then "asset" else asset_type) in
  take_string 2000
    (if String.eqb instruction "" then note else note +:+ " " +:+ str1 em_dash +:+ " " +:+ instruction).

(** One record: nothing for a blank identifier, else an item or the reason it
    is skipped. *)
Definition parse_row (line : Z) (header row : list string) : option (scope_row + skipped_row) :=
  let identifier := cell "identifier" "" header row in
  let skip reason := Some (inr (MkSkipped line (take_string 120 identifier) reason)) in
  if String.eqb identifier "" then None
  else if 500 <? len identifier then skip "identifier too long"
  else
    match sanitize identifier with
    | Raise _ => skip "invalid characters"
    | Ok value =>
        if String.eqb value "" then skip "empty after sanitizing"
        else
          let asset_type := upper (cell "asset_type" "" header row) in
          let eligible := lower (cell "eligible_for_submission" "true" header row) in
          let severity := lower (cell "max_severity" "" header row) in
          Some (inl (MkScopeRow value (_kind_for asset_type value)
                       (if String.eqb eligible "false" then "out" else "in")
                       (if mem severity _SEVERITIES then severity else "")
                       (scope_note asset_type (cell "instruction" "" header row))))
    end.

(** The loop over the reader, which may fail past its last record. *)
Fixpoint parse_rows (line : Z) (header : list string) (records : list (list string)) (failed : bool)
    (items : list scope_row) (skipped : list skipped_row) : result (list scope_row * list skipped_row) :=
  match records with
  | [] => if failed then Raise CsvError else Ok (items, skipped)
  | [] :: records => parse_rows line header records failed items skipped
  | row :: records =>
      if _MAX_IMPORT_ROWS <=? Z.of_nat (length items) + Z.of_nat (length skipped)
      then http 400 "too many rows; the limit is 5000"
      else
        match parse_row line header row with
        | None => parse_rows (line + 1) header records failed items skipped
        | Some (inl item) => parse_rows (line + 1) header records failed (items ++ [item]) skipped
        | Some (inr bad) => parse_rows (line + 1) header records failed items (skipped ++ [bad])
        end
  end.

Definition _parse_hackerone_scope (text : string) : result (list scope_row * list skipped_row) :=
  let '(records, failed) := csv_records text in
  match records with
  | [] => if failed then Raise CsvError else http 400 "CSV must have a header row with an 'identifier' column (HackerOne scope export)."
  | header :: records =>
      if mem "identifier" header then parse_rows 2 header records failed [] []
      else http 400 "CSV must have a header row with an 'identifier' column (HackerOne scope export)."
  end.

(** ** Adding, deleting and importing *)

Definition new_scope_item (id program_id scope_type value kind notes max_severity : string) (now : time) : ScopeItem :=
  MkScopeItem id program_id scope_type value (Some kind) (Some notes) (Some max_severity) (Some now).

Definition add_scope_row (item : ScopeItem) (d : db) : db := set_scope_items (scope_items d ++ [item]) d.

(** [add_in_scope_item] and [add_out_scope_item] differ in [scope_type]. *)
Definition add_scope_item (scope_type new_id log_id : string) (now : time) (program_id : string)
    (payload : ScopeItemCreate) (current_user : user_ctx) (d : db) : result (ScopeItem * db) :=
  let? engagement := get_engagement_or_404 program_id current_user d in
  check? require_member_write engagement current_user d in
  let? '(engagement, d) := advance d engagement in
  let item := new_scope_item new_id program_id scope_type (sic_value payload) (sic_kind payload)
                (sic_notes payload) "" now in
  Ok (item, log_action log_id now (cu_github_id current_user) "create" "scope_item" new_id (Some program_id)
              (add_scope_row item d)).

Definition add_in_scope_item := add_scope_item "in".
Definition add_out_scope_item := add_scope_item "out".

Definition delete_scope_item (log_id : string) (now : time) (program_id scope_type item_id : string)
    (current_user : user_ctx) (d : db) : result (string * db) :=
  check? guard (mem scope_type ["in"; "out"]) 400 "Invalid scope type" in
  let? engagement := get_engagement_or_404 program_id current_user d in
  check? require_member_write engagement current_user d in
  let? '(engagement, d) := advance d engagement in
  match first_row (λ s, String.eqb (si_id s) item_id && String.eqb (si_program_id s) program_id
                        && String.eqb (si_scope_type s) scope_type) (scope_items d) with
  | None => http 404 "Scope item not found"
  | Some item =>
      let d := log_action log_id now (cu_github_id current_user) "delete" "scope_item" item_id (Some program_id) d in
      Ok ("Scope item deleted", set_scope_items (rows (λ s, negb (String.eqb (si_id s) (si_id item))) (scope_items d)) d)
  end.

(** Rows whose type and value are neither stored nor seen before. *)
Fixpoint split_new (known : list (string * string)) (parsed : list scope_row) : list scope_row * list scope_row :=
  match parsed with
  | [] => ([], [])
  | item :: parsed =>
      let key := (sr_scope_type item, sr_value item) in
      if decide (key ∈ known) then let '(fresh, dups) := split_new known parsed in (fresh, item :: dups)
      else let '(fresh, dups) := split_new (key :: known) parsed in (item :: fresh, dups)
  end.

Definition scope_keys (program_id : string) (d : db) : list (string * string) :=
  map (λ s, (si_scope_type s, si_value s)) (rows (λ s, String.eqb (si_program_id s) program_id) (scope_items d)).

Record ScopeImport := MkScopeImport {
  sm_committed : bool;
  sm_created : Z;
  sm_new_items : list scope_row;
  sm_duplicates : list scope_row;
  sm_skipped : list skipped_row;
}.

Definition imported_item (ids : nat → string) (program_id : string) (now : time) (i : nat) (r : scope_row) : ScopeItem :=
  new_scope_item (ids i) program_id (sr_scope_type r) (sr_value r) (sr_kind r) (sr_notes r) (sr_max_severity r) now.

Definition import_scope (ids : nat → string) (log_id : string) (now : time) (program_id text : string)
    (commit : bool) (current_user : user_ctx) (d : db) : result (ScopeImport * db) :=
  let? engagement := get_engagement_or_404 program_id current_user d in
  check? require_member_write engagement current_user d in
  let? '(parsed, skipped) := _parse_hackerone_scope text in
  let? engagement := if commit then lock d engagement else Ok engagement in
  let '(new_items, duplicates) := split_new (scope_keys program_id d) parsed in
  if commit && negb (bool_decide (new_items = [])) then
    let e := e_set_managed_authority_revision (e_managed_authority_revision engagement + 1) engagement in
    let d := set_scope_items (scope_items d ++ imap (imported_item ids program_id now) new_items) (set_engagement e d) in
    Ok (MkScopeImport commit (Z.of_nat (length new_items)) new_items duplicates skipped,
        log_action log_id now (cu_github_id current_user) "import" "scope_item" program_id (Some program_id) d)
  else Ok (MkScopeImport commit 0 new_items duplicates skipped, d).
End Scope.
