(* ===== verification/Coverage.v ===== *)
(** * [authorization_coverage.py]: what of an API has been tested

    The read-only join of observed operations, reviewed cases, executed Gate
    jobs and their findings, with [routers/api_surface.infer_path_template] and
    the endpoint of [routers/api_coverage.py].  Queries without an ORDER BY see
    the rows in the model's order of keys; text is ordered by code points. *)
From S2P Require Import Prelude PyStr Regex Json Digest Time Models Access JobConfig Url TestCases Jobs Schemas Scope.
From Stdlib Require Import Ascii.

(** ** Routes *)

Definition fullmatch (r : regex) (s : string) : bool :=
  bool_decide (is_Some (matches r (λ pos, if String.eqb (rest pos) "" then Some tt else None) (Position None s []))).

(** [re.I] on hexadecimal digits, and the two other classes of [_UUID]. *)
Definition hex_class (c : ascii) : bool := is_decimal c || in_range 97 102 c || in_range 65 70 c.
Definition uuid_variant (c : ascii) : bool := existsb (Ascii.eqb c) ["8"; "9"; "a"; "b"; "A"; "B"]%char.

Definition _UUID : regex :=
  Repeat 8 (Chr hex_class) ⋅ Lit "-" ⋅ Repeat 4 (Chr hex_class) ⋅ Lit "-" ⋅ Chr (in_range 49 53) ⋅ Repeat 3 (Chr hex_class)
  ⋅ Lit "-" ⋅ Chr uuid_variant ⋅ Repeat 3 (Chr hex_class) ⋅ Lit "-" ⋅ Repeat 12 (Chr hex_class).
Definition _INTEGER : regex := Plus (Chr is_decimal).
Definition _OPAQUE : regex :=
  Opt (Repeat 2 (Chr is_lower) ⋅ Repeat 10 (Opt (Chr is_lower)) ⋅ Lit "_") ⋅ AtLeast 16 (Chr (alnum_or "_-")).

Definition infer_segment (segment : string) : string :=
  if fullmatch _UUID segment then "{uuid}"
  else if fullmatch _INTEGER segment then "{id}"
  else if fullmatch _OPAQUE segment then "{opaque_id}"
  else segment.

Definition infer_path_template (path : string) : string :=
  let result := join "/" (map infer_segment (split_char "/" (if String.eqb path "" then "/" else path))) in
  if startswith result "/" then result else "/" +:+ result.

Example template_of_numbers : infer_path_template "/orders/42/items" = "/orders/{id}/items".
Proof. vm_compute. reflexivity. Qed.
Example template_of_opaque : infer_path_template "/u/ab_0123456789abcdefg" = "/u/{opaque_id}".
Proof. vm_compute. reflexivity. Qed.

Definition GATE_TOOL : string := "vardrgate_api_test".
Definition STATES : list string :=
  ["violation_candidate"; "inconclusive"; "partial"; "conclusive"; "reviewed_not_executed"; "stale"; "untested"].
Definition STATE_ATTENTION : list string :=
  ["violation_candidate"; "untested"; "reviewed_not_executed"; "stale"; "inconclusive"; "partial"; "conclusive"].
Definition _STATE_CHANGING : list string := ["POST"; "PUT"; "PATCH"; "DELETE"].
Definition _BOUNDARY_FIELDS : list string :=
  ["role"; "roles"; "is_admin"; "admin"; "permissions"; "scope"; "scopes"; "tenant_id"; "org_id"; "organization_id";
   "account_id"; "owner_id"; "user_id"; "price"; "balance"; "credit"; "status"].
Definition _OPEN_CANDIDATE : list string := ["new"; "reviewed"].
Definition _IDENTITY_RANK (state : string) : Z :=
  default 0 (lookup_key state [("evaluated", 4); ("inconclusive", 3); ("missing", 2); ("skipped", 1)]).
Definition _HISTORY_LIMIT : nat := 10.

(** [_OBJECT_SEGMENT.fullmatch]: braces around at least one character, none a
    newline. *)
Definition _OBJECT_SEGMENT : regex := Lit "{" ⋅ Plus (Chr not_newline) ⋅ Lit "}".
Definition object_segment (s : string) : bool := fullmatch _OBJECT_SEGMENT s.
(** [_OBJECT_SEGMENT.match]: [$] also matches before a final newline. *)
Definition object_segment_prefix (s : string) : bool :=
  object_segment s || fullmatch (_OBJECT_SEGMENT ⋅ Lit newline) s.

(** [port or (443 if ... else 80)] *)
Definition _port (scheme : string) (port : option Z) : Z :=
  let standard := if String.eqb scheme "https" then 443 else 80 in
  match port with Some p => if p =? 0 then standard else p | None => standard end.

Record Route := MkRoute {
  rt_method : string;
  rt_scheme : string;
  rt_host : string;
  rt_port : Z;
  rt_template : string;
  rt_path : string;
}.

(** [str(v or "")] *)
Definition text_or_empty (v : json) : string := if truthy v then py_str v else "".

Definition parse_request (request : json) : option Route :=
  match request with
  | JObj fields =>
      let method := upper (text_or_empty (dget "method" fields)) in
      match urlsplit (text_or_empty (dget "url" fields)) with
      | Raise _ => None
      | Ok url =>
          match port url, hostname url with
          | Ok p, Some host =>
              if String.eqb method "" || negb (mem (url_scheme url) ["http"; "https"]) then None
              else
                let path := if String.eqb (url_path url) "" then "/" else url_path url in
                Some (MkRoute method (url_scheme url) (lower host) (_port (url_scheme url) p)
                        (infer_path_template path) path)
          | _, _ => None
          end
      end
  | _ => None
  end.

Definition _segments (template : string) : list string := split_char "/" template.

(** One segment of a template against one of a path. *)
Definition segment_matches (a b : string) : bool :=
  String.eqb a b || (negb (String.eqb b "") && object_segment a).

Fixpoint segments_match (l r : list string) : bool :=
  match l, r with
  | [], [] => true
  | a :: l, b :: r => segment_matches a b && segments_match l r
  | _, _ => false
  end.

Definition _template_matches (endpoint_template case_path : string) : bool :=
  String.eqb endpoint_template case_path || segments_match (_segments endpoint_template) (_segments case_path).

Definition operation_matches (e : ApiEndpoint) (request : Route) : bool :=
  let scheme := or_else (ae_scheme e) "https" in
  String.eqb (ae_method e) (rt_method request) && String.eqb scheme (rt_scheme request)
  && String.eqb (lower (ae_host e)) (rt_host request) && (_port scheme (ae_port e) =? rt_port request)
  && _template_matches (ae_path_template e) (rt_path request).

(** ** What a case declares *)

(** [isinstance(item, dict) and item.get(k)] *)
Definition named_by (k : string) (item : json) : option (string * dict) :=
  match item with
  | JObj fields => if truthy (dget k fields) then Some (py_str (dget k fields), fields) else None
  | _ => None
  end.

Definition _identity_ids (spec : dict) : result (list string) :=
  let? items := iter_or_empty (dget "identities" spec) in
  Ok (sorted_strings (map fst (omap (named_by "id") items))).

(** The decisions declared for one identity, in order. *)
Definition decisions_of (id : string) (declared : list (string * string)) : list string :=
  map snd (rows (λ d, String.eqb d.1 id) declared).

(** The single decision, or [unknown] when declarations conflict. *)
Definition single (l : list string) : string :=
  match dedup l with [d] => d | _ => "unknown" end.

Definition _declared_decisions (spec : dict) : result (list (string * string)) :=
  let? items := iter_or_empty (dget "expected_access" spec) in
  let declared := map (λ nd, (nd.1, if truthy (dget "decision" nd.2) then py_str (dget "decision" nd.2) else "unknown"))
                    (omap (named_by "identity_id") items) in
  Ok (map (λ id, (id, single (decisions_of id declared))) (dedup (map fst declared))).

(** ** Runs *)

(** [job.x or {}], read with [get]: anything else truthy has no [get]. *)
Definition dict_or_empty (v : json) : result dict :=
  if truthy v then match v with JObj d => Ok d | _ => Raise AttributeError end else Ok [].

Definition case_of_job (j : ScanJob) : result string :=
  let? config := dict_or_empty (j_config j) in Ok (text_or_empty (dget "test_case_id" config)).

(** [_Run]: a job with its assessment and what its snapshot exercised. *)
Record _Run := MkRun {
  run_job : ScanJob;
  run_assessment : dict;
  run_case_id : string;
  run_request : option Route;
  run_snapshot_hash : option string;
  run_verified : bool;
}.

(** [v if isinstance(v, dict) and v else None] *)
Definition filled_dict (v : json) : option dict :=
  match v with JObj [] => None | JObj d => Some d | _ => None end.

Definition new_run (j : ScanJob) : result _Run :=
  let? case_id := case_of_job j in
  let snapshot := filled_dict (j_case_snapshot j) in
  let? assessment := dict_or_empty (j_assessment j) in
  Ok (MkRun j assessment case_id (s ← snapshot; parse_request (dget "request" s))
        ((λ s, case_hash (JObj s)) <$> snapshot) (truthy (dget "case_snapshot_verified" assessment))).

Definition is_current_for (case_id : string) (current_hash : option string) (r : _Run) : bool :=
  String.eqb (run_case_id r) case_id
  && match current_hash with
     | Some h => negb (String.eqb h "") && run_verified r && bool_decide (run_snapshot_hash r = Some h)
     | None => false
     end.

(** The order of [max] in [_latest]: [(completed_at or created_at, created_at, id)]. *)
Definition finished_at (j : ScanJob) : time := default (j_created_at j) (j_completed_at j).
Definition later (a b : ScanJob) : bool :=
  (finished_at a <? finished_at b)
  || (finished_at a =? finished_at b)
     && ((j_created_at a <? j_created_at b)
         || (j_created_at a =? j_created_at b) && String.ltb (j_id a) (j_id b)).

(** [max]: the first of the greatest. *)
Fixpoint max_by {A} (less : A → A → bool) (best : A) (l : list A) : A :=
  match l with [] => best | x :: l => max_by less (if less best x then x else best) l end.
Definition _latest (runs : list _Run) : option _Run :=
  match runs with [] => None | r :: l => Some (max_by (λ a b, later (run_job a) (run_job b)) r l) end.

Definition assessment_status (r : _Run) : json := dget "status" (run_assessment r).

(** ** One operation *)

(** A case that covers it, with the identities and decisions of its spec. *)
Record Reviewed := MkReviewed {
  rv_case : AuthorizationTestCase;
  rv_identities : list string;
  rv_decisions : list (string * string);
  rv_request : option Route;
}.

(** What a run reports of one identity. *)
Record Cell := MkCell { ce_state : string; ce_reason : string; ce_expected : string }.

Record CaseEntry := MkCaseEntry {
  en_case_id : string;
  en_name : string;
  en_test_case_id : string;
  en_identities : list string;
  en_expected : list (string * string);
  en_queued_jobs : Z;
  en_executed : bool;
  en_identity_states : list (string * string);
  en_stale_runs : Z;
  en_latest_job_id : option string;
  en_assessment_status : json;
  en_reasons : list json;
}.

(** A matched case with its latest current run and that run's cells. *)
Record Examined := MkExamined {
  ex_case : Reviewed;
  ex_latest : option _Run;
  ex_cells : list (string * Cell);
  ex_entry : CaseEntry;
}.

Definition or_text (v : json) (fallback : string) : string := if truthy v then py_str v else fallback.

(** One row of [assessment["identities"]], when it names an identity. *)
Definition cell_of (item : json) : result (list (string * Cell)) :=
  match item with
  | JObj fields =>
      Ok (if truthy (dget "identity_id" fields)
          then [(py_str (dget "identity_id" fields),
                 MkCell (or_text (dget "state" fields) "missing") (or_text (dget "reason" fields) "")
                   (or_text (dget "expected_decision" fields) "unknown"))]
          else [])
  | _ => Raise AttributeError
  end.

(** [rows]: a later row of the same identity replaces an earlier one. *)
Definition cells_of (latest : option _Run) : result (list (string * Cell)) :=
  match latest with
  | None => Ok []
  | Some r =>
      let? items := iter_or_empty (dget "identities" (run_assessment r)) in
      let? cells := map_result cell_of items in
      Ok (rev (concat cells))
  end.

(** The run's cell of an identity the case names; nothing without a run. *)
Definition cell_for (x : Examined) (identity : string) : option Cell :=
  match ex_latest x with
  | None => None
  | Some _ =>
      Some (default (MkCell "missing" "execution_missing"
                       (default "unknown" (lookup_key identity (rv_decisions (ex_case x)))))
              (lookup_key identity (ex_cells x)))
  end.

Definition case_hash_of (c : AuthorizationTestCase) : option string := (λ s, case_hash (JObj s)) <$> filled_dict (tc_spec c).
Definition current_runs (runs : list _Run) (c : AuthorizationTestCase) : list _Run :=
  rows (is_current_for (tc_id c) (case_hash_of c)) runs.
(** The runs of a case that are not current for it. *)
Definition stale_runs (runs : list _Run) (c : AuthorizationTestCase) : list _Run :=
  rows (λ r, String.eqb (run_case_id r) (tc_id c) && negb (is_current_for (tc_id c) (case_hash_of c) r)) runs.

Definition examine (runs : list _Run) (queued : string → Z) (c : Reviewed) : result Examined :=
  let case := rv_case c in
  let latest := _latest (current_runs runs case) in
  let? reasons := match latest with
                  | Some r => iter_or_empty (dget "reasons" (run_assessment r))
                  | None => Ok []
                  end in
  let? cells := cells_of latest in
  let states := omap (λ i, (λ x, (i, ce_state x)) <$> lookup_key i cells) (rv_identities c) in
  Ok (MkExamined c latest cells
        (MkCaseEntry (tc_id case) (tc_name case) (tc_test_case_id case) (rv_identities c) (rv_decisions c)
           (queued (tc_id case)) (bool_decide (is_Some latest)) states (Z.of_nat (length (stale_runs runs case)))
           ((λ r, j_id (run_job r)) <$> latest) (match latest with Some r => assessment_status r | None => JNull end)
           reasons)).

(** *** Identities *)

Record IdentityRow := MkIdentityRow {
  iw_identity_id : string; iw_state : string; iw_reason : string; iw_expected : option string }.

Definition identity_row (examined : list Examined) (identity : string) : IdentityRow :=
  let declaring := rows (λ x, bool_decide (identity ∈ rv_identities (ex_case x))) examined in
  let ran := omap (λ x, cell_for x identity) declaring in
  match declaring, ran with
  | [], _ => MkIdentityRow identity "not_reviewed" "not_in_a_reviewed_case_for_this_operation" None
  | _, [] =>
      MkIdentityRow identity "reviewed_not_run"
        (if existsb (λ x, negb (en_stale_runs (ex_entry x) =? 0)) examined then "case_changed_since_last_run"
         else "no_executed_assessment") None
  | _, first :: more =>
      let expected := match dedup (map ce_expected ran) with [e] => e | _ => "varies" end in
      match rows (λ c, String.eqb (ce_state c) "evaluated") ran with
      | e :: evaluated =>
          if (length (e :: evaluated) =? length declaring)%nat
          then MkIdentityRow identity "evaluated" (ce_reason e) (Some expected)
          else MkIdentityRow identity "mixed" "evaluated_in_some_cases_only" (Some expected)
      | [] =>
          let best := max_by (λ a b, _IDENTITY_RANK (ce_state a) <? _IDENTITY_RANK (ce_state b)) first more in
          MkIdentityRow identity (ce_state best) (ce_reason best) (Some expected)
      end
  end.

(** *** Findings and history *)

(** The Gate findings of a job with a status, an empty one counting as new. *)
Definition finding_count (program_id job_id : string) (statuses : list string) (d : db) : Z :=
  Z.of_nat (length (rows (λ s, String.eqb (sc_program_id s) program_id && String.eqb (sc_source s) "vardrgate"
                               && bool_decide (sc_job_id s = Some job_id)
                               && mem (if String.eqb (sc_status s) "" then "new" else sc_status s) statuses)
                      (scan_items d))).

(** A denied request that was let through, kept as evidence. *)
Definition backs (program_id : string) (e : Evidence) : bool :=
  String.eqb (ev_program_id e) program_id && bool_decide (ev_expected_decision e = Some "deny")
  && bool_decide (ev_observed_outcome e = Some "allow").
(** [ORDER BY collected_at, id], NULL last. *)
Definition earlier_evidence (a b : Evidence) : Prop :=
  match ev_collected_at a, ev_collected_at b with
  | Some x, Some y => x < y ∨ x = y ∧ String.le (ev_id a) (ev_id b)
  | Some _, None => True
  | None, Some _ => False
  | None, None => String.le (ev_id a) (ev_id b)
  end.
#[export] Instance earlier_evidence_dec : RelDecision earlier_evidence.
Proof. intros a b. unfold earlier_evidence. repeat case_match; apply _. Defined.
Definition backing (program_id job_id : string) (d : db) : list Evidence :=
  rows (λ e, bool_decide (ev_job_id e = Some job_id))
    (merge_sort earlier_evidence (rows (backs program_id) (evidence d))).

Record HistoryRow := MkHistoryRow {
  hi_job_id : string;
  hi_case_id : option string;
  hi_case_name : option string;
  hi_reason : string;
  hi_assessment_status : json;
  hi_completed_at : option string;
  hi_open : Z;
  hi_promoted : Z;
  hi_false_positive : Z;
}.

Definition find_case (cases : list AuthorizationTestCase) (case_id : string) : option AuthorizationTestCase :=
  first_row (λ c, String.eqb (tc_id c) case_id) cases.

Definition _historical_reason (cases : list AuthorizationTestCase) (r : _Run) : string :=
  match find_case cases (run_case_id r) with
  | None => "case_deleted"
  | Some _ => if run_verified r then "case_modified" else "snapshot_unverified"
  end.

(** [None] for the empty text. *)
Definition some_text (s : string) : option string := if String.eqb s "" then None else Some s.

Definition history_row (p : string) (cases : list AuthorizationTestCase) (d : db) (r : _Run) : HistoryRow :=
  let job := run_job r in
  MkHistoryRow (j_id job) (some_text (run_case_id r)) (tc_name <$> find_case cases (run_case_id r))
    (_historical_reason cases r) (assessment_status r) (isoformat <$> j_completed_at job)
    (finding_count p (j_id job) _OPEN_CANDIDATE d) (finding_count p (j_id job) ["promoted"] d)
    (finding_count p (j_id job) ["false_positive"] d).

(** [sort(key=(completed_at or "", job_id), reverse=True)] *)
Definition newer_history (a b : HistoryRow) : Prop :=
  let ka := default "" (hi_completed_at a) in
  let kb := default "" (hi_completed_at b) in
  ka ≠ kb ∧ String.le kb ka ∨ ka = kb ∧ String.le (hi_job_id b) (hi_job_id a).
#[export] Instance newer_history_dec : RelDecision newer_history.
Proof. intros a b. unfold newer_history. cbv zeta. apply _. Defined.

Definition sum_of {A} (f : A → Z) (l : list A) : Z := foldr (λ x acc, f x + acc) 0 l.

(** *** The operation *)

Record Candidates := MkCandidates { cn_open : Z; cn_promoted : Z; cn_false_positive : Z; cn_backing_evidence : Z }.

Record Operation := MkOperation {
  op_endpoint : ApiEndpoint;
  op_observed_identities : list string;
  op_priority_reasons : list (string * string);
  op_state : string;
  op_cases : list CaseEntry;
  op_identity_coverage : list IdentityRow;
  op_candidates : Candidates;
  op_candidate_evidence : list Evidence;
  op_historical_assessments : list HistoryRow;
}.

Definition conclusive (status : json) : bool := match status with JStr s => String.eqb s "conclusive" | _ => false end.
Definition answered (status : json) : result bool := in_str_set status ["conclusive"; "partial"].

(** [any] over statuses that may not be hashable. *)
Fixpoint any_answered (statuses : list json) : result bool :=
  match statuses with
  | [] => Ok false
  | s :: statuses => let? b := answered s in if b then Ok true else any_answered statuses
  end.

Definition operation_state (findings : Z) (examined : list Examined) : result string :=
  let statuses := omap (λ x, assessment_status <$> ex_latest x) examined in
  if negb (findings =? 0) then Ok "violation_candidate"
  else match examined, statuses with
  | [], _ => Ok "untested"
  | _, [] => Ok (if existsb (λ x, negb (en_stale_runs (ex_entry x) =? 0)) examined then "stale" else "reviewed_not_executed")
  | _, _ =>
      if forallb conclusive statuses && forallb (λ x, en_executed (ex_entry x)) examined then Ok "conclusive"
      else let? some := any_answered statuses in Ok (if some then "partial" else "inconclusive")
  end.

Definition _operation (p : string) (d : db) (cases : list AuthorizationTestCase) (runs : list _Run)
    (queued : string → Z) (universe : list string) (endpoint : ApiEndpoint) (matched : list Reviewed)
    (attributed : list _Run) (observed : list string) (reasons : list (string * string)) : result Operation :=
  let? examined := map_result (examine runs queued) matched in
  let count statuses r := finding_count p (j_id (run_job r)) statuses d in
  let open := sum_of (count _OPEN_CANDIDATE) attributed in
  let promoted := sum_of (count ["promoted"]) attributed in
  let dismissed := sum_of (count ["false_positive"]) attributed in
  let evidence_rows := concat (map (λ r, backing p (j_id (run_job r)) d) attributed) in
  let past r := negb (existsb (λ c, is_current_for (tc_id (rv_case c)) (case_hash_of (rv_case c)) r) matched) in
  let history := merge_sort newer_history (map (history_row p cases d) (rows past attributed)) in
  let? state := operation_state (open + promoted) examined in
  Ok (MkOperation endpoint observed reasons state (map ex_entry examined) (map (identity_row examined) universe)
        (MkCandidates open promoted dismissed (Z.of_nat (length evidence_rows))) (take 10 evidence_rows)
        (take _HISTORY_LIMIT history)).

(** ** Captured exchanges *)

(** The labels seen on an endpoint, those with a 2xx answer, and the boundary
    fields its requests carried. *)
Definition label_of (x : ApiExchange) : string := or_else (ax_identity_label x) "anonymous".
Definition succeeded (x : ApiExchange) : bool :=
  match ax_response_status x with Some s => (200 <=? s) && (s <? 300) | None => false end.
Definition fields_of (x : ApiExchange) : result (list string) :=
  let? names := iter_or_empty (ax_parameter_names x) in
  Ok (rows (λ n, mem n _BOUNDARY_FIELDS) (map (λ n, lower (py_str n)) names)).

Definition labelled (l : list string) : string := join ", " (sorted_strings l) +:+ ".".

Definition priority_reasons (endpoint : ApiEndpoint) (success_identities boundary_fields : list string)
    : list (string * string) :=
  (if existsb object_segment_prefix (_segments (ae_path_template endpoint))
   then [("object_identifier_in_path", "The route addresses an object by identifier (object-level access).")] else [])
  ++ (if mem (ae_method endpoint) _STATE_CHANGING
      then [("state_changing_method", ae_method endpoint +:+ " changes server state.")] else [])
  ++ (if bool_decide (boundary_fields = []) then []
      else [("boundary_fields_in_requests", "Captured requests carry: " +:+ labelled boundary_fields)])
  ++ (if (2 <=? length (dedup success_identities))%nat
      then [("success_for_multiple_identities", "Captured 2xx responses for: " +:+ labelled success_identities)] else [])
  ++ (if mem "anonymous" success_identities
      then [("anonymous_success_observed", "A captured request without credentials returned 2xx.")] else []).

(** ** [build_coverage] *)

(** Rows ordered by columns of text. *)
Fixpoint columns_le (a b : list string) : bool :=
  match a, b with
  | x :: a, y :: b => String.ltb x y || String.eqb x y && columns_le a b
  | [], _ => true
  | _ :: _, [] => false
  end.

Definition endpoint_columns (e : ApiEndpoint) : list string := [ae_host e; ae_path_template e; ae_method e; ae_id e].
Definition endpoint_order (a b : ApiEndpoint) : Prop := columns_le (endpoint_columns a) (endpoint_columns b) = true.
#[export] Instance endpoint_order_dec : RelDecision endpoint_order.
Proof. intros a b. unfold endpoint_order. apply _. Defined.
Definition case_order (a b : AuthorizationTestCase) : Prop :=
  tc_created_at a < tc_created_at b ∨ tc_created_at a = tc_created_at b ∧ String.le (tc_id a) (tc_id b).
#[export] Instance case_order_dec : RelDecision case_order.
Proof. intros a b. unfold case_order. apply _. Defined.

Definition endpoints_of (p : string) (d : db) : list ApiEndpoint :=
  merge_sort endpoint_order (rows (λ e, String.eqb (ae_program_id e) p) (api_endpoints d)).
Definition cases_of (p : string) (d : db) : list AuthorizationTestCase :=
  merge_sort case_order (rows (λ c, String.eqb (tc_program_id c) p) (test_cases d)).
Definition gate_jobs (p : string) (d : db) : list ScanJob :=
  jobs_where (λ j, String.eqb (j_program_id j) p && String.eqb (j_tool_type j) GATE_TOOL) d.

Definition executed_runs (jobs : list ScanJob) : result (list _Run) :=
  map_result new_run (rows (λ j, truthy (j_assessment j)) jobs).

(** A queued or running job without an assessment, by its case. *)
Definition waiting (j : ScanJob) : bool := mem (j_status j) ["pending"; "running"] && negb (truthy (j_assessment j)).
Definition queued_cases (jobs : list ScanJob) : result (list string) := map_result case_of_job (rows waiting jobs).
Definition queued_in (l : list string) (case_id : string) : Z := Z.of_nat (length (rows (String.eqb case_id) l)).

(** [case.spec if isinstance(case.spec, dict) else {}], and what it declares. *)
Definition review (c : AuthorizationTestCase) : result Reviewed :=
  let spec := match tc_spec c with JObj s => s | _ => [] end in
  let? identities := _identity_ids spec in
  let? decisions := _declared_decisions spec in
  Ok (MkReviewed c identities decisions (parse_request (dget "request" spec))).
Definition decided (c : Reviewed) : bool := existsb (λ d, mem d.2 ["allow"; "deny"]) (rv_decisions c).

Definition covers (e : ApiEndpoint) (request : option Route) : bool :=
  match request with Some r => operation_matches e r | None => false end.

Record UnmatchedCase := MkUnmatchedCase {
  uc_case_id : string; uc_name : string; uc_reason : string; uc_request : option string }.
Record Unattributed := MkUnattributed {
  ua_job_id : string; ua_case_id : option string; ua_assessment_status : json; ua_reason : string }.

Record Coverage := MkCoverage {
  cv_operations : list Operation;
  cv_total : Z;
  cv_counts : list (string * Z);
  cv_identities : list string;
  cv_unmatched_cases : list UnmatchedCase;
  cv_unattributed_assessments : list Unattributed;
}.

Definition route_text (r : Route) : string :=
  rt_method r +:+ " " +:+ rt_scheme r +:+ "://" +:+ rt_host r +:+ ":" +:+ string_of_Z (rt_port r) +:+ rt_template r.

Definition unmatched_case (c : Reviewed) : UnmatchedCase :=
  match rv_request c with
  | None => MkUnmatchedCase (tc_id (rv_case c)) (tc_name (rv_case c)) "unusable_request" None
  | Some r => MkUnmatchedCase (tc_id (rv_case c)) (tc_name (rv_case c)) "no_observed_operation" (Some (route_text r))
  end.
Definition unreviewed_case (c : Reviewed) : UnmatchedCase :=
  MkUnmatchedCase (tc_id (rv_case c)) (tc_name (rv_case c)) "no_reviewed_expectation" None.
Definition unattributed (r : _Run) : Unattributed :=
  MkUnattributed (j_id (run_job r)) (some_text (run_case_id r)) (assessment_status r)
    (match run_request r with None => "no_usable_snapshot" | Some _ => "no_observed_operation" end).

(** The exchanges of one endpoint. *)
Definition exchanges_of (p : string) (d : db) : list ApiExchange := rows (λ x, String.eqb (ax_program_id x) p) (api_exchanges d).

(** One turn of the loop over endpoints. *)
Definition examine_endpoint (p : string) (d : db) (cases : list AuthorizationTestCase) (reviewed : list Reviewed)
    (runs : list _Run) (queued : list string) (universe : list string) (fields : list (string * list string))
    (e : ApiEndpoint) : result Operation :=
  let mine := rows (λ x, String.eqb (ax_endpoint_id x) (ae_id e)) (exchanges_of p d) in
  let boundary := concat (map snd (rows (λ f, String.eqb f.1 (ae_id e)) fields)) in
  _operation p d cases runs (queued_in queued) universe e
    (rows (λ c, covers e (rv_request c)) reviewed) (rows (λ r, covers e (run_request r)) runs)
    (sorted_strings (map label_of mine))
    (priority_reasons e (map label_of (rows succeeded mine)) boundary).

Definition endpoint_fields (x : ApiExchange) : result (string * list string) :=
  let? f := fields_of x in Ok (ax_endpoint_id x, f).

Definition build_coverage (d : db) (p : string) : result Coverage :=
  let endpoints := endpoints_of p d in
  let cases := cases_of p d in
  let jobs := gate_jobs p d in
  let? runs := executed_runs jobs in
  let? queued := queued_cases jobs in
  let? fields := map_result endpoint_fields (exchanges_of p d) in
  let? all := map_result review cases in
  let universe := sorted_strings (concat (map rv_identities all)) in
  let reviewed := rows decided all in
  let? operations := map_result (examine_endpoint p d cases reviewed runs queued universe fields) endpoints in
  let matched c := existsb (λ e, covers e (rv_request c)) endpoints in
  let attributed r := existsb (λ e, covers e (run_request r)) endpoints in
  let count state := Z.of_nat (length (rows (λ o, String.eqb (op_state o) state) operations)) in
  Ok (MkCoverage operations (Z.of_nat (length operations)) (map (λ s, (s, count s)) STATES) universe
        (map unmatched_case (rows (λ c, negb (matched c)) reviewed)
         ++ map unreviewed_case (rows (λ c, negb (decided c)) all))
        (map unattributed (rows (λ r, negb (attributed r)) runs))).

(** ** The endpoint *)

Definition rank_of (state : string) : Z :=
  default 0 ((λ ix, Z.of_nat ix.1) <$> list_find (eq state) STATE_ATTENTION).
(** [key(a) <= key(b)] for [(rank[state], -len(priority_reasons))]. *)
Definition priority_le (a b : Operation) : bool :=
  let na := Z.of_nat (length (op_priority_reasons a)) in
  let nb := Z.of_nat (length (op_priority_reasons b)) in
  (rank_of (op_state a) <? rank_of (op_state b))
  || (rank_of (op_state a) =? rank_of (op_state b)) && (nb <=? na).

(** A page of the operations, of one state or all, and how many there are. *)
Definition authorization_coverage (program_id state sort : string) (limit offset : nat) (current_user : user_ctx) (d : db)
    : result (Coverage * Z * list Operation) :=
  let? _ := get_engagement_or_404 program_id current_user d in
  let? data := build_coverage d program_id in
  let operations := if mem state STATES then rows (λ o, String.eqb (op_state o) state) (cv_operations data)
                    else cv_operations data in
  let operations := if String.eqb sort "priority" then sorted_by priority_le operations else operations in
  Ok (data, Z.of_nat (length operations), take limit (drop offset operations)).
