(* ===== verification/CoverageSafety.v ===== *)
(** * What the coverage report says is so

    The states of an operation mean what they are called, nothing that was
    executed or reviewed is left out, and an inferred template covers the path
    it was inferred from. *)
From S2P Require Import Prelude PyStr Regex Json Digest Time Models Access JobConfig Url TestCases Jobs Schemas Scope Coverage.
From Stdlib Require Import Ascii.

(** ** Generic facts *)

Lemma map_result_forall {A B} (f : A → result B) l l' :
  map_result f l = Ok l' → Forall2 (λ x y, f x = Ok y) l l'.
Proof.
  revert l'. induction l as [|x l IH]; intros l' H; simpl in H; [by injection H as <-|].
  apply rbind_ok in H as (y & Hy & H). apply rbind_ok in H as (ys & Hys & [= <-]). constructor; auto.
Qed.

Lemma Forall2_elem_r {A B} (R : A → B → Prop) l l' y : Forall2 R l l' → y ∈ l' → ∃ x, x ∈ l ∧ R x y.
Proof.
  induction 1 as [|x0 y0 l l' Hr _ IH]; [intros Hy; by apply elem_of_nil in Hy|].
  intros [->|Hy]%elem_of_cons; [exists x0; split; [left|done]|].
  destruct (IH Hy) as (x & Hx & HR). exists x. split; [by right|done].
Qed.
Lemma Forall2_elem_l {A B} (R : A → B → Prop) l l' x : Forall2 R l l' → x ∈ l → ∃ y, y ∈ l' ∧ R x y.
Proof.
  induction 1 as [|x0 y0 l l' Hr _ IH]; [intros Hx; by apply elem_of_nil in Hx|].
  intros [->|Hx]%elem_of_cons; [exists y0; split; [left|done]|].
  destruct (IH Hx) as (y & Hy & HR). exists y. split; [by right|done].
Qed.

(** The greatest of a list, for a strict weak order. *)
Section Max.
Context {A : Type} (less : A → A → bool).
Hypothesis less_asym : ∀ x y, less x y = true → less y x = false.
Hypothesis less_negtrans : ∀ x y z, less x y = false → less y z = false → less x z = false.

Lemma max_by_spec best l :
  max_by less best l ∈ best :: l ∧ ∀ x, x ∈ best :: l → less (max_by less best l) x = false.
Proof using less_asym less_negtrans.
  assert (Hirr : ∀ x, less x x = false) by (intros x; destruct (less x x) eqn:E; [|done]; by pose proof (less_asym _ _ E); congruence).
  revert best. induction l as [|y l IH]; intros best; simpl.
  - split; [left|]. by intros x ->%list_elem_of_singleton.
  - destruct (less best y) eqn:E.
    + destruct (IH y) as [Hin Hmax]. split; [by right|]. intros x [->|Hx]%elem_of_cons; [|auto].
      apply (less_negtrans _ y); [apply Hmax; left|by apply less_asym].
    + destruct (IH best) as [Hin Hmax]. split.
      * apply elem_of_cons in Hin as [->|Hin]; [left|]. right. by right.
      * intros x [->|[->|Hx]%elem_of_cons]%elem_of_cons; [apply Hmax; left| |apply Hmax; by right].
        apply (less_negtrans _ best); [apply Hmax; left|done].
Qed.
End Max.

Lemma ltb_le x y : String.ltb x y = false ↔ String.le y x.
Proof.
  unfold String.le, String.leb, String.ltb. rewrite (String.compare_antisym x y).
  by destruct (String.compare y x).
Qed.
Lemma ltb_asym x y : String.ltb x y = true → String.ltb y x = false.
Proof. unfold String.ltb. rewrite String.compare_antisym. by destruct (String.compare y x). Qed.
Lemma ltb_negtrans x y z : String.ltb x y = false → String.ltb y z = false → String.ltb x z = false.
Proof. rewrite !ltb_le. intros ??. by etrans. Qed.

Lemma later_asym a b : later a b = true → later b a = false.
Proof.
  unfold later. intros H. apply orb_true_iff in H. rewrite !andb_true_iff, !orb_true_iff, !andb_true_iff in H.
  destruct (String.ltb (j_id b) (j_id a)) eqn:E; [apply ltb_asym in E|]; rewrite ?andb_true_r, ?andb_false_r, ?orb_false_r.
  all: apply not_true_iff_false; rewrite ?orb_true_iff, ?andb_true_iff, ?orb_true_iff, ?andb_true_iff.
  all: rewrite ?Z.ltb_lt, ?Z.eqb_eq in *; intuition (try lia; try congruence).
Qed.

Lemma later_negtrans a b c : later a b = false → later b c = false → later a c = false.
Proof.
  unfold later. intros H1 H2. pose proof (ltb_negtrans (j_id a) (j_id b) (j_id c)) as Ht.
  apply orb_false_iff in H1 as [A1 B1]. apply orb_false_iff in H2 as [A2 B2]. bool_simpl.
  apply orb_false_iff. split; [apply Z.ltb_ge; lia|].
  destruct (finished_at a =? finished_at c) eqn:E; [|done]. apply Z.eqb_eq in E.
  rewrite (proj2 (Z.eqb_eq _ _)) in B1 by lia. rewrite (proj2 (Z.eqb_eq _ _)) in B2 by lia. simpl in *.
  apply orb_false_iff in B1 as [C1 D1]. apply orb_false_iff in B2 as [C2 D2]. bool_simpl.
  apply orb_false_iff. split; [apply Z.ltb_ge; lia|].
  destruct (j_created_at a =? j_created_at c) eqn:E'; [|done]. apply Z.eqb_eq in E'.
  rewrite (proj2 (Z.eqb_eq _ _)) in D1 by lia. rewrite (proj2 (Z.eqb_eq _ _)) in D2 by lia. simpl in *. auto.
Qed.

Lemma latest_run_spec runs r : _latest runs = Some r →
  r ∈ runs ∧ ∀ r', r' ∈ runs → later (run_job r) (run_job r') = false.
Proof.
  destruct runs as [|r0 runs]; [done|]. intros [= <-]. apply (max_by_spec (λ a b, later (run_job a) (run_job b))).
  - intros x y. apply later_asym.
  - intros x y z. apply later_negtrans.
Qed.
Lemma latest_None runs : _latest runs = None ↔ runs = [].
Proof. by destruct runs. Qed.

(** A digest is never the empty text. *)
Lemma fold_sha_length l st : length st = 8%nat → length (fold_left sha_round l st) = 8%nat.
Proof.
  revert st. induction l as [|x l IH]; intros st Hst; [done|]. simpl. apply IH.
  unfold sha_round. repeat (destruct st as [|? st]; try done); by destruct x.
Qed.
Lemma sha_blocks_length n h data : length h = 8%nat → length (sha_blocks n h data) = 8%nat.
Proof.
  revert h data. induction n as [|n IH]; intros h data Hh; [done|]. simpl. apply IH.
  unfold sha_block. by rewrite length_zip_with, fold_sha_length, Hh.
Qed.
Lemma sha256_hex_nonempty s : sha256_hex s ≠ "".
Proof.
  unfold sha256_hex, sha256_bytes.
  pose proof (sha_blocks_length (length (sha_pad (utf8 s)) / 64) sha_H0 (sha_pad (utf8 s)) eq_refl) as Hl.
  destruct (sha_blocks _ _ _) as [|x l]; [done|]. done.
Qed.

(** ** What the report is about *)

(** A Gate job of the engagement that reported an assessment. *)
Definition executed (p : string) (d : db) (r : _Run) : Prop :=
  ∃ k j, scan_jobs d !! k = Some j ∧ j_program_id j = p ∧ j_tool_type j = GATE_TOOL ∧ truthy (j_assessment j) = true
    ∧ new_run j = Ok r.

(** A stored case with an allow or deny expectation, whose request the
    endpoint answers. *)
Definition reviewed_for (p : string) (d : db) (e : ApiEndpoint) (c : AuthorizationTestCase) : Prop :=
  c ∈ test_cases d ∧ tc_program_id c = p
  ∧ ∃ v, review c = Ok v ∧ decided v = true ∧ covers e (rv_request v) = true.

(** A run that verified the very spec the case has now. *)
Record current (p : string) (d : db) (c : AuthorizationTestCase) (r : _Run) : Prop := {
  cu_executed : executed p d r;
  cu_case : run_case_id r = tc_id c;
  cu_verified : run_verified r = true;
  cu_spec : ∃ spec, tc_spec c = JObj spec ∧ spec ≠ [] ∧ run_snapshot_hash r = Some (case_hash (tc_spec c));
}.

(** The one that counts: none current for the case finished later. *)
Definition settles (p : string) (d : db) (c : AuthorizationTestCase) (r : _Run) : Prop :=
  current p d c r ∧ ∀ r', current p d c r' → later (run_job r) (run_job r') = false.

(** An executed run on the endpoint has findings neither dismissed nor absent. *)
Definition flagged (p : string) (d : db) (e : ApiEndpoint) : Prop :=
  ∃ r, executed p d r ∧ covers e (run_request r) = true
    ∧ 0 < finding_count p (j_id (run_job r)) _OPEN_CANDIDATE d + finding_count p (j_id (run_job r)) ["promoted"] d.

Lemma gate_jobs_spec p d j :
  j ∈ gate_jobs p d ↔ ∃ k, scan_jobs d !! k = Some j ∧ j_program_id j = p ∧ j_tool_type j = GATE_TOOL.
Proof.
  unfold gate_jobs, jobs_where. change (List.filter ?f ?l) with (rows f l). rewrite elem_of_rows, list_elem_of_fmap.
  split.
  - intros [([k j'] & -> & Hk%elem_of_map_to_list) Hb]. bool_simpl. eauto.
  - intros (k & Hk & <- & Ht). split; [|by rewrite Ht, !String.eqb_refl]. exists (k, j).
    by rewrite elem_of_map_to_list.
Qed.

Lemma executed_runs_spec p d runs : executed_runs (gate_jobs p d) = Ok runs → ∀ r, r ∈ runs ↔ executed p d r.
Proof.
  intros H%map_result_forall r. split.
  - intros Hr. destruct (Forall2_elem_r _ _ _ _ H Hr) as (j & [Hj Ht]%elem_of_rows & Hn).
    apply gate_jobs_spec in Hj as (k & ? & ? & ?). by exists k, j.
  - intros (k & j & Hk & Hp & Ht & Ha & Hn).
    assert (Hj : j ∈ rows (λ j, truthy (j_assessment j)) (gate_jobs p d)).
    { apply elem_of_rows. split; [|done]. apply gate_jobs_spec. eauto. }
    destruct (Forall2_elem_l _ _ _ _ H Hj) as (r' & Hr' & Hn'). congruence.
Qed.

Lemma is_current_spec p d c r :
  is_current_for (tc_id c) (case_hash_of c) r = true ∧ executed p d r ↔ current p d c r.
Proof.
  unfold is_current_for, case_hash_of. split.
  - intros [H Hex]. apply andb_true_iff in H as [Hc H]. apply String.eqb_eq in Hc.
    unfold filled_dict in H. destruct (tc_spec c) as [| | | | | |[|kv s]] eqn:Es; simpl in H; try done.
    bool_simpl. split; [done..|]. exists (kv :: s). by rewrite Es.
  - intros [Hex Hc Hv (spec & Hs & Hne & Hh)]. split; [|done].
    rewrite Hc, String.eqb_refl, Hv. unfold filled_dict. rewrite Hs in *. destruct spec as [|kv s]; [done|]. simpl.
    rewrite Hh. rewrite bool_decide_eq_true_2 by done.
    rewrite (proj2 (String.eqb_neq _ _)); [done|]. apply sha256_hex_nonempty.
Qed.

(** ** One operation *)

Lemma sum_of_pos {A} (f : A → Z) l : (∀ x, 0 <= f x) → sum_of f l ≠ 0 ↔ ∃ x, x ∈ l ∧ 0 < f x.
Proof.
  intros Hf. assert (Hn : ∀ l, 0 <= sum_of f l).
  { intros l'. induction l' as [|x l' IH]; simpl; [done|]. specialize (Hf x). lia. }
  induction l as [|x l IH]; simpl.
  - split; [done|]. intros (x & Hx & _). by apply elem_of_nil in Hx.
  - specialize (Hn l) as Hl. specialize (Hf x) as Hx. split.
    + intros H. destruct (decide (0 < f x)); [exists x; split; [left|done]|].
      destruct (proj1 IH) as (y & Hy & Hp); [lia|]. exists y. split; [by right|done].
    + intros (y & [->|Hy]%elem_of_cons & Hp); [lia|].
      assert (sum_of f l ≠ 0) by (apply IH; eauto). lia.
Qed.

Lemma sum_of_add {A} (f g : A → Z) l : sum_of f l + sum_of g l = sum_of (λ x, f x + g x) l.
Proof. induction l as [|x l IH]; simpl; [done|]. lia. Qed.

Lemma finding_count_nonneg p j s d : 0 <= finding_count p j s d.
Proof. unfold finding_count. lia. Qed.

(** An examined case carries its latest current run. *)
Lemma examine_spec runs queued c x : examine runs queued c = Ok x →
  ex_case x = c ∧ ex_latest x = _latest (current_runs runs (rv_case c))
  ∧ en_executed (ex_entry x) = bool_decide (is_Some (ex_latest x)) ∧ en_case_id (ex_entry x) = tc_id (rv_case c).
Proof.
  unfold examine. intros (reasons & _ & H)%rbind_ok. apply rbind_ok in H as (cells & _ & [= <-]). done.
Qed.

Lemma conclusive_spec s : conclusive s = true ↔ s = JStr "conclusive".
Proof. unfold conclusive. destruct s; split; try done; intros H; [by apply String.eqb_eq in H as ->|by injection H as ->]. Qed.

Lemma operation_state_spec f examined s :
  (∀ x, x ∈ examined → en_executed (ex_entry x) = bool_decide (is_Some (ex_latest x))) →
  operation_state f examined = Ok s →
  (s = "violation_candidate" ↔ f ≠ 0) ∧ (s = "untested" ↔ f = 0 ∧ examined = [])
  ∧ (s = "conclusive" ↔ f = 0 ∧ examined ≠ []
       ∧ ∀ x, x ∈ examined → ∃ r, ex_latest x = Some r ∧ assessment_status r = JStr "conclusive").
Proof.
  intros Hex. unfold operation_state. destruct (f =? 0) eqn:Ef; cbn [negb]; bool_simpl.
  2: { intros [= <-]. naive_solver. }
  destruct examined as [|x0 more] eqn:Ee; [intros [= <-]; naive_solver|]. cbv beta iota zeta.
  rewrite <-Ee in *. assert (Hne : examined ≠ []) by (by rewrite Ee).
  set (statuses := omap (λ x, assessment_status <$> ex_latest x) examined).
  assert (Hst : ∀ v, v ∈ statuses ↔ ∃ x r, x ∈ examined ∧ ex_latest x = Some r ∧ assessment_status r = v).
  { intros v. unfold statuses. rewrite list_elem_of_omap. split.
    - intros (x & Hx & (r & Hr & ->)%fmap_Some). eauto.
    - intros (x & r & Hx & Hr & <-). exists x. by rewrite Hr. }
  clearbody statuses. assert (Hall : forallb conclusive statuses && forallb (λ x, en_executed (ex_entry x)) examined = true ↔
    ∀ x, x ∈ examined → ∃ r, ex_latest x = Some r ∧ assessment_status r = JStr "conclusive").
  { rewrite andb_true_iff, !forallb_forall. split.
    - intros [Hs He] x Hx. specialize (He x (proj1 (list_elem_of_In _ _) Hx)). rewrite (Hex x Hx) in He.
      apply bool_decide_eq_true in He as [r Hr]. exists r. split; [done|]. apply conclusive_spec, Hs.
      apply list_elem_of_In, Hst. eauto.
    - intros H. split.
      + intros v Hv%list_elem_of_In. apply Hst in Hv as (x & r & Hx & Hr & <-). destruct (H x Hx) as (r' & Hr' & Hc).
        apply conclusive_spec. congruence.
      + intros x Hx%list_elem_of_In. rewrite (Hex x Hx). apply bool_decide_eq_true. destruct (H x Hx) as (r & -> & _). eauto. }
  intros H.
  assert (Hnot : ∀ t : string, s = t → t ≠ "violation_candidate" ∧ t ≠ "untested" ∧ t ≠ "conclusive" → ¬ (∀ x, x ∈ examined → ∃ r, ex_latest x = Some r ∧ assessment_status r = JStr "conclusive") →
    (s = "violation_candidate" ↔ f ≠ 0) ∧ (s = "untested" ↔ f = 0 ∧ examined = [])
    ∧ (s = "conclusive" ↔ f = 0 ∧ examined ≠ []
       ∧ ∀ x, x ∈ examined → ∃ r, ex_latest x = Some r ∧ assessment_status r = JStr "conclusive")).
  { intros t -> (Hv & Hu & Hk) Hno. split_and!; (split; [intros Ht; by destruct (Hv Ht) || by destruct (Hu Ht) || by destruct (Hk Ht)|]).
    - done.
    - by intros [_ ?].
    - by intros (_ & _ & ?). }
  destruct statuses as [|v0 vs] eqn:Es.
  - assert (Hno : ¬ (∀ x, x ∈ examined → ∃ r, ex_latest x = Some r ∧ assessment_status r = JStr "conclusive")).
    { intros Hc. destruct (Hc x0) as (r & Hr & Hv); [rewrite Ee; left|].
      assert (Hin : JStr "conclusive" ∈ @nil json); [|by apply elem_of_nil in Hin].
      apply Hst. exists x0, r. split_and!; [rewrite Ee; left|done|done]. }
    injection H as <-. eapply Hnot; [reflexivity|by destruct (existsb _ _)|done].
  - rewrite <-Es in *. destruct (forallb conclusive statuses && _) eqn:Ec.
    + injection H as <-. split_and!; [done|by split; [|intros [_ ?]]|]. split; [|done]. intros _. split_and!; [done..|]. by apply Hall.
    + apply rbind_ok in H as (some & _ & [= <-]).
      eapply Hnot; [reflexivity|by destruct some|]. intros Hc. apply Hall in Hc. congruence.
Qed.

(** ** The whole report *)

(** What [build_coverage] computed on the way. *)
Record built (p : string) (d : db) (cv : Coverage) : Prop := {
  bu_parts : ∃ runs queued fields all universe,
    executed_runs (gate_jobs p d) = Ok runs ∧ map_result review (cases_of p d) = Ok all
    ∧ map_result (examine_endpoint p d (cases_of p d) (rows decided all) runs queued universe fields) (endpoints_of p d)
      = Ok (cv_operations cv)
    ∧ cv_unmatched_cases cv
      = map unmatched_case (rows (λ c, negb (existsb (λ e, covers e (rv_request c)) (endpoints_of p d))) (rows decided all))
        ++ map unreviewed_case (rows (λ c, negb (decided c)) all)
    ∧ cv_unattributed_assessments cv
      = map unattributed (rows (λ r, negb (existsb (λ e, covers e (run_request r)) (endpoints_of p d))) runs);
  bu_total : cv_total cv = Z.of_nat (length (cv_operations cv));
  bu_counts : cv_counts cv
    = map (λ s, (s, Z.of_nat (length (rows (λ o, String.eqb (op_state o) s) (cv_operations cv))))) STATES;
}.

Lemma build_inv d p cv : build_coverage d p = Ok cv → built p d cv.
Proof.
  unfold build_coverage. cbv zeta. intros (runs & Hr & H)%rbind_ok. apply rbind_ok in H as (queued & Hq & H).
  apply rbind_ok in H as (fields & Hf & H). apply rbind_ok in H as (all & Ha & H).
  apply rbind_ok in H as (ops & Ho & [= <-]). split; [|done|done]. simpl.
  exists runs, queued, fields, all. eexists. split_and!; [exact Hr|exact Ha|exact Ho|done|done].
Qed.

Lemma elem_of_cases p d c : c ∈ cases_of p d ↔ c ∈ test_cases d ∧ tc_program_id c = p.
Proof.
  unfold cases_of. rewrite merge_sort_Permutation, elem_of_rows. by rewrite String.eqb_eq.
Qed.

Lemma reviewed_elem p d all e c :
  map_result review (cases_of p d) = Ok all →
  reviewed_for p d e c ↔ ∃ v, v ∈ rows (λ v, covers e (rv_request v)) (rows decided all) ∧ rv_case v = c.
Proof.
  intros Hall%map_result_forall.
  assert (Hcase : ∀ c v, review c = Ok v → rv_case v = c).
  { intros c' v H. unfold review in H. cbv zeta in H. do 2 apply rbind_ok in H as (? & _ & H). by injection H as <-. }
  split.
  - intros (Hc & Hp & v & Hv & Hd & Hcov). assert (Hin : c ∈ cases_of p d) by (by apply elem_of_cases).
    destruct (Forall2_elem_l _ _ _ _ Hall Hin) as (v' & Hv' & Hr). assert (v' = v) as -> by congruence.
    exists v. split; [|by apply Hcase]. by rewrite !elem_of_rows.
  - intros (v & Hv & <-). rewrite !elem_of_rows in Hv. destruct Hv as [[Hv Hd] Hcov].
    destruct (Forall2_elem_r _ _ _ _ Hall Hv) as (c' & Hc' & Hr). rewrite (Hcase _ _ Hr).
    apply elem_of_cases in Hc' as [??]. split_and!; [done..|]. eauto.
Qed.

Lemma settles_latest p d runs c r :
  (∀ r, r ∈ runs ↔ executed p d r) → _latest (current_runs runs c) = Some r → settles p d c r.
Proof.
  intros Hruns Hl. apply latest_run_spec in Hl as [Hin Hmax].
  assert (Hcur : ∀ r, r ∈ current_runs runs c ↔ current p d c r).
  { intros r'. unfold current_runs. rewrite elem_of_rows, Hruns, <-is_current_spec. tauto. }
  split; [by apply Hcur|]. intros r' Hr'%Hcur. by apply Hmax.
Qed.
Lemma settles_exists p d runs c :
  (∀ r, r ∈ runs ↔ executed p d r) → (∃ r, current p d c r) → ∃ r, _latest (current_runs runs c) = Some r.
Proof.
  intros Hruns (r & Hr). destruct (_latest (current_runs runs c)) as [r'|] eqn:E; [eauto|].
  apply latest_None in E. assert (Hin : r ∈ current_runs runs c).
  { unfold current_runs. rewrite elem_of_rows, Hruns. apply is_current_spec in Hr. tauto. }
  rewrite E in Hin. by apply elem_of_nil in Hin.
Qed.

(** Rows keep their keys. *)
Definition keyed (d : db) : Prop := ∀ k j, scan_jobs d !! k = Some j → j_id j = k.

Lemma settles_unique p d c r r' : keyed d → settles p d c r → settles p d c r' → r = r'.
Proof.
  intros Hk [Hr Hmax] [Hr' Hmax']. specialize (Hmax r' Hr'). specialize (Hmax' r Hr).
  destruct (cu_executed _ _ _ _ Hr) as (k & j & Hj & _ & _ & _ & Hn).
  destruct (cu_executed _ _ _ _ Hr') as (k' & j' & Hj' & _ & _ & _ & Hn').
  assert (Hjob : ∀ x y, new_run x = Ok y → run_job y = x).
  { intros x y H. unfold new_run in H. apply rbind_ok in H as (? & _ & H). cbv zeta in H.
    apply rbind_ok in H as (? & _ & [= <-]). done. }
  rewrite (Hjob _ _ Hn), (Hjob _ _ Hn') in *.
  assert (Hid : j_id j = j_id j').
  { unfold later in Hmax, Hmax'. apply orb_false_iff in Hmax as [F1 G1]. apply orb_false_iff in Hmax' as [F2 G2].
    bool_simpl. assert (Hf : finished_at j = finished_at j') by lia. rewrite Hf, Z.eqb_refl in *. simpl in *.
    apply orb_false_iff in G1 as [F3 G1]. apply orb_false_iff in G2 as [F4 G2]. bool_simpl.
    assert (Hc : j_created_at j = j_created_at j') by lia. rewrite Hc, Z.eqb_refl in *. simpl in *.
    apply ltb_le in G1. apply ltb_le in G2. by apply (anti_symm String.le). }
  pose proof (Hk _ _ Hj). pose proof (Hk _ _ Hj'). assert (k = k') as <- by congruence.
  assert (j = j') as <- by congruence. congruence.
Qed.

Lemma examine_endpoint_inv p d cases reviewed runs queued universe fields e o :
  examine_endpoint p d cases reviewed runs queued universe fields e = Ok o →
  op_endpoint o = e ∧ ∃ examined,
    map_result (examine runs (queued_in queued)) (rows (λ c, covers e (rv_request c)) reviewed) = Ok examined
    ∧ operation_state (sum_of (λ r, finding_count p (j_id (run_job r)) _OPEN_CANDIDATE d
                                     + finding_count p (j_id (run_job r)) ["promoted"] d)
                         (rows (λ r, covers e (run_request r)) runs)) examined = Ok (op_state o)
    ∧ op_cases o = map ex_entry examined ∧ op_identity_coverage o = map (identity_row examined) universe.
Proof.
  unfold examine_endpoint, _operation. cbv zeta. intros (examined & Hex & H)%rbind_ok.
  apply rbind_ok in H as (state & Hst & [= <-]). simpl. split; [done|]. exists examined. split_and!; try done.
  by rewrite <-sum_of_add.
Qed.

(** What a reviewed case of an operation was examined to. *)
Lemma examined_cases p d all runs q e examined :
  map_result review (cases_of p d) = Ok all →
  map_result (examine runs q) (rows (λ c, covers e (rv_request c)) (rows decided all)) = Ok examined →
  (∀ x, x ∈ examined → ∃ c, reviewed_for p d e c ∧ ex_latest x = _latest (current_runs runs c)
     ∧ en_executed (ex_entry x) = bool_decide (is_Some (ex_latest x)) ∧ en_case_id (ex_entry x) = tc_id c)
  ∧ (∀ c, reviewed_for p d e c → ∃ x, x ∈ examined ∧ ex_latest x = _latest (current_runs runs c)
     ∧ en_case_id (ex_entry x) = tc_id c).
Proof.
  intros Hall Hex%map_result_forall. split.
  - intros x Hx. destruct (Forall2_elem_r _ _ _ _ Hex Hx) as (v & Hv & (_ & Hl & He & Hid)%examine_spec).
    exists (rv_case v). split_and!; [|done..]. apply (reviewed_elem p d all e _ Hall). eauto.
  - intros c Hc. apply (reviewed_elem p d all e c Hall) in Hc as (v & Hv & <-).
    destruct (Forall2_elem_l _ _ _ _ Hex Hv) as (x & Hx & (_ & Hl & _ & Hid)%examine_spec). eauto.
Qed.

(** C19. The states of the coverage report mean what they are called.  An
    operation is a violation candidate exactly when a run that exercised it
    has an open or promoted finding, whatever became of the case since; it is
    untested exactly when it is not flagged and no reviewed case covers it;
    and it is conclusive exactly when it is not flagged, some reviewed case
    covers it, and for every such case the latest run that verified the spec
    the case has now reported a conclusive assessment. *)
Theorem coverage_states_mean_what_they_say d p cv o :
  keyed d → build_coverage d p = Ok cv → o ∈ cv_operations cv →
  (op_state o = "violation_candidate" ↔ flagged p d (op_endpoint o))
  ∧ (op_state o = "untested" ↔ ¬ flagged p d (op_endpoint o) ∧ ¬ ∃ c, reviewed_for p d (op_endpoint o) c)
  ∧ (op_state o = "conclusive" ↔ ¬ flagged p d (op_endpoint o) ∧ (∃ c, reviewed_for p d (op_endpoint o) c)
       ∧ ∀ c, reviewed_for p d (op_endpoint o) c →
           ∃ r, settles p d c r ∧ assessment_status r = JStr "conclusive").
Proof.
  intros Hk [(runs & queued & fields & all & universe & Hr & Hall & Ho & _ & _) _ _]%build_inv Hin.
  apply map_result_forall in Ho. destruct (Forall2_elem_r _ _ _ _ Ho Hin) as (e & _ & He).
  apply examine_endpoint_inv in He as (-> & examined & Hex & Hst & _ & _).
  destruct (examined_cases p d all runs _ e examined Hall Hex) as [Hfrom Hto].
  pose proof (executed_runs_spec _ _ _ Hr) as Hruns.
  apply operation_state_spec in Hst as (Hv & Hu & Hc); [|intros x Hx; by destruct (Hfrom x Hx) as (? & _ & _ & ? & _)].
  assert (Hflag : sum_of (λ r, finding_count p (j_id (run_job r)) _OPEN_CANDIDATE d
                               + finding_count p (j_id (run_job r)) ["promoted"] d)
                    (rows (λ r, covers e (run_request r)) runs) ≠ 0 ↔ flagged p d e).
  { rewrite sum_of_pos; [|intros r; pose proof (finding_count_nonneg p (j_id (run_job r)) _OPEN_CANDIDATE d);
      pose proof (finding_count_nonneg p (j_id (run_job r)) ["promoted"] d); lia].
    unfold flagged. split; intros (r & Hrr).
    - destruct Hrr as [[Hr1 Hr2]%elem_of_rows Hp]. exists r. rewrite <-Hruns. done.
    - destruct Hrr as (H1 & H2 & Hp). exists r. by rewrite elem_of_rows, Hruns. }
  assert (Hnone : examined = [] ↔ ¬ ∃ c, reviewed_for p d e c).
  { split.
    - intros -> (c & Hrc). destruct (Hto c Hrc) as (x & Hx & _). by apply elem_of_nil in Hx.
    - intros Hno. destruct examined as [|x l]; [done|]. destruct Hno.
      destruct (Hfrom x) as (c & Hrc & _); [left|eauto]. }
  assert (Hzero : ∀ z : Z, z = 0 ↔ ¬ z ≠ 0) by lia.
  split_and!; [by rewrite Hv|by rewrite Hu, Hzero, Hflag, Hnone|]. rewrite Hc, Hzero, Hflag. split.
  - intros (Hf & Hne & Hex'). split; [done|]. split.
    + destruct examined as [|x l]; [done|]. destruct (Hfrom x) as (c & Hrc & _); [left|eauto].
    + intros c Hrc. destruct (Hto c Hrc) as (x & Hx & Hl & _). destruct (Hex' x Hx) as (r & Hlr & Hcon).
      exists r. split; [|done]. apply (settles_latest p d runs); [done|congruence].
  - intros (Hf & Hsome & Hset). split; [done|]. split; [rewrite Hnone; by intros []|].
    intros x Hx. destruct (Hfrom x Hx) as (c & Hrc & Hl & _). destruct (Hset c Hrc) as (r & Hr1 & Hcon).
    destruct (settles_exists p d runs c Hruns) as (r0 & Hr0); [exists r; apply Hr1|].
    exists r0. rewrite Hl. split; [done|]. by rewrite (settles_unique p d c r0 r Hk (settles_latest _ _ _ _ _ Hruns Hr0) Hr1).
Qed.

(** Every state is one of the seven. *)
Lemma operation_state_known f examined s : operation_state f examined = Ok s → s ∈ STATES.
Proof.
  assert (Hin : ∀ b : string, mem b STATES = true → b ∈ STATES).
  { intros b Hb. unfold mem in Hb. apply existsb_exists in Hb as (x & Hx%list_elem_of_In & ->%String.eqb_eq). done. }
  unfold operation_state. cbv zeta. intros H. apply Hin. revert H.
  destruct (f =? 0); simpl negb; [|by intros [= <-]].
  destruct examined as [|x l]; [by intros [= <-]|].
  destruct (omap _ _) as [|v vs]; [destruct (existsb _ (x :: l)); by intros [= <-]|].
  destruct (forallb _ _ && _); [by intros [= <-]|].
  intros (b & _ & [= <-])%rbind_ok. by destruct b.
Qed.

(** Rows counted by a column with known values add up. *)
Lemma sum_of_ext {A} (f g : A → Z) l : (∀ x, f x = g x) → sum_of f l = sum_of g l.
Proof. intros Hfg. induction l as [|x l IH]; simpl; [done|]. by rewrite Hfg, IH. Qed.
Lemma sum_of_one values v : NoDup values → v ∈ values → sum_of (λ w, if String.eqb v w then 1 else 0) values = 1.
Proof.
  assert (Hz : ∀ l, v ∉ l → sum_of (λ w, if String.eqb v w then 1 else 0) l = 0).
  { intros l Hl. induction l as [|w l IH]; [done|]. simpl. rewrite not_elem_of_cons in Hl. destruct Hl as [Hne Hl].
    rewrite (proj2 (String.eqb_neq _ _)) by done. by rewrite IH. }
  induction 1 as [|w l Hw Hl IH]; [by intros ?%elem_of_nil|]. simpl. intros [->|Hv]%elem_of_cons.
  - by rewrite String.eqb_refl, Hz.
  - rewrite IH by done. rewrite (proj2 (String.eqb_neq _ _)); [done|]. intros ->. done.
Qed.
Lemma count_by {A} (f : A → string) values l :
  NoDup values → (∀ x, x ∈ l → f x ∈ values) →
  sum_of (λ v, Z.of_nat (length (rows (λ x, String.eqb (f x) v) l))) values = Z.of_nat (length l).
Proof.
  intros Hnd. induction l as [|x l IH]; intros Hl.
  - clear. induction values as [|v vs IH]; [done|]. simpl. simpl in IH. lia.
  - rewrite (sum_of_ext _ (λ v, (if String.eqb (f x) v then 1 else 0)
                                + Z.of_nat (length (rows (λ x, String.eqb (f x) v) l)))).
    + rewrite <-sum_of_add, IH by (intros y Hy; apply Hl; by right).
      rewrite sum_of_one; [simpl length; lia|done|]. apply Hl. left.
    + intros v. unfold rows. simpl. destruct (String.eqb (f x) v); simpl length; lia.
Qed.


(** ** Templates *)

(** An inferred segment is the segment or a placeholder for it. *)
Lemma infer_segment_cases w :
  infer_segment w = w ∨ w ≠ "" ∧ object_segment (infer_segment w) = true ∧ free_of "/" (infer_segment w) = true.
Proof.
  destruct (decide (w = "")) as [->|Hne]; [left; vm_compute; reflexivity|]. unfold infer_segment.
  destruct (fullmatch _UUID w); [right; split_and!; [done|vm_compute; reflexivity..]|].
  destruct (fullmatch _INTEGER w); [right; split_and!; [done|vm_compute; reflexivity..]|].
  destruct (fullmatch _OPAQUE w); [right; split_and!; [done|vm_compute; reflexivity..]|by left].
Qed.

Lemma segment_inferred w : segment_matches (infer_segment w) w = true.
Proof.
  unfold segment_matches. destruct (infer_segment_cases w) as [->|(Hne & Ho & _)]; [by rewrite String.eqb_refl|].
  rewrite Ho, (proj2 (String.eqb_neq w "")) by done. by destruct (String.eqb _ _).
Qed.

(** A template inferred from a path matches it. *)
Lemma template_matches_path path : startswith path "/" = true → _template_matches (infer_path_template path) path = true.
Proof.
  intros Hp. destruct path as [|c path]; [done|]. unfold infer_path_template. simpl String.eqb. cbv iota.
  simpl in Hp. assert (c = "/"%char) as -> by (destruct (Ascii.eqb_spec c "/"); [done|by destruct c as [[] [] [] [] [] [] [] []]]).
  set (ws := split_char "/" path).
  assert (Hsplit : split_char "/" (String "/" path) = "" :: ws) by done. rewrite Hsplit.
  assert (Hnil : ws ≠ []) by apply split_char_nonempty.
  assert (Hjoin : join "/" (map infer_segment ("" :: ws)) = "/" +:+ join "/" (map infer_segment ws)).
  { change (map infer_segment ("" :: ws)) with (infer_segment "" :: map infer_segment ws).
    assert (infer_segment "" = "") as -> by (vm_compute; reflexivity). destruct ws; [done|]. done. }
  assert (Hst : startswith (join "/" (map infer_segment ("" :: ws))) "/" = true) by (rewrite Hjoin; apply startswith_app).
  cbv zeta. rewrite Hst. unfold _template_matches. apply orb_true_iff. right. unfold _segments. rewrite Hsplit.
  change "/" with (str1 "/"). rewrite split_join.
  - generalize ("" :: ws) as l. clear. induction l as [|w l IH]; [done|]. simpl. by rewrite segment_inferred.
  - done.
  - intros v Hv. apply list_elem_of_fmap in Hv as (w & -> & Hw).
    destruct (infer_segment_cases w) as [->|(_ & _ & Hf)]; [|done]. rewrite <-Hsplit in Hw. by apply split_char_free in Hw.
Qed.

Lemma span_until_stop p s : (span_until p s).2 = "" ∨ ∃ c t, (span_until p s).2 = String c t ∧ p c = true.
Proof.
  induction s as [|c s IH]; simpl; [by left|]. destruct (p c) eqn:E; simpl; [right; eauto|].
  by destruct (span_until p s).
Qed.

(** What is cut off at a delimiter keeps its first character, unless that is
    the delimiter. *)
Lemma cut_or_first x c s : (cut_or (str1 x) (String c s)).1 = "" ∨ c ≠ x ∧ ∃ t, (cut_or (str1 x) (String c s)).1 = String c t.
Proof.
  unfold cut_or. simpl. destruct (Ascii.eqb x c) eqn:E; simpl; [by left|]. right.
  split; [intros ->; by rewrite Ascii.eqb_refl in E|]. destruct (cut (str1 x) s) as [a [b|]]; simpl; eauto.
Qed.
Lemma cut_or_empty x : (cut_or (str1 x) "").1 = "".
Proof. done. Qed.

Lemma urlsplit_path text u host :
  urlsplit text = Ok u → hostname u = Some host → url_path u = "" ∨ startswith (url_path u) "/" = true.
Proof.
  unfold urlsplit. cbv zeta. destruct (match _ with (_, Some _) => _ | (_, None) => _ end) as [scheme rest].
  destruct (startswith rest "//").
  2: { destruct (_ || _); [done|]. destruct (_ && _); [done|]. destruct (cut_or "#" rest) as [u1 f].
       destruct (cut_or "?" u1) as [u2 q]. intros [= <-]. done. }
  set (p := λ c, Ascii.eqb c "/" || Ascii.eqb c "?" || Ascii.eqb c "#").
  pose proof (span_until_stop p (drop_string 2 rest)) as Hstop.
  destruct (span_until p (drop_string 2 rest)) as [netloc tail]. simpl in Hstop.
  destruct (_ || _); [done|]. destruct (_ && _); [done|].
  change "#" with (str1 "#"). change "?" with (str1 "?").
  destruct (cut_or (str1 "#") tail) as [u1 f] eqn:E1. destruct (cut_or (str1 "?") u1) as [u2 q] eqn:E2.
  intros [= <-] _. simpl. apply (f_equal fst) in E1, E2. simpl in E1, E2.
  destruct Hstop as [->|(c & t & -> & Hc)].
  - rewrite cut_or_empty in E1. subst u1. rewrite cut_or_empty in E2. by left.
  - destruct (cut_or_first "#" c t) as [H|(Hh & t' & H)]; rewrite H in E1; subst u1.
    + rewrite cut_or_empty in E2. by left.
    + destruct (cut_or_first "?" c t') as [H'|(Hq & t'' & H')]; rewrite H' in E2; subst u2; [by left|right].
      unfold p in Hc. apply orb_true_iff in Hc as [Hc|Hc%Ascii.eqb_eq]; [|done].
      apply orb_true_iff in Hc as [->%Ascii.eqb_eq|Hc%Ascii.eqb_eq]; done.
Qed.

Lemma parse_request_path request r : parse_request request = Some r →
  startswith (rt_path r) "/" = true ∧ rt_template r = infer_path_template (rt_path r).
Proof.
  unfold parse_request. destruct request as [| | | | | |fields]; try done. cbv zeta.
  destruct (urlsplit _) as [u|] eqn:Eu; [|done]. destruct (port u) as [pt|]; [|done].
  destruct (hostname u) as [host|] eqn:Eh; [|done]. destruct (_ || _); [done|]. intros [= <-]. simpl.
  destruct (urlsplit_path _ _ _ Eu Eh) as [Hp|Hp].
  - rewrite Hp. by split.
  - split; [|done]. destruct (url_path u); done.
Qed.

(** An endpoint recorded with a usable request's method, scheme, host and port
    and the template inferred from its path is matched by that request. *)
Lemma recorded_covers request r e :
  parse_request request = Some r →
  ae_method e = rt_method r → or_else (ae_scheme e) "https" = rt_scheme r → lower (ae_host e) = rt_host r →
  _port (rt_scheme r) (ae_port e) = rt_port r → ae_path_template e = rt_template r →
  operation_matches e r = true.
Proof.
  intros [Hp Ht]%parse_request_path Hm Hs Hh Hport Htemp. unfold operation_matches. cbv zeta.
  rewrite Hm, Hs, Hh, Hport, Htemp, Ht, !String.eqb_refl, Z.eqb_refl. by apply template_matches_path.
Qed.

(** ** A small engagement *)

Module Sample.
Definition spec : dict :=
  [("id", JStr "case-1");
   ("request", JObj [("method", JStr "get"); ("url", JStr "https://API.acme.com/orders/42")]);
   ("identities", JList [JObj [("id", JStr "alice")]; JObj [("id", JStr "bob")]]);
   ("expected_access", JList [JObj [("identity_id", JStr "alice"); ("decision", JStr "allow")];
                              JObj [("identity_id", JStr "bob"); ("decision", JStr "deny")]])].
Definition endpoint : ApiEndpoint :=
  MkApiEndpoint "ep-1" "eng-1" None "GET" (Some "https") "api.acme.com" None "/orders/{id}" "k" None None 1 0 0.
Definition case : AuthorizationTestCase := MkAuthorizationTestCase "tc-1" "eng-1" "alice" "Orders" "case-1" None (JObj spec) 0 None.
Definition assessment : dict :=
  [("status", JStr "conclusive"); ("case_snapshot_verified", JBool true);
   ("identities", JList [JObj [("identity_id", JStr "alice"); ("state", JStr "evaluated")]])].
Definition job : ScanJob :=
  j_set_assessment (JObj assessment) (j_set_case_snapshot (JObj spec) (j_set_status "done"
    (new_job "job-1" "eng-1" "alice" GATE_TOOL "scope" [("test_case_id", JStr "tc-1")] None false 0))).
Definition d : db :=
  set_api_endpoints [endpoint] (set_test_cases [case] (set_scan_jobs {["job-1" := job]} (set_engagement demo_engagement empty_db))).
Definition no_report : Coverage := MkCoverage [] 0 [] [] [] [].
Definition no_operation : Operation := MkOperation endpoint [] [] "" [] [] (MkCandidates 0 0 0 0) [] [].
Definition report : Coverage :=
  Eval vm_compute in match build_coverage d "eng-1" with Ok cv => cv | Raise _ => no_report end.
Definition operation : Operation := Eval vm_compute in List.hd no_operation (cv_operations report).

Lemma reported : build_coverage d "eng-1" = Ok report.
Proof. vm_compute. reflexivity. Qed.

Example sample_is_conclusive : op_state operation = "conclusive".
Proof. reflexivity. Qed.

Lemma d_keyed : keyed d.
Proof. unfold keyed, d. simpl. by intros k j [<- <-]%lookup_singleton_Some. Qed.

Lemma coverage_states_mean_what_they_say_witness :
  (op_state operation = "violation_candidate" ↔ flagged "eng-1" d (op_endpoint operation))
  ∧ (op_state operation = "untested"
     ↔ ¬ flagged "eng-1" d (op_endpoint operation) ∧ ¬ ∃ c, reviewed_for "eng-1" d (op_endpoint operation) c)
  ∧ (op_state operation = "conclusive"
     ↔ ¬ flagged "eng-1" d (op_endpoint operation) ∧ (∃ c, reviewed_for "eng-1" d (op_endpoint operation) c)
       ∧ ∀ c, reviewed_for "eng-1" d (op_endpoint operation) c →
           ∃ r, settles "eng-1" d c r ∧ assessment_status r = JStr "conclusive").
Proof.
  apply (coverage_states_mean_what_they_say d "eng-1" report operation); [apply d_keyed|apply reported|].
  apply list_elem_of_In. vm_compute. left. reflexivity.
Defined.

End Sample.
