(* ===== verification/Surface.v ===== *)
(** * [routers/api_surface.py]: the inventory of observed operations

    Capturing a request and its answer, reading an operation and removing a
    capture.  A capture is looked up in the tables as they were when the
    handler read them ([seen]) and written to the tables as they are when it
    flushes ([d]): between the two another capture may have recorded the same
    operation, which is the race the handler recovers from.  The template of a
    path is in Coverage. *)
From S2P Require Import Prelude PyStr Regex Url Json JsonText Digest Time Models Access JobConfig Redaction Coverage.
From Stdlib Require Import Ascii.

Definition METHODS : list string := ["GET"; "POST"; "PUT"; "PATCH"; "DELETE"; "OPTIONS"; "HEAD"; "TRACE"].
Definition TOOLS : list string := ["proxy"; "repeater"; "intruder"; "scanner"; "organizer"; "unknown"].

(** The body after validation: lengths and ranges are pydantic's to check. *)
Record ExchangeCreate := MkExchangeCreate {
  xc_method : string;
  xc_url : string;
  xc_path_template : option string;
  xc_source_tool : string;
  xc_identity_label : string;
  xc_request_headers : string;
  xc_request_body : string;
  xc_response_headers : string;
  xc_response_body : string;
  xc_response_status : option Z;
  xc_response_length : option Z;
  xc_response_mime : string;
  xc_response_time_ms : option Z;
  xc_note : string;
  xc_captured_at : option time;
}.

(** [walk]: the names of every object of a document, the first fifty items of
    each list. *)
Fixpoint names_in (node : json) : list string :=
  match node with
  | JObj fields => concat (map (λ kv, take_string 100 kv.1 :: kv.2) (map (λ kv, (kv.1, names_in kv.2)) fields))
  | JList items => concat (take 50 (map names_in items))
  | _ => []
  end.

Section Capture.
Context (float_of : string → option pyfloat).
(** The names in a body with characters above U+00FF. *)
Context (outside_names : string → list string).
Context (strip_html : string → string).

Definition _parameter_names (body : string) : list string :=
  if String.eqb body "" then []
  else match json_loads false float_of body with
       | Loaded parsed => take 200 (sorted_strings (names_in parsed))
       | Malformed | TooLong => []
       | Outside => outside_names body
       end.

Definition same_operation (program_id method canonical : string) (e : ApiEndpoint) : bool :=
  String.eqb (ae_program_id e) program_id && String.eqb (ae_method e) method && String.eqb (ae_canonical_key e) canonical.

(** [f"{scheme}://{host}:{port}{template}"] *)
Definition canonical_key (scheme host : string) (port : Z) (template : string) : string :=
  scheme +:+ "://" +:+ host +:+ ":" +:+ string_of_Z port +:+ template.

(** What a request names: scheme, lowered host, explicit port, template. *)
Definition operation_of (payload : ExchangeCreate) : result (string * string * option Z * string) :=
  check? guard (mem (xc_method payload) METHODS) 400 "Unsupported HTTP method" in
  check? guard (mem (xc_source_tool payload) TOOLS) 400 ("source_tool must be one of " +:+ repr_list (sorted_strings TOOLS)) in
  let? parsed := urlsplit (xc_url payload) in
  match hostname parsed with
  | Some name =>
      check? guard (mem (url_scheme parsed) ["http"; "https"]) 400 "url must be an absolute HTTP(S) URL" in
      let template := match xc_path_template payload with
                      | Some t => if String.eqb t "" then infer_path_template (url_path parsed) else t
                      | None => infer_path_template (url_path parsed)
                      end in
      check? guard (startswith template "/" && negb (contains "?" template) && negb (contains "#" template))
        400 "path_template must be an absolute path without query or fragment" in
      let? p := port parsed in
      Ok (url_scheme parsed, lower name, p, template)
  | None => http 400 "url must be an absolute HTTP(S) URL"
  end.

Definition new_endpoint (id program_id method scheme host : string) (port : option Z) (template : string) (now : time)
    : ApiEndpoint :=
  MkApiEndpoint id program_id None method (Some scheme) host port template
    (canonical_key scheme host (_port scheme port) template) (Some "burp") (Some "") 0 now now.

(** The operation, found or inserted; the unique constraint decides a race. *)
Definition find_or_insert (seen : db) (e : ApiEndpoint) (d : db) : result (string * db) :=
  let same := same_operation (ae_program_id e) (ae_method e) (ae_canonical_key e) in
  match first_row same (api_endpoints seen) with
  | Some found => Ok (ae_id found, d)
  | None =>
      match first_row same (api_endpoints d) with
      | Some found => Ok (ae_id found, d)
      | None => Ok (ae_id e, set_api_endpoints (api_endpoints d ++ [e]) d)
      end
  end.

Definition message_hash (headers body : string) : string :=
  sha256_hex (headers +:+ str1 newline +:+ str1 newline +:+ body).

Definition new_exchange (id program_id endpoint_id : string) (payload : ExchangeCreate) (now : time) : ApiExchange :=
  let request_headers := redact_text (xc_request_headers payload) [] in
  let request_body := redact_text (xc_request_body payload) [] in
  let response_headers := redact_text (xc_response_headers payload) [] in
  let response_body := redact_text (xc_response_body payload) [] in
  MkApiExchange id program_id endpoint_id (Some (xc_source_tool payload))
    (Some (if String.eqb (xc_identity_label payload) "" then "anonymous" else xc_identity_label payload))
    (Some request_headers) (Some request_body) (Some response_headers) (Some response_body)
    (message_hash request_headers request_body) (message_hash response_headers response_body)
    (xc_response_status payload) (xc_response_length payload) (Some (xc_response_mime payload))
    (xc_response_time_ms payload) (JList (map JStr (_parameter_names request_body)))
    (Some (strip_html (xc_note payload))) (Some (default now (xc_captured_at payload))) now.

(** [observation_count = observation_count + 1], in the database. *)
Definition observed (now : time) (e : ApiEndpoint) : ApiEndpoint :=
  ae_set_last_seen_at now (ae_set_observation_count (ae_observation_count e + 1) e).

Definition create_exchange (endpoint_id exchange_id log_id : string) (now : time) (program_id : string)
    (payload : ExchangeCreate) (current_user : user_ctx) (seen d : db) : result (ApiExchange * db) :=
  let? engagement := get_engagement_or_404 program_id current_user seen in
  check? require_member_write engagement current_user seen in
  let? '(scheme, host, p, template) := operation_of payload in
  let endpoint := new_endpoint endpoint_id program_id (xc_method payload) scheme host p template now in
  let? '(found, d) := find_or_insert seen endpoint d in
  let row := new_exchange exchange_id program_id found payload now in
  let d := set_api_exchanges (api_exchanges d ++ [row]) d in
  let d := set_api_endpoints (update_rows (λ e, String.eqb (ae_id e) found) (observed now) (api_endpoints d)) d in
  Ok (row, log_action log_id now (cu_github_id current_user) "create" "api_exchange" exchange_id (Some program_id) d).

Definition newest_exchange (a b : ApiExchange) : Prop := ax_created_at b <= ax_created_at a.
#[export] Instance newest_exchange_dec : RelDecision newest_exchange.
Proof. intros a b. unfold newest_exchange. apply _. Defined.

(** One operation with a page of its captures, and how many there are. *)
Definition get_endpoint (program_id endpoint_id : string) (limit offset : nat) (current_user : user_ctx) (d : db)
    : result (ApiEndpoint * list ApiExchange * Z) :=
  let? _ := get_engagement_or_404 program_id current_user d in
  match first_row (λ e, String.eqb (ae_id e) endpoint_id && String.eqb (ae_program_id e) program_id) (api_endpoints d) with
  | None => http 404 "API endpoint not found"
  | Some row =>
      let exchanges := rows (λ x, String.eqb (ax_endpoint_id x) endpoint_id) (api_exchanges d) in
      Ok (row, take limit (drop offset (merge_sort newest_exchange exchanges)), Z.of_nat (length exchanges))
  end.

(** The count is computed from what the handler read. *)
Definition delete_exchange (log_id : string) (now : time) (program_id exchange_id : string) (current_user : user_ctx)
    (seen d : db) : result (string * db) :=
  let? engagement := get_engagement_or_404 program_id current_user seen in
  check? require_member_write engagement current_user seen in
  match first_row (λ x, String.eqb (ax_id x) exchange_id && String.eqb (ax_program_id x) program_id) (api_exchanges seen) with
  | None => http 404 "API exchange not found"
  | Some row =>
      match first_row (λ e, String.eqb (ae_id e) (ax_endpoint_id row)) (api_endpoints seen) with
      | None => Raise AttributeError
      | Some endpoint =>
          let count := Z.max 0 (ae_observation_count endpoint - 1) in
          let d := set_api_exchanges (rows (λ x, negb (String.eqb (ax_id x) (ax_id row))) (api_exchanges d)) d in
          let d := set_api_endpoints (update_rows (λ e, String.eqb (ae_id e) (ae_id endpoint))
                                        (ae_set_observation_count count) (api_endpoints d)) d in
          Ok ("API exchange deleted",
              log_action log_id now (cu_github_id current_user) "delete" "api_exchange" exchange_id (Some program_id) d)
      end
  end.
End Capture.
