(* ===== verification/SurfaceSafety.v ===== *)
(** * The inventory stays consistent with what was captured

    One operation per method and canonical key, whatever captures race; its
    count is the number of captures kept; and a captured request is covered by
    the operation it was recorded under. *)
From S2P Require Import Prelude PyStr Regex Url Json JsonText Digest Time Models Access JobConfig Schemas Scope Redaction Engagements Coverage CoverageSafety Surface.
From Stdlib Require Import Ascii.

(** ** What a request names *)

Lemma free_lower x s : lower_char x = x → (∀ c, lower_char c = x → c = x) → free_of x s = true → free_of x (lower s) = true.
Proof.
  intros Hx Hinj. unfold free_of, lower. induction s as [|c s IH]; [done|]. simpl. rewrite !andb_true_iff, !negb_true_iff.
  intros [Hc Hs]. split; [|by apply IH]. apply Ascii.eqb_neq. intros E. apply Ascii.eqb_neq in Hc. by rewrite (Hinj c) in Hc.
Qed.

Lemma slash_lower c : lower_char c = "/"%char → c = "/"%char.
Proof. by destruct c as [[] [] [] [] [] [] [] []]. Qed.

Lemma free_span p x s : free_of x s = true → free_of x (span_until p s).1 = true.
Proof.
  unfold free_of. induction s as [|c s IH]; [done|]. simpl. intros [Hc Hs]%andb_true_iff. destruct (p c); [done|].
  specialize (IH Hs). destruct (span_until p s). simpl in *. by rewrite Hc.
Qed.

Lemma span_free p x s : p x = true → free_of x (span_until p s).1 = true.
Proof.
  intros Hp. induction s as [|c s IH]; [done|]. simpl. destruct (p c) eqn:E; [done|].
  destruct (span_until p s) as [a b]. unfold free_of in *. simpl in *. rewrite IH, andb_true_r, negb_true_iff.
  apply Ascii.eqb_neq. congruence.
Qed.

Lemma rpartition_free c x s a b : rpartition c s = Some (a, b) → free_of x s = true → free_of x b = true.
Proof.
  unfold free_of. revert a b. induction s as [|d s IH]; intros a b; simpl; [done|]. intros H [Hd Hs]%andb_true_iff.
  destruct (rpartition c s) as [[a' b']|] eqn:E; [injection H as <- <-; by eapply IH|].
  destruct (Ascii.eqb c d); [|done]. by injection H as <- <-.
Qed.

Lemma free_cut x sep s : free_of x s = true →
  free_of x (before sep s) = true ∧ ∀ b, after sep s = Some b → free_of x b = true.
Proof.
  intros Hs. unfold before, after. destruct (cut sep s) as [a [b|]] eqn:E; simpl.
  - pose proof (cut_spec sep s a b E) as Hc. unfold free_of in *. rewrite Hc, !all_chars_app in Hs.
    apply andb_true_iff in Hs as [Ha Hs]. apply andb_true_iff in Hs as [_ Hb]. split; [done|]. by intros ? [= <-].
  - apply cut_none in E as ->. split; [done|]. done.
Qed.

(** No host contains a slash. *)
Lemma hostname_free text u h : urlsplit text = Ok u → hostname u = Some h → free_of "/" h = true.
Proof.
  intros Hu.
  assert (Hnet : free_of "/" (url_netloc u) = true).
  { revert Hu. unfold urlsplit. cbv zeta. destruct (match _ with (_, Some _) => _ | (_, None) => _ end) as [scheme rest].
    set (p := λ c, Ascii.eqb c "/" || Ascii.eqb c "?" || Ascii.eqb c "#").
    destruct (startswith rest "//").
    - pose proof (span_free p "/" (drop_string 2 rest) eq_refl) as Hf.
      destruct (span_until p (drop_string 2 rest)) as [netloc tail]. simpl in Hf.
      destruct (_ || _); [done|]. destruct (_ && _); [done|]. destruct (cut_or "#" tail) as [u1 f].
      destruct (cut_or "?" u1) as [u2 q]. by intros [= <-].
    - destruct (_ || _); [done|]. destruct (_ && _); [done|]. destruct (cut_or "#" rest) as [u1 f].
      destruct (cut_or "?" u1) as [u2 q]. by intros [= <-]. }
  assert (Hhp : free_of "/" (hostinfo_of (url_netloc u)) = true).
  { unfold hostinfo_of. destruct (rpartition _ _) as [[a b]|] eqn:E; [by eapply rpartition_free|done]. }
  unfold hostname. destruct (String.eqb _ _); [done|].
  assert (Hh : free_of "/" (hostinfo u).1 = true).
  { unfold hostinfo. cbv zeta. destruct (after "[" (hostinfo_of (url_netloc u))) as [br|] eqn:E; simpl.
    - apply free_cut. by apply (free_cut "/" "[" _ Hhp).
    - destruct (free_cut "/" ":" _ Hhp) as [Hb _]. unfold before in Hb. unfold cut_or.
      by destruct (cut ":" _) as [a [b|]]. }
  assert (Hlow : ∀ s, free_of "/" s = true → free_of "/" (lower s) = true) by (intros s; apply free_lower; [done|apply slash_lower]).
  destruct (free_cut "/" "%" _ Hh) as [Ha Hb]. unfold before, after in Ha, Hb.
  destruct (cut "%" _) as [a [zone|]]; intros [= <-]; simpl in *; [|by apply Hlow].
  unfold free_of at 1. rewrite all_chars_app. apply andb_true_iff. split; [by apply Hlow|]. simpl. by apply Hb.
Qed.

(** An operation's scheme, host, port and template, as its key spells them. *)
Record named (scheme host : string) (port : option Z) (template : string) : Prop := {
  nm_scheme : scheme = "http" ∨ scheme = "https";
  nm_lower : lower host = host;
  nm_slash : free_of "/" host = true;
  nm_template : startswith template "/" = true;
}.

Lemma operation_named payload s h p t : operation_of payload = Ok (s, h, p, t) → named s h p t.
Proof.
  unfold operation_of. intros (m1 & _ & H)%rbind_ok.
  apply rbind_ok in H as (m2 & _ & H). apply rbind_ok in H as (u & Hu & H).
  destruct (hostname u) as [name|] eqn:Eh; [|done]. apply rbind_ok in H as ([] & Hs%guard_ok & H).
  cbv zeta in H. apply rbind_ok in H as ([] & Ht%guard_ok & H). apply rbind_ok in H as (p' & _ & [= <- <- <- <-]).
  bool_simpl. unfold mem in Hs. simpl in Hs. split; [|apply lower_idem| |done].
  - rewrite orb_false_r in Hs. apply orb_true_iff in Hs as [Hs|Hs]; bool_simpl; auto.
  - apply free_lower; [done|apply slash_lower|]. by eapply hostname_free.
Qed.

(** ** The key determines what it spells *)

Lemma app_first_inj c a b x y : free_of c a = true → free_of c b = true → a +:+ String c x = b +:+ String c y → a = b ∧ x = y.
Proof.
  revert b. induction a as [|d a IH]; intros [|e b] Ha Hb H; unfold free_of in *; simpl in *.
  - by injection H.
  - injection H as <- _. by rewrite Ascii.eqb_refl in Hb.
  - injection H as -> _. by rewrite Ascii.eqb_refl in Ha.
  - injection H as <- H. apply andb_true_iff in Ha as [_ Ha], Hb as [_ Hb]. by destruct (IH b Ha Hb H) as [-> ->].
Qed.

Lemma app_last_inj c a b x y : free_of c x = true → free_of c y = true → a +:+ String c x = b +:+ String c y → a = b ∧ x = y.
Proof.
  intros Hx Hy. revert b. induction a as [|d a IH]; intros [|e b] H; simpl in *.
  - by injection H.
  - injection H as <- ->. unfold free_of in Hx. rewrite all_chars_app in Hx. simpl in Hx.
    rewrite Ascii.eqb_refl, andb_false_r in Hx. done.
  - injection H as -> <-. unfold free_of in Hy. rewrite all_chars_app in Hy. simpl in Hy.
    rewrite Ascii.eqb_refl, andb_false_r in Hy. done.
  - injection H as <- H. by destruct (IH b H) as [-> ->].
Qed.

Lemma digits_free c z : c ≠ "-"%char → is_decimal c = false → free_of c (string_of_Z z) = true.
Proof.
  intros Hm Hc.
  assert (Hd : ∀ n, 0 <= n → free_of c (string_of_pos n) = true).
  { intros n Hn. eapply all_chars_impl; [|by apply string_of_pos_digits]. intros d Hd. apply negb_true_iff, Ascii.eqb_neq. congruence. }
  unfold string_of_Z. destruct (z <? 0) eqn:E; bool_simpl; [|apply Hd; lia].
  unfold free_of at 1. simpl. apply andb_true_iff. split; [by apply negb_true_iff, Ascii.eqb_neq|]. apply Hd. lia.
Qed.

Lemma key_determines s h p t s' h' p' t' :
  named s h p t → named s' h' p' t' →
  canonical_key s h (_port s p) t = canonical_key s' h' (_port s' p') t' →
  s = s' ∧ h = h' ∧ _port s p = _port s' p' ∧ t = t'.
Proof.
  intros [Hs _ Hh Ht] [Hs' _ Hh' Ht'] H. unfold canonical_key in H.
  assert (s = s' ∧ h +:+ ":" +:+ string_of_Z (_port s p) +:+ t = h' +:+ ":" +:+ string_of_Z (_port s' p') +:+ t') as [-> Heq].
  { destruct Hs as [-> | ->], Hs' as [-> | ->]; simpl in H; injection H as H; done. }
  apply startswith_spec in Ht as [u ->]. apply startswith_spec in Ht' as [u' ->]. simpl in Heq.
  assert (Hsplit : ∀ x z w, x +:+ ":" +:+ string_of_Z z +:+ "/" +:+ w = (x +:+ String ":" (string_of_Z z)) +:+ String "/" w).
  { intros x z w. by rewrite <-app_assoc_string, app_String_l, !app_empty_l. }
  rewrite !Hsplit in Heq.
  assert (Hfree : ∀ x z, free_of "/" x = true → free_of "/" (x +:+ String ":" (string_of_Z z)) = true).
  { intros x z Hx. unfold free_of at 1. rewrite all_chars_app. apply andb_true_iff. split; [done|].
    by apply (digits_free "/" z). }
  apply app_first_inj in Heq as [Heq <-]; [|by apply Hfree..].
  apply app_last_inj in Heq as [<- Hz]; [|by apply digits_free..]. by apply string_of_Z_inj in Hz.
Qed.

(** ** The tables *)

Lemma eq_nil_rows {A} (p : A → bool) t : rows p t = [] ↔ ∀ x, x ∈ t → p x = false.
Proof.
  split.
  - intros H x Hx. destruct (p x) eqn:E; [|done]. assert (Hin : x ∈ rows p t) by (by apply elem_of_rows).
    rewrite H in Hin. by apply elem_of_nil in Hin.
  - intros H. destruct (rows p t) as [|x l] eqn:E; [done|]. assert (Hin : x ∈ rows p t) by (rewrite E; left).
    apply elem_of_rows in Hin as [Hx Hp]. by rewrite (H x Hx) in Hp.
Qed.

Definition operation_key (e : ApiEndpoint) : string * string * string := (ae_program_id e, ae_method e, ae_canonical_key e).
Definition captures (id : string) (d : db) : list ApiExchange := rows (λ x, String.eqb (ax_endpoint_id x) id) (api_exchanges d).

Record well_named (e : ApiEndpoint) : Prop := {
  wn_scheme : ∃ scheme, ae_scheme e = Some scheme ∧ named scheme (ae_host e) (ae_port e) (ae_path_template e)
    ∧ ae_canonical_key e = canonical_key scheme (ae_host e) (_port scheme (ae_port e)) (ae_path_template e);
}.

Record surface_wf (d : db) : Prop := {
  sw_ids : NoDup (map ae_id (api_endpoints d));
  sw_operations : NoDup (map operation_key (api_endpoints d));
  sw_captures : NoDup (map ax_id (api_exchanges d));
  sw_named : ∀ e, e ∈ api_endpoints d → well_named e;
  sw_owned : ∀ x, x ∈ api_exchanges d →
    ∃ e, e ∈ api_endpoints d ∧ ae_id e = ax_endpoint_id x ∧ ae_program_id e = ax_program_id x;
  sw_counted : ∀ e, e ∈ api_endpoints d → ae_observation_count e = Z.of_nat (length (captures (ae_id e) d));
}.

(** What a handler read is still there when it writes: operations keep their
    ids and keys. *)
Definition earlier (seen d : db) : Prop :=
  ∀ e, e ∈ api_endpoints seen → ∃ e', e' ∈ api_endpoints d ∧ ae_id e' = ae_id e ∧ operation_key e' = operation_key e.

Section Steps.
Context (float_of : string → option pyfloat) (outside_names : string → list string) (strip_html : string → string).
#[local] Abbreviation create := (create_exchange float_of outside_names strip_html).

(** Captures may have read an earlier state; removals and deletions of the
    engagement run alone. *)
Inductive surface_step (d : db) : db → Prop :=
| ss_capture endpoint_id exchange_id log_id now p payload u seen x d' :
    endpoint_id ∉ map ae_id (api_endpoints d) → exchange_id ∉ map ax_id (api_exchanges d) → earlier seen d →
    create endpoint_id exchange_id log_id now p payload u seen d = Ok (x, d') → surface_step d d'
| ss_remove log_id now p id u m d' : delete_exchange log_id now p id u d d = Ok (m, d') → surface_step d d'
| ss_delete log_id now p u m d' : delete_engagement log_id now p u d = Ok (m, d') → surface_step d d'.

Lemma create_inv endpoint_id exchange_id log_id now p payload u seen d x d' :
  create endpoint_id exchange_id log_id now p payload u seen d = Ok (x, d') →
  ∃ scheme host pt template found d1,
    operation_of payload = Ok (scheme, host, pt, template)
    ∧ find_or_insert seen (new_endpoint endpoint_id p (xc_method payload) scheme host pt template now) d = Ok (found, d1)
    ∧ ax_id x = exchange_id ∧ ax_endpoint_id x = found ∧ ax_program_id x = p
    ∧ api_exchanges d' = api_exchanges d1 ++ [x]
    ∧ api_endpoints d' = update_rows (λ e, String.eqb (ae_id e) found) (observed now) (api_endpoints d1).
Proof.
  unfold create_exchange. intros (e & _ & H)%rbind_ok. apply rbind_ok in H as ([] & _ & H).
  apply rbind_ok in H as ([[[scheme host] pt] template] & Ho & H).
  apply rbind_ok in H as ([found d1] & Hf & [= <- <-]). exists scheme, host, pt, template, found, d1. by split_and!.
Qed.

Lemma find_or_insert_spec seen e0 d found d1 :
  surface_wf d → earlier seen d → ae_id e0 ∉ map ae_id (api_endpoints d) → well_named e0 → ae_observation_count e0 = 0 →
  find_or_insert seen e0 d = Ok (found, d1) →
  surface_wf d1 ∧ api_exchanges d1 = api_exchanges d
  ∧ ∃ e, e ∈ api_endpoints d1 ∧ ae_id e = found ∧ operation_key e = operation_key e0.
Proof.
  intros Hwf Hseen Hfresh Hn H0. unfold find_or_insert. cbv zeta.
  set (same := same_operation _ _ _).
  assert (Hsame : ∀ e, same e = true → operation_key e = operation_key e0).
  { intros e He. unfold same, same_operation in He. bool_simpl. unfold operation_key. congruence. }
  destruct (first_row same (api_endpoints seen)) as [f|] eqn:E1.
  { intros [= <- <-]. apply first_row_Some in E1 as [Hf%Hseen Hs]. destruct Hf as (e' & ? & ? & ?).
    split_and!; [done..|]. exists e'. rewrite <-(Hsame f) by done. done. }
  destruct (first_row same (api_endpoints d)) as [f|] eqn:E2.
  { intros [= <- <-]. apply first_row_Some in E2 as [Hf Hs]. split_and!; [done..|]. exists f. auto. }
  intros [= <- <-]. simpl. rewrite first_row_None in E2. destruct Hwf as [H1 H2 H3 H4 H5 H6].
  split; [|split; [done|exists e0; split; [apply elem_of_app; right; by apply list_elem_of_singleton|done]]].
  split; simpl; try done.
  - rewrite map_app. by apply NoDup_snoc.
  - rewrite map_app. apply NoDup_snoc; [done|]. intros (e & Hk & He)%list_elem_of_fmap. specialize (E2 e He).
    unfold same, same_operation in E2. unfold operation_key in Hk. injection Hk as Hk1 Hk2 Hk3.
    by rewrite Hk1, Hk2, Hk3, !String.eqb_refl in E2.
  - intros e [He| ->%list_elem_of_singleton]%elem_of_app; auto.
  - intros x Hx. destruct (H5 x Hx) as (e & He & ?). exists e. split; [|done]. apply elem_of_app. by left.
  - intros e [He| ->%list_elem_of_singleton]%elem_of_app; [by apply H6|]. rewrite H0. unfold captures. simpl.
    rewrite (proj2 (eq_nil_rows _ _)); [done|]. intros x Hx. apply String.eqb_neq. intros Hid. destruct Hfresh.
    destruct (H5 x Hx) as (e & He & Hi & _). rewrite <-Hid, <-Hi. by apply list_elem_of_fmap_2.
Qed.

Lemma create_wf endpoint_id exchange_id log_id now p payload u seen d x d' :
  surface_wf d → earlier seen d →
  endpoint_id ∉ map ae_id (api_endpoints d) → exchange_id ∉ map ax_id (api_exchanges d) →
  create endpoint_id exchange_id log_id now p payload u seen d = Ok (x, d') → surface_wf d'.
Proof.
  intros Hwf Hseen Hf Hx (scheme & host & pt & template & found & d1 & Ho & Hi & Hid & Hfound & Hp & Hxs & Hes)%create_inv.
  apply operation_named in Ho. apply find_or_insert_spec in Hi as (Hwf1 & Hsame & e1 & He1 & Hid1 & Hk1); [|done..|split; eauto|done].
  destruct Hwf1 as [H1 H2 H3 H4 H5 H6]. split; rewrite ?Hxs, ?Hes.
  - by rewrite map_update_rows.
  - by rewrite map_update_rows.
  - rewrite map_app. apply NoDup_snoc; [done|]. by rewrite Hsame, Hid.
  - intros e (e' & He' & ->)%elem_of_update_rows. destruct (H4 e' He'). destruct (String.eqb _ _); by split.
  - assert (Hin : ∀ e, e ∈ api_endpoints d1 → ∃ e', e' ∈ update_rows (λ e, String.eqb (ae_id e) found) (observed now) (api_endpoints d1)
                      ∧ ae_id e' = ae_id e ∧ ae_program_id e' = ae_program_id e).
    { intros e He. eexists. split; [apply elem_of_update_rows; by exists e|]. by destruct (String.eqb _ _). }
    intros y [Hy| ->%list_elem_of_singleton]%elem_of_app.
    + destruct (H5 y Hy) as (e & He & <- & <-). by apply Hin.
    + destruct (Hin e1 He1) as (e & ? & ? & ?). exists e. injection Hk1 as Hpr _ _. split_and!; [done|congruence..].
  - intros e (e' & He' & ->)%elem_of_update_rows.
    assert (Hcap : ∀ i, length (captures i d') = (length (captures i d1) + if String.eqb found i then 1 else 0)%nat).
    { intros i. unfold captures. rewrite Hxs, rows_app, length_app. simpl. rewrite Hfound. by destruct (String.eqb found i). }
    specialize (H6 e' He'). destruct (String.eqb_spec (ae_id e') found) as [Heq|Hne]; simpl; rewrite Hcap, H6.
    + rewrite Heq, String.eqb_refl. lia.
    + rewrite (proj2 (String.eqb_neq found _)) by congruence. lia.
Qed.

Lemma remove_inv log_id now p id u d m d' :
  delete_exchange log_id now p id u d d = Ok (m, d') → ∃ row endpoint,
    row ∈ api_exchanges d ∧ endpoint ∈ api_endpoints d ∧ ae_id endpoint = ax_endpoint_id row
    ∧ api_exchanges d' = rows (λ x, negb (String.eqb (ax_id x) (ax_id row))) (api_exchanges d)
    ∧ api_endpoints d' = update_rows (λ e, String.eqb (ae_id e) (ae_id endpoint))
        (ae_set_observation_count (Z.max 0 (ae_observation_count endpoint - 1))) (api_endpoints d).
Proof.
  unfold delete_exchange. intros (e & _ & H)%rbind_ok. apply rbind_ok in H as ([] & _ & H).
  destruct (first_row _ (api_exchanges d)) as [row|] eqn:E1; [|done]. apply first_row_Some in E1 as [Hr _].
  destruct (first_row _ (api_endpoints d)) as [endpoint|] eqn:E2; [|done]. apply first_row_Some in E2 as [He Hid]. bool_simpl.
  injection H as _ <-. exists row, endpoint. by split_and!.
Qed.

(** Dropping the one row with an id. *)
Lemma rows_drop_one (t : list ApiExchange) x i :
  NoDup (map ax_id t) → x ∈ t →
  length (rows (λ y, String.eqb (ax_endpoint_id y) i) t)
  = (length (rows (λ y, String.eqb (ax_endpoint_id y) i) (rows (λ y, negb (String.eqb (ax_id y) (ax_id x))) t))
     + if String.eqb (ax_endpoint_id x) i then 1 else 0)%nat.
Proof.
  induction t as [|y t IH]; [by intros _ ?%elem_of_nil|]. simpl. intros [Hy Ht]%NoDup_cons [->|Hx]%elem_of_cons.
  - rewrite String.eqb_refl. simpl. assert (rows (λ z, negb (String.eqb (ax_id z) (ax_id y))) t = t) as ->.
    { clear IH Ht. induction t as [|z t IH]; [done|]. simpl in *. rewrite (proj2 (String.eqb_neq _ _)).
      - simpl. f_equal. apply IH. set_solver.
      - intros Hz. apply Hy. rewrite Hz. left. }
    destruct (String.eqb _ i); simpl; lia.
  - rewrite (proj2 (String.eqb_neq (ax_id y) (ax_id x))).
    + specialize (IH Ht Hx). simpl. destruct (String.eqb (ax_endpoint_id y) i); simpl; lia.
    + intros Heq. apply Hy. rewrite Heq. by apply list_elem_of_fmap_2.
Qed.

Lemma remove_wf log_id now p id u d m d' :
  surface_wf d → delete_exchange log_id now p id u d d = Ok (m, d') → surface_wf d'.
Proof.
  intros [H1 H2 H3 H4 H5 H6] (row & endpoint & Hr & He & Hid & Hxs & Hes)%remove_inv. split; rewrite ?Hxs, ?Hes.
  - by rewrite map_update_rows.
  - by rewrite map_update_rows.
  - by apply NoDup_map_rows.
  - intros e (e' & He' & ->)%elem_of_update_rows. destruct (H4 e' He'). destruct (String.eqb _ _); by split.
  - intros x [Hx _]%elem_of_rows. destruct (H5 x Hx) as (e & Hin & Hi & Hpr). eexists.
    split; [apply elem_of_update_rows; by exists e|]. by destruct (String.eqb _ _).
  - intros e (e' & He' & ->)%elem_of_update_rows.
    pose proof (rows_drop_one (api_exchanges d) row (ae_id e') H3 Hr) as Hdrop. specialize (H6 e' He') as Hc.
    unfold captures in *. rewrite <-Hid in Hdrop.
    destruct (String.eqb_spec (ae_id e') (ae_id endpoint)) as [Heq|Hne]; simpl; rewrite Hxs.
    + apply (NoDup_map_inj _ _ _ _ H1 He' He) in Heq as ->. rewrite String.eqb_refl in Hdrop. lia.
    + rewrite (proj2 (String.eqb_neq (ae_id endpoint) _)) in Hdrop by congruence. rewrite Hc. f_equal. lia.
Qed.

Lemma delete_wf log_id now p u d m d' :
  surface_wf d → delete_engagement log_id now p u d = Ok (m, d') → surface_wf d'.
Proof.
  intros [H1 H2 H3 H4 H5 H6] H. unfold delete_engagement in H. apply rbind_ok in H as (x1 & _ & H).
  apply rbind_ok in H as ([] & _ & H). apply rbind_ok in H as (e1 & _ & H).
  do 3 apply rbind_ok in H as ([] & _ & H). injection H as _ <-.
  clear x1.
  split; simpl; unfold others.
  - by apply NoDup_map_rows.
  - by apply NoDup_map_rows.
  - by apply NoDup_map_rows.
  - intros e [He _]%elem_of_rows. auto.
  - intros x [Hx Hp]%elem_of_rows. destruct (H5 x Hx) as (e & He & Hi & Hpr). exists e. split; [|done].
    apply elem_of_rows. by rewrite Hpr.
  - intros e [He Hp]%elem_of_rows. rewrite (H6 e He). f_equal. f_equal. unfold captures. simpl.
    assert (Hall : ∀ x, x ∈ api_exchanges d → ax_endpoint_id x = ae_id e → ax_program_id x = ae_program_id e).
    { intros x Hx Hi. destruct (H5 x Hx) as (e' & He' & Hi' & <-). f_equal. apply (NoDup_map_inj _ _ _ _ H1 He' He). congruence. }
    revert Hall. generalize (api_exchanges d) as t. induction t as [|x t IH]; intros Hall; [done|]. simpl.
    destruct (String.eqb_spec (ax_endpoint_id x) (ae_id e)) as [Hi|Hi].
    + rewrite (Hall x) by (done || left). rewrite Hp. simpl. rewrite Hi, String.eqb_refl. f_equal. apply IH.
      intros y Hy. apply Hall. by right.
    + assert (Hstep : ∀ l, rows (λ y, String.eqb (ax_endpoint_id y) (ae_id e)) (x :: l)
                          = rows (λ y, String.eqb (ax_endpoint_id y) (ae_id e)) l).
      { intros l. simpl. by rewrite (proj2 (String.eqb_neq (ax_endpoint_id x) (ae_id e))). }
      destruct (negb (String.eqb (ax_program_id x) p)); rewrite ?Hstep; apply IH; intros y Hy; apply Hall; by right.
Qed.

(** However captures race, the inventory keeps one operation per method and
    canonical key; every capture is of an operation of its engagement; and an
    operation's count is the number of its captures. *)
Theorem inventory_counts_captures d0 d :
  api_endpoints d0 = [] → api_exchanges d0 = [] → rtc surface_step d0 d → surface_wf d.
Proof.
  intros He Hx Hsteps.
  assert (Hwf : surface_wf d0).
  { split; rewrite ?He, ?Hx; simpl; try apply NoDup_nil_2; by intros ? ?%elem_of_nil. }
  clear He Hx. induction Hsteps as [|x y z Hs _ IH]; [done|]. apply IH. destruct Hs.
  - by eapply create_wf.
  - by eapply remove_wf.
  - by eapply delete_wf.
Qed.

End Steps.

(** ** A small engagement *)

Module SurfaceExample.
Definition no_float (s : string) : option pyfloat := None.
Definition no_names (s : string) : list string := [].
Definition same_text (s : string) : string := s.
#[local] Abbreviation capture := (create_exchange no_float no_names same_text).

Definition alice : user_ctx := UserCtx "alice" "alice" "" "full" None.
Definition d0 : db := set_engagement demo_engagement empty_db.
Definition body (label : string) : ExchangeCreate :=
  MkExchangeCreate "GET" "https://API.acme.com/orders/42?full=1" None "repeater" label
    "Host: api.acme.com" "" "" "" (Some 200) None "" None "" None.
Definition run {A} (m : result (A * db)) : db := match m with Ok (_, d) => d | Raise _ => empty_db end.
Definition made (m : result (ApiExchange * db)) : ApiExchange :=
  match m with Ok (x, _) => x | Raise _ => new_exchange no_float no_names same_text "" "" "" (body "") 0 end.

(** Two captures race, both having seen the empty inventory. *)
Definition first := capture "ep-1" "x-1" "l-1" 5 "eng-1" (body "alice") alice d0 d0.
Definition d1 : db := Eval vm_compute in run first.
Definition second := capture "ep-2" "x-2" "l-2" 6 "eng-1" (body "bob") alice d0 d1.
Definition d2 : db := Eval vm_compute in run second.

Example race_makes_one_operation : map ae_observation_count (api_endpoints d2) = [2].
Proof. reflexivity. Qed.

Lemma inventory_counts_captures_witness : surface_wf d2.
Proof.
  apply (inventory_counts_captures no_float no_names same_text d0 d2); [reflexivity..|].
  apply (rtc_l _ _ d1); [|apply (rtc_l _ _ d2); [|apply rtc_refl]].
  - apply (ss_capture no_float no_names same_text d0 "ep-1" "x-1" "l-1" 5 "eng-1" (body "alice") alice d0 (made first));
      [by apply not_elem_of_nil..|intros e He; by apply elem_of_nil in He|vm_compute; reflexivity].
  - apply (ss_capture no_float no_names same_text d1 "ep-2" "x-2" "l-2" 6 "eng-1" (body "bob") alice d0 (made second));
      [apply (bool_decide_unpack _); vm_compute; exact I..|intros e He; by apply elem_of_nil in He|vm_compute; reflexivity].
Defined.

Definition request : dict := [("method", JStr "GET"); ("url", JStr "https://API.acme.com/orders/42?full=1")].

(** A removal writes the count it computed from what it read: a capture made
    meanwhile is no longer counted. *)
Definition removed := delete_exchange "l-3" 7 "eng-1" "x-1" alice d1 d2.
Example racing_removal_loses_a_capture :
  map ae_observation_count (api_endpoints (run removed)) = [0] ∧ length (api_exchanges (run removed)) = 1%nat.
Proof. vm_compute. split; reflexivity. Qed.
End SurfaceExample.
