(* ===== verification/Relationships.v ===== *)
(** * [authorization_relationships.py]: boundaries between identities

    What reviewed cases declare of identities, tenants and roles, the boundary
    questions that have not been evaluated, and the review-only draft of one
    question; with the endpoint of [routers/api_relationships.py].  A query
    without an ORDER BY sees the rows in the order of the table. *)
From S2P Require Import Prelude PyStr Regex Json Digest Time Models Access JobConfig Url TestCases Jobs Schemas Scope Coverage.
From Stdlib Require Import Ascii.

Definition CLASSES : list string := ["cross_tenant"; "same_tenant_peer"; "higher_privilege"; "anonymous"].
Definition CLASS_LABEL (klass : string) : string :=
  default "" (lookup_key klass
    [("cross_tenant", "a caller from a different tenant"); ("same_tenant_peer", "another caller in the same tenant");
     ("higher_privilege", "a caller with a higher role than the owner"); ("anonymous", "a caller without credentials")]).
Definition _DRAFT_IDENTITY_LIMIT : nat := 6.

(** ** One case's declarations *)

Definition _credential (identity : dict) : dict := match dget "credential" identity with JObj c => c | _ => [] end.

Definition _is_anonymous (identity : dict) : bool :=
  py_eq (dget "type" (_credential identity)) (JStr "static_header") && negb (truthy (dget "header" (_credential identity))).

(** [v or None] *)
Definition or_none (v : json) : json := if truthy v then v else JNull.

(** The reference to a credential: its type and the three places it may be. *)
Definition reference : Type := list json.
Definition _reference (identity : dict) : reference :=
  let credential := _credential identity in
  [dget "type" credential; or_none (dget "header" credential); or_none (dget "value_env" credential);
   or_none (dget "value_keychain" credential)].

Record Identity := MkIdentity {
  il_identity_id : string;
  il_role : option string;
  il_tenant_id : option string;
  il_anonymous : bool;
  il_reference : reference;
}.

(** [str(v or "") or None] *)
Definition text_or_none (v : json) : option string := some_text (text_or_empty v).

Definition local_identity (named : string * dict) : Identity :=
  MkIdentity named.1 (text_or_none (dget "role" named.2)) (text_or_none (dget "tenant_id" named.2))
    (_is_anonymous named.2) (_reference named.2).

(** A later declaration of an id within the case replaces an earlier one, in
    its place. *)
Definition _local_table (spec : dict) : result (list (string * Identity)) :=
  let? items := iter_or_empty (dget "identities" spec) in
  Ok (foldl (λ t named, dset named.1 (local_identity named) t) [] (omap (named_by "id") items)).

(** ** The engagement's view *)

Record Merged := MkMerged {
  mi_identity_id : string;
  mi_role : option string;
  mi_tenant_id : option string;
  mi_anonymous : bool;
  mi_conflicts : list string;
  mi_reference : option reference;
}.
Record Conflict := MkConflict { cf_identity_id : string; cf_attribute : string; cf_values : list string }.

(** Equality of tuples, and the first of each class: a set of references. *)
Definition ref_eq (a b : reference) : bool := py_eq (JList a) (JList b).
Fixpoint distinct_refs (seen l : list reference) : list reference :=
  match l with
  | [] => []
  | x :: l => if existsb (ref_eq x) seen then distinct_refs seen l else x :: distinct_refs (x :: seen) l
  end.

(** A tuple with a list or an object in it cannot be put into a set. *)
Definition hashable (r : reference) : bool :=
  forallb (λ v, match v with JList _ | JObj _ => false | _ => true end) r.

(** [value(attribute)]: what every declaration that sets it agrees on. *)
Definition agreed (id attribute : string) (values : list string) : option string * list Conflict :=
  match dedup values with
  | [] => (None, [])
  | [v] => (Some v, [])
  | vs => (None, [MkConflict id attribute (sorted_strings vs)])
  end.

Definition reference_text (r : reference) : string := join " " (map py_str (List.filter truthy r)).

Definition credential_conflict (id : string) (kinds : list string) (refs : list reference) : list Conflict :=
  if (1 <? length kinds)%nat then [MkConflict id "credential" (sorted_strings kinds)]
  else if (1 <? length refs)%nat then [MkConflict id "credential" (merge_sort String.le (map reference_text refs))]
  else [].

Definition kind_of (row : Identity) : string := if il_anonymous row then "anonymous" else "credentialed".

(** All declarations of one id, merged, and its conflicts. *)
Definition merge_one (id : string) (declared : list Identity) : Merged * list Conflict :=
  let '(role, c1) := agreed id "role" (omap il_role declared) in
  let '(tenant, c2) := agreed id "tenant_id" (omap il_tenant_id declared) in
  let kinds := dedup (map kind_of declared) in
  let refs := distinct_refs [] (map il_reference declared) in
  let conflicts := c1 ++ c2 ++ credential_conflict id kinds refs in
  (MkMerged id role tenant (bool_decide (kinds = ["anonymous"])) (map cf_attribute conflicts)
     (match refs with [r] => Some r | _ => None end), conflicts).

Definition declared_in (tables : list (list (string * Identity))) (id : string) : list Identity := omap (lookup_key id) tables.

Definition merge_identities (specs : list dict) : result (list Merged * list Conflict) :=
  let? tables := map_result _local_table specs in
  let all := concat (map (map snd) tables) in
  if forallb (λ i, hashable (il_reference i)) all then
    let merged := map (λ id, merge_one id (declared_in tables id)) (sorted_strings (concat (map keys tables))) in
    Ok (map fst merged, concat (map snd merged))
  else Raise TypeError.

(** ** Boundary classes *)

Definition hierarchy_of (spec : dict) : result (list string) :=
  let? items := iter_or_empty (dget "role_hierarchy" spec) in Ok (map py_str items).

Definition index_of (x : string) (l : list string) : option nat := fst <$> list_find (eq x) l.

(** [a in l and b in l and l.index(a) > l.index(b)] *)
Definition outranks (l : list string) (a b : option string) : bool :=
  match a, b with
  | Some a, Some b => match index_of a l, index_of b l with Some i, Some j => (j <? i)%nat | _, _ => false end
  | _, _ => false
  end.

Definition tenant_json (t : option string) : json := match t with Some t => JStr t | None => JNull end.

(** The class and what it rests on. *)
Definition classify (spec : dict) (subject owner : Identity) (resource : dict) : result (list (string * string)) :=
  if il_anonymous subject then Ok [("anonymous", il_identity_id subject +:+ " sends no credentials")]
  else
    let object_tenant := if truthy (dget "tenant_id" resource) then dget "tenant_id" resource else tenant_json (il_tenant_id owner) in
    let tenancy := match il_tenant_id subject with
                   | Some t =>
                       if negb (truthy object_tenant) then []
                       else if py_eq (JStr t) object_tenant
                       then [("same_tenant_peer", il_identity_id subject +:+ " and the object share tenant " +:+ py_str object_tenant)]
                       else [("cross_tenant", il_identity_id subject +:+ " is declared in tenant " +:+ t
                                              +:+ "; the object is in " +:+ py_str object_tenant)]
                   | None => []
                   end in
    let? hierarchy := hierarchy_of spec in
    Ok (tenancy ++ if outranks hierarchy (il_role subject) (il_role owner)
                   then [("higher_privilege", il_identity_id subject +:+ " (" +:+ default "" (il_role subject)
                           +:+ ") outranks the owner (" +:+ default "" (il_role owner) +:+ ") in the role hierarchy")]
                   else []).

(** ** What can be asked *)

Definition consistent (m : Merged) : bool := bool_decide (mi_conflicts m = []).
Definition people_of (table : list Merged) : list Merged := rows (λ m, negb (mi_anonymous m) && consistent m) table.
Definition by_tenant (people : list Merged) (t : string) : Z := Z.of_nat (length (rows (λ m, bool_decide (mi_tenant_id m = Some t)) people)).
Definition tenants_of (people : list Merged) : list string := sorted_strings (omap mi_tenant_id people).
Definition ranked_roles (hierarchies : list (list string)) (people : list Merged) : list string :=
  sorted_strings (rows (λ r, existsb (λ p, bool_decide (mi_role p = Some r)) people) (concat hierarchies)).
Definition anonymous_ids (table : list Merged) : list string :=
  merge_sort String.le (map mi_identity_id (rows (λ m, mi_anonymous m && consistent m) table)).

(** Whether a class can be tested with the established attributes. *)
Definition _askable (table : list Merged) (hierarchies : list (list string)) (klass : string) : bool :=
  let people := people_of table in
  if String.eqb klass "cross_tenant" then (2 <=? length (tenants_of people))%nat
  else if String.eqb klass "same_tenant_peer" then existsb (λ t, 2 <=? by_tenant people t) (tenants_of people)
  else if String.eqb klass "higher_privilege" then (2 <=? length (ranked_roles hierarchies people))%nat
  else negb (bool_decide (anonymous_ids table = [])).

Definition askable_basis (table : list Merged) (hierarchies : list (list string)) (klass : string) : string :=
  let people := people_of table in
  let shared := rows (λ t, 2 <=? by_tenant people t) (tenants_of people) in
  let list_text l := join ", " l +:+ "." in
  if String.eqb klass "cross_tenant" then "Identities are declared in tenants: " +:+ list_text (tenants_of people)
  else if String.eqb klass "same_tenant_peer"
  then "Several identities share a tenant: " +:+ list_text (map (λ t, t +:+ " (" +:+ string_of_Z (by_tenant people t) +:+ ")") shared)
  else if String.eqb klass "higher_privilege"
  then "Roles in a case's role hierarchy: " +:+ list_text (ranked_roles hierarchies people)
  else "An identity without credentials is declared: " +:+ list_text (anonymous_ids table).

(** ** The questions of one operation *)

(** A subject of a case against its boundary, and how far the case got. *)
Record Asked := MkAsked { aq_class : string; aq_subject : string; aq_executed : bool; aq_evaluated : bool }.

Definition case_specs (p : string) (d : db) : list (string * dict) :=
  map (λ c, (tc_id c, match tc_spec c with JObj s => s | _ => [] end)) (rows (λ c, String.eqb (tc_program_id c) p) (test_cases d)).
Definition spec_of (specs : list (string * dict)) (id : string) : dict := default [] (lookup_key id specs).
Definition resource_of (spec : dict) : dict := match dget "resource" spec with JObj r => r | _ => [] end.
Definition owner_of (spec : dict) : string := text_or_empty (dget "owner_identity" (resource_of spec)).

Definition ask_subject (spec : dict) (local : list (string * Identity)) (entry : CaseEntry) (subject_id : string)
    : result (list Asked) :=
  let owner := lookup_key (owner_of spec) local in
  match lookup_key subject_id local with
  | None => Ok []
  | Some subject =>
      if String.eqb subject_id (owner_of spec) then Ok []
      else
        let? classes := if il_anonymous subject then Ok ["anonymous"]
                        else match owner with
                             | Some owner => let? found := classify spec subject owner (resource_of spec) in Ok (map fst found)
                             | None => Ok []
                             end in
        let evaluated := en_executed entry
                         && bool_decide (lookup_key subject_id (en_identity_states entry) = Some "evaluated") in
        Ok (map (λ klass, MkAsked klass subject_id (en_executed entry) evaluated) classes)
  end.

(** What a case contributes, and whether it declares its owner. *)
Definition ask_case (specs : list (string * dict)) (entry : CaseEntry) : result (list Asked * bool) :=
  let spec := spec_of specs (en_case_id entry) in
  let? local := _local_table spec in
  let? asked := map_result (ask_subject spec local entry) (en_identities entry) in
  Ok (concat asked, bool_decide (is_Some (lookup_key (owner_of spec) local))).

Definition is_evaluated (klass : string) (asked : list Asked) : bool :=
  existsb (λ a, String.eqb (aq_class a) klass && aq_evaluated a) asked.

(** [pending.get(klass, "untested")], set by the first unevaluated subject. *)
Definition pending_status (klass : string) (asked : list Asked) : string :=
  match first_row (λ a, String.eqb (aq_class a) klass && negb (aq_evaluated a)) asked with
  | Some a => if aq_executed a then "inconclusive" else "reviewed_not_run"
  | None => "untested"
  end.

Record Hypothesis_ := MkHypothesis {
  hy_id : string;
  hy_endpoint_id : string;
  hy_operation : string;
  hy_boundary : string;
  hy_status : string;
  hy_question : string;
  hy_basis : list string;
}.
Record BoundaryEvidence := MkBoundaryEvidence {
  be_endpoint_id : string;
  be_operation : string;
  be_evaluated : list (string * list string);
}.

Definition operation_label (o : Operation) : string := ae_method (op_endpoint o) +:+ " " +:+ ae_path_template (op_endpoint o).

Definition hypothesis (table : list Merged) (hierarchies : list (list string)) (o : Operation) (asked : list Asked)
    (has_owner : bool) (klass : string) : list Hypothesis_ :=
  if negb (_askable table hierarchies klass) || is_evaluated klass asked then []
  else
    let basis := askable_basis table hierarchies klass :: take 2 (map snd (op_priority_reasons o)) in
    let unowned := negb (bool_decide (op_cases o = [])) && negb has_owner && negb (String.eqb klass "anonymous") in
    let label := operation_label o in
    let id := ae_id (op_endpoint o) in
    [MkHypothesis (take_string 16 (sha256_hex (id +:+ "|" +:+ klass))) id label klass
       (if unowned then "owner_context_missing" else pending_status klass asked)
       ("Has " +:+ CLASS_LABEL klass +:+ " been shown to be denied (or allowed) on " +:+ label +:+ "?")
       (if unowned
        then basis ++ ["The reviewed cases for this operation declare no resource owner, so this boundary cannot be told apart."]
        else basis)].

(** The subjects evaluated on one operation, by class in order of appearance. *)
Definition boundary_evidence (o : Operation) (asked : list Asked) : list BoundaryEvidence :=
  let done := rows aq_evaluated asked in
  match done with
  | [] => []
  | _ :: _ =>
      [MkBoundaryEvidence (ae_id (op_endpoint o)) (operation_label o)
         (map (λ k, (k, sorted_strings (map aq_subject (rows (λ a, String.eqb (aq_class a) k) done)))) (dedup (map aq_class done)))]
  end.

Definition ask_operation (specs : list (string * dict)) (table : list Merged) (hierarchies : list (list string)) (o : Operation)
    : result (list BoundaryEvidence * list Hypothesis_) :=
  let? found := map_result (ask_case specs) (op_cases o) in
  let asked := concat (map fst found) in
  let has_owner := existsb snd found in
  Ok (boundary_evidence o asked,
      if bool_decide (op_priority_reasons o = []) then []
      else concat (map (hypothesis table hierarchies o asked has_owner) CLASSES)).

(** ** [build_relationships] *)

Definition status_rank (status : string) : Z :=
  default 0 (lookup_key status [("untested", 0); ("owner_context_missing", 1); ("reviewed_not_run", 2); ("inconclusive", 3)]).
Definition class_rank (klass : string) : nat := default 0%nat (index_of klass CLASSES).

(** [key(a) <= key(b)] for [(rank[status], operation, CLASSES.index(boundary))]. *)
Definition hypothesis_le (a b : Hypothesis_) : bool :=
  (status_rank (hy_status a) <? status_rank (hy_status b))
  || (status_rank (hy_status a) =? status_rank (hy_status b))
     && (String.ltb (hy_operation a) (hy_operation b)
         || String.eqb (hy_operation a) (hy_operation b) && (class_rank (hy_boundary a) <=? class_rank (hy_boundary b))%nat).

Record Relationships := MkRelationships {
  re_identities : list Merged;
  re_identity_conflicts : list Conflict;
  re_tenants : list string;
  re_askable_boundaries : list (string * bool);
  re_identities_without_tenant : list string;
  re_boundary_evidence : list BoundaryEvidence;
  re_hypotheses : list Hypothesis_;
  re_summary : list (string * Z);
}.

(** The hierarchies of the cases that declare one. *)
Definition hierarchies_of (specs : list dict) : result (list (list string)) :=
  map_result hierarchy_of (List.filter (λ s, truthy (dget "role_hierarchy" s)) specs).

Definition build_relationships (d : db) (p : string) : result Relationships :=
  let? coverage := build_coverage d p in
  let specs := case_specs p d in
  let? '(table, conflicts) := merge_identities (map snd specs) in
  let? hierarchies := hierarchies_of (map snd specs) in
  let tenants := sorted_strings (omap mi_tenant_id (List.filter consistent table)) in
  let undeclared := rows (λ m, negb (mi_anonymous m) && bool_decide (mi_tenant_id m = None) && negb (mem "tenant_id" (mi_conflicts m))
                               && negb (bool_decide (tenants = []))) table in
  let? parts := map_result (ask_operation specs table hierarchies) (cv_operations coverage) in
  let hypotheses := sorted_by hypothesis_le (concat (map snd parts)) in
  let count s := Z.of_nat (length (rows (λ h, String.eqb (hy_status h) s) hypotheses)) in
  Ok (MkRelationships table conflicts tenants (map (λ k, (k, _askable table hierarchies k)) CLASSES)
        (merge_sort String.le (map mi_identity_id undeclared)) (concat (map fst parts)) hypotheses
        (("hypotheses", Z.of_nat (length hypotheses))
         :: map (λ s, (s, count s)) ["untested"; "owner_context_missing"; "reviewed_not_run"; "inconclusive"])).

(** A page of the questions, and how many there are. *)
Definition authorization_relationships (program_id : string) (limit offset : nat) (current_user : user_ctx) (d : db)
    : result (Relationships * Z * list Hypothesis_) :=
  let? _ := get_engagement_or_404 program_id current_user d in
  let? data := build_relationships d program_id in
  Ok (data, Z.of_nat (length (re_hypotheses data)), take limit (drop offset (re_hypotheses data))).

(** ** [draft_for_boundary] *)

(** What a review-only draft of one question starts from. *)
Record DraftContext := MkDraftContext {
  dx_identities : list dict;
  dx_resource : option dict;
  dx_role_hierarchy : option (list string);
  dx_missing_context : list string;
  dx_conflicts : list Conflict;
}.

(** The owner one reviewed case names, with the tenant it gives the object. *)
Definition named_owner (specs : list (string * dict)) (entry : CaseEntry) : option (string * option string) :=
  let spec := spec_of specs (en_case_id entry) in
  if String.eqb (owner_of spec) "" then None
  else Some (owner_of spec, text_or_none (dget "tenant_id" (resource_of spec))).

Definition named_owners (specs : list (string * dict)) (cases : list CaseEntry) : list (string * option string) :=
  omap (named_owner specs) cases.
Definition tenants_given (named : list (string * option string)) (owner : string) : list string :=
  sorted_strings (omap snd (rows (λ n, String.eqb n.1 owner) named)).

Definition usable (table : list Merged) : list Merged := rows consistent table.
Definition find_identity (table : list Merged) (id : string) : option Merged :=
  first_row (λ m, String.eqb (mi_identity_id m) id) table.

(** The owner the draft is anchored on, and what is missing of it. *)
Definition draft_owner (table : list Merged) (named : list (string * option string)) : option Merged * list string :=
  match sorted_strings (map fst named) with
  | [] => (None, ["resource.owner_identity: no reviewed case for this operation says who owns the object under test."])
  | [id] =>
      match find_identity (usable table) id with
      | Some owner => (Some owner, [])
      | None => (None, ["The owner " +:+ id +:+ " has contradictory declarations, so it cannot anchor a draft."])
      end
  | ids => (None, ["resource.owner_identity: reviewed cases for this operation name different owners ("
                   +:+ join ", " ids +:+ "); choose one."])
  end.

(** The tenant of the object: none, one, or named differently. *)
Definition draft_tenant (owner : option Merged) (named : list (string * option string)) : option string * bool * list string :=
  match owner with
  | None => (None, false, [])
  | Some owner =>
      match tenants_given named (mi_identity_id owner) with
      | [] => (mi_tenant_id owner, false, [])
      | [t] => (Some t, false, [])
      | ts => (None, true, ["resource.tenant_id: reviewed cases for this operation name different tenants ("
                            +:+ join ", " ts +:+ "); choose one."])
      end
  end.

(** The distinct hierarchies the cases declare. *)
Definition hierarchies_declared (specs : list dict) : result (list (list string)) :=
  let? hs := map_result hierarchy_of specs in Ok (dedup (rows (λ h, negb (bool_decide (h = []))) hs)).

Definition if_none {A} (l : list A) (text : string) : list string := match l with [] => [text] | _ => [] end.

Definition other_people (table : list Merged) (owner : option Merged) : list Merged :=
  rows (λ m, negb (mi_anonymous m) && negb (bool_decide (Some (mi_identity_id m) = mi_identity_id <$> owner))) (usable table).

(** Who could stand on the other side of a tenant boundary: [wanted t] for a
    known tenant [t] of the object, anyone with a tenant when none is known. *)
Definition draft_tenancy (wanted : string → string → bool) (none_text : string) (pool : list Merged) (owner : option Merged)
    (object_tenant : option string) (tenant_conflict : bool) : list Merged * list string :=
  let with_tenant := rows (λ m, bool_decide (is_Some (mi_tenant_id m))) pool in
  let '(chosen, missing) :=
    match object_tenant with
    | Some t => (rows (λ m, match mi_tenant_id m with Some t' => wanted t' t | None => false end) pool, [])
    | None =>
        if tenant_conflict then ([], [])
        else (with_tenant, match owner with
                           | Some _ => ["resource.tenant_id: neither the object's tenant nor its owner's tenant is declared."]
                           | None => []
                           end)
    end in
  (chosen, missing ++ if_none chosen none_text).

Definition has_rank (h : list string) (m : Merged) : bool :=
  match mi_role m with Some r => bool_decide (r ∈ h) | None => false end.

Definition draft_privilege (hierarchies : list (list string)) (pool : list Merged) (owner : option Merged)
    : list Merged * list string :=
  match hierarchies with
  | [] => ([], ["role_hierarchy: no case declares one."])
  | [h] =>
      let '(chosen, missing) :=
        match owner with
        | Some o =>
            if has_rank h o then (rows (λ m, outranks h (mi_role m) (mi_role o)) pool, [])
            else (rows (has_rank h) pool, ["The owner's role is not declared in the role hierarchy."])
        | None => (rows (has_rank h) pool, ["The owner is not known, so 'higher than the owner' cannot be decided."])
        end in
      (chosen, missing ++ match owner with
                          | Some _ => if_none chosen "No identity with a higher role than the owner is declared."
                          | None => []
                          end)
  | _ => ([], ["role_hierarchy: cases declare different hierarchies; choose one."])
  end.

(** The other identities of the draft, by boundary. *)
Definition draft_subjects (boundary : string) (table : list Merged) (hierarchies : list (list string)) (owner : option Merged)
    (object_tenant : option string) (tenant_conflict : bool) : list Merged * list string :=
  let pool := other_people table owner in
  if String.eqb boundary "anonymous" then
    let chosen := rows mi_anonymous (usable table) in
    (chosen, if_none chosen "No anonymous identity has been declared; add one with no credentials.")
  else if String.eqb boundary "cross_tenant" then
    draft_tenancy (λ t object, negb (String.eqb t object)) "No identity in a different tenant is declared."
      pool owner object_tenant tenant_conflict
  else if String.eqb boundary "same_tenant_peer" then
    draft_tenancy String.eqb "No second identity in the owner's tenant is declared." pool owner object_tenant tenant_conflict
  else if String.eqb boundary "higher_privilege" then draft_privilege hierarchies pool owner
  else ([], []).

Definition optional_member (k : string) (v : option string) : dict :=
  match v with Some v => if String.eqb v "" then [] else [(k, JStr v)] | None => [] end.

(** An identity as the draft declares it: its credential by reference. *)
Definition draft_identity (m : Merged) : result dict :=
  match mi_reference m with
  | None => Raise TypeError
  | Some ref =>
      let credential :=
        if mi_anonymous m then [("type", JStr "static_header"); ("header", JStr ""); ("value", JStr "")]
        else List.filter (λ kv, truthy kv.2) (zip ["type"; "header"; "value_env"; "value_keychain"] ref) in
      Ok ([("id", JStr (mi_identity_id m)); ("credential", JObj credential)]
          ++ optional_member "role" (mi_role m) ++ optional_member "tenant_id" (mi_tenant_id m))
  end.

Definition draft_for_boundary (d : db) (program_id endpoint_id boundary : string) : result DraftContext :=
  let? coverage := build_coverage d program_id in
  let op := first_row (λ o, String.eqb (ae_id (op_endpoint o)) endpoint_id) (cv_operations coverage) in
  let specs := case_specs program_id d in
  let? '(table, conflicts) := merge_identities (map snd specs) in
  let? hierarchies := if String.eqb boundary "higher_privilege" then hierarchies_declared (map snd specs) else Ok [] in
  let named := named_owners specs (match op with Some o => op_cases o | None => [] end) in
  let '(owner, owner_missing) := draft_owner table named in
  let '(object_tenant, tenant_conflict, tenant_missing) := draft_tenant owner named in
  let '(chosen, missing) := draft_subjects boundary table hierarchies owner object_tenant tenant_conflict in
  let? out := map_result draft_identity ((match owner with Some o => [o] | None => [] end) ++ take _DRAFT_IDENTITY_LIMIT chosen) in
  let conflicted := map mi_identity_id (rows (λ m, negb (consistent m)) table) in
  let relevant := rows (λ c, mem (cf_identity_id c) conflicted) conflicts in
  Ok (MkDraftContext out
        ((λ o, ("owner_identity", JStr (mi_identity_id o)) :: optional_member "tenant_id" object_tenant) <$> owner)
        (if String.eqb boundary "higher_privilege" then match hierarchies with [h] => Some h | _ => None end else None)
        (owner_missing ++ tenant_missing ++ missing
         ++ match relevant with
            | [] => []
            | _ => ["Identities with contradictory declarations were left out: "
                    +:+ join ", " (sorted_strings (map cf_identity_id relevant)) +:+ "."]
            end
         ++ ["resource.type and resource.object_id: set the concrete object under test."])
        relevant).
