(* ===== verification/CaseAuthoring.v ===== *)
(** * [routers/case_authoring.py]: drafts of cases, and reviewed cases

    A draft is made from an OpenAPI document or from observed operations; it
    names identities by reference, decides nothing and is not stored.  What a
    person has reviewed is stored by [save_reviewed_cases]. *)
From S2P Require Import Prelude PyStr Regex Json Digest Time Models Access JobConfig Url TestCases Jobs Schemas Scope Coverage Relationships.
From Stdlib Require Import Ascii.

Definition METHODS : list string := ["get"; "head"; "post"; "put"; "patch"; "delete"; "options"; "trace"].

Record DraftRequest := MkDraftRequest {
  dq_endpoint_ids : list string;
  dq_openapi : option dict;
  dq_base_url : string;
  dq_identity_ids : list string;
  dq_boundary : option string;
  dq_limit : nat;
  dq_offset : nat;
}.
Record ReviewedCases := MkReviewedCases { rc_reviewed : bool; rc_cases : list TestCaseCreate }.

(** ** URLs *)

(** [u or ""] of an optional part of a URL. *)
Definition absent (o : option string) : bool := String.eqb (default "" o) "".
Definition braced_or_space (c : ascii) : bool := is_space c || Ascii.eqb c "{" || Ascii.eqb c "}".

(** [try: ... except ValueError: valid = False] *)
Definition absolute_http (value : string) : bool :=
  match urlsplit value with
  | Ok url =>
      mem (url_scheme url) ["http"; "https"] && negb (absent (hostname url)) && absent (username url)
      && absent (password url) && String.eqb (url_query url) "" && String.eqb (url_fragment url) ""
      && negb (any_char braced_or_space value) && is_ok (port url)
  | Raise _ => false
  end.

Definition _base_url (value : json) : result string :=
  match value with
  | JStr value =>
      check? guard (absolute_http value) 400
               "Provide an absolute HTTP(S) base_url without credentials, query parameters, or variables" in
      Ok (rstrip_char "/"%char value)
  | _ => http 400 "Provide an absolute HTTP(S) base_url"
  end.

(** ** Operations of an OpenAPI document *)

(** [json.dumps] with its default separators. *)
Fixpoint json_text (j : json) : string :=
  match j with
  | JList l => "[" +:+ join ", " (map json_text l) +:+ "]"
  | JObj d => "{" +:+ join ", " (map (λ kv, json_string kv.1 +:+ ": " +:+ json_text kv.2) d) +:+ "}"
  | _ => json_dumps false j
  end.

(** A method, a URL and where they come from. *)
Definition operation : Type := string * string * string.

(** [d.get(k, other)] *)
Definition dget_or (k : string) (d : dict) (other : json) : json := default other (lookup_key k d).

(** The URL of the first server that applies. *)
Definition first_server (document item operation : dict) : json :=
  match dget_or "servers" operation (dget_or "servers" item (dget_or "servers" document (JList []))) with
  | JList (JObj server :: _) => dget_or "url" server (JStr "")
  | _ => JStr ""
  end.

Definition openapi_operation (document : dict) (override path : string) (item : dict) (named : string * json)
    : result (list operation) :=
  let '(method, op) := named in
  if negb (mem method METHODS) then Ok []
  else
    match op with
    | JObj op =>
        check? guard (negb (has_key "$ref" op)) 400 "Operations must be inline objects" in
        let server := first_server document item op in
        let? base := _base_url (if String.eqb override "" then server else JStr override) in
        check? guard (negb (contains "?" path || contains "#" path || any_char is_space path)) 400
                 "OpenAPI paths cannot contain queries, fragments, or whitespace" in
        Ok [(upper_ascii method, base +:+ path, "openapi")]
    | _ => http 400 "Operations must be inline objects"
    end.

Definition openapi_path (document : dict) (override : string) (named : string * json) : result (list operation) :=
  let '(path, item) := named in
  match item with
  | JObj item =>
      check? guard (startswith path "/") 400 "OpenAPI paths must contain path-item objects" in
      check? guard (negb (has_key "$ref" item)) 400
               "Resolve path-item references locally before previewing; references are never fetched" in
      let? found := map_result (openapi_operation document override path item) item in
      Ok (concat found)
  | _ => http 400 "OpenAPI paths must contain path-item objects"
  end.

Definition _openapi_operations (document : dict) (override : string) : result (list operation) :=
  check? guard (len (json_text (JObj document)) <=? 2 * 1024 * 1024) 413 "OpenAPI document exceeds 2 MiB" in
  check? guard (startswith (py_str (dget_or "openapi" document (JStr ""))) "3.") 400 "Use an OpenAPI 3.x JSON document" in
  match dget "paths" document with
  | JObj paths => let? found := map_result (openapi_path document override) paths in Ok (concat found)
  | _ => http 400 "OpenAPI paths must be an object"
  end.

(** ** Operations already observed *)

(** [ORDER BY method, host, path_template, id] *)
Definition by_method (e : ApiEndpoint) : list string := [ae_method e; ae_host e; ae_path_template e; ae_id e].
Definition endpoint_le (a b : ApiEndpoint) : bool := columns_le (by_method a) (by_method b).

Definition selected_endpoints (program_id : string) (ids : list string) (d : db) : list ApiEndpoint :=
  sorted_by endpoint_le (rows (λ e, String.eqb (ae_program_id e) program_id && mem (ae_id e) ids) (api_endpoints d)).

Definition endpoint_origin (row : ApiEndpoint) : string :=
  let host := if contains ":" (ae_host row) && negb (startswith (ae_host row) "[")
              then "[" +:+ ae_host row +:+ "]" else ae_host row in
  let port := match ae_port row with
              | Some p => if p =? 0 then "" else ":" +:+ string_of_Z p
              | None => ""
              end in
  default "None" (ae_scheme row) +:+ "://" +:+ host +:+ port.

Definition endpoint_operation (base_url : string) (row : ApiEndpoint) : result operation :=
  let? base := _base_url (JStr (if String.eqb base_url "" then endpoint_origin row else base_url)) in
  Ok (ae_method row, base +:+ ae_path_template row, "observed API operation").

(** ** Identities already declared *)

Definition case_le (a b : AuthorizationTestCase) : bool :=
  (tc_created_at a <? tc_created_at b) || (tc_created_at a =? tc_created_at b) && String.leb (tc_id a) (tc_id b).

Definition without_value (credential : dict) : dict := List.filter (λ kv, negb (String.eqb kv.1 "value")) credential.

(** The first declaration of each wanted id among [items]. *)
Definition note_identity (wanted : list string) (found : list (string * dict)) (item : json) : list (string * dict) :=
  match item with
  | JObj identity =>
      match dget "id" identity with
      | JStr ident =>
          if mem ident wanted && negb (has_key ident found)
          then found ++ [(ident, [("id", JStr ident); ("credential", JObj (without_value (_credential identity)))])]
          else found
      | _ => found
      end
  | _ => found
  end.

Definition declared_items (row : AuthorizationTestCase) : result (list json) :=
  let? identities := json_get "identities" (if truthy (tc_spec row) then tc_spec row else JObj []) in
  iter_or_empty identities.

Definition _known_identities (d : db) (program_id : string) (wanted : list string) : result (list dict) :=
  let cases := sorted_by case_le (rows (λ c, String.eqb (tc_program_id c) program_id) (test_cases d)) in
  let? items := map_result declared_items cases in
  let found := foldl (note_identity wanted) [] (concat items) in
  let? '(_, conflicts) := merge_identities (omap (λ c, match tc_spec c with JObj s => Some s | _ => None end) cases) in
  let contradictory := sorted_strings (rows (λ i, mem i wanted) (map cf_identity_id conflicts)) in
  check? guard (bool_decide (contradictory = [])) 400
           ("Contradictory declarations for: " +:+ join ", " contradictory +:+ ". Resolve them in the stored cases first.") in
  let missing := rows (λ i, negb (has_key i found)) wanted in
  check? guard (bool_decide (missing = [])) 400
           ("Unknown identity in this engagement: " +:+ join ", " (sorted_strings missing)) in
  Ok (omap (λ i, lookup_key i found) (dedup wanted)).

(** ** Drafts *)

Record Draft := MkDraft { df_name : string; df_description : string; df_spec : dict }.

Definition template_identities : list dict :=
  [[("id", JStr "anonymous"); ("credential", JObj [("type", JStr "static_header"); ("header", JStr ""); ("value", JStr "")])];
   [("id", JStr "member"); ("credential", JObj [("type", JStr "bearer"); ("value_env", JStr "VARDRGATE_MEMBER_TOKEN")])]].

(** The members of a spec that come from the boundary. *)
Definition context_members (context : option DraftContext) : dict :=
  match context with
  | Some c => match dx_resource c with Some ((_ :: _) as r) => [("resource", JObj r)] | _ => [] end
              ++ match dx_role_hierarchy c with Some ((_ :: _) as h) => [("role_hierarchy", JList (map JStr h))] | _ => [] end
  | None => []
  end.

Definition _draft (uuid : string) (identities : option (list dict)) (context : option DraftContext) (op : operation) : result Draft :=
  let '(method, url, source) := op in
  let identities := match identities with Some ((_ :: _) as l) => l | _ => template_identities end in
  let? parts := urlsplit url in
  let? expected := map_result (λ i, let? id := json_index "id" (JObj i) in
                                    Ok (JObj [("identity_id", id); ("decision", JStr "skip")])) identities in
  Ok (MkDraft (take_string 200 (method +:+ " " +:+ url_path parts))
        ("Draft from " +:+ source +:+ "; review URL, identities, request body and access decisions before saving.")
        ([("id", JStr ("case-" +:+ uuid)); ("request", JObj [("method", JStr method); ("url", JStr url)]);
          ("mutating", JBool (mutating_method method)); ("identities", JList (map JObj identities));
          ("expected_access", JList expected)] ++ context_members context)).

Record Preview := MkPreview {
  pv_drafts : list Draft;
  pv_boundary_context : option (string * DraftContext);
  pv_total : nat;
  pv_next_offset : option nat;
}.

(** The operations a request selects. *)
Definition draft_operations (program_id : string) (body : DraftRequest) (d : db) : result (list operation) :=
  match dq_openapi body with
  | Some document => _openapi_operations document (dq_base_url body)
  | None =>
      let ids := dedup (dq_endpoint_ids body) in
      let rows := selected_endpoints program_id ids d in
      check? guard (length rows =? length ids)%nat 404 "Endpoint not found" in
      map_result (endpoint_operation (dq_base_url body)) rows
  end.

(** [uuid4 n] is the n-th identifier drawn. *)
Definition preview_cases (uuid4 : nat → string) (program_id : string) (body : DraftRequest) (current_user : user_ctx) (d : db)
    : result Preview :=
  let? _ := get_engagement_or_404 program_id current_user d in
  check? guard (negb (Bool.eqb (negb (bool_decide (dq_endpoint_ids body = []))) (bool_decide (is_Some (dq_openapi body))))) 400
           "Choose selected endpoint_ids or an OpenAPI document" in
  let? operations := draft_operations program_id body d in
  let page := take (dq_limit body) (drop (dq_offset body) operations) in
  let stop := (dq_offset body + length page)%nat in
  let? reuse := match dq_identity_ids body with
                | [] => Ok None
                | wanted => let? l := _known_identities d program_id wanted in Ok (Some l)
                end in
  let? context := match dq_boundary body with
                  | None => Ok None
                  | Some boundary =>
                      match dq_openapi body, dq_endpoint_ids body, dq_identity_ids body with
                      | None, [endpoint_id], [] =>
                          let? c := draft_for_boundary d program_id endpoint_id boundary in Ok (Some (boundary, c))
                      | _, _, _ => http 400 "A boundary draft needs exactly one observed operation and no separate identity_ids"
                      end
                  end in
  let reuse := match context with Some (_, c) => Some (dx_identities c) | None => reuse end in
  let? drafts := map_result (λ '(n, op), _draft (uuid4 n) reuse (snd <$> context) op) (imap pair page) in
  Ok (MkPreview drafts context (length operations) (if (stop <? length operations)%nat then Some stop else None)).

(** ** Reviewed cases *)

(** [urlsplit] of what the spec holds: its cache cannot key a list or an
    object, and it decodes what is not text. *)
Definition request_url_ok (url : json) : result bool :=
  match url with
  | JStr s =>
      Ok match urlsplit s with
         | Ok parts =>
             mem (url_scheme parts) ["http"; "https"] && negb (absent (hostname parts)) && absent (username parts)
             && absent (password parts) && String.eqb (url_fragment parts) "" && negb (any_char braced_or_space s)
         | Raise _ => false
         end
  | JList _ | JObj _ => Ok false
  | _ => Raise AttributeError
  end.

(** A set of values: lists and objects cannot be put into one. *)
Definition value_set (l : list json) : result (list json) :=
  if forallb (λ v, match v with JList _ | JObj _ => false | _ => true end) l
  then Ok (foldl (λ seen v, if existsb (py_eq v) seen then seen else seen ++ [v]) [] l)
  else Raise TypeError.
Definition same_set (a b : list json) : bool :=
  forallb (λ v, existsb (py_eq v) b) a && forallb (λ v, existsb (py_eq v) a) b.

(** Exactly one decision per identity, and at least one of them made. *)
Definition decisions_reviewed (spec : dict) : result bool :=
  let? expected := iter_or_empty (dget "expected_access" spec) in
  let? identities := json_index "identities" (JObj spec) in
  let? identities := py_iter identities in
  let? ids := map_result (json_index "id") identities in
  let? ids := value_set ids in
  if negb (length expected =? length ids)%nat then Ok false
  else
    let? named := map_result (json_index "identity_id") expected in
    let? named := value_set named in
    if negb (same_set named ids) then Ok false
    else
      let? decisions := map_result (json_index "decision") expected in
      Ok (existsb (λ v, negb (py_eq v (JStr "skip"))) decisions).

Definition reviewed_spec (case : TestCaseCreate) : result dict :=
  let? spec := _validate_spec (tcc_spec case) in
  let? request := json_index "request" (JObj spec) in
  let? url := json_index "url" request in
  let? valid := request_url_ok url in
  check? guard valid 400
           "Review each request URL: supply a concrete HTTP(S) URL without credentials or unresolved variables" in
  let? decided := decisions_reviewed spec in
  check? guard decided 400 "Review exactly one access decision per identity, including at least one allow or deny" in
  check? guard (negb (String.eqb (strip (tcc_name case)) "")) 400 "Case name is required" in
  Ok spec.

Section Handlers.
Context (strip_html : string → string).

Definition reviewed_row (new_id : string) (now : time) (program_id github_id : string) (case : TestCaseCreate) (spec : dict)
    : AuthorizationTestCase :=
  MkAuthorizationTestCase new_id program_id github_id (tcc_name case) (take_string 200 (str_or_empty (dget "id" spec)))
    (Some (strip_html (tcc_description case))) (JObj spec) now None.

(** The i-th case gets the id [new_id i] and the log entry [log_id i]. *)
Definition save_reviewed_cases (new_id log_id : nat → string) (now : time) (program_id : string) (body : ReviewedCases)
    (current_user : user_ctx) (d : db) : result (list json * db) :=
  let? engagement := get_engagement_or_404 program_id current_user d in
  check? require_member_write engagement current_user d in
  let? specs := map_result reviewed_spec (rc_cases body) in
  let saved := imap (λ i '(case, spec), reviewed_row (new_id i) now program_id (cu_github_id current_user) case spec)
                 (zip (rc_cases body) specs) in
  let d := set_test_cases (test_cases d ++ saved) d in
  let d := foldl (λ d '(i, row), log_action (log_id i) now (cu_github_id current_user) "review_create" "test_case"
                                   (tc_id row) (Some program_id) d) d (imap pair saved) in
  Ok (map serialize_test_case saved, d).
End Handlers.

(** [ReviewedCases]: [reviewed] is [true], and there are 1 to 100 cases. *)
Definition valid_reviewed (body : ReviewedCases) : bool :=
  rc_reviewed body && (1 <=? length (rc_cases body))%nat && (length (rc_cases body) <=? 100)%nat.
