(* ===== verification/RelationshipsSafety.v ===== *)
(** * What the view of identities and boundaries guarantees

    An attribute of an identity is established exactly when the cases that
    declare it agree; a boundary question is open exactly while no current run
    has evaluated that boundary on the operation. *)
From S2P Require Import Prelude PyStr Json Digest Time Models Access JobConfig Url TestCases Jobs Schemas Scope Coverage CoverageSafety Relationships.
From Stdlib Require Import Ascii.

(** ** Declarations *)

(** [id] is declared as [i] by one of the cases. *)
Definition declares (specs : list dict) (id : string) (i : Identity) : Prop :=
  ∃ spec local, spec ∈ specs ∧ _local_table spec = Ok local ∧ lookup_key id local = Some i.

(** Every declaration of [id] that sets the attribute sets it to [v]. *)
Definition agree_on (specs : list dict) (id : string) (attribute : Identity → option string) (v : string) : Prop :=
  (∃ i, declares specs id i ∧ attribute i = Some v) ∧ ∀ i w, declares specs id i → attribute i = Some w → w = v.
Definition disagree_on (specs : list dict) (id : string) (attribute : Identity → option string) : Prop :=
  ∃ i j v w, declares specs id i ∧ declares specs id j ∧ attribute i = Some v ∧ attribute j = Some w ∧ v ≠ w.

Lemma agreed_spec id attribute values o cs : agreed id attribute values = (o, cs) →
  (∀ v, o = Some v ↔ v ∈ values ∧ ∀ w, w ∈ values → w = v)
  ∧ (cs = [] ∨ ∃ l, cs = [MkConflict id attribute l]) ∧ (cs ≠ [] ↔ ∃ v w, v ∈ values ∧ w ∈ values ∧ v ≠ w).
Proof.
  unfold agreed. assert (Hd := λ x, elem_of_dedup values x). assert (Hn := NoDup_dedup values).
  destruct (dedup values) as [|x [|y l]]; intros [= <- <-].
  - split_and!; [|by left|]; [intros v; split; [done|intros [Hv _]; apply Hd in Hv; set_solver]|].
    split; [done|]. intros (v & _ & Hv & _). apply Hd in Hv. set_solver.
  - assert (Hx : ∀ w, w ∈ values → w = x) by (intros w Hw%Hd; by apply list_elem_of_singleton in Hw).
    assert (x ∈ values) by (apply Hd; set_solver).
    split_and!; [|by left|]; [intros v; split; [by intros [= <-]|intros [Hv _]; by rewrite (Hx v Hv)]|].
    split; [done|]. intros (v & w & Hv & Hw & Hne). destruct Hne. by rewrite (Hx v Hv), (Hx w Hw).
  - apply NoDup_cons in Hn as [Hxy _]. assert (x ∈ values ∧ y ∈ values) as [Hx Hy] by (split; apply Hd; set_solver).
    assert (x ≠ y) by set_solver. split_and!; [|right; eauto|].
    + intros v. split; [done|]. intros [_ Hall]. by rewrite (Hall x Hx), (Hall y Hy) in *.
    + split; [intros _; eauto 6|done].
Qed.

Lemma distinct_refs_cover seen l x : x ∈ l →
  (∃ y, y ∈ seen ∧ ref_eq x y = true) ∨ ∃ y, y ∈ distinct_refs seen l ∧ (x = y ∨ ref_eq x y = true).
Proof.
  revert seen. induction l as [|z l IH]; intros seen; [set_solver|]. simpl.
  intros [-> | Hx]%elem_of_cons.
  - destruct (existsb (ref_eq z) seen) eqn:E; [|right; exists z; set_solver].
    apply existsb_exists in E as (y & Hy & He). left. exists y. by rewrite list_elem_of_In.
  - destruct (existsb (ref_eq z) seen) eqn:E; [by apply IH|].
    destruct (IH (z :: seen) Hx) as [(y & [-> | Hy]%elem_of_cons & He)|(y & Hy & He)].
    + right. exists z. split; [set_solver|by right].
    + left; eauto.
    + right. exists y. split; [set_solver|done].
Qed.

(** ** One merged identity *)

Section Merge.
Context (specs : list dict) (tables : list (list (string * Identity))).
Hypothesis (Htables : map_result _local_table specs = Ok tables).

Lemma declared_spec id i : i ∈ declared_in tables id ↔ declares specs id i.
Proof.
  unfold declared_in, declares. rewrite list_elem_of_omap. split.
  - intros (t & Ht & Hi). destruct (map_result_elem _ _ _ t Htables Ht) as (spec & Hs & Hl). eauto 6.
  - intros (spec & t & Hs & Hl & Hi). destruct (map_result_all _ _ _ spec Htables Hs) as (t' & Ht & Hl').
    rewrite Hl in Hl'. injection Hl' as <-. eauto.
Qed.

Lemma declared_attribute id (f : Identity → option string) v :
  v ∈ omap f (declared_in tables id) ↔ ∃ i, declares specs id i ∧ f i = Some v.
Proof. rewrite list_elem_of_omap. setoid_rewrite declared_spec. done. Qed.

Lemma merged_attribute id name (f : Identity → option string) o cs :
  agreed id name (omap f (declared_in tables id)) = (o, cs) →
  (∀ v, o = Some v ↔ agree_on specs id f v) ∧ (cs = [] ∨ ∃ l, cs = [MkConflict id name l])
  ∧ (cs ≠ [] ↔ disagree_on specs id f).
Proof.
  intros (Ho & Hc & Hd)%agreed_spec. split_and!; [|done|].
  - intros v. rewrite Ho, declared_attribute. unfold agree_on. apply and_iff_compat_l. split.
    + intros H i w Hi Hw. apply H, declared_attribute. eauto.
    + intros H w (i & Hi & Hw)%declared_attribute. eauto.
  - rewrite Hd. setoid_rewrite declared_attribute. unfold disagree_on. split.
    + intros (v & w & (i & Hi & Hv) & (j & Hj & Hw) & Hne). exists i, j, v, w. done.
    + intros (i & j & v & w & Hi & Hj & Hv & Hw & Hne). exists v, w. split_and!; eauto.
Qed.

Lemma merged_ids id : id ∈ concat (map keys tables) ↔ ∃ i, declares specs id i.
Proof.
  rewrite list_elem_of_In, in_concat. setoid_rewrite <-declared_spec. unfold declared_in.
  setoid_rewrite list_elem_of_omap. split.
  - intros (l & (t & <- & Ht)%in_map_iff & Hid). apply list_elem_of_In in Hid, Ht.
    destruct (lookup_key id t) as [i|] eqn:E; [eauto|]. by apply lookup_key_None in E.
  - intros (i & t & Ht & Hi). exists (keys t). rewrite in_map_iff, <-list_elem_of_In. split; [|destruct (decide (id ∈ keys t)) as [|Hn]].
    + exists t. by rewrite <-list_elem_of_In.
    + done.
    + apply lookup_key_None in Hn. congruence.
Qed.

Lemma merge_one_spec id m cs : merge_one id (declared_in tables id) = (m, cs) →
  mi_identity_id m = id
  ∧ (∀ v, mi_role m = Some v ↔ agree_on specs id il_role v)
  ∧ (∀ v, mi_tenant_id m = Some v ↔ agree_on specs id il_tenant_id v)
  ∧ mi_conflicts m = map cf_attribute cs ∧ Forall (λ c, cf_identity_id c = id) cs
  ∧ ("role" ∈ mi_conflicts m ↔ disagree_on specs id il_role)
  ∧ ("tenant_id" ∈ mi_conflicts m ↔ disagree_on specs id il_tenant_id).
Proof.
  unfold merge_one. destruct (agreed id "role" _) as [role c1] eqn:E1.
  destruct (agreed id "tenant_id" _) as [tenant c2] eqn:E2.
  apply merged_attribute in E1 as (Hr & Hc1 & Hd1). apply merged_attribute in E2 as (Ht & Hc2 & Hd2).
  set (refs := distinct_refs _ _). set (kinds := dedup _).
  assert (Hc3 : credential_conflict id kinds refs = [] ∨ ∃ l, credential_conflict id kinds refs = [MkConflict id "credential" l]).
  { unfold credential_conflict. repeat destruct (_ <? _)%nat; eauto. }
  intros [= <- <-]. simpl. rewrite <-Hd1, <-Hd2, Forall_app, Forall_app, !map_app, !elem_of_app.
  destruct Hc1 as [-> | [l1 ->]], Hc2 as [-> | [l2 ->]], Hc3 as [-> | [l3 ->]]; simpl; split_and!;
    try done; try (by repeat constructor); set_solver.
Qed.
End Merge.

Definition identity_of (table : list Merged) (id : string) (m : Merged) : Prop := m ∈ table ∧ mi_identity_id m = id.

Lemma merge_inv specs table conflicts : merge_identities specs = Ok (table, conflicts) →
  ∃ tables, map_result _local_table specs = Ok tables
  ∧ let merged := map (λ id, merge_one id (declared_in tables id)) (sorted_strings (concat (map keys tables))) in
    table = map fst merged ∧ conflicts = concat (map snd merged).
Proof.
  unfold merge_identities. intros (tables & Ht & H)%rbind_ok. destruct (forallb _ _); [|done].
  injection H as <- <-. eauto.
Qed.

(** ** The engagement's view *)

(** C28. The view of an engagement's identities holds each id some case
    declares and no other.  A role or a tenant is established exactly when
    every declaration that sets it sets it to that value; it is reported as a
    conflict exactly when two declarations differ, and each conflict reported
    is one of its identity. *)
Theorem attribute_established_iff_agreed specs table conflicts :
  merge_identities specs = Ok (table, conflicts) →
  (∀ id, (∃ m, identity_of table id m) ↔ ∃ i, declares specs id i)
  ∧ ∀ id m, identity_of table id m →
      (∀ v, mi_role m = Some v ↔ agree_on specs id il_role v)
      ∧ (∀ v, mi_tenant_id m = Some v ↔ agree_on specs id il_tenant_id v)
      ∧ ("role" ∈ mi_conflicts m ↔ disagree_on specs id il_role)
      ∧ ("tenant_id" ∈ mi_conflicts m ↔ disagree_on specs id il_tenant_id)
      ∧ ∀ attribute, attribute ∈ mi_conflicts m
          ↔ ∃ c, c ∈ conflicts ∧ cf_identity_id c = id ∧ cf_attribute c = attribute.
Proof.
  intros (tables & Ht & -> & ->)%merge_inv. set (ids := sorted_strings _).
  assert (Hids : ∀ id, id ∈ ids ↔ ∃ i, declares specs id i)
    by (intros id; unfold ids; rewrite elem_of_sorted_strings; by apply merged_ids).
  set (one id := merge_one id (declared_in tables id)).
  assert (Hone : ∀ id, one id = ((one id).1, (one id).2)) by (intros; by destruct (one id)).
  assert (Hid : ∀ id, mi_identity_id (one id).1 = id)
    by (intros id; by destruct (merge_one_spec specs tables Ht id _ _ (Hone id)) as (H & _)).
  assert (Hof : ∀ id m, identity_of (map fst (map one ids)) id m ↔ id ∈ ids ∧ m = (one id).1).
  { intros id m. unfold identity_of. rewrite map_map, list_elem_of_fmap. split.
    - intros [(id' & -> & Hin) <-]. by rewrite Hid.
    - intros [Hin ->]. split; [by exists id|apply Hid]. }
  split.
  - intros id. rewrite <-Hids. setoid_rewrite Hof. naive_solver.
  - intros id m [Hin ->]%Hof.
    destruct (merge_one_spec specs tables Ht id _ _ (Hone id)) as (_ & Hr & Htn & Hc & Hf & Hcr & Hct).
    split_and!; [done..|]. intros attribute. rewrite Hc, list_elem_of_fmap. split.
    + intros (c & -> & Hcin). exists c. split_and!; [|by eapply Forall_forall in Hf|done].
      rewrite list_elem_of_In, in_concat. exists ((one id).2). rewrite map_map, in_map_iff.
      split; [exists id; split; [done|by apply list_elem_of_In]|by apply list_elem_of_In].
    + intros (c & Hcin & Hcid & <-). rewrite list_elem_of_In, in_concat, map_map in Hcin.
      destruct Hcin as (l & (id' & <- & Hin')%in_map_iff & Hcl). apply list_elem_of_In in Hcl.
      destruct (merge_one_spec specs tables Ht id' _ _ (Hone id')) as (_ & _ & _ & _ & Hf' & _).
      rewrite Forall_forall in Hf'. assert (id' = id) as -> by (by rewrite <-(Hf' c Hcl)). by exists c.
Qed.

(** ** Questions *)

(** [subject] stands on the other side of [klass] in the case of [spec], by
    what that case itself declares. *)
Definition stands (spec : dict) (local : list (string * Identity)) (subject klass : string) : Prop :=
  subject ≠ owner_of spec ∧ ∃ s, lookup_key subject local = Some s ∧
    if il_anonymous s then klass = "anonymous"
    else ∃ owner found, lookup_key (owner_of spec) local = Some owner
         ∧ classify spec s owner (resource_of spec) = Ok found ∧ klass ∈ map fst found.

(** A current run of one of the operation's cases has evaluated a subject on
    the other side of the boundary. *)
Definition boundary_answered (specs : list (string * dict)) (o : Operation) (klass : string) : Prop :=
  ∃ entry local subject, entry ∈ op_cases o ∧ _local_table (spec_of specs (en_case_id entry)) = Ok local
    ∧ subject ∈ en_identities entry ∧ stands (spec_of specs (en_case_id entry)) local subject klass
    ∧ en_executed entry = true ∧ lookup_key subject (en_identity_states entry) = Some "evaluated".

Lemma ask_subject_spec spec local entry subject asked klass : ask_subject spec local entry subject = Ok asked →
  ((∃ a, a ∈ asked ∧ aq_class a = klass ∧ aq_evaluated a = true)
   ↔ stands spec local subject klass ∧ en_executed entry = true
     ∧ lookup_key subject (en_identity_states entry) = Some "evaluated").
Proof.
  unfold ask_subject, stands. destruct (lookup_key subject local) as [s|] eqn:Es.
  2: { intros [= <-]. split; [intros (a & Ha & _); by apply elem_of_nil in Ha|by intros ((_ & ? & ? & _) & _)]. }
  destruct (String.eqb_spec subject (owner_of spec)) as [Heq|Hne].
  { intros [= <-]. split; [intros (a & Ha & _); by apply elem_of_nil in Ha|by intros ((? & _) & _)]. }
  intros (classes & Hc & [= <-])%rbind_ok.
  assert (Hk : klass ∈ classes ↔ if il_anonymous s then klass = "anonymous"
    else ∃ owner found, lookup_key (owner_of spec) local = Some owner
         ∧ classify spec s owner (resource_of spec) = Ok found ∧ klass ∈ map fst found).
  { destruct (il_anonymous s); [injection Hc as <-; set_solver|].
    destruct (lookup_key (owner_of spec) local) as [owner|].
    - apply rbind_ok in Hc as (found & Hf & [= <-]). split; [eauto|].
      intros (? & ? & [= <-] & Hf' & Hin). congruence.
    - injection Hc as <-. split; [set_solver|]. by intros (? & ? & ? & _). }
  split.
  - intros (a & (k & -> & Hin)%list_elem_of_fmap & <- & Hev). simpl in *. bool_simpl.
    split_and!; [done| |done|done]. exists s. split; [done|by apply Hk].
  - intros ((_ & s' & [= <-] & Hs) & He & Hst). exists (MkAsked klass subject (en_executed entry) true). split_and!; [|done..].
    apply list_elem_of_fmap. exists klass. rewrite He, Hst. split; [done|by apply Hk].
Qed.

Lemma ask_case_spec specs entry asked owned klass : ask_case specs entry = Ok (asked, owned) →
  ((∃ a, a ∈ asked ∧ aq_class a = klass ∧ aq_evaluated a = true)
   ↔ ∃ local subject, _local_table (spec_of specs (en_case_id entry)) = Ok local ∧ subject ∈ en_identities entry
     ∧ stands (spec_of specs (en_case_id entry)) local subject klass
     ∧ en_executed entry = true ∧ lookup_key subject (en_identity_states entry) = Some "evaluated").
Proof.
  unfold ask_case. intros (local & Hl & (found & Hf%map_result_forall & [= <- <-])%rbind_ok)%rbind_ok. split.
  - intros (a & Ha & Hk). rewrite list_elem_of_In, in_concat in Ha. destruct Ha as (l & Hin & Hal).
    apply list_elem_of_In in Hin, Hal. destruct (Forall2_elem_r _ _ _ l Hf Hin) as (subject & Hs & Hask).
    exists local, subject. split_and!; [done|done|..]; by eapply ask_subject_spec; eauto.
  - intros (local' & subject & Hl' & Hs & Hst). rewrite Hl in Hl'. injection Hl' as <-.
    destruct (Forall2_elem_l _ _ _ subject Hf Hs) as (l & Hin & Hask).
    apply (ask_subject_spec _ _ _ _ _ klass Hask) in Hst. destruct Hst as (a & Ha & Hk). exists a. split; [|done].
    rewrite list_elem_of_In, in_concat. exists l. by rewrite <-!list_elem_of_In.
Qed.

Lemma is_evaluated_spec specs o found klass : map_result (ask_case specs) (op_cases o) = Ok found →
  is_evaluated klass (concat (map fst found)) = true ↔ boundary_answered specs o klass.
Proof.
  intros Hf%map_result_forall. unfold is_evaluated. rewrite existsb_exists. split.
  - intros (a & Hain & Hk). apply in_concat in Hain as (l & Hfl & Ha). apply in_map_iff in Hfl as (f & <- & Hin). bool_simpl.
    apply list_elem_of_In in Hin, Ha. destruct (Forall2_elem_r _ _ _ f Hf Hin) as (entry & He & Hask).
    destruct f as [asked owned]. destruct (proj1 (ask_case_spec _ _ _ _ klass Hask)) as (local & subject & Hst); [by eauto|].
    exists entry, local, subject. tauto.
  - intros (entry & local & subject & He & Hst). destruct (Forall2_elem_l _ _ _ entry Hf He) as ([asked owned] & Hin & Hask).
    destruct (proj2 (ask_case_spec _ _ _ _ klass Hask)) as (a & Ha & Hk & Hev); [by eauto|].
    exists a. rewrite Hk, Hev, String.eqb_refl. split; [|done]. rewrite in_concat. exists asked.
    rewrite in_map_iff, <-list_elem_of_In. split; [|done]. exists (asked, owned). by rewrite <-list_elem_of_In.
Qed.

Lemma hypothesis_spec table hierarchies o asked owned klass h :
  h ∈ hypothesis table hierarchies o asked owned klass →
  hy_endpoint_id h = ae_id (op_endpoint o) ∧ hy_boundary h = klass.
Proof. unfold hypothesis. destruct (_ || _); [set_solver|]. by intros ->%list_elem_of_singleton. Qed.

Lemma hypothesis_open table hierarchies o asked owned klass :
  (∃ h, h ∈ hypothesis table hierarchies o asked owned klass)
  ↔ _askable table hierarchies klass = true ∧ is_evaluated klass asked = false.
Proof.
  unfold hypothesis. destruct (_askable _ _ _), (is_evaluated _ _); simpl; split;
    try (by intros [? []%elem_of_nil]); try (by intros []); try done. intros _. eexists. by left.
Qed.

Lemma ask_operation_spec specs table hierarchies o evidence hs klass :
  ask_operation specs table hierarchies o = Ok (evidence, hs) →
  ((∃ h, h ∈ hs ∧ hy_boundary h = klass)
   ↔ klass ∈ CLASSES ∧ op_priority_reasons o ≠ [] ∧ _askable table hierarchies klass = true ∧ ¬ boundary_answered specs o klass)
  ∧ ∀ h, h ∈ hs → hy_endpoint_id h = ae_id (op_endpoint o).
Proof.
  unfold ask_operation. intros (found & Hf & [= _ <-])%rbind_ok.
  assert (Hev := is_evaluated_spec specs o found klass Hf). case_bool_decide as Hr.
  { split; [|set_solver]. split; [by intros (h & []%elem_of_nil & _)|tauto]. }
  assert (Hin : ∀ h, h ∈ concat (map (hypothesis table hierarchies o (concat (map fst found)) (existsb snd found)) CLASSES)
                 ↔ ∃ k, k ∈ CLASSES ∧ h ∈ hypothesis table hierarchies o (concat (map fst found)) (existsb snd found) k).
  { intros h. rewrite list_elem_of_In, in_concat. setoid_rewrite in_map_iff. setoid_rewrite <-list_elem_of_In. naive_solver. }
  split.
  - setoid_rewrite Hin. split.
    + intros (h & (k & Hk & Hh) & Hb). destruct (hypothesis_spec _ _ _ _ _ _ _ Hh) as [_ Hkb].
      assert (k = klass) as -> by congruence.
      destruct (proj1 (hypothesis_open _ _ _ _ _ _) (ex_intro _ h Hh)) as [Ha He].
      split_and!; [done|done|done|]. rewrite <-Hev, He. done.
    + intros (Hk & _ & Ha & Hn). rewrite <-Hev, not_true_iff_false in Hn.
      destruct (proj2 (hypothesis_open table hierarchies o _ (existsb snd found) _) (conj Ha Hn)) as [h Hh].
      exists h. split; [eauto|by eapply hypothesis_spec].
  - intros h (k & _ & Hh)%Hin. by eapply hypothesis_spec.
Qed.

(** The relationships view asks about a boundary of an operation exactly
    when the operation has a reason to be tested, the identities established
    in the engagement make the boundary testable, and no current run has
    evaluated that boundary there - where a run counts only under the
    declarations of its own case. *)
Theorem questions_are_the_open_boundaries d p r :
  build_relationships d p = Ok r →
  ∃ coverage, build_coverage d p = Ok coverage ∧
    ∀ id klass, (∃ h, h ∈ re_hypotheses r ∧ hy_endpoint_id h = id ∧ hy_boundary h = klass)
      ↔ ∃ o, o ∈ cv_operations coverage ∧ ae_id (op_endpoint o) = id ∧ klass ∈ CLASSES ∧ op_priority_reasons o ≠ []
         ∧ (klass, true) ∈ re_askable_boundaries r ∧ ¬ boundary_answered (case_specs p d) o klass.
Proof.
  unfold build_relationships. intros (coverage & Hc & H)%rbind_ok.
  apply rbind_ok in H as ([table conflicts] & _ & H). apply rbind_ok in H as (hierarchies & _ & H).
  apply rbind_ok in H as (parts & Hp%map_result_forall & [= <-]).
  exists coverage. split; [done|]. intros id klass. cbn [re_hypotheses re_askable_boundaries].
  assert (Hask : (klass, true) ∈ map (λ k, (k, _askable table hierarchies k)) CLASSES
                 ↔ klass ∈ CLASSES ∧ _askable table hierarchies klass = true).
  { rewrite list_elem_of_fmap. split; [intros (k & [= <- Ha] & Hk); by rewrite <-Ha|intros [Hk Ha]].
    exists klass. by rewrite Ha. }
  setoid_rewrite sorted_by_perm. setoid_rewrite Hask. setoid_rewrite list_elem_of_In. setoid_rewrite in_concat. split.
  - intros (h & (hs & (part & <- & Hin)%in_map_iff & Hh) & <- & Hb). apply list_elem_of_In in Hin, Hh.
    destruct (Forall2_elem_r _ _ _ part Hp Hin) as (o & Ho & Hop). destruct part as [evidence hs].
    destruct (ask_operation_spec _ _ _ _ _ _ klass Hop) as [Hiff Hid]. simpl in Hh.
    destruct (proj1 Hiff) as (Hk & Hr & Ha & Hn); [by eauto|]. exists o. rewrite <-!list_elem_of_In.
    split_and!; try done. symmetry. by apply Hid.
  - intros (o & Ho & <- & Hk & Hr & [_ Ha] & Hn). apply list_elem_of_In in Ho, Hk.
    destruct (Forall2_elem_l _ _ _ o Hp Ho) as ([evidence hs] & Hin & Hop).
    destruct (ask_operation_spec _ _ _ _ _ _ klass Hop) as [Hiff Hid].
    destruct (proj2 Hiff) as (h & Hh & Hb); [done|]. exists h. split; [|split; [by apply Hid|done]].
    exists hs. rewrite in_map_iff, <-!list_elem_of_In. split; [|done]. exists (evidence, hs). by rewrite <-list_elem_of_In.
Qed.
