(* ===== verification/AuthoringSafety.v ===== *)
(** * What drafting and saving reviewed cases guarantee

    A draft copies no secret and decides nothing, and as long as it decides
    nothing it cannot be saved; the views and drafts of a small engagement
    show the theorems at work. *)
From S2P Require Import Prelude PyStr Json Digest Time Models Access JobConfig Url TestCases Jobs Schemas Scope Coverage CoverageSafety Relationships CaseAuthoring RelationshipsSafety.
From Stdlib Require Import Ascii.

(** ** Drafts *)

(** An identity of a draft: named, with a credential that holds no secret. *)
Definition drafted_identity (identity : dict) : Prop :=
  ∃ id credential, lookup_key "id" identity = Some id ∧ dget "credential" identity = JObj credential
    ∧ str_or_empty (dget "value" credential) = "".

(** One decision per identity, and each of them is to skip it. *)
Definition undecided (spec : dict) : Prop :=
  ∃ identities expected,
    lookup_key "identities" spec = Some (JList (map JObj identities)) ∧ Forall drafted_identity identities
    ∧ lookup_key "expected_access" spec = Some (JList expected)
    ∧ Forall2 (λ i e, ∃ id, lookup_key "id" i = Some id ∧ e = JObj [("identity_id", id); ("decision", JStr "skip")])
        identities expected.

Lemma lookup_filter_absent (p : string → bool) k (d : dict) :
  p k = false → lookup_key k (List.filter (λ kv, p kv.1) d) = None.
Proof.
  intros Hp. apply lookup_key_None. unfold keys. intros ([k' v] & Hk & Hin)%list_elem_of_fmap.
  apply list_elem_of_In, filter_In in Hin as [_ Hpk]. simpl in *. congruence.
Qed.

Lemma lookup_key_in {A} k (d : list (string * A)) v : lookup_key k d = Some v → (k, v) ∈ d.
Proof.
  induction d as [|[k' v'] d IH]; simpl; [done|]. destruct (String.eqb_spec k k') as [->|];
    [intros [= ->]; by left|intros H; right; by apply IH].
Qed.

Lemma template_drafted : Forall drafted_identity template_identities.
Proof. repeat constructor; unfold drafted_identity; do 2 eexists; split_and!; reflexivity. Qed.

Lemma note_identity_drafted wanted found item :
  Forall (λ f, drafted_identity f.2) found → Forall (λ f, drafted_identity f.2) (note_identity wanted found item).
Proof.
  intros Hf. unfold note_identity. destruct item as [| | | | | |identity]; try done.
  destruct (dget "id" identity) as [| | | |ident| |]; try done. destruct (_ && _); [|done].
  apply Forall_app. split; [done|]. constructor; [|done]. exists (JStr ident), (without_value (_credential identity)). split_and!; [done..|].
  unfold dget, without_value. by rewrite (lookup_filter_absent (λ k, negb (String.eqb k "value"))).
Qed.

Lemma known_drafted d p wanted l : _known_identities d p wanted = Ok l → Forall drafted_identity l.
Proof.
  unfold _known_identities. intros (items & _ & H)%rbind_ok. apply rbind_ok in H as ([table conflicts] & _ & H).
  apply rbind_ok in H as ([] & _ & H). apply rbind_ok in H as ([] & _ & [= <-]).
  assert (Hall : Forall (λ f, drafted_identity f.2) (foldl (note_identity wanted) [] (concat items))).
  { assert (H0 : Forall (λ f : string * dict, drafted_identity f.2) []) by constructor.
    revert H0. generalize (@nil (string * dict)). induction (concat items) as [|x xs IH]; intros found Hf; [done|].
    simpl. by apply IH, note_identity_drafted. }
  apply Forall_forall. intros i (k & _ & Hk%lookup_key_in)%list_elem_of_omap. by apply (proj1 (Forall_forall _ _) Hall) in Hk.
Qed.

Lemma draft_identity_drafted m i : draft_identity m = Ok i → drafted_identity i.
Proof.
  unfold draft_identity. destruct (mi_reference m) as [ref|]; [|done]. intros [= <-].
  do 2 eexists. split_and!; [reflexivity|reflexivity|]. destruct (mi_anonymous m); [reflexivity|].
  unfold dget. destruct (lookup_key "value" _) eqn:E; [|done]. apply lookup_key_in, list_elem_of_In, filter_In in E as [E _].
  repeat (match type of E with In _ (match ?r with _ => _ end) => destruct r end; [done|simpl in E]; destruct E as [E|E]; [done|]).
  done.
Qed.

Lemma context_drafted d p e b c : draft_for_boundary d p e b = Ok c → Forall drafted_identity (dx_identities c).
Proof.
  unfold draft_for_boundary. intros (coverage & _ & H)%rbind_ok. cbv zeta in H.
  apply rbind_ok in H as ([table conflicts] & _ & H). apply rbind_ok in H as (hierarchies & _ & H).
  destruct (draft_owner _ _) as [owner m1]. destruct (draft_tenant _ _) as [[tenant conflict] m2].
  destruct (draft_subjects _ _ _ _ _ _) as [chosen m3]. apply rbind_ok in H as (out & Hout & [= <-]).
  apply Forall_forall. intros i Hi. simpl in Hi. destruct (map_result_elem _ _ _ i Hout Hi) as (m & _ & Hm).
  by eapply draft_identity_drafted.
Qed.

Lemma draft_undecided uuid identities context op draft :
  _draft uuid identities context op = Ok draft →
  (∀ l, identities = Some l → Forall drafted_identity l) → undecided (df_spec draft).
Proof.
  destruct op as [[method url] source]. unfold _draft. intros H Hl.
  set (ids := match identities with Some ((_ :: _) as l) => l | _ => template_identities end) in H.
  assert (Hids : Forall drafted_identity ids).
  { unfold ids. destruct identities as [[|i l]|]; try apply template_drafted. by apply Hl. }
  apply rbind_ok in H as (parts & _ & H). apply rbind_ok in H as (expected & He%map_result_forall & [= <-]).
  exists ids, expected. cbn [df_spec]. split_and!; [reflexivity|done|reflexivity|].
  eapply Forall2_impl; [exact He|]. intros i e (id & Hid & [= <-])%rbind_ok. exists id. split; [|done].
  unfold json_index in Hid. destruct (lookup_key "id" i); [congruence|done].
Qed.

(** What is undecided is not a review. *)
Lemma undecided_not_reviewed spec : undecided spec → decisions_reviewed spec ≠ Ok true.
Proof.
  intros (identities & expected & Hi & _ & He & Hs) H. unfold decisions_reviewed in H.
  apply rbind_ok in H as (expected' & Hx & H). unfold dget in Hx. rewrite He in Hx.
  assert (expected' = expected) as -> by (destruct expected; unfold iter_or_empty in Hx; simpl in Hx; congruence).
  clear Hx. repeat (apply rbind_ok in H as (? & ? & H)). destruct (negb _); [done|].
  apply rbind_ok in H as (named & _ & H). apply rbind_ok in H as (names & _ & H). destruct (negb _); [done|].
  apply rbind_ok in H as (decisions & Hd & [= H]). apply existsb_exists in H as (v & Hv & Hne).
  apply list_elem_of_In in Hv. destruct (map_result_elem _ _ _ v Hd Hv) as (e & Hin & Hve).
  destruct (Forall2_elem_r _ _ _ e Hs Hin) as (i & _ & id & _ & ->). simpl in Hve. by injection Hve as <-.
Qed.

Lemma reviewed_spec_decided case spec : reviewed_spec case = Ok spec →
  tcc_spec case = JObj spec ∧ safe_spec (JObj spec) ∧ decisions_reviewed spec = Ok true.
Proof.
  unfold reviewed_spec. intros (spec' & Hv & H)%rbind_ok. apply rbind_ok in H as (request & _ & H).
  apply rbind_ok in H as (url & _ & H). apply rbind_ok in H as (valid & _ & H). apply rbind_ok in H as ([] & _ & H).
  apply rbind_ok in H as (decided & Hd & H). apply rbind_ok in H as ([] & Hg & H). apply guard_ok in Hg. subst decided.
  apply rbind_ok in H as ([] & _ & [= <-]). destruct (validate_spec_inv _ _ Hv) as [Hc _].
  split_and!; [done|rewrite <-Hc; by eapply validate_spec_safe|done].
Qed.


(** ** A small engagement *)

Module AuthoringExample.
Definition bearer (variable : string) : json := JObj [("type", JStr "bearer"); ("value_env", JStr variable)].
Definition alice : json :=
  JObj [("id", JStr "alice"); ("credential", bearer "ALICE"); ("role", JStr "user"); ("tenant_id", JStr "acme")].
Definition bob : json := JObj [("id", JStr "bob"); ("credential", bearer "BOB"); ("tenant_id", JStr "beta")].
Definition carol (tenant : string) : json :=
  JObj [("id", JStr "carol"); ("credential", bearer "CAROL"); ("tenant_id", JStr tenant)].
Definition decision (id d : string) : json := JObj [("identity_id", JStr id); ("decision", JStr d)].
Definition spec_1 : dict :=
  [("id", JStr "case-1"); ("request", JObj [("method", JStr "GET"); ("url", JStr "https://api.acme.com/orders/42")]);
   ("identities", JList [alice; bob; carol "acme"]);
   ("expected_access", JList [decision "alice" "allow"; decision "bob" "deny"; decision "carol" "skip"]);
   ("resource", JObj [("owner_identity", JStr "alice")])].
Definition spec_2 : dict :=
  [("id", JStr "case-2"); ("request", JObj [("method", JStr "GET"); ("url", JStr "https://api.acme.com/users/7")]);
   ("identities", JList [carol "beta"]); ("expected_access", JList [decision "carol" "allow"])].
Definition endpoint : ApiEndpoint :=
  MkApiEndpoint "ep-1" "eng-1" None "GET" (Some "https") "api.acme.com" None "/orders/{id}" "k" None None 1 0 0.
Definition stored (id : string) (spec : dict) : AuthorizationTestCase :=
  MkAuthorizationTestCase id "eng-1" "alice" "Orders" "case" None (JObj spec) 0 None.
Definition d : db :=
  set_api_endpoints [endpoint] (set_test_cases [stored "tc-1" spec_1; stored "tc-2" spec_2] (set_engagement demo_engagement empty_db)).
Definition user : user_ctx := UserCtx "alice" "alice" "" "full" None.

Definition no_view : Relationships := MkRelationships [] [] [] [] [] [] [] [].
Definition view : Relationships :=
  Eval vm_compute in match build_relationships d "eng-1" with Ok r => r | Raise _ => no_view end.
Lemma viewed : build_relationships d "eng-1" = Ok view.
Proof. vm_compute. reflexivity. Qed.

Definition request : DraftRequest := MkDraftRequest ["ep-1"] None "" [] (Some "cross_tenant") 50 0.
Definition uuid4 (n : nat) : string := "u" +:+ string_of_nat n.
Definition no_preview : Preview := MkPreview [] None 0 None.
Definition preview : Preview :=
  Eval vm_compute in match preview_cases uuid4 "eng-1" request user d with Ok pv => pv | Raise _ => no_preview end.
Lemma previewed : preview_cases uuid4 "eng-1" request user d = Ok preview.
Proof. vm_compute. reflexivity. Qed.
Definition draft : Draft := Eval vm_compute in List.hd (MkDraft "" "" []) (pv_drafts preview).

(** Carol's tenant is declared differently by two cases: it is not established. *)
Lemma carol_conflicts : ∃ table conflicts m, merge_identities [spec_1; spec_2] = Ok (table, conflicts)
  ∧ identity_of table "carol" m ∧ mi_tenant_id m = None ∧ mi_conflicts m = ["tenant_id"].
Proof. do 3 eexists. split_and!; [vm_compute; reflexivity|split; [right; right; left|]; reflexivity|reflexivity|reflexivity]. Qed.

Lemma attribute_established_iff_agreed_witness : ∃ table conflicts m, merge_identities [spec_1; spec_2] = Ok (table, conflicts)
  ∧ identity_of table "carol" m
  ∧ (mi_tenant_id m = Some "acme" ↔ agree_on [spec_1; spec_2] "carol" il_tenant_id "acme")
  ∧ ("tenant_id" ∈ mi_conflicts m ↔ disagree_on [spec_1; spec_2] "carol" il_tenant_id)
  ∧ ∃ c, c ∈ conflicts ∧ cf_identity_id c = "carol" ∧ cf_attribute c = "tenant_id".
Proof.
  destruct carol_conflicts as (table & conflicts & m & Hm & Hid & _ & Hc). exists table, conflicts, m.
  destruct (proj2 (attribute_established_iff_agreed _ _ _ Hm) "carol" m Hid) as (_ & Ht & _ & Hd & Hall).
  split_and!; [exact Hm|exact Hid|apply Ht|exact Hd|]. apply Hall. rewrite Hc. left.
Defined.

Lemma questions_are_the_open_boundaries_witness : ∃ coverage, build_coverage d "eng-1" = Ok coverage ∧
  ∃ o, o ∈ cv_operations coverage ∧ ae_id (op_endpoint o) = "ep-1" ∧ op_priority_reasons o ≠ []
    ∧ ¬ boundary_answered (case_specs "eng-1" d) o "cross_tenant".
Proof.
  destruct (questions_are_the_open_boundaries d "eng-1" view viewed) as (coverage & Hc & Hall).
  exists coverage. split; [exact Hc|]. destruct (proj1 (Hall "ep-1" "cross_tenant")) as (o & Ho & Hid & _ & Hr & _ & Hn).
  { exists (List.hd (MkHypothesis "" "" "" "" "" "" []) (re_hypotheses view)). split_and!; [left|reflexivity..]. }
  exists o. split_and!; [exact Ho|exact Hid|exact Hr|exact Hn].
Defined.


(** The case without the draft is stored. *)
Example reviewed_case_saved :
  is_ok (save_reviewed_cases (λ s, s) uuid4 uuid4 0 "eng-1"
           (MkReviewedCases true [MkTestCaseCreate "Orders" "" (JObj spec_1)]) user d) = true.
Proof. vm_compute. reflexivity. Qed.

(** A request URL that is a number passes the validation of the spec and is
    then split as if it were bytes. *)
Example numeric_url_breaks : reviewed_spec (MkTestCaseCreate "Orders" "" (JObj
    [("id", JStr "case-1"); ("request", JObj [("method", JStr "GET"); ("url", JInt 5)]);
     ("identities", JList [alice]); ("expected_access", JList [decision "alice" "allow"])])) = Raise AttributeError.
Proof. vm_compute. reflexivity. Qed.

(** An owner without credentials is in the draft of the anonymous boundary
    twice, which no saved case may have. *)
Definition nobody : json :=
  JObj [("id", JStr "nobody"); ("credential", JObj [("type", JStr "static_header"); ("header", JStr ""); ("value", JStr "")])].
Definition spec_3 : dict :=
  dset "resource" (JObj [("owner_identity", JStr "nobody")]) (dset "identities" (JList [nobody])
    (dset "expected_access" (JList [decision "nobody" "allow"]) spec_1)).
Example anonymous_owner_drafted_twice :
  (λ c, map (dget "id") (dx_identities c)) <$> (match draft_for_boundary (set_test_cases [stored "tc-3" spec_3] d) "eng-1" "ep-1" "anonymous" with
    | Ok c => Some c | Raise _ => None end) = Some [JStr "nobody"; JStr "nobody"].
Proof. vm_compute. reflexivity. Qed.
End AuthoringExample.
