(* ===== verification/Notifications.v ===== *)
(** * [notifications.py] and [routers/settings.py]: outbound webhooks

    The check a webhook URL passes when it is saved, and the one it passes
    again, with the addresses its host resolves to, before a request is made.
    The name service and the HTTP client are parameters: what [getaddrinfo]
    answers, and whether the request succeeds. *)
From S2P Require Import Prelude PyStr IpAddress Json Time Models Access JobConfig Url.
From Stdlib Require Import Ascii.

(** ** Severities *)

Definition _SEVERITY_ORDER : list (string * Z) := [("info", 0); ("low", 1); ("medium", 2); ("high", 3); ("critical", 4)].
Definition VALID_SEVERITIES : list string := keys _SEVERITY_ORDER.

Definition severity_meets_threshold (severity minimum : string) : bool :=
  match lookup_key (lower severity) _SEVERITY_ORDER, lookup_key (lower minimum) _SEVERITY_ORDER with
  | Some sev, Some floor => floor <=? sev
  | _, _ => false
  end.

#[export] Instance network_eq_dec : EqDecision network.
Proof. solve_decision. Defined.

(** ** Addresses the backend never contacts

    The registries of the [ipaddress] module. *)

Definition networks (l : list string) : list network := omap ip_network l.

Definition v4_private : list network :=
  Eval vm_compute in networks
    ["0.0.0.0/8"; "10.0.0.0/8"; "127.0.0.0/8"; "169.254.0.0/16"; "172.16.0.0/12"; "192.0.0.0/24"; "192.0.0.170/31";
     "192.0.2.0/24"; "192.168.0.0/16"; "198.18.0.0/15"; "198.51.100.0/24"; "203.0.113.0/24"; "240.0.0.0/4"; "255.255.255.255/32"].
Definition v4_private_exceptions : list network := Eval vm_compute in networks ["192.0.0.9/32"; "192.0.0.10/32"].
Definition v6_private : list network :=
  Eval vm_compute in networks
    ["::1/128"; "::/128"; "::ffff:0:0/96"; "64:ff9b:1::/48"; "100::/64"; "2001::/23"; "2001:db8::/32"; "2002::/16"; "fc00::/7";
     "fe80::/10"].
Definition v6_private_exceptions : list network :=
  Eval vm_compute in networks
    ["2001:1::1/128"; "2001:1::2/128"; "2001:3::/32"; "2001:4:112::/48"; "2001:20::/28"; "2001:30::/28"].
Definition v6_reserved : list network :=
  Eval vm_compute in networks
    ["::/8"; "100::/8"; "200::/7"; "400::/6"; "800::/5"; "1000::/4"; "4000::/3"; "6000::/3"; "8000::/3"; "a000::/3"; "c000::/3";
     "e000::/4"; "f000::/5"; "f800::/6"; "fe00::/9"].
Definition v4_shared : list network := Eval vm_compute in networks ["100.64.0.0/10"].
Definition v4_multicast : list network := Eval vm_compute in networks ["224.0.0.0/4"].
Definition v4_reserved : list network := Eval vm_compute in networks ["240.0.0.0/4"].
Definition v4_loopback : list network := Eval vm_compute in networks ["127.0.0.0/8"].
Definition v4_link_local : list network := Eval vm_compute in networks ["169.254.0.0/16"].
Definition v6_multicast : list network := Eval vm_compute in networks ["ff00::/8"].
Definition v6_link_local : list network := Eval vm_compute in networks ["fe80::/10"].

Definition among (a : address) (l : list network) : bool := existsb (in_network a) l.

Definition v4_is_private (ip : Z) : bool := among (V4 ip) v4_private && negb (among (V4 ip) v4_private_exceptions).

(** An IPv4-mapped address is as private as the address it maps. *)
Definition is_private (a : address) : bool :=
  match a with
  | V4 ip => v4_is_private ip
  | V6 ip _ => if Z.shiftr ip 32 =? 65535 then v4_is_private (Z.land ip (all_ones 32))
               else among a v6_private && negb (among a v6_private_exceptions)
  end.
Definition is_global (a : address) : bool :=
  match a with V4 _ => negb (among a v4_shared) && negb (is_private a) | V6 _ _ => negb (is_private a) end.
Definition is_loopback (a : address) : bool := match a with V4 _ => among a v4_loopback | V6 ip _ => ip =? 1 end.
Definition is_link_local (a : address) : bool := match a with V4 _ => among a v4_link_local | V6 _ _ => among a v6_link_local end.
Definition is_reserved (a : address) : bool := match a with V4 _ => among a v4_reserved | V6 _ _ => among a v6_reserved end.
Definition is_multicast (a : address) : bool := match a with V4 _ => among a v4_multicast | V6 _ _ => among a v6_multicast end.
Definition is_unspecified (a : address) : bool := match a with V4 ip | V6 ip _ => ip =? 0 end.

Definition _is_blocked_ip (ip : address) : bool :=
  negb (is_global ip) || is_private ip || is_loopback ip || is_link_local ip || is_reserved ip || is_multicast ip
  || is_unspecified ip.

(** ** The URL *)

Definition control_or_space (c : ascii) : bool := in_range 0 32 c || (code c =? 127).

(** The error message, or [None] for a URL that may be saved. *)
Definition validate_webhook_url (url : string) : option string :=
  if any_char control_or_space url then Some "webhook_url must not contain whitespace or control characters"
  else
    match (let? parsed := urlsplit url in let? _ := port parsed in Ok parsed) with
    | Raise _ => Some "webhook_url is malformed"
    | Ok parsed =>
        if bool_decide (is_Some (username parsed)) || bool_decide (is_Some (password parsed))
        then Some "webhook_url must not contain credentials"
        else if negb (String.eqb (url_scheme parsed) "https") then Some "webhook_url must use https"
        else
          let host := default "" (hostname parsed) in
          if String.eqb host "" then Some "webhook_url must include a hostname"
          else if String.eqb host "localhost" || endswith host ".localhost" || endswith host ".internal"
          then Some "webhook_url must not point to a local address"
          else match ip_address host with
               | Some a => if _is_blocked_ip a then Some "webhook_url must not point to a private address" else None
               | None => None
               end
    end.

(** ** Sending *)

(** [str(address)] *)
Definition address_text (a : address) : string :=
  match a with
  | V4 ip => join "." (map (λ i, string_of_Z (Z.land (Z.shiftr ip i) 255)) [24; 16; 8; 0])
  | V6 ip None => ipv6_to_string ip
  | V6 ip (Some scope) => ipv6_to_string ip +:+ "%" +:+ scope
  end.

(** A request: the URL it is for, the address it connects to, the message. *)
Definition post : Type := string * string * string.

Section Sending.
(** The addresses a name resolves to; [None] when the resolver fails. *)
Context (getaddrinfo : string → option (list string)).
(** Whether a request is answered with success. *)
Context (delivered : post → bool).

Definition unblocked (address : string) : bool :=
  match ip_address address with Some a => negb (_is_blocked_ip a) | None => false end.

Definition _public_addresses (host : string) : list string :=
  if String.eqb host "" then []
  else
    match ip_address host with
    | Some a => if _is_blocked_ip a then [] else [address_text a]
    | None =>
        match getaddrinfo host with
        | None => []
        | Some addresses => if forallb unblocked addresses then sorted_strings addresses else []
        end
    end.

(** Whether the message was delivered, and the requests made. *)
Definition send_webhook (url message : string) : bool * list post :=
  match validate_webhook_url url with
  | Some _ => (false, [])
  | None =>
      let host := match urlsplit url with Ok parsed => default "" (hostname parsed) | Raise _ => "" end in
      match _public_addresses host with
      | [] => (false, [])
      | address :: _ => (delivered (url, address, message), [(url, address, message)])
      end
  end.
End Sending.

(** ** Settings *)

Record SettingsUpdate := MkSettingsUpdate { su_webhook_url : option string; su_notify_min_severity : option string }.

(** The validator of the field, which trims, and its length. *)
Definition trim_url (v : option string) : option string := strip <$> v.
Definition valid_settings (body : SettingsUpdate) : option SettingsUpdate :=
  let url := trim_url (su_webhook_url body) in
  if match url with Some u => len u <=? 500 | None => true end
  then Some (MkSettingsUpdate url (su_notify_min_severity body)) else None.

Definition _serialize (user : User) : string * string :=
  (or_else (u_webhook_url user) "", or_else (u_notify_min_severity user) "high").
Definition _DEFAULTS : string * string := ("", "high").

Definition find_user (github_id : string) (d : db) : option User :=
  first_row (λ u, String.eqb (u_github_id u) github_id) (users d).

Definition get_settings (current_user : user_ctx) (d : db) : string * string :=
  match find_user (cu_github_id current_user) d with Some user => _serialize user | None => _DEFAULTS end.

Definition check_settings (body : SettingsUpdate) : result unit :=
  check? match su_webhook_url body with
         | Some url =>
             if String.eqb url "" then Ok tt
             else match validate_webhook_url url with Some error => http 400 error | None => Ok tt end
         | None => Ok tt
         end in
  match su_notify_min_severity body with
  | Some s => guard (mem s VALID_SEVERITIES) 400
                ("notify_min_severity must be one of " +:+ repr_list (sorted_strings VALID_SEVERITIES))
  | None => Ok tt
  end.

Definition apply_settings (body : SettingsUpdate) (user : User) : User :=
  let user := match su_webhook_url body with Some url => u_set_webhook_url (Some url) user | None => user end in
  match su_notify_min_severity body with Some s => u_set_notify_min_severity (Some s) user | None => user end.

Definition update_settings (log_id : string) (now : time) (body : SettingsUpdate) (current_user : user_ctx) (d : db)
    : result ((string * string) * db) :=
  match valid_settings body with
  | None => http 422 "webhook_url"
  | Some body =>
      check? check_settings body in
      let github_id := cu_github_id current_user in
      let d := match find_user github_id d with
               | Some _ => d
               | None => set_users (users d ++ [MkUser github_id (Some (cu_username current_user)) (Some (cu_email current_user))
                                                  (Some "") (Some "high") (Some now)]) d
               end in
      let mine (u : User) := String.eqb (u_github_id u) github_id in
      let d := set_users (update_rows mine (apply_settings body) (users d)) d in
      let d := log_action log_id now github_id "update" "settings" github_id None d in
      Ok (get_settings current_user d, d)
  end.

(** ** Where a webhook can reach *)

(** An IPv4-mapped IPv6 address stands for the IPv4 address. *)
Definition effective (a : address) : address :=
  match a with V6 ip _ => if Z.shiftr ip 32 =? 65535 then V4 (Z.land ip (all_ones 32)) else a | V4 _ => a end.

(** Loopback, private, link-local - the cloud metadata address among them -,
    shared, unique-local and multicast ranges. *)
Definition internal_networks : list network :=
  Eval vm_compute in networks ["0.0.0.0/8"; "10.0.0.0/8"; "100.64.0.0/10"; "127.0.0.0/8"; "169.254.0.0/16"; "172.16.0.0/12"; "192.168.0.0/16";
            "224.0.0.0/4"; "240.0.0.0/4"; "::/128"; "::1/128"; "fc00::/7"; "fe80::/10"; "ff00::/8"].

Definition reachable (a : address) : Prop := ∀ n, n ∈ internal_networks → in_network (effective a) n = false.

Lemma among_false a l : among a l = false ↔ ∀ n, n ∈ l → in_network a n = false.
Proof.
  unfold among. rewrite <-not_true_iff_false, existsb_exists. setoid_rewrite <-not_true_iff_false.
  setoid_rewrite <-list_elem_of_In. naive_solver.
Qed.

Definition mask_of (n : network) : Z := netmask (if net_v4 n then 32 else 128) (net_prefixlen n).
(** Two networks with an address in common agree on the bits both fix. *)
Definition overlap (n m : network) : bool :=
  Bool.eqb (net_v4 n) (net_v4 m) && (Z.land (net_base n) (mask_of m) =? Z.land (net_base m) (mask_of n)).

Lemma in_both_overlap a n m : in_network a n = true → in_network a m = true → overlap n m = true.
Proof.
  unfold in_network, overlap, mask_of.
  destruct a as [ip|ip sc], n as [[] b p], m as [[] b' p']; simpl; try done; intros Hn%Z.eqb_eq Hm%Z.eqb_eq;
    apply Z.eqb_eq; subst b b'; rewrite <-!Z.land_assoc; f_equal; apply Z.land_comm.
Qed.

(** Outside the listed networks, or in an exception that overlaps none. *)
Lemma private_spec a private exceptions :
  forallb (λ e, forallb (λ n, negb (overlap e n)) internal_networks) exceptions = true →
  among a private && negb (among a exceptions) = false →
  ∀ n, n ∈ internal_networks → n ∈ private → in_network a n = false.
Proof.
  intros Hex [H|H]%andb_false_iff n Hn Hp; [by apply (proj1 (among_false _ _) H)|].
  apply negb_false_iff, existsb_exists in H as (e & He & Hin). rewrite forallb_forall in Hex.
  specialize (Hex e He). rewrite forallb_forall in Hex. apply list_elem_of_In in Hn. specialize (Hex n Hn).
  destruct (in_network a n) eqn:E; [|done]. by rewrite (in_both_overlap _ _ _ Hin E) in Hex.
Qed.

Lemma mapped_reserved ip scope : Z.shiftr ip 32 = 65535 → is_reserved (V6 ip scope) = true.
Proof.
  intros H. unfold is_reserved, among. apply existsb_exists. exists (Network false 0 8). split; [left; reflexivity|].
  unfold in_network. apply Z.eqb_eq. apply Z.bits_inj'. intros i Hi. rewrite Z.land_spec, Z.bits_0.
  destruct (Z.ltb_spec i 48) as [Hlt|Hge].
  - apply andb_false_iff. right. unfold netmask. apply Z.shiftl_spec_low. simpl. lia.
  - apply andb_false_iff. left. replace i with ((i - 32) + 32) by lia. rewrite <-Z.shiftr_spec by lia. rewrite H.
    apply Z.bits_above_log2; [lia|]. change (Z.log2 65535) with 15. lia.
Qed.

Lemma unblocked_reachable a : _is_blocked_ip a = false → reachable a.
Proof.
  unfold _is_blocked_ip. intros H. bool_simpl. intros n Hn.
  destruct a as [ip|ip scope].
  - cbn [effective]. pose proof (private_spec (V4 ip) v4_private v4_private_exceptions eq_refl ltac:(done) n Hn) as Hp.
    unfold is_global in *. bool_simpl.
    assert (Hs := proj1 (among_false _ _) (ltac:(eassumption) : among (V4 ip) v4_shared = false) n).
    assert (Hm := proj1 (among_false _ _) (ltac:(eassumption) : among (V4 ip) v4_multicast = false) n).
    revert Hp Hs Hm. revert Hn. unfold internal_networks, v4_private, v4_shared, v4_multicast.
    intros Hn Hp Hs Hm. repeat (apply elem_of_cons in Hn as [-> | Hn]; [first [apply Hp; solve_list_mem | apply Hs; solve_list_mem | apply Hm; solve_list_mem | done]|]).
    by apply elem_of_nil in Hn.
  - assert (Hmap : Z.shiftr ip 32 ≠ 65535) by (intros Hmap; rewrite mapped_reserved in *; done).
    apply Z.eqb_neq in Hmap. unfold effective. rewrite Hmap. unfold is_private in *. rewrite Hmap in *.
    pose proof (private_spec (V6 ip scope) v6_private v6_private_exceptions eq_refl ltac:(done) n Hn) as Hp.
    assert (Hm := proj1 (among_false _ _) (ltac:(eassumption) : among (V6 ip scope) v6_multicast = false) n).
    revert Hp Hm. revert Hn. unfold internal_networks, v6_private, v6_multicast.
    intros Hn Hp Hm. repeat (apply elem_of_cons in Hn as [-> | Hn]; [first [apply Hp; solve_list_mem | apply Hm; solve_list_mem | done]|]).
    by apply elem_of_nil in Hn.
Qed.

(** What an accepted URL is. *)
Lemma validate_webhook_inv url : validate_webhook_url url = None →
  ∃ parsed, urlsplit url = Ok parsed ∧ url_scheme parsed = "https" ∧ username parsed = None ∧ password parsed = None
    ∧ default "" (hostname parsed) ≠ "" ∧ default "" (hostname parsed) ≠ "localhost".
Proof.
  unfold validate_webhook_url. destruct (any_char _ _); [done|].
  destruct (urlsplit url) as [parsed|] eqn:Eu; [|done]. cbn [rbind]. destruct (port parsed); [|done]. cbn [rbind].
  intros H. exists parsed. case_bool_decide as Hu; [done|]. case_bool_decide as Hp; [done|]. cbn [orb] in H.
  apply eq_None_not_Some in Hu, Hp.
  destruct (String.eqb_spec (url_scheme parsed) "https") as [Hs|]; [|done]. cbn [negb] in H.
  destruct (String.eqb_spec (default "" (hostname parsed)) "") as [|Hh]; [done|].
  destruct (String.eqb_spec (default "" (hostname parsed)) "localhost") as [|Hl]; [done|]. done.
Qed.

(** [target] is an address of the host: the host itself when it is written as
    one, else one of those it resolves to, all of which are reachable. *)
Definition resolved_public (getaddrinfo : string → option (list string)) (host text : string) (target : address) : Prop :=
  (ip_address host = Some target ∧ text = address_text target)
  ∨ (ip_address host = None ∧ ip_address text = Some target
     ∧ ∃ l, getaddrinfo host = Some l ∧ text ∈ l ∧ ∀ x, x ∈ l → ∃ a, ip_address x = Some a ∧ reachable a).

Lemma unblocked_spec x : unblocked x = true → ∃ a, ip_address x = Some a ∧ reachable a.
Proof.
  unfold unblocked. destruct (ip_address x) as [a|]; [|done]. intros H%negb_true_iff.
  exists a. split; [done|by apply unblocked_reachable].
Qed.

Lemma public_addresses_spec getaddrinfo host text : text ∈ _public_addresses getaddrinfo host →
  ∃ target, resolved_public getaddrinfo host text target ∧ reachable target.
Proof.
  unfold _public_addresses, resolved_public. destruct (String.eqb host ""); [by intros []%elem_of_nil|].
  destruct (ip_address host) as [a|] eqn:Ea.
  - destruct (_is_blocked_ip a) eqn:Eb; [by intros []%elem_of_nil|]. intros ->%list_elem_of_singleton.
    exists a. split; [by left|by apply unblocked_reachable].
  - destruct (getaddrinfo host) as [l|] eqn:El; [|by intros []%elem_of_nil].
    destruct (forallb unblocked l) eqn:Eall; [|by intros []%elem_of_nil]. rewrite forallb_forall in Eall.
    assert (Hl : ∀ x, x ∈ l → ∃ a, ip_address x = Some a ∧ reachable a)
      by (intros x Hx; apply unblocked_spec, Eall; by apply list_elem_of_In).
    intros Ht. apply (proj1 (elem_of_sorted_strings _ _)) in Ht. destruct (Hl text Ht) as (a & Ha & Hr).
    exists a. split; [right|done]. split_and!; [done|done|]. by exists l.
Qed.

(** C30. Whatever URL is stored and whatever the name service answers, sending a
    webhook makes at most one request, and only for an HTTPS URL without
    credentials.  The request carries the message and connects to an address
    of the URL's host outside every loopback, private, link-local, shared,
    unique-local and multicast range, and so is every other address the host
    resolved to. *)
Theorem webhook_reaches_only_public getaddrinfo delivered url message sent posts :
  send_webhook getaddrinfo delivered url message = (sent, posts) →
  (length posts <= 1)%nat ∧
  ∀ u text m, (u, text, m) ∈ posts → u = url ∧ m = message ∧
    ∃ parsed target, urlsplit url = Ok parsed ∧ url_scheme parsed = "https" ∧ username parsed = None ∧ password parsed = None
      ∧ resolved_public getaddrinfo (default "" (hostname parsed)) text target ∧ reachable target.
Proof.
  unfold send_webhook. destruct (validate_webhook_url url) eqn:Ev; [intros [= <- <-]; split; [simpl; lia|by intros ??? []%elem_of_nil]|].
  apply validate_webhook_inv in Ev as (parsed & Hu & Hs & Hn & Hp & _). rewrite Hu.
  destruct (_public_addresses _ _) as [|a l] eqn:Ea; intros [= <- <-]; (split; [simpl; lia|]); [by intros ??? []%elem_of_nil|].
  intros u text m [= -> -> ->]%list_elem_of_singleton. split_and!; [done..|].
  destruct (public_addresses_spec getaddrinfo (default "" (hostname parsed)) a) as (target & Hr & Ht); [rewrite Ea; left|].
  exists parsed, target. done.
Qed.

(** The webhook of every user is unset or one that passes the check. *)
Definition webhooks_safe (d : db) : Prop :=
  ∀ u url, u ∈ users d → u_webhook_url u = Some url → url = "" ∨ validate_webhook_url url = None.

Lemma update_settings_safe log_id now body u d r d' :
  webhooks_safe d → update_settings log_id now body u d = Ok (r, d') → webhooks_safe d'.
Proof.
  intros Hd. unfold update_settings. destruct (valid_settings body) as [b|]; [|done]. clear body. cbv zeta.
  intros ([] & Hc & [= _ <-])%rbind_ok. intros x url. simpl. intros (y & Hy & ->)%elem_of_update_rows Hurl.
  assert (Hbase : ∀ url, u_webhook_url y = Some url → url = "" ∨ validate_webhook_url url = None).
  { intros v. destruct (find_user _ d); [by apply Hd|]. simpl in Hy.
    apply elem_of_app in Hy as [Hy| ->%list_elem_of_singleton]; [by apply Hd|]. intros [= <-]. by left. }
  destruct (String.eqb _ _); [|by apply Hbase]. unfold apply_settings in Hurl. unfold check_settings in Hc.
  destruct (su_webhook_url b) as [v|].
  - assert (v = url) as -> by (destruct (su_notify_min_severity b); simpl in Hurl; congruence).
    destruct (String.eqb_spec url "") as [|_]; [by left|]. destruct (validate_webhook_url url); [done|by right].
  - apply Hbase. by destruct (su_notify_min_severity b).
Qed.

Module WebhookExample.
Definition resolver (name : string) : option (list string) :=
  if String.eqb name "hooks.example.com" then Some ["93.184.216.34"]
  else if String.eqb name "rebound.example.com" then Some ["93.184.216.34"; "169.254.169.254"] else None.
Definition url := "https://hooks.example.com/T1/secret".

Lemma webhook_reaches_only_public_witness :
  ∃ parsed target, urlsplit url = Ok parsed ∧ url_scheme parsed = "https"
    ∧ resolved_public resolver (default "" (hostname parsed)) "93.184.216.34" target ∧ reachable target.
Proof.
  destruct (webhook_reaches_only_public resolver (λ _, true) url "hello" true [(url, "93.184.216.34", "hello")]) as [_ H];
    [vm_compute; reflexivity|].
  destruct (H url "93.184.216.34" "hello") as (_ & _ & parsed & target & Hu & Hs & _ & _ & Hr & Ht); [left|].
  exists parsed, target. split_and!; [exact Hu|exact Hs|exact Hr|exact Ht].
Defined.

Example metadata_never_contacted : send_webhook resolver (λ _, true) "https://rebound.example.com/" "hello" = (false, []).
Proof. vm_compute. reflexivity. Qed.
Example literals_checked :
  map validate_webhook_url ["https://10.0.0.8/x"; "https://[::ffff:127.0.0.1]/x"; "https://8.8.8.8/x"; "http://8.8.8.8/x"]
  = [Some "webhook_url must not point to a private address"; Some "webhook_url must not point to a private address"; None;
     Some "webhook_url must use https"].
Proof. vm_compute. reflexivity. Qed.
End WebhookExample.
