(* ===== verification/Inventory.v ===== *)
(** * [provenance.py] and [routers/services.py]: observed services

    Nmap results posted by a runner are merged into the engagement's
    inventory: one row per host, port and protocol, tied to the asset graph
    and to the job that observed it. *)
From S2P Require Import Prelude PyStr Json Time Models Access Assets TestCases.

Definition EXPOSES := "exposes".

(** ** [provenance.py] *)

Definition require_job (program_id : string) (job_id : option string) (d : db) : result (option ScanJob) :=
  match job_id with
  | None | Some "" => Ok None
  | Some id =>
      match scan_jobs d !! id with
      | Some job => if String.eqb (j_program_id job) program_id then Ok (Some job) else http 404 "Job not found"
      | None => http 404 "Job not found"
      end
  end.

(** What an observation is of. *)
Inductive observed_kind := OfRecon | OfScan | OfService.
#[export] Instance observed_kind_eq_dec : EqDecision observed_kind.
Proof. solve_decision. Defined.

Definition link_column (kind : observed_kind) (l : JobResultLink) : option string :=
  match kind with OfRecon => rl_recon_id l | OfScan => rl_scan_id l | OfService => rl_service_id l end.
Definition links_to (job_id : string) (kind : observed_kind) (item_id : string) (l : JobResultLink) : bool :=
  String.eqb (rl_job_id l) job_id && bool_decide (link_column kind l = Some item_id).
Definition new_link (new_id job_id : string) (kind : observed_kind) (item_id : string) : JobResultLink :=
  let column k := if decide (k = kind) then Some item_id else None in
  MkJobResultLink new_id job_id (column OfRecon) (column OfScan) (column OfService).

(** [seen] holds the links the query saw.  An insertion that meets a link
    committed since violates the constraint and is swallowed. *)
Definition link_result (new_id : string) (seen : list JobResultLink) (job_id : option string) (kind : observed_kind)
    (item_id : string) (d : db) : db :=
  match job_id with
  | None | Some "" => d
  | Some job_id =>
      if existsb (links_to job_id kind item_id) seen || existsb (links_to job_id kind item_id) (job_result_links d) then d
      else set_job_result_links (job_result_links d ++ [new_link new_id job_id kind item_id]) d
  end.

(** ** [routers/services.py] *)

Record ServiceIn := MkServiceIn {
  si_host : string;
  si_port : Z;
  si_protocol : string;
  si_service_name : option string;
  si_product : option string;
  si_version : option string;
  si_state : option string;
  si_source : option string;
}.
Record ServicesBulkCreate := MkServicesBulkCreate { sb_services : list ServiceIn; sb_job_id : option string }.

(** The bounds pydantic checks. *)
Definition valid_service (s : ServiceIn) : bool :=
  let at_most n (o : option string) := len (default "" o) <=? n in
  (1 <=? len (si_host s)) && (len (si_host s) <=? 500) && (1 <=? si_port s) && (si_port s <=? 65535)
  && (String.eqb (si_protocol s) "tcp" || String.eqb (si_protocol s) "udp") && at_most 100 (si_service_name s)
  && at_most 200 (si_product s) && at_most 100 (si_version s) && at_most 20 (si_state s) && at_most 50 (si_source s).
Definition valid_services (body : ServicesBulkCreate) : bool :=
  forallb valid_service (sb_services body) && (length (sb_services body) <=? 5000)%nat
  && (len (default "" (sb_job_id body)) <=? 100).

Definition serialize_service (s : Service) : json :=
  JObj [("id", JStr (sv_id s)); ("program_id", JStr (sv_program_id s)); ("host", JStr (sv_host s)); ("port", JInt (sv_port s));
        ("protocol", JStr (sv_protocol s)); ("service_name", JStr (sv_service_name s)); ("product", JStr (sv_product s));
        ("version", JStr (sv_version s)); ("state", JStr (sv_state s)); ("source", JStr (sv_source s));
        ("created_at", JStr (isoformat (sv_created_at s)));
        ("last_scanned_at", match sv_last_scanned_at s with Some t => JStr (isoformat t) | None => JNull end)].

Definition service_order (a b : Service) : bool :=
  String.ltb (sv_host a) (sv_host b) || String.eqb (sv_host a) (sv_host b) && (sv_port a <=? sv_port b).

Definition list_services (program_id : string) (job_id : option string) (current_user : user_ctx) (d : db)
    : result (list json * Z) :=
  let? current_user := require_full_scope current_user in
  let? _ := get_engagement_or_404 program_id current_user d in
  let mine := rows (λ s, String.eqb (sv_program_id s) program_id) (services d) in
  let mine := match job_id with
              | None | Some "" => mine
              | Some job_id => rows (λ s, existsb (links_to job_id OfService (sv_id s)) (job_result_links d)) mine
              end in
  let found := sorted_by service_order mine in
  Ok (map serialize_service found, Z.of_nat (length found)).

(** The identifiers one service may draw. *)
Record service_ids := ServiceIds { id_host : string; id_node : string; id_edge : string; id_service : string; id_link : string }.

Definition source_of (s : ServiceIn) : string := or_else (si_source s) "nmap".
Definition same_service (program_id : string) (s : ServiceIn) (x : Service) : bool :=
  String.eqb (sv_program_id x) program_id && String.eqb (sv_host x) (si_host s) && (sv_port x =? si_port s)
  && String.eqb (sv_protocol x) (si_protocol s).

(** The metadata a new scan overwrites. *)
Definition rescanned (now : time) (s : ServiceIn) (x : Service) : Service :=
  sv_set_last_scanned_at (Some now) (sv_set_source (source_of s) (sv_set_state (or_else (si_state s) "open")
    (sv_set_version (or_else (si_version s) "") (sv_set_product (or_else (si_product s) "")
      (sv_set_service_name (or_else (si_service_name s) "") x))))).

Definition update_service (ids : service_ids) (now : time) (program_id : string) (s : ServiceIn) (x : Service) (d : db)
    : result (Service * db) :=
  let x' := rescanned now s x in
  let? '(x', d) :=
    match sv_asset_id x' with
    | Some _ => Ok (x', d)
    | None =>
        let? '(node, d) := upsert (id_node ids) program_id (si_host s) (source_of s) "confirmed" (Some (si_port s)) false now d in
        Ok (match node with Some n => sv_set_asset_id (Some (as_id n)) x' | None => x' end, d)
    end in
  Ok (x', set_services (update_rows (λ y, String.eqb (sv_id y) (sv_id x)) (λ _, x') (services d)) d).

Definition create_service (ids : service_ids) (now : time) (program_id github_id : string) (s : ServiceIn) (d : db)
    : result (Service * db) :=
  let? '(host_node, d) := upsert (id_host ids) program_id (si_host s) (source_of s) "confirmed" None false now d in
  let? '(service_node, d) := upsert (id_node ids) program_id (si_host s) (source_of s) "confirmed" (Some (si_port s)) false now d in
  let d := match host_node, service_node with
           | Some _, Some _ => (relate (id_edge ids) program_id host_node service_node EXPOSES (source_of s) "confirmed" now d).2
           | _, _ => d
           end in
  let x := MkService (id_service ids) program_id github_id (si_host s) (si_port s) (or_else (Some (si_protocol s)) "tcp")
             (or_else (si_service_name s) "") (or_else (si_product s) "") (or_else (si_version s) "")
             (or_else (si_state s) "open") (source_of s) now (as_id <$> service_node) (Some now) in
  Ok (x, set_services (services d ++ [x]) d).

(** One service of the batch; whether it is new. *)
Definition put_service (ids : service_ids) (now : time) (program_id github_id : string) (job_id : option string) (s : ServiceIn)
    (d : db) : result (bool * db) :=
  let? '(created, x, d) :=
    match first_row (same_service program_id s) (services d) with
    | Some x => let? '(x, d) := update_service ids now program_id s x d in Ok (false, x, d)
    | None => let? '(x, d) := create_service ids now program_id github_id s d in Ok (true, x, d)
    end in
  Ok (created, link_result (id_link ids) (job_result_links d) job_id OfService (sv_id x) d).

(** [created] and [updated]. *)
Fixpoint put_services (supply : nat → service_ids) (n : nat) (now : time) (program_id github_id : string) (job_id : option string)
    (l : list ServiceIn) (d : db) : result (nat * nat * db) :=
  match l with
  | [] => Ok (0%nat, 0%nat, d)
  | s :: l =>
      let? '(created, d) := put_service (supply n) now program_id github_id job_id s d in
      let? '(c, u, d) := put_services supply (S n) now program_id github_id job_id l d in
      Ok (if created then (S c, u, d) else (c, S u, d))
  end.

Definition bulk_create_services (supply : nat → service_ids) (log_id : string) (now : time) (program_id : string)
    (body : ServicesBulkCreate) (current_user : user_ctx) (d : db) : result (nat * nat * db) :=
  let? engagement := get_engagement_or_404 program_id current_user d in
  check? require_member_write engagement current_user d in
  let? _ := require_job program_id (sb_job_id body) d in
  let github_id := cu_github_id current_user in
  let? '(c, u, d) := put_services supply 0 now program_id github_id (sb_job_id body) (sb_services body) d in
  Ok (c, u, log_action log_id now github_id "upsert" "service" program_id (Some program_id) d).

(** The links of a deleted service go with it. *)
Definition delete_service (log_id : string) (now : time) (program_id service_id : string) (current_user : user_ctx) (d : db)
    : result (string * db) :=
  let? current_user := require_full_scope current_user in
  let? engagement := get_engagement_or_404 program_id current_user d in
  check? require_member_write engagement current_user d in
  match first_row (λ s, String.eqb (sv_id s) service_id && String.eqb (sv_program_id s) program_id) (services d) with
  | None => http 404 "Service not found"
  | Some svc =>
      let d := log_action log_id now (cu_github_id current_user) "delete" "service" service_id (Some program_id) d in
      let d := set_services (rows (λ s, negb (String.eqb (sv_id s) (sv_id svc))) (services d)) d in
      Ok ("Service deleted",
          set_job_result_links (rows (λ l, negb (bool_decide (rl_service_id l = Some (sv_id svc)))) (job_result_links d)) d)
  end.
