(* ===== verification/InventorySafety.v ===== *)
(** * What posting services guarantees

    However a batch repeats or overlaps what is stored, there is one row per
    engagement, host, port and protocol, and the asset graph and the links to
    jobs keep their constraints. *)
From S2P Require Import Prelude PyStr Json Time Models Access Assets TestCases Inventory.

Definition service_key (x : Service) : string * string * Z * string :=
  (sv_program_id x, sv_host x, sv_port x, sv_protocol x).
Definition key_in (program_id : string) (s : ServiceIn) : string * string * Z * string :=
  (program_id, si_host s, si_port s, si_protocol s).

Lemma same_service_spec p s x : same_service p s x = true ↔ service_key x = key_in p s.
Proof.
  unfold same_service, service_key, key_in. rewrite !andb_true_iff, !String.eqb_eq, Z.eqb_eq. split.
  - by intros [[[-> ->] ->] ->].
  - by intros [= -> -> -> ->].
Qed.

(** A job's observation of one item is recorded once. *)
Definition link_key (l : JobResultLink) := (rl_job_id l, rl_recon_id l, rl_scan_id l, rl_service_id l).

Record inventory_wf (d : db) : Prop := {
  iw_graph : graph_wf d;
  iw_ids : NoDup (map sv_id (services d));
  iw_keys : NoDup (map service_key (services d));
  iw_links : NoDup (map link_key (job_result_links d));
}.

(** The identifiers from the [n]-th on are unused and never repeat. *)
Record fresh_supply (supply : nat → service_ids) (n : nat) (d : db) : Prop := {
  fs_service m : (n <= m)%nat → id_service (supply m) ∉ map sv_id (services d);
  fs_host m : (n <= m)%nat → id_host (supply m) ∉ map as_id (assets d);
  fs_node m : (n <= m)%nat → id_node (supply m) ∉ map as_id (assets d);
  fs_edge m : (n <= m)%nat → id_edge (supply m) ∉ map ar_id (asset_relationships d);
  fs_apart m k : (n <= m)%nat → (n <= k)%nat → id_host (supply m) ≠ id_node (supply k);
  fs_inj m k : (n <= m < k)%nat → id_service (supply m) ≠ id_service (supply k) ∧ id_host (supply m) ≠ id_host (supply k)
    ∧ id_node (supply m) ≠ id_node (supply k) ∧ id_edge (supply m) ≠ id_edge (supply k);
}.

(** ** The graph *)

(** What an observation adds to the graph: at most one node, under its id. *)
Record graph_grows (nodes edges : list string) (d d' : db) : Prop := {
  gg_wf : graph_wf d → graph_wf d';
  gg_assets x : x ∈ map as_id (assets d') → x ∈ map as_id (assets d) ∨ x ∈ nodes;
  gg_edges x : x ∈ map ar_id (asset_relationships d') → x ∈ map ar_id (asset_relationships d) ∨ x ∈ edges;
  gg_services : services d' = services d;
  gg_links : job_result_links d' = job_result_links d;
}.

Lemma graph_grows_refl d : graph_grows [] [] d d.
Proof. split; auto. Qed.

Lemma upsert_grows new_id p o source confidence port hl now d r d' :
  new_id ∉ map as_id (assets d) → upsert new_id p o source confidence port hl now d = Ok (r, d') →
  graph_grows [new_id] [] d d'.
Proof.
  intros Hf [(_ & -> & _)|(i & _ & _ & <-)]%upsert_inv; [split; auto|].
  split; [intros Hwf; by apply upsert_identity_wf| | | |]; unfold upsert_identity; destruct (find_asset _ _ d); simpl; auto.
  - rewrite map_update_rows by done. auto.
  - rewrite map_app. intros x [Hx|Hx%list_elem_of_singleton]%elem_of_app; [by left|right; by apply list_elem_of_singleton].
Qed.

Lemma relate_grows new_id p src dst rel source confidence now d r d' :
  new_id ∉ map ar_id (asset_relationships d) → relate new_id p src dst rel source confidence now d = (r, d') →
  graph_grows [] [new_id] d d'.
Proof.
  intros Hf Hr. split; [intros Hwf; by eapply relate_wf|..]; revert Hr; unfold relate;
    destruct src, dst; try (intros [= <- <-]; by auto); destruct (String.eqb _ _); try (intros [= <- <-]; by auto);
    destruct (first_row _ _); intros [= <- <-]; simpl; auto.
  - rewrite map_update_rows by done. auto.
  - rewrite map_app. intros x [Hx|Hx%list_elem_of_singleton]%elem_of_app; [by left|right; by apply list_elem_of_singleton].
Qed.

Lemma graph_grows_trans n1 n2 e1 e2 d d1 d2 :
  graph_grows n1 e1 d d1 → graph_grows n2 e2 d1 d2 → graph_grows (n1 ++ n2) (e1 ++ e2) d d2.
Proof.
  intros [W1 A1 E1 S1 L1] [W2 A2 E2 S2 L2]. split; [auto| | |congruence|congruence]; intros x Hx; rewrite elem_of_app.
  - apply A2 in Hx as [Hx|]; [|tauto]. apply A1 in Hx. tauto.
  - apply E2 in Hx as [Hx|]; [|tauto]. apply E1 in Hx. tauto.
Qed.

(** ** Links *)

Lemma link_result_spec new_id job_id kind item d :
  let d' := link_result new_id (job_result_links d) job_id kind item d in
  services d' = services d ∧ assets d' = assets d ∧ asset_relationships d' = asset_relationships d
  ∧ (NoDup (map link_key (job_result_links d)) → NoDup (map link_key (job_result_links d')))
  ∧ (∀ l, l ∈ job_result_links d → l ∈ job_result_links d')
  ∧ ∀ j, job_id = Some j → j ≠ "" → ∃ l, l ∈ job_result_links d' ∧ links_to j kind item l = true.
Proof.
  unfold link_result. destruct job_id as [[|c j]|]; try (by split_and!; auto; naive_solver).
  rewrite orb_diag. destruct (existsb _ _) eqn:E.
  { split_and!; auto. intros ? [= <-] _. apply existsb_exists in E as (l & Hl & Hk). exists l. by rewrite list_elem_of_In. }
  simpl. split_and!; auto.
  - intros Hn. rewrite map_app. apply NoDup_snoc; [done|]. intros (l & Hl & Hin)%list_elem_of_fmap.
    rewrite <-not_true_iff_false, existsb_exists in E. apply E. exists l. rewrite <-list_elem_of_In. split; [done|].
    unfold links_to, link_column, new_link, link_key in *. simpl in Hl. injection Hl as H1 H2 H3 H4. rewrite <-H1, String.eqb_refl.
    apply bool_decide_eq_true. destruct kind; [by rewrite <-H2|by rewrite <-H3|by rewrite <-H4].
  - intros l Hl. apply elem_of_app. by left.
  - intros ? [= <-] _. eexists. split; [apply elem_of_app; right; apply list_elem_of_singleton; reflexivity|].
    unfold links_to. apply andb_true_iff.
    split; [by apply String.eqb_eq|apply bool_decide_eq_true; by destruct kind].
Qed.

(** ** One service *)

Section Put.
Context (ids : service_ids) (now : time) (p github_id : string) (job_id : option string) (s : ServiceIn) (d : db).
Hypothesis (Hwf : inventory_wf d).
Hypothesis (Hproto : si_protocol s ≠ "").
Hypothesis (Hservice : id_service ids ∉ map sv_id (services d)).
Hypothesis (Hhost : id_host ids ∉ map as_id (assets d)) (Hnode : id_node ids ∉ map as_id (assets d)).
Hypothesis (Hapart : id_host ids ≠ id_node ids) (Hedge : id_edge ids ∉ map ar_id (asset_relationships d)).

(** The row of the service after the request. *)
Definition current (x : Service) : Prop :=
  service_key x = key_in p s ∧ sv_last_scanned_at x = Some now ∧ sv_service_name x = or_else (si_service_name s) ""
  ∧ sv_product x = or_else (si_product s) "" ∧ sv_version x = or_else (si_version s) ""
  ∧ sv_state x = or_else (si_state s) "open".

Lemma update_service_spec x x' d' : first_row (same_service p s) (services d) = Some x →
  update_service ids now p s x d = Ok (x', d') →
  graph_wf d' ∧ (∀ i, i ∈ map as_id (assets d') → i ∈ map as_id (assets d) ∨ i ∈ [id_host ids; id_node ids])
  ∧ asset_relationships d' = asset_relationships d ∧ job_result_links d' = job_result_links d
  ∧ map sv_id (services d') = map sv_id (services d) ∧ map service_key (services d') = map service_key (services d)
  ∧ x' ∈ services d' ∧ current x' ∧ (∀ y, service_key y ≠ key_in p s → y ∈ services d ↔ y ∈ services d').
Proof using Hwf Hnode.
  clear Hproto Hservice Hhost Hapart Hedge. intros [Hx Hk%same_service_spec]%first_row_Some H. unfold update_service in H.
  apply rbind_ok in H as ([y d1] & Hy & [= -> <-]).
  assert (Hc : sv_id x' = sv_id x ∧ current x' ∧ graph_grows [id_node ids] [] d d1).
  { destruct (sv_asset_id (rescanned now s x)) as [a|].
    - injection Hy as <- <-. split_and!; [done|done|]. split; auto.
    - apply rbind_ok in Hy as ([node d2] & Hu & [= <- <-]). apply upsert_grows in Hu; [|done]. by destruct node. }
  destruct Hc as (Hid & Hcur & [W A E S L]). destruct Hwf as [Hg Hi Hkeys Hl].
  assert (Hrow : ∀ y, y ∈ services d → String.eqb (sv_id y) (sv_id x) = true → y = x)
    by (intros z Hz Heq%String.eqb_eq; by apply (NoDup_map_inj sv_id (services d))).
  assert (Hmap : ∀ {B} (f : Service → B), f x' = f x →
    map f (update_rows (λ y, String.eqb (sv_id y) (sv_id x)) (λ _, x') (services d1)) = map f (services d)).
  { intros B f Hf. rewrite S. unfold update_rows. rewrite map_map. apply map_ext_in. intros z Hz%list_elem_of_In.
    destruct (String.eqb _ _) eqn:Ez; [|done]. by rewrite (Hrow z Hz Ez). }
  split_and!; simpl.
  - by destruct (W Hg).
  - intros i Hin%A. set_solver.
  - destruct (sv_asset_id (rescanned now s x)) as [a|]; [by injection Hy as <- <-|].
    apply rbind_ok in Hy as ([node d2] & Hu & [= <- <-]).
    apply upsert_inv in Hu as [(_ & -> & _)|(i & _ & _ & <-)]; [done|apply upsert_identity_edges].
  - done.
  - by apply Hmap.
  - apply Hmap. destruct Hcur as [-> _]. done.
  - apply elem_of_update_rows. exists x. rewrite S, String.eqb_refl. done.
  - done.
  - intros z Hz. rewrite elem_of_update_rows, S. split.
    + intros Hin. exists z. split; [done|]. destruct (String.eqb _ _) eqn:Ez; [|done]. by rewrite (Hrow z Hin Ez) in Hz.
    + intros (w & Hw & ->). destruct (String.eqb _ _); [|done]. destruct Hcur as [Hck _]. done.
Qed.

Lemma create_service_spec x d' : first_row (same_service p s) (services d) = None →
  create_service ids now p github_id s d = Ok (x, d') →
  graph_wf d' ∧ (∀ i, i ∈ map as_id (assets d') → i ∈ map as_id (assets d) ∨ i ∈ [id_host ids; id_node ids])
  ∧ (∀ i, i ∈ map ar_id (asset_relationships d') → i ∈ map ar_id (asset_relationships d) ∨ i = id_edge ids)
  ∧ job_result_links d' = job_result_links d ∧ services d' = services d ++ [x]
  ∧ sv_id x = id_service ids ∧ current x ∧ key_in p s ∉ map service_key (services d).
Proof using Hwf Hproto Hhost Hnode Hapart Hedge.
  clear Hservice. intros Hnone H. unfold create_service in H. apply rbind_ok in H as ([h d1] & H1 & H).
  apply rbind_ok in H as ([n d2] & H2 & [= <- <-]).
  apply upsert_grows in H1 as G1; [|done].
  assert (Hnode1 : id_node ids ∉ map as_id (assets d1)) by (intros Hin%(gg_assets _ _ _ _ G1); set_solver).
  apply upsert_grows in H2 as G2; [|done]. pose proof (graph_grows_trans _ _ _ _ _ _ _ G1 G2) as G12.
  set (d3 := match h with Some _ => _ | None => _ end).
  assert (G : graph_grows [id_host ids; id_node ids] [id_edge ids] d d3).
  { assert (G0 : graph_grows [id_host ids; id_node ids] [id_edge ids] d d2).
    { destruct G12 as [W A E S L]. split; [done|done| |done|done]. intros i Hi. left. apply E in Hi. set_solver. }
    unfold d3. destruct h as [h|], n as [n|]; try exact G0.
    destruct (relate (id_edge ids) p (Some h) (Some n) EXPOSES (source_of s) "confirmed" now d2) as [r d4] eqn:Er.
    apply relate_grows in Er; [exact (graph_grows_trans _ _ _ _ _ _ _ G12 Er)|].
    intros Hin%(gg_edges _ _ _ _ G12). set_solver. }
  destruct G as [W A E S L], Hwf as [Hg _ _ _]. split_and!; simpl.
  - by destruct (W Hg).
  - done.
  - intros i Hi%E. set_solver.
  - done.
  - by rewrite S.
  - done.
  - unfold current, service_key, key_in. simpl. split_and!; try done. unfold or_else. destruct (si_protocol s); done.
  - intros (y & Hy & Hin)%list_elem_of_fmap. rewrite first_row_None in Hnone. specialize (Hnone y Hin).
    rewrite <-not_true_iff_false in Hnone. apply Hnone. by apply same_service_spec.
Qed.
End Put.

(** ** A batch *)

(** The keys are those that were there and the new ones, once each; a row of
    another key is as it was. *)
Record posted (supply : nat → service_ids) (n : nat) (now : time) (p : string) (job_id : option string) (l : list ServiceIn)
    (created updated : nat) (d d' : db) : Prop := {
  po_wf : inventory_wf d';
  po_count : (created + updated = length l)%nat;
  po_size : length (services d') = (length (services d) + created)%nat;
  po_keys k : k ∈ map service_key (services d') ↔ k ∈ map service_key (services d) ∨ ∃ s, s ∈ l ∧ key_in p s = k;
  po_others x : service_key x ∉ map (key_in p) l → x ∈ services d ↔ x ∈ services d';
  po_links x : x ∈ job_result_links d → x ∈ job_result_links d';
  po_fresh : fresh_supply supply (n + length l) d';
  po_ids i : i ∈ map sv_id (services d) → i ∈ map sv_id (services d');
}.

(** The row a service is stored in, observed by the job. *)
Definition observed_service (now : time) (p : string) (job_id : option string) (s : ServiceIn) (d : db) : Prop :=
  ∃ x, x ∈ services d ∧ service_key x = key_in p s ∧ sv_last_scanned_at x = Some now
    ∧ ∀ j, job_id = Some j → j ≠ "" → ∃ l, l ∈ job_result_links d ∧ links_to j OfService (sv_id x) l = true.

Lemma fresh_supply_weaken supply n d d' : fresh_supply supply n d →
  (∀ i, i ∈ map sv_id (services d') → i ∈ map sv_id (services d) ∨ i = id_service (supply n)) →
  (∀ i, i ∈ map as_id (assets d') → i ∈ map as_id (assets d) ∨ i ∈ [id_host (supply n); id_node (supply n)]) →
  (∀ i, i ∈ map ar_id (asset_relationships d') → i ∈ map ar_id (asset_relationships d) ∨ i = id_edge (supply n)) →
  fresh_supply supply (S n) d'.
Proof.
  intros [F1 F2 F3 F4 F5 F6] Hs Ha He. split.
  - intros m Hm [Hi|Hi]%Hs; [by apply (F1 m); [lia|]|]. destruct (F6 n m) as (H & _); [lia|]. congruence.
  - intros m Hm [Hi|Hi]%Ha; [by apply (F2 m); [lia|]|]. destruct (F6 n m) as (_ & H & _); [lia|].
    pose proof (F5 m n ltac:(lia) ltac:(lia)). set_solver.
  - intros m Hm [Hi|Hi]%Ha; [by apply (F3 m); [lia|]|]. destruct (F6 n m) as (_ & _ & H & _); [lia|].
    pose proof (F5 n m ltac:(lia) ltac:(lia)). set_solver.
  - intros m Hm [Hi|Hi]%He; [by apply (F4 m); [lia|]|]. destruct (F6 n m) as (_ & _ & _ & H); [lia|]. congruence.
  - intros m k Hm Hk. apply F5; lia.
  - intros m k Hmk. apply F6. lia.
Qed.

Lemma put_service_posted supply n now p g job_id s d created d' :
  inventory_wf d → fresh_supply supply n d → si_protocol s ≠ "" →
  put_service (supply n) now p g job_id s d = Ok (created, d') →
  posted supply n now p job_id [s] (if created then 1 else 0) (if created then 0 else 1) d d'
  ∧ observed_service now p job_id s d'
  ∧ (created = true ↔ key_in p s ∉ map service_key (services d)).
Proof.
  intros Hwf Hfresh Hproto H. unfold put_service in H. apply rbind_ok in H as ([[c x] d1] & H & [= -> <-]).
  pose proof (fs_service _ _ _ Hfresh n (le_n n)) as Fs. pose proof (fs_host _ _ _ Hfresh n (le_n n)) as Fh.
  pose proof (fs_node _ _ _ Hfresh n (le_n n)) as Fn. pose proof (fs_edge _ _ _ Hfresh n (le_n n)) as Fe.
  pose proof (fs_apart _ _ _ Hfresh n n (le_n n) (le_n n)) as Fa.
  destruct (link_result_spec (id_link (supply n)) job_id OfService (sv_id x) d1) as (Ls & La & Lr & Lk & Lg & Lj).
  set (d' := link_result _ _ _ _ _ _) in *.
  assert (Hk1 : ∀ k, key_in p s = k ↔ ∃ s', s' ∈ [s] ∧ key_in p s' = k) by (intros k; set_solver).
  destruct Hwf as [Hg Hi Hkeys Hl]. assert (Hwf : inventory_wf d) by by split.
  destruct (first_row (same_service p s) (services d)) as [y|] eqn:E.
  - apply rbind_ok in H as ([x0 d0] & Hu & [= <- -> ->]).
    destruct (update_service_spec (supply n) now p s d Hwf Fn y x d1 E Hu) as (G & A & R & L & I & K & Hin & Hcur & Hoth).
    apply first_row_Some in E as [Hy Hky%same_service_spec].
    assert (Hkin : key_in p s ∈ map service_key (services d)) by (rewrite <-Hky; by apply list_elem_of_fmap_2).
    split_and!; [split|..].
    + split; [destruct G; split; by rewrite ?La, ?Lr|by rewrite Ls, I|by rewrite Ls, K|apply Lk; by rewrite L].
    + done.
    + rewrite Ls. apply (f_equal length) in I. rewrite !length_map in I. simpl. lia.
    + intros k. rewrite Ls, K, <-Hk1. split; [by left|]. by intros [ |<-].
    + intros z Hz. rewrite Ls. apply Hoth. set_solver.
    + intros z Hz. apply Lg. by rewrite L.
    + simpl. rewrite Nat.add_1_r. eapply fresh_supply_weaken; [exact Hfresh|..].
      * intros i. rewrite Ls, I. by left.
      * intros i. rewrite La. apply A.
      * intros i. rewrite Lr, R. by left.
    + intros i. by rewrite Ls, I.
    + exists x. destruct Hcur as (Hck & Hlast & _). rewrite Ls. done.
    + split; [done|]. by intros [].
  - apply rbind_ok in H as ([x0 d0] & Hc & [= <- -> ->]).
    destruct (create_service_spec (supply n) now p g s d Hwf Hproto Fh Fn Fa Fe x d1 E Hc) as (G & A & R & L & Hs & Hid & Hcur & Hnk).
    destruct Hcur as (Hck & Hlast & _).
    split_and!; [split|..].
    + split; [destruct G; split; by rewrite ?La, ?Lr|..].
      * rewrite Ls, Hs, map_app. apply NoDup_snoc; [done|]. by rewrite Hid.
      * rewrite Ls, Hs, map_app. apply NoDup_snoc; [done|]. by rewrite Hck.
      * apply Lk. by rewrite L.
    + done.
    + rewrite Ls, Hs, length_app. done.
    + intros k. rewrite Ls, Hs, map_app, elem_of_app, <-Hk1. simpl. rewrite Hck, list_elem_of_singleton. naive_solver.
    + intros z Hz. rewrite Ls, Hs, elem_of_app, list_elem_of_singleton. split; [by left|]. intros [ |Hzx]; [done|]. subst z. set_solver.
    + intros z Hz. apply Lg. by rewrite L.
    + simpl. rewrite Nat.add_1_r. eapply fresh_supply_weaken; [exact Hfresh|..].
      * intros i. rewrite Ls, Hs, map_app, elem_of_app. simpl. rewrite list_elem_of_singleton, Hid. done.
      * intros i. rewrite La. apply A.
      * intros i. rewrite Lr. apply R.
    + intros i Hin. rewrite Ls, Hs, map_app, elem_of_app. by left.
    + exists x. rewrite Ls, Hs. split_and!; [|done|done|done]. apply elem_of_app. right. by apply list_elem_of_singleton.
    + done.
Qed.

Lemma put_services_posted supply now p g job_id l : ∀ n d c u d',
  inventory_wf d → fresh_supply supply n d → Forall (λ s, si_protocol s ≠ "") l →
  put_services supply n now p g job_id l d = Ok (c, u, d') →
  posted supply n now p job_id l c u d d' ∧ (∀ s, s ∈ l → observed_service now p job_id s d')
  ∧ ((∀ s, s ∈ l → key_in p s ∈ map service_key (services d)) → c = 0%nat).
Proof.
  induction l as [|s l IH]; intros n d c u d' Hwf Hfresh Hl H; simpl in H.
  { injection H as <- <- <-. split_and!; [|by intros ? []%elem_of_nil|done].
    split; try done; simpl; rewrite ?Nat.add_0_r; try done. intros k. set_solver. }
  apply Forall_cons in Hl as [Hs Hl]. apply rbind_ok in H as ([created d1] & H1 & H).
  apply rbind_ok in H as ([[c1 u1] d2] & H2 & H).
  destruct (put_service_posted supply n now p g job_id s d created d1 Hwf Hfresh Hs H1) as ([W C Z K O L F I] & (x & Hx & Hxk & Hxt & Hxl) & Hcr).
  simpl in F. rewrite Nat.add_1_r in F.
  destruct (IH (S n) d1 c1 u1 d2 W F Hl H2) as ([W' C' Z' K' O' L' F' I'] & Hall & Hnone).
  assert (Hcu : c = ((if created then 1 else 0) + c1)%nat ∧ (c + u = S (length l))%nat ∧ d' = d2).
  { destruct created; injection H as <- <- <-; simpl; (split_and!; [lia|lia|done]). }
  destruct Hcu as (Hc & Hcu & ->). split_and!.
  - split; try done.
    + rewrite Z', Z, Hc. lia.
    + intros k. rewrite K', K. split; [set_solver|]. intros [Hk|(s' & [->|Hs']%elem_of_cons & Hk)]; [tauto|left; right; set_solver|right; eauto].
    + intros z Hz. rewrite O by set_solver. apply O'. set_solver.
    + intros z Hz. by apply L', L.
    + simpl. by rewrite Nat.add_succ_r.
    + intros i Hi. by apply I', I.
  - intros s' [->|Hs']%elem_of_cons; [|by apply Hall].
    destruct (decide (key_in p s ∈ map (key_in p) l)) as [(s' & Hk & Hs')%list_elem_of_fmap|Hnot].
    + destruct (Hall s' Hs') as (y & Hy & Hyk & Hyt & Hyl). exists y. by rewrite Hk.
    + exists x. split_and!; [apply O'; [by rewrite Hxk|done]|done|done|].
      intros j Hj Hne. destruct (Hxl j Hj Hne) as (lk & Hlk & Hto). exists lk. split; [by apply L'|done].
  - intros Hin. rewrite Hc, Hnone.
    + destruct created; [|done]. destruct (proj1 Hcr eq_refl). apply Hin. left.
    + intros s' Hs'. apply K. left. apply Hin. by right.
Qed.


(** ** A small inventory *)

Module InventoryExample.
Fixpoint strokes (n : nat) : string := match n with O => "" | S n => "i" +:+ strokes n end.
Definition supply (n : nat) : service_ids :=
  ServiceIds ("h" +:+ strokes n) ("n" +:+ strokes n) ("e" +:+ strokes n) ("s" +:+ strokes n) ("l" +:+ strokes n).
Definition service (host : string) (port : Z) (product : string) : ServiceIn :=
  MkServiceIn host port "tcp" None (Some product) None None None.
Definition d : db := set_engagement demo_engagement empty_db.
Definition user : user_ctx := UserCtx "alice" "alice" "" "full" None.
Definition body : ServicesBulkCreate :=
  MkServicesBulkCreate [service "api.acme.com" 443 "nginx"; service "api.acme.com" 22 "ssh"; service "api.acme.com" 443 "envoy"] None.

Definition posting : result (nat * nat * db) := Eval vm_compute in bulk_create_services supply "log" 5 "eng-1" body user d.
Definition d' : db := match posting with Ok (_, _, d') => d' | Raise _ => d end.
Lemma posted_it : bulk_create_services supply "log" 5 "eng-1" body user d = Ok (2%nat, 1%nat, d').
Proof. vm_compute. reflexivity. Qed.

Lemma d_wf : inventory_wf d.
Proof. split; [split|..]; simpl; try constructor. set_solver. Qed.

Lemma strokes_inj m k : strokes m = strokes k → m = k.
Proof.
  revert k. induction m as [|m IH]; intros [|k]; simpl; try done. intros [= H]. f_equal. by apply IH.
Qed.

Lemma d_fresh : fresh_supply supply 0 d.
Proof.
  split; try (intros; simpl; set_solver).
  intros m k Hmk. simpl. split_and!; intros [= H%strokes_inj]; lia.
Qed.

End InventoryExample.
