(* ===== verification/Parsers.v ===== *)
(** * [parsers.py]: the output of scanners

    One JSON document or one per line, in the shapes the tools write, reduced
    to rows of the recon and scan tables.  A row keeps the numbers as the tool
    gave them; the database makes integers of them when it is stored. *)
From S2P Require Import Prelude PyStr Regex Json Digest JsonText Time Models JobConfig Url TestCases Scope CaseAuthoring.
From Stdlib Require Import Ascii.

(** ** Text *)

Definition line_end (c : ascii) : bool := in_range 10 13 c || in_range 28 30 c || (code c =? 133).

(** [str.splitlines()], a carriage return and a line feed being one end. *)
Fixpoint lines_from (line : string → string) (open : bool) (s : string) : list string :=
  match s with
  | EmptyString => if open then [line ""] else []
  | String c s =>
      if line_end c then
        line "" :: match s with
                   | String d s' => if (code c =? 13) && (code d =? 10) then lines_from id false s' else lines_from id false s
                   | EmptyString => []
                   end
      else lines_from (λ rest, line (String c rest)) true s
  end.
Definition splitlines (s : string) : list string := lines_from id false s.

Example splitlines_ends : splitlines ("a" +:+ String (chr 13) (String (chr 10) ("" +:+ String (chr 10) "b"))) = ["a"; ""; "b"].
Proof. reflexivity. Qed.

(** [text.replace(old, new)] for a nonempty [old]. *)
Fixpoint replace_fuel (n : nat) (old new s : string) : string :=
  match n with
  | O => s
  | S n => match cut old s with
           | (a, Some b) => a +:+ new +:+ replace_fuel n old new b
           | (a, None) => a
           end
  end.
Definition replace (old new s : string) : string := replace_fuel (S (String.length s)) old new s.

(** ** Documents *)

(** What [json.loads] of the whole text and of its lines may need beyond the
    model: the float of a literal, what becomes of a text with characters above
    U+00FF, and the parser's message. *)
Section Documents.
Context (float_of : string → option pyfloat) (outside : string → result json) (msg : string → string).

Abbreviation loads := (json_loads false float_of).

Fixpoint load_lines (lines : list string) : loaded (list json) :=
  match lines with
  | [] => Loaded []
  | line :: lines => lbind (loads line) (λ j, lbind (load_lines lines) (λ js, Loaded (j :: js)))
  end.

Definition parse_json_or_jsonl (decoded : string) : result json :=
  let text := strip decoded in
  if String.eqb text "" then http 400 "Uploaded file is empty"
  else
    let whole := match loads text with
                 | Loaded j => Ok j
                 | Malformed => http 400 ("Invalid JSON/JSONL: " +:+ msg text)
                 | TooLong => Raise ValueError
                 | Outside => outside text
                 end in
    if contains (str1 (chr 10)) text then
      match rows (λ l, negb (String.eqb l "")) (map strip (splitlines text)) with
      | [] => http 400 "Uploaded file is empty"
      | lines =>
          match load_lines lines with
          | Loaded l => Ok (JList l)
          | Malformed => whole
          | TooLong => Raise ValueError
          | Outside => outside text
          end
      end
    else whole.
End Documents.

Definition _RESULT_KEYS : list string := ["results"; "findings"].

Definition dicts (l : list json) : list dict := omap (λ j, match j with JObj d => Some d | _ => None end) l.

Definition normalize_to_list (parsed : json) : result (list dict) :=
  match parsed with
  | JList l => Ok (dicts l)
  | JObj d =>
      Ok match omap (λ k, match dget k d with JList l => Some l | _ => None end) _RESULT_KEYS with
         | l :: _ => dicts l
         | [] => [d]
         end
  | _ => http 400 "Unsupported JSON structure"
  end.

(** ** Fields *)

Definition _URL_FIELD_MAX : nat := 8192.
Definition _PAYLOAD_MAX : nat := 2000.
Definition _EVIDENCE_MAX : nat := 2000.
Definition _URL_MAX : nat := 2000.

(** Control characters but the tab, the line feed and the carriage return. *)
Definition _CONTROL (c : ascii) : bool := in_range 0 8 c || in_range 11 12 c || in_range 14 31 c || (code c =? 127).

Definition _plain (value : json) (limit : nat) : string :=
  let text := match value with JNull => "" | v => py_str v end in
  take_string limit (filter_string (λ c, negb (_CONTROL c)) text).

Fixpoint encode_angles (s : string) : string :=
  match s with
  | EmptyString => EmptyString
  | String c s =>
      if Ascii.eqb c "<" then "%3C" +:+ encode_angles s
      else if Ascii.eqb c ">" then "%3E" +:+ encode_angles s else String c (encode_angles s)
  end.
Definition _url_field (value : json) : string := encode_angles (strip (_plain value _URL_FIELD_MAX)).

(** [a or b] *)
Definition json_or (a b : json) : json := if truthy a then a else b.
(** [v if isinstance(v, dict) else {}] *)
Definition dict_or (v : json) : dict := match v with JObj d => d | _ => [] end.
(** [str(v or "")] *)
Definition text_of (v : json) : string := str_or_empty v.

Definition _http_url (value : json) : string :=
  let text := strip (_plain value _URL_MAX) in
  match urlsplit text with
  | Ok parts => if mem (lower (url_scheme parts)) ["http"; "https"] && negb (absent (hostname parts)) then text else ""
  | Raise _ => ""
  end.

(** The URL, its host and its path. *)
Definition _web_url (raw : json) : option (string * string * string) :=
  match raw with
  | JStr s =>
      if String.eqb (strip s) "" then None
      else
        let url := strip s in
        match urlsplit url with
        | Ok parts =>
            if negb (mem (lower (url_scheme parts)) ["http"; "https"]) || absent (hostname parts) then None
            else Some (url, default "" (hostname parts), if String.eqb (url_path parts) "" then "/" else url_path parts)
        | Raise _ => None
        end
  | _ => None
  end.

Definition _as_int (value : json) : json := match value with JInt _ => value | _ => JNull end.

(** ** Rows as parsed *)

Record ParsedRecon := MkParsedRecon {
  pr_source : string;
  pr_url : option string;
  pr_path : option string;
  pr_host : option string;
  pr_title : option string;
  pr_status_code : json;
  pr_webserver : option string;
  pr_port : option string;
  pr_tech : option string;
  pr_content_type : option string;
  pr_length : json;
  pr_words : json;
  pr_lines : json;
}.
Record ParsedScan := MkParsedScan {
  ps_source : string;
  ps_template_id : string;
  ps_title : string;
  ps_severity : string;
  ps_asset : string;
  ps_matched_at : string;
  ps_type : string;
  ps_description : string;
  ps_cwe : string;
  ps_cvss : string;
  ps_detection_method : string;
  ps_payload : string;
  ps_match_evidence : string;
  ps_confidence : string;
}.

Section Rows.
(** [security.strip_html] of text. *)
Context (strip_html : string → string).

(** [strip_html(v)]: what is not text has no [replace]. *)
Definition stripped (v : json) : result string :=
  if truthy v then match v with JStr s => Ok (strip_html s) | _ => Raise AttributeError end else Ok "".

Definition parse_ffuf_item (item : dict) : result ParsedRecon :=
  let input := dget_or "input" item (JObj []) in
  let? url := if truthy (dget "url" item) then Ok (dget "url" item)
              else let? fuzz := json_get "FUZZ" input in Ok (json_or fuzz (JStr "")) in
  let? fuzz := match input with JObj i => Ok (dget_or "FUZZ" i (JStr "")) | _ => Raise AttributeError end in
  let? content_type := stripped (json_or (dget "content-type" item) (dget "content_type" item)) in
  Ok (MkParsedRecon "ffuf" (Some (_url_field url)) (Some (_url_field fuzz)) None None (dget "status" item) None None None
        (Some content_type) (dget "length" item) (dget "words" item) (dget "lines" item)).
Definition parse_ffuf : list dict → result (list ParsedRecon) := map_result parse_ffuf_item.

Definition parse_httpx_item (item : dict) : result ParsedRecon :=
  let tech := json_or (dget "tech" item) (json_or (dget "technologies" item) (JList [])) in
  let tech_str := match tech with JList l => join "," (map py_str l) | v => text_of v end in
  let? title := stripped (dget "title" item) in
  let? webserver := stripped (dget "webserver" item) in
  let? content_type := stripped (json_or (dget "content-type" item) (dget "content_type" item)) in
  Ok (MkParsedRecon "httpx" (Some (_url_field (dget "url" item))) None (Some (_url_field (dget "host" item))) (Some title)
        (json_or (dget "status-code" item) (dget "status_code" item)) (Some webserver) (Some (text_of (dget "port" item)))
        (Some (strip_html tech_str)) (Some content_type) JNull JNull JNull).
Definition parse_httpx : list dict → result (list ParsedRecon) := map_result parse_httpx_item.

(** [",".join(l)] *)
Definition join_strings (l : list json) : result string :=
  let? l := map_result (λ v, match v with JStr s => Ok s | _ => Raise TypeError end) l in Ok (join "," l).

Definition parse_nuclei_item (item : dict) : result ParsedScan :=
  let info := dict_or (dget "info" item) in
  let classification := dict_or (dget "classification" info) in
  let? template_id := stripped (json_or (dget "template-id" item) (dget "templateID" item)) in
  let? title := stripped (json_or (json_or (dget "name" info) (dget "matcher-name" item)) (JStr "Untitled Finding")) in
  let? severity := stripped (json_or (dget "severity" info) (JStr "info")) in
  let? type := stripped (dget "type" item) in
  let? description := stripped (dget "description" info) in
  let? cwe := match dget "cwe-id" classification with JList l => join_strings l | v => Ok (text_of v) end in
  Ok (MkParsedScan "nuclei" template_id title severity
        (_url_field (json_or (dget "matched-at" item) (dget "host" item))) (_url_field (dget "matched-at" item)) type description
        (strip_html cwe) (strip_html (text_of (dget "cvss-score" classification))) "" "" "" "").
Definition parse_nuclei : list dict → result (list ParsedScan) := map_result parse_nuclei_item.

Definition _DALFOX_TIERS : list (string * string) :=
  [("V", "vulnerable"); ("R", "reflected"); ("A", "ast"); ("I", "informational")].
Definition _DALFOX_DETECTION : list string := ["reflection"; "dom-verification"; "ast"; "oob"; "library"].
Definition _DALFOX_CONFIDENCE : list string := ["high"; "low"].

Definition nonempty (l : list string) : list string := rows (λ s, negb (String.eqb s "")) l.
Definition one_of (s : string) (l : list string) (otherwise : string) : string := if mem s l then s else otherwise.
Definition word_of (v : json) : string := lower (strip (text_of v)).

Definition parse_dalfox_item (item : dict) : ParsedScan :=
  let url := _http_url (dget "data" item) in
  let tier := default "" (lookup_key (upper (strip (text_of (dget "type" item)))) _DALFOX_TIERS) in
  let param := _plain (dget "param" item) 200 in
  let inject := _plain (dget "inject_type" item) 100 in
  let payload := _plain (dget "payload" item) _PAYLOAD_MAX in
  let title := if String.eqb param "" then "XSS candidate" else "XSS in parameter '" +:+ param +:+ "'" in
  let title := if String.eqb inject "" then title else title +:+ " (" +:+ inject +:+ ")" in
  let message := text_of (dget "message_str" item) in
  let message := if String.eqb payload "" then message else replace (py_str (dget "payload" item)) "[payload]" message in
  let description := join " " (nonempty [strip_html (text_of (dget "type_description" item)); strip_html message;
                                         strip_html (text_of (dget "confidence_reason" item))]) in
  MkParsedScan "dalfox" (take_string 200 (join ":" (nonempty [inject; param]))) (take_string 200 (strip_html title))
    (one_of (word_of (dget "severity" item)) _SEVERITIES "info") url url tier description
    (strip_html (text_of (dget "cwe" item))) "" (one_of (word_of (dget "detection_method" item)) _DALFOX_DETECTION "") payload
    (_plain (dget "evidence" item) _EVIDENCE_MAX) (one_of (word_of (dget "confidence" item)) _DALFOX_CONFIDENCE "").
Definition parse_dalfox (items : list dict) : list ParsedScan := map parse_dalfox_item items.

Definition recon_at (source : string) (web : string * string * string) (status length : json) (content_type : option string)
    : ParsedRecon :=
  let '(url, host, path) := web in
  MkParsedRecon source (Some (_url_field (JStr url))) (Some (_url_field (JStr path))) (Some (_url_field (JStr host))) None status
    None None None content_type length JNull JNull.

Definition parse_katana_item (item : dict) : option ParsedRecon :=
  let request := dict_or (dget "request" item) in
  let response := dict_or (dget "response" item) in
  match _web_url (json_or (dget "url" item) (dget "endpoint" request)) with
  | None => None
  | Some web =>
      let content_type := match dget "content_type" item with
                          | JNull => default (JStr "")
                              (snd <$> first_row (λ kv, String.eqb (lower kv.1) "content-type") (dict_or (dget "headers" response)))
                          | v => v
                          end in
      Some (recon_at "katana" web (_as_int (dget_or "status_code" item (dget "status_code" response)))
              (_as_int (dget_or "content_length" item (dget "content_length" response)))
              (Some (take_string 200 (strip_html (text_of content_type)))))
  end.
Definition parse_katana (items : list dict) : list ParsedRecon := omap parse_katana_item items.

Definition parse_gau_item (item : dict) : option ParsedRecon :=
  (λ web, recon_at "gau" web JNull JNull None) <$> _web_url (dget "url" item).
Definition parse_gau (items : list dict) : list ParsedRecon := omap parse_gau_item items.
End Rows.
