(* ===== verification/Imports.v ===== *)
(** * [routers/imports.py]: tool output files

    A file of scanner results becomes rows of the engagement: recon rows not
    yet known, httpx rows that enrich the host they are about, nuclei matches,
    and dalfox matches not yet known; each linked to its asset and to the job
    that observed it. *)
From S2P Require Import Prelude PyStr Json Digest JsonText Time Models Access Assets JobConfig Url TestCases Scope Parsers Inventory Notifications.
From Stdlib Require Import Ascii.

Definition ALLOWED_EXTENSIONS : list string := [".json"; ".jsonl"].
Definition ALLOWED_CONTENT_TYPES : list string :=
  ["application/json"; "application/x-ndjson"; "application/octet-stream"; "text/plain"].

Inductive tool := Ffuf | Httpx | Nuclei | Katana | Gau | Dalfox.
Definition tool_name (t : tool) : string :=
  match t with Ffuf => "ffuf" | Httpx => "httpx" | Nuclei => "nuclei" | Katana => "katana" | Gau => "gau" | Dalfox => "dalfox" end.

(** The upload: its size in bytes, and its text as decoded with replacement. *)
Record UploadFile := MkUploadFile {
  uf_filename : option string;
  uf_content_type : option string;
  uf_size : Z;
  uf_text : string;
}.

(** The identifiers an import draws. *)
Record import_ids := ImportIds {
  im_row : nat → string;
  im_asset : nat → string;
  im_link : nat → string;
  im_record : string;
  im_log : string;
}.

(** ** Files *)

(** [Path(name).suffix.lower()] *)
Fixpoint rfind_dot (s : string) : option nat :=
  match s with
  | EmptyString => None
  | String c s => match rfind_dot s with
                  | Some n => Some (S n)
                  | None => if Ascii.eqb c "." then Some 0%nat else None
                  end
  end.
Definition path_name (path : string) : string :=
  List.last (rows (λ p, negb (String.eqb p "" || String.eqb p ".")) (split_char "/" path)) "".
Definition suffix (path : string) : string :=
  let name := path_name path in
  match rfind_dot name with
  | Some i => if (0 <? i)%nat && (i <? String.length name - 1)%nat then lower (drop_string i name) else ""
  | None => ""
  end.

Example suffixes : map suffix ["out.JSONL"; "a/b.tar.json"; ".json"; "x."; "d.json/."] = [".jsonl"; ".json"; ""; ""; ".json"].
Proof. reflexivity. Qed.

(** [host or ""] of a column. *)
Definition or_blank (o : option string) : string := or_else o "".
Definition filled (o : option string) : bool := negb (String.eqb (or_blank o) "").

(** [_host_of]: the host of a URL or a bare host name. *)
Definition _host_of (value : option string) : string :=
  let s := lower (strip (or_blank value)) in
  if String.eqb s "" then ""
  else
    let s := default s (after "://" s) in
    let s := before "/" s in
    let s := List.last (split_char "@" s) "" in
    if startswith s "[" then before "]" s +:+ "]" else before ":" s.

Section Imports.
Context (strip_html : string → string).
Context (float_of : string → option pyfloat) (outside : string → result json) (msg : string → string).
(** The integer the database makes of a number as parsed. *)
Context (int_column : json → result (option Z)).
(** The limit read from the environment. *)
Context (MAX_UPLOAD_BYTES : Z).

(** ** Recon rows *)

Definition stored_recon (new_id : string) (now : time) (program_id : string) (job_id : option string) (r : ParsedRecon)
    : result ReconItem :=
  let? status := int_column (pr_status_code r) in
  let? length := int_column (pr_length r) in
  let? words := int_column (pr_words r) in
  let? lines := int_column (pr_lines r) in
  let text o := Some (default "" o) in
  Ok (MkReconItem new_id program_id (Some (pr_source r)) (text (pr_url r)) (text (pr_path r)) (text (pr_host r)) (text (pr_title r))
        status (text (pr_webserver r)) (text (pr_port r)) (text (pr_tech r)) (text (pr_content_type r)) length words lines (Some "")
        None (Some now) job_id (Some now)).

(** [row.url or row.host or ""] *)
Definition observed_at (row : ReconItem) : string :=
  if filled (ri_url row) then or_blank (ri_url row) else or_blank (ri_host row).

Definition put_recon (row : ReconItem) (d : db) : db :=
  set_recon_items (update_rows (λ r, String.eqb (ri_id r) (ri_id row)) (λ _, row) (recon_items d)) d.

(** [row.asset_id = asset.id] when the observation is of an asset. *)
Definition link_recon (asset_id program_id source : string) (now : time) (row : ReconItem) (d : db) : result db :=
  let? '(asset, d) := upsert asset_id program_id (observed_at row) source "confirmed" None true now d in
  Ok (match asset with Some a => put_recon (ri_set_asset_id (Some (as_id a)) row) d | None => d end).

Fixpoint link_recons (supply : nat → string) (n : nat) (program_id source : string) (now : time) (l : list ReconItem) (d : db)
    : result db :=
  match l with
  | [] => Ok d
  | row :: l => let? d := link_recon (supply n) program_id source now row d in link_recons supply (S n) program_id source now l d
  end.

(** Whether a row is a new observation, by its URL or else its host. *)
Fixpoint new_recon (urls hosts : list string) (l : list ParsedRecon) : list ParsedRecon :=
  match l with
  | [] => []
  | r :: l =>
      let url := or_blank (pr_url r) in
      let host := or_blank (pr_host r) in
      if negb (String.eqb url "") then
        if mem url urls then new_recon urls hosts l else r :: new_recon (url :: urls) hosts l
      else if negb (String.eqb host "") then
        if mem host hosts then new_recon urls hosts l else r :: new_recon urls (host :: hosts) l
      else r :: new_recon urls hosts l
  end.

Definition known_recon (program_id source : string) (d : db) : list ReconItem :=
  rows (λ r, String.eqb (ri_program_id r) program_id && bool_decide (ri_source r = Some source)) (recon_items d).

(** The URLs stored, and the hosts stored without a URL. *)
Definition _dedup_recon (incoming : list ParsedRecon) (program_id source : string) (d : db) : list ParsedRecon :=
  let known := known_recon program_id source d in
  new_recon (omap ri_url known) (omap ri_host (rows (λ r, bool_decide (ri_url r = None)) known)) incoming.

Fixpoint link_all (supply : nat → string) (n : nat) (job_id : option string) (kind : observed_kind) (ids : list string) (d : db) : db :=
  match ids with
  | [] => d
  | id :: ids => link_all supply (S n) job_id kind ids (link_result (supply n) (job_result_links d) job_id kind id d)
  end.

(** Rows of URL tools: what is known is not stored again. *)
Definition import_urls (ids : import_ids) (now : time) (program_id : string) (t : tool) (job_id : option string)
    (recon_items_ : list ParsedRecon) (d : db) : result (nat * db) :=
  let new_items := _dedup_recon recon_items_ program_id (tool_name t) d in
  let? new_rows := map_result (λ '(n, r), stored_recon (im_row ids n) now program_id job_id r) (imap pair new_items) in
  let d := set_recon_items (recon_items d ++ new_rows) d in
  let? d := link_recons (im_asset ids) 0 program_id (tool_name t) now new_rows d in
  let urls := rows (λ u, negb (String.eqb u "")) (map (λ r, or_blank (pr_url r)) recon_items_) in
  let seen := rows (λ r, match ri_url r with Some u => mem u urls | None => false end) (known_recon program_id (tool_name t) d) in
  let d := link_all (im_link ids) 0 job_id OfRecon (map ri_id seen) d in
  Ok (length new_items, d).

(** ** httpx *)

(** [if value: setattr(target, field, value)] *)
Definition enrich (set : option string → ReconItem → ReconItem) (value : option string) (row : ReconItem) : ReconItem :=
  if filled value then set value row else row.

Definition enriched (item : ParsedRecon) (target : ReconItem) : result ReconItem :=
  let target := enrich ri_set_url (pr_url item) target in
  let target := enrich ri_set_host (pr_host item) target in
  let target := enrich ri_set_title (pr_title item) target in
  let target := enrich ri_set_webserver (pr_webserver item) target in
  let target := enrich ri_set_port (pr_port item) target in
  let target := enrich ri_set_tech (pr_tech item) target in
  let target := enrich ri_set_content_type (pr_content_type item) target in
  match pr_status_code item with
  | JNull => Ok target
  | code => let? status := int_column code in Ok (ri_set_status_code status target)
  end.

(** [_link_one]: a row that is linked stays as it is. *)
Definition _link_one (asset_id program_id source : string) (now : time) (row : ReconItem) (d : db) : result db :=
  if filled (ri_asset_id row) then Ok d else link_recon asset_id program_id source now row d.

Definition host_of_row (row : ReconItem) : string := _host_of (Some (if filled (ri_host row) then or_blank (ri_host row) else or_blank (ri_url row))).
Definition host_of_item (item : ParsedRecon) : string :=
  _host_of (Some (if filled (pr_host item) then or_blank (pr_host item) else or_blank (pr_url item))).

(** [by_host]: the first row of each host. *)
Definition hosts_known (program_id : string) (d : db) : list (string * string) :=
  omap (λ r, let h := host_of_row r in if String.eqb h "" then None else Some (h, ri_id r)) (known_recon program_id "httpx" d).

Definition find_recon (id : string) (d : db) : option ReconItem := first_row (λ r, String.eqb (ri_id r) id) (recon_items d).

(** The loop over the incoming rows: the map of hosts, how many are new, how
    many enrich a row, and the row each became when it was stored. *)
Fixpoint put_hosts (ids : import_ids) (n : nat) (now : time) (program_id : string) (job_id : option string)
    (by_host : list (string * string)) (l : list ParsedRecon) (d : db) : result (nat * nat * list (ParsedRecon * option string) * db) :=
  match l with
  | [] => Ok (0%nat, 0%nat, [], d)
  | item :: l =>
      let host := host_of_item item in
      let target := if String.eqb host "" then None else id ← lookup_key host by_host; find_recon id d in
      match target with
      | Some target =>
          let? row := enriched item target in
          let d := put_recon row d in
          let? d := _link_one (im_asset ids n) program_id "httpx" now row d in
          let d := link_result (im_link ids n) (job_result_links d) job_id OfRecon (ri_id row) d in
          let? '(c, u, kept, d) := put_hosts ids (S n) now program_id job_id by_host l d in
          Ok (c, S u, (item, None) :: kept, d)
      | None =>
          let? row := stored_recon (im_row ids n) now program_id job_id item in
          let d := set_recon_items (recon_items d ++ [row]) d in
          let by_host := if String.eqb host "" then by_host else (host, ri_id row) :: by_host in
          let d := link_result (im_link ids n) (job_result_links d) job_id OfRecon (ri_id row) d in
          let? '(c, u, kept, d) := put_hosts ids (S n) now program_id job_id by_host l d in
          Ok (S c, u, (item, Some (ri_id row)) :: kept, d)
      end
  end.

(** [_link_one(db, program_id, item, "httpx")] once more for each incoming
    item: the row it is stored as, or an object that is not stored. *)
Fixpoint link_hosts (supply : nat → string) (n : nat) (now : time) (program_id : string) (l : list (ParsedRecon * option string))
    (d : db) : result db :=
  match l with
  | [] => Ok d
  | (item, stored) :: l =>
      let? d := match stored with
                | Some id => match find_recon id d with
                             | Some row => _link_one (supply n) program_id "httpx" now row d
                             | None => Ok d
                             end
                | None =>
                    let observed := if filled (pr_url item) then or_blank (pr_url item) else or_blank (pr_host item) in
                    let? '(_, d) := upsert (supply n) program_id observed "httpx" "confirmed" None true now d in Ok d
                end in
      link_hosts supply (S n) now program_id l d
  end.

Definition _upsert_recon_httpx (ids : import_ids) (now : time) (program_id : string) (job_id : option string)
    (incoming : list ParsedRecon) (d : db) : result (nat * nat * db) :=
  let? '(c, u, kept, d) := put_hosts ids 0 now program_id job_id (hosts_known program_id d) incoming d in
  let? d := link_hosts (im_asset ids) (length incoming) now program_id kept d in
  Ok (c, u, d).

(** ** Scanner matches *)

Definition stored_scan (new_id : string) (now : time) (program_id : string) (job_id : option string) (s : ParsedScan) : ScanItem :=
  MkScanItem new_id program_id (ps_source s) (ps_template_id s) (ps_title s) (ps_severity s) (ps_asset s) (ps_matched_at s)
    (ps_type s) (ps_description s) "new" (ps_cwe s) (ps_cvss s) (ps_detection_method s) (ps_payload s) (ps_match_evidence s)
    (ps_confidence s) None job_id (Some now).

(** [_dalfox_key]: where it is and how it injects, without the query. *)
Definition url_base (matched_at : string) : string :=
  if String.eqb matched_at "" then ""
  else match urlsplit matched_at with
       | Ok parts => url_scheme parts +:+ "://" +:+ url_netloc parts +:+ url_path parts
       | Raise _ => matched_at
       end.
Definition _dalfox_key (s : ScanItem) : string * string * string := (url_base (sc_matched_at s), sc_template_id s, sc_type s).

Fixpoint split_seen (seen : list ScanItem) (l : list ScanItem) : list ScanItem * list ScanItem :=
  match l with
  | [] => ([], [])
  | s :: l =>
      match first_row (λ x, bool_decide (_dalfox_key x = _dalfox_key s)) seen with
      | None => let '(news, dups) := split_seen (s :: seen) l in (s :: news, dups)
      | Some existing => let '(news, dups) := split_seen seen l in (news, existing :: dups)
      end
  end.

(** A later stored row of a key takes the place of an earlier one. *)
Definition _dedup_scan_items (incoming : list ScanItem) (program_id source : string) (d : db) : list ScanItem * list ScanItem :=
  split_seen (rev (rows (λ s, String.eqb (sc_program_id s) program_id && String.eqb (sc_source s) source) (scan_items d))) incoming.

Definition link_scan (asset_id program_id source : string) (now : time) (row : ScanItem) (d : db) : result db :=
  let? '(asset, d) := upsert asset_id program_id (sc_asset row) source "confirmed" None true now d in
  Ok (match asset with
      | Some a => set_scan_items (update_rows (λ s, String.eqb (sc_id s) (sc_id row)) (sc_set_asset_id (Some (as_id a))) (scan_items d)) d
      | None => d
      end).

Fixpoint link_scans (supply : nat → string) (n : nat) (program_id source : string) (now : time) (l : list ScanItem) (d : db) : result db :=
  match l with
  | [] => Ok d
  | row :: l => let? d := link_scan (supply n) program_id source now row d in link_scans supply (S n) program_id source now l d
  end.

Definition add_scans (ids : import_ids) (now : time) (program_id source : string) (job_id : option string)
    (new_items linked : list ScanItem) (d : db) : result db :=
  let d := set_scan_items (scan_items d ++ new_items) d in
  let? d := link_scans (im_asset ids) 0 program_id source now new_items d in
  Ok (link_all (im_link ids) 0 job_id OfScan (map sc_id linked) d).

Definition import_dalfox (ids : import_ids) (now : time) (program_id : string) (job_id : option string) (l : list ParsedScan) (d : db)
    : result (list ScanItem * db) :=
  let incoming := imap (λ n s, stored_scan (im_row ids n) now program_id job_id s) l in
  let '(new_items, duplicates) := _dedup_scan_items incoming program_id "dalfox" d in
  let? d := add_scans ids now program_id "dalfox" job_id new_items (new_items ++ duplicates) d in
  Ok (new_items, d).

Definition import_nuclei (ids : import_ids) (now : time) (program_id : string) (job_id : option string) (l : list ParsedScan) (d : db)
    : result (list ScanItem * db) :=
  let scan_items_ := imap (λ n s, stored_scan (im_row ids n) now program_id job_id s) l in
  let? d := add_scans ids now program_id "nuclei" job_id scan_items_ scan_items_ d in
  Ok (scan_items_, d).

(** ** The endpoint *)

(** Imported, new and updated; and the matches a webhook may tell of. *)
Record Imported := MkImported { ip_count : nat; ip_new : nat; ip_updated : nat; ip_matches : list ScanItem }.

Definition import_items (ids : import_ids) (now : time) (program_id : string) (t : tool) (job_id : option string) (items : list dict)
    (d : db) : result (Imported * db) :=
  let urls (l : list ParsedRecon) :=
    let? '(n, d) := import_urls ids now program_id t job_id l d in Ok (MkImported n n 0 [], d) in
  match t with
  | Ffuf => let? l := parse_ffuf strip_html items in urls l
  | Katana => urls (parse_katana strip_html items)
  | Gau => urls (parse_gau items)
  | Httpx =>
      let? l := parse_httpx strip_html items in
      let? '(c, u, d) := _upsert_recon_httpx ids now program_id job_id l d in
      Ok (MkImported (c + u) c u [], d)
  | Dalfox =>
      let? '(l, d) := import_dalfox ids now program_id job_id (parse_dalfox strip_html items) d in
      Ok (MkImported (length l) (length l) 0 l, d)
  | Nuclei =>
      let? parsed := parse_nuclei strip_html items in
      let? '(l, d) := import_nuclei ids now program_id job_id parsed d in
      Ok (MkImported (length l) 0 0 l, d)
  end.

Definition check_file (file : UploadFile) : result unit :=
  check? guard (mem (suffix (or_blank (uf_filename file))) ALLOWED_EXTENSIONS) 400 "Only .json and .jsonl files are allowed" in
  check? guard (match uf_content_type file with Some t => mem t ALLOWED_CONTENT_TYPES | None => false end) 400 "Unsupported file type" in
  guard (uf_size file <=? MAX_UPLOAD_BYTES) 413 "File too large".

(** Everything up to the commit. *)
Definition import_file (ids : import_ids) (now : time) (program_id : string) (t : tool) (file : UploadFile) (job_id : option string)
    (current_user : user_ctx) (d : db) : result (Imported * db) :=
  let? engagement := get_engagement_or_404 program_id current_user d in
  check? require_member_write engagement current_user d in
  let? _ := require_job program_id job_id d in
  check? check_file file in
  let? parsed := parse_json_or_jsonl float_of outside msg (uf_text file) in
  let? items := normalize_to_list parsed in
  let? '(done, d) := import_items ids now program_id t job_id items d in
  let record := MkImportRecord (im_record ids) program_id (tool_name t) "redacted" (Z.of_nat (ip_count done)) job_id (Some now) in
  let d := set_import_records (import_records d ++ [record]) d in
  Ok (done, log_action (im_log ids) now (cu_github_id current_user) "create" "import" (im_record ids) (Some program_id) d).

(** ["info", ...].index(severity), and the first greatest. *)
Definition severity_index (s : ScanItem) : result Z :=
  match list_find (eq (sc_severity s)) _SEVERITIES with Some (n, _) => Ok (Z.of_nat n) | None => Raise ValueError end.
Fixpoint top_match (best : ScanItem) (rank : Z) (l : list ScanItem) : result ScanItem :=
  match l with
  | [] => Ok best
  | s :: l => let? n := severity_index s in if rank <? n then top_match s n l else top_match best rank l
  end.

(** The webhook an import calls. *)
Definition import_webhook (program_id : string) (t : tool) (done : Imported) (current_user : user_ctx) (d : db)
    : result (option (string * string)) :=
  let name := match engagements d !! program_id with Some e => e_name e | None => program_id end in
  match find_user (cu_github_id current_user) d with
  | None => Ok None
  | Some user =>
      let url := or_blank (u_webhook_url user) in
      if String.eqb url "" then Ok None
      else
        match t with
        | Httpx =>
            if (0 <? ip_new done)%nat
            then Ok (Some (url, "🔍 VardrMap: " +:+ string_of_nat (ip_new done) +:+ " new host(s) discovered for " +:+ name))
            else Ok None
        | Nuclei | Dalfox =>
            let threshold := or_else (u_notify_min_severity user) "high" in
            match rows (λ s, severity_meets_threshold (sc_severity s) threshold) (ip_matches done) with
            | [] => Ok None
            | (first :: rest) as notable =>
                let? rank := severity_index first in
                let? top := top_match first rank rest in
                let noun := match t with Dalfox => "candidate(s)" | _ => "finding(s)" end in
                Ok (Some (url, "🚨 VardrMap: " +:+ string_of_nat (length notable) +:+ " " +:+ threshold +:+ "+ " +:+ noun
                               +:+ " imported for " +:+ name +:+ " — top: [" +:+ sc_severity top +:+ "] "
                               +:+ (if String.eqb (sc_title top) "" then sc_template_id top else sc_title top)))
            end
        | _ => Ok None
        end
  end.

(** The rows are committed before the webhook's message is made. *)
Definition import_results (ids : import_ids) (now : time) (program_id : string) (t : tool) (file : UploadFile) (job_id : option string)
    (current_user : user_ctx) (d : db) : result (Imported * option (string * string)) * db :=
  match import_file ids now program_id t file job_id current_user d with
  | Raise e => (Raise e, d)
  | Ok (done, d') => (let? webhook := import_webhook program_id t done current_user d' in Ok (done, webhook), d')
  end.
End Imports.
