(* ===== verification/ImportsSafety.v ===== *)
(** * What importing tool output guarantees

    Importing the same URLs again stores nothing again, and an import that
    fails leaves no trace. *)
From S2P Require Import Prelude PyStr Json Digest JsonText Time Models Access Assets JobConfig Url TestCases Scope Parsers Inventory InventorySafety Notifications Imports.
From Stdlib Require Import Ascii.

(** ** URLs stored once *)

Definition url_of (r : ParsedRecon) : string := or_blank (pr_url r).

(** What is kept: every URL is known or kept, once. *)
Lemma new_recon_spec l : ∀ urls hosts, Forall (λ r, filled (pr_url r) = true) l →
  let kept := new_recon urls hosts l in
  (∀ r, r ∈ kept → r ∈ l) ∧ (∀ r, r ∈ l → url_of r ∈ urls ∨ url_of r ∈ map url_of kept)
  ∧ NoDup (map url_of kept) ∧ (∀ u, u ∈ map url_of kept → u ∉ urls).
Proof.
  induction l as [|r l IH]; intros urls hosts Hall; simpl.
  { split_and!; [done|by intros r []%elem_of_nil|constructor|by intros u []%elem_of_nil]. }
  apply Forall_cons in Hall as [Hr Hall]. unfold filled in Hr. rewrite Hr. fold (url_of r).
  destruct (mem (url_of r) urls) eqn:Em.
  - destruct (IH urls hosts Hall) as (H1 & H2 & H3 & H4). split_and!; [set_solver| |done|done].
    intros x [->|Hx]%elem_of_cons; [left; by apply mem_spec|by apply H2].
  - destruct (IH (url_of r :: urls) hosts Hall) as (H1 & H2 & H3 & H4). simpl. split_and!.
    + set_solver.
    + intros x [->|Hx]%elem_of_cons; [right; left|]. destruct (H2 x Hx) as [[->|]%elem_of_cons|]; [right; left|by left|right; by right].
    + constructor; [|done]. intros Hin%H4. set_solver.
    + intros u [->|Hu]%elem_of_cons; [by rewrite <-mem_spec, Em|]. intros Hin. apply (H4 u Hu). by right.
Qed.

(** ** Rows linked to assets *)

Lemma put_recon_map {B} (f : ReconItem → B) row row' d :
  NoDup (map ri_id (recon_items d)) → row ∈ recon_items d → ri_id row' = ri_id row → f row' = f row →
  map f (recon_items (put_recon row' d)) = map f (recon_items d).
Proof.
  intros Hn Hin Hid Hf. unfold put_recon. simpl. unfold update_rows. rewrite map_map. apply map_ext_in.
  intros r Hr%list_elem_of_In. destruct (String.eqb_spec (ri_id r) (ri_id row')) as [Heq|]; [|done].
  by rewrite (NoDup_map_inj ri_id (recon_items d) r row Hn Hr Hin ltac:(congruence)).
Qed.

Lemma upsert_recon new_id p o source confidence port hl now d r d' :
  upsert new_id p o source confidence port hl now d = Ok (r, d') → recon_items d' = recon_items d.
Proof.
  intros [(_ & -> & _)|(i & _ & _ & <-)]%upsert_inv; [done|]. unfold upsert_identity. by destruct (find_asset _ _ d).
Qed.

(** Columns other than the asset are left alone, and so are other rows. *)
Lemma link_recons_keep {B} (f : ReconItem → B) supply p source now l : (∀ v r, f (ri_set_asset_id v r) = f r) →
  ∀ n d d', NoDup (map ri_id (recon_items d)) → NoDup (map ri_id l) → (∀ r, r ∈ l → r ∈ recon_items d) →
  link_recons supply n p source now l d = Ok d' →
  map f (recon_items d') = map f (recon_items d) ∧ ∀ r, r ∈ recon_items d → ri_id r ∉ map ri_id l → r ∈ recon_items d'.
Proof.
  intros Hf. induction l as [|row l IH]; intros n d d' Hn Hl Hin H; simpl in H; [by injection H as <-|].
  apply rbind_ok in H as (d1 & H1 & H). apply NoDup_cons in Hl as [Hrow Hl].
  assert (Hstep : recon_items d1 = recon_items d ∨ ∃ a, recon_items d1 = recon_items (put_recon (ri_set_asset_id (Some a) row) d)).
  { unfold link_recon in H1. apply rbind_ok in H1 as ([asset d0] & Hu & [= <-]). apply upsert_recon in Hu.
    destruct asset as [a|]; [right|by left]. exists (as_id a). unfold put_recon. simpl. by rewrite Hu. }
  assert (Hmap : ∀ {C} (g : ReconItem → C), (∀ v r, g (ri_set_asset_id v r) = g r) → map g (recon_items d1) = map g (recon_items d)).
  { intros C g Hg. destruct Hstep as [->|[a ->]]; [done|]. apply (put_recon_map g row); [done|apply Hin; left|done|apply Hg]. }
  assert (Hkeep : ∀ r, r ∈ recon_items d → ri_id r ≠ ri_id row → r ∈ recon_items d1).
  { intros r Hr Hne. destruct Hstep as [->|[a ->]]; [done|]. apply elem_of_update_rows. exists r. split; [done|].
    apply String.eqb_neq in Hne. change (ri_id (ri_set_asset_id (Some a) row)) with (ri_id row). by rewrite Hne. }
  destruct (IH (S n) d1 d') as [Hm Hk]; [by rewrite (Hmap _ ri_id)|done| |done|].
  { intros r Hr. apply Hkeep; [apply Hin; by right|]. intros Heq. apply Hrow. rewrite <-Heq. by apply list_elem_of_fmap_2. }
  split; [by rewrite Hm, (Hmap _ f Hf)|]. intros r Hr Hnot. apply Hk; [apply Hkeep; [done|]|]; set_solver.
Qed.

(** ** Links *)

Lemma link_all_spec supply job_id kind ids : ∀ n d,
  let d' := link_all supply n job_id kind ids d in
  recon_items d' = recon_items d ∧ (∀ l, l ∈ job_result_links d → l ∈ job_result_links d')
  ∧ ∀ id j, id ∈ ids → job_id = Some j → j ≠ "" → ∃ l, l ∈ job_result_links d' ∧ links_to j kind id l = true.
Proof.
  induction ids as [|id ids IH]; intros n d; simpl.
  { split_and!; [done|done|by intros ?? []%elem_of_nil]. }
  destruct (link_result_spec (supply n) job_id kind id d) as (_ & _ & _ & _ & Hg & Hj).
  set (d1 := link_result (supply n) (job_result_links d) job_id kind id d) in *.
  assert (Hr : recon_items d1 = recon_items d) by (unfold d1, link_result; destruct job_id as [[|c j]|]; try done; by destruct (_ || _)).
  destruct (IH (S n) d1) as (R & L & J). split_and!; [by rewrite R|auto|].
  intros i j [->|Hi]%elem_of_cons Hs Hne; [|by eapply J]. destruct (Hj j Hs Hne) as (l & Hl & Hto). eauto.
Qed.

(** ** Importing URLs *)

Section Urls.
Context (int_column : json → result (option Z)).

Definition knows (p source url : string) (d : db) : Prop := ∃ row, row ∈ known_recon p source d ∧ ri_url row = Some url.

Lemma elem_of_known p source d row : row ∈ known_recon p source d
  ↔ row ∈ recon_items d ∧ ri_program_id row = p ∧ ri_source row = Some source.
Proof. unfold known_recon. rewrite elem_of_rows, andb_true_iff, String.eqb_eq, bool_decide_eq_true. done. Qed.

Lemma known_urls p source d u : u ∈ omap ri_url (known_recon p source d) ↔ knows p source u d.
Proof. apply list_elem_of_omap. Qed.

Lemma stored_recon_spec new_id now p job_id r row : stored_recon int_column new_id now p job_id r = Ok row →
  ri_id row = new_id ∧ ri_program_id row = p ∧ ri_source row = Some (pr_source r) ∧ ri_url row = Some (default "" (pr_url r)).
Proof.
  unfold stored_recon. intros H. repeat (apply rbind_ok in H as (? & _ & H)). by injection H as <-.
Qed.

(** The URLs known are told by three columns. *)
Definition columns (r : ReconItem) : string * option string * option string := (ri_program_id r, ri_source r, ri_url r).
Definition url_in (p source : string) (c : string * option string * option string) : option string :=
  if String.eqb c.1.1 p && bool_decide (c.1.2 = Some source) then c.2 else None.

Lemma known_columns p source d : omap ri_url (known_recon p source d) = omap (url_in p source) (map columns (recon_items d)).
Proof.
  unfold known_recon, rows. induction (recon_items d) as [|r l IH]; [done|]. simpl. unfold url_in at 1. simpl.
  destruct (_ && _); simpl; [|exact IH]. destruct (ri_url r); [f_equal|]; exact IH.
Qed.

(** Each URL is stored once per engagement and tool. *)
Definition stored_once (p source : string) (d : db) : Prop := NoDup (nonempty (omap ri_url (known_recon p source d))).

Definition fresh_rows (ids : import_ids) (d : db) : Prop :=
  (∀ n, im_row ids n ∉ map ri_id (recon_items d)) ∧ ∀ n m, im_row ids n = im_row ids m → n = m.

Lemma stored_rows ids now p job_id kept : ∀ k news, (∀ n m, im_row ids n = im_row ids m → n = m) →
  map_result (λ '(n, r), stored_recon int_column (im_row ids n) now p job_id r) (imap (λ n r, (k + n, r)%nat) kept) = Ok news →
  map ri_id news = map (im_row ids) (seq k (length kept))
  ∧ map columns news = map (λ r, (p, Some (pr_source r), Some (default "" (pr_url r)))) kept.
Proof.
  induction kept as [|r kept IH]; intros k news Hinj H; simpl in H; [by injection H as <-|].
  apply rbind_ok in H as (row & Hrow & H). apply rbind_ok in H as (rest & Hrest & [= <-]).
  rewrite Nat.add_0_r in Hrow. apply stored_recon_spec in Hrow as (Hid & Hp & Hs & Hu).
  rewrite (imap_ext _ (λ n r, (S k + n, r)%nat)) in Hrest by (intros; simpl; f_equal; lia).
  destruct (IH (S k) rest Hinj Hrest) as [H1 H2]. simpl. unfold columns at 1. by rewrite Hid, Hp, Hs, Hu, H1, H2.
Qed.

Lemma import_urls_spec ids now p t job_id l n d d1 :
  import_urls int_column ids now p t job_id l d = Ok (n, d1) →
  Forall (λ r, filled (pr_url r) = true) l → Forall (λ r, pr_source r = tool_name t) l →
  NoDup (map ri_id (recon_items d)) → fresh_rows ids d →
  let kept := _dedup_recon l p (tool_name t) d in
  n = length kept ∧ NoDup (map ri_id (recon_items d1))
  ∧ omap ri_url (known_recon p (tool_name t) d1) = omap ri_url (known_recon p (tool_name t) d) ++ map url_of kept
  ∧ (∀ row, row ∈ recon_items d → row ∈ recon_items d1)
  ∧ (∀ row u j, row ∈ known_recon p (tool_name t) d1 → ri_url row = Some u → u ∈ map url_of l → job_id = Some j → j ≠ "" →
       ∃ k, k ∈ job_result_links d1 ∧ links_to j OfRecon (ri_id row) k = true).
Proof.
  intros H Hfill Hsrc Hn [Hfresh Hinj]. cbv zeta. set (kept := _dedup_recon l p (tool_name t) d) in *.
  unfold import_urls in H. fold kept in H. apply rbind_ok in H as (news & Hnews & H). apply rbind_ok in H as (d2 & Hl & H).
  destruct (stored_rows ids now p job_id kept 0 news Hinj Hnews) as [Hids Hcols].
  set (seen := rows _ _) in H. injection H as <- <-.
  destruct (link_all_spec (im_link ids) job_id OfRecon (map ri_id seen) 0 d2) as (Hr & _ & Hj).
  assert (Hkept : ∀ r, r ∈ kept → r ∈ l) by (apply (new_recon_spec l _ _ Hfill)).
  assert (Hn0 : NoDup (map ri_id news)).
  { rewrite Hids. clear -Hinj. generalize 0%nat. induction (length kept) as [|m IH]; intros k; simpl; constructor; [|apply IH].
    intros (j & Hj & Hin)%list_elem_of_fmap. apply Hinj in Hj. apply elem_of_seq in Hin. lia. }
  assert (Hn1 : NoDup (map ri_id (recon_items d ++ news))).
  { rewrite map_app. apply NoDup_app. split_and!; [done| |done]. intros i Hi Hin. rewrite Hids in Hin.
    apply list_elem_of_fmap in Hin as (k & -> & _). by apply (Hfresh k). }
  assert (Hin : ∀ r, r ∈ news → r ∈ recon_items d ++ news) by (intros; apply elem_of_app; by right).
  set (d0 := set_recon_items (recon_items d ++ news) d) in *.
  destruct (link_recons_keep columns _ _ _ _ news ltac:(done) 0 d0 d2 Hn1 Hn0 Hin Hl) as [Hc2 Hk2].
  destruct (link_recons_keep ri_id _ _ _ _ news ltac:(done) 0 d0 d2 Hn1 Hn0 Hin Hl) as [Hi2 _].
  split_and!.
  - done.
  - rewrite Hr, Hi2. done.
  - rewrite !known_columns, Hr, Hc2. simpl. rewrite map_app, omap_app, Hcols. f_equal.
    assert (Hks : ∀ r, r ∈ kept → pr_source r = tool_name t ∧ filled (pr_url r) = true).
    { rewrite Forall_forall in Hsrc, Hfill. auto. }
    clear -Hks. clearbody kept. induction kept as [|r kept IH]; [done|].
    destruct (Hks r ltac:(left)) as [Hs Hf]. specialize (IH (λ x Hx, Hks x (list_elem_of_further _ _ _ Hx))).
    cbn [map]. cbn [omap list_omap]. unfold url_in at 1. cbn [fst snd]. rewrite Hs, String.eqb_refl, bool_decide_eq_true_2 by done.
    cbn [andb]. f_equal; [|exact IH]. unfold url_of, or_blank, or_else, filled in *. by destruct (pr_url r) as [[|]|].
  - intros row Hrow. rewrite Hr. apply Hk2; [apply elem_of_app; by left|]. rewrite Hids.
    intros (k & Hk & _)%list_elem_of_fmap. apply (Hfresh k). rewrite <-Hk. by apply list_elem_of_fmap_2.
  - intros row u j Hrow Hu Hul Hjob Hne. apply (Hj (ri_id row) j); [|done|done]. apply list_elem_of_fmap_2. unfold seen.
    apply elem_of_rows. split; [unfold known_recon in *; by rewrite <-Hr|]. rewrite Hu. apply mem_spec. 
    apply elem_of_rows. split; [done|]. apply list_elem_of_fmap in Hul as (r & -> & Hrl).
    pose proof (proj1 (Forall_forall _ _) Hfill r Hrl) as Hf. exact Hf.
Qed.

(** Nothing is new when every URL is known. *)
Lemma dedup_known l p source d : Forall (λ r, filled (pr_url r) = true) l →
  (∀ r, r ∈ l → knows p source (url_of r) d) → _dedup_recon l p source d = [].
Proof.
  intros Hfill Hk. unfold _dedup_recon. set (urls := omap ri_url _). set (hosts := omap ri_host _).
  destruct (new_recon_spec l urls hosts Hfill) as (H1 & _ & _ & H4).
  destruct (new_recon urls hosts l) as [|r kept]; [done|]. exfalso. apply (H4 (url_of r)); [left|].
  apply known_urls, Hk, H1. left.
Qed.
End Urls.

(** The rows of a tool that reports URLs. *)
Definition parsed_urls (strip_html : string → string) (t : tool) (items : list dict) : option (list ParsedRecon) :=
  match t with
  | Ffuf => match parse_ffuf strip_html items with Ok l => Some l | Raise _ => None end
  | Katana => Some (parse_katana strip_html items)
  | Gau => Some (parse_gau items)
  | _ => None
  end.

Lemma parsed_source strip_html t items l : parsed_urls strip_html t items = Some l → Forall (λ r, pr_source r = tool_name t) l.
Proof.
  intros H. apply Forall_forall. intros r Hr. destruct t; try done; unfold parsed_urls in H.
  - destruct (parse_ffuf strip_html items) as [k|] eqn:E; [|done]. injection H as <-.
    destruct (map_result_elem _ _ _ r E Hr) as (item & _ & Hi). unfold parse_ffuf_item in Hi.
    repeat (apply rbind_ok in Hi as (? & _ & Hi)). by injection Hi as <-.
  - injection H as <-. apply list_elem_of_omap in Hr as (item & _ & Hi). unfold parse_katana_item in Hi.
    destruct (_web_url _) as [[[u h] q]|]; [|done]. by injection Hi as <-.
  - injection H as <-. apply list_elem_of_omap in Hr as (item & _ & Hi). unfold parse_gau_item in Hi.
    destruct (_web_url _) as [[[u h] q]|]; [|done]. by injection Hi as <-.
Qed.

Lemma import_items_urls strip_html int_column ids now p t job_id items l done d d1 :
  parsed_urls strip_html t items = Some l → import_items strip_html int_column ids now p t job_id items d = Ok (done, d1) →
  ∃ n, import_urls int_column ids now p t job_id l d = Ok (n, d1) ∧ ip_count done = n.
Proof.
  intros Hl H. unfold import_items in H. destruct t; try done; unfold parsed_urls in Hl.
  - destruct (parse_ffuf strip_html items) as [k|]; [|done]. injection Hl as <-. cbn [rbind] in H.
    apply rbind_ok in H as ([n d0] & Hi & [= <- <-]). eauto.
  - injection Hl as <-. apply rbind_ok in H as ([n d0] & Hi & [= <- <-]). eauto.
  - injection Hl as <-. apply rbind_ok in H as ([n d0] & Hi & [= <- <-]). eauto.
Qed.

(** C32. Importing the output of ffuf, katana or gau in which every row has a
    URL stores each URL not known yet for the engagement and tool, once, next
    to the rows that were there; every row of a URL of the file is linked to
    the job of the import.  Importing the same file again, by whatever job,
    stores nothing. *)
Theorem reimport_stores_nothing strip_html int_column ids now p t job_id items l done d d1 :
  parsed_urls strip_html t items = Some l → Forall (λ r, filled (pr_url r) = true) l →
  NoDup (map ri_id (recon_items d)) → fresh_rows ids d → stored_once p (tool_name t) d →
  import_items strip_html int_column ids now p t job_id items d = Ok (done, d1) →
  stored_once p (tool_name t) d1
  ∧ (∀ u, knows p (tool_name t) u d1 ↔ knows p (tool_name t) u d ∨ u ∈ map url_of l)
  ∧ (∀ row, row ∈ recon_items d → row ∈ recon_items d1)
  ∧ (∀ row u j, row ∈ known_recon p (tool_name t) d1 → ri_url row = Some u → u ∈ map url_of l → job_id = Some j → j ≠ "" →
       ∃ k, k ∈ job_result_links d1 ∧ links_to j OfRecon (ri_id row) k = true)
  ∧ ∀ ids2 now2 job2 done2 d2, import_items strip_html int_column ids2 now2 p t job2 items d1 = Ok (done2, d2) →
      ip_count done2 = 0%nat ∧ recon_items d2 = recon_items d1.
Proof.
  intros Hl Hfill Hn Hfresh Honce H. destruct (import_items_urls _ _ _ _ _ _ _ _ _ _ _ _ Hl H) as (n & Hi & _).
  destruct (import_urls_spec _ _ _ _ _ _ _ _ _ _ Hi Hfill (parsed_source _ _ _ _ Hl) Hn Hfresh) as (_ & _ & Hurls & Hkeep & Hlinks).
  set (kept := _dedup_recon l p (tool_name t) d) in *. unfold _dedup_recon in kept.
  destruct (new_recon_spec l (omap ri_url (known_recon p (tool_name t) d))
              (omap ri_host (rows (λ r, bool_decide (ri_url r = None)) (known_recon p (tool_name t) d))) Hfill) as (H1 & H2 & H3 & H4).
  fold kept in H1, H2, H3, H4.
  assert (Hknows : ∀ u, knows p (tool_name t) u d1 ↔ knows p (tool_name t) u d ∨ u ∈ map url_of l).
  { intros u. rewrite <-!known_urls, Hurls, elem_of_app. split; intros [Hu|Hu]; [by left|right|by left|].
    - apply list_elem_of_fmap in Hu as (r & -> & Hr). apply list_elem_of_fmap_2. by apply H1.
    - apply list_elem_of_fmap in Hu as (r & -> & Hr). by apply H2. }
  split_and!; try done.
  - unfold stored_once in *. rewrite Hurls. unfold nonempty in *. rewrite rows_app. apply NoDup_app. split_and!; [done| |].
    + intros u [Hu _]%elem_of_rows [Hk _]%elem_of_rows. by apply (H4 u).
    + pose proof (NoDup_map_rows id (λ s, negb (String.eqb s "")) (map url_of kept)) as Hr. rewrite !map_id in Hr. by apply Hr.
  - intros ids2 now2 job2 done2 d2 H'. destruct (import_items_urls _ _ _ _ _ _ _ _ _ _ _ _ Hl H') as (n2 & Hi2 & ->).
    unfold import_urls in Hi2. rewrite (dedup_known l p (tool_name t) d1 Hfill) in Hi2
      by (intros r Hr; apply Hknows; right; by apply list_elem_of_fmap_2).
    cbn [imap length] in Hi2. cbn [map_result rbind link_recons] in Hi2. rewrite app_nil_r in Hi2. injection Hi2 as <- <-.
    split; [done|]. match goal with |- recon_items (link_all ?s ?n ?j ?k ?i ?d) = _ => destruct (link_all_spec s j k i n d) as (-> & _) end. done.
Qed.

(** ** Failures *)

Lemma split_seen_news l : ∀ seen s, s ∈ (split_seen seen l).1 → s ∈ l.
Proof.
  induction l as [|x l IH]; intros seen s; simpl; [done|]. destruct (first_row _ _) as [e|].
  - specialize (IH seen s). destruct (split_seen seen l). simpl in *. intros Hs. right. by apply IH.
  - specialize (IH (x :: seen) s). destruct (split_seen (x :: seen) l). simpl in *. intros [->|Hs]%elem_of_cons; [left|right; by apply IH].
Qed.

Lemma dalfox_severities strip_html ids now p job_id items l d d' :
  import_dalfox ids now p job_id (parse_dalfox strip_html items) d = Ok (l, d') → ∀ s, s ∈ l → sc_severity s ∈ _SEVERITIES.
Proof.
  unfold import_dalfox, _dedup_scan_items. intros H s Hs.
  destruct (split_seen _ _) as [news dups] eqn:E. apply rbind_ok in H as (d1 & _ & [= <- _]).
  assert (Hin := f_equal fst E). simpl in Hin. rewrite <-Hin in Hs. apply split_seen_news in Hs as Hin'. clear Hin. rename Hin' into Hin.
  apply elem_of_lookup_imap in Hin as (n & ps & -> & Hps%list_elem_of_lookup_2).
  apply list_elem_of_fmap in Hps as (item & -> & _). cbn [stored_scan sc_severity]. unfold parse_dalfox_item. cbn [ps_severity].
  unfold one_of. destruct (mem _ _) eqn:Em; [by apply mem_spec|]. solve_list_mem.
Qed.

Lemma top_match_total l : ∀ best rank, (∀ s, s ∈ l → sc_severity s ∈ _SEVERITIES) → ∃ s, top_match best rank l = Ok s.
Proof.
  induction l as [|x l IH]; intros best rank Hl; simpl; [by eexists|].
  assert (Hx : ∃ n, severity_index x = Ok n).
  { unfold severity_index. destruct (list_find _ _) as [[n v]|] eqn:E; [by eexists|].
    apply list_find_None in E. rewrite Forall_forall in E. by destruct (E (sc_severity x) (Hl x ltac:(left))). }
  destruct Hx as [n ->]. simpl. destruct (rank <? n); apply IH; intros s Hs; apply Hl; by right.
Qed.

Definition notable (threshold : string) (l : list ScanItem) : list ScanItem :=
  rows (λ s, severity_meets_threshold (sc_severity s) threshold) l.

Lemma webhook_fails p t done u d e : import_webhook p t done u d = Raise e →
  (t = Nuclei ∨ t = Dalfox) ∧ e = ValueError ∧ ∃ s, s ∈ ip_matches done ∧ sc_severity s ∉ _SEVERITIES.
Proof.
  unfold import_webhook. destruct (find_user _ d) as [user|]; [|done]. destruct (String.eqb _ ""); [done|].
  intros H. assert (Ht : t = Nuclei ∨ t = Dalfox) by (destruct t; try done; try (by left); try (by right); by case_match).
  assert (Hm : ∃ first rest, rows (λ s, severity_meets_threshold (sc_severity s) (or_else (u_notify_min_severity user) "high")) (ip_matches done) = first :: rest
    ∧ (let? rank := severity_index first in top_match first rank rest) = Raise e).
  { destruct Ht as [-> | ->]; destruct (rows _ _) as [|first rest]; try done; exists first, rest; (split; [done|]);
      destruct (severity_index first) as [rank|]; cbn [rbind] in *; try congruence; destruct (top_match first rank rest); cbn [rbind] in *; congruence. }
  destruct Hm as (first & rest & Hrows & He).
  assert (Hsub : ∀ s, s ∈ first :: rest → s ∈ ip_matches done) by (intros s Hs; rewrite <-Hrows in Hs; by apply elem_of_rows in Hs as [? _]).
  split; [done|]. destruct (severity_index first) as [rank|e'] eqn:E1.
  - cbn [rbind] in He. destruct (decide (Forall (λ s, sc_severity s ∈ _SEVERITIES) rest)) as [Hall|Hnot].
    + rewrite Forall_forall in Hall. destruct (top_match_total rest first rank Hall) as [s Hs]. congruence.
    + apply not_Forall_Exists in Hnot; [|apply _]. apply Exists_exists in Hnot as (s & Hs & Hn).
      split; [|exists s; split; [apply Hsub; by right|done]].
      clear -He. revert first rank He. induction rest as [|x rest IH]; intros first rank He; simpl in He; [done|].
      destruct (severity_index x) as [n|e'] eqn:E; cbn [rbind] in He.
      * destruct (rank <? n); by eapply IH.
      * injection He as ->. unfold severity_index in E. destruct (list_find _ _) as [[]|]; congruence.
  - cbn [rbind] in He. injection He as ->. unfold severity_index in E1. destruct (list_find _ _) as [[n v]|] eqn:E; [done|]. injection E1 as <-.
    split; [done|]. exists first. split; [apply Hsub; left|]. apply list_find_None in E. rewrite Forall_forall in E. intros Hin. by apply (E _ Hin).
Qed.

(** C33. An import that fails leaves the database as it was, whatever the file
    holds and whoever sends it - with one exception: a nuclei file that was
    stored whole, among whose matches is a severity that is not one of the
    five in lower case, fails afterwards while the message of the webhook is
    made. *)
Theorem failed_import_leaves_no_trace strip_html float_of outside msg int_column limit ids now p t file job_id u d e d' :
  import_results strip_html float_of outside msg int_column limit ids now p t file job_id u d = (Raise e, d') →
  d' = d
  ∨ t = Nuclei ∧ e = ValueError ∧ ∃ done,
      import_file strip_html float_of outside msg int_column limit ids now p t file job_id u d = Ok (done, d')
      ∧ ∃ s, s ∈ ip_matches done ∧ sc_severity s ∉ _SEVERITIES.
Proof.
  unfold import_results. destruct (import_file _ _ _ _ _ _ _ _ _ _ _ _ _ _) as [[done d1]|e1] eqn:E; [|intros [= _ <-]; by left].
  destruct (import_webhook p t done u d1) as [w|e2] eqn:Ew; cbn [rbind]; [done|]. intros [= <- <-]. right.
  apply webhook_fails in Ew as (Ht & -> & s & Hs & Hns). destruct Ht as [-> | ->]; [split_and!; [done|done|]; exists done; eauto|].
  exfalso. apply Hns. unfold import_file in E. apply rbind_ok in E as (eng & _ & E). apply rbind_ok in E as ([] & _ & E).
  apply rbind_ok in E as (job & _ & E). apply rbind_ok in E as ([] & _ & E). apply rbind_ok in E as (parsed & _ & E).
  apply rbind_ok in E as (items & _ & E). apply rbind_ok in E as ([done0 d0] & Hi & [= <- _]).
  unfold import_items in Hi. apply rbind_ok in Hi as ([l d2] & Hl & [= <- _]). by eapply dalfox_severities.
Qed.

(** ** Small imports *)

Module ImportExample.
Import InventoryExample.
Definition ids (tag : string) : import_ids :=
  ImportIds (λ n, tag +:+ "r" +:+ strokes n) (λ n, tag +:+ "a" +:+ strokes n) (λ n, tag +:+ "l" +:+ strokes n) (tag +:+ "record") (tag +:+ "log").
Definition no_float (s : string) : option pyfloat := None.
Definition int_column (j : json) : result (option Z) :=
  match j with JInt z => Ok (Some z) | JNull => Ok None | _ => Raise ValueError end.
Definition line (url : string) : dict := [("url", JStr url)].
Definition items : list dict := [line "https://api.acme.com/a?x=1"; line "https://api.acme.com/b"; line "https://api.acme.com/a?x=1"].
Definition rows_parsed : list ParsedRecon := Eval vm_compute in parse_gau items.
Definition imported : result (Imported * db) :=
  Eval vm_compute in import_items (λ s, s) int_column (ids "1") 5 "eng-1" Gau None items d.
Definition d1 : db := match imported with Ok (_, d1) => d1 | Raise _ => d end.
Lemma reimported_it : import_items (λ s, s) int_column (ids "1") 5 "eng-1" Gau None items d = Ok (MkImported 2 2 0 [], d1).
Proof. vm_compute. reflexivity. Qed.

Lemma ids_fresh tag : fresh_rows (ids tag) d.
Proof. split; [intros n; simpl; set_solver|]. intros n m H. unfold ids in H. simpl in H. clear -H.
  induction tag as [|c tag IH]; simpl in H; [injection H as H; by apply strokes_inj|injection H as H; by apply IH].
Qed.

Lemma reimport_stores_nothing_witness :
  stored_once "eng-1" "gau" d1 ∧ knows "eng-1" "gau" "https://api.acme.com/b" d1
  ∧ ∀ ids2 now2 job2 done2 d2, import_items (λ s, s) int_column ids2 now2 "eng-1" Gau job2 items d1 = Ok (done2, d2) →
      ip_count done2 = 0%nat ∧ recon_items d2 = recon_items d1.
Proof.
  destruct (reimport_stores_nothing (λ s, s) int_column (ids "1") 5 "eng-1" Gau None items rows_parsed (MkImported 2 2 0 []) d d1)
    as (Ho & Hk & _ & _ & H2).
  - vm_compute. reflexivity.
  - repeat constructor.
  - constructor.
  - apply ids_fresh.
  - unfold stored_once. simpl. constructor.
  - exact reimported_it.
  - split; [exact Ho|]. split; [|exact H2]. apply Hk. right. vm_compute. right. left.
Defined.

(** A nuclei match of severity [High] is stored, and then the request fails. *)
Definition hooked : db := set_users [MkUser "alice" None None (Some "https://hooks.example.com/T1") (Some "high") None] d.
Definition nuclei_file : UploadFile :=
  MkUploadFile (Some "out.jsonl") (Some "application/json") 60 (json_dumps false (JObj [("info", JObj [("severity", JStr "High")])])).
Definition nuclei_import : result (Imported * option (string * string)) * db :=
  import_results (λ s, s) no_float (λ _, Raise ValueError) (λ s, s) int_column 2097152 (ids "1") 5 "eng-1" Nuclei nuclei_file None user hooked.
Example stored_and_failed : nuclei_import.1 = Raise ValueError ∧ length (scan_items nuclei_import.2) = 1%nat.
Proof. vm_compute. done. Qed.

Lemma failed_import_leaves_no_trace_witness :
  ∃ done, import_file (λ s, s) no_float (λ _, Raise ValueError) (λ s, s) int_column 2097152 (ids "1") 5 "eng-1" Nuclei nuclei_file None user hooked
            = Ok (done, nuclei_import.2) ∧ ∃ s, s ∈ ip_matches done ∧ sc_severity s ∉ _SEVERITIES.
Proof.
  destruct (failed_import_leaves_no_trace (λ s, s) no_float (λ _, Raise ValueError) (λ s, s) int_column 2097152 (ids "1") 5 "eng-1" Nuclei
    nuclei_file None user hooked ValueError nuclei_import.2) as [H|(_ & _ & H)].
  - vm_compute. reflexivity.
  - exfalso. apply (f_equal (λ d, length (scan_items d))) in H. vm_compute in H. discriminate H.
  - exact H.
Defined.

(** An ffuf row without a URL is stored again by every import. *)
Example blank_rows_repeat :
  map (λ n, length (_dedup_recon (map (λ _, MkParsedRecon "ffuf" (Some "") (Some "") None None JNull None None None (Some "") JNull JNull JNull) (seq 0 n))
                      "eng-1" "ffuf" d)) [1%nat; 3%nat] = [1%nat; 3%nat].
Proof. reflexivity. Qed.
End ImportExample.
