(* ===== verification/Findings.v ===== *)
(** * Findings: [routers/findings.py], [finding_history.py],
      [routers/finding_activity.py] and [routers/evidence.py]

    Findings with their append-only history, the notes and retests added to it,
    and the evidence attached to them.  A request body is what pydantic hands
    the handler; the model-assisted suggestion, a call to another service, is
    left out. *)
From S2P Require Import Prelude PyStr Regex Json Digest Time Models Access JobConfig Assets Redaction Schemas.

(** ** [serializers.serialize_finding] *)

Definition opt_json (v : option string) : json := match v with Some s => JStr s | None => JNull end.

Definition serialize_finding (f : Finding) : dict :=
  [("id", JStr (fi_id f)); ("title", JStr (fi_title f)); ("severity", opt_json (fi_severity f));
   ("asset", JStr (or_else (fi_asset f) "")); ("status", opt_json (fi_status f));
   ("summary", JStr (or_else (fi_summary f) "")); ("steps", JStr (or_else (fi_steps f) ""));
   ("impact", JStr (or_else (fi_impact f) "")); ("remediation", JStr (or_else (fi_remediation f) ""));
   ("created_at", opt_json (isoformat <$> fi_created_at f))].

(** ** [finding_history.py] *)

Definition snapshot_of (f : Finding) : json := clean_tree (JObj (serialize_finding f)).

Definition record (new_id : string) (now : time) (finding : Finding) (actor kind notes : string) (outcome : option string)
    (evidence : list json) (d : db) : FindingActivity * db :=
  let entry := MkFindingActivity new_id (fi_program_id finding) (fi_id finding) kind outcome (redact_text notes []) actor
                 (snapshot_of finding) (JList evidence) now in
  (entry, set_finding_activities (finding_activities d ++ [entry]) d).

Definition activity_of (finding_id : string) (d : db) : list FindingActivity :=
  rows (λ a, String.eqb (fa_finding_id a) finding_id) (finding_activities d).

Definition capture_baseline (new_id : string) (now : time) (finding : Finding) (actor : string) (d : db) : db :=
  match activity_of (fi_id finding) d with
  | [] => (record new_id now finding actor "baseline" "State when history tracking began." None [] d).2
  | _ :: _ => d
  end.

(** ** [routers/findings.py] *)

(** The node the finding is attached to, by the host of its asset. *)
Definition _link_asset (new_id : string) (now : time) (program_id : string) (finding : Finding) (d : db)
    : result (Finding * db) :=
  if String.eqb (or_else (fi_asset finding) "") "" || negb (String.eqb (or_else (fi_asset_id finding) "") "")
  then Ok (finding, d)
  else
    let? '(node, d) := upsert new_id program_id (or_else (fi_asset finding) "") "finding" "confirmed" None true now d in
    Ok (match node with Some node => fi_set_asset_id (Some (as_id node)) finding | None => finding end, d).

Definition put_finding (f : Finding) (d : db) : db :=
  set_findings (update_rows (λ g, String.eqb (fi_id g) (fi_id f)) (λ _, f) (findings d)) d.

(** The ids a request draws: of the finding, the node, two history entries and
    the audit line. *)
Record fresh_ids := MkFreshIds { nid_row : string; nid_node : string; nid_baseline : string; nid_entry : string; nid_log : string }.

Record FindingCreate := MkFindingCreate {
  fc_title : string;
  fc_severity : string;
  fc_asset : option string;
  fc_status : string;
  fc_summary : option string;
  fc_steps : option string;
  fc_impact : option string;
  fc_remediation : option string;
}.

Definition new_finding (id program_id : string) (payload : FindingCreate) (now : time) : Finding :=
  MkFinding id program_id (fc_title payload) (Some (fc_severity payload)) (Some (or_else (fc_asset payload) "")) None
    (Some (fc_status payload)) (Some (or_else (fc_summary payload) "")) (Some (or_else (fc_steps payload) ""))
    (Some (or_else (fc_impact payload) "")) (Some (or_else (fc_remediation payload) "")) (Some now).

Definition add_finding (ids : fresh_ids) (now : time) (program_id : string) (payload : FindingCreate)
    (current_user : user_ctx) (d : db) : result (Finding * db) :=
  let? engagement := get_engagement_or_404 program_id current_user d in
  check? require_member_write engagement current_user d in
  let finding := new_finding (nid_row ids) program_id payload now in
  let? '(finding, d) := _link_asset (nid_node ids) now program_id finding (set_findings (findings d ++ [finding]) d) in
  let d := (record (nid_entry ids) now finding (cu_github_id current_user) "created" "" None [] (put_finding finding d)).2 in
  Ok (finding, log_action (nid_log ids) now (cu_github_id current_user) "create" "finding" (fi_id finding) (Some program_id) d).

(** The fields a PATCH sets; [Some None] is an explicit null. *)
Record FindingUpdate := MkFindingUpdate {
  fu_title : option (option string);
  fu_severity : option (option string);
  fu_asset : option (option string);
  fu_status : option (option string);
  fu_summary : option (option string);
  fu_steps : option (option string);
  fu_impact : option (option string);
  fu_remediation : option (option string);
}.

Definition set_given {A} (write : option string → A → A) (value : option (option string)) (r : A) : A :=
  match value with Some v => write v r | None => r end.

(** A null title violates its column when the row is written. *)
Definition set_title {A} (write : string → A → A) (value : option (option string)) (r : A) : result A :=
  match value with
  | None => Ok r
  | Some None => Raise IntegrityError
  | Some (Some t) => Ok (write t r)
  end.

Definition edit_finding (payload : FindingUpdate) (f : Finding) : result Finding :=
  let f := set_given fi_set_severity (fu_severity payload) f in
  let f := set_given fi_set_asset (fu_asset payload) f in
  let f := set_given fi_set_status (fu_status payload) f in
  let f := set_given fi_set_summary (fu_summary payload) f in
  let f := set_given fi_set_steps (fu_steps payload) f in
  let f := set_given fi_set_impact (fu_impact payload) f in
  let f := set_given fi_set_remediation (fu_remediation payload) f in
  set_title fi_set_title (fu_title payload) f.

Definition _finding (program_id finding_id : string) (d : db) : result Finding :=
  match first_row (λ f, String.eqb (fi_program_id f) program_id && String.eqb (fi_id f) finding_id) (findings d) with
  | Some f => Ok f
  | None => http 404 "Finding not found"
  end.

Definition update_finding (ids : fresh_ids) (now : time) (program_id finding_id : string) (payload : FindingUpdate)
    (current_user : user_ctx) (d : db) : result (Finding * db) :=
  let? engagement := get_engagement_or_404 program_id current_user d in
  check? require_member_write engagement current_user d in
  let? finding := _finding program_id finding_id d in
  let actor := cu_github_id current_user in
  let d := capture_baseline (nid_baseline ids) now finding actor d in
  let? finding := edit_finding payload finding in
  let? '(finding, d) := match fu_asset payload with
                        | Some _ => _link_asset (nid_node ids) now program_id (fi_set_asset_id None finding) d
                        | None => Ok (finding, d)
                        end in
  let d := (record (nid_entry ids) now finding actor "updated" "" None [] (put_finding finding d)).2 in
  Ok (finding, log_action (nid_log ids) now actor "update" "finding" finding_id (Some program_id) d).

(** The history goes by the ORM's cascade, the evidence by the foreign key. *)
Definition drop_finding (finding_id : string) (d : db) : db :=
  set_findings (rows (λ f, negb (String.eqb (fi_id f) finding_id)) (findings d))
  (set_finding_activities (rows (λ a, negb (String.eqb (fa_finding_id a) finding_id)) (finding_activities d))
  (set_evidence (rows (λ e, negb (bool_decide (ev_finding_id e = Some finding_id))) (evidence d)) d)).

Definition delete_finding (log_id : string) (now : time) (program_id finding_id : string) (current_user : user_ctx)
    (d : db) : result (string * db) :=
  let? engagement := get_engagement_or_404 program_id current_user d in
  check? require_member_write engagement current_user d in
  let? _ := _finding program_id finding_id d in
  Ok ("Finding deleted",
      drop_finding finding_id (log_action log_id now (cu_github_id current_user) "delete" "finding" finding_id (Some program_id) d)).

(** [ORDER BY created_at DESC], NULL first. *)
Definition newest_finding (a b : Finding) : Prop :=
  match fi_created_at a, fi_created_at b with
  | None, _ => True
  | Some _, None => False
  | Some x, Some y => y <= x
  end.
#[export] Instance newest_finding_dec : RelDecision newest_finding.
Proof. intros a b. unfold newest_finding. repeat case_match; apply _. Defined.

(** [column ILIKE pattern] is the database's. *)
Definition get_findings (ilike : string → string → bool) (program_id search severity : string) (limit offset : nat)
    (current_user : user_ctx) (d : db) : result (list dict * Z) :=
  let? _ := get_engagement_or_404 program_id current_user d in
  let like s := ilike s ("%" +:+ search +:+ "%") in
  let matching := rows (λ f, String.eqb (fi_program_id f) program_id
                             && (String.eqb search "" || like (fi_title f)
                                 || match fi_asset f with Some a => like a | None => false end)
                             && (String.eqb severity "" || bool_decide (fi_severity f = Some severity))) (findings d) in
  Ok (map serialize_finding (take limit (drop offset (merge_sort newest_finding matching))), Z.of_nat (length matching)).

(** ** [routers/finding_activity.py] *)

Record ActivityCreate := MkActivityCreate {
  ac_kind : string;
  ac_notes : string;
  ac_outcome : option string;
  ac_evidence_ids : list string;
}.

(** The identity and integrity of a piece of evidence, kept in the entry. *)
Definition evidence_reference (e : Evidence) : json :=
  JObj [("id", JStr (ev_id e)); ("title", JStr (ev_title e)); ("content_hash", JStr (ev_content_hash e));
        ("job_id", opt_json (ev_job_id e)); ("case_id", opt_json (ev_case_id e)); ("case_ref", opt_json (ev_case_ref e));
        ("identity_id", opt_json (ev_identity_id e)); ("observed_outcome", opt_json (ev_observed_outcome e));
        ("expected_decision", opt_json (ev_expected_decision e))].

Section Activity.
Context (nh3_clean html_unescape : string → string).
#[local] Abbreviation strip_html := (strip_html nh3_clean html_unescape).

Definition add_activity (ids : fresh_ids) (now : time) (program_id finding_id : string) (body : ActivityCreate)
    (current_user : user_ctx) (d : db) : result (FindingActivity * db) :=
  let? engagement := get_engagement_or_404 program_id current_user d in
  check? require_member_write engagement current_user d in
  let? finding := _finding program_id finding_id d in
  check? guard (Bool.eqb (String.eqb (ac_kind body) "retest") (bool_decide (is_Some (ac_outcome body)))) 400
    "A retest requires an outcome; remediation notes do not take one" in
  let notes := strip (strip_html (ac_notes body)) in
  check? guard (negb (String.eqb notes "")) 400 "Notes are required" in
  let wanted := dedup (ac_evidence_ids body) in
  let chosen := rows (λ e, String.eqb (ev_program_id e) program_id && bool_decide (ev_finding_id e = Some finding_id)
                           && mem (ev_id e) wanted) (evidence d) in
  check? guard (length chosen =? length wanted)%nat 404 "Evidence not found on this finding" in
  let actor := cu_github_id current_user in
  let d := capture_baseline (nid_baseline ids) now finding actor d in
  let '(entry, d) := record (nid_entry ids) now finding actor (ac_kind body) notes (ac_outcome body)
                       (map evidence_reference chosen) d in
  Ok (entry, log_action (nid_log ids) now actor "create" "finding_activity" (fa_id entry) (Some program_id) d).

(** [ORDER BY created_at DESC, id] *)
Definition newest_activity (a b : FindingActivity) : Prop :=
  fa_created_at b < fa_created_at a ∨ fa_created_at a = fa_created_at b ∧ String.le (fa_id a) (fa_id b).
#[export] Instance newest_activity_dec : RelDecision newest_activity.
Proof. intros a b. unfold newest_activity. apply _. Defined.

Definition list_activity (program_id finding_id : string) (limit offset : nat) (current_user : user_ctx) (d : db)
    : result (list FindingActivity * Z) :=
  let? _ := get_engagement_or_404 program_id current_user d in
  let? _ := _finding program_id finding_id d in
  let all := rows (λ a, String.eqb (fa_program_id a) program_id && String.eqb (fa_finding_id a) finding_id) (finding_activities d) in
  Ok (take limit (drop offset (merge_sort newest_activity all)), Z.of_nat (length all)).

(** ** [routers/evidence.py] *)

Definition KINDS : list string := ["http_request"; "http_response"; "terminal_output"; "tool_result"; "note"; "screenshot"].
Definition SENSITIVITIES : list string := ["public"; "internal"; "confidential"; "restricted"].
Definition RETENTIONS : list string := ["engagement"; "90d"; "permanent"].

Record EvidenceCreate := MkEvidenceCreate {
  ec_kind : string;
  ec_title : string;
  ec_body : string;
  ec_finding_id : option string;
  ec_collector : string;
  ec_source : string;
  ec_sensitivity : string;
  ec_retention : string;
}.

(** What is stored of a body. *)
Definition evidence_body (kind body : string) : string :=
  let body := redact_text body [] in if String.eqb kind "note" then strip_html body else body.

Definition one_of_guard (what value : string) (options : list string) : result unit :=
  guard (mem value options) 400 (what +:+ " must be one of " +:+ repr_list (sorted_strings options)).

Definition create_evidence (new_id log_id : string) (now : time) (program_id : string) (payload : EvidenceCreate)
    (current_user : user_ctx) (d : db) : result (Evidence * db) :=
  let? engagement := get_engagement_or_404 program_id current_user d in
  check? require_member_write engagement current_user d in
  check? one_of_guard "kind" (ec_kind payload) KINDS in
  check? one_of_guard "sensitivity" (ec_sensitivity payload) SENSITIVITIES in
  check? one_of_guard "retention" (ec_retention payload) RETENTIONS in
  let finding_id := or_else (ec_finding_id payload) "" in
  check? guard (String.eqb finding_id "" || is_ok (_finding program_id finding_id d)) 400
    "finding_id must belong to this engagement" in
  let body := evidence_body (ec_kind payload) (ec_body payload) in
  let item := MkEvidence new_id program_id (if String.eqb finding_id "" then None else Some finding_id) None (ec_kind payload)
                (ec_title payload) body (sha256_hex body) None None None None None None
                (if String.eqb (ec_collector payload) "" then cu_github_id current_user else ec_collector payload)
                (ec_source payload) (ec_sensitivity payload) (ec_retention payload) true None now in
  Ok (item, log_action log_id now (cu_github_id current_user) "create" "evidence" new_id (Some program_id)
              (set_evidence (evidence d ++ [item]) d)).

Definition find_evidence (program_id evidence_id : string) (d : db) : option Evidence :=
  first_row (λ e, String.eqb (ev_id e) evidence_id && String.eqb (ev_program_id e) program_id) (evidence d).

(** The rows are locked from the reading on; the UPDATE is conditional all the
    same. *)
Definition link_evidence (log_id : string) (now : time) (program_id evidence_id finding_id : string)
    (current_user : user_ctx) (d : db) : result (Evidence * db) :=
  let? engagement := get_engagement_or_404 program_id current_user d in
  check? require_member_write engagement current_user d in
  match _finding program_id finding_id d, find_evidence program_id evidence_id d with
  | Ok finding, Some item =>
      if negb (String.eqb (or_else (ev_finding_id item) "") "") then
        check? guard (bool_decide (ev_finding_id item = Some (fi_id finding))) 409
          "Evidence is already linked to another finding" in
        Ok (item, d)
      else
        let free e := String.eqb (ev_id e) (ev_id item) && String.eqb (ev_program_id e) program_id
                      && bool_decide (ev_finding_id e = None) in
        check? guard (existsb free (evidence d)) 409 "Evidence link changed; reload and retry" in
        let d := set_evidence (update_rows free (ev_set_finding_id (Some (fi_id finding))) (evidence d)) d in
        Ok (ev_set_finding_id (Some (fi_id finding)) item,
            log_action log_id now (cu_github_id current_user) "link" "evidence" (ev_id item) (Some program_id) d)
  | _, _ => http 404 "Finding or evidence not found"
  end.

Definition delete_evidence (log_id : string) (now : time) (program_id evidence_id : string) (current_user : user_ctx)
    (d : db) : result (string * db) :=
  let? engagement := get_engagement_or_404 program_id current_user d in
  check? require_member_write engagement current_user d in
  match find_evidence program_id evidence_id d with
  | None => http 404 "Evidence not found"
  | Some item =>
      Ok ("Evidence deleted",
          log_action log_id now (cu_github_id current_user) "delete" "evidence" evidence_id (Some program_id)
            (set_evidence (rows (λ e, negb (String.eqb (ev_id e) (ev_id item))) (evidence d)) d))
  end.

Definition newest_evidence (a b : Evidence) : Prop := ev_created_at b <= ev_created_at a.
#[export] Instance newest_evidence_dec : RelDecision newest_evidence.
Proof. intros a b. unfold newest_evidence. apply _. Defined.

Definition is_given (column value : option string) : bool :=
  match value with Some _ => bool_decide (column = value) | None => true end.

Definition list_evidence (program_id : string) (finding_id job_id case_id identity_id : option string) (limit offset : nat)
    (current_user : user_ctx) (d : db) : result (list Evidence * Z) :=
  let? _ := get_engagement_or_404 program_id current_user d in
  let about := if String.eqb (or_else finding_id "") "" then None else finding_id in
  let matching := rows (λ e, String.eqb (ev_program_id e) program_id && is_given (ev_finding_id e) about
                             && is_given (ev_job_id e) job_id && is_given (ev_case_id e) case_id
                             && is_given (ev_identity_id e) identity_id) (evidence d) in
  Ok (take limit (drop offset (merge_sort newest_evidence matching)), Z.of_nat (length matching)).
End Activity.
