(* ===== verification/FindingsSafety.v ===== *)
(** * A finding's history tells the finding

    Every change of a finding through the API leaves an entry with the redacted
    state it led to, entries are only ever appended, and evidence keeps its
    content and the finding it was linked to. *)
From S2P Require Import Prelude PyStr Regex Json Digest Time Models Access JobConfig Assets Redaction Schemas Engagements Findings.

(** ** Invariant *)

Definition tells (a : FindingActivity) (f : Finding) : Prop :=
  fa_finding_id a = fi_id f ∧ fa_program_id a = fi_program_id f ∧ fa_snapshot a = snapshot_of f.

Record findings_wf (d : db) : Prop := {
  fw_ids : NoDup (map fi_id (findings d));
  fw_owned : ∀ a, a ∈ finding_activities d →
    ∃ f, f ∈ findings d ∧ fi_id f = fa_finding_id a ∧ fi_program_id f = fa_program_id a;
  fw_first : ∀ f a, f ∈ findings d → head (activity_of (fi_id f) d) = Some a → fa_kind a ∈ ["created"; "baseline"];
  fw_last : ∀ f a, f ∈ findings d → last (activity_of (fi_id f) d) = Some a → fa_snapshot a = snapshot_of f;
  fw_evidence_ids : NoDup (map ev_id (evidence d));
  fw_linked : ∀ e i, e ∈ evidence d → ev_finding_id e = Some i →
    ∃ f, f ∈ findings d ∧ fi_id f = i ∧ fi_program_id f = ev_program_id e;
}.

Section Steps.
Context (nh3_clean html_unescape : string → string).

(** The requests of the four modules, the deletion of an engagement, and
    requests elsewhere, which at most add evidence of no finding. *)
Inductive finding_step (d : db) : db → Prop :=
| fs_add ids now p payload u f d' : nid_row ids ∉ map fi_id (findings d) →
    add_finding ids now p payload u d = Ok (f, d') → finding_step d d'
| fs_update ids now p id payload u f d' : update_finding ids now p id payload u d = Ok (f, d') → finding_step d d'
| fs_delete log_id now p id u m d' : delete_finding log_id now p id u d = Ok (m, d') → finding_step d d'
| fs_activity ids now p id body u a d' : add_activity nh3_clean html_unescape ids now p id body u d = Ok (a, d') → finding_step d d'
| fs_attach new_id log_id now p payload u e d' : new_id ∉ map ev_id (evidence d) →
    create_evidence nh3_clean html_unescape new_id log_id now p payload u d = Ok (e, d') → finding_step d d'
| fs_link log_id now p id finding_id u e d' : link_evidence log_id now p id finding_id u d = Ok (e, d') → finding_step d d'
| fs_detach log_id now p id u m d' : delete_evidence log_id now p id u d = Ok (m, d') → finding_step d d'
| fs_engagement log_id now p u m d' : delete_engagement log_id now p u d = Ok (m, d') → finding_step d d'
| fs_elsewhere d' more : findings d' = findings d → finding_activities d' = finding_activities d →
    evidence d' = evidence d ++ more → NoDup (map ev_id (evidence d ++ more)) →
    (∀ e, e ∈ more → ev_finding_id e = None) → finding_step d d'.

(** ** What a step does to the three tables *)

(** The entries a request appends about [f], which it turns into [f']. *)
Definition entries (d : db) (f f' : Finding) (more : list FindingActivity) : Prop :=
  ∃ base a, more = base ++ [a] ∧ tells a f'
    ∧ (base = [] ∧ activity_of (fi_id f) d ≠ []
       ∨ ∃ b, base = [b] ∧ activity_of (fi_id f) d = [] ∧ tells b f ∧ fa_kind b = "baseline").

Inductive evidence_change (d d' : db) : Prop :=
| ec_added e : evidence d' = evidence d ++ [e] → ev_id e ∉ map ev_id (evidence d) →
    (∀ i, ev_finding_id e = Some i → ∃ f, f ∈ findings d ∧ fi_id f = i ∧ fi_program_id f = ev_program_id e) → evidence_change d d'
| ec_linked b f : evidence d' = update_rows b (ev_set_finding_id (Some (fi_id f))) (evidence d) → f ∈ findings d →
    (∀ e, b e = true → ev_finding_id e = None ∧ ev_program_id e = fi_program_id f) → evidence_change d d'
| ec_removed b : evidence d' = rows b (evidence d) → evidence_change d d'.

Inductive history_change (d d' : db) : Prop :=
| hc_new f a : fi_id f ∉ map fi_id (findings d) → findings d' = findings d ++ [f] →
    finding_activities d' = finding_activities d ++ [a] → tells a f → fa_kind a = "created" →
    evidence d' = evidence d → history_change d d'
| hc_revised f f' more : f ∈ findings d → fi_id f' = fi_id f → fi_program_id f' = fi_program_id f →
    findings d' = update_rows (λ g, String.eqb (fi_id g) (fi_id f)) (λ _, f') (findings d) →
    finding_activities d' = finding_activities d ++ more → entries d f f' more →
    evidence d' = evidence d → history_change d d'
| hc_dropped b : findings d' = rows b (findings d) →
    (∀ f, f ∈ findings d' → activity_of (fi_id f) d' = activity_of (fi_id f) d) →
    (∀ a, a ∈ finding_activities d' → ∃ f, f ∈ findings d' ∧ fi_id f = fa_finding_id a ∧ fi_program_id f = fa_program_id a) →
    (∃ c, evidence d' = rows c (evidence d)) →
    (∀ e i, e ∈ evidence d' → ev_finding_id e = Some i →
       ∃ f, f ∈ findings d' ∧ fi_id f = i ∧ fi_program_id f = ev_program_id e) → history_change d d'
| hc_same : findings d' = findings d → finding_activities d' = finding_activities d → evidence_change d d' → history_change d d'
| hc_more more : findings d' = findings d → finding_activities d' = finding_activities d →
    evidence d' = evidence d ++ more → NoDup (map ev_id (evidence d ++ more)) →
    (∀ e, e ∈ more → ev_finding_id e = None) → history_change d d'.

Lemma upsert_assets new_id p o s c dp hl now d r d' : upsert new_id p o s c dp hl now d = Ok (r, d') → ∃ t, d' = set_assets t d.
Proof.
  intros [(_ & -> & _)|(i & _ & _ & <-)]%upsert_inv; [by exists (assets d); destruct d|].
  unfold upsert_identity. destruct (find_asset _ _ d); simpl; eauto.
Qed.

Lemma link_asset_inv new_id now p f d f' d' : _link_asset new_id now p f d = Ok (f', d') →
  (∃ v, f' = fi_set_asset_id v f) ∧ ∃ t, d' = set_assets t d.
Proof.
  unfold _link_asset. destruct (_ || _).
  - intros [= <- <-]. split; [by exists (fi_asset_id f); destruct f|by exists (assets d); destruct d].
  - intros ([node d1] & Hu%upsert_assets & [= <- <-])%rbind_ok. split; [|done].
    destruct node; [eauto|by exists (fi_asset_id f); destruct f].
Qed.

Lemma finding_spec p id d f : _finding p id d = Ok f → f ∈ findings d ∧ fi_id f = id ∧ fi_program_id f = p.
Proof.
  unfold _finding. destruct (first_row _ _) as [g|] eqn:E; [|done]. intros [= ->].
  apply first_row_Some in E as [? ?]. by bool_simpl.
Qed.

(** A baseline is recorded exactly when there is no history. *)
Lemma baseline_inv new_id now f actor d : let d1 := capture_baseline new_id now f actor d in
  ∃ base, finding_activities d1 = finding_activities d ++ base ∧ findings d1 = findings d ∧ evidence d1 = evidence d
    ∧ (base = [] ∧ activity_of (fi_id f) d ≠ []
       ∨ ∃ b, base = [b] ∧ activity_of (fi_id f) d = [] ∧ tells b f ∧ fa_kind b = "baseline").
Proof.
  unfold capture_baseline. destruct (activity_of (fi_id f) d) as [|a l] eqn:E; simpl.
  - eexists [_]. split_and!; [done..|]. right. eexists. unfold tells. by split_and!.
  - exists []. rewrite app_nil_r. split_and!; [done..|]. by left.
Qed.

Lemma edit_finding_key payload f f' : edit_finding payload f = Ok f' → fi_id f' = fi_id f ∧ fi_program_id f' = fi_program_id f.
Proof.
  unfold edit_finding. cbv zeta. unfold set_title, set_given.
  destruct (fu_title payload) as [[t|]|]; [|done|]; intros [= <-]; by repeat case_match.
Qed.

(** The audit line is written before the rows go. *)
Definition same_history (d d0 : db) : Prop :=
  findings d0 = findings d ∧ finding_activities d0 = finding_activities d ∧ evidence d0 = evidence d.

Lemma drop_finding_change id d d0 : findings_wf d → same_history d d0 → history_change d (drop_finding id d0).
Proof.
  intros Hwf (Hfs & Has & Hev). apply (hc_dropped _ _ (λ f, negb (String.eqb (fi_id f) id))); simpl; rewrite ?Hfs, ?Has, ?Hev;
    [done| | |by eexists|]; clear Hfs Hev.
  - intros f [Hf Hb]%elem_of_rows. bool_simpl. unfold activity_of, drop_finding. simpl. rewrite Has. clear Has.
    induction (finding_activities d) as [|a l IH]; [done|]. simpl.
    destruct (String.eqb_spec (fa_finding_id a) id) as [->|Hne]; simpl.
    + by rewrite (proj2 (String.eqb_neq id (fi_id f))) by congruence.
    + by rewrite IH.
  - intros a [Ha Hb]%elem_of_rows. destruct (fw_owned d Hwf a Ha) as (f & Hf & Hi & Hp). exists f. split; [|done].
    apply elem_of_rows. by rewrite Hi.
  - intros e i [He Hb]%elem_of_rows Hi. destruct (fw_linked d Hwf e i He Hi) as (f & Hf & Hfi & Hp). exists f. split; [|done].
    apply elem_of_rows. split; [done|]. apply negb_true_iff, String.eqb_neq. intros Hx. bool_simpl. apply Hb. congruence.
Qed.

Lemma drop_engagement_change p d d0 : findings_wf d → same_history d d0 → history_change d (drop_engagement p d0).
Proof.
  intros Hwf (Hfs & Has & Hev). apply (hc_dropped _ _ (λ f, negb (String.eqb (fi_program_id f) p))); simpl; unfold others;
    rewrite ?Hfs, ?Has, ?Hev; [done| | |by eexists|]; clear Hfs Hev.
  - intros f [Hf Hb]%elem_of_rows. bool_simpl. unfold activity_of. simpl. unfold others. rewrite Has. clear Has.
    assert (Hall : ∀ a, a ∈ finding_activities d → fa_finding_id a = fi_id f → fa_program_id a ≠ p).
    { intros a Ha Hi. destruct (fw_owned d Hwf a Ha) as (g & Hg & Hgi & <-).
      by rewrite (NoDup_map_inj fi_id _ g f (fw_ids d Hwf) Hg Hf) by congruence. }
    revert Hall. induction (finding_activities d) as [|a l IH]; intros Hall; [done|]. simpl.
    assert (IH' := IH (λ x Hx, Hall x (list_elem_of_further _ _ _ Hx))).
    destruct (String.eqb_spec (fa_program_id a) p) as [Hp|Hp]; simpl.
    + destruct (String.eqb_spec (fa_finding_id a) (fi_id f)) as [Hi|Hi]; [|done]. destruct (Hall a); [left|done..].
    + by rewrite IH'.
  - intros a [Ha Hb]%elem_of_rows. destruct (fw_owned d Hwf a Ha) as (f & Hf & Hi & Hp). exists f. split; [|done].
    apply elem_of_rows. by rewrite Hp.
  - intros e i [He Hb]%elem_of_rows Hi. destruct (fw_linked d Hwf e i He Hi) as (f & Hf & Hfi & Hp). exists f. split; [|done].
    apply elem_of_rows. by rewrite Hp.
Qed.

Lemma put_fresh f l : fi_id f ∉ map fi_id l → ∀ g, fi_id g = fi_id f →
  update_rows (λ h, String.eqb (fi_id h) (fi_id f)) (λ _, f) (l ++ [g]) = l ++ [f].
Proof.
  intros Hf g Hg. unfold update_rows. rewrite map_app. simpl. rewrite Hg, String.eqb_refl. f_equal.
  induction l as [|h l IH]; [done|]. simpl in *. rewrite (proj2 (String.eqb_neq _ _)) by set_solver. f_equal. apply IH. set_solver.
Qed.

Lemma step_changes d d' : finding_step d d' → findings_wf d → history_change d d'.
Proof.
  intros Hs Hwf. destruct Hs as [ids now p payload u f d' Hfresh H|ids now p id payload u f d' H|log_id now p id u m d' H|ids now p id body u a d' H
    |new_id log_id now p payload u e d' Hfresh H|log_id now p id fid u e d' H|log_id now p id u m d' H|log_id now p u m d' H|d' more].
  - unfold add_finding in H. apply rbind_ok in H as (e & _ & H). apply rbind_ok in H as ([] & _ & H).
    apply rbind_ok in H as ([f1 d1] & [[v Hf1] [t Hd1]]%link_asset_inv & [= <- <-]). subst.
    set (f0 := new_finding (nid_row ids) p payload now) in *.
    eapply (hc_new _ _ (fi_set_asset_id v f0)); [exact Hfresh| |reflexivity|by split_and!|done..].
    exact (put_fresh (fi_set_asset_id v f0) (findings d) Hfresh f0 eq_refl).
  - unfold update_finding in H. apply rbind_ok in H as (e & _ & H). apply rbind_ok in H as ([] & _ & H).
    apply rbind_ok in H as (f0 & (Hf0 & Hid & Hp)%finding_spec & H). cbv zeta in H.
    apply rbind_ok in H as (f1 & [Hi1 Hp1]%edit_finding_key & H).
    destruct (baseline_inv (nid_baseline ids) now f0 (cu_github_id u) d) as (base & Ha & Hfs & Hev & Hbase).
    set (d0 := capture_baseline _ _ _ _ _) in *. clearbody d0.
    apply rbind_ok in H as ([f2 d2] & H2 & [= <- <-]).
    assert (fi_id f2 = fi_id f0 ∧ fi_program_id f2 = fi_program_id f0 ∧ ∃ t, d2 = set_assets t d0) as (Hi2 & Hp2 & t & ->).
    { destruct (fu_asset payload); [apply link_asset_inv in H2 as [[v ->] ?]; by split_and!|].
      injection H2 as <- <-. split_and!; [congruence..|]. exists (assets d0). by destruct d0. }
    eapply (hc_revised _ _ f0 f2 _ Hf0 Hi2 Hp2); simpl.
    + unfold put_finding. simpl. by rewrite Hi2, Hfs.
    + rewrite Ha, <-app_assoc. reflexivity.
    + exists base. eexists. split; [reflexivity|]. split; [by split_and!|]. done.
    + done.
  - unfold delete_finding in H. apply rbind_ok in H as (e & _ & H). apply rbind_ok in H as ([] & _ & H).
    apply rbind_ok in H as (f & _ & [= _ <-]). by apply drop_finding_change.
  - unfold add_activity in H. apply rbind_ok in H as (e & _ & H). apply rbind_ok in H as ([] & _ & H).
    apply rbind_ok in H as (f0 & (Hf0 & Hid & Hp)%finding_spec & H). cbv zeta in H.
    apply rbind_ok in H as ([] & _ & H). apply rbind_ok in H as ([] & _ & H). apply rbind_ok in H as ([] & _ & H).
    destruct (baseline_inv (nid_baseline ids) now f0 (cu_github_id u) d) as (base & Ha & Hfs & Hev & Hbase).
    set (d0 := capture_baseline _ _ _ _ _) in *. clearbody d0. injection H as _ <-.
    eapply (hc_revised _ _ f0 f0 _ Hf0 eq_refl eq_refl); simpl.
    + rewrite Hfs. unfold update_rows. rewrite <-(map_id (findings d)) at 1. apply map_ext_in.
      intros g Hg%list_elem_of_In. destruct (String.eqb_spec (fi_id g) (fi_id f0)) as [Heq|]; [|done].
      by apply (NoDup_map_inj fi_id _ _ _ (fw_ids d Hwf) Hg Hf0).
    + rewrite Ha, <-app_assoc. reflexivity.
    + exists base. eexists. split; [reflexivity|]. split; [by split_and!|]. done.
    + done.
  - unfold create_evidence in H. apply rbind_ok in H as (e0 & _ & H). do 4 apply rbind_ok in H as ([] & _ & H). cbv zeta in H.
    apply rbind_ok in H as ([] & Hg%guard_ok & [= <- <-]). apply hc_same; [done..|]. eapply ec_added; simpl; [done|done|].
    intros i. simpl. destruct (String.eqb (or_else (ec_finding_id payload) "") "") eqn:E; [done|]. intros [= <-].
    simpl in Hg. destruct (_finding p _ d) as [f|] eqn:Ef; [|done]. apply finding_spec in Ef as (? & ? & ?).
    exists f. by split_and!.
  - unfold link_evidence in H. apply rbind_ok in H as (e0 & _ & H). apply rbind_ok in H as ([] & _ & H).
    destruct (_finding p fid d) as [f|] eqn:Ef; [|done]. apply finding_spec in Ef as (Hf & Hfi & Hfp).
    destruct (find_evidence p id d) as [item|] eqn:Ei; [|done]. destruct (negb _).
    + apply rbind_ok in H as ([] & _ & [= <- <-]). apply hc_same; [done..|]. apply (ec_removed _ _ (λ _, true)).
      induction (evidence d) as [|x l IH]; [done|]. simpl. by rewrite <-IH.
    + apply rbind_ok in H as ([] & _ & [= <- <-]). apply hc_same; [done..|]. eapply ec_linked; simpl; [reflexivity|done|].
      intros x Hx. simpl in Hx. bool_simpl. split; [done|congruence].
  - unfold delete_evidence in H. apply rbind_ok in H as (e0 & _ & H). apply rbind_ok in H as ([] & _ & H).
    destruct (find_evidence p id d) as [item|]; [|done]. injection H as _ <-. apply hc_same; [done..|]. by eapply ec_removed.
  - unfold delete_engagement in H. apply rbind_ok in H as (e & _ & H). apply rbind_ok in H as ([] & _ & H).
    apply rbind_ok in H as (e1 & _ & H). do 3 apply rbind_ok in H as ([] & _ & H). injection H as _ <-.
    by apply drop_engagement_change.
  - by eapply hc_more.
Qed.
End Steps.

(** ** The invariant is kept *)

Lemma activity_app i d d' more : finding_activities d' = finding_activities d ++ more →
  activity_of i d' = activity_of i d ++ rows (λ a, String.eqb (fa_finding_id a) i) more.
Proof. intros H. unfold activity_of. rewrite H. apply List.filter_app. Qed.

(** All the entries of a revision are about its finding. *)
Lemma entries_about d f f' more a : fi_id f' = fi_id f → fi_program_id f' = fi_program_id f → entries d f f' more → a ∈ more →
  fa_finding_id a = fi_id f ∧ fa_program_id a = fi_program_id f.
Proof.
  intros Hi Hp (base & last_ & -> & (H1 & H2 & _) & Hb) [Ha| ->%list_elem_of_singleton]%elem_of_app; [|split; congruence].
  destruct Hb as [[-> _]|(b & -> & _ & (H3 & H4 & _) & _)]; [by apply elem_of_nil in Ha|].
  apply list_elem_of_singleton in Ha as ->. done.
Qed.

Lemma revised_activity d d' f f' more g : fi_id f' = fi_id f → fi_program_id f' = fi_program_id f → entries d f f' more →
  finding_activities d' = finding_activities d ++ more →
  activity_of (fi_id g) d' = activity_of (fi_id g) d ++ if String.eqb (fi_id g) (fi_id f) then more else [].
Proof.
  intros Hi Hp He Ha. rewrite (activity_app _ _ _ _ Ha). f_equal. destruct (String.eqb_spec (fi_id g) (fi_id f)) as [->|Hne].
  - apply rows_all. intros a Hin. apply String.eqb_eq. by eapply entries_about.
  - apply rows_none. intros a Hin. apply String.eqb_neq. destruct (entries_about _ _ _ _ _ Hi Hp He Hin). congruence.
Qed.

Lemma revised_wf d d' f f' more : findings_wf d → f ∈ findings d → fi_id f' = fi_id f → fi_program_id f' = fi_program_id f →
  findings d' = update_rows (λ g, String.eqb (fi_id g) (fi_id f)) (λ _, f') (findings d) →
  finding_activities d' = finding_activities d ++ more → entries d f f' more → evidence d' = evidence d → findings_wf d'.
Proof.
  intros Hwf Hf Hi Hp Hfs Ha He Hev. destruct Hwf as [H1 H2 H3 H4 H5 H6].
  assert (Hkeep : ∀ g, g ∈ findings d → ∃ g', g' ∈ findings d' ∧ fi_id g' = fi_id g ∧ fi_program_id g' = fi_program_id g).
  { intros g Hg. eexists. rewrite Hfs. split; [apply elem_of_update_rows; by exists g|].
    destruct (String.eqb_spec (fi_id g) (fi_id f)) as [Heq|]; [|done].
    apply (NoDup_map_inj _ _ _ _ H1 Hg Hf) in Heq as ->. done. }
  assert (Hrev : ∀ g, g ∈ findings d' → g = f' ∨ g ∈ findings d ∧ fi_id g ≠ fi_id f).
  { intros g. rewrite Hfs. intros (h & Hh & ->)%elem_of_update_rows.
    destruct (String.eqb_spec (fi_id h) (fi_id f)); auto. }
  pose proof He as (base & a & Hmore & Ht & Hb).
  split; rewrite ?Hev; try done.
  - rewrite Hfs. clear -H1 Hi. induction (findings d) as [|g l IH]; [done|]. simpl in *. apply NoDup_cons in H1 as [Hg Hl].
    assert (Hm : map fi_id (update_rows (λ g, String.eqb (fi_id g) (fi_id f)) (λ _, f') l) = map fi_id l).
    { unfold update_rows. rewrite map_map. apply map_ext. intros h. by destruct (String.eqb_spec (fi_id h) (fi_id f)) as [->|]. }
    destruct (String.eqb_spec (fi_id g) (fi_id f)) as [Heq|]; simpl; rewrite Hm; constructor; auto. congruence.
  - intros x. rewrite Ha. intros [Hx|Hx]%elem_of_app.
    + destruct (H2 x Hx) as (g & Hg & <- & <-). by apply Hkeep.
    + destruct (entries_about _ _ _ _ _ Hi Hp He Hx) as [-> ->]. by apply Hkeep.
  - intros g x Hg. rewrite (revised_activity _ _ _ _ _ _ Hi Hp He Ha). destruct (Hrev g Hg) as [->|[Hg' Hne]].
    + rewrite Hi, String.eqb_refl. destruct Hb as [[-> Hne]|(b & -> & Hnil & _ & Hk)].
      * destruct (activity_of (fi_id f) d) as [|y l] eqn:E; [done|]. intros [= <-]. apply (H3 f y Hf). by rewrite E.
      * rewrite Hnil, Hmore. intros [= <-]. rewrite Hk. set_solver.
    + rewrite (proj2 (String.eqb_neq _ _) Hne), app_nil_r. by apply H3.
  - intros g x Hg. rewrite (revised_activity _ _ _ _ _ _ Hi Hp He Ha). destruct (Hrev g Hg) as [->|[Hg' Hne]].
    + rewrite Hi, String.eqb_refl, Hmore, app_assoc, last_snoc. intros [= <-]. apply Ht.
    + rewrite (proj2 (String.eqb_neq _ _) Hne), app_nil_r. by apply H4.
  - intros e i Hin Hei. destruct (H6 e i Hin Hei) as (g & Hg & <- & <-). by apply Hkeep.
Qed.

Lemma new_wf d d' f a : findings_wf d → fi_id f ∉ map fi_id (findings d) → findings d' = findings d ++ [f] →
  finding_activities d' = finding_activities d ++ [a] → tells a f → fa_kind a = "created" → evidence d' = evidence d →
  findings_wf d'.
Proof.
  intros Hwf Hfresh Hfs Ha (Ht1 & Ht2 & Ht3) Hk Hev. destruct Hwf as [H1 H2 H3 H4 H5 H6].
  assert (Hnone : activity_of (fi_id f) d = []).
  { apply rows_none. intros x Hx. apply String.eqb_neq. intros Hxi. destruct (H2 x Hx) as (g & Hg & Hgi & _). apply Hfresh.
    rewrite <-Hxi, <-Hgi. by apply list_elem_of_fmap_2. }
  assert (Hact : ∀ g, g ∈ findings d' → g = f ∧ activity_of (fi_id g) d' = [a]
                   ∨ g ∈ findings d ∧ activity_of (fi_id g) d' = activity_of (fi_id g) d).
  { intros g. rewrite Hfs. intros [Hg| ->%list_elem_of_singleton]%elem_of_app; [right|left]; (split; [done|]);
      rewrite (activity_app _ _ _ _ Ha); simpl; rewrite Ht1.
    - rewrite (proj2 (String.eqb_neq _ _)); [by rewrite app_nil_r|]. intros Heq. apply Hfresh. rewrite Heq. by apply list_elem_of_fmap_2.
    - by rewrite String.eqb_refl, Hnone. }
  assert (Hkeep : ∀ g, g ∈ findings d → g ∈ findings d') by (intros g Hg; rewrite Hfs; apply elem_of_app; by left).
  split; rewrite ?Hev; try done.
  - rewrite Hfs, map_app. by apply NoDup_snoc.
  - intros x. rewrite Ha. intros [Hx| ->%list_elem_of_singleton]%elem_of_app.
    + destruct (H2 x Hx) as (g & Hg & ?). eauto.
    + exists f. rewrite Hfs. split; [apply elem_of_app; right; by apply list_elem_of_singleton|by split].
  - intros g x [[-> ->]|[Hg ->]]%Hact; [intros [= <-]; rewrite Hk; left|by apply H3].
  - intros g x [[-> ->]|[Hg ->]]%Hact; [intros [= <-]; done|by apply H4].
  - intros e i Hin Hei. destruct (H6 e i Hin Hei) as (g & Hg & ?). eauto.
Qed.

Lemma evidence_wf d d' : findings_wf d → findings d' = findings d → finding_activities d' = finding_activities d →
  evidence_change d d' → findings_wf d'.
Proof.
  intros [H1 H2 H3 H4 H5 H6] Hfs Ha Hc.
  assert (Hact : ∀ i, activity_of i d' = activity_of i d) by (intros i; unfold activity_of; by rewrite Ha).
  assert (Hev : NoDup (map ev_id (evidence d')) ∧ ∀ e i, e ∈ evidence d' → ev_finding_id e = Some i →
            ∃ f, f ∈ findings d ∧ fi_id f = i ∧ fi_program_id f = ev_program_id e).
  { destruct Hc as [e He Hfresh Hl|b f He Hf Hb|b He]; rewrite He.
    - rewrite map_app. split; [by apply NoDup_snoc|]. intros x i [Hx| ->%list_elem_of_singleton]%elem_of_app; eauto.
    - rewrite map_update_rows by done. split; [done|]. intros x i (y & Hy & ->)%elem_of_update_rows.
      destruct (b y) eqn:E; [|by apply H6]. intros [= <-]. destruct (Hb y E) as [_ Hp]. by exists f.
    - split; [by apply NoDup_map_rows|]. intros x i [Hx _]%elem_of_rows. by apply H6. }
  destruct Hev. split; rewrite ?Hfs, ?Ha; try done; intros f a; rewrite Hact; eauto.
Qed.

Lemma change_wf d d' : history_change d d' → findings_wf d → findings_wf d'.
Proof.
  intros [f a|f f' more|b Hfs Hact Ha [c He] Hl|Hfs Ha Hc|more Hfs Ha He Hnd Hno] Hwf.
  - by eapply new_wf.
  - by eapply revised_wf.
  - destruct Hwf as [H1 H2 H3 H4 H5 H6]. assert (Hin : ∀ f, f ∈ findings d' → f ∈ findings d) by (intros f; rewrite Hfs; by intros [? _]%elem_of_rows).
    split; try done.
    + rewrite Hfs. by apply NoDup_map_rows.
    + intros f a Hf. rewrite (Hact f Hf). by apply H3, Hin.
    + intros f a Hf. rewrite (Hact f Hf). by apply H4, Hin.
    + rewrite He. by apply NoDup_map_rows.
  - by eapply evidence_wf.
  - destruct Hwf as [H1 H2 H3 H4 H5 H6]. assert (Hact : ∀ i, activity_of i d' = activity_of i d) by (intros i; unfold activity_of; by rewrite Ha).
    split; rewrite ?Hfs, ?Ha, ?He; try done; try (intros f a; rewrite Hact; eauto).
    intros e i [Hin|Hin]%elem_of_app; [by apply H6|]. by rewrite (Hno e Hin).
Qed.

(** ** Properties *)

Section Properties.
Context (nh3_clean html_unescape : string → string).
#[local] Abbreviation step := (finding_step nh3_clean html_unescape).

Lemma steps_wf d d' : rtc step d d' → findings_wf d → findings_wf d'.
Proof. induction 1 as [|x y z Hs _ IH]; [done|]. intros Hwf. apply IH. eapply change_wf; [by eapply step_changes|done]. Qed.


(** History is append-only and no change is silent: while a finding exists
    every request keeps its entries in place, and one that changes the row in
    anything adds an entry with the state it led to. *)
Theorem no_silent_change d d' f f' :
  findings_wf d → step d d' → f ∈ findings d → f' ∈ findings d' → fi_id f' = fi_id f →
  ∃ more, activity_of (fi_id f) d' = activity_of (fi_id f) d ++ more
    ∧ (f' ≠ f → ∃ a, last more = Some a ∧ fa_snapshot a = snapshot_of f').
Proof.
  intros Hwf Hs Hf Hf' Hid. pose proof (step_changes _ _ _ _ Hs Hwf) as Hc. pose proof (change_wf _ _ Hc Hwf) as Hwf'.
  assert (Hsame : ∀ more, f ∈ findings d' → activity_of (fi_id f) d' = activity_of (fi_id f) d ++ more →
    ∃ more, activity_of (fi_id f) d' = activity_of (fi_id f) d ++ more ∧ (f' ≠ f → ∃ a, last more = Some a ∧ fa_snapshot a = snapshot_of f')).
  { intros more Hin Heq. exists more. split; [done|]. intros []. by apply (NoDup_map_inj fi_id _ _ _ (fw_ids _ Hwf') Hf' Hin). }
  destruct Hc as [g a Hfresh Hfs Ha Ht Hk He|g g' more Hg Hi Hp Hfs Ha He Hev|b Hfs Hact _ _ _|Hfs Ha _|more Hfs Ha _ _ _].
  - eapply Hsame; [rewrite Hfs; apply elem_of_app; by left|by apply activity_app].
  - exists (if String.eqb (fi_id f) (fi_id g) then more else []).
    split; [by apply (revised_activity _ _ _ _ _ _ Hi Hp He Ha)|]. intros Hne.
    rewrite Hfs in Hf'. apply elem_of_update_rows in Hf' as (h & Hh & ->).
    destruct (String.eqb_spec (fi_id h) (fi_id g)) as [Hhg|Hhg].
    + destruct He as (base & a & -> & Ht & _). exists a. rewrite <-Hid, Hi, String.eqb_refl, last_snoc. split; [done|apply Ht].
    + destruct Hne. by apply (NoDup_map_inj fi_id _ _ _ (fw_ids _ Hwf) Hh Hf).
  - apply (Hsame []).
    + rewrite Hfs in Hf' |- *. apply elem_of_rows in Hf' as [Hin Hb]. apply elem_of_rows. split; [done|].
      by rewrite <-(NoDup_map_inj fi_id _ _ _ (fw_ids _ Hwf) Hin Hf Hid).
    + rewrite app_nil_r, <-Hid. by rewrite Hact.
  - apply (Hsame []); [by rewrite Hfs|]. unfold activity_of. by rewrite Ha, app_nil_r.
  - apply (Hsame []); [by rewrite Hfs|]. unfold activity_of. by rewrite Ha, app_nil_r.
Qed.

(** Evidence is what it was: a request leaves a stored piece of evidence as
    it is, removes it, or links it - once, when it had no finding - to a
    finding of its engagement. *)
Theorem evidence_never_moves d d' e e' :
  findings_wf d → step d d' → e ∈ evidence d → e' ∈ evidence d' → ev_id e' = ev_id e →
  e' = e ∨ ev_finding_id e = None
    ∧ ∃ f, f ∈ findings d ∧ fi_program_id f = ev_program_id e ∧ e' = ev_set_finding_id (Some (fi_id f)) e.
Proof.
  intros Hwf Hs He He' Hid. pose proof (fw_evidence_ids _ Hwf) as Hids.
  assert (Hold : e' ∈ evidence d → e' = e) by (intros Hin; by apply (NoDup_map_inj ev_id _ _ _ Hids Hin He)).
  destruct (step_changes _ _ _ _ Hs Hwf) as [g a _ _ _ _ _ Hev|g g' more _ _ _ _ _ _ Hev|b _ _ _ [c Hev] _|_ _ Hc|more _ _ Hev Hnd _].
  - left. rewrite Hev in He'. auto.
  - left. rewrite Hev in He'. auto.
  - left. rewrite Hev in He'. apply elem_of_rows in He' as [Hin _]. auto.
  - destruct Hc as [x Hev Hfresh _|b f Hev Hf Hb|b Hev]; rewrite Hev in He'.
    + apply elem_of_app in He' as [Hin| ->%list_elem_of_singleton]; [auto|]. destruct Hfresh. rewrite Hid. by apply list_elem_of_fmap_2.
    + apply elem_of_update_rows in He' as (x & Hx & ->). assert (x = e) as -> by (apply (NoDup_map_inj ev_id _ _ _ Hids Hx He); by destruct (b x)).
      destruct (b e) eqn:E; [right|by left]. destruct (Hb e E) as [Hn Hp]. split; [done|]. by exists f.
    + left. apply elem_of_rows in He' as [Hin _]. auto.
  - left. rewrite Hev in He'. apply (NoDup_map_inj ev_id _ _ _ Hnd); [done|apply elem_of_app; by left|done].
Qed.
End Properties.

(** ** A small engagement *)

Module FindingsExample.
Definition same_text (s : string) : string := s.
Definition alice : user_ctx := UserCtx "alice" "alice" "" "full" None.
Definition finding : Finding :=
  MkFinding "f-1" "eng-1" "IDOR" (Some "high") (Some "api.acme.com") None (Some "new") (Some "") (Some "") (Some "") (Some "") (Some 0).
Definition proof : Evidence :=
  MkEvidence "e-1" "eng-1" None None "note" "" "seen" (sha256_hex "seen") None None None None None None "alice" "" "internal"
    "engagement" true None 0.
Definition d0 : db := set_evidence [proof] (set_findings [finding] (set_engagement demo_engagement empty_db)).
Definition ids : fresh_ids := MkFreshIds "r" "n" "b" "en" "l".
Definition payload : FindingUpdate :=
  MkFindingUpdate None None None (Some (Some "triaged")) (Some (Some "cookie: sid=1")) None None None.
Definition run {A} (m : result (A * db)) : db := match m with Ok (_, d) => d | Raise _ => empty_db end.
Definition got {A} (x : A) (m : result (A * db)) : A := match m with Ok (a, _) => a | Raise _ => x end.
Definition updated := update_finding ids 5 "eng-1" "f-1" payload alice d0.
Definition d1 : db := Eval vm_compute in run updated.
Definition finding1 : Finding := Eval vm_compute in got finding updated.
Definition linked := link_evidence "l" 6 "eng-1" "e-1" "f-1" alice d0.
Definition d2 : db := Eval vm_compute in run linked.

Example baseline_then_update : map fa_kind (activity_of "f-1" d1) = ["baseline"; "updated"].
Proof. reflexivity. Qed.

Lemma d0_wf : findings_wf d0.
Proof.
  split; simpl.
  - apply NoDup_singleton.
  - intros a Ha. by apply elem_of_nil in Ha.
  - intros f a ->%list_elem_of_singleton. done.
  - intros f a ->%list_elem_of_singleton. done.
  - apply NoDup_singleton.
  - by intros e i ->%list_elem_of_singleton.
Qed.

Lemma updates : finding_step same_text same_text d0 d1.
Proof. apply (fs_update _ _ d0 ids 5 "eng-1" "f-1" payload alice finding1 d1). vm_compute. reflexivity. Qed.


Lemma no_silent_change_witness :
  ∃ more, activity_of (fi_id finding) d1 = activity_of (fi_id finding) d0 ++ more
    ∧ (finding1 ≠ finding → ∃ a, last more = Some a ∧ fa_snapshot a = snapshot_of finding1).
Proof. apply (no_silent_change same_text same_text d0 d1); [apply d0_wf|apply updates|left|left|reflexivity]. Defined.

Lemma evidence_never_moves_witness :
  let e' := ev_set_finding_id (Some "f-1") proof in
  e' = proof ∨ ev_finding_id proof = None
    ∧ ∃ f, f ∈ findings d0 ∧ fi_program_id f = ev_program_id proof ∧ e' = ev_set_finding_id (Some (fi_id f)) proof.
Proof.
  apply (evidence_never_moves same_text same_text d0 d2); [apply d0_wf| |left|left|reflexivity].
  apply (fs_link _ _ d0 "l" 6 "eng-1" "e-1" "f-1" alice (got proof linked) d2). vm_compute. reflexivity.
Defined.
End FindingsExample.
