(* ===== verification/Serializers.v ===== *)
(** * What the API shows of its rows: [serializers.py]

    One function per row, and the page of engagements: every aggregate is
    grouped over the whole page and every role on it is resolved with two
    queries.  The theorem at the end says that the page is what asking about
    each engagement on its own would have given. *)
From S2P Require Import Prelude PyStr Json Time Models Access JobConfig Findings.
From Stdlib Require Import Ascii.

(** ** Rows *)

(** [v or ""] and [v or d] *)
Definition or_text (d : string) (v : option string) : json := JStr (or_else v d).
Definition or_empty : option string → json := or_text "".

Definition opt_int (v : option Z) : json := match v with Some z => JInt z | None => JNull end.
Definition _iso (value : option time) : string := match value with Some t => isoformat t | None => "" end.

Definition serialize_scope_item (item : ScopeItem) : dict :=
  [("id", JStr (si_id item)); ("value", JStr (si_value item)); ("kind", opt_json (si_kind item));
   ("notes", or_empty (si_notes item)); ("max_severity", or_empty (si_max_severity item))].

Definition serialize_manual_test (t : ManualTest) : dict :=
  [("id", JStr (mt_id t)); ("title", JStr (mt_title t)); ("hypothesis", or_empty (mt_hypothesis t));
   ("payload", or_empty (mt_payload t)); ("evidence", or_empty (mt_evidence t)); ("status", opt_json (mt_status t))].

Definition serialize_report (r : Report) : dict :=
  [("id", JStr (rp_id r)); ("finding_id", or_empty (rp_finding_id r)); ("title", JStr (rp_title r));
   ("summary", or_empty (rp_summary r)); ("steps", or_empty (rp_steps r)); ("impact", or_empty (rp_impact r));
   ("remediation", or_empty (rp_remediation r)); ("cwe", or_empty (rp_cwe r)); ("cvss", or_empty (rp_cvss r));
   ("status", opt_json (rp_status r)); ("created_at", JStr (_iso (rp_created_at r)))].

Definition serialize_recon_item (item : ReconItem) : dict :=
  let tech_list := rows (λ t, negb (String.eqb t "")) (split_char ","%char (or_else (ri_tech item) "")) in
  [("id", JStr (ri_id item)); ("source", or_empty (ri_source item)); ("url", or_empty (ri_url item));
   ("path", or_empty (ri_path item)); ("host", or_empty (ri_host item)); ("title", or_empty (ri_title item));
   ("status_code", opt_int (ri_status_code item)); ("webserver", or_empty (ri_webserver item));
   ("port", or_empty (ri_port item)); ("tech", JList (map JStr tech_list)); ("content_type", or_empty (ri_content_type item));
   ("length", opt_int (ri_length item)); ("words", opt_int (ri_words item)); ("lines", opt_int (ri_lines item));
   ("notes", or_empty (ri_notes item)); ("job_id", opt_json (ri_job_id item))].

Definition serialize_scan_item (item : ScanItem) : dict :=
  [("id", JStr (sc_id item)); ("source", or_text "nuclei" (Some (sc_source item)));
   ("template_id", JStr (sc_template_id item)); ("title", JStr (sc_title item));
   ("severity", or_text "info" (Some (sc_severity item))); ("asset", JStr (sc_asset item));
   ("matched_at", JStr (sc_matched_at item)); ("type", JStr (sc_type item)); ("description", JStr (sc_description item));
   ("status", or_text "new" (Some (sc_status item))); ("cwe", JStr (sc_cwe item)); ("cvss", JStr (sc_cvss item));
   ("detection_method", JStr (sc_detection_method item)); ("confidence", JStr (sc_confidence item));
   ("payload", JStr (sc_payload item)); ("match_evidence", JStr (sc_match_evidence item));
   ("job_id", opt_json (sc_job_id item))].

Definition serialize_import_record (r : ImportRecord) : dict :=
  [("id", JStr (im_id r)); ("job_id", opt_json (im_job_id r)); ("tool_type", JStr (im_tool_type r));
   ("filename", or_text "redacted" (Some (im_filename r))); ("imported_count", JInt (im_imported_count r))].

Definition serialize_client (c : Client) : dict :=
  [("id", JStr (cl_id c)); ("name", JStr (cl_name c)); ("contact_name", or_empty (cl_contact_name c));
   ("contact_email", or_empty (cl_contact_email c)); ("notes", or_empty (cl_notes c)); ("created_at", JStr (_iso (cl_created_at c)))].

Definition serialize_authorization (a : Authorization) : dict :=
  [("id", JStr (au_id a)); ("program_id", JStr (au_program_id a)); ("permits", or_empty (au_permits a));
   ("authorized_by", or_empty (au_authorized_by a)); ("authorized_at", JStr (_iso (au_authorized_at a)));
   ("reference", or_empty (au_reference a)); ("window_start", JStr (_iso (au_window_start a)));
   ("window_end", JStr (_iso (au_window_end a))); ("status", or_text "active" (au_status a)); ("notes", or_empty (au_notes a));
   ("created_at", JStr (_iso (au_created_at a)))].

Definition serialize_proposal (p : AgentProposal) : dict :=
  [("id", JStr (pp_id p)); ("program_id", JStr (pp_program_id p)); ("proposed_by", or_empty (pp_proposed_by p));
   ("kind", JStr (pp_kind p)); ("payload", if truthy (pp_payload p) then pp_payload p else JObj []);
   ("reason", or_empty (pp_reason p)); ("source", or_empty (pp_source p)); ("status", JStr (pp_status p));
   ("applied_resource_id", or_empty (pp_applied_resource_id p)); ("created_at", JStr (_iso (pp_created_at p)));
   ("resolved_at", JStr (_iso (pp_resolved_at p))); ("resolved_by", or_empty (pp_resolved_by p))].

Definition _SEVERITIES : list string := ["critical"; "high"; "medium"; "low"; "info"].
Definition _FINDING_STATUSES : list string := ["new"; "candidate"; "triaged"; "in_progress"; "closed"].

(** The program of each row of a counted table. *)
Definition _COUNTED : list ((db → list string) * string) :=
  [(λ d, map ri_program_id (recon_items d), "recon"); (λ d, map sc_program_id (scan_items d), "scans");
   (λ d, map mt_program_id (manual_tests d), "manual"); (λ d, map fi_program_id (findings d), "findings");
   (λ d, map rp_program_id (reports d), "reports"); (λ d, map sv_program_id (services d), "services")].

(** ** Dictionaries and groups *)

(** [{k: v for k, v in l}] *)
Definition dict_from {A} (l : list (string * A)) : list (string * A) := foldl (λ acc kv, dset kv.1 kv.2 acc) [] l.

(** [SELECT k, COUNT(id) ... GROUP BY k] over the keys of the rows. *)
Definition occurrences {K} `{EqDecision K} (k : K) (l : list K) : Z := Z.of_nat (length (rows (λ k', bool_decide (k' = k)) l)).
Definition group_count {K} `{EqDecision K} (l : list K) : list (K * Z) := map (λ k, (k, occurrences k l)) (dedup l).

(** [counts[key].get(id, 0)] *)
Definition number_at (k : string) (d : list (string * Z)) : Z := default 0 (lookup_key k d).

(** ** Roles of a page *)

Definition add_role (id role : string) (roles : list (string * list string)) : list (string * list string) :=
  dset id (default [] (lookup_key id roles) ++ [role]) roles.

(** [max(found, key=rank)], or viewer when nothing was found *)
Definition highest_role (found : list string) : string :=
  match found with [] => "viewer" | r :: rest => max_role r rest end.

Definition org_roles_of (org_ids : list string) (github_id : string) (d : db) : list (string * string) :=
  match org_ids with
  | [] => []
  | _ :: _ => dict_from (map (λ m, (om_org_id m, om_role m))
                (rows (λ m, mem (om_org_id m) org_ids && String.eqb (om_github_id m) github_id) (organization_members d)))
  end.

Definition member_roles_of (ids : list string) (github_id : string) (d : db) : list (string * string) :=
  dict_from (map (λ m, (em_program_id m, or_else (Some (em_role m)) "member"))
    (rows (λ m, mem (em_program_id m) ids && String.eqb (em_member_github_id m) github_id) (program_members d))).

(** What an engagement the caller does not own finds in the two tables. *)
Definition org_grant (org_roles : list (string * string)) (e : Engagement) : option string :=
  if String.eqb (or_else (e_org_id e) "") "" then None else lookup_key (or_else (e_org_id e) "") org_roles.

Definition add_grants (org_roles member_roles : list (string * string)) (roles : list (string * list string)) (e : Engagement)
    : list (string * list string) :=
  let roles := match org_grant org_roles e with Some role => add_role (e_id e) role roles | None => roles end in
  match lookup_key (e_id e) member_roles with Some role => add_role (e_id e) role roles | None => roles end.

Definition _resolve_roles (engagements : list Engagement) (github_id : string) (d : db) : list (string * string) :=
  let owner e := String.eqb (e_owner_github_id e) github_id in
  let roles := dict_from (map (λ e, (e_id e, if owner e then ["owner"] else [])) engagements) in
  let unowned := rows (λ e, negb (owner e)) engagements in
  let org_ids := rows (λ o, negb (String.eqb o "")) (map (λ e, or_else (e_org_id e) "") unowned) in
  let roles := foldl (add_grants (org_roles_of org_ids github_id d) (member_roles_of (map e_id unowned) github_id d))
                 roles unowned in
  map (λ kv, (kv.1, highest_role kv.2)) roles.

(** ** Engagements *)

Definition numbers (l : list (string * Z)) : json := JObj (map (λ kv, (kv.1, JInt kv.2)) l).

Definition _engagement_dict (d : db) (p : Engagement) (my_role : string) (counts findings_by_severity findings_by_status : list (string * Z))
    : dict :=
  let scope kind := rows (λ i, String.eqb (si_program_id i) (e_id p) && String.eqb (si_scope_type i) kind) (scope_items d) in
  let listed {A} (f : A → dict) (l : list A) := JList (map (λ x, JObj (f x)) l) in
  [("id", JStr (e_id p)); ("owner_github_id", JStr (e_owner_github_id p)); ("name", JStr (e_name p));
   ("platform", or_empty (e_platform p)); ("program_url", or_empty (e_program_url p));
   ("scope_summary", or_empty (e_scope_summary p)); ("severity_guidance", or_empty (e_severity_guidance p));
   ("safe_harbor_notes", or_empty (e_safe_harbor_notes p)); ("client_id", or_empty (e_client_id p));
   ("engagement_type", or_text "bug_bounty" (e_engagement_type p));
   ("engagement_status", or_text "active" (e_engagement_status p)); ("starts_at", JStr (_iso (e_starts_at p)));
   ("ends_at", JStr (_iso (e_ends_at p))); ("org_id", or_empty (e_org_id p));
   ("stop_work_at", JStr (_iso (e_stop_work_at p))); ("stop_work_reason", or_empty (e_stop_work_reason p));
   ("max_request_rate", opt_int (e_max_request_rate p));
   ("scope", JObj [("in", listed serialize_scope_item (scope "in")); ("out", listed serialize_scope_item (scope "out"))]);
   ("imports", listed serialize_import_record (rows (λ r, String.eqb (im_program_id r) (e_id p)) (import_records d)));
   ("recon_count", JInt (number_at "recon" counts)); ("scans_count", JInt (number_at "scans" counts));
   ("manual_tests_count", JInt (number_at "manual" counts)); ("findings_count", JInt (number_at "findings" counts));
   ("findings_by_severity", numbers findings_by_severity); ("findings_by_status", numbers findings_by_status);
   ("reports_count", JInt (number_at "reports" counts)); ("services_count", JInt (number_at "services" counts));
   ("my_role", JStr my_role)].

(** One grouped count of the findings by a column: [d.setdefault(pid, {})[v] = cnt] for the known values. *)
Definition tally (options : list string) (acc : list (string * list (string * Z))) (group : (string * option string) * Z)
    : list (string * list (string * Z)) :=
  let '((pid, value), cnt) := group in
  match value with
  | Some v => if mem v options then dset pid (dset v cnt (default [] (lookup_key pid acc))) acc else acc
  | None => acc
  end.

Definition tallied (options ids : list string) (column : Finding → option string) (d : db) : list (string * list (string * Z)) :=
  foldl (tally options) []
    (group_count (map (λ f, (fi_program_id f, column f)) (rows (λ f, mem (fi_program_id f) ids) (findings d)))).

Definition breakdown (options : list string) (per_value : list (string * Z)) : list (string * Z) :=
  map (λ s, (s, number_at s per_value)) options.

Definition serialize_engagements (engagements : list Engagement) (d : db) (github_id : option string) : list dict :=
  match engagements with
  | [] => []
  | _ :: _ =>
      let ids := map e_id engagements in
      let counts := map (λ '(table, key), (key, dict_from (group_count (rows (λ pid, mem pid ids) (table d))))) _COUNTED in
      let sev_by_engagement := tallied _SEVERITIES ids fi_severity d in
      let status_by_engagement := tallied _FINDING_STATUSES ids fi_status d in
      let role_by_id := if String.eqb (or_else github_id "") "" then []
                        else _resolve_roles engagements (or_else github_id "") d in
      let of_engagement {A} (e : Engagement) (m : list (string * list A)) := default [] (lookup_key (e_id e) m) in
      map (λ e,
        _engagement_dict d e (default "owner" (lookup_key (e_id e) role_by_id))
          (map (λ '(_, key), (key, number_at (e_id e) (default [] (lookup_key key counts)))) _COUNTED)
          (breakdown _SEVERITIES (of_engagement e sev_by_engagement))
          (breakdown _FINDING_STATUSES (of_engagement e status_by_engagement)))
        engagements
  end.

Definition serialize_engagement (p : Engagement) (d : db) (github_id : option string) : dict :=
  default [] (head (serialize_engagements [p] d github_id)).

(** ** [GET /engagements], [GET /engagements/{id}] and its [stats] ([routers/engagements.py], [routers/runner.py]) *)

Definition all_engagements (d : db) : list Engagement := map snd (map_to_list (engagements d)).

Definition get_programs (current_user : user_ctx) (d : db) : list dict :=
  let reachable := accessible_engagement_ids (cu_github_id current_user) d in
  let page := match reachable with [] => [] | _ :: _ => rows (λ e, mem (e_id e) reachable) (all_engagements d) end in
  serialize_engagements page d (Some (cu_github_id current_user)).

Definition get_engagement (program_id : string) (current_user : user_ctx) (d : db) : result dict :=
  let? engagement := get_engagement_or_404 program_id current_user d in
  Ok (serialize_engagement engagement d (Some (cu_github_id current_user))).

(** The counts by name, and the findings by severity, a finding without one
    under [None]. *)
Definition get_engagement_stats (program_id : string) (current_user : user_ctx) (d : db)
    : result (list (string * Z) * list (option string * Z)) :=
  let? _ := get_engagement_or_404 program_id current_user d in
  Ok ([("recon_count", occurrences program_id (map ri_program_id (recon_items d)));
       ("scans_count", occurrences program_id (map sc_program_id (scan_items d)));
       ("findings_count", occurrences program_id (map fi_program_id (findings d)));
       ("manual_tests_count", occurrences program_id (map mt_program_id (manual_tests d)));
       ("reports_count", occurrences program_id (map rp_program_id (reports d)))],
      group_count (map fi_severity (rows (λ f, String.eqb (fi_program_id f) program_id) (findings d)))).

(** ** What the page says of each engagement *)

(** The reference: each engagement asked about on its own. *)
Definition engagement_view (d : db) (github_id : string) (e : Engagement) : dict :=
  let count {A} (pid : A → string) (t : list A) := occurrences (e_id e) (map pid t) in
  let found (column : Finding → option string) v := occurrences (e_id e, Some v) (map (λ f, (fi_program_id f, column f)) (findings d)) in
  _engagement_dict d e (default "viewer" (engagement_access e github_id d))
    [("recon", count ri_program_id (recon_items d)); ("scans", count sc_program_id (scan_items d));
     ("manual", count mt_program_id (manual_tests d)); ("findings", count fi_program_id (findings d));
     ("reports", count rp_program_id (reports d)); ("services", count sv_program_id (services d))]
    (map (λ s, (s, found fi_severity s)) _SEVERITIES) (map (λ s, (s, found fi_status s)) _FINDING_STATUSES).

(** The unique constraints of the two membership tables. *)
Record memberships_unique (d : db) : Prop := {
  mu_org : NoDup (map (λ m, (om_org_id m, om_github_id m)) (organization_members d));
  mu_program : NoDup (map (λ m, (em_program_id m, em_member_github_id m)) (program_members d));
}.

(** *** Dictionaries built from rows *)

(** When the value is a function of the key, the order of the rows is of no
    consequence. *)
Lemma lookup_dict_from {A} (f : string → A) l k : (∀ kv, kv ∈ l → kv.2 = f kv.1) →
  lookup_key k (dict_from l) = if decide (k ∈ map fst l) then Some (f k) else None.
Proof.
  unfold dict_from. assert (∀ acc, (∀ kv, kv ∈ l → kv.2 = f kv.1) →
    lookup_key k (foldl (λ acc kv, dset kv.1 kv.2 acc) acc l) = if decide (k ∈ map fst l) then Some (f k) else lookup_key k acc) as H.
  { induction l as [|[k0 v] l IH]; intros acc Hl; [by destruct (decide _) as [?%elem_of_nil|]|]. cbn [foldl map fst snd].
    rewrite IH by (intros; apply Hl; by right). pose proof (Hl (k0, v) ltac:(left)) as Hv. simpl in Hv. subst v.
    destruct (decide (k = k0)) as [->|Hne].
    - rewrite lookup_dset_eq, (decide_True (P := k0 ∈ k0 :: _)) by left. by case_decide.
    - rewrite lookup_dset_ne by done. apply decide_ext. set_solver. }
  intros Hl. rewrite H by done. done.
Qed.

Lemma elem_of_group_count {K} `{EqDecision K} (l : list K) kv : kv ∈ group_count l ↔ kv.1 ∈ l ∧ kv.2 = occurrences kv.1 l.
Proof.
  unfold group_count. rewrite list_elem_of_fmap. setoid_rewrite elem_of_dedup. destruct kv as [k c]. split; simpl.
  - by intros (? & [= -> ->] & ?).
  - intros [? ->]. eauto.
Qed.

Lemma occurrences_none {K} `{EqDecision K} (k : K) l : k ∉ l → occurrences k l = 0.
Proof.
  intros Hk. unfold occurrences. rewrite rows_none; [done|]. intros x Hx. apply bool_decide_eq_false. by intros ->.
Qed.

(** Rows of another program do not count. *)
Lemma occurrences_rows {K} `{EqDecision K} (k : K) p l : p k = true → occurrences k (rows p l) = occurrences k l.
Proof.
  intros Hk. unfold occurrences. do 2 f_equal. induction l as [|x l IH]; [done|]. simpl. destruct (p x) eqn:Ep; simpl; rewrite IH; [done|].
  rewrite bool_decide_eq_false_2; [done|]. intros ->. congruence.
Qed.

Lemma number_at_groups k p (l : list string) : p k = true →
  number_at k (dict_from (group_count (rows p l))) = occurrences k l.
Proof.
  intros Hp. unfold number_at. rewrite (lookup_dict_from (λ k, occurrences k (rows p l))) by (intros kv Hkv; by apply elem_of_group_count in Hkv as [_ ?]).
  rewrite <-(occurrences_rows k p l) by done. destruct (decide _) as [|Hn]; [done|]. simpl. symmetry. apply occurrences_none.
  contradict Hn. apply list_elem_of_fmap. exists (k, occurrences k (rows p l)). split; [done|]. by apply elem_of_group_count.
Qed.

(** *** The two breakdowns *)

Definition cell (pid v : string) (m : list (string * list (string * Z))) : Z := number_at v (default [] (lookup_key pid m)).

Lemma cell_tally options acc k c pid v : v ∈ options →
  cell pid v (tally options acc (k, c)) = if decide (k = (pid, Some v)) then c else cell pid v acc.
Proof.
  intros Hv. destruct k as [p w]. unfold tally, cell, number_at. destruct w as [w|]; [|by rewrite decide_False].
  destruct (mem w options) eqn:Em.
  - destruct (decide (pid = p)) as [->|Hp].
    + rewrite lookup_dset_eq. simpl. destruct (decide (v = w)) as [->|Hw].
      * by rewrite lookup_dset_eq, decide_True.
      * rewrite lookup_dset_ne, decide_False by congruence. done.
    + rewrite lookup_dset_ne, decide_False by congruence. done.
  - rewrite decide_False; [done|]. intros [= -> ->]. apply mem_spec in Hv. congruence.
Qed.

Lemma cell_tallied options ids column d pid v : v ∈ options → pid ∈ ids →
  cell pid v (tallied options ids column d) = occurrences (pid, Some v) (map (λ f, (fi_program_id f, column f)) (findings d)).
Proof.
  intros Hv Hp. set (l := map _ _). unfold tallied.
  assert (map (λ f, (fi_program_id f, column f)) (rows (λ f, mem (fi_program_id f) ids) (findings d))
          = rows (λ k, mem k.1 ids) l) as ->.
  { unfold l. induction (findings d) as [|f t IH]; [done|]. simpl. destruct (mem _ ids); simpl; by rewrite IH. }
  rewrite <-(occurrences_rows (pid, Some v) (λ k, mem k.1 ids) l) by (by apply mem_spec).
  set (l' := rows _ l). assert (∀ gs acc, (∀ kc, kc ∈ gs → kc.2 = occurrences kc.1 l') →
    cell pid v (foldl (tally options) acc gs)
    = if decide ((pid, Some v) ∈ map fst gs) then occurrences (pid, Some v) l' else cell pid v acc) as H.
  { induction gs as [|[k c] gs IH]; intros acc Hgs; [by destruct (decide _) as [?%elem_of_nil|]|]. cbn [foldl map fst snd].
    rewrite IH by (intros; apply Hgs; by right). pose proof (Hgs (k, c) ltac:(left)) as Hc. simpl in Hc. subst c.
    rewrite cell_tally by done. destruct (decide (k = _)) as [->|Hne].
    - rewrite (decide_True (P := (pid, Some v) ∈ (pid, Some v) :: _)) by left. by case_decide.
    - apply decide_ext. set_solver. }
  rewrite H by (intros kc Hkc; by apply elem_of_group_count in Hkc as [_ ?]).
  destruct (decide _) as [|Hn]; [done|]. unfold cell, number_at. simpl. symmetry. apply occurrences_none.
  contradict Hn. apply list_elem_of_fmap. exists ((pid, Some v), occurrences (pid, Some v) l'). split; [done|]. by apply elem_of_group_count.
Qed.

(** *** The roles *)

Section Roles.
Context (d : db) (g : string) (Hu : memberships_unique d) (Hwf : access_wf d).

Lemma org_roles_of_spec ids o : o ≠ "" → o ∈ ids → lookup_key o (org_roles_of ids g d) = org_role (Some o) g d.
Proof.
  intros Ho Hin. unfold org_roles_of. destruct ids as [|i ids']; [set_solver|]. set (ids := i :: ids') in *. clearbody ids.
  assert (∀ m, m ∈ organization_members d → om_github_id m = g → om_org_id m ≠ "" → org_role (Some (om_org_id m)) g d = Some (om_role m)) as Hone.
  { intros m Hm <- Hne. assert (is_Some (org_role (Some (om_org_id m)) (om_github_id m) d)) as [r Hr] by (apply org_role_is_Some; eauto).
    rewrite Hr. unfold org_role in Hr. destruct (om_org_id m) eqn:E; [done|]. rewrite <-E in *.
    apply fmap_Some in Hr as (m' & [Hm' Hb]%first_row_Some & ->). bool_simpl. do 2 f_equal.
    apply (NoDup_map_inj _ _ _ _ (mu_org d Hu)); [done..|congruence]. }
  rewrite (lookup_dict_from (λ o, default "" (org_role (Some o) g d))).
  - destruct (decide _) as [Hd|Hn].
    + apply list_elem_of_fmap in Hd as ([? ?] & -> & (m & [= -> ->] & [Hm Hb]%elem_of_rows)%list_elem_of_fmap). bool_simpl.
      cbn [fst] in *. by rewrite Hone.
    + symmetry. apply eq_None_not_Some. intros (_ & m & Hm & <- & <-)%org_role_is_Some. apply Hn.
      rewrite map_map. apply list_elem_of_fmap. exists m. split; [done|]. apply elem_of_rows. split; [done|].
      rewrite String.eqb_refl, andb_true_r. by apply mem_spec.
  - intros kv (m & -> & [Hm Hb]%elem_of_rows)%list_elem_of_fmap. bool_simpl. cbn [fst snd].
    rewrite Hone; [done..|]. by apply (wf_org_member d Hwf).
Qed.

Lemma member_roles_of_spec ids e : e_id e ∈ ids →
  lookup_key (e_id e) (member_roles_of ids g d) = (λ r, or_else (Some r) "member") <$> member_role e g d.
Proof.
  intros Hin. unfold member_role, member_roles_of.
  set (row k := first_row (λ m, String.eqb (em_program_id m) k && String.eqb (em_member_github_id m) g) (program_members d)).
  assert (∀ m, m ∈ program_members d → em_member_github_id m = g → row (em_program_id m) = Some m) as Hone.
  { intros m Hm <-. destruct (row (em_program_id m)) as [m'|] eqn:E.
    - apply first_row_Some in E as [Hm' Hb]. bool_simpl. f_equal. apply (NoDup_map_inj _ _ _ _ (mu_program d Hu)); [done..|congruence].
    - unfold row in E. rewrite first_row_None in E. specialize (E m Hm). by rewrite !String.eqb_refl in E. }
  fold (row (e_id e)). rewrite (lookup_dict_from (λ k, default "" ((λ m, or_else (Some (em_role m)) "member") <$> row k))).
  - destruct (decide _) as [Hd|Hn].
    + apply list_elem_of_fmap in Hd as ([? ?] & Heq & (m & [= -> ->] & [Hm Hb]%elem_of_rows)%list_elem_of_fmap). bool_simpl.
      simpl in Heq. by rewrite Heq, Hone.
    + destruct (row (e_id e)) as [m|] eqn:E; [|done]. destruct Hn. apply first_row_Some in E as [Hm Hb]. bool_simpl.
      rewrite map_map. apply list_elem_of_fmap. exists m. split; [done|]. apply elem_of_rows. split; [done|].
      apply andb_true_iff. split; [apply mem_spec; congruence|by apply String.eqb_eq].
  - intros kv (m & -> & [Hm Hb]%elem_of_rows)%list_elem_of_fmap. bool_simpl. simpl. by rewrite Hone.
Qed.

Lemma lookup_add_role id id' role roles :
  lookup_key id (add_role id' role roles)
  = if decide (id = id') then Some (default [] (lookup_key id roles) ++ [role]) else lookup_key id roles.
Proof. unfold add_role. case_decide; subst; [apply lookup_dset_eq|by apply lookup_dset_ne]. Qed.

(** What an engagement finds in the two tables, as a list. *)
Definition found_in (orgs members : list (string * string)) (e : Engagement) : list string :=
  option_list (org_grant orgs e) ++ option_list (lookup_key (e_id e) members).

Lemma lookup_add_grants orgs members roles e id :
  default [] (lookup_key id (add_grants orgs members roles e))
  = default [] (lookup_key id roles) ++ (if decide (id = e_id e) then found_in orgs members e else []).
Proof.
  unfold add_grants, found_in. destruct (org_grant orgs e), (lookup_key (e_id e) members); simpl;
    rewrite ?lookup_add_role; destruct (decide (id = e_id e)); simpl; rewrite ?app_nil_r; try done.
  by rewrite <-app_assoc.
Qed.

Lemma keys_add_grants orgs members roles e : e_id e ∈ keys roles → keys (add_grants orgs members roles e) = keys roles.
Proof.
  intros Hin. assert (∀ role rs, e_id e ∈ keys rs → keys (add_role (e_id e) role rs) = keys rs) as Hk.
  { intros role rs. unfold add_role. generalize (default [] (lookup_key (e_id e) rs) ++ [role]). intros v.
    induction rs as [|[k w] rs IH]; simpl; [set_solver|]. destruct (String.eqb_spec (e_id e) k) as [->|Hne]; [done|].
    intros [?|?]%elem_of_cons; [done|]. simpl. by rewrite IH. }
  unfold add_grants. destruct (org_grant orgs e), (lookup_key (e_id e) members); repeat rewrite Hk; done.
Qed.

Lemma fold_grants orgs members l roles id : NoDup (map e_id l) →
  default [] (lookup_key id (foldl (add_grants orgs members) roles l))
  = default [] (lookup_key id roles) ++ match first_row (λ e, String.eqb (e_id e) id) l with Some e => found_in orgs members e | None => [] end.
Proof.
  revert roles. induction l as [|e l IH]; intros roles; simpl; [by rewrite app_nil_r|].
  intros [He Hl]%NoDup_cons. rewrite IH, lookup_add_grants, <-app_assoc by done. f_equal.
  destruct (String.eqb_spec (e_id e) id) as [<-|Hne]; [|by rewrite decide_False by done].
  rewrite decide_True by done. assert (first_row (λ e0, String.eqb (e_id e0) (e_id e)) l = None) as ->; [|by rewrite app_nil_r].
  apply first_row_None. intros x Hx. apply String.eqb_neq. intros Hxe. apply He. rewrite <-Hxe. by apply list_elem_of_fmap_2.
Qed.

Lemma found_is_granted orgs members ids e :
  orgs = org_roles_of ids g d → (or_else (e_org_id e) "" ≠ "" → or_else (e_org_id e) "" ∈ ids) →
  lookup_key (e_id e) members = (λ r, or_else (Some r) "member") <$> member_role e g d →
  found_in orgs members e = granted_roles e g d.
Proof.
  intros -> Hin Hm. unfold found_in, granted_roles, org_grant. rewrite Hm. f_equal.
  - destruct (e_org_id e) as [o|] eqn:Eo; [|done]. destruct (decide (o = "")) as [->|Ho]; [done|].
    assert (or_else (Some o) "" = o) as Hoe by (unfold or_else; by rewrite (proj2 (String.eqb_neq o ""))).
    rewrite Hoe in *. rewrite (proj2 (String.eqb_neq o "")), org_roles_of_spec by auto.
    destruct (org_role (Some o) g d) as [r|] eqn:Er; [|done]. simpl.
    rewrite (proj2 (String.eqb_neq r "")); [done|]. by eapply org_role_nonblank.
  - by destruct (member_role e g d).
Qed.

Lemma keys_fold_grants orgs members l roles : (∀ e, e ∈ l → e_id e ∈ keys roles) →
  keys (foldl (add_grants orgs members) roles l) = keys roles.
Proof.
  revert roles. induction l as [|e l IH]; intros roles Hl; [done|]. simpl.
  assert (keys (add_grants orgs members roles e) = keys roles) as Hk by (apply keys_add_grants, Hl; left).
  rewrite IH; [done|]. intros x Hx. rewrite Hk. apply Hl. by right.
Qed.

Lemma first_row_unique l e : NoDup (map e_id l) → e ∈ l → first_row (λ x, String.eqb (e_id x) (e_id e)) l = Some e.
Proof.
  intros Hnd He. destruct (first_row _ l) as [x|] eqn:E.
  - apply first_row_Some in E as [Hx Hb]. bool_simpl. f_equal. by apply (NoDup_map_inj e_id l).
  - rewrite first_row_None in E. specialize (E e He). by rewrite String.eqb_refl in E.
Qed.

(** The two queries of the page find what [engagement_access] finds for each
    engagement. *)
Lemma resolve_roles_spec es e : NoDup (map e_id es) → e ∈ es →
  lookup_key (e_id e) (_resolve_roles es g d) = Some (default "viewer" (engagement_access e g d)).
Proof.
  intros Hnd He. unfold _resolve_roles. set (owner x := String.eqb (e_owner_github_id x) g).
  set (roles := dict_from _). set (unowned := rows _ es). set (ids := rows _ (map _ unowned)).
  assert (∀ x, x ∈ es → lookup_key (e_id x) roles = Some (if owner x then ["owner"] else [])) as Hroles.
  { intros x Hx. unfold roles. rewrite (lookup_dict_from (λ k, match first_row (λ y, String.eqb (e_id y) k) es with
      | Some y => if owner y then ["owner"] else [] | None => [] end)).
    - rewrite first_row_unique, decide_True; [done| |done..]. rewrite map_map. by apply (list_elem_of_fmap_2 e_id).
    - intros kv (y & -> & Hy)%list_elem_of_fmap. simpl. by rewrite first_row_unique. }
  assert (∀ x, x ∈ unowned → x ∈ es ∧ owner x = false) as Hun by (intros x [? ?]%elem_of_rows; split; [done|by apply negb_true_iff]).
  assert (∀ x, x ∈ es → e_id x ∈ keys roles) as Hkeys.
  { intros x Hx. destruct (decide (e_id x ∈ keys roles)) as [?|Hn]; [done|]. apply lookup_key_None in Hn. by rewrite Hroles in Hn. }
  set (final := foldl _ roles unowned).
  assert (is_Some (lookup_key (e_id e) final)) as [found Hf].
  { apply not_eq_None_Some. rewrite lookup_key_None. unfold final. rewrite keys_fold_grants; [|intros; by apply Hkeys, Hun]. auto. }
  assert (found = default [] (lookup_key (e_id e) final)) as Hdef by (by rewrite Hf).
  unfold final in Hdef. rewrite fold_grants, Hroles in Hdef; [|done|by apply NoDup_map_rows]. simpl in Hdef.
  assert (lookup_key (e_id e) (map (λ kv, (kv.1, highest_role kv.2)) final) = highest_role <$> lookup_key (e_id e) final) as ->.
  { clear. induction final as [|[k v] l IH]; [done|]. simpl. by destruct (String.eqb _ k). }
  rewrite Hf. simpl. f_equal. subst found. unfold engagement_access. fold (owner e). destruct (owner e) eqn:Eo.
  - assert (first_row (λ x, String.eqb (e_id x) (e_id e)) unowned = None) as ->; [|done].
    apply first_row_None. intros x [Hx Hxo]%Hun. apply String.eqb_neq. intros Hid.
    assert (x = e) as -> by (by apply (NoDup_map_inj e_id es)). congruence.
  - assert (e ∈ unowned) as Heu by (apply elem_of_rows; split; [done|by apply negb_true_iff]).
    rewrite first_row_unique; [|by apply NoDup_map_rows|done]. simpl. erewrite found_is_granted; [|done| |].
    + by destruct (granted_roles e g d).
    + intros Hne. apply elem_of_rows. split; [by apply (list_elem_of_fmap_2 (λ e, or_else (e_org_id e) ""))|]. by apply negb_true_iff, String.eqb_neq.
    + apply member_roles_of_spec. by apply list_elem_of_fmap_2.
Qed.
End Roles.

Lemma serialize_engagements_spec es d g : memberships_unique d → access_wf d → g ≠ "" → NoDup (map e_id es) →
  serialize_engagements es d (Some g) = map (engagement_view d g) es.
Proof.
  intros Hu Hwf Hg Hnd. destruct es as [|e0 es']; [done|]. set (es := e0 :: es') in *. unfold serialize_engagements.
  replace (or_else (Some g) "") with g by (unfold or_else; by rewrite (proj2 (String.eqb_neq g ""))).
  rewrite (proj2 (String.eqb_neq g "")) by done. unfold es at 1. fold es.
  assert (∀ e, e ∈ es → mem (e_id e) (map e_id es) = true) as Hin by (intros; by apply mem_spec, list_elem_of_fmap_2).
  apply map_ext_in. intros e He%list_elem_of_In. rewrite resolve_roles_spec by done. specialize (Hin e He).
  unfold engagement_view. cbn [default]. unfold _COUNTED. cbn [map lookup_key default].
  cbn -[number_at group_count dict_from mem _engagement_dict breakdown tallied lookup_key engagement_access _SEVERITIES _FINDING_STATUSES].
  f_equal.
  - cbn [lookup_key String.eqb Ascii.eqb Bool.eqb]. cbn [default].
    rewrite !(number_at_groups _ (λ pid, mem pid (map e_id es))) by done. done.
  - apply map_ext_in. intros s Hs%list_elem_of_In. f_equal. apply cell_tallied; [done|by apply mem_spec].
  - apply map_ext_in. intros s Hs%list_elem_of_In. f_equal. apply cell_tallied; [done|by apply mem_spec].
Qed.

Lemma all_engagements_NoDup d : access_wf d → NoDup (map e_id (all_engagements d)).
Proof.
  intros Hwf. unfold all_engagements. rewrite map_map.
  assert (map (λ kv : string * Engagement, e_id kv.2) (map_to_list (engagements d)) = map fst (map_to_list (engagements d))) as ->.
  { apply map_ext_in. intros [k e] Hk%list_elem_of_In. apply elem_of_map_to_list in Hk. by apply (wf_engagement_key d Hwf). }
  apply NoDup_fst_map_to_list.
Qed.

(** C35. The page of engagements is built with a fixed number of queries, and it
    says what asking about each engagement would: a caller is shown exactly the
    engagements [engagement_access] gives a role on, each with that role, its
    own row counts and its own breakdowns, and the detail endpoint shows the
    same entry, or the answer of an engagement that does not exist. *)
Theorem listing_is_access d u : let g := cu_github_id u in
  access_wf d → memberships_unique d → g ≠ "" →
  get_programs u d = map (engagement_view d g) (rows (λ e, bool_decide (is_Some (engagement_access e g d))) (all_engagements d))
  ∧ ∀ id, get_engagement id u d
      = match engagements d !! id with
        | Some e => if decide (is_Some (engagement_access e g d)) then Ok (engagement_view d g e) else http 404 "Engagement not found"
        | None => http 404 "Engagement not found"
        end.
Proof.
  intros g Hwf Hu Hg. split.
  - unfold get_programs. fold g. set (reachable := accessible_engagement_ids g d).
    rewrite serialize_engagements_spec; [|done..|].
    + f_equal. transitivity (rows (λ e, mem (e_id e) reachable) (all_engagements d)).
      { destruct reachable; [|done]. by rewrite rows_none. }
      apply List.filter_ext_in. intros e He%list_elem_of_In. apply eq_true_iff_eq. rewrite mem_spec, bool_decide_eq_true.
      unfold reachable. rewrite accessible_iff_access by done. apply list_elem_of_fmap in He as ([k e'] & -> & He%elem_of_map_to_list).
      simpl. rewrite (wf_engagement_key d Hwf k) by done. naive_solver.
    + destruct reachable; [constructor|]. apply NoDup_map_rows. by apply all_engagements_NoDup.
  - intros id. unfold get_engagement, get_engagement_or_404. fold g. destruct (engagements d !! id) as [e|]; [|done].
    destruct (engagement_access e g d) as [r|] eqn:Er; [|by rewrite decide_False by (by intros [? ?])].
    rewrite decide_True by eauto. simpl. unfold serialize_engagement. rewrite serialize_engagements_spec; [done..|apply NoDup_singleton].
Qed.

Definition listing_db : db :=
  set_findings
    [MkFinding "f-1" "eng-1" "IDOR" (Some "high") None None (Some "new") None None None None None;
     MkFinding "f-2" "eng-2" "XSS" (Some "high") None None (Some "new") None None None None None;
     MkFinding "f-3" "eng-1" "Leak" (Some "low") None None (Some "closed") None None None None None] demo_db.
Definition bob : user_ctx := UserCtx "bob" "" "" "full" None.

Lemma listing_is_access_witness :
  access_wf listing_db ∧ memberships_unique listing_db
  ∧ map (λ e, (dget "my_role" e, dget "findings_count" e)) (get_programs bob listing_db) = [(JStr "member", JInt 2)].
Proof.
  assert (access_wf listing_db) as Hwf by exact (Build_access_wf listing_db (wf_engagement_key _ demo_wf) (wf_member_fk _ demo_wf) (wf_org_member _ demo_wf)).
  assert (memberships_unique listing_db) as Hu by (split; apply NoDup_singleton).
  split_and!; [exact Hwf|exact Hu|]. rewrite (proj1 (listing_is_access listing_db bob Hwf Hu ltac:(discriminate))). vm_compute. reflexivity.
Defined.
