(* ===== verification/Deliverables.v ===== *)
(** * Client reports: [routers/deliverables.py]

    A deliverable is a numbered series of revisions.  Each is a snapshot of the
    engagement's record, redacted, with the Markdown made of it; only its
    workflow status changes afterwards.  A request body is what pydantic hands
    the handler.  The Markdown has dashes above U+00FF: the model stands one of
    its own characters in for it. *)
From S2P Require Import Prelude PyStr Regex Json Digest Time Models Access JobConfig Redaction Schemas Scope Parsers Findings Serializers.
From Stdlib Require Import Ascii.

Definition MAX_SNAPSHOT_BYTES : Z := 4 * 1024 * 1024.

(** ** [json.dumps(j, ensure_ascii=False)] *)

Definition raw_escape (c : ascii) : string :=
  if (code c <? 32) || (code c =? 34) || (code c =? 92) then json_escape c else str1 c.
Fixpoint raw_escape_all (s : string) : string :=
  match s with EmptyString => EmptyString | String c s' => raw_escape c +:+ raw_escape_all s' end.
Definition raw_string (s : string) : string := String dquote (raw_escape_all s +:+ str1 dquote).

Fixpoint raw_dumps (j : json) : string :=
  match j with
  | JStr s => raw_string s
  | JList l => "[" +:+ join ", " (map raw_dumps l) +:+ "]"
  | JObj d => "{" +:+ join ", " (map (λ kv, raw_string kv.1 +:+ ": " +:+ raw_dumps kv.2) d) +:+ "}"
  | _ => json_dumps false j
  end.

(** ** Request bodies *)

Record ReportContent := MkReportContent {
  rc_title : string;
  rc_executive_summary : string;
  rc_methodology : string;
  rc_limitations : string;
  rc_remediation_priorities : string;
  rc_finding_ids : option (list string);
  rc_evidence_ids : list string;
}.

(** [body.model_dump(exclude={"base_revision"})] *)
Definition model_dump (b : ReportContent) : dict :=
  [("title", JStr (rc_title b)); ("executive_summary", JStr (rc_executive_summary b)); ("methodology", JStr (rc_methodology b));
   ("limitations", JStr (rc_limitations b)); ("remediation_priorities", JStr (rc_remediation_priorities b));
   ("finding_ids", match rc_finding_ids b with Some l => JList (map JStr l) | None => JNull end);
   ("evidence_ids", JList (map JStr (rc_evidence_ids b)))].

(** ** What a revision is made of *)

(** [ORDER BY created_at, id], NULL last. *)
Definition older_finding (a b : Finding) : Prop :=
  match fi_created_at a, fi_created_at b with
  | Some x, Some y => x < y ∨ x = y ∧ String.le (fi_id a) (fi_id b)
  | Some _, None => True
  | None, Some _ => False
  | None, None => String.le (fi_id a) (fi_id b)
  end.
#[export] Instance older_finding_dec : RelDecision older_finding.
Proof. intros a b. unfold older_finding. repeat case_match; apply _. Defined.
Definition older_evidence (a b : Evidence) : Prop :=
  ev_created_at a < ev_created_at b ∨ ev_created_at a = ev_created_at b ∧ String.le (ev_id a) (ev_id b).
#[export] Instance older_evidence_dec : RelDecision older_evidence.
Proof. intros a b. unfold older_evidence. apply _. Defined.
Definition older_activity (a b : FindingActivity) : Prop :=
  fa_created_at a < fa_created_at b ∨ fa_created_at a = fa_created_at b ∧ String.le (fa_id a) (fa_id b).
#[export] Instance older_activity_dec : RelDecision older_activity.
Proof. intros a b. unfold older_activity. apply _. Defined.
Definition older_authorization (a b : Authorization) : Prop :=
  match au_created_at a, au_created_at b with
  | Some x, Some y => x < y ∨ x = y ∧ String.le (au_id a) (au_id b)
  | Some _, None => True
  | None, Some _ => False
  | None, None => String.le (au_id a) (au_id b)
  end.
#[export] Instance older_authorization_dec : RelDecision older_authorization.
Proof. intros a b. unfold older_authorization. repeat case_match; apply _. Defined.
Definition scope_by_id (a b : ScopeItem) : Prop := String.le (si_id a) (si_id b).
#[export] Instance scope_by_id_dec : RelDecision scope_by_id.
Proof. intros a b. unfold scope_by_id. apply _. Defined.

(** [ranks.get(f.severity, 5)] *)
Definition severity_rank (f : Finding) : Z :=
  match fi_severity f with
  | Some "critical" => 0 | Some "high" => 1 | Some "medium" => 2 | Some "low" => 3 | Some "info" => 4
  | _ => 5
  end.

Definition select_findings (program_id : string) (finding_ids : option (list string)) (d : db) : result (list Finding) :=
  let wanted f := match finding_ids with Some ids => mem (fi_id f) ids | None => true end in
  let found := merge_sort older_finding (rows (λ f, String.eqb (fi_program_id f) program_id && wanted f) (findings d)) in
  check? guard (match finding_ids with Some ids => (length found =? length (dedup ids))%nat | None => true end) 404 "Finding not found" in
  Ok (sorted_by (λ a b, severity_rank a <=? severity_rank b) found).

Definition select_evidence (program_id : string) (evidence_ids : list string) (chosen : list Finding) (d : db) : result (list Evidence) :=
  let found := merge_sort older_evidence
                 (rows (λ e, String.eqb (ev_program_id e) program_id && mem (ev_id e) evidence_ids) (evidence d)) in
  check? guard (length found =? length (dedup evidence_ids))%nat 404 "Evidence not found" in
  let omitted e := negb (String.eqb (or_else (ev_finding_id e) "") "") && negb (mem (or_else (ev_finding_id e) "") (map fi_id chosen)) in
  check? guard (negb (existsb omitted found)) 400 "Selected evidence belongs to an omitted finding" in
  Ok found.

Definition opt_iso (value : option time) : json := opt_json (isoformat <$> value).

Definition engagement_part (engagement : Engagement) (d : db) : json :=
  let client := first_row (λ c, bool_decide (e_client_id engagement = Some (cl_id c))) (clients d) in
  JObj [("id", JStr (e_id engagement)); ("name", JStr (e_name engagement)); ("type", opt_json (e_engagement_type engagement));
        ("status", opt_json (e_engagement_status engagement));
        ("client", JStr (match client with Some c => cl_name c | None => "" end));
        ("starts_at", opt_iso (e_starts_at engagement)); ("ends_at", opt_iso (e_ends_at engagement))].

Definition authorization_part (a : Authorization) : json :=
  JObj [("reference", opt_json (au_reference a)); ("authorized_by", opt_json (au_authorized_by a));
        ("window_start", opt_iso (au_window_start a)); ("window_end", opt_iso (au_window_end a)); ("status", opt_json (au_status a))].

Definition activity_part (a : FindingActivity) : json :=
  JObj [("finding_id", JStr (fa_finding_id a)); ("kind", JStr (fa_kind a)); ("outcome", opt_json (fa_outcome a));
        ("notes", JStr (fa_notes a)); ("created_at", JStr (isoformat (fa_created_at a)))].

Definition evidence_part (e : Evidence) : json :=
  JObj [("id", JStr (ev_id e)); ("finding_id", opt_json (ev_finding_id e)); ("title", JStr (ev_title e)); ("kind", JStr (ev_kind e));
        ("body", JStr (ev_body e)); ("content_hash", JStr (ev_content_hash e)); ("sensitivity", JStr (ev_sensitivity e));
        ("source", JStr (ev_source e)); ("job_id", opt_json (ev_job_id e)); ("case_id", opt_json (ev_case_id e));
        ("case_ref", opt_json (ev_case_ref e)); ("identity_id", opt_json (ev_identity_id e));
        ("observed_outcome", opt_json (ev_observed_outcome e)); ("expected_decision", opt_json (ev_expected_decision e))].

Definition _snapshot (now : time) (engagement : Engagement) (body : ReportContent) (revision : Z) (d : db) : result json :=
  check? guard (negb (String.eqb (strip (rc_title body)) "")) 400 "Title is required" in
  let? chosen := select_findings (e_id engagement) (rc_finding_ids body) d in
  let? cited := select_evidence (e_id engagement) (rc_evidence_ids body) chosen d in
  let history := merge_sort older_activity
    (rows (λ a, String.eqb (fa_program_id a) (e_id engagement) && mem (fa_finding_id a) (map fi_id chosen)
                && mem (fa_kind a) ["remediation"; "retest"]) (finding_activities d)) in
  let scopes := merge_sort scope_by_id (rows (λ s, String.eqb (si_program_id s) (e_id engagement)) (scope_items d)) in
  let auths := merge_sort older_authorization (rows (λ a, String.eqb (au_program_id a) (e_id engagement)) (authorizations d)) in
  let snapshot := clean_tree (JObj
    [("schema_version", JInt 1); ("revision", JInt revision); ("generated_at", JStr (isoformat now +:+ "+00:00"));
     ("editorial", JObj (model_dump body)); ("engagement", engagement_part engagement d);
     ("scope", JList (map (λ s, JObj (serialize_scope_item s ++ [("scope_type", JStr (si_scope_type s))])) scopes));
     ("authorizations", JList (map authorization_part auths)); ("findings", JList (map (λ f, JObj (serialize_finding f)) chosen));
     ("activity", JList (map activity_part history)); ("evidence", JList (map evidence_part cited))]) in
  check? guard (Z.of_nat (length (utf8 (raw_dumps snapshot))) <=? MAX_SNAPSHOT_BYTES) 413
    "Report exceeds 4 MiB; select fewer findings or evidence items" in
  Ok snapshot.

(** ** [_markdown] *)

(** [j[k]] of a snapshot, in which every key is present, and what an f-string
    prints of it. *)
Definition part (k : string) (j : json) : json := match j with JObj d => dget k d | _ => JNull end.
Definition printed (k : string) (j : json) : string := py_str (part k j).
Definition printed_or (fallback k : string) (j : json) : string := if truthy (part k j) then printed k j else fallback.
Definition parts (k : string) (j : json) : list json := match part k j with JList l => l | _ => [] end.

Definition capitalize (s : string) : string :=
  match s with EmptyString => EmptyString | String c s' => upper (str1 c) +:+ lower s' end.

Definition LF : string := str1 (chr 10).

(** The body of a piece of evidence, each line indented: no line of it starts
    at the margin. *)
Definition indented (body : string) : string := join LF (map (λ line, "    " +:+ line) (splitlines body)).

Section Markdown.
Context (em_dash : ascii).
#[local] Abbreviation dash := (" " +:+ str1 em_dash +:+ " ").

Definition activity_lines (f activity : json) : list string :=
  if py_eq (part "finding_id" activity) (part "id" f)
  then ["#### " +:+ capitalize (printed "kind" activity) +:+ dash +:+ printed "created_at" activity;
        printed_or "" "outcome" activity; printed "notes" activity]
  else [].

Definition finding_lines (s f : json) : list string :=
  ["### " +:+ printed "title" f;
   "Severity: " +:+ printed "severity" f +:+ " | Status: " +:+ printed "status" f +:+ " | Asset: " +:+ printed "asset" f]
  ++ concat (map (λ '(key, title), ["#### " +:+ title; printed key f])
               [("summary", "Summary"); ("steps", "Steps"); ("impact", "Impact"); ("remediation", "Remediation")])
  ++ concat (map (activity_lines f) (parts "activity" s)).

Definition evidence_lines (item : json) : list string :=
  ["### " +:+ printed_or (printed "id" item) "title" item;
   "Sensitivity: " +:+ printed "sensitivity" item +:+ " | Source: " +:+ printed "source" item +:+ " | SHA-256: "
   +:+ printed "content_hash" item;
   "Job: " +:+ printed_or "unknown" "job_id" item +:+ " | Case: " +:+ printed_or "unknown" "case_ref" item +:+ " ("
   +:+ printed_or "unknown" "case_id" item +:+ ") | Identity: " +:+ printed_or "unknown" "identity_id" item +:+ " | Expected: "
   +:+ printed_or "unknown" "expected_decision" item +:+ " | Observed: " +:+ printed_or "unknown" "observed_outcome" item;
   indented (printed "body" item)].

Definition _markdown (s : json) : string :=
  let e := part "engagement" s in
  let content := part "editorial" s in
  let lines :=
    ["# " +:+ printed "title" content; "Revision " +:+ printed "revision" s +:+ " | Generated " +:+ printed "generated_at" s;
     "Engagement: " +:+ printed "name" e; "Client: " +:+ printed_or "Not recorded" "client" e;
     "Testing window: " +:+ printed_or "Not recorded" "starts_at" e +:+ dash +:+ printed_or "Not recorded" "ends_at" e;
     "## Executive summary"; printed "executive_summary" content; "## Scope and authorization"]
    ++ map (λ r, "- " +:+ upper (printed "scope_type" r) +:+ ": " +:+ printed "value" r +:+ " (" +:+ printed "kind" r +:+ ") "
                 +:+ printed "notes" r) (parts "scope" s)
    ++ map (λ a, "- Authorization: " +:+ printed "reference" a +:+ dash +:+ printed "authorized_by" a +:+ " (" +:+ printed "status" a
                 +:+ "), " +:+ printed "window_start" a +:+ " to " +:+ printed "window_end" a) (parts "authorizations" s)
    ++ ["## Methodology"; printed "methodology" content; "## Limitations"; printed "limitations" content;
        "## Remediation priorities"; printed "remediation_priorities" content; "## Findings"]
    ++ concat (map (finding_lines s) (parts "findings" s))
    ++ ["## Selected evidence"] ++ concat (map evidence_lines (parts "evidence" s)) in
  join (LF +:+ LF) lines +:+ LF.

(** ** Operations *)

Context (nh3_clean html_unescape : string → string).
#[local] Abbreviation strip_html := (strip_html nh3_clean html_unescape).

Definition clean (value : string) : string := redact_text (strip_html value) [].
Definition cleaned_content (b : ReportContent) : ReportContent :=
  MkReportContent (clean (rc_title b)) (clean (rc_executive_summary b)) (clean (rc_methodology b)) (clean (rc_limitations b))
    (clean (rc_remediation_priorities b)) (rc_finding_ids b) (rc_evidence_ids b).

Definition _report (program_id report_id : string) (d : db) : result EngagementDeliverable :=
  match first_row (λ r, String.eqb (ed_id r) report_id && String.eqb (ed_program_id r) program_id) (engagement_deliverables d) with
  | Some r => Ok r
  | None => http 404 "Deliverable not found"
  end.

Definition _revision (report_id : string) (revision : Z) (d : db) : result DeliverableRevision :=
  match first_row (λ r, String.eqb (dr_deliverable_id r) report_id && (dr_revision r =? revision)) (deliverable_revisions d) with
  | Some r => Ok r
  | None => http 404 "Revision not found"
  end.

Definition put_report (r : EngagementDeliverable) (d : db) : db :=
  set_engagement_deliverables (update_rows (λ x, String.eqb (ed_id x) (ed_id r)) (λ _, r) (engagement_deliverables d)) d.

Definition _save_revision (new_id log_id : string) (now : time) (engagement : Engagement) (report : EngagementDeliverable)
    (body : ReportContent) (actor : string) (d : db) : result (DeliverableRevision * db) :=
  let revision := ed_latest_revision report + 1 in
  let? snapshot := _snapshot now engagement body revision d in
  let markdown := _markdown snapshot in
  let row := MkDeliverableRevision new_id (ed_id report) revision "draft" snapshot markdown (sha256_hex markdown) actor now in
  let d := put_report (ed_set_title (rc_title body) (ed_set_latest_revision revision report)) d in
  let d := set_deliverable_revisions (deliverable_revisions d ++ [row]) d in
  Ok (row, log_action log_id now actor "create" "deliverable_revision" new_id (Some (e_id engagement)) d).

Definition create_deliverable (report_id new_id log_id : string) (now : time) (program_id : string) (body : ReportContent)
    (current_user : user_ctx) (d : db) : result (DeliverableRevision * db) :=
  let body := cleaned_content body in
  let? engagement := get_engagement_or_404 program_id current_user d in
  check? require_member_write engagement current_user d in
  let report := MkEngagementDeliverable report_id program_id (rc_title body) 0 now in
  let d := set_engagement_deliverables (engagement_deliverables d ++ [report]) d in
  _save_revision new_id log_id now engagement report body (cu_github_id current_user) d.

(** The deliverable is locked from the comparison to the commit. *)
Definition create_revision (new_id log_id : string) (now : time) (program_id report_id : string) (base_revision : Z)
    (body : ReportContent) (current_user : user_ctx) (d : db) : result (DeliverableRevision * db) :=
  let body := cleaned_content body in
  let? engagement := get_engagement_or_404 program_id current_user d in
  check? require_member_write engagement current_user d in
  let? report := _report program_id report_id d in
  check? guard (base_revision =? ed_latest_revision report) 409 "A newer revision exists; reload it before saving" in
  _save_revision new_id log_id now engagement report body (cu_github_id current_user) d.

Definition update_revision_status (log_id : string) (now : time) (program_id report_id : string) (revision : Z) (status : string)
    (current_user : user_ctx) (d : db) : result (DeliverableRevision * db) :=
  let? engagement := get_engagement_or_404 program_id current_user d in
  check? require_member_write engagement current_user d in
  let? _ := _report program_id report_id d in
  let? row := _revision report_id revision d in
  let row := dr_set_status status row in
  let d := set_deliverable_revisions (update_rows (λ r, String.eqb (dr_id r) (dr_id row)) (dr_set_status status) (deliverable_revisions d)) d in
  Ok (row, log_action log_id now (cu_github_id current_user) "update_status" "deliverable_revision" (dr_id row) (Some program_id) d).
End Markdown.

(** ** Reading *)

(** [ORDER BY created_at DESC, id] *)
Definition newest_deliverable (a b : EngagementDeliverable) : Prop :=
  ed_created_at b < ed_created_at a ∨ ed_created_at a = ed_created_at b ∧ String.le (ed_id a) (ed_id b).
#[export] Instance newest_deliverable_dec : RelDecision newest_deliverable.
Proof. intros a b. unfold newest_deliverable. apply _. Defined.
Definition latest_first (a b : DeliverableRevision) : Prop := dr_revision b <= dr_revision a.
#[export] Instance latest_first_dec : RelDecision latest_first.
Proof. intros a b. unfold latest_first. apply _. Defined.

Definition list_deliverables (program_id : string) (limit offset : nat) (current_user : user_ctx) (d : db)
    : result (list EngagementDeliverable * Z) :=
  let? _ := get_engagement_or_404 program_id current_user d in
  let all := rows (λ r, String.eqb (ed_program_id r) program_id) (engagement_deliverables d) in
  Ok (take limit (drop offset (merge_sort newest_deliverable all)), Z.of_nat (length all)).

Definition list_revisions (program_id report_id : string) (limit offset : nat) (current_user : user_ctx) (d : db)
    : result (list DeliverableRevision * Z) :=
  let? _ := get_engagement_or_404 program_id current_user d in
  let? _ := _report program_id report_id d in
  let all := rows (λ r, String.eqb (dr_deliverable_id r) report_id) (deliverable_revisions d) in
  Ok (take limit (drop offset (merge_sort latest_first all)), Z.of_nat (length all)).

Definition get_revision (program_id report_id : string) (revision : Z) (current_user : user_ctx) (d : db) : result DeliverableRevision :=
  let? _ := get_engagement_or_404 program_id current_user d in
  let? _ := _report program_id report_id d in
  _revision report_id revision d.

(** The body and the file name of the download. *)
Definition export_revision (program_id report_id : string) (revision : Z) (current_user : user_ctx) (d : db) : result (string * string) :=
  let? _ := get_engagement_or_404 program_id current_user d in
  let? report := _report program_id report_id d in
  let? row := _revision report_id revision d in
  Ok (dr_markdown row, "engagement-report-" +:+ ed_id report +:+ "-v" +:+ string_of_Z revision +:+ ".md").

Definition _serialize (row : DeliverableRevision) (content : bool) : dict :=
  [("id", JStr (dr_id row)); ("deliverable_id", JStr (dr_deliverable_id row)); ("revision", JInt (dr_revision row));
   ("status", JStr (dr_status row)); ("content_hash", JStr (dr_content_hash row)); ("actor", JStr (dr_actor row));
   ("created_at", JStr (isoformat (dr_created_at row)))]
  ++ (if content then [("snapshot", dr_snapshot row); ("markdown", JStr (dr_markdown row))] else []).
