(* ===== verification/DeliverablesSafety.v ===== *)
(** * A report's revisions are numbered, sealed and kept

    The revisions of a deliverable are 1 to its latest, each the Markdown of its
    snapshot with its digest and within the size limit, and no request changes
    or drops one, its workflow status apart, short of deleting the engagement. *)
From S2P Require Import Prelude PyStr Json Digest Time Models Access JobConfig Redaction Engagements Parsers Findings Serializers Deliverables.
From Stdlib Require Import Ascii.

Section Revisions.
Context (em_dash : ascii) (nh3_clean html_unescape : string → string).
#[local] Abbreviation create_deliverable := (create_deliverable em_dash nh3_clean html_unescape).
#[local] Abbreviation create_revision := (create_revision em_dash nh3_clean html_unescape).

(** ** Invariant *)

Definition revisions_of (id : string) (d : db) : list DeliverableRevision :=
  rows (λ r, String.eqb (dr_deliverable_id r) id) (deliverable_revisions d).

Definition sealed (r : DeliverableRevision) : Prop :=
  dr_markdown r = _markdown em_dash (dr_snapshot r) ∧ dr_content_hash r = sha256_hex (dr_markdown r)
  ∧ Z.of_nat (length (utf8 (raw_dumps (dr_snapshot r)))) <= MAX_SNAPSHOT_BYTES.

Record revisions_wf (d : db) : Prop := {
  rw_ids : NoDup (map ed_id (engagement_deliverables d));
  rw_rows : NoDup (map dr_id (deliverable_revisions d));
  rw_numbered : ∀ e, e ∈ engagement_deliverables d →
    1 <= ed_latest_revision e ∧ map dr_revision (revisions_of (ed_id e) d) = seqZ 1 (ed_latest_revision e);
  rw_owned : ∀ r, r ∈ deliverable_revisions d → dr_deliverable_id r ∈ map ed_id (engagement_deliverables d);
  rw_sealed : ∀ r, r ∈ deliverable_revisions d → sealed r;
}.

(** The requests of the module, the deletion of an engagement, and requests
    elsewhere. *)
Inductive revision_step (d : db) : db → Prop :=
| rs_create report_id new_id log_id now p body u r d' : report_id ∉ map ed_id (engagement_deliverables d) →
    new_id ∉ map dr_id (deliverable_revisions d) →
    create_deliverable report_id new_id log_id now p body u d = Ok (r, d') → revision_step d d'
| rs_revise new_id log_id now p id base body u r d' : new_id ∉ map dr_id (deliverable_revisions d) →
    create_revision new_id log_id now p id base body u d = Ok (r, d') → revision_step d d'
| rs_status log_id now p id n status u r d' :
    update_revision_status log_id now p id n status u d = Ok (r, d') → revision_step d d'
| rs_engagement log_id now p u m d' : delete_engagement log_id now p u d = Ok (m, d') → revision_step d d'
| rs_elsewhere d' : engagement_deliverables d' = engagement_deliverables d → deliverable_revisions d' = deliverable_revisions d →
    revision_step d d'.

(** ** What a step does to the two tables *)

Inductive revision_change (d d' : db) : Prop :=
| rc_first e r : ed_id e ∉ map ed_id (engagement_deliverables d) → dr_id r ∉ map dr_id (deliverable_revisions d) →
    engagement_deliverables d' = engagement_deliverables d ++ [e] → deliverable_revisions d' = deliverable_revisions d ++ [r] →
    dr_deliverable_id r = ed_id e → ed_latest_revision e = 1 → dr_revision r = 1 → sealed r → revision_change d d'
| rc_next e e' r : e ∈ engagement_deliverables d → ed_id e' = ed_id e → dr_id r ∉ map dr_id (deliverable_revisions d) →
    engagement_deliverables d' = update_rows (λ x, String.eqb (ed_id x) (ed_id e)) (λ _, e') (engagement_deliverables d) →
    deliverable_revisions d' = deliverable_revisions d ++ [r] → dr_deliverable_id r = ed_id e →
    ed_latest_revision e' = ed_latest_revision e + 1 → dr_revision r = ed_latest_revision e + 1 → sealed r → revision_change d d'
| rc_status b status : engagement_deliverables d' = engagement_deliverables d →
    deliverable_revisions d' = update_rows b (dr_set_status status) (deliverable_revisions d) → revision_change d d'
| rc_dropped gone : engagement_deliverables d' = rows (λ e, negb (gone (ed_id e))) (engagement_deliverables d) →
    deliverable_revisions d' = rows (λ r, negb (gone (dr_deliverable_id r))) (deliverable_revisions d) → revision_change d d'
| rc_same : engagement_deliverables d' = engagement_deliverables d → deliverable_revisions d' = deliverable_revisions d →
    revision_change d d'.

Lemma snapshot_size now e body n d s : _snapshot now e body n d = Ok s →
  Z.of_nat (length (utf8 (raw_dumps s))) <= MAX_SNAPSHOT_BYTES.
Proof.
  unfold _snapshot. intros ([] & _ & H)%rbind_ok. apply rbind_ok in H as (fs & _ & H). apply rbind_ok in H as (es & _ & H).
  apply rbind_ok in H as ([] & Hs%guard_ok & H). injection H as <-. by apply Z.leb_le.
Qed.

(** A saved revision is the next one of its deliverable, sealed. *)
Lemma save_revision_inv new_id log_id now e report body actor d r d' :
  _save_revision em_dash new_id log_id now e report body actor d = Ok (r, d') →
  sealed r ∧ dr_id r = new_id ∧ dr_deliverable_id r = ed_id report ∧ dr_revision r = ed_latest_revision report + 1
  ∧ deliverable_revisions d' = deliverable_revisions d ++ [r]
  ∧ ∃ report', ed_id report' = ed_id report ∧ ed_latest_revision report' = ed_latest_revision report + 1
    ∧ engagement_deliverables d' = update_rows (λ x, String.eqb (ed_id x) (ed_id report)) (λ _, report') (engagement_deliverables d).
Proof.
  unfold _save_revision. intros (s & Hs%snapshot_size & H)%rbind_ok. injection H as <- <-.
  split_and!; [by split_and!|done..|]. by eexists (ed_set_title _ (ed_set_latest_revision _ report)).
Qed.

Lemma report_spec p id d e : _report p id d = Ok e → e ∈ engagement_deliverables d ∧ ed_id e = id ∧ ed_program_id e = p.
Proof.
  unfold _report. destruct (first_row _ _) as [x|] eqn:E; [|done]. intros [= ->]. apply first_row_Some in E as [? ?]. by bool_simpl.
Qed.

Lemma step_change d d' : revisions_wf d → revision_step d d' → revision_change d d'.
Proof.
  intros Hwf Hst. destruct Hst as [rid nid ? ? ? ? ? ? ? Hr Hn H|nid ? ? ? ? ? ? ? ? ? Hn H|? ? ? ? ? status ? ? ? H|? ? p ? ? ? H|? H1 H2].
  - unfold Deliverables.create_deliverable in H. apply rbind_ok in H as (e & _ & H). apply rbind_ok in H as ([] & _ & H).
    apply save_revision_inv in H as (Hs & Hid & Hof & Hno & Hrows & e' & He' & Hl & Hds). simpl in *.
    eapply (rc_first _ _ e'); try done; [by rewrite He'|by rewrite Hid| |congruence].
    rewrite Hds. unfold update_rows. rewrite map_app. simpl. rewrite String.eqb_refl. f_equal.
    rewrite <-(map_id (engagement_deliverables d)) at 2. apply map_ext_in. intros x Hx%list_elem_of_In.
    destruct (String.eqb_spec (ed_id x) rid) as [<-|]; [|done]. destruct Hr. by apply list_elem_of_fmap_2.
  - unfold Deliverables.create_revision in H. apply rbind_ok in H as (e & _ & H). apply rbind_ok in H as ([] & _ & H).
    apply rbind_ok in H as (report & [Hin _]%report_spec & H). apply rbind_ok in H as ([] & _ & H).
    apply save_revision_inv in H as (Hs & Hid & Hof & Hno & Hrows & e' & He' & Hl & Hds). simpl in *.
    eapply (rc_next _ _ report e'); try done. by rewrite Hid.
  - unfold update_revision_status in H. apply rbind_ok in H as (e & _ & H). apply rbind_ok in H as ([] & _ & H).
    apply rbind_ok in H as (? & _ & H). apply rbind_ok in H as (? & _ & H). injection H as <- <-. by eapply rc_status.
  - unfold delete_engagement in H. apply rbind_ok in H as (e & _ & H). apply rbind_ok in H as ([] & _ & H).
    apply rbind_ok in H as (? & _ & H). apply rbind_ok in H as (? & _ & H). apply rbind_ok in H as (? & _ & H).
    apply rbind_ok in H as (? & _ & H). injection H as <- <-. apply (rc_dropped _ _ (λ id, deliverable_of p id d)); [|done].
    simpl. unfold others. apply List.filter_ext_in. intros k Hk%list_elem_of_In. f_equal. apply eq_true_iff_eq.
    unfold deliverable_of. rewrite bool_decide_eq_true, first_row_is_Some, String.eqb_eq. split.
    + intros <-. exists k. by rewrite !String.eqb_refl.
    + intros (y & Hy & Hb). bool_simpl. by rewrite <-(NoDup_map_inj ed_id _ y k (rw_ids d Hwf) Hy Hk).
  - by apply rc_same.
Qed.

(** ** The invariant is kept *)

Lemma revisions_app id d d' more : deliverable_revisions d' = deliverable_revisions d ++ more →
  revisions_of id d' = revisions_of id d ++ rows (λ r, String.eqb (dr_deliverable_id r) id) more.
Proof. intros H. unfold revisions_of. rewrite H. apply rows_app. Qed.

Lemma revisions_status b status id d d' : deliverable_revisions d' = update_rows b (dr_set_status status) (deliverable_revisions d) →
  map dr_revision (revisions_of id d') = map dr_revision (revisions_of id d).
Proof.
  intros H. unfold revisions_of. rewrite H. clear H. induction (deliverable_revisions d) as [|r l IH]; [done|]. simpl.
  destruct (b r); simpl; destruct (String.eqb _ _); simpl; by rewrite IH.
Qed.

Lemma revisions_dropped gone id d d' : gone id = false →
  deliverable_revisions d' = rows (λ r, negb (gone (dr_deliverable_id r))) (deliverable_revisions d) → revisions_of id d' = revisions_of id d.
Proof.
  intros Hg H. unfold revisions_of. rewrite H. clear H. induction (deliverable_revisions d) as [|r l IH]; [done|]. simpl.
  destruct (String.eqb_spec (dr_deliverable_id r) id) as [Hr|Hr].
  - rewrite Hr, Hg. simpl. by rewrite Hr, String.eqb_refl, IH.
  - destruct (gone (dr_deliverable_id r)); simpl; [exact IH|]. by destruct (String.eqb_spec (dr_deliverable_id r) id).
Qed.

Lemma first_keeps d d' e r : revisions_wf d → ed_id e ∉ map ed_id (engagement_deliverables d) →
  dr_id r ∉ map dr_id (deliverable_revisions d) → engagement_deliverables d' = engagement_deliverables d ++ [e] →
  deliverable_revisions d' = deliverable_revisions d ++ [r] → dr_deliverable_id r = ed_id e → ed_latest_revision e = 1 →
  dr_revision r = 1 → sealed r → revisions_wf d'.
Proof.
  intros [Hids Hrows Hnum Hown Hsealed] He Hr Hd Hrs Hof Hl Hn Hs. split.
  - rewrite Hd, map_app. by apply NoDup_snoc.
  - rewrite Hrs, map_app. by apply NoDup_snoc.
  - intros x. rewrite Hd, elem_of_app, list_elem_of_singleton, (revisions_app _ _ _ _ Hrs). simpl. rewrite Hof.
    intros [Hx| ->].
    + destruct (String.eqb_spec (ed_id e) (ed_id x)) as [Heq|_]; [|rewrite app_nil_r; by apply Hnum].
      destruct He. rewrite Heq. by apply list_elem_of_fmap_2.
    + rewrite String.eqb_refl, Hl. split; [done|]. assert (revisions_of (ed_id e) d = []) as ->; [|simpl; by rewrite Hn].
      apply rows_none. intros y Hy. apply String.eqb_neq. intros Heq. apply He. rewrite <-Heq. by apply Hown.
  - intros x. rewrite Hd, Hrs, map_app, !elem_of_app, list_elem_of_singleton. intros [Hx| ->]; [left; by apply Hown|right].
    rewrite Hof. by left.
  - intros x. rewrite Hrs, elem_of_app, list_elem_of_singleton. intros [Hx| ->]; [by apply Hsealed|done].
Qed.

Lemma next_keeps d d' e e' r : revisions_wf d → e ∈ engagement_deliverables d → ed_id e' = ed_id e →
  dr_id r ∉ map dr_id (deliverable_revisions d) →
  engagement_deliverables d' = update_rows (λ x, String.eqb (ed_id x) (ed_id e)) (λ _, e') (engagement_deliverables d) →
  deliverable_revisions d' = deliverable_revisions d ++ [r] → dr_deliverable_id r = ed_id e →
  ed_latest_revision e' = ed_latest_revision e + 1 → dr_revision r = ed_latest_revision e + 1 → sealed r → revisions_wf d'.
Proof.
  intros [Hids Hrows Hnum Hown Hsealed] He Hid Hr Hd Hrs Hof Hl Hn Hs.
  assert (map ed_id (engagement_deliverables d') = map ed_id (engagement_deliverables d)) as Hkeys.
  { rewrite Hd. unfold update_rows. rewrite map_map. apply map_ext. intros x.
    destruct (String.eqb_spec (ed_id x) (ed_id e)); congruence. }
  split.
  - by rewrite Hkeys.
  - rewrite Hrs, map_app. by apply NoDup_snoc.
  - intros x. rewrite Hd, elem_of_update_rows, (revisions_app _ _ _ _ Hrs). simpl. rewrite Hof.
    intros (y & Hy & ->). destruct (String.eqb_spec (ed_id y) (ed_id e)) as [Heq|Hne].
    + destruct (Hnum e He) as [H1 H2]. rewrite Hid, String.eqb_refl, map_app, H2, Hl. split; [lia|]. simpl. rewrite Hn.
      rewrite (seqZ_app 1 (ed_latest_revision e) 1) by lia. f_equal. rewrite seqZ_cons by lia. simpl. f_equal. lia.
    + rewrite (proj2 (String.eqb_neq _ _)) by done. rewrite app_nil_r. by apply Hnum.
  - intros x. rewrite Hkeys, Hrs, elem_of_app, list_elem_of_singleton. intros [Hx| ->]; [by apply Hown|].
    rewrite Hof. by apply list_elem_of_fmap_2.
  - intros x. rewrite Hrs, elem_of_app, list_elem_of_singleton. intros [Hx| ->]; [by apply Hsealed|done].
Qed.

Lemma change_keeps d d' : revisions_wf d → revision_change d d' → revisions_wf d'.
Proof.
  intros Hwf [e r He Hr Hd Hrs Hof Hl Hn Hs|e e' r He Hid Hr Hd Hrs Hof Hl Hn Hs|b status Hd Hrs|gone Hd Hrs|Hd Hrs].
  - by eapply first_keeps.
  - by eapply next_keeps.
  - destruct Hwf as [Hids Hrows Hnum Hown Hsealed]. split.
    + by rewrite Hd.
    + by rewrite Hrs, map_update_rows.
    + intros x. rewrite Hd, (revisions_status _ _ _ _ _ Hrs). apply Hnum.
    + intros x. rewrite Hd, Hrs, elem_of_update_rows. intros (y & Hy & ->). specialize (Hown y Hy). by destruct (b y).
    + intros x. rewrite Hrs, elem_of_update_rows. intros (y & Hy & ->). specialize (Hsealed y Hy). by destruct (b y).
  - destruct Hwf as [Hids Hrows Hnum Hown Hsealed]. split.
    + rewrite Hd. by apply NoDup_map_rows.
    + rewrite Hrs. by apply NoDup_map_rows.
    + intros x. rewrite Hd, elem_of_rows. intros [Hx Hg]. bool_simpl. rewrite (revisions_dropped gone _ d) by done. by apply Hnum.
    + intros x. rewrite Hd, Hrs, elem_of_rows. intros [(e & Hid & He)%Hown%list_elem_of_fmap Hg]. rewrite Hid in *.
      apply list_elem_of_fmap. exists e. split; [done|]. by apply elem_of_rows.
    + intros x. rewrite Hrs, elem_of_rows. intros [Hx _]. by apply Hsealed.
  - destruct Hwf as [Hids Hrows Hnum Hown Hsealed]. unfold revisions_of in *. split; unfold revisions_of; try rewrite !Hd; try rewrite !Hrs; done.
Qed.

Lemma reachable_revisions_wf d0 d : engagement_deliverables d0 = [] → deliverable_revisions d0 = [] → rtc revision_step d0 d → revisions_wf d.
Proof.
  intros He Hr Hst. assert (revisions_wf d0) as Hwf.
  { split; rewrite ?He, ?Hr; [by apply NoDup_nil_2|by apply NoDup_nil_2|by intros x []%elem_of_nil..]. }
  clear He Hr. induction Hst as [|d0 d1 d Hs _ IH]; [done|]. apply IH. eapply change_keeps; [done|by apply step_change].
Qed.

Lemma change_preserves d d' r : revision_change d d' → r ∈ deliverable_revisions d →
  (∃ status, dr_set_status status r ∈ deliverable_revisions d') ∨ dr_deliverable_id r ∉ map ed_id (engagement_deliverables d').
Proof.
  assert (∀ l : list DeliverableRevision, r ∈ l → ∃ status, dr_set_status status r ∈ l) as Hsame by (intros l Hl; exists (dr_status r); by destruct r).
  intros [e x He Hx Hd Hrs Hof Hl Hn Hs|e e' x He Hid Hx Hd Hrs Hof Hl Hn Hs|b status Hd Hrs|gone Hd Hrs|Hd Hrs] Hr; rewrite Hrs.
  - left. apply Hsame, elem_of_app. by left.
  - left. apply Hsame, elem_of_app. by left.
  - left. destruct (b r) eqn:Eb.
    + exists status. apply elem_of_update_rows. exists r. by rewrite Eb.
    + exists (dr_status r). apply elem_of_update_rows. exists r. rewrite Eb. by destruct r.
  - destruct (gone (dr_deliverable_id r)) eqn:Eg.
    + right. rewrite Hd. intros (e & Hid & [_ Hg]%elem_of_rows)%list_elem_of_fmap. bool_simpl. congruence.
    + left. apply Hsame, elem_of_rows. by rewrite Eg.
  - left. by apply Hsame.
Qed.


(** Two editors who start from the same revision: the second is refused. *)
Theorem one_editor_wins new_id log_id now p id base body u d r d' new_id2 log_id2 now2 body2 u2 x : revisions_wf d →
  create_revision new_id log_id now p id base body u d = Ok (r, d') →
  dr_revision r = base + 1 ∧ create_revision new_id2 log_id2 now2 p id base body2 u2 d' ≠ Ok x.
Proof.
  intros Hwf H. unfold Deliverables.create_revision in *. apply rbind_ok in H as (e & _ & H). apply rbind_ok in H as ([] & _ & H).
  apply rbind_ok in H as (report & (Hin & Hid & Hp)%report_spec & H). apply rbind_ok in H as ([] & Hb%guard_ok & H). bool_simpl.
  apply save_revision_inv in H as (_ & _ & _ & Hno & _ & report' & Hid' & Hl & Hds). split; [lia|].
  intros (e2 & _ & H2)%rbind_ok. apply rbind_ok in H2 as ([] & _ & H2).
  apply rbind_ok in H2 as (y & (Hy & Hyid & _)%report_spec & H2). apply rbind_ok in H2 as ([] & Hb2%guard_ok & _). bool_simpl.
  rewrite Hds in Hy. apply elem_of_update_rows in Hy as (z & _ & ->). destruct (String.eqb_spec (ed_id z) (ed_id report)); [lia|congruence].
Qed.
End Revisions.

(** ** Evidence stays inside its block *)

Lemma lines_from_free n : ∀ line open s, (String.length s ≤ n)%nat → (∀ r, free_of (chr 10) r = true → free_of (chr 10) (line r) = true) →
  ∀ w, w ∈ lines_from line open s → free_of (chr 10) w = true.
Proof.
  induction n as [|n IH]; intros line open s Hlen Hline w; (destruct s as [|c s]; simpl in *; [destruct open; [|by intros ?%elem_of_nil];
    intros ->%list_elem_of_singleton; by apply Hline|]); [lia|].
  destruct (line_end c) eqn:Ec.
  - intros [->|Hw]%elem_of_cons; [by apply Hline|]. destruct s as [|d s]; [by apply elem_of_nil in Hw|]. simpl in Hlen.
    destruct (_ && _); [apply (IH id false s)|apply (IH id false (String d s))]; simpl; try done; lia.
  - apply IH; [lia|]. intros r Hr. apply Hline. change (negb (Ascii.eqb (chr 10) c) && free_of (chr 10) r = true). rewrite Hr, andb_true_r. apply negb_true_iff.
    destruct (Ascii.eqb_spec (chr 10) c) as [<-|]; [done|done].
Qed.

(** Whatever a target returned, no line of it starts at the margin of the
    report: it cannot close its block or open a heading. *)
Theorem evidence_stays_indented body l : l ∈ split_char (chr 10) (indented body) → l = "" ∨ startswith l "    " = true.
Proof.
  unfold indented. destruct (splitlines body) as [|w ws] eqn:E; [simpl; intros ->%list_elem_of_singleton; by left|].
  unfold LF. rewrite split_join; [|done|].
  - intros (v & -> & _)%list_elem_of_fmap. by right.
  - intros u (v & -> & Hv)%list_elem_of_fmap. rewrite <-E in Hv.
    apply (lines_from_free (String.length body) id false body) in Hv; [|done..]. exact Hv.
Qed.

(** ** What a revision says *)

Lemma elem_of_merge_sort {A} (R : relation A) `{∀ x y, Decision (R x y)} l x : x ∈ merge_sort R l ↔ x ∈ l.
Proof. by rewrite merge_sort_Permutation. Qed.

(** Rows selected by unique ids, as many as the ids asked for: every id asked
    for is there. *)
Lemma all_selected {A} (key : A → string) (found : list A) ids : NoDup (map key found) →
  (∀ x, x ∈ found → key x ∈ ids) → length found = length (dedup ids) → ∀ i, i ∈ ids → i ∈ map key found.
Proof.
  intros Hnd Hsub Hlen i Hi. assert (map key found ≡ₚ dedup ids) as ->; [|by apply elem_of_dedup].
  apply submseteq_length_Permutation; [|rewrite length_map; lia]. apply NoDup_submseteq; [done|].
  intros k (x & -> & Hx)%list_elem_of_fmap. apply elem_of_dedup. auto.
Qed.

Lemma selected_findings p ids d l : NoDup (map fi_id (findings d)) → select_findings p ids d = Ok l →
  (∀ f, f ∈ l ↔ f ∈ findings d ∧ fi_program_id f = p ∧ match ids with Some ids => fi_id f ∈ ids | None => True end)
  ∧ (∀ ids' i, ids = Some ids' → i ∈ ids' → i ∈ map fi_id l) ∧ Sorted (λ f g, severity_rank f <= severity_rank g) l.
Proof.
  intros Hnd. unfold select_findings. set (found := merge_sort _ _). intros ([] & Hg%guard_ok & [= <-])%rbind_ok.
  assert (∀ f, f ∈ found ↔ f ∈ findings d ∧ fi_program_id f = p ∧ match ids with Some ids => fi_id f ∈ ids | None => True end) as Hin.
  { intros f. unfold found. rewrite elem_of_merge_sort, elem_of_rows, andb_true_iff, String.eqb_eq. destruct ids; [by rewrite mem_spec|naive_solver]. }
  split_and!.
  - intros f. by rewrite sorted_by_perm.
  - intros ids' i -> Hi. rewrite sorted_by_perm. apply (all_selected fi_id _ ids'); [|intros f Hfi; by apply Hin in Hfi as (_ & _ & ?)|by apply Nat.eqb_eq|done].
    unfold found. rewrite merge_sort_Permutation. by apply NoDup_map_rows.
  - assert (∀ a b, (severity_rank a <=? severity_rank b) = false → (severity_rank b <=? severity_rank a) = true) as Htotal by (intros; lia).
    pose proof (sorted_by_sorted _ found Htotal) as Hs. induction Hs as [|f fs _ IH Hd]; [constructor|]. constructor; [done|].
    destruct Hd; constructor. by apply Z.leb_le.
Qed.

Lemma selected_evidence p ids chosen d l : NoDup (map ev_id (evidence d)) → select_evidence p ids chosen d = Ok l →
  (∀ x, x ∈ l ↔ x ∈ evidence d ∧ ev_program_id x = p ∧ ev_id x ∈ ids) ∧ (∀ i, i ∈ ids → i ∈ map ev_id l)
  ∧ ∀ x i, x ∈ l → ev_finding_id x = Some i → i ≠ "" → i ∈ map fi_id chosen.
Proof.
  intros Hnd. unfold select_evidence. set (found := merge_sort _ _). intros ([] & Hg%guard_ok & H)%rbind_ok.
  apply rbind_ok in H as ([] & Ho%guard_ok & [= <-]). apply negb_true_iff in Ho.
  assert (∀ x, x ∈ found ↔ x ∈ evidence d ∧ ev_program_id x = p ∧ ev_id x ∈ ids) as Hin.
  { intros x. unfold found. by rewrite elem_of_merge_sort, elem_of_rows, andb_true_iff, String.eqb_eq, mem_spec. }
  split_and!; [done| |].
  - intros i Hi. apply (all_selected ev_id _ ids); [|intros x Hx; by apply Hin in Hx as (_ & _ & ?)|by apply Nat.eqb_eq|done].
    unfold found. rewrite merge_sort_Permutation. by apply NoDup_map_rows.
  - intros x i Hx Hi Hne. destruct (decide (i ∈ map fi_id chosen)) as [|Hn]; [done|]. exfalso.
    apply not_true_iff_false in Ho. apply Ho, existsb_exists. exists x. split; [by apply list_elem_of_In|].
    assert (or_else (ev_finding_id x) "" = i) as -> by (rewrite Hi; unfold or_else; by rewrite (proj2 (String.eqb_neq _ _))).
    rewrite (proj2 (String.eqb_neq i "")) by done. apply negb_true_iff. simpl. apply not_true_iff_false. by rewrite mem_spec.
Qed.

(** C26. A report says what its author chose, of its own engagement: the findings
    of the snapshot are all those of the engagement, or exactly those asked
    for, the most severe first; its evidence is exactly what was asked for, and
    none of it is about a finding the report leaves out; both sections are the
    redacted serialisation of those rows. *)
Theorem report_cites_what_was_chosen now e body n d s :
  NoDup (map fi_id (findings d)) → NoDup (map ev_id (evidence d)) → _snapshot now e body n d = Ok s →
  ∃ chosen cited,
    part "findings" s = clean_tree (JList (map (λ f, JObj (serialize_finding f)) chosen))
    ∧ part "evidence" s = clean_tree (JList (map evidence_part cited))
    ∧ (∀ f, f ∈ chosen ↔ f ∈ findings d ∧ fi_program_id f = e_id e
         ∧ match rc_finding_ids body with Some ids => fi_id f ∈ ids | None => True end)
    ∧ (∀ ids i, rc_finding_ids body = Some ids → i ∈ ids → i ∈ map fi_id chosen)
    ∧ Sorted (λ f g, severity_rank f <= severity_rank g) chosen
    ∧ (∀ x, x ∈ cited ↔ x ∈ evidence d ∧ ev_program_id x = e_id e ∧ ev_id x ∈ rc_evidence_ids body)
    ∧ (∀ i, i ∈ rc_evidence_ids body → i ∈ map ev_id cited)
    ∧ ∀ x i, x ∈ cited → ev_finding_id x = Some i → i ≠ "" → i ∈ map fi_id chosen.
Proof.
  intros Hf He H. unfold _snapshot in H. apply rbind_ok in H as ([] & _ & H). apply rbind_ok in H as (chosen & Hc & H).
  apply rbind_ok in H as (cited & Hx & H). apply rbind_ok in H as ([] & _ & H). injection H as <-.
  apply selected_findings in Hc as (Hc1 & Hc2 & Hc3); [|done]. apply selected_evidence in Hx as (Hx1 & Hx2 & Hx3); [|done].
  exists chosen, cited. by split_and!.
Qed.

(** ** A report of two findings *)

Module ReportExample.
Definition alice : user_ctx := UserCtx "alice" "" "" "full" None.
Definition d0 : db :=
  set_evidence
    [MkEvidence "ev-1" "eng-1" (Some "f-1") None "http_response" "Reply" "HTTP/1.1 200" (sha256_hex "HTTP/1.1 200") None None None None
       None None "alice" "" "internal" "engagement" true None 2] listing_db.
Definition body : ReportContent := MkReportContent "Report" "Two findings." "" "" "" None ["ev-1"].

Definition created := create_deliverable "-" id id "rep-1" "rev-1" "log-1" 5 "eng-1" body alice d0.
Definition d1 : db := match created with Ok (_, d) => d | Raise _ => d0 end.
Definition delivered := update_revision_status "log-2" 6 "eng-1" "rep-1" 1 "delivered" alice d1.
Definition d2 : db := match delivered with Ok (_, d) => d | Raise _ => d1 end.

Lemma created_it : ∃ r, created = Ok (r, d1).
Proof. unfold d1. destruct created as [[r d]|e] eqn:E; [by exists r|]. vm_compute in E. discriminate. Qed.
Lemma delivered_it : ∃ r, delivered = Ok (r, d2).
Proof. unfold d2. destruct delivered as [[r d]|e] eqn:E; [by exists r|]. vm_compute in E. discriminate. Qed.

Lemma created_step : revision_step "-" id id d0 d1.
Proof. destruct created_it as [r Hr]. eapply rs_create; [| |exact Hr]; exact (not_elem_of_nil _). Qed.
Lemma delivered_step : revision_step "-" id id d1 d2.
Proof. destruct delivered_it as [r Hr]. exact (rs_status "-" id id d1 "log-2" 6 "eng-1" "rep-1" 1 "delivered" alice r d2 Hr). Qed.
End ReportExample.


Lemma report_cites_what_was_chosen_witness : ∃ s chosen cited,
  _snapshot 5 demo_engagement ReportExample.body 1 ReportExample.d0 = Ok s
  ∧ part "findings" s = clean_tree (JList (map (λ f, JObj (serialize_finding f)) chosen))
  ∧ ∀ i, i ∈ ["ev-1"] → i ∈ map ev_id cited.
Proof.
  destruct (_snapshot 5 demo_engagement ReportExample.body 1 ReportExample.d0) as [s|e] eqn:E; [|vm_compute in E; discriminate].
  assert (NoDup (map fi_id (findings ReportExample.d0))) as Hf by (apply (bool_decide_unpack _); vm_compute; exact I).
  assert (NoDup (map ev_id (evidence ReportExample.d0))) as He by (apply (bool_decide_unpack _); vm_compute; exact I).
  destruct (report_cites_what_was_chosen 5 demo_engagement ReportExample.body 1 ReportExample.d0 s Hf He E)
    as (chosen & cited & H1 & _ & _ & _ & _ & _ & H2 & _).
  exists s, chosen, cited. split_and!; [reflexivity|exact H1|exact H2].
Defined.
