(* ===== verification/Records.v ===== *)
(** * The engagement's records: [routers/scans.py], [routers/recon.py],
      [routers/reports.py], [routers/manual_tests.py],
      [routers/scan_profiles.py], [routers/assets.py]

    Reading and editing the rows of one engagement.  A request body is what
    pydantic hands the handler.  The language model that ranks scan items, the
    LIKE operators and the text of a reply beyond U+00FF are parameters. *)
From S2P Require Import Prelude PyStr Json JsonText Time Models Access JobConfig Redaction Findings Serializers.

(** A page of the rows that match, with the number of all of them. *)
Definition page {A} (limit offset : nat) (t : list A) : list A * Z := (take limit (drop offset t), Z.of_nat (length t)).

(** [if value: query.filter(column == value)] *)
Definition asked (value column : string) : bool := String.eqb value "" || String.eqb column value.

(** What a job saw: the rows it first stored and those it observed again. *)
Definition seen_by (job_id : string) (own : option string) (link : JobResultLink → option string) (id : string) (d : db) : bool :=
  String.eqb job_id "" || bool_decide (own = Some job_id)
  || existsb (λ l, String.eqb (rl_job_id l) job_id && bool_decide (link l = Some id)) (job_result_links d).

(** ** [routers/recon.py] *)

Definition probed_first (a b : ReconItem) : Prop :=
  match ri_status_code a, ri_status_code b with
  | Some _, None => True
  | None, Some _ => False
  | _, _ => String.le (ri_id a) (ri_id b)
  end.
#[export] Instance probed_first_dec : RelDecision probed_first.
Proof. intros a b. unfold probed_first. repeat case_match; apply _. Defined.

Definition get_recon (ilike : string → string → bool) (program_id search : string) (status_code : option Z) (job_id source : string)
    (limit offset : nat) (current_user : user_ctx) (d : db) : result (list dict * Z) :=
  let? _ := get_engagement_or_404 program_id current_user d in
  let like column := match column with Some s => ilike s ("%" +:+ search +:+ "%") | None => false end in
  let matching r :=
    String.eqb (ri_program_id r) program_id
    && (String.eqb source "" || bool_decide (ri_source r = Some (lower (strip source))))
    && (String.eqb search "" || like (ri_url r) || like (ri_host r) || like (ri_path r) || like (ri_title r))
    && match status_code with Some c => bool_decide (ri_status_code r = Some c) | None => true end
    && seen_by job_id (ri_job_id r) rl_recon_id (ri_id r) d in
  let '(items, total) := page limit offset (merge_sort probed_first (rows matching (recon_items d))) in
  Ok (map serialize_recon_item items, total).

(** ** [routers/scans.py] *)

Definition scan_by_id (a b : ScanItem) : Prop := String.le (sc_id a) (sc_id b).
#[export] Instance scan_by_id_dec : RelDecision scan_by_id.
Proof. intros a b. unfold scan_by_id. apply _. Defined.

Definition get_scans (program_id status job_id : string) (limit offset : nat) (current_user : user_ctx) (d : db)
    : result (list dict * Z) :=
  let? _ := get_engagement_or_404 program_id current_user d in
  let matching s := String.eqb (sc_program_id s) program_id && asked status (sc_status s)
                    && seen_by job_id (sc_job_id s) rl_scan_id (sc_id s) d in
  let '(items, total) := page limit offset (merge_sort scan_by_id (rows matching (scan_items d))) in
  Ok (map serialize_scan_item items, total).

Definition bulk_update_scan_status (log_id : string) (now : time) (program_id : string) (ids : list string) (status : string)
    (current_user : user_ctx) (d : db) : result (Z * db) :=
  let? engagement := get_engagement_or_404 program_id current_user d in
  check? require_member_write engagement current_user d in
  let chosen s := String.eqb (sc_program_id s) program_id && mem (sc_id s) ids in
  let count := Z.of_nat (length (rows chosen (scan_items d))) in
  let d := set_scan_items (update_rows chosen (sc_set_status status) (scan_items d)) d in
  Ok (count, log_action log_id now (cu_github_id current_user) "update" "scan_item" ("bulk:" +:+ string_of_Z count) (Some program_id) d).

Definition update_scan_status (log_id : string) (now : time) (program_id scan_id status : string) (current_user : user_ctx) (d : db)
    : result (ScanItem * db) :=
  let? engagement := get_engagement_or_404 program_id current_user d in
  check? require_member_write engagement current_user d in
  let this s := String.eqb (sc_id s) scan_id && String.eqb (sc_program_id s) program_id in
  match first_row this (scan_items d) with
  | None => http 404 "Scan item not found"
  | Some scan =>
      let d := set_scan_items (update_rows this (sc_set_status status) (scan_items d)) d in
      Ok (sc_set_status status scan, log_action log_id now (cu_github_id current_user) "update" "scan_item" scan_id (Some program_id) d)
  end.

Definition _TRIAGE_BATCH_MAX : nat := 25.

Section Triage.
(** The model's answer to the prompt built of the items, or none when the call
    failed; the key of the service; [float], and [json.loads] outside the
    modelled characters. *)
Context (ask : list json → option string) (api_key : string) (float_of : string → option pyfloat) (outside : string → result json).

Definition compact_item (s : ScanItem) : dict :=
  [("id", JStr (sc_id s)); ("template_id", JStr (sc_template_id s)); ("title", JStr (sc_title s));
   ("severity", or_text "info" (Some (sc_severity s)));
   ("asset", JStr (or_else (Some (sc_asset s)) (sc_matched_at s))); ("description", JStr (take_string 300 (sc_description s)))].

Definition ai_failed {A} : result A := http 502 "AI request failed; try again".
Definition ai_not_json {A} : result A := http 502 "AI returned non-JSON response; try again".

Definition parsed_reply (raw : string) : result (list json) :=
  let? parsed := match json_loads false float_of raw with
                 | Loaded j => Ok j
                 | Malformed => ai_not_json
                 | TooLong => ai_failed
                 | Outside => outside raw
                 end in
  match parsed with JList l => Ok l | _ => ai_failed end.

Definition triage_row (row : dict) : dict :=
  [("id", dget "id" row); ("priority", JStr (py_str (default (JStr "") (lookup_key "priority" row))));
   ("false_positive", JBool (truthy (default (JBool false) (lookup_key "false_positive" row))));
   ("rationale", JStr (take_string 200 (py_str (default (JStr "") (lookup_key "rationale" row)))))].

(** Rows about items that were sent; an id that cannot be hashed raises. *)
Fixpoint echoed (valid_ids : list string) (parsed : list json) : result (list dict) :=
  match parsed with
  | [] => Ok []
  | JObj row :: rest =>
      let? known := in_str_set (dget "id" row) valid_ids in
      let? rest := echoed valid_ids rest in
      Ok (if known : bool then triage_row row :: rest else rest)
  | _ :: rest => echoed valid_ids rest
  end.

Definition triage_items (program_id : string) (ids : list string) (d : db) : list ScanItem :=
  let chosen s := String.eqb (sc_program_id s) program_id
                  && match ids with [] => String.eqb (sc_status s) "new" | _ :: _ => mem (sc_id s) ids end in
  take _TRIAGE_BATCH_MAX (merge_sort scan_by_id (rows chosen (scan_items d))).

Definition triage_scans (program_id : string) (ids : list string) (current_user : user_ctx) (d : db) : result (list dict) :=
  let? engagement := get_engagement_or_404 program_id current_user d in
  check? require_member_write engagement current_user d in
  match triage_items program_id ids d with
  | [] => Ok []
  | items =>
      check? guard (negb (String.eqb api_key "")) 503 "AI triage requires ANTHROPIC_API_KEY to be configured on the server" in
      match ask (map (λ s, redact_mapping (compact_item s) []) items) with
      | None => ai_failed
      | Some text => let? parsed := parsed_reply (strip text) in echoed (map sc_id items) parsed
      end
  end.
End Triage.

(** ** [routers/reports.py] and [routers/manual_tests.py] *)

(** [ORDER BY created_at DESC], NULL first. *)
Definition newest_by {A} (created : A → option time) (a b : A) : Prop :=
  match created a, created b with None, _ => True | Some _, None => False | Some x, Some y => y <= x end.
#[export] Instance newest_by_dec {A} (created : A → option time) : RelDecision (newest_by created).
Proof. intros a b. unfold newest_by. repeat case_match; apply _. Defined.

Record ReportCreate := MkReportCreate {
  rq_finding_id : option string;
  rq_title : string;
  rq_summary : option string;
  rq_steps : option string;
  rq_impact : option string;
  rq_remediation : option string;
  rq_cwe : option string;
  rq_cvss : option string;
  rq_status : string;
}.

(** The fields a PATCH sets; [Some None] is an explicit null. *)
Record ReportUpdate := MkReportUpdate {
  ru_title : option (option string);
  ru_summary : option (option string);
  ru_steps : option (option string);
  ru_impact : option (option string);
  ru_remediation : option (option string);
  ru_cwe : option (option string);
  ru_cvss : option (option string);
  ru_status : option (option string);
}.

Definition kept_or_blank (v : option string) : option string := Some (or_else v "").

Definition get_reports (program_id : string) (limit offset : nat) (current_user : user_ctx) (d : db) : result (list dict * Z) :=
  let? _ := get_engagement_or_404 program_id current_user d in
  let '(items, total) := page limit offset
    (merge_sort (newest_by rp_created_at) (rows (λ r, String.eqb (rp_program_id r) program_id) (reports d))) in
  Ok (map serialize_report items, total).

Definition add_report (new_id log_id : string) (now : time) (program_id : string) (payload : ReportCreate) (current_user : user_ctx) (d : db)
    : result (Report * db) :=
  let? engagement := get_engagement_or_404 program_id current_user d in
  check? require_member_write engagement current_user d in
  let report := MkReport new_id program_id (kept_or_blank (rq_finding_id payload)) (rq_title payload) (kept_or_blank (rq_summary payload))
                  (kept_or_blank (rq_steps payload)) (kept_or_blank (rq_impact payload)) (kept_or_blank (rq_remediation payload))
                  (kept_or_blank (rq_cwe payload)) (kept_or_blank (rq_cvss payload)) (Some (rq_status payload)) (Some now) in
  Ok (report, log_action log_id now (cu_github_id current_user) "create" "report" new_id (Some program_id)
                (set_reports (reports d ++ [report]) d)).

Definition edit_report (payload : ReportUpdate) (r : Report) : result Report :=
  let r := set_given rp_set_summary (ru_summary payload) r in
  let r := set_given rp_set_steps (ru_steps payload) r in
  let r := set_given rp_set_impact (ru_impact payload) r in
  let r := set_given rp_set_remediation (ru_remediation payload) r in
  let r := set_given rp_set_cwe (ru_cwe payload) r in
  let r := set_given rp_set_cvss (ru_cvss payload) r in
  let r := set_given rp_set_status (ru_status payload) r in
  set_title rp_set_title (ru_title payload) r.

Definition this_report (program_id report_id : string) (r : Report) : bool :=
  String.eqb (rp_id r) report_id && String.eqb (rp_program_id r) program_id.

Definition update_report (log_id : string) (now : time) (program_id report_id : string) (payload : ReportUpdate) (current_user : user_ctx)
    (d : db) : result (Report * db) :=
  let? engagement := get_engagement_or_404 program_id current_user d in
  check? require_member_write engagement current_user d in
  match first_row (this_report program_id report_id) (reports d) with
  | None => http 404 "Report not found"
  | Some report =>
      let? report := edit_report payload report in
      let d := set_reports (update_rows (this_report program_id report_id) (λ _, report) (reports d)) d in
      Ok (report, log_action log_id now (cu_github_id current_user) "update" "report" report_id (Some program_id) d)
  end.

Definition delete_report (log_id : string) (now : time) (program_id report_id : string) (current_user : user_ctx) (d : db)
    : result (string * db) :=
  let? engagement := get_engagement_or_404 program_id current_user d in
  check? require_member_write engagement current_user d in
  match first_row (this_report program_id report_id) (reports d) with
  | None => http 404 "Report not found"
  | Some _ =>
      let d := log_action log_id now (cu_github_id current_user) "delete" "report" report_id (Some program_id) d in
      Ok ("Report deleted", set_reports (rows (λ r, negb (this_report program_id report_id r)) (reports d)) d)
  end.

Record ManualTestCreate := MkManualTestCreate {
  tm_title : string;
  tm_hypothesis : option string;
  tm_payload : option string;
  tm_evidence : option string;
  tm_status : string;
}.

Record ManualTestUpdate := MkManualTestUpdate {
  tu_title : option (option string);
  tu_hypothesis : option (option string);
  tu_payload : option (option string);
  tu_evidence : option (option string);
  tu_status : option (option string);
}.

Definition get_manual_tests (program_id : string) (limit offset : nat) (current_user : user_ctx) (d : db) : result (list dict * Z) :=
  let? _ := get_engagement_or_404 program_id current_user d in
  let '(items, total) := page limit offset
    (merge_sort (newest_by mt_created_at) (rows (λ t, String.eqb (mt_program_id t) program_id) (manual_tests d))) in
  Ok (map serialize_manual_test items, total).

Definition add_manual_test (new_id log_id : string) (now : time) (program_id : string) (payload : ManualTestCreate)
    (current_user : user_ctx) (d : db) : result (ManualTest * db) :=
  let? engagement := get_engagement_or_404 program_id current_user d in
  check? require_member_write engagement current_user d in
  let test := MkManualTest new_id program_id (tm_title payload) (kept_or_blank (tm_hypothesis payload)) (kept_or_blank (tm_payload payload))
                (kept_or_blank (tm_evidence payload)) (Some (tm_status payload)) (Some now) in
  Ok (test, log_action log_id now (cu_github_id current_user) "create" "manual_test" new_id (Some program_id)
              (set_manual_tests (manual_tests d ++ [test]) d)).

Definition edit_manual_test (payload : ManualTestUpdate) (t : ManualTest) : result ManualTest :=
  let t := set_given mt_set_hypothesis (tu_hypothesis payload) t in
  let t := set_given mt_set_payload (tu_payload payload) t in
  let t := set_given mt_set_evidence (tu_evidence payload) t in
  let t := set_given mt_set_status (tu_status payload) t in
  set_title mt_set_title (tu_title payload) t.

Definition this_test (program_id test_id : string) (t : ManualTest) : bool :=
  String.eqb (mt_id t) test_id && String.eqb (mt_program_id t) program_id.

Definition update_manual_test (log_id : string) (now : time) (program_id test_id : string) (payload : ManualTestUpdate)
    (current_user : user_ctx) (d : db) : result (ManualTest * db) :=
  let? engagement := get_engagement_or_404 program_id current_user d in
  check? require_member_write engagement current_user d in
  match first_row (this_test program_id test_id) (manual_tests d) with
  | None => http 404 "Manual test not found"
  | Some test =>
      let? test := edit_manual_test payload test in
      let d := set_manual_tests (update_rows (this_test program_id test_id) (λ _, test) (manual_tests d)) d in
      Ok (test, log_action log_id now (cu_github_id current_user) "update" "manual_test" test_id (Some program_id) d)
  end.

Definition delete_manual_test (log_id : string) (now : time) (program_id test_id : string) (current_user : user_ctx) (d : db)
    : result (string * db) :=
  let? engagement := get_engagement_or_404 program_id current_user d in
  check? require_member_write engagement current_user d in
  match first_row (this_test program_id test_id) (manual_tests d) with
  | None => http 404 "Manual test not found"
  | Some _ =>
      let d := log_action log_id now (cu_github_id current_user) "delete" "manual_test" test_id (Some program_id) d in
      Ok ("Manual test deleted", set_manual_tests (rows (λ t, negb (this_test program_id test_id t)) (manual_tests d)) d)
  end.

(** ** [routers/scan_profiles.py] *)

Record ProfileCreate := MkProfileCreate {
  pc_name : string;
  pc_tool_type : string;
  pc_target_source : string;
  pc_config : option dict;
}.

Definition serialize_profile (p : ScanProfile) : dict :=
  [("id", JStr (pf_id p)); ("program_id", JStr (pf_program_id p)); ("name", JStr (pf_name p)); ("tool_type", JStr (pf_tool_type p));
   ("target_source", JStr (pf_target_source p)); ("config", if truthy (pf_config p) then pf_config p else JObj []);
   ("created_at", JStr (isoformat (pf_created_at p)))].

Definition list_profiles (program_id : string) (current_user : user_ctx) (d : db) : result (list dict) :=
  let? _ := get_engagement_or_404 program_id current_user d in
  Ok (map serialize_profile (merge_sort (newest_by (λ p, Some (pf_created_at p)))
        (rows (λ p, String.eqb (pf_program_id p) program_id) (scan_profiles d)))).

Definition create_profile (new_id log_id : string) (now : time) (program_id : string) (body : ProfileCreate) (current_user : user_ctx)
    (d : db) : result (ScanProfile * db) :=
  let? engagement := get_engagement_or_404 program_id current_user d in
  check? require_member_write engagement current_user d in
  check? guard (mem (pc_tool_type body) _VALID_TOOLS) 400 ("tool_type must be one of " +:+ repr_list (sorted_strings _VALID_TOOLS)) in
  check? guard (mem (pc_target_source body) _VALID_SOURCES) 400 "target_source must be scope or recon" in
  let config := default [] (pc_config body) in
  check? (match config with [] => Ok tt | _ :: _ => _validate_job_config (pc_tool_type body) config end) in
  let profile := MkScanProfile new_id program_id (cu_github_id current_user) (pc_name body) (pc_tool_type body) (pc_target_source body)
                   (JObj config) now in
  Ok (profile, log_action log_id now (cu_github_id current_user) "create" "scan_profile" new_id (Some program_id)
                 (set_scan_profiles (scan_profiles d ++ [profile]) d)).

Definition this_profile (program_id profile_id : string) (p : ScanProfile) : bool :=
  String.eqb (pf_id p) profile_id && String.eqb (pf_program_id p) program_id.

Definition delete_profile (log_id : string) (now : time) (program_id profile_id : string) (current_user : user_ctx) (d : db)
    : result (string * db) :=
  let? engagement := get_engagement_or_404 program_id current_user d in
  check? require_member_write engagement current_user d in
  match first_row (this_profile program_id profile_id) (scan_profiles d) with
  | None => http 404 "Profile not found"
  | Some _ =>
      let d := log_action log_id now (cu_github_id current_user) "delete" "scan_profile" profile_id (Some program_id) d in
      Ok ("Profile deleted", set_scan_profiles (rows (λ p, negb (this_profile program_id profile_id p)) (scan_profiles d)) d)
  end.

(** ** [routers/assets.py] *)

Definition serialize_asset (a : Asset) : dict :=
  [("id", JStr (as_id a)); ("canonical_key", JStr (as_canonical_key a)); ("asset_type", JStr (as_asset_type a));
   ("label", JStr (as_label a)); ("hostname", JStr (as_hostname a)); ("ip", JStr (as_ip a)); ("port", opt_int (as_port a));
   ("scheme", JStr (as_scheme a)); ("environment", JStr (as_environment a)); ("criticality", JStr (as_criticality a));
   ("exposure", JStr (as_exposure a)); ("tags", JStr (as_tags a)); ("source", JStr (as_source a));
   ("confidence", JStr (as_confidence a)); ("first_seen_at", JStr (_iso (as_first_seen_at a)));
   ("last_seen_at", JStr (_iso (as_last_seen_at a)))].

(** [ORDER BY hostname, port], NULL last. *)
Definition by_host_port (a b : Asset) : Prop :=
  if decide (as_hostname a = as_hostname b)
  then match as_port a, as_port b with _, None => True | None, Some _ => False | Some x, Some y => x <= y end
  else String.le (as_hostname a) (as_hostname b).
#[export] Instance by_host_port_dec : RelDecision by_host_port.
Proof. intros a b. unfold by_host_port. repeat case_match; apply _. Defined.

(** [hostname.startswith(q)] is [LIKE] with the pattern unescaped. *)
Definition list_assets (like : string → string → bool) (program_id asset_type q : string) (limit offset : nat) (current_user : user_ctx)
    (d : db) : result (list dict * Z) :=
  let? _ := get_engagement_or_404 program_id current_user d in
  let matching a := String.eqb (as_program_id a) program_id && asked asset_type (as_asset_type a)
                    && (String.eqb q "" || like (as_hostname a) (lower q +:+ "%")) in
  let '(items, total) := page limit offset (merge_sort by_host_port (rows matching (assets d))) in
  Ok (map serialize_asset items, total).

Definition edge_entry (asset_id : string) (neighbours : list Asset) (e : AssetRelationship) : json :=
  let out := String.eqb (ar_src_asset_id e) asset_id in
  let other := if out then ar_dst_asset_id e else ar_src_asset_id e in
  JObj [("relationship", JStr (ar_relationship e)); ("direction", JStr (if out then "out" else "in"));
        ("other", match first_row (λ a, String.eqb (as_id a) other) neighbours with
                  | Some a => JObj (serialize_asset a) | None => JNull end);
        ("confidence", JStr (ar_confidence e)); ("source", JStr (ar_source e))].

Definition get_asset (program_id asset_id : string) (current_user : user_ctx) (d : db) : result dict :=
  let? _ := get_engagement_or_404 program_id current_user d in
  match first_row (λ a, String.eqb (as_id a) asset_id && String.eqb (as_program_id a) program_id) (assets d) with
  | None => http 404 "Asset not found"
  | Some asset =>
      let edges := rows (λ e, String.eqb (ar_src_asset_id e) asset_id || String.eqb (ar_dst_asset_id e) asset_id) (asset_relationships d) in
      let neighbour_ids := rows (λ i, negb (String.eqb i asset_id)) (map ar_src_asset_id edges ++ map ar_dst_asset_id edges) in
      let neighbours := rows (λ a, mem (as_id a) neighbour_ids) (assets d) in
      let count {A} (column : A → option string) (t : list A) :=
        JInt (Z.of_nat (length (rows (λ r, bool_decide (column r = Some asset_id)) t))) in
      Ok [("asset", JObj (serialize_asset asset)); ("relationships", JList (map (edge_entry asset_id neighbours) edges));
          ("counts", JObj [("recon", count ri_asset_id (recon_items d)); ("scans", count sc_asset_id (scan_items d));
                           ("services", count sv_asset_id (services d)); ("findings", count fi_asset_id (findings d))])]
  end.
