(* ===== verification/RecordsSafety.v ===== *)
(** * Writes to an engagement's records stay in it

    A request that writes scan items, reports, manual tests or scan profiles is
    made by someone who may write to the engagement it names, and leaves every
    other engagement's rows, and every other table, as they were. *)
From S2P Require Import Prelude PyStr Json JsonText Time Models Access JobConfig Redaction Engagements Jobs Findings Serializers Records.

(** ** The writing requests *)

Inductive record_write (p : string) (u : user_ctx) (d : db) : db → Prop :=
| rw_bulk log_id now ids status n d' : bulk_update_scan_status log_id now p ids status u d = Ok (n, d') → record_write p u d d'
| rw_scan log_id now id status s d' : update_scan_status log_id now p id status u d = Ok (s, d') → record_write p u d d'
| rw_add_report new_id log_id now payload r d' : add_report new_id log_id now p payload u d = Ok (r, d') → record_write p u d d'
| rw_report log_id now id payload r d' : update_report log_id now p id payload u d = Ok (r, d') → record_write p u d d'
| rw_drop_report log_id now id m d' : delete_report log_id now p id u d = Ok (m, d') → record_write p u d d'
| rw_add_test new_id log_id now payload t d' : add_manual_test new_id log_id now p payload u d = Ok (t, d') → record_write p u d d'
| rw_test log_id now id payload t d' : update_manual_test log_id now p id payload u d = Ok (t, d') → record_write p u d d'
| rw_drop_test log_id now id m d' : delete_manual_test log_id now p id u d = Ok (m, d') → record_write p u d d'
| rw_add_profile new_id log_id now body r d' : create_profile new_id log_id now p body u d = Ok (r, d') → record_write p u d d'
| rw_drop_profile log_id now id m d' : delete_profile log_id now p id u d = Ok (m, d') → record_write p u d d'.

(** ** What they leave alone *)

(** Only these five tables change, and of four only the engagement's rows. *)
Record stays_in (p g : string) (d d' : db) : Prop := {
  si_scans : others p sc_program_id (scan_items d') = others p sc_program_id (scan_items d);
  si_reports : others p rp_program_id (reports d') = others p rp_program_id (reports d);
  si_tests : others p mt_program_id (manual_tests d') = others p mt_program_id (manual_tests d);
  si_profiles : others p pf_program_id (scan_profiles d') = others p pf_program_id (scan_profiles d);
  si_log : ∃ entry, audit_logs d' = audit_logs d ++ [entry] ∧ al_github_id entry = g ∧ al_program_id entry = p;
  si_rest : d' = set_scan_items (scan_items d') (set_reports (reports d') (set_manual_tests (manual_tests d')
                   (set_scan_profiles (scan_profiles d') (set_audit_logs (audit_logs d') d))));
}.

Lemma others_update {A} (p : string) (f : A → string) (this : A → bool) (edit : A → A) t :
  (∀ x, x ∈ t → this x = true → f x = p ∧ f (edit x) = p) → others p f (update_rows this edit t) = others p f t.
Proof.
  unfold others, update_rows. induction t as [|x t IH]; intros Ht; [done|]. simpl. rewrite IH by (intros; apply Ht; [by right|done]).
  destruct (this x) eqn:E; [|done]. destruct (Ht x) as [-> ->]; [by left|done|]. by rewrite String.eqb_refl.
Qed.

Lemma others_drop {A} (p : string) (f : A → string) (this : A → bool) t :
  (∀ x, this x = true → f x = p) → others p f (rows (λ x, negb (this x)) t) = others p f t.
Proof.
  unfold others. intros Ht. induction t as [|x t IH]; [done|]. simpl. destruct (this x) eqn:E; simpl; rewrite IH; [|done].
  by rewrite (Ht x E), String.eqb_refl.
Qed.

Lemma others_snoc {A} (p : string) (f : A → string) t x : f x = p → others p f (t ++ [x]) = others p f t.
Proof. unfold others. intros Hx. rewrite rows_app. simpl. by rewrite Hx, String.eqb_refl, app_nil_r. Qed.

Lemma write_allowed e u d : require_member_write e u d = Ok tt → engagement_access e (cu_github_id u) d ≠ Some "viewer".
Proof. unfold require_member_write. intros H Hv. by rewrite Hv in H. Qed.

Lemma engagement_found p u d e : get_engagement_or_404 p u d = Ok e →
  engagements d !! p = Some e ∧ is_Some (engagement_access e (cu_github_id u) d).
Proof.
  unfold get_engagement_or_404. destruct (engagements d !! p) as [x|]; [|done].
  destruct (engagement_access x _ d) eqn:E; [|done]. intros [= ->]. rewrite E. eauto.
Qed.

Lemma edit_report_program payload r r' : edit_report payload r = Ok r' → rp_program_id r' = rp_program_id r.
Proof. unfold edit_report. cbv zeta. unfold set_title, set_given. destruct (ru_title payload) as [[t|]|]; [|done|]; intros [= <-]; by repeat case_match. Qed.
Lemma edit_test_program payload t t' : edit_manual_test payload t = Ok t' → mt_program_id t' = mt_program_id t.
Proof. unfold edit_manual_test. cbv zeta. unfold set_title, set_given. destruct (tu_title payload) as [[x|]|]; [|done|]; intros [= <-]; by repeat case_match. Qed.


(** One case per table: what is left to say is about its other rows. *)
Ltac stays := split; simpl; try done; try (eexists; split_and!; [reflexivity|done..]).

Lemma write_stays p u d d' : record_write p u d d' → stays_in p (cu_github_id u) d d'.
Proof.
  intros [? ? ? ? ? ? H|? ? ? ? ? ? H|? ? ? ? ? ? H|? ? ? ? ? ? H|? ? ? ? ? H|? ? ? ? ? ? H|? ? ? ? ? ? H|? ? ? ? ? H|? ? ? ? ? ? H|? ? ? ? ? H];
    apply rbind_ok in H as (e & _ & H); apply rbind_ok in H as ([] & _ & H).
  - injection H as <- <-. stays. apply others_update. intros x _ Hx. simpl. by bool_simpl.
  - cbv zeta in H. destruct (first_row _ _) as [s'|]; [|done]. injection H as _ <-. stays. apply others_update. intros x _ Hx. simpl. by bool_simpl.
  - injection H as _ <-. stays. by apply others_snoc.
  - destruct (first_row _ _) as [x|] eqn:E; [|done]. apply rbind_ok in H as (y & Hy%edit_report_program & [= _ <-]). stays.
    apply first_row_Some in E as [_ E]. unfold this_report in *. apply others_update. intros z _ Hz. bool_simpl. split; congruence.
  - destruct (first_row _ _) as [x|]; [|done]. injection H as _ <-. stays. apply others_drop. intros z Hz. unfold this_report in Hz. by bool_simpl.
  - injection H as _ <-. stays. by apply others_snoc.
  - destruct (first_row _ _) as [x|] eqn:E; [|done]. apply rbind_ok in H as (y & Hy%edit_test_program & [= _ <-]). stays.
    apply first_row_Some in E as [_ E]. unfold this_test in *. apply others_update. intros z _ Hz. bool_simpl. split; congruence.
  - destruct (first_row _ _) as [x|]; [|done]. injection H as _ <-. stays. apply others_drop. intros z Hz. unfold this_test in Hz. by bool_simpl.
  - apply rbind_ok in H as ([] & _ & H). apply rbind_ok in H as ([] & _ & H). apply rbind_ok in H as ([] & _ & [= _ <-]). stays. by apply others_snoc.
  - destruct (first_row _ _) as [x|]; [|done]. injection H as _ <-. stays. apply others_drop. intros z Hz. unfold this_profile in Hz. by bool_simpl.
Qed.

Lemma write_needs_role p u d d' : record_write p u d d' →
  ∃ e role, engagements d !! p = Some e ∧ engagement_access e (cu_github_id u) d = Some role ∧ role ≠ "viewer".
Proof.
  intros [? ? ? ? ? ? H|? ? ? ? ? ? H|? ? ? ? ? ? H|? ? ? ? ? ? H|? ? ? ? ? H|? ? ? ? ? ? H|? ? ? ? ? ? H|? ? ? ? ? H|? ? ? ? ? ? H|? ? ? ? ? H];
    apply rbind_ok in H as (e & [He [role Hr]]%engagement_found & H); apply rbind_ok in H as ([] & Hw%write_allowed & _);
    exists e, role; (split_and!; [exact He|exact Hr|congruence]).
Qed.


(** ** Triage *)

Lemma echoed_known ids parsed l row : echoed ids parsed = Ok l → row ∈ l → ∃ i, i ∈ ids ∧ dget "id" row = JStr i.
Proof.
  revert l. induction parsed as [|j parsed IH]; intros l; simpl; [intros [= <-] []%elem_of_nil|].
  destruct j; try apply IH. intros (known & Hk & H)%rbind_ok. apply rbind_ok in H as (rest & Hr & [= <-]).
  destruct known; [|by apply IH]. intros [->|Hin]%elem_of_cons; [|by eapply IH].
  destruct (dget "id" fields) eqn:Ei; simpl in Hk; try done. injection Hk as Hk. apply bool_decide_eq_true in Hk.
  exists s. split; [done|]. by unfold triage_row, dget.
Qed.

(** The ranking names only scan items of the engagement that were sent. *)
Theorem triage_names_what_was_sent ask key float_of outside p ids u d l row :
  triage_scans ask key float_of outside p ids u d = Ok l → row ∈ l →
  ∃ s, s ∈ triage_items p ids d ∧ sc_program_id s = p ∧ dget "id" row = JStr (sc_id s).
Proof.
  unfold triage_scans. intros (e & _ & H)%rbind_ok. apply rbind_ok in H as ([] & _ & H).
  destruct (triage_items p ids d) as [|s0 items] eqn:Ei; [injection H as <-; by intros ?%elem_of_nil|].
  apply rbind_ok in H as ([] & _ & H). destruct (ask _) as [text|]; [|done]. apply rbind_ok in H as (parsed & _ & H).
  intros Hrow. destruct (echoed_known _ _ _ _ H Hrow) as (i & (s & -> & Hs)%list_elem_of_fmap & Hi). exists s. split_and!; [done| |done].
  rewrite <-Ei in Hs. unfold triage_items in Hs. apply elem_of_take in Hs as (k & Hk & _). apply list_elem_of_lookup_2 in Hk.
  rewrite merge_sort_Permutation in Hk. apply elem_of_rows in Hk as [_ Hb]. by bool_simpl.
Qed.

(** An id that is a list is not hashable: the answer is a 500. *)
Example unhashable_id : echoed ["scan-1"] [JObj [("id", JList [])]] = Raise TypeError.
Proof. reflexivity. Qed.

(** ** Scan profiles *)

(** A stored profile passes the checks a job's own tool, source and
    configuration go through. *)
Theorem profile_passes_job_checks new_id log_id now p body u d r d' : create_profile new_id log_id now p body u d = Ok (r, d') →
  mem (pf_tool_type r) _VALID_TOOLS = true ∧ mem (pf_target_source r) _VALID_SOURCES = true
  ∧ ∃ config, pf_config r = JObj config ∧ prepare_config None (pf_tool_type r) (Some config) = Ok config.
Proof.
  unfold create_profile. intros (e & _ & H)%rbind_ok. apply rbind_ok in H as ([] & _ & H). apply rbind_ok in H as ([] & Ht%guard_ok & H).
  apply rbind_ok in H as ([] & Hs%guard_ok & H). apply rbind_ok in H as ([] & Hc & [= <- <-]). split_and!; [done..|].
  eexists. split; [reflexivity|]. unfold prepare_config. simpl. destruct (default [] (pc_config body)); [done|]. simpl in *. by rewrite Hc.
Qed.

(** The reverse of what the handler's comment says: a Gate profile without a
    test case is stored, and the job endpoint refuses it. *)
Example profile_job_refused :
  is_ok (create_profile "pf-1" "log-1" 0 "eng-1" (MkProfileCreate "gate" _VARDRGATE "scope" None)
           (UserCtx "alice" "" "" "full" None) demo_db) = true
  ∧ is_ok (create_job "job-1" "log-2" 0 "eng-1" (MkJobCreate _VARDRGATE "scope" None None false)
             (UserCtx "alice" "" "" "full" None) demo_db) = false.
Proof. split; vm_compute; reflexivity. Qed.

(** ** A report added beside another engagement's *)

Module RecordsExample.
Definition bob : user_ctx := UserCtx "bob" "" "" "full" None.
Definition other : Report := MkReport "rp-0" "eng-2" None "Theirs" None None None None None None None None.
Definition d : db := set_reports [other] demo_db.
Definition payload : ReportCreate := MkReportCreate None "Ours" None None None None None None "draft".
Definition added : Report := MkReport "rp-1" "eng-1" (Some "") "Ours" (Some "") (Some "") (Some "") (Some "") (Some "") (Some "") (Some "draft") (Some 5).
Definition d' : db := log_action "log-1" 5 "bob" "create" "report" "rp-1" (Some "eng-1") (set_reports [other; added] d).

Lemma added_it : record_write "eng-1" bob d d'.
Proof. by eapply (rw_add_report _ _ _ "rp-1" "log-1" 5 payload added). Qed.
End RecordsExample.

