(* ===== verification/Runner.v ===== *)
(** * Runners and live updates: [routers/runner.py] and [sse.py]

    The heartbeat a machine posts, what the console is told of the caller's
    machines, and the broker that fans job events out to the consoles watching
    an engagement. *)
From S2P Require Import Prelude PyStr Json Time Models Access Findings Serializers.

(** ** Heartbeats *)

Definition _ONLINE_TIMEOUT_SECONDS : Z := 300.

(** A clock in whole microseconds. *)
Definition _age_seconds (last_seen now : time) : Z := now - last_seen.

Definition freshness (last_seen now : time) : string :=
  let age := _age_seconds last_seen now in
  if age <? 0 then "unknown" else if age <? seconds _ONLINE_TIMEOUT_SECONDS then "recent" else "stale".

Definition utc_iso (t : time) : string := isoformat t +:+ "+00:00".

Definition _serialize (hb : RunnerHeartbeat) (now : time) : dict :=
  let fresh := freshness (hb_last_seen hb) now in
  [("online", JBool (String.eqb fresh "recent")); ("freshness", JStr fresh); ("last_seen", JStr (utc_iso (hb_last_seen hb)));
   ("hostname", or_empty (hb_hostname hb)); ("version", or_empty (hb_version hb)); ("os", or_empty (hb_os_info hb));
   ("tools", if truthy (hb_tools hb) then hb_tools hb else JObj [])].

Record HeartbeatPayload := MkHeartbeatPayload {
  hp_hostname : string;
  hp_version : string;
  hp_os : string;
  hp_tools : json;
}.

Definition machine (github_id hostname : string) (h : RunnerHeartbeat) : bool :=
  String.eqb (hb_owner_github_id h) github_id && bool_decide (hb_hostname h = Some hostname).

Definition beat (body : HeartbeatPayload) (now : time) (h : RunnerHeartbeat) : RunnerHeartbeat :=
  MkRunnerHeartbeat (hb_id h) (hb_owner_github_id h) (hb_hostname h) (Some (hp_version body)) (Some (hp_os body)) (hp_tools body) now.

Definition post_heartbeat (new_id : string) (now : time) (body : HeartbeatPayload) (current_user : user_ctx) (d : db) : RunnerHeartbeat * db :=
  let owner := cu_github_id current_user in
  match first_row (machine owner (hp_hostname body)) (runner_heartbeats d) with
  | Some hb => (beat body now hb, set_runner_heartbeats (update_rows (λ h, String.eqb (hb_id h) (hb_id hb)) (beat body now) (runner_heartbeats d)) d)
  | None =>
      let hb := MkRunnerHeartbeat new_id owner (Some (hp_hostname body)) (Some (hp_version body)) (Some (hp_os body)) (hp_tools body) now in
      (hb, set_runner_heartbeats (runner_heartbeats d ++ [hb]) d)
  end.

Definition latest_seen (a b : RunnerHeartbeat) : Prop := hb_last_seen b <= hb_last_seen a.
#[export] Instance latest_seen_dec : RelDecision latest_seen.
Proof. intros a b. unfold latest_seen. apply _. Defined.

Definition is_online (runner : dict) : bool := truthy (dget "online" runner).

Definition get_runner_status (now : time) (current_user : user_ctx) (d : db) : dict :=
  let observation := [("schema_version", JInt 1); ("checked_at", JStr (utc_iso now)); ("stale_after_seconds", JInt _ONLINE_TIMEOUT_SECONDS)] in
  let found := merge_sort latest_seen (rows (λ h, String.eqb (hb_owner_github_id h) (cu_github_id current_user)) (runner_heartbeats d)) in
  match map (λ hb, _serialize hb now) found with
  | [] =>
      observation ++ [("freshness", JStr "unknown"); ("online", JBool false); ("last_seen", JNull); ("hostname", JNull); ("version", JNull);
                      ("os", JNull); ("tools", JObj []); ("runners", JList [])]
  | (most_recent :: _) as runners =>
      observation ++ [("freshness", if existsb is_online runners then JStr "recent" else dget "freshness" most_recent);
                      ("online", JBool (existsb is_online runners)); ("last_seen", dget "last_seen" most_recent);
                      ("hostname", dget "hostname" most_recent); ("version", dget "version" most_recent); ("os", dget "os" most_recent);
                      ("tools", dget "tools" most_recent); ("runners", JList (map JObj runners))]
  end.

Definition get_program_scope (program_id : string) (current_user : user_ctx) (d : db) : result (list dict * list dict) :=
  let? _ := get_engagement_or_404 program_id current_user d in
  let items kind := rows (λ i, String.eqb (si_program_id i) program_id && String.eqb (si_scope_type i) kind) (scope_items d) in
  let shown i := [("id", JStr (si_id i)); ("value", JStr (si_value i)); ("kind", opt_json (si_kind i)); ("notes", opt_json (si_notes i))] in
  Ok (map shown (items "in"), map shown (items "out")).

(** ** [sse.py]: one bounded queue per connected client

    A queue is a mutable object the client's stream holds on to after the
    broker has dropped it: the store of the queues is apart from the lists of
    subscribers. *)

Definition maxsize : nat := 50.

Record broker := MkBroker {
  subscribers : gmap string (list positive);
  queues : gmap positive (list json);
}.

Definition subscribed (program_id : string) (b : broker) : list positive := default [] (subscribers b !! program_id).

(** [asyncio.Queue()] is an object of its own. *)
Definition subscribe (program_id : string) (b : broker) : positive * broker :=
  let q := fresh (dom (queues b)) in
  (q, MkBroker (<[program_id := subscribed program_id b ++ [q]]> (subscribers b)) (<[q := []]> (queues b))).

(** [list.remove] takes the first. *)
Fixpoint remove_first (q : positive) (l : list positive) : list positive :=
  match l with [] => [] | x :: l' => if decide (x = q) then l' else x :: remove_first q l' end.

Definition unsubscribe (program_id : string) (q : positive) (b : broker) : broker :=
  MkBroker (<[program_id := remove_first q (subscribed program_id b)]> (subscribers b)) (queues b).

(** [put_nowait] raises [QueueFull]. *)
Definition put_nowait (q : positive) (event : json) (b : broker) : option broker :=
  let held := default [] (queues b !! q) in
  if (maxsize <=? length held)%nat then None else Some (MkBroker (subscribers b) (<[q := held ++ [event]]> (queues b))).

Definition push (event : json) (acc : list positive * broker) (q : positive) : list positive * broker :=
  match put_nowait q event acc.2 with
  | Some b => (acc.1, b)
  | None => (acc.1 ++ [q], acc.2)
  end.

Definition notify (program_id : string) (event : json) (b : broker) : broker :=
  let '(dead, b) := foldl (push event) ([], b) (subscribed program_id b) in
  foldl (λ b q, unsubscribe program_id q b) b dead.

(** [q.get()] of the stream, when there is an event. *)
Definition take_event (q : positive) (b : broker) : option (json * broker) :=
  match queues b !! q with
  | Some (event :: rest) => Some (event, MkBroker (subscribers b) (<[q := rest]> (queues b)))
  | _ => None
  end.

Definition stream_job_events (program_id : string) (current_user : user_ctx) (d : db) (b : broker) : result (positive * broker) :=
  let? _ := get_engagement_or_404 program_id current_user d in
  Ok (subscribe program_id b).
