(* ===== verification/RunnerSafety.v ===== *)
(** * What watching consoles receive, and one row per machine

    A console watching an engagement receives the events notified since it
    subscribed, in order and without a gap, all of them while it is subscribed;
    a machine has one heartbeat row, and is shown online for five minutes. *)
From S2P Require Import Prelude PyStr Json Time Models Access Findings Serializers Runner.

(** ** The broker and what it owes its clients *)

(** The broker with the events notified about each engagement, where each
    client came in, and what it has taken out. *)
Record watched := MkWatched {
  w_broker : broker;
  w_log : gmap string (list json);
  w_opened : gmap positive (string * nat);
  w_taken : gmap positive (list json);
}.

Definition log_of (s : watched) (p : string) : list json := default [] (w_log s !! p).
Definition taken_by (s : watched) (q : positive) : list json := default [] (w_taken s !! q).
Definition held_for (b : broker) (q : positive) : list json := default [] (queues b !! q).
Definition received (s : watched) (q : positive) : list json := taken_by s q ++ held_for (w_broker s) q.

Inductive watch_step (s : watched) : watched → Prop :=
| ws_subscribe p q b : subscribe p (w_broker s) = (q, b) →
    watch_step s (MkWatched b (w_log s) (<[q := (p, length (log_of s p))]> (w_opened s)) (<[q := []]> (w_taken s)))
| ws_close p q n : w_opened s !! q = Some (p, n) →
    watch_step s (MkWatched (unsubscribe p q (w_broker s)) (w_log s) (w_opened s) (w_taken s))
| ws_notify p event :
    watch_step s (MkWatched (notify p event (w_broker s)) (<[p := log_of s p ++ [event]]> (w_log s)) (w_opened s) (w_taken s))
| ws_take q event b : take_event q (w_broker s) = Some (event, b) →
    watch_step s (MkWatched b (w_log s) (w_opened s) (<[q := taken_by s q ++ [event]]> (w_taken s))).

Definition no_clients : watched := MkWatched (MkBroker ∅ ∅) ∅ ∅ ∅.

Record watched_wf (s : watched) : Prop := {
  ww_dom : dom (queues (w_broker s)) = dom (w_opened s);
  ww_own : ∀ p q, q ∈ subscribed p (w_broker s) → ∃ n, w_opened s !! q = Some (p, n);
  ww_once : ∀ p, NoDup (subscribed p (w_broker s));
  ww_bounded : ∀ q, (length (held_for (w_broker s) q) ≤ maxsize)%nat;
  ww_start : ∀ q p n, w_opened s !! q = Some (p, n) → (n ≤ length (log_of s p))%nat;
  ww_prefix : ∀ q p n, w_opened s !! q = Some (p, n) → received s q `prefix_of` drop n (log_of s p);
  ww_all : ∀ q p n, w_opened s !! q = Some (p, n) → q ∈ subscribed p (w_broker s) → received s q = drop n (log_of s p);
}.

(** ** [notify] *)

Definition full (b : broker) (q : positive) : Prop := (maxsize ≤ length (held_for b q))%nat.
#[export] Instance full_dec b q : Decision (full b q).
Proof. unfold full. apply _. Defined.

Lemma push_spec event q dead b :
  push event (dead, b) q
  = if decide (full b q) then (dead ++ [q], b) else (dead, MkBroker (subscribers b) (<[q := held_for b q ++ [event]]> (queues b))).
Proof.
  unfold push, put_nowait. cbn [fst snd]. fold (held_for b q). destruct (Nat.leb_spec maxsize (length (held_for b q))) as [H|H].
  - rewrite decide_True by exact H. done.
  - rewrite decide_False; [done|]. unfold full. lia.
Qed.

Lemma filter_ext_elem {A} (P Q : A → Prop) `{∀ x, Decision (P x), ∀ x, Decision (Q x)} (l : list A) :
  (∀ x, x ∈ l → P x ↔ Q x) → filter P l = filter Q l.
Proof.
  induction l as [|x l IH]; intros Hl; [done|]. rewrite !filter_cons, IH by (intros; apply Hl; by right).
  apply decide_ext, Hl. left.
Qed.

(** Every subscriber with room gets the event, the others are found dead. *)
Lemma push_all event l : ∀ dead b, NoDup l → let '(dead', b') := foldl (push event) (dead, b) l in
  subscribers b' = subscribers b ∧ dom (queues b) ⊆ dom (queues b') ∧ dom (queues b') ⊆ dom (queues b) ∪ list_to_set l
  ∧ dead' = dead ++ filter (full b) l
  ∧ ∀ q, held_for b' q = if decide (q ∈ l ∧ ¬ full b q) then held_for b q ++ [event] else held_for b q.
Proof.
  induction l as [|x l IH]; intros dead b.
  - intros _. cbn [foldl]. rewrite app_nil_r. split_and!; [done|done|set_solver|done|]. intros q.
    by destruct (decide _) as [[[]%elem_of_nil _]|].
  - intros [Hx Hl]%NoDup_cons. cbn [foldl]. rewrite push_spec. destruct (decide (full b x)) as [Hf|Hf].
    + specialize (IH (dead ++ [x]) b Hl). destruct (foldl _ _ l) as [dead' b']. destruct IH as (H1 & H2 & H3 & H4 & H5).
      split_and!; [done|done|set_solver| |].
      * rewrite H4, filter_cons, decide_True by done. by rewrite <-app_assoc.
      * intros q. rewrite H5. apply decide_ext. set_solver.
    + set (b1 := MkBroker _ _). specialize (IH dead b1 Hl). destruct (foldl _ _ l) as [dead' b'].
      destruct IH as (H1 & H2 & H3 & H4 & H5).
      assert (∀ q, q ≠ x → held_for b1 q = held_for b q) as Hne by (intros q Hq; unfold held_for; simpl; by rewrite lookup_insert_ne).
      assert (held_for b1 x = held_for b x ++ [event]) as Heq by (unfold held_for at 1; simpl; by rewrite lookup_insert_eq).
      split_and!; [done|etrans; [|exact H2]; simpl; set_solver|etrans; [exact H3|]; simpl; set_solver| |].
      * rewrite H4, filter_cons, decide_False by done. f_equal. apply filter_ext_elem. intros y Hy. unfold full. rewrite Hne; [done|congruence].
      * intros q. rewrite H5. destruct (decide (q = x)) as [->|Hq].
        -- rewrite Heq, decide_False, decide_True by set_solver. done.
        -- assert (full b1 q ↔ full b q) as Hfq by (unfold full; by rewrite Hne).
           destruct (decide (q ∈ l ∧ ¬ full b1 q)), (decide (q ∈ x :: l ∧ ¬ full b q)); rewrite Hne by done; try done; set_solver.
Qed.

Lemma elem_of_remove_first q x l : NoDup l → x ∈ remove_first q l ↔ x ∈ l ∧ x ≠ q.
Proof.
  induction l as [|y l IH]; intros Hl; simpl; [set_solver|]. apply NoDup_cons in Hl as [Hy Hl].
  case_decide; subst; [set_solver|]. rewrite !elem_of_cons, IH by done. naive_solver.
Qed.
Lemma NoDup_remove_first q l : NoDup l → NoDup (remove_first q l).
Proof.
  induction l as [|y l IH]; intros Hl; simpl; [done|]. pose proof Hl as [Hy Hl']%NoDup_cons. case_decide; [done|].
  constructor; [|auto]. rewrite elem_of_remove_first by done. naive_solver.
Qed.

Lemma subscribed_unsubscribe p p' q b :
  subscribed p (unsubscribe p' q b) = if decide (p = p') then remove_first q (subscribed p b) else subscribed p b.
Proof. unfold subscribed at 1, unsubscribe. simpl. case_decide; subst; [by rewrite lookup_insert_eq|by rewrite lookup_insert_ne]. Qed.

Lemma prune p dead : ∀ b, (∀ p', NoDup (subscribed p' b)) → let b' := foldl (λ b q, unsubscribe p q b) b dead in
  queues b' = queues b ∧ (∀ p', NoDup (subscribed p' b')) ∧ ∀ p' q, q ∈ subscribed p' b' ↔ q ∈ subscribed p' b ∧ ¬ (p' = p ∧ q ∈ dead).
Proof.
  induction dead as [|x dead IH]; intros b Hb; simpl; [split_and!; [done|done|set_solver]|].
  assert (∀ p', NoDup (subscribed p' (unsubscribe p x b))) as Hb1.
  { intros p'. rewrite subscribed_unsubscribe. case_decide; [by apply NoDup_remove_first|done]. }
  destruct (IH _ Hb1) as (H1 & H2 & H3). split_and!; [done|done|]. intros p' q. rewrite H3, subscribed_unsubscribe.
  case_decide; [rewrite elem_of_remove_first by done|]; set_solver.
Qed.

(** Every subscriber with room gets the event and stays; one without is
    dropped; nobody else is touched. *)
Lemma notify_spec p event b : (∀ p', NoDup (subscribed p' b)) → (∀ q, q ∈ subscribed p b → q ∈ dom (queues b)) →
  let b' := notify p event b in
  dom (queues b') = dom (queues b) ∧ (∀ p', NoDup (subscribed p' b'))
  ∧ (∀ p' q, q ∈ subscribed p' b' ↔ q ∈ subscribed p' b ∧ ¬ (p' = p ∧ full b q))
  ∧ ∀ q, held_for b' q = if decide (q ∈ subscribed p b ∧ ¬ full b q) then held_for b q ++ [event] else held_for b q.
Proof.
  intros Hb Hdom. unfold notify. pose proof (push_all event (subscribed p b) [] b (Hb p)) as H.
  destruct (foldl _ _ _) as [dead b1]. destruct H as (H1 & H2 & H3 & -> & H5). simpl.
  assert (∀ p', subscribed p' b1 = subscribed p' b) as Hs by (intros; unfold subscribed; by rewrite H1).
  destruct (prune p (filter (full b) (subscribed p b)) b1) as (G1 & G2 & G3); [intros; by rewrite Hs|]. split_and!.
  - rewrite G1. set_solver.
  - done.
  - intros p' q. rewrite G3, Hs, list_elem_of_filter. naive_solver.
  - intros q. unfold held_for at 1. rewrite G1. apply H5.
Qed.

(** ** The invariant is kept *)

Lemma log_insert s b p l o t p' : log_of (MkWatched b (<[p := l]> (w_log s)) o t) p' = if decide (p' = p) then l else log_of s p'.
Proof. unfold log_of. simpl. case_decide; subst; [by rewrite lookup_insert_eq|by rewrite lookup_insert_ne]. Qed.

Lemma watched_in_dom s q p n : watched_wf s → w_opened s !! q = Some (p, n) → q ∈ dom (queues (w_broker s)).
Proof. intros Hwf Hq. rewrite (ww_dom s Hwf). by apply elem_of_dom_2 in Hq. Qed.

Lemma subscribe_keeps s p q b : watched_wf s → subscribe p (w_broker s) = (q, b) →
  watched_wf (MkWatched b (w_log s) (<[q := (p, length (log_of s p))]> (w_opened s)) (<[q := []]> (w_taken s))).
Proof.
  intros [Hd Hown Hnd Hb Hst Hpre Hall] [= <- <-]. set (q := fresh _).
  assert (q ∉ dom (queues (w_broker s))) as Hq by apply is_fresh.
  assert (w_opened s !! q = None) as Ho by (apply not_elem_of_dom; by rewrite <-Hd).
  set (s' := MkWatched _ _ _ _).
  assert (∀ p', subscribed p' (w_broker s') = subscribed p' (w_broker s) ++ if decide (p' = p) then [q] else []) as Hs.
  { intros p'. unfold subscribed at 1. simpl. case_decide; subst; [by rewrite lookup_insert_eq|].
    rewrite lookup_insert_ne, app_nil_r by done. done. }
  assert (∀ x, x ≠ q → received s' x = received s x) as Hne.
  { intros x Hx. unfold received, taken_by, held_for. simpl. by rewrite !lookup_insert_ne. }
  assert (received s' q = []) as Hnew by (unfold received, taken_by, held_for; simpl; by rewrite !lookup_insert_eq).
  split.
  - simpl. rewrite !dom_insert_L. by rewrite Hd.
  - intros p' x. rewrite Hs, elem_of_app. intros [[n Hx]%Hown|Hx].
    + exists n. simpl. rewrite lookup_insert_ne; [done|congruence].
    + case_decide; [|by apply elem_of_nil in Hx]. apply list_elem_of_singleton in Hx as ->. subst. simpl. rewrite lookup_insert_eq. eauto.
  - intros p'. rewrite Hs. case_decide; [|by rewrite app_nil_r]. apply NoDup_snoc; [done|]. intros [n Hx]%Hown. congruence.
  - intros x. unfold held_for. simpl. destruct (decide (x = q)) as [->|]; [rewrite lookup_insert_eq; simpl; unfold maxsize; lia|].
    rewrite lookup_insert_ne by done. apply Hb.
  - intros x p' n. simpl. rewrite lookup_insert. case_decide; [intros [= <- <-]; apply Nat.le_refl|apply Hst].
  - intros x p' n Hx. destruct (decide (x = q)) as [->|Hxq]; [rewrite Hnew; apply prefix_nil|].
    simpl in Hx. rewrite lookup_insert_ne in Hx by done. rewrite Hne by done. by apply Hpre.
  - intros x p' n Hx Hin. destruct (decide (x = q)) as [->|Hxq].
    + simpl in Hx. rewrite lookup_insert_eq in Hx. injection Hx as <- <-. rewrite Hnew. symmetry. apply drop_all.
    + simpl in Hx. rewrite lookup_insert_ne in Hx by done. rewrite Hne by done. apply Hall; [done|].
      rewrite Hs in Hin. apply elem_of_app in Hin as [?|Hin]; [done|]. case_decide; [|by apply elem_of_nil in Hin].
      by apply list_elem_of_singleton in Hin.
Qed.

Lemma close_keeps s p q : watched_wf s →
  watched_wf (MkWatched (unsubscribe p q (w_broker s)) (w_log s) (w_opened s) (w_taken s)).
Proof.
  intros [Hd Hown Hnd Hb Hst Hpre Hall].
  assert (∀ p' x, x ∈ subscribed p' (unsubscribe p q (w_broker s)) → x ∈ subscribed p' (w_broker s)) as Hin.
  { intros p' x. rewrite subscribed_unsubscribe. case_decide; [|done]. rewrite elem_of_remove_first by done. by intros [? _]. }
  split; simpl; try done.
  - intros p' x Hx. by apply Hown, Hin.
  - intros p'. rewrite subscribed_unsubscribe. case_decide; [by apply NoDup_remove_first|done].
  - intros x p' n Hx Hs. apply (Hall x p' n); [done|by apply Hin].
Qed.

Lemma take_keeps s q event b : watched_wf s → take_event q (w_broker s) = Some (event, b) →
  watched_wf (MkWatched b (w_log s) (w_opened s) (<[q := taken_by s q ++ [event]]> (w_taken s))).
Proof.
  intros [Hd Hown Hnd Hb Hst Hpre Hall]. unfold take_event. destruct (queues (w_broker s) !! q) as [[|ev rest]|] eqn:Eq; [done| |done].
  intros [= -> <-]. set (s' := MkWatched _ _ _ _).
  assert (∀ x, received s' x = received s x) as Hr.
  { intros x. unfold received, taken_by, held_for. simpl. destruct (decide (x = q)) as [->|Hne]; [|by rewrite !lookup_insert_ne].
    rewrite !lookup_insert_eq, Eq. simpl. by rewrite <-app_assoc. }
  split; simpl; try done.
  - rewrite dom_insert_L, <-Hd. apply elem_of_dom_2 in Eq. set_solver.
  - intros x. unfold held_for. simpl. rewrite lookup_insert. case_decide; subst; [|apply Hb].
    specialize (Hb x). unfold held_for in Hb. rewrite Eq in Hb. simpl in *. lia.
  - intros x p n Hx. rewrite Hr. by apply Hpre.
  - intros x p n Hx Hs. rewrite Hr. by apply Hall.
Qed.

Lemma notify_keeps s p event : watched_wf s →
  watched_wf (MkWatched (notify p event (w_broker s)) (<[p := log_of s p ++ [event]]> (w_log s)) (w_opened s) (w_taken s)).
Proof.
  intros Hwf. pose proof Hwf as [Hd Hown Hnd Hb Hst Hpre Hall].
  destruct (notify_spec p event (w_broker s) Hnd) as (G1 & G2 & G3 & G4).
  { intros q [n Hq]%Hown. by eapply watched_in_dom. }
  set (s' := MkWatched _ _ _ _).
  assert (∀ x, received s' x = if decide (x ∈ subscribed p (w_broker s) ∧ ¬ full (w_broker s) x) then received s x ++ [event] else received s x) as Hr.
  { intros x. unfold received. simpl. rewrite G4. case_decide; [by rewrite app_assoc|done]. }
  split.
  - simpl. by rewrite G1.
  - intros p' x [Hx _]%G3. by apply Hown.
  - done.
  - intros x. simpl. rewrite G4. case_decide as Hx; [|apply Hb]. rewrite length_app. destruct Hx as [_ Hx]. unfold full, maxsize in *. simpl. lia.
  - intros x p' n Hx%Hst. unfold s'. rewrite log_insert. case_decide; subst; [rewrite length_app; lia|done].
  - intros x p' n Hx. change (w_opened s !! x = Some (p', n)) in Hx. unfold s' at 2. rewrite log_insert, Hr. pose proof (Hpre x p' n Hx) as Hp. pose proof (Hst x p' n Hx) as Hn.
    case_decide as Hs.
    + destruct Hs as [Hs Hf]. destruct (Hown p x Hs) as [n' Hx']. assert (p' = p ∧ n' = n) as [-> ->] by (split; congruence).
      rewrite decide_True by done. rewrite (Hall x p n Hx Hs), drop_app_le by done. done.
    + case_decide; [subst; rewrite drop_app_le by done; by apply prefix_app_r|done].
  - intros x p' n Hx [Hin Hnot]%G3. change (w_opened s !! x = Some (p', n)) in Hx. unfold s' at 2. rewrite log_insert, Hr. pose proof (Hst x p' n Hx) as Hn.
    rewrite (Hall x p' n Hx Hin). destruct (decide (p' = p)) as [->|Hne].
    + rewrite decide_True by naive_solver. by rewrite drop_app_le.
    + rewrite decide_False; [done|]. intros [[n' Hx']%Hown _]. congruence.
Qed.

Lemma watch_step_keeps s s' : watched_wf s → watch_step s s' → watched_wf s'.
Proof.
  intros Hwf [p q b H|p q n H|p event|q event b H].
  - by apply subscribe_keeps.
  - by apply close_keeps.
  - by apply notify_keeps.
  - by apply take_keeps.
Qed.

Lemma watched_reachable s : rtc watch_step no_clients s → watched_wf s.
Proof.
  assert (watched_wf no_clients) as Hwf.
  { split; simpl; [by rewrite !dom_empty_L|by intros ? ? ?%elem_of_nil|intros; by apply NoDup_nil_2|intros; apply Nat.le_0_l|done..]. }
  intros Hst. revert Hwf. generalize no_clients Hst. clear Hst. intros s0 Hst. induction Hst as [|s0 s1 s Hs _ IH]; [done|].
  intros Hwf. apply IH. by eapply watch_step_keeps.
Qed.


(** ** Heartbeats *)

Record heartbeats_wf (d : db) : Prop := {
  hw_ids : NoDup (map hb_id (runner_heartbeats d));
  hw_machines : NoDup (map (λ h, (hb_owner_github_id h, hb_hostname h)) (runner_heartbeats d));
}.

(** However often a machine reports, it has one row, the one that was updated
    or added last. *)
Theorem one_row_per_machine new_id now body u d : heartbeats_wf d → new_id ∉ map hb_id (runner_heartbeats d) →
  let '(hb, d') := post_heartbeat new_id now body u d in
  heartbeats_wf d' ∧ rows (machine (cu_github_id u) (hp_hostname body)) (runner_heartbeats d') = [hb] ∧ hb_last_seen hb = now.
Proof.
  intros [Hids Hm] Hnew. unfold post_heartbeat. set (this := machine _ _).
  assert (∀ t, NoDup (map (λ h, (hb_owner_github_id h, hb_hostname h)) t) → ∀ h, h ∈ t → this h = true → rows this t = [h]) as Hone.
  { induction t as [|x t IH]; intros Hnd h Hh Hb; [by apply elem_of_nil in Hh|]. apply NoDup_cons in Hnd as [Hx Ht]. simpl.
    apply elem_of_cons in Hh as [<-|Hh].
    - rewrite Hb. f_equal. apply rows_none. intros y Hy. apply not_true_iff_false. intros Hyb. apply Hx.
      unfold this, machine in *. bool_simpl. apply list_elem_of_fmap. exists y. split; [congruence|done].
    - destruct (this x) eqn:Ex; [|by apply IH]. destruct Hx. unfold this, machine in *. bool_simpl.
      apply list_elem_of_fmap. exists h. split; [congruence|done]. }
  destruct (first_row this (runner_heartbeats d)) as [hb|] eqn:E.
  - apply first_row_Some in E as [Hin Hb]. simpl. split_and!; [split| |done].
    + simpl. by rewrite map_update_rows.
    + simpl. by rewrite map_update_rows.
    + simpl. apply Hone; [by rewrite map_update_rows| |done]. apply elem_of_update_rows. exists hb. by rewrite String.eqb_refl.
  - rewrite first_row_None in E. simpl. split_and!; [split| |done].
    + simpl. rewrite map_app. by apply NoDup_snoc.
    + simpl. rewrite map_app. apply NoDup_snoc; [done|]. intros (x & [= Ho Hh] & Hx)%list_elem_of_fmap. specialize (E x Hx).
      unfold this, machine in E. by rewrite <-Ho, <-Hh, String.eqb_refl, bool_decide_eq_true_2 in E.
    + simpl. rewrite rows_app, (rows_none this (runner_heartbeats d)) by done. simpl. unfold this, machine. simpl.
      by rewrite String.eqb_refl, bool_decide_eq_true_2.
Qed.

(** The console shows a runner online exactly while one of the caller's
    machines has reported within five minutes. *)
Theorem online_for_five_minutes now u d :
  dget "online" (get_runner_status now u d)
  = JBool (existsb (λ h, String.eqb (hb_owner_github_id h) (cu_github_id u)
                         && (0 <=? now - hb_last_seen h) && (now - hb_last_seen h <? seconds 300)) (runner_heartbeats d)).
Proof.
  unfold get_runner_status. set (found := merge_sort _ _). set (runners := map _ found).
  assert (existsb is_online runners = existsb (λ h, (0 <=? now - hb_last_seen h) && (now - hb_last_seen h <? seconds 300)) found) as Hr.
  { unfold runners. induction found as [|h l IH]; [done|]. simpl. rewrite IH. f_equal. unfold is_online, _serialize. simpl.
    unfold freshness, _age_seconds, _ONLINE_TIMEOUT_SECONDS. destruct (Z.ltb_spec (now - hb_last_seen h) 0), (Z.leb_spec 0 (now - hb_last_seen h)); [lia|done| |lia].
    by destruct (_ <? _). }
  assert (existsb is_online runners = existsb (λ h, String.eqb (hb_owner_github_id h) (cu_github_id u)
    && (0 <=? now - hb_last_seen h) && (now - hb_last_seen h <? seconds 300)) (runner_heartbeats d)) as <-.
  { rewrite Hr. apply eq_true_iff_eq. rewrite !existsb_exists. setoid_rewrite <-list_elem_of_In. unfold found.
    setoid_rewrite merge_sort_Permutation. setoid_rewrite elem_of_rows. setoid_rewrite andb_true_iff. setoid_rewrite andb_true_iff. naive_solver. }
  by destruct runners.
Qed.

(** ** A client that takes one event of two *)

Module WatchExample.
Definition q : positive := (subscribe "eng-1" (w_broker no_clients)).1.
Definition first : json := JObj [("type", JStr "job_update")].
Definition s1 : watched :=
  MkWatched (subscribe "eng-1" (w_broker no_clients)).2 ∅ (<[q := ("eng-1", 0%nat)]> ∅) (<[q := []]> ∅).
Definition s2 : watched := MkWatched (notify "eng-1" first (w_broker s1)) (<["eng-1" := [first]]> (w_log s1)) (w_opened s1) (w_taken s1).
Definition s3 : watched := MkWatched (notify "eng-2" JNull (w_broker s2)) (<["eng-2" := [JNull]]> (w_log s2)) (w_opened s2) (w_taken s2).

Lemma run : rtc watch_step no_clients s3.
Proof.
  eapply rtc_l; [exact (ws_subscribe no_clients "eng-1" q _ eq_refl)|].
  eapply rtc_l; [exact (ws_notify s1 "eng-1" first)|]. eapply rtc_l; [exact (ws_notify s2 "eng-2" JNull)|]. constructor.
Qed.
End WatchExample.

