(* ===== verification/Radar.v ===== *)
(** * Target radar and playbooks: [routers/radar.py], [playbooks.py],
      [routers/playbooks.py]

    Public program listings, fetched from two platforms and kept per user, and
    the catalogue of playbooks.  The fetching is a parameter; so is the number
    an untyped value becomes in an integer column. *)
From S2P Require Import Prelude PyStr Json Time Models Access JobConfig Schemas Findings Serializers.

(** ** Parsing listings *)

(** [validate_safe_url(raw) or fallback]: [raw] is whatever the platform sent. *)
Definition _safe_radar_url (raw : json) (fallback : string) : result string :=
  if negb (truthy raw) then Ok fallback
  else match raw with
       | JStr s =>
           match validate_safe_url s with
           | Ok u => Ok (if String.eqb u "" then fallback else u)
           | Raise ValueError => Ok fallback
           | Raise e => Raise e
           end
       | _ => Raise AttributeError
       end.

Record entry := MkEntry { en_platform_id : string; en_name : string; en_url : string; en_max_payout : json }.

(** [a or b] *)
Definition either (a b : json) : json := if truthy a then a else b.

Definition programs_of (data : json) : result (list json) :=
  match data with
  | JList l => Ok l
  | JObj d => py_iter (default (JList []) (lookup_key "programs" d))
  | _ => Raise AttributeError
  end.

(** The two parsers differ in the order of the two names, in where the link and
    the payout are, and in the platform's address. *)
Definition listed (first second site : string) (attributes : dict → result dict) (url payout payout2 : string) (p : json) : result (list entry) :=
  match p with
  | JObj d =>
      let code := either (either (dget first d) (dget second d)) (JStr "") in
      let name := either (dget "name" d) code in
      if negb (truthy code) || negb (truthy name) then Ok []
      else
        let? attrs := attributes d in
        let? link := _safe_radar_url (dget url attrs) (site +:+ py_str code) in
        Ok [MkEntry (py_str code) (take_string 300 (py_str name)) link (either (dget payout attrs) (dget payout2 attrs))]
  | _ => Raise AttributeError
  end.

Definition _parse_bugcrowd (data : json) : result (list entry) :=
  let? programs := programs_of data in
  let? found := map_result (listed "code" "handle" "https://bugcrowd.com/" (λ d, Ok d) "program_url" "max_payout" "maximum_payout") programs in
  Ok (concat found).

Definition _parse_hackerone (data : json) : result (list entry) :=
  let? programs := programs_of data in
  let attributes d := match either (dget "attributes" d) (JObj d) with JObj a => Ok a | _ => Raise AttributeError end in
  let? found := map_result (listed "handle" "code" "https://hackerone.com/" attributes "url" "maximum_bounty" "max_payout") programs in
  Ok (concat found).

Definition _SOURCES : list (string * string) :=
  [("bugcrowd", "https://bugcrowd.com/programs.json"); ("hackerone", "https://hackerone.com/programs.json")].

Section Refresh.
(** The decoded reply of a platform, or the text of the error. *)
Context (fetch : string → json + string).
Context (int_column : json → result (option Z)).

Definition _fetch_platform (platform : string) : result (list entry) :=
  match fetch (default "" (lookup_key platform _SOURCES)) with
  | inr text => http 502 text
  | inl data => if String.eqb platform "bugcrowd" then _parse_bugcrowd data else _parse_hackerone data
  end.

Definition same_program (owner platform platform_id : string) (r : RadarProgram) : bool :=
  String.eqb (rd_owner_github_id r) owner && String.eqb (rd_platform r) platform && String.eqb (rd_platform_id r) platform_id.

Definition refreshed (e : entry) (payout : option Z) (now : time) (r : RadarProgram) : RadarProgram :=
  let r := rd_set_name (en_name e) r in
  let r := if String.eqb (en_url e) "" then r else rd_set_url (Some (en_url e)) r in
  rd_set_last_fetched_at now (rd_set_max_payout payout r).

(** The tables as the session sees them: rows it has updated, and rows it has
    added, which no query finds before they are flushed. *)
Record pending := MkPending { pn_rows : list RadarProgram; pn_added : list RadarProgram; pn_new : nat; pn_updated : nat }.

(** The payout is converted when the session flushes: a value the column
    refuses fails the request either way. *)
Definition put_entry (ids : nat → string) (owner platform : string) (now : time) (acc : pending) (e : entry) : result pending :=
  let? payout := int_column (en_max_payout e) in
  match first_row (same_program owner platform (en_platform_id e)) (pn_rows acc) with
  | Some existing =>
      Ok (MkPending (update_rows (λ r, String.eqb (rd_id r) (rd_id existing)) (refreshed e payout now) (pn_rows acc))
            (pn_added acc) (pn_new acc) (S (pn_updated acc)))
  | None =>
      let row := MkRadarProgram (ids (pn_new acc)) owner platform (en_platform_id e) (en_name e) (Some (en_url e)) payout (Some "1") now now in
      Ok (MkPending (pn_rows acc) (pn_added acc ++ [row]) (S (pn_new acc)) (pn_updated acc))
  end.

Fixpoint put_entries (ids : nat → string) (owner platform : string) (now : time) (acc : pending) (l : list entry) : result pending :=
  match l with
  | [] => Ok acc
  | e :: l => let? acc := put_entry ids owner platform now acc e in put_entries ids owner platform now acc l
  end.

Fixpoint put_platforms (ids : nat → string) (owner : string) (now : time) (acc : pending) (platforms : list string) : result pending :=
  match platforms with
  | [] => Ok acc
  | p :: rest =>
      let? entries := _fetch_platform p in
      let? acc := put_entries ids owner p now acc entries in
      put_platforms ids owner now acc rest
  end.

Definition refresh_radar (ids : nat → string) (now : time) (platform : string) (current_user : user_ctx) (d : db)
    : result (nat * nat * list string * db) :=
  let platforms := if String.eqb platform "" then keys _SOURCES else [platform] in
  check? guard (forallb (λ p, has_key p _SOURCES) platforms) 400
    ("Unknown platform '" +:+ platform +:+ "'. Use: " +:+ repr_list (keys _SOURCES)) in
  let? acc := put_platforms ids (cu_github_id current_user) now (MkPending (radar_programs d) [] 0 0) platforms in
  Ok (pn_new acc, pn_updated acc, platforms, set_radar_programs (pn_rows acc ++ pn_added acc) d).
End Refresh.

(** ** Reading *)

Definition is_new (r : RadarProgram) : bool := bool_decide (rd_is_new r = Some "1").

Definition serialize_radar (r : RadarProgram) : dict :=
  [("id", JStr (rd_id r)); ("platform", JStr (rd_platform r)); ("platform_id", JStr (rd_platform_id r)); ("name", JStr (rd_name r));
   ("url", opt_json (rd_url r)); ("max_payout", opt_int (rd_max_payout r)); ("is_new", JBool (is_new r));
   ("discovered_at", JStr (isoformat (rd_discovered_at r))); ("last_fetched_at", JStr (isoformat (rd_last_fetched_at r)))].

Definition latest_found (a b : RadarProgram) : Prop := rd_discovered_at b <= rd_discovered_at a.
#[export] Instance latest_found_dec : RelDecision latest_found.
Proof. intros a b. unfold latest_found. apply _. Defined.

(** The programs, how many were new, and the table in which they are seen. *)
Definition list_radar (platform : string) (current_user : user_ctx) (d : db) : list dict * Z * db :=
  let mine r := String.eqb (rd_owner_github_id r) (cu_github_id current_user)
                && (String.eqb platform "" || String.eqb (rd_platform r) platform) in
  let found := merge_sort latest_found (rows mine (radar_programs d)) in
  (map serialize_radar found, Z.of_nat (length (rows is_new found)),
   set_radar_programs (update_rows (λ r, mine r && is_new r) (rd_set_is_new (Some "0")) (radar_programs d)) d).

(** ** Playbooks *)

Record ApiPlaybook := MkApiPlaybook {
  pb_id : string;
  pb_title : string;
  pb_version : string;
  pb_use_when : string;
  pb_expected_artifacts : string;
  pb_prerequisites : list string;
  pb_steps : list string;
  pb_common_traps : string;
  pb_manual_remainder : string;
}.

(** The items of the file once pydantic has validated them. *)
Definition load_playbooks (items : list ApiPlaybook) : result (list (string * ApiPlaybook)) :=
  if (length (dedup (map pb_id items)) =? length items)%nat then Ok (map (λ p, (pb_id p, p)) items) else Raise ValueError.

Section Catalog.
Context (CATALOG : list (string * ApiPlaybook)).

Definition list_playbooks (program_id : string) (current_user : user_ctx) (d : db) : result (list dict * Z) :=
  let? _ := get_engagement_or_404 program_id current_user d in
  Ok (map (λ kp, [("id", JStr (pb_id kp.2)); ("title", JStr (pb_title kp.2)); ("version", JStr (pb_version kp.2));
                  ("use_when", JStr (pb_use_when kp.2))]) CATALOG, Z.of_nat (length CATALOG)).

Definition get_playbook (program_id playbook_id : string) (current_user : user_ctx) (d : db) : result ApiPlaybook :=
  let? _ := get_engagement_or_404 program_id current_user d in
  match lookup_key playbook_id CATALOG with
  | Some p => Ok p
  | None => http 404 "Playbook not found"
  end.
End Catalog.

(** ** Links *)

(** What may be rendered as a link: the platform's own address, or a link that
    passed the check. *)
Definition safe_link (site u : string) : Prop := startswith u site = true ∨ ∃ s, validate_safe_url s = Ok u ∧ u ≠ "".

Lemma safe_radar_url_ok raw fallback u : _safe_radar_url raw fallback = Ok u → u = fallback ∨ ∃ s, validate_safe_url s = Ok u ∧ u ≠ "".
Proof.
  unfold _safe_radar_url. destruct (truthy raw); simpl; [|intros [= ->]; by left]. destruct raw; try done.
  destruct (validate_safe_url s) as [v|[]] eqn:E; try done; [|intros [= ->]; by left].
  destruct (String.eqb_spec v "") as [->|]; intros [= <-]; [by left|right; eauto].
Qed.

(** A listing cannot smuggle a script into a link. *)
Theorem listed_links_safe first second site attributes url p1 p2 p l e :
  listed first second site attributes url p1 p2 p = Ok l → e ∈ l → safe_link site (en_url e).
Proof.
  unfold listed. destruct p; try done. destruct (_ || _); [intros [= <-] []%elem_of_nil|].
  intros (attrs & _ & H)%rbind_ok. apply rbind_ok in H as (link & Hl%safe_radar_url_ok & [= <-]). intros ->%list_elem_of_singleton.
  destruct Hl as [->|?]; [left; simpl; apply startswith_app|by right].
Qed.

(** A program the listing repeats is stored twice: no query finds the row the
    session has added. *)
Example repeated_program_stored_twice :
  length (radar_programs (match refresh_radar (λ _, inl (JList [JObj [("code", JStr "acme")]; JObj [("code", JStr "acme")]])) (λ _, Ok None)
     (λ n, string_of_nat n) 0 "bugcrowd" (UserCtx "alice" "" "" "full" None) empty_db with Ok (_, d) => d | Raise _ => empty_db end)) = 2%nat.
Proof. vm_compute. reflexivity. Qed.
