(* ===== verification/Authorizations.v ===== *)
(** * [routers/authorizations.py], [routers/proposals.py] and the fields of an engagement

    The record of permission to test, an agent's proposals to change it, and
    the creation and update of engagements.  Whatever the managed issuer reads
    of an engagement changes here, under the engagement's row lock and with
    its authority revision. *)
From S2P Require Import Prelude PyStr Json Time Policy Models Access Enforcement JobConfig Engagements Schemas Scope.

Section Dates.
Context (other_iso : string → option datetime).
(** What a [DateTime] column holds after a datetime is written to it: the
    database's. *)
Context (stored : datetime → time).
#[local] Abbreviation parse_date := (parse_iso_datetime other_iso).

(** [getattr(row, field) != value] for a column read back naive; an aware and
    a naive datetime are never equal. *)
Definition date_differs (old : option time) (new : option datetime) : bool :=
  match old, new with
  | None, None => false
  | Some t, Some d => bool_decide (is_Some (dt_tzinfo d)) || negb (t =? dt_wall d)
  | _, _ => true
  end.

(** ** Authorizations *)

Definition in_program (program_id : string) (a : Authorization) : bool := String.eqb (au_program_id a) program_id.

Definition _get_authorization_or_404 (program_id authorization_id : string) (d : db) : result Authorization :=
  match first_row (λ a, String.eqb (au_id a) authorization_id && in_program program_id a) (authorizations d) with
  | Some auth => Ok auth
  | None => http 404 "Authorization not found"
  end.

(** [ORDER BY created_at DESC], NULL first. *)
Definition newest_first (a b : Authorization) : Prop :=
  match au_created_at a, au_created_at b with
  | None, _ => True
  | Some _, None => False
  | Some x, Some y => y <= x
  end.
#[export] Instance newest_first_dec : RelDecision newest_first.
Proof. intros a b. unfold newest_first. repeat case_match; apply _. Defined.

Definition list_authorizations (program_id : string) (current_user : user_ctx) (d : db) : result (list Authorization) :=
  let? _ := get_engagement_or_404 program_id current_user d in
  Ok (merge_sort newest_first (rows (in_program program_id) (authorizations d))).

Definition create_authorization (new_id log_id : string) (now : time) (program_id : string)
    (payload : AuthorizationCreate) (current_user : user_ctx) (d : db) : result (Authorization * db) :=
  let? engagement := get_engagement_or_404 program_id current_user d in
  check? require_member_write engagement current_user d in
  let? at_ := parse_date (acr_authorized_at payload) "authorized_at" in
  let? start := parse_date (acr_window_start payload) "window_start" in
  let? stop := parse_date (acr_window_end payload) "window_end" in
  let? '(engagement, d) := advance d engagement in
  let auth := MkAuthorization new_id program_id (e_owner_github_id engagement) (Some (acr_permits payload))
    (Some (acr_authorized_by payload)) (stored <$> at_) (Some (acr_reference payload)) (stored <$> start)
    (stored <$> stop) (Some "active") (Some (acr_notes payload)) (Some now) in
  Ok (auth, log_action log_id now (cu_github_id current_user) "create" "authorization" new_id (Some program_id)
              (set_authorizations (authorizations d ++ [auth]) d)).

(** The fields a PATCH sets; for a date, [Some None] clears it. *)
Record AuthorizationUpdate := MkAuthorizationUpdate {
  aup_permits : option string;
  aup_authorized_by : option string;
  aup_authorized_at : option (option string);
  aup_reference : option string;
  aup_window_start : option (option string);
  aup_window_end : option (option string);
  aup_status : option string;
  aup_notes : option string;
}.

(** A row being updated, and whether anything but its notes changed. *)
Definition edited (A : Type) : Type := A * bool.

Definition edit_text {A} (read : A → option string) (write : option string → A → A) (value : option string)
    (st : edited A) : edited A :=
  match value with
  | None => st
  | Some s => (write (Some s) st.1, st.2 || negb (bool_decide (read st.1 = Some s)))
  end.

Definition edit_date {A} (name : string) (read : A → option time) (write : option time → A → A)
    (value : option (option string)) (st : edited A) : result (edited A) :=
  match value with
  | None => Ok st
  | Some v =>
      let? date := parse_date v name in
      Ok (if date_differs (read st.1) date then (write (stored <$> date) st.1, true) else st)
  end.

Definition edit_authorization (payload : AuthorizationUpdate) (auth : Authorization) : result (edited Authorization) :=
  let st := edit_text au_permits au_set_permits (aup_permits payload) (auth, false) in
  let st := edit_text au_authorized_by au_set_authorized_by (aup_authorized_by payload) st in
  let? st := edit_date "authorized_at" au_authorized_at au_set_authorized_at (aup_authorized_at payload) st in
  let st := edit_text au_reference au_set_reference (aup_reference payload) st in
  let? st := edit_date "window_start" au_window_start au_set_window_start (aup_window_start payload) st in
  let? st := edit_date "window_end" au_window_end au_set_window_end (aup_window_end payload) st in
  let st := edit_text au_status au_set_status (aup_status payload) st in
  Ok (match aup_notes payload with Some n => au_set_notes (Some n) st.1 | None => st.1 end, st.2).

Definition update_authorization (log_id : string) (now : time) (program_id authorization_id : string)
    (payload : AuthorizationUpdate) (current_user : user_ctx) (d : db) : result (Authorization * db) :=
  let? engagement := get_engagement_or_404 program_id current_user d in
  check? require_member_write engagement current_user d in
  let? engagement := lock d engagement in
  let? auth := _get_authorization_or_404 program_id authorization_id d in
  let? '(auth', changed) := edit_authorization payload auth in
  let d := set_engagement (bump changed engagement) d in
  let d := set_authorizations
             (update_rows (λ a, String.eqb (au_id a) (au_id auth)) (λ _, auth') (authorizations d)) d in
  Ok (auth', log_action log_id now (cu_github_id current_user) "update" "authorization" (au_id auth) (Some program_id) d).

(** The first active one whose window contains the present. *)
Definition get_active_authorization (now : time) (program_id : string) (current_user : user_ctx) (d : db)
    : result (option Authorization) :=
  let? _ := get_engagement_or_404 program_id current_user d in
  let active a := in_program program_id a && bool_decide (au_status a = Some "active") in
  let open a := match au_window_start a with Some s => s <=? now | None => true end
                && match au_window_end a with Some s => now <=? s | None => true end in
  Ok (List.find open (merge_sort newest_first (rows active (authorizations d)))).

(** ** Proposals *)

Context (nh3_clean html_unescape : string → string).

Definition _MAX_PENDING : Z := 100.
Definition proposal_severities : list string := ["" ; "info"; "low"; "medium"; "high"; "critical"].

(** [raise HTTPException(400, detail=exc.errors())] *)
Definition validated {A} (x : field A) : result A :=
  match x with Valid a => Ok a | Invalid => http 400 "ValidationError" | Broken e => Raise e end.

Definition _validated_payload (kind : string) (payload : dict) : result dict :=
  if mem kind ["scope_in"; "scope_out"] then
    let? item := validated (scope_item_create nh3_clean html_unescape payload) in
    let sev := default (JStr "") (lookup_key "max_severity" payload) in
    let? known := in_str_set sev proposal_severities in
    check? guard known 400 "max_severity must be one of _SEVERITIES" in
    Ok [("value", JStr (sic_value item)); ("kind", JStr (sic_kind item)); ("notes", JStr (sic_notes item));
        ("max_severity", sev)]
  else if String.eqb kind "authorization" then
    let? auth := validated (authorization_create nh3_clean html_unescape payload) in
    let? _ := parse_date (acr_authorized_at auth) "authorized_at" in
    let? _ := parse_date (acr_window_start auth) "window_start" in
    let? _ := parse_date (acr_window_end auth) "window_end" in
    Ok (authorization_dump auth)
  else if String.eqb kind "rate_ceiling" then
    let? rate := try_int (dget "rate" payload) in
    match rate with
    | None => http 400 "rate_ceiling payload needs an integer `rate`"
    | Some rate =>
        check? guard ((1 <=? rate) && (rate <=? 1000)) 400 "rate must be between 1 and 1000" in
        Ok [("rate", JInt rate)]
    end
  else http 400 ("unknown proposal kind " +:+ repr_str kind).

Definition of_program (program_id : string) (p : AgentProposal) : bool := String.eqb (pp_program_id p) program_id.
Definition pending_proposal (program_id : string) (p : AgentProposal) : bool :=
  of_program program_id p && String.eqb (pp_status p) "pending".

Record ProposalCreate := MkProposalCreate {
  pc_kind : string; pc_payload : dict; pc_reason : string; pc_source : string }.

(** [current_user.get("username") or current_user.get("github_id") or ""] *)
Definition proposer (u : user_ctx) : string := if String.eqb (cu_username u) "" then cu_github_id u else cu_username u.

Definition create_proposal (new_id log_id : string) (now : time) (program_id : string) (payload : ProposalCreate)
    (current_user : user_ctx) (d : db) : result (AgentProposal * db) :=
  let? engagement := get_engagement_or_404 program_id current_user d in
  check? require_member_write engagement current_user d in
  let pending := Z.of_nat (length (rows (pending_proposal (e_id engagement)) (agent_proposals d))) in
  check? guard (pending <? _MAX_PENDING) 409 "100 proposals already await review; resolve some first" in
  let? clean := _validated_payload (pc_kind payload) (pc_payload payload) in
  let proposal := MkAgentProposal new_id (e_id engagement) (e_owner_github_id engagement)
    (Some (proposer current_user)) (pc_kind payload) (JObj clean) (Some (pc_reason payload))
    (Some (pc_source payload)) "pending" (Some "") (Some now) None (Some "") in
  Ok (proposal, log_action log_id now (cu_github_id current_user) "create" "agent_proposal" new_id
                  (Some (e_id engagement)) (set_agent_proposals (agent_proposals d ++ [proposal]) d)).

(** Newest first, of one status or all. *)
Definition newer_proposal (a b : AgentProposal) : Prop :=
  match pp_created_at a, pp_created_at b with
  | None, _ => True
  | Some _, None => False
  | Some x, Some y => y <= x
  end.
#[export] Instance newer_proposal_dec : RelDecision newer_proposal.
Proof. intros a b. unfold newer_proposal. repeat case_match; apply _. Defined.

Definition list_proposals (program_id : string) (status : option string) (current_user : user_ctx) (d : db)
    : result (list AgentProposal) :=
  let? engagement := get_engagement_or_404 program_id current_user d in
  let wanted p := of_program (e_id engagement) p
                  && match status with Some s => String.eqb (pp_status p) s | None => true end in
  Ok (merge_sort newer_proposal (rows wanted (agent_proposals d))).

Definition _proposal_or_404 (program_id proposal_id : string) (current_user : user_ctx) (d : db)
    : result (Engagement * AgentProposal) :=
  let? engagement := get_engagement_or_404 program_id current_user d in
  match first_row (λ p, String.eqb (pp_id p) proposal_id && of_program (e_id engagement) p) (agent_proposals d) with
  | None => http 404 "Proposal not found"
  | Some proposal => Ok (engagement, proposal)
  end.

(** A text of the stored payload, which holds nothing else where a text is
    expected (its payload is [_validated_payload]'s); the model lets anything
    else fail. *)
Definition text_at (k fallback : string) (payload : dict) : result string :=
  match lookup_key k payload with
  | None => Ok fallback
  | Some (JStr s) => Ok s
  | Some _ => Raise TypeError
  end.

Definition date_at (k : string) (payload : dict) : result (option datetime) :=
  let v := dget k payload in
  if truthy v then match v with JStr s => parse_date (Some s) k | _ => Raise AttributeError end else Ok None.

(** [proposal.payload or {}] *)
Definition payload_of (p : AgentProposal) : dict := match pp_payload p with JObj d => d | _ => [] end.

(** [_apply]: the id of the row it created, empty for a rate. *)
Definition _apply (new_id : string) (now : time) (engagement : Engagement) (p : AgentProposal) (d : db)
    : result (string * db) :=
  let? '(engagement, d) := advance d engagement in
  let payload := payload_of p in
  if mem (pp_kind p) ["scope_in"; "scope_out"] then
    let? value := (let? v := json_index "value" (JObj payload) in match v with JStr s => Ok s | _ => Raise TypeError end) in
    let? kind := text_at "kind" "domain" payload in
    let? notes := text_at "notes" "" payload in
    let? severity := text_at "max_severity" "" payload in
    let item := new_scope_item new_id (e_id engagement)
      (if String.eqb (pp_kind p) "scope_in" then "in" else "out") value kind notes severity now in
    Ok (new_id, add_scope_row item d)
  else if String.eqb (pp_kind p) "authorization" then
    let? at_ := date_at "authorized_at" payload in
    let? start := date_at "window_start" payload in
    let? stop := date_at "window_end" payload in
    let? permits := text_at "permits" "" payload in
    let? by_ := text_at "authorized_by" "" payload in
    let? reference := text_at "reference" "" payload in
    let? notes := text_at "notes" "" payload in
    let auth := MkAuthorization new_id (e_id engagement) (e_owner_github_id engagement) (Some permits) (Some by_)
      (stored <$> at_) (Some reference) (stored <$> start) (stored <$> stop) (Some "active") (Some notes) (Some now) in
    Ok (new_id, set_authorizations (authorizations d ++ [auth]) d)
  else if String.eqb (pp_kind p) "rate_ceiling" then
    let? v := json_index "rate" (JObj payload) in
    let? rate := py_int v in
    Ok ("", set_engagement (e_set_max_request_rate (Some rate) engagement) d)
  else http 400 ("cannot apply unknown kind " +:+ repr_str (pp_kind p)).

(** The proposal as it is in the database. *)
Definition stored_proposal (d : db) (id : string) : result AgentProposal :=
  match first_row (λ p, String.eqb (pp_id p) id) (agent_proposals d) with
  | Some p => Ok p
  | None => Raise InvalidRequestError
  end.

Definition resolve (status by_ : string) (now : time) (p : AgentProposal) : AgentProposal :=
  pp_set_resolved_by (Some by_) (pp_set_resolved_at (Some now) (pp_set_status status p)).

Definition put_proposal (id : string) (f : AgentProposal → AgentProposal) (d : db) : db :=
  set_agent_proposals (update_rows (λ p, String.eqb (pp_id p) id) f (agent_proposals d)) d.

(** [approve_proposal]: the lock is taken and the proposal read again before
    its status is looked at. *)
Definition approve_proposal (new_id log_id : string) (now : time) (program_id proposal_id : string)
    (current_user : user_ctx) (d : db) : result (AgentProposal * db) :=
  let? current_user := require_full_scope current_user in
  let? '(engagement, proposal) := _proposal_or_404 program_id proposal_id current_user d in
  check? require_member_write engagement current_user d in
  let? engagement := lock d engagement in
  let? proposal := stored_proposal d (pp_id proposal) in
  check? guard (String.eqb (pp_status proposal) "pending") 409 ("proposal is already " +:+ pp_status proposal) in
  let? '(applied, d) := _apply new_id now engagement proposal d in
  let finished p := resolve "approved" (cu_github_id current_user) now (pp_set_applied_resource_id (Some applied) p) in
  Ok (finished proposal,
      log_action log_id now (cu_github_id current_user) "approve" "agent_proposal" (pp_id proposal)
        (Some (e_id engagement)) (put_proposal (pp_id proposal) finished d)).

(** [reject_proposal] takes no lock: the status it looks at may be of an
    earlier database than the one it writes to. *)
Definition reject_proposal (log_id : string) (now : time) (program_id proposal_id : string)
    (current_user : user_ctx) (seen d : db) : result (AgentProposal * db) :=
  let? current_user := require_full_scope current_user in
  let? '(engagement, proposal) := _proposal_or_404 program_id proposal_id current_user seen in
  check? require_member_write engagement current_user seen in
  check? guard (String.eqb (pp_status proposal) "pending") 409 ("proposal is already " +:+ pp_status proposal) in
  let? row := stored_proposal d (pp_id proposal) in
  let finished := resolve "rejected" (cu_github_id current_user) now in
  Ok (finished row,
      log_action log_id now (cu_github_id current_user) "reject" "agent_proposal" (pp_id proposal)
        (Some (e_id engagement)) (put_proposal (pp_id proposal) finished d)).
End Dates.

(** ** Creating and updating engagements *)

Section Engagements.
Context (other_iso : string → option datetime) (stored : datetime → time).
#[local] Abbreviation parse_date := (parse_iso_datetime other_iso).

Record EngagementCreate := MkEngagementCreate {
  ec_name : string;
  ec_platform : string;
  ec_program_url : string;
  ec_scope_summary : string;
  ec_severity_guidance : string;
  ec_safe_harbor_notes : string;
  ec_client_id : option string;
  ec_engagement_type : string;
  ec_engagement_status : string;
  ec_starts_at : option string;
  ec_ends_at : option string;
  ec_max_request_rate : option Z;
}.

(** The user row a token stands for, added when it is missing. *)
Definition ensure_user (now : time) (u : user_ctx) (d : db) : db :=
  match first_row (λ r, String.eqb (u_github_id r) (cu_github_id u)) (users d) with
  | Some _ => d
  | None => set_users (users d ++ [MkUser (cu_github_id u) (Some (cu_username u)) (Some (cu_email u)) (Some "")
                                     (Some "high") (Some now)]) d
  end.

(** [new_org] and [new_member] are the ids of the rows of a first personal
    organization. *)
Definition create_engagement (new_id log_id new_org new_member : string) (now : time) (payload : EngagementCreate)
    (current_user : user_ctx) (d : db) : result (Engagement * db) :=
  let d := ensure_user now current_user d in
  let '(org, d) := personal_org (cu_github_id current_user) new_org new_member now d in
  let? client := resolve_owned_client_id (ec_client_id payload) current_user d in
  let? starts := parse_date (ec_starts_at payload) "starts_at" in
  let? ends := parse_date (ec_ends_at payload) "ends_at" in
  let e := MkEngagement None None 0 None 0 new_id (cu_github_id current_user) (ec_name payload)
    (Some (ec_platform payload)) (Some (ec_program_url payload)) (Some (ec_scope_summary payload))
    (Some (ec_severity_guidance payload)) (Some (ec_safe_harbor_notes payload)) client (Some (org_id org))
    (Some (ec_engagement_type payload)) (Some (ec_engagement_status payload)) (stored <$> starts) (stored <$> ends)
    None (Some "") (ec_max_request_rate payload) 0 (Some now) in
  Ok (e, log_action log_id now (cu_github_id current_user) "create" "engagement" new_id None (set_engagement e d)).

(** The fields a PATCH sets; [Some None] is an explicit [null]. *)
Record EngagementUpdate := MkEngagementUpdate {
  eu_name : option (option string);
  eu_platform : option (option string);
  eu_program_url : option (option string);
  eu_scope_summary : option (option string);
  eu_severity_guidance : option (option string);
  eu_safe_harbor_notes : option (option string);
  eu_client_id : option (option string);
  eu_engagement_type : option (option string);
  eu_engagement_status : option (option string);
  eu_starts_at : option (option string);
  eu_ends_at : option (option string);
  eu_max_request_rate : option (option Z);
}.

(** A field the managed authority reads, and one it does not. *)
Definition edit_field {B} `{EqDecision B} (read : Engagement → B) (write : B → Engagement → Engagement)
    (value : option B) (st : edited Engagement) : edited Engagement :=
  match value with
  | None => st
  | Some v => (write v st.1, st.2 || negb (bool_decide (read st.1 = v)))
  end.
Definition set_field {B} (write : B → Engagement → Engagement) (value : option B) (st : edited Engagement)
    : edited Engagement :=
  match value with None => st | Some v => (write v st.1, st.2) end.

(** A null name violates the column. *)
Definition edit_name (value : option (option string)) (st : edited Engagement) : result (edited Engagement) :=
  match value with
  | None => Ok st
  | Some None => Raise IntegrityError
  | Some (Some n) => Ok (e_set_name n st.1, st.2)
  end.

Definition edit_client (value : option (option string)) (current_user : user_ctx) (d : db) (st : edited Engagement)
    : result (edited Engagement) :=
  match value with
  | None => Ok st
  | Some cid => let? client := resolve_owned_client_id cid current_user d in Ok (e_set_client_id client st.1, st.2)
  end.

Definition edit_engagement (payload : EngagementUpdate) (current_user : user_ctx) (d : db) (e : Engagement)
    : result (edited Engagement) :=
  let st := (e, false) in
  let st := set_field e_set_platform (eu_platform payload) st in
  let st := set_field e_set_program_url (eu_program_url payload) st in
  let st := set_field e_set_scope_summary (eu_scope_summary payload) st in
  let st := set_field e_set_severity_guidance (eu_severity_guidance payload) st in
  let st := set_field e_set_safe_harbor_notes (eu_safe_harbor_notes payload) st in
  let? st := edit_client (eu_client_id payload) current_user d st in
  let st := edit_field e_engagement_type e_set_engagement_type (eu_engagement_type payload) st in
  let st := edit_field e_engagement_status e_set_engagement_status (eu_engagement_status payload) st in
  let? st := edit_date other_iso stored "starts_at" e_starts_at e_set_starts_at (eu_starts_at payload) st in
  let? st := edit_date other_iso stored "ends_at" e_ends_at e_set_ends_at (eu_ends_at payload) st in
  let st := edit_field e_max_request_rate e_set_max_request_rate (eu_max_request_rate payload) st in
  (** The name is written last here: its violation shows when the row is. *)
  edit_name (eu_name payload) st.

Definition update_engagement (log_id : string) (now : time) (program_id : string) (payload : EngagementUpdate)
    (current_user : user_ctx) (d : db) : result (Engagement * db) :=
  let? engagement := get_engagement_or_404 program_id current_user d in
  check? require_engagement_owner engagement current_user in
  let? engagement := lock d engagement in
  let? '(e, changed) := edit_engagement payload current_user d engagement in
  let e := bump changed e in
  Ok (e, log_action log_id now (cu_github_id current_user) "update" "engagement" program_id (Some program_id)
           (set_engagement e d)).
End Engagements.
