(* ===== verification/Members.v ===== *)
(** * [routers/members.py], [routers/clients.py] and [routers/apikeys.py]

    Who may reach an engagement besides its owner, the clients an organization
    shares, and the keys a user hands to tools. *)
From S2P Require Import Prelude PyStr Json Digest Time Models Access Enforcement Engagements Authorizations.

(** ** Members of an engagement *)

Definition _MAX_MEMBERS : Z := 20.

Record MemberAdd := MkMemberAdd { ma_github_id : string; ma_role : string }.

(** [github_id: Field(min_length=1, max_length=100)], [role: Literal] *)
Definition valid_member (b : MemberAdd) : bool :=
  (1 <=? len (ma_github_id b)) && (len (ma_github_id b) <=? 100)
  && bool_decide (ma_role b ∈ ["member"; "viewer"]).

Definition is_member (program_id github_id : string) (m : EngagementMember) : bool :=
  String.eqb (em_program_id m) program_id && String.eqb (em_member_github_id m) github_id.
Definition members_of (program_id : string) (d : db) : list EngagementMember :=
  rows (λ m, String.eqb (em_program_id m) program_id) (program_members d).

Definition list_members (program_id : string) (current_user : user_ctx) (d : db)
    : result (string * list EngagementMember) :=
  let? engagement := get_engagement_or_404 program_id current_user d in
  Ok (e_owner_github_id engagement, members_of program_id d).

Definition add_member (new_id log_id : string) (now : time) (program_id : string) (body : MemberAdd)
    (current_user : user_ctx) (d : db) : result (EngagementMember * db) :=
  let? engagement := get_engagement_or_404 program_id current_user d in
  check? require_engagement_owner engagement current_user in
  check? guard (negb (String.eqb (ma_github_id body) (cu_github_id current_user))) 400
           "Cannot add the engagement owner as a member" in
  check? guard (negb (existsb (is_member program_id (ma_github_id body)) (program_members d))) 409
           "User is already a member" in
  check? guard (Z.of_nat (length (members_of program_id d)) <? _MAX_MEMBERS) 400
           "Maximum 20 members per engagement" in
  let member := MkEngagementMember new_id program_id (cu_github_id current_user) (ma_github_id body) (ma_role body) now in
  Ok (member, log_action log_id now (cu_github_id current_user) "create" "program_member" new_id (Some program_id)
                (set_program_members (program_members d ++ [member]) d)).

Definition remove_member (log_id : string) (now : time) (program_id member_github_id : string)
    (current_user : user_ctx) (d : db) : result (string * db) :=
  let? engagement := get_engagement_or_404 program_id current_user d in
  check? require_engagement_owner engagement current_user in
  match first_row (is_member program_id member_github_id) (program_members d) with
  | None => http 404 "Member not found"
  | Some member =>
      let d := log_action log_id now (cu_github_id current_user) "delete" "program_member" (em_id member)
                 (Some program_id) d in
      Ok ("Member removed",
          set_program_members (rows (λ m, negb (String.eqb (em_id m) (em_id member))) (program_members d)) d)
  end.

(** ** Clients *)

(** Owned by the caller or by an organization they reach. *)
Definition reaches_client (current_user : user_ctx) (d : db) (c : Client) : bool :=
  String.eqb (cl_owner_github_id c) (cu_github_id current_user)
  || match cl_org_id c with
     | Some o => bool_decide (o ∈ accessible_org_ids (cu_github_id current_user) d) | None => false end.

Definition _get_client_or_404 (client_id : string) (current_user : user_ctx) (d : db) : result Client :=
  match first_row (λ c, String.eqb (cl_id c) client_id && reaches_client current_user d c) (clients d) with
  | None => http 404 "Client not found"
  | Some client => Ok client
  end.

(** [ROLE_RANK.get(role, -1) < ROLE_RANK["member"]] *)
Definition client_writer (role : option string) : bool :=
  match role with
  | Some r => bool_decide (r ∈ ["member"; "admin"; "owner"])
  | None => false
  end.

Definition _require_client_write (client : Client) (current_user : user_ctx) (d : db) : result unit :=
  if String.eqb (cl_owner_github_id client) (cu_github_id current_user) then Ok tt
  else guard (client_writer (org_role (cl_org_id client) (cu_github_id current_user) d)) 403
         "Viewers cannot make changes to this client".

(** [ORDER BY name] *)
Definition by_name (a b : Client) : Prop := String.le (cl_name a) (cl_name b).
#[export] Instance by_name_dec : RelDecision by_name.
Proof. intros a b. unfold by_name. apply _. Defined.

Definition list_clients (current_user : user_ctx) (d : db) : list Client :=
  merge_sort by_name (rows (reaches_client current_user d) (clients d)).

Definition get_client (client_id : string) (current_user : user_ctx) (d : db) : result Client :=
  _get_client_or_404 client_id current_user d.

Record ClientCreate := MkClientCreate {
  cc_name : string; cc_contact_name : string; cc_contact_email : string; cc_notes : string }.

Definition create_client (new_id log_id new_org new_member : string) (now : time) (payload : ClientCreate)
    (current_user : user_ctx) (d : db) : Client * db :=
  let '(org, d) := personal_org (cu_github_id current_user) new_org new_member now d in
  let client := MkClient new_id (cu_github_id current_user) (Some (org_id org)) (cc_name payload)
    (Some (cc_contact_name payload)) (Some (cc_contact_email payload)) (Some (cc_notes payload)) (Some now) in
  (client, log_action log_id now (cu_github_id current_user) "create" "client" new_id None
             (set_clients (clients d ++ [client]) d)).

(** Fields left out and nulls are left alone. *)
Record ClientUpdate := MkClientUpdate {
  cu_name : option string; cu_contact_name : option string; cu_contact_email : option string;
  cu_notes : option string }.

Definition put {A} (write : option string → A → A) (value : option string) (r : A) : A :=
  match value with Some s => write (Some s) r | None => r end.

Definition edit_client_row (payload : ClientUpdate) (c : Client) : Client :=
  let c := match cu_name payload with Some n => cl_set_name n c | None => c end in
  put cl_set_notes (cu_notes payload)
    (put cl_set_contact_email (cu_contact_email payload) (put cl_set_contact_name (cu_contact_name payload) c)).

Definition update_client (log_id : string) (now : time) (client_id : string) (payload : ClientUpdate)
    (current_user : user_ctx) (d : db) : result (Client * db) :=
  let? client := _get_client_or_404 client_id current_user d in
  check? _require_client_write client current_user d in
  let client' := edit_client_row payload client in
  Ok (client', log_action log_id now (cu_github_id current_user) "update" "client" (cl_id client) None
                 (set_clients (update_rows (λ c, String.eqb (cl_id c) (cl_id client)) (λ _, client') (clients d)) d)).

(** Its engagements are detached, not deleted. *)
Definition detach_client (client_id : string) (d : db) : db :=
  set_engagements ((λ e, if bool_decide (e_client_id e = Some client_id) then e_set_client_id None e else e)
                     <$> engagements d) d.

Definition delete_client (log_id : string) (now : time) (client_id : string) (current_user : user_ctx) (d : db)
    : result (unit * db) :=
  let? client := _get_client_or_404 client_id current_user d in
  check? _require_client_write client current_user d in
  let d := detach_client (cl_id client) d in
  let d := set_clients (rows (λ c, negb (String.eqb (cl_id c) (cl_id client))) (clients d)) d in
  Ok (tt, log_action log_id now (cu_github_id current_user) "delete" "client" client_id None d).

(** ** API keys *)

Definition _MAX_KEYS_PER_USER : Z := 10.

Definition key_of (github_id : string) (k : ApiKey) : bool := String.eqb (ak_github_id k) github_id.

(** [secret] is [secrets.token_urlsafe(32)]; a digest already stored violates
    the unique column. *)
Definition create_api_key (new_id log_id secret : string) (now : time) (label scope : option string)
    (current_user : user_ctx) (d : db) : result (ApiKey * string * db) :=
  let d := ensure_user now current_user d in
  let existing := Z.of_nat (length (rows (key_of (cu_github_id current_user)) (api_keys d))) in
  check? guard (existing <? _MAX_KEYS_PER_USER) 400 "Maximum 10 API keys allowed" in
  let raw := _API_KEY_PREFIX +:+ secret in
  let key := MkApiKey new_id (cu_github_id current_user) (sha256_hex raw) (Some (or_else label ""))
               (or_else scope "full") now None in
  if existsb (λ k, String.eqb (ak_key_hash k) (ak_key_hash key)) (api_keys d) then Raise IntegrityError
  else Ok (key, raw, log_action log_id now (cu_github_id current_user) "create" "apikey" new_id None
                       (set_api_keys (api_keys d ++ [key]) d)).

Definition newest_key (a b : ApiKey) : Prop := ak_created_at b <= ak_created_at a.
#[export] Instance newest_key_dec : RelDecision newest_key.
Proof. intros a b. unfold newest_key. apply _. Defined.

(** No field of the answer holds the token or its digest. *)
Record KeyInfo := MkKeyInfo {
  ki_id : string; ki_label : option string; ki_scope : string; ki_created_at : time; ki_last_used_at : option time }.

Definition list_api_keys (current_user : user_ctx) (d : db) : list KeyInfo :=
  map (λ k, MkKeyInfo (ak_id k) (ak_label k) (or_else (Some (ak_scope k)) "full") (ak_created_at k) (ak_last_used_at k))
    (merge_sort newest_key (rows (key_of (cu_github_id current_user)) (api_keys d))).

Definition revoke_api_key (log_id : string) (now : time) (key_id : string) (current_user : user_ctx) (d : db)
    : result (string * db) :=
  match first_row (λ k, String.eqb (ak_id k) key_id && key_of (cu_github_id current_user) k) (api_keys d) with
  | None => http 404 "API key not found"
  | Some key =>
      let d := log_action log_id now (cu_github_id current_user) "revoke" "apikey" (ak_id key) None d in
      Ok ("API key revoked", set_api_keys (rows (λ k, negb (String.eqb (ak_id k) (ak_id key))) (api_keys d)) d)
  end.
