(* ===== verification/Upload.v ===== *)
(** * [routers/jobs.py]: uploading a Gate result

    [upload_job_result] and [store_gate_result]: the receipt that makes a
    second upload a no-op, the binding of a result to the case its job was
    queued for, and the scan items, assessment and evidence it leaves, redacted
    on the way in. *)
From S2P Require Import Prelude PyStr Regex Json Redaction JobConfig Digest Time Models Access.
From S2P Require Import Assessments TestCases Execution Jobs.
From Stdlib Require Import Ascii.

Definition _VG_SEVERITIES : list string := ["info"; "low"; "medium"; "high"; "critical"].
Definition _MAX_RESULT_BYTES : Z := 512000.

(** ** The request body *)

Record IdentityPreflightResult := MkIdentityPreflightResult {
  ip_identity_id : string;
  ip_status : string;
  ip_reason : string;
  ip_status_code : Z;
}.

Record VardrGateUpload := MkVardrGateUpload {
  vg_case_hash : string;
  vg_test_case_id : string;
  vg_executions : list dict;
  vg_findings : list dict;
  vg_preflight : list IdentityPreflightResult;
  vg_assessments : list dict;
}.

(** The field constraints; a body that violates them is answered 422. *)
Definition valid_preflight (p : IdentityPreflightResult) : bool :=
  (1 <=? len (ip_identity_id p)) && (len (ip_identity_id p) <=? 200)
  && mem (ip_status p) ["passed"; "failed"]
  && mem (ip_reason p) ["identity_verified"; "credential_rejected"; "identity_mismatch";
                        "unexpected_status"; "execution_error"]
  && (0 <=? ip_status_code p) && (ip_status_code p <=? 599).

Definition hex_digit (c : ascii) : bool := in_range 97 102 c || in_range 48 57 c.
Definition valid_upload (body : VardrGateUpload) : bool :=
  (String.eqb (vg_case_hash body) ""
   || (len (vg_case_hash body) =? 64) && all_chars hex_digit (vg_case_hash body))
  && (len (vg_test_case_id body) <=? 200)
  && (length (vg_executions body) <=? 100)%nat && (length (vg_findings body) <=? 500)%nat
  && (length (vg_preflight body) <=? 100)%nat && forallb valid_preflight (vg_preflight body)
  && (length (vg_assessments body) <=? 100)%nat.

(** [model_dump()] *)
Definition preflight_dump (p : IdentityPreflightResult) : dict :=
  [("identity_id", JStr (ip_identity_id p)); ("status", JStr (ip_status p));
   ("reason", JStr (ip_reason p)); ("status_code", JInt (ip_status_code p))].

(** ** Assessments as JSON *)

Definition ints (l : list Z) : json := JList (map JInt l).

Definition verification_dict (v : verification) : dict :=
  [("strategy", JStr (v_strategy v)); ("environment", JStr (v_environment v));
   ("reader_identity_id", JStr (v_reader_identity_id v));
   ("reader_credential_status", JStr (v_reader_credential_status v));
   ("before_statuses", ints (v_before_statuses v)); ("after_status", JInt (v_after_status v));
   ("reset_status", JInt (v_reset_status v))].

Definition opt_field {A} (k : string) (f : A → json) (o : option A) : dict :=
  match o with Some x => [(k, f x)] | None => [] end.

(** What [safe_semantic_row] returns. *)
Definition semantic_dict (r : semantic_row) : dict :=
  [("identity_id", JStr (sr_identity_id r)); ("expected_access", JStr (sr_expected_access r));
   ("decision", JStr (sr_decision r)); ("source", JStr (sr_source r)); ("reason", JStr (sr_reason r));
   ("credential_status", JStr (sr_credential_status r));
   ("write_verification", JStr (sr_write_verification r));
   ("matched_assertions", ints (sr_matched_assertions r))]
  ++ opt_field "execution_index" JInt (sr_execution_index r)
  ++ opt_field "verification" (λ v, JObj (verification_dict v)) (sr_verification r).

Definition safe_row (row : dict) : dict := semantic_dict (safe_semantic_row row).

Definition item_dict (i : item) : dict :=
  dset "credential_status" (JStr (it_credential_status i))
    ([("identity_id", it_identity_id i); ("expected_decision", it_expected_decision i);
      ("observed_outcome", JStr (it_observed_outcome i)); ("state", JStr (it_state i));
      ("reason", JStr (it_reason i))]
     ++ match it_semantic i with
        | Some r => [("reported_decision", JStr (sr_decision r)); ("source", JStr (sr_source r));
                     ("credential_status", JStr (sr_credential_status r));
                     ("write_verification", JStr (sr_write_verification r));
                     ("matched_assertions", ints (sr_matched_assertions r))]
        | None => []
        end
     ++ opt_field "verification" (λ v, JObj (verification_dict v)) (it_verification i)).

Definition preflight_row_dict (p : preflight_row) : dict :=
  [("identity_id", pf_identity_id p); ("status", JStr (pf_status p));
   ("reason", JStr (pf_reason p)); ("status_code", pf_status_code p)].

Definition session_dict (s : preflight_session) : dict :=
  [("status", JStr (ps_status s));
   ("identities", JList (map (λ p, JObj (preflight_row_dict p)) (ps_identities s)));
   ("unexpected", JInt (ps_unexpected s))].

Definition assessment_dict (a : assessment) : dict :=
  [("status", JStr (as_status a)); ("evaluated", JInt (as_evaluated a));
   ("inconclusive", JInt (as_inconclusive a)); ("missing", JInt (as_missing a));
   ("skipped", JInt (as_skipped a)); ("unexpected", JInt (as_unexpected a));
   ("baseline_valid", JBool (as_baseline_valid a));
   ("candidate_findings", JInt (as_candidate_findings a));
   ("identities", JList (map (λ i, JObj (item_dict i)) (as_identities a)));
   ("reasons", JList (map JStr (as_reasons a))); ("case_hash", json_opt_str (as_case_hash a));
   ("case_snapshot_verified", JBool (as_case_snapshot_verified a));
   ("preflight", JObj (session_dict (as_preflight a)))].

(** ** The receipt *)

Definition objs (l : list dict) : json := JList (map JObj l).

Definition receipt_payload (body : VardrGateUpload) : dict :=
  (if String.eqb (vg_case_hash body) "" then [] else [("case_hash", JStr (vg_case_hash body))])
  ++ [("test_case_id", JStr (vg_test_case_id body)); ("executions", objs (vg_executions body));
      ("findings", objs (vg_findings body))]
  ++ (if bool_decide (length (vg_preflight body) = O) then []
      else [("preflight", objs (map preflight_dump (vg_preflight body)))])
  ++ (if bool_decide (length (vg_assessments body) = O) then []
      else [("assessments", objs (map safe_row (vg_assessments body)))]).

Definition dump (payload : dict) : string := json_dumps true (JObj payload).
Definition payload_hash (body : VardrGateUpload) : string := sha256_hex (dump (receipt_payload body)).
(** The hash an older receiver, which ignored assessments, would have stored. *)
Definition legacy_hash (body : VardrGateUpload) : string :=
  sha256_hex (dump (List.filter (λ kv, negb (String.eqb kv.1 "assessments")) (receipt_payload body))).

Record UploadResult := MkUploadResult {
  up_job_id : string;
  up_scan_items_created : Z;
  up_evidence_created : Z;
  up_already_processed : bool;
}.

Definition find_receipt (job_id : string) (d : db) : option JobResultReceipt :=
  first_row (λ r, String.eqb (rr_job_id r) job_id) (job_result_receipts d).

Definition receipt_result (job_id : string) (r : JobResultReceipt) : UploadResult :=
  MkUploadResult job_id (rr_scan_items_created r) (rr_evidence_created r) true.

(** ** The case a result is bound to *)

Definition opt_text (s : string) : option string := if String.eqb s "" then None else Some s.

Record case_binding := CaseBinding {
  cb_case : option AuthorizationTestCase;
  cb_spec : dict;
  cb_target : string;
  cb_template_id : string;
  cb_verified : bool;
}.

Definition bind_case (job : ScanJob) (body : VardrGateUpload) (d : db) : result case_binding :=
  let case := find_case (j_program_id job) (job_case_id job) d in
  let? spec := or_dict (j_case_snapshot job) in
  let? authoritative :=
    (if bool_decide (spec = []) then match case with Some c => or_dict (tc_spec c) | None => Ok [] end
     else Ok spec) in
  let matching := String.eqb (vg_case_hash body) (case_hash (JObj spec)) in
  check? guard (bool_decide (spec = []) || String.eqb (vg_case_hash body) "" || matching) 400
           "Result case_hash does not match the claimed case snapshot" in
  let? '(target, template_id) :=
    if bool_decide (authoritative = []) then Ok ("", take_string 200 (vg_test_case_id body))
    else
      let? request := or_dict (dget "request" authoritative) in
      let target := take_string 2000 (str_or_empty (dget "url" request)) in
      let authoritative_id := str_or_empty (dget "id" authoritative) in
      let template_id := take_string 200 (vg_test_case_id body) in
      check? guard (String.eqb template_id "" || String.eqb template_id authoritative_id) 400
               "result test_case_id does not match the test case queued for this job" in
      Ok (target, authoritative_id) in
  Ok (CaseBinding case spec target template_id (negb (bool_decide (spec = [])) && matching)).

(** ** Findings become scan items *)

(** Lines of the evidence list, the blank ones left out. *)
Definition evidence_lines (finding : dict) : list string :=
  match dget "evidence" finding with
  | JList l => List.filter (λ s, negb (String.eqb (strip s) "")) (map py_str (take 20 l))
  | _ => []
  end.

Definition labelled (label : string) (v : json) : list string :=
  let text := strip (str_or_empty v) in
  if String.eqb text "" then [] else [label +:+ text].

Definition _finding_description (finding : dict) : string :=
  redact_text (join (str1 newline)
    (labelled "identity: " (dget "identity_id" finding)
     ++ labelled "confidence: " (dget "confidence" finding) ++ evidence_lines finding)) [].

(** [str(v or fallback)] *)
Definition str_or (fallback : string) (v : json) : string := if truthy v then py_str v else fallback.

Definition finding_severity (finding : dict) : string :=
  let severity := strip (lower (str_or "info" (dget "severity" finding))) in
  if mem severity _VG_SEVERITIES then severity else "info".

Definition finding_title (finding : dict) : string :=
  let title := take_string 200 (redact_text (str_or_empty (dget "message" finding)) []) in
  if String.eqb title "" then str_or "authorization finding" (dget "category" finding) else title.

Definition finding_item (new_id : string) (now : time) (job : ScanJob) (b : case_binding)
    (finding : dict) : ScanItem :=
  MkScanItem new_id (j_program_id job) "vardrgate" (cb_template_id b) (finding_title finding)
    (finding_severity finding) (cb_target b) (cb_target b)
    (take_string 50 (str_or_empty (dget "category" finding))) (_finding_description finding) "new"
    "" "" "" "" "" "" None (Some (j_id job)) (Some now).

(** ** Executions and preflights become evidence *)

Definition OUTCOMES : list string :=
  ["allow"; "deny"; "not_found"; "redirect"; "server_error"; "client_error"; "error"].

Definition record_identity (execution : dict) : string :=
  redact_text (str_or "unknown" (dget "identity_id" execution)) [].

Definition record_outcome (execution : dict) : string :=
  enum_value (dget "observed_outcome" execution) OUTCOMES "unknown".

(** [{**d, **e}] *)
Definition merge (d e : dict) : dict := fold_left (λ acc kv, dset kv.1 kv.2 acc) e d.

Definition record_detail (body : VardrGateUpload) (verified is_preflight : bool) (execution : dict) : dict :=
  let hash := json_opt_str (opt_text (vg_case_hash body)) in
  let detail :=
    if is_preflight
    then merge [("phase", JStr "identity_preflight"); ("case_hash", hash);
                ("case_snapshot_verified", JBool verified)] execution
    else [("case_hash", hash); ("case_snapshot_verified", JBool verified);
          ("identity_id", JStr (record_identity execution));
          ("status_code", dget "status_code" execution);
          ("observed_outcome", dget "observed_outcome" execution);
          ("duration_ms", dget "duration_ms" execution);
          ("headers", if truthy (dget "headers" execution) then dget "headers" execution else JObj [])] in
  let detail := if truthy (dget "error" execution)
                then dset "error_kind" (dget "error_kind" execution)
                       (dset "error" (dget "error" execution) detail) else detail in
  let detail := match dget "response_profile" execution with
                | JObj p => dset "response_profile" (JObj p) detail | _ => detail end in
  if is_preflight then detail
  else
    let own := List.filter (λ a, py_eq (dget "identity_id" a) (dget "identity_id" execution))
                 (vg_assessments body) in
    if bool_decide (length own = O) then detail
    else dset "scanner_assessments" (objs (map safe_row own)) detail.

(** The title's middle dot and arrow are U+00B7 and U+2192. *)
Fixpoint points (s : string) : list Z :=
  match s with EmptyString => [] | String c s' => code c :: points s' end.
Definition record_title (is_preflight : bool) (identity : string) (execution : dict) : string :=
  utf8_text (take 200
    (points "vardrgate " ++ [183] ++ points " "
     ++ (if is_preflight then points "session preflight " ++ [183] ++ points " " else [])
     ++ points identity ++ points " " ++ [8594] ++ points " "
     ++ points (match lookup_key "status_code" execution with Some v => py_str v | None => "?" end))).

(** [decisions.get(identity, "unknown")]: the last identity of that name. *)
Definition decision_for (verified : bool) (identities : list item) (identity : string) : json :=
  if verified
  then match List.find (λ i, py_eq (it_identity_id i) (JStr identity)) (rev identities) with
       | Some i => it_expected_decision i | None => JStr "unknown" end
  else JStr "unknown".

Definition evidence_row (new_id : string) (now : time) (job : ScanJob) (body : VardrGateUpload)
    (b : case_binding) (identities : list item) (record : dict * bool) : Evidence :=
  let '(execution, is_preflight) := record in
  let identity := record_identity execution in
  let text := json_pretty 0 (redact_mapping (record_detail body (cb_verified b) is_preflight execution) []) in
  MkEvidence new_id (j_program_id job) None None "tool_result"
    (record_title is_preflight identity execution) text (sha256_hex text) (Some (j_id job))
    (tc_id <$> cb_case b) (opt_text (cb_template_id b))
    (if len identity <=? 200 then Some identity else None) (Some (record_outcome execution))
    (Some (if is_preflight then "unknown" else py_str (decision_for (cb_verified b) identities identity)))
    "vardrrunner" "vardrgate" "confidential" "engagement" true (Some now) now.

Definition records (body : VardrGateUpload) : list (dict * bool) :=
  map (λ e, (e, false)) (vg_executions body)
  ++ map (λ p, (preflight_dump p, true)) (vg_preflight body).

(** ** [store_gate_result] *)

(** Rows built with the fresh ids [ids n], [ids (n + 1)], ... *)
Fixpoint number_from {A B} (f : string → A → B) (ids : nat → string) (n : nat) (l : list A) : list B :=
  match l with [] => [] | x :: l' => f (ids n) x :: number_from f ids (S n) l' end.

Definition gate_assessment (body : VardrGateUpload) (b : case_binding) : result assessment :=
  assess (cb_spec b) (vg_executions body) (Z.of_nat (length (vg_findings body))) (cb_verified b)
    (map preflight_dump (vg_preflight body)) (map safe_row (vg_assessments body)).

Definition assessed_job (b : case_binding) (a : assessment) (job : ScanJob) : ScanJob :=
  j_set_assessment
    (JObj (assessment_dict a ++
           [("case_id", json_opt_str (opt_text (job_case_id job)));
            ("case_ref", json_opt_str (opt_text (cb_template_id b)))])) job.

Section Stored.
Context (ids : nat → string) (log_id receipt_id : string) (now : time) (job : ScanJob)
  (body : VardrGateUpload) (user : user_ctx) (b : case_binding) (a : assessment) (d : db).

Definition new_items : list ScanItem :=
  number_from (λ i f, finding_item i now job b f) ids 0 (vg_findings body).
Definition new_rows : list Evidence :=
  number_from (λ i r, evidence_row i now job body b (as_identities a) r) ids
    (length new_items) (records body).

Definition new_receipt : JobResultReceipt :=
  MkJobResultReceipt receipt_id (j_id job) (payload_hash body) (Z.of_nat (length new_items))
    (Z.of_nat (length new_rows)) now.

Definition stored_db : db :=
  let d := set_scan_items (scan_items d ++ new_items) d in
  let d := set_job (assessed_job b a job) d in
  let d := set_evidence (evidence d ++ new_rows) d in
  let d := log_action log_id now (cu_github_id user) "create" "vardrgate_result" (j_id job)
             (Some (j_program_id job)) d in
  set_job_result_receipts (job_result_receipts d ++ [new_receipt]) d.

Definition store_new : UploadResult * db :=
  (MkUploadResult (j_id job) (Z.of_nat (length new_items)) (Z.of_nat (length new_rows)) false, stored_db).
End Stored.

Definition store_gate_result (ids : nat → string) (log_id receipt_id : string) (now : time)
    (job : ScanJob) (body : VardrGateUpload) (user : user_ctx) (d : db) : result (UploadResult * db) :=
  check? guard (len (dump (receipt_payload body)) <=? _MAX_RESULT_BYTES) 413
           "result payload is too large" in
  match find_receipt (j_id job) d with
  | Some receipt =>
      if String.eqb (rr_payload_hash receipt) (payload_hash body)
         || String.eqb (rr_payload_hash receipt) (legacy_hash body)
      then Ok (receipt_result (j_id job) receipt, d)
      else conflict "this job already has a different uploaded result"
  | None =>
      let? b := bind_case job body d in
      let? a := gate_assessment body b in
      Ok (store_new ids log_id receipt_id now job body user b a d)
  end.

Definition upload_job_result (ids : nat → string) (log_id receipt_id : string) (now : time)
    (job_id : string) (body : VardrGateUpload) (user : user_ctx) (d : db) : result (UploadResult * db) :=
  match visible_job job_id user d with
  | None => not_found
  | Some job =>
      let? _ := _writable_engagement job user d in
      if managed job then conflict "managed result adapter required"
      else
        check? guard (String.eqb (j_tool_type job) _VARDRGATE) 400
                 ("job " +:+ job_id +:+ " is a '" +:+ j_tool_type job +:+ "' job; /upload accepts "
                  +:+ _VARDRGATE +:+ " results") in
        store_gate_result ids log_id receipt_id now job body user d
  end.

(** ** Semantic rows survive storage *)

Lemma enum_value_stable v allowed fallback :
  enum_value (JStr (enum_value v allowed fallback)) allowed fallback = enum_value v allowed fallback.
Proof.
  destruct v as [| | | |s| |]; simpl; try by case_bool_decide.
  case_bool_decide; simpl; by case_bool_decide.
Qed.

Lemma safe_identity_stable v : safe_identity (JStr (safe_identity v)) = safe_identity v.
Proof.
  destruct v as [| | | |s| |]; try done. simpl.
  destruct ((0 <? len s) && (len s <=? 200)) eqn:E; [by rewrite E|done].
Qed.

Lemma int_value_ints l : map int_value (map JInt l) = l.
Proof. rewrite map_map. apply map_id. Qed.

Lemma bounded_ints_stable n lo hi v :
  bounded_ints n lo hi (ints (bounded_ints n lo hi v)) = bounded_ints n lo hi v.
Proof.
  assert (Hnil : bounded_ints n lo hi (ints []) = []) by done.
  destruct v as [| | | | |l|]; try exact Hnil. unfold bounded_ints.
  destruct ((length l <=? n)%nat && forallb (int_between lo hi) l) eqn:E; [|exact Hnil].
  unfold ints. rewrite !length_map, int_value_ints.
  assert (Hl : map JInt (map int_value l) = l).
  { bool_simpl. clear -H0. induction l as [|x l IH]; [done|]. simpl in *. bool_simpl.
    rewrite IH by done. by destruct x. }
  by rewrite Hl, E.
Qed.

Lemma status_or_zero_stable v : status_or_zero (JInt (status_or_zero v)) = status_or_zero v.
Proof.
  unfold status_or_zero. destruct (int_between 0 599 v) eqn:E; [|done].
  destruct v; try done. simpl in *. by rewrite E.
Qed.

(** Reading back what was written, before the checks are evaluated. *)
Lemma safe_verification_dict v :
  safe_verification (verification_dict v) = Verification
    (enum_value (JStr (v_strategy v)) ["changed"; "created"; "deleted"; "legacy_change"] "unknown")
    (enum_value (JStr (v_environment v)) ["unknown"; "synchronous_isolated"; "legacy"] "unknown")
    (safe_identity (JStr (v_reader_identity_id v)))
    (enum_value (JStr (v_reader_credential_status v)) CREDENTIALS "not_recorded")
    (bounded_ints 2 0 599 (ints (v_before_statuses v))) (status_or_zero (JInt (v_after_status v)))
    (status_or_zero (JInt (v_reset_status v))).
Proof. reflexivity. Qed.

Lemma safe_semantic_dict r :
  safe_semantic_row (semantic_dict r) = SemanticRow
    (safe_identity (JStr (sr_identity_id r)))
    (enum_value (JStr (sr_expected_access r)) ["allow"; "deny"; "skip"] "unknown")
    (enum_value (JStr (sr_decision r)) ["allowed"; "denied"; "inconclusive"; "skipped"] "inconclusive")
    (enum_value (JStr (sr_source r)) ["none"; "http_status"; "response_assertion"; "write_verification"] "none")
    (enum_value (JStr (sr_reason r)) REASONS "unrecognized_assessment_reason")
    (enum_value (JStr (sr_credential_status r)) CREDENTIALS "not_recorded")
    (enum_value (JStr (sr_write_verification r)) WRITES "not_recorded")
    (bounded_ints 32 0 31 (ints (sr_matched_assertions r)))
    (match sr_execution_index r with
     | Some i => if int_between 0 99 (JInt i) then Some i else None | None => None end)
    (match sr_verification r with
     | Some v => Some (safe_verification (verification_dict v)) | None => None end).
Proof. by destruct r as [? ? ? ? ? ? ? ? [i|] [v|]]. Qed.

Lemma safe_verification_stable v :
  safe_verification (verification_dict (safe_verification v)) = safe_verification v.
Proof.
  rewrite safe_verification_dict. unfold safe_verification.
  cbn [v_strategy v_environment v_reader_identity_id v_reader_credential_status
    v_before_statuses v_after_status v_reset_status].
  by rewrite !enum_value_stable, safe_identity_stable, bounded_ints_stable, !status_or_zero_stable.
Qed.

(** A sanitised assessment row is a fixed point: what the receipt, the
    assessment and the evidence store reads back, through JSON and through the
    sanitiser again, as the same row. *)
Theorem safe_row_roundtrip row : safe_semantic_row (safe_row row) = safe_semantic_row row.
Proof.
  unfold safe_row. rewrite safe_semantic_dict. unfold safe_semantic_row.
  cbn [sr_identity_id sr_expected_access sr_decision sr_source sr_reason sr_credential_status
       sr_write_verification sr_matched_assertions sr_execution_index sr_verification].
  rewrite !enum_value_stable, safe_identity_stable, bounded_ints_stable. f_equal.
  - destruct (int_between 0 99 (dget "execution_index" row)) eqn:E; [|done].
    destruct (dget "execution_index" row); try done. simpl in *. by rewrite E.
  - destruct (dget "verification" row) as [| | | | | |v]; try done. by rewrite safe_verification_stable.
Qed.

(** ** What an upload stores *)

(** Rows are stored under their primary key. *)
Definition jobs_keyed (d : db) : Prop := ∀ k j, scan_jobs d !! k = Some j → j_id j = k.

Lemma visible_job_lookup job_id u d j :
  visible_job job_id u d = Some j →
  scan_jobs d !! job_id = Some j ∧ j_program_id j ∈ accessible_engagement_ids (cu_github_id u) d.
Proof. unfold visible_job. repeat case_match; try done. intros [= <-]. by bool_simpl. Qed.

Lemma number_from_length {A B} (f : string → A → B) ids n l : length (number_from f ids n l) = length l.
Proof. revert n. induction l as [|x l IH]; intros n; [done|]. simpl. by rewrite IH. Qed.

Lemma number_from_Forall {A B} (P : B → Prop) (f : string → A → B) ids n l :
  (∀ i x, x ∈ l → P (f i x)) → Forall P (number_from f ids n l).
Proof.
  revert n. induction l as [|x l IH]; intros n Hp; [constructor|]. simpl. constructor.
  - apply Hp. set_solver.
  - apply IH. intros i y Hy. apply Hp. set_solver.
Qed.

(** A successful upload found a receipt of the same payload, or stored one. *)
Lemma upload_cases ids log_id rid now job_id body u d r d1 :
  upload_job_result ids log_id rid now job_id body u d = Ok (r, d1) →
  ∃ job, visible_job job_id u d = Some job ∧ is_ok (_writable_engagement job u d) = true
    ∧ managed job = false ∧ j_tool_type job = _VARDRGATE
    ∧ len (dump (receipt_payload body)) <= _MAX_RESULT_BYTES
    ∧ ((∃ receipt, find_receipt (j_id job) d = Some receipt
          ∧ (rr_payload_hash receipt = payload_hash body ∨ rr_payload_hash receipt = legacy_hash body)
          ∧ r = receipt_result (j_id job) receipt ∧ d1 = d)
       ∨ (find_receipt (j_id job) d = None ∧ ∃ b a, bind_case job body d = Ok b
            ∧ gate_assessment body b = Ok a ∧ (r, d1) = store_new ids log_id rid now job body u b a d)).
Proof.
  unfold upload_job_result. destruct (visible_job job_id u d) as [job|]; [|done].
  intros (e & He & H)%rbind_ok. destruct (managed job) eqn:Em; [done|].
  apply rbind_ok in H as ([] & Ht%guard_ok & H). bool_simpl. unfold store_gate_result in H.
  apply rbind_ok in H as ([] & Hl%guard_ok & H). exists job. rewrite He.
  split_and!; [done|done|done|done|lia|].
  destruct (find_receipt (j_id job) d) as [receipt|] eqn:Er.
  - left. exists receipt. destruct (_ || _) eqn:Eh; [|done]. injection H as <- <-.
    apply orb_true_iff in Eh. rewrite !String.eqb_eq in Eh. done.
  - right. split; [done|]. apply rbind_ok in H as (b & Hb & H). apply rbind_ok in H as (a & Ha & H).
    exists b, a. split_and!; [done|done|congruence].
Qed.

(** The receipt an upload leaves, and the rows its guards read. *)
Lemma store_new_receipt ids log_id rid now job body u b a d r d1 :
  find_receipt (j_id job) d = None → (r, d1) = store_new ids log_id rid now job body u b a d →
  up_job_id r = j_id job ∧ find_receipt (j_id job) d1
  = Some (MkJobResultReceipt rid (j_id job) (payload_hash body) (up_scan_items_created r)
            (up_evidence_created r) now).
Proof.
  unfold store_new. intros Hnone [= -> ->]. split; [done|]. cbn [up_scan_items_created up_evidence_created].
  unfold find_receipt, first_row in *.
  change (job_result_receipts (stored_db _ _ _ _ _ _ _ _ _ d))
    with (job_result_receipts d ++ [new_receipt ids rid now job body b a]).
  revert Hnone. generalize (job_result_receipts d). intros l. induction l as [|x l IH]; simpl.
  - by rewrite String.eqb_refl.
  - destruct (String.eqb (rr_job_id x) (j_id job)); [done|]. exact IH.
Qed.

Lemma store_new_visible ids log_id rid now job_id body u u' b a d r d1 job job' :
  jobs_keyed d → visible_job job_id u d = Some job →
  (r, d1) = store_new ids log_id rid now job body u b a d → visible_job job_id u' d1 = Some job' →
  job' = assessed_job b a job ∧ visible_job job_id u' d = Some job
  ∧ _writable_engagement job' u' d1 = _writable_engagement job u' d.
Proof.
  intros Hk [Hj _]%visible_job_lookup [= -> ->]. unfold visible_job. simpl.
  rewrite (Hk _ _ Hj), lookup_insert_eq, Hj. intros H.
  change (accessible_engagement_ids (cu_github_id u') _) with (accessible_engagement_ids (cu_github_id u') d) in H.
  change (j_program_id (assessed_job b a job)) with (j_program_id job) in H.
  destruct (bool_decide _); [|done]. by injection H as <-.
Qed.

(** C11. A Gate result is stored once.  After any accepted upload, sending the
    same body again is answered with the same counts and [already_processed];
    and whoever uploads whatever to that job from then on, no upload that is
    accepted changes anything. *)
Theorem upload_once ids log_id rid now job_id body u d r d1 :
  jobs_keyed d → upload_job_result ids log_id rid now job_id body u d = Ok (r, d1) →
  (∀ ids' log' rid' now', upload_job_result ids' log' rid' now' job_id body u d1
     = Ok (MkUploadResult job_id (up_scan_items_created r) (up_evidence_created r) true, d1))
  ∧ (∀ ids' log' rid' now' body' u' r' d2,
       upload_job_result ids' log' rid' now' job_id body' u' d1 = Ok (r', d2) → d2 = d1).
Proof.
  intros Hk H. pose proof H as Hup.
  apply upload_cases in H as (job & Hvis & Hw & Hm & Ht & Hl & Hcases).
  assert (Hid : j_id job = job_id) by by apply visible_job_lookup in Hvis as [Hj _]; apply Hk.
  destruct Hcases as [(receipt & Hr & Hhash & -> & ->)|(Hnone & b & a & Hb & Ha & Hst)].
  - split.
    + intros. unfold upload_job_result. rewrite Hvis.
      destruct (_writable_engagement job u d); [|done]. simpl. rewrite Hm, Ht. simpl.
      unfold store_gate_result. rewrite Hr. rewrite (proj2 (Z.leb_le _ _) Hl). simpl.
      unfold receipt_result. rewrite Hid.
      destruct Hhash as [-> | ->]; by rewrite String.eqb_refl, ?orb_true_r.
    + intros ids' log' rid' now' body' u' r' d2 H2.
      apply upload_cases in H2 as (job' & [Hj' _]%visible_job_lookup & _ & _ & _ & _ & [(? & _ & _ & _ & ->)|(Hn & _)]); [done|].
      rewrite (Hk _ _ Hj') in Hn. congruence.
  - destruct (store_new_receipt _ _ _ _ _ _ _ _ _ _ _ _ Hnone Hst) as [Hrid Hrec]. rewrite Hid in Hrec.
    split.
    + intros. unfold upload_job_result.
      destruct (visible_job job_id u d1) as [job'|] eqn:Hv'.
      2:{ exfalso. unfold visible_job in Hvis, Hv'. injection Hst as -> ->. simpl in Hv'.
          rewrite Hid, lookup_insert_eq in Hv'. destruct (scan_jobs d !! job_id); [|done].
          change (accessible_engagement_ids (cu_github_id u) _)
            with (accessible_engagement_ids (cu_github_id u) d) in Hv'.
          change (j_program_id (assessed_job b a job)) with (j_program_id job) in Hv'.
          destruct (bool_decide (j_program_id s ∈ _)) eqn:Ed; [|done]. injection Hvis as ->.
          by rewrite Ed in Hv'. }
      destruct (store_new_visible _ _ _ _ _ _ _ _ _ _ _ _ _ _ _ Hk Hvis Hst Hv') as (-> & _ & ->).
      destruct (_writable_engagement job u d); [|done]. simpl.
      change (managed (assessed_job b a job)) with (managed job).
      change (j_tool_type (assessed_job b a job)) with (j_tool_type job). rewrite Hm, Ht. simpl.
      unfold store_gate_result. change (j_id (assessed_job b a job)) with (j_id job). rewrite Hid, Hrec.
      rewrite (proj2 (Z.leb_le _ _) Hl). simpl. by rewrite String.eqb_refl.
    + intros ids' log' rid' now' body' u' r' d2 H2.
      apply upload_cases in H2 as (job' & Hv' & _ & _ & _ & _ & [(? & _ & _ & _ & ->)|(Hn & _)]); [done|].
      destruct (store_new_visible _ _ _ _ _ _ _ _ _ _ _ _ _ _ _ Hk Hvis Hst Hv') as (-> & _).
      change (j_id (assessed_job b a job)) with (j_id job) in Hn. congruence.
Qed.

(** A stored record: redacted, fingerprinted, and attached to its job. *)
Definition evidence_sound (job : ScanJob) (e : Evidence) : Prop :=
  (∃ detail, ev_body e = json_pretty 0 (redact_mapping detail [])) ∧ ev_content_hash e = sha256_hex (ev_body e)
  ∧ ev_redacted e = true ∧ ev_job_id e = Some (j_id job) ∧ ev_program_id e = j_program_id job
  ∧ (∃ o, ev_observed_outcome e = Some o ∧ o ∈ "unknown" :: OUTCOMES)
  ∧ (∀ i, ev_identity_id e = Some i → len i <= 200).

Definition item_sound (job : ScanJob) (s : ScanItem) : Prop :=
  (∃ text, sc_description s = redact_text text []) ∧ sc_severity s ∈ _VG_SEVERITIES
  ∧ sc_status s = "new" ∧ sc_job_id s = Some (j_id job) ∧ sc_program_id s = j_program_id job
  ∧ len (sc_asset s) <= 2000.

Lemma take_string_length n s : len (take_string n s) <= Z.of_nat n.
Proof.
  revert s. induction n as [|n IH]; intros [|c s]; unfold len in *; simpl; [lia|lia|lia|].
  specialize (IH s). lia.
Qed.
#[local] Arguments take_string : simpl never.
#[local] Arguments Z.of_nat : simpl never.

Lemma enum_value_in v allowed fallback : enum_value v allowed fallback ∈ fallback :: allowed.
Proof.
  assert (Hf : fallback ∈ fallback :: allowed) by (apply elem_of_cons; by left).
  destruct v; simpl; try exact Hf. case_bool_decide; [|exact Hf]. apply elem_of_cons; by right.
Qed.

Lemma bind_case_target job body d b : bind_case job body d = Ok b → len (cb_target b) <= 2000.
Proof.
  unfold bind_case. intros H. repeat (apply rbind_ok in H as (? & ? & H)).
  match goal with H : (if bool_decide (?a = []) then _ else _) = Ok ?x |- _ => rename H into Ht; destruct x end.
  injection H as <-. simpl. destruct (bool_decide _) in Ht; [injection Ht as <- _; done|].
  apply rbind_ok in Ht as (request & _ & Ht). cbv zeta in Ht. apply rbind_ok in Ht as ([] & _ & [= <- _]).
  apply take_string_length.
Qed.


(** ** What a conclusive upload rests on *)

Lemma assess_conclusive_verified spec executions n cv preflight semantic out :
  assess spec executions n cv preflight semantic = Ok out → as_status out = "conclusive" →
  cv = true ∧ session_established (as_preflight out)
  ∧ ∀ it, it ∈ as_identities out → in_state "evaluated" it = true.
Proof.
  unfold assess. intros (session & _ & H)%rbind_ok. apply rbind_ok in H as (items & _ & H).
  cbv zeta in H. injection H as <-. simpl. intros (Hne & _ & Hall)%verdict_conclusive.
  destruct (settle session cv items) as [|it l] eqn:E; [done|].
  assert (Hin : it ∈ settle session cv items) by (rewrite E; set_solver).
  destruct (settle_evaluated session cv items it Hin) as (_ & Hcv & Hse & _); [apply Hall; set_solver|].
  done.
Qed.

Lemma bind_case_verified job body d b :
  bind_case job body d = Ok b → cb_verified b = true →
  ∃ spec, or_dict (j_case_snapshot job) = Ok spec ∧ spec ≠ [] ∧ vg_case_hash body = case_hash (JObj spec)
    ∧ cb_spec b = spec ∧ cb_template_id b = str_or_empty (dget "id" spec)
    ∧ (take_string 200 (vg_test_case_id body) = "" ∨ take_string 200 (vg_test_case_id body) = cb_template_id b).
Proof.
  unfold bind_case. intros (spec & Hs & H)%rbind_ok Hv. cbv zeta in H.
  apply rbind_ok in H as (auth & Ha & H). apply rbind_ok in H as ([] & _ & H).
  apply rbind_ok in H as ([target template] & Ht & [= <-]). simpl in *. exists spec.
  destruct (bool_decide (spec = [])) eqn:Es; [done|]. apply bool_decide_eq_false in Es.
  simpl in Hv. apply String.eqb_eq in Hv. injection Ha as <-.
  rewrite (bool_decide_eq_false_2 _ Es) in Ht. apply rbind_ok in Ht as (request & _ & Ht). cbv zeta in Ht.
  apply rbind_ok in Ht as ([] & Hg%guard_ok & [= <- <-]). apply orb_true_iff in Hg.
  rewrite !String.eqb_eq in Hg. done.
Qed.

(** C5. A stored assessment says conclusive only if the upload quoted the
    digest of the very case captured when the job was claimed, and did not
    name another case: an edit of the case between claim and upload, or a
    runner that ran something else, can never read as assurance. *)
Theorem conclusive_upload_binds_claim ids log_id rid now job_id body u d r d1 job' row :
  jobs_keyed d → upload_job_result ids log_id rid now job_id body u d = Ok (r, d1) →
  up_already_processed r = false → scan_jobs d1 !! job_id = Some job' →
  j_assessment job' = JObj row → dget "status" row = JStr "conclusive" →
  ∃ job spec, scan_jobs d !! job_id = Some job ∧ or_dict (j_case_snapshot job) = Ok spec ∧ spec ≠ []
    ∧ vg_case_hash body = case_hash (JObj spec)
    ∧ (take_string 200 (vg_test_case_id body) = ""
       ∨ take_string 200 (vg_test_case_id body) = str_or_empty (dget "id" spec)).
Proof.
  intros Hk H Hnew Hj' Hrow Hs.
  apply upload_cases in H as (job & Hvis & _ & _ & _ & _ & [(? & _ & _ & -> & _)|(_ & b & a & Hb & Ha & Hst)]); [done|].
  apply visible_job_lookup in Hvis as [Hj _]. injection Hst as _ ->. simpl in Hj'.
  rewrite (Hk _ _ Hj), lookup_insert_eq in Hj'. injection Hj' as <-. simpl in Hrow. injection Hrow as <-.
  injection Hs as Hs. unfold gate_assessment in Ha.
  apply assess_conclusive_verified in Ha as (Hv & _); [|done].
  destruct (bind_case_verified _ _ _ _ Hb Hv) as (spec & Hspec & Hne & Hh & _ & Htid & Hor).
  exists job, spec. rewrite Htid in Hor. done.
Qed.

(** The finding's category and the execution's status code are stored as they
    came, whatever they hold. *)
Example category_not_redacted :
  finding_title [("category", JStr "token=abc123")] = "token=abc123"
  ∧ redact_text "token=abc123" [] = "token=[REDACTED]"
  ∧ contains "password=hunter2"
      (record_title false "bob" [("status_code", JStr "password=hunter2")]) = true.
Proof. vm_compute. done. Qed.

(** ** A claimed Gate job and its result *)

Definition upload_user : user_ctx := UserCtx "alice" "" "" "full" None.
Definition upload_job : ScanJob :=
  j_set_case_snapshot (JObj demo_case) (j_set_status "running"
    (new_job "job-1" "eng-1" "alice" _VARDRGATE "scope" [("test_case_id", JStr "tc-1")] None false 0)).
Definition upload_db : db := set_job upload_job demo_db.
Definition upload_body : VardrGateUpload :=
  MkVardrGateUpload (case_hash (JObj demo_case)) "" demo_executions
    [[("severity", JStr "HIGH"); ("message", JStr "bob read it"); ("category", JStr "idor")]]
    [MkIdentityPreflightResult "alice" "passed" "identity_verified" 200] [].
Definition upload_ids (n : nat) : string := "row-" +:+ string_of_Z (Z.of_nat n).
Definition upload_it (d : db) : result (UploadResult * db) :=
  upload_job_result upload_ids "log-1" "receipt-1" 7 "job-1" upload_body upload_user d.

Definition upload_after : db :=
  match upload_it upload_db with Ok (_, d1) => d1 | Raise _ => upload_db end.
Definition upload_answer : UploadResult := MkUploadResult "job-1" 1 3 false.

Lemma upload_happens : upload_it upload_db = Ok (upload_answer, upload_after).
Proof.
  unfold upload_after. destruct (upload_it upload_db) as [[r d1]|e] eqn:E.
  - assert (Hr : (match upload_it upload_db with Ok (r, _) => Some r | Raise _ => None end) = Some upload_answer)
      by (vm_compute; reflexivity).
    rewrite E in Hr. by injection Hr as ->.
  - assert (Hr : is_ok (upload_it upload_db) = true) by (vm_compute; reflexivity).
    by rewrite E in Hr.
Qed.

Lemma upload_db_keyed : jobs_keyed upload_db.
Proof. intros k j. unfold upload_db. simpl. intros [<- <-]%lookup_singleton_Some. done. Qed.

Lemma upload_once_witness :
  upload_it upload_after = Ok (MkUploadResult "job-1" 1 3 true, upload_after).
Proof.
  exact (proj1 (upload_once upload_ids "log-1" "receipt-1" 7 "job-1" upload_body upload_user upload_db
    upload_answer upload_after upload_db_keyed upload_happens) upload_ids "log-1" "receipt-1" 7).
Defined.


Lemma conclusive_upload_binds_claim_witness :
  ∃ job spec, scan_jobs upload_db !! "job-1" = Some job ∧ or_dict (j_case_snapshot job) = Ok spec
    ∧ vg_case_hash upload_body = case_hash (JObj spec).
Proof.
  assert (Hs : (match scan_jobs upload_after !! "job-1" with
                | Some j => match j_assessment j with JObj row => Some (dget "status" row) | _ => None end
                | None => None end) = Some (JStr "conclusive")) by (vm_compute; reflexivity).
  destruct (scan_jobs upload_after !! "job-1") as [job'|] eqn:Ej; [|discriminate Hs].
  destruct (j_assessment job') as [| | | | | |row] eqn:Er; try discriminate Hs. injection Hs as Hs.
  destruct (conclusive_upload_binds_claim upload_ids "log-1" "receipt-1" 7 "job-1" upload_body upload_user
    upload_db upload_answer upload_after job' row upload_db_keyed upload_happens eq_refl Ej Er Hs)
    as (job & spec & Hj & Hspec & _ & Hh & _).
  exists job, spec. split; [exact Hj|]. split; [exact Hspec|exact Hh].
Defined.
