(* ===== verification/JobSafety.v ===== *)
(** * Safety of the job queue

    The handlers of [Jobs] and [Engagements] as one transition system over the
    database, the invariant that ties jobs, their owners and the engagement
    budgets together, and what it gives: budgets hold, finished jobs never
    reopen, one claim wins, stop-work stops. *)
From S2P Require Import Prelude PyStr Policy Json JobConfig Digest Time Models Access Enforcement.
From S2P Require Import Assessments TestCases Execution Jobs Engagements Upload.

(** ** The invariant *)

Definition finished (j : ScanJob) : Prop := j_status j = "done" ∨ j_status j = "failed".
Definition live_states : list string := ["active"; "cancel_requested"; "uncertain"].

(** An attempt is over exactly when its job is, and then holds no capacity. *)
Definition attempt_of (x : JobExecution) (j : ScanJob) : Prop :=
  (x_state x ∈ final_states ∧ finished j ∧ x_capacity_reserved x = false) ∨
  (x_state x ∈ live_states ∧ j_status j = "running").

(** Keys, and every owner's job in step with its attempt. *)
Record attempts_wf (d : db) : Prop := {
  wf_job_key : ∀ k j, scan_jobs d !! k = Some j → j_id j = k;
  wf_exec_key : ∀ k x, job_executions d !! k = Some x → x_job_id x = k;
  wf_eng_key : ∀ k e, engagements d !! k = Some e → e_id e = k;
  wf_attempt : ∀ k x, job_executions d !! k = Some x →
    ∃ j, scan_jobs d !! k = Some j ∧ attempt_of x j;
}.

(** No budget is overdrawn; without a limit nothing is reserved or spent. *)
Definition within (limit : option Z) (used : Z) : Prop :=
  match limit with Some l => used <= l | None => used = 0 end.

Definition budgets_wf (d : db) : Prop := ∀ k e, engagements d !! k = Some e →
  within (e_concurrency_limit e) (reserved d k) ∧
  within (e_target_limit e) (e_targets_spent e) ∧
  within (e_duration_limit e) (e_duration_allocated e).

Definition jobs_wf (d : db) : Prop := attempts_wf d ∧ budgets_wf d.

(** ** Counting reservations *)

Definition reserved_ids (d : db) (eid : string) : gset string :=
  dom (filter (reserves d eid) (job_executions d)).

Lemma reserved_size d eid : reserved d eid = Z.of_nat (size (reserved_ids d eid)).
Proof. unfold reserved, reserved_ids. by rewrite size_dom. Qed.

Lemma elem_of_reserved_ids d eid k :
  k ∈ reserved_ids d eid ↔ ∃ x, job_executions d !! k = Some x ∧ reserves d eid (k, x).
Proof.
  unfold reserved_ids. rewrite elem_of_dom. split.
  - intros [x [Hx Hr]%map_lookup_filter_Some]. eauto.
  - intros (x & Hx & Hr). exists x. by apply map_lookup_filter_Some.
Qed.

Lemma reserved_nonneg d eid : 0 <= reserved d eid.
Proof. rewrite reserved_size. lia. Qed.

Lemma reserved_mono d d' eid :
  reserved_ids d' eid ⊆ reserved_ids d eid → reserved d' eid <= reserved d eid.
Proof. intros Hsub%subseteq_size. rewrite !reserved_size. lia. Qed.

Lemma reserved_add d d' eid k :
  reserved_ids d' eid ⊆ {[ k ]} ∪ reserved_ids d eid → reserved d' eid <= reserved d eid + 1.
Proof.
  intros Hsub%subseteq_size. rewrite !reserved_size.
  pose proof (size_union_alt {[ k ]} (reserved_ids d eid)) as Hu. rewrite size_singleton in Hu.
  assert (size (reserved_ids d eid ∖ {[ k ]}) <= size (reserved_ids d eid))%nat
    by (apply subseteq_size; set_solver). lia.
Qed.

(** ** Changing one job and its owner *)

Section Change.
Context (d d' : db) (k : string).
Context (Hjobs : ∀ k', k' ≠ k → scan_jobs d' !! k' = scan_jobs d !! k').
Context (Hexecs : ∀ k', k' ≠ k → job_executions d' !! k' = job_executions d !! k').

(** The row of [k] keeps its key and, when it was there, its engagement. *)
Context (Hrow : ∀ j', scan_jobs d' !! k = Some j' →
  j_id j' = k ∧ ∀ j, scan_jobs d !! k = Some j → j_program_id j' = j_program_id j).
Context (Hattempt : ∀ x', job_executions d' !! k = Some x' → x_job_id x' = k ∧
  ∃ j', scan_jobs d' !! k = Some j' ∧ attempt_of x' j').

Lemma attempts_wf_change :
  attempts_wf d → (∀ k e, engagements d' !! k = Some e → e_id e = k) → attempts_wf d'.
Proof using Hjobs Hexecs Hrow Hattempt.
  intros [Hj Hx He Ha] He'. split; [| |done|].
  - intros k' j'. destruct (decide (k' = k)) as [->|Hne]; [intros; by apply Hrow|].
    rewrite Hjobs by done. apply Hj.
  - intros k' x'. destruct (decide (k' = k)) as [->|Hne]; [intros; by apply Hattempt|].
    rewrite Hexecs by done. apply Hx.
  - intros k' x'. destruct (decide (k' = k)) as [->|Hne]; [intros; by apply Hattempt|].
    rewrite Hexecs, Hjobs by done. apply Ha.
Qed.

Lemma job_program_change : attempts_wf d → ∀ k' x,
  job_executions d !! k' = Some x → job_executions d' !! k' ≠ None →
  job_program d' k' = job_program d k'.
Proof using Hjobs Hrow Hattempt.
  intros Hwf k' x Hx Hx'. unfold job_program.
  destruct (decide (k' = k)) as [->|Hne]; [|by rewrite Hjobs].
  destruct (wf_attempt d Hwf _ _ Hx) as (j & Hj & _). rewrite Hj.
  destruct (job_executions d' !! k) as [x'|] eqn:Ex'; [|done].
  destruct (Hattempt x' eq_refl) as (_ & j' & Hj' & _). rewrite Hj'. simpl. f_equal.
  by apply (Hrow j' Hj').
Qed.

Lemma reserved_ids_change eid :
  attempts_wf d →
  (∀ x', job_executions d' !! k = Some x' → x_capacity_reserved x' = true →
     ∃ x, job_executions d !! k = Some x ∧ x_capacity_reserved x = true) →
  reserved_ids d' eid ⊆ reserved_ids d eid.
Proof using Hjobs Hexecs Hrow Hattempt.
  intros Hwf Hcap k' (x' & Hx' & Hr & Hp)%elem_of_reserved_ids. simpl in *.
  assert (x_job_id x' = k') as Hk.
  { destruct (decide (k' = k)) as [->|Hne]; [by apply Hattempt|].
    rewrite Hexecs in Hx' by done. by apply (wf_exec_key d Hwf). }
  assert (∃ x, job_executions d !! k' = Some x ∧ x_capacity_reserved x = true) as (x & Hx & Hxr).
  { destruct (decide (k' = k)) as [->|Hne]; [by eapply Hcap|].
    rewrite Hexecs in Hx' by done. eauto. }
  apply elem_of_reserved_ids. exists x. split; [done|]. split; [done|]. simpl.
  rewrite (wf_exec_key d Hwf _ _ Hx), <-(job_program_change Hwf k' x Hx) by congruence.
  by rewrite <-Hk at 1.
Qed.
End Change.

(** The budget fields of an engagement. *)
Definition budget (e : Engagement) : option Z * option Z * Z * option Z * Z * string :=
  (e_concurrency_limit e, e_target_limit e, e_targets_spent e, e_duration_limit e,
   e_duration_allocated e, e_id e).

Lemma within_mono limit used used' : 0 <= used' → used' <= used → within limit used → within limit used'.
Proof. destruct limit; simpl; lia. Qed.

(** Fewer reservations and the same budget fields keep the budgets. *)
Lemma budgets_wf_mono d d' :
  (∀ k e', engagements d' !! k = Some e' → ∃ e, engagements d !! k = Some e ∧ budget e' = budget e) →
  (∀ eid, reserved_ids d' eid ⊆ reserved_ids d eid) →
  budgets_wf d → budgets_wf d'.
Proof.
  intros Heng Hres Hwf k e' He'. destruct (Heng k e' He') as (e & He & [= -> -> -> -> -> _]).
  destruct (Hwf k e He) as (Hc & Ht & Hd). split_and!; [|done|done].
  eapply within_mono, Hc; [apply reserved_nonneg|by apply reserved_mono].
Qed.

Lemma jobs_wf_change d d' k :
  jobs_wf d →
  (∀ k', k' ≠ k → scan_jobs d' !! k' = scan_jobs d !! k') →
  (∀ k', k' ≠ k → job_executions d' !! k' = job_executions d !! k') →
  (∀ j', scan_jobs d' !! k = Some j' →
     j_id j' = k ∧ ∀ j, scan_jobs d !! k = Some j → j_program_id j' = j_program_id j) →
  (∀ x', job_executions d' !! k = Some x' → x_job_id x' = k ∧
     ∃ j', scan_jobs d' !! k = Some j' ∧ attempt_of x' j') →
  (∀ x', job_executions d' !! k = Some x' → x_capacity_reserved x' = true →
     ∃ x, job_executions d !! k = Some x ∧ x_capacity_reserved x = true) →
  engagements d' = engagements d →
  jobs_wf d'.
Proof.
  intros [Hwf Hb] Hj Hx Hrow Hatt Hcap Heng. split.
  - apply (attempts_wf_change d d' k); try done. rewrite Heng. apply Hwf.
  - eapply budgets_wf_mono, Hb; [rewrite Heng; eauto|].
    intros eid. by apply (reserved_ids_change d d' k).
Qed.

(** Only the three tables matter. *)
Lemma jobs_wf_ext d d' :
  scan_jobs d' = scan_jobs d → job_executions d' = job_executions d →
  (∀ k e', engagements d' !! k = Some e' → ∃ e, engagements d !! k = Some e ∧ budget e' = budget e) →
  jobs_wf d → jobs_wf d'.
Proof.
  intros Hj Hx Heng [[H1 H2 H3 H4] Hb]. split.
  - split; rewrite ?Hj, ?Hx; try done.
    intros k e' He'. destruct (Heng k e' He') as (e & He & [= _ _ _ _ _ ->]). by apply H3.
  - eapply budgets_wf_mono, Hb; [done|]. intros eid k.
    rewrite !elem_of_reserved_ids. unfold reserves, job_program. rewrite Hj, Hx. done.
Qed.

(** ** The row updates *)

Lemma set_job_wf d j' :
  jobs_wf d → job_executions d !! j_id j' = None →
  (∀ j, scan_jobs d !! j_id j' = Some j → j_program_id j' = j_program_id j) →
  jobs_wf (set_job j' d).
Proof.
  intros Hwf Hx Hp. apply (jobs_wf_change d _ (j_id j')); simpl; try done.
  - intros k' Hne. by apply lookup_insert_ne.
  - intros j0. rewrite lookup_insert_eq. by intros [= <-].
  - rewrite Hx. done.
  - rewrite Hx. done.
Qed.

Lemma set_execution_wf d x x' j :
  jobs_wf d → job_executions d !! x_job_id x' = Some x → scan_jobs d !! x_job_id x' = Some j →
  attempt_of x' j → (x_capacity_reserved x' = true → x_capacity_reserved x = true) →
  jobs_wf (set_execution x' d).
Proof.
  intros Hwf Hx Hj Ha Hcap. apply (jobs_wf_change d _ (x_job_id x')); simpl; try done.
  - intros k' Hne. by apply lookup_insert_ne.
  - intros j0 Hj0. split; [by apply Hwf|]. intros j1 Hj1. congruence.
  - intros x0. rewrite lookup_insert_eq. intros [= <-]. eauto.
  - intros x0. rewrite lookup_insert_eq. intros [= <-]. eauto.
Qed.

Lemma set_both_wf d x x' j j' :
  jobs_wf d → x_job_id x' = j_id j' → job_executions d !! j_id j' = Some x →
  scan_jobs d !! j_id j' = Some j → j_program_id j' = j_program_id j → attempt_of x' j' →
  (x_capacity_reserved x' = true → x_capacity_reserved x = true) →
  jobs_wf (set_job j' (set_execution x' d)).
Proof.
  intros Hwf Hid Hx Hj Hp Ha Hcap. apply (jobs_wf_change d _ (j_id j')); simpl; try done.
  - intros k' Hne. by apply lookup_insert_ne.
  - intros k' Hne. apply lookup_insert_ne. congruence.
  - intros j0. rewrite lookup_insert_eq. intros [= <-]. split; [done|]. intros j1 Hj1. congruence.
  - rewrite Hid. intros x0. rewrite !lookup_insert_eq. intros [= <-]. eauto.
  - rewrite Hid. intros x0. rewrite lookup_insert_eq. intros [= <-]. eauto.
Qed.

Lemma set_engagement_wf d e' :
  jobs_wf d →
  within (e_concurrency_limit e') (reserved d (e_id e')) →
  within (e_target_limit e') (e_targets_spent e') →
  within (e_duration_limit e') (e_duration_allocated e') →
  jobs_wf (set_engagement e' d).
Proof.
  intros [[H1 H2 H3 H4] Hb] Hc Ht Hd. split.
  - split; try done. intros k e. unfold set_engagement. simpl.
    intros [[<- <-]|[_ He]]%lookup_insert_Some; [done|by apply H3].
  - intros k e. unfold set_engagement at 1. simpl.
    intros [[<- <-]|[_ He]]%lookup_insert_Some; [done|by apply (Hb k)].
Qed.

Lemma log_action_wf i t u a r rid p d : jobs_wf d → jobs_wf (log_action i t u a r rid p d).
Proof. apply jobs_wf_ext; [done|done|eauto]. Qed.

Lemma drop_job_wf k d : jobs_wf d → jobs_wf (drop_job k d).
Proof.
  intros Hwf. apply (jobs_wf_change d _ k); simpl; try done.
  1, 2: intros k' Hne; by apply lookup_delete_ne.
  all: intros z; by rewrite lookup_delete_eq.
Qed.

(** The jobs of [d] have the engagements they have in [M]. *)
Definition same_programs (M : gmap string ScanJob) (d : db) : Prop :=
  ∀ k j jm, scan_jobs d !! k = Some j → M !! k = Some jm → j_program_id j = j_program_id jm.

Lemma fail_all_wf M now message jobs d :
  (∀ j, j ∈ jobs → M !! j_id j = Some j ∧ job_executions d !! j_id j = None) →
  same_programs M d ∧ jobs_wf d →
  same_programs M (fail_all now message jobs d) ∧ jobs_wf (fail_all now message jobs d).
Proof.
  revert d. induction jobs as [|j jobs IH]; intros d Hall [Hs Hwf]; [done|]. simpl.
  destruct (message j) as [m|]; [|apply IH; [set_solver|done]].
  destruct (Hall j) as (Hm & Hx); [set_solver|]. apply IH.
  { intros i Hi. apply Hall. set_solver. }
  split.
  - intros k j1 jm. simpl. intros [[<- <-]|[Hne Hj1]]%lookup_insert_Some Hjm.
    + simpl in *. congruence.
    + by eapply Hs.
  - apply set_job_wf; simpl; [done|done|]. intros j1 Hj1. symmetry. by eapply Hs.
Qed.

Lemma fail_all_lookup now message jobs d k :
  (∀ j, j ∈ jobs → j_id j ≠ k) → scan_jobs (fail_all now message jobs d) !! k = scan_jobs d !! k.
Proof.
  revert d. induction jobs as [|j jobs IH]; intros d Hall; [done|]. simpl.
  rewrite IH by set_solver. destruct (message j); [|done]. simpl.
  apply lookup_insert_ne. apply Hall. set_solver.
Qed.

Lemma fail_all_executions now message jobs d :
  job_executions (fail_all now message jobs d) = job_executions d.
Proof.
  revert d. induction jobs as [|j jobs IH]; intros d; [done|]. simpl. rewrite IH.
  by destruct (message j).
Qed.

Lemma fail_all_test_cases now message jobs d : test_cases (fail_all now message jobs d) = test_cases d.
Proof.
  revert d. induction jobs as [|j jobs IH]; intros d; [done|]. simpl. rewrite IH.
  by destruct (message j).
Qed.

(** ** What the guards establish *)

Lemma visible_job_spec job_id u d j :
  visible_job job_id u d = Some j →
  scan_jobs d !! job_id = Some j ∧
  j_program_id j ∈ accessible_engagement_ids (cu_github_id u) d.
Proof. unfold visible_job. repeat case_match; try done. intros [= <-]. by bool_simpl. Qed.

Lemma lock_job_spec job_id u d j :
  lock_job d job_id u = Ok j → visible_job job_id u d = Some j.
Proof.
  unfold lock_job. destruct (visible_job job_id u d); [|done].
  by intros (? & _ & [= ->])%rbind_ok.
Qed.

Lemma lock_job_lookup job_id u d j : lock_job d job_id u = Ok j → scan_jobs d !! job_id = Some j.
Proof. by intros [? _]%lock_job_spec%visible_job_spec. Qed.

Lemma owned_spec d job_id u auth body x :
  owned d job_id u auth body = Ok x →
  job_executions d !! job_id = Some x ∧ is_Some (scan_jobs d !! job_id).
Proof.
  unfold owned. intros (j & Hj%lock_job_lookup & H)%rbind_ok.
  destruct (job_executions d !! job_id) as [row|]; [|done]. case_match; [done|].
  apply rbind_ok in H as (p & _ & H). case_match; [done|]. naive_solver.
Qed.

Lemma lock_spec d e e' : lock d e = Ok e' → engagements d !! e_id e = Some e'.
Proof. unfold lock. case_match; naive_solver. Qed.

Lemma get_engagement_spec p u d e :
  get_engagement_or_404 p u d = Ok e →
  engagements d !! p = Some e ∧ is_Some (engagement_access e (cu_github_id u) d).
Proof. unfold get_engagement_or_404. repeat case_match; naive_solver. Qed.

Lemma require_full_scope_ok u u' : require_full_scope u = Ok u' → u' = u.
Proof. unfold require_full_scope. case_match; naive_solver. Qed.

(** A reserved attempt refuses idleness. *)
Lemma require_idle_ok d p : require_idle d p = Ok tt → reserved d p = 0.
Proof. unfold require_idle. case_match; [done|]. intros _. by bool_simpl. Qed.

(** ** Each handler keeps the invariant *)

Lemma pending_no_owner d k j :
  attempts_wf d → scan_jobs d !! k = Some j → j_status j = "pending" → job_executions d !! k = None.
Proof.
  intros Hwf Hj Hp. destruct (job_executions d !! k) as [x|] eqn:Hx; [|done].
  destruct (wf_attempt d Hwf _ _ Hx) as (j' & Hj' & Ha). rewrite Hj in Hj'. injection Hj' as <-.
  destruct Ha as [(_ & [Hf|Hf] & _)|[_ Hr]]; congruence.
Qed.

Lemma elem_of_pending_jobs u d j :
  attempts_wf d → j ∈ pending_jobs u d →
  scan_jobs d !! j_id j = Some j ∧ j_status j = "pending" ∧
  j_program_id j ∈ accessible_engagement_ids (cu_github_id u) d.
Proof.
  intros Hwf. unfold pending_jobs. rewrite merge_sort_Permutation. unfold jobs_where.
  intros [Hj Hb]%elem_of_rows. apply list_elem_of_fmap in Hj as ([k j'] & -> & Hk%elem_of_map_to_list).
  simpl in *. bool_simpl. rewrite (wf_job_key d Hwf _ _ Hk). done.
Qed.

(** The database a queue read leaves. *)
Definition queue_effect (now : time) (u : user_ctx) (d : db) : db :=
  let d1 := fail_all now (dependency_failure d) (pending_jobs u d) d in
  fail_all now (case_missing d1) (List.filter (dependency_met d) (pending_jobs u d)) d1.

Lemma get_pending_jobs_effect now u d : (get_pending_jobs now u d).2 = queue_effect now u d.
Proof. done. Qed.

Lemma queue_effect_wf now u d : jobs_wf d → jobs_wf (queue_effect now u d).
Proof.
  intros Hwf. assert (Hall : ∀ j, j ∈ pending_jobs u d →
    scan_jobs d !! j_id j = Some j ∧ job_executions d !! j_id j = None).
  { intros j (Hj & Hp & _)%elem_of_pending_jobs; [|apply Hwf]. split; [done|].
    eapply pending_no_owner; [apply Hwf|done|done]. }
  apply (fail_all_wf (scan_jobs d)).
  { intros j [Hj _]%elem_of_rows. rewrite fail_all_executions. by apply Hall. }
  apply fail_all_wf; [done|]. split; [|done]. intros k j jm Hj Hjm. congruence.
Qed.

Lemma patched_fields body now j :
  j_id (patched body now j) = j_id j ∧ j_program_id (patched body now j) = j_program_id j ∧
  j_status (patched body now j) = su_status body.
Proof. unfold patched. by destruct (_ || _), (su_error_message body). Qed.

Lemma update_job_wf job_id body now u d r d' :
  jobs_wf d → update_job job_id body now u d = Ok (r, d') → jobs_wf d'.
Proof.
  intros Hwf H. apply rbind_ok in H as (job & Hj%lock_job_lookup & H).
  apply rbind_ok in H as ([] & _ & H). apply rbind_ok in H as (e & _ & H).
  assert (Hid : j_id job = job_id) by by apply Hwf.
  destruct (job_executions d !! job_id) as [x|] eqn:Hx.
  - apply rbind_ok in H as (? & _ & H). assert (Hxid : x_job_id x = job_id) by by apply Hwf.
    destruct (_ && _) eqn:Hb; [|done]. bool_simpl. injection H as _ <-.
    eapply (set_execution_wf d x _ job); [done| | | |].
    1,2: by destruct (String.eqb (x_state x) "active"); simpl; rewrite Hxid.
    2: by destruct (String.eqb (x_state x) "active").
    right. split; [|done]. destruct (String.eqb (x_state x) "active"); [unfold live_states; set_solver|].
    destruct (wf_attempt d (proj1 Hwf) _ _ Hx) as (j' & Hj' & Ha). rewrite Hj in Hj'.
    injection Hj' as <-. destruct Ha as [(_ & [Hf|Hf] & _)|[Hs _]]; congruence || done.
  - destruct (_ && _); [by injection H as _ <-|].
    apply rbind_ok in H as (al & _ & H). destruct (negb al); [done|]. injection H as _ <-.
    destruct (patched_fields body now job) as (Hi & Hp & _).
    apply set_job_wf; rewrite ?Hi, ?Hid; [done|done|]. intros j0 Hj0. congruence.
Qed.

Lemma refreshed_state_fields stop now x :
  x_job_id (refreshed_state stop now x) = x_job_id x ∧
  x_capacity_reserved (refreshed_state stop now x) = x_capacity_reserved x ∧
  (x_state x ∈ live_states → x_state (refreshed_state stop now x) ∈ live_states) ∧
  (x_state x ∈ final_states → refreshed_state stop now x = x).
Proof.
  unfold refreshed_state. split_and!.
  - by repeat case_match.
  - by repeat case_match.
  - intros Hl. repeat case_match; simpl; unfold live_states; set_solver.
  - intros Hf. assert (String.eqb (x_state x) "active" = false) as E.
    { apply String.eqb_neq. intros Ha. rewrite Ha in Hf. unfold final_states in Hf. set_solver. }
    by rewrite E, !andb_false_r, E, andb_false_r.
Qed.

Lemma attempt_of_state x x' j :
  attempt_of x j → x_capacity_reserved x' = x_capacity_reserved x →
  (x_state x ∈ live_states → x_state x' ∈ live_states) →
  (x_state x ∈ final_states → x_state x' = x_state x) → attempt_of x' j.
Proof.
  intros [(Hs & Hf & Hc)|[Hs Hr]] Hcap Hlive Hfin; [left|right].
  - rewrite (Hfin Hs), Hcap. done.
  - split; [by apply Hlive|done].
Qed.

Lemma refresh_execution_wf job_id body auth now u d r d' :
  jobs_wf d → refresh_execution job_id body auth now u d = Ok (r, d') → jobs_wf d'.
Proof.
  intros Hwf H. apply rbind_ok in H as (x & [Hx _]%owned_spec & H).
  apply rbind_ok in H as (job & _ & H). apply rbind_ok in H as (e & _ & H).
  destruct (managed job); [done|]. injection H as _ <-.
  set (y := refreshed_state _ now x). set (z := if _ && _ then _ else _).
  destruct (refreshed_state_fields (bool_decide (is_Some (e_stop_work_at e))) now x)
    as (Hid & Hcap & Hlive & Hfin). fold y in Hid, Hcap, Hlive, Hfin.
  assert (Hz : x_job_id z = job_id ∧ x_capacity_reserved z = x_capacity_reserved y ∧
    x_state z = x_state y).
  { rewrite <-(wf_exec_key d (proj1 Hwf) _ _ Hx), <-Hid. unfold z. by case_match. }
  destruct Hz as (Hzid & Hzc & Hzs).
  destruct (wf_attempt d (proj1 Hwf) _ _ Hx) as (j & Hj & Ha).
  eapply (set_execution_wf d x z j); rewrite ?Hzid; [done|done|done| |congruence].
  eapply attempt_of_state; [exact Ha|congruence|by rewrite Hzs|].
  intros Hf. rewrite Hzs. by rewrite (Hfin Hf).
Qed.

Lemma finish_execution_wf job_id body auth now u d :
  jobs_wf d → jobs_wf (finish_execution job_id body auth now u d).2.
Proof.
  intros Hwf. unfold finish_execution. destruct (rbind _ _) as [[[x job] e]|] eqn:H; [|done].
  apply rbind_ok in H as (x0 & [Hx _]%owned_spec & H).
  apply rbind_ok in H as (job0 & Hj & H). apply rbind_ok in H as (e0 & _ & H).
  destruct (managed job0); [done|]. injection H as -> -> ->.
  unfold job_one in Hj. destruct (scan_jobs d !! job_id) as [j|] eqn:Ej; [|done]. injection Hj as ->.
  assert (Hid : j_id job = job_id) by by apply Hwf.
  assert (Hxid : x_job_id x = job_id) by by apply Hwf.
  destruct (mem (x_state x) final_states) eqn:Hm; [by case_match|].
  assert (Hrun : j_status job = "running").
  { destruct (wf_attempt d (proj1 Hwf) _ _ Hx) as (j' & Hj' & Ha). rewrite Ej in Hj'.
    injection Hj' as <-. destruct Ha as [(Hs & _)|[_ Hr]]; [|done].
    apply mem_spec in Hs. congruence. }
  destruct (_ && _); simpl.
  { eapply (set_execution_wf d x _ job); simpl; rewrite ?Hxid; try done.
    right. unfold live_states. split; [set_solver|done]. }
  destruct (bool_decide (fc_outcome body = Uncertain)) eqn:Eu; simpl.
  - bool_simpl. eapply (set_execution_wf d x _ job); simpl; rewrite ?Hxid; try done.
    right. rewrite Eu. unfold live_states. simpl. split; [set_solver|done].
  - bool_simpl. eapply (set_both_wf d x _ job); simpl; rewrite ?Hid, ?Hxid; try done.
    left. unfold final_states, finished. simpl.
    destruct (fc_outcome body) eqn:Eo; simpl; try done; (split_and!; [set_solver|tauto|done]).
Qed.

Lemma delete_job_wf log_id now job_id u d r d' :
  jobs_wf d → delete_job log_id now job_id u d = Ok (r, d') → jobs_wf d'.
Proof.
  intros Hwf H. repeat apply rbind_ok in H as (? & ? & H). injection H as _ <-.
  by apply drop_job_wf, log_action_wf.
Qed.

(** ** The claim *)

Lemma charge_spec e job case body r e1 :
  charge e job case body = Ok (r, e1) →
  e_id e1 = e_id e ∧ e_concurrency_limit e1 = e_concurrency_limit e ∧
  e_target_limit e1 = e_target_limit e ∧ e_duration_limit e1 = e_duration_limit e ∧
  e_duration_allocated e1 = e_duration_allocated e ∧ e_stop_work_at e1 = e_stop_work_at e ∧
  (within (e_target_limit e) (e_targets_spent e) → within (e_target_limit e) (e_targets_spent e1)) ∧
  e_targets_spent e <= e_targets_spent e1.
Proof.
  unfold charge. destruct (e_target_limit e) as [l|] eqn:El.
  - destruct (body ≫= cc_target_binding) as [sb|]; [|done]. case_match; [done|].
    intros (b & _ & Hok)%rbind_ok. do 2 (case_match; [done|]). injection Hok as _ <-.
    bool_simpl. simpl. rewrite El. split_and!; try done; lia.
  - destruct (body ≫= cc_target_binding); [done|]. intros [= _ <-]. rewrite El. done.
Qed.

Lemma allocate_spec e body r e1 :
  allocate e body = Ok (r, e1) →
  e_id e1 = e_id e ∧ e_concurrency_limit e1 = e_concurrency_limit e ∧
  e_target_limit e1 = e_target_limit e ∧ e_targets_spent e1 = e_targets_spent e ∧
  e_duration_limit e1 = e_duration_limit e ∧ e_stop_work_at e1 = e_stop_work_at e ∧
  (within (e_duration_limit e) (e_duration_allocated e) →
   within (e_duration_limit e) (e_duration_allocated e1)).
Proof.
  unfold allocate. destruct (e_duration_limit e) as [l|] eqn:El.
  - destruct (body ≫= cc_duration_seconds) as [n|]; [|done]. case_match; [done|].
    intros [= _ <-]. bool_simpl. simpl. rewrite El. done.
  - destruct (body ≫= cc_duration_seconds); [done|]. intros [= _ <-]. by rewrite El.
Qed.

Lemma claimable_spec job_id u d j :
  claimable job_id u d = Some j →
  visible_job job_id u d = Some j ∧ j_status j = "pending" ∧ stopped d (j_program_id j) = false ∧
  j_authorization_contract_required j = false ∧ j_managed_approval_id j = None.
Proof.
  unfold claimable. destruct (visible_job job_id u d) as [j'|]; [|done].
  destruct (_ && _) eqn:Hb; [|done]. intros [= ->]. bool_simpl. split_and!; try done.
  by apply eq_None_not_Some.
Qed.

(** Everything a successful claim went through. *)
Lemma claim_lost_raises {A} job_id u d (x : A) : claim_lost job_id u d ≠ Ok x.
Proof. unfold claim_lost. by case_match. Qed.

Lemma claim_job_facts job_id u auth token body now before d r d' :
  claim_job job_id u auth token body now before d = Ok (r, d') →
  ∃ pending row engagement snapshot,
    visible_job job_id u before = Some pending ∧
    is_ok (_writable_engagement pending u before) = true ∧
    engagements d !! j_program_id pending = Some engagement ∧
    before_claim d engagement body = Ok tt ∧
    claimable job_id u d = Some row ∧
    (∃ execution, claim_write job_id u auth token body now pending engagement snapshot row d
                  = Ok (execution, d') ∧ cr_execution r = execution).
Proof.
  unfold claim_job. destruct (visible_job job_id u before) as [pending|] eqn:Ep.
  2: { destruct (claimable _ _ d); [done|]. by intros ?%claim_lost_raises. }
  intros (e & Hw & H)%rbind_ok. destruct (managed pending); [done|].
  assert (Hlost : ∀ x : ClaimResult * db, match claimable job_id u d with
                       | Some _ => Raise NameError | None => claim_lost job_id u d end ≠ Ok x).
  { intros x. destruct (claimable _ _ d); [done|]. apply claim_lost_raises. }
  destruct (String.eqb (j_status pending) "pending"); [|by apply Hlost in H].
  apply rbind_ok in H as ([engagement warnings] & Hc & H).
  apply rbind_ok in H as (snapshot & Hs & H).
  destruct (claimable job_id u d) as [row|] eqn:Er; [|by apply claim_lost_raises in H].
  apply rbind_ok in H as ([execution d1] & Hx & [= <- <-]).
  apply rbind_ok in Hc as (e1 & He1 & Hc). apply rbind_ok in Hc as ([] & Hcap & Hc).
  apply rbind_ok in Hc as (targets & _ & Hc). apply rbind_ok in Hc as (dec & _ & [= -> _]).
  exists pending, row, engagement, snapshot. rewrite Hw.
  unfold engagement_one in He1. destruct (engagements d !! _); [|done]. injection He1 as ->.
  split_and!; try done. by exists execution.
Qed.

(** What the budgets and the id of an engagement become through a claim. *)
Definition charged_from (e e' : Engagement) : Prop :=
  e_id e' = e_id e ∧ e_concurrency_limit e' = e_concurrency_limit e ∧
  e_target_limit e' = e_target_limit e ∧ e_duration_limit e' = e_duration_limit e ∧
  e_stop_work_at e' = e_stop_work_at e ∧
  (within (e_target_limit e) (e_targets_spent e) → within (e_target_limit e) (e_targets_spent e')) ∧
  (within (e_duration_limit e) (e_duration_allocated e) →
   within (e_duration_limit e) (e_duration_allocated e')).

Lemma charged_both e job case body r1 e1 r2 e2 :
  charge e job case body = Ok (r1, e1) → allocate e1 body = Ok (r2, e2) → charged_from e e2.
Proof.
  intros (Hi1 & Hc1 & Ht1 & Hd1 & Hda1 & Hs1 & Hw1 & _)%charge_spec
    (Hi2 & Hc2 & Ht2 & Hts2 & Hd2 & Hs2 & Hw2)%allocate_spec.
  unfold charged_from. rewrite Hi2, Hc2, Ht2, Hts2, Hd2, Hs2 in *.
  rewrite Hd1, Hda1 in Hw2. split_and!; congruence || done.
Qed.

Lemma claim_write_spec job_id u auth token body now pending e snapshot row d ex d' :
  claim_write job_id u auth token body now pending e snapshot row d = Ok (ex, d') →
  ∃ e', charged_from e e' ∧
    scan_jobs d' = <[j_id row := claimed_job now snapshot row]> (scan_jobs d) ∧
    engagements d' = <[e_id e := e']> (engagements d) ∧
    ((body = None ∧ ex = None ∧ job_executions d' = job_executions d) ∨
     ∃ b x, body = Some b ∧ job_executions d !! job_id = None ∧
       job_executions d' = <[job_id := x]> (job_executions d) ∧
       x_job_id x = job_id ∧ x_state x = "active" ∧ x_owner x = cu_github_id u ∧
       x_capacity_reserved x = cc_concurrency_budget b).
Proof.
  unfold claim_write. intros ([tr e1] & Hc & H)%rbind_ok.
  apply rbind_ok in H as ([dr e2] & Ha & H). pose proof (charged_both _ _ _ _ _ _ _ _ Hc Ha) as Hch.
  assert (Hid : e_id e2 = e_id e) by apply Hch.
  destruct body as [b|].
  - apply rbind_ok in H as ([ej d1] & Hi & [= <- <-]). unfold issue in Hi.
    apply rbind_ok in Hi as (p & _ & Hi). destruct (job_executions _ !! job_id) eqn:Ex; [done|].
    injection Hi as _ <-. exists e2. simpl. rewrite Hid. split_and!; [done|done|done|].
    right. eexists b, _. split_and!; done.
  - injection H as <- <-. exists e2. simpl. rewrite Hid. split_and!; [done|done|done|]. by left.
Qed.

Lemma before_claim_spec d e body :
  before_claim d e body = Ok tt →
  match e_concurrency_limit e with
  | Some l => opted_in body = true ∧ reserved d (e_id e) < l
  | None => opted_in body = false
  end.
Proof.
  unfold before_claim. destruct (e_concurrency_limit e) as [l|].
  - destruct (opted_in body); simpl; [|done]. case_match; [done|]. bool_simpl. done.
  - by destruct (opted_in body).
Qed.

(** A job id is not reused and its engagement does not change. *)
Definition same_engagement (before d : db) (job_id : string) : Prop :=
  ∀ j j', scan_jobs before !! job_id = Some j → scan_jobs d !! job_id = Some j' →
    j_program_id j = j_program_id j'.

Section ClaimShape.
Context (d d' : db) (job_id : string) (row : ScanJob) (body : option ClaimControl)
  (snapshot : json) (now : time).
Context (Hwf : attempts_wf d) (Hrow : scan_jobs d !! job_id = Some row)
  (Hpend : j_status row = "pending").
Context (Hj' : scan_jobs d' = <[job_id := claimed_job now snapshot row]> (scan_jobs d)).
Context (Hx' : (body = None ∧ job_executions d' = job_executions d) ∨
  ∃ b x, body = Some b ∧ job_executions d' = <[job_id := x]> (job_executions d) ∧
    x_job_id x = job_id ∧ x_state x = "active" ∧ x_capacity_reserved x = cc_concurrency_budget b).

Lemma claim_other_jobs k : k ≠ job_id → scan_jobs d' !! k = scan_jobs d !! k.
Proof using Hj'. intros Hne. rewrite Hj'. by apply lookup_insert_ne. Qed.

Lemma claim_other_executions k : k ≠ job_id → job_executions d' !! k = job_executions d !! k.
Proof using Hx'.
  intros Hne. destruct Hx' as [[_ ->]|(b & x & _ & -> & _)]; [done|]. by apply lookup_insert_ne.
Qed.

Lemma claim_attempts_wf :
  (∀ k e, engagements d' !! k = Some e → e_id e = k) → attempts_wf d'.
Proof using Hwf Hrow Hpend Hj' Hx'.
  intros Heng. apply (attempts_wf_change d d' job_id); try done.
  - apply claim_other_jobs.
  - apply claim_other_executions.
  - rewrite Hj', lookup_insert_eq. intros j' [= <-]. simpl. split; [by apply Hwf|].
    intros. congruence.
  - intros x'. pose proof (pending_no_owner d job_id row Hwf Hrow Hpend) as Hnone.
    destruct Hx' as [[_ ->]|(b & x & _ & -> & Hxid & Hst & _)]; [congruence|].
    rewrite lookup_insert_eq. intros [= <-]. split; [done|]. rewrite Hj', lookup_insert_eq.
    eexists; split; [done|]. right. rewrite Hst. unfold live_states. split; [set_solver|done].
Qed.

(** At most the claimed job is newly reserved, in its engagement and only when
    the claim opted in. *)
Lemma claim_reserved_ids eid :
  reserved_ids d' eid ⊆
  (if decide (eid = j_program_id row ∧ opted_in body = true) then {[ job_id ]} else ∅)
  ∪ reserved_ids d eid.
Proof using Hwf Hrow Hpend Hj' Hx'.
  intros k (x & Hx & Hr & Hprog)%elem_of_reserved_ids. simpl in *. apply elem_of_union.
  destruct (decide (k = job_id)) as [->|Hne]; [left|right].
  - pose proof (pending_no_owner d job_id row Hwf Hrow Hpend) as Hnone.
    destruct Hx' as [[_ Hx'']|(b & x0 & -> & Hx'' & Hxid & _ & Hxc)];
      rewrite Hx'' in Hx; [congruence|]. rewrite lookup_insert_eq in Hx. injection Hx as ->.
    unfold job_program in Hprog. rewrite Hxid, Hj', lookup_insert_eq in Hprog.
    injection Hprog as <-. simpl. rewrite <-Hxc, decide_True by done. set_solver.
  - apply elem_of_reserved_ids. rewrite claim_other_executions in Hx by done.
    exists x. split; [done|]. split; [done|]. simpl. rewrite <-Hprog. unfold job_program.
    rewrite (wf_exec_key d Hwf _ _ Hx). by rewrite claim_other_jobs.
Qed.

Lemma claim_budgets_wf e e' :
  budgets_wf d → engagements d !! j_program_id row = Some e → charged_from e e' →
  engagements d' = <[e_id e := e']> (engagements d) → before_claim d e body = Ok tt →
  budgets_wf d'.
Proof using Hwf Hrow Hpend Hj' Hx'.
  intros Hb He (Hi & Hcl & Htl & Hdl & _ & Htw & Hdw) He' Hcap%before_claim_spec k e0.
  pose proof (wf_eng_key d Hwf _ _ He) as Heid. rewrite He', Heid in *.
  intros [[<- <-]|[Hne Hk]]%lookup_insert_Some.
  - destruct (Hb _ _ He) as (Hc0 & Ht0 & Hd0). rewrite Hcl, Htl, Hdl.
    split_and!; [|by apply Htw|by apply Hdw].
    pose proof (claim_reserved_ids (j_program_id row)) as Hres.
    pose proof (reserved_nonneg d' (j_program_id row)).
    destruct (e_concurrency_limit e) as [l|]; simpl in *.
    + destruct Hcap as [Hopt Hlt]. rewrite decide_True in Hres by done.
      apply reserved_add in Hres. lia.
    + rewrite decide_False in Hres by (intros [_ ?]; congruence).
      assert (reserved d' (j_program_id row) <= reserved d (j_program_id row)); [|lia].
      apply reserved_mono. set_solver.
  - destruct (Hb _ _ Hk) as (Hc0 & Ht0 & Hd0). split_and!; [|done|done].
    eapply within_mono, Hc0; [apply reserved_nonneg|]. apply reserved_mono.
    pose proof (claim_reserved_ids k) as Hres.
    rewrite decide_False in Hres by (intros [? _]; congruence). set_solver.
Qed.
End ClaimShape.

Lemma claim_job_wf job_id u auth token body now before d r d' :
  jobs_wf d → same_engagement before d job_id →
  claim_job job_id u auth token body now before d = Ok (r, d') → jobs_wf d'.
Proof.
  intros [Hwf Hb] Hsame
    (pending & row & e & snap & Hp & _ & He & Hcap & Hrow & ex & Hw & _)%claim_job_facts.
  apply visible_job_spec in Hp as [Hp _].
  apply claimable_spec in Hrow as ([Hrow _]%visible_job_spec & Hpend & _).
  assert (Hid : j_id row = job_id) by by apply Hwf.
  rewrite (Hsame _ _ Hp Hrow) in He.
  apply claim_write_spec in Hw as (e' & Hch & Hj' & He' & Hx'). rewrite Hid in Hj'.
  assert (Hx'' : (body = None ∧ job_executions d' = job_executions d) ∨
    ∃ b x, body = Some b ∧ job_executions d' = <[job_id := x]> (job_executions d) ∧
      x_job_id x = job_id ∧ x_state x = "active" ∧ x_capacity_reserved x = cc_concurrency_budget b)
    by naive_solver.
  split; [|by eapply claim_budgets_wf].
  eapply claim_attempts_wf; [done..|]. pose proof (wf_eng_key d Hwf _ _ He) as Heid.
  destruct Hch as (Hi & _). intros k e0. rewrite He'.
  intros [[<- <-]|[_ H0]]%lookup_insert_Some; [done|by apply Hwf].
Qed.

(** ** Queueing and engagement administration *)

Lemma fresh_no_owner d k : attempts_wf d → scan_jobs d !! k = None → job_executions d !! k = None.
Proof.
  intros Hwf Hk. destruct (job_executions d !! k) as [x|] eqn:Hx; [|done].
  destruct (wf_attempt d Hwf _ _ Hx) as (j & Hj & _). congruence.
Qed.

Lemma create_job_wf new_id log_id now p body u d r d' :
  jobs_wf d → scan_jobs d !! new_id = None →
  create_job new_id log_id now p body u d = Ok (r, d') → jobs_wf d'.
Proof.
  intros Hwf Hfresh H. repeat apply rbind_ok in H as (? & ? & H). injection H as _ <-.
  apply log_action_wf, set_job_wf; simpl; [done| |congruence].
  apply fresh_no_owner; [apply Hwf|done].
Qed.

Lemma add_stages_wf p owner now prev stages configs ids d :
  jobs_wf d →
  (∀ i, i ∈ ids → job_executions d !! i.1 = None ∧
     ∀ j, scan_jobs d !! i.1 = Some j → j_program_id j = p) →
  jobs_wf (add_stages p owner now prev stages configs ids d).2.
Proof.
  revert prev configs ids d. induction stages as [|st stages IH]; intros prev configs ids d Hwf Hids;
    [done|]. destruct configs as [|c configs]; [done|]. destruct ids as [|[i l] ids]; [done|].
  simpl. destruct (add_stages _ _ _ _ _ _ _ _) as [created d1] eqn:E. simpl.
  apply (f_equal snd) in E. simpl in E. rewrite <-E. destruct (Hids (i, l)) as [Hx Hj]; [left|].
  simpl in *. apply IH.
  - apply log_action_wf, set_job_wf; simpl; [done|done|]. intros j Hj0. by rewrite (Hj j Hj0).
  - intros [i' l'] Hi'. destruct (Hids (i', l')) as [Hx' Hj']; [by right|]. simpl in *.
    split; [done|]. intros j [[_ <-]|[_ Hj0]]%lookup_insert_Some; [done|by apply Hj'].
Qed.

Lemma add_stages_lookup p owner now prev stages configs ids d k :
  k ∉ ids.*1 →
  scan_jobs (add_stages p owner now prev stages configs ids d).2 !! k = scan_jobs d !! k.
Proof.
  revert prev configs ids d. induction stages as [|st stages IH]; intros prev configs ids d Hk; [done|].
  destruct configs as [|c configs]; [done|]. destruct ids as [|[i l] ids]; [done|].
  simpl in *. destruct (add_stages _ _ _ _ _ _ _ _) as [created d1] eqn:E. simpl.
  apply (f_equal snd) in E. simpl in E. rewrite <-E, IH by set_solver. simpl.
  apply lookup_insert_ne. set_solver.
Qed.

Lemma create_pipeline_effect ids now p stages req u d created d' :
  create_pipeline ids now p stages req u d = Ok (created, d') →
  ∃ configs, d' = (add_stages p (cu_github_id u) now None stages configs ids d).2.
Proof.
  intros H. apply rbind_ok in H as (? & _ & H). apply rbind_ok in H as (? & _ & H).
  apply rbind_ok in H as (? & _ & H). apply rbind_ok in H as (configs & _ & H).
  injection H as H. exists configs. by rewrite H.
Qed.

Lemma map_executions_wf f d :
  (∀ x, x_job_id (f x) = x_job_id x ∧ x_capacity_reserved (f x) = x_capacity_reserved x ∧
     (x_state x ∈ live_states → x_state (f x) ∈ live_states) ∧
     (x_state x ∈ final_states → x_state (f x) = x_state x)) →
  jobs_wf d → jobs_wf (set_job_executions (f <$> job_executions d) d).
Proof.
  intros Hf [[H1 H2 H3 H4] Hb]. split.
  - split; simpl; [done| |done|]; intros k y Hy; simpl in *.
    + apply lookup_fmap_Some in Hy as (x & <- & Hx). destruct (Hf x) as (-> & _). by apply H2.
    + apply lookup_fmap_Some in Hy as (x & <- & Hx). destruct (H4 _ _ Hx) as (j & Hj & Ha).
      exists j. split; [done|]. destruct (Hf x) as (_ & Hc & Hl & Hfin).
      by eapply attempt_of_state.
  - eapply budgets_wf_mono, Hb; [simpl; eauto|].
    intros eid k (y & Hy & Hr & Hp)%elem_of_reserved_ids. simpl in *.
    apply lookup_fmap_Some in Hy as (x & <- & Hx). destruct (Hf x) as (Hi & Hc & _).
    apply elem_of_reserved_ids. exists x. split; [done|].
    split; simpl; [congruence|]. rewrite <-Hi. exact Hp.
Qed.

Lemma cancel_active_wf p d : jobs_wf d → jobs_wf (cancel_active p d).
Proof.
  apply map_executions_wf. intros x. destruct (_ && _) eqn:Hb; [|done]. bool_simpl. simpl.
  unfold live_states, final_states. split_and!; [done|done|set_solver|].
  intros Hs. exfalso. rewrite H0 in Hs. set_solver.
Qed.

Lemma set_engagement_budget_wf d e e' :
  jobs_wf d → engagements d !! e_id e' = Some e → budget e' = budget e → jobs_wf (set_engagement e' d).
Proof.
  intros Hwf He [= Hc Ht Hs Hd Ha Hi]. destruct (proj2 Hwf _ _ He) as (H1 & H2 & H3).
  apply set_engagement_wf; [done| | |]; rewrite ?Hc, ?Ht, ?Hs, ?Hd, ?Ha; done.
Qed.

Lemma bump_fields b e : budget (bump b e) = budget e ∧ e_stop_work_at (bump b e) = e_stop_work_at e.
Proof. by destruct b. Qed.

Lemma policy_guard_spec p u d e :
  attempts_wf d → policy_guard p u d = Ok e →
  engagements d !! p = Some e ∧ e_id e = p ∧ reserved d p = 0.
Proof.
  intros Hwf H. apply rbind_ok in H as (u' & _ & H). apply rbind_ok in H as (e0 & He0 & H).
  apply rbind_ok in H as ([] & _ & H). apply rbind_ok in H as (e1 & Hl%lock_spec & H).
  apply rbind_ok in H as ([] & Hidle%require_idle_ok & [= ->]).
  apply get_engagement_spec in He0 as [He0 _]. rewrite (wf_eng_key d Hwf _ _ He0) in Hl.
  split_and!; [done|by apply Hwf|done].
Qed.

Lemma limit_ok_within limit used : limit_ok limit used = true → within limit used.
Proof. destruct limit; simpl; intros H; by bool_simpl. Qed.

Lemma configure_duration_wf l t p n u d r d' :
  jobs_wf d → configure_duration l t p n u d = Ok (r, d') → jobs_wf d'.
Proof.
  intros Hwf H. apply rbind_ok in H as (e & (He & Hid & _)%policy_guard_spec & H); [|apply Hwf].
  cbv zeta in H. destruct (limit_ok n (e_duration_allocated e)) eqn:El; [|discriminate H]. injection H as _ <-.
  destruct (proj2 Hwf _ _ He) as (H1 & H2 & H3). apply limit_ok_within in El.
  apply log_action_wf, set_engagement_wf; [done| | |]; unfold bump; destruct (negb _); cbn;
    rewrite ?Hid; done.
Qed.

Lemma configure_targets_wf l t p n u d r d' :
  jobs_wf d → configure_targets l t p n u d = Ok (r, d') → jobs_wf d'.
Proof.
  intros Hwf H. apply rbind_ok in H as (e & (He & Hid & _)%policy_guard_spec & H); [|apply Hwf].
  cbv zeta in H. destruct (limit_ok n (e_targets_spent e)) eqn:El; [|discriminate H]. injection H as _ <-.
  destruct (proj2 Hwf _ _ He) as (H1 & H2 & H3). apply limit_ok_within in El.
  apply log_action_wf, set_engagement_wf; [done| | |]; unfold bump; destruct (negb _); cbn;
    rewrite ?Hid; done.
Qed.

(** The request model's [ge=1] makes the new limit non-negative. *)
Lemma configure_concurrency_wf l t p n u d r d' :
  jobs_wf d → (∀ z, n = Some z → 1 <= z) →
  configure_concurrency l t p n u d = Ok (r, d') → jobs_wf d'.
Proof.
  intros Hwf Hn H. apply rbind_ok in H as (e & (He & Hid & Hr)%policy_guard_spec & H); [|apply Hwf].
  injection H as _ <-. destruct (proj2 Hwf _ _ He) as (H1 & H2 & H3).
  assert (Hw : within n 0) by (destruct n as [z|]; simpl; [specialize (Hn z eq_refl); lia|done]).
  apply log_action_wf, set_engagement_wf; [done| | |]; unfold bump; destruct (negb _); cbn;
    rewrite ?Hid, ?Hr; done.
Qed.

Lemma engage_stop_work_wf l t p reason u d r d' :
  jobs_wf d → engage_stop_work l t p reason u d = Ok (r, d') → jobs_wf d'.
Proof.
  intros Hwf H. apply rbind_ok in H as (e & [He _]%get_engagement_spec & H).
  apply rbind_ok in H as ([] & _ & H). apply rbind_ok in H as (e1 & Hl%lock_spec & H).
  injection H as _ <-. apply log_action_wf, cancel_active_wf.
  assert (Hid : e_id e1 = e_id e) by (by apply Hwf).
  eapply (set_engagement_budget_wf d e1); [done| |by destruct (e_stop_work_at e1)].
  destruct (e_stop_work_at e1); simpl; by rewrite Hid.
Qed.

Lemma release_stop_work_wf l t p u d r d' :
  jobs_wf d → release_stop_work l t p u d = Ok (r, d') → jobs_wf d'.
Proof.
  intros Hwf H. apply rbind_ok in H as (e & [He _]%get_engagement_spec & H).
  apply rbind_ok in H as ([] & _ & H). apply rbind_ok in H as (e1 & Hl%lock_spec & H).
  injection H as _ <-. apply log_action_wf.
  assert (Hid : e_id e1 = e_id e) by (by apply Hwf).
  eapply (set_engagement_budget_wf d e1); [done| |]; unfold bump; case_match; simpl; by rewrite ?Hid.
Qed.

Lemma drop_engagement_wf p d : jobs_wf d → jobs_wf (drop_engagement p d).
Proof.
  intros [[H1 H2 H3 H4] Hb]. split.
  - split; simpl.
    + intros k j [Hj _]%map_lookup_filter_Some. by apply H1.
    + intros k x [Hx _]%map_lookup_filter_Some. by apply H2.
    + intros k e [_ He]%lookup_delete_Some. by apply H3.
    + intros k x [Hx Hs]%map_lookup_filter_Some. simpl in Hs. destruct (H4 _ _ Hx) as (j & Hj & Ha).
      exists j. split; [|done]. apply map_lookup_filter_Some. split; [done|]. simpl.
      unfold job_survives, job_program in Hs. rewrite (H2 _ _ Hx), Hj in Hs. bool_simpl. naive_solver.
  - eapply budgets_wf_mono, Hb; simpl.
    + intros k e [_ He]%lookup_delete_Some. eauto.
    + intros eid k (x & Hx & Hr & Hp)%elem_of_reserved_ids. simpl in *.
      apply map_lookup_filter_Some in Hx as [Hx _]. apply elem_of_reserved_ids. exists x.
      split; [done|]. split; [done|]. simpl. unfold job_program in *. simpl in Hp.
      destruct (filter _ (scan_jobs d) !! x_job_id x) eqn:E; [|done].
      apply map_lookup_filter_Some in E as [-> _]. done.
Qed.

Lemma delete_engagement_wf l t p u d r d' :
  jobs_wf d → delete_engagement l t p u d = Ok (r, d') → jobs_wf d'.
Proof.
  intros Hwf H. repeat apply rbind_ok in H as (? & ? & H). injection H as _ <-.
  by apply drop_engagement_wf, log_action_wf.
Qed.

(** An accepted upload changes at most the assessment of its job. *)
Lemma upload_effect ids log_id rid now job_id body u d r d' :
  attempts_wf d → upload_job_result ids log_id rid now job_id body u d = Ok (r, d') →
  d' = d ∨ ∃ job a, scan_jobs d !! job_id = Some job
    ∧ scan_jobs d' = <[job_id := j_set_assessment a job]> (scan_jobs d)
    ∧ job_executions d' = job_executions d ∧ engagements d' = engagements d.
Proof.
  intros Hwf H. apply upload_cases in H as (job & Hvis & _ & _ & _ & _ & [(? & _ & _ & _ & ->)|(_ & b & a & _ & _ & Hst)]);
    [by left|right].
  unfold store_new in Hst. injection Hst as _ ->. apply visible_job_lookup in Hvis as [Hj _].
  exists job. eexists. split; [done|]. split; [|done].
  change (scan_jobs (stored_db _ _ _ _ _ _ _ _ _ d)) with (<[j_id job := assessed_job b a job]> (scan_jobs d)).
  by rewrite (wf_job_key d Hwf _ _ Hj).
Qed.

Lemma upload_wf ids log_id rid now job_id body u d r d' :
  jobs_wf d → upload_job_result ids log_id rid now job_id body u d = Ok (r, d') → jobs_wf d'.
Proof.
  intros Hwf H. apply upload_effect in H as [-> |(job & a & Hj & Hjobs & Hx & He)]; [done| |apply Hwf].
  assert (Hid : j_id job = job_id) by by apply Hwf.
  apply (jobs_wf_change d d' job_id); rewrite ?Hjobs, ?Hx; try done.
  - intros k' Hne. by rewrite lookup_insert_ne.
  - intros j'. rewrite lookup_insert_eq. intros [= <-]. split; [done|]. intros j0 Hj0. simpl. congruence.
  - intros x Hx'. split; [by apply Hwf|]. destruct (wf_attempt d (proj1 Hwf) _ _ Hx') as (j0 & Hj0 & Ha).
    rewrite lookup_insert_eq. eexists. split; [done|]. rewrite Hj in Hj0. by injection Hj0 as <-.
  - eauto.
Qed.

(** ** The transition system *)

Inductive job_step (d : db) : db → Prop :=
| step_create new_id log_id now p body u r d' :
    scan_jobs d !! new_id = None →
    create_job new_id log_id now p body u d = Ok (r, d') → job_step d d'
| step_pipeline ids now p stages req u r d' :
    (∀ i, i ∈ ids.*1 → scan_jobs d !! i = None) →
    create_pipeline ids now p stages req u d = Ok (r, d') → job_step d d'
| step_queue now u : job_step d (get_pending_jobs now u d).2
| step_update job_id body now u r d' :
    update_job job_id body now u d = Ok (r, d') → job_step d d'
| step_claim job_id u auth token body now before r d' :
    same_engagement before d job_id →
    claim_job job_id u auth token body now before d = Ok (r, d') → job_step d d'
| step_refresh job_id body auth now u r d' :
    refresh_execution job_id body auth now u d = Ok (r, d') → job_step d d'
| step_finish job_id body auth now u : job_step d (finish_execution job_id body auth now u d).2
| step_event new_id now job_id kind text u r d' :
    create_job_event new_id now job_id kind text u d = Ok (r, d') → job_step d d'
| step_delete log_id now job_id u r d' :
    delete_job log_id now job_id u d = Ok (r, d') → job_step d d'
| step_upload ids log_id rid now job_id body u r d' :
    upload_job_result ids log_id rid now job_id body u d = Ok (r, d') → job_step d d'
| step_duration l t p n u r d' : configure_duration l t p n u d = Ok (r, d') → job_step d d'
| step_targets l t p n u r d' : configure_targets l t p n u d = Ok (r, d') → job_step d d'
| step_concurrency l t p n u r d' :
    (∀ z, n = Some z → 1 <= z) → configure_concurrency l t p n u d = Ok (r, d') → job_step d d'
| step_stop l t p reason u r d' : engage_stop_work l t p reason u d = Ok (r, d') → job_step d d'
| step_release l t p u r d' : release_stop_work l t p u d = Ok (r, d') → job_step d d'
| step_delete_engagement l t p u r d' : delete_engagement l t p u d = Ok (r, d') → job_step d d'
| step_new_engagement e :
    engagements d !! e_id e = None → (∀ k j, scan_jobs d !! k = Some j → j_program_id j ≠ e_id e) →
    budget e = (None, None, 0, None, 0, e_id e) → job_step d (set_engagement e d)
(** Every other request: the job tables and the budgets are not its business. *)
| step_other d' :
    scan_jobs d' = scan_jobs d → job_executions d' = job_executions d →
    (∀ k e', engagements d' !! k = Some e' → ∃ e, engagements d !! k = Some e ∧ budget e' = budget e) →
    job_step d d'.

Lemma job_step_wf d d' : job_step d d' → jobs_wf d → jobs_wf d'.
Proof.
  intros Hstep Hwf. destruct Hstep.
  - by eapply create_job_wf.
  - apply create_pipeline_effect in H0 as [configs ->]. apply add_stages_wf; [done|].
    intros i Hi. assert (Hfresh : scan_jobs d !! i.1 = None).
    { apply H. apply list_elem_of_fmap. eauto. }
    split; [|congruence]. apply fresh_no_owner; [apply Hwf|done].
  - rewrite get_pending_jobs_effect. by apply queue_effect_wf.
  - by eapply update_job_wf.
  - by eapply claim_job_wf.
  - by eapply refresh_execution_wf.
  - by apply finish_execution_wf.
  - unfold create_job_event in H. destruct (visible_job _ _ _); [|done].
    apply rbind_ok in H as (? & _ & [= _ <-]). eapply jobs_wf_ext, Hwf; simpl; eauto.
  - by eapply delete_job_wf.
  - by eapply upload_wf.
  - by eapply configure_duration_wf.
  - by eapply configure_targets_wf.
  - by eapply configure_concurrency_wf.
  - by eapply engage_stop_work_wf.
  - by eapply release_stop_work_wf.
  - by eapply delete_engagement_wf.
  - injection H1 as Hc Ht Hs Hd Ha. apply set_engagement_wf; [done| | |];
      rewrite ?Hc, ?Ht, ?Hs, ?Hd, ?Ha; simpl; [|done|done].
    rewrite reserved_size. assert (reserved_ids d (e_id e) = ∅) as ->; [|by rewrite size_empty].
    apply elem_of_equiv_empty_L. intros k (x & _ & _ & Hp)%elem_of_reserved_ids. simpl in Hp.
    unfold job_program in Hp. destruct (scan_jobs d !! x_job_id x) as [j|] eqn:Hj; [|done].
    injection Hp as Hp. by eapply H0.
  - by eapply jobs_wf_ext.
Qed.

Lemma jobs_wf_empty : jobs_wf empty_db.
Proof. split; [split|]; intros k z Hz; simpl in Hz; by rewrite lookup_empty in Hz. Qed.

Lemma reachable_wf d : rtc job_step empty_db d → jobs_wf d.
Proof.
  assert (Hall : ∀ x y, rtc job_step x y → jobs_wf x → jobs_wf y).
  { induction 1; eauto using job_step_wf. }
  intros Hd. eapply Hall, jobs_wf_empty. exact Hd.
Qed.

(** ** Properties *)

(** C2. Whatever requests arrive in whatever order, no engagement ever has more
    attempts reserved, origins spent or seconds allocated than its limits
    allow, and without a limit nothing is reserved, spent or allocated. *)
Theorem budgets_never_overdrawn d k e :
  rtc job_step empty_db d → engagements d !! k = Some e →
  within (e_concurrency_limit e) (reserved d k) ∧
  within (e_target_limit e) (e_targets_spent e) ∧
  within (e_duration_limit e) (e_duration_allocated e).
Proof. intros Hd%reachable_wf He. by apply Hd. Qed.

(** An owned attempt and its job are always in step: a live attempt's job is
    running, a finished attempt's job is finished and holds no capacity. *)
Theorem attempts_in_step d k x :
  rtc job_step empty_db d → job_executions d !! k = Some x →
  ∃ j, scan_jobs d !! k = Some j ∧
    ((x_state x ∈ final_states ∧ finished j ∧ x_capacity_reserved x = false) ∨
     (x_state x ∈ live_states ∧ j_status j = "running")).
Proof. intros [Hd _]%reachable_wf Hx. by apply (wf_attempt d Hd). Qed.

Lemma finished_not_pending j : finished j → j_status j ≠ "pending" ∧ j_status j ≠ "running".
Proof. intros [->| ->]; done. Qed.

Lemma update_job_finished job_id body now u d r d' k j :
  attempts_wf d → scan_jobs d !! k = Some j → finished j →
  update_job job_id body now u d = Ok (r, d') → scan_jobs d' !! k = Some j.
Proof.
  intros Hwf Hj Hf H. apply rbind_ok in H as (job & Hjob%lock_job_lookup & H).
  apply rbind_ok in H as ([] & _ & H). apply rbind_ok in H as (e & _ & H).
  destruct (job_executions d !! job_id) as [x|] eqn:Hx.
  { apply rbind_ok in H as (? & _ & H). destruct (_ && _); [|done]. by injection H as _ <-. }
  destruct (_ && _); [by injection H as _ <-|].
  apply rbind_ok in H as (al & Hal & H). destruct al; [|done]. injection H as _ <-. simpl.
  destruct (patched_fields body now job) as (Hi & _). rewrite Hi, (wf_job_key d Hwf _ _ Hjob).
  destruct (decide (job_id = k)) as [->|Hne]; [|by rewrite lookup_insert_ne].
  rewrite Hj in Hjob. injection Hjob as <-. unfold transition_allowed in Hal.
  by destruct Hf as [Hs|Hs]; rewrite Hs in Hal.
Qed.

Lemma finish_execution_finished job_id body auth now u d k j :
  attempts_wf d → scan_jobs d !! k = Some j → finished j →
  scan_jobs (finish_execution job_id body auth now u d).2 !! k = Some j.
Proof.
  intros Hwf Hj Hf. unfold finish_execution. destruct (rbind _ _) as [[[x job] e]|] eqn:H; [|done].
  apply rbind_ok in H as (x0 & [Hx _]%owned_spec & H).
  apply rbind_ok in H as (job0 & Hjob & H). apply rbind_ok in H as (e0 & _ & H).
  destruct (managed job0); [done|]. injection H as -> -> ->.
  unfold job_one in Hjob. destruct (scan_jobs d !! job_id) as [j1|] eqn:Ej; [|done].
  injection Hjob as ->. destruct (mem (x_state x) final_states) eqn:Hm; [by case_match|].
  destruct (_ && _); [done|]. destruct (bool_decide _); [done|]. simpl.
  rewrite (wf_job_key d Hwf _ _ Ej). destruct (decide (job_id = k)) as [->|Hne];
    [|by rewrite lookup_insert_ne]. exfalso. rewrite Hj in Ej. injection Ej as <-.
  destruct (wf_attempt d Hwf _ _ Hx) as (j' & Hj' & Ha). rewrite Hj in Hj'. injection Hj' as <-.
  destruct Ha as [(Hs%mem_spec & _)|[_ Hr]]; [congruence|].
  by apply finished_not_pending in Hf as [_ ?].
Qed.

(** The row [j'] is [j], a result's assessment apart. *)
Definition same_outcome (j j' : ScanJob) : Prop := j' = j_set_assessment (j_assessment j') j.

Lemma same_outcome_refl j : same_outcome j j.
Proof. by destruct j. Qed.

(** What the finished job [k] is after a step. *)
Definition kept (k : string) (j : ScanJob) (d' : db) : Prop :=
  scan_jobs d' !! k = None ∨ ∃ j', scan_jobs d' !! k = Some j' ∧ same_outcome j j'.

Lemma kept_same k j d' : scan_jobs d' !! k = Some j → kept k j d'.
Proof. right. exists j. split; [done|apply same_outcome_refl]. Qed.

Lemma job_step_finished d d' k j :
  jobs_wf d → job_step d d' → scan_jobs d !! k = Some j → finished j →
  kept k j d'.
Proof.
  intros [Hwf Hb] Hstep Hj Hf. pose proof (finished_not_pending j Hf) as [Hnp Hnr].
  assert (Hlog : ∀ i t u a r rid p d0, scan_jobs (log_action i t u a r rid p d0) = scan_jobs d0) by done.
  destruct Hstep.
  - apply kept_same. repeat apply rbind_ok in H0 as (? & ? & H0). injection H0 as _ <-. simpl.
    rewrite lookup_insert_ne; [done|]. congruence.
  - apply kept_same. apply create_pipeline_effect in H0 as [configs ->]. rewrite add_stages_lookup; [done|].
    intros Hk. specialize (H k Hk). congruence.
  - apply kept_same. rewrite get_pending_jobs_effect. unfold queue_effect.
    assert (Hp : ∀ i, i ∈ pending_jobs u d → j_id i ≠ k).
    { intros i (Hi & Hs & _)%elem_of_pending_jobs; [|done]. intros <-. congruence. }
    rewrite !fail_all_lookup; [done|done|]. intros i [Hi _]%elem_of_rows. by apply Hp.
  - apply kept_same. by eapply update_job_finished.
  - apply kept_same. apply claim_job_facts in H0 as (pending & row & e & snap & _ & _ & _ & _ & Hrow & ex & Hw & _).
    apply claimable_spec in Hrow as ([Hrow _]%visible_job_spec & Hs & _).
    apply claim_write_spec in Hw as (e' & _ & -> & _). rewrite (wf_job_key d Hwf _ _ Hrow).
    rewrite lookup_insert_ne; [done|]. intros ->. congruence.
  - apply kept_same. repeat apply rbind_ok in H as (? & ? & H). destruct (managed _); [done|]. by injection H as _ <-.
  - apply kept_same. by apply finish_execution_finished.
  - apply kept_same. unfold create_job_event in H. destruct (visible_job _ _ _); [|done].
    apply rbind_ok in H as (? & _ & H). by injection H as _ <-.
  - repeat apply rbind_ok in H as (? & ? & H). injection H as _ <-. simpl.
    destruct (decide (job_id = k)) as [->|Hne]; [left; apply lookup_delete_eq|].
    apply kept_same. simpl. by rewrite lookup_delete_ne.
  - apply upload_effect in H as [-> |(job & a & Ejob & Hjobs & _)]; [by apply kept_same| |done].
    destruct (decide (job_id = k)) as [->|Hne].
    + right. exists (j_set_assessment a job). rewrite Hjobs, lookup_insert_eq. split; [done|].
      rewrite Hj in Ejob. by injection Ejob as ->.
    + apply kept_same. by rewrite Hjobs, lookup_insert_ne.
  - apply kept_same. repeat apply rbind_ok in H as (? & ? & H). by injection H as _ <-.
  - apply kept_same. repeat apply rbind_ok in H as (? & ? & H). by injection H as _ <-.
  - apply kept_same. repeat apply rbind_ok in H0 as (? & ? & H0). by injection H0 as _ <-.
  - apply kept_same. repeat apply rbind_ok in H as (? & ? & H). by injection H as _ <-.
  - apply kept_same. repeat apply rbind_ok in H as (? & ? & H). by injection H as _ <-.
  - repeat apply rbind_ok in H as (? & ? & H). injection H as _ <-. unfold kept. simpl.
    destruct (filter _ (scan_jobs d) !! k) as [j'|] eqn:E; [right|by left].
    exists j'. split; [done|]. apply map_lookup_filter_Some in E as [E _].
    replace j' with j by congruence. apply same_outcome_refl.
  - by apply kept_same.
  - apply kept_same. congruence.
Qed.


(** C4. One claim wins: whoever succeeds found the job pending, leaves it running
    with the owner it asked for, and from there every other claim, whatever it
    read before, is refused. *)
Theorem one_claim_wins job_id u auth token body now before d r d' :
  attempts_wf d → claim_job job_id u auth token body now before d = Ok (r, d') →
  (∃ j, scan_jobs d !! job_id = Some j ∧ j_status j = "pending") ∧
  (∃ j, scan_jobs d' !! job_id = Some j ∧ j_status j = "running" ∧ j_started_at j = Some now) ∧
  (is_Some body ↔ ∃ x, job_executions d' !! job_id = Some x ∧ x_owner x = cu_github_id u) ∧
  ∀ u2 auth2 token2 body2 now2 before2 r2,
    claim_job job_id u2 auth2 token2 body2 now2 before2 d' ≠ Ok r2.
Proof.
  intros Hwf (pending & row & e & snap & _ & _ & _ & _ & Hrow & ex & Hw & _)%claim_job_facts.
  apply claimable_spec in Hrow as ([Hrow _]%visible_job_spec & Hs & _).
  apply claim_write_spec in Hw as (e' & _ & Hj' & _ & Hx').
  rewrite (wf_job_key d Hwf _ _ Hrow) in Hj'.
  assert (Hrun : scan_jobs d' !! job_id = Some (claimed_job now snap row))
    by (rewrite Hj'; apply lookup_insert_eq).
  split_and!; [by exists row|by eexists| |].
  - pose proof (pending_no_owner d _ _ Hwf Hrow Hs) as Hnone.
    destruct Hx' as [(-> & _ & Hx')|(b & x & -> & _ & Hx' & _ & _ & Ho & _)]; rewrite Hx'.
    + split; [by intros []|]. intros (x & Hx & _). congruence.
    + split; [|done]. intros _. exists x. by rewrite lookup_insert_eq.
  - intros u2 auth2 token2 body2 now2 before2 [r2 d2]
      (p2 & row2 & e2 & s2 & _ & _ & _ & _ & Hrow2 & _)%claim_job_facts.
    apply claimable_spec in Hrow2 as ([Hrow2 _]%visible_job_spec & Hs2 & _).
    rewrite Hrun in Hrow2. injection Hrow2 as <-. done.
Qed.

(** Tenancy: for a caller who cannot reach the job's engagement every job
    endpoint answers 404, exactly as for a job that does not exist, and
    changes nothing. *)
Theorem invisible_job_is_404 job_id u d :
  visible_job job_id u d = None →
  (∀ body now, update_job job_id body now u d = not_found) ∧
  (∀ auth token body now, claim_job job_id u auth token body now d d = not_found) ∧
  (∀ now, execution_status job_id now u d = not_found) ∧
  (∀ body auth now, refresh_execution job_id body auth now u d = not_found) ∧
  (∀ body auth now, finish_execution job_id body auth now u d = (not_found, d)) ∧
  (∀ i now kind text, create_job_event i now job_id kind text u d = not_found) ∧
  (∀ limit offset, get_job_events job_id limit offset u d = not_found) ∧
  (∀ l now, cu_scope u ≠ "runner" → delete_job l now job_id u d = not_found).
Proof.
  intros Hv. assert (Hl : lock_job d job_id u = not_found) by (unfold lock_job; by rewrite Hv).
  assert (Ho : ∀ auth body, owned d job_id u auth body = not_found).
  { intros. unfold owned. by rewrite Hl. }
  split_and!; intros.
  - unfold update_job. by rewrite Hl.
  - unfold claim_job, claimable, claim_lost. by rewrite Hv.
  - unfold execution_status. by rewrite Hv.
  - unfold refresh_execution. by rewrite Ho.
  - unfold finish_execution. by rewrite Ho.
  - unfold create_job_event. by rewrite Hv.
  - unfold get_job_events. by rewrite Hv.
  - unfold delete_job, require_full_scope. destruct (String.eqb_spec (cu_scope u) "runner"); [done|].
    simpl. by rewrite Hl.
Qed.

Lemma viewer_not_writable j e u d :
  engagements d !! j_program_id j = Some e →
  engagement_access e (cu_github_id u) d = Some "viewer" → ∀ e', _writable_engagement j u d ≠ Ok e'.
Proof.
  intros He Hv e'. unfold _writable_engagement, get_engagement_or_404. rewrite He, Hv. simpl.
  unfold require_member_write. by rewrite Hv.
Qed.

(** A viewer reads jobs and changes none: every endpoint that would change
    one is refused. *)
Theorem viewer_changes_no_job job_id u d j e :
  scan_jobs d !! job_id = Some j → engagements d !! j_program_id j = Some e →
  engagement_access e (cu_github_id u) d = Some "viewer" →
  (∀ body now r, update_job job_id body now u d ≠ Ok r) ∧
  (∀ auth token body now r, claim_job job_id u auth token body now d d ≠ Ok r) ∧
  (∀ body auth now r, refresh_execution job_id body auth now u d ≠ Ok r) ∧
  (∀ body auth now, (finish_execution job_id body auth now u d).2 = d) ∧
  (∀ i now kind text r, create_job_event i now job_id kind text u d ≠ Ok r) ∧
  (∀ l now r, delete_job l now job_id u d ≠ Ok r).
Proof.
  intros Hj He Hv. pose proof (viewer_not_writable j e u d He Hv) as Hw.
  assert (Hvis : ∀ j', visible_job job_id u d = Some j' → j' = j).
  { intros j' [Hj' _]%visible_job_spec. congruence. }
  split_and!.
  - intros body now r H. apply rbind_ok in H as (j' & Hj'%lock_job_lookup & H).
    apply rbind_ok in H as ([] & _ & H). apply rbind_ok in H as (e' & He' & _).
    rewrite Hj in Hj'. injection Hj' as <-. by apply Hw in He'.
  - intros auth token body now [r d'] (p & row & e' & s & Hp & Hwr & _)%claim_job_facts.
    apply Hvis in Hp as ->. destruct (_writable_engagement j u d) as [e0|] eqn:Ew; [by destruct (Hw e0)|done].
  - intros body auth now r H. apply rbind_ok in H as (x & _ & H).
    apply rbind_ok in H as (j' & Hj' & H). apply rbind_ok in H as (e' & He' & _).
    unfold job_one in Hj'. rewrite Hj in Hj'. injection Hj' as <-. by apply Hw in He'.
  - intros body auth now. unfold finish_execution. destruct (rbind _ _) as [[[x j'] e']|] eqn:H; [|done].
    apply rbind_ok in H as (x' & _ & H). apply rbind_ok in H as (j'' & Hj' & H).
    apply rbind_ok in H as (e'' & He' & _). unfold job_one in Hj'. rewrite Hj in Hj'.
    injection Hj' as <-. by apply Hw in He'.
  - intros i now kind text r. unfold create_job_event.
    destruct (visible_job job_id u d) as [j'|]; [|done]. rewrite (Hvis j' eq_refl).
    intros (e' & He' & _)%rbind_ok. by apply Hw in He'.
  - intros l now r H. apply rbind_ok in H as (u' & ->%require_full_scope_ok & H).
    apply rbind_ok in H as (j' & Hj'%lock_job_lookup & H). apply rbind_ok in H as ([] & _ & H).
    apply rbind_ok in H as (e' & He' & _). rewrite Hj in Hj'. injection Hj' as <-. by apply Hw in He'.
Qed.

(** What a finish that turned the job to done was checked against. *)
Lemma finish_completed job_id body auth now u d j j' :
  scan_jobs d !! job_id = Some j → j_id j = job_id →
  scan_jobs (finish_execution job_id body auth now u d).2 !! job_id = Some j' →
  j_status j ≠ "done" → j_status j' = "done" →
  ∃ x e, owned d job_id u auth (fc_request body) = Ok x ∧ engagements d !! j_program_id j = Some e ∧
    fc_outcome body = Completed ∧ x_state x = "active" ∧ now < x_expires_at x ∧
    e_stop_work_at e = None ∧ managed j = false.
Proof.
  intros Hj Hid Hj' Hnd Hd. unfold finish_execution in Hj'.
  destruct (rbind _ _) as [[[x job] e]|] eqn:H; [|simpl in Hj'; congruence].
  apply rbind_ok in H as (x0 & Hx & H).
  apply rbind_ok in H as (job0 & Hjob & H). apply rbind_ok in H as (e0 & He & H).
  destruct (managed job0) eqn:Hm; [done|]. injection H as -> -> ->.
  unfold job_one in Hjob. rewrite Hj in Hjob. injection Hjob as ->.
  apply rbind_ok in He as (e1 & [He _]%get_engagement_spec & Hw).
  apply rbind_ok in Hw as ([] & _ & [= ->]).
  destruct (mem (x_state x) final_states); [case_match; simpl in Hj'; congruence|].
  destruct (bool_decide (fc_outcome body = Completed)) eqn:Eo; simpl in Hj'.
  - destruct (_ || _ || _) eqn:Eb; simpl in Hj'; [congruence|]. bool_simpl. exists x, e.
    split_and!; try done. by apply eq_None_not_Some.
  - destruct (bool_decide (fc_outcome body = Uncertain)); simpl in Hj'; [congruence|].
    rewrite Hid, lookup_insert_eq in Hj'. injection Hj' as <-. simpl in Hd. by rewrite Eo in Hd.
Qed.

(** A job completes only in the hands of its owner, on a live lease, with the
    brake off: otherwise the completion is refused. *)
Theorem completion_needs_live_lease job_id body auth now u d j j' :
  attempts_wf d → scan_jobs d !! job_id = Some j →
  scan_jobs (finish_execution job_id body auth now u d).2 !! job_id = Some j' →
  j_status j ≠ "done" → j_status j' = "done" →
  ∃ x e, owned d job_id u auth (fc_request body) = Ok x ∧ engagements d !! j_program_id j = Some e ∧
    fc_outcome body = Completed ∧ x_state x = "active" ∧ now < x_expires_at x ∧
    e_stop_work_at e = None ∧ managed j = false.
Proof. intros Hwf Hj. apply finish_completed; [done|by apply Hwf]. Qed.


(** ** The pending queue *)

Definition parent_done (d : db) (j : ScanJob) : Prop :=
  match j_depends_on j with
  | None | Some "" => True
  | Some p => ∃ pj, scan_jobs d !! p = Some pj ∧ j_status pj = "done"
  end.

Lemma dependency_met_spec d j : dependency_met d j = true → parent_done d j.
Proof.
  unfold dependency_met, dependency_verdict, parent_done.
  destruct (j_depends_on j) as [[|c s]|]; [done| |done].
  destruct (scan_jobs d !! String c s) as [pj|]; simpl; [|done]. intros Hs. bool_simpl. eauto.
Qed.

Lemma fail_all_fails now message l d j m :
  j ∈ l → (∀ i, i ∈ l → j_id i = j_id j → i = j) → message j = Some m →
  scan_jobs (fail_all now message l d) !! j_id j = Some (fail_job now m j).
Proof.
  revert d. induction l as [|i l IH]; intros d Hj Huniq Hm; [set_solver|]. simpl.
  destruct (decide (j ∈ l)) as [Hin|Hnin].
  { apply IH; [done| |done]. intros x Hx. apply Huniq. by right. }
  assert (i = j) as -> by set_solver. rewrite fail_all_lookup.
  - rewrite Hm. simpl. apply lookup_insert_eq.
  - intros x Hx Heq. destruct Hnin. rewrite <-(Huniq x); [done|by right|done].
Qed.

(** What the runner is handed is pending, in an engagement the caller reaches,
    has nothing left to wait for, and a Gate job comes with its stored spec. *)
Theorem queue_hands_over_ready now u d out d' item :
  attempts_wf d → get_pending_jobs now u d = (out, d') → item ∈ out →
  ∃ j spec, item = _serialize_with_spec (j, spec) ∧ scan_jobs d !! j_id j = Some j ∧
    j_status j = "pending" ∧ j_program_id j ∈ accessible_engagement_ids (cu_github_id u) d ∧
    parent_done d j ∧
    (j_tool_type j = _VARDRGATE → ∃ case, spec = Some (tc_spec case) ∧
       find_case (j_program_id j) (job_case_id j) d = Some case).
Proof.
  intros Hwf. unfold get_pending_jobs, _filter_by_dependencies, _resolve_test_cases.
  intros [= <- _] (js & -> & Hin)%list_elem_of_fmap.
  apply list_elem_of_fmap in Hin as (j & -> & [Hin Hc]%elem_of_rows).
  apply elem_of_rows in Hin as [Hin Hdep]. apply elem_of_pending_jobs in Hin as (Hj & Hs & Ha); [|done].
  set (d1 := fail_all _ _ _ _) in *.
  assert (Hfind : ∀ p id, find_case p id d1 = find_case p id d).
  { intros p id. unfold find_case, d1. by rewrite fail_all_test_cases. }
  eexists j, _. split; [reflexivity|]. split_and!; [done|done|done|by apply dependency_met_spec|].
  intros Ht. rewrite Ht. simpl. unfold case_missing in Hc. rewrite Ht in Hc. simpl in Hc.
  unfold job_spec in *. destruct (String.eqb (job_case_id j) ""); [done|].
  destruct (find_case _ _ d1) as [case|] eqn:Ef; [|done]. rewrite Hfind in Ef.
  destruct (truthy _); [|done]. eauto.
Qed.

(** C39. Reading the queue never leaves a job waiting for a parent that failed or
    is gone: it fails it there and then. *)
Theorem queue_fails_orphans now u d k j p :
  attempts_wf d → scan_jobs d !! k = Some j → j_status j = "pending" →
  j_program_id j ∈ accessible_engagement_ids (cu_github_id u) d →
  j_depends_on j = Some p → p ≠ "" →
  (scan_jobs d !! p = None ∨ ∃ pj, scan_jobs d !! p = Some pj ∧ j_status pj = "failed") →
  ∃ j', scan_jobs (get_pending_jobs now u d).2 !! k = Some j' ∧
    j_status j' = "failed" ∧ j_completed_at j' = Some now.
Proof.
  intros Hwf Hj Hs Ha Hdep Hp Hparent. pose proof (wf_job_key d Hwf _ _ Hj) as <-.
  assert (Hin : j ∈ pending_jobs u d).
  { unfold pending_jobs. rewrite merge_sort_Permutation. apply elem_of_rows. split.
    - apply list_elem_of_fmap. exists (j_id j, j). by rewrite elem_of_map_to_list.
    - by rewrite bool_decide_eq_true_2, Hs. }
  assert (Huniq : ∀ i, i ∈ pending_jobs u d → j_id i = j_id j → i = j).
  { intros i (Hi & _)%elem_of_pending_jobs Heq; [|done]. congruence. }
  assert (∃ m, dependency_failure d j = Some m ∧ dependency_met d j = false) as (m & Hm & Hmet).
  { unfold dependency_failure, dependency_met, dependency_verdict. rewrite Hdep.
    destruct p as [|c p]; [done|]. destruct Hparent as [->|(pj & -> & Hf)]; simpl; [eauto|].
    rewrite Hf. simpl. eauto. }
  rewrite get_pending_jobs_effect. unfold queue_effect. exists (fail_job now m j).
  rewrite fail_all_lookup; [by rewrite (fail_all_fails now _ _ _ j m)|].
  intros i [Hi Hdi]%elem_of_rows Heq. apply Huniq in Hi; [|done]. congruence.
Qed.

(** A test-case id with blanks around it is accepted at queue time, where it
    is stripped, and unknown at hand-off, where it is not: the job is queued
    and then failed. *)
Definition padded_db : db :=
  set_test_cases [MkAuthorizationTestCase "tc-1" "eng-1" "alice" "Owner only" "case-1" None
                    (JObj [("id", JStr "case-1")]) 0 None]
    (set_engagement demo_engagement empty_db).
Theorem padded_case_id_queued_then_failed :
  let alice := UserCtx "alice" "" "" "full" None in
  ∃ r d', create_job "job-1" "log-1" 5 "eng-1"
            (MkJobCreate _VARDRGATE "scope" (Some [("test_case_id", JStr " tc-1 ")]) None false)
            alice padded_db = Ok (r, d') ∧
    (j_status <$> scan_jobs d' !! "job-1") = Some "pending" ∧
    (get_pending_jobs 6 alice d').1 = [] ∧
    (j_status <$> scan_jobs (get_pending_jobs 6 alice d').2 !! "job-1") = Some "failed".
Proof.
  cbv zeta. eexists _, _. split; [vm_compute; reflexivity|].
  split; [|split]; vm_compute; reflexivity.
Qed.

(** ** A concrete run

    Alice sets a concurrency limit, queues a job and claims it as owner. *)

Definition state_of {A} (m : result (A * db)) : db := match m with Ok (_, d) => d | Raise _ => empty_db end.
Lemma state_of_ok {A} (m : result (A * db)) : is_ok m = true → ∃ a, m = Ok (a, state_of m).
Proof. destruct m as [[a d]|]; [by exists a|done]. Qed.

Definition alice : user_ctx := UserCtx "alice" "" "" "full" None.
Definition runner_claim : ClaimControl :=
  MkClaimControl "11111111-1111-1111-1111-111111111111" "https://map.example" true None None.
Definition runner_request : ControlRequest := MkControlRequest runner_claim "token".
Definition demo1 : db := set_engagement demo_engagement empty_db.
Definition demo2 : db := state_of (configure_concurrency "l1" 1 "eng-1" (Some 1) alice demo1).
Definition queue_job (d : db) : result (dict * list warning * db) :=
  create_job "job-1" "l2" 2 "eng-1" (MkJobCreate "httpx" "scope" None None false) alice d.
Definition demo3 : db := state_of (queue_job demo2).
Definition claim_it (d : db) : result (ClaimResult * db) :=
  claim_job "job-1" alice "Bearer vmap_abc" "token" (Some runner_claim) 3 d d.
Definition demo4 : db := state_of (claim_it demo3).

Lemma demo3_reachable : rtc job_step empty_db demo3.
Proof.
  destruct (state_of_ok (configure_concurrency "l1" 1 "eng-1" (Some 1) alice demo1)) as [r2 H2];
    [vm_compute; reflexivity|].
  destruct (state_of_ok (queue_job demo2)) as [r3 H3]; [vm_compute; reflexivity|].
  eapply rtc_l; [|eapply rtc_l; [|apply rtc_once]].
  - apply (step_new_engagement empty_db demo_engagement); [done| |done].
    intros k j Hj. simpl in Hj. by rewrite lookup_empty in Hj.
  - eapply step_concurrency; [|exact H2]. intros z [= <-]. lia.
  - eapply step_create; [|exact H3]. vm_compute. reflexivity.
Qed.

Lemma demo4_reachable : rtc job_step empty_db demo4.
Proof.
  eapply rtc_r; [exact demo3_reachable|].
  destruct (state_of_ok (claim_it demo3)) as [r H]; [vm_compute; reflexivity|].
  eapply step_claim, H. intros j j' Hj Hj'. congruence.
Qed.

Lemma demo3_wf : attempts_wf demo3.
Proof. apply reachable_wf, demo3_reachable. Qed.
Lemma demo4_wf : attempts_wf demo4.
Proof. apply reachable_wf, demo4_reachable. Qed.

(** [k] is bound, and [f] of its value computes to [v]. *)
Lemma lookup_computes {A B} (m : gmap string A) k (f : A → B) v :
  f <$> m !! k = Some v → ∃ a, m !! k = Some a ∧ f a = v.
Proof. by intros (a & -> & ->)%fmap_Some; eauto. Qed.

Lemma demo4_engagement : ∃ e, engagements demo4 !! "eng-1" = Some e ∧
  (e_concurrency_limit e, e_stop_work_at e) = (Some 1, None).
Proof. apply lookup_computes. vm_compute. reflexivity. Qed.
Lemma demo4_job : ∃ j, scan_jobs demo4 !! "job-1" = Some j ∧
  (j_status j, j_program_id j) = ("running", "eng-1").
Proof. apply lookup_computes. vm_compute. reflexivity. Qed.
Lemma demo3_job : ∃ j, scan_jobs demo3 !! "job-1" = Some j ∧
  (j_status j, j_program_id j, j_depends_on j) = ("pending", "eng-1", None).
Proof. apply lookup_computes. vm_compute. reflexivity. Qed.

Lemma budgets_never_overdrawn_witness :
  ∃ e, engagements demo4 !! "eng-1" = Some e ∧ within (e_concurrency_limit e) (reserved demo4 "eng-1") ∧
    reserved demo4 "eng-1" = 1.
Proof.
  destruct demo4_engagement as (e & He & _). exists e. split; [exact He|].
  split; [apply (budgets_never_overdrawn demo4 "eng-1" e demo4_reachable He)|vm_compute; reflexivity].
Defined.

Lemma attempts_in_step_witness : ∃ j, scan_jobs demo4 !! "job-1" = Some j.
Proof.
  destruct (lookup_computes (job_executions demo4) "job-1" x_state "active") as (x & Hx & _);
    [vm_compute; reflexivity|].
  destruct (attempts_in_step demo4 "job-1" x demo4_reachable Hx) as (j & Hj & _). exists j. exact Hj.
Defined.

Definition finish_it (o : outcome) (now : time) (d : db) : result string * db :=
  finish_execution "job-1" (MkFinishControl runner_request o) "Bearer vmap_abc" now alice d.
Definition demo5 : db := (finish_it Failed 4 demo4).2.


Lemma one_claim_wins_witness :
  ∃ r, claim_it demo3 = Ok (r, demo4) ∧ ∀ r2, claim_it demo4 ≠ Ok r2.
Proof.
  destruct (state_of_ok (claim_it demo3)) as [r H]; [vm_compute; reflexivity|].
  exists r. split; [exact H|]. intros r2.
  apply (one_claim_wins _ _ _ _ _ _ _ _ _ _ demo3_wf H).
Defined.

Lemma invisible_job_is_404_witness :
  claim_job "job-1" (UserCtx "mallory" "" "" "full" None) "" "" None 5 demo3 demo3 = not_found.
Proof.
  apply (invisible_job_is_404 "job-1" (UserCtx "mallory" "" "" "full" None) demo3).
  vm_compute. reflexivity.
Defined.

Definition with_viewer (d : db) : db :=
  set_program_members [MkEngagementMember "m1" "eng-1" "alice" "bob" "viewer" 0] d.
Lemma viewer_changes_no_job_witness :
  ∃ j, scan_jobs (with_viewer demo3) !! "job-1" = Some j ∧
    ∀ r, claim_job "job-1" (UserCtx "bob" "" "" "full" None) "" "" None 5
           (with_viewer demo3) (with_viewer demo3) ≠ Ok r.
Proof.
  destruct (lookup_computes (scan_jobs (with_viewer demo3)) "job-1" j_program_id "eng-1")
    as (j & Hj & Hp); [vm_compute; reflexivity|].
  destruct (lookup_computes (engagements (with_viewer demo3)) "eng-1"
    (λ e, engagement_access e "bob" (with_viewer demo3)) (Some "viewer")) as (e & He & Hv);
    [vm_compute; reflexivity|].
  exists j. split; [exact Hj|].
  apply (viewer_changes_no_job "job-1" (UserCtx "bob" "" "" "full" None) (with_viewer demo3) j e);
    [exact Hj|by rewrite Hp|exact Hv].
Defined.

Lemma completion_needs_live_lease_witness :
  ∃ x, owned demo4 "job-1" alice "Bearer vmap_abc" runner_request = Ok x ∧ 4 < x_expires_at x.
Proof.
  destruct demo4_job as (j & Hj & [= Hs Hp]).
  destruct (lookup_computes (scan_jobs (finish_it Completed 4 demo4).2) "job-1" j_status "done")
    as (j' & Hj' & Hs'); [vm_compute; reflexivity|].
  destruct (completion_needs_live_lease "job-1" (MkFinishControl runner_request Completed)
    "Bearer vmap_abc" 4 alice demo4 j j' demo4_wf Hj Hj') as (x & e & Hx & _ & _ & _ & Hlt & _);
    [rewrite Hs; discriminate|exact Hs'|]. exists x. split; [exact Hx|exact Hlt].
Defined.

Definition demo_stopped : db := state_of (engage_stop_work "l3" 4 "eng-1" "incident" alice demo3).

Lemma queue_hands_over_ready_witness :
  ∃ j spec, _serialize_with_spec (j, spec) ∈ (get_pending_jobs 5 alice demo3).1 ∧ j_status j = "pending".
Proof.
  destruct (get_pending_jobs 5 alice demo3) as [out d'] eqn:E.
  assert (Hout : length (get_pending_jobs 5 alice demo3).1 = 1%nat) by (vm_compute; reflexivity).
  rewrite E in Hout. destruct out as [|item out]; [discriminate Hout|].
  destruct (queue_hands_over_ready 5 alice demo3 (item :: out) d' item demo3_wf E) as
    (j & spec & Hi & _ & Hs & _); [left|]. exists j, spec. simpl. rewrite <-Hi. split; [left|exact Hs].
Defined.

Definition orphan_db : db :=
  set_job (new_job "job-2" "eng-1" "alice" "httpx" "scope" [] (Some "gone") false 2) demo3.
Lemma queue_fails_orphans_witness :
  ∃ j', scan_jobs (get_pending_jobs 5 alice orphan_db).2 !! "job-2" = Some j' ∧ j_status j' = "failed".
Proof.
  assert (Hwf : attempts_wf orphan_db).
  { apply set_job_wf; [apply reachable_wf, demo3_reachable|vm_compute; reflexivity|].
    intros j Hj. vm_compute in Hj. discriminate Hj. }
  destruct (queue_fails_orphans 5 alice orphan_db "job-2"
    (new_job "job-2" "eng-1" "alice" "httpx" "scope" [] (Some "gone") false 2) "gone" Hwf)
    as (j' & Hj' & Hs & _);
    [vm_compute; reflexivity|reflexivity| |reflexivity|done|left; vm_compute; reflexivity|].
  - refine (bool_decide_eq_true_1 _ _). vm_compute. reflexivity.
  - exists j'. split; [exact Hj'|exact Hs].
Defined.
