(* ===== verification/Wire.v ===== *)
(** * [managed_wire.py]: signed authorization documents

    The v1 wire boundary: canonical JSON and its digest, the field validators,
    timestamps, the parser with its bounds, and [ContractWire], which checks a
    human approval and issues the contract it covers.  Ed25519 is the
    cryptography package's and enters as the class [Ed25519]. *)
From S2P Require Import Prelude PyStr Json Digest JsonText Base64 Time Policy.
From Stdlib Require Import Ascii.

Definition refuse {A} (reason : string) : result A := Raise (WireRefused reason).

(** ** Canonical documents *)

(** [allow_nan=False] *)
Fixpoint finite_json (j : json) : bool :=
  match j with
  | JFloat f => match f_class f with Finite _ _ => true | _ => false end
  | JList l => forallb finite_json l
  | JObj d => forallb (λ kv, finite_json kv.2) d
  | _ => true
  end.

Definition canonical (value : json) : result string :=
  if finite_json value then Ok (json_dumps true value) else refuse "invalid_document".

Definition digest (value : json) : result string :=
  let? c := canonical value in Ok (sha256_hex c).

(** ** Field validators *)

Definition fields (value : json) (names : list string) : result dict :=
  match value with
  | JObj d =>
      check? require (forallb (λ k, bool_decide (k ∈ names)) (keys d)
                      && forallb (λ n, has_key n d) names) "invalid_fields" in
      Ok d
  | _ => refuse "invalid_fields"
  end.

Definition identifier_char (c : ascii) : bool :=
  in_range 48 57 c || in_range 65 90 c || in_range 97 122 c
  || Ascii.eqb c "_" || Ascii.eqb c "." || Ascii.eqb c ":" || Ascii.eqb c "-".

Definition identifier (value : json) : result string :=
  match value with
  | JStr s =>
      check? require ((1 <=? len s) && (len s <=? 128) && all_chars identifier_char s)
               "invalid_identifier" in
      Ok s
  | _ => refuse "invalid_identifier"
  end.

Definition int_of_json (v : json) : Z := match v with JInt z => z | _ => 0 end.

Definition max_safe_integer : Z := 9007199254740991.

Definition integer (value : json) (minimum maximum : Z) : result Z :=
  match value with
  | JInt z => check? require ((minimum <=? z) && (z <=? maximum)) "invalid_integer" in Ok z
  | _ => refuse "invalid_integer"
  end.

(** ** Timestamps *)

(** [s[i:i+n]] *)
Definition piece (i n : nat) (s : string) : string := take_string n (drop_string i s).

Definition stamp_shape (s : string) : bool :=
  (String.length s =? 20)%nat
  && all_chars is_decimal (piece 0 4 s) && String.eqb (piece 4 1 s) "-"
  && all_chars is_decimal (piece 5 2 s) && String.eqb (piece 7 1 s) "-"
  && all_chars is_decimal (piece 8 2 s) && String.eqb (piece 10 1 s) "T"
  && all_chars is_decimal (piece 11 2 s) && String.eqb (piece 13 1 s) ":"
  && all_chars is_decimal (piece 14 2 s) && String.eqb (piece 16 1 s) ":"
  && all_chars is_decimal (piece 17 2 s) && String.eqb (piece 19 1 s) "Z".

Definition part (s : string) (i n : nat) : Z := dec_value (piece i n s).

(** The instant a timestamp names, in microseconds; the result is aware. *)
Definition timestamp (value : json) : result time :=
  match value with
  | JStr s =>
      check? require (stamp_shape s) "invalid_time" in
      let y := part s 0 4 in
      let m := part s 5 2 in
      let d := part s 8 2 in
      check? require (valid_date y m d && (part s 11 2 <? 24) && (part s 14 2 <? 60) && (part s 17 2 <? 60))
               "invalid_time" in
      Ok (seconds (86400 * days_of_civil y m d + 3600 * part s 11 2 + 60 * part s 14 2 + part s 17 2))
  | _ => refuse "invalid_time"
  end.

(** [strftime] of an instant in UTC; [%Y] does not pad the year. *)
Definition stamp_time (t : time) : string :=
  let '(y, m, d) := civil_of_days (t / 86400000000) in
  let s := t mod 86400000000 / 1000000 in
  string_of_Z y +:+ "-" +:+ pad 2 m +:+ "-" +:+ pad 2 d +:+ "T" +:+ pad 2 (s / 3600) +:+ ":"
  +:+ pad 2 (s / 60 mod 60) +:+ ":" +:+ pad 2 (s mod 60) +:+ "Z".

Definition stamp (value : datetime) : result string :=
  match dt_tzinfo value with
  | Some _ => Ok (stamp_time (instant value))
  | None => refuse "trusted_clock_required"
  end.

(** ** Parsing *)

(** [data.decode()]: one or two bytes per character up to U+00FF. *)
Fixpoint utf8_decode (data : string) : loaded string :=
  let push c m := lbind m (λ s, Loaded (String c s)) in
  let continuation c := in_range 128 191 c in
  match data with
  | EmptyString => Loaded EmptyString
  | String c r =>
      if code c <? 128 then push c (utf8_decode r)
      else
        match r with
        | String c1 r1 =>
            if in_range 194 195 c && continuation c1
            then push (chr (Z.lor (Z.shiftl (Z.land (code c) 31) 6) (Z.land (code c1) 63))) (utf8_decode r1)
            else if in_range 196 244 c then Outside else Malformed
        | EmptyString => Malformed
        end
  end.

(** [depth(value)]: nesting beyond 32 levels. *)
Fixpoint shallow (levels : nat) (j : json) : bool :=
  match levels with
  | O => match j with JList [] | JObj [] => true | JList _ | JObj _ => false | _ => true end
  | S levels =>
      match j with
      | JList l => forallb (shallow levels) l
      | JObj d => forallb (λ kv, shallow levels kv.2) d
      | _ => true
      end
  end.

Section Parse.
Context (float_of : string → option pyfloat).
(** What becomes of a document with characters above U+00FF. *)
Context (outside : string → result json).

Definition parse (data : string) (maximum : Z) : result json :=
  check? require ((0 <? len data) && (len data <=? maximum)) "document_size" in
  match lbind (utf8_decode data) (json_loads true float_of) with
  | Malformed | TooLong => refuse "malformed_document"
  | Outside => outside data
  | Loaded value => check? require (shallow 32 value) "document_depth" in Ok value
  end.
End Parse.

Definition nul : string := str1 (chr 0).
Definition message (purpose data : string) : string :=
  "VardrSec.AuthorizationContract.v1" +:+ nul +:+ purpose +:+ nul +:+ data.

(** ** Ed25519 *)

(** Raw keys and signatures are byte strings.  The two laws are what the
    scheme promises to honest users; nothing below assumes unforgeability. *)
Class Ed25519 := {
  public_of : string → string;
  sign : string → string → string;
  verify : string → string → string → bool;
  verify_sign : ∀ key msg, verify (public_of key) msg (sign key msg) = true;
  sign_size : ∀ key msg, String.length (sign key msg) = 64%nat;
}.

Record OperatorAnchor := MkOperatorAnchor {
  oa_issuer_id : string;
  oa_key_id : string;
  oa_approver_id : string;
  oa_public_key : string;
  oa_revoked : bool;
}.

Record ContractWire := MkContractWire {
  cw_issuer_id : string;
  cw_key_id : string;
  cw_signer : string;
  cw_operators : list OperatorAnchor;
}.

Definition same_trust (a : OperatorAnchor) (issuer key : json) : bool :=
  py_eq (JStr (oa_issuer_id a)) issuer && py_eq (JStr (oa_key_id a)) key.

Definition envelope_format : string := "vardr.authorization-envelope/1".
Definition envelope_bytes : Z := 256 * 1024.

Section Contract.
Context `{Ed25519}.
Context (float_of : string → option pyfloat) (outside : string → result json).
#[local] Abbreviation parse := (parse float_of outside).

Fixpoint check_anchors (issuer_id key_id public : string) (operators : list OperatorAnchor) : result unit :=
  match operators with
  | [] => Ok tt
  | a :: rest =>
      let? _ := identifier (JStr (oa_issuer_id a)) in
      let? _ := identifier (JStr (oa_key_id a)) in
      let? _ := identifier (JStr (oa_approver_id a)) in
      check? require (String.eqb (oa_issuer_id a) issuer_id && negb (String.eqb (oa_key_id a) key_id)
                      && negb (String.eqb (oa_public_key a) public) && (len (oa_public_key a) =? 32))
               "separate_approval_key_required" in
      check_anchors issuer_id key_id public rest
  end.

(** [ContractWire(...)]; a private key is 32 bytes. *)
Definition new_wire (issuer_id key_id contract_key : string) (operators : list OperatorAnchor)
    : result ContractWire :=
  let? issuer_id := identifier (JStr issuer_id) in
  let? key_id := identifier (JStr key_id) in
  if negb (len contract_key =? 32) then Raise ValueError
  else
    check? require (negb (bool_decide (length operators = O))) "operator_trust_required" in
    check? require (bool_decide (NoDup (map (λ a, (oa_issuer_id a, oa_key_id a)) operators))) "duplicate_trust" in
    check? check_anchors issuer_id key_id (public_of contract_key) operators in
    Ok (MkContractWire issuer_id key_id contract_key operators).

(** [except (InvalidSignature, ValueError)], of which [WireRefused] is one. *)
Definition signature_valid (key : string) (data : string) (signature : json) : bool :=
  (len key =? 32) &&
  match signature with
  | JStr s => match unb64 s 64 with
              | Ok raw => verify key (message "approval" data) raw | Raise _ => false end
  | _ => false
  end.

Definition unb64_json (value : json) (maximum : Z) : result string :=
  match value with JStr s => unb64 s maximum | _ => refuse "invalid_base64" end.

(** The three windows, each looked up only when the one before holds. *)
Definition within_windows (payload context : json) (now : time) : result bool :=
  let? v := json_index "approved_at" payload in let? approved := timestamp v in
  if negb (approved <=? now) then Ok false
  else
    let? v := json_index "not_before" context in let? t := timestamp v in
    if negb (t <=? now) then Ok false
    else
      let? v := json_index "expires_at" context in let? t := timestamp v in
      if negb (now <? t) then Ok false
      else
        let? v := json_index "testing_start" context in let? t := timestamp v in
        if negb (t <=? now) then Ok false
        else
          let? v := json_index "testing_end" context in let? t := timestamp v in
          Ok (now <? t).

(** [context.get(...)] three times, as far as the conjunction goes. *)
Definition managed_mode (context : json) : result bool :=
  let? c := json_get "control" context in
  if negb (json_eqb c (JStr "managed_online")) then Ok false
  else
    let? m := json_get "mode" context in
    if negb (json_eqb m (JStr "strict")) then Ok false
    else let? e := json_get "exceptions" context in Ok (json_eqb e (JList [])).

Definition approval (wire : ContractWire) (envelope context : json) (owner : string) (now : datetime)
    : result dict :=
  let? env := fields envelope ["format"; "purpose"; "payload"; "signature"] in
  check? require (json_eqb (dget "format" env) (JStr envelope_format)
                  && json_eqb (dget "purpose" env) (JStr "approval")) "envelope_version_or_purpose" in
  let? data := unb64_json (dget "payload" env) envelope_bytes in
  let? document := parse data envelope_bytes in
  let? payload := fields document
    ["schema"; "issuer"; "origin"; "approval_id"; "approver_id"; "approved_at"; "context"] in
  let? issuer := fields (dget "issuer" payload) ["id"; "key_id"] in
  match List.find (λ a, same_trust a (dget "id" issuer) (dget "key_id" issuer)) (cw_operators wire) with
  | None => refuse "operator_not_trusted"
  | Some anchor =>
      check? require (negb (oa_revoked anchor)) "operator_not_trusted" in
      check? require (json_eqb (dget "schema" payload) (JStr "vardr.execution-approval/1")
                      && json_eqb (dget "origin" payload) (JStr "map")) "approval_schema_or_origin" in
      check? require (json_eqb (dget "approver_id" payload) (JStr (oa_approver_id anchor))
                      && String.eqb (oa_approver_id anchor) owner) "operator_owner_mismatch" in
      let? _ := identifier (dget "approval_id" payload) in
      check? require (signature_valid (oa_public_key anchor) data (dget "signature" env)) "invalid_signature" in
      let? signed := canonical (dget "context" payload) in
      let? current := canonical context in
      check? require (String.eqb signed current) "approval_context_changed" in
      let? managed := managed_mode context in
      check? require managed "unsupported_managed_mode" in
      let? s := stamp now in
      let? _ := timestamp (JStr s) in
      let? open := within_windows (JObj payload) context (instant now) in
      check? require open "approval_expired_or_not_yet_valid" in
      let? n := json_index "max_executions" context in
      let? _ := integer n 1 1000 in
      Ok payload
  end.

(** The fields of a contract, in the order the code evaluates them. *)
Definition contract_payload (wire : ContractWire) (approval_env context : json) (receipt : dict)
    (now : datetime) (contract_id attempt_id : string) (fence ordinal : Z) : result dict :=
  let? cid := identifier (JStr contract_id) in
  let? ah := digest approval_env in
  let? limit := json_index "max_executions" context in
  let? index := integer (JInt ordinal) 1 (int_of_json limit) in
  let? plan := json_index "plan_sha256" context in
  let? runner := json_index "runner_id" context in let? runner := identifier runner in
  let? engagement := json_index "engagement_id" context in let? engagement := identifier engagement in
  let? job := json_index "job_id" context in let? job := identifier job in
  let? attempt := identifier (JStr attempt_id) in
  let? fence := integer (JInt fence) 1 max_safe_integer in
  let? issued := stamp now in
  let? expires := json_index "expires_at" context in
  let? revision := json_index "authority_revision" context in
  let? revision := integer revision 0 max_safe_integer in
  Ok [("schema", JStr "vardr.authorization/1");
      ("issuer", JObj [("id", JStr (cw_issuer_id wire)); ("key_id", JStr (cw_key_id wire))]);
      ("origin", JStr "map"); ("contract_id", JStr cid); ("approval_sha256", JStr ah);
      ("approval_id", dget "approval_id" receipt); ("execution_index", JInt index); ("plan_sha256", plan);
      ("runner_id", JStr runner); ("engagement_id", JStr engagement); ("job_id", JStr job);
      ("attempt_id", JStr attempt); ("fence", JInt fence); ("issued_at", JStr issued);
      ("expires_at", expires); ("authority_revision", JInt revision)].

Definition issue (wire : ContractWire) (approval_env context : json) (owner : string) (now : datetime)
    (contract_id attempt_id : string) (fence ordinal : Z) : result json :=
  let? receipt := approval wire approval_env context owner now in
  let? payload := contract_payload wire approval_env context receipt now contract_id attempt_id fence ordinal in
  let? data := canonical (JObj payload) in
  check? require (len data <=? envelope_bytes) "document_size" in
  Ok (JObj [("format", JStr envelope_format); ("purpose", JStr "contract"); ("payload", JStr (b64 data));
            ("signature", JStr (b64 (sign (cw_signer wire) (message "contract" data))))]).
End Contract.

(** ** Timestamps are read back *)

Definition two_ok (z : Z) : bool :=
  match pad 2 z with
  | String a (String b EmptyString) => is_decimal a && is_decimal b && (dec_value (pad 2 z) =? z)
  | _ => false
  end.

Lemma two_digits z :
  0 <= z < 100 → ∃ a b, pad 2 z = String a (str1 b) ∧ is_decimal a = true ∧ is_decimal b = true
    ∧ dec_value (String a (str1 b)) = z.
Proof.
  intros Hz. assert (Hall : forallb two_ok (map Z.of_nat (seq 0 100)) = true) by (vm_compute; reflexivity).
  rewrite forallb_forall in Hall. specialize (Hall z). unfold two_ok in Hall.
  destruct (pad 2 z) as [|a [|b [|? ?]]] eqn:E; try (discriminate Hall; apply in_map_iff;
    exists (Z.to_nat z); split; [lia|]; apply in_seq; lia).
  exists a, b. split; [done|]. rewrite !andb_true_iff, Z.eqb_eq in Hall.
  destruct Hall as [[Ha Hb] Hv]; [|done]. apply in_map_iff. exists (Z.to_nat z). split; [lia|]. apply in_seq. lia.
Qed.

(** A year of four digits prints as them. *)
Lemma four_digits z :
  1000 <= z <= 9999 → ∃ a b c d, string_of_Z z = String a (String b (String c (str1 d)))
    ∧ is_decimal a = true ∧ is_decimal b = true ∧ is_decimal c = true ∧ is_decimal d = true
    ∧ dec_value (String a (String b (String c (str1 d)))) = z.
Proof.
  intros Hz. assert (Hs : string_of_Z z = string_of_pos z).
  { unfold string_of_Z. by rewrite (proj2 (Z.ltb_ge z 0)) by lia. }
  rewrite Hs. pose proof (string_of_pos_digits z ltac:(lia)) as Hd.
  pose proof (string_of_pos_value z ltac:(lia)) as Hv.
  assert (Hl : String.length (string_of_pos z) = 4%nat).
  { assert (Hlog : 9 <= Z.log2 z <= 13).
    { split; [by apply Z.log2_le_pow2; lia|]. apply Z.lt_succ_r. apply Z.log2_lt_pow2; lia. }
    unfold string_of_pos. destruct (Z.to_nat (Z.log2 z)) as [|[|[|n]]] eqn:En; [lia|lia|lia|].
    cbn [dec_of_Z_fuel]. rewrite (proj2 (Z.ltb_ge z 10)) by lia.
    rewrite (proj2 (Z.ltb_ge (z / 10) 10)) by (Z.to_euclidean_division_equations; lia).
    rewrite (proj2 (Z.ltb_ge (z / 10 / 10) 10)) by (Z.to_euclidean_division_equations; lia).
    rewrite (proj2 (Z.ltb_lt (z / 10 / 10 / 10) 10)) by (Z.to_euclidean_division_equations; lia). done. }
  destruct (string_of_pos z) as [|a [|b [|c [|d [|? ?]]]]]; try done. simpl in Hd. bool_simpl.
  by exists a, b, c, d.
Qed.

(** A moment in a four-digit year survives the wire: its stamp is read back
    as the same moment, its fraction of a second dropped. *)
Theorem timestamp_stamp t y m d :
  civil_of_days (t / 86400000000) = (y, m, d) → 1000 <= y <= 9999 →
  timestamp (JStr (stamp_time t)) = Ok (t - t mod 1000000).
Proof.
  intros Hciv Hy. unfold stamp_time. rewrite Hciv. apply civil_of_days_spec in Hciv as (Hdays & Hm & Hd).
  set (s := t mod 86400000000 / 1000000).
  assert (Hs : 0 <= s < 86400) by (unfold s; Z.to_euclidean_division_equations; lia).
  assert (Hd31 : days_in_month y m <= 31) by (unfold days_in_month; repeat case_match; lia).
  destruct (four_digits y Hy) as (y1 & y2 & y3 & y4 & -> & Hy1 & Hy2 & Hy3 & Hy4 & Hyv).
  destruct (two_digits m ltac:(lia)) as (m1 & m2 & -> & Hm1 & Hm2 & Hmv).
  destruct (two_digits d ltac:(lia)) as (d1 & d2 & -> & Hd1 & Hd2 & Hdv).
  assert (Hh : 0 <= s / 3600 < 24) by (Z.to_euclidean_division_equations; lia).
  assert (Hi : 0 <= s / 60 mod 60 < 60) by (apply Z.mod_pos_bound; lia).
  assert (Hc : 0 <= s mod 60 < 60) by (apply Z.mod_pos_bound; lia).
  destruct (two_digits (s / 3600) ltac:(lia)) as (h1 & h2 & -> & Hh1 & Hh2 & Hhv).
  destruct (two_digits (s / 60 mod 60) ltac:(lia)) as (i1 & i2 & -> & Hi1 & Hi2 & Hiv).
  destruct (two_digits (s mod 60) ltac:(lia)) as (c1 & c2 & -> & Hc1 & Hc2 & Hcv).
  set (text := String y1 _ +:+ _).
  assert (Htext : text = String y1 (String y2 (String y3 (String y4 (String "-" (String m1 (String m2
    (String "-" (String d1 (String d2 (String "T" (String h1 (String h2 (String ":" (String i1 (String i2
    (String ":" (String c1 (String c2 "Z"))))))))))))))))))) by done.
  clearbody text. subst text. unfold timestamp, part.
  assert (Hshape : stamp_shape (String y1 (String y2 (String y3 (String y4 (String "-" (String m1 (String m2
    (String "-" (String d1 (String d2 (String "T" (String h1 (String h2 (String ":" (String i1 (String i2
    (String ":" (String c1 (String c2 "Z"))))))))))))))))))) = true).
  { unfold stamp_shape, piece. simpl.
    by rewrite Hy1, Hy2, Hy3, Hy4, Hm1, Hm2, Hd1, Hd2, Hh1, Hh2, Hi1, Hi2, Hc1, Hc2. }
  rewrite Hshape. unfold piece. cbn [take_string drop_string require rbind]. unfold str1 in *.
  rewrite Hyv, Hmv, Hdv, Hhv, Hiv, Hcv, Hdays.
  assert (Hvalid : valid_date y m d && (s / 3600 <? 24) && (s / 60 mod 60 <? 60) && (s mod 60 <? 60) = true).
  { unfold valid_date. rewrite !andb_true_iff, !Z.leb_le, !Z.ltb_lt. lia. }
  rewrite Hvalid. cbn [require rbind]. f_equal. unfold seconds. unfold s.
  Z.to_euclidean_division_equations. lia.
Qed.

(** ** Canonical documents are read back *)

Lemma all_chars_join p sep l :
  all_chars p sep = true → Forall (λ s, all_chars p s = true) l → all_chars p (join sep l) = true.
Proof.
  intros Hsep. induction 1 as [|s l Hs Hl IH]; [done|]. destruct l as [|t l]; [done|].
  rewrite join_cons2, !all_chars_app, Hs, Hsep. simpl. exact IH.
Qed.

Lemma escape_ascii s : all_chars is_ascii (escape_all s) = true.
Proof.
  induction s as [|c s IH]; [done|]. cbn [escape_all]. rewrite all_chars_app, IH, andb_true_r.
  by destruct c as [[] [] [] [] [] [] [] []].
Qed.

Lemma json_string_ascii s : all_chars is_ascii (json_string s) = true.
Proof. unfold json_string. cbn [all_chars]. by rewrite all_chars_app, escape_ascii. Qed.

Lemma int_ascii z : all_chars is_ascii (string_of_Z z) = true.
Proof.
  assert (Hd : ∀ c, is_decimal c = true → is_ascii c = true).
  { intros c. unfold is_decimal, in_range, is_ascii. rewrite andb_true_iff, !Z.leb_le, Z.ltb_lt. lia. }
  unfold string_of_Z. destruct (Z.ltb_spec z 0); cbn [all_chars].
  - apply andb_true_iff. split; [done|]. eapply all_chars_impl; [exact Hd|]. apply string_of_pos_digits. lia.
  - eapply all_chars_impl; [exact Hd|]. by apply string_of_pos_digits.
Qed.

Lemma dumps_ascii j : plain_json j = true → all_chars is_ascii (json_dumps true j) = true.
Proof.
  induction j as [|b|z|f|s|l IH|d IH] using json_ind'; intros Hp; try done.
  - by destruct b.
  - apply int_ascii.
  - apply json_string_ascii.
  - cbn [json_dumps]. rewrite !all_chars_app. rewrite all_chars_join; [done|done|].
    apply Forall_fmap. simpl in Hp. rewrite forallb_forall in Hp. rewrite Forall_forall in *.
    intros x Hx. apply IH; [done|]. apply Hp. by apply list_elem_of_In.
  - cbn [plain_json json_dumps] in *. apply andb_true_iff in Hp as [_ Hp].
    rewrite !all_chars_app. rewrite all_chars_join; [done|done|].
    rewrite forallb_forall in Hp. rewrite Forall_forall in IH. rewrite Forall_forall. intros t (kv & -> & Hkv)%list_elem_of_fmap.
    rewrite elem_of_sorted in Hkv. apply list_elem_of_fmap in Hkv as (x & -> & Hx). cbn [fst snd].
    rewrite !all_chars_app, json_string_ascii, IH; [done|done|]. apply Hp. by apply list_elem_of_In.
Qed.

Lemma utf8_decode_ascii s : all_chars is_ascii s = true → utf8_decode s = Loaded s.
Proof.
  induction s as [|c s IH]; [done|]. cbn [all_chars]. intros [Hc Hs]%andb_true_iff. cbn [utf8_decode].
  unfold is_ascii in Hc. by rewrite Hc, IH.
Qed.

Lemma plain_finite j : plain_json j = true → finite_json j = true.
Proof.
  induction j as [|b|z|f|s|l IH|d IH] using json_ind'; intros Hp; try done; simpl in *.
  - rewrite forallb_forall in *. rewrite Forall_forall in IH. intros x Hx. apply IH; [by apply list_elem_of_In|auto].
  - apply andb_true_iff in Hp as [_ Hp]. rewrite forallb_forall in *. rewrite Forall_forall in IH.
    intros x Hx. apply IH; [by apply list_elem_of_In|auto].
Qed.

Lemma canonical_plain j : plain_json j = true → canonical j = Ok (json_dumps true j).
Proof. intros Hp%plain_finite. unfold canonical. by rewrite Hp. Qed.

Lemma shallow_canon n j : plain_json j = true → shallow n (canon j) = shallow n j.
Proof.
  revert n. induction j as [|b|z|f|s|l IH|d IH] using json_ind'; intros n Hp; try done.
  - destruct n as [|n]; [by destruct l|]. cbn [canon shallow]. simpl in Hp.
    induction IH as [|x l Hx _ IHl]; [done|]. simpl in *. bool_simpl. by rewrite Hx, IHl.
  - cbn [plain_json] in Hp. apply andb_true_iff in Hp as [_ Hp]. cbn [canon].
    pose proof (merge_sort_Permutation key_le (map (λ kv, (kv.1, canon kv.2)) d)) as Hperm.
    destruct n as [|n]; cbn [shallow].
    + destruct d as [|x d]; [done|]. destruct (merge_sort _ _) as [|y l] eqn:E; [|done].
      by apply Permutation_nil_l in Hperm.
    + assert (Hall : ∀ l1 l2 : list (string * json), l1 ≡ₚ l2 →
        forallb (λ kv, shallow n kv.2) l1 = forallb (λ kv, shallow n kv.2) l2).
      { induction 1 as [| |a b l|]; simpl; [done|congruence|by destruct (shallow n a.2), (shallow n b.2)|congruence]. }
      rewrite (Hall _ _ Hperm). clear Hperm Hall.
      induction IH as [|[k v] d Hv _ IHd]; [done|]. simpl in *. bool_simpl. by rewrite Hv, IHd.
Qed.

Lemma shallow_obj n d : shallow (S n) (JObj d) = forallb (λ kv, shallow n kv.2) d.
Proof. done. Qed.

Section Reading.
Context (float_of : string → option pyfloat) (outside : string → result json).

Lemma parse_canonical_plain j maximum :
  plain_json j = true → shallow 32 j = true → len (json_dumps true j) <= maximum →
  canonical j = Ok (json_dumps true j) ∧ parse float_of outside (json_dumps true j) maximum = Ok (canon j).
Proof.
  intros Hp Hs Hlen. split; [by apply canonical_plain|].
  unfold parse. rewrite utf8_decode_ascii by (by apply dumps_ascii). cbn [lbind].
  rewrite loads_canonical by done. rewrite shallow_canon, Hs by done.
  assert (0 < len (json_dumps true j)) as Hpos.
  { rewrite dumps_canon by done. pose proof (dumps_opens (canon j) (canon_plain j Hp)) as Ho.
    destruct (json_dumps false (canon j)); [done|]. unfold len. simpl. lia. }
  by rewrite (proj2 (Z.ltb_lt _ _) Hpos), (proj2 (Z.leb_le _ _) Hlen).
Qed.

(** A document without floats, within the bounds, that is written
    canonically is parsed as itself, with its keys in order; so two such
    documents have the same canonical bytes only when they are the same up to
    the order of keys. *)
Theorem parse_canonical j maximum :
  plain_json j = true → shallow 32 j = true → len (json_dumps true j) <= maximum →
  canonical j = Ok (json_dumps true j) ∧ parse float_of outside (json_dumps true j) maximum = Ok (canon j)
  ∧ ∀ j', plain_json j' = true → canonical j' = canonical j → canon j' = canon j.
Proof.
  intros Hp Hs Hlen. destruct (parse_canonical_plain j maximum Hp Hs Hlen) as [Hc Hparse].
  split; [done|]. split; [done|].
  intros j' Hp' Heq. rewrite !canonical_plain in Heq by done. injection Heq as Heq.
  pose proof (loads_canonical true float_of j' Hp') as H'. rewrite Heq, loads_canonical in H' by done.
  by injection H'.
Qed.
End Reading.

Lemma app_cancel_l (s a b : string) : s +:+ a = s +:+ b → a = b.
Proof. induction s as [|c s IH]; [done|]. rewrite !app_String_l. intros [= H]. auto. Qed.

(** Purposes never share a message: a signature over a contract is not one over
    an approval. *)
Lemma message_inj p1 d1 p2 d2 :
  all_chars (λ c, negb (Ascii.eqb c (chr 0))) p1 = true →
  all_chars (λ c, negb (Ascii.eqb c (chr 0))) p2 = true →
  message p1 d1 = message p2 d2 → p1 = p2 ∧ d1 = d2.
Proof.
  unfold message. intros H1 H2 Heq. apply app_cancel_l in Heq. unfold nul, str1 in Heq.
  rewrite !app_String_l, !app_empty_l in Heq. injection Heq as Heq.
  revert p2 H2 Heq. induction p1 as [|c p1 IH]; intros [|c2 p2] H2 Heq; simpl in H1, H2.
  - rewrite !app_empty_l in Heq. by injection Heq as ->.
  - exfalso. rewrite app_empty_l, app_String_l in Heq. injection Heq as <- _. by bool_simpl.
  - exfalso. rewrite app_empty_l, app_String_l in Heq. injection Heq as -> _. by bool_simpl.
  - rewrite !app_String_l in Heq. injection Heq as <- Heq. bool_simpl.
    by destruct (IH H2 p2 H0 Heq) as [-> ->].
Qed.

(** ** What an accepted approval shows *)

Lemma require_ok b reason x : require b reason = Ok x ↔ b = true.
Proof. unfold require. destruct b, x; naive_solver. Qed.

Lemma canonical_ok j c : canonical j = Ok c → finite_json j = true ∧ c = json_dumps true j.
Proof. unfold canonical. destruct (finite_json j); [|done]. by intros [= <-]. Qed.

Lemma json_index_ok k j v : json_index k j = Ok v → ∃ d, j = JObj d ∧ lookup_key k d = Some v.
Proof. unfold json_index. destruct j; try done. destruct (lookup_key k fields0) eqn:E; [|done]. intros [= <-]. eauto. Qed.

(** The five instants that bound an approval, as the moment [now] finds them. *)
Definition valid_at (payload context : json) (now : time) : Prop :=
  ∃ approved nb ex ts te va vb vc vd ve,
    json_index "approved_at" payload = Ok va ∧ timestamp va = Ok approved
    ∧ json_index "not_before" context = Ok vb ∧ timestamp vb = Ok nb
    ∧ json_index "expires_at" context = Ok vc ∧ timestamp vc = Ok ex
    ∧ json_index "testing_start" context = Ok vd ∧ timestamp vd = Ok ts
    ∧ json_index "testing_end" context = Ok ve ∧ timestamp ve = Ok te
    ∧ approved <= now ∧ nb <= now < ex ∧ ts <= now < te.

Lemma within_windows_ok payload context now :
  within_windows payload context now = Ok true ↔ valid_at payload context now.
Proof.
  split.
  - unfold within_windows. intros H.
    apply rbind_ok in H as (va & Ha & H). apply rbind_ok in H as (approved & Hta & H).
    destruct (negb (approved <=? now)) eqn:E1; [done|].
    apply rbind_ok in H as (vb & Hb & H). apply rbind_ok in H as (nb & Htb & H).
    destruct (negb (nb <=? now)) eqn:E2; [done|].
    apply rbind_ok in H as (vc & Hc & H). apply rbind_ok in H as (ex & Htc & H).
    destruct (negb (now <? ex)) eqn:E3; [done|].
    apply rbind_ok in H as (vd & Hd & H). apply rbind_ok in H as (ts & Htd & H).
    destruct (negb (ts <=? now)) eqn:E4; [done|].
    apply rbind_ok in H as (ve & He & H). apply rbind_ok in H as (te & Hte & [= H]).
    bool_simpl. exists approved, nb, ex, ts, te, va, vb, vc, vd, ve. split_and!; try done; lia.
  - intros (approved & nb & ex & ts & te & va & vb & vc & vd & ve & Ha & Hta & Hb & Htb & Hc & Htc & Hd & Htd
      & He & Hte & H1 & H2 & H3). unfold within_windows.
    rewrite Ha. simpl. rewrite Hta. simpl. rewrite (proj2 (Z.leb_le _ _) H1). simpl.
    rewrite Hb. simpl. rewrite Htb. simpl. rewrite (proj2 (Z.leb_le _ _) (proj1 H2)). simpl.
    rewrite Hc. simpl. rewrite Htc. simpl. rewrite (proj2 (Z.ltb_lt _ _) (proj2 H2)). simpl.
    rewrite Hd. simpl. rewrite Htd. simpl. rewrite (proj2 (Z.leb_le _ _) (proj1 H3)). simpl.
    rewrite He. simpl. rewrite Hte. simpl. by rewrite (proj2 (Z.ltb_lt _ _) (proj2 H3)).
Qed.

Section Approvals.
Context `{Ed25519}.
Context (float_of : string → option pyfloat) (outside : string → result json).
#[local] Abbreviation approval := (approval float_of outside).
#[local] Abbreviation parse := (parse float_of outside).

(** Everything an accepted approval has been checked for. *)
Record approved (wire : ContractWire) (envelope context : json) (owner : string) (now : datetime)
    (payload : dict) : Prop := {
  ap_signed : ∃ env anchor data signature raw,
    envelope = JObj env ∧ dget "payload" env = JStr (b64 data) ∧ dget "signature" env = JStr signature
    ∧ anchor ∈ cw_operators wire ∧ oa_revoked anchor = false ∧ oa_approver_id anchor = owner
    ∧ unb64 signature 64 = Ok raw
    ∧ verify (oa_public_key anchor) (message "approval" data) raw = true
    ∧ parse data envelope_bytes = Ok (JObj payload);
  ap_approver : dget "approver_id" payload = JStr owner;
  ap_context : ∃ c, canonical (dget "context" payload) = Ok c ∧ canonical context = Ok c;
  ap_id : ∃ i, dget "approval_id" payload = JStr i ∧ identifier (JStr i) = Ok i;
  ap_mode : managed_mode context = Ok true;
  ap_clock : is_Some (dt_tzinfo now);
  ap_windows : valid_at (JObj payload) context (instant now);
  ap_limit : ∃ n, json_index "max_executions" context = Ok (JInt n) ∧ 1 <= n <= 1000;
}.

Lemma fields_ok value names d : fields value names = Ok d → value = JObj d.
Proof. unfold fields. destruct value; try done. intros H0. by apply rbind_ok in H0 as ([] & _ & [= ->]). Qed.

Lemma identifier_ok v s : identifier v = Ok s → v = JStr s.
Proof. unfold identifier. destruct v; try done. intros H0. by apply rbind_ok in H0 as ([] & _ & [= ->]). Qed.

Lemma integer_ok v lo hi z : integer v lo hi = Ok z ↔ v = JInt z ∧ lo <= z <= hi.
Proof.
  unfold integer. split.
  - destruct v; try done. intros H0. apply rbind_ok in H0 as ([] & Hr%require_ok & [= ->]).
    bool_simpl. split; [done|lia].
  - intros [-> Hz]. apply rbind_ok. exists tt. split; [|done]. apply require_ok. bool_simpl.
    apply andb_true_iff. split; apply Z.leb_le; lia.
Qed.

Lemma unb64_json_ok v m data : unb64_json v m = Ok data → v = JStr (b64 data) ∧ len data <= m.
Proof. destruct v; try done. simpl. by intros [-> ?]%unb64_sound. Qed.

Lemma approval_sound wire envelope context owner now payload :
  approval wire envelope context owner now = Ok payload → approved wire envelope context owner now payload.
Proof.
  unfold Wire.approval. intros Ha. apply rbind_ok in Ha as (env & Henv%fields_ok & Ha).
  apply rbind_ok in Ha as ([] & _ & Ha). apply rbind_ok in Ha as (data & [Hdata _]%unb64_json_ok & Ha).
  apply rbind_ok in Ha as (document & Hdoc & Ha). apply rbind_ok in Ha as (pl & Hpl%fields_ok & Ha).
  apply rbind_ok in Ha as (issuer & _ & Ha).
  destruct (List.find _ _) as [anchor|] eqn:Ef; [|done]. apply List.find_some in Ef as [Hin _].
  apply rbind_ok in Ha as ([] & Hrev%require_ok & Ha). apply rbind_ok in Ha as ([] & _ & Ha).
  apply rbind_ok in Ha as ([] & Hown%require_ok & Ha). apply rbind_ok in Ha as (i & Hi & Ha).
  pose proof (identifier_ok _ _ Hi) as Hid. apply rbind_ok in Ha as ([] & Hsig%require_ok & Ha).
  apply rbind_ok in Ha as (signed & Hsigned & Ha). apply rbind_ok in Ha as (current & Hcur & Ha).
  apply rbind_ok in Ha as ([] & Hctx%require_ok & Ha). apply rbind_ok in Ha as (managed & Hman & Ha).
  apply rbind_ok in Ha as ([] & Hm%require_ok & Ha). apply rbind_ok in Ha as (s & Hs & Ha).
  apply rbind_ok in Ha as (t & _ & Ha). apply rbind_ok in Ha as (open & Hopen & Ha).
  apply rbind_ok in Ha as ([] & Ho%require_ok & Ha). apply rbind_ok in Ha as (n & Hn & Ha).
  apply rbind_ok in Ha as (limit & [-> Hlim]%integer_ok & [= <-]). bool_simpl. subst.
  apply json_eqb_eq in H0. split.
  - unfold signature_valid in Hsig. apply andb_true_iff in Hsig as [_ Hsig].
    destruct (dget "signature" env) as [| | | |sg| |] eqn:Esig; try done.
    destruct (unb64 sg 64) as [raw|] eqn:Eraw; [|done].
    exists env, anchor, data, sg, raw. split_and!; try done. by apply list_elem_of_In.
  - by rewrite H0.
  - exists current. done.
  - exists i. rewrite <-Hid. done.
  - done.
  - unfold stamp in Hs. by destruct (dt_tzinfo now).
  - by apply within_windows_ok.
  - eauto.
Qed.

(** An accepted approval was signed by an operator the wire trusts and has
    not revoked, for this owner, in managed mode, and now lies inside every
    window it names; and it covers one context only: whoever presents it again,
    at any time, with another context is refused. *)
Theorem approval_covers_one_context wire envelope context owner now payload :
  approval wire envelope context owner now = Ok payload →
  approved wire envelope context owner now payload ∧
  ∀ context' owner' now' payload', approval wire envelope context' owner' now' = Ok payload' →
    payload' = payload ∧ owner' = owner ∧ canonical context' = canonical context.
Proof.
  intros Ha%approval_sound. split; [done|]. intros context' owner' now' payload' Hb%approval_sound.
  destruct Ha as [(env & anchor & data & sg & raw & -> & Hd & _ & _ & _ & _ & _ & _ & Hp) Ho (c & Hc & Hc') _ _ _ _ _].
  destruct Hb as [(env' & ? & data' & ? & ? & [= <-] & Hd' & _ & _ & _ & _ & _ & _ & Hp') Ho' (c2 & Hc2 & Hc2') _ _ _ _ _].
  assert (data' = data) as ->.
  { rewrite Hd in Hd'. injection Hd' as Hd'. pose proof (decode_b64 data) as H1. rewrite Hd', decode_b64 in H1.
    injection H1 as H1. by rewrite <-(of_bytes_of data), <-H1, of_bytes_of. }
  rewrite Hp in Hp'. injection Hp' as <-. split; [done|]. split; [congruence|].
  rewrite Hc2', Hc'. by rewrite Hc in Hc2.
Qed.

(** ** What a contract says *)

Lemma dec_of_Z_fuel_length fuel z acc :
  (String.length (dec_of_Z_fuel fuel z acc) <= fuel + String.length acc)%nat.
Proof.
  revert z acc. induction fuel as [|f IH]; intros z acc; [done|]. cbn [dec_of_Z_fuel].
  destruct (z <? 10); [simpl; lia|]. etrans; [apply IH|]. simpl. lia.
Qed.

Lemma small_int_plain z : 0 <= z <= max_safe_integer → plain_json (JInt z) = true.
Proof.
  intros Hz. cbn [plain_json]. apply Z.leb_le. unfold len, string_of_pos.
  pose proof (dec_of_Z_fuel_length (S (Z.to_nat (Z.log2 (Z.abs z)))) (Z.abs z) EmptyString) as Hl.
  assert (Z.log2 (Z.abs z) <= 53).
  { etrans; [apply Z.log2_le_mono with (b := max_safe_integer); lia|]. done. }
  cbn [String.length] in Hl. unfold max_str_digits. lia.
Qed.

Lemma timestamp_str v t : timestamp v = Ok t → ∃ s, v = JStr s.
Proof. destruct v; try done. eauto. Qed.

Definition contract_text (d : dict) : Prop := ∃ data, canonical (JObj d) = Ok data.

(** A contract is issued only on an approval that holds at that moment, and
    its envelope carries the base64 of a canonical payload under a signature
    that verifies with the wire's public key: the payload binds the approval's
    digest, the ordinal (from 1 to what the context allows), the attempt, its
    fence and the approval's own expiry, and is read back as itself. *)
Theorem contract_reads_back wire approval_env context owner now contract_id attempt_id fence ordinal envelope :
  issue float_of outside wire approval_env context owner now contract_id attempt_id fence ordinal = Ok envelope →
  ∃ receipt d data raw n ah expires,
    approval wire approval_env context owner now = Ok receipt
    ∧ envelope = JObj [("format", JStr envelope_format); ("purpose", JStr "contract");
                       ("payload", JStr (b64 data)); ("signature", JStr (b64 raw))]
    ∧ unb64 (b64 data) envelope_bytes = Ok data ∧ unb64 (b64 raw) 64 = Ok raw
    ∧ verify (public_of (cw_signer wire)) (message "contract" data) raw = true
    ∧ canonical (JObj d) = Ok data
    ∧ json_index "max_executions" context = Ok (JInt n) ∧ 1 <= ordinal <= n ∧ n <= 1000
    ∧ digest approval_env = Ok ah ∧ json_index "expires_at" context = Ok expires
    ∧ dget "approval_sha256" d = JStr ah ∧ dget "execution_index" d = JInt ordinal
    ∧ dget "contract_id" d = JStr contract_id ∧ dget "attempt_id" d = JStr attempt_id
    ∧ dget "fence" d = JInt fence ∧ dget "expires_at" d = expires
    ∧ (plain_json (dget "plan_sha256" d) = true → shallow 31 (dget "plan_sha256" d) = true →
       parse data envelope_bytes = Ok (canon (JObj d))).
Proof.
  unfold issue. intros Hi. apply rbind_ok in Hi as (receipt & Hap & Hi).
  pose proof (approval_sound _ _ _ _ _ _ Hap) as Hs. apply rbind_ok in Hi as (d & Hd & Hi).
  apply rbind_ok in Hi as (data & Hdata & Hi). apply rbind_ok in Hi as ([] & Hsize%require_ok & [= <-]).
  apply Z.leb_le in Hsize. unfold contract_payload in Hd.
  apply rbind_ok in Hd as (cid & Hcid%identifier_ok & Hd). apply rbind_ok in Hd as (ah & Hah & Hd).
  apply rbind_ok in Hd as (limit & Hlimit & Hd). apply rbind_ok in Hd as (index & Hindex%integer_ok & Hd).
  apply rbind_ok in Hd as (plan & Hplan & Hd).
  apply rbind_ok in Hd as (v1 & _ & Hd). apply rbind_ok in Hd as (runner & Hrunner & Hd).
  apply rbind_ok in Hd as (v2 & _ & Hd). apply rbind_ok in Hd as (engagement & Hengagement & Hd).
  apply rbind_ok in Hd as (v3 & _ & Hd). apply rbind_ok in Hd as (job & Hjob & Hd).
  apply rbind_ok in Hd as (attempt & Hattempt%identifier_ok & Hd). apply rbind_ok in Hd as (f & Hf%integer_ok & Hd).
  apply rbind_ok in Hd as (issued & Hissued & Hd). apply rbind_ok in Hd as (expires & Hexpires & Hd).
  apply rbind_ok in Hd as (v4 & _ & Hd). apply rbind_ok in Hd as (revision & [_ Hrev]%integer_ok & Hd).
  injection Hd as <-. destruct (ap_limit _ _ _ _ _ _ Hs) as (n & Hn & Hn1).
  rewrite Hlimit in Hn. injection Hn as ->. cbn [int_of_json] in Hindex.
  destruct Hindex as [[= <-] Hindex]. destruct Hf as [[= <-] Hf]. injection Hcid as <-. injection Hattempt as <-.
  destruct (ap_windows _ _ _ _ _ _ Hs) as (? & ? & ? & ? & ? & ? & ? & ? & ? & ? & _ & _ & _ & _ & Hex & Htex & _).
  rewrite Hexpires in Hex. injection Hex as <-. apply timestamp_str in Htex as [es ->].
  destruct (ap_id _ _ _ _ _ _ Hs) as (i & Hi & _).
  set (d := [("schema", _); _; _; _; _; _; _; _; _; _; _; _; _; _; _; _]) in *.
  exists receipt, d, data, (sign (cw_signer wire) (message "contract" data)), n, ah, (JStr es).
  assert (Hlen : 0 < len data).
  { apply canonical_ok in Hdata as [_ ->]. cbn [json_dumps]. unfold len.
    change ("{" +:+ ?x) with (String "{" x). cbn [String.length]. lia. }
  split_and!; try done; try lia.
  - apply unb64_b64. lia.
  - apply unb64_b64. unfold len. rewrite sign_size. lia.
  - apply verify_sign.
  - intros Hpp Hps. change (dget "plan_sha256" d) with plan in Hpp, Hps.
    apply canonical_ok in Hdata as [_ ->].
    assert (Hplain : plain_json (JObj d) = true).
    { unfold d. rewrite Hi. apply andb_true_iff. split; [by vm_compute|].
      cbn [forallb snd]. rewrite !andb_true_iff.
      split_and!; first [reflexivity | exact Hpp | apply small_int_plain; unfold max_safe_integer in *; lia | by vm_compute]. }
    assert (Hsh : shallow 32 (JObj d) = true).
    { unfold d. rewrite Hi. rewrite shallow_obj. cbn [forallb snd]. rewrite !andb_true_iff.
      split_and!; first [exact Hps | reflexivity]. }
    destruct (parse_canonical_plain float_of outside (JObj d) envelope_bytes Hplain Hsh Hsize) as [_ Hparse].
    exact Hparse.
Qed.
End Approvals.

(** ** A worked approval

    An instance of [Ed25519] whose signature is a tag of the public key and the
    message: enough to run the code, with no cryptographic strength. *)
Fixpoint fit (n : nat) (s : string) : string :=
  match n with
  | O => EmptyString
  | S n => match s with String c r => String c (fit n r) | EmptyString => String "." (fit n EmptyString) end
  end.

Lemma fit_length n s : String.length (fit n s) = n.
Proof. revert s. induction n as [|n IH]; intros s; [done|]. destruct s; cbn [fit String.length]; by rewrite IH. Qed.

Definition tag (public msg : string) : string := fit 64 (sha256_hex (public +:+ msg)).

#[refine] Instance tagging : Ed25519 := {|
  public_of key := fit 32 ("p" +:+ key);
  sign key msg := tag (fit 32 ("p" +:+ key)) msg;
  verify public msg signature := String.eqb signature (tag public msg);
|}.
Proof.
  - intros key msg. apply String.eqb_refl.
  - intros key msg. apply fit_length.
Defined.

Module Sample.
Definition floats (s : string) : option pyfloat := None.
Definition beyond (s : string) : result json := Raise ValueError.
Definition operator_key : string := fit 32 "operator".
Definition wire : ContractWire :=
  MkContractWire "map-1" "contract-1" (fit 32 "contract")
    [MkOperatorAnchor "map-1" "operator-1" "alice" (public_of operator_key) false].
Definition context : json :=
  JObj [("runner_id", JStr "runner-1"); ("engagement_id", JStr "eng-1"); ("job_id", JStr "job-1");
        ("authority_revision", JInt 3); ("plan_sha256", JStr "abcd"); ("mode", JStr "strict");
        ("exceptions", JList []); ("not_before", JStr "2026-01-01T00:00:00Z");
        ("expires_at", JStr "2026-01-02T00:00:00Z"); ("testing_start", JStr "2026-01-01T00:00:00Z");
        ("testing_end", JStr "2026-01-03T00:00:00Z"); ("max_executions", JInt 2);
        ("control", JStr "managed_online")].
Definition payload : dict :=
  [("approval_id", JStr "approval-1"); ("approved_at", JStr "2026-01-01T00:00:00Z");
   ("approver_id", JStr "alice"); ("context", canon context);
   ("issuer", JObj [("id", JStr "map-1"); ("key_id", JStr "operator-1")]); ("origin", JStr "map");
   ("schema", JStr "vardr.execution-approval/1")].
Definition approval_data : string := json_dumps true (JObj payload).
Definition envelope : json :=
  JObj [("format", JStr envelope_format); ("purpose", JStr "approval"); ("payload", JStr (b64 approval_data));
        ("signature", JStr (b64 (sign operator_key (message "approval" approval_data))))].
Definition noon : datetime := Datetime (seconds 1767268800) (Some 0).
Definition contract : json :=
  Eval vm_compute in
    match issue floats beyond wire envelope context "alice" noon "contract-9" "attempt-9" 1 1 with
    | Ok v => v | Raise _ => JNull
    end.
End Sample.

(** The sample approval holds at noon, no longer a day later, and for no one else. *)
Example sample_refusals :
  new_wire "map-1" "contract-1" (fit 32 "contract") (cw_operators Sample.wire) = Ok Sample.wire
  ∧ approval Sample.floats Sample.beyond Sample.wire Sample.envelope Sample.context "mallory" Sample.noon
    = refuse "operator_owner_mismatch"
  ∧ approval Sample.floats Sample.beyond Sample.wire Sample.envelope (JObj [("job_id", JStr "job-2")]) "alice"
      Sample.noon = refuse "approval_context_changed"
  ∧ approval Sample.floats Sample.beyond Sample.wire Sample.envelope Sample.context "alice"
      (Datetime (seconds (1767268800 + 86400)) (Some 0)) = refuse "approval_expired_or_not_yet_valid".
Proof. vm_compute. done. Qed.

Lemma timestamp_stamp_witness :
  civil_of_days (1767268800123456 / 86400000000) = (2026, 1, 1)
  ∧ timestamp (JStr (stamp_time 1767268800123456)) = Ok (1767268800123456 - 1767268800123456 mod 1000000).
Proof. split; [by vm_compute|]. apply (timestamp_stamp _ 2026 1 1); [by vm_compute|lia]. Defined.

Lemma parse_canonical_witness :
  plain_json Sample.context = true ∧
  parse Sample.floats Sample.beyond (json_dumps true Sample.context) 4096 = Ok (canon Sample.context).
Proof.
  split; [by vm_compute|]. apply (parse_canonical Sample.floats Sample.beyond Sample.context 4096); by vm_compute.
Defined.

Lemma approval_covers_one_context_witness :
  approval Sample.floats Sample.beyond Sample.wire Sample.envelope Sample.context "alice" Sample.noon = Ok Sample.payload
  ∧ approved Sample.floats Sample.beyond Sample.wire Sample.envelope Sample.context "alice" Sample.noon Sample.payload.
Proof.
  split; [by vm_compute|].
  apply (approval_covers_one_context Sample.floats Sample.beyond Sample.wire); by vm_compute.
Defined.

Lemma contract_reads_back_witness :
  issue Sample.floats Sample.beyond Sample.wire Sample.envelope Sample.context "alice" Sample.noon
    "contract-9" "attempt-9" 1 1 = Ok Sample.contract
  ∧ ∃ data, json_index "payload" Sample.contract = Ok (JStr (b64 data)) ∧ unb64 (b64 data) envelope_bytes = Ok data.
Proof.
  assert (Hi : issue Sample.floats Sample.beyond Sample.wire Sample.envelope Sample.context "alice" Sample.noon
    "contract-9" "attempt-9" 1 1 = Ok Sample.contract) by (vm_compute; reflexivity).
  split; [exact Hi|]. apply contract_reads_back in Hi.
  destruct Hi as (receipt & d & data & raw & n & ah & expires & _ & -> & Hd & _).
  exists data. split; [reflexivity|exact Hd].
Defined.
