(* ===== verification/Authority.v ===== *)
(** * [nm1_authorization.py]: what stored authority says of a plan

    [project_current_authority] reads an engagement's job, authorization,
    scope and reviewed case and projects them onto a plan: every request of
    the plan must be allowed by the policy, and the result is the context a
    human approves, with digests of the authority and of the plan. *)
From S2P Require Import Prelude PyStr Policy Url Json Digest Time Models Access Enforcement TestCases.
From S2P Require Import JobConfig Execution Jobs Wire.

Definition _require (condition : bool) (reason : string) : result unit :=
  if condition then Ok tt else Raise (IssuanceRefused reason).

Definition _time (value : option datetime) : json :=
  match value with Some t => JStr (stamp_time (instant t)) | None => JNull end.

Definition _digest (value : json) : result string :=
  if finite_json value then Ok (sha256_hex (json_dumps true value)) else Raise ValueError.

(** The arguments of a projection, besides the job and the actor. *)
Record Projection := MkProjection {
  pr_authorization_id : string;
  pr_plan : json;
  pr_runner_id : string;
  pr_authority_revision : Z;
  pr_expires_at : datetime;
  pr_max_executions : json;
  pr_max_duration_seconds : json;
  pr_max_artifact_bytes : json;
  pr_credential_grants : json;
  pr_now : datetime;
}.

(** The answer; [schema] and [origin] are constants. *)
Record IssuanceRequest := MkIssuanceRequest {
  ir_approver_id : string;
  ir_authority_snapshot : json;
  ir_case : json;
  ir_context : dict;
}.

Definition job_for_review (d : db) (job_id : string) (job_statuses : list string) : result ScanJob :=
  match scan_jobs d !! job_id with
  | Some job =>
      check? _require (mem (j_status job) job_statuses && String.eqb (j_tool_type job) _VARDRGATE)
               "pending_gate_job_required" in
      Ok job
  | None => Raise (IssuanceRefused "pending_gate_job_required")
  end.

Definition engagement_for_review (d : db) (job : ScanJob) (actor : string) : result Engagement :=
  match engagements d !! j_program_id job with
  | Some engagement =>
      check? _require (String.eqb actor (e_owner_github_id engagement)) "owner_approval_required" in
      check? _require (negb (bool_decide (is_Some (e_stop_work_at engagement)))) "stop_work_active" in
      Ok engagement
  | None => Raise (IssuanceRefused "owner_approval_required")
  end.

Definition authority_for_review (d : db) (authorization_id engagement_id : string) : result Authorization :=
  match first_row (λ a, String.eqb (au_id a) authorization_id && String.eqb (au_program_id a) engagement_id)
          (authorizations d) with
  | Some authority =>
      check? _require (bool_decide (au_status authority = Some "active")) "explicit_active_authority_required" in
      Ok authority
  | None => Raise (IssuanceRefused "explicit_active_authority_required")
  end.

(** The stored case the plan was made from. *)
Definition reviewed_case (d : db) (job : ScanJob) (plan : json) : result AuthorizationTestCase :=
  match find_case (j_program_id job) (job_case_id job) d with
  | None => Raise (IssuanceRefused "reviewed_case_binding_required")
  | Some case =>
      let? schema := json_get "schema" plan in
      let? profile := json_get "profile" plan in
      let? hash := json_get "case_hash" plan in
      check? _require (json_eqb schema (JStr "vardr.execution-plan/1")
                       && json_eqb profile (JStr "gate-fixed-http/1")
                       && json_eqb hash (JStr (case_hash (tc_spec case)))) "reviewed_case_binding_required" in
      Ok case
  end.

(** [ORDER BY id] *)
Definition by_id (a b : ScopeItem) : Prop := String.le (si_id a) (si_id b).
#[export] Instance by_id_dec : RelDecision by_id.
Proof. intros a b. unfold by_id. apply _. Defined.

Definition scope_rows (d : db) (engagement_id : string) : list ScopeItem :=
  merge_sort by_id (rows (λ s, String.eqb (si_program_id s) engagement_id) (scope_items d)).

Definition scope_rules_of (items : list ScopeItem) : list ScopeRule :=
  map (λ r, MkScopeRule (si_value r) (or_str (si_kind r) "domain") (String.eqb (si_scope_type r) "out")) items.

Definition plan_input (engagement : Engagement) (job : ScanJob) (authority : Authorization)
    (items : list ScopeItem) (now : datetime) : PolicyInput :=
  MkPolicyInput (default "" (e_engagement_status engagement)) (default "" (e_engagement_type engagement)) ""
    (j_tool_type job) now false
    (Some (MkAuthorizationSnapshot (default "" (au_status authority)) (naive <$> au_window_start authority)
             (naive <$> au_window_end authority) []))
    (scope_rules_of items).

(** [policy.evaluate] on a target that may not be a string: [(target or "")]. *)
Definition evaluate_json (candidate : PolicyInput) (target : json) : result PolicyDecision :=
  match target with
  | JStr s => evaluate (with_target candidate s)
  | _ => if truthy target && allowed (evaluate_engagement candidate) then Raise AttributeError
         else evaluate (with_target candidate "")
  end.

(** [parsed.port or (443 if parsed.scheme == "https" else 80)] *)
Definition port_or_default (parsed : split_result) : result Z :=
  let? p := port parsed in
  Ok match p with
     | Some p => if p =? 0 then (if String.eqb (url_scheme parsed) "https" then 443 else 80) else p
     | None => if String.eqb (url_scheme parsed) "https" then 443 else 80
     end.

(** One entry of the narrowed scope. *)
Definition narrow (url : string) (request : json) : result json :=
  let? parsed := urlsplit url in
  let? port := port_or_default parsed in
  match hostname parsed with
  | None => Raise TypeError
  | Some host =>
      let host := if contains ":" host then "[" +:+ host +:+ "]" else host in
      let? method := json_index "method" request in
      Ok (JObj [("origin", JStr (url_scheme parsed +:+ "://" +:+ host +:+ ":" +:+ string_of_Z port));
                ("path", JStr (if String.eqb (url_path parsed) "" then "/" else url_path parsed));
                ("method", method); ("excluded", JBool false); ("reason", JStr "")])
  end.

(** A target the policy allows is a string ([evaluate_json_str]). *)
Definition narrow_dispatch (candidate : PolicyInput) (dispatch : json) : result json :=
  let? request := json_index "request" dispatch in
  let? url := json_index "url" request in
  let? decision := evaluate_json candidate url in
  check? _require (allowed decision) "recorded_scope_or_window_denied" in
  match url with JStr s => narrow s request | _ => Raise AttributeError end.

(** [plan.get("dispatches", [])], iterated. *)
Definition dispatches (plan : json) : result (list json) :=
  match plan with
  | JObj d => match lookup_key "dispatches" d with Some v => py_iter v | None => Ok [] end
  | _ => Raise AttributeError
  end.

Definition authority_json (authority : Authorization) : json :=
  JObj [("id", JStr (au_id authority)); ("status", json_opt_str (au_status authority));
        ("permits", json_opt_str (au_permits authority));
        ("authorized_by", json_opt_str (au_authorized_by authority));
        ("reference", json_opt_str (au_reference authority));
        ("window_start", _time (naive <$> au_window_start authority));
        ("window_end", _time (naive <$> au_window_end authority))].

Definition authority_snapshot (authority : Authorization) (items : list ScopeItem) (engagement_id : string)
    : json :=
  JObj [("authorization", authority_json authority);
        ("scope", JList (map (λ r, JObj [("value", JStr (si_value r)); ("kind", json_opt_str (si_kind r));
                                         ("scope_type", JStr (si_scope_type r))]) items));
        ("engagement_id", JStr engagement_id)].

(** [_require] on the allowance and the validity window. *)
Definition allowance_ok (p : Projection) : bool :=
  match pr_max_executions p with
  | JInt n => (1 <=? n) && (n <=? 1000) && (0 <=? pr_authority_revision p)
  | _ => false
  end.

Definition validity_ok (p : Projection) : bool :=
  bool_decide (is_Some (dt_tzinfo (pr_now p))) && bool_decide (is_Some (dt_tzinfo (pr_expires_at p)))
  && dt_ltb (pr_now p) (pr_expires_at p).

Definition project_current_authority (d : db) (job_id actor : string) (p : Projection)
    (job_statuses : list string) : result IssuanceRequest :=
  let? job := job_for_review d job_id job_statuses in
  let? engagement := engagement_for_review d job actor in
  let? authority := authority_for_review d (pr_authorization_id p) (e_id engagement) in
  let? case := reviewed_case d job (pr_plan p) in
  check? _require (allowance_ok p) "invalid_allowance" in
  check? _require (validity_ok p) "bounded_validity_required" in
  let items := scope_rows d (e_id engagement) in
  let? found := dispatches (pr_plan p) in
  let? narrowed := map_result (narrow_dispatch (plan_input engagement job authority items (pr_now p))) found in
  check? _require (negb (bool_decide (narrowed = []))) "empty_plan" in
  let start := default (pr_now p) (naive <$> au_window_start authority) in
  let stop := default (pr_expires_at p) (naive <$> au_window_end authority) in
  check? _require (negb (dt_ltb stop (pr_expires_at p))) "approval_exceeds_authority_window" in
  let snapshot := authority_snapshot authority items (e_id engagement) in
  let? authority_hash := _digest snapshot in
  let? plan_hash := _digest (pr_plan p) in
  let? budget := json_index "max_http_dispatches" (pr_plan p) in
  Ok (MkIssuanceRequest actor snapshot (tc_spec case)
        [("runner_id", JStr (pr_runner_id p)); ("engagement_id", JStr (e_id engagement)); ("job_id", JStr (j_id job));
         ("authority_revision", JInt (pr_authority_revision p)); ("authority_sha256", JStr authority_hash);
         ("plan_sha256", JStr plan_hash); ("mode", JStr "strict"); ("scope", JList narrowed); ("exceptions", JList []);
         ("not_before", _time (Some (pr_now p))); ("expires_at", _time (Some (pr_expires_at p)));
         ("testing_start", _time (Some start)); ("testing_end", _time (Some stop));
         ("max_executions", pr_max_executions p); ("max_duration_seconds", pr_max_duration_seconds p);
         ("max_http_dispatches", budget); ("max_artifact_bytes", pr_max_artifact_bytes p);
         ("credential_grants", pr_credential_grants p); ("control", JStr "managed_online")]).

(** The review wrapper: an owner's browser session, with full scope. *)
Definition prepare_approval_request (d : db) (actor : user_ctx) (job_id : string) (p : Projection)
    (job_statuses : list string) : result IssuanceRequest :=
  check? _require (bool_decide (cu_auth_method actor ∈ [Some "local_session"; Some "github_session"])
                   && String.eqb (cu_scope actor) "full") "operator_session_required" in
  project_current_authority d job_id (cu_github_id actor) p job_statuses.

(** ** What a projection has checked *)

Lemma require_sound b reason x : _require b reason = Ok x ↔ b = true.
Proof. unfold _require. destruct b; split; try done. by destruct x. Qed.

Lemma evaluate_empty c dec : target c = "" → evaluate c = Ok dec → allowed dec = false.
Proof.
  intros Ht. unfold evaluate. destruct (allowed (evaluate_engagement c)) eqn:E; simpl; [|by intros [= <-]].
  rewrite Ht. change (normalize_target "") with ("", ""). by intros [= <-].
Qed.

Lemma evaluate_json_str c v dec :
  evaluate_json c v = Ok dec → allowed dec = true →
  ∃ s, v = JStr s ∧ evaluate (with_target c s) = Ok dec.
Proof.
  intros Hd Ha. destruct v as [| | | |s| |]; [..|eauto| |].
  all: exfalso; unfold evaluate_json in Hd; case_match; [done|].
  all: apply evaluate_empty in Hd; [congruence|done].
Qed.

(** The requests a plan dispatches, each with the address it goes to. *)
Definition plan_urls (plan : json) (urls : list string) : Prop :=
  ∃ found, dispatches plan = Ok found ∧
    Forall2 (λ dispatch url, ∃ request, json_index "request" dispatch = Ok request ∧
               json_index "url" request = Ok (JStr url)) found urls.

Lemma narrow_dispatches c found narrowed :
  map_result (narrow_dispatch c) found = Ok narrowed →
  ∃ urls, Forall2 (λ dispatch url, ∃ request, json_index "request" dispatch = Ok request ∧
                     json_index "url" request = Ok (JStr url)) found urls
    ∧ ∀ url, url ∈ urls → ∃ dec, evaluate (with_target c url) = Ok dec ∧ allowed dec = true.
Proof.
  revert narrowed. induction found as [|x found IH]; intros narrowed.
  { intros [= <-]. exists []. split; [constructor|set_solver]. }
  simpl. intros (y & Hy & Hr)%rbind_ok. apply rbind_ok in Hr as (ys & Hys & _).
  destruct (IH ys Hys) as (urls & Hf & Hall). unfold narrow_dispatch in Hy.
  apply rbind_ok in Hy as (request & Hreq & Hy). apply rbind_ok in Hy as (v & Hv & Hy).
  apply rbind_ok in Hy as (dec & Hdec & Hy). apply rbind_ok in Hy as ([] & Ha%require_sound & _).
  destruct (evaluate_json_str _ _ _ Hdec Ha) as (s & -> & Hs).
  exists (s :: urls). split; [constructor; eauto|].
  intros url [->|Hin]%elem_of_cons; eauto.
Qed.

(** Everything a projection stands for. *)
Record projected (d : db) (job_id actor : string) (p : Projection) (statuses : list string)
    (r : IssuanceRequest) : Prop := {
  pj_rows : ∃ job engagement authority case,
    scan_jobs d !! job_id = Some job ∧ j_status job ∈ statuses ∧ j_tool_type job = _VARDRGATE
    ∧ engagements d !! j_program_id job = Some engagement ∧ e_owner_github_id engagement = actor
    ∧ e_stop_work_at engagement = None
    ∧ authority ∈ authorizations d ∧ au_id authority = pr_authorization_id p
    ∧ au_program_id authority = e_id engagement ∧ au_status authority = Some "active"
    ∧ find_case (j_program_id job) (job_case_id job) d = Some case ∧ ir_case r = tc_spec case
    ∧ json_get "case_hash" (pr_plan p) = Ok (JStr (case_hash (tc_spec case)))
    ∧ (∃ urls, plan_urls (pr_plan p) urls ∧ urls ≠ [] ∧
         ∀ url, url ∈ urls →
           let c := with_target (plan_input engagement job authority (scope_rows d (e_id engagement)) (pr_now p)) url in
           gates_open c ∧ in_scope c)
    ∧ (∀ w, au_window_end authority = Some w → instant (pr_expires_at p) <= w)
    ∧ dget "job_id" (ir_context r) = JStr (j_id job)
    ∧ _digest (authority_snapshot authority (scope_rows d (e_id engagement)) (e_id engagement))
      = (match dget "authority_sha256" (ir_context r) with JStr h => Ok h | _ => Raise TypeError end);
  pj_limit : ∃ n, pr_max_executions p = JInt n ∧ 1 <= n <= 1000;
  pj_window : instant (pr_now p) < instant (pr_expires_at p);
  pj_revision : dget "authority_revision" (ir_context r) = JInt (pr_authority_revision p);
  pj_executions : dget "max_executions" (ir_context r) = pr_max_executions p;
  pj_duration : dget "max_duration_seconds" (ir_context r) = pr_max_duration_seconds p;
  pj_expires : dget "expires_at" (ir_context r) = JStr (stamp_time (instant (pr_expires_at p)));
  pj_grants : dget "credential_grants" (ir_context r) = pr_credential_grants p;
}.

Lemma evaluate_allowed c :
  (∃ dec, evaluate c = Ok dec ∧ allowed dec = true) → gates_open c ∧ in_scope c.
Proof.
  intros (dec & Hd & Ha). rewrite <-evaluate_engagement_allowed.
  destruct (allowed (evaluate_engagement c)) eqn:E.
  - split; [done|]. apply evaluate_past_gates; eauto.
  - unfold evaluate in Hd. rewrite E in Hd. injection Hd as <-. congruence.
Qed.

Lemma project_sound d job_id actor p statuses r :
  project_current_authority d job_id actor p statuses = Ok r → projected d job_id actor p statuses r.
Proof.
  unfold project_current_authority. intros Hr. apply rbind_ok in Hr as (job & Hjob & Hr).
  apply rbind_ok in Hr as (engagement & Heng & Hr). apply rbind_ok in Hr as (authority & Hau & Hr).
  apply rbind_ok in Hr as (case & Hcase & Hr). apply rbind_ok in Hr as ([] & Hallow%require_sound & Hr).
  apply rbind_ok in Hr as ([] & Hval%require_sound & Hr). cbv zeta in Hr.
  apply rbind_ok in Hr as (found & Hfound & Hr). apply rbind_ok in Hr as (narrowed & Hnar & Hr).
  apply rbind_ok in Hr as ([] & Hne%require_sound & Hr). apply rbind_ok in Hr as ([] & Hend%require_sound & Hr).
  apply rbind_ok in Hr as (ah & Hah & Hr). apply rbind_ok in Hr as (ph & _ & Hr).
  apply rbind_ok in Hr as (budget & _ & [= <-]). cbn [ir_context ir_case].
  unfold allowance_ok in Hallow. destruct (pr_max_executions p) as [| |n| | | |] eqn:En; try done.
  unfold validity_ok in Hval. bool_simpl. split; cbn [ir_context ir_case]; [|exists n; split; [done|lia]| |done..].
  2: by apply Z.ltb_lt.
  unfold job_for_review in Hjob. destruct (scan_jobs d !! job_id) as [j|] eqn:Ej; [|done].
  apply rbind_ok in Hjob as ([] & Hj%require_sound & [= ->]).
  unfold engagement_for_review in Heng. destruct (engagements d !! j_program_id job) as [e|] eqn:Ee; [|done].
  apply rbind_ok in Heng as ([] & Ho%require_sound & Heng). apply rbind_ok in Heng as ([] & Hs%require_sound & [= ->]).
  unfold authority_for_review in Hau. destruct (first_row _ (authorizations d)) as [a|] eqn:Ea; [|done].
  apply rbind_ok in Hau as ([] & Hact%require_sound & [= ->]). apply first_row_Some in Ea as [Hin Hids].
  unfold reviewed_case in Hcase. destruct (find_case _ _ d) as [c|] eqn:Ec; [|done].
  apply rbind_ok in Hcase as (schema & _ & Hcase). apply rbind_ok in Hcase as (profile & _ & Hcase).
  apply rbind_ok in Hcase as (hash & Hhash & Hcase). apply rbind_ok in Hcase as ([] & Hq%require_sound & [= ->]).
  destruct (narrow_dispatches _ _ _ Hnar) as (urls & Hurls & Hall).
  pose proof (map_result_length _ _ _ Hnar) as Hlen. bool_simpl.
  exists job, engagement, authority, case. split_and!; try done.
  - by apply mem_spec.
  - destruct (e_stop_work_at engagement); [|done]. by destruct Hs.
  - match goal with H : json_eqb hash _ = true |- _ => apply json_eqb_eq in H; by rewrite <-H end.
  - exists urls. split; [by exists found|]. split.
    + intros ->. apply Forall2_length in Hurls. destruct narrowed; [done|simpl in *; lia].
    + intros url Hu. by apply evaluate_allowed, Hall.
  - intros w Hw. rewrite Hw in Hend. cbn in Hend. unfold dt_ltb in Hend. bool_simpl.
    unfold instant in *. cbn in *. lia.
Qed.

(** An approval request is only ever prepared for a browser session with full
    scope, of the engagement's owner, and for a plan whose every request the
    policy allows under the active authorization it names, with the case it was
    reviewed with still stored and no stop-work; the request quotes the digest
    of exactly that authority. *)
Theorem prepared_request_authorized d actor job_id p statuses r :
  prepare_approval_request d actor job_id p statuses = Ok r →
  cu_auth_method actor ∈ [Some "local_session"; Some "github_session"] ∧ cu_scope actor = "full"
  ∧ ir_approver_id r = cu_github_id actor ∧ projected d job_id (cu_github_id actor) p statuses r.
Proof.
  unfold prepare_approval_request. intros ([] & Ha%require_sound & Hr)%rbind_ok. bool_simpl.
  split_and!; [done|done| |by apply project_sound]. unfold project_current_authority in Hr.
  repeat first [apply rbind_ok in Hr as (? & _ & Hr) | cbv zeta in Hr]. by injection Hr as <-.
Qed.
