(* ===== verification/Issuance.v ===== *)
(** * [managed_issuance.py]: the transactional issuer

    An operator reviews a plan, registers a signed approval, may revoke it; an
    enrolled runner claims the job under it, which issues one contract, then
    checks, renews and consumes that contract.  Every operation observes the
    clock first, in a transaction of its own; then it authenticates, which may
    commit the caller's last use; then it runs on locked rows and commits once.
    The three are separate functions, so that other requests may come between
    them; [operation] composes them for one that runs alone. *)
From S2P Require Import Prelude PyStr Policy Json Digest Base64 Time Models Access LocalAuth TestCases.
From S2P Require Import Execution Jobs Wire Authority.

(** ** Clocks *)

(** One reading of the wall clock and of the monotonic one, in microseconds. *)
Record reading := MkReading { rd_wall : datetime; rd_mono : Z }.

(** The readings of one operation: at its start, at its first observation, at
    the calls of [now()] and of [control.now()] in order, and at the
    observation after a failure. *)
Record Clock := MkClock {
  ck_anchor : reading;
  ck_observed : reading;
  ck_now : nat → reading;
  ck_control : nat → time;
  ck_failed : reading;
}.

Definition _now (anchor r : reading) : result time :=
  let? _ := stamp (rd_wall r) in
  let elapsed := rd_mono r - rd_mono anchor in
  check? require (0 <=? elapsed) "clock_rollback" in
  Ok (Z.max (instant (rd_wall r)) (instant (rd_wall anchor) + elapsed)).

Definition is_clock (c : ManagedClock) : bool := mk_id c =? 1.

Definition _observe (now : result time) (d : db) : result (unit * db) :=
  let? now := now in
  match first_row is_clock (managed_clock d) with
  | None => Ok (tt, set_managed_clock (managed_clock d ++ [MkManagedClock 1 now]) d)
  | Some row =>
      check? require (mk_observed row <=? now) "clock_rollback" in
      Ok (tt, set_managed_clock (update_rows is_clock (λ c, MkManagedClock (mk_id c) now) (managed_clock d)) d)
  end.

(** The conditional UPDATE of the clock row. *)
Definition _locked_time (now : result time) (d : db) : result db :=
  let? current := now in
  let behind := λ c, is_clock c && (mk_observed c <=? current) in
  match first_row behind (managed_clock d) with
  | None => refuse "clock_rollback"
  | Some _ =>
      Ok (set_managed_clock (update_rows behind (λ c, MkManagedClock (mk_id c) current) (managed_clock d)) d)
  end.

Definition operation {A} (ck : Clock) (body : (nat → result time) → db → result A * db) (d : db)
    : result A * db :=
  let now r := _now (ck_anchor ck) r in
  match stamp (rd_wall (ck_anchor ck)) with
  | Raise e => (Raise e, d)
  | Ok _ =>
      match _observe (now (ck_observed ck)) d with
      | Raise e => (Raise e, d)
      | Ok (_, d1) =>
          match body (λ i, now (ck_now ck i)) d1 with
          | (Ok a, d2) => (Ok a, d2)
          | (Raise e, d2) =>
              match _observe (now (ck_failed ck)) d2 with
              | Ok (_, d3) => (Raise e, d3)
              | Raise e' => (Raise e', d2)
              end
          end
      end
  end.

(** ** The issuer *)

Record Issuer := MkIssuer { is_origin : string; is_wire : ContractWire }.

Definition new_issuer (origin : string) (wire : ContractWire) : result Issuer :=
  if negb (len origin <=? 500) then Raise ValueError
  else let? o := origin_valid origin in Ok (MkIssuer o wire).

(** [_operator]: a browser session or a GitHub bearer token, with full scope. *)
Definition operator_of (header : string) (user : user_ctx) : result user_ctx :=
  check? require (String.eqb (cu_scope user) "full") "operator_session_required" in
  let method := if bool_decide (cu_auth_method user = Some "local") then "local_session" else "github_session" in
  check? require (String.eqb method "local_session" || startswith header "Bearer ") "operator_session_required" in
  Ok (UserCtx (cu_github_id user) (cu_username user) (cu_email user) (cu_scope user) (Some method)).

Definition _operator (env : environ) (jwt_decode : string → option dict) (req : request) (header : string)
    (instant : time) (seen d : db) : result user_ctx * db :=
  if startswith header "Bearer vmap_" then (refuse "operator_session_required", d)
  else
    let authorization := if String.eqb header "" then None else Some header in
    match get_current_user env jwt_decode req authorization instant seen d with
    | (Raise e, d1) => (Raise e, d1)
    | (Ok user, d1) => (operator_of header user, d1)
    end.

Definition _enrollment (iss : Issuer) (d : db) (enrollment_id owner : string)
    : result (ManagedEnrollment * ApiKey) :=
  match first_row (λ r, String.eqb (me_id r) enrollment_id) (managed_enrollments d) with
  | None => refuse "enrollment_unavailable"
  | Some row =>
      check? require (negb (me_revoked row) && String.eqb (me_owner row) owner
                      && String.eqb (me_origin row) (is_origin iss)) "enrollment_unavailable" in
      match first_row (λ k, String.eqb (ak_id k) (me_api_key_id row)) (api_keys d) with
      | None => refuse "enrollment_key_unavailable"
      | Some key =>
          check? require (String.eqb (ak_github_id key) owner
                          && bool_decide (ak_scope key ∈ ["runner"; "full"])) "enrollment_key_unavailable" in
          let? _ := integer (JInt (me_revision row)) 1 max_safe_integer in
          Ok (row, key)
      end
  end.

(** [db.get(Engagement, id)], whose attributes are read at once. *)
Definition engagement_get (d : db) (id : string) : result Engagement :=
  match engagements d !! id with Some e => Ok e | None => Raise AttributeError end.

Definition json_opt_int (o : option Z) : json := match o with Some z => JInt z | None => JNull end.

Definition managed_snapshot (iss : Issuer) (e : Engagement) (m : ManagedEnrollment) (authority : json) : json :=
  JObj [("schema", JStr "vardr.map-managed-authority/1"); ("origin", JStr (is_origin iss));
        ("authority_revision", JInt (e_managed_authority_revision e)); ("authority", authority);
        ("owner", JStr (e_owner_github_id e)); ("engagement_type", json_opt_str (e_engagement_type e));
        ("engagement_status", json_opt_str (e_engagement_status e));
        ("limits", JObj [("concurrency", json_opt_int (e_concurrency_limit e));
                         ("targets", json_opt_int (e_target_limit e));
                         ("duration", json_opt_int (e_duration_limit e))]);
        ("enrollment", JObj [("id", JStr (me_id m)); ("revision", JInt (me_revision m));
                             ("api_key_id", JStr (me_api_key_id m));
                             ("principal_sha256", JStr (me_principal_hash m));
                             ("runner_id", JStr (me_runner_id m))])].

(** The bounded integers of a permission. *)
Definition bounded_field (permission : json) (name : string) (maximum : Z) : result Z :=
  let? v := json_index name permission in integer v 1 maximum.

Definition time_field (permission : json) (name : string) : result time :=
  let? v := json_index name permission in timestamp v.

(** An integer of a permission that a projection has bounded. *)
Definition int_field (permission : json) (name : string) : result Z :=
  let? v := json_index name permission in
  match v with JInt n => Ok n | _ => Raise TypeError end.

Definition utc (t : time) : datetime := Datetime t (Some 0).

Definition _projection (iss : Issuer) (d : db) (job : ScanJob) (actor : string) (m : ManagedEnrollment)
    (authorization_id : string) (plan permission : json) (revision : Z) (job_statuses : list string)
    : result IssuanceRequest :=
  let? engagement := engagement_get d (j_program_id job) in
  check? require (revision =? e_managed_authority_revision engagement) "authority_revision_changed" in
  let? executions := bounded_field permission "max_executions" 1000 in
  let? duration := bounded_field permission "max_duration_seconds" 86400 in
  let? artifact := bounded_field permission "max_artifact_bytes" (1024 ^ 3) in
  let? expires := time_field permission "expires_at" in
  let? grants := json_index "credential_grants" permission in
  let? start := time_field permission "not_before" in
  let? r := project_current_authority d (j_id job) actor
              (MkProjection authorization_id plan (me_runner_id m) revision (utc expires) (JInt executions)
                 (JInt duration) (JInt artifact) grants (utc start)) job_statuses in
  let snapshot := managed_snapshot iss engagement m (ir_authority_snapshot r) in
  let? h := digest snapshot in
  Ok (MkIssuanceRequest (ir_approver_id r) snapshot (ir_case r) (dset "authority_sha256" (JStr h) (ir_context r))).

(** [_review_locked] *)
Definition _review_locked (iss : Issuer) (d : db) (job : ScanJob) (actor enrollment_id authorization_id : string)
    (plan permission : json) : result IssuanceRequest :=
  check? require (String.eqb (j_status job) "pending") "pending_job_required" in
  let? '(m, _) := _enrollment iss d enrollment_id actor in
  let? engagement := engagement_get d (j_program_id job) in
  _projection iss d job actor m authorization_id plan permission (e_managed_authority_revision engagement)
    ["pending"].

(** ** Operators' requests

    Each on the rows it holds locked. *)

Section Operations.
Context `{Ed25519}.
Context (float_of : string → option pyfloat) (outside : string → result json).
Context (iss : Issuer).
#[local] Abbreviation wire_approval := (approval float_of outside (is_wire iss)).

(** What the operator asks for. *)
Record ReviewRequest := MkReviewRequest {
  rq_enrollment_id : string;
  rq_authorization_id : string;
  rq_plan : json;
  rq_expires_at : json;
  rq_max_executions : json;
  rq_max_duration_seconds : json;
  rq_max_artifact_bytes : json;
  rq_credential_grants : json;
}.

Definition permission_of (r : ReviewRequest) (not_before : string) : json :=
  JObj [("not_before", JStr not_before); ("expires_at", rq_expires_at r);
        ("max_executions", rq_max_executions r); ("max_duration_seconds", rq_max_duration_seconds r);
        ("max_artifact_bytes", rq_max_artifact_bytes r); ("credential_grants", rq_credential_grants r)].

(** [review]; its transaction is rolled back. *)
Definition review (job_id : string) (r : ReviewRequest) (actor : user_ctx) (now : nat → result time) (d : db)
    : result (IssuanceRequest * db) :=
  let? job := lock_job d job_id actor in
  let? t := now 0%nat in
  let? not_before := stamp (utc t) in
  let? result := _review_locked iss d job (cu_github_id actor) (rq_enrollment_id r) (rq_authorization_id r)
                   (rq_plan r) (permission_of r not_before) in
  Ok (result, d).

(** [filter_by(id=...)]; no row has a null key. *)
Definition approval_row (d : db) (id : option string) : option ManagedApproval :=
  match id with
  | Some id => first_row (λ a, String.eqb (ma_id a) id) (managed_approvals d)
  | None => None
  end.

Definition put_approval (row : ManagedApproval) (d : db) : db :=
  set_managed_approvals (update_rows (λ a, String.eqb (ma_id a) (ma_id row)) (λ _, row) (managed_approvals d)) d.

Definition mark_job (record_id : string) (job : ScanJob) (d : db) : db :=
  set_job (j_set_authorization_contract_required true (j_set_managed_approval_id (Some record_id) job)) d.

(** A receipt already registered. *)
Definition register_again (existing : ManagedApproval) (job : ScanJob) (record_id : string) (approval : json)
    (now : nat → result time) (d : db) : result (ManagedApproval * db) :=
  let? same :=
    if String.eqb (ma_job_id existing) (j_id job) && bool_decide (j_managed_approval_id job = Some record_id)
    then let? a := digest (ma_envelope existing) in let? b := digest approval in Ok (String.eqb a b)
    else Ok false in
  check? require same "approval_id_reused" in
  check? require (negb (ma_revoked existing)) "approval_unavailable" in
  let? d := _locked_time (now 1%nat) d in
  Ok (existing, d).

Definition register_new (enrollment_id authorization_id : string) (plan approval : json) (actor : user_ctx)
    (job : ScanJob) (record_id approval_id : string) (context : json) (now : nat → result time) (d : db)
    : result (ManagedApproval * db) :=
  let? r := _review_locked iss d job (cu_github_id actor) enrollment_id authorization_id plan context in
  let? t := now 1%nat in
  let? _ := wire_approval approval (JObj (ir_context r)) (cu_github_id actor) (utc t) in
  let row := MkManagedApproval record_id (cw_issuer_id (is_wire iss)) approval_id (j_id job) (j_program_id job)
    enrollment_id authorization_id (int_of_json (dget "authority_revision" (ir_context r))) (cu_github_id actor)
    approval plan (JObj (ir_context r)) (ir_authority_snapshot r) 0 false in
  let d := mark_job record_id job (set_managed_approvals (managed_approvals d ++ [row]) d) in
  let? d := _locked_time (now 2%nat) d in
  let? t := now 3%nat in
  let? _ := wire_approval approval (JObj (ir_context r)) (cu_github_id actor) (utc t) in
  Ok (row, d).

Definition register (job_id enrollment_id authorization_id : string) (plan approval : json) (actor : user_ctx)
    (now : nat → result time) (d : db) : result (ManagedApproval * db) :=
  let? job := lock_job d job_id actor in
  let? v := json_index "payload" approval in
  let? data := unb64_json v envelope_bytes in
  let? payload := parse float_of outside data envelope_bytes in
  let? context := json_index "context" payload in
  let? t := now 0%nat in
  let? receipt := wire_approval approval context (cu_github_id actor) (utc t) in
  let? approval_id := identifier (dget "approval_id" receipt) in
  let record_id := cw_issuer_id (is_wire iss) +:+ ":" +:+ approval_id in
  match approval_row d (Some record_id) with
  | Some existing => register_again existing job record_id approval now d
  | None => register_new enrollment_id authorization_id plan approval actor job record_id approval_id
              (dget "context" receipt) now d
  end.

Definition revoke (job_id : string) (actor : user_ctx) (now : nat → result time) (d : db) : result (unit * db) :=
  let? job := lock_job d job_id actor in
  match approval_row d (j_managed_approval_id job) with
  | None => refuse "owner_approval_required"
  | Some row =>
      check? require (String.eqb (ma_owner row) (cu_github_id actor)) "owner_approval_required" in
      let? d := _locked_time (now 0%nat) d in
      Ok (tt, put_approval (ma_set_revoked true row) d)
  end.

(** ** Runners' requests *)

(** The enrolled principal: the key of the enrollment, presented as its
    bearer, from the origin and runner it was provisioned for. *)
Definition enrolled (header : string) (body : ClaimControl) (m : ManagedEnrollment) (key : ApiKey)
    : result bool :=
  if negb (startswith header "Bearer vmap_")
     || negb (String.eqb (sha256_hex (drop_string 7 header)) (ak_key_hash key))
  then Ok false
  else
    let? p := principal header in
    Ok (String.eqb p (me_principal_hash m) && String.eqb (cc_origin body) (is_origin iss)
        && String.eqb (cc_runner_id body) (me_runner_id m)).

Definition _claim_permission (d : db) (header : string) (job : ScanJob) (body : ClaimControl)
    (now : result time) (job_statuses : list string) : result (ManagedApproval * IssuanceRequest) :=
  match approval_row d (j_managed_approval_id job) with
  | None => refuse "approval_unavailable"
  | Some approval =>
      check? require (negb (ma_revoked approval) && String.eqb (ma_job_id approval) (j_id job)
                      && String.eqb (ma_engagement_id approval) (j_program_id job)) "approval_unavailable" in
      let? '(m, key) := _enrollment iss d (ma_enrollment_id approval) (ma_owner approval) in
      let? ok := enrolled header body m key in
      check? require ok "enrolled_principal_runner_required" in
      let? result := _projection iss d job (ma_owner approval) m (ma_authorization_id approval) (ma_plan approval)
                       (ma_context approval) (ma_revision approval) job_statuses in
      let? t := now in
      let? _ := wire_approval (ma_envelope approval) (JObj (ir_context result)) (ma_owner approval) (utc t) in
      Ok (approval, result)
  end.

Definition contract_of (d : db) (job_id : string) : option ManagedContract :=
  first_row (λ c, String.eqb (mc_job_id c) job_id) (managed_contracts d).

(** What [_current] has checked before it answers, renews or consumes. *)
Record Live := MkLive {
  lv_execution : JobExecution;
  lv_job : ScanJob;
  lv_contract : ManagedContract;
  lv_approval : ManagedApproval;
  lv_request : IssuanceRequest;
}.

Definition live (job_id header : string) (user : user_ctx) (body : ControlRequest)
    (contract_id attempt_id : string) (fence : Z) (now : nat → result time) (control : nat → time) (d : db)
    : result (Live * db) :=
  let? execution := owned d job_id user header body in
  let? job := lock_job d job_id user in
  match contract_of d job_id with
  | None => refuse "owned_contract_fence_required"
  | Some contract =>
      check? require (String.eqb (mc_id contract) contract_id && String.eqb (mc_attempt_id contract) attempt_id
                      && (mc_fence contract =? fence)) "owned_contract_fence_required" in
      let? '(approval, r) := _claim_permission d header job (cr_claim body) (now 0%nat) ["running"] in
      let? d := _locked_time (now 1%nat) d in
      check? require (String.eqb (x_state execution) "active" && (control 0%nat <? x_expires_at execution))
               "live_control_expired_or_stopped" in
      let? t := now 2%nat in
      let? _ := wire_approval (ma_envelope approval) (JObj (ir_context r)) (ma_owner approval) (utc t) in
      Ok (MkLive execution job contract approval r, d)
  end.

Definition live_response (l : Live) : dict :=
  [("contract_id", JStr (mc_id (lv_contract l))); ("attempt_id", JStr (mc_attempt_id (lv_contract l)));
   ("fence", JInt (mc_fence (lv_contract l))); ("authority_revision", JInt (ma_revision (lv_approval l)));
   ("authority_sha256", dget "authority_sha256" (ir_context (lv_request l)))].

Definition current (job_id header : string) (user : user_ctx) (body : ControlRequest)
    (contract_id attempt_id : string) (fence : Z) (now : nat → result time) (control : nat → time) (d : db)
    : result (dict * db) :=
  let? '(l, d) := live job_id header user body contract_id attempt_id fence now control d in
  Ok (live_response l, d).

(** [min(ceilings)]: the approval's expiry, the testing window, every
    credential grant and the allocated seconds. *)
Definition ceilings (permission : json) (started duration : Z) : result (list time) :=
  let? expires := time_field permission "expires_at" in
  let? testing := time_field permission "testing_end" in
  let? grants := json_index "credential_grants" permission in
  let? grants := py_iter grants in
  let? grant_ends := map_result (λ g, time_field g "expires_at") grants in
  let? limit := int_field permission "max_duration_seconds" in
  Ok (expires :: testing :: grant_ends ++ [started + seconds (Z.min duration limit)]).

Fixpoint least (best : time) (l : list time) : time :=
  match l with [] => best | t :: rest => least (if t <? best then t else best) rest end.

Definition least_of (l : list time) : time := match l with [] => 0 | t :: rest => least t rest end.

Definition refresh (job_id header : string) (user : user_ctx) (body : ControlRequest)
    (contract_id attempt_id : string) (fence : Z) (now : nat → result time) (control : nat → time) (d : db)
    : result (dict * db) :=
  let? '(l, d) := live job_id header user body contract_id attempt_id fence now control d in
  let? t := now 3%nat in
  let instant := Z.max t (control 1%nat) in
  let execution := lv_execution l in
  match j_started_at (lv_job l) with
  | None => refuse "finite_allocation_required"
  | Some started =>
      check? require (0 <? x_duration_seconds execution) "finite_allocation_required" in
      let? ends := ceilings (JObj (ir_context (lv_request l))) started (x_duration_seconds execution) in
      let lease := Z.min LEASE_SECONDS (Z.quot (least_of ends - instant) 1000000) in
      check? require ((0 <? lease) && (instant <? x_expires_at execution)) "live_control_expired_or_stopped" in
      let execution := x_set_expires_at (instant + seconds lease) execution in
      let? d := _locked_time (now 4%nat) (set_execution execution d) in
      let? t := now 5%nat in
      check? require (Z.max t (control 2%nat) <? x_expires_at execution) "live_control_expired_or_stopped" in
      let? stamped := stamp (utc (x_expires_at execution)) in
      Ok (live_response l ++ binding_fields execution
          ++ [("action", JStr "continue"); ("lease_seconds", JInt lease); ("lease_expires_at", JStr stamped)], d)
  end.

Definition is_hex64 (s : string) : bool :=
  (len s =? 64) && all_chars (λ c, in_range 48 57 c || in_range 97 102 c) s.

(** The conditional UPDATE of [consumed], and the checks around it. *)
Definition consume_contract (l : Live) (contract_sha256 : string) (now : nat → result time)
    (control : nat → time) (d : db) : result (dict * db) :=
  let? h := digest (mc_envelope (lv_contract l)) in
  check? require (String.eqb contract_sha256 h) "consumption_contract_binding" in
  let unused := λ c, String.eqb (mc_id c) (mc_id (lv_contract l)) && negb (mc_consumed c) in
  match first_row unused (managed_contracts d) with
  | None => refuse "contract_already_consumed"
  | Some _ =>
      let d := set_managed_contracts (update_rows unused (mc_set_consumed true) (managed_contracts d)) d in
      let? d := _locked_time (now 3%nat) d in
      let? t := now 4%nat in
      let? _ := wire_approval (ma_envelope (lv_approval l)) (JObj (ir_context (lv_request l)))
                  (ma_owner (lv_approval l)) (utc t) in
      let? t := now 5%nat in
      check? require (Z.max t (control 1%nat) <? x_expires_at (lv_execution l)) "live_control_expired_or_stopped" in
      Ok (live_response l ++ binding_fields (lv_execution l)
          ++ [("consumed", JBool true); ("schema", JStr "vardr.managed-consumption/1");
              ("contract_sha256", JStr contract_sha256)], d)
  end.

(** The checks of [consume] that come before the operation begins. *)
Definition consume_arguments (fence : Z) (contract_sha256 : string) : result unit :=
  let? _ := integer (JInt fence) 1 max_safe_integer in
  require (is_hex64 contract_sha256) "consumption_contract_binding".

Definition consume (job_id header : string) (user : user_ctx) (body : ControlRequest)
    (contract_id attempt_id : string) (fence : Z) (contract_sha256 : string) (now : nat → result time)
    (control : nat → time) (d : db) : result (dict * db) :=
  let? '(l, d) := live job_id header user body contract_id attempt_id fence now control d in
  consume_contract l contract_sha256 now control d.

(** ** The managed claim *)

Definition _budgets (body : ClaimControl) (approval : ManagedApproval) : result unit :=
  if negb (cc_concurrency_budget body) || negb (bool_decide (is_Some (cc_target_binding body)))
  then refuse "managed_budget_controls_required"
  else match cc_duration_seconds body with
       | None => refuse "managed_budget_controls_required"
       | Some s =>
           let? limit := int_field (ma_context approval) "max_duration_seconds" in
           require (s <=? limit) "managed_budget_controls_required"
       end.

(** A contract of the same id, job, or ordinal is a constraint violation. *)
Definition add_contract (c : ManagedContract) (d : db) : result db :=
  if existsb (λ c', String.eqb (mc_id c') (mc_id c) || String.eqb (mc_job_id c') (mc_job_id c)
                    || (String.eqb (mc_approval_record_id c') (mc_approval_record_id c)
                        && (mc_ordinal c' =? mc_ordinal c))) (managed_contracts d)
  then Raise IntegrityError else Ok (set_managed_contracts (managed_contracts d ++ [c]) d).

(** Ownership, fees and the job, as in [Jobs.claim_write]. *)
Definition claim_rows (job : ScanJob) (header token : string) (user : user_ctx) (body : ClaimControl)
    (approval : ManagedApproval) (snapshot : json) (now : result time) (at_ : time) (engagement : Engagement)
    (d : db) : result (json * db) :=
  let? '(targets, engagement) := charge engagement job snapshot (Some body) in
  let? '(duration, engagement) := allocate engagement (Some body) in
  let? started := now in
  check? require (String.eqb (j_status job) "pending"
                  && bool_decide (j_managed_approval_id job = Some (ma_id approval))) "claim_conflict" in
  let d := set_engagement engagement (set_job (claimed_job started snapshot job) d) in
  Execution.issue d (j_id job) user header token body at_ targets duration.

(** The contract of the attempt: the next ordinal of its approval. *)
Definition issue_contract (job : ScanJob) (approval : ManagedApproval) (r : IssuanceRequest) (t : time)
    (contract_id attempt_id : string) (d : db) : result (json * db) :=
  let ordinal := ma_issued approval + 1 in
  let? limit := int_field (ma_context approval) "max_executions" in
  check? require (ordinal <=? limit) "approval_exhausted" in
  match contract_of d (j_id job) with
  | Some _ => refuse "attempt_already_issued"
  | None =>
      let? envelope := Wire.issue float_of outside (is_wire iss) (ma_envelope approval) (JObj (ir_context r))
                         (ma_owner approval) (utc t) contract_id attempt_id 1 ordinal in
      let? d := add_contract (MkManagedContract contract_id (j_id job) (ma_id approval) ordinal attempt_id 1
                                envelope false) (put_approval (ma_set_issued ordinal approval) d) in
      Ok (envelope, d)
  end.

Definition claim (job_id header token contract_id attempt_id : string) (user : user_ctx) (body : ClaimControl)
    (now : nat → result time) (control : nat → time) (d : db) : result (json * db) :=
  let? job := lock_job d job_id user in
  check? require (String.eqb (j_status job) "pending") "pending_job_required" in
  let? '(approval, r) := _claim_permission d header job body (now 0%nat) ["pending"] in
  check? _budgets body approval in
  let? d := _locked_time (now 1%nat) d in
  let? engagement := engagement_get d (j_program_id job) in
  check? before_claim d engagement (Some body) in
  let? '(capability, d) := claim_rows job header token user body approval (ir_case r) (now 2%nat) (control 0%nat)
                             engagement d in
  let? t := now 3%nat in
  let? '(envelope, d) := issue_contract job approval r t contract_id attempt_id d in
  let? d := _locked_time (now 4%nat) d in
  let? t := now 5%nat in
  let? _ := wire_approval (ma_envelope approval) (JObj (ir_context r)) (ma_owner approval) (utc t) in
  Ok (JObj [("execution_control", capability);
            ("managed_authorization", JObj [("approval", ma_envelope approval); ("contract", envelope);
               ("plan", ma_plan approval); ("authority_snapshot", ir_authority_snapshot r)])], d).
End Operations.

(** ** Requests as the code composes them *)

Section Requests.
Context (env : environ) (jwt_decode : string → option dict).

(** [with self.operation(db) as now: actor = self._operator(...); ...] *)
Definition as_operator {A} (ck : Clock) (req : request) (header : string) (instant : time) (seen : db)
    (body : user_ctx → (nat → result time) → db → result (A * db)) (d : db) : result A * db :=
  operation ck (λ now d1,
    match _operator env jwt_decode req header instant seen d1 with
    | (Raise e, d2) => (Raise e, d2)
    | (Ok actor, d2) => atomically d2 (body actor now d2)
    end) d.

(** The same for a runner, whoever [get_current_user] says it is; [first] are
    the checks made before. *)
Definition as_runner {A} (ck : Clock) (first : result unit) (req : request) (header : option string)
    (instant : time) (seen : db) (body : user_ctx → (nat → result time) → db → result (A * db)) (d : db)
    : result A * db :=
  operation ck (λ now d1,
    match first with
    | Raise e => (Raise e, d1)
    | Ok _ =>
        match get_current_user env jwt_decode req header instant seen d1 with
        | (Raise e, d2) => (Raise e, d2)
        | (Ok user, d2) => atomically d2 (body user now d2)
        end
    end) d.
End Requests.
