(* ===== verification/Results.v ===== *)
(** * [managed_results.py], [managed_stops.py] and [managed_observations.py]

    What a runner reports about a consumed contract: the result document,
    bound to the case it claimed; a completion; or a known stop.  Each leaves a
    receipt that outlives the job, and sending it again finds the receipt.
    [inspect] reads them back and changes nothing. *)
From S2P Require Import Prelude PyStr Json Digest Base64 Time Policy Models Access LocalAuth Assessments TestCases.
From S2P Require Import JobConfig Execution Jobs Upload Wire Authority Issuance.

(** ** The attempt reported on *)

Record Binding := MkBinding {
  bd_job_id : string;
  bd_runner_id : string;
  bd_origin : string;
  bd_contract_id : string;
  bd_attempt_id : string;
  bd_fence : Z;
  bd_contract_sha256 : string;
}.

Definition binding_dict (b : Binding) : dict :=
  [("job_id", JStr (bd_job_id b)); ("runner_id", JStr (bd_runner_id b)); ("origin", JStr (bd_origin b));
   ("contract_id", JStr (bd_contract_id b)); ("attempt_id", JStr (bd_attempt_id b));
   ("fence", JInt (bd_fence b)); ("contract_sha256", JStr (bd_contract_sha256 b))].

(** The contract a request names. *)
Record Named := MkNamed {
  nm_contract_id : string;
  nm_attempt_id : string;
  nm_fence : Z;
  nm_contract_sha256 : string;
}.

Definition names_contract (n : Named) (c : ManagedContract) : bool :=
  String.eqb (mc_id c) (nm_contract_id n) && String.eqb (mc_attempt_id c) (nm_attempt_id n)
  && (mc_fence c =? nm_fence n).

Record Owned := MkOwned {
  ow_job : ScanJob;
  ow_execution : JobExecution;
  ow_approval : ManagedApproval;
  ow_binding : Binding;
}.

Definition binding_of (x : JobExecution) (n : Named) : Binding :=
  MkBinding (x_job_id x) (x_runner_id x) (x_origin x) (nm_contract_id n) (nm_attempt_id n) (nm_fence n)
    (nm_contract_sha256 n).

(** [_owned], once the caller is known. *)
Definition _owned (d : db) (job_id header : string) (user : user_ctx) (body : ControlRequest) (n : Named)
    : result Owned :=
  let? execution := owned d job_id user header body in
  let? job := job_one job_id d in
  let? _ := _writable_engagement job user d in
  let contract := contract_of d job_id in
  match contract with
  | Some contract =>
      check? require (String.eqb (j_tool_type job) _VARDRGATE && j_authorization_contract_required job
                      && nonempty (j_managed_approval_id job) && mc_consumed contract && names_contract n contract)
               "owned_consumed_contract_required" in
      let? h := digest (mc_envelope contract) in
      check? require (String.eqb h (nm_contract_sha256 n)) "owned_consumed_contract_required" in
      match approval_row d (Some (mc_approval_record_id contract)) with
      | None => Raise NoResultFound
      | Some approval =>
          check? require (bool_decide (j_managed_approval_id job = Some (ma_id approval))
                          && String.eqb (ma_job_id approval) (j_id job)) "result_approval_binding" in
          Ok (MkOwned job execution approval (binding_of execution n))
      end
  | None => refuse "owned_consumed_contract_required"
  end.

(** ** Results *)

Definition result_hash (b : Binding) (artifact_sha256 case_sha256 : string) : result string :=
  digest (JObj ([("schema", JStr "vardr.managed-result/1")] ++ binding_dict b
                ++ [("artifact_sha256", JStr artifact_sha256); ("case_sha256", JStr case_sha256)])).

(** A retained row belongs to the attempt that asks. *)
Definition _result (d : db) (b : Binding) : result (option ManagedResult) :=
  match first_row (λ r, String.eqb (mr_contract_id r) (bd_contract_id b)) (managed_results d) with
  | None => Ok None
  | Some row =>
      check? require (String.eqb (mr_job_id row) (bd_job_id b) && String.eqb (mr_attempt_id row) (bd_attempt_id b)
                      && (mr_fence row =? bd_fence b) && String.eqb (mr_contract_sha256 row) (bd_contract_sha256 b))
               "retained_result_binding" in
      let? h := result_hash b (mr_artifact_sha256 row) (mr_case_sha256 row) in
      check? require (String.eqb (mr_receipt_sha256 row) h) "retained_result_binding" in
      Ok (Some row)
  end.

Definition _ack (b : Binding) (row : ManagedResult) : json :=
  JObj ([("schema", JStr "vardr.managed-result-receipt/1")] ++ binding_dict b
        ++ [("artifact_sha256", JStr (mr_artifact_sha256 row)); ("case_sha256", JStr (mr_case_sha256 row));
            ("receipt_sha256", JStr (mr_receipt_sha256 row)); ("evidence_created", JInt (mr_evidence_created row));
            ("scan_items_created", JInt (mr_scan_items_created row))]).

Definition _completion (b : Binding) (row : ManagedResult) (x : JobExecution) : result json :=
  check? require (bool_decide (mr_outcome row = Some (x_state x)) && negb (x_capacity_reserved x))
           "retained_completion_inconsistent" in
  Ok (JObj ([("schema", JStr "vardr.managed-completion/1")] ++ binding_dict b
            ++ [("receipt_sha256", JStr (mr_receipt_sha256 row)); ("outcome", json_opt_str (mr_outcome row));
                ("capacity_reserved", JBool false)])).

Section Results.
Context `{Ed25519}.
Context (float_of : string → option pyfloat) (outside : string → result json).
(** [VardrGateUpload.model_validate]: pydantic's. *)
Context (validate : dict → option VardrGateUpload).
Context (iss : Issuer).

(** The document: within its limits, hashing to what was announced, valid. *)
Definition read_artifact (o : Owned) (artifact artifact_sha256 : string) : result VardrGateUpload :=
  check? require (len artifact <=? 512000) "result_document_required" in
  let data := of_bytes (utf8 artifact) in
  let? limit := int_field (ma_context (ow_approval o)) "max_artifact_bytes" in
  check? require ((0 <? len data) && (len data <=? Z.min 512000 limit)) "result_size" in
  check? require (String.eqb (sha256_hex artifact) artifact_sha256) "artifact_hash_mismatch" in
  let? raw := parse float_of outside data 512000 in
  match raw with
  | JObj raw => match validate raw with Some r => Ok r | None => refuse "invalid_gate_result" end
  | _ => refuse "result_document_required"
  end.

(** The case the result is for: the claimed snapshot, the approved plan's and
    the result's own. *)
Definition result_case (o : Owned) (r : VardrGateUpload) : result string :=
  let snapshot := j_case_snapshot (ow_job o) in
  if negb (truthy snapshot) || negb (String.eqb (vg_case_hash r) (case_hash snapshot))
  then refuse "result_case_binding"
  else
    let? planned := json_index "case_hash" (ma_plan (ow_approval o)) in
    if negb (json_eqb planned (JStr (case_hash snapshot))) then refuse "result_case_binding"
    else
      let? id := json_get "id" snapshot in
      check? require (json_eqb id (JStr (vg_test_case_id r))) "result_case_binding" in
      Ok (case_hash snapshot).

Definition new_result (o : Owned) (n : Named) (artifact_sha256 case_sha256 receipt_sha256 : string)
    (r : VardrGateUpload) (retained : UploadResult) : ManagedResult :=
  MkManagedResult (nm_contract_id n) (j_id (ow_job o)) (nm_attempt_id n) (nm_fence n) (nm_contract_sha256 n)
    artifact_sha256 case_sha256 receipt_sha256 (up_evidence_created retained) (up_scan_items_created retained)
    (existsb (λ p, negb (String.eqb (ip_status p) "passed")) (vg_preflight r)) None None.

Definition submit (ids : nat → string) (log_id receipt_id : string) (at_ : time) (job_id header : string)
    (user : user_ctx) (body : ControlRequest) (n : Named) (artifact artifact_sha256 : string)
    (now : nat → result time) (d : db) : result (json * db) :=
  let? o := _owned d job_id header user body n in
  let? r := read_artifact o artifact artifact_sha256 in
  let? case_sha256 := result_case o r in
  let? row := _result d (ow_binding o) in
  match row with
  | Some row =>
      check? require (String.eqb (mr_artifact_sha256 row) artifact_sha256
                      && String.eqb (mr_case_sha256 row) case_sha256) "different_managed_result" in
      Ok (_ack (ow_binding o) row, d)
  | None =>
      check? require (negb (bool_decide (is_Some (find_receipt (j_id (ow_job o)) d)))) "foreign_result_receipt" in
      let? '(retained, d) := store_gate_result ids log_id receipt_id at_ (ow_job o) r user d in
      let? h := result_hash (ow_binding o) artifact_sha256 case_sha256 in
      let row := new_result o n artifact_sha256 case_sha256 h r retained in
      let? d := _locked_time (now 0%nat) (set_managed_results (managed_results d ++ [row]) d) in
      Ok (_ack (ow_binding o) row, d)
  end.

(** ** Completion *)

(** [live]: the permission still runs, the moment it is read. *)
Definition completion_live (check_state : bool) (permission : json) (job : ScanJob) (x : JobExecution)
    (a : ManagedApproval) (now now' : result time) (control : time) : result unit :=
  let? t := now in
  let instant := Z.max t control in
  let? expires := time_field permission "expires_at" in
  let? testing := time_field permission "testing_end" in
  let? grants := json_index "credential_grants" permission in
  let? grants := py_iter grants in
  let? grant_ends := map_result (λ g, time_field g "expires_at") grants in
  match j_started_at job with
  | None => refuse "finite_allocation_required"
  | Some started =>
      check? require (0 <? x_duration_seconds x) "finite_allocation_required" in
      let? limit := int_field permission "max_duration_seconds" in
      let ends := expires :: testing :: grant_ends ++ [started + seconds (Z.min (x_duration_seconds x) limit)] in
      check? require ((negb check_state || String.eqb (x_state x) "active") && (instant <? x_expires_at x)
                      && (instant <? least_of ends)) "completion_permission_not_live" in
      let? t := now' in
      let? _ := approval float_of outside (is_wire iss) (ma_envelope a) permission (ma_owner a) (utc t) in
      Ok tt
  end.

Definition outcomes : list string := ["completed"; "failed"; "cancelled"].

Definition finish_arguments (outcome : string) (termination_confirmed : bool) : result unit :=
  require (mem outcome outcomes && termination_confirmed) "known_termination_required".

(** The receipt, the attempt and the job, finished together. *)
Definition finished_execution (outcome : string) (x : JobExecution) : JobExecution :=
  x_set_capacity_reserved false (x_set_state outcome x).
Definition finished_managed_job (outcome : string) (t : time) (j : ScanJob) : ScanJob :=
  let ok := String.eqb outcome "completed" in
  j_set_error_message (Some (if ok then "" else outcome))
    (j_set_completed_at (Some t) (j_set_status (if ok then "done" else "failed") j)).

Definition put_result (row : ManagedResult) (d : db) : db :=
  set_managed_results
    (update_rows (λ r, String.eqb (mr_contract_id r) (mr_contract_id row)) (λ _, row) (managed_results d)) d.

Definition finish_rows (outcome : string) (t : time) (o : Owned) (row : ManagedResult) (d : db) : db :=
  set_job (finished_managed_job outcome t (ow_job o))
    (set_execution (finished_execution outcome (ow_execution o))
      (put_result (mr_set_finished_at (Some t) (mr_set_outcome (Some outcome) row)) d)).

(** What a completion, and nothing else, needs: the permission itself. *)
Definition finish_permission (outcome header : string) (body : ControlRequest) (o : Owned) (row : ManagedResult)
    (now : nat → result time) (control : time) (d : db) : result (option (ManagedApproval * json)) :=
  if String.eqb outcome "completed" then
    check? require (negb (mr_preflight_failed row)) "preflight_failure_not_success" in
    let? '(a, r) := _claim_permission float_of outside iss d header (ow_job o) (cr_claim body) (now 0%nat) ["running"] in
    let permission := JObj (ir_context r) in
    check? completion_live true permission (ow_job o) (ow_execution o) a (now 1%nat) (now 2%nat) control in
    Ok (Some (a, permission))
  else Ok None.

Definition finish (job_id header : string) (user : user_ctx) (body : ControlRequest) (n : Named)
    (receipt_sha256 outcome : string) (now : nat → result time) (control : nat → time) (d : db)
    : result (json * db) :=
  let? o := _owned d job_id header user body n in
  let? row := _result d (ow_binding o) in
  match row with
  | None => refuse "owned_result_receipt_required"
  | Some row =>
      check? require (String.eqb (mr_receipt_sha256 row) receipt_sha256) "owned_result_receipt_required" in
      match mr_outcome row with
      | Some before =>
          check? require (String.eqb before outcome) "different_completion" in
          let? reply := _completion (ow_binding o) row (ow_execution o) in
          Ok (reply, d)
      | None =>
          check? require (negb (mem (x_state (ow_execution o)) outcomes)) "foreign_completion" in
          check? require (x_capacity_reserved (ow_execution o)) "owned_reservation_required" in
          let? permission := finish_permission outcome header body o row now (control 0%nat) d in
          let? t := now 3%nat in
          let? d := _locked_time (now 4%nat) (finish_rows outcome t o row d) in
          check? (match permission with
                  | Some (a, permission) =>
                      completion_live false permission (ow_job o) (finished_execution outcome (ow_execution o)) a
                        (now 5%nat) (now 6%nat) (control 1%nat)
                  | None => Ok tt
                  end) in
          let? reply := _completion (ow_binding o)
                          (mr_set_finished_at (Some t) (mr_set_outcome (Some outcome) row))
                          (finished_execution outcome (ow_execution o)) in
          Ok (reply, d)
      end
  end.

Definition has_outcome (row : ManagedResult) : bool := nonempty (mr_outcome row).

Definition inspect (job_id header : string) (user : user_ctx) (body : ControlRequest) (n : Named) (d : db)
    : result (json * db) :=
  let? o := _owned d job_id header user body n in
  let? row := _result d (ow_binding o) in
  let? completion :=
    match row with
    | Some row => if has_outcome row then _completion (ow_binding o) row (ow_execution o) else Ok JNull
    | None => Ok JNull
    end in
  Ok (JObj ([("schema", JStr "vardr.managed-reconciliation/1")] ++ binding_dict (ow_binding o)
            ++ [("consumed", JBool true); ("capacity_reserved", JBool (x_capacity_reserved (ow_execution o)));
                ("execution_state", JStr (x_state (ow_execution o)));
                ("result", match row with Some row => _ack (ow_binding o) row | None => JNull end);
                ("completion", completion)]), d).
End Results.

(** ** Stops *)

Definition CANCEL_CAUSES : list string := ["local_emergency_stop"; "remote_stop_requested"].
Definition FAIL_CAUSES : list string :=
  ["control_cap_unavailable"; "control_lease_expired"; "authorization_deadline"; "tool_timeout";
   "descendants_after_tool_exit"].
Definition CAUSES : list string := CANCEL_CAUSES ++ FAIL_CAUSES.

Definition outcome_of_cause (cause : string) : string := if mem cause CANCEL_CAUSES then "cancelled" else "failed".

Definition stop_hash (b : Binding) (outcome cause : string) : result string :=
  digest (JObj ([("schema", JStr "vardr.managed-stop/1")] ++ binding_dict b
                ++ [("outcome", JStr outcome); ("cause", JStr cause); ("termination_confirmed", JBool true)])).

(** [Stops._row] *)
Definition _row (d : db) (b : Binding) : result (option ManagedStop) :=
  match first_row (λ r, String.eqb (ms_contract_id r) (bd_contract_id b)) (managed_stops d) with
  | None => Ok None
  | Some row =>
      check? require (String.eqb (ms_job_id row) (bd_job_id b) && String.eqb (ms_attempt_id row) (bd_attempt_id b)
                      && (ms_fence row =? bd_fence b) && String.eqb (ms_contract_sha256 row) (bd_contract_sha256 b)
                      && mem (ms_cause row) CAUSES && String.eqb (ms_outcome row) (outcome_of_cause (ms_cause row)))
               "retained_stop_binding" in
      let? h := stop_hash b (ms_outcome row) (ms_cause row) in
      check? require (String.eqb (ms_receipt_sha256 row) h) "retained_stop_binding" in
      Ok (Some row)
  end.

(** [Stops._ack] *)
Definition stop_ack (b : Binding) (row : ManagedStop) (x : JobExecution) : result json :=
  check? require (String.eqb (x_state x) (ms_outcome row) && negb (x_capacity_reserved x))
           "retained_stop_inconsistent" in
  Ok (JObj ([("schema", JStr "vardr.managed-stop-receipt/1")] ++ binding_dict b
            ++ [("outcome", JStr (ms_outcome row)); ("cause", JStr (ms_cause row));
                ("receipt_sha256", JStr (ms_receipt_sha256 row)); ("capacity_reserved", JBool false)])).

Definition report_arguments (outcome cause : string) (termination_confirmed : bool) : result unit :=
  require (mem cause CAUSES && termination_confirmed && String.eqb outcome (outcome_of_cause cause))
    "known_stop_report_required".

Definition stopped_job (cause : string) (t : time) (j : ScanJob) : ScanJob :=
  j_set_error_message (Some cause) (j_set_completed_at (Some t) (j_set_status "failed" j)).

Definition report (job_id header : string) (user : user_ctx) (body : ControlRequest) (n : Named)
    (outcome cause : string) (now : nat → result time) (d : db) : result (json * db) :=
  let? o := _owned d job_id header user body n in
  let? row := _row d (ow_binding o) in
  match row with
  | Some row =>
      check? require (String.eqb (ms_outcome row) outcome && String.eqb (ms_cause row) cause) "different_stop_receipt" in
      let? ack := stop_ack (ow_binding o) row (ow_execution o) in
      Ok (ack, d)
  | None =>
      let? earlier := _result d (ow_binding o) in
      check? require (negb (bool_decide (is_Some earlier))) "result_protocol_already_started" in
      check? require (negb (mem (x_state (ow_execution o)) outcomes) && x_capacity_reserved (ow_execution o))
               "owned_reservation_required" in
      let? h := stop_hash (ow_binding o) outcome cause in
      let? t := now 0%nat in
      let row := MkManagedStop (nm_contract_id n) job_id (nm_attempt_id n) (nm_fence n) (nm_contract_sha256 n)
                   outcome cause h t in
      let x := finished_execution outcome (ow_execution o) in
      let? d := _locked_time (now 1%nat)
                  (set_job (stopped_job cause t (ow_job o))
                    (set_execution x (set_managed_stops (managed_stops d ++ [row]) d))) in
      let? ack := stop_ack (ow_binding o) row x in
      Ok (ack, d)
  end.

(** [Stops.inspect] *)
Definition inspect_stop (job_id header : string) (user : user_ctx) (body : ControlRequest) (n : Named) (d : db)
    : result (json * db) :=
  let? o := _owned d job_id header user body n in
  let? row := _row d (ow_binding o) in
  let? stop := match row with
               | Some row => stop_ack (ow_binding o) row (ow_execution o)
               | None => Ok JNull
               end in
  Ok (JObj ([("schema", JStr "vardr.managed-stop-observation/1")] ++ binding_dict (ow_binding o)
            ++ [("consumed", JBool true); ("capacity_reserved", JBool (x_capacity_reserved (ow_execution o)));
                ("execution_state", JStr (x_state (ow_execution o))); ("stop", stop)]), d).

(** ** Observations *)

Section Observations.
Context `{Ed25519}.
Context (float_of : string → option pyfloat) (outside : string → result json).
Context (iss : Issuer).

Definition hash_value (value : string) : result unit := require (is_hex64 value) "invalid_observation_hash".

Record Fingerprints := MkFingerprints {
  fp_plan_sha256 : string;
  fp_case_sha256 : string;
  fp_association_sha256 : string;
}.

Definition observe_arguments (f : Fingerprints) : result unit :=
  check? hash_value (fp_plan_sha256 f) in
  check? hash_value (fp_case_sha256 f) in
  hash_value (fp_association_sha256 f).

(** The approval of the job, its enrollment and the caller's key. *)
Definition observer (d : db) (job : ScanJob) (header : string) (user : user_ctx) (body : ClaimControl)
    : result (ManagedApproval * ManagedEnrollment * string) :=
  let approval := approval_row d (j_managed_approval_id job) in
  match approval with
  | None => refuse "owned_approval_required"
  | Some approval =>
      check? require (j_authorization_contract_required job && String.eqb (ma_owner approval) (cu_github_id user)
                      && String.eqb (ma_job_id approval) (j_id job)
                      && String.eqb (ma_engagement_id approval) (j_program_id job)) "owned_approval_required" in
      let? '(m, key) := _enrollment iss d (ma_enrollment_id approval) (ma_owner approval) in
      let? p := principal header in
      check? require (String.eqb (cc_origin body) (is_origin iss) && String.eqb (is_origin iss) (me_origin m)
                      && String.eqb (cc_runner_id body) (me_runner_id m) && String.eqb p (me_principal_hash m)
                      && startswith header "Bearer vmap_"
                      && String.eqb (sha256_hex (drop_string 7 header)) (ak_key_hash key))
               "enrolled_observer_required" in
      Ok (approval, m, p)
  end.

Definition association (m : ManagedEnrollment) (p : string) : json :=
  JObj [("origin", JStr (is_origin iss)); ("runner_id", JStr (me_runner_id m)); ("principal_sha256", JStr p)].

Definition fingerprints_match (a : ManagedApproval) (m : ManagedEnrollment) (p : string) (f : Fingerprints)
    : result bool :=
  let? plan := digest (ma_plan a) in
  if negb (String.eqb plan (fp_plan_sha256 f)) then Ok false
  else
    let? case := json_index "case_hash" (ma_plan a) in
    if negb (json_eqb case (JStr (fp_case_sha256 f))) then Ok false
    else let? h := digest (association m p) in Ok (String.eqb h (fp_association_sha256 f)).

Definition root (job_id : string) (m : ManagedEnrollment) (f : Fingerprints) : dict :=
  [("origin", JStr (is_origin iss)); ("job_id", JStr job_id); ("runner_id", JStr (me_runner_id m));
   ("plan_sha256", JStr (fp_plan_sha256 f)); ("case_sha256", JStr (fp_case_sha256 f));
   ("association_sha256", JStr (fp_association_sha256 f))].

(** Nothing was claimed: no trace of an attempt anywhere. *)
Definition unclaimed (d : db) (job : ScanJob) (a : ManagedApproval) (contract : option ManagedContract)
    (execution : option JobExecution) : bool :=
  negb (bool_decide (is_Some contract)) && negb (bool_decide (is_Some execution)) && (ma_issued a =? 0)
  && String.eqb (j_status job) "pending"
  && negb (existsb (λ r, String.eqb (mr_job_id r) (j_id job)) (managed_results d))
  && negb (existsb (λ s, String.eqb (ms_job_id s) (j_id job)) (managed_stops d)).

(** The contract's own payload says what the row says. *)
Definition payload_matches (c : ManagedContract) (a : ManagedApproval) (m : ManagedEnrollment) (job_id : string)
    (f : Fingerprints) : result bool :=
  let? v := json_index "payload" (mc_envelope c) in
  let? data := unb64_json v envelope_bytes in
  let? payload := parse float_of outside data envelope_bytes in
  let? _ := integer (JInt (mc_fence c)) 1 max_safe_integer in
  let field (k : string) (v : json) : result bool := let? w := json_index k payload in Ok (json_eqb w v) in
  let both (m k : result bool) : result bool := let? b := m in if b then k else Ok false in
  both (field "job_id" (JStr job_id))
  (both (field "runner_id" (JStr (me_runner_id m)))
  (both (field "plan_sha256" (JStr (fp_plan_sha256 f)))
  (both (let? w := json_index "authority_revision" payload in Ok (py_eq w (JInt (ma_revision a))))
    (let? i := json_index "contract_id" payload in
     let? t := json_index "attempt_id" payload in
     let? n := json_index "fence" payload in
     Ok (json_eqb i (JStr (mc_id c)) && json_eqb t (JStr (mc_attempt_id c)) && py_eq n (JInt (mc_fence c))))))).

Definition observed_binding (c : ManagedContract) (x : JobExecution) : result Binding :=
  let? h := digest (mc_envelope c) in
  Ok (MkBinding (x_job_id x) (x_runner_id x) (x_origin x) (mc_id c) (mc_attempt_id c) (mc_fence c) h).

Definition observe_claim (d : db) (job : ScanJob) (c : ManagedContract) (x : JobExecution) (a : ManagedApproval)
    (m : ManagedEnrollment) (p : string) (f : Fingerprints) : result dict :=
  check? require (String.eqb (mc_approval_record_id c) (ma_id a) && String.eqb (x_owner x) (ma_owner a)
                  && String.eqb (x_origin x) (is_origin iss) && String.eqb (x_runner_id x) (me_runner_id m)
                  && String.eqb (x_principal_hash x) p && negb (json_eqb (j_case_snapshot job) JNull)
                  && String.eqb (case_hash (j_case_snapshot job)) (fp_case_sha256 f)) "inconsistent_observed_claim" in
  let? same := payload_matches c a m (j_id job) f in
  check? require same "inconsistent_observed_claim" in
  let? b := observed_binding c x in
  let? result := _result d b in
  let? stop := _row d b in
  check? require (mc_consumed c || (negb (bool_decide (is_Some result)) && negb (bool_decide (is_Some stop))))
           "inconsistent_observed_consumption" in
  let? completion := match result with
                     | Some row => if has_outcome row then _completion b row x else Ok JNull
                     | None => Ok JNull
                     end in
  let? stop := match stop with Some row => stop_ack b row x | None => Ok JNull end in
  let? authority := json_index "authority_sha256" (ma_context a) in
  Ok [("claim", JObj [("contract_id", JStr (bd_contract_id b)); ("attempt_id", JStr (bd_attempt_id b));
                      ("fence", JInt (bd_fence b)); ("contract_sha256", JStr (bd_contract_sha256 b));
                      ("consumed", JBool (mc_consumed c)); ("authority_revision", JInt (ma_revision a));
                      ("authority_sha256", authority)]);
      ("execution_state", JStr (x_state x)); ("capacity_reserved", JBool (x_capacity_reserved x));
      ("result", match result with Some row => _ack b row | None => JNull end);
      ("completion", completion); ("stop", stop)].

Definition no_claim : dict :=
  [("claim", JNull); ("execution_state", JNull); ("capacity_reserved", JBool false); ("result", JNull);
   ("completion", JNull); ("stop", JNull)].

(** [Observations.inspect], once its arguments are checked. *)
Definition observe (job_id header : string) (user : user_ctx) (body : ClaimControl) (f : Fingerprints) (d : db)
    : result (json * db) :=
  let? job := lock_job d job_id user in
  let? _ := _writable_engagement job user d in
  let execution := job_executions d !! job_id in
  let contract := contract_of d job_id in
  let? '(a, m, p) := observer d job header user body in
  let? same := fingerprints_match a m p f in
  check? require same "observation_fingerprint_binding" in
  let? reply :=
    match contract, execution with
    | Some c, Some x => observe_claim d job c x a m p f
    | _, _ => check? require (unclaimed d job a contract execution) "inconsistent_observed_claim" in Ok no_claim
    end in
  Ok (JObj ([("schema", JStr "vardr.managed-claim-observation/1")] ++ root job_id m f ++ reply), d).
End Observations.
