(* ===== verification/Permission.v ===== *)
(** * What managed issuance promises

    An abstract machine of permissions: a grant allows a number of attempts
    and can be withdrawn; an attempt belongs to one job, takes the next number
    of its grant, and can be launched once, while the grant stands.
    [IssuanceSafety] shows that the issuer implements it. *)
From S2P Require Import Prelude.

Record grant := Grant { g_limit : Z; g_issued : Z; g_revoked : bool }.
Record attempt := Attempt { a_grant : string; a_ordinal : Z; a_consumed : bool }.

(** Grants by their id, attempts by the job they are for. *)
Record state := State { grants : gmap string grant; attempts : gmap string attempt }.

Definition withdrawn (g : grant) : grant := Grant (g_limit g) (g_issued g) true.
Definition one_more (g : grant) : grant := Grant (g_limit g) (g_issued g + 1) (g_revoked g).
Definition launched (a : attempt) : attempt := Attempt (a_grant a) (a_ordinal a) true.

Inductive step (s : state) : state → Prop :=
| step_grant id limit :
    grants s !! id = None → 1 <= limit →
    step s (State (<[id := Grant limit 0 false]> (grants s)) (attempts s))
| step_withdraw id g :
    grants s !! id = Some g → step s (State (<[id := withdrawn g]> (grants s)) (attempts s))
| step_issue id g job :
    grants s !! id = Some g → g_revoked g = false → g_issued g < g_limit g → attempts s !! job = None →
    step s (State (<[id := one_more g]> (grants s))
                  (<[job := Attempt id (g_issued g + 1) false]> (attempts s)))
| step_launch job a g :
    attempts s !! job = Some a → a_consumed a = false →
    grants s !! a_grant a = Some g → g_revoked g = false →
    step s (State (grants s) (<[job := launched a]> (attempts s))).

(** ** Attempts are numbered within their grants *)

Record sound (s : state) : Prop := {
  so_bound : ∀ id g, grants s !! id = Some g → 0 <= g_issued g <= g_limit g;
  so_numbered : ∀ job a, attempts s !! job = Some a →
    ∃ g, grants s !! a_grant a = Some g ∧ 1 <= a_ordinal a <= g_issued g;
  so_distinct : ∀ j1 j2 a1 a2, attempts s !! j1 = Some a1 → attempts s !! j2 = Some a2 →
    a_grant a1 = a_grant a2 → a_ordinal a1 = a_ordinal a2 → j1 = j2;
}.

Lemma sound_empty : sound (State ∅ ∅).
Proof. split; naive_solver. Qed.

(** Replacing a grant by one that issued no less. *)
Lemma sound_grant s id g :
  sound s → 0 <= g_issued g <= g_limit g →
  (∀ g0, grants s !! id = Some g0 → g_issued g0 <= g_issued g) →
  sound (State (<[id := g]> (grants s)) (attempts s)).
Proof.
  intros [Hb Hn Hd] Hg Hmore. split; simpl; [| |done].
  - intros i g0 [[<- <-]|[_ Hi]]%lookup_insert_Some; eauto.
  - intros job a (g0 & Hg0 & Ho)%Hn. destruct (decide (a_grant a = id)) as [E|Hne].
    + rewrite E in *. exists g. rewrite lookup_insert_eq. split; [done|]. specialize (Hmore _ Hg0). lia.
    + exists g0. by rewrite lookup_insert_ne.
Qed.

Lemma step_sound s s' : step s s' → sound s → sound s'.
Proof.
  intros Hstep Hs. destruct Hstep.
  - apply sound_grant; simpl; [done|lia|congruence].
  - apply sound_grant; simpl; [done|by eapply so_bound|]. intros g0 Hg0. replace g0 with g by congruence. lia.
  - pose proof (so_bound _ Hs _ _ H).
    destruct (sound_grant s id (one_more g) Hs) as [Hb Hn Hd]; simpl; [lia| |].
    { intros g0 Hg0. replace g0 with g by congruence. lia. }
    simpl in *. split; simpl; [done| |].
    + intros j a [[<- <-]|[_ Ha]]%lookup_insert_Some; [|by apply (Hn j)].
      exists (one_more g). simpl. rewrite lookup_insert_eq. split; [done|lia].
    + assert (Hfresh : ∀ j a, attempts s !! j = Some a → a_grant a = id → a_ordinal a < g_issued g + 1).
      { intros j a (g0 & Hg0 & Ho)%(so_numbered _ Hs) <-. replace g0 with g in * by congruence. lia. }
      intros j1 j2 a1 a2 [[<- <-]|[_ H1']]%lookup_insert_Some [[<- <-]|[_ H2']]%lookup_insert_Some;
        simpl; intros Hg Ho; [done| | |by eapply (so_distinct _ Hs)].
      * specialize (Hfresh _ _ H2' (eq_sym Hg)). lia.
      * specialize (Hfresh _ _ H1' Hg). lia.
  - destruct Hs as [Hb Hn Hd]. split; simpl; [done| |].
    + intros j a0 [[<- <-]|[_ Ha]]%lookup_insert_Some; [by apply (Hn job a)|by apply (Hn j)].
    + assert (Hold : ∀ j a0, <[job := launched a]> (attempts s) !! j = Some a0 →
        ∃ a1, attempts s !! j = Some a1 ∧ a_grant a1 = a_grant a0 ∧ a_ordinal a1 = a_ordinal a0).
      { intros j a0 [[<- <-]|[_ Ha]]%lookup_insert_Some; eauto. }
      intros j1 j2 a1 a2 (b1 & H1' & ? & ?)%Hold (b2 & H2' & ? & ?)%Hold ? ?.
      eapply Hd; [exact H1'|exact H2'|congruence|congruence].
Qed.

(** ** What no step undoes *)

Record later (s s' : state) : Prop := {
  lt_grants : ∀ id g, grants s !! id = Some g → ∃ g', grants s' !! id = Some g' ∧ g_limit g' = g_limit g
    ∧ g_issued g <= g_issued g' ∧ (g_revoked g = true → g' = g);
  lt_attempts : ∀ job a, attempts s !! job = Some a → ∃ a', attempts s' !! job = Some a'
    ∧ a_grant a' = a_grant a ∧ a_ordinal a' = a_ordinal a ∧ (a_consumed a = true → a' = a);
  (** Under a withdrawn grant nothing is issued or launched. *)
  lt_frozen : ∀ id g, grants s !! id = Some g → g_revoked g = true →
    ∀ job a, a_grant a = id → attempts s' !! job = Some a ↔ attempts s !! job = Some a;
}.

#[export] Instance later_preorder : PreOrder later.
Proof.
  split.
  - intros s. split; [| |done]; intros k v Hk; exists v; naive_solver lia.
  - intros s1 s2 s3 [G1 A1 F1] [G2 A2 F2]. split.
    + intros id g (g' & Hg' & ? & ? & Hr)%G1. destruct (G2 _ _ Hg') as (g2 & ? & ? & ? & Hr2).
      exists g2. split_and!; [done|congruence|lia|]. intros Hrev. rewrite (Hr Hrev) in Hr2. auto.
    + intros job a (a' & Ha' & ? & ? & Hc)%A1. destruct (A2 _ _ Ha') as (a2 & ? & ? & ? & Hc2).
      exists a2. split_and!; [done|congruence..|]. intros Hcon. rewrite (Hc Hcon) in Hc2. auto.
    + intros id g Hg Hrev job a Ha. destruct (G1 _ _ Hg) as (g' & Hg' & _ & _ & Heq).
      rewrite (Heq Hrev) in Hg'. rewrite (F2 id g) by done. by apply (F1 id g).
Qed.

Lemma later_grant s id g' :
  (∀ g, grants s !! id = Some g → g_limit g' = g_limit g ∧ g_issued g <= g_issued g' ∧
    (g_revoked g = true → g' = g)) → later s (State (<[id := g']> (grants s)) (attempts s)).
Proof.
  intros Hid. split; simpl; [|intros job a Ha; exists a; naive_solver|done].
  intros k g0 Hk. destruct (decide (k = id)) as [->|Hne].
  - exists g'. rewrite lookup_insert_eq. naive_solver.
  - exists g0. rewrite lookup_insert_ne by done. naive_solver lia.
Qed.

Lemma later_attempt s job a' :
  (∀ a, attempts s !! job = Some a → a_grant a' = a_grant a ∧ a_ordinal a' = a_ordinal a ∧ a_consumed a = false) →
  (∀ g, grants s !! a_grant a' = Some g → g_revoked g = false) →
  later s (State (grants s) (<[job := a']> (attempts s))).
Proof.
  intros Ha Hg. split; simpl; [intros id g Hid; exists g; naive_solver lia| |].
  - intros k a Hk. destruct (decide (k = job)) as [->|Hne].
    + exists a'. rewrite lookup_insert_eq. destruct (Ha a Hk) as (? & ? & Hc). rewrite Hc. naive_solver.
    + exists a. rewrite lookup_insert_ne by done. naive_solver.
  - intros id g Hid Hrev k a <-. destruct (decide (k = job)) as [->|Hne]; [|by rewrite lookup_insert_ne].
    rewrite lookup_insert_eq. split.
    + intros [= <-]. specialize (Hg _ Hid). congruence.
    + intros Hk. destruct (Ha a Hk) as (Heq & _ & _). rewrite <-Heq in Hid. specialize (Hg _ Hid). congruence.
Qed.

Lemma step_later s s' : step s s' → later s s'.
Proof.
  destruct 1.
  - apply later_grant. congruence.
  - apply later_grant. intros g0 Hg0. replace g0 with g by congruence. destruct g. simpl.
    split_and!; [done|lia|]. by intros ->.
  - transitivity (State (grants s) (<[job := Attempt id (g_issued g + 1) false]> (attempts s))).
    + apply later_attempt; [congruence|]. simpl. congruence.
    + apply (later_grant (State (grants s) _)). simpl. intros g0 Hg0. replace g0 with g by congruence.
      split_and!; [done|lia|congruence].
  - apply later_attempt; simpl.
    + intros a0 Ha0. replace a0 with a by congruence. done.
    + congruence.
Qed.
