(* ===== verification/IssuanceSafety.v ===== *)
(** * Safety of managed issuance

    What a managed permission rests on, the abstract permission machine that
    the issuer implements, and what it gives with the job queue: an approval
    issues no more contracts than it allows, a contract is consumed once, a
    revocation is final, and budgets hold. *)
From S2P Require Import Prelude PyStr Policy Json Digest Base64 Time Models Access LocalAuth Assessments TestCases.
From S2P Require Import JobConfig Execution Jobs Engagements JobSafety Upload Wire Authority Issuance Results Permission.

(** ** The clock *)

Definition clock_at (d : db) : option time := mk_observed <$> first_row is_clock (managed_clock d).

Lemma first_row_update {A} (p q : A → bool) (f : A → A) l :
  (∀ x, p (f x) = p x) →
  first_row p (update_rows q f l) = (λ x, if q x then f x else x) <$> first_row p l.
Proof.
  intros Hf. induction l as [|x l IH]; [done|]. unfold first_row, update_rows in *. simpl.
  assert (p (if q x then f x else x) = p x) as -> by (destruct (q x); [apply Hf|done]).
  destruct (p x); [done|apply IH].
Qed.

Lemma first_row_app {A} (p : A → bool) l l' :
  first_row p (l ++ l') = match first_row p l with Some x => Some x | None => first_row p l' end.
Proof. induction l as [|x l IH]; [done|]. unfold first_row in *. simpl. by destruct (p x). Qed.

(** One row per primary key. *)
Definition one_clock (d : db) : Prop := NoDup (map mk_id (managed_clock d)).

(** A write of the clock touches nothing else, and never turns it back. *)
Record clock_write (d d' : db) (t : time) : Prop := {
  cw_same : ∃ v, d' = set_managed_clock v d;
  cw_now : clock_at d' = Some t;
  cw_forward : ∀ t0, clock_at d = Some t0 → t0 <= t;
  cw_one : one_clock d';
}.

Lemma observe_spec now d d' u :
  one_clock d → _observe now d = Ok (u, d') → ∃ t, now = Ok t ∧ clock_write d d' t.
Proof.
  unfold _observe, one_clock. intros Hone (t & -> & Ho)%rbind_ok. exists t. split; [done|].
  destruct (first_row is_clock (managed_clock d)) as [row|] eqn:E.
  - apply rbind_ok in Ho as ([] & Hle%require_ok & [= _ <-]). apply Z.leb_le in Hle.
    split; [eauto| | |].
    + unfold clock_at. simpl. rewrite first_row_update by done. rewrite E.
      apply first_row_Some in E as [_ E]. simpl. by rewrite E.
    + unfold clock_at. rewrite E. by intros ? [= <-].
    + unfold one_clock. simpl. by rewrite map_update_rows.
  - injection Ho as _ <-. split; [eauto| |unfold clock_at; by rewrite E|].
    + unfold clock_at. simpl. by rewrite first_row_app, E.
    + unfold one_clock. simpl. rewrite map_app. apply NoDup_snoc; [done|]. intros Hin.
      apply list_elem_of_fmap in Hin as (c & Hc & Hin). apply (proj1 (first_row_None _ _)) with (x := c) in E; [|done].
      unfold is_clock in E. rewrite <-Hc in E. done.
Qed.

Lemma locked_time_spec now d d' :
  one_clock d → _locked_time now d = Ok d' → ∃ t, now = Ok t ∧ clock_write d d' t.
Proof.
  unfold _locked_time, one_clock. intros Hone (t & -> & Ho)%rbind_ok. exists t. split; [done|].
  destruct (first_row _ (managed_clock d)) as [row|] eqn:E; [|done]. injection Ho as <-.
  apply first_row_Some in E as [Hin Hrow]. apply andb_true_iff in Hrow as [Hid Hle]. apply Z.leb_le in Hle.
  assert (Hfirst : first_row is_clock (managed_clock d) = Some row).
  { destruct (first_row is_clock (managed_clock d)) as [c|] eqn:Ec.
    - apply first_row_Some in Ec as [Hc Hcid]. f_equal. apply (NoDup_map_inj mk_id (managed_clock d)); try done.
      unfold is_clock in *. bool_simpl. congruence.
    - apply (proj1 (first_row_None _ _)) with (x := row) in Ec; [congruence|done]. }
  split; [eauto| | |].
  - unfold clock_at. simpl. rewrite first_row_update by done. rewrite Hfirst. simpl.
    rewrite Hid. by rewrite (proj2 (Z.leb_le _ _) Hle).
  - unfold clock_at. rewrite Hfirst. by intros ? [= <-].
  - unfold one_clock. simpl. by rewrite map_update_rows.
Qed.

(** ** What a permission rests on *)

Section Permissions.
Context `{Ed25519}.
Context (float_of : string → option pyfloat) (outside : string → result json).
Context (iss : Issuer).
#[local] Abbreviation wire_approval := (approval float_of outside (is_wire iss)).

(** The stored authority projects onto the plan, at the engagement's own
    revision, and the permission's limits are in the context. *)
Record authorized (d : db) (job : ScanJob) (actor authorization_id : string) (plan permission : json)
    (revision : Z) (statuses : list string) (r : IssuanceRequest) : Prop := {
  az_revision : ∃ e, engagements d !! j_program_id job = Some e ∧ e_managed_authority_revision e = revision;
  az_projected : ∃ p r0, projected d (j_id job) actor p statuses r0 ∧ pr_plan p = plan
    ∧ pr_authorization_id p = authorization_id ∧ ir_case r = ir_case r0;
  az_limit : ∃ n, dget "max_executions" (ir_context r) = JInt n
    ∧ int_field permission "max_executions" = Ok n ∧ 1 <= n <= 1000;
  az_actual : dget "authority_revision" (ir_context r) = JInt revision;
}.

Lemma dget_dset_ne k k' v d : k ≠ k' → dget k (dset k' v d) = dget k d.
Proof. intros Hne. unfold dget. by rewrite lookup_dset_ne. Qed.

Lemma projection_sound d job actor m authorization_id plan permission revision statuses r :
  _projection iss d job actor m authorization_id plan permission revision statuses = Ok r →
  authorized d job actor authorization_id plan permission revision statuses r.
Proof.
  unfold _projection. intros (e & He & Hr)%rbind_ok. unfold engagement_get in He.
  destruct (engagements d !! j_program_id job) as [e'|] eqn:Ee; [|done]. injection He as ->.
  apply rbind_ok in Hr as ([] & Hrev%require_ok & Hr). apply Z.eqb_eq in Hrev.
  apply rbind_ok in Hr as (n & Hn & Hr). apply rbind_ok in Hr as (du & Hdu & Hr).
  apply rbind_ok in Hr as (ar & Har & Hr). apply rbind_ok in Hr as (ex & Hex & Hr).
  apply rbind_ok in Hr as (gr & Hgr & Hr). apply rbind_ok in Hr as (st & Hst & Hr).
  apply rbind_ok in Hr as (r0 & Hr0%project_sound & Hr). apply rbind_ok in Hr as (h & _ & [= <-]).
  apply rbind_ok in Hn as (v & Hv & [-> Hn]%integer_ok).
  split; cbn [ir_context ir_case].
  - exists e. by rewrite Ee.
  - eexists _, r0. by split_and!.
  - exists n. rewrite dget_dset_ne by done. split_and!; [by rewrite (pj_executions _ _ _ _ _ _ Hr0)| |lia..].
    unfold int_field. by rewrite Hv.
  - rewrite dget_dset_ne by done. by rewrite (pj_revision _ _ _ _ _ _ Hr0).
Qed.

(** What a runner's request under an approval has been checked for. *)
Record permitted (d : db) (header : string) (job : ScanJob) (body : ClaimControl) (statuses : list string)
    (t : time) (a : ManagedApproval) (r : IssuanceRequest) : Prop := {
  pm_row : approval_row d (j_managed_approval_id job) = Some a;
  pm_live : ma_revoked a = false;
  pm_job : ma_job_id a = j_id job ∧ ma_engagement_id a = j_program_id job;
  pm_runner : ∃ m key, m ∈ managed_enrollments d ∧ me_id m = ma_enrollment_id a ∧ me_revoked m = false
    ∧ me_owner m = ma_owner a ∧ me_runner_id m = cc_runner_id body ∧ me_principal_hash m = sha256_hex header
    ∧ key ∈ api_keys d ∧ ak_id key = me_api_key_id m ∧ ak_key_hash key = sha256_hex (drop_string 7 header);
  pm_authorized : authorized d job (ma_owner a) (ma_authorization_id a) (ma_plan a) (ma_context a)
    (ma_revision a) statuses r;
  pm_approved : ∃ payload, approved float_of outside (is_wire iss) (ma_envelope a) (JObj (ir_context r))
    (ma_owner a) (utc t) payload;
}.

Lemma enrollment_sound d id owner m key :
  _enrollment iss d id owner = Ok (m, key) →
  m ∈ managed_enrollments d ∧ me_id m = id ∧ me_revoked m = false ∧ me_owner m = owner
  ∧ key ∈ api_keys d ∧ ak_id key = me_api_key_id m.
Proof.
  unfold _enrollment. destruct (first_row _ (managed_enrollments d)) as [row|] eqn:Em; [|done].
  intros ([] & Hok%require_ok & Hr)%rbind_ok.
  destruct (first_row _ (api_keys d)) as [k|] eqn:Ek; [|done].
  apply rbind_ok in Hr as ([] & _ & Hr). apply rbind_ok in Hr as (z & _ & [= <- <-]).
  apply first_row_Some in Em as [Hm Hid]. apply first_row_Some in Ek as [Hk Hkid]. by bool_simpl.
Qed.

Lemma enrolled_sound header body m key :
  enrolled iss header body m key = Ok true →
  ak_key_hash key = sha256_hex (drop_string 7 header) ∧ me_principal_hash m = sha256_hex header
  ∧ me_runner_id m = cc_runner_id body.
Proof.
  unfold enrolled. destruct (startswith header "Bearer vmap_") eqn:Eh; [|done]. simpl.
  destruct (String.eqb _ (ak_key_hash key)) eqn:Ek; [|done]. simpl. unfold principal. rewrite Eh.
  intros [= Hb]. bool_simpl. by split_and!.
Qed.

Lemma claim_permission_sound d header job body now statuses a r :
  _claim_permission float_of outside iss d header job body now statuses = Ok (a, r) →
  ∃ t, now = Ok t ∧ permitted d header job body statuses t a r.
Proof.
  unfold _claim_permission. destruct (approval_row d _) as [row|] eqn:Ea; [|done].
  intros ([] & Hok%require_ok & Hr)%rbind_ok. apply rbind_ok in Hr as ([m key] & Hm & Hr).
  apply rbind_ok in Hr as (ok & Hen & Hr). apply rbind_ok in Hr as ([] & Ht%require_ok & Hr). subst ok.
  apply rbind_ok in Hr as (r0 & Hp%projection_sound & Hr). apply rbind_ok in Hr as (t & Hnow & Hr).
  apply rbind_ok in Hr as (payload & Hw%approval_sound & [= <- <-]).
  apply enrollment_sound in Hm as (? & ? & ? & ? & ? & ?). apply enrolled_sound in Hen as (? & ? & ?).
  bool_simpl. exists t. split; [done|]. split; eauto 20.
Qed.
End Permissions.

(** ** What the job queue does to a managed job

    Nothing but the issuer marks a job, and only a job without a mark gets an
    owner from the queue. *)

Definition mark := j_managed_approval_id.

Definition marks (d d' : db) : Prop := ∀ k j', scan_jobs d' !! k = Some j' →
  mark j' = None ∨ ∃ j, scan_jobs d !! k = Some j ∧ mark j = mark j' ∧
    (is_Some (job_executions d' !! k) → is_Some (job_executions d !! k)).

Lemma marks_sub d d' :
  (∀ k j', scan_jobs d' !! k = Some j' → ∃ j, scan_jobs d !! k = Some j ∧ mark j = mark j') →
  (∀ k, is_Some (job_executions d' !! k) → is_Some (job_executions d !! k)) → marks d d'.
Proof. intros Hj Hx k j' (j & Hk & Hm)%Hj. right. exists j. auto. Qed.

Lemma marks_same d d' : scan_jobs d' = scan_jobs d → job_executions d' = job_executions d → marks d d'.
Proof. intros Hj Hx. apply marks_sub; rewrite ?Hj, ?Hx; eauto. Qed.

Lemma marks_put_job d j j' :
  scan_jobs d !! j_id j' = Some j → mark j' = mark j → marks d (set_job j' d).
Proof.
  intros Hj Hm. apply marks_sub; [|done]. intros k j1. simpl.
  intros [[<- <-]|[_ Hk]]%lookup_insert_Some; eauto.
Qed.

Lemma insert_owner (m : gmap string JobExecution) i x y k :
  m !! i = Some x → is_Some (<[i := y]> m !! k) → is_Some (m !! k).
Proof.
  intros Hx [z Hz]. apply lookup_insert_Some in Hz as [[<- _]|[_ Hz]]; eauto.
Qed.

Lemma marks_put_execution d x x' :
  job_executions d !! x_job_id x' = Some x → marks d (set_execution x' d).
Proof. intros Hx. apply marks_sub; simpl; [eauto|]. intros k. by eapply insert_owner. Qed.

Lemma fail_all_marks now message jobs d k j' :
  scan_jobs (fail_all now message jobs d) !! k = Some j' →
  ∃ j, (scan_jobs d !! k = Some j ∨ (j ∈ jobs ∧ j_id j = k)) ∧ mark j = mark j'.
Proof.
  revert d. induction jobs as [|i jobs IH]; intros d; simpl; [eauto|].
  intros (j & [Hj|[Hin Hid]] & Hm)%IH.
  2: { exists j. split; [right; split; [by right|done]|done]. }
  destruct (message i); [|eauto]. simpl in Hj. apply lookup_insert_Some in Hj as [[<- <-]|[_ Hj]]; [|eauto].
  exists i. split; [right; split; [left|done]|done].
Qed.

Lemma queue_marks now u d : attempts_wf d → marks d (queue_effect now u d).
Proof.
  intros Hwf. assert (Hp : ∀ j, j ∈ pending_jobs u d → scan_jobs d !! j_id j = Some j)
    by (intros j Hj; by apply (elem_of_pending_jobs u d j Hwf)).
  apply marks_sub; [|by unfold queue_effect; rewrite !fail_all_executions].
  intros k j' (j1 & Hj1 & Hm1)%fail_all_marks.
  destruct Hj1 as [(j2 & Hj2 & Hm2)%fail_all_marks|[[Hin _]%elem_of_rows <-]]; [|eauto].
  destruct Hj2 as [Hj2|[Hin <-]]; eauto using eq_trans.
Qed.

Lemma update_job_marks job_id body now u d r d' :
  attempts_wf d → update_job job_id body now u d = Ok (r, d') → marks d d'.
Proof.
  intros Hwf H. apply rbind_ok in H as (job & Hj%lock_job_lookup & H).
  apply rbind_ok in H as ([] & _ & H). apply rbind_ok in H as (e & _ & H).
  destruct (job_executions d !! job_id) as [x|] eqn:Hx.
  - apply rbind_ok in H as (? & _ & H). destruct (_ && _); [|done]. injection H as _ <-.
    apply (marks_put_execution d x). rewrite <-Hx. f_equal.
    rewrite <-(wf_exec_key d Hwf _ _ Hx). simpl. by case_match.
  - destruct (_ && _); [injection H as _ <-; by apply marks_same|].
    apply rbind_ok in H as (al & _ & H). destruct (negb al); [done|]. injection H as _ <-.
    apply (marks_put_job d job).
    + by rewrite (proj1 (patched_fields body now job)), (wf_job_key d Hwf _ _ Hj).
    + unfold mark, patched. by destruct (_ || _), (su_error_message body).
Qed.

Lemma finish_execution_marks job_id body auth now u d :
  attempts_wf d → marks d (finish_execution job_id body auth now u d).2.
Proof.
  intros Hwf. unfold finish_execution. destruct (rbind _ _) as [[[x job] e]|] eqn:H; [|by apply marks_same].
  apply rbind_ok in H as (x0 & [Hx _]%owned_spec & H).
  apply rbind_ok in H as (job0 & Hjob & H). apply rbind_ok in H as (e0 & _ & H).
  destruct (managed job0); [done|]. injection H as -> -> ->.
  unfold job_one in Hjob. destruct (scan_jobs d !! job_id) as [j1|] eqn:Ej; [|done]. injection Hjob as ->.
  pose proof (wf_exec_key d Hwf _ _ Hx) as Hxid. pose proof (wf_job_key d Hwf _ _ Ej) as Hid.
  destruct (mem (x_state x) final_states); [by case_match; apply marks_same|].
  destruct (_ && _); [apply (marks_put_execution d x); simpl; by rewrite Hxid|].
  destruct (bool_decide _); [apply (marks_put_execution d x); simpl; by rewrite Hxid|].
  apply marks_sub; simpl.
  - intros k j'. intros [[<- <-]|[_ Hk]]%lookup_insert_Some; [|eauto]. exists job. by rewrite Hid.
  - intros k. eapply insert_owner. simpl. by rewrite Hxid.
Qed.

Lemma claim_marks job_id u auth token body now before d r d' :
  attempts_wf d → claim_job job_id u auth token body now before d = Ok (r, d') → marks d d'.
Proof.
  intros Hwf (pending & row & e & snap & _ & _ & _ & _ & Hrow & ex & Hw & _)%claim_job_facts.
  assert (Hnone : mark row = None).
  { unfold claimable in Hrow. destruct (visible_job _ _ _) as [j|]; [|done]. case_match; [|done].
    injection Hrow as ->. bool_simpl. unfold mark. destruct (j_managed_approval_id row); [|done]. naive_solver. }
  apply claimable_spec in Hrow as ([Hrow _]%visible_job_spec & _ & _).
  apply claim_write_spec in Hw as (e' & _ & Hjobs & _ & Hx). rewrite (wf_job_key d Hwf _ _ Hrow) in Hjobs.
  intros k j'. rewrite Hjobs. intros [[<- <-]|[Hne Hk]]%lookup_insert_Some; [by left|].
  right. exists j'. split_and!; [done|done|].
  destruct Hx as [(_ & _ & ->)|(b & x & _ & _ & -> & _)]; [done|]. by rewrite lookup_insert_ne.
Qed.

Lemma add_stages_marks p owner now prev stages configs ids d :
  let d' := (add_stages p owner now prev stages configs ids d).2 in
  job_executions d' = job_executions d ∧
  ∀ k j', scan_jobs d' !! k = Some j' → mark j' = None ∨ scan_jobs d !! k = Some j'.
Proof.
  revert prev configs ids d. induction stages as [|st stages IH]; intros prev configs ids d; [by auto|].
  destruct configs as [|c configs]; [by auto|]. destruct ids as [|[i l] ids]; [by auto|].
  simpl. destruct (add_stages _ _ _ _ _ _ _ _) as [created d1] eqn:E.
  apply (f_equal snd) in E. simpl in E. rewrite <-E. simpl. destruct (IH (Some i) configs ids
    (log_action l now owner "create" "scan_job" i (Some p)
      (set_job (new_job i p owner (ps_tool_type st) (ps_target_source st) c prev false now) d))) as [-> Hj].
  split; [done|]. intros k j' [Hm|Hk]%Hj; [by left|]. simpl in Hk.
  apply lookup_insert_Some in Hk as [[_ <-]|[_ Hk]]; auto.
Qed.

Lemma job_step_marks d d' : attempts_wf d → job_step d d' → marks d d'.
Proof.
  intros Hwf Hstep. destruct Hstep.
  - intros k j'. repeat apply rbind_ok in H0 as (? & ? & H0). injection H0 as _ <-. simpl.
    intros [[<- <-]|[Hne Hk]]%lookup_insert_Some; [by left|right; eauto].
  - apply create_pipeline_effect in H0 as [configs ->]. 
    intros k j' [Hm|Hk]%add_stages_marks; [by left|]. right. exists j'. split_and!; [done|done|].
    by rewrite (proj1 (add_stages_marks _ _ _ _ _ _ _ _)).
  - rewrite get_pending_jobs_effect. by apply queue_marks.
  - by eapply update_job_marks.
  - by eapply claim_marks.
  - apply rbind_ok in H as (x & [Hx _]%owned_spec & H). apply rbind_ok in H as (job & _ & H).
    apply rbind_ok in H as (e & _ & H). destruct (managed job); [done|]. injection H as _ <-.
    apply (marks_put_execution d x). rewrite <-Hx. f_equal. rewrite <-(wf_exec_key d Hwf _ _ Hx).
    pose proof (proj1 (refreshed_state_fields (bool_decide (is_Some (e_stop_work_at e))) now x)).
    by case_match.
  - by apply finish_execution_marks.
  - unfold create_job_event in H. destruct (visible_job _ _ _); [|done].
    apply rbind_ok in H as (? & _ & H). injection H as _ <-. by apply marks_same.
  - repeat apply rbind_ok in H as (? & ? & H). injection H as _ <-. apply marks_sub; simpl.
    + intros k j' [_ Hk]%lookup_delete_Some. eauto.
    + intros k [y [_ Hk]%lookup_delete_Some]. eauto.
  - apply upload_effect in H as [-> |(job & a & Ejob & Hjobs & Hx & _)]; [by apply marks_same| |done].
    apply marks_sub; [|by rewrite Hx]. intros k j'. rewrite Hjobs.
    intros [[<- <-]|[_ Hk]]%lookup_insert_Some; eauto.
  - repeat apply rbind_ok in H as (? & ? & H). injection H as _ <-. by apply marks_same.
  - repeat apply rbind_ok in H as (? & ? & H). injection H as _ <-. by apply marks_same.
  - repeat apply rbind_ok in H0 as (? & ? & H0). injection H0 as _ <-. by apply marks_same.
  - repeat apply rbind_ok in H as (? & ? & H). injection H as _ <-. apply marks_sub; simpl; [eauto|].
    intros k [y (old & _ & Hold)%lookup_fmap_Some]. eauto.
  - repeat apply rbind_ok in H as (? & ? & H). injection H as _ <-. by apply marks_same.
  - repeat apply rbind_ok in H as (? & ? & H). injection H as _ <-. apply marks_sub; simpl.
    + intros k j' [Hk _]%map_lookup_filter_Some. eauto.
    + intros k [y [Hk _]%map_lookup_filter_Some]. eauto.
  - by apply marks_same.
  - by apply marks_same.
Qed.

(** ** The permission machine of the tables *)

(** A table read as a finite map. *)
Section Index.
Context {A B : Type} (k : A → string) (v : A → B).
Implicit Types (l : list A) (x : A).

Definition index l : gmap string B := list_to_map (map (λ x, (k x, v x)) l).

Lemma index_keys l : (map (λ x, (k x, v x)) l).*1 = map k l.
Proof. induction l as [|x l IH]; [done|]. simpl. f_equal. exact IH. Qed.

Lemma index_None l i : index l !! i = None ↔ i ∉ map k l.
Proof. unfold index. rewrite <-index_keys. symmetry. apply not_elem_of_list_to_map. Qed.

Lemma index_Some l x : NoDup (map k l) → x ∈ l → index l !! k x = Some (v x).
Proof.
  intros Hl Hx. unfold index. apply elem_of_list_to_map_1; [by rewrite index_keys|].
  apply list_elem_of_fmap. eauto.
Qed.

Lemma index_inv l i y : index l !! i = Some y → ∃ x, x ∈ l ∧ k x = i ∧ v x = y.
Proof. intros (x & [= -> ->] & Hx)%elem_of_list_to_map_2%list_elem_of_fmap. eauto. Qed.

Lemma index_snoc l x : k x ∉ map k l → index (l ++ [x]) = <[k x := v x]> (index l).
Proof. intros Hx. unfold index. rewrite map_app. simpl. apply list_to_map_snoc. by rewrite index_keys. Qed.

Lemma update_rows_none (q : A → bool) f l : (∀ x, x ∈ l → q x = false) → update_rows q f l = l.
Proof.
  induction l as [|x l IH]; intros Hq; [done|]. unfold update_rows in *. simpl.
  rewrite Hq by left. f_equal. apply IH. intros y Hy. apply Hq. by right.
Qed.

Lemma index_update (q : A → bool) f l x :
  NoDup (map k l) → x ∈ l → q x = true → (∀ y, y ∈ l → q y = true → k y = k x) → k (f x) = k x →
  index (update_rows q f l) = <[k x := v (f x)]> (index l).
Proof.
  induction l as [|y l IH]; intros Hl Hx Hq Hone Hf; [set_solver|].
  simpl in Hl. apply NoDup_cons in Hl as [Hy Hl]. unfold index, update_rows in *. simpl.
  apply elem_of_cons in Hx as [->|Hx].
  - rewrite Hq, Hf, insert_insert_eq. f_equal. fold (update_rows q f l). rewrite update_rows_none; [done|].
    intros z Hz. destruct (q z) eqn:Ez; [|done]. destruct Hy. rewrite <-(Hone z); [|by right|done].
    apply list_elem_of_fmap. eauto.
  - assert (Hne : k y ≠ k x).
    { intros Heq. destruct Hy. rewrite Heq. apply list_elem_of_fmap. eauto. }
    destruct (q y) eqn:Ey; [destruct Hne; apply Hone; [left|done]|].
    rewrite insert_insert_ne by done. f_equal. apply IH; try done. intros z Hz. apply Hone. by right.
Qed.
End Index.

Definition limit_of (a : ManagedApproval) : Z :=
  match int_field (ma_context a) "max_executions" with Ok n => n | Raise _ => 0 end.
Definition grant_of (a : ManagedApproval) : grant := Grant (limit_of a) (ma_issued a) (ma_revoked a).
Definition attempt_of_contract (c : ManagedContract) : attempt :=
  Attempt (mc_approval_record_id c) (mc_ordinal c) (mc_consumed c).

Definition abs (d : db) : state :=
  State (index ma_id grant_of (managed_approvals d)) (index mc_job_id attempt_of_contract (managed_contracts d)).

(** What the tables of managed issuance keep, and how they hang together with
    the jobs: the attempt of a contract's job runs under its approval. *)
Record managed_wf (d : db) : Prop := {
  mw_clock : one_clock d;
  mw_approval_key : NoDup (map ma_id (managed_approvals d));
  mw_contract_key : NoDup (map mc_id (managed_contracts d));
  mw_contract_job : NoDup (map mc_job_id (managed_contracts d));
  mw_limit : ∀ a, a ∈ managed_approvals d → 1 <= limit_of a <= 1000;
  mw_link : ∀ c j id, c ∈ managed_contracts d → scan_jobs d !! mc_job_id c = Some j →
    is_Some (job_executions d !! mc_job_id c) → mark j = Some id → id = mc_approval_record_id c;
}.

Lemma limit_of_field a n : int_field (ma_context a) "max_executions" = Ok n → limit_of a = n.
Proof. unfold limit_of. by intros ->. Qed.

Lemma approval_row_Some d id a : approval_row d (Some id) = Some a → a ∈ managed_approvals d ∧ ma_id a = id.
Proof. intros [Ha Hid]%first_row_Some. by bool_simpl. Qed.

Lemma approval_row_inv d o a : approval_row d o = Some a → a ∈ managed_approvals d ∧ o = Some (ma_id a).
Proof. destruct o as [id|]; [|done]. by intros [? ->]%approval_row_Some. Qed.

Lemma approval_row_None d id : approval_row d (Some id) = None → id ∉ map ma_id (managed_approvals d).
Proof.
  intros Hn Hin. apply list_elem_of_fmap in Hin as (a & -> & Ha).
  apply (proj1 (first_row_None _ _)) with (x := a) in Hn; [|done]. by rewrite String.eqb_refl in Hn.
Qed.

Lemma contract_of_inv d k c : contract_of d k = Some c → c ∈ managed_contracts d ∧ mc_job_id c = k.
Proof. intros [Hc Hk]%first_row_Some. by bool_simpl. Qed.

Lemma contract_of_None d k : contract_of d k = None → k ∉ map mc_job_id (managed_contracts d).
Proof.
  intros Hn Hin. apply list_elem_of_fmap in Hin as (c & -> & Hc).
  apply (proj1 (first_row_None _ _)) with (x := c) in Hn; [|done]. by rewrite String.eqb_refl in Hn.
Qed.

(** ** Requests that leave the permissions alone *)

Lemma clock_write_set d d' t : clock_write d d' t → ∃ v, d' = set_managed_clock v d.
Proof. by intros [? _ _ _]. Qed.

Lemma managed_wf_same d d' :
  managed_approvals d' = managed_approvals d → managed_contracts d' = managed_contracts d →
  one_clock d' → marks d d' → managed_wf d → managed_wf d'.
Proof.
  intros Ha Hc Hone Hm [H1 H2 H3 H4 H5 H6]. split; rewrite ?Ha, ?Hc; try done.
  intros c j id Hin Hj Hx Hid. destruct (Hm _ _ Hj) as [Hn|(j0 & Hj0 & Hmk & Hx0)]; [congruence|].
  eapply H6; [exact Hin|exact Hj0|by apply Hx0|congruence].
Qed.

Lemma abs_same d d' :
  managed_approvals d' = managed_approvals d → managed_contracts d' = managed_contracts d → abs d' = abs d.
Proof. unfold abs. by intros -> ->. Qed.

Lemma managed_wf_clock d d' t : clock_write d d' t → managed_wf d → managed_wf d' ∧ abs d' = abs d.
Proof.
  intros Hcw Hwf. pose proof (cw_one _ _ _ Hcw) as Hone. destruct (clock_write_set _ _ _ Hcw) as [v ->].
  split; [|done]. by apply (managed_wf_same d); try done; apply marks_same.
Qed.

Lemma jobs_wf_clock d v : jobs_wf d → jobs_wf (set_managed_clock v d).
Proof. apply jobs_wf_ext; [done|done|eauto]. Qed.

(** ** What a request does to the two machines *)

(** The queue's invariant is kept; the permission machine takes at most a step. *)
Record safe_change (d d' : db) : Prop := {
  sc_jobs : jobs_wf d';
  sc_managed : managed_wf d';
  sc_step : abs d' = abs d ∨ Permission.step (abs d) (abs d');
  sc_clock : ∀ t0, clock_at d = Some t0 → ∃ t, clock_at d' = Some t ∧ t0 <= t;
}.

Lemma clock_same d d' : managed_clock d' = managed_clock d →
  ∀ t0, clock_at d = Some t0 → ∃ t, clock_at d' = Some t ∧ t0 <= t.
Proof. unfold clock_at. intros -> t0 Ht. eexists. split; [exact Ht|lia]. Qed.

Lemma safe_frame d d' :
  jobs_wf d' → managed_wf d → managed_approvals d' = managed_approvals d →
  managed_contracts d' = managed_contracts d → managed_clock d' = managed_clock d → marks d d' → safe_change d d'.
Proof.
  intros Hj Hm Ha Hc Hclk Hmk. split; [done| |left; by apply abs_same|by apply clock_same].
  eapply managed_wf_same; try done. unfold one_clock. rewrite Hclk. apply Hm.
Qed.

(** A clock write at the end of a request that keeps the rest. *)
Lemma safe_clock d d1 d' t :
  safe_change d d1 → clock_write d1 d' t → safe_change d d'.
Proof.
  intros [Hj Hm Hs Hc] Hcw. destruct (managed_wf_clock _ _ _ Hcw Hm) as [Hm' Heq].
  destruct (clock_write_set _ _ _ Hcw) as [v ->]. split; [by apply jobs_wf_clock|done|by rewrite Heq|].
  intros t0 (t1 & Ht1 & Hle)%Hc. exists t. split; [apply Hcw|]. pose proof (cw_forward _ _ _ Hcw _ Ht1). lia.
Qed.

Lemma safe_after_clock d d1 d' t :
  managed_wf d → clock_write d d1 t → safe_change d1 d' → safe_change d d'.
Proof.
  intros Hm Hcw [Hc1 Hc2 Hc3 Hc4]. destruct (managed_wf_clock _ _ _ Hcw Hm) as [_ Heq].
  rewrite Heq in Hc3. split; try done. intros t0 Ht0. pose proof (cw_forward _ _ _ Hcw _ Ht0).
  destruct (Hc4 t) as (t' & Ht' & Hle); [apply Hcw|]. exists t'. split; [done|lia].
Qed.

Lemma safe_refl d : jobs_wf d → managed_wf d → safe_change d d.
Proof. intros Hj Hm. split; auto. by apply clock_same. Qed.

Section Changes.
Context `{Ed25519}.
Context (float_of : string → option pyfloat) (outside : string → result json).
Context (iss : Issuer).

(** *** Operators *)

Lemma put_approval_rows row d :
  managed_approvals (put_approval row d)
  = update_rows (λ a, String.eqb (ma_id a) (ma_id row)) (λ _, row) (managed_approvals d).
Proof. done. Qed.

(** Replacing an approval's row. *)
Lemma put_approval_wf d a a' :
  managed_wf d → a ∈ managed_approvals d → ma_id a' = ma_id a → ma_context a' = ma_context a →
  managed_wf (put_approval a' d) ∧
  abs (put_approval a' d) = State (<[ma_id a := grant_of a']> (grants (abs d))) (attempts (abs d)).
Proof.
  intros [H1 H2 H3 H4 H5 H6] Ha Hid Hctx.
  assert (Hkeys : map ma_id (managed_approvals (put_approval a' d)) = map ma_id (managed_approvals d)).
  { rewrite put_approval_rows. unfold update_rows. rewrite map_map. apply map_ext_in. intros b Hb.
    destruct (String.eqb_spec (ma_id b) (ma_id a')); congruence. }
  split.
  - split; rewrite ?Hkeys; try done.
    intros b Hb. rewrite put_approval_rows in Hb. apply elem_of_update_rows in Hb as (b0 & Hb0 & ->).
    case_match; [|by apply H5]. unfold limit_of. rewrite Hctx. by apply H5.
  - unfold abs. f_equal. rewrite put_approval_rows. rewrite (index_update ma_id grant_of _ _ _ a); try done.
    + rewrite Hid. apply String.eqb_refl.
    + intros b _ Hb. bool_simpl. congruence.
Qed.

Lemma revoke_change job_id actor now d r d' :
  jobs_wf d → managed_wf d → revoke job_id actor now d = Ok (r, d') → safe_change d d'.
Proof.
  intros Hj Hm H0. apply rbind_ok in H0 as (job & _ & H0).
  destruct (approval_row d _) as [row|] eqn:Ea; [|done]. apply rbind_ok in H0 as ([] & _ & H0).
  apply rbind_ok in H0 as (d1 & (t & _ & Hcw)%locked_time_spec & [= _ <-]); [|apply Hm].
  apply approval_row_inv in Ea as [Ha _]. destruct (managed_wf_clock _ _ _ Hcw Hm) as [Hm1 _].
  eapply safe_after_clock; [done|exact Hcw|]. destruct (clock_write_set _ _ _ Hcw) as [v ->].
  destruct (put_approval_wf (set_managed_clock v d) row (ma_set_revoked true row) Hm1 Ha) as [Hm2 Habs];
    [done|done|].
  split; [|done| |by apply clock_same].
  - apply (jobs_wf_ext d); [done|done|eauto|done].
  - right. rewrite Habs. apply (step_withdraw _ _ (grant_of row)).
    apply (index_Some ma_id grant_of); [apply Hm1|done].
Qed.

Lemma review_locked_ok d job actor enr auth plan perm r :
  _review_locked iss d job actor enr auth plan perm = Ok r →
  j_status job = "pending" ∧ ∃ e, authorized d job actor auth plan perm (e_managed_authority_revision e) ["pending"] r.
Proof.
  unfold _review_locked. intros ([] & Hp%require_ok & Hr)%rbind_ok. apply rbind_ok in Hr as ([m key] & _ & Hr).
  apply rbind_ok in Hr as (e & _ & Hr%projection_sound). bool_simpl. eauto.
Qed.

Lemma mark_job_wf d id job :
  jobs_wf d → scan_jobs d !! j_id job = Some job → j_status job = "pending" → jobs_wf (mark_job id job d).
Proof.
  intros Hwf Hj Hp. apply set_job_wf; [done| |].
  - by eapply pending_no_owner; [apply Hwf|exact Hj|].
  - simpl. intros j0 Hj0. congruence.
Qed.

Lemma register_new_change enr auth plan envelope actor job record_id approval_id context now d r d' :
  jobs_wf d → managed_wf d → scan_jobs d !! j_id job = Some job → approval_row d (Some record_id) = None →
  register_new float_of outside iss enr auth plan envelope actor job record_id approval_id context now d = Ok (r, d') →
  safe_change d d'.
Proof.
  intros Hj Hm Hjob Hnone H0. unfold register_new in H0.
  apply rbind_ok in H0 as (q & [Hp (e & Hq)]%review_locked_ok & H0). apply rbind_ok in H0 as (t1 & _ & H0).
  apply rbind_ok in H0 as (p1 & _ & H0). cbv zeta in H0. set (row := MkManagedApproval _ _ _ _ _ _ _ _ _ _ _ _ _ _ _) in H0.
  apply rbind_ok in H0 as (d2 & (t2 & _ & Hcw)%locked_time_spec & H0); [|apply Hm].
  apply rbind_ok in H0 as (t3 & _ & H0). apply rbind_ok in H0 as (p2 & _ & [= _ <-]).
  eapply safe_clock, Hcw. clear Hcw. apply approval_row_None in Hnone.
  destruct (az_limit _ _ _ _ _ _ _ _ _ Hq) as (n & Hn & _ & Hn1).
  assert (Hlimit : limit_of row = n).
  { apply limit_of_field. unfold int_field, row. cbn [ma_context json_index]. unfold dget in Hn.
    destruct (lookup_key "max_executions" (ir_context q)); simpl in *; by subst. }
  set (d1 := set_managed_approvals (managed_approvals d ++ [row]) d).
  assert (Hj1 : jobs_wf (mark_job record_id job d1)).
  { apply mark_job_wf; [|done|done]. apply (jobs_wf_ext d); [done|done|eauto|done]. }
  destruct Hm as [H1 H2 H3 H4 H5 H6]. split; [done| | |by apply clock_same].
  - split; try done; unfold mark_job, set_job, d1; cbn.
    + rewrite map_app. by apply NoDup_snoc.
    + intros a [Ha|Ha%list_elem_of_singleton]%elem_of_app; [by apply H5|]. rewrite Ha, Hlimit. lia.
    + intros c j id Hc. intros [[Hk <-]|[_ Hk]]%lookup_insert_Some; [|by apply H6].
      intros [x Hx]. exfalso. pose proof (pending_no_owner d (j_id job) job (proj1 Hj) Hjob Hp).
      rewrite <-Hk in Hx. simpl in Hx. congruence.
  - right. assert (Habs : abs (mark_job record_id job d1)
      = State (<[record_id := Grant (limit_of row) 0 false]> (grants (abs d))) (attempts (abs d))).
    { unfold abs. f_equal. by apply (index_snoc ma_id grant_of (managed_approvals d) row). }
    rewrite Habs. apply (step_grant (abs d)); [|rewrite Hlimit; lia]. by apply index_None.
Qed.

Lemma register_change job_id enr auth plan envelope actor now d r d' :
  jobs_wf d → managed_wf d →
  register float_of outside iss job_id enr auth plan envelope actor now d = Ok (r, d') → safe_change d d'.
Proof.
  intros Hj Hm H0. unfold register in H0. apply rbind_ok in H0 as (job & Hjob%lock_job_lookup & H0).
  apply rbind_ok in H0 as (v & _ & H0). apply rbind_ok in H0 as (data & _ & H0).
  apply rbind_ok in H0 as (payload & _ & H0). apply rbind_ok in H0 as (context & _ & H0).
  apply rbind_ok in H0 as (t & _ & H0). apply rbind_ok in H0 as (receipt & _ & H0).
  apply rbind_ok in H0 as (i & _ & H0). cbv zeta in H0.
  assert (Hjob' : scan_jobs d !! j_id job = Some job) by (by rewrite (wf_job_key d (proj1 Hj) _ _ Hjob)).
  destruct (approval_row d _) as [existing|] eqn:Ea; [|by eapply register_new_change].
  unfold register_again in H0. apply rbind_ok in H0 as (same & _ & H0). apply rbind_ok in H0 as ([] & _ & H0).
  apply rbind_ok in H0 as ([] & _ & H0).
  apply rbind_ok in H0 as (d1 & (t1 & _ & Hcw)%locked_time_spec & [= _ <-]); [|apply Hm].
  eapply safe_clock, Hcw. by apply safe_refl.
Qed.

(** *** Runners *)

(** What [live] found, and the clock it left. *)
Record alive (d : db) (job_id header : string) (body : ControlRequest) (contract_id attempt_id : string)
    (fence : Z) (now : nat → result time) (control : nat → time) (l : Live) (d1 : db) : Prop := {
  al_execution : job_executions d !! job_id = Some (lv_execution l);
  al_job : scan_jobs d !! job_id = Some (lv_job l);
  al_contract : contract_of d job_id = Some (lv_contract l);
  al_named : mc_id (lv_contract l) = contract_id ∧ mc_attempt_id (lv_contract l) = attempt_id
    ∧ mc_fence (lv_contract l) = fence;
  al_permitted : ∃ t, now 0%nat = Ok t ∧
    permitted float_of outside iss d header (lv_job l) (cr_claim body) ["running"] t (lv_approval l) (lv_request l);
  al_active : x_state (lv_execution l) = "active" ∧ control 0%nat < x_expires_at (lv_execution l);
  al_clock : ∃ t, now 1%nat = Ok t ∧ clock_write d d1 t;
}.

Lemma live_sound job_id header user body contract_id attempt_id fence now control d l d1 :
  one_clock d →
  live float_of outside iss job_id header user body contract_id attempt_id fence now control d = Ok (l, d1) →
  alive d job_id header body contract_id attempt_id fence now control l d1.
Proof.
  intros Hone H0. unfold live in H0. apply rbind_ok in H0 as (x & [Hx _]%owned_spec & H0).
  apply rbind_ok in H0 as (job & Hjob%lock_job_lookup & H0).
  destruct (contract_of d job_id) as [c|] eqn:Ec; [|done].
  apply rbind_ok in H0 as ([] & Hn%require_ok & H0). apply rbind_ok in H0 as ([a r] & Hp%claim_permission_sound & H0).
  apply rbind_ok in H0 as (d2 & Hcw%locked_time_spec & H0); [|done].
  apply rbind_ok in H0 as ([] & Hs%require_ok & H0). apply rbind_ok in H0 as (t & _ & H0).
  apply rbind_ok in H0 as (p & _ & [= <- <-]). bool_simpl. split; simpl; eauto.
Qed.

Lemma current_change job_id header user body cid aid fence now control d r d' :
  jobs_wf d → managed_wf d →
  current float_of outside iss job_id header user body cid aid fence now control d = Ok (r, d') → safe_change d d'.
Proof.
  intros Hj Hm H0. apply rbind_ok in H0 as ([l d1] & Hl%live_sound & [= _ <-]); [|apply Hm].
  destruct (al_clock _ _ _ _ _ _ _ _ _ _ _ Hl) as (t & _ & Hcw). eapply safe_clock, Hcw. by apply safe_refl.
Qed.

(** A longer lease on a running attempt. *)
Lemma lease_change d x t :
  jobs_wf d → managed_wf d → job_executions d !! x_job_id x = Some x →
  safe_change d (set_execution (x_set_expires_at t x) d).
Proof.
  intros Hj Hm Hx. apply safe_frame; try done.
  - destruct (wf_attempt d (proj1 Hj) _ _ Hx) as (j & Hk & Ha).
    apply (set_execution_wf d x (x_set_expires_at t x) j); done.
  - by apply (marks_put_execution d x).
Qed.

Lemma refresh_change job_id header user body cid aid fence now control d r d' :
  jobs_wf d → managed_wf d →
  refresh float_of outside iss job_id header user body cid aid fence now control d = Ok (r, d') → safe_change d d'.
Proof.
  intros Hj Hm H0. apply rbind_ok in H0 as ([l d1] & Hl%live_sound & H0); [|apply Hm].
  destruct (al_clock _ _ _ _ _ _ _ _ _ _ _ Hl) as (t & _ & Hcw).
  pose proof (al_execution _ _ _ _ _ _ _ _ _ _ _ Hl) as Hx.
  apply rbind_ok in H0 as (t1 & _ & H0). destruct (j_started_at (lv_job l)) as [started|]; [|done].
  apply rbind_ok in H0 as ([] & _ & H0). apply rbind_ok in H0 as (ends & _ & H0).
  cbv zeta in H0. apply rbind_ok in H0 as ([] & _ & H0).
  assert (Hone : one_clock d1) by apply Hcw. destruct (clock_write_set _ _ _ Hcw) as [v ->].
  apply rbind_ok in H0 as (d2 & (t2 & _ & Hcw2)%locked_time_spec & H0); [|done].
  apply rbind_ok in H0 as (t3 & _ & H0). apply rbind_ok in H0 as ([] & _ & H0).
  apply rbind_ok in H0 as (s & _ & [= _ <-]). eapply safe_clock, Hcw2.
  destruct (managed_wf_clock _ _ _ Hcw Hm) as [Hm1 _]. eapply safe_after_clock; [done|exact Hcw|].
  apply lease_change; [by apply jobs_wf_clock|done|]. simpl. by rewrite (wf_exec_key d (proj1 Hj) _ _ Hx).
Qed.

(** The one row a consumption may touch. *)
Lemma consume_row_change d c :
  jobs_wf d → managed_wf d → c ∈ managed_contracts d → mc_consumed c = false →
  (∃ a, a ∈ managed_approvals d ∧ ma_id a = mc_approval_record_id c ∧ ma_revoked a = false) →
  safe_change d (set_managed_contracts
    (update_rows (λ c', String.eqb (mc_id c') (mc_id c) && negb (mc_consumed c')) (mc_set_consumed true)
       (managed_contracts d)) d).
Proof.
  intros Hj Hm Hc Hcon (a & Ha & Hid & Hrev). destruct Hm as [H1 H2 H3 H4 H5 H6].
  assert (Honly : ∀ c', c' ∈ managed_contracts d →
    String.eqb (mc_id c') (mc_id c) && negb (mc_consumed c') = true → c' = c).
  { intros c' Hc' Hq. bool_simpl. by apply (NoDup_map_inj mc_id (managed_contracts d)). }
  split; [| | |by apply clock_same].
  - apply (jobs_wf_ext d); [done|done|eauto|done].
  - split; simpl; try done; rewrite ?map_update_rows; try done.
    intros c1 j id (c0 & Hc0 & Heq)%elem_of_update_rows.
    assert (mc_job_id c1 = mc_job_id c0 ∧ mc_approval_record_id c1 = mc_approval_record_id c0) as [-> ->]
      by (rewrite Heq; by case_match). by apply H6.
  - right. unfold abs. simpl. rewrite (index_update mc_job_id attempt_of_contract _ _ _ c); try done.
    + apply (step_launch (abs d) (mc_job_id c) (attempt_of_contract c) (grant_of a)); try done.
      * by apply (index_Some mc_job_id attempt_of_contract).
      * simpl. rewrite <-Hid. by apply (index_Some ma_id grant_of).
    + by rewrite String.eqb_refl, Hcon.
    + intros c' Hc' Hq. by rewrite (Honly c' Hc' Hq).
Qed.

(** A running attempt's approval is the one its contract was issued under. *)
Lemma alive_approval d job_id header body cid aid fence now control l d1 :
  managed_wf d → alive d job_id header body cid aid fence now control l d1 →
  lv_contract l ∈ managed_contracts d ∧ mc_job_id (lv_contract l) = job_id
  ∧ lv_approval l ∈ managed_approvals d ∧ ma_id (lv_approval l) = mc_approval_record_id (lv_contract l)
  ∧ ma_revoked (lv_approval l) = false.
Proof.
  intros Hm [Hx Hjob Hc _ (t & _ & Hp) _ _]. apply contract_of_inv in Hc as [Hc Hk].
  destruct Hp as [Hrow Hrev _ _ _ _]. apply approval_row_inv in Hrow as [Ha Hid].
  split_and!; try done. apply (mw_link d Hm (lv_contract l) (lv_job l)); rewrite ?Hk; eauto.
Qed.

Lemma consume_change job_id header user body cid aid fence sha now control d r d' :
  jobs_wf d → managed_wf d →
  consume float_of outside iss job_id header user body cid aid fence sha now control d = Ok (r, d') → safe_change d d'.
Proof.
  intros Hj Hm H0. apply rbind_ok in H0 as ([l d1] & Hl%live_sound & H0); [|apply Hm].
  destruct (al_clock _ _ _ _ _ _ _ _ _ _ _ Hl) as (t & _ & Hcw).
  destruct (alive_approval _ _ _ _ _ _ _ _ _ _ _ Hm Hl) as (Hc & Hk & Ha & Hid & Hrev).
  destruct (managed_wf_clock _ _ _ Hcw Hm) as [Hm1 Heq]. destruct (clock_write_set _ _ _ Hcw) as [v ->].
  unfold consume_contract in H0. apply rbind_ok in H0 as (h & _ & H0). apply rbind_ok in H0 as ([] & _ & H0).
  destruct (first_row _ _) as [c'|] eqn:Ef; [|done]. apply first_row_Some in Ef as [Hc' Hq]. cbv zeta in H0.
  assert (mc_consumed (lv_contract l) = false) as Hcon.
  { bool_simpl. replace (lv_contract l) with c'; [done|].
    apply (NoDup_map_inj mc_id (managed_contracts d)); [apply Hm|done|done|done]. }
  apply rbind_ok in H0 as (d2 & (t2 & _ & Hcw2)%locked_time_spec & H0); [|apply Hm1].
  apply rbind_ok in H0 as (t3 & _ & H0). apply rbind_ok in H0 as (p & _ & H0).
  apply rbind_ok in H0 as (t4 & _ & H0). apply rbind_ok in H0 as ([] & _ & [= _ <-]). eapply safe_clock, Hcw2.
  eapply safe_after_clock; [done|exact Hcw|].
  apply (consume_row_change (set_managed_clock v d)); try done; [by apply jobs_wf_clock|]. eauto.
Qed.

(** The rows of a claim: ownership, fees and the job, under the approval. *)
Lemma claim_rows_spec job header token user body a snapshot now at_ e d r d' :
  claim_rows job header token user body a snapshot now at_ e d = Ok (r, d') →
  ∃ t e' x, now = Ok t ∧ charged_from e e' ∧ j_status job = "pending" ∧ mark job = Some (ma_id a) ∧
    scan_jobs d' = <[j_id job := claimed_job t snapshot job]> (scan_jobs d) ∧
    engagements d' = <[e_id e := e']> (engagements d) ∧
    job_executions d' = <[j_id job := x]> (job_executions d) ∧ job_executions d !! j_id job = None ∧
    x_job_id x = j_id job ∧ x_state x = "active" ∧ x_owner x = cu_github_id user ∧
    x_capacity_reserved x = cc_concurrency_budget body ∧
    managed_approvals d' = managed_approvals d ∧ managed_contracts d' = managed_contracts d ∧
    managed_clock d' = managed_clock d.
Proof.
  unfold claim_rows. intros ([tr e1] & Hc & H0)%rbind_ok. apply rbind_ok in H0 as ([dr e2] & Ha & H0).
  pose proof (charged_both _ _ _ _ _ _ _ _ Hc Ha) as Hch. apply rbind_ok in H0 as (t & Hnow & H0).
  apply rbind_ok in H0 as ([] & Hok%require_ok & H0). bool_simpl. unfold Execution.issue in H0.
  apply rbind_ok in H0 as (p & _ & H0). destruct (job_executions _ !! j_id job) eqn:Ex; [done|].
  injection H0 as _ <-. assert (e_id e2 = e_id e) as Hid by apply Hch.
  exists t, e2. eexists. simpl. rewrite Hid. split_and!; done.
Qed.

Lemma claim_rows_change job header token user body a snapshot now at_ e d r d' :
  jobs_wf d → managed_wf d → scan_jobs d !! j_id job = Some job → engagements d !! j_program_id job = Some e →
  before_claim d e (Some body) = Ok tt → contract_of d (j_id job) = None →
  claim_rows job header token user body a snapshot now at_ e d = Ok (r, d') → safe_change d d'.
Proof.
  intros [Hwf Hb] Hm Hjob He Hcap Hnone (t & e' & x & _ & Hch & Hp & Hmk & Hj' & He' & Hx' & _ & Hxid & Hxs & _ & Hxc
    & Hma & Hmc & Hclk)%claim_rows_spec.
  assert (Hshape : (Some body = None ∧ job_executions d' = job_executions d) ∨
    ∃ b x, Some body = Some b ∧ job_executions d' = <[j_id job := x]> (job_executions d) ∧
      x_job_id x = j_id job ∧ x_state x = "active" ∧ x_capacity_reserved x = cc_concurrency_budget b) by naive_solver.
  split; [| | |by apply clock_same].
  - split; [|by eapply claim_budgets_wf].
    eapply claim_attempts_wf; [done..|]. pose proof (wf_eng_key d Hwf _ _ He) as Heid.
    destruct Hch as (Hi & _). intros k e0. rewrite He'.
    intros [[<- <-]|[_ H0]]%lookup_insert_Some; [done|by apply Hwf].
  - destruct Hm as [H1 H2 H3 H4 H5 H6]. split; rewrite ?Hma, ?Hmc; try done.
    + unfold one_clock. by rewrite Hclk.
    + intros c j id Hc. assert (mc_job_id c ≠ j_id job) as Hne.
      { intros Heq. apply contract_of_None in Hnone. apply Hnone. rewrite <-Heq. apply list_elem_of_fmap. eauto. }
      rewrite Hj', Hx', !lookup_insert_ne by done. by apply H6.
  - left. by apply abs_same.
Qed.

(** Adding the contract of the next ordinal. *)
Lemma issue_contract_change job a r t cid aid d v d' j :
  jobs_wf d → managed_wf d → a ∈ managed_approvals d → ma_revoked a = false →
  scan_jobs d !! j_id job = Some j → mark j = Some (ma_id a) →
  issue_contract float_of outside iss job a r t cid aid d = Ok (v, d') → safe_change d d'.
Proof.
  intros Hj Hm Ha Hrev Hjob Hmark H0. apply rbind_ok in H0 as (limit & Hlimit%limit_of_field & H0).
  apply rbind_ok in H0 as ([] & Hle%require_ok & H0). destruct (contract_of d (j_id job)) eqn:Ec; [done|].
  apply rbind_ok in H0 as (envelope & _ & H0). apply rbind_ok in H0 as (d1 & H0 & [= _ <-]).
  unfold add_contract in H0. destruct (existsb _ _) eqn:Enew; [done|]. injection H0 as <-. simpl in Enew.
  apply contract_of_None in Ec. apply Z.leb_le in Hle.
  set (a' := ma_set_issued (ma_issued a + 1) a) in *. set (c := MkManagedContract _ _ _ _ _ _ _ _).
  destruct (put_approval_wf d a a' Hm Ha eq_refl eq_refl) as [Hm1 Habs].
  assert (Hcid : cid ∉ map mc_id (managed_contracts d)).
  { intros Hin. apply list_elem_of_fmap in Hin as (c0 & -> & Hc0).
    assert (Htrue : existsb (λ c', String.eqb (mc_id c') (mc_id c0) || String.eqb (mc_job_id c') (j_id job)
      || String.eqb (mc_approval_record_id c') (ma_id a) && (mc_ordinal c' =? ma_issued a + 1))
      (managed_contracts d) = true); [|congruence].
    apply existsb_exists. exists c0. split; [by apply list_elem_of_In|]. by rewrite String.eqb_refl. }
  split; [| | |by apply clock_same].
  - apply (jobs_wf_ext d); [done|done|eauto|done].
  - destruct Hm1 as [H1 H2 H3 H4 H5 H6]. split; simpl; try done.
    + rewrite map_app. by apply NoDup_snoc.
    + rewrite map_app. by apply NoDup_snoc.
    + intros c0 j0 id [Hc0|Hc0%list_elem_of_singleton]%elem_of_app; [by apply H6|]. rewrite Hc0. simpl.
      intros Hj0 _ Hid. congruence.
  - right. assert (Hfinal : abs (set_managed_contracts (managed_contracts (put_approval a' d) ++ [c]) (put_approval a' d))
      = State (<[ma_id a := one_more (grant_of a)]> (grants (abs d)))
          (<[j_id job := Attempt (ma_id a) (g_issued (grant_of a) + 1) false]> (attempts (abs d)))).
    { transitivity (State (grants (abs (put_approval a' d)))
        (index mc_job_id attempt_of_contract (managed_contracts d ++ [c]))); [done|].
      rewrite Habs. f_equal. by apply (index_snoc mc_job_id attempt_of_contract). }
    refine (eq_ind_r (Permission.step (abs d)) _ Hfinal).
    apply (step_issue (abs d) (ma_id a) (grant_of a)); [|done| |].
    + apply (index_Some ma_id grant_of); [apply Hm|done].
    + simpl. rewrite Hlimit. lia.
    + by apply index_None.
Qed.

Lemma claim_change job_id header token cid aid user body now control d v d' :
  jobs_wf d → managed_wf d →
  claim float_of outside iss job_id header token cid aid user body now control d = Ok (v, d') → safe_change d d'.
Proof.
  intros Hj Hm H0. unfold claim in H0. apply rbind_ok in H0 as (job & Hjob%lock_job_lookup & H0).
  apply rbind_ok in H0 as ([] & _ & H0). apply rbind_ok in H0 as ([a r] & (t0 & _ & Hp)%claim_permission_sound & H0).
  apply rbind_ok in H0 as ([] & _ & H0).
  apply rbind_ok in H0 as (d1 & (t1 & _ & Hcw)%locked_time_spec & H0); [|apply Hm].
  apply rbind_ok in H0 as (e & He & H0). apply rbind_ok in H0 as ([] & Hcap & H0).
  apply rbind_ok in H0 as ([cap d2] & Hrows & H0). apply rbind_ok in H0 as (t & _ & H0).
  apply rbind_ok in H0 as ([envelope d3] & Hissue & H0).
  destruct Hp as [Hrow Hrev _ _ _ _]. apply approval_row_inv in Hrow as [Ha Hmark].
  destruct (managed_wf_clock _ _ _ Hcw Hm) as [Hm1 _]. eapply safe_after_clock; [done|exact Hcw|].
  destruct (clock_write_set _ _ _ Hcw) as [w ->]. apply (jobs_wf_clock d w) in Hj.
  unfold engagement_get in He. destruct (engagements _ !! j_program_id job) as [e0|] eqn:Ee; [|done]. injection He as ->.
  assert (Hjob' : scan_jobs (set_managed_clock w d) !! j_id job = Some job).
  { pose proof (wf_job_key _ (proj1 Hj) _ _ Hjob) as ->. exact Hjob. }
  pose proof (claim_rows_spec _ _ _ _ _ _ _ _ _ _ _ _ _ Hrows)
    as (t2 & e' & x & _ & _ & _ & _ & Hj2 & _ & _ & _ & _ & _ & _ & _ & Hma & Hmc & _).
  assert (Hnone : contract_of (set_managed_clock w d) (j_id job) = None).
  { assert (contract_of d2 (j_id job) = None) as Hn.
    { unfold issue_contract in Hissue. apply rbind_ok in Hissue as (? & _ & Hissue).
      apply rbind_ok in Hissue as ([] & _ & Hissue). by destruct (contract_of d2 (j_id job)). }
    unfold contract_of in *. by rewrite Hmc in Hn. }
  destruct (claim_rows_change _ _ _ _ _ _ _ _ _ _ _ _ _ Hj Hm1 Hjob' Ee Hcap Hnone Hrows) as [Hj3 Hm3 Hs3 Hk3].
  assert (Heq : abs d2 = abs (set_managed_clock w d)) by (by apply abs_same).
  apply rbind_ok in H0 as (d4 & (t4 & _ & Hcw4)%locked_time_spec & H0).
  2: { apply (issue_contract_change _ _ _ _ _ _ _ _ _ (claimed_job t2 (ir_case r) job)) in Hissue; [apply Hissue|..]; try done.
       - by rewrite Hma.
       - by rewrite Hj2, lookup_insert_eq. }
  apply rbind_ok in H0 as (t5 & _ & H0). apply rbind_ok in H0 as (p & _ & [= _ <-]). eapply safe_clock, Hcw4.
  apply (issue_contract_change _ _ _ _ _ _ _ _ _ (claimed_job t2 (ir_case r) job)) in Hissue; try done.
  - destruct Hissue as [H1 H2 H3 H4]. rewrite Heq in H3. split; try done.
    intros t0' (t6 & Ht6 & Hle6)%Hk3. destruct (H4 _ Ht6) as (t7 & Ht7 & Hle7). exists t7. split; [done|lia].
  - by rewrite Hma.
  - by rewrite Hj2, lookup_insert_eq.
Qed.
End Changes.

(** ** Results and stops *)

Section Reports.
Context `{Ed25519}.
Context (float_of : string → option pyfloat) (outside : string → result json).
Context (validate : dict → option VardrGateUpload).
Context (iss : Issuer).

(** What [_owned] has checked. *)
Record owned_attempt (d : db) (job_id : string) (n : Named) (o : Owned) : Prop := {
  oa_execution : job_executions d !! job_id = Some (ow_execution o);
  oa_job : scan_jobs d !! job_id = Some (ow_job o);
  oa_contract : ∃ c, contract_of d job_id = Some c ∧ mc_consumed c = true ∧ mc_id c = nm_contract_id n
    ∧ mc_attempt_id c = nm_attempt_id n ∧ mc_fence c = nm_fence n
    ∧ digest (mc_envelope c) = Ok (nm_contract_sha256 n) ∧ ma_id (ow_approval o) = mc_approval_record_id c;
  oa_approval : ow_approval o ∈ managed_approvals d ∧ ma_job_id (ow_approval o) = j_id (ow_job o);
  oa_binding : ow_binding o = binding_of (ow_execution o) n;
}.

Lemma owned_sound d job_id header user body n o :
  _owned d job_id header user body n = Ok o → owned_attempt d job_id n o.
Proof.
  unfold _owned. intros (x & [Hx _]%owned_spec & Ho)%rbind_ok. apply rbind_ok in Ho as (job & Hjob & Ho).
  apply rbind_ok in Ho as (e & _ & Ho). cbv zeta in Ho. destruct (contract_of d job_id) as [c|] eqn:Ec; [|done].
  apply rbind_ok in Ho as ([] & Hc%require_ok & Ho). apply rbind_ok in Ho as (h & Hh & Ho).
  apply rbind_ok in Ho as ([] & Hq%require_ok & Ho).
  destruct (approval_row d (Some _)) as [a|] eqn:Ea; [|done].
  apply rbind_ok in Ho as ([] & Hb%require_ok & [= <-]). apply approval_row_Some in Ea as [Ha Haid].
  unfold names_contract in Hc. unfold job_one in Hjob. destruct (scan_jobs d !! job_id) as [j|] eqn:Ej; [|done].
  injection Hjob as ->. bool_simpl. subst. split; simpl; try done. exists c. by split_and!.
Qed.

Lemma set_job_status_wf d j j' :
  jobs_wf d → scan_jobs d !! j_id j' = Some j → j_program_id j' = j_program_id j → j_status j' = j_status j →
  jobs_wf (set_job j' d).
Proof.
  intros Hwf Hj Hp Hs. apply (jobs_wf_change d _ (j_id j')); simpl; try done.
  - intros k' Hne. by apply lookup_insert_ne.
  - intros j0. rewrite lookup_insert_eq. intros [= <-]. split; [done|]. intros j1 Hj1. congruence.
  - intros x Hx. split; [by apply Hwf|]. destruct (wf_attempt d (proj1 Hwf) _ _ Hx) as (j0 & Hj0 & Ha).
    exists j'. rewrite lookup_insert_eq. split; [done|]. unfold attempt_of, finished in *. replace j0 with j in * by congruence.
    by rewrite Hs.
  - eauto.
Qed.

Lemma submit_change ids log_id rid at_ job_id header user body n artifact sha now d r d' :
  jobs_wf d → managed_wf d →
  submit float_of outside validate ids log_id rid at_ job_id header user body n artifact sha now d = Ok (r, d') →
  safe_change d d'.
Proof.
  intros Hj Hm H0. unfold submit in H0. apply rbind_ok in H0 as (o & Ho%owned_sound & H0).
  apply rbind_ok in H0 as (g & _ & H0). apply rbind_ok in H0 as (h & _ & H0). apply rbind_ok in H0 as (row & _ & H0).
  destruct row as [row|]; [apply rbind_ok in H0 as ([] & _ & [= _ <-]); by apply safe_refl|].
  apply rbind_ok in H0 as ([] & Hnew%require_ok & H0). apply rbind_ok in H0 as ([retained d1] & Hstore & H0).
  apply rbind_ok in H0 as (h' & _ & H0). cbv zeta in H0.
  unfold store_gate_result in Hstore. apply rbind_ok in Hstore as ([] & _ & Hstore).
  destruct (find_receipt _ d); [done|]. apply rbind_ok in Hstore as (b & _ & Hstore).
  apply rbind_ok in Hstore as (a & _ & Hstore). injection Hstore as _ <-.
  apply rbind_ok in H0 as (d2 & (t & _ & Hcw)%locked_time_spec & [= _ <-]); [|apply Hm].
  eapply safe_clock, Hcw. pose proof (oa_job _ _ _ _ Ho) as Hjob.
  pose proof (wf_job_key _ (proj1 Hj) _ _ Hjob) as Hid.
  apply safe_frame; [|done|done|done|done|].
  - apply (jobs_wf_ext (set_job (assessed_job b a (ow_job o)) d)); [done|done|eauto|].
    apply (set_job_status_wf d (ow_job o)); [done|simpl; by rewrite Hid|done|done].
  - apply marks_sub; [|done]. intros k j'. simpl.
    intros [[<- <-]|[_ Hk]]%lookup_insert_Some; [|eauto]. exists (ow_job o). by rewrite Hid.
Qed.

(** An attempt and its job end together, releasing the capacity. *)
Lemma finished_change d d1 x j j' outcome :
  jobs_wf d → managed_wf d → job_executions d !! j_id j' = Some x → scan_jobs d !! j_id j' = Some j →
  j_program_id j' = j_program_id j → mark j' = mark j → finished j' → outcome ∈ final_states →
  scan_jobs d1 = scan_jobs d → job_executions d1 = job_executions d → engagements d1 = engagements d →
  managed_approvals d1 = managed_approvals d → managed_contracts d1 = managed_contracts d →
  managed_clock d1 = managed_clock d →
  safe_change d (set_job j' (set_execution (finished_execution outcome x) d1)).
Proof.
  intros Hj Hm Hx Hjob Hp Hmk Hf Hout E1 E2 E3 E4 E5 E6.
  pose proof (wf_exec_key d (proj1 Hj) _ _ Hx) as Hxid.
  assert (Hj1 : jobs_wf d1) by (apply (jobs_wf_ext d); try done; rewrite E3; eauto).
  apply safe_frame; try done.
  - apply (set_both_wf d1 x _ j); rewrite ?E1, ?E2; try done. by left.
  - apply marks_sub; simpl; rewrite ?E1, ?E2.
    + intros k j1 [[<- <-]|[_ Hk]]%lookup_insert_Some; eauto.
    + intros k. eapply insert_owner. simpl. by rewrite Hxid.
Qed.

Lemma finish_change job_id header user body n receipt outcome confirmed now control d r d' :
  jobs_wf d → managed_wf d → finish_arguments outcome confirmed = Ok tt →
  finish float_of outside iss job_id header user body n receipt outcome now control d = Ok (r, d') →
  safe_change d d'.
Proof.
  intros Hj Hm Hargs%require_ok H0. apply andb_true_iff in Hargs as [Hout%mem_spec _]. unfold finish in H0.
  apply rbind_ok in H0 as (o & Ho%owned_sound & H0). apply rbind_ok in H0 as (row & _ & H0).
  destruct row as [row|]; [|done]. apply rbind_ok in H0 as ([] & _ & H0).
  destruct (mr_outcome row) as [before|].
  { apply rbind_ok in H0 as ([] & _ & H0). apply rbind_ok in H0 as (reply & _ & [= _ <-]). by apply safe_refl. }
  apply rbind_ok in H0 as ([] & _ & H0). apply rbind_ok in H0 as ([] & _ & H0).
  apply rbind_ok in H0 as (permission & _ & H0). apply rbind_ok in H0 as (t & _ & H0).
  apply rbind_ok in H0 as (d1 & (t1 & _ & Hcw)%locked_time_spec & H0); [|apply Hm].
  apply rbind_ok in H0 as ([] & _ & H0). apply rbind_ok in H0 as (reply & _ & [= _ <-]).
  eapply safe_clock, Hcw. destruct Ho as [Hx Hjob _ _ _].
  pose proof (wf_job_key _ (proj1 Hj) _ _ Hjob) as Hid. rewrite <-Hid in Hx, Hjob.
  unfold finish_rows. eapply (finished_change d _ _ (ow_job o)); try done.
  unfold finished, finished_managed_job. simpl. case_match; auto.
Qed.

Lemma report_change job_id header user body n outcome cause confirmed now d r d' :
  jobs_wf d → managed_wf d → report_arguments outcome cause confirmed = Ok tt →
  report job_id header user body n outcome cause now d = Ok (r, d') → safe_change d d'.
Proof.
  intros Hj Hm Hargs%require_ok H0. unfold report in H0.
  apply rbind_ok in H0 as (o & Ho%owned_sound & H0). apply rbind_ok in H0 as (row & _ & H0).
  destruct row as [row|].
  { apply rbind_ok in H0 as ([] & _ & H0). apply rbind_ok in H0 as (ack & _ & [= _ <-]). by apply safe_refl. }
  apply rbind_ok in H0 as (earlier & _ & H0). apply rbind_ok in H0 as ([] & _ & H0).
  apply rbind_ok in H0 as ([] & _ & H0). apply rbind_ok in H0 as (h & _ & H0). apply rbind_ok in H0 as (t & _ & H0).
  cbv zeta in H0. apply rbind_ok in H0 as (d1 & (t1 & _ & Hcw)%locked_time_spec & H0); [|apply Hm].
  apply rbind_ok in H0 as (ack & _ & [= _ <-]). eapply safe_clock, Hcw. destruct Ho as [Hx Hjob _ _ _].
  pose proof (wf_job_key _ (proj1 Hj) _ _ Hjob) as Hid. rewrite <-Hid in Hx, Hjob.
  eapply (finished_change d _ _ (ow_job o)); try done; [by right|].
  bool_simpl. subst outcome. unfold outcome_of_cause, final_states. case_match; set_solver.
Qed.
End Reports.
