(* ===== verification/AuthoritySafety.v ===== *)
(** * What administration may do to an engagement's authority

    Every request that changes what an engagement authorizes moves its
    authority revision, so that managed approvals bound to an earlier revision
    are worth nothing any more; a runner's key only proposes; a proposal is
    applied once, by a full-scope caller, exactly as it was stored. *)
From S2P Require Import Prelude PyStr Json Digest Time Policy Models Access Enforcement JobConfig Execution Engagements Schemas Scope.
From S2P Require Import Authorizations Members Wire Authority Issuance IssuanceSafety.
From Stdlib Require Import Ascii.

(** ** What an engagement authorizes *)

(** The columns of an engagement, of a scope item and of an authorization that
    decide what may be done. *)
Definition engagement_facts (e : Engagement) :=
  (e_engagement_type e, e_engagement_status e, e_stop_work_at e, e_max_request_rate e,
   (e_concurrency_limit e, e_target_limit e, e_duration_limit e), (e_starts_at e, e_ends_at e)).
Definition scope_fact (s : ScopeItem) := (si_id s, si_scope_type s, si_value s, si_kind s).
Definition authorization_fact (a : Authorization) :=
  (au_id a, au_status a, au_permits a, au_authorized_by a, au_reference a,
   (au_authorized_at a, au_window_start a, au_window_end a)).

Definition item_of (k : string) (s : ScopeItem) : bool := String.eqb (si_program_id s) k.
Definition scope_of (d : db) (k : string) := map scope_fact (rows (item_of k) (scope_items d)).
Definition authorizations_of (d : db) (k : string) :=
  map authorization_fact (rows (in_program k) (authorizations d)).

Definition authority_of (d : db) (k : string) :=
  (engagement_facts <$> engagements d !! k, scope_of d k, authorizations_of d k).
Definition revision_of (d : db) (k : string) : option Z := e_managed_authority_revision <$> engagements d !! k.

(** No revision goes back, and one that stays means an authority that stays. *)
Definition moves (d d' : db) : Prop :=
  ∀ k r, revision_of d k = Some r → ∃ r', revision_of d' k = Some r' ∧ r <= r'
    ∧ (r' = r → authority_of d' k = authority_of d k).

#[export] Instance moves_preorder : PreOrder moves.
Proof.
  split.
  - intros d k r Hr. exists r. split_and!; [done|lia|done].
  - intros d1 d2 d3 H12 H23 k r (r2 & Hr2 & ? & He2)%H12.
    destruct (H23 _ _ Hr2) as (r3 & Hr3 & ? & He3). exists r3. split_and!; [done|lia|].
    intros ->. assert (r2 = r) as -> by lia. by rewrite He3, He2.
Qed.

(** Rows keep the keys the tables give them. *)
Record admin_wf (d : db) : Prop := {
  aw_engagements : ∀ k e, engagements d !! k = Some e → e_id e = k;
  aw_scope : NoDup (map si_id (scope_items d));
  aw_authorizations : NoDup (map au_id (authorizations d));
}.

(** A change of one engagement [p]: either its revision moves, or nothing of
    its authority does. *)
Lemma moves_one p d d' :
  (∀ k, k ≠ p → engagements d' !! k = engagements d !! k) →
  (∀ k, k ≠ p → scope_of d' k = scope_of d k) →
  (∀ k, k ≠ p → authorizations_of d' k = authorizations_of d k) →
  (∀ e, engagements d !! p = Some e → ∃ e', engagements d' !! p = Some e' ∧
     (e_managed_authority_revision e < e_managed_authority_revision e'
      ∨ e_managed_authority_revision e' = e_managed_authority_revision e ∧ engagement_facts e' = engagement_facts e
        ∧ scope_of d' p = scope_of d p ∧ authorizations_of d' p = authorizations_of d p)) →
  moves d d'.
Proof.
  intros He Hs Ha Hp k r Hr. unfold revision_of, authority_of in *. destruct (decide (k = p)) as [->|Hne].
  - apply fmap_Some in Hr as (e & Hek & ->). destruct (Hp e Hek) as (e' & He' & Hor).
    rewrite Hek, He'. simpl. eexists. split; [done|].
    destruct Hor as [Hlt|(Heq & Hf & Hs' & Ha')]; [split; [lia|intros; lia]|].
    split; [lia|]. intros _. by rewrite Hf, Hs', Ha'.
  - rewrite (He k Hne), (Hs k Hne), (Ha k Hne). exists r. split_and!; [done|lia|done].
Qed.

Lemma moves_same d d' :
  engagements d' = engagements d → scope_items d' = scope_items d → authorizations d' = authorizations d → moves d d'.
Proof.
  intros He Hs Ha k r Hr. unfold revision_of, authority_of, scope_of, authorizations_of in *.
  rewrite He, Hs, Ha. exists r. split_and!; [done|lia|done].
Qed.

(** ** Tables by engagement *)

Lemma in_tail {A} {x y : A} {l} : y ∈ l → y ∈ x :: l.
Proof. by right. Qed.
Lemma in_head {A} (x : A) l : x ∈ x :: l.
Proof. by left. Qed.

(** Dropping a row that is not of the engagement leaves its rows. *)
Lemma rows_drop {A} (p keep : A → bool) l :
  (∀ x, x ∈ l → p x = true → keep x = true) → rows p (rows keep l) = rows p l.
Proof.
  induction l as [|x l IH]; intros Hk; [done|]. unfold rows in *. simpl.
  specialize (IH (λ y Hy, Hk y (in_tail Hy))). pose proof (Hk x (in_head _ _)) as Hx.
  destruct (keep x); simpl; destruct (p x); simpl; [by rewrite IH|done| |done].
  discriminate (Hx eq_refl).
Qed.

(** Rewriting rows in place changes only the projections it changes. *)
Lemma map_rows_update {A B} (f : A → B) (p q : A → bool) (g : A → A) l :
  (∀ x, x ∈ l → p x = true → q (g x) = q x) →
  (∀ x, x ∈ l → p x = true → q x = true → f (g x) = f x) →
  map f (rows q (update_rows p g l)) = map f (rows q l).
Proof.
  unfold rows, update_rows. induction l as [|x l IH]; intros Hq Hf; [done|]. simpl.
  specialize (IH (λ y Hy, Hq y (in_tail Hy)) (λ y Hy, Hf y (in_tail Hy))).
  pose proof (Hq x (in_head _ _)) as Hqx. pose proof (Hf x (in_head _ _)) as Hfx.
  destruct (p x); simpl.
  - rewrite Hqx by done. destruct (q x) eqn:E; simpl; [|done]. by rewrite Hfx, IH.
  - destruct (q x); simpl; by rewrite IH.
Qed.

(** Keys stay unique when rows are dropped. *)
(** ** Single requests *)

(** The engagement a handler has looked up, and locked. *)
Lemma guarded p u d e : admin_wf d → get_engagement_or_404 p u d = Ok e → engagements d !! p = Some e ∧ e_id e = p.
Proof.
  intros Hwf. unfold get_engagement_or_404. destruct (engagements d !! p) as [e0|] eqn:E; [|done].
  case_match; [|done]. intros [= <-]. split; [done|by eapply aw_engagements].
Qed.

Lemma locked d e e' : admin_wf d → engagements d !! e_id e = Some e → lock d e = Ok e' → e' = e.
Proof. intros _ He. unfold lock. rewrite He. by intros [= <-]. Qed.

Lemma advanced p d e e' d' :
  engagements d !! p = Some e → e_id e = p → advance d e = Ok (e', d') →
  e' = e_set_managed_authority_revision (e_managed_authority_revision e + 1) e ∧ d' = set_engagement e' d.
Proof.
  intros He Hid. unfold advance, lock. rewrite Hid, He. simpl. by intros [= <- <-].
Qed.

Lemma admin_wf_ext d d' :
  engagements d' = engagements d → scope_items d' = scope_items d → authorizations d' = authorizations d →
  admin_wf d → admin_wf d'.
Proof. intros He Hs Ha [? ? ?]. split; rewrite ?He, ?Hs, ?Ha; done. Qed.

(** Writing an engagement back under its key, with the scope and the
    authorizations of others unchanged. *)
Lemma moves_write p e e' d d' :
  engagements d !! p = Some e → e_id e' = p → engagements d' = <[p := e']> (engagements d) →
  (∀ k, k ≠ p → scope_of d' k = scope_of d k) → (∀ k, k ≠ p → authorizations_of d' k = authorizations_of d k) →
  (e_managed_authority_revision e < e_managed_authority_revision e'
   ∨ e_managed_authority_revision e' = e_managed_authority_revision e ∧ engagement_facts e' = engagement_facts e
     ∧ scope_of d' p = scope_of d p ∧ authorizations_of d' p = authorizations_of d p) →
  moves d d'.
Proof.
  intros He Hid Hd Hs Ha Hor. apply (moves_one p); [|done|done|].
  - intros k Hk. by rewrite Hd, lookup_insert_ne.
  - intros e0 He0. exists e'. rewrite Hd, lookup_insert_eq. split; [done|]. by replace e0 with e by congruence.
Qed.

Lemma wf_write p e' d d' :
  e_id e' = p → engagements d' = <[p := e']> (engagements d) →
  NoDup (map si_id (scope_items d')) → NoDup (map au_id (authorizations d')) → admin_wf d → admin_wf d'.
Proof.
  intros Hid Hd Hs Ha [He _ _]. split; [|done|done].
  intros k e. rewrite Hd. intros [[<- <-]|[_ Hk]]%lookup_insert_Some; [done|by apply He].
Qed.

(** What each request does to the rows that carry authority. *)
Definition changes (d d' : db) : Prop := moves d d' ∧ admin_wf d'.

(** Requests that write no such row. *)
Lemma changes_same d d' :
  admin_wf d → engagements d' = engagements d → scope_items d' = scope_items d → authorizations d' = authorizations d →
  changes d d'.
Proof. intros Hwf He Hs Ha. split; [by apply moves_same|by eapply admin_wf_ext]. Qed.

Lemma rows_other_item p k l : (∀ x, x ∈ l → si_program_id x = p) → k ≠ p → rows (item_of k) l = [].
Proof. intros Hl Hk. apply rows_none. intros x Hx. apply String.eqb_neq. rewrite (Hl x Hx). congruence. Qed.

Lemma scope_of_app d d' k l : scope_items d' = scope_items d ++ l → scope_of d' k = scope_of d k ++ map scope_fact (rows (item_of k) l).
Proof. intros Hd. unfold scope_of. by rewrite Hd, rows_app, map_app. Qed.

(** Adding scope rows to an engagement whose revision moves. *)
Lemma add_scope_changes p e e' l d d' :
  admin_wf d → engagements d !! p = Some e → e_id e' = p →
  e_managed_authority_revision e < e_managed_authority_revision e' →
  engagements d' = <[p := e']> (engagements d) → scope_items d' = scope_items d ++ l →
  authorizations d' = authorizations d → (∀ x, x ∈ l → si_program_id x = p) →
  NoDup (map si_id l) → (∀ x, x ∈ l → si_id x ∉ map si_id (scope_items d)) →
  changes d d'.
Proof.
  intros Hwf He Hid Hlt Hd Hs Ha Hp Hnd Hnew. split.
  - apply (moves_write p e e'); [done|done|done| | |by left].
    + intros k Hk. rewrite (scope_of_app d d' k l Hs), (rows_other_item p k l) by done. simpl. by rewrite app_nil_r.
    + intros k _. unfold authorizations_of. by rewrite Ha.
  - apply (wf_write p e' d); [done|done| |by rewrite Ha; apply Hwf|done].
    rewrite Hs, map_app. apply NoDup_app. split_and!; [apply Hwf| |done].
    intros i Hi (x & -> & Hx)%list_elem_of_fmap. by destruct (Hnew x Hx).
Qed.

(** The same with authorizations. *)
Lemma add_authorization_changes p e e' a d d' :
  admin_wf d → engagements d !! p = Some e → e_id e' = p →
  e_managed_authority_revision e < e_managed_authority_revision e' →
  engagements d' = <[p := e']> (engagements d) → authorizations d' = authorizations d ++ [a] →
  scope_items d' = scope_items d → au_program_id a = p → au_id a ∉ map au_id (authorizations d) →
  changes d d'.
Proof.
  intros Hwf He Hid Hlt Hd Ha Hs Hp Hnew. split.
  - apply (moves_write p e e'); [done|done|done| | |by left].
    + intros k _. unfold scope_of. by rewrite Hs.
    + intros k Hk. unfold authorizations_of. rewrite Ha, rows_app, (rows_none _ [a]); [by rewrite app_nil_r|].
      intros x ->%list_elem_of_singleton. apply String.eqb_neq. congruence.
  - apply (wf_write p e' d); [done|done|by rewrite Hs; apply Hwf| |done].
    rewrite Ha, map_app. by apply NoDup_snoc; [apply Hwf|].
Qed.

(** An engagement edited in place. *)
Lemma edit_changes p e e' d d' :
  admin_wf d → engagements d !! p = Some e → e_id e' = p → engagements d' = <[p := e']> (engagements d) →
  scope_items d' = scope_items d → authorizations d' = authorizations d →
  (e_managed_authority_revision e < e_managed_authority_revision e'
   ∨ e_managed_authority_revision e' = e_managed_authority_revision e ∧ engagement_facts e' = engagement_facts e) →
  changes d d'.
Proof.
  intros Hwf He Hid Hd Hs Ha Hor. split.
  - apply (moves_write p e e'); [done|done|done|by intros; unfold scope_of; rewrite Hs
      |by intros; unfold authorizations_of; rewrite Ha|].
    unfold scope_of, authorizations_of. rewrite Hs, Ha. destruct Hor as [?|[? ?]]; [by left|by right].
  - apply (wf_write p e' d); [done|done|by rewrite Hs; apply Hwf|by rewrite Ha; apply Hwf|done].
Qed.

(** Opens a handler: the engagement it is for and the guards it passes. *)
Ltac open_handler H e He Hid :=
  apply rbind_ok in H as (e & [He Hid]%guarded & H); [|done];
  repeat lazymatch type of H with
  | rbind (require_member_write _ _ _) _ = _ => apply rbind_ok in H as ([] & _ & H)
  | rbind (require_engagement_owner _ _) _ = _ => apply rbind_ok in H as ([] & _ & H)
  end.
Ltac open_lock H He Hid :=
  let e := fresh "e" in let Hl := fresh "Hl" in
  apply rbind_ok in H as (e & Hl & H); apply locked in Hl; [subst e|done|by rewrite Hid].

Section Requests.
Context (other_iso : string → option datetime) (stored : datetime → time).
Context (nh3_clean html_unescape : string → string) (em_dash : ascii).

Lemma create_authorization_changes new_id log now p body u d r d' :
  admin_wf d → new_id ∉ map au_id (authorizations d) →
  create_authorization other_iso stored new_id log now p body u d = Ok (r, d') → changes d d'.
Proof.
  intros Hwf Hnew H. open_handler H e He Hid.
  do 3 apply rbind_ok in H as (? & _ & H). apply rbind_ok in H as ([e' d1] & Hadv & H).
  apply (advanced p) in Hadv as [-> ->]; [|done|done]. injection H as _ <-.
  eapply (add_authorization_changes p e (bump true e)); try done; simpl; [lia|by rewrite Hid].
Qed.

Lemma edit_text_key {A} (key : A → string) read write (v : option string) (st : edited A) :
  (∀ x a, key (write x a) = key a) → key (edit_text read write v st).1 = key st.1.
Proof. intros Hk. unfold edit_text. destruct v; [apply Hk|done]. Qed.

Lemma edit_date_ok {A} name read write v (st st' : edited A) :
  edit_date other_iso stored name read write v st = Ok st' →
  st' = st ∨ ∃ x, st' = (write x st.1, true).
Proof.
  unfold edit_date. destruct v as [v|]; [|intros [= <-]; by left].
  intros (t & _ & H)%rbind_ok. injection H as <-. case_match; [right; eauto|by left].
Qed.

(** An edit that reports no change left the facts alone, and never touches
    the keys. *)
Definition faithful {A F K} (facts : A → F) (key : A → K) (a : A) (st : edited A) : Prop :=
  key st.1 = key a ∧ (st.2 = false → facts st.1 = facts a).

Lemma faithful_start {A F K} (facts : A → F) (key : A → K) a : faithful facts key a (a, false).
Proof. done. Qed.

Lemma faithful_text {A F K} (facts : A → F) (key : A → K) a read write v st :
  (∀ x b, key (write x b) = key b) → (∀ x b, read b = x → facts (write x b) = facts b) →
  faithful facts key a st → faithful facts key a (edit_text read write v st).
Proof.
  intros Hk Hw [H1 H2]. unfold edit_text. destruct v as [s|]; [|done]. split; [by rewrite <-H1; apply Hk|].
  simpl. intros [Hst Hr]%orb_false_iff. bool_simpl. rewrite Hw by done. by apply H2.
Qed.

Lemma faithful_date {A F K} (facts : A → F) (key : A → K) a name read write v st st' :
  (∀ x b, key (write x b) = key b) → edit_date other_iso stored name read write v st = Ok st' →
  faithful facts key a st → faithful facts key a st'.
Proof.
  intros Hk [->|[x ->]]%edit_date_ok [H1 H2]; [done|]. split; [by rewrite <-H1; apply Hk|done].
Qed.

Lemma faithful_field {B} `{EqDecision B} {F K} (facts : Engagement → F) (key : Engagement → K) a
    (read : Engagement → B) write v st :
  (∀ x b, key (write x b) = key b) → (∀ x b, read b = x → facts (write x b) = facts b) →
  faithful facts key a st → faithful facts key a (edit_field read write v st).
Proof.
  intros Hk Hw [H1 H2]. unfold edit_field. destruct v as [s|]; [|done]. split; [by rewrite <-H1; apply Hk|].
  simpl. intros [Hst Hr]%orb_false_iff. bool_simpl. rewrite Hw by done. by apply H2.
Qed.

Lemma faithful_set {B F K} (facts : Engagement → F) (key : Engagement → K) a (write : B → Engagement → Engagement) v st :
  (∀ x b, key (write x b) = key b) → (∀ x b, facts (write x b) = facts b) →
  faithful facts key a st → faithful facts key a (set_field write v st).
Proof.
  intros Hk Hw [H1 H2]. unfold set_field. destruct v as [s|]; [|done].
  split; simpl; [by rewrite Hk|intros ?; rewrite Hw; auto].
Qed.

Ltac same_facts := try done; intros ? [] <-; done.

Definition authorization_key (a : Authorization) := (au_id a, au_program_id a).

Lemma edit_authorization_faithful body a st :
  edit_authorization other_iso stored body a = Ok st → faithful authorization_fact authorization_key a st.
Proof.
  intros H. unfold edit_authorization in H. cbv zeta in H.
  apply rbind_ok in H as (s1 & H1 & H). apply rbind_ok in H as (s2 & H2 & H). apply rbind_ok in H as (s3 & H3 & H).
  injection H as <-.
  assert (F : faithful authorization_fact authorization_key a (edit_text au_status au_set_status (aup_status body) s3)).
  { apply faithful_text; [done|same_facts|]. eapply faithful_date; [|exact H3|]; [done|].
    eapply faithful_date; [|exact H2|]; [done|]. apply faithful_text; [done|same_facts|].
    eapply faithful_date; [|exact H1|]; [done|]. do 2 (apply faithful_text; [done|same_facts|]). apply faithful_start. }
  destruct F as [Hk Hf]. by destruct (aup_notes body).
Qed.

Definition engagement_key (e : Engagement) := (e_id e, e_managed_authority_revision e).

Lemma edit_engagement_faithful body u d e st :
  edit_engagement other_iso stored body u d e = Ok st → faithful engagement_facts engagement_key e st.
Proof.
  intros H. unfold edit_engagement in H. cbv zeta in H.
  apply rbind_ok in H as (s1 & H1 & H). apply rbind_ok in H as (s2 & H2 & H). apply rbind_ok in H as (s3 & H3 & H).
  assert (F1 : faithful engagement_facts engagement_key e s1).
  { assert (F0 : faithful engagement_facts engagement_key e
                   (set_field e_set_safe_harbor_notes (eu_safe_harbor_notes body)
                     (set_field e_set_severity_guidance (eu_severity_guidance body)
                       (set_field e_set_scope_summary (eu_scope_summary body)
                         (set_field e_set_program_url (eu_program_url body)
                           (set_field e_set_platform (eu_platform body) (e, false)))))))
      by (do 5 (apply faithful_set; [done|done|]); apply faithful_start).
    unfold edit_client in H1. destruct (eu_client_id body) as [cid|]; [|by injection H1 as <-].
    apply rbind_ok in H1 as (client & _ & [= <-]). destruct F0 as [Hk Hf]. by split. }
  assert (F : faithful engagement_facts engagement_key e
                (edit_field e_max_request_rate e_set_max_request_rate (eu_max_request_rate body) s3)).
  { apply faithful_field; [done|same_facts|]. eapply faithful_date; [|exact H3|]; [done|].
    eapply faithful_date; [|exact H2|]; [done|]. do 2 (apply faithful_field; [done|same_facts|]). done. }
  unfold edit_name in H. destruct F as [Hk Hf].
  destruct (eu_name body) as [[n|]|]; [injection H as <-|done|injection H as <-]; by split.
Qed.

Lemma authorization_found p id d a :
  _get_authorization_or_404 p id d = Ok a → a ∈ authorizations d ∧ au_program_id a = p.
Proof.
  unfold _get_authorization_or_404. destruct (first_row _ _) as [a'|] eqn:E; [|done]. intros [= <-].
  apply first_row_Some in E as [Ha Hp]. unfold in_program in Hp. by bool_simpl.
Qed.

Lemma bump_cases changed e :
  e_id (bump changed e) = e_id e
  ∧ (changed = true ∧ e_managed_authority_revision (bump changed e) = e_managed_authority_revision e + 1
     ∨ changed = false ∧ bump changed e = e).
Proof. destruct changed; simpl; auto. Qed.

Lemma update_authorization_changes log now p id body u d r d' :
  admin_wf d → update_authorization other_iso stored log now p id body u d = Ok (r, d') → changes d d'.
Proof.
  intros Hwf H. open_handler H e He Hid. open_lock H He Hid.
  apply rbind_ok in H as (a & [Ha Hp]%authorization_found & H).
  apply rbind_ok in H as ([a' changed] & Hed & H). injection H as _ <-.
  apply edit_authorization_faithful in Hed as [[= Hid' Hp'] Hfact]. simpl in *.
  assert (Hone : ∀ x, x ∈ authorizations d → String.eqb (au_id x) (au_id a) = true → x = a).
  { intros x Hx Hxa%String.eqb_eq. by apply (NoDup_map_inj au_id (authorizations d)); [apply Hwf|..]. }
  assert (Hkeep : ∀ k, k ≠ p ∨ changed = false → map authorization_fact (rows (in_program k)
      (update_rows (λ x, String.eqb (au_id x) (au_id a)) (λ _, a') (authorizations d))) = authorizations_of d k).
  { intros k Hk. apply map_rows_update; intros x Hx Hxa; rewrite (Hone x Hx Hxa); unfold in_program; rewrite ?Hp'; [done|].
    intros Hpk%String.eqb_eq. destruct Hk as [Hk|Hk]; [congruence|auto]. }
  destruct (bump_cases changed e) as [Hbid Hb]. split.
  - apply (moves_write p e (bump changed e)); try done; [congruence|simpl; by rewrite Hbid, Hid|..].
    + intros k Hk. apply Hkeep. by left.
    + destruct Hb as [[-> Hb]|[-> Hb]]; [left; lia|right]. rewrite Hb. split_and!; try done. apply Hkeep. by right.
  - apply (wf_write p (bump changed e) d); try done; [congruence|simpl; by rewrite Hbid, Hid|apply Hwf|].
    simpl. change (NoDup (map au_id (update_rows (λ x, String.eqb (au_id x) (au_id a)) (λ _, a') (authorizations d)))).
    replace (map au_id (update_rows _ _ _)) with (map au_id (authorizations d)); [apply Hwf|].
    unfold update_rows. rewrite map_map. apply map_ext_in. intros x Hx%list_elem_of_In.
    case_match eqn:Hxa; [|done]. by rewrite (Hone x Hx Hxa).
Qed.

Lemma update_engagement_changes log now p body u d r d' :
  admin_wf d → update_engagement other_iso stored log now p body u d = Ok (r, d') → changes d d'.
Proof.
  intros Hwf H. open_handler H e He Hid. open_lock H He Hid.
  apply rbind_ok in H as ([e' changed] & Hed & H). injection H as _ <-.
  apply edit_engagement_faithful in Hed as [[= Hid' Hr'] Hfact]. simpl in *.
  destruct (bump_cases changed e') as [Hbid Hb].
  apply (edit_changes p e (bump changed e')); try done; [congruence|simpl; by rewrite Hbid, Hid', Hid|].
  destruct Hb as [[-> Hb]|[-> Hb]]; [left; lia|right]. rewrite Hb. auto.
Qed.

Lemma personal_org_same github_id new_org new_member now d org d1 :
  personal_org github_id new_org new_member now d = (org, d1) →
  engagements d1 = engagements d ∧ scope_items d1 = scope_items d ∧ authorizations d1 = authorizations d.
Proof. unfold personal_org. case_match; by intros [= _ <-]. Qed.

Lemma create_engagement_changes new_id log new_org new_member now body u d r d' :
  admin_wf d → engagements d !! new_id = None →
  create_engagement other_iso stored new_id log new_org new_member now body u d = Ok (r, d') → changes d d'.
Proof.
  intros Hwf Hnew H. unfold create_engagement in H.
  assert (Hu : engagements (ensure_user now u d) = engagements d ∧ scope_items (ensure_user now u d) = scope_items d
               ∧ authorizations (ensure_user now u d) = authorizations d) by (unfold ensure_user; destruct (first_row _ _); done).
  destruct (personal_org _ _ _ _ _) as [org d1] eqn:Ho. apply personal_org_same in Ho as (He & Hs & Ha).
  destruct Hu as (He0 & Hs0 & Ha0). rewrite He0 in He. rewrite Hs0 in Hs. rewrite Ha0 in Ha.
  do 3 apply rbind_ok in H as (? & _ & H). injection H as _ <-.
  assert (Hwf1 : admin_wf d1) by (by apply (admin_wf_ext d)).
  split.
  - apply (moves_one new_id); simpl; try done.
    + intros k Hk. by rewrite lookup_insert_ne, He.
    + intros k _. unfold scope_of. simpl. by rewrite Hs.
    + intros k _. unfold authorizations_of. simpl. by rewrite Ha.
    + intros e. by rewrite Hnew.
  - eapply (wf_write new_id _ d1); [|simpl; reflexivity|apply Hwf1|apply Hwf1|done]; done.
Qed.

Lemma add_scope_item_changes kind new_id log now p body u d r d' :
  admin_wf d → new_id ∉ map si_id (scope_items d) →
  add_scope_item kind new_id log now p body u d = Ok (r, d') → changes d d'.
Proof.
  intros Hwf Hnew H. open_handler H e He Hid. apply rbind_ok in H as ([e' d1] & Hadv & H).
  apply (advanced p) in Hadv as [-> ->]; [|done|done]. injection H as _ <-.
  eapply (add_scope_changes p e (bump true e)); try done; simpl; [lia|by rewrite Hid| |apply NoDup_singleton|].
  all: by intros x ->%list_elem_of_singleton.
Qed.

Lemma delete_scope_item_changes log now p kind id u d r d' :
  admin_wf d → delete_scope_item log now p kind id u d = Ok (r, d') → changes d d'.
Proof.
  intros Hwf H. apply rbind_ok in H as ([] & _ & H). open_handler H e He Hid.
  apply rbind_ok in H as ([e' d1] & Hadv & H). apply (advanced p) in Hadv as [-> ->]; [|done|done].
  destruct (first_row _ _) as [item|] eqn:Ei; [|done]. injection H as _ <-.
  apply first_row_Some in Ei as [Hi Hk]. simpl in Hi. bool_simpl.
  assert (Hone : ∀ x, x ∈ scope_items d → si_id x = si_id item → x = item)
    by (intros x Hx Hxi; by apply (NoDup_map_inj si_id (scope_items d)); [apply Hwf|..]).
  split.
  - apply (moves_write p e (bump true e)); simpl; try done; [by rewrite Hid| |left; lia].
    intros k Hk. unfold scope_of. simpl. f_equal. apply rows_drop. intros x Hx Hxk%String.eqb_eq.
    apply negb_true_iff, String.eqb_neq. intros ->%Hone; [congruence|done].
  - apply (wf_write p (bump true e) d); simpl; try done; [by rewrite Hid| |apply Hwf].
    apply NoDup_map_rows, Hwf.
Qed.

Lemma imported_ids ids p now (l : list scope_row) n :
  map si_id (imap (λ i, imported_item ids p now (n + i)%nat) l) = map ids (seq n (length l)).
Proof.
  revert n. induction l as [|x l IH]; intros n; [done|]. simpl. rewrite Nat.add_0_r. f_equal.
  rewrite <-(IH (S n)). apply f_equal, imap_ext. intros i y _. simpl. by rewrite Nat.add_succ_r.
Qed.

Lemma imported_program ids p now l n x : x ∈ imap (λ i, imported_item ids p now (n + i)%nat) l → si_program_id x = p.
Proof. intros (i & y & -> & _)%elem_of_lookup_imap. done. Qed.

(** The ids an import draws are new and distinct. *)
Definition fresh_ids (ids : nat → string) (d : db) : Prop :=
  Inj (=) (=) ids ∧ ∀ i, ids i ∉ map si_id (scope_items d).

Lemma import_scope_changes ids log now p text commit u d r d' :
  admin_wf d → fresh_ids ids d →
  import_scope nh3_clean html_unescape em_dash ids log now p text commit u d = Ok (r, d') → changes d d'.
Proof.
  intros Hwf [Hinj Hnew] H. open_handler H e He Hid.
  apply rbind_ok in H as ([parsed skipped] & _ & H). apply rbind_ok in H as (e' & He' & H).
  assert (e' = e) as ->.
  { destruct commit; [|congruence]. apply locked in He'; [done..|by rewrite Hid]. }
  destruct (split_new _ _) as [new dups]. clear He'. destruct (commit && _); injection H as _ <-.
  - eapply (add_scope_changes p e (bump true e)); simpl; try done; [lia|by rewrite Hid| | |].
    + apply (imported_program ids p now _ 0).
    + rewrite (imported_ids ids p now _ 0). apply NoDup_fmap; [done|apply NoDup_seq].
    + intros x Hx. assert (Hm : si_id x ∈ map ids (seq 0 (length new))).
      { rewrite <-(imported_ids ids p now _ 0). apply list_elem_of_fmap. by exists x. }
      apply list_elem_of_fmap in Hm as (i & -> & _). apply Hnew.
  - by apply changes_same.
Qed.

Lemma changes_trans d d1 d2 : changes d d1 → changes d1 d2 → changes d d2.
Proof. intros [H1 _] [H2 ?]. split; [by etrans|done]. Qed.

(** A proposal's row, its engagement and the guards. *)
Lemma proposal_found p id u d e q :
  admin_wf d → _proposal_or_404 p id u d = Ok (e, q) →
  engagements d !! p = Some e ∧ e_id e = p ∧ q ∈ agent_proposals d ∧ pp_id q = id ∧ pp_program_id q = p.
Proof.
  intros Hwf (e' & [He Hid]%guarded & H)%rbind_ok; [|done].
  destruct (first_row _ _) as [q'|] eqn:E; [|done]. injection H as -> ->.
  apply first_row_Some in E as [Hq Hp]. unfold of_program in Hp. bool_simpl. split_and!; try done. congruence.
Qed.

Lemma stored_found d id q : stored_proposal d id = Ok q → q ∈ agent_proposals d ∧ pp_id q = id.
Proof.
  unfold stored_proposal. destruct (first_row _ _) as [q'|] eqn:E; [|done]. intros [= <-].
  apply first_row_Some in E as [Hq Hp]. by bool_simpl.
Qed.

(** The rows [_apply] may add are new. *)
Definition fresh_row (id : string) (d : db) : Prop :=
  (id ∉ map si_id (scope_items d)) ∧ (id ∉ map au_id (authorizations d)).

Lemma apply_changes new_id now p e q d r d' :
  admin_wf d → fresh_row new_id d → engagements d !! p = Some e → e_id e = p →
  _apply other_iso stored new_id now e q d = Ok (r, d') →
  changes d d' ∧ agent_proposals d' = agent_proposals d
  ∧ ∃ e', engagements d' !! p = Some e' ∧ e_managed_authority_revision e' = e_managed_authority_revision e + 1.
Proof.
  intros Hwf [Hs Ha] He Hid H. apply rbind_ok in H as ([e' d1] & Hadv & H).
  apply (advanced p) in Hadv as [-> ->]; [|done|done]. cbv zeta in H.
  assert (Hw : ∀ x, engagements (set_engagement x d) = <[e_id x := x]> (engagements d)) by done.
  destruct (mem (pp_kind q) _); [|destruct (String.eqb (pp_kind q) "authorization")].
  - do 4 apply rbind_ok in H as (? & _ & H). injection H as _ <-. simpl. rewrite Hid, lookup_insert_eq.
    split_and!; [|done|by eexists].
    eapply (add_scope_changes p e (bump true e)); simpl; try done; [lia|by rewrite Hid| |apply NoDup_singleton|].
    all: by intros y ->%list_elem_of_singleton.
  - do 7 apply rbind_ok in H as (? & _ & H). injection H as _ <-. simpl. rewrite Hid, lookup_insert_eq.
    split_and!; [|done|by eexists].
    eapply (add_authorization_changes p e (bump true e)); simpl; try done; [lia|by rewrite Hid].
  - destruct (String.eqb (pp_kind q) "rate_ceiling"); [|done].
    apply rbind_ok in H as (v & _ & H). apply rbind_ok in H as (n & _ & H). injection H as _ <-.
    simpl. rewrite Hid, lookup_insert_eq. split_and!; [|done|by eexists].
    eapply (edit_changes p e (e_set_max_request_rate (Some n) (bump true e))); simpl; try done.
    + rewrite Hid. by rewrite insert_insert_eq.
    + left. lia.
Qed.

Lemma approve_changes new_id log now p id u d r d' :
  admin_wf d → fresh_row new_id d →
  approve_proposal other_iso stored new_id log now p id u d = Ok (r, d') → changes d d'.
Proof.
  intros Hwf Hf H. apply rbind_ok in H as (u' & _ & H). apply rbind_ok in H as ([e q] & Hq & H).
  apply proposal_found in Hq as (He & Hid & _); [|done]. apply rbind_ok in H as ([] & _ & H).
  open_lock H He Hid. apply rbind_ok in H as (q' & _ & H). apply rbind_ok in H as ([] & _ & H).
  apply rbind_ok in H as ([applied d1] & Hap & H). injection H as _ <-.
  apply (apply_changes new_id now p) in Hap as ([Hm Hw] & _); [|done..].
  eapply changes_trans; [by split|]. by apply changes_same.
Qed.

Lemma reject_changes log now p id u seen d r d' :
  admin_wf d → reject_proposal log now p id u seen d = Ok (r, d') → changes d d'.
Proof.
  intros Hwf H. apply rbind_ok in H as (u' & _ & H). apply rbind_ok in H as ([e q] & _ & H).
  do 2 apply rbind_ok in H as ([] & _ & H). apply rbind_ok in H as (row & _ & H). injection H as _ <-.
  by apply changes_same.
Qed.


Lemma create_proposal_effect new_id log now p body u d r d' (Hwf : ∀ k e, engagements d !! k = Some e → e_id e = k) :
  create_proposal other_iso nh3_clean html_unescape new_id log now p body u d = Ok (r, d') →
  (∃ e clean, engagements d !! p = Some e
     ∧ _validated_payload other_iso nh3_clean html_unescape (pc_kind body) (pc_payload body) = Ok clean
     ∧ r = MkAgentProposal new_id p (e_owner_github_id e) (Some (proposer u)) (pc_kind body) (JObj clean)
             (Some (pc_reason body)) (Some (pc_source body)) "pending" (Some "") (Some now) None (Some ""))
  ∧ d' = log_action log now (cu_github_id u) "create" "agent_proposal" new_id (Some p)
           (set_agent_proposals (agent_proposals d ++ [r]) d).
Proof.
  intros (e & He & H)%rbind_ok.
  assert (Hp : engagements d !! p = Some e).
  { unfold get_engagement_or_404 in He. destruct (engagements d !! p) as [e0|] eqn:E; [|done].
    case_match; [by injection He as <-|done]. }
  destruct (Hwf _ _ Hp). do 2 apply rbind_ok in H as ([] & _ & H). apply rbind_ok in H as (clean & Hc & [= <- <-]).
  split; [|done]. eauto.
Qed.
End Requests.

(** ** Limits, stop-work, members, clients and keys *)

Section Owners.

Lemma policy_guarded p u d e : admin_wf d → policy_guard p u d = Ok e → engagements d !! p = Some e ∧ e_id e = p.
Proof.
  intros Hwf H. apply rbind_ok in H as (u' & _ & H). apply rbind_ok in H as (e0 & [He Hid]%guarded & H); [|done].
  apply rbind_ok in H as ([] & _ & H). apply rbind_ok in H as (e1 & Hl & H).
  apply locked in Hl; [subst e1|done|by rewrite Hid]. by apply rbind_ok in H as ([] & _ & [= <-]).
Qed.

(** A limit is one of the facts, so its revision moves when it does. *)
Lemma configured_changes (write : option Z → Engagement → Engagement) (read : Engagement → option Z) p e n d d' :
  (∀ x, e_id (write n x) = e_id x ∧ e_managed_authority_revision (write n x) = e_managed_authority_revision x) →
  (∀ x, read x = n → engagement_facts (write n x) = engagement_facts x) →
  admin_wf d → engagements d !! p = Some e → e_id e = p →
  engagements d' = <[p := write n (bump (negb (bool_decide (read e = n))) e)]> (engagements d) →
  scope_items d' = scope_items d → authorizations d' = authorizations d → changes d d'.
Proof.
  intros Hkey Hfact Hwf He Hid Hd Hs Ha. destruct (Hkey (bump (negb (bool_decide (read e = n))) e)) as [Hi Hr].
  destruct (bump_cases (negb (bool_decide (read e = n))) e) as [Hbid Hb].
  eapply (edit_changes p e _); [done|done| |exact Hd|done|done|]; [congruence|].
  rewrite Hr. destruct Hb as [[_ Hb]|[Hno Hb]]; [left; lia|right]. rewrite Hb. bool_simpl. auto.
Qed.

Lemma configure_duration_changes log now p n u d r d' :
  admin_wf d → configure_duration log now p n u d = Ok (r, d') → changes d d'.
Proof.
  intros Hwf H. apply rbind_ok in H as (e & [He Hid]%policy_guarded & H); [|done].
  apply rbind_ok in H as ([] & _ & [= _ <-]).
  eapply (configured_changes e_set_duration_limit e_duration_limit p e n); try done; [by intros [] <-|].
  simpl. by destruct (negb _); simpl; rewrite Hid.
Qed.

Lemma configure_targets_changes log now p n u d r d' :
  admin_wf d → configure_targets log now p n u d = Ok (r, d') → changes d d'.
Proof.
  intros Hwf H. apply rbind_ok in H as (e & [He Hid]%policy_guarded & H); [|done].
  apply rbind_ok in H as ([] & _ & [= _ <-]).
  eapply (configured_changes e_set_target_limit e_target_limit p e n); try done; [by intros [] <-|].
  simpl. by destruct (negb _); simpl; rewrite Hid.
Qed.

Lemma configure_concurrency_changes log now p n u d r d' :
  admin_wf d → configure_concurrency log now p n u d = Ok (r, d') → changes d d'.
Proof.
  intros Hwf H. apply rbind_ok in H as (e & [He Hid]%policy_guarded & [= _ <-]); [|done].
  eapply (configured_changes e_set_concurrency_limit e_concurrency_limit p e n); try done; [by intros [] <-|].
  simpl. by destruct (negb _); simpl; rewrite Hid.
Qed.

Lemma engage_changes log now p reason u d r d' :
  admin_wf d → engage_stop_work log now p reason u d = Ok (r, d') → changes d d'.
Proof.
  intros Hwf H. open_handler H e He Hid. open_lock H He Hid. injection H as _ <-.
  eapply (edit_changes p e); [done|done| |simpl; f_equal| | |]; try done.
  all: destruct (e_stop_work_at e) eqn:Es; simpl; [|by rewrite ?Hid; try (left; lia)].
  all: try (by rewrite Hid). right. by destruct e.
Qed.

Lemma release_changes log now p u d r d' :
  admin_wf d → release_stop_work log now p u d = Ok (r, d') → changes d d'.
Proof.
  intros Hwf H. open_handler H e He Hid. open_lock H He Hid. injection H as _ <-.
  eapply (edit_changes p e); [done|done| |simpl; f_equal| | |]; try done.
  all: destruct (e_stop_work_at e) eqn:Es; simpl; [by rewrite ?Hid; try (left; lia)|].
  all: try (by rewrite Hid). right. destruct e. simpl in *. by subst.
Qed.

(** Rows of other tables. *)
Definition authority_rows (d : db) := (engagements d, scope_items d, authorizations d, agent_proposals d).

Lemma authority_rows_changes d d' : admin_wf d → authority_rows d' = authority_rows d → changes d d'.
Proof. intros Hwf [= He Hs Ha _]. by apply changes_same. Qed.

Lemma ensure_user_rows now u d : authority_rows (ensure_user now u d) = authority_rows d.
Proof. unfold ensure_user. by case_match. Qed.

Lemma add_member_rows new_id log now p body u d r d' :
  add_member new_id log now p body u d = Ok (r, d') → authority_rows d' = authority_rows d.
Proof. intros (e & _ & H)%rbind_ok. do 4 apply rbind_ok in H as ([] & _ & H). by injection H as _ <-. Qed.

Lemma remove_member_rows log now p m u d r d' :
  remove_member log now p m u d = Ok (r, d') → authority_rows d' = authority_rows d.
Proof.
  intros (e & _ & H)%rbind_ok. apply rbind_ok in H as ([] & _ & H). destruct (first_row _ _); [|done]. by injection H as _ <-.
Qed.

Lemma create_client_rows new_id log new_org new_member now body u d :
  authority_rows (create_client new_id log new_org new_member now body u d).2 = authority_rows d.
Proof. unfold create_client, personal_org. by destruct (first_row _ _). Qed.

Lemma update_client_rows log now id body u d r d' :
  update_client log now id body u d = Ok (r, d') → authority_rows d' = authority_rows d.
Proof. intros (c & _ & H)%rbind_ok. apply rbind_ok in H as ([] & _ & H). by injection H as _ <-. Qed.

Lemma create_key_rows new_id log secret now label scope u d r d' :
  create_api_key new_id log secret now label scope u d = Ok (r, d') → authority_rows d' = authority_rows d.
Proof.
  intros ([] & _ & H)%rbind_ok. cbv zeta in H. destruct (existsb _ _); [done|]. injection H as _ <-. apply (ensure_user_rows now u d).
Qed.

Lemma revoke_key_rows log now id u d r d' :
  revoke_api_key log now id u d = Ok (r, d') → authority_rows d' = authority_rows d.
Proof. unfold revoke_api_key. destruct (first_row _ _); [|done]. by intros [= _ <-]. Qed.

(** A deleted client leaves its engagements, with what they authorize. *)
Lemma delete_client_changes log now id u d r d' :
  admin_wf d → delete_client log now id u d = Ok (r, d') → changes d d'.
Proof.
  intros Hwf (c & _ & H)%rbind_ok. apply rbind_ok in H as ([] & _ & [= _ <-]). split.
  - intros k v Hv. unfold revision_of, authority_of in *. simpl. rewrite lookup_fmap.
    destruct (engagements d !! k) as [e|]; [|done]. injection Hv as <-. simpl.
    exists (e_managed_authority_revision e). case_bool_decide; simpl; split_and!; try done; lia.
  - destruct Hwf as [He Hs Ha]. split; [|done|done]. simpl. intros k e. rewrite lookup_fmap.
    intros (e0 & Hk & ->)%fmap_Some. case_bool_decide; simpl; by apply He.
Qed.
End Owners.
