(* ===== verification/Administration.v ===== *)
(** * Administration as one system

    The requests that administer engagements, members, clients and keys, in
    any order and from any callers, and what every run of them keeps. *)
From S2P Require Import Prelude PyStr Json Digest Time Policy Models Access Enforcement JobConfig Execution Engagements Schemas Scope.
From S2P Require Import Authorizations Members Wire Authority Issuance IssuanceSafety AuthoritySafety.
From Stdlib Require Import Ascii.

Section System.
Context (other_iso : string → option datetime) (stored : datetime → time).
Context (nh3_clean html_unescape : string → string) (em_dash : ascii).

(** A caller whose key the routers of [main.py] let through. *)
Definition full (u : user_ctx) : Prop := require_full_scope u = Ok u.

(** One committed request of caller [u]; ids are drawn fresh.  Reviewing a
    proposal and setting a limit check the key's scope themselves, creating a
    proposal does not.  A rejection may look at an earlier database [seen]. *)
Inductive admin_request (u : user_ctx) (d : db) : db → Prop :=
| q_create_engagement new_id log new_org new_member now body r d' :
    full u → engagements d !! new_id = None →
    create_engagement other_iso stored new_id log new_org new_member now body u d = Ok (r, d') → admin_request u d d'
| q_update_engagement log now p body r d' :
    full u → update_engagement other_iso stored log now p body u d = Ok (r, d') → admin_request u d d'
| q_duration log now p n r d' : configure_duration log now p n u d = Ok (r, d') → admin_request u d d'
| q_targets log now p n r d' : configure_targets log now p n u d = Ok (r, d') → admin_request u d d'
| q_concurrency log now p n r d' : configure_concurrency log now p n u d = Ok (r, d') → admin_request u d d'
| q_stop log now p reason r d' : full u → engage_stop_work log now p reason u d = Ok (r, d') → admin_request u d d'
| q_release log now p r d' : full u → release_stop_work log now p u d = Ok (r, d') → admin_request u d d'
| q_scope_add kind new_id log now p body r d' :
    full u → kind = "in" ∨ kind = "out" → new_id ∉ map si_id (scope_items d) →
    add_scope_item kind new_id log now p body u d = Ok (r, d') → admin_request u d d'
| q_scope_delete log now p kind id r d' :
    full u → delete_scope_item log now p kind id u d = Ok (r, d') → admin_request u d d'
| q_scope_import ids log now p text commit r d' :
    full u → fresh_ids ids d →
    import_scope nh3_clean html_unescape em_dash ids log now p text commit u d = Ok (r, d') → admin_request u d d'
| q_authorize new_id log now p body r d' :
    full u → new_id ∉ map au_id (authorizations d) →
    create_authorization other_iso stored new_id log now p body u d = Ok (r, d') → admin_request u d d'
| q_reauthorize log now p id body r d' :
    full u → update_authorization other_iso stored log now p id body u d = Ok (r, d') → admin_request u d d'
| q_propose new_id log now p body r d' :
    new_id ∉ map pp_id (agent_proposals d) →
    create_proposal other_iso nh3_clean html_unescape new_id log now p body u d = Ok (r, d') → admin_request u d d'
| q_approve new_id log now p id r d' :
    fresh_row new_id d → approve_proposal other_iso stored new_id log now p id u d = Ok (r, d') → admin_request u d d'
| q_reject log now p id seen r d' : reject_proposal log now p id u seen d = Ok (r, d') → admin_request u d d'
| q_member_add new_id log now p body r d' :
    full u → add_member new_id log now p body u d = Ok (r, d') → admin_request u d d'
| q_member_remove log now p m r d' : full u → remove_member log now p m u d = Ok (r, d') → admin_request u d d'
| q_client_create new_id log new_org new_member now body :
    full u → admin_request u d (create_client new_id log new_org new_member now body u d).2
| q_client_update log now id body r d' : full u → update_client log now id body u d = Ok (r, d') → admin_request u d d'
| q_client_delete log now id r d' : full u → delete_client log now id u d = Ok (r, d') → admin_request u d d'
| q_key_create new_id log secret now label scope r d' :
    full u → create_api_key new_id log secret now label scope u d = Ok (r, d') → admin_request u d d'
| q_key_revoke log now id r d' : full u → revoke_api_key log now id u d = Ok (r, d') → admin_request u d d'.

Lemma admin_request_changes u d d' : admin_request u d d' → admin_wf d → changes d d'.
Proof.
  intros Hq Hwf. destruct Hq.
  - by eapply create_engagement_changes.
  - by eapply update_engagement_changes.
  - by eapply configure_duration_changes.
  - by eapply configure_targets_changes.
  - by eapply configure_concurrency_changes.
  - by eapply engage_changes.
  - by eapply release_changes.
  - by eapply add_scope_item_changes.
  - by eapply delete_scope_item_changes.
  - by eapply import_scope_changes.
  - by eapply create_authorization_changes.
  - by eapply update_authorization_changes.
  - apply create_proposal_effect in H0 as [_ ->]; [by apply changes_same|apply Hwf].
  - by eapply approve_changes.
  - by eapply reject_changes.
  - eapply authority_rows_changes, add_member_rows; done.
  - eapply authority_rows_changes, remove_member_rows; done.
  - eapply authority_rows_changes, create_client_rows; done.
  - eapply authority_rows_changes, update_client_rows; done.
  - by eapply delete_client_changes.
  - eapply authority_rows_changes, create_key_rows; done.
  - eapply authority_rows_changes, revoke_key_rows; done.
Qed.

(** Requests of any callers, one after another. *)
Definition administered : relation db := rtc (λ d d', ∃ u, admin_request u d d').

Lemma administered_changes d d' : administered d d' → admin_wf d → changes d d'.
Proof.
  induction 1 as [|d d1 d2 [u Hq] _ IH]; intros Hwf; [by split|].
  apply admin_request_changes in Hq as [Hm Hwf1]; [|done]. eapply changes_trans; [by split|auto].
Qed.

(** Through any sequence of administrative requests an engagement's
    authority revision never falls, and whenever anything the engagement
    authorizes has changed (its type, status, dates, limits, rate ceiling or
    stop-work, its scope, its authorizations), the revision is strictly
    higher than before. *)
Theorem authority_change_moves_revision d d' k r :
  admin_wf d → administered d d' → revision_of d k = Some r →
  ∃ r', revision_of d' k = Some r' ∧ r <= r' ∧ (authority_of d' k ≠ authority_of d k → r < r').
Proof.
  intros Hwf Hrun Hr. apply administered_changes in Hrun as [Hm _]; [|done].
  destruct (Hm k r Hr) as (r' & Hr' & Hle & Heq). exists r'. split_and!; [done..|].
  intros Hne. destruct (decide (r' = r)) as [->|]; [by destruct Hne; apply Heq|lia].
Qed.

(** C12. An approval registered before a change of what its engagement
    authorizes is worth nothing after it: whatever administrative requests
    surrounded the change, no job may be claimed under it, and no request
    for a running attempt under it is answered, renewed or consumed. *)
Theorem stale_approval_refused `{Ed25519} float_of outside iss d d' r job a job_id header token cid aid user body now
    control :
  admin_wf d → administered d d' →
  revision_of d (j_program_id job) = Some r → authority_of d' (j_program_id job) ≠ authority_of d (j_program_id job) →
  lock_job d' job_id user = Ok job → approval_row d' (j_managed_approval_id job) = Some a → ma_revision a <= r →
  (∀ v d2, claim float_of outside iss job_id header token cid aid user body now control d' ≠ Ok (v, d2))
  ∧ (∀ request fence l d2,
       live float_of outside iss job_id header user request cid aid fence now control d' ≠ Ok (l, d2)).
Proof.
  intros Hwf Hrun Hr Hne Hjob Ha Hle. apply administered_changes in Hrun as [Hm _]; [|done].
  destruct (Hm _ r Hr) as (r' & Hr' & Hle' & Heq).
  assert (Hlt : r < r') by (destruct (decide (r' = r)) as [->|]; [by destruct Hne; apply Heq|lia]).
  assert (Hno : ∀ b st x y n, _claim_permission float_of outside iss d' header job b n st ≠ Ok (x, y)).
  { intros b st x y n (t & _ & Hp)%claim_permission_sound.
    pose proof (pm_row _ _ _ _ _ _ _ _ _ _ _ Hp) as Hx. rewrite Ha in Hx. injection Hx as <-.
    destruct (az_revision _ _ _ _ _ _ _ _ _ (pm_authorized _ _ _ _ _ _ _ _ _ _ _ Hp)) as (e & He & Hrev).
    unfold revision_of in Hr'. rewrite He in Hr'. injection Hr' as Hr'. lia. }
  split.
  - intros v d2 Hc. unfold claim in Hc. rewrite Hjob in Hc. simpl in Hc. apply rbind_ok in Hc as ([] & _ & Hc).
    apply rbind_ok in Hc as ([x y] & Hc & _). by eapply Hno.
  - intros request fence l d2 Hc. unfold live in Hc. apply rbind_ok in Hc as (ex & _ & Hc).
    rewrite Hjob in Hc. simpl in Hc. destruct (contract_of d' job_id); [|done].
    apply rbind_ok in Hc as ([] & _ & Hc). apply rbind_ok in Hc as ([x y] & Hc & _). by eapply Hno.
Qed.


(** ** Proposals *)

(** Every stored payload is what validation made of some payload of its kind. *)
Definition well_proposed (q : AgentProposal) : Prop := ∃ raw clean,
  _validated_payload other_iso nh3_clean html_unescape (pp_kind q) raw = Ok clean ∧ pp_payload q = JObj clean.

Record proposals_wf (d : db) : Prop := {
  pw_ids : NoDup (map pp_id (agent_proposals d));
  pw_payload : ∀ q, q ∈ agent_proposals d → well_proposed q;
}.

(** What a request does to the table of proposals: nothing, one new pending
    row, or a verdict on a row, which keeps what it proposes. *)
Inductive proposal_change (d d' : db) : Prop :=
| pc_same : agent_proposals d' = agent_proposals d → proposal_change d d'
| pc_new q : agent_proposals d' = agent_proposals d ++ [q] → pp_status q = "pending" →
    pp_id q ∉ map pp_id (agent_proposals d) → well_proposed q → proposal_change d d'
| pc_verdict id f : agent_proposals d' = update_rows (λ q, String.eqb (pp_id q) id) f (agent_proposals d) →
    (∀ q, (pp_id (f q), pp_program_id (f q), pp_kind (f q), pp_payload (f q))
          = (pp_id q, pp_program_id q, pp_kind q, pp_payload q)) →
    (∀ q, pp_status (f q) = "approved" ∨ pp_status (f q) = "rejected") → proposal_change d d'.

Lemma proposal_wf_change d d' : proposal_change d d' → proposals_wf d → proposals_wf d'.
Proof.
  intros Hc [Hn Hp]. destruct Hc as [Hs|q Hs _ Hnew Hq|id f Hs Hk _]; split; rewrite Hs.
  - done.
  - done.
  - rewrite map_app. by apply NoDup_snoc.
  - intros x [Hx| ->%list_elem_of_singleton]%elem_of_app; auto.
  - rewrite map_update_rows; [done|]. intros x. by injection (Hk x).
  - intros x (y & Hy & ->)%elem_of_update_rows. case_match; [|auto].
    destruct (Hp y Hy) as (raw & clean & Hv & Hpay). injection (Hk y) as _ _ Hki Hpl.
    exists raw, clean. by rewrite Hki, Hpl.
Qed.

(** A verdict stays. *)
Lemma verdict_stays d d' q :
  proposal_change d d' → q ∈ agent_proposals d → pp_status q ≠ "pending" →
  ∃ q', q' ∈ agent_proposals d' ∧ pp_id q' = pp_id q ∧ pp_status q' ≠ "pending".
Proof.
  intros Hc Hq Hst. destruct Hc as [Hs|x Hs _ _ _|id f Hs Hk Hf]; rewrite Hs.
  - eauto.
  - exists q. split; [apply elem_of_app; by left|done].
  - destruct (String.eqb (pp_id q) id) eqn:E.
    + exists (f q). split_and!; [apply elem_of_update_rows; exists q; by rewrite E|by injection (Hk q)|].
      destruct (Hf q) as [->| ->]; done.
    + exists q. split_and!; [apply elem_of_update_rows; exists q; by rewrite E|done|done].
Qed.

Lemma apply_proposals new_id now e q d r d' :
  _apply other_iso stored new_id now e q d = Ok (r, d') → agent_proposals d' = agent_proposals d.
Proof.
  intros ([e' d1] & Hadv & H)%rbind_ok. apply rbind_ok in Hadv as (e0 & _ & [= <- <-]). cbv zeta in H.
  destruct (mem (pp_kind q) _); [|destruct (String.eqb (pp_kind q) "authorization")].
  - do 4 apply rbind_ok in H as (? & _ & H). by injection H as _ <-.
  - do 7 apply rbind_ok in H as (? & _ & H). by injection H as _ <-.
  - destruct (String.eqb (pp_kind q) "rate_ceiling"); [|done].
    do 2 apply rbind_ok in H as (? & _ & H). by injection H as _ <-.
Qed.

Lemma advance_proposals d e e' d' : advance d e = Ok (e', d') → agent_proposals d' = agent_proposals d.
Proof. by intros (e0 & _ & [= _ <-])%rbind_ok. Qed.

Ltac unfold_request H :=
  repeat lazymatch type of H with
  | rbind (_apply _ _ _ _ _ _ _) _ = Ok _ => fail
  | rbind _ _ = Ok _ =>
      let x := fresh "x" in apply rbind_ok in H as (x & _ & H);
      lazymatch type of x with (_ * _)%type => destruct x | _ => idtac end
  end.

(** Walks a request that writes no proposal to the database it answers with. *)
Ltac head_of t := lazymatch t with ?f _ => head_of f | _ => t end.
Ltac same_proposals H :=
  lazymatch type of H with ?t = _ => let f := head_of t in unfold f in H end; cbv beta zeta in H;
  repeat lazymatch type of H with
  | rbind (advance _ _) _ = Ok _ =>
      let e := fresh "e" in let d := fresh "d" in let Ha := fresh "Ha" in
      apply rbind_ok in H as ([e d] & Ha & H); apply advance_proposals in Ha; simpl in H
  | rbind _ _ = Ok _ =>
      let x := fresh "x" in apply rbind_ok in H as (x & _ & H);
      lazymatch type of x with (_ * _)%type => destruct x | _ => idtac end
  | match ?y with _ => _ end = Ok _ => destruct y; try done
  end;
  injection H as _ <-; simpl; by subst.

Lemma create_engagement_proposals new_id log new_org new_member now body u d r d' :
  create_engagement other_iso stored new_id log new_org new_member now body u d = Ok (r, d') →
  agent_proposals d' = agent_proposals d.
Proof.
  unfold create_engagement. destruct (personal_org _ _ _ _ _) as [org d1] eqn:Ho. intros H.
  unfold_request H. injection H as _ <-. simpl. unfold personal_org, ensure_user in Ho.
  destruct (first_row _ (users d)); simpl in Ho; destruct (first_row _ _); by injection Ho as _ <-.
Qed.

Lemma verdict_change status by_ now id applied d d' (f : AgentProposal → AgentProposal) :
  status = "approved" ∨ status = "rejected" → (∀ q, f q = resolve status by_ now (applied q)) →
  (∀ q, (pp_id (applied q), pp_program_id (applied q), pp_kind (applied q), pp_payload (applied q))
        = (pp_id q, pp_program_id q, pp_kind q, pp_payload q)) →
  agent_proposals d' = update_rows (λ q, String.eqb (pp_id q) id) f (agent_proposals d) → proposal_change d d'.
Proof. intros Hs Hf Ha Hd. apply (pc_verdict d d' id f Hd); intros q; rewrite Hf; [apply Ha|done]. Qed.

Lemma admin_request_proposals u d d' : admin_wf d → admin_request u d d' → proposal_change d d'.
Proof.
  intros Hwf Hq. destruct Hq; try (apply pc_same; lazymatch goal with
  | H : create_engagement _ _ _ _ _ _ _ _ _ _ = _ |- _ => idtac
  | H : _ = Ok (_, _) |- _ => same_proposals H end; fail).
  - by eapply pc_same, create_engagement_proposals.
  - apply create_proposal_effect in H0 as [(e & clean & _ & Hc & ->) ->]; [|apply Hwf].
    eapply pc_new; [done|done|done|]. by eexists _, _.
  - unfold approve_proposal in H0. unfold_request H0. apply rbind_ok in H0 as ([applied d1] & Hap & H0).
    apply apply_proposals in Hap. injection H0 as _ <-.
    eapply (verdict_change "approved" _ now _ (pp_set_applied_resource_id (Some applied))); try done; [by left|].
    simpl. by rewrite Hap.
  - unfold reject_proposal in H. unfold_request H. injection H as _ <-. eapply (verdict_change "rejected" _ now _ (λ q, q)); try done. by right.
  - apply pc_same. by pose proof (create_client_rows new_id log new_org new_member now body u d) as [= _ _ _ ?].
  - apply create_key_rows in H0 as [= _ _ _ ?]. by apply pc_same.
Qed.

Lemma administered_verdict d d' q :
  administered d d' → admin_wf d → q ∈ agent_proposals d → pp_status q ≠ "pending" →
  ∃ q', q' ∈ agent_proposals d' ∧ pp_id q' = pp_id q ∧ pp_status q' ≠ "pending".
Proof.
  intros Hrun. revert q. induction Hrun as [|d d1 d2 [u Hq] _ IH]; intros q Hwf Hin Hst; [eauto|].
  pose proof (admin_request_changes _ _ _ Hq Hwf) as [_ Hwf1].
  apply admin_request_proposals in Hq; [|done].
  destruct (verdict_stays _ _ _ Hq Hin Hst) as (q1 & Hq1 & Hid1 & Hst1).
  destruct (IH q1 Hwf1 Hq1 Hst1) as (q2 & Hq2 & Hid2 & Hst2). exists q2. by rewrite Hid2, Hid1.
Qed.

Lemma administered_proposals d d' : administered d d' → admin_wf d → proposals_wf d → proposals_wf d'.
Proof.
  induction 1 as [|d d1 d2 [u Hq] _ IH]; intros Hwf Hp; [done|].
  pose proof (admin_request_changes _ _ _ Hq Hwf) as [_ Hwf1].
  apply admin_request_proposals in Hq; [|done]. by apply IH, (proposal_wf_change d).
Qed.

(** A proposal is applied at most once: after an approval no sequence of
    administrative requests, a racing rejection among them, leads to a
    database where approving the same proposal again succeeds. *)
Theorem proposal_applied_once new_id log now p id u d r d1 d2 new_id' log' now' p' u' :
  admin_wf d → proposals_wf d → fresh_row new_id d →
  approve_proposal other_iso stored new_id log now p id u d = Ok (r, d1) → administered d1 d2 →
  ∀ v, approve_proposal other_iso stored new_id' log' now' p' id u' d2 ≠ Ok v.
Proof.
  intros Hwf Hp Hf Hap Hrun v Hv.
  assert (Hq : admin_request u d d1) by (by eapply q_approve).
  pose proof (admin_request_changes _ _ _ Hq Hwf) as [_ Hwf1].
  pose proof (proposal_wf_change _ _ (admin_request_proposals _ _ _ Hwf Hq) Hp) as Hp1.
  assert (Hdone : ∃ q, q ∈ agent_proposals d1 ∧ pp_id q = id ∧ pp_status q ≠ "pending").
  { unfold approve_proposal in Hap. apply rbind_ok in Hap as (u0 & _ & Hap). apply rbind_ok in Hap as ([e q0] & Hf0 & Hap).
    apply proposal_found in Hf0 as (_ & _ & _ & Hid0 & _); [|done].
    do 2 (apply rbind_ok in Hap as (? & _ & Hap)). apply rbind_ok in Hap as (q & [Hin Hid]%stored_found & Hap).
    apply rbind_ok in Hap as ([] & _ & Hap). apply rbind_ok in Hap as ([applied d0] & Ha & Hap).
    apply apply_proposals in Ha. injection Hap as _ <-. rewrite Hid0 in *.
    exists (resolve "approved" (cu_github_id u0) now (pp_set_applied_resource_id (Some applied) q)).
    split_and!; [|done|done]. simpl. rewrite Ha. apply elem_of_update_rows. exists q. split; [done|].
    by rewrite Hid, String.eqb_refl. }
  destruct Hdone as (q1 & Hin1 & Hid1 & Hst1).
  destruct (administered_verdict _ _ _ Hrun Hwf1 Hin1 Hst1) as (q2 & Hin2 & Hid2 & Hst2).
  pose proof (administered_changes _ _ Hrun Hwf1) as [_ Hwf2].
  pose proof (administered_proposals _ _ Hrun Hwf1 Hp1) as [Hnd _].
  unfold approve_proposal in Hv. apply rbind_ok in Hv as (u0 & _ & Hv). apply rbind_ok in Hv as ([e q0] & Hf0 & Hv).
  apply proposal_found in Hf0 as (_ & _ & _ & Hid0 & _); [|done].
  do 2 (apply rbind_ok in Hv as (? & _ & Hv)). apply rbind_ok in Hv as (q & [Hin Hid]%stored_found & Hv).
  apply rbind_ok in Hv as ([] & Hpend%guard_ok & _). apply String.eqb_eq in Hpend.
  apply Hst2. rewrite <-Hpend. f_equal. apply (NoDup_map_inj pp_id (agent_proposals d2)); [done..|congruence].
Qed.

(** What the endpoint for a change of that kind does when it is asked directly:
    the payload [raw] goes to it, the answer is database [d']. *)
Inductive direct (new_id log : string) (now : time) (p : string) (u : user_ctx) (kind : string) (raw : dict) (d d' : db)
    : Prop :=
| direct_scope side item i d2 sev :
    kind = "scope_" +:+ side → scope_item_create nh3_clean html_unescape raw = Valid item →
    add_scope_item side new_id log now p item u d = Ok (i, d2) →
    engagements d' = engagements d2 → authorizations d' = authorizations d2 →
    scope_items d2 = scope_items d ++ [new_scope_item new_id p side (sic_value item) (sic_kind item) (sic_notes item) "" now] →
    scope_items d' = scope_items d ++ [new_scope_item new_id p side (sic_value item) (sic_kind item) (sic_notes item) sev now] →
    default (JStr "") (lookup_key "max_severity" raw) = JStr sev → direct new_id log now p u kind raw d d'
| direct_authorization auth a d2 :
    kind = "authorization" → authorization_create nh3_clean html_unescape raw = Valid auth →
    create_authorization other_iso stored new_id log now p auth u d = Ok (a, d2) →
    engagements d' = engagements d2 → scope_items d' = scope_items d2 → authorizations d' = authorizations d2 →
    direct new_id log now p u kind raw d d'
| direct_rate e rate :
    kind = "rate_ceiling" → try_int (dget "rate" raw) = Ok (Some rate) → 1 <= rate <= 1000 →
    engagements d !! p = Some e →
    engagements d' = <[p := e_set_max_request_rate (Some rate) (bump true e)]> (engagements d) →
    scope_items d' = scope_items d → authorizations d' = authorizations d → direct new_id log now p u kind raw d d'.

Lemma advance_ok d p e : engagements d !! p = Some e → e_id e = p → advance d e = Ok (bump true e, set_engagement (bump true e) d).
Proof. intros He Hid. unfold advance, lock. by rewrite Hid, He. Qed.

Lemma validated_ok {A} (x : field A) a : validated x = Ok a → x = Valid a.
Proof. destruct x; [by intros [= ->]|done..]. Qed.

(** A date a payload was validated with is read back the same. *)
Lemma date_read_back k o t payload :
  dget k payload = json_text o → parse_iso_datetime other_iso o k = Ok t → date_at other_iso k payload = Ok t.
Proof.
  intros Hk Ht. unfold date_at. rewrite Hk. destruct o as [[|c s]|]; simpl in *; [done|exact Ht|done].
Qed.

Lemma in_set_text v l : in_str_set v l = Ok true → ∃ s, v = JStr s.
Proof. destruct v; try done. eauto. Qed.

(** The direct endpoints, when the guards pass. *)
Lemma add_scope_direct side new_id log now p item u d e :
  get_engagement_or_404 p u d = Ok e → require_member_write e u d = Ok tt → engagements d !! p = Some e → e_id e = p →
  ∃ i d2, add_scope_item side new_id log now p item u d = Ok (i, d2)
    ∧ engagements d2 = <[p := bump true e]> (engagements d) ∧ authorizations d2 = authorizations d
    ∧ scope_items d2
      = scope_items d ++ [new_scope_item new_id p side (sic_value item) (sic_kind item) (sic_notes item) "" now].
Proof.
  intros Hg Hw He Hid. unfold add_scope_item. rewrite Hg. cbn [rbind]. rewrite Hw. cbn [rbind].
  rewrite (advance_ok d p e He Hid). eexists _, _. split; [reflexivity|]. simpl. by rewrite Hid.
Qed.

Lemma apply_scope new_id log now p u d e q side raw clean :
  get_engagement_or_404 p u d = Ok e → require_member_write e u d = Ok tt → engagements d !! p = Some e → e_id e = p →
  pp_kind q = "scope_" +:+ side → side = "in" ∨ side = "out" →
  _validated_payload other_iso nh3_clean html_unescape (pp_kind q) raw = Ok clean → pp_payload q = JObj clean →
  ∃ r d', _apply other_iso stored new_id now e q d = Ok (r, d') ∧ direct new_id log now p u (pp_kind q) raw d d'.
Proof.
  intros Hg Hw He Hid Hk Hside Hv Hpay.
  assert (Hmem : mem (pp_kind q) ["scope_in"; "scope_out"] = true) by (rewrite Hk; by destruct Hside as [->| ->]).
  unfold _validated_payload in Hv. rewrite Hmem in Hv. apply rbind_ok in Hv as (item & Hi%validated_ok & Hv).
  cbv zeta in Hv. apply rbind_ok in Hv as (known & Hkn & Hv). apply rbind_ok in Hv as ([] & ->%guard_ok & [= <-]).
  apply in_set_text in Hkn as [sev Hsev].
  destruct (add_scope_direct side new_id log now p item u d e) as (i & d2 & Hadd & He2 & Ha2 & Hs2); [done..|].
  eexists _, _. split.
  - unfold _apply. rewrite (advance_ok d p e He Hid). cbn [rbind]. cbv zeta. rewrite Hmem.
    unfold payload_of. rewrite Hpay, Hsev. simpl. reflexivity.
  - eapply (direct_scope _ _ _ _ _ _ _ _ _ side item i d2 sev); try done.
    + rewrite He2. simpl. by rewrite Hid.
    + simpl. rewrite Hid, Hk. by destruct Hside as [->| ->].
Qed.

Lemma apply_authorization new_id log now p u d e q raw clean :
  get_engagement_or_404 p u d = Ok e → require_member_write e u d = Ok tt → engagements d !! p = Some e → e_id e = p →
  pp_kind q = "authorization" →
  _validated_payload other_iso nh3_clean html_unescape (pp_kind q) raw = Ok clean → pp_payload q = JObj clean →
  ∃ r d', _apply other_iso stored new_id now e q d = Ok (r, d') ∧ direct new_id log now p u (pp_kind q) raw d d'.
Proof.
  intros Hg Hw He Hid Hk Hv Hpay. rewrite Hk in Hv. unfold _validated_payload in Hv. simpl in Hv.
  apply rbind_ok in Hv as (a & Ha%validated_ok & Hv). apply rbind_ok in Hv as (t1 & H1 & Hv).
  apply rbind_ok in Hv as (t2 & H2 & Hv). apply rbind_ok in Hv as (t3 & H3 & [= <-]).
  eexists _, _. split.
  - unfold _apply. rewrite (advance_ok d p e He Hid). cbn [rbind]. cbv zeta. rewrite Hk. simpl mem. cbv iota.
    simpl String.eqb. cbv iota. unfold payload_of. rewrite Hpay.
    rewrite (date_read_back "authorized_at" (acr_authorized_at a) t1), (date_read_back "window_start" (acr_window_start a) t2),
      (date_read_back "window_end" (acr_window_end a) t3) by done. simpl. reflexivity.
  - assert (∃ x d2, create_authorization other_iso stored new_id log now p a u d = Ok (x, d2)
      ∧ engagements d2 = <[p := bump true e]> (engagements d) ∧ scope_items d2 = scope_items d
      ∧ authorizations d2 = authorizations d ++ [MkAuthorization new_id p (e_owner_github_id e) (Some (acr_permits a))
          (Some (acr_authorized_by a)) (stored <$> t1) (Some (acr_reference a)) (stored <$> t2) (stored <$> t3)
          (Some "active") (Some (acr_notes a)) (Some now)]) as (x & d2 & Hc & Hce & Hcs & Hca).
    { unfold create_authorization. rewrite Hg. cbn [rbind]. rewrite Hw. cbn [rbind]. rewrite H1, H2, H3. cbn [rbind].
      rewrite (advance_ok d p e He Hid). eexists _, _. split; [reflexivity|]. simpl. by rewrite Hid. }
    apply (direct_authorization _ _ _ _ _ _ _ _ _ a x d2 Hk Ha Hc); simpl; rewrite ?Hce, ?Hcs, ?Hca, ?Hid; done.
Qed.

Lemma apply_rate new_id log now p u d e q raw clean :
  engagements d !! p = Some e → e_id e = p → pp_kind q = "rate_ceiling" →
  _validated_payload other_iso nh3_clean html_unescape (pp_kind q) raw = Ok clean → pp_payload q = JObj clean →
  ∃ r d', _apply other_iso stored new_id now e q d = Ok (r, d') ∧ direct new_id log now p u (pp_kind q) raw d d'.
Proof.
  intros He Hid Hk Hv Hpay. rewrite Hk in Hv. unfold _validated_payload in Hv. simpl in Hv.
  apply rbind_ok in Hv as ([rate|] & Hr & Hv); [|done].
  apply rbind_ok in Hv as ([] & Hb%guard_ok & [= <-]). bool_simpl. eexists _, _. split.
  - unfold _apply. rewrite (advance_ok d p e He Hid). cbn [rbind]. cbv zeta. rewrite Hk. simpl mem. cbv iota.
    simpl String.eqb. cbv iota. unfold payload_of. rewrite Hpay. simpl. reflexivity.
  - eapply (direct_rate _ _ _ _ _ _ _ _ _ e rate); try done.
    simpl. rewrite Hid. by rewrite insert_insert_eq.
Qed.

(** C14. Approving is total and exact: when a full-access caller who may write
    to the engagement approves a pending proposal, the request succeeds, and
    engagements, scope and authorizations become what the endpoint for that
    kind of change makes of the payload the proposal was created with (a
    proposed severity is set on the item, a proposed rate is within 1 to
    1000 and moves the revision). *)
Theorem approval_does_what_was_asked new_id log now p u d e q :
  admin_wf d → proposals_wf d → full u → get_engagement_or_404 p u d = Ok e → require_member_write e u d = Ok tt →
  q ∈ agent_proposals d → pp_program_id q = p → pp_status q = "pending" →
  ∃ r d', approve_proposal other_iso stored new_id log now p (pp_id q) u d = Ok (r, d')
    ∧ pp_status r = "approved" ∧ pp_id r = pp_id q
    ∧ ∃ raw clean, _validated_payload other_iso nh3_clean html_unescape (pp_kind q) raw = Ok clean
        ∧ pp_payload q = JObj clean ∧ direct new_id log now p u (pp_kind q) raw d d'.
Proof.
  intros Hwf [Hnd Hpw] Hfull Hg Hw Hq Hp Hst. pose proof (guarded _ _ _ _ Hwf Hg) as [He Hid].
  destruct (Hpw q Hq) as (raw & clean & Hv & Hpay).
  assert (Hap : ∃ r d', _apply other_iso stored new_id now e q d = Ok (r, d') ∧ direct new_id log now p u (pp_kind q) raw d d').
  { destruct (mem (pp_kind q) ["scope_in"; "scope_out"]) eqn:Ek.
    - unfold mem in Ek. simpl in Ek. rewrite orb_false_r in Ek. apply orb_true_iff in Ek as [Ek%String.eqb_eq|Ek%String.eqb_eq].
      + eapply (apply_scope _ _ _ _ _ _ _ _ "in"); eauto.
      + eapply (apply_scope _ _ _ _ _ _ _ _ "out"); eauto.
    - destruct (String.eqb (pp_kind q) "authorization") eqn:Ea; [apply String.eqb_eq in Ea; by eapply apply_authorization|].
      destruct (String.eqb (pp_kind q) "rate_ceiling") eqn:Er; [apply String.eqb_eq in Er; by eapply apply_rate|].
      unfold _validated_payload in Hv. by rewrite Ek, Ea, Er in Hv. }
  destruct Hap as (r & d1 & Ha & Hd).
  assert (Hfind : ∀ b : AgentProposal → bool, (∀ x, b x = true → pp_id x = pp_id q) → b q = true →
                  first_row b (agent_proposals d) = Some q).
  { intros b Hb Hbq. destruct (first_row b (agent_proposals d)) as [x|] eqn:E.
    - apply first_row_Some in E as [Hx Hbx]. f_equal. apply (NoDup_map_inj pp_id (agent_proposals d)); auto.
    - by rewrite (proj1 (first_row_None _ _) E q Hq) in Hbq. }
  unfold approve_proposal, _proposal_or_404, stored_proposal. rewrite Hfull. cbn [rbind]. rewrite Hg. cbn [rbind].
  rewrite Hfind; [|by intros x ?; bool_simpl|by unfold of_program; rewrite Hid, Hp, !String.eqb_refl].
  cbn [rbind]. rewrite Hw. cbn [rbind]. unfold lock at 1. rewrite Hid, He. cbn [rbind].
  rewrite Hfind; [|by intros x ?; bool_simpl|by rewrite String.eqb_refl]. cbn [rbind]. rewrite Hst. cbn [rbind].
  rewrite Ha. eexists _, _. split; [reflexivity|]. split_and!; [done..|]. exists raw, clean.
  split_and!; [done..|]. destruct Hd.
  - eapply direct_scope; eauto.
  - eapply direct_authorization; eauto.
  - eapply direct_rate; eauto.
Qed.

(** ** Importing a scope *)

Definition row_key (r : scope_row) : string * string := (sr_scope_type r, sr_value r).

Lemma split_new_spec known parsed fresh dups :
  split_new known parsed = (fresh, dups) →
  NoDup (map row_key fresh) ∧ (∀ r, r ∈ fresh → row_key r ∉ known)
  ∧ (∀ r, r ∈ parsed → row_key r ∈ known ∨ row_key r ∈ map row_key fresh) ∧ fresh ++ dups ≡ₚ parsed.
Proof.
  revert known fresh dups. induction parsed as [|x parsed IH]; intros known fresh dups H; simpl in H.
  { injection H as <- <-. split_and!; [constructor|set_solver|set_solver|done]. }
  destruct (decide _) as [Hin|Hout].
  - destruct (split_new known parsed) as [f l] eqn:E. injection H as <- <-.
    destruct (IH _ _ _ E) as (Hnd & Hk & Hall & Hperm). split_and!; [done|done| |].
    + intros r [->|Hr]%elem_of_cons; [by left|auto].
    + by rewrite <-Permutation_middle, Hperm.
  - destruct (split_new _ parsed) as [f l] eqn:E. injection H as <- <-.
    destruct (IH _ _ _ E) as (Hnd & Hk & Hall & Hperm). simpl. split_and!.
    + apply NoDup_cons. split; [|done]. intros (r & Hr & Hrf)%list_elem_of_fmap. apply (Hk r Hrf). rewrite <-Hr. left.
    + intros r [->|Hr]%elem_of_cons; [done|]. intros Hn. apply (Hk r Hr). by right.
    + intros r [->|Hr]%elem_of_cons; [right; left|]. destruct (Hall r Hr) as [[Heq|Hn]%elem_of_cons|Hf].
      * right. rewrite Heq. left.
      * by left.
      * right. by right.
    + by rewrite Hperm.
Qed.

Lemma split_new_known known parsed :
  (∀ r, r ∈ parsed → row_key r ∈ known) → split_new known parsed = ([], parsed).
Proof.
  induction parsed as [|x parsed IH]; intros Hk; [done|]. simpl.
  rewrite decide_True by apply (Hk x), in_head. by rewrite IH by (intros r Hr; apply Hk; by right).
Qed.

Lemma imported_keys ids p now l n :
  map (λ s, (si_scope_type s, si_value s))
    (rows (λ s, String.eqb (si_program_id s) p) (imap (λ i, imported_item ids p now (n + i)%nat) l)) = map row_key l.
Proof.
  revert n. induction l as [|x l IH]; intros n; [done|]. unfold rows in *. simpl. rewrite String.eqb_refl. simpl.
  f_equal. rewrite <-(IH (S n)). f_equal. f_equal. apply imap_ext. intros i y _. simpl. by rewrite Nat.add_succ_r.
Qed.

(** Importing a scope adds exactly the rows whose type and value the
    engagement does not have yet, each once: the imported keys are new and
    distinct, every parsed row is in scope afterwards, nothing parsed is lost
    between new and duplicate rows.  Importing the same text again, by anyone
    who may write, adds nothing and leaves the database alone; a preview
    leaves it alone too, and announces the same rows. *)
Theorem import_adds_what_is_missing ids log now p text u d r d' :
  admin_wf d →
  import_scope nh3_clean html_unescape em_dash ids log now p text true u d = Ok (r, d') →
  ∃ parsed, _parse_hackerone_scope nh3_clean html_unescape em_dash text = Ok (parsed, sm_skipped r)
    ∧ sm_new_items r ++ sm_duplicates r ≡ₚ parsed ∧ sm_created r = Z.of_nat (length (sm_new_items r))
    ∧ scope_keys p d' = scope_keys p d ++ map row_key (sm_new_items r)
    ∧ NoDup (map row_key (sm_new_items r)) ∧ (∀ x, x ∈ sm_new_items r → row_key x ∉ scope_keys p d)
    ∧ (∀ x, x ∈ parsed → row_key x ∈ scope_keys p d')
    ∧ (∀ ids2 log2 now2 u2 r2 d2,
         import_scope nh3_clean html_unescape em_dash ids2 log2 now2 p text true u2 d' = Ok (r2, d2) →
         d2 = d' ∧ sm_created r2 = 0 ∧ sm_duplicates r2 = parsed)
    ∧ import_scope nh3_clean html_unescape em_dash ids log now p text false u d
      = Ok (MkScopeImport false 0 (sm_new_items r) (sm_duplicates r) (sm_skipped r), d).
Proof.
  intros Hwf H. pose proof H as Hrun. open_handler H e He Hid.
  apply rbind_ok in H as ([parsed skipped] & Hparse & H). open_lock H He Hid.
  assert (Hguard : ∃ e, get_engagement_or_404 p u d = Ok e ∧ require_member_write e u d = Ok tt).
  { unfold import_scope in Hrun. apply rbind_ok in Hrun as (e1 & He1 & Hrun).
    apply rbind_ok in Hrun as ([] & Hw1 & _). eauto. }
  destruct Hguard as (e1 & He1 & Hw1).
  destruct (split_new (scope_keys p d) parsed) as [new dups] eqn:Es.
  destruct (split_new_spec _ _ _ _ Es) as (Hnd & Hnew & Hall & Hperm).
  assert (Hkeys : scope_keys p d' = scope_keys p d ++ map row_key new ∧ sm_new_items r = new ∧ sm_duplicates r = dups
                  ∧ sm_skipped r = skipped ∧ sm_created r = Z.of_nat (length new)).
  { simpl in H. destruct (negb (bool_decide (new = []))) eqn:En.
    - injection H as <- <-. split_and!; try done. unfold scope_keys. simpl. rewrite rows_app, map_app. f_equal.
      apply (imported_keys ids p now new 0).
    - bool_simpl. subst new. injection H as <- <-. split_and!; try done. by rewrite app_nil_r. }
  destruct Hkeys as (Hkeys & Hn & Hd & Hs & Hc). rewrite Hn, Hd, Hs, Hc, Hkeys.
  assert (Hin : ∀ x, x ∈ parsed → row_key x ∈ scope_keys p d').
  { intros x Hx. rewrite Hkeys. apply elem_of_app. auto. }
  exists parsed. split_and!; try done; [by rewrite <-Hkeys| |].
  - intros ids2 log2 now2 u2 r2 d2 H2. unfold import_scope in H2.
    do 2 apply rbind_ok in H2 as (? & _ & H2). rewrite Hparse in H2. cbn [rbind] in H2.
    apply rbind_ok in H2 as (? & _ & H2). rewrite split_new_known in H2 by exact Hin. by injection H2 as <- <-.
  - unfold import_scope. rewrite He1. cbn [rbind]. rewrite Hw1. cbn [rbind]. rewrite Hparse. cbn [rbind]. by rewrite Es.
Qed.
End System.

(** ** The keys a user hands out *)

Section Keys.
Context (jwt_decode : string → option dict) (BACKEND_JWT_SECRET : string) (auth_methods : list string).
#[local] Abbreviation user_of token := (bearer_user jwt_decode BACKEND_JWT_SECRET auth_methods (Some ("Bearer " +:+ token))).

Lemma after_bearer token : strip (default "" (after " " ("Bearer " +:+ token))) = strip token.
Proof. by destruct token. Qed.

(** A token without blanks reaches the table of keys. *)
Lemma bearer_key secret now d :
  BACKEND_JWT_SECRET ≠ "" → all_chars (λ c, negb (is_space c)) secret = true →
  user_of (_API_KEY_PREFIX +:+ secret) now d = _resolve_api_key (_API_KEY_PREFIX +:+ secret) now d.
Proof.
  intros Hs Hsec. unfold bearer_user. apply String.eqb_neq in Hs. rewrite Hs, startswith_app, after_bearer.
  rewrite strip_none; [by rewrite startswith_app|]. by rewrite all_chars_app, Hsec.
Qed.

(** Its bearer is looked up by digest, which is unique. *)
Lemma created_key_found key d :
  (∀ k, k ∈ api_keys d → ak_key_hash k ≠ ak_key_hash key) →
  first_row (λ k, String.eqb (ak_key_hash k) (ak_key_hash key)) (api_keys d ++ [key]) = Some key.
Proof.
  intros Hnew. unfold first_row. induction (api_keys d) as [|k l IH]; simpl; [by rewrite String.eqb_refl|].
  rewrite (proj2 (String.eqb_neq _ _)) by (apply Hnew; left). apply IH. intros x Hx. apply Hnew. by right.
Qed.

(** A key authenticates as the user who made it, with the scope it was
    made for, from its creation to its revocation, and not afterwards; its
    answer is the only place the token appears, the table holds a digest. *)
Theorem key_works_until_revoked new_id log secret now label scope u d key raw d1 :
  BACKEND_JWT_SECRET ≠ "" → all_chars (λ c, negb (is_space c)) secret = true →
  new_id ∉ map ak_id (api_keys d) →
  create_api_key new_id log secret now label scope u d = Ok (key, raw, d1) →
  (∀ t, ∃ ctx, (user_of raw t d1).1 = Ok ctx ∧ cu_github_id ctx = cu_github_id u ∧ cu_scope ctx = or_else scope "full")
  ∧ (∀ log2 t2, ∃ m d2, revoke_api_key log2 t2 (ak_id key) u d1 = Ok (m, d2)
       ∧ api_keys d2 = api_keys d ∧ ∀ t, user_of raw t d2 = (unauthorized, d2)).
Proof.
  intros Hs Hsec Hid H. unfold create_api_key in H. apply rbind_ok in H as ([] & _ & H). cbv zeta in H.
  destruct (existsb _ _) eqn:Ex; [done|]. injection H as <- <- <-.
  assert (Hu : api_keys (ensure_user now u d) = api_keys d) by (unfold ensure_user; by destruct (first_row _ _)).
  rewrite Hu in *. set (key := MkApiKey _ _ _ _ _ _ _) in *.
  assert (Hnew : ∀ k, k ∈ api_keys d → ak_key_hash k ≠ ak_key_hash key).
  { intros k Hk Heq. assert (existsb (λ k, String.eqb (ak_key_hash k) (ak_key_hash key)) (api_keys d) = true) as Ht.
    { apply existsb_exists. exists k. split; [by apply list_elem_of_In|by apply String.eqb_eq]. }
    by pose proof (eq_trans (eq_sym Ht) Ex). }
  assert (Hfresh : ∀ k, k ∈ api_keys d → ak_id k ≠ new_id) by (intros k Hk <-; apply Hid; by apply list_elem_of_fmap_2).
  split.
  - intros t. rewrite bearer_key by done. unfold _resolve_api_key. simpl.
    change (sha256_hex _) with (ak_key_hash key). rewrite (created_key_found key d Hnew).
    eexists. split; [reflexivity|]. simpl. split; [done|]. destruct scope as [[|c s]|]; done.
  - intros log2 t2. unfold revoke_api_key. simpl.
    assert (Hfind : first_row (λ k, String.eqb (ak_id k) new_id && key_of (cu_github_id u) k) (api_keys d ++ [key]) = Some key).
    { unfold first_row. revert Hfresh. clear. induction (api_keys d) as [|k l IH]; simpl; intros Hf.
      - unfold key_of. simpl. by rewrite !String.eqb_refl.
      - rewrite (proj2 (String.eqb_neq _ _)) by (apply Hf; left). apply IH. intros x Hx. apply Hf. by right. }
    rewrite Hfind. eexists _, _. split; [reflexivity|]. simpl.
    assert (Hrows : rows (λ k, negb (String.eqb (ak_id k) new_id)) (api_keys d ++ [key]) = api_keys d).
    { rewrite rows_app, (rows_none _ [key]), app_nil_r.
      - apply rows_all. intros k Hk. by apply negb_true_iff, String.eqb_neq, Hfresh.
      - intros k ->%list_elem_of_singleton. simpl. by rewrite String.eqb_refl. }
    split; [done|]. intros t. rewrite bearer_key by done. unfold _resolve_api_key. simpl.
    rewrite Hrows. destruct (first_row _ (api_keys d)) as [k|] eqn:Ek; [|done].
    apply first_row_Some in Ek as [Hk Heq]. apply String.eqb_eq in Heq. by destruct (Hnew k Hk).
Qed.
End Keys.
