(* ===== verification/ManagedSafety.v ===== *)
(** * Managed issuance as one system

    The requests of [Issuance] and [Results] and those of the job queue, in any
    order and from any number of callers: what every reachable database
    satisfies, and what one request achieves. *)
From S2P Require Import Prelude PyStr Policy Json Digest Base64 Time Models Access LocalAuth Assessments TestCases.
From S2P Require Import JobConfig Execution Jobs Engagements JobSafety Upload Wire Authority Issuance Results.
From S2P Require Import Permission IssuanceSafety.

Section System.
Context `{Ed25519}.
Context (float_of : string → option pyfloat) (outside : string → result json).
Context (validate : dict → option VardrGateUpload).
Context (iss : Issuer).

Definition managed_rows (d : db) := (managed_approvals d, managed_contracts d, managed_clock d).

(** One committed transaction.  A request of the issuer observes the clock and
    authenticates in transactions of their own, so these are steps too; the
    last rule's [job_step] covers authentication and every other request, none
    of which writes the tables of managed issuance. *)
Inductive managed_step (d : db) : db → Prop :=
| m_observe now d' : _observe now d = Ok (tt, d') → managed_step d d'
| m_register job_id enr auth plan envelope actor now r d' :
    register float_of outside iss job_id enr auth plan envelope actor now d = Ok (r, d') → managed_step d d'
| m_revoke job_id actor now r d' : revoke job_id actor now d = Ok (r, d') → managed_step d d'
| m_current job_id header user body cid aid fence now control r d' :
    current float_of outside iss job_id header user body cid aid fence now control d = Ok (r, d') →
    managed_step d d'
| m_refresh job_id header user body cid aid fence now control r d' :
    refresh float_of outside iss job_id header user body cid aid fence now control d = Ok (r, d') →
    managed_step d d'
| m_consume job_id header user body cid aid fence sha now control r d' :
    consume float_of outside iss job_id header user body cid aid fence sha now control d = Ok (r, d') →
    managed_step d d'
| m_claim job_id header token cid aid user body now control r d' :
    claim float_of outside iss job_id header token cid aid user body now control d = Ok (r, d') →
    managed_step d d'
| m_submit ids log_id rid at_ job_id header user body n artifact sha now r d' :
    submit float_of outside validate ids log_id rid at_ job_id header user body n artifact sha now d = Ok (r, d') →
    managed_step d d'
| m_finish job_id header user body n receipt outcome confirmed now control r d' :
    finish_arguments outcome confirmed = Ok tt →
    finish float_of outside iss job_id header user body n receipt outcome now control d = Ok (r, d') →
    managed_step d d'
| m_report job_id header user body n outcome cause confirmed now r d' :
    report_arguments outcome cause confirmed = Ok tt →
    report job_id header user body n outcome cause now d = Ok (r, d') → managed_step d d'
| m_queue d' : job_step d d' → managed_rows d' = managed_rows d → managed_step d d'.

Lemma managed_step_safe d d' : managed_step d d' → jobs_wf d → managed_wf d → safe_change d d'.
Proof.
  intros Hstep Hj Hm. destruct Hstep.
  - apply observe_spec in H0 as (t & _ & Hcw); [|apply Hm]. eapply safe_clock, Hcw. by apply safe_refl.
  - by eapply register_change.
  - by eapply revoke_change.
  - by eapply current_change.
  - by eapply refresh_change.
  - by eapply consume_change.
  - by eapply claim_change.
  - by eapply submit_change.
  - by eapply finish_change.
  - by eapply report_change.
  - injection H1 as Ha Hc Hclk. apply safe_frame; try done; [by eapply job_step_wf|].
    apply job_step_marks; [apply Hj|done].
Qed.

Lemma managed_wf_empty : managed_wf empty_db.
Proof. split; simpl; try (by constructor); set_solver. Qed.

(** Everything a run keeps. *)
Lemma managed_run d d' :
  rtc managed_step d d' → jobs_wf d → managed_wf d →
  jobs_wf d' ∧ managed_wf d' ∧ later (abs d) (abs d') ∧ (sound (abs d) → sound (abs d'))
  ∧ ∀ t0, clock_at d = Some t0 → ∃ t, clock_at d' = Some t ∧ t0 <= t.
Proof.
  induction 1 as [d|d d1 d' Hstep _ IH]; intros Hj Hm.
  - split_and!; try done. by apply clock_same.
  - destruct (managed_step_safe _ _ Hstep Hj Hm) as [Hj1 Hm1 Hs Hc].
    destruct (IH Hj1 Hm1) as (Hj' & Hm' & Hl & Hsd & Hc'). split_and!; [done|done| | |].
    + destruct Hs as [<-|Hs]; [done|]. etrans; [by apply step_later|done].
    + intros Hsound. apply Hsd. destruct Hs as [->|Hs]; [done|]. by eapply step_sound.
    + intros t0 (t1 & Ht1 & Hle)%Hc. destruct (Hc' _ Ht1) as (t & Ht & Hle'). exists t. split; [done|lia].
Qed.

Lemma managed_reachable d :
  rtc managed_step empty_db d → jobs_wf d ∧ managed_wf d ∧ sound (abs d).
Proof.
  intros Hd%managed_run; [|apply jobs_wf_empty|apply managed_wf_empty].
  destruct Hd as (Hj & Hm & _ & Hs & _). split_and!; [done|done|]. apply Hs, sound_empty.
Qed.

(** C6. The issuer implements the permission machine: whatever requests have come
    before, each one takes the machine that its tables stand for at most one
    step, so that grants are new, withdrawn, spent one attempt at a time within
    their limit, and attempts launched once, under a grant that stands. *)
Theorem issuer_refines_permissions d d' :
  rtc managed_step empty_db d → managed_step d d' →
  abs empty_db = State ∅ ∅ ∧ (abs d' = abs d ∨ Permission.step (abs d) (abs d')).
Proof.
  intros (Hj & Hm & _)%managed_reachable Hstep. split; [done|]. by apply (managed_step_safe d d').
Qed.

(** The contracts of one approval. *)
Definition contracts_of (id : string) (d : db) : list ManagedContract :=
  rows (λ c, String.eqb (mc_approval_record_id c) id) (managed_contracts d).

Lemma abs_contract d c : managed_wf d → c ∈ managed_contracts d →
  attempts (abs d) !! mc_job_id c = Some (attempt_of_contract c).
Proof. intros Hm Hc. apply (index_Some mc_job_id attempt_of_contract); [apply Hm|done]. Qed.

Lemma abs_approval d a : managed_wf d → a ∈ managed_approvals d → grants (abs d) !! ma_id a = Some (grant_of a).
Proof. intros Hm Ha. apply (index_Some ma_id grant_of); [apply Hm|done]. Qed.

Lemma contracts_numbered d a c :
  managed_wf d → sound (abs d) → a ∈ managed_approvals d → c ∈ contracts_of (ma_id a) d →
  1 <= mc_ordinal c <= ma_issued a.
Proof.
  intros Hm Hs Ha [Hc Hid]%elem_of_rows. bool_simpl.
  destruct (so_numbered _ Hs _ _ (abs_contract d c Hm Hc)) as (g & Hg & Ho).
  change (a_grant (attempt_of_contract c)) with (mc_approval_record_id c) in Hg.
  rewrite Hid, (abs_approval d a Hm Ha) in Hg. by injection Hg as <-.
Qed.

Lemma NoDup_map_on {A B} (f : A → B) l :
  NoDup l → (∀ x y, x ∈ l → y ∈ l → f x = f y → x = y) → NoDup (map f l).
Proof.
  induction l as [|x l IH]; intros Hl Hf; simpl; [constructor|]. apply NoDup_cons in Hl as [Hx Hl].
  constructor; [|apply IH; [done|]; intros y z Hy Hz; apply Hf; by right].
  intros Hin. apply list_elem_of_fmap in Hin as (y & Heq & Hy). destruct Hx.
  replace x with y; [done|]. symmetry. apply Hf; [left|by right|done].
Qed.

Lemma contracts_distinct d a :
  managed_wf d → sound (abs d) → NoDup (map mc_ordinal (contracts_of (ma_id a) d)).
Proof.
  intros Hm Hs. apply NoDup_map_on.
  - unfold contracts_of, rows. apply NoDup_ListNoDup, List.NoDup_filter, NoDup_ListNoDup.
    apply (NoDup_fmap_1 mc_id), (mw_contract_key d Hm).
  - intros x y [Hx Hxi]%elem_of_rows [Hy Hyi]%elem_of_rows Ho. bool_simpl.
    apply (NoDup_map_inj mc_job_id (managed_contracts d)); [apply Hm|done|done|].
    apply (so_distinct _ Hs _ _ _ _ (abs_contract d x Hm Hx) (abs_contract d y Hm Hy)); simpl; congruence.
Qed.

(** At most [n] distinct numbers from 1 to [n]. *)
Lemma numbered_length (l : list Z) n : 0 <= n → NoDup l → (∀ z, z ∈ l → 1 <= z <= n) → Z.of_nat (length l) <= n.
Proof.
  intros Hn Hl Hz. assert (length l <= length (seqZ 1 n))%nat; [|rewrite length_seqZ in *; lia].
  apply submseteq_length, NoDup_submseteq; [done|]. intros z Hin%Hz. apply elem_of_seqZ. lia.
Qed.

(** C7. An approval issues no more contracts than its operator allowed, whatever
    is claimed, deleted, queued or revoked: its contracts bear distinct ordinals
    from 1 to the number issued, which never passes the signed limit. *)
Theorem approval_never_overspent d a :
  rtc managed_step empty_db d → a ∈ managed_approvals d →
  Z.of_nat (length (contracts_of (ma_id a) d)) <= ma_issued a <= limit_of a ∧ limit_of a <= 1000
  ∧ (∀ c, c ∈ contracts_of (ma_id a) d → 1 <= mc_ordinal c <= ma_issued a)
  ∧ NoDup (map mc_ordinal (contracts_of (ma_id a) d)) ∧ NoDup (map mc_job_id (managed_contracts d)).
Proof.
  intros (_ & Hm & Hs)%managed_reachable Ha.
  pose proof (so_bound _ Hs _ _ (abs_approval d a Hm Ha)) as Hb. simpl in Hb.
  pose proof (mw_limit d Hm a Ha). split_and!; try done; try lia.
  - rewrite <-(length_map mc_ordinal). apply numbered_length; [lia|by apply contracts_distinct|].
    intros z (c & -> & Hc)%list_elem_of_fmap. by eapply contracts_numbered.
  - intros c Hc. by eapply contracts_numbered.
  - by apply contracts_distinct.
  - apply Hm.
Qed.


(** Once consumed, always consumed. *)
Lemma consumed_stays d d' c :
  jobs_wf d → managed_wf d → rtc managed_step d d' → c ∈ managed_contracts d → mc_consumed c = true →
  ∃ c', contract_of d' (mc_job_id c) = Some c' ∧ mc_consumed c' = true
    ∧ mc_approval_record_id c' = mc_approval_record_id c ∧ mc_ordinal c' = mc_ordinal c.
Proof.
  intros Hj Hm Hrun Hc Hcon. destruct (managed_run _ _ Hrun Hj Hm) as (_ & Hm' & Hl & _ & _).
  destruct (lt_attempts _ _ Hl _ _ (abs_contract d c Hm Hc)) as (at_ & Hat & _ & _ & Heq).
  rewrite (Heq Hcon) in Hat. apply index_inv in Hat as (c' & Hc' & Hk & [= H1 H2 H3]). exists c'.
  split_and!; [|congruence..]. destruct (contract_of d' (mc_job_id c)) as [c2|] eqn:E.
  - apply contract_of_inv in E as [Hc2 Hk2]. f_equal.
    apply (NoDup_map_inj mc_job_id (managed_contracts d')); [apply Hm'|done|done|congruence].
  - apply contract_of_None in E. destruct E. rewrite <-Hk. apply list_elem_of_fmap. eauto.
Qed.

(** What a consumption finds and leaves. *)
Lemma consume_facts job_id header user body cid aid fence sha now control d r d' :
  managed_wf d → consume float_of outside iss job_id header user body cid aid fence sha now control d = Ok (r, d') →
  ∃ l d1 c', alive float_of outside iss d job_id header body cid aid fence now control l d1
    ∧ mc_consumed (lv_contract l) = false ∧ digest (mc_envelope (lv_contract l)) = Ok sha
    ∧ c' ∈ managed_contracts d' ∧ c' = mc_set_consumed true (lv_contract l).
Proof.
  intros Hm H0. apply rbind_ok in H0 as ([l d1] & Hl%live_sound & H0); [|apply Hm].
  destruct (al_clock _ _ _ _ _ _ _ _ _ _ _ _ _ _ Hl) as (t & _ & Hcw).
  destruct (alive_approval _ _ _ _ _ _ _ _ _ _ _ _ _ _ Hm Hl) as (Hc & _).
  destruct (clock_write_set _ _ _ Hcw) as [v ->]. pose proof (cw_one _ _ _ Hcw) as Hone.
  unfold consume_contract in H0. apply rbind_ok in H0 as (h & Hh & H0). apply rbind_ok in H0 as ([] & Heq%require_ok & H0).
  destruct (first_row _ _) as [c0|] eqn:Ef; [|done]. apply first_row_Some in Ef as [Hc0 Hq]. cbv zeta in H0.
  apply String.eqb_eq in Heq. subst h.
  assert (c0 = lv_contract l) as ->.
  { apply (NoDup_map_inj mc_id (managed_contracts d)); [apply Hm|done|done|]. by bool_simpl. }
  apply andb_true_iff in Hq as [Hself Hnot]. apply negb_true_iff in Hnot.
  apply rbind_ok in H0 as (d2 & (t2 & _ & Hcw2)%locked_time_spec & H0); [|done].
  apply rbind_ok in H0 as (t3 & _ & H0). apply rbind_ok in H0 as (p & _ & H0).
  apply rbind_ok in H0 as (t4 & _ & H0). apply rbind_ok in H0 as ([] & _ & [= _ <-]).
  exists l, (set_managed_clock v d). eexists. split_and!; [done|done|done| |done].
  destruct (clock_write_set _ _ _ Hcw2) as [w ->]. simpl. apply elem_of_update_rows.
  exists (lv_contract l). split; [done|]. by rewrite Hself, Hnot.
Qed.

(** A contract launches one attempt: whoever's request consumes it found it
    issued, live and unconsumed, under the approval it was issued for, and from
    then on, through every later request, the job's contract stays consumed and
    every further consumption is refused. *)
Theorem contract_consumed_once job_id header user body cid aid fence sha now control d r d1 d' :
  rtc managed_step empty_db d →
  consume float_of outside iss job_id header user body cid aid fence sha now control d = Ok (r, d1) →
  rtc managed_step d1 d' →
  (∃ c a, contract_of d job_id = Some c ∧ mc_id c = cid ∧ mc_consumed c = false ∧ digest (mc_envelope c) = Ok sha
     ∧ a ∈ managed_approvals d ∧ ma_id a = mc_approval_record_id c ∧ ma_revoked a = false)
  ∧ (∃ c', contract_of d' job_id = Some c' ∧ mc_consumed c' = true)
  ∧ ∀ header2 user2 body2 cid2 aid2 fence2 sha2 now2 control2 r2,
      consume float_of outside iss job_id header2 user2 body2 cid2 aid2 fence2 sha2 now2 control2 d' ≠ Ok r2.
Proof.
  intros (Hj & Hm & _)%managed_reachable Hcons Hrun.
  pose proof (consume_change _ _ _ _ _ _ _ _ _ _ _ _ _ _ _ _ Hj Hm Hcons) as [Hj1 Hm1 _ _].
  destruct (consume_facts _ _ _ _ _ _ _ _ _ _ _ _ _ Hm Hcons) as (l & d2 & c' & Hl & Hnot & Hsha & Hc' & ->).
  pose proof (alive_approval _ _ _ _ _ _ _ _ _ _ _ _ _ _ Hm Hl) as (_ & Hk & Ha & Hid & Hrev).
  destruct (consumed_stays d1 d' _ Hj1 Hm1 Hrun Hc' eq_refl) as (c2 & Hc2 & Hcon2 & _). simpl in Hc2.
  rewrite Hk in Hc2. split_and!.
  - exists (lv_contract l), (lv_approval l). pose proof (al_contract _ _ _ _ _ _ _ _ _ _ _ _ _ _ Hl).
    pose proof (al_named _ _ _ _ _ _ _ _ _ _ _ _ _ _ Hl) as (? & _). by split_and!.
  - eauto.
  - intros ? ? ? ? ? ? ? ? ? [r2 d3] Hagain. destruct (managed_run _ _ Hrun Hj1 Hm1) as (_ & Hm' & _).
    destruct (consume_facts _ _ _ _ _ _ _ _ _ _ _ _ _ Hm' Hagain) as (l2 & d4 & c3 & Hl2 & Hnot2 & _).
    pose proof (al_contract _ _ _ _ _ _ _ _ _ _ _ _ _ _ Hl2) as Hc3. congruence.
Qed.

(** The budgets of an engagement and the bond of attempts to jobs also hold
    when managed claims, completions and stops are among the requests, and the
    issuer's clock never runs back. *)
Theorem managed_work_keeps_budgets d d' k e :
  rtc managed_step empty_db d → rtc managed_step d d' → engagements d' !! k = Some e →
  within (e_concurrency_limit e) (reserved d' k) ∧ within (e_target_limit e) (e_targets_spent e)
  ∧ within (e_duration_limit e) (e_duration_allocated e)
  ∧ (∀ i x, job_executions d' !! i = Some x → ∃ j, scan_jobs d' !! i = Some j ∧ attempt_of x j)
  ∧ ∀ t0, clock_at d = Some t0 → ∃ t, clock_at d' = Some t ∧ t0 <= t.
Proof.
  intros (Hj & Hm & _)%managed_reachable Hrun He.
  destruct (managed_run _ _ Hrun Hj Hm) as ([Hwf Hb] & _ & _ & _ & Hc). pose proof (Hb k e He) as (? & ? & ?).
  split_and!; try done. apply Hwf.
Qed.

(** ** What one request achieves *)

Lemma budgets_ok body a : _budgets body a = Ok tt →
  cc_concurrency_budget body = true ∧ is_Some (cc_target_binding body) ∧
  ∃ s limit, cc_duration_seconds body = Some s ∧ int_field (ma_context a) "max_duration_seconds" = Ok limit ∧ s <= limit.
Proof.
  unfold _budgets. destruct (_ || _) eqn:Eb; [done|]. bool_simpl.
  destruct (cc_duration_seconds body) as [s|]; [|done]. intros (limit & Hl & Hs%require_ok)%rbind_ok.
  bool_simpl. split_and!; [done|done|]. eauto.
Qed.

(** The contract a claim leaves, and the rows around it. *)
Record claimed (d : db) (job_id header cid aid : string) (body : ClaimControl) (t0 : time) (d' : db) : Prop := {
  cl_job : ∃ job, scan_jobs d !! job_id = Some job ∧ j_status job = "pending" ∧
    ∃ a r t envelope c,
      permitted float_of outside iss d header job body ["pending"] t0 a r
      ∧ _budgets body a = Ok tt ∧ contract_of d job_id = None
      ∧ ma_issued a < limit_of a
      ∧ Wire.issue float_of outside (is_wire iss) (ma_envelope a) (JObj (ir_context r)) (ma_owner a) (utc t) cid aid 1
          (ma_issued a + 1) = Ok envelope
      ∧ c = MkManagedContract cid job_id (ma_id a) (ma_issued a + 1) aid 1 envelope false
      ∧ managed_contracts d' = managed_contracts d ++ [c]
      ∧ ma_set_issued (ma_issued a + 1) a ∈ managed_approvals d'
      ∧ ∃ j' x, scan_jobs d' !! job_id = Some j' ∧ j_status j' = "running" ∧ j_case_snapshot j' = ir_case r
        ∧ job_executions d !! job_id = None
        ∧ job_executions d' !! job_id = Some x ∧ x_state x = "active" ∧ x_capacity_reserved x = true;
}.

Lemma claim_facts job_id header token cid aid user body now control d v d' :
  jobs_wf d → managed_wf d →
  claim float_of outside iss job_id header token cid aid user body now control d = Ok (v, d') →
  ∃ t0, now 0%nat = Ok t0 ∧ claimed d job_id header cid aid body t0 d'.
Proof.
  intros Hj Hm H0. unfold claim in H0. apply rbind_ok in H0 as (job & Hjob%lock_job_lookup & H0).
  apply rbind_ok in H0 as ([] & Hpend%require_ok & H0).
  apply rbind_ok in H0 as ([a r] & (t0 & Ht0 & Hp)%claim_permission_sound & H0).
  apply rbind_ok in H0 as ([] & Hbud & H0).
  apply rbind_ok in H0 as (d1 & (t1 & _ & Hcw)%locked_time_spec & H0); [|apply Hm].
  apply rbind_ok in H0 as (e & _ & H0). apply rbind_ok in H0 as ([] & _ & H0).
  apply rbind_ok in H0 as ([cap d2] & Hrows%claim_rows_spec & H0). apply rbind_ok in H0 as (t & _ & H0).
  apply rbind_ok in H0 as ([envelope d3] & Hissue & H0).
  pose proof (cw_one _ _ _ Hcw) as Hone. destruct (clock_write_set _ _ _ Hcw) as [w ->].
  destruct Hrows as (t2 & e' & x & _ & _ & _ & _ & Hj2 & _ & Hx2 & Hx0 & _ & Hxs & _ & Hxc & Hma & Hmc & Hclk).
  pose proof (wf_job_key _ (proj1 Hj) _ _ Hjob) as Hid. subst job_id. simpl in Hj2, Hx2, Hx0, Hma, Hmc, Hclk.
  unfold issue_contract in Hissue. apply rbind_ok in Hissue as (limit & Hlimit%limit_of_field & Hissue).
  apply rbind_ok in Hissue as ([] & Hle%require_ok & Hissue). apply Z.leb_le in Hle.
  destruct (contract_of d2 (j_id job)) eqn:Ec; [done|].
  apply rbind_ok in Hissue as (env & Hw & Hissue). apply rbind_ok in Hissue as (d4 & Hadd & [= <- <-]).
  unfold add_contract in Hadd. destruct (existsb _ _); [done|]. injection Hadd as <-.
  apply rbind_ok in H0 as (d5 & (t4 & _ & Hcw5)%locked_time_spec & H0).
  2: { unfold one_clock. simpl. by rewrite Hclk. }
  apply rbind_ok in H0 as (t5 & _ & H0). apply rbind_ok in H0 as (p & _ & [= _ <-]).
  destruct (clock_write_set _ _ _ Hcw5) as [w' ->]. bool_simpl.
  exists t0. split; [done|]. split. exists job. split; [done|]. split; [done|].
  exists a, r, t, env. eexists. split_and!; try done.
  - unfold contract_of in *. by rewrite Hmc in Ec.
  - lia.
  - simpl. by rewrite Hmc.
  - destruct Hp as [Hrow _ _ _ _ _]. apply approval_row_inv in Hrow as [Ha _]. simpl. rewrite Hma.
    apply elem_of_update_rows. exists a. split; [done|]. by rewrite String.eqb_refl.
  - exists (claimed_job t2 (ir_case r) job), x. simpl. rewrite Hj2, Hx2, !lookup_insert_eq.
    split_and!; try done. rewrite Hxc. by apply budgets_ok in Hbud as [-> _].
Qed.

(** C8. A managed claim issues one contract, and only one: it found the job
    pending and unclaimed, the approval registered, unrevoked, below its limit
    and still approved for the authority as it stands, and an enrolled runner
    with every budget control; it leaves the job running under a reserved
    attempt, the approval charged, and a contract bound to the next ordinal,
    signed over the approval; from then on every managed claim of the job is
    refused. *)
Theorem claim_issues_one_contract job_id header token cid aid user body now control d v d1 d' :
  rtc managed_step empty_db d →
  claim float_of outside iss job_id header token cid aid user body now control d = Ok (v, d1) →
  rtc managed_step d1 d' →
  (∃ t0, now 0%nat = Ok t0 ∧ claimed d job_id header cid aid body t0 d1)
  ∧ (∃ c, contract_of d' job_id = Some c)
  ∧ ∀ header2 token2 cid2 aid2 user2 body2 now2 control2 v2,
      claim float_of outside iss job_id header2 token2 cid2 aid2 user2 body2 now2 control2 d' ≠ Ok v2.
Proof.
  intros (Hj & Hm & _)%managed_reachable Hclaim Hrun.
  destruct (claim_change _ _ _ _ _ _ _ _ _ _ _ _ _ _ _ Hj Hm Hclaim) as [Hj1 Hm1 _ _].
  pose proof (claim_facts _ _ _ _ _ _ _ _ _ _ _ _ Hj Hm Hclaim) as (t0 & Ht0 & Hc).
  destruct (managed_run _ _ Hrun Hj1 Hm1) as (Hj' & Hm' & Hl & _).
  assert (Hsome : ∃ c, contract_of d' job_id = Some c).
  { destruct Hc as [(job & _ & _ & a & r & t & env & c & _ & _ & _ & _ & _ & -> & Hcs & _)].
    set (c := MkManagedContract _ _ _ _ _ _ _ _) in Hcs.
    assert (Hin : c ∈ managed_contracts d1) by (rewrite Hcs; set_solver).
    destruct (lt_attempts _ _ Hl _ _ (abs_contract d1 c Hm1 Hin)) as (at_ & Hat & _).
    apply index_inv in Hat as (c' & Hc' & Hk & _). simpl in Hk.
    destruct (contract_of d' job_id) as [c2|] eqn:E; [eauto|]. apply contract_of_None in E.
    destruct E. rewrite <-Hk. apply list_elem_of_fmap. eauto. }
  split_and!; [eauto|done|].
  intros ? ? ? ? ? ? ? ? [v2 d2] Hagain. destruct Hsome as [c Hsome].
  destruct (claim_facts _ _ _ _ _ _ _ _ _ _ _ _ Hj' Hm' Hagain) as (t2 & _ & [(? & _ & _ & ? & ? & ? & ? & ? & Hx)]).
  destruct Hx as (_ & _ & Hnone & _). congruence.
Qed.

(** ** Leases *)

Lemma least_le l : ∀ best, least best l <= best ∧ ∀ t, t ∈ l → least best l <= t.
Proof.
  induction l as [|t l IH]; intros best; simpl; [split; [lia|set_solver]|].
  destruct (Z.ltb_spec t best).
  - destruct (IH t) as [H1 H2]. split; [lia|]. intros z [->|Hz]%elem_of_cons; [lia|by apply H2].
  - destruct (IH best) as [H1 H2]. split; [lia|]. intros z [->|Hz]%elem_of_cons; [lia|by apply H2].
Qed.

Lemma least_of_le l t : t ∈ l → least_of l <= t.
Proof.
  destruct l as [|t0 l]; [set_solver|]. simpl.
  intros [->|Ht]%elem_of_cons; [apply (proj1 (least_le l t0))|by apply (proj2 (least_le l t0))].
Qed.

(** A renewed lease is short and never outlives the permission: it runs for at
    most ten seconds from the later of the two clocks, and ends by the
    approval's expiry, the testing window, every credential grant and the
    seconds allocated to the attempt. *)
Theorem refreshed_lease_bounded job_id header user body cid aid fence now control d r d' :
  attempts_wf d → managed_wf d →
  refresh float_of outside iss job_id header user body cid aid fence now control d = Ok (r, d') →
  ∃ l d1 x t started ends,
    alive float_of outside iss d job_id header body cid aid fence now control l d1
    ∧ now 3%nat = Ok t ∧ job_executions d' !! job_id = Some x
    ∧ Z.max t (control 1%nat) < x_expires_at x <= Z.max t (control 1%nat) + seconds LEASE_SECONDS
    ∧ j_started_at (lv_job l) = Some started
    ∧ ceilings (JObj (ir_context (lv_request l))) started (x_duration_seconds (lv_execution l)) = Ok ends
    ∧ ∀ z, z ∈ ends → x_expires_at x <= z.
Proof.
  intros Hj Hm H0. apply rbind_ok in H0 as ([l d1] & Hl%live_sound & H0); [|apply Hm].
  destruct (al_clock _ _ _ _ _ _ _ _ _ _ _ _ _ _ Hl) as (t0 & _ & Hcw).
  pose proof (al_execution _ _ _ _ _ _ _ _ _ _ _ _ _ _ Hl) as Hx.
  apply rbind_ok in H0 as (t & Ht & H0). destruct (j_started_at (lv_job l)) as [started|] eqn:Es; [|done].
  apply rbind_ok in H0 as ([] & _ & H0). apply rbind_ok in H0 as (ends & Hends & H0). cbv zeta in H0.
  set (i := Z.max t (control 1%nat)) in *. set (q := Z.quot (least_of ends - i) 1000000) in *.
  apply rbind_ok in H0 as ([] & Hok%require_ok & H0). apply andb_true_iff in Hok as [Hpos%Z.ltb_lt _].
  assert (Hone : one_clock d1) by apply Hcw. destruct (clock_write_set _ _ _ Hcw) as [w ->].
  apply rbind_ok in H0 as (d2 & (t2 & _ & Hcw2)%locked_time_spec & H0); [|done].
  apply rbind_ok in H0 as (t3 & _ & H0). apply rbind_ok in H0 as ([] & _ & H0).
  apply rbind_ok in H0 as (s & _ & [= _ <-]). destruct (clock_write_set _ _ _ Hcw2) as [w' ->].
  eexists l, _, _, t, started, ends. split_and!; [exact Hl|done| | | |done|done|].
  - simpl. rewrite (wf_exec_key d Hj _ _ Hx). apply lookup_insert_eq.
  - simpl. unfold seconds. lia.
  - simpl. unfold seconds, LEASE_SECONDS. lia.
  - intros z Hz%least_of_le. simpl. unfold seconds.
    assert (q * 1000000 <= least_of ends - i); [|lia].
    pose proof (Z.quot_rem' (least_of ends - i) 1000000). fold q in H0.
    assert (0 < q) by lia. assert (0 <= least_of ends - i).
    { destruct (Z.le_gt_cases 0 (least_of ends - i)); [done|].
      assert (q <= 0); [|lia]. unfold q. apply Z.quot_le_upper_bound; lia. }
    pose proof (Z.rem_nonneg (least_of ends - i) 1000000). lia.
Qed.

(** ** Completion *)

Lemma completion_live_ok check_state permission job x a now now' control :
  completion_live float_of outside iss check_state permission job x a now now' control = Ok tt →
  ∃ t t', now = Ok t ∧ now' = Ok t' ∧ Z.max t control < x_expires_at x
    ∧ (check_state = true → x_state x = "active")
    ∧ (∃ started ends, j_started_at job = Some started
        ∧ ceilings permission started (x_duration_seconds x) = Ok ends ∧ ∀ z, z ∈ ends → Z.max t control < z)
    ∧ ∃ payload, approved float_of outside (is_wire iss) (ma_envelope a) permission (ma_owner a) (utc t') payload.
Proof.
  unfold completion_live. intros (t & -> & H0)%rbind_ok. exists t.
  apply rbind_ok in H0 as (expires & He & H0). apply rbind_ok in H0 as (testing & Ht & H0).
  apply rbind_ok in H0 as (g & Hg & H0). apply rbind_ok in H0 as (gs & Hgs & H0).
  apply rbind_ok in H0 as (ge & Hge & H0). destruct (j_started_at job) as [started|]; [|done].
  apply rbind_ok in H0 as ([] & _ & H0). apply rbind_ok in H0 as (limit & Hlimit & H0). cbv zeta in H0.
  apply rbind_ok in H0 as ([] & Hok%require_ok & H0). apply rbind_ok in H0 as (t' & -> & H0).
  apply rbind_ok in H0 as (p & Hp%approval_sound & _). exists t'. bool_simpl. split_and!; try done.
  - intros ->. simpl in *. by bool_simpl.
  - exists started. eexists. split; [done|]. split.
    + unfold ceilings. rewrite He, Ht, Hg. cbn [rbind]. rewrite Hgs. cbn [rbind]. rewrite Hge. cbn [rbind].
      by rewrite Hlimit.
    + intros z Hz%least_of_le. lia.
  - eauto.
Qed.


(** ** Requests as the code composes them are runs *)

Section Composed.
Context (env : environ) (jwt : string → option dict).

Lemma step_untouched d d' :
  scan_jobs d' = scan_jobs d → job_executions d' = job_executions d → engagements d' = engagements d →
  managed_rows d' = managed_rows d → managed_step d d'.
Proof. intros Hj Hx He Hr. apply m_queue; [|done]. apply step_other; [done|done|]. rewrite He. eauto. Qed.

Lemma authentication_run req header instant seen d r d' :
  get_current_user env jwt req header instant seen d = (r, d') → rtc managed_step d d'.
Proof.
  unfold get_current_user. destruct (String.eqb (BACKEND_JWT_SECRET env) "") eqn:Es; [by intros [= _ <-]|].
  destruct (_ && _).
  - intros [-> |[h ->]]%resolve_session_effect; [done|]. by apply rtc_once, step_untouched.
  - unfold bearer_user. rewrite Es. destruct header as [a|]; [|by intros [= _ <-]].
    destruct (startswith a _); [|by intros [= _ <-]]. cbv zeta.
    destruct (startswith _ _API_KEY_PREFIX); [|by intros [= _ <-]].
    unfold _resolve_api_key. destruct (first_row _ _); intros [= _ <-]; [|done]. by apply rtc_once, step_untouched.
Qed.

Lemma observe_run now d r d' : _observe now d = Ok (r, d') → rtc managed_step d d'.
Proof. destruct r. intros Ho. eapply rtc_once, m_observe, Ho. Qed.

Lemma operation_run {A} ck (body : (nat → result time) → db → result A * db) d r d' :
  (∀ now d1 r1 d2, body now d1 = (r1, d2) → rtc managed_step d1 d2) →
  operation ck body d = (r, d') → rtc managed_step d d'.
Proof.
  intros Hbody. unfold operation. destruct (stamp _); [|by intros [= _ <-]].
  destruct (_observe _ d) as [[u d1]|] eqn:Eo; [|by intros [= _ <-]].
  destruct (body _ d1) as [[x|e] d2] eqn:Eb.
  - intros [= _ <-]. etrans; [by eapply observe_run|by eapply Hbody].
  - apply observe_run in Eo. apply Hbody in Eb.
    destruct (_observe _ d2) as [[u2 d3]|] eqn:Ef; intros [= _ <-]; [|by etrans].
    apply observe_run in Ef. by do 2 (etrans; [done|]).
Qed.

(** The transactions of a request are steps of the system: a runner's whole
    request, with its clock observations, authentication, error path and
    rollback, is a run, as soon as its body is a step; so is an operator's. *)
Theorem requests_are_runs {A} (body : user_ctx → (nat → result time) → db → result (A * db)) ck first req header
    instant seen d r d' :
  (∀ u now d1 a d2, body u now d1 = Ok (a, d2) → managed_step d1 d2) →
  (as_runner env jwt ck first req header instant seen body d = (r, d') → rtc managed_step d d')
  ∧ (as_operator env jwt ck req (default "" header) instant seen body d = (r, d') → rtc managed_step d d').
Proof.
  intros Hbody.
  assert (Hatom : ∀ u now d1 r1 d2, atomically d1 (body u now d1) = (r1, d2) → rtc managed_step d1 d2).
  { intros u now d1 r1 d2. unfold atomically. destruct (body u now d1) as [[a d3]|] eqn:Eb; intros [= _ <-]; [|done].
    eapply rtc_once, Hbody, Eb. }
  split; apply operation_run; intros now d1 r1 d2.
  - destruct first; [|by intros [= _ <-]].
    destruct (get_current_user _ _ _ _ _ _ d1) as [[u|e] d3] eqn:Eu; apply authentication_run in Eu.
    + intros Hb. etrans; [done|by eapply Hatom].
    + by intros [= _ <-].
  - unfold _operator. destruct (startswith _ _); [by intros [= _ <-]|].
    destruct (get_current_user _ _ _ _ _ _ d1) as [[u|e] d3] eqn:Eu; apply authentication_run in Eu.
    + destruct (operator_of _ u) as [actor|]; [|by intros [= _ <-]]. intros Hb. etrans; [done|by eapply Hatom].
    + by intros [= _ <-].
Qed.
End Composed.
End System.
