(* ===== verification/ManagedExample.v ===== *)
(** * A managed job from review to completion

    Alice's engagement has every limit set, one approved case and an enrolled
    runner; she reviews the plan, an approval is signed and registered, the
    runner claims, consumes and renews.  Each database is the one the code
    leaves, and the theorems of [ManagedSafety] are applied along the way. *)
From S2P Require Import Prelude PyStr Policy Json Digest JsonText Base64 Time Models Access LocalAuth Assessments TestCases.
From S2P Require Import Enforcement JobConfig Execution Jobs Engagements JobSafety Upload Wire Authority Issuance Results.
From S2P Require Import Permission IssuanceSafety ManagedSafety.

Module Managed.
Definition origin : string := "https://map.example".
Definition issuer : Issuer := MkIssuer origin Sample.wire.
Definition header : string := "Bearer vmap_abc".
Definition runner_id : string := "11111111-1111-1111-1111-111111111111".
Definition runner_user : user_ctx := UserCtx "alice" "" "" "full" None.
Definition operator : user_ctx := UserCtx "alice" "" "" "full" (Some "local_session").

Definition spec : json := Eval vm_compute in
  JObj [("id", JStr "case-1");
        ("request", JObj [("method", JStr "GET"); ("url", JStr "https://api.acme.com/orders/1")]);
        ("identities", JList [])].
Definition plan : json := Eval vm_compute in
  JObj [("schema", JStr "vardr.execution-plan/1"); ("profile", JStr "gate-fixed-http/1");
        ("case_hash", JStr (case_hash spec)); ("max_http_dispatches", JInt 1);
        ("dispatches", JList [JObj [("request", JObj [("method", JStr "GET");
                                                      ("url", JStr "https://api.acme.com/orders/1")])]])].

(** Noon, 1 January 2026, and seconds after it. *)
Definition noon : time := seconds 1767268800.
Definition at_second (s : Z) : reading := MkReading (Datetime (noon + seconds s) (Some 0)) (seconds s).
Definition now_at (s : Z) : result time := Ok (noon + seconds s).
Definition nows (s : Z) (i : nat) : result time := now_at s.
Definition controls (s : Z) (i : nat) : time := noon + seconds s.

(** The tables an administrator and the earlier screens have filled. *)
Definition tables (d : db) : db :=
  set_managed_enrollments
    [MkManagedEnrollment "enr-1" "key-1" "alice" (sha256_hex header) runner_id origin 1 false]
  (set_api_keys [MkApiKey "key-1" "alice" (sha256_hex "vmap_abc") None "runner" 0 None]
  (set_test_cases [MkAuthorizationTestCase "tc-1" "eng-1" "alice" "Orders" "case-1" None spec 0 None]
  (set_scope_items [MkScopeItem "s-1" "eng-1" "in" "*.acme.com" (Some "wildcard") None None None]
  (set_authorizations [MkAuthorization "auth-1" "eng-1" "alice" None (Some "Acme") None None None
     (Some (noon + hours 24)) (Some "active") None (Some 0)] d)))).

Definition d1 : db := Eval vm_compute in set_engagement demo_engagement empty_db.
Definition d2 : db := Eval vm_compute in state_of (configure_concurrency "l1" 1 "eng-1" (Some 1) alice d1).
Definition d3 : db := Eval vm_compute in state_of (configure_targets "l2" 1 "eng-1" (Some 10) alice d2).
Definition d4 : db := Eval vm_compute in state_of (configure_duration "l3" 1 "eng-1" (Some 600) alice d3).
Definition d5 : db := Eval vm_compute in tables d4.
Definition queue_it (d : db) : result (dict * list warning * db) :=
  create_job "job-1" "l4" 2 "eng-1"
    (MkJobCreate _VARDRGATE "scope" (Some [("test_case_id", JStr "tc-1")]) None true) alice d.
Definition d6 : db := Eval vm_compute in state_of (queue_it d5).
Definition d7 : db := Eval vm_compute in state_of (_observe (now_at 0) d6).

Definition asked : ReviewRequest :=
  MkReviewRequest "enr-1" "auth-1" plan (JStr "2026-01-01T18:00:00Z") (JInt 2) (JInt 300) (JInt 4096) (JList []).
Definition reviewed : result (IssuanceRequest * db) := review issuer "job-1" asked operator (nows 0) d7.
Definition context_of (m : result (IssuanceRequest * db)) : json :=
  match m with Ok (r, _) => JObj (ir_context r) | Raise _ => JNull end.
Definition context : json := Eval vm_compute in context_of reviewed.
Definition payload : json :=
  JObj [("schema", JStr "vardr.execution-approval/1");
        ("issuer", JObj [("id", JStr "map-1"); ("key_id", JStr "operator-1")]); ("origin", JStr "map");
        ("approval_id", JStr "approval-1"); ("approver_id", JStr "alice");
        ("approved_at", JStr "2026-01-01T12:00:00Z"); ("context", context)].
Definition envelope : json := Eval vm_compute in
  JObj [("format", JStr envelope_format); ("purpose", JStr "approval");
        ("payload", JStr (b64 (json_dumps true payload)));
        ("signature", JStr (b64 (sign Sample.operator_key (message "approval" (json_dumps true payload)))))].

Definition register_it (d : db) :=
  register Sample.floats Sample.beyond issuer "job-1" "enr-1" "auth-1" plan envelope operator (nows 1) d.
Definition d8 : db := Eval vm_compute in state_of (register_it d7).

Definition target : TargetBinding :=
  MkTargetBinding "gate-fixed-http/1" (case_hash spec) ["https://api.acme.com:443"].
Definition claim_body : ClaimControl := MkClaimControl runner_id origin true (Some target) (Some 120).
Definition control_body : ControlRequest := MkControlRequest claim_body "token".
Definition claim_it (d : db) :=
  claim Sample.floats Sample.beyond issuer "job-1" header "token" "contract-1" "attempt-1" runner_user claim_body
    (nows 2) (controls 2) d.
Definition d9 : db := Eval vm_compute in state_of (claim_it d8).
Definition hash_of_contract (d : db) : string :=
  match contract_of d "job-1" with
  | Some c => match digest (mc_envelope c) with Ok h => h | Raise _ => EmptyString end
  | None => EmptyString
  end.
Definition contract_hash : string := Eval vm_compute in hash_of_contract d9.
Definition consume_it (d : db) :=
  consume Sample.floats Sample.beyond issuer "job-1" header runner_user control_body "contract-1" "attempt-1" 1
    contract_hash (nows 3) (controls 3) d.
Definition d10 : db := Eval vm_compute in state_of (consume_it d9).
Definition refresh_it (d : db) :=
  refresh Sample.floats Sample.beyond issuer "job-1" header runner_user control_body "contract-1" "attempt-1" 1
    (nows 4) (controls 4) d.
Definition d11 : db := Eval vm_compute in state_of (refresh_it d10).

Definition text_of (v : json) : string := match v with JStr s => s | _ => EmptyString end.
Definition validate (raw : dict) : option VardrGateUpload :=
  Some (MkVardrGateUpload (text_of (dget "case_hash" raw)) (text_of (dget "test_case_id" raw)) [] [] [] []).
Definition artifact : string := Eval vm_compute in
  json_dumps true (JObj [("case_hash", JStr (case_hash spec)); ("test_case_id", JStr "case-1")]).
Definition named : Named := MkNamed "contract-1" "attempt-1" 1 contract_hash.
Definition submit_it (d : db) :=
  submit Sample.floats Sample.beyond validate (λ n, "id-" +:+ string_of_Z (Z.of_nat n)) "l5" "receipt-1" (noon + seconds 5)
    "job-1" header runner_user control_body named artifact (sha256_hex artifact) (nows 5) d.
Definition d12 : db := Eval vm_compute in state_of (submit_it d11).
Definition last_receipt (d : db) : string :=
  match managed_results d with r :: _ => mr_receipt_sha256 r | [] => EmptyString end.
Definition receipt : string := Eval vm_compute in last_receipt d12.
Definition finish_it (d : db) :=
  finish Sample.floats Sample.beyond issuer "job-1" header runner_user control_body named receipt "completed"
    (nows 6) (controls 6) d.
Definition d13 : db := Eval vm_compute in state_of (finish_it d12).
Definition revoke_it (d : db) := revoke "job-1" operator (nows 7) d.
Definition d14 : db := Eval vm_compute in state_of (revoke_it d13).

Definition projection : Projection :=
  MkProjection "auth-1" plan runner_id 0 (utc (noon + hours 6)) (JInt 2) (JInt 300) (JInt 4096) (JList []) (utc noon).

#[local] Abbreviation step := (managed_step Sample.floats Sample.beyond validate issuer).

(** Whether a request succeeds, and the state it leaves, computed once. *)
Definition probe {A} (m : result (A * db)) : bool * db :=
  match m with Ok (_, d) => (true, d) | Raise _ => (false, empty_db) end.
Lemma ok_of {A} (m : result (A * db)) d : probe m = (true, d) → ∃ a, m = Ok (a, d).
Proof. destruct m as [[a d']|]; [|done]. intros [= ->]. by exists a. Qed.

Lemma tables_step d : job_step d (tables d).
Proof. apply step_other; [done|done|]. intros k e He. by exists e. Qed.

Lemma to_d5 : rtc step empty_db d5.
Proof.
  destruct (ok_of (configure_concurrency "l1" 1 "eng-1" (Some 1) alice d1) d2) as [r2 H2]; [vm_compute; reflexivity|].
  destruct (ok_of (configure_targets "l2" 1 "eng-1" (Some 10) alice d2) d3) as [r3 H3]; [vm_compute; reflexivity|].
  destruct (ok_of (configure_duration "l3" 1 "eng-1" (Some 600) alice d3) d4) as [r4 H4]; [vm_compute; reflexivity|].
  eapply rtc_l; [|eapply rtc_l; [|eapply rtc_l; [|eapply rtc_l; [|apply rtc_once]]]]; apply m_queue.
  - apply (step_new_engagement empty_db demo_engagement); [done| |done].
    intros k j Hj. simpl in Hj. by rewrite lookup_empty in Hj.
  - done.
  - eapply step_concurrency; [|exact H2]. intros z [= <-]. lia.
  - vm_compute. reflexivity.
  - eapply step_targets, H3.
  - vm_compute. reflexivity.
  - eapply step_duration, H4.
  - vm_compute. reflexivity.
  - apply tables_step.
  - vm_compute. reflexivity.
Qed.

Lemma to_d7 : rtc step empty_db d7.
Proof.
  destruct (ok_of (queue_it d5) d6) as [r6 H6]; [vm_compute; reflexivity|].
  destruct (ok_of (_observe (now_at 0) d6) d7) as [[] H7]; [vm_compute; reflexivity|].
  eapply rtc_r; [eapply rtc_r; [exact to_d5|]|eapply m_observe, H7].
  apply m_queue; [|vm_compute; reflexivity]. eapply step_create; [|exact H6]. vm_compute. reflexivity.
Qed.

Lemma registered : ∃ r, register_it d7 = Ok (r, d8).
Proof. apply ok_of. vm_compute. reflexivity. Qed.
Lemma claimed_it : ∃ r, claim_it d8 = Ok (r, d9).
Proof. apply ok_of. vm_compute. reflexivity. Qed.
Lemma consumed : ∃ r, consume_it d9 = Ok (r, d10).
Proof. apply ok_of. vm_compute. reflexivity. Qed.
Lemma refreshed : ∃ r, refresh_it d10 = Ok (r, d11).
Proof. apply ok_of. vm_compute. reflexivity. Qed.
Lemma submitted : ∃ r, submit_it d11 = Ok (r, d12).
Proof. apply ok_of. vm_compute. reflexivity. Qed.
Lemma completed : ∃ r, finish_it d12 = Ok (r, d13).
Proof. apply ok_of. vm_compute. reflexivity. Qed.
Lemma revoked : ∃ r, revoke_it d13 = Ok (r, d14).
Proof. apply ok_of. vm_compute. reflexivity. Qed.

Lemma to_d8 : rtc step empty_db d8.
Proof. destruct registered as [r H]. unfold register_it in H. eapply rtc_r; [exact to_d7|eapply m_register, H]. Qed.
Lemma to_d9 : rtc step empty_db d9.
Proof. destruct claimed_it as [r H]. unfold claim_it in H. eapply rtc_r; [exact to_d8|eapply m_claim, H]. Qed.
Lemma to_d10 : rtc step empty_db d10.
Proof. destruct consumed as [r H]. unfold consume_it in H. eapply rtc_r; [exact to_d9|eapply m_consume, H]. Qed.
Lemma to_d11 : rtc step empty_db d11.
Proof. destruct refreshed as [r H]. unfold refresh_it in H. eapply rtc_r; [exact to_d10|eapply m_refresh, H]. Qed.
Lemma to_d12 : rtc step empty_db d12.
Proof. destruct submitted as [r H]. unfold submit_it in H. eapply rtc_r; [exact to_d11|eapply m_submit, H]. Qed.
Lemma to_d13 : rtc step empty_db d13.
Proof.
  destruct completed as [r H]. unfold finish_it in H. eapply rtc_r; [exact to_d12|].
  eapply (m_finish _ _ _ _ _ _ _ _ _ _ _ "completed" true); [done|exact H].
Qed.
Lemma to_d14 : rtc step empty_db d14.
Proof. destruct revoked as [r H]. unfold revoke_it in H. eapply rtc_r; [exact to_d13|eapply m_revoke, H]. Qed.

Lemma wf_of d : rtc step empty_db d → attempts_wf d ∧ managed_wf d.
Proof. by intros ([Hj _] & Hm & _)%managed_reachable. Qed.

(** The one approval, before and after. *)
Definition no_row : ManagedApproval :=
  MkManagedApproval EmptyString EmptyString EmptyString EmptyString EmptyString EmptyString EmptyString 0 EmptyString
    JNull JNull JNull JNull 0 false.
Definition registered_row : ManagedApproval := Eval vm_compute in List.hd no_row (managed_approvals d8).
Definition issued_row : ManagedApproval := ma_set_issued 1 registered_row.

Lemma rows_of_d9 : managed_approvals d9 = [issued_row].
Proof. vm_compute. reflexivity. Qed.
Lemma rows_of_d14 : managed_approvals d14 = [ma_set_revoked true issued_row].
Proof. vm_compute. reflexivity. Qed.
End Managed.

Import Managed.
#[local] Opaque d1 d2 d3 d4 d5 d6 d7 d8 d9 d10 d11 d12 d13 d14 contract_hash receipt context envelope.

Lemma issuer_refines_permissions_witness :
  abs d9 = abs d8 ∨ Permission.step (abs d8) (abs d9).
Proof.
  destruct claimed_it as [r H]. unfold claim_it in H.
  apply (issuer_refines_permissions Sample.floats Sample.beyond validate issuer d8 d9 to_d8). eapply m_claim, H.
Defined.

Lemma approval_never_overspent_witness :
  issued_row ∈ managed_approvals d9 ∧ Z.of_nat (length (contracts_of (ma_id issued_row) d9)) <= ma_issued issued_row.
Proof.
  assert (Hin : issued_row ∈ managed_approvals d9) by (rewrite rows_of_d9; apply list_elem_of_singleton; reflexivity).
  split; [exact Hin|].
  exact (proj1 (proj1 (approval_never_overspent Sample.floats Sample.beyond validate issuer d9 issued_row to_d9 Hin))).
Defined.


Lemma contract_consumed_once_witness :
  (∃ c, contract_of d9 "job-1" = Some c) ∧ ∀ r, consume_it d14 ≠ Ok r.
Proof.
  destruct consumed as [r0 H]. unfold consume_it in H. split.
  { destruct (proj1 (contract_consumed_once Sample.floats Sample.beyond validate issuer "job-1" header runner_user
      control_body "contract-1" "attempt-1" 1 contract_hash (nows 3) (controls 3) d9 r0 d10 d10 to_d9 H (rtc_refl _ _)))
      as (c & a & Hc & _). exists c. exact Hc. }
  intros r. refine (proj2 (proj2 (contract_consumed_once Sample.floats Sample.beyond validate issuer "job-1" header runner_user
    control_body "contract-1" "attempt-1" 1 contract_hash (nows 3) (controls 3) d9 r0 d10 d14 to_d9 H _)) _ _ _ _ _ _ _ _ _ r).
  destruct refreshed as [r1 H1], submitted as [r2 H2], completed as [r3 H3], revoked as [r4 H4].
  unfold refresh_it in H1. unfold submit_it in H2. unfold finish_it in H3. unfold revoke_it in H4.
  eapply rtc_l; [eapply m_refresh, H1|]. eapply rtc_l; [eapply m_submit, H2|].
  eapply rtc_l; [eapply (m_finish _ _ _ _ _ _ _ _ _ _ _ "completed" true); [reflexivity|exact H3]|].
  apply rtc_once. eapply m_revoke, H4.
Defined.

Lemma managed_work_keeps_budgets_witness :
  ∃ e, engagements d9 !! "eng-1" = Some e ∧ within (e_concurrency_limit e) (reserved d9 "eng-1").
Proof.
  destruct (lookup_computes (engagements d9) "eng-1" e_owner_github_id "alice") as (e & He & _);
    [vm_compute; reflexivity|].
  exists e. split; [exact He|].
  exact (proj1 (managed_work_keeps_budgets Sample.floats Sample.beyond validate issuer d9 d9 "eng-1" e to_d9
    (rtc_refl _ _) He)).
Defined.

Lemma claim_issues_one_contract_witness :
  (∃ c, contract_of d14 "job-1" = Some c) ∧ ∀ r, claim_it d9 ≠ Ok r.
Proof.
  destruct claimed_it as [r0 H]. unfold claim_it in H. split.
  - destruct (lookup_computes (attempts (abs d14)) "job-1" a_consumed true) as (a & Ha & _); [vm_compute; reflexivity|].
    destruct (contract_of d14 "job-1") as [c|] eqn:E; [exists c; reflexivity|].
    apply contract_of_None in E. apply (index_None mc_job_id attempt_of_contract) in E.
    exfalso. change (attempts (abs d14) !! "job-1" = None) in E. congruence.
  - intros r. refine (proj2 (proj2 (claim_issues_one_contract Sample.floats Sample.beyond validate issuer "job-1" header
      "token" "contract-1" "attempt-1" runner_user claim_body (nows 2) (controls 2) d8 r0 d9 d9 to_d8 H (rtc_refl _ _)))
      _ _ _ _ _ _ _ _ r).
Defined.

Lemma refreshed_lease_bounded_witness :
  ∃ x, job_executions d11 !! "job-1" = Some x ∧ x_expires_at x <= noon + seconds 14.
Proof.
  destruct refreshed as [r H]. unfold refresh_it in H. destruct (wf_of d10 to_d10) as [Hj Hm].
  destruct (refreshed_lease_bounded Sample.floats Sample.beyond issuer "job-1" header runner_user control_body
    "contract-1" "attempt-1" 1 (nows 4) (controls 4) d10 r d11 Hj Hm H) as (l & d0 & x & t & s & ends & _ & Ht & Hx & Hb & _).
  exists x. split; [exact Hx|]. injection Ht as <-. destruct Hb as [_ Hb]. exact Hb.
Defined.


Lemma prepared_request_authorized_witness :
  ∃ r e, prepare_approval_request d7 operator "job-1" projection ["pending"] = Ok r
    ∧ engagements d7 !! "eng-1" = Some e ∧ e_owner_github_id e = "alice".
Proof.
  destruct (prepare_approval_request d7 operator "job-1" projection ["pending"]) as [r|] eqn:Hr.
  - exists r. destruct (prepared_request_authorized d7 operator "job-1" projection ["pending"] r Hr) as (_ & _ & _ & Hp).
    destruct (pj_rows _ _ _ _ _ _ Hp) as (job & e & _ & _ & Hj & _ & _ & He & Ho & _).
    exists e. split; [reflexivity|]. split; [|exact Ho].
    destruct (lookup_computes (scan_jobs d7) "job-1" j_program_id "eng-1") as (j & Hj2 & Hp2); [vm_compute; reflexivity|].
    rewrite Hj in Hj2. injection Hj2 as <-. rewrite Hp2 in He. exact He.
  - exfalso. assert (Hok : is_ok (prepare_approval_request d7 operator "job-1" projection ["pending"]) = true)
      by (vm_compute; reflexivity). rewrite Hr in Hok. discriminate Hok.
Defined.

(** The runner's whole check of its permission, clocks and authentication
    included. *)
Definition environment : environ := Environ ["local"] "secret" None.
Definition whole_request (d : db) : result dict * db :=
  as_runner environment (λ _, None)
    (MkClock (at_second 8) (at_second 8) (λ _, at_second 8) (λ _, noon + seconds 4) (at_second 9)) (Ok tt)
    (Request "POST" "https" None None None) (Some header) noon d
    (λ user now, current Sample.floats Sample.beyond issuer "job-1" header user control_body "contract-1" "attempt-1" 1
                   now (λ _, noon + seconds 4)) d.

Lemma requests_are_runs_witness :
  is_ok (whole_request d9).1 = true
  ∧ rtc (managed_step Sample.floats Sample.beyond validate issuer) d9 (whole_request d9).2.
Proof.
  split; [vm_compute; reflexivity|].
  pose proof (surjective_pairing (whole_request d9)) as E. unfold whole_request at 1 in E.
  refine (proj1 (requests_are_runs Sample.floats Sample.beyond validate issuer environment (λ _, None)
    (λ user now, current Sample.floats Sample.beyond issuer "job-1" header user control_body "contract-1" "attempt-1" 1
                   now (λ _, noon + seconds 4)) _ _ _ _ _ _ _ (whole_request d9).1 (whole_request d9).2 _) E).
  intros u now d a d' Hc. eapply m_current, Hc.
Defined.
