(* ===== verification/AdminExample.v ===== *)
(** * An engagement administered

    Alice's engagement of [ManagedExample], with its approval registered: a
    runner's key proposes, Alice reviews, imports, hands out a key and takes it
    back; the theorems of [Administration] are applied along the way. *)
From S2P Require Import Prelude PyStr Policy Json Digest Time Models Access Enforcement JobConfig Execution Jobs Engagements JobSafety.
From S2P Require Import Regex Schemas Scope Authorizations Members Wire Authority Issuance IssuanceSafety ManagedExample.
From S2P Require Import AuthoritySafety Administration.
From Stdlib Require Import Ascii.

Module Admin.
Definition other (s : string) : option datetime := None.
Definition keep (t : datetime) : time := dt_wall t.
Definition same (s : string) : string := s.
Definition dash : ascii := "-".
#[local] Abbreviation administered := (administered other keep same same dash).
#[local] Abbreviation admin_request := (admin_request other keep same same dash).

(** The runner's key. *)
Definition runner : user_ctx := UserCtx "alice" "alice" "" "runner" None.

(** The tables' constraints, evaluated. *)
Definition admin_check (d : db) : bool :=
  bool_decide (map_Forall (λ k e, e_id e = k) (engagements d)) && bool_decide (NoDup (map si_id (scope_items d)))
  && bool_decide (NoDup (map au_id (authorizations d))).
Lemma admin_check_wf d : admin_check d = true → admin_wf d.
Proof. unfold admin_check. intros Hc. bool_simpl. by split. Qed.

Definition d0 : db := Managed.d8.

Definition asked : ProposalCreate :=
  MkProposalCreate "scope_in" [("value", JStr "*.beta.acme.com"); ("max_severity", JStr "high")] "seen in DNS" "agent".
Definition propose_it (d : db) := create_proposal other same same "pp-1" "l8" 8 "eng-1" asked runner d.
Definition d1 : db := Eval vm_compute in state_of (propose_it d0).
Definition approve_it (d : db) := approve_proposal other keep "s-2" "l9" 9 "eng-1" "pp-1" alice d.
Definition d2 : db := Eval vm_compute in state_of (approve_it d1).

Definition line (s : string) : string := s +:+ str1 newline.
Definition export : string :=
  line "identifier,asset_type,eligible_for_submission" +:+ line "*.acme.com,WILDCARD,true"
  +:+ line "https://shop.acme.com/,URL," +:+ line "10.0.0.0/8,CIDR,false".
Definition ids (n : nat) : string := "new-" +:+ string_of_Z (Z.of_nat n).
Definition import_it (d : db) := import_scope same same dash ids "l10" 10 "eng-1" export true alice d.
Definition d3 : db := Eval vm_compute in state_of (import_it d2).

Definition key_it (d : db) := create_api_key "key-2" "l11" "s3cret" 11 (Some "ci") (Some "runner") alice d.

Lemma wf0 : admin_wf d0.
Proof. apply admin_check_wf. vm_compute. reflexivity. Qed.
Lemma wf1 : admin_wf d1.
Proof. apply admin_check_wf. vm_compute. reflexivity. Qed.
Lemma wf2 : admin_wf d2.
Proof. apply admin_check_wf. vm_compute. reflexivity. Qed.

Lemma proposed_it : ∃ r, propose_it d0 = Ok (r, d1).
Proof. apply Managed.ok_of. vm_compute. reflexivity. Qed.
Lemma approved_it : ∃ r, approve_it d1 = Ok (r, d2).
Proof. apply Managed.ok_of. vm_compute. reflexivity. Qed.
Lemma imported_it : ∃ r, import_it d2 = Ok (r, d3).
Proof. apply Managed.ok_of. vm_compute. reflexivity. Qed.

Lemma fresh_by_check id d :
  bool_decide (id ∉ map si_id (scope_items d)) && bool_decide (id ∉ map au_id (authorizations d)) = true → fresh_row id d.
Proof. intros Hc. bool_simpl. by split. Qed.

Lemma step1 : admin_request runner d0 d1.
Proof.
  destruct proposed_it as [r Hr]. eapply q_propose; [|exact Hr]. apply (bool_decide_unpack _). vm_compute. exact I.
Qed.
Lemma step2 : admin_request alice d1 d2.
Proof. destruct approved_it as [r Hr]. eapply q_approve; [|exact Hr]. apply fresh_by_check. vm_compute. reflexivity. Qed.
Lemma run2 : administered d0 d2.
Proof. eapply rtc_l; [exists runner; apply step1|]. apply rtc_once. exists alice. apply step2. Qed.

Lemma authority_change_moves_revision_witness :
  ∃ r', revision_of d2 "eng-1" = Some r' ∧ 3 <= r' ∧ (authority_of d2 "eng-1" ≠ authority_of d0 "eng-1" → 3 < r').
Proof.
  apply (authority_change_moves_revision other keep same same dash d0 d2 "eng-1" 3); [apply wf0|apply run2|].
  vm_compute. reflexivity.
Defined.

(** The job of [ManagedExample] and its registered approval, still there. *)
Definition under_approval (m : result ScanJob) : bool :=
  match m with
  | Ok j => String.eqb (j_program_id j) "eng-1"
            && match approval_row d2 (j_managed_approval_id j) with Some a => ma_revision a <=? 3 | None => false end
  | Raise _ => false
  end.
Lemma job_under_approval : ∃ job a, lock_job d2 "job-1" Managed.runner_user = Ok job ∧ j_program_id job = "eng-1"
  ∧ approval_row d2 (j_managed_approval_id job) = Some a ∧ ma_revision a <= 3.
Proof.
  assert (Hc : under_approval (lock_job d2 "job-1" Managed.runner_user) = true) by (vm_compute; reflexivity).
  destruct (lock_job _ _ _) as [job|]; [|done]. unfold under_approval in Hc. exists job.
  destruct (approval_row _ _) as [a|]; [|by rewrite andb_false_r in Hc]. exists a. by bool_simpl.
Qed.
Lemma authority_changed : authority_of d2 "eng-1" ≠ authority_of d0 "eng-1".
Proof. intros Heq. apply (f_equal (λ a, length a.1.2)) in Heq. vm_compute in Heq. discriminate. Qed.

Lemma stale_approval_refused_witness :
  (∀ v d', claim Sample.floats Sample.beyond Managed.issuer "job-1" Managed.header "token" "contract-1" "attempt-1"
             Managed.runner_user Managed.claim_body (Managed.nows 10) (Managed.controls 10) d2 ≠ Ok (v, d'))
  ∧ (∀ request fence l d',
       live Sample.floats Sample.beyond Managed.issuer "job-1" Managed.header Managed.runner_user request
         "contract-1" "attempt-1" fence (Managed.nows 10) (Managed.controls 10) d2 ≠ Ok (l, d')).
Proof.
  destruct job_under_approval as (job & a & Hj & Hp & Ha & Hr).
  apply (stale_approval_refused other keep same same dash Sample.floats Sample.beyond Managed.issuer d0 d2 3 job a);
    [apply wf0|apply run2|rewrite Hp; vm_compute; reflexivity|rewrite Hp; apply authority_changed|exact Hj|exact Ha|exact Hr].
Defined.


Lemma proposals0 : proposals_wf other same same d0.
Proof. split; [constructor|]. intros q Hq. vm_compute in Hq. by apply elem_of_nil in Hq. Qed.
Lemma proposals1 : proposals_wf other same same d1.
Proof.
  eapply proposal_wf_change; [|apply proposals0]. eapply admin_request_proposals; [apply wf0|apply step1].
Qed.

Lemma proposal_applied_once_witness :
  True ∧ ∀ v, approve_proposal other keep "s-3" "l12" 12 "eng-1" "pp-1" alice d2 ≠ Ok v.
Proof.
  split; [exact I|]. destruct approved_it as [r Hr].
  eapply (proposal_applied_once other keep same same dash "s-2" "l9" 9 "eng-1" "pp-1" alice d1 r d2 d2);
    [apply wf1|apply proposals1| |exact Hr|reflexivity].
  apply fresh_by_check. vm_compute. reflexivity.
Defined.

Definition the_proposal : AgentProposal := Eval vm_compute in
  List.hd (MkAgentProposal "" "" "" None "" JNull None None "" None None None None) (agent_proposals d1).
Definition managed_engagement : Engagement := Eval vm_compute in default demo_engagement (engagements d1 !! "eng-1").

Lemma approval_does_what_was_asked_witness :
  ∃ r d', approve_proposal other keep "s-2" "l9" 9 "eng-1" (pp_id the_proposal) alice d1 = Ok (r, d')
    ∧ pp_status r = "approved" ∧ pp_id r = pp_id the_proposal
    ∧ ∃ raw clean, _validated_payload other same same (pp_kind the_proposal) raw = Ok clean
        ∧ pp_payload the_proposal = JObj clean
        ∧ direct other keep same same "s-2" "l9" 9 "eng-1" alice (pp_kind the_proposal) raw d1 d'.
Proof.
  apply (approval_does_what_was_asked other keep same same "s-2" "l9" 9 "eng-1" alice d1 managed_engagement the_proposal);
    [apply wf1|apply proposals1|reflexivity|vm_compute; reflexivity|vm_compute; reflexivity| |reflexivity|reflexivity].
  apply list_elem_of_In. vm_compute. left. reflexivity.
Defined.

Definition answer_of {A} (m : result (A * db)) : option A := match m with Ok (a, _) => Some a | Raise _ => None end.
Definition nothing : ScopeImport := MkScopeImport false 0 [] [] [].
Definition answered : ScopeImport := Eval vm_compute in default nothing (answer_of (import_it d2)).

Lemma import_adds_what_is_missing_witness :
  ∃ parsed, _parse_hackerone_scope same same dash export = Ok (parsed, sm_skipped answered)
    ∧ sm_new_items answered ++ sm_duplicates answered ≡ₚ parsed
    ∧ sm_created answered = Z.of_nat (length (sm_new_items answered))
    ∧ scope_keys "eng-1" d3 = scope_keys "eng-1" d2 ++ map row_key (sm_new_items answered)
    ∧ NoDup (map row_key (sm_new_items answered))
    ∧ (∀ x, x ∈ sm_new_items answered → row_key x ∉ scope_keys "eng-1" d2)
    ∧ (∀ x, x ∈ parsed → row_key x ∈ scope_keys "eng-1" d3)
    ∧ (∀ ids2 log2 now2 u2 r2 d', import_scope same same dash ids2 log2 now2 "eng-1" export true u2 d3 = Ok (r2, d') →
         d' = d3 ∧ sm_created r2 = 0 ∧ sm_duplicates r2 = parsed)
    ∧ import_scope same same dash ids "l10" 10 "eng-1" export false alice d2
      = Ok (MkScopeImport false 0 (sm_new_items answered) (sm_duplicates answered) (sm_skipped answered), d2).
Proof.
  apply (import_adds_what_is_missing same same dash ids "l10" 10 "eng-1" export alice d2 answered d3); [apply wf2|].
  vm_compute. reflexivity.
Defined.

Definition the_key : ApiKey := MkApiKey "key-2" "alice" (sha256_hex "vmap_s3cret") (Some "ci") "runner" 11 None.
Definition d4 : db := Eval vm_compute in match key_it d3 with Ok (_, _, d) => d | Raise _ => empty_db end.

Lemma key_works_until_revoked_witness :
  (∀ t, ∃ ctx, (bearer_user (λ _, None) "secret" ["github"] (Some ("Bearer " +:+ "vmap_s3cret")) t d4).1 = Ok ctx
     ∧ cu_github_id ctx = cu_github_id alice ∧ cu_scope ctx = or_else (Some "runner") "full")
  ∧ (∀ log2 t2, ∃ m d', revoke_api_key log2 t2 (ak_id the_key) alice d4 = Ok (m, d') ∧ api_keys d' = api_keys d3
       ∧ ∀ t, bearer_user (λ _, None) "secret" ["github"] (Some ("Bearer " +:+ "vmap_s3cret")) t d' = (unauthorized, d')).
Proof.
  apply (key_works_until_revoked (λ _, None) "secret" ["github"] "key-2" "l11" "s3cret" 11 (Some "ci") (Some "runner") alice
           d3 the_key "vmap_s3cret" d4); [done|reflexivity| |vm_compute; reflexivity].
  apply (bool_decide_unpack _). vm_compute. exact I.
Defined.
End Admin.
