(* ===== verification/Transport.v ===== *)
(** * Around the handlers: [main.py] and [managed_observation_http.py]

    The middleware every request passes, which routers ask for a full-access
    key, what an invalid body is answered with, and the guarded HTTP adapter of
    managed observations.  Starlette's and slowapi's middleware, the name of a
    UUID and the injected observation service are parameters. *)
From S2P Require Import Prelude PyStr Json JsonText Regex JobConfig Access Wire Execution Issuance Results.
From Stdlib Require Import Ascii.

(** ** Requests and responses *)

Record http_request := MkRequest { rq_method : string; rq_path : string }.
Record response := MkResponse { rs_status : Z; rs_headers : list (string * string); rs_body : json }.

(** [response.headers[k] = v] *)
Definition set_header (k v : string) (r : response) : response :=
  MkResponse (rs_status r) (dset k v (rs_headers r)) (rs_body r).

Definition detail (text : string) : json := JObj [("detail", JStr text)].

(** ** [main.py]: settings *)

Definition ENV (env railway : option string) : string := or_else env (default "development" railway).
Definition IS_PRODUCTION (env : string) : bool := String.eqb (lower (strip env)) "production".
Definition ALLOWED_ORIGINS (configured : option string) : list string :=
  rows (λ o, negb (String.eqb o ""))
    (map strip (split_char ","%char (default "http://localhost:3000,https://vardr-map.vercel.app" configured))).

(** ** [LegacyProgramPathMiddleware] *)

Definition _OLD : string := "/programs".
Definition _NEW : string := "/engagements".
Definition rewritten (path : string) : string :=
  if String.eqb path _OLD || startswith path (_OLD +:+ "/") then _NEW +:+ drop_string (String.length _OLD) path else path.
Definition legacy_paths (app : http_request → result response) (request : http_request) : result response :=
  app (MkRequest (rq_method request) (rewritten (rq_path request))).

(** ** [SecurityHeadersMiddleware] *)

Definition stamped (production : bool) (path : string) (r : response) : response :=
  let r := set_header "x-content-type-options" "nosniff" r in
  let r := set_header "x-frame-options" "DENY" r in
  let r := set_header "referrer-policy" "strict-origin-when-cross-origin" r in
  let r := set_header "permissions-policy" "geolocation=(), microphone=(), camera=()" r in
  let r := set_header "content-security-policy" "default-src 'none'; frame-ancestors 'none'" r in
  let r := if production then set_header "strict-transport-security" "max-age=63072000; includeSubDomains; preload" r else r in
  if startswith path "/auth/local/" then set_header "cache-control" "no-store" r else r.

Definition security_headers (production : bool) (app : http_request → result response) (request : http_request) : response :=
  let response := match app request with
                  | Ok r => r
                  | Raise _ => MkResponse 500 [] (detail "Internal Server Error")
                  end in
  stamped production (rq_path request) response.

(** The chain, outermost first. *)
Definition stack (production : bool) (cors slowapi : (http_request → result response) → http_request → result response)
    (app : http_request → result response) : http_request → response :=
  security_headers production (cors (legacy_paths (slowapi app))).

(** ** Routers, in the order they are registered, and those that ask for a
    full-access key *)

Definition routers : list (string * bool) :=
  [("imports", false); ("jobs", false); ("runner", false); ("proposals", false); ("apikeys", true); ("assets", true);
   ("api_surface", true); ("api_coverage", true); ("api_relationships", true); ("evidence", true); ("engagements", true);
   ("members", true); ("scope", true); ("recon", true); ("scans", true); ("manual_tests", true); ("findings", true);
   ("reports", true); ("services", false); ("radar", true); ("scan_profiles", true); ("playbooks", true);
   ("case_authoring", true); ("test_cases", true); ("deliverables", true); ("finding_activity", true); ("settings", true);
   ("local_auth", false); ("clients", true); ("authorizations", true)].

(** A router's dependencies run before its handlers. *)
Definition routed {A} (router : string) (user : user_ctx) (handler : result A) : result A :=
  match lookup_key router routers with
  | Some true => let? _ := require_full_scope user in handler
  | Some false => handler
  | None => http 404 "Not Found"
  end.

(** ** [validation_error]: the answer of FastAPI's handler is [usual] *)

Definition validation_error (usual : response) (path : string) : response :=
  let plain text := MkResponse 422 [("cache-control", "no-store")] (detail text) in
  if startswith path "/auth/local/" then plain "Invalid authentication request"
  else if startswith path "/jobs/" && (endswith path "/claim" || endswith path "/control" || endswith path "/execution-finish")
       then plain "Invalid execution control request"
       else usual.

(** ** Health *)

Definition read_root (env : string) : dict := [("message", JStr "VardrMap API is running"); ("environment", JStr env)].
Definition health_check (env : string) : dict := [("status", JStr "ok"); ("environment", JStr env)].

(** ** [managed_observation_http.py] *)

Definition BODY_MAX_BYTES : Z := 8192.

Record ObservationInput := MkObservationInput {
  oi_origin : string;
  oi_runner_id : string;
  oi_plan_sha256 : string;
  oi_case_sha256 : string;
  oi_association_sha256 : string;
}.

(** What reading a body meets: a chunk, the client leaving, or the three
    seconds running out. *)
Inductive arrival := Chunk (data : string) | Disconnect | Timeout.

(** How the adapter can fail: an exception of the application, the body not
    arriving, a model that does not validate. *)
Inductive failure := Python (e : exn) | TimedOut | Disconnected | ValidationError.

Definition header (name fallback : string) (headers : list (string * string)) : string := default fallback (lookup_key name headers).

Definition decimal (s : string) : bool := negb (String.eqb s "") && all_chars is_decimal s.

Fixpoint read (data : string) (arrivals : list arrival) : string + failure :=
  match arrivals with
  | [] => inl data
  | Chunk chunk :: rest =>
      if BODY_MAX_BYTES <? len data + len chunk then inr (Python (HTTPException 413 (DText "")))
      else read (data +:+ chunk) rest
  | Disconnect :: _ => inr Disconnected
  | Timeout :: _ => inr TimedOut
  end.

Section Observe.
Context (float_of : string → option pyfloat) (outside : string → result json).
(** The canonical text of what pydantic reads as a UUID. *)
Context (uuid_of : json → option string).
(** [service.inspect] on the session of the request. *)
Context (inspect : string → ClaimControl → Fingerprints → result json).

Definition strict_text (lo hi : Z) (v : json) : option string :=
  match v with JStr s => if (lo <=? len s) && (len s <=? hi) then Some s else None | _ => None end.
Definition fingerprint (v : json) : option string :=
  match v with JStr s => if is_hex64 s then Some s else None | _ => None end.

(** [ObservationInput.model_validate] *)
Definition observation_input (v : json) : option ObservationInput :=
  match v with
  | JObj d =>
      if forallb (λ k, mem k ["origin"; "runner_id"; "plan_sha256"; "case_sha256"; "association_sha256"]) (keys d) then
        strict_text 1 500 (dget "origin" d) ≫= λ origin, uuid_of (dget "runner_id" d) ≫= λ runner,
        fingerprint (dget "plan_sha256" d) ≫= λ plan, fingerprint (dget "case_sha256" d) ≫= λ case,
        fingerprint (dget "association_sha256" d) ≫= λ association, Some (MkObservationInput origin runner plan case association)
      else None
  | _ => None
  end.

Definition check_headers (headers : list (string * string)) : option Z :=
  if negb (String.eqb (lower (before ";" (header "content-type" "" headers))) "application/json") then Some 415
  else if negb (String.eqb (lower (header "content-encoding" "identity" headers)) "identity") then Some 415
  else match lookup_key "content-length" headers with
       | None => None
       | Some length =>
           if negb (decimal length) then Some 422
           else if (6 <? len length) || (BODY_MAX_BYTES <? dec_value length) then Some 413 else None
       end.

Definition _payload (headers : list (string * string)) (arrivals : list arrival) : ObservationInput + failure :=
  match check_headers headers with
  | Some status => inr (Python (HTTPException status (DText "")))
  | None =>
      match read "" arrivals with
      | inr f => inr f
      | inl raw =>
          match parse float_of outside raw BODY_MAX_BYTES with
          | Raise e => inr (Python e)
          | Ok v => match observation_input v with Some body => inl body | None => inr ValidationError end
          end
      end
  end.

Definition _refused (status : Z) : response :=
  MkResponse status [("cache-control", "no-store")] (detail "managed_observation_refused").

Definition job_id_ok (s : string) : bool :=
  (1 <=? len s) && (len s <=? 128) && all_chars (λ c, alnum c || Ascii.eqb c "_" || Ascii.eqb c "-") s.

(** The outer handlers of [observe]. *)
Definition failed (f : failure) : response :=
  match f with
  | Python (HTTPException status _) => _refused status
  | Python (WireRefused _) | Python (IssuanceRefused _) => _refused 409
  | TimedOut => _refused 408
  | Disconnected => _refused 400
  | Python _ | ValidationError => _refused 503
  end.

(** [ClaimControl(origin=..., runner_id=...)] *)
Definition claim_control (body : ObservationInput) : ClaimControl + failure :=
  let control := MkClaimControl (oi_runner_id body) (oi_origin body) false None None in
  if valid_claim control then inl control else inr ValidationError.

Definition answer (reply : json) : result response :=
  let? text := canonical reply in
  Ok (if 16384 <? len text then _refused 503 else MkResponse 200 [("cache-control", "no-store")] reply).

Definition observe (scheme job_id : string) (headers : list (string * string)) (arrivals : list arrival) : response :=
  if negb (String.eqb scheme "https") then _refused 403
  else if negb (job_id_ok job_id) then _refused 422
  else
    match _payload headers arrivals with
    | inr (Python (WireRefused _)) | inr ValidationError => _refused 422
    | inr f => failed f
    | inl body =>
        match claim_control body with
        | inr f => failed f
        | inl control =>
            let fingerprints := MkFingerprints (oi_plan_sha256 body) (oi_case_sha256 body) (oi_association_sha256 body) in
            match (let? reply := inspect job_id control fingerprints in answer reply) with
            | Ok r => r
            | Raise e => failed (Python e)
            end
        end
    end.
End Observe.

(** ** Every response carries the headers *)

(** The value a client reads under a name. *)
Definition carries (k v : string) (r : response) : Prop := lookup_key k (rs_headers r) = Some v.

Lemma carries_set k v r : carries k v (set_header k v r).
Proof. apply lookup_dset_eq. Qed.
Lemma carries_other k v k' v' r : k ≠ k' → carries k v r → carries k v (set_header k' v' r).
Proof. intros Hne H. unfold carries, set_header. simpl. by rewrite lookup_dset_ne. Qed.

Ltac header_of := repeat (apply carries_set || (apply carries_other; [discriminate|])).

(** Whatever the middleware and the application do, an answer goes out, with
    the headers that forbid sniffing, framing and scripts; an exception is a
    500 that says nothing of it; a browser is pinned to HTTPS in production
    only, and nothing under [/auth/local/] is stored. *)
Theorem every_response_is_stamped production cors slowapi app request :
  let r := stack production cors slowapi app request in
  carries "x-content-type-options" "nosniff" r ∧ carries "x-frame-options" "DENY" r
  ∧ carries "content-security-policy" "default-src 'none'; frame-ancestors 'none'" r
  ∧ (production = true → carries "strict-transport-security" "max-age=63072000; includeSubDomains; preload" r)
  ∧ (startswith (rq_path request) "/auth/local/" = true → carries "cache-control" "no-store" r)
  ∧ ∀ e, cors (legacy_paths (slowapi app)) request = Raise e → rs_status r = 500 ∧ rs_body r = detail "Internal Server Error".
Proof.
  intros r. subst r. unfold stack, security_headers, stamped. set (inner := match cors _ request with Ok _ => _ | Raise _ => _ end).
  split_and!; [by repeat case_match; header_of..| | |].
  - intros ->. by case_match; header_of.
  - intros ->. apply carries_set.
  - intros e He. unfold inner. rewrite He. by repeat case_match.
Qed.

(** The retired paths are served once, as whole segments. *)
Theorem legacy_paths_rewritten_once path : rewritten (rewritten path) = rewritten path.
Proof. unfold rewritten at 2 3. destruct (_ || _) eqn:E; [reflexivity|]. unfold rewritten. by rewrite E. Qed.

(** A runner's key reaches the routers it needs and no other. *)
Lemma full_scope_routers user {A} (handler : result A) router : cu_scope user = "runner" →
  mem router ["imports"; "jobs"; "runner"; "proposals"; "services"; "local_auth"] = false → is_ok (routed router user handler) = false.
Proof.
  intros Hu Hr. unfold routed. destruct (lookup_key router routers) as [full|] eqn:E; [|done].
  assert (full = true) as ->; [|unfold require_full_scope; by rewrite Hu].
  unfold routers in E. simpl in E. simpl in Hr. repeat (case_match; simplify_eq; try done).
Qed.

(** ** Managed observations are answered or refused alike *)

Lemma read_spec arrivals : ∀ data raw, read data arrivals = inl raw → len data <= BODY_MAX_BYTES →
  len raw <= BODY_MAX_BYTES ∧ ∃ chunks, arrivals = map Chunk chunks ∧ raw = data +:+ join "" chunks.
Proof.
  induction arrivals as [|a arrivals IH]; intros data raw; simpl.
  - intros [= ->] H. split; [done|]. exists []. split; [done|]. simpl. by rewrite app_empty_r.
  - destruct a as [chunk| |]; [|done..]. destruct (Z.ltb_spec BODY_MAX_BYTES (len data + len chunk)) as [|Hle]; [done|].
    intros H _. apply IH in H as (Hr & chunks & -> & ->); [|by rewrite len_app]. split; [done|]. exists (chunk :: chunks). split; [done|].
    rewrite <-app_assoc_string. f_equal. destruct chunks; simpl; [by rewrite app_empty_r|done].
Qed.

(** C24. An observation is answered or refused, and every refusal says the same:
    whatever the request and whatever the service does, the adapter answers
    with the fixed refusal, or with what the service observed, and then the
    request came over HTTPS for a well-formed job id, its body arrived whole
    within 8192 bytes and named an origin a runner may claim from, and the
    answer is canonical within 16384. *)
Theorem observation_answers float_of outside uuid_of inspect scheme job_id headers arrivals :
  let r := observe float_of outside uuid_of inspect scheme job_id headers arrivals in
  r = _refused (rs_status r)
  ∨ ∃ chunks body control text,
      scheme = "https" ∧ job_id_ok job_id = true ∧ arrivals = map Chunk chunks ∧ len (join "" chunks) <= BODY_MAX_BYTES
      ∧ _payload float_of outside uuid_of headers arrivals = inl body ∧ claim_control body = inl control ∧ valid_claim control = true
      ∧ inspect job_id control (MkFingerprints (oi_plan_sha256 body) (oi_case_sha256 body) (oi_association_sha256 body)) = Ok (rs_body r)
      ∧ canonical (rs_body r) = Ok text ∧ len text <= 16384 ∧ rs_status r = 200.
Proof.
  intros r. subst r. unfold observe. destruct (String.eqb_spec scheme "https") as [->|]; [|by left]. simpl.
  destruct (job_id_ok job_id) eqn:Ej; [|by left]. simpl.
  assert (∀ f, failed f = _refused (rs_status (failed f))) as Hf by (intros [[]| | |]; done).
  destruct (_payload _ _ _ headers arrivals) as [body|f] eqn:Ep; [|left; by repeat case_match].
  destruct (claim_control body) as [control|f] eqn:Ec; [|by left].
  destruct (rbind _ _) as [a|e] eqn:Ea; [|left; exact (Hf (Python e))]. apply rbind_ok in Ea as (reply & Hi & Ha).
  unfold answer in Ha. apply rbind_ok in Ha as (text & Ht & [= <-]). destruct (Z.ltb_spec 16384 (len text)); [by left|]. right.
  assert (∃ chunks, arrivals = map Chunk chunks ∧ len (join "" chunks) <= BODY_MAX_BYTES) as (chunks & Harr & Hlen).
  { unfold _payload in Ep. destruct (check_headers headers); [done|]. destruct (read "" arrivals) as [raw|] eqn:Er; [|done].
    apply read_spec in Er as (Hl & chunks & Ha & ->); [by exists chunks|done]. }
  exists chunks, body, control, text. split_and!; try done. unfold claim_control in Ec.
  destruct (valid_claim _) eqn:Ev; [|done]. by injection Ec as <-.
Qed.
